(* ===== verification/_CoqProject ===== *)
-Q . S2P
Prelude.v
PyFloat.v
PyData.v
PyMath.v
PySha256.v
PyDifflib.v
PyTime.v
PyValue.v
PyIso.v
PyText.v
PyIsoText.v
PyJson.v
Models.v
CircuitBreaker.v
ShadowWarming.v
IndexStore.v
Interceptor.v
EventSchema.v
EventBus.v
GatewayEvents.v
GraphStore.v
Combination.v
HreMethods.v
HreEngine.v
Calibration.v
Config.v
Auth.v
RateLimit.v
Policy.v
Neo4jStore.v
Traversal.v
Processor.v
Owners.v
Pricing.v
Forecast.v
CostLedger.v
Interventions.v
Trac.v
Carbon.v
Benchmark.v
Equivalence.v
TokenBucket.v
Runtime.v
Settings.v
Notifications.v
Connectors.v
HttpLayer.v
IngestRoutes.v
InterceptRoute.v
ApiRoutes.v
Observability.v
ApiService.v
Demo.v
Lifecycle.v
