(* ===== verification/Prelude.v ===== *)
(** * AI Compute Intelligence: a verification development

    The program attributes the cost of AI inference to teams. Events arrive over HTTP
    ([api/app.py]) or from connectors ([ingestion/connectors]), go through an event bus
    ([core/event_bus.py]) to a processor ([core/processor.py]), which keeps an attribution
    graph ([graph/store.py]), reconciles evidence ([hre/]), calibrates confidence
    ([confidence/]) and materializes the result into an attribution index
    ([index/materializer.py]). On the request path a fail-open interceptor
    ([interceptor/gateway.py]) reads that index behind a circuit breaker, enriches, redirects
    or stops requests by mode and policy, schedules shadow refreshes and publishes audit events
    on the bus. Around them: policies, pricing, forecast, cost reconciliation, interventions,
    carbon, a federated benchmark, equivalence of models, notifications; and the runtime
    ([api/runtime.py]) that assembles, starts and stops them. Paths are relative to
    src/src/aci.

    ** Files

    A component has one file; it has a Record per state and one definition per method, named
    as in the source (a method that runs outside a lock in parts is given in those parts
    too). Operations that may raise return [res]; those that thread state through many calls
    are computations of the monad [SE].

    Python:
    - [Prelude]: exceptions ([exn], [res]), the state-exception monad [SE] with its
      weakest-precondition ([se_wp]) and invariant ([se_inv]) rules, Python's stable sort and
      [max], list lemmas, shared tactics.
    - [PyFloat]: binary64 with one rounding per operation; NaN, infinities, [round], and the
      order lemmas that bounds on scores rest on. [PyMath]: compensated [sum], square roots,
      exact means and deviations, nonnegative floats.
    - [PyData], [PyTime], [PyValue]: strings, insertion-ordered dictionaries, datetimes,
      dynamic values with their comparisons and text forms. [PyIso], [PyText], [PyIsoText]:
      [fromisoformat], and that ISO texts are read back and ordered as instants. [PyJson]:
      [json.loads], and that it reads back what [json.dumps] wrote.
    - [PySha256], [PyDifflib]: SHA-256; the similarity ratio of [difflib].
    - [Models]: the pydantic models of [models/] that the components exchange.

    The request path:
    - [CircuitBreaker] (interceptor/circuit_breaker.py): the breaker over an abstract store,
      with the local and the Redis store as instances and the degraded mode between them.
    - [ShadowWarming] (interceptor/shadow_warming.py): refresh deduplication as begin and end
      steps of interleaved tasks.
    - [IndexStore] (index/materializer.py): the bounded LRU index, its durable path with the
      Lua upsert, the materializer and the rebuild; [index_step] interleaves at lock
      boundaries.
    - [Interceptor] (interceptor/gateway.py): the pipeline over [gateway_state].
      [GatewayEvents]: its publisher interface met by the bus.

    The event path:
    - [EventSchema], [EventBus] (core/): strict payload schemas; the in-memory and the Kafka
      bus with idempotency, dispatch, dead letters and commits.
    - [GraphStore], [Neo4jStore] (graph/store.py): the in-memory graph, and the durable one
      with its Cypher statements translated clause by clause. [Traversal]: the search that
      both inherit, over an interface of its two reads.
    - [Combination], [HreMethods], [HreEngine] (hre/): the noisy-OR, methods R1 to R6, the
      engine with its cache. [Calibration] (confidence/calibration.py).
    - [Policy] (policy/engine.py), [Processor] (core/processor.py): the handlers that join
      graph, engine, calibration, policies and index. [Owners]: its mapping of a workload to
      an owner, over either graph store.
    - [Connectors] (ingestion/connectors): AWS, GitHub and Okta payloads to events.

    Costs and governance: [Pricing], [Forecast], [CostLedger] (finops/reconciliation.py),
    [Interventions], [Trac], [Carbon], [Benchmark], [Equivalence], [Notifications], each for
    the module of that name.

    The service:
    - [Config], [Settings] (config.py): the start-up validators, and what the application
      state builds its components from. [Runtime] (api/runtime.py): which components a role
      has. [Lifecycle]: start and stop, over the interface [RuntimeParts].
    - [Auth] (api/auth.py), [RateLimit], [TokenBucket] (api/runtime.py): the authentication
      decision, and the two ingestion limiters.
    - [HttpLayer], [IngestRoutes], [InterceptRoute], [ApiRoutes], [Observability]
      (api/app.py): the middleware, the routes, the reports. [ApiService]: the routes over one
      state. [Demo] (demo/seeder.py): the seed and the bootstrap over bus, processor and index.

    ** What the theorems show

    Breaker: the three-state invariant over any lawful store, the exact threshold, the probe
    budget and how half-open can stay stuck, and that during a Redis outage it refines an
    in-process breaker. Index: the invariant under any interleaving and any Redis behaviour,
    lookups after a materialization, LRU retention, rebuilds, the newest-version rule of the
    durable copy and two ways a newer result is lost. Warmer: one refresh per workload.
    Gateway: it always returns; redirects and stops only where active mode may act; exact
    counters, which the dashboard shows. Bus: it refines an accepted-history specification; a
    Kafka message always commits and is processed or dead-lettered. Schemas normalize.

    Graph: the index invariant over all histories, reads equal to scans, the traversal equal
    to the declarative attribution paths, each once and in order; and the durable backend
    refines the in-memory one: every as-of read and every search agree after any history,
    whatever server answers, a workload with one owner has the same one, and the stored form
    survives a server that fails. Reconciliation: bounds of every score for all floats,
    results or one of two exceptions from the engine, its cache bounded. Calibration stays in
    the unit interval, and raises exactly at a refit over a confidence that is not finite.
    Processor: every component keeps its invariant under any events; an owner in the graph
    reaches the index, with the delay that the cache causes.

    Costs: the pricing rule in force, totals and ranking; the ledger as the history of each
    request; the transitions of interventions; bounds and monotonicity of TRAC and carbon;
    budgets and bounds of the benchmark; verdicts of equivalence as the newest unexpired.

    Service: no request passes the middleware without the role and a validated token; the
    body limit against a reference run of the application; a batch publishes the events of
    its requests or nothing; each route's outcomes; a history of calls is, for each component,
    the sequence of its own operations; settings that the validators accept, within the bounds
    they leave open, give each component what its theorems assume; what a failed start or stop
    leaves behind; and the demo bootstrap runs to its end, through bus, processor, graph and
    index.

    ** Modelling choices

    Clocks, random numbers, fresh ids and the local time zone are arguments or streams read at
    successive ticks. A body under a lock is one step; between two [await]s a handler is one
    step, and [wait_for] around a coroutine that never suspends does not interrupt it.
    Code outside the repository is a class parameter, with named laws where the proofs
    need them, and a concrete instance in the witnesses: the Redis server and its Lua numbers
    ([RedisServer], [BucketServer], [LuaText], [LuaFloat]), the Neo4j server ([Neo4jServer]),
    the Kafka broker ([KafkaBroker]), pydantic's conversions ([StrictFields], [LaxFields],
    [EntryJson], [EventJson], [DateJson]), PyJWT ([JwtDecoder]), numpy, scipy and libm
    ([NumLib], [BenchLib], [ExpLib], [PowLib]), the network ([Network]), IP addresses
    ([AddressLib]), and the order in which a set of strings is enumerated ([SetOrder]).
    Interfaces between components are classes too: [CircuitStateStore], [EventPublisher],
    [AsyncIdempotencyStore], [IngestLimiter], [TraversalGraph], [RuntimeParts].
    Strings are of code points below 256; a float zero has no sign; [sum] of floats is that of
    Python 3.12; dates are read in the formats that [fromisoformat] documents. [to_utc] is total:
    a datetime within its zone's offset of the first or the last instant of the calendar, for
    which [astimezone] raises OverflowError, is converted like any other.

    ** Fuel

    [evict_loop] and [drop_oldest] run with the length of what they shrink (plus one);
    [_dfs] and [mixin_dfs] with [max_depth + 1] ([graph_traversal_terminates] and [dfs_walk]
    show that this is enough); [matches] with one more than the length of the first text
    ([matches_fuel]); [scan_value] with one more than the length of the JSON text, which
    [json_loads_dumps] shows to be enough for a written value; [str_replace_from] with the
    length of the text, every step consuming one character; [digest] with the number of words;
    the decimal conversions with the 17 significant digits and 400 exponent steps that
    binary64 needs. No other definition has fuel.

    ** Not modelled

    The libraries the program calls, beyond the laws above: FastAPI's validation of request
    bodies, its check of answers against the declared response models and their serialization, pydantic-settings reading the environment, the
    Prometheus exposition, CORS and compression, the clients of Redis, Kafka and Neo4j and the
    network below them. The processor runs over the in-memory graph, but for [Owners]. The front end, the
    deployment files and the scripts are not part of the verified program. *)

From Stdlib Require Import ZArith QArith Qround Qabs Lqa Lia Sorted.
From stdpp Require Import base list gmap strings.

(** ** Exceptions and results *)

(** The Python exceptions the modelled code raises or catches. *)
Inductive exn :=
| ValueError (msg : string)
| TypeError
| KeyError (key : string)
| ZeroDivisionError
| OverflowError
| RedisError
| EventSchemaValidationError
| PrivacyBudgetExhaustedError
| InvalidTokenError
| RuntimeError
| Neo4jError
| ServiceUnavailable
| OtherError.

#[export] Instance exn_eq_dec : EqDecision exn.
Proof. solve_decision. Defined.

(** The outcome of a call: a value or a raised exception. *)
Inductive res (A : Type) :=
| Ok (a : A)
| Raise (e : exn).
Arguments Ok {A} _.
Arguments Raise {A} _.

Declare Scope py_scope.
Delimit Scope py_scope with py.

Definition rbind {A B} (m : res A) (k : A → res B) : res B :=
  match m with Ok a => k a | Raise e => Raise e end.

Notation "'let?' x := m 'in' k" :=
  (rbind m (λ x, k)) (at level 10, x name, m at level 150, k at level 200) : py_scope.

Definition is_ok {A} (m : res A) : bool :=
  match m with Ok _ => true | Raise _ => false end.

(** Computations over a state that may raise; a raised exception keeps the changes made
    before it. *)
Definition SE (S A : Type) := S → res A * S.

Definition se_ret {S A} (a : A) : SE S A := λ s, (Ok a, s).
Definition se_raise {S A} (e : exn) : SE S A := λ s, (Raise e, s).
Definition se_bind {S A B} (m : SE S A) (k : A → SE S B) : SE S B := λ s,
  match m s with (Ok a, s') => k a s' | (Raise e, s') => (Raise e, s') end.
(** [try: m except Exception: h] *)
Definition se_catch {S A} (m : SE S A) (h : exn → SE S A) : SE S A := λ s,
  match m s with (Ok a, s') => (Ok a, s') | (Raise e, s') => h e s' end.
Definition se_get {S A} (f : S → A) : SE S A := λ s, (Ok (f s), s).
Definition se_modify {S} (f : S → S) : SE S unit := λ s, (Ok tt, f s).
Definition se_lift {S A} (m : res A) : SE S A := λ s, (m, s).

Notation "'let!' x := m 'in' k" :=
  (se_bind m (λ x, k)) (at level 10, x name, m at level 150, k at level 200) : py_scope.
Notation "m ';;;' k" :=
  (se_bind m (λ _, k)) (at level 100, right associativity) : py_scope.

(** What holds after a computation: [Q] of its result, or [E] of its exception. *)
Definition se_wp {S A} (m : SE S A) (Q : A → S → Prop) (E : exn → S → Prop) (s : S) : Prop :=
  match m s with (Ok a, s') => Q a s' | (Raise e, s') => E e s' end.

Section se_wp.
  Context {S : Type}.
  Implicit Types (s : S) (E : exn → S → Prop).

Lemma wp_ret {A} (a : A) Q E s : Q a s → se_wp (se_ret a) Q E s.
  Proof. done. Qed.

Lemma wp_bind {A B} (m : SE S A) (k : A → SE S B) Q E s :
    se_wp m (λ a, se_wp (k a) Q E) E s → se_wp (se_bind m k) Q E s.
  Proof. unfold se_wp, se_bind. by destruct (m s) as [[a|e] s']. Qed.

Lemma wp_modify (f : S → S) (Q : unit → S → Prop) E s : Q tt (f s) → se_wp (se_modify f) Q E s.
  Proof. done. Qed.

Lemma wp_lift {A} (m : res A) (Q : A → S → Prop) E s :
    (∀ a, m = Ok a → Q a s) → (∀ e, m = Raise e → E e s) → se_wp (se_lift m) Q E s.
  Proof. unfold se_wp, se_lift. destruct m; auto. Qed.

Lemma wp_mono {A} (m : SE S A) (Q Q' : A → S → Prop) E E' s :
    se_wp m Q E s → (∀ a s', Q a s' → Q' a s') → (∀ e s', E e s' → E' e s') → se_wp m Q' E' s.
  Proof. unfold se_wp. destruct (m s) as [[a|e] s']; auto. Qed.

Lemma wp_catch {A} (m : SE S A) (h : exn → SE S A) Q E s :
    se_wp m Q (λ e, se_wp (h e) Q E) s → se_wp (se_catch m h) Q E s.
  Proof. unfold se_wp, se_catch. by destruct (m s) as [[a|e] s']. Qed.

Lemma se_bind_ok {A B} (m : SE S A) (k : A → SE S B) s a s' :
    m s = (Ok a, s') → se_bind m k s = k a s'.
  Proof. unfold se_bind. by intros ->. Qed.

Lemma wp_result {A} (m : SE S A) Q E s a s' : m s = (Ok a, s') → se_wp m Q E s → Q a s'.
  Proof. unfold se_wp. by intros ->. Qed.

Lemma wp_total {A} (m : SE S A) Q s :
    se_wp m Q (λ _ _, False) s → ∃ a s', m s = (Ok a, s') ∧ Q a s'.
  Proof. unfold se_wp. destruct (m s) as [[a|e] s']; [eauto|done]. Qed.
End se_wp.

(** An invariant kept by a computation, whether it returns or raises. *)
Definition se_inv {S A} (P : S → Prop) (m : SE S A) : Prop := ∀ s, P s → P (m s).2.

Section se_inv.
  Context {S : Type} (P : S → Prop).

Lemma inv_ret {A} (a : A) : se_inv P (se_ret a).
  Proof. by intros s. Qed.

Lemma inv_lift {A} (m : res A) : se_inv P (se_lift m).
  Proof. by intros s. Qed.

Lemma inv_modify (f : S → S) : (∀ s, P s → P (f s)) → se_inv P (se_modify f).
  Proof. intros Hf s. apply Hf. Qed.

Lemma inv_bind {A B} (m : SE S A) (k : A → SE S B) :
    se_inv P m → (∀ a, se_inv P (k a)) → se_inv P (se_bind m k).
  Proof.
    intros Hm Hk s Hs. specialize (Hm s Hs). unfold se_bind.
    destruct (m s) as [[a|e] s']; [by apply Hk|done].
  Qed.

Lemma inv_catch {A} (m : SE S A) (h : exn → SE S A) :
    se_inv P m → (∀ e, se_inv P (h e)) → se_inv P (se_catch m h).
  Proof.
    intros Hm Hh s Hs. specialize (Hm s Hs). unfold se_catch.
    destruct (m s) as [[a|e] s']; [done|by apply Hh].
  Qed.
End se_inv.

(** ** Shared tactics *)

(** Split the conditionals and matches of the goal, clearing the easy cases. *)
Ltac case_all :=
  repeat (case_match || case_decide); simplify_eq/=.

(** Turn boolean connectives in hypotheses into propositional ones. *)
Ltac bool_hyps :=
  repeat match goal with
  | H : _ && _ = true |- _ => apply andb_prop in H; destruct H
  | H : _ || _ = false |- _ => apply orb_false_elim in H; destruct H
  | H : negb _ = true |- _ => apply negb_true_iff in H
  | H : negb _ = false |- _ => apply negb_false_iff in H
  | H : bool_decide _ = true |- _ => apply bool_decide_eq_true_1 in H
  | H : bool_decide _ = false |- _ => apply bool_decide_eq_false_1 in H
  end.

(** ** List lemmas shared by the components *)

(** [l[-n:]] for [n > 0]: the last [n] elements. *)
Definition list_last_n {A} (n : nat) (l : list A) : list A := drop (length l - n) l.

Lemma list_last_n_length {A} n (l : list A) : length (list_last_n n l) = n `min` length l.
Proof. unfold list_last_n. rewrite length_drop. lia. Qed.

Lemma list_last_n_sublist {A} n (l : list A) : list_last_n n l `sublist_of` l.
Proof. apply sublist_drop. Qed.

Lemma list_last_n_all {A} n (l : list A) : length l ≤ n → list_last_n n l = l.
Proof. intros H. unfold list_last_n. by replace (length l - n) with 0 by lia. Qed.

Lemma list_last_n_snoc {A} n (l : list A) x :
  list_last_n n (l ++ [x]) =
  if decide (n < S (length (list_last_n n l)))
  then tail (list_last_n n l ++ [x]) else list_last_n n l ++ [x].
Proof.
  rewrite list_last_n_length. unfold list_last_n. rewrite length_app; simpl.
  case_decide as Hn.
  - replace (length l + 1 - n) with (S (length l - n)) by lia.
    rewrite <- drop_app_le by lia. generalize (length l - n) as k. generalize (l ++ [x]) as m.
    intros m. induction m as [|y m IH]; intros [|k]; simpl; done.
  - replace (length l + 1 - n) with 0 by lia. replace (length l - n) with 0 by lia. done.
Qed.

(** A bounded queue that appends forgets only what the bound forgets. *)
Lemma list_last_n_app {A} n (l : list A) x :
  list_last_n n (list_last_n n l ++ [x]) = list_last_n n (l ++ [x]).
Proof.
  unfold list_last_n. rewrite <- drop_app_le by lia. rewrite drop_drop. f_equal.
  rewrite length_drop, length_app; simpl. lia.
Qed.

Lemma list_filter_id {A} (P : A → Prop) `{∀ x, Decision (P x)} (l : list A) :
  (∀ x, x ∈ l → P x) → filter P l = l.
Proof.
  induction l as [|x l IH]; intros HP; [done|]. rewrite filter_cons, decide_True by (apply HP; left).
  rewrite IH; [done|]. intros y Hy. apply HP. by right.
Qed.

Lemma list_filter_ext_in {A} (P Q : A → Prop) `{∀ x, Decision (P x)} `{∀ x, Decision (Q x)} (l : list A) :
  (∀ x, x ∈ l → P x ↔ Q x) → filter P l = filter Q l.
Proof.
  induction l as [|x l IH]; intros HPQ; [done|]. rewrite !filter_cons, IH by (intros; apply HPQ; by right).
  destruct (decide (P x)) as [Hp|Hp]; destruct (decide (Q x)) as [Hq|Hq]; try done;
    [destruct Hq|destruct Hp]; by (apply HPQ; [left|]).
Qed.

Lemma list_filter_and {A} (P Q : A → Prop) `{∀ x, Decision (P x)} `{∀ x, Decision (Q x)} (l : list A) :
  filter P (filter Q l) = filter (λ x, Q x ∧ P x) l.
Proof.
  induction l as [|x l IH]; [done|]. rewrite !filter_cons.
  destruct (decide (Q x)) as [Hq|Hq]; [rewrite filter_cons; destruct (decide (P x)) as [Hp|Hp]|].
  - rewrite decide_True by done. by rewrite IH.
  - rewrite decide_False by tauto. done.
  - rewrite decide_False by tauto. done.
Qed.

(** Python's [max(l, key=f)]: the first element whose key no later one exceeds. *)
Section argmax.
  Context {A : Type} (gtb : A → A → bool).

Fixpoint argmax_from (best : A) (l : list A) : A :=
    match l with
    | [] => best
    | x :: l' => argmax_from (if gtb x best then x else best) l'
    end.

Definition argmax (l : list A) : option A :=
    match l with [] => None | x :: l' => Some (argmax_from x l') end.

Lemma argmax_from_in best l : argmax_from best l ∈ best :: l.
  Proof.
    revert best; induction l as [|x l IH]; intros best; simpl; [set_solver|].
    specialize (IH (if gtb x best then x else best)). destruct (gtb x best); set_solver.
  Qed.

Lemma argmax_in l x : argmax l = Some x → x ∈ l.
  Proof. destruct l; simpl; [done|]. intros [= <-]. apply argmax_from_in. Qed.

Lemma argmax_is_Some l : l ≠ [] → is_Some (argmax l).
  Proof. destruct l; [done|]. intros _. by eexists. Qed.

  (** When "not greater than" is a preorder on the elements, the choice is maximal. *)
Lemma argmax_from_maximal (P : A → Prop) best l :
    (∀ x, P x → gtb x x = false) →
    (∀ x y z, P x → P y → P z → gtb x y = false → gtb y z = false → gtb x z = false) →
    (∀ x y, P x → P y → gtb x y = true → gtb y x = false) →
    P best → Forall P l →
    ∀ y, y ∈ best :: l → gtb y (argmax_from best l) = false.
  Proof.
    intros Hrefl Htrans Hasym. revert best.
    induction l as [|x l IH]; intros best Hb Hl y Hy; simpl.
    - apply list_elem_of_singleton in Hy as ->. by apply Hrefl.
    - apply Forall_cons in Hl as [Hx Hl].
      set (b' := if gtb x best then x else best).
      assert (P b') as Hb' by (subst b'; destruct (gtb x best); done).
      assert (P (argmax_from b' l)) as Hres.
      { assert (Forall P (b' :: l)) as HF by (constructor; done).
        rewrite Forall_forall in HF. apply HF, argmax_from_in. }
      pose proof (IH b' Hb' Hl) as Hmax.
      assert (gtb b' (argmax_from b' l) = false) as Hbm by (apply Hmax; set_solver).
      apply elem_of_cons in Hy as [->|Hy].
      + destruct (gtb x best) eqn:E; subst b'; [|done].
        eapply (Htrans best x); eauto.
      + apply elem_of_cons in Hy as [->|Hy]; [|apply Hmax; set_solver].
        destruct (gtb x best) eqn:E; subst b'; [done|].
        eapply (Htrans x best); eauto.
  Qed.
End argmax.

(** With an integer key, the choice is the first element of the greatest key. *)
Section argmax_key.
  Context {A : Type} (key : A → Z).

Abbreviation by_key := (λ a b, (key b <? key a)%Z).

Lemma argmax_from_key best l :
    let r := argmax_from by_key best l in
    head (filter (λ x, key x = key r) (best :: l)) = Some r ∧ Forall (λ x, (key x <= key r)%Z) (best :: l).
  Proof.
    revert best; induction l as [|x l IH]; intros best; cbn [argmax_from].
    { split; [by rewrite filter_cons_True|]. by repeat constructor. }
    destruct (Z.ltb_spec (key best) (key x)) as [Hlt|Hge].
    - destruct (IH x) as [IH1 IH2]. set (r := argmax_from by_key x l) in *.
      apply Forall_cons in IH2 as [Hx Hl]. split; [|repeat constructor; lia || done].
      rewrite filter_cons_False by lia. done.
    - destruct (IH best) as [IH1 IH2]. set (r := argmax_from by_key best l) in *.
      apply Forall_cons in IH2 as [Hb Hl]. split; [|repeat constructor; lia || done].
      rewrite filter_cons in IH1 |- *. destruct (decide (key best = key r)); [done|].
      rewrite filter_cons_False by lia. done.
  Qed.

Lemma argmax_key_spec l r :
    argmax by_key l = Some r ↔
    head (filter (λ x, key x = key r) l) = Some r ∧ Forall (λ x, (key x <= key r)%Z) l.
  Proof.
    destruct l as [|x l]; [by split; [|intros []]|]. cbn [argmax].
    pose proof (argmax_from_key x l) as [H1 H2]. set (r' := argmax_from by_key x l) in *.
    split; [by intros [= <-]|]. intros [Hh Hle]. f_equal.
    assert (r ∈ x :: l) as Hr.
    { apply head_Some in Hh as [l' E]. eapply list_elem_of_filter. rewrite E. by left. }
    assert (r' ∈ x :: l) as Hr' by apply argmax_from_in.
    rewrite Forall_forall in H2, Hle. pose proof (H2 _ Hr). pose proof (Hle _ Hr').
    assert (key r' = key r) as Ek by lia. rewrite Ek in H1. congruence.
  Qed.
End argmax_key.

(** Python's stable [sorted(l, key=..., reverse=True)] and [sorted(l, key=...)]:
    insertion keeping equal elements in their order. [before x y] says that
    [x] must precede [y]. *)
Section stable_sort.
  Context {A : Type} (before : A → A → bool).

Fixpoint sort_insert (x : A) (l : list A) : list A :=
    match l with
    | [] => [x]
    | y :: l' => if before y x then y :: sort_insert x l' else x :: l
    end.

Fixpoint stable_sort (l : list A) : list A :=
    match l with
    | [] => []
    | x :: l' => sort_insert x (stable_sort l')
    end.

Lemma sort_insert_perm x l : sort_insert x l ≡ₚ x :: l.
  Proof.
    induction l as [|y l IH]; simpl; [done|].
    destruct (before y x); [|done]. by rewrite IH, Permutation_swap.
  Qed.

Lemma stable_sort_perm l : stable_sort l ≡ₚ l.
  Proof. induction l as [|x l IH]; simpl; [done|]. by rewrite sort_insert_perm, IH. Qed.

Lemma stable_sort_length l : length (stable_sort l) = length l.
  Proof. by rewrite stable_sort_perm. Qed.

  (** Sortedness, for a strict order total up to the negation of [before]. *)
Lemma sort_insert_sorted (P : A → Prop) x l :
    (∀ x y, P x → P y → before x y = true → before y x = false) →
    P x → Forall P l →
    Sorted (λ a b, before b a = false) l → Sorted (λ a b, before b a = false) (sort_insert x l).
  Proof.
    intros Hasym Hx Hl Hs. induction Hs as [|y l Hs IH Hhd]; simpl; [by repeat constructor|].
    apply Forall_cons in Hl as [Hy Hl].
    destruct (before y x) eqn:E; [|by repeat constructor].
    constructor; [by apply IH|].
    destruct l as [|z l]; simpl.
    - constructor. by apply Hasym.
    - destruct (before z x); constructor; [by inversion Hhd|by apply Hasym].
  Qed.

Lemma stable_sort_sorted (P : A → Prop) l :
    (∀ x y, P x → P y → before x y = true → before y x = false) →
    Forall P l → Sorted (λ a b, before b a = false) (stable_sort l).
  Proof.
    intros Hasym Hl. induction Hl as [|x l Hx Hl IH]; simpl; [constructor|].
    apply (sort_insert_sorted P); auto. by rewrite stable_sort_perm.
  Qed.

  (** Elements that need not precede each other keep their order. *)
Lemma sort_insert_filter (P : A → Prop) `{∀ x, Decision (P x)} x l :
    (∀ a b, P a → P b → before a b = false) →
    filter P (sort_insert x l) = filter P (x :: l).
  Proof.
    intros Hp. induction l as [|y l IH]; [done|]. cbn [sort_insert].
    destruct (before y x) eqn:E; [|done].
    rewrite !filter_cons, IH, filter_cons.
    destruct (decide (P y)), (decide (P x)); try done. by rewrite Hp in E.
  Qed.

Lemma stable_sort_filter (P : A → Prop) `{∀ x, Decision (P x)} l :
    (∀ a b, P a → P b → before a b = false) → filter P (stable_sort l) = filter P l.
  Proof.
    intros Hp. induction l as [|x l IH]; [done|]. cbn [stable_sort].
    rewrite sort_insert_filter, !filter_cons, IH by done. done.
  Qed.
End stable_sort.

(** ** Hint databases *)

(** Bounds of floating-point operations. *)
Create HintDb pyfloat discriminated.
(** Invariants of ordered dictionaries. *)
Create HintDb odict discriminated.
