(* ===== verification/PyFloat.v ===== *)
(** * Python floats: IEEE 754 binary64 with round-to-nearest-even

    A finite float is the rational number it denotes; every operation computes
    the exact rational result and rounds it once to the binary64 grid
    ([of_Q]), as the IEEE 754 operations behind Python's [float] do. Infinities
    and NaN are kept apart; the sign of a zero is not represented (no Python
    comparison observes it, and division by either zero raises). The file proves
    that rounding is monotone and idempotent, which is what bounds on computed
    scores rest on. *)

From S2P Require Import Prelude.
From Stdlib Require Import ZArith QArith Qround Qabs Lqa Lia Qpower.
From stdpp Require Import base list strings.

Open Scope Q_scope.

(** ** Powers of two *)

Definition pow2 (e : Z) : Q := (2#1) ^ e.

Lemma pow2_pos e : 0 < pow2 e.
Proof. apply Qpower_0_lt. reflexivity. Qed.

Lemma pow2_add a b : pow2 (a + b) == pow2 a * pow2 b.
Proof. apply Qpower_plus. discriminate. Qed.

Lemma pow2_split a b c : c = (a + b)%Z → pow2 c == pow2 a * pow2 b.
Proof. intros ->. apply pow2_add. Qed.

Lemma pow2_inv a : pow2 a * pow2 (- a) == 1.
Proof. rewrite <- pow2_add. replace (a + - a)%Z with 0%Z by lia. reflexivity. Qed.

Lemma pow2_Z e : (0 <= e)%Z → pow2 e == inject_Z (2 ^ e).
Proof. intros. unfold pow2. rewrite Zpower_Qpower by lia. reflexivity. Qed.

Lemma pow2_le a b : (a <= b)%Z → pow2 a <= pow2 b.
Proof.
  intros H. replace b with (a + (b - a))%Z by lia. rewrite pow2_add.
  assert (1 <= pow2 (b - a)) as H1.
  { rewrite pow2_Z by lia. rewrite <- (Zle_Qle 1). pose proof (Z.pow_pos_nonneg 2 (b - a)). lia. }
  pose proof (pow2_pos a). nra.
Qed.

Lemma pow2_lt_inv a b : pow2 a < pow2 b → (a < b)%Z.
Proof.
  intros H. destruct (Z.lt_ge_cases a b) as [|Hge]; [done|].
  apply pow2_le in Hge. lra.
Qed.

(** ** Rounding a rational to an integer, ties to even *)

Definition rhe (q : Q) : Z :=
  let f := Qfloor q in
  match Qcompare (q - inject_Z f) (1#2) with
  | Lt => f
  | Gt => (f + 1)%Z
  | Eq => if Z.even f then f else (f + 1)%Z
  end.

#[export] Instance rhe_proper : Proper (Qeq ==> eq) rhe.
Proof. intros a b H. unfold rhe. rewrite (Qfloor_comp _ _ H), H. done. Qed.

Lemma rhe_bounds q : (Qfloor q <= rhe q <= Qfloor q + 1)%Z.
Proof. unfold rhe. destruct (_ ?= _); [destruct (Z.even _)| |]; lia. Qed.

Lemma rhe_mono p q : p <= q → (rhe p <= rhe q)%Z.
Proof.
  intros H. pose proof (Qfloor_resp_le _ _ H) as Hf.
  pose proof (rhe_bounds p). pose proof (rhe_bounds q).
  destruct (Z.eq_dec (Qfloor p) (Qfloor q)) as [E|]; [|lia].
  unfold rhe. rewrite E.
  destruct (Qcompare_spec (p - inject_Z (Qfloor q)) (1#2));
    destruct (Qcompare_spec (q - inject_Z (Qfloor q)) (1#2));
    destruct (Z.even (Qfloor q)); try lia; lra.
Qed.

Lemma rhe_inject z : rhe (inject_Z z) = z.
Proof.
  unfold rhe. rewrite Qfloor_Z.
  destruct (Qcompare_spec (inject_Z z - inject_Z z) (1#2)) as [H|H|H]; lra || done.
Qed.

Lemma rhe_nonneg q : 0 <= q → (0 <= rhe q)%Z.
Proof. intros H. pose proof (rhe_mono (inject_Z 0) q H) as Hm. by rewrite rhe_inject in Hm. Qed.

(** ** Position of the leading bit *)

Definition flog2 (q : Q) : Z :=
  let e := (Z.log2 (Qnum q) - Z.log2 (Zpos (Qden q)))%Z in
  if Qle_bool (pow2 e) q then e else (e - 1)%Z.

Lemma flog2_spec q : 0 < q → pow2 (flog2 q) <= q < pow2 (flog2 q + 1).
Proof.
  intros Hq. destruct q as [n d]. unfold flog2. cbn [Qnum Qden].
  assert (0 < n)%Z as Hn by (unfold Qlt in Hq; simpl in Hq; lia).
  pose proof (Z.log2_spec n Hn) as [Hn1 Hn2].
  pose proof (Z.log2_spec (Zpos d) eq_refl) as [Hd1 Hd2].
  set (a := Z.log2 n) in *. set (b := Z.log2 (Zpos d)) in *.
  assert (0 <= a)%Z by apply Z.log2_nonneg. assert (0 <= b)%Z by apply Z.log2_nonneg.
  assert (n # d == inject_Z n / inject_Z (Zpos d)) as Hnd by (rewrite Qmake_Qdiv; reflexivity).
  assert (inject_Z n == (n # d) * inject_Z (Zpos d)) as Hmul
    by (rewrite Hnd; field; discriminate).
  assert (0 < inject_Z (Zpos d)) as Hdpos by reflexivity.
  assert (pow2 a <= inject_Z n) by (rewrite pow2_Z by lia; rewrite <- Zle_Qle; done).
  assert (inject_Z n < pow2 (a + 1)) by (rewrite pow2_Z by lia; rewrite <- Zlt_Qlt; by rewrite <- Z.add_1_r in Hn2).
  assert (pow2 b <= inject_Z (Zpos d)) by (rewrite pow2_Z by lia; rewrite <- Zle_Qle; done).
  assert (inject_Z (Zpos d) < pow2 (b + 1)) by (rewrite pow2_Z by lia; rewrite <- Zlt_Qlt; by rewrite <- Z.add_1_r in Hd2).
  assert (pow2 (a - b - 1) < n # d) as Hlo.
  { assert (pow2 a == pow2 (a - b - 1) * pow2 (b + 1)) as E
      by (apply pow2_split; lia).
    pose proof (pow2_pos (a - b - 1)). nra. }
  assert (n # d < pow2 (a - b + 1)) as Hhi.
  { assert (pow2 (a + 1) == pow2 (a - b + 1) * pow2 b) as E
      by (apply pow2_split; lia).
    pose proof (pow2_pos (a - b + 1)). nra. }
  destruct (Qle_bool (pow2 (a - b)) (n # d)) eqn:E.
  - apply Qle_bool_iff in E. split; [exact E|lra].
  - assert (n # d < pow2 (a - b)) by (apply Qnot_le_lt; rewrite <- Qle_bool_iff; congruence).
    replace (a - b - 1 + 1)%Z with (a - b)%Z by lia. split; [lra|assumption].
Qed.

Lemma flog2_mono p q : 0 < p → p <= q → (flog2 p <= flog2 q)%Z.
Proof.
  intros Hp Hpq. destruct (flog2_spec p Hp) as [Hp1 _].
  destruct (flog2_spec q) as [_ Hq2]; [lra|].
  assert (flog2 p < flog2 q + 1)%Z by (apply pow2_lt_inv; lra). lia.
Qed.

Lemma flog2_unique q k : pow2 k <= q < pow2 (k + 1) → flog2 q = k.
Proof.
  intros [H1 H2]. pose proof (pow2_pos k).
  destruct (flog2_spec q) as [H3 H4]; [lra|].
  assert (flog2 q < k + 1)%Z by (apply pow2_lt_inv; lra).
  assert (k < flog2 q + 1)%Z by (apply pow2_lt_inv; lra). lia.
Qed.

Lemma flog2_comp p q : 0 < p → p == q → flog2 p = flog2 q.
Proof. intros Hp E. symmetry. apply flog2_unique. rewrite <- E. by apply flog2_spec. Qed.

(** ** Rounding to the binary64 grid *)

(** Exponent of the unit in the last place: 53 bits of precision, and never
    below the subnormal exponent. *)
Definition fexp (q : Q) : Z := Z.max (flog2 q - 52) (-1074).

Definition rnd_at (e : Z) (q : Q) : Q := inject_Z (rhe (q * pow2 (- e))) * pow2 e.

Definition rnd_pos (q : Q) : Q := if Qle_bool q 0 then 0 else Qred (rnd_at (fexp q) q).

Lemma rnd_at_mono e p q : p <= q → rnd_at e p <= rnd_at e q.
Proof.
  intros H. unfold rnd_at. pose proof (pow2_pos e). pose proof (pow2_pos (- e)).
  assert (p * pow2 (- e) <= q * pow2 (- e)) as Hle by nra.
  apply rhe_mono in Hle. rewrite Zle_Qle in Hle. nra.
Qed.

(** A multiple of the unit in the last place is not changed. *)
Lemma rnd_at_exact e m k : (e <= k)%Z → rnd_at e (inject_Z m * pow2 k) == inject_Z m * pow2 k.
Proof.
  intros H. unfold rnd_at.
  assert (inject_Z m * pow2 k * pow2 (- e) == inject_Z (m * 2 ^ (k - e))) as E.
  { rewrite inject_Z_mult, <- (pow2_Z (k - e)) by lia.
    rewrite (pow2_split k (- e) (k - e)) by lia. ring. }
  rewrite E, rhe_inject, inject_Z_mult, <- (pow2_Z (k - e)) by lia.
  rewrite (pow2_split (k - e) e k) by lia. ring.
Qed.

#[export] Instance rnd_at_proper e : Proper (Qeq ==> Qeq) (rnd_at e).
Proof. intros p q H. unfold rnd_at. by rewrite H. Qed.

Lemma rnd_at_pow2 e k : (e <= k)%Z → rnd_at e (pow2 k) == pow2 k.
Proof.
  intros H. assert (pow2 k == inject_Z 1 * pow2 k) as E by ring.
  rewrite E. by apply rnd_at_exact.
Qed.

Lemma rnd_at_nonneg e q : 0 <= q → 0 <= rnd_at e q.
Proof.
  intros H. unfold rnd_at. pose proof (pow2_pos e). pose proof (pow2_pos (- e)).
  assert (0 <= q * pow2 (- e)) as Hq by nra. apply rhe_nonneg in Hq.
  rewrite Zle_Qle in Hq. change (inject_Z 0) with 0 in Hq. nra.
Qed.

Lemma Qle_bool_false p q : Qle_bool p q = false ↔ q < p.
Proof.
  rewrite <- not_true_iff_false, Qle_bool_iff. split; [apply Qnot_le_lt|apply Qlt_not_le].
Qed.

Lemma rnd_pos_nonneg q : 0 <= rnd_pos q.
Proof.
  unfold rnd_pos. destruct (Qle_bool q 0) eqn:E; [lra|].
  apply Qle_bool_false in E. rewrite Qred_correct. apply rnd_at_nonneg. lra.
Qed.

(** Rounding is monotone: the heart of every bound on computed values. *)
Lemma rnd_pos_mono p q : p <= q → rnd_pos p <= rnd_pos q.
Proof.
  intros H. unfold rnd_pos at 1. destruct (Qle_bool p 0) eqn:Ep; [apply rnd_pos_nonneg|].
  unfold rnd_pos. apply Qle_bool_false in Ep.
  destruct (Qle_bool q 0) eqn:Eq; [apply Qle_bool_iff in Eq; lra|].
  rewrite !Qred_correct. clear Eq.
  pose proof (flog2_mono p q Ep H) as Hlog.
  destruct (Z.eq_dec (fexp p) (fexp q)) as [E|Hne]; [rewrite E; by apply rnd_at_mono|].
  assert (fexp p < fexp q)%Z by (unfold fexp in *; lia).
  assert (fexp q = flog2 q - 52 ∧ flog2 p + 1 <= flog2 q)%Z as [Eq Hlt] by (unfold fexp in *; lia).
  destruct (flog2_spec p Ep) as [_ Hp2]. destruct (flog2_spec q) as [Hq1 _]; [lra|].
  apply (Qle_trans _ (pow2 (flog2 q))).
  - rewrite <- (rnd_at_pow2 (fexp p) (flog2 q)) by lia. apply rnd_at_mono.
    pose proof (pow2_le _ _ Hlt). lra.
  - rewrite <- (rnd_at_pow2 (fexp q) (flog2 q)) at 1 by lia. by apply rnd_at_mono.
Qed.

#[export] Instance rnd_pos_proper : Proper (Qeq ==> Qeq) rnd_pos.
Proof. intros p q H. apply Qle_antisym; apply rnd_pos_mono; rewrite H; apply Qle_refl. Qed.

Lemma rnd_pos_zero q : q <= 0 → rnd_pos q = 0.
Proof. intros H. unfold rnd_pos. by rewrite (proj2 (Qle_bool_iff _ _) H). Qed.

(** Numbers with at most 53 significant bits are represented exactly. *)
Lemma rnd_pos_exact m k :
  (0 <= m <= 2 ^ 53)%Z → (-1074 <= k)%Z → rnd_pos (inject_Z m * pow2 k) == inject_Z m * pow2 k.
Proof.
  intros Hm Hk. pose proof (pow2_pos k) as Hp.
  destruct (Z.eq_dec m 0%Z) as [->|Hm0].
  { rewrite rnd_pos_zero; change (inject_Z 0) with 0; [ring|lra]. }
  assert (0 < inject_Z m) as Hmpos by (rewrite <- (Zlt_Qlt 0); lia).
  assert (0 < inject_Z m * pow2 k) as Hpos by nra.
  unfold rnd_pos. destruct (Qle_bool _ 0) eqn:E; [apply Qle_bool_iff in E; lra|].
  rewrite Qred_correct.
  destruct (Z.log2_spec m ltac:(lia)) as [Hl1 Hl2].
  assert (flog2 (inject_Z m * pow2 k) = Z.log2 m + k)%Z as Hf.
  { apply flog2_unique. pose proof (Z.log2_nonneg m).
    rewrite (pow2_split (Z.log2 m) k (Z.log2 m + k)) by lia.
    rewrite (pow2_split (Z.succ (Z.log2 m)) k (Z.log2 m + k + 1)) by lia.
    rewrite (pow2_Z (Z.log2 m)), (pow2_Z (Z.succ _)) by lia. rewrite Zle_Qle in Hl1. rewrite Zlt_Qlt in Hl2.
    split; [apply Qmult_le_compat_r; lra|apply Qmult_lt_r; lra]. }
  destruct (Z.eq_dec m (2 ^ 53)%Z) as [->|Hne].
  - assert (inject_Z (2 ^ 53) * pow2 k == pow2 (53 + k)) as Ek
      by (rewrite pow2_add, (pow2_Z 53) by lia; reflexivity).
    assert (fexp (inject_Z (2 ^ 53) * pow2 k) <= 53 + k)%Z as Hfe
      by (unfold fexp; rewrite Hf; change (Z.log2 (2 ^ 53)) with 53%Z; lia).
    revert Hfe. generalize (fexp (inject_Z (2 ^ 53) * pow2 k)). intros e He.
    rewrite Ek. by apply rnd_at_pow2.
  - apply rnd_at_exact. unfold fexp. rewrite Hf.
    assert (Z.log2 m < 53)%Z by (apply Z.log2_lt_pow2; lia). lia.
Qed.

(** The result of a rounding is a fixpoint of rounding. *)
Lemma rnd_pos_form q :
  0 < q → ∃ m k, (0 <= m <= 2 ^ 53)%Z ∧ (-1074 <= k)%Z ∧ rnd_pos q == inject_Z m * pow2 k.
Proof.
  intros Hq. unfold rnd_pos. destruct (Qle_bool q 0) eqn:E; [apply Qle_bool_iff in E; lra|].
  exists (rhe (q * pow2 (- fexp q))), (fexp q). split_and!.
  - apply rhe_nonneg. pose proof (pow2_pos (- fexp q)). nra.
  - rewrite <- (rhe_inject (2 ^ 53)). apply rhe_mono. rewrite <- pow2_Z by lia.
    destruct (flog2_spec q Hq) as [_ H2].
    assert (pow2 (flog2 q + 1) <= pow2 (53 + fexp q)) as H3 by (apply pow2_le; unfold fexp; lia).
    rewrite (pow2_add 53) in H3. pose proof (pow2_inv (fexp q)) as Hi.
    pose proof (pow2_pos (fexp q)). pose proof (pow2_pos (- fexp q)).
    assert (q * pow2 (- fexp q) <= pow2 53 * pow2 (fexp q) * pow2 (- fexp q)) as H4
      by (apply Qmult_le_compat_r; lra).
    rewrite <- Qmult_assoc, Hi, Qmult_1_r in H4. done.
  - unfold fexp. lia.
  - rewrite Qred_correct. reflexivity.
Qed.

Lemma rnd_pos_idem q : rnd_pos (rnd_pos q) == rnd_pos q.
Proof.
  destruct (Qlt_le_dec 0 q) as [Hq|Hq].
  - destruct (rnd_pos_form q Hq) as (m & k & Hm & Hk & E). rewrite E at 1.
    rewrite rnd_pos_exact by done. by rewrite E.
  - rewrite (rnd_pos_zero q Hq). by rewrite rnd_pos_zero.
Qed.

Lemma rnd_pos_Qred q : Qred (rnd_pos q) = rnd_pos q.
Proof.
  unfold rnd_pos. destruct (Qle_bool q 0); [done|]. apply Qred_complete, Qred_correct.
Qed.

Lemma rnd_pos_eq p q : rnd_pos p == rnd_pos q → rnd_pos p = rnd_pos q.
Proof.
  intros E. rewrite <- (rnd_pos_Qred p), <- (rnd_pos_Qred q). by apply Qred_complete.
Qed.

(** ** Floats *)

Inductive pyfloat := Fin (q : Q) | PInf | NInf | NaN.

(** Values at or above [2^1024] overflow to infinity. *)
Definition max_pow : Q := pow2 1024.

(** The float nearest to a rational. *)
Definition of_Q (q : Q) : pyfloat :=
  if Qle_bool 0 q
  then let r := rnd_pos q in if Qle_bool max_pow r then PInf else Fin r
  else let r := rnd_pos (- q) in if Qle_bool max_pow r then NInf else Fin (Qred (- r)).

Definition of_Z (z : Z) : pyfloat := of_Q (inject_Z z).

(** Python comparisons; every comparison with NaN is false. *)
Definition fle (x y : pyfloat) : bool :=
  match x, y with
  | NaN, _ | _, NaN => false
  | NInf, _ | _, PInf => true
  | PInf, _ | _, NInf => false
  | Fin p, Fin q => Qle_bool p q
  end.

Definition feq (x y : pyfloat) : bool := fle x y && fle y x.

Definition flt (x y : pyfloat) : bool :=
  match x, y with
  | NaN, _ | _, NaN => false
  | _, _ => negb (fle y x)
  end.

Definition is_nan (x : pyfloat) : bool := match x with NaN => true | _ => false end.
Definition is_fin (x : pyfloat) : bool := match x with Fin _ => true | _ => false end.

Definition fneg (x : pyfloat) : pyfloat :=
  match x with Fin q => Fin (Qred (- q)) | PInf => NInf | NInf => PInf | NaN => NaN end.

Definition fabs (x : pyfloat) : pyfloat :=
  match x with Fin q => Fin (Qred (Qabs q)) | PInf | NInf => PInf | NaN => NaN end.

Definition fadd (x y : pyfloat) : pyfloat :=
  match x, y with
  | NaN, _ | _, NaN | PInf, NInf | NInf, PInf => NaN
  | PInf, _ | _, PInf => PInf
  | NInf, _ | _, NInf => NInf
  | Fin p, Fin q => of_Q (p + q)
  end.

Definition fsub (x y : pyfloat) : pyfloat := fadd x (fneg y).

(** The infinity with the sign of [q], NaN for zero. *)
Definition inf_of_sign (q : Q) : pyfloat :=
  match Qcompare q 0 with Eq => NaN | Lt => NInf | Gt => PInf end.

Definition fmul (x y : pyfloat) : pyfloat :=
  match x, y with
  | NaN, _ | _, NaN => NaN
  | PInf, PInf | NInf, NInf => PInf
  | PInf, NInf | NInf, PInf => NInf
  | PInf, Fin q | Fin q, PInf => inf_of_sign q
  | NInf, Fin q | Fin q, NInf => inf_of_sign (- q)
  | Fin p, Fin q => of_Q (p * q)
  end.

(** [x / y]: division by a zero raises. *)
Definition fdiv (x y : pyfloat) : res pyfloat :=
  match x, y with
  | NaN, Fin q | PInf, Fin q | NInf, Fin q =>
      if Qeq_bool q 0 then Raise ZeroDivisionError else
      Ok (match x with NaN => NaN | PInf => inf_of_sign q | _ => inf_of_sign (- q) end)
  | Fin p, Fin q => if Qeq_bool q 0 then Raise ZeroDivisionError else Ok (of_Q (p / q))
  | _, NaN | NaN, _ => Ok NaN
  | Fin _, _ => Ok (Fin 0)
  | _, _ => Ok NaN
  end.

(** Python's [min(a, b)] and [max(a, b)] keep the first argument on ties. *)
Definition fmin (a b : pyfloat) : pyfloat := if flt b a then b else a.
Definition fmax (a b : pyfloat) : pyfloat := if flt a b then b else a.

(** [round(x, n)] on a float: correctly rounded to [n] decimals, ties to even on
    the exact value, then to the nearest float. *)
Definition fround (n : Z) (x : pyfloat) : pyfloat :=
  match x with
  | Fin q => of_Q (inject_Z (rhe (q * inject_Z (10 ^ n))) / inject_Z (10 ^ n))
  | _ => x
  end.

Declare Scope pyfloat_scope.
Delimit Scope pyfloat_scope with float.
Bind Scope pyfloat_scope with pyfloat.
Notation "a <=? b" := (fle a b) : pyfloat_scope.
Notation "a <? b" := (flt a b) : pyfloat_scope.
Notation "a >=? b" := (fle b a) : pyfloat_scope.
Notation "a >? b" := (flt b a) : pyfloat_scope.
Notation "a + b" := (fadd a b) : pyfloat_scope.
Notation "a - b" := (fsub a b) : pyfloat_scope.
Notation "a * b" := (fmul a b) : pyfloat_scope.
Notation "- a" := (fneg a) : pyfloat_scope.

(** Decimal literals of the source: [num / 10^d]. *)
Definition lit (num : Z) (d : positive) : pyfloat := of_Q (num # d).
Definition f0 : pyfloat := Fin 0.
Definition f1 : pyfloat := Fin 1.

(** ** Order *)

Lemma fle_refl x : is_nan x = false → fle x x = true.
Proof. destruct x; simpl; try done. intros _. apply Qle_bool_iff, Qle_refl. Qed.

Lemma fle_trans x y z : fle x y = true → fle y z = true → fle x z = true.
Proof.
  destruct x, y, z; simpl; try done. rewrite !Qle_bool_iff. apply Qle_trans.
Qed.

Lemma flt_fle_neg x y : is_nan x = false → is_nan y = false → flt x y = negb (fle y x).
Proof. by destruct x, y. Qed.

Lemma flt_fle x y : flt x y = true → fle x y = true.
Proof.
  destruct x, y; simpl; try done. rewrite negb_true_iff, Qle_bool_false, Qle_bool_iff. lra.
Qed.

Lemma fle_not_nan_l x y : fle x y = true → is_nan x = false.
Proof. by destruct x, y. Qed.

Lemma fle_not_nan_r x y : fle x y = true → is_nan y = false.
Proof. by destruct x, y. Qed.

Lemma flt_irrefl x : flt x x = false.
Proof.
  destruct x; simpl; try done. apply negb_false_iff, Qle_bool_iff, Qle_refl.
Qed.

Lemma flt_asym x y : flt x y = true → flt y x = false.
Proof.
  destruct x, y; simpl; try done.
  rewrite negb_true_iff, negb_false_iff, Qle_bool_false, Qle_bool_iff. lra.
Qed.

(** Not being smaller is the converse order when no NaN is involved. *)
Lemma flt_false x y : is_nan x = false → is_nan y = false → flt x y = false ↔ fle y x = true.
Proof. intros Hx Hy. rewrite flt_fle_neg by done. apply negb_false_iff. Qed.

Lemma flt_true x y : is_nan x = false → is_nan y = false → flt x y = true ↔ fle y x = false.
Proof. intros Hx Hy. rewrite flt_fle_neg by done. apply negb_true_iff. Qed.

Lemma fle_total x y : is_nan x = false → is_nan y = false → fle x y = true ∨ fle y x = true.
Proof.
  destruct x, y; simpl; auto. rewrite !Qle_bool_iff. intros _ _.
  destruct (Qlt_le_dec q0 q); [right; lra|left; lra].
Qed.

Lemma fle_false_flip x y :
  is_nan x = false → is_nan y = false → fle x y = false → fle y x = true.
Proof. intros Hx Hy H. destruct (fle_total x y Hx Hy); congruence. Qed.

Lemma flt_le_trans x y z : flt x y = true → fle y z = true → flt x z = true.
Proof.
  destruct x, y, z; simpl; try done.
  rewrite !negb_true_iff, !Qle_bool_false, Qle_bool_iff. lra.
Qed.

Lemma fle_lt_trans x y z : fle x y = true → flt y z = true → flt x z = true.
Proof.
  destruct x, y, z; simpl; try done.
  rewrite !negb_true_iff, !Qle_bool_false, Qle_bool_iff. lra.
Qed.

(** ** Rounding as a map to floats *)

Lemma of_Q_not_nan q : is_nan (of_Q q) = false.
Proof. unfold of_Q. destruct (Qle_bool 0 q); destruct (Qle_bool max_pow _); done. Qed.

Lemma of_Q_mono p q : p <= q → fle (of_Q p) (of_Q q) = true.
Proof.
  intros H. unfold of_Q. generalize max_pow; intros M.
  assert (Hpos : ∀ r, 0 <= rnd_pos r) by apply rnd_pos_nonneg.
  destruct (Qle_bool 0 p) eqn:Ep, (Qle_bool 0 q) eqn:Eq.
  - pose proof (rnd_pos_mono p q H).
    destruct (Qle_bool M (rnd_pos p)) eqn:E1, (Qle_bool M (rnd_pos q)) eqn:E2; simpl; try done.
    + apply Qle_bool_iff in E1. apply Qle_bool_false in E2. lra.
    + by apply Qle_bool_iff.
  - apply Qle_bool_iff in Ep. apply Qle_bool_false in Eq. lra.
  - pose proof (Hpos (- p)). pose proof (Hpos q).
    destruct (Qle_bool M (rnd_pos (- p))), (Qle_bool M (rnd_pos q)); simpl; try done.
    rewrite Qle_bool_iff, Qred_correct. lra.
  - assert (- q <= - p) as H' by lra. pose proof (rnd_pos_mono _ _ H').
    destruct (Qle_bool M (rnd_pos (- p))) eqn:E1, (Qle_bool M (rnd_pos (- q))) eqn:E2;
      simpl; try done.
    + apply Qle_bool_iff in E2. apply Qle_bool_false in E1. lra.
    + rewrite Qle_bool_iff, !Qred_correct. lra.
Qed.

(** A float that its own value rounds to; results of operations are of this form. *)
Definition repr (x : pyfloat) : Prop :=
  match x with Fin q => of_Q q = Fin q | _ => True end.

Lemma of_Q_comp p q : p == q → of_Q p = of_Q q.
Proof.
  intros H. unfold of_Q.
  rewrite (rnd_pos_eq p q), (rnd_pos_eq (- p) (- q)) by (by rewrite H).
  replace (Qle_bool 0 p) with (Qle_bool 0 q); [done|].
  by rewrite H.
Qed.

Lemma of_Q_repr q : repr (of_Q q).
Proof.
  unfold of_Q at 1. destruct (Qle_bool 0 q) eqn:E; simpl.
  - destruct (Qle_bool max_pow (rnd_pos q)) eqn:Em; [done|]. simpl.
    unfold of_Q. rewrite (proj2 (Qle_bool_iff 0 _) (rnd_pos_nonneg q)).
    assert (rnd_pos (rnd_pos q) = rnd_pos q) as ->; [|by rewrite Em].
    apply rnd_pos_eq, rnd_pos_idem.
  - destruct (Qle_bool max_pow (rnd_pos (- q))) eqn:Em; [done|]. simpl.
    pose proof (rnd_pos_nonneg (- q)) as Hn. set (r := rnd_pos (- q)) in *.
    destruct (Qlt_le_dec 0 r) as [Hr|Hr].
    + unfold of_Q. rewrite (proj2 (Qle_bool_false 0 (Qred (- r)))) by (rewrite Qred_correct; lra).
      assert (rnd_pos (- Qred (- r)) = r) as ->; [|by rewrite Em].
      apply rnd_pos_eq. rewrite Qred_correct, Qopp_involutive. apply rnd_pos_idem.
    + assert (r == 0) as E0 by lra.
      rewrite (Qred_complete (- r) 0) by (rewrite E0; reflexivity). reflexivity.
Qed.

Lemma of_Q_le_repr p q : p <= q → repr (Fin q) → fle (of_Q p) (Fin q) = true.
Proof. intros H E. rewrite <- E. by apply of_Q_mono. Qed.

Lemma of_Q_ge_repr p q : q <= p → repr (Fin q) → fle (Fin q) (of_Q p) = true.
Proof. intros H E. rewrite <- E. by apply of_Q_mono. Qed.

Lemma repr_f0 : repr f0.
Proof. reflexivity. Qed.
Lemma repr_f1 : repr f1.
Proof. vm_compute. reflexivity. Qed.
#[export] Hint Resolve of_Q_repr repr_f0 repr_f1 : pyfloat.

(** ** The unit interval: scores, confidences, weights *)

Definition unit_itv (x : pyfloat) : bool := fle f0 x && fle x f1.

Lemma unit_itv_fin x : unit_itv x = true ↔ ∃ q, x = Fin q ∧ 0 <= q <= 1.
Proof.
  unfold unit_itv. split.
  - destruct x; simpl; try done. rewrite andb_true_iff, !Qle_bool_iff. eauto.
  - intros (q & -> & H). simpl. by rewrite andb_true_iff, !Qle_bool_iff.
Qed.

Lemma of_Q_unit q : 0 <= q <= 1 → unit_itv (of_Q q) = true.
Proof.
  intros [H0 H1]. unfold unit_itv, f0, f1.
  by rewrite (of_Q_ge_repr q 0 H0 repr_f0), (of_Q_le_repr q 1 H1 repr_f1).
Qed.

Lemma unit_not_nan x : unit_itv x = true → is_nan x = false.
Proof. by intros (q & -> & _)%unit_itv_fin. Qed.

Lemma unit_mul x y : unit_itv x = true → unit_itv y = true → unit_itv (fmul x y) = true.
Proof.
  intros (p & -> & Hp)%unit_itv_fin (q & -> & Hq)%unit_itv_fin. apply of_Q_unit. nra.
Qed.

Lemma unit_one_minus x : unit_itv x = true → unit_itv (fsub f1 x) = true.
Proof.
  intros (p & -> & Hp)%unit_itv_fin. apply of_Q_unit. rewrite Qred_correct. lra.
Qed.

Lemma unit_f0 : unit_itv f0 = true. Proof. reflexivity. Qed.
Lemma unit_f1 : unit_itv f1 = true. Proof. reflexivity. Qed.

Lemma unit_min x y : unit_itv x = true → unit_itv y = true → unit_itv (fmin x y) = true.
Proof. intros. unfold fmin. by destruct (flt y x). Qed.
Lemma unit_max x y : unit_itv x = true → unit_itv y = true → unit_itv (fmax x y) = true.
Proof. intros. unfold fmax. by destruct (flt x y). Qed.

(** [max(0.0, min(1.0, x))] lies in the unit interval for every float but NaN;
    for NaN the value is 1.0, by the argument order of [min]. *)
Lemma unit_clamp x : unit_itv (fmax f0 (fmin f1 x)) = true.
Proof.
  destruct x as [q| | |]; try reflexivity.
  unfold fmin, fmax, flt, fle, f0, f1, unit_itv.
  destruct (Qle_bool 1 q) eqn:E1; simpl; [reflexivity|].
  destruct (Qle_bool q 0) eqn:E2; simpl; [reflexivity|].
  apply Qle_bool_false in E1. apply Qle_bool_false in E2.
  rewrite andb_true_iff, !Qle_bool_iff. lra.
Qed.

(** Clamping does not change a value of the interval. *)
Lemma clamp_id x : unit_itv x = true → feq (fmax f0 (fmin f1 x)) x = true.
Proof.
  intros (q & -> & H0 & H1)%unit_itv_fin. unfold fmin, fmax, flt, fle, f0, f1, feq.
  destruct (Qle_bool 1 q) eqn:E1; simpl.
  - apply Qle_bool_iff in E1. rewrite andb_true_iff, !Qle_bool_iff. lra.
  - destruct (Qle_bool q 0) eqn:E2; simpl; rewrite andb_true_iff, !Qle_bool_iff;
      [apply Qle_bool_iff in E2|]; lra.
Qed.

#[export] Hint Resolve unit_mul unit_one_minus unit_f0 unit_f1 unit_min unit_max unit_clamp
  unit_not_nan : pyfloat.

(** ** [min], [max] and [round] *)

Lemma fmin_le_l a b : is_nan a = false → is_nan b = false → fle (fmin a b) a = true.
Proof.
  intros Ha Hb. unfold fmin. destruct (flt b a) eqn:E; [by apply flt_fle|by apply fle_refl].
Qed.

Lemma fmin_le_r a b : is_nan a = false → is_nan b = false → fle (fmin a b) b = true.
Proof.
  intros Ha Hb. unfold fmin. destruct (flt b a) eqn:E; [by apply fle_refl|].
  by apply flt_false in E.
Qed.

Lemma fmax_le_l a b : is_nan a = false → is_nan b = false → fle a (fmax a b) = true.
Proof.
  intros Ha Hb. unfold fmax. destruct (flt a b) eqn:E; [by apply flt_fle|by apply fle_refl].
Qed.

Lemma fmax_le_r a b : is_nan a = false → is_nan b = false → fle b (fmax a b) = true.
Proof.
  intros Ha Hb. unfold fmax. destruct (flt a b) eqn:E; [by apply fle_refl|].
  by apply flt_false in E.
Qed.

Lemma fround_mono n x y : (0 <= n)%Z → fle x y = true → fle (fround n x) (fround n y) = true.
Proof.
  intros Hn. destruct x as [p| | |], y as [q| | |]; simpl; try done;
    try (intros _; by destruct (of_Q _) eqn:E; [..|pose proof (of_Q_not_nan (inject_Z (rhe (p * inject_Z (10 ^ n))) / inject_Z (10 ^ n))); rewrite E in *]);
    try (intros _; by destruct (of_Q _) eqn:E; [..|pose proof (of_Q_not_nan (inject_Z (rhe (q * inject_Z (10 ^ n))) / inject_Z (10 ^ n))); rewrite E in *]).
  rewrite Qle_bool_iff. intros H. apply of_Q_mono.
  assert (0 < inject_Z (10 ^ n)) as Hp
    by (rewrite <- (Zlt_Qlt 0); apply Z.pow_pos_nonneg; lia).
  assert (p * inject_Z (10 ^ n) <= q * inject_Z (10 ^ n)) as Hm by (apply Qmult_le_compat_r; lra).
  apply rhe_mono in Hm. rewrite Zle_Qle in Hm. unfold Qdiv.
  apply Qmult_le_compat_r; [done|]. apply Qlt_le_weak, Qinv_lt_0_compat, Hp.
Qed.

(** Rounding to decimals stays in the unit interval. *)
Lemma fround_unit n x : (0 <= n)%Z → unit_itv x = true → unit_itv (fround n x) = true.
Proof.
  intros Hn (q & -> & H0 & H1)%unit_itv_fin. cbn [fround]. apply of_Q_unit.
  assert (0 < 10 ^ n)%Z as Hp by (apply Z.pow_pos_nonneg; lia). assert (0 < inject_Z (10 ^ n))%Q as Hq by (by rewrite <- (Zlt_Qlt 0)).
  assert (0 <= q * inject_Z (10 ^ n))%Q as H2 by (apply Qmult_le_0_compat; [done|by apply Qlt_le_weak]).
  assert (q * inject_Z (10 ^ n) <= inject_Z (10 ^ n))%Q as H3
    by (rewrite <- (Qmult_1_l (inject_Z (10 ^ n))) at 2; apply Qmult_le_compat_r; [done|by apply Qlt_le_weak]).
  apply rhe_nonneg in H2. apply rhe_mono in H3. rewrite rhe_inject in H3. split.
  - apply Qle_shift_div_l; [done|]. rewrite Qmult_0_l. by rewrite <- (Zle_Qle 0).
  - apply Qle_shift_div_r; [done|]. rewrite Qmult_1_l. by rewrite <- Zle_Qle.
Qed.

(** ** Rounding error *)

Lemma rhe_le_half q : inject_Z (rhe q) <= q + (1#2).
Proof.
  pose proof (Qfloor_le q) as Hf. unfold rhe.
  destruct (Qcompare_spec (q - inject_Z (Qfloor q)) (1#2)) as [E|E|E]; [destruct (Z.even _)|..];
    rewrite ?inject_Z_plus; change (inject_Z 1) with 1; lra.
Qed.

(** Up to one, rounding adds at most half a unit in the last place of one. *)
Lemma rnd_pos_le_half q : 0 <= q <= 1 → rnd_pos q <= q + pow2 (-53).
Proof.
  intros [H0 H1]. unfold rnd_pos. destruct (Qle_bool q 0) eqn:E.
  { pose proof (pow2_pos (-53)). lra. }
  apply Qle_bool_false in E. rewrite Qred_correct. unfold rnd_at.
  assert (fexp q <= -52)%Z as Hf.
  { unfold fexp. pose proof (flog2_mono q 1 E H1) as Hm. change (flog2 1) with 0%Z in Hm. lia. }
  pose proof (rhe_le_half (q * pow2 (- fexp q))) as Hr. pose proof (pow2_pos (fexp q)) as Hp.
  assert (inject_Z (rhe (q * pow2 (- fexp q))) * pow2 (fexp q)
          <= (q * pow2 (- fexp q) + (1#2)) * pow2 (fexp q)) as Hm by (apply Qmult_le_compat_r; lra).
  pose proof (pow2_inv (fexp q)) as Hi.
  assert ((q * pow2 (- fexp q) + (1#2)) * pow2 (fexp q) == q * (pow2 (fexp q) * pow2 (- fexp q)) + (1#2) * pow2 (fexp q)) as Ee by ring.
  rewrite Ee, Hi in Hm. pose proof (pow2_le _ _ Hf) as Hl.
  assert (pow2 (-52) == 2 * pow2 (-53)) as E52 by reflexivity. lra.
Qed.

Lemma fsub_mono_l x y z : is_fin x = true → is_fin y = true → is_fin z = true → fle x y = true →
  fle (fsub x z) (fsub y z) = true.
Proof.
  destruct x, y, z; try done. unfold fsub. simpl. intros _ _ _ H. apply Qle_bool_iff in H. apply of_Q_mono. lra.
Qed.

(** A number of the unit interval plus its rounded complement stays in the unit interval. *)
Lemma fadd_complement c d : 0 <= c <= 1 → d <= 1 - c → fle (fadd (Fin c) (of_Q d)) f1 = true.
Proof.
  intros Hc Hd.
  assert (fle (of_Q d) (of_Q (1 - c)) = true) as Hle by (by apply of_Q_mono).
  assert (unit_itv (of_Q (1 - c)) = true) as (r & Er & Hr)%unit_itv_fin by (apply of_Q_unit; lra).
  assert (r <= 1 - c + pow2 (-53)) as Hr'.
  { pose proof (rnd_pos_le_half (1 - c)) as H. unfold of_Q in Er.
    rewrite (proj2 (Qle_bool_iff 0 (1 - c))) in Er by lra.
    destruct (Qle_bool max_pow _); [done|]. injection Er as <-. apply H. lra. }
  rewrite Er in Hle. destruct (of_Q d) as [q| | |] eqn:Eq; try done.
  apply Qle_bool_iff in Hle. simpl.
  eapply fle_trans; [apply (of_Q_mono _ (1 + pow2 (-53))); lra|]. vm_compute. reflexivity.
Qed.

(** Negation keeps floats floats. *)
Lemma fneg_repr x : repr x → repr (fneg x).
Proof.
  destruct x as [q| | |]; try done. cbn [fneg repr]. intros H. rewrite (of_Q_comp _ (- q)) by apply Qred_correct.
  unfold of_Q in *. destruct (Qle_bool 0 q) eqn:E.
  - destruct (Qle_bool max_pow (rnd_pos q)) eqn:Em; [done|]. injection H as H.
    destruct (Qlt_le_dec 0 q) as [Hq|Hq].
    + rewrite (proj2 (Qle_bool_false 0 (- q))) by lra.
      rewrite (rnd_pos_eq (- - q) q) by (by rewrite Qopp_involutive). rewrite Em. by rewrite H.
    + apply Qle_bool_iff in E. rewrite (proj2 (Qle_bool_iff 0 (- q))) by lra.
      rewrite rnd_pos_zero by lra. cbn. f_equal. symmetry. apply (Qred_complete (- q) 0). lra.
  - apply Qle_bool_false in E. destruct (Qle_bool max_pow (rnd_pos (- q))) eqn:Em; [done|].
    injection H as H. rewrite (proj2 (Qle_bool_iff 0 (- q))) by lra.
    f_equal.
    assert (- rnd_pos (- q) == q) as Hq.
    { transitivity (Qred (- rnd_pos (- q))); [symmetry; apply Qred_correct|rewrite H; reflexivity]. }
    transitivity (Qred (rnd_pos (- q))); [symmetry; apply rnd_pos_Qred|apply Qred_complete; lra].
Qed.
