(* ===== verification/PyData.v ===== *)
(** * Python data: strings and ordered dictionaries

    Strings are lists of Latin-1 code points ([string] of 8-bit characters), with
    the [str] methods the code calls. Dictionaries keep insertion order as Python's
    do ([odict]); the same type serves [OrderedDict], whose [move_to_end] and
    [popitem(last=False)] the caches use. *)

From S2P Require Import Prelude PyFloat.
From Stdlib Require Import ZArith QArith Ascii Lia.
From stdpp Require Import base list gmap strings pretty.

Open Scope string_scope.
Open Scope list_scope.
Open Scope nat_scope.

(** ** Strings *)

Definition code (c : ascii) : nat := nat_of_ascii c.

(** [str.lower] on the Latin-1 range. *)
Definition lower_char (c : ascii) : ascii :=
  let n := code c in
  if (65 <=? n) && (n <=? 90) || (192 <=? n) && (n <=? 222) && negb (n =? 215)
  then ascii_of_nat (n + 32) else c.

(** [str.upper]; the three Latin-1 letters whose upper case is outside Latin-1 are kept. *)
Definition upper_char (c : ascii) : ascii :=
  let n := code c in
  if (97 <=? n) && (n <=? 122) || (224 <=? n) && (n <=? 254) && negb (n =? 247)
  then ascii_of_nat (n - 32) else c.

Fixpoint str_map (f : ascii → ascii) (s : string) : string :=
  match s with EmptyString => "" | String c s' => String (f c) (str_map f s') end.

Definition lower : string → string := str_map lower_char.
Definition upper : string → string := str_map upper_char.

(** The characters [str.strip] and [str.split] treat as white space. *)
Definition is_space (c : ascii) : bool :=
  let n := code c in
  (n =? 32) || (9 <=? n) && (n <=? 13) || (28 <=? n) && (n <=? 31) || (n =? 133) || (n =? 160).

Fixpoint lstrip (s : string) : string :=
  match s with
  | EmptyString => ""
  | String c s' => if is_space c then lstrip s' else s
  end.

Fixpoint rstrip (s : string) : string :=
  match s with
  | EmptyString => ""
  | String c s' =>
      match rstrip s' with
      | EmptyString => if is_space c then "" else String c ""
      | r => String c r
      end
  end.

Definition strip (s : string) : string := rstrip (lstrip s).

Definition startswith (s p : string) : bool := String.prefix p s.

(** [a or b] *)
Definition str_or (a b : string) : string := if String.eqb a "" then b else a.

(** [p in s] *)
Fixpoint str_in (p s : string) : bool :=
  String.prefix p s || match s with EmptyString => false | String _ s' => str_in p s' end.

(** [s[:n]] *)
Fixpoint str_take (n : nat) (s : string) : string :=
  match n, s with
  | S n', String c s' => String c (str_take n' s')
  | _, _ => ""
  end.

Fixpoint str_drop (n : nat) (s : string) : string :=
  match n, s with
  | S n', String _ s' => str_drop n' s'
  | _, _ => s
  end.

(** [s.endswith(p)] *)
Definition endswith (s p : string) : bool := String.eqb (str_drop (String.length s - String.length p) s) p.

(** [s.removeprefix(p)] *)
Definition removeprefix (s p : string) : string :=
  if startswith s p then str_drop (String.length p) s else s.

(** [s.replace(p, r)] for a non-empty [p]: leftmost occurrences that do not overlap. *)
Fixpoint str_replace_from (fuel : nat) (p r s : string) : string :=
  match fuel, s with
  | S fuel, String c s' =>
      if startswith s p then r +:+ str_replace_from fuel p r (str_drop (String.length p) s)
      else String c (str_replace_from fuel p r s')
  | _, _ => s
  end.
Definition str_replace (p r s : string) : string := str_replace_from (String.length s) p r s.

(** The value of a decimal digit. *)
Definition digit_of (c : ascii) : option Z :=
  let n := Z.of_nat (code c) in
  if ((48 <=? n) && (n <=? 57))%Z then Some (n - 48)%Z else None.

Definition str_join (sep : string) (l : list string) : string := String.concat sep l.

(** [s.split(c)] for a one-character separator. *)
Fixpoint split_on (c : ascii) (s : string) : list string :=
  match s with
  | EmptyString => [""]
  | String d s' =>
      let r := split_on c s' in
      if Ascii.eqb d c then "" :: r
      else match r with w :: ws => String d w :: ws | [] => [String d ""] end
  end.

(** [s.split()]: maximal runs of non-space characters. *)
Fixpoint split_ws_aux (cur : string) (s : string) : list string :=
  match s with
  | EmptyString => match cur with "" => [] | _ => [cur] end
  | String d s' =>
      if is_space d
      then match cur with "" => split_ws_aux "" s' | _ => cur :: split_ws_aux "" s' end
      else split_ws_aux (cur +:+ String d "") s'
  end.
Definition split_ws (s : string) : list string := split_ws_aux "" s.

(** Zero padding on the left. *)
Fixpoint zeros (n : nat) : string := match n with 0 => "" | S n' => String "0" (zeros n') end.

Definition pad_left (w : nat) (s : string) : string := zeros (w - String.length s) +:+ s.

Example str_examples :
  [removeprefix "refs/heads/main" "refs/heads/"; removeprefix "main" "refs/heads/"; str_replace "ab" "x" "aababc"]
  = ["main"; "main"; "axxc"] ∧ [endswith "a.add" ".add"; endswith "add" ".add"] = [true; false].
Proof. by vm_compute. Qed.

Lemma str_app_length s t : String.length (s +:+ t) = String.length s + String.length t.
Proof. induction s; simpl; auto. Qed.

Lemma str_app_assoc (s t u : string) : s +:+ (t +:+ u) = (s +:+ t) +:+ u.
Proof.
  induction s as [|c s IH]; [done|].
  change (String c (s +:+ (t +:+ u)) = String c ((s +:+ t) +:+ u)). by rewrite IH.
Qed.

Lemma str_take_length n s : String.length (str_take n s) = n `min` String.length s.
Proof. revert s; induction n as [|n IH]; intros [|c s]; simpl; auto. Qed.

Lemma str_take_all n s : String.length s <= n → str_take n s = s.
Proof.
  revert s; induction n as [|n IH]; intros [|c s]; simpl; auto; try lia.
  intros H. by rewrite IH by lia.
Qed.

(** A stripped string is empty or ends and starts with a non-space character. *)
Lemma lstrip_head s c s' : lstrip s = String c s' → is_space c = false.
Proof.
  induction s as [|d s IH]; simpl; [done|].
  destruct (is_space d) eqn:E; [done|]. by intros [= <- _].
Qed.

Lemma rstrip_cons c s : is_space c = false → rstrip (String c s) = String c (rstrip s).
Proof. intros E. simpl. destruct (rstrip s); [by rewrite E|done]. Qed.

Lemma rstrip_idem s : rstrip (rstrip s) = rstrip s.
Proof.
  induction s as [|c s IH]; simpl; [done|].
  destruct (rstrip s) as [|d r] eqn:E.
  - destruct (is_space c) eqn:Ec; simpl; [done|by rewrite Ec].
  - cbn [rstrip] in *. by rewrite IH.
Qed.

Lemma lstrip_id s : (∀ c s', s = String c s' → is_space c = false) → lstrip s = s.
Proof. destruct s as [|c s]; [done|]. intros H. simpl. by rewrite (H c s eq_refl). Qed.

Lemma strip_idem s : strip (strip s) = strip s.
Proof.
  unfold strip. destruct (lstrip s) as [|c r] eqn:E; [done|].
  pose proof (lstrip_head _ _ _ E) as Hc.
  rewrite rstrip_cons by done. rewrite lstrip_id.
  - rewrite rstrip_cons by done. by rewrite rstrip_idem.
  - by intros ?? [= <- _].
Qed.

(** ** Insertion-ordered dictionaries *)

Definition odict (K V : Type) := list (K * V).

Section odict.
  Context {K V : Type} `{EqDecision K}.
  Implicit Types (d : odict K V) (k : K) (v : V).

Fixpoint od_get k d : option V :=
    match d with
    | [] => None
    | (k', v) :: d' => if decide (k = k') then Some v else od_get k d'
    end.

Definition od_mem k d : bool := match od_get k d with Some _ => true | None => false end.

  (** [d[k] = v]: an existing key keeps its position. *)
Fixpoint od_set k v d : odict K V :=
    match d with
    | [] => [(k, v)]
    | (k', v') :: d' => if decide (k = k') then (k, v) :: d' else (k', v') :: od_set k v d'
    end.

  (** [d.pop(k, None)] *)
Fixpoint od_del k d : odict K V :=
    match d with
    | [] => []
    | (k', v') :: d' => if decide (k = k') then d' else (k', v') :: od_del k d'
    end.

  (** [d.move_to_end(k)] for a present key. *)
Definition od_move_to_end k d : odict K V :=
    match od_get k d with Some v => od_del k d ++ [(k, v)] | None => d end.

Definition od_keys d : list K := map fst d.
Definition od_values d : list V := map snd d.

  (** [{**a, **b}] *)
Definition od_update (a b : odict K V) : odict K V :=
    fold_left (λ acc kv, od_set (fst kv) (snd kv) acc) b a.

Definition od_wf d : Prop := NoDup (od_keys d).

Lemma od_get_set_eq k v d : od_get k (od_set k v d) = Some v.
  Proof.
    induction d as [|[k' v'] d IH]; simpl; [by rewrite decide_True|].
    destruct (decide (k = k')) as [->|]; simpl; [by rewrite decide_True|by rewrite decide_False].
  Qed.

Lemma od_get_set_ne k k' v d : k ≠ k' → od_get k (od_set k' v d) = od_get k d.
  Proof.
    intros Hne. induction d as [|[k0 v0] d IH]; simpl.
    - by case_decide.
    - destruct (decide (k' = k0)) as [->|]; simpl; repeat case_decide; congruence.
  Qed.

Lemma od_get_set k k' v d :
    od_get k (od_set k' v d) = if decide (k = k') then Some v else od_get k d.
  Proof. case_decide; subst; [apply od_get_set_eq|by apply od_get_set_ne]. Qed.

Lemma od_get_Some_in k v d : od_get k d = Some v → (k, v) ∈ d.
  Proof.
    induction d as [|[k' v'] d IH]; simpl; [done|]. case_decide; intros; simplify_eq; set_solver.
  Qed.

Lemma od_get_Some_keys k v d : od_get k d = Some v → k ∈ od_keys d.
  Proof. intros H%od_get_Some_in. unfold od_keys. change k with ((k, v).1). by apply list_elem_of_fmap_2. Qed.

Lemma od_get_None k d : od_get k d = None ↔ k ∉ od_keys d.
  Proof.
    induction d as [|[k' v'] d IH]; simpl; [split; [set_solver|done]|].
    case_decide; simplify_eq; rewrite elem_of_cons; [split; [done|tauto]|]. rewrite IH. tauto.
  Qed.

Lemma od_get_is_Some k d : is_Some (od_get k d) ↔ k ∈ od_keys d.
  Proof.
    rewrite <- not_eq_None_Some, od_get_None. destruct (decide (k ∈ od_keys d)); tauto.
  Qed.

Lemma od_in_get k v d : od_wf d → (k, v) ∈ d → od_get k d = Some v.
  Proof.
    unfold od_wf. induction d as [|[k' v'] d IH]; simpl; [set_solver|].
    intros [Hnin Hnd]%NoDup_cons Hin. apply elem_of_cons in Hin as [Heq|Hin].
    - simplify_eq. by case_decide.
    - case_decide as E; [|auto]. subst k'. destruct Hnin.
      unfold od_keys. change k with ((k, v).1). by apply list_elem_of_fmap_2.
  Qed.

Lemma od_set_keys_mem k v d : k ∈ od_keys d → od_keys (od_set k v d) = od_keys d.
  Proof.
    induction d as [|[k' v'] d IH]; simpl; [set_solver|]. intros Hin.
    case_decide; simpl; subst; [done|]. rewrite IH; [done|set_solver].
  Qed.

Lemma od_set_keys_new k v d : k ∉ od_keys d → od_keys (od_set k v d) = od_keys d ++ [k].
  Proof.
    induction d as [|[k' v'] d IH]; simpl; [done|]. intros Hin.
    case_decide; simpl; subst; [set_solver|]. rewrite IH; [done|set_solver].
  Qed.

Lemma od_set_new k v d : k ∉ od_keys d → od_set k v d = d ++ [(k, v)].
  Proof.
    induction d as [|[k' v'] d IH]; simpl; [done|]. intros Hin.
    case_decide; simpl; subst; [set_solver|]. rewrite IH; [done|set_solver].
  Qed.

Lemma od_set_wf k v d : od_wf d → od_wf (od_set k v d).
  Proof.
    unfold od_wf. intros H. destruct (decide (k ∈ od_keys d)).
    - by rewrite od_set_keys_mem.
    - rewrite od_set_keys_new by done. apply NoDup_app. split_and!; [done|set_solver|].
      apply NoDup_singleton.
  Qed.

Lemma od_del_keys_sublist k d : od_keys (od_del k d) `sublist_of` od_keys d.
  Proof.
    induction d as [|[k' v'] d IH]; simpl; [done|]. case_decide; simpl; by constructor.
  Qed.

Lemma od_del_wf k d : od_wf d → od_wf (od_del k d).
  Proof. unfold od_wf. intros H. eapply sublist_NoDup; eauto using od_del_keys_sublist. Qed.

Lemma od_get_del_eq k d : od_wf d → od_get k (od_del k d) = None.
  Proof.
    unfold od_wf. induction d as [|[k' v'] d IH]; simpl; [done|].
    intros [Hnin Hnd]%NoDup_cons. case_decide; simpl; subst.
    - by apply od_get_None.
    - case_decide; [done|auto].
  Qed.

Lemma od_get_del_ne k k' d : k ≠ k' → od_get k (od_del k' d) = od_get k d.
  Proof.
    intros Hne. induction d as [|[k0 v0] d IH]; simpl; [done|].
    destruct (decide (k' = k0)) as [->|]; simpl; repeat case_decide; congruence.
  Qed.

Lemma od_del_length k d : k ∈ od_keys d → length d = S (length (od_del k d)).
  Proof.
    induction d as [|[k' v'] d IH]; simpl; [set_solver|]. intros Hin.
    case_decide; simpl; [done|]. rewrite <- IH; [done|set_solver].
  Qed.

Lemma od_set_length k v d :
    length (od_set k v d) = if decide (k ∈ od_keys d) then length d else S (length d).
  Proof.
    rewrite <- (length_map fst), <- (length_map fst d). change (map fst) with od_keys.
    case_decide; [by rewrite od_set_keys_mem|].
    rewrite od_set_keys_new by done. rewrite length_app; simpl; lia.
  Qed.

Lemma od_get_app k d1 d2 :
    od_get k (d1 ++ d2) = match od_get k d1 with Some v => Some v | None => od_get k d2 end.
  Proof. induction d1 as [|[k' v'] d1 IH]; simpl; [done|]. by case_decide. Qed.

Lemma od_get_move_to_end k k' d : od_wf d → od_get k (od_move_to_end k' d) = od_get k d.
  Proof.
    intros Hwf. unfold od_move_to_end. destruct (od_get k' d) as [v|] eqn:E; [|done].
    rewrite od_get_app. simpl. destruct (decide (k = k')) as [->|Hne].
    - by rewrite od_get_del_eq.
    - rewrite od_get_del_ne by done. by destruct (od_get k d).
  Qed.

Lemma od_move_to_end_keys k d v :
    od_get k d = Some v → od_keys (od_move_to_end k d) = od_keys (od_del k d) ++ [k].
  Proof. intros E. unfold od_move_to_end. rewrite E. unfold od_keys. by rewrite map_app. Qed.

Lemma od_move_to_end_wf k d : od_wf d → od_wf (od_move_to_end k d).
  Proof.
    intros Hwf. destruct (od_get k d) as [v|] eqn:E.
    - unfold od_wf. rewrite (od_move_to_end_keys _ _ _ E). apply NoDup_app. split_and!.
      + by apply od_del_wf.
      + intros k' H1 H2. apply list_elem_of_singleton in H2 as ->.
        by apply od_get_None in H1; [|apply od_get_del_eq].
      + apply NoDup_singleton.
    - unfold od_move_to_end. by rewrite E.
  Qed.

Lemma od_move_to_end_length k d : length (od_move_to_end k d) = length d.
  Proof.
    unfold od_move_to_end. destruct (od_get k d) as [v|] eqn:E; [|done].
    rewrite length_app; simpl. rewrite (od_del_length k d); [lia|].
    by apply od_get_is_Some; rewrite E.
  Qed.

Lemma od_del_set k v d : od_del k (od_set k v d) = od_del k d.
  Proof.
    induction d as [|[k' v'] d IH]; simpl; [by rewrite decide_True|].
    destruct (decide (k = k')) as [->|]; simpl; [by rewrite decide_True|].
    rewrite decide_False by done. by rewrite IH.
  Qed.

  (** Assigning and moving to the end: the key leaves its place and comes last. *)
Lemma od_move_set k v d : od_move_to_end k (od_set k v d) = od_del k d ++ [(k, v)].
  Proof. unfold od_move_to_end. by rewrite od_get_set_eq, od_del_set. Qed.

Lemma od_del_notin k d : k ∉ od_keys d → od_del k d = d.
  Proof.
    induction d as [|[k' v'] d IH]; simpl; [done|]. intros Hin.
    case_decide; subst; [set_solver|]. rewrite IH; [done|set_solver].
  Qed.

Lemma od_del_app_notin k d1 d2 : k ∉ od_keys d2 → od_del k (d1 ++ d2) = od_del k d1 ++ d2.
  Proof.
    intros Hn. induction d1 as [|[k' v] d1 IH]; [by apply od_del_notin|]. simpl.
    destruct (decide (k = k')); [done|]. simpl. by rewrite IH.
  Qed.

Lemma od_get_tail_ne k k' v d : k ≠ k' → od_get k ((k', v) :: d) = od_get k d.
  Proof. intros. simpl. by rewrite decide_False. Qed.

Lemma od_del_app_ne k d1 k' v d2 : k ≠ k' → od_wf (d1 ++ (k', v) :: d2) →
    od_del k (d1 ++ (k', v) :: d2) = od_del k d1 ++ (k', v) :: od_del k d2.
  Proof.
    intros Hne. induction d1 as [|[k1 v1] d1 IH]; simpl.
    - intros _. by rewrite decide_False.
    - intros [Hnin Hnd]%NoDup_cons. case_decide as E; [|by rewrite IH].
      subst k1. f_equal. f_equal. symmetry. apply od_del_notin.
      apply od_get_None in Hnin. rewrite od_get_app in Hnin. simpl in Hnin. apply od_get_None.
      destruct (od_get k d1); [done|]. by rewrite decide_False in Hnin.
  Qed.

Lemma od_keys_app d1 d2 : od_keys (d1 ++ d2) = od_keys d1 ++ od_keys d2.
  Proof. apply map_app. Qed.

Lemma od_keys_length d : length (od_keys d) = length d.
  Proof. apply length_map. Qed.

  (** A dictionary with keys from [l] has at most as many entries as [l] distinct elements. *)
Lemma od_length_le d (l : list K) :
    od_wf d → (∀ k, k ∈ od_keys d → k ∈ l) → length d ≤ length (remove_dups l).
  Proof.
    intros Hd Hl. rewrite <- od_keys_length. apply submseteq_length.
    apply NoDup_submseteq; [done|]. intros k Hk. apply elem_of_remove_dups. auto.
  Qed.

Lemma od_del_keys_ne k d k' : od_wf d → k' ∈ od_keys (od_del k d) ↔ k' ∈ od_keys d ∧ k' ≠ k.
  Proof.
    intros Hd. rewrite <- !od_get_is_Some. destruct (decide (k' = k)) as [->|Hne].
    - rewrite od_get_del_eq by done. split; [by intros []|naive_solver].
    - rewrite od_get_del_ne by done. tauto.
  Qed.

Lemma od_wf_nil : od_wf [].
  Proof. constructor. Qed.

Lemma od_wf_tail kv d : od_wf (kv :: d) → od_wf d.
  Proof. unfold od_wf; simpl. by intros [_ ?]%NoDup_cons. Qed.
End odict.

#[export] Hint Resolve od_set_wf od_del_wf od_move_to_end_wf od_wf_nil : odict.

(** ** Sets *)

(** The order in which a set built from a list of strings is enumerated. *)
Class SetOrder := {
  set_iter : list string → list string;
  set_iter_perm l : set_iter l ≡ₚ remove_dups l;
}.

Definition insertion_order : SetOrder := {| set_iter := remove_dups; set_iter_perm l := Permutation_refl (remove_dups l) |}.
