(* ===== verification/PyMath.v ===== *)
(** * Arithmetic of the standard library and the bounds of floats

    [sum] of floats (compensated, as in Python 3.12), [max] over floats, [float(n)] of an
    integer, correctly rounded square roots, the mean and standard deviation of the
    [statistics] module (exact, then rounded once), a comprehension whose body may raise,
    and the lemmas on ranges and signs of floats that the numerical components share. *)

From S2P Require Import Prelude PyFloat.
From Stdlib Require Import ZArith QArith Qabs Qround Lqa Lia.
From stdpp Require Import base list strings.

Open Scope string_scope.
Open Scope list_scope.
Open Scope nat_scope.

Lemma Ok_inj {A} (a b : A) : Ok a = Ok b → a = b.
Proof. by intros [=]. Qed.

(** ** Sums and maxima *)

(** One step of the compensated summation. *)
Definition sum_step (st : pyfloat * pyfloat) (x : pyfloat) : pyfloat * pyfloat :=
  let '(s, c) := st in
  let t := fadd s x in
  (t, fadd c (if fle (fabs x) (fabs s) then fadd (fsub s t) x else fadd (fsub x t) s)).

(** [sum(l)]: the compensation is added at the end when it is finite and not zero. *)
Definition py_sum (l : list pyfloat) : pyfloat :=
  let '(s, c) := fold_left sum_step l (f0, f0) in
  if is_fin c && negb (feq c f0) then fadd s c else s.

(** [max(l)] over floats, for a non-empty list: the first of the greatest. *)
Definition fmaximum (x : pyfloat) (l : list pyfloat) : pyfloat := argmax_from (λ a b, flt b a) x l.

Example sum_samples :
  py_sum (replicate 10 (lit 1 10)) = f1 ∧ fold_left fadd (replicate 10 (lit 1 10)) f0 ≠ f1 ∧
  py_sum [PInf; f1] = PInf.
Proof. vm_compute. split_and!; done. Qed.

(** ** Integers as floats *)

(** [float(n)], and the operand [n] of mixed arithmetic: a great integer raises. *)
Definition py_float_of_int (z : Z) : res pyfloat :=
  match of_Z z with Fin q => Ok (Fin q) | _ => Raise OverflowError end.

(** ** Square roots *)

(** The square root of a positive rational rounded once: [k] is such that the integer root of
    [q * 4^k] has more bits than a float; one more bit tells exact roots from others. *)
Definition sqrt_Q (q : Q) : pyfloat :=
  if Qle_bool q 0 then Fin 0 else
  let k := (60 - flog2 q / 2)%Z in
  let n := (q * pow2 (2 * k))%Q in
  let s := Z.sqrt (Qfloor n) in
  let sticky := if Qeq_bool (inject_Z (s * s)) n then 0%Z else 1%Z in
  of_Q (inject_Z (2 * s + sticky) * pow2 (- (k + 1)))%Q.

(** [math.sqrt(x)] *)
Definition fsqrt (x : pyfloat) : res pyfloat :=
  match x with
  | Fin q => if Qle_bool 0 q then Ok (sqrt_Q q) else Raise (ValueError "math domain error")
  | NInf => Raise (ValueError "math domain error")
  | _ => Ok x
  end.

(** ** Exponentials *)

(** [math.exp] of libm: exact at zero, within [0, 1] for negative arguments, never decreasing;
    it raises for arguments too great. *)
Class ExpLib := {
  math_exp : pyfloat → res pyfloat;
  exp_zero : math_exp f0 = Ok f1;
  exp_unit x : fle x f0 = true → ∃ y, math_exp x = Ok y ∧ unit_itv y = true;
  exp_mono x y a b : fle x y = true → math_exp x = Ok a → math_exp y = Ok b → fle a b = true;
}.

(** ** [statistics] *)

(** The exact sum of a list of finite floats; [None] when one of them is not finite. *)
Fixpoint exact_sum (l : list pyfloat) : option Q :=
  match l with
  | [] => Some 0%Q
  | Fin q :: l' => match exact_sum l' with Some s => Some (q + s)%Q | None => None end
  | _ => None
  end.

(** [statistics.mean(l)]: the sum of the non-finite ones when there are any. *)
Definition stat_mean (l : list pyfloat) : res pyfloat :=
  match l, exact_sum l with
  | [], _ => Raise (ValueError "mean requires at least one data point")
  | _, Some s => Ok (of_Q (s / inject_Z (Z.of_nat (length l))))
  | _, None => Ok (fold_left fadd (filter (λ x, is_fin x = false) l) f0)
  end.

(** [statistics.stdev(l)]: the root of the exact variance; data that are not finite raise, and so
    does a root beyond the floats. *)
Definition stat_stdev (l : list pyfloat) : res pyfloat :=
  if length l <? 2 then Raise (ValueError "stdev requires at least two data points") else
  match exact_sum l, exact_sum (map (λ x, match x with Fin q => Fin (q * q) | _ => x end) l) with
  | Some sx, Some sxx =>
      let n := inject_Z (Z.of_nat (length l)) in
      match sqrt_Q ((n * sxx - sx * sx) / n / (n - 1)) with Fin q => Ok (Fin q) | _ => Raise OverflowError end
  | _, _ => Raise OtherError
  end.

Example root_samples :
  [sqrt_Q 2; sqrt_Q (1 # 4); sqrt_Q 0; sqrt_Q (inject_Z (2 ^ 200 + 1))]
  = [of_Q (14142135623730951454746218587388284504413604736328125 # 10000000000000000000000000000000000000000000000000000);
     lit 1 2; f0; of_Z (2 ^ 100)] ∧
  stat_mean [f0; f1; of_Z 5] = Ok (of_Z 2) ∧ stat_stdev [f0; f1; of_Z 2] = Ok f1 ∧
  stat_stdev [f1; PInf] = Raise OtherError ∧ stat_mean [f1; PInf] = Ok PInf.
Proof. vm_compute. auto 10. Qed.

(** ** Comprehensions *)

(** A comprehension whose body may raise. *)
Fixpoint map_res {A B} (f : A → res B) (l : list A) : res (list B) :=
  match l with
  | [] => Ok []
  | x :: l' => (let? y := f x in let? ys := map_res f l' in Ok (y :: ys))%py
  end.

Lemma map_res_Forall {A B} (f : A → res B) (P : A → B → Prop) l ys :
  (∀ x y, x ∈ l → f x = Ok y → P x y) → map_res f l = Ok ys → Forall2 P l ys.
Proof.
  revert ys; induction l as [|x l IH]; intros ys Hf; simpl; [by intros <-%Ok_inj|].
  destruct (f x) as [y|] eqn:E; [|done]. cbn [rbind]. destruct (map_res f l) as [ys'|]; [|done]. cbn [rbind].
  intros <-%Ok_inj. constructor; [apply Hf; [left|done]|]. apply IH; [|done]. intros. apply Hf; [by right|done].
Qed.

Lemma map_res_total {A B} (f : A → res B) l :
  (∀ x, x ∈ l → is_ok (f x) = true) → ∃ ys, map_res f l = Ok ys.
Proof.
  induction l as [|x l IH]; intros Hf; [by eexists|]. simpl.
  pose proof (Hf x) as Hx. destruct (f x); [|by specialize (Hx ltac:(left))]. cbn [rbind].
  destruct IH as [ys ->]; [intros; apply Hf; by right|]. by eexists.
Qed.

(** The elements and their results, one by one. *)
Lemma map_res_Forall2 {A B} (f : A → res B) l ys : map_res f l = Ok ys → Forall2 (λ x y, f x = Ok y) l ys.
Proof.
  revert ys; induction l as [|x l IH]; intros ys; cbn [map_res]; [by intros <-%Ok_inj|].
  destruct (f x) as [y|] eqn:E; [|done]. cbn [rbind]. destruct (map_res f l) as [ys'|]; [|done].
  intros <-%Ok_inj. constructor; [done|]. by apply IH.
Qed.

Lemma map_res_fails {A B} (f : A → res B) l x : x ∈ l → is_ok (f x) = false → is_ok (map_res f l) = false.
Proof.
  intros Hx Hf. induction l as [|y l IH]; [by apply elem_of_nil in Hx|]. cbn [map_res].
  apply elem_of_cons in Hx as [<-|Hx]; [by destruct (f x)|]. specialize (IH Hx).
  destruct (f y); [|done]. cbn [rbind]. by destruct (map_res f l).
Qed.

(** ** Ranges and signs *)

(** A value between two bounds. *)
Definition in_range (lo hi x : pyfloat) : bool := fle lo x && fle x hi.

Lemma between_split lo hi x : in_range lo hi x = true ↔ fle lo x = true ∧ fle x hi = true.
Proof. unfold in_range. apply andb_true_iff. Qed.

Lemma between_round lo hi x : in_range lo hi x = true → in_range (fround 3 lo) (fround 3 hi) (fround 3 x) = true.
Proof. rewrite !between_split. intros [H1 H2]. split; by apply fround_mono. Qed.

Lemma between_weaken lo hi lo' hi' x :
  in_range lo hi x = true → fle lo' lo = true → fle hi hi' = true → in_range lo' hi' x = true.
Proof. rewrite !between_split. intros [H1 H2] H3 H4. split; eapply fle_trans; eauto. Qed.

(** [max(a, x)] is at least [a] and [min(a, x)] at most [a], even for a NaN [x]. *)
Lemma fmax_ge a x : is_nan a = false → fle a (fmax a x) = true.
Proof. intros Ha. unfold fmax. destruct (flt a x) eqn:E; [by apply flt_fle|by apply fle_refl]. Qed.

Lemma fmin_le a x : is_nan a = false → fle (fmin a x) a = true.
Proof. intros Ha. unfold fmin. destruct (flt x a) eqn:E; [by apply flt_fle|by apply fle_refl]. Qed.

Lemma fmax_le a x b : fle a b = true → (is_nan x = true ∨ fle x b = true) → fle (fmax a x) b = true.
Proof.
  intros Ha [Hx|Hx]; unfold fmax; destruct (flt a x) eqn:E; try done. by destruct a, x.
Qed.

Lemma fmin_ge a x lo : fle lo a = true → (is_nan x = true ∨ fle lo x = true) → fle lo (fmin a x) = true.
Proof.
  intros Ha [Hx|Hx]; unfold fmin; destruct (flt x a) eqn:E; try done. by destruct a, x.
Qed.

(** [NaN] or at least zero: what the scores are for every input. *)
Definition nonneg (x : pyfloat) : Prop := is_nan x = true ∨ fle f0 x = true.

Lemma nonneg_of_Q q : (0 <= q)%Q → nonneg (of_Q q).
Proof. intros H. right. by apply (of_Q_ge_repr q 0). Qed.

Lemma nonneg_Fin q : nonneg (Fin q) ↔ (0 <= q)%Q.
Proof. unfold nonneg. simpl. rewrite Qle_bool_iff. naive_solver. Qed.

Lemma nonneg_fadd x y : nonneg x → nonneg y → nonneg (fadd x y).
Proof.
  destruct x as [p| | |], y as [q| | |]; try (by left); try (by right); try (by intros [?|?]); try (by intros ? [?|?]).
  rewrite !nonneg_Fin. intros. apply nonneg_of_Q. lra.
Qed.

Lemma inf_of_sign_nonneg q : (0 <= q)%Q → nonneg (inf_of_sign q).
Proof.
  intros H. unfold inf_of_sign. destruct (Qcompare_spec q 0); [by left|lra|by right].
Qed.

Lemma nonneg_fmul x y : nonneg x → nonneg y → nonneg (fmul x y).
Proof.
  destruct x as [p| | |], y as [q| | |]; try (by left); try (by right);
    try (by intros [?|?]); try (by intros ? [?|?]); rewrite ?nonneg_Fin.
  - intros. apply nonneg_of_Q. nra.
  - intros. by apply inf_of_sign_nonneg.
  - intros. by apply inf_of_sign_nonneg.
Qed.

Lemma nonneg_fdiv x y z : nonneg x → nonneg y → fdiv x y = Ok z → nonneg z.
Proof.
  assert (∀ p q, (0 <= p)%Q → (0 <= q)%Q → (0 <= p / q)%Q) as Hdiv.
  { intros p q Hp Hq. unfold Qdiv. pose proof (Qinv_le_0_compat q Hq). nra. }
  unfold fdiv. destruct x as [p| | |], y as [q| | |]; rewrite ?nonneg_Fin;
    try destruct (Qeq_bool q 0); intros Hx Hy [= <-]; try (by left); try (by right);
    try (by destruct Hx); try (by apply inf_of_sign_nonneg); by apply nonneg_of_Q, Hdiv.
Qed.

Lemma nonneg_fmin a x : fle f0 a = true → nonneg x → fle f0 (fmin a x) = true.
Proof. intros Ha Hx. by apply fmin_ge. Qed.

Lemma nonneg_fabs x : nonneg (fabs x).
Proof.
  destruct x as [q| | |]; [|by right..|by left]. simpl. apply nonneg_Fin.
  rewrite Qred_correct. apply Qabs.Qabs_nonneg.
Qed.

Lemma unit_nonneg x : unit_itv x = true → nonneg x.
Proof. unfold unit_itv. intros [H _]%andb_true_iff. by right. Qed.

(** [min(1.0, x)] of a score. *)
Lemma unit_cap x : nonneg x → unit_itv (fmin f1 x) = true.
Proof. intros Hx. unfold unit_itv. by rewrite (nonneg_fmin f1 x), (fmin_le f1 x). Qed.

Lemma fsub_le x y hi : (is_nan x = true ∨ fle x hi = true) → repr hi → nonneg y →
  is_nan (fsub x y) = true ∨ fle (fsub x y) hi = true.
Proof.
  destruct x as [p| | |], y as [q| | |], hi as [h| | |]; try (by left); try (by right);
    try (by intros [?|?]); try (by intros ? ? [?|?]);
    try (by (intros _ _ _; right; unfold fsub; simpl; destruct (of_Q _) eqn:E; try done;
             pose proof (of_Q_not_nan (p + Qred (- q))) as Hn; rewrite E in Hn)).
  rewrite nonneg_Fin. intros [?|Hx] Hr Hq; [done|]. right. apply Qle_bool_iff in Hx.
  apply of_Q_le_repr; [rewrite Qred_correct; lra|done].
Qed.

(** Division by anything but a zero returns. *)
Lemma fdiv_ok x y : fle y f0 = false → ∃ z, fdiv x y = Ok z.
Proof.
  intros Hy. unfold fdiv. destruct x as [p| | |], y as [q| | |]; try (by eexists);
    (assert (Qeq_bool q 0 = false) as ->; [|by eexists]);
    apply not_true_iff_false; rewrite Qeq_bool_iff; intros E; simpl in Hy;
    apply Qle_bool_false in Hy; lra.
Qed.

Lemma flt_zero_fle y : flt f0 y = true → fle y f0 = false.
Proof. destruct y; simpl; try done. by rewrite negb_true_iff. Qed.

(** ** Lemmas: roots *)

Lemma sqrt_Q_nonneg q : fle f0 (sqrt_Q q) = true.
Proof.
  unfold sqrt_Q. destruct (Qle_bool q 0); [done|]. apply (of_Q_ge_repr _ 0); [|apply repr_f0].
  set (k := (60 - _)%Z). pose proof (pow2_pos (- (k + 1))) as Hp.
  assert (0 <= inject_Z (2 * Z.sqrt (Qfloor (q * pow2 (2 * k))) +
    (if Qeq_bool (inject_Z (Z.sqrt (Qfloor (q * pow2 (2 * k))) * Z.sqrt (Qfloor (q * pow2 (2 * k)))))
       (q * pow2 (2 * k)) then 0 else 1)))%Q as Hs; [|nra].
  pose proof (Z.sqrt_nonneg (Qfloor (q * pow2 (2 * k)))).
  rewrite <- (Zle_Qle 0). destruct (Qeq_bool _ _); lia.
Qed.

Lemma sqrt_Q_repr q : repr (sqrt_Q q).
Proof. unfold sqrt_Q. destruct (Qle_bool q 0); [by vm_compute|apply of_Q_repr]. Qed.

Lemma fsqrt_nonneg x y : fsqrt x = Ok y → nonneg y.
Proof.
  destruct x as [q| | |]; simpl; [|by intros <-%Ok_inj; right|done|by intros <-%Ok_inj; left].
  destruct (Qle_bool 0 q); [|done]. intros <-%Ok_inj. right. apply sqrt_Q_nonneg.
Qed.

(** ** Lemmas: values of at least zero *)

Lemma ge0_of_Q q : (0 <= q)%Q → fle f0 (of_Q q) = true.
Proof. intros H. apply (of_Q_ge_repr q 0); [done|apply repr_f0]. Qed.

Lemma ge0_Fin q : fle f0 (Fin q) = true ↔ (0 <= q)%Q.
Proof. apply Qle_bool_iff. Qed.

Lemma fadd_repr x y : repr (fadd x y).
Proof. destruct x, y; try exact I. apply of_Q_repr. Qed.

Lemma fsub_repr x y : repr (fsub x y).
Proof. apply fadd_repr. Qed.

Lemma fmul_repr x y : repr (fmul x y).
Proof.
  destruct x as [p| | |], y as [q| | |]; try exact I; [apply of_Q_repr|..];
    cbn [fmul]; unfold inf_of_sign; destruct (Qcompare _ _); exact I.
Qed.

Lemma fdiv_repr x y z : fdiv x y = Ok z → repr z.
Proof.
  unfold fdiv. destruct x as [p| | |], y as [q| | |]; try destruct (Qeq_bool q 0); intros E;
    try discriminate E; apply Ok_inj in E as <-; try exact I; try apply of_Q_repr; try apply repr_f0;
    unfold inf_of_sign; destruct (Qcompare _ _); exact I.
Qed.

Lemma ge0_fadd x y : fle f0 x = true → fle f0 y = true → fle f0 (fadd x y) = true.
Proof.
  destruct x as [p| | |], y as [q| | |]; try done. rewrite !ge0_Fin. intros. apply ge0_of_Q. lra.
Qed.

(** What is added to a float never lowers it when it is at least zero. *)
Lemma fle_fadd_l x y : repr x → is_nan x = false → fle f0 y = true → x ≠ NInf → fle x (fadd x y) = true.
Proof.
  destruct x as [p| | |], y as [q| | |]; try done. rewrite ge0_Fin. intros Hr _ Hq _.
  apply of_Q_ge_repr; [lra|done].
Qed.

Lemma fle_fadd_ge0 x y : repr x → fle f0 x = true → fle f0 y = true → fle x (fadd x y) = true.
Proof. intros Hr Hx Hy. apply fle_fadd_l; try done; by destruct x. Qed.

Lemma fle_fadd_ge0_r x y : repr y → fle f0 x = true → fle f0 y = true → fle y (fadd x y) = true.
Proof.
  destruct x as [p| | |], y as [q| | |]; try done. rewrite !ge0_Fin. intros Hr Hp Hq.
  apply of_Q_ge_repr; [lra|done].
Qed.

Lemma ge0_fmul p y : (0 <= p)%Q → is_fin y = true → fle f0 y = true → fle f0 (fmul (Fin p) y) = true.
Proof. destruct y as [q| | |]; try done. rewrite ge0_Fin. intros. apply ge0_of_Q. nra. Qed.

(** A value of at least zero times a positive finite one. *)
Lemma ge0_fmul_pos x m : fle f0 x = true → (0 < m)%Q → fle f0 (fmul x (Fin m)) = true.
Proof.
  destruct x as [p| | |]; try done; [rewrite ge0_Fin; intros; apply ge0_of_Q; nra|].
  intros _ Hm. cbn [fmul]. unfold inf_of_sign. rewrite (proj1 (Qgt_alt m 0)) by done. done.
Qed.

Lemma py_float_of_int_ge0 z x : (0 <= z)%Z → py_float_of_int z = Ok x → is_fin x = true ∧ fle f0 x = true.
Proof.
  intros Hz. unfold py_float_of_int. pose proof (ge0_of_Q (inject_Z z) ltac:(rewrite <- (Zle_Qle 0); lia)) as H.
  unfold of_Z. destruct (of_Q (inject_Z z)); try done. intros <-%Ok_inj. done.
Qed.

(** Every integer below the greatest float has its float. *)
Lemma py_float_of_int_ok z : (Z.abs z <= 2 ^ 1000)%Z → ∃ q, py_float_of_int z = Ok (Fin q).
Proof.
  intros Hz. unfold py_float_of_int.
  assert (∀ w, (Z.abs w <= 2 ^ 1000)%Z → ∃ q, of_Z w = Fin q) as Hw; [|destruct (Hw z Hz) as [q ->]; by exists q].
  intros w Hb.
  assert (repr (of_Z (2 ^ 1000)) ∧ is_fin (of_Z (2 ^ 1000)) = true ∧ is_fin (of_Z (- 2 ^ 1000)) = true)
    as (_ & H1 & H2) by (split; [apply of_Q_repr|vm_compute; done]).
  assert (fle (of_Z w) (of_Z (2 ^ 1000)) = true) as Hu by (apply of_Q_mono; rewrite <- Zle_Qle; lia).
  assert (fle (of_Z (- 2 ^ 1000)) (of_Z w) = true) as Hl by (apply of_Q_mono; rewrite <- Zle_Qle; lia).
  destruct (of_Z w) as [q| | |]; [by exists q| | |]; destruct (of_Z (2 ^ 1000)), (of_Z (- 2 ^ 1000)); done.
Qed.

Lemma py_float_of_int_mono y z x w : (y <= z)%Z → py_float_of_int y = Ok x → py_float_of_int z = Ok w → fle x w = true.
Proof.
  intros Hyz. unfold py_float_of_int. pose proof (of_Q_mono (inject_Z y) (inject_Z z) ltac:(by rewrite <- Zle_Qle)) as H.
  unfold of_Z. destruct (of_Q (inject_Z y)), (of_Q (inject_Z z)); try done. intros <-%Ok_inj <-%Ok_inj. done.
Qed.

Lemma py_float_of_int_repr z x : py_float_of_int z = Ok x → repr x.
Proof.
  unfold py_float_of_int, of_Z. pose proof (of_Q_repr (inject_Z z)) as H.
  destruct (of_Q (inject_Z z)); try done. by intros <-%Ok_inj.
Qed.

(** A finite value of at least zero divided by a constant of at least one stays one. *)
Lemma ge0_fdiv p c : (0 <= p)%Q → repr (Fin p) → (1 <= c)%Q → ∃ q, fdiv (Fin p) (Fin c) = Ok (Fin q) ∧ (0 <= q)%Q.
Proof.
  intros Hp Hr Hc. cbn [fdiv]. destruct (Qeq_bool c 0) eqn:E; [apply Qeq_bool_iff in E; lra|].
  assert (0 <= p / c <= p)%Q as [H1 H2] by (split; [apply Qle_shift_div_l|apply Qle_shift_div_r]; nra).
  pose proof (of_Q_le_repr (p / c) p H2 Hr) as Hle. pose proof (ge0_of_Q _ H1) as Hge.
  destruct (of_Q (p / c)) as [q| | |]; try done. exists q. split; [done|]. by apply ge0_Fin.
Qed.

(** ** Lemmas: sums of values of at least zero *)

Lemma float_form q : repr (Fin q) → (0 <= q)%Q →
  ∃ m k, (0 <= m <= 2 ^ 53)%Z ∧ (-1074 <= k)%Z ∧ (q == inject_Z m * pow2 k)%Q.
Proof.
  intros Hr Hq. destruct (Qlt_le_dec 0 q) as [Hlt|Hle].
  - destruct (rnd_pos_form q Hlt) as (m & k & Hm & Hk & E). exists m, k. split_and!; [lia..|].
    rewrite <- E. unfold repr, of_Q in Hr. rewrite (proj2 (Qle_bool_iff 0 q) Hq) in Hr.
    destruct (Qle_bool max_pow (rnd_pos q)); [done|]. by injection Hr as ->.
  - exists 0%Z, 0%Z. split_and!; [lia..|]. change (inject_Z 0) with 0%Q. lra.
Qed.

Lemma float_finite q : repr (Fin q) → (0 <= q)%Q → (q < max_pow)%Q.
Proof.
  intros Hr Hq. unfold repr, of_Q in Hr. rewrite (proj2 (Qle_bool_iff 0 q) Hq) in Hr.
  destruct (Qle_bool max_pow (rnd_pos q)) eqn:E; [done|]. injection Hr as Hr. rewrite Hr in E. by apply Qle_bool_false.
Qed.

(** The difference of two floats within a factor of two is a float. *)
Lemma close_difference s t : repr (Fin s) → repr (Fin t) → (0 <= s)%Q → (s <= t)%Q → (t <= 2 * s)%Q →
  (rnd_pos (t - s) == t - s)%Q.
Proof.
  intros Rs Rt Hs Hst Ht2.
  destruct (float_form s Rs Hs) as (m1 & k1 & Hm1 & Hk1 & E1).
  destruct (float_form t Rt ltac:(lra)) as (m2 & k2 & Hm2 & Hk2 & E2).
  set (k := Z.min k1 k2). set (d := (m2 * 2 ^ (k2 - k) - m1 * 2 ^ (k1 - k))%Z).
  assert (∀ m j, (k <= j)%Z → (inject_Z m * pow2 j == inject_Z (m * 2 ^ (j - k)) * pow2 k)%Q) as Hsplit.
  { intros m j Hj. rewrite (pow2_split (j - k) k j) by lia. rewrite (pow2_Z (j - k)) by lia.
    rewrite inject_Z_mult. ring. }
  assert (t - s == inject_Z d * pow2 k)%Q as Ed.
  { rewrite E1, E2, (Hsplit m1 k1), (Hsplit m2 k2) by lia. unfold d, Z.sub. rewrite inject_Z_plus, inject_Z_opp. ring. }
  pose proof (pow2_pos k) as Hp.
  assert (∀ z w, (inject_Z z * pow2 k <= inject_Z w * pow2 k)%Q → (z <= w)%Z) as Hle.
  { intros z w H. apply Qmult_le_r in H; [|done]. by rewrite Zle_Qle. }
  assert (0 <= d <= 2 ^ 53)%Z as Hd.
  { split; [apply (Hle 0%Z); rewrite <- Ed; change (inject_Z 0) with 0%Q; lra|].
    destruct (Z.min_spec k1 k2) as [[_ Ek]|[_ Ek]]; fold k in Ek.
    - transitivity m1; [|lia]. apply Hle. rewrite <- Ed, Ek, <- E1. lra.
    - transitivity m2; [|lia]. apply Hle. rewrite <- Ed, Ek, <- E2. lra. }
  assert (rnd_pos (t - s) = rnd_pos (inject_Z d * pow2 k)) as ->.
  { apply rnd_pos_eq. apply Qle_antisym; apply rnd_pos_mono; rewrite Ed; lra. }
  rewrite rnd_pos_exact by lia. by rewrite Ed.
Qed.

Lemma exact_negative d : (0 <= d)%Q → (rnd_pos d == d)%Q → (d < max_pow)%Q → ∃ r, of_Q (- d) = Fin r ∧ (r == - d)%Q.
Proof.
  intros Hd E Hm. unfold of_Q. destruct (Qle_bool 0 (- d)) eqn:E0.
  - apply Qle_bool_iff in E0. rewrite rnd_pos_zero by lra.
    assert (Qle_bool max_pow 0 = false) as -> by (apply Qle_bool_false; apply pow2_pos).
    exists 0%Q. split; [done|lra].
  - assert (rnd_pos (- - d) = rnd_pos d) as -> by (apply rnd_pos_eq; apply Qle_antisym; apply rnd_pos_mono; lra).
    destruct (Qle_bool max_pow (rnd_pos d)) eqn:E1.
    + apply Qle_bool_iff in E1. rewrite E in E1. lra.
    + eexists. split; [done|]. by rewrite Qred_correct, E.
Qed.

(** The state of the summation of values of at least zero: the sum is one too, and a finite
    compensation never takes away more than the sum. *)
Definition sum_ok (st : pyfloat * pyfloat) : Prop :=
  nonneg st.1 ∧ repr st.1 ∧ repr st.2 ∧
  (is_fin st.2 = true → is_nan st.1 = true ∨ is_fin st.1 = true ∧ fle (fneg st.1) st.2 = true).

(** The error term of adding two finite values is at least what the sum grew by. *)
Lemma error_term_ge s x t : repr (Fin s) → repr (Fin x) → (0 <= s)%Q → (0 <= x)%Q → fadd (Fin s) (Fin x) = Fin t →
  (s <= t)%Q ∧
  fle (Fin (s - t)) (if fle (fabs (Fin x)) (fabs (Fin s)) then fadd (fsub (Fin s) (Fin t)) (Fin x)
                     else fadd (fsub (Fin x) (Fin t)) (Fin s)) = true.
Proof.
  intros Rs Rx Hs Hx Et. cbn [fadd] in Et.
  assert (repr (Fin t)) as Rt by (rewrite <- Et; apply of_Q_repr).
  assert (s <= t)%Q as Hst by (apply Qle_bool_iff; change (fle (Fin s) (Fin t) = true); rewrite <- Et; apply of_Q_ge_repr; [lra|done]).
  assert (x <= t)%Q as Hxt by (apply Qle_bool_iff; change (fle (Fin x) (Fin t) = true); rewrite <- Et; apply of_Q_ge_repr; [lra|done]).
  assert (∀ y, repr (Fin y) → (0 <= y)%Q → (s + x <= 2 * y)%Q → (t <= 2 * y)%Q) as Htwo.
  { intros y Ry Hy Hsum. unfold of_Q in Et. rewrite (proj2 (Qle_bool_iff 0 (s + x)) ltac:(lra)) in Et.
    destruct (Qle_bool max_pow _); [done|]. injection Et as <-.
    destruct (float_form y Ry Hy) as (m & k & Hm & Hk & E).
    assert (2 * y == inject_Z m * pow2 (k + 1))%Q as E2.
    { rewrite E, pow2_add. change (pow2 1) with 2%Q. ring. }
    rewrite E2, <- (rnd_pos_exact m (k + 1)) by lia. apply rnd_pos_mono. by rewrite <- E2. }
  assert (∀ y z, repr (Fin y) → (0 <= y)%Q → (y <= t)%Q → (t <= 2 * y)%Q → (s <= y)%Q → (0 <= z)%Q → repr (Fin z) →
    fle (Fin (s - t)) (fadd (fsub (Fin y) (Fin t)) (Fin z)) = true) as Hstep.
  { intros y z Ry Hy Hyt Hty Hsy Hz Rz.
    destruct (exact_negative (t - y) ltac:(lra) (close_difference y t Ry Rt Hy Hyt Hty)) as (r & Er & Hr).
    { pose proof (float_finite t Rt ltac:(lra)). lra. }
    assert (fsub (Fin y) (Fin t) = Fin r) as ->.
    { unfold fsub. cbn [fneg fadd]. rewrite <- Er. apply of_Q_comp. rewrite Qred_correct. ring. }
    assert (repr (Fin r)) as Rr by (rewrite <- Er; apply of_Q_repr).
    eapply (fle_trans _ (Fin r)); [apply Qle_bool_iff; rewrite Hr; lra|].
    apply of_Q_ge_repr; [lra|done]. }
  split; [done|]. destruct (fle (fabs (Fin x)) (fabs (Fin s))) eqn:Ecmp.
  - assert (x <= s)%Q as Hxs.
    { cbn [fabs fle] in Ecmp. apply Qle_bool_iff in Ecmp. rewrite !Qred_correct, !Qabs_pos in Ecmp by done. done. }
    apply Hstep; try done; [apply Htwo; [done..|lra]|lra].
  - assert (s <= x)%Q as Hsx.
    { cbn [fabs fle] in Ecmp. apply Qle_bool_false in Ecmp. rewrite !Qred_correct, !Qabs_pos in Ecmp by done. lra. }
    apply Hstep; try done. apply Htwo; [done..|lra].
Qed.

Lemma sum_step_ok st x : sum_ok st → nonneg x → repr x → sum_ok (sum_step st x).
Proof.
  destruct st as [s c]. intros (Hs & Rs & Rc & Hc) Hx Rx. unfold sum_step, sum_ok in *. cbn [fst snd] in *.
  split_and!; [by apply nonneg_fadd|apply fadd_repr|apply fadd_repr|]. intros Hfin.
  destruct (is_nan (fadd s x)) eqn:Hnan; [by left|right].
  destruct s as [s| | |], x as [x| | |]; try done; try (by destruct Hs); try (by destruct Hx).
  - apply nonneg_Fin in Hs, Hx. destruct (fadd (Fin s) (Fin x)) as [t| | |] eqn:Et.
    + split; [done|]. destruct (error_term_ge s x t Rs Rx Hs Hx Et) as [Hst He].
      set (e := if fle _ _ then _ else _) in *. destruct c as [c| | |], e as [e| | |]; try done.
      destruct (Hc eq_refl) as [?|[_ Hcs]]; [done|]. cbn [fneg fle fadd] in *.
      apply Qle_bool_iff in Hcs, He. rewrite Qred_correct in Hcs.
      assert (repr (Fin (Qred (- t)))) as Rt by (apply (fneg_repr (Fin t)); rewrite <- Et; apply of_Q_repr).
      apply of_Q_ge_repr; [rewrite Qred_correct; lra|done].
    + exfalso. destruct (fle (fabs _) _), c; cbn in Hfin; discriminate Hfin.
    + cbn [fadd] in Et. pose proof (ge0_of_Q (s + x) ltac:(lra)) as H. by rewrite Et in H.
    + done.
  - exfalso. destruct c; cbn in Hfin; discriminate Hfin.
  - exfalso. destruct c; cbn in Hfin; discriminate Hfin.
  - exfalso. destruct c; cbn in Hfin; discriminate Hfin.
Qed.

(** [sum] of values of at least zero is one, in spite of the compensation. *)
Lemma py_sum_nonneg l : Forall (λ x, nonneg x ∧ repr x) l → nonneg (py_sum l).
Proof.
  intros Hl. unfold py_sum.
  assert (sum_ok (fold_left sum_step l (f0, f0))) as Hok.
  { assert (sum_ok (f0, f0)) as H0 by (split_and!; [by right|apply repr_f0|apply repr_f0|by right]).
    revert H0. generalize (f0, f0). induction Hl as [|x l [Hx Rx] Hl IH]; intros st Hst; [done|].
    cbn [fold_left]. apply IH. by apply sum_step_ok. }
  destruct (fold_left sum_step l (f0, f0)) as [s c]. destruct Hok as (Hs & Rs & Rc & Hc). cbn [fst snd] in *.
  destruct (is_fin c) eqn:Ec; [|done]. destruct (feq c f0); [done|]. cbn [negb andb].
  destruct (Hc eq_refl) as [Hn|[Hf Hle]]; [by destruct s; try done; left; destruct c|].
  destruct s as [s| | |], c as [c| | |]; try done. cbn [fneg fle] in Hle. apply Qle_bool_iff in Hle.
  rewrite Qred_correct in Hle. apply nonneg_of_Q. lra.
Qed.

Lemma py_sum_repr l : repr (py_sum l).
Proof.
  unfold py_sum. assert (repr (fold_left sum_step l (f0, f0)).1) as Hr.
  { destruct l as [|x l _] using rev_ind; [apply repr_f0|]. rewrite fold_left_app. cbn [fold_left]. unfold sum_step.
    destruct (fold_left _ l _). apply fadd_repr. }
  destruct (fold_left sum_step l (f0, f0)) as [s c]. destruct (_ && _); [apply fadd_repr|done].
Qed.

(** ** Lemmas: order *)

Lemma fadd_mono_r c x y : is_fin c = true → is_fin x = true → is_fin y = true → fle x y = true →
  fle (fadd c x) (fadd c y) = true.
Proof.
  destruct c, x, y; try done. simpl. intros _ _ _ H. apply Qle_bool_iff in H. apply of_Q_mono. lra.
Qed.

Lemma unit_is_fin x : unit_itv x = true → is_fin x = true.
Proof. by intros (q & -> & _)%unit_itv_fin. Qed.

Lemma fmul_mono_l p x y : is_fin x = true → is_fin y = true → (0 <= p)%Q → fle x y = true →
  fle (fmul (Fin p) x) (fmul (Fin p) y) = true.
Proof.
  destruct x as [a| | |], y as [b| | |]; try done. cbn [fmul fle]. intros _ _ Hp H%Qle_bool_iff. apply of_Q_mono. nra.
Qed.

(** Scaling by a positive constant keeps the order, infinities included. *)
Lemma fmul_mono_pos x y m : (0 < m)%Q → fle x y = true → fle (fmul x (Fin m)) (fmul y (Fin m)) = true.
Proof.
  intros Hm. assert (inf_of_sign m = PInf ∧ inf_of_sign (- m) = NInf) as [E1 E2].
  { unfold inf_of_sign. rewrite (proj1 (Qgt_alt m 0)) by done. by rewrite (proj1 (Qlt_alt (- m) 0)) by lra. }
  destruct x as [a| | |], y as [b| | |]; try done; cbn [fmul fle]; rewrite ?E1, ?E2; try done.
  - intros H%Qle_bool_iff. apply of_Q_mono. nra.
  - intros _. pose proof (of_Q_not_nan (a * m)). by destruct (of_Q (a * m)).
  - intros _. pose proof (of_Q_not_nan (b * m)). by destruct (of_Q (b * m)).
Qed.

Lemma fdiv_mono_pos x y m a b : (0 < m)%Q → fle x y = true → fdiv x (Fin m) = Ok a → fdiv y (Fin m) = Ok b → fle a b = true.
Proof.
  intros Hm. assert (inf_of_sign m = PInf ∧ inf_of_sign (- m) = NInf) as [E1 E2].
  { unfold inf_of_sign. rewrite (proj1 (Qgt_alt m 0)) by done. by rewrite (proj1 (Qlt_alt (- m) 0)) by lra. }
  assert (Qeq_bool m 0 = false) as E0 by (apply not_true_iff_false; rewrite Qeq_bool_iff; lra).
  unfold fdiv. destruct x as [p| | |], y as [q| | |]; try done; rewrite ?E0, ?E1, ?E2; intros H <-%Ok_inj <-%Ok_inj; try done.
  - cbn [fle] in H. apply Qle_bool_iff in H. apply of_Q_mono. by apply Qmult_le_compat_r, Qlt_le_weak, Qinv_lt_0_compat.
  - pose proof (of_Q_not_nan (p / m)). by destruct (of_Q (p / m)).
  - pose proof (of_Q_not_nan (q / m)). by destruct (of_Q (q / m)).
Qed.

(** Sums of values of at least zero grow with their parts. *)
Lemma fadd_mono_ge0 a b x y : fle f0 a = true → fle f0 x = true → fle a b = true → fle x y = true →
  fle (fadd a x) (fadd b y) = true.
Proof.
  destruct a as [p| | |], b as [q| | |], x as [r| | |], y as [s| | |]; try done; cbn [fle fadd];
    rewrite ?Qle_bool_iff; intros;
    first [apply of_Q_mono; lra | pose proof (of_Q_not_nan (p + r)); by destruct (of_Q (p + r))].
Qed.

Lemma fround_ge0 n x : (0 <= n)%Z → fle f0 x = true → fle f0 (fround n x) = true.
Proof.
  intros Hn. destruct x as [q| | |]; try done. rewrite ge0_Fin. intros Hq. apply ge0_of_Q.
  assert (0 < inject_Z (10 ^ n))%Q as Hp by (rewrite <- (Zlt_Qlt 0); by apply Z.pow_pos_nonneg).
  apply Qle_shift_div_l; [done|]. rewrite Qmult_0_l. rewrite <- (Zle_Qle 0). apply rhe_nonneg. nra.
Qed.

Lemma fmul_le_l p x : unit_itv p = true → repr p → unit_itv x = true → fle (fmul p x) p = true.
Proof.
  intros (q & -> & Hq)%unit_itv_fin Hr (y & -> & Hy)%unit_itv_fin. apply of_Q_le_repr; [nra|done].
Qed.

Lemma fsub_antitone x p q : fle p q = true → is_fin p = true → is_fin q = true → is_fin x = true →
  fle (fsub x q) (fsub x p) = true.
Proof.
  destruct x, p, q; try done. simpl. rewrite Qle_bool_iff. intros H _ _ _. apply of_Q_mono.
  rewrite !Qred_correct. lra.
Qed.

(** A value of at least zero divided by a positive constant. *)
Lemma ge0_fdiv_pos x m : fle f0 x = true → (0 < m)%Q → ∃ z, fdiv x (Fin m) = Ok z ∧ fle f0 z = true ∧ repr z.
Proof.
  intros Hx Hm. assert (fle (Fin m) f0 = false) as H0 by (apply Qle_bool_false; lra).
  destruct (fdiv_ok x (Fin m) H0) as [z Ez]. exists z. split; [done|]. split; [|by eapply fdiv_repr].
  apply (fdiv_mono_pos f0 x m f0 z Hm Hx); [|done]. cbn [fdiv f0].
  assert (Qeq_bool m 0 = false) as -> by (apply not_true_iff_false; rewrite Qeq_bool_iff; lra).
  rewrite (of_Q_comp _ 0); [reflexivity|]. unfold Qdiv. ring.
Qed.

(** A cost or a quantity: a finite float of at least zero. *)
Definition amount (x : pyfloat) : Prop := ∃ q, x = Fin q ∧ (0 <= q)%Q ∧ repr x.

Lemma amount_ge0 x : amount x → fle f0 x = true.
Proof. intros (q & -> & Hq & _). by apply ge0_Fin. Qed.

Lemma amount_of_int z : (0 <= z <= 2 ^ 1000)%Z → ∃ x, py_float_of_int z = Ok x ∧ amount x.
Proof.
  intros Hz. destruct (py_float_of_int_ok z ltac:(lia)) as [q Eq]. exists (Fin q). split; [done|]. exists q.
  destruct (py_float_of_int_ge0 z _ ltac:(lia) Eq) as [_ H]. split_and!; [done|by apply ge0_Fin|by eapply py_float_of_int_repr].
Qed.

Lemma ge0_fmul_amount x y : amount x → amount y → fle f0 (fmul x y) = true.
Proof. intros (p & -> & Hp & _) (q & -> & Hq & _). apply ge0_of_Q. nra. Qed.

(** A decision procedure for constants. *)
Definition amountb (x : pyfloat) : bool :=
  match x with
  | Fin q => Qle_bool 0 q && match of_Q q with Fin r => (Qnum r =? Qnum q)%Z && (Qden r =? Qden q)%positive | _ => false end
  | _ => false
  end.

Lemma amountb_ok x : amountb x = true → amount x.
Proof.
  destruct x as [q| | |]; try done. cbn [amountb]. rewrite andb_true_iff, Qle_bool_iff. intros [Hq H]. exists q.
  split_and!; [done..|]. cbn [repr]. destruct (of_Q q) as [r| | |]; try done.
  apply andb_true_iff in H as [Hn Hd]. apply Z.eqb_eq in Hn. apply Pos.eqb_eq in Hd. destruct r, q. cbn in *. by subst.
Qed.

Lemma amounts_ok {K} (table : list (K * pyfloat)) :
  forallb (λ kv, amountb kv.2) table = true → Forall (λ kv, amount kv.2) table.
Proof.
  rewrite forallb_forall. intros H. apply Forall_forall. intros kv Hkv. apply amountb_ok, H. by apply list_elem_of_In.
Qed.

(** Numbers of few significant bits are floats, of either sign. *)
Lemma of_Q_exact m k q : (Z.abs m <= 2 ^ 53)%Z → (-1074 <= k <= 900)%Z → (q == inject_Z m * pow2 k)%Q →
  ∃ r, of_Q q = Fin r ∧ (r == q)%Q.
Proof.
  intros Hm Hk Hq. pose proof (pow2_pos k) as Hp.
  assert (∀ n, (0 <= n <= 2 ^ 53)%Z → (inject_Z n * pow2 k < max_pow)%Q) as Hmax.
  { intros n Hn. eapply Qle_lt_trans; [apply (Qmult_le_compat_r _ (inject_Z (2 ^ 53))); [rewrite <- Zle_Qle; lia|lra]|].
    rewrite <- (pow2_Z 53) by lia. rewrite <- pow2_add. unfold max_pow.
    eapply Qle_lt_trans; [apply (pow2_le (53 + k) 1000); lia|]. vm_compute. reflexivity. }
  destruct (Z.le_gt_cases 0 m) as [H0|H0].
  - assert (0 <= q)%Q as Hq0 by (rewrite Hq; apply Qmult_le_0_compat; [rewrite <- (Zle_Qle 0); lia|lra]).
    unfold of_Q. rewrite (proj2 (Qle_bool_iff 0 q) Hq0).
    assert (rnd_pos q == q)%Q as E.
    { rewrite (rnd_pos_eq q (inject_Z m * pow2 k)); [rewrite rnd_pos_exact by lia; by rewrite Hq|].
      apply Qle_antisym; apply rnd_pos_mono; rewrite Hq; lra. }
    assert (Qle_bool max_pow (rnd_pos q) = false) as ->; [|by eexists].
    apply Qle_bool_false. rewrite E, Hq. apply Hmax. lia.
  - assert (q == - (inject_Z (- m) * pow2 k))%Q as Hq' by (rewrite Hq, inject_Z_opp; ring).
    rewrite (of_Q_comp q (- (inject_Z (- m) * pow2 k)) Hq').
    destruct (exact_negative (inject_Z (- m) * pow2 k)) as (r & Er & Hr).
    + apply Qmult_le_0_compat; [rewrite <- (Zle_Qle 0); lia|lra].
    + apply rnd_pos_exact; lia.
    + apply Hmax. lia.
    + exists r. split; [done|]. by rewrite Hr, Hq'.
Qed.

(** ** Lemmas: statistics of scores between zero and one *)

Lemma sqrt_Q_small q : (q <= 4)%Q → ∃ s, sqrt_Q q = Fin s ∧ (0 <= s)%Q.
Proof.
  intros Hq. pose proof (sqrt_Q_nonneg q) as G. assert (fle (sqrt_Q q) (Fin 3) = true) as H3.
  2: { destruct (sqrt_Q q) as [s| | |]; try done. exists s. split; [done|]. by apply ge0_Fin. }
  unfold sqrt_Q. destruct (Qle_bool q 0) eqn:E0; [done|].
  assert (0 < q)%Q as Hq0 by (apply Qnot_le_lt; intros H; apply Qle_bool_iff in H; congruence).
  assert (flog2 q <= 2)%Z as Hl.
  { destruct (flog2_spec q Hq0) as [H1 _]. apply Z.lt_succ_r, pow2_lt_inv.
    eapply Qle_lt_trans; [exact H1|]. eapply Qle_lt_trans; [exact Hq|]. reflexivity. }
  set (k := (60 - flog2 q / 2)%Z). assert (59 <= k)%Z as Hk.
  { subst k. pose proof (Z.div_le_mono (flog2 q) 2 2 ltac:(done) Hl) as H. change (2 / 2)%Z with 1%Z in H. lia. }
  set (n := (q * pow2 (2 * k))%Q). pose proof (pow2_pos (2 * k)) as Hp.
  assert (Z.sqrt (Qfloor n) <= 2 ^ (k + 1))%Z as Hs.
  { rewrite <- (Z.sqrt_square (2 ^ (k + 1))) by lia. apply Z.sqrt_le_mono.
    rewrite <- Z.pow_add_r by lia. rewrite (Zle_Qle _ _). eapply Qle_trans; [apply Qfloor_le|].
    rewrite <- pow2_Z by lia. rewrite (pow2_split (2 * k) 2 (k + 1 + (k + 1))) by lia.
    assert (pow2 2 == 4)%Q as -> by reflexivity. subst n. nra. }
  apply of_Q_le_repr; [|by vm_compute].
  set (sticky := if Qeq_bool _ _ then 0%Z else 1%Z).
  assert (0 <= sticky <= 1)%Z as Hst by (subst sticky; destruct (Qeq_bool _ _); lia).
  eapply Qle_trans; [apply (Qmult_le_compat_r _ (inject_Z (2 * 2 ^ (k + 1) + 1))); [rewrite <- Zle_Qle; lia|apply Qlt_le_weak, pow2_pos]|].
  rewrite inject_Z_plus, inject_Z_mult, <- pow2_Z by lia.
  pose proof (pow2_inv (k + 1)) as Hi. pose proof (pow2_le (- (k + 1)) 0 ltac:(lia)) as H0. change (pow2 0) with 1%Q in H0.
  change (inject_Z 2) with 2%Q. change (inject_Z 1) with 1%Q.
  assert ((2 * pow2 (k + 1) + 1) * pow2 (- (k + 1)) == 2 * (pow2 (k + 1) * pow2 (- (k + 1))) + pow2 (- (k + 1)))%Q as -> by ring.
  rewrite Hi. lra.
Qed.

Lemma exact_sum_unit l : Forall (λ x, unit_itv x = true) l →
  ∃ s, exact_sum l = Some s ∧ (0 <= s <= inject_Z (Z.of_nat (length l)))%Q.
Proof.
  induction 1 as [|x l Hx Hl (s & E & Hs)]; [exists 0%Q; split; [done|split; discriminate]|].
  apply unit_itv_fin in Hx as (q & -> & Hq). cbn [exact_sum length]. rewrite E. exists (q + s)%Q. split; [done|].
  rewrite Nat2Z.inj_succ, <- Z.add_1_r, inject_Z_plus. change (inject_Z 1) with 1%Q. lra.
Qed.

Lemma stat_mean_unit l : l ≠ [] → Forall (λ x, unit_itv x = true) l →
  ∃ m, stat_mean l = Ok m ∧ unit_itv m = true ∧ repr m.
Proof.
  intros Hne Hl. destruct (exact_sum_unit l Hl) as (s & E & Hs).
  assert (0 < inject_Z (Z.of_nat (length l)))%Q as Hn.
  { change 0%Q with (inject_Z 0). rewrite <- Zlt_Qlt. destruct l; [done|simpl; lia]. }
  unfold stat_mean. destruct l as [|x l]; [done|]. rewrite E. eexists. split; [reflexivity|]. split; [|apply of_Q_repr].
  apply of_Q_unit. split; [apply Qle_shift_div_l; lra|apply Qle_shift_div_r; lra].
Qed.

Lemma stat_stdev_unit l : 2 <= length l → Forall (λ x, unit_itv x = true) l →
  ∃ s, stat_stdev l = Ok (Fin s) ∧ (0 <= s)%Q ∧ repr (Fin s).
Proof.
  intros Hn Hl. unfold stat_stdev. destruct (Nat.ltb_spec (length l) 2); [lia|].
  destruct (exact_sum_unit l Hl) as (s & E & Hs). rewrite E.
  destruct (exact_sum_unit (map (λ x, match x with Fin q => Fin (q * q) | _ => x end) l)) as (ss & E2 & Hss).
  { apply Forall_forall. intros x (y & -> & Hy)%list_elem_of_fmap. rewrite Forall_forall in Hl.
    apply Hl, unit_itv_fin in Hy as (q & -> & Hq). apply unit_itv_fin. exists (q * q)%Q. split; [done|]. nra. }
  rewrite E2. rewrite length_map in Hss. set (n := inject_Z (Z.of_nat (length l))) in *.
  assert (2 <= n)%Q as H2 by (change 2%Q with (inject_Z 2); subst n; rewrite <- Zle_Qle; lia).
  destruct (sqrt_Q_small ((n * ss - s * s) / n / (n - 1))) as (r & Er & Hr).
  { apply Qle_shift_div_r; [lra|]. apply Qle_shift_div_r; [lra|]. nra. }
  pose proof (sqrt_Q_repr ((n * ss - s * s) / n / (n - 1))) as Hrep.
  rewrite Er in *. by exists r.
Qed.
