(* ===== verification/PySha256.v ===== *)
(** * SHA-256 (the part of hashlib the identifiers use)

    [hashlib.sha256(data).hexdigest()] on a text of bytes: padding, the message schedule and
    the compression function on 32-bit words kept in [Z]. The sample at the end is the
    standard's test vector. *)

From S2P Require Import Prelude PyData.
From Stdlib Require Import ZArith Ascii Lia.
From stdpp Require Import base list strings.

Open Scope string_scope.
Open Scope list_scope.
Open Scope Z_scope.

(** ** Words *)

Definition word_size : Z := 2 ^ 32.

Definition wadd (x y : Z) : Z := (x + y) mod word_size.

Definition rotr (n x : Z) : Z := Z.lor (Z.shiftr x n) (Z.shiftl x (32 - n) mod word_size).

Definition xor3 (x y z : Z) : Z := Z.lxor x (Z.lxor y z).

Definition sum0 (x : Z) : Z := xor3 (rotr 2 x) (rotr 13 x) (rotr 22 x).
Definition sum1 (x : Z) : Z := xor3 (rotr 6 x) (rotr 11 x) (rotr 25 x).
Definition sigma0 (x : Z) : Z := xor3 (rotr 7 x) (rotr 18 x) (Z.shiftr x 3).
Definition sigma1 (x : Z) : Z := xor3 (rotr 17 x) (rotr 19 x) (Z.shiftr x 10).

Definition choose (x y z : Z) : Z := Z.lxor (Z.land x y) (Z.land (word_size - 1 - x) z).
Definition majority (x y z : Z) : Z := xor3 (Z.land x y) (Z.land x z) (Z.land y z).

(** ** Constants: the first 32 bits of the fractional parts of the roots of the primes *)

Definition is_prime (n : nat) : bool := forallb (λ d, negb (n mod d =? 0)%nat) (seq 2 (n - 2)).

(** The primes of the first 312 numbers: there are 64. *)
Definition primes : list Z := map Z.of_nat (List.filter is_prime (seq 2 310)).

(** The integer cube root by bisection, one bit at a time. *)
Fixpoint cube_root (bits : nat) (n r : Z) : Z :=
  match bits with
  | O => r
  | S b =>
      let r' := r + 2 ^ Z.of_nat b in
      cube_root b n (if r' * r' * r' <=? n then r' else r)
  end.

Definition round_constants : list Z :=
  Eval vm_compute in map (λ p, cube_root 36 (p * 2 ^ 96) 0 mod word_size) primes.

Definition initial_hash : list Z :=
  Eval vm_compute in map (λ p, Z.sqrt (p * 2 ^ 64) mod word_size) (take 8 primes).

(** ** Message *)

Fixpoint be_bytes (n : nat) (z : Z) : list Z :=
  match n with O => [] | S n' => be_bytes n' (z / 256) ++ [z mod 256] end.

(** The bytes, one bit, zeros up to 56 modulo 64, and the length in bits. *)
Definition padded (bytes : list Z) : list Z :=
  let len := Z.of_nat (length bytes) in
  bytes ++ [0x80] ++ replicate (Z.to_nat ((55 - len) mod 64)) 0 ++ be_bytes 8 (8 * len).

(** Groups of four bytes as words. *)
Fixpoint words (bytes : list Z) : list Z :=
  match bytes with
  | a :: b :: c :: d :: rest => (a * 2 ^ 24 + b * 2 ^ 16 + c * 2 ^ 8 + d) :: words rest
  | _ => []
  end.

(** The schedule grows at its head; the last word is the first of the list. *)
Fixpoint extend (n : nat) (w : list Z) : list Z :=
  match n with
  | O => w
  | S n' =>
      let at_ i := nth (Z.to_nat (i - 1)) w 0 in
      extend n' (wadd (wadd (sigma1 (at_ 2)) (at_ 7)) (wadd (sigma0 (at_ 15)) (at_ 16)) :: w)
  end.

Definition schedule (block : list Z) : list Z := rev (extend 48 (rev block)).

Definition round (st : list Z) (kw : Z * Z) : list Z :=
  match st with
  | [a; b; c; d; e; f; g; h] =>
      let t1 := wadd (wadd h (sum1 e)) (wadd (choose e f g) (wadd kw.1 kw.2)) in
      let t2 := wadd (sum0 a) (majority a b c) in
      [wadd t1 t2; a; b; c; wadd d t1; e; f; g]
  | _ => st
  end.

Definition compress (hash block : list Z) : list Z :=
  zip_with wadd hash (fold_left round (zip round_constants (schedule block)) hash).

Fixpoint digest (fuel : nat) (hash ws : list Z) : list Z :=
  match fuel, ws with
  | S fuel', _ :: _ => digest fuel' (compress hash (take 16 ws)) (drop 16 ws)
  | _, _ => hash
  end.

Definition bytes_of (s : string) : list Z := map (λ c, Z.of_nat (code c)) (String.list_ascii_of_string s).

Definition hex_char (z : Z) : ascii :=
  ascii_of_nat (Z.to_nat (if z <? 10 then 48 + z else 87 + z)).

Definition hex_word (z : Z) : string :=
  String.string_of_list_ascii (map (λ i, hex_char (z / 16 ^ i mod 16)) [7; 6; 5; 4; 3; 2; 1; 0]).

(** [hashlib.sha256(s.encode()).hexdigest()] of a text of bytes. *)
Definition sha256_hex (s : string) : string :=
  let ws := words (padded (bytes_of s)) in
  String.concat "" (map hex_word (digest (length ws) initial_hash ws)).

Example sha256_vectors :
  sha256_hex "abc" = "ba7816bf8f01cfea414140de5dae2223b00361a396177a9cb410ff61f20015ad" ∧
  sha256_hex "" = "e3b0c44298fc1c149afbf4c8996fb92427ae41e4649b934ca495991b7852b855" ∧
  sha256_hex "abcdbcdecdefdefgefghfghighijhijkijkljklmklmnlmnomnopnopq"
    = "248d6a61d20638b8e5c026930c3e6039a33ce45964ff2167f6ecedd419db06c1".
Proof. vm_compute. auto. Qed.
