(* ===== verification/PyDifflib.v ===== *)
(** * Parts of the standard library the reconciliation methods use

    [difflib.SequenceMatcher.ratio] with its popular-character heuristic. The file proves
    that the similarity ratio lies in the unit interval, that its recursion ends within the
    fuel given, and that equal texts are similar to degree one. *)

From S2P Require Import Prelude PyFloat PyData PyMath.
From Stdlib Require Import ZArith QArith Qabs Ascii Lqa Lia.
From stdpp Require Import base list strings.

Open Scope string_scope.
Open Scope list_scope.
Open Scope nat_scope.

(** ** [SequenceMatcher] *)

Section matcher.
  (** The characters of the second text that the index leaves out. *)
  Context (popular : ascii → bool).

  (** Lengths of the matches ending at the current character of the first text and at each
      one of the second; [diag] is the length at the previous pair. *)
Fixpoint row_next (c : ascii) (b : list ascii) (prev : list nat) (diag : nat) : list nat :=
    match b, prev with
    | d :: b', p :: prev' =>
        (if Ascii.eqb d c && negb (popular d) then S diag else 0) :: row_next c b' prev' p
    | _, _ => []
    end.

  (** Later matches replace the best one only when they are longer. *)
Fixpoint row_best (i j : nat) (row : list nat) (best : nat * nat * nat) : nat * nat * nat :=
    match row with
    | [] => best
    | k :: row' =>
        row_best i (S j) row' (if best.2 <? k then (S i - k, S j - k, k) else best)
    end.

Fixpoint scan (a b : list ascii) (i : nat) (row : list nat) (best : nat * nat * nat) : nat * nat * nat :=
    match a with
    | [] => best
    | c :: a' => let row' := row_next c b row 0 in scan a' b (S i) row' (row_best i 0 row' best)
    end.

  (** Length of the common prefix. *)
Fixpoint common_prefix (a b : list ascii) : nat :=
    match a, b with
    | c :: a', d :: b' => if Ascii.eqb c d then S (common_prefix a' b') else 0
    | _, _ => 0
    end.

  (** [find_longest_match] on two segments: the indexed match, extended on both sides. *)
Definition find_longest_match (a b : list ascii) : nat * nat * nat :=
    let '(i, j, k) := scan a b 0 (replicate (length b) 0) (0, 0, 0) in
    let e := common_prefix (rev (take i a)) (rev (take j b)) in
    let k' := k + e in
    (i - e, j - e, k' + common_prefix (drop (i + k) a) (drop (j + k) b)).

  (** Total size of the matching blocks of two segments. *)
Fixpoint matches (fuel : nat) (a b : list ascii) : nat :=
    match fuel with
    | 0 => 0
    | S f =>
        let '(i, j, k) := find_longest_match a b in
        if k =? 0 then 0
        else k + matches f (take i a) (take j b) + matches f (drop (i + k) a) (drop (j + k) b)
    end.

Lemma row_next_length c b prev diag : length prev = length b → length (row_next c b prev diag) = length b.
  Proof.
    revert prev diag; induction b as [|d b IH]; intros [|p prev] diag; simpl; try done.
    intros [= H]. by rewrite IH.
  Qed.

  (** A match ending at position [j] of the second text has at most [j + 1] characters,
      and at most as many as the first text has provided. *)
Definition row_ok (n j : nat) (row : list nat) : Prop :=
    ∀ x k, row !! x = Some k → k ≤ n ∧ k ≤ S (j + x).

Lemma row_next_ok c n j b prev diag :
    diag ≤ n → diag ≤ j → row_ok n j prev → row_ok (S n) j (row_next c b prev diag).
  Proof.
    revert j prev diag; induction b as [|d b IH]; intros j [|p prev] diag Hd Hj Hrow; simpl; try (by intros ? ?).
    intros [|x] k; simpl.
    - intros [= <-]. destruct (_ && _); lia.
    - intros Hx. destruct (IH (S j) prev p) with (x := x) (k := k) as [H1 H2]; [..|done|lia].
      + apply (Hrow 0 p eq_refl).
      + destruct (Hrow 0 p eq_refl). lia.
      + intros y k' Hy. destruct (Hrow (S y) k' Hy). lia.
  Qed.

Definition best_ok (n m : nat) (best : nat * nat * nat) : Prop :=
    best.1.1 + best.2 ≤ n ∧ best.1.2 + best.2 ≤ m.

Lemma row_best_ok n m i j row best :
    i < n → j + length row ≤ m → row_ok (S i) j row → best_ok n m best →
    best_ok n m (row_best i j row best) ∧ best.2 ≤ (row_best i j row best).2 ∧
    ∀ x k, row !! x = Some k → k ≤ (row_best i j row best).2.
  Proof.
    revert j best; induction row as [|k row IH]; intros j best Hi Hj Hrow Hb; [by simpl|].
    simpl in *. destruct (Hrow 0 k eq_refl) as [Hk1 Hk2].
    destruct (IH (S j) (if best.2 <? k then (S i - k, S j - k, k) else best)) as (H1 & H2 & H3).
    - done.
    - lia.
    - intros x k' Hx. destruct (Hrow (S x) k' Hx). lia.
    - unfold best_ok in *. destruct (Nat.ltb_spec best.2 k); simpl; lia.
    - split_and!; [done|destruct (Nat.ltb_spec best.2 k); simpl in *; lia|].
      intros [|x] k'; simpl; [|apply H3]. intros [= <-].
      destruct (Nat.ltb_spec best.2 k); simpl in *; lia.
  Qed.

Lemma scan_ok n a b i row best :
    i + length a ≤ n → length row = length b → row_ok i 0 row → best_ok n (length b) best →
    best_ok n (length b) (scan a b i row best) ∧ best.2 ≤ (scan a b i row best).2.
  Proof.
    revert i row best; induction a as [|c a IH]; intros i row best Hi Hlen Hrow Hb; [by simpl|].
    simpl in *. pose proof (row_next_ok c i 0 b row 0 ltac:(lia) ltac:(lia) Hrow) as Hrow'.
    pose proof (row_next_length c b row 0 Hlen) as Hl'.
    destruct (row_best_ok n (length b) i 0 (row_next c b row 0) best) as (H1 & H2 & _);
      [lia|rewrite Hl'; lia|exact Hrow'|done|].
    destruct (IH (S i) (row_next c b row 0) (row_best i 0 (row_next c b row 0) best)) as [H3 H4];
      [lia|done..|]. split; [done|lia].
  Qed.

Lemma row_ok_init m : row_ok 0 0 (replicate m 0).
  Proof. intros x k [-> _]%lookup_replicate. lia. Qed.

Lemma common_prefix_le a b : common_prefix a b ≤ length a ∧ common_prefix a b ≤ length b.
  Proof.
    revert b; induction a as [|c a IH]; intros [|d b]; simpl; try lia.
    destruct (Ascii.eqb c d); [|lia]. destruct (IH b). lia.
  Qed.

Lemma find_longest_ok a b : best_ok (length a) (length b) (find_longest_match a b).
  Proof.
    unfold find_longest_match.
    destruct (scan_ok (length a) a b 0 (replicate (length b) 0) (0, 0, 0)) as [H _];
      [lia|apply length_replicate|apply row_ok_init|unfold best_ok; simpl; lia|].
    destruct (scan a b 0 _ _) as [[i j] k]. unfold best_ok in *. simpl in *.
    destruct (common_prefix_le (rev (take i a)) (rev (take j b))) as [H1 H2].
    destruct (common_prefix_le (drop (i + k) a) (drop (j + k) b)) as [H3 H4].
    rewrite length_rev, length_take in H1, H2. rewrite length_drop in H3, H4. lia.
  Qed.

  (** The blocks never cover more than either text. *)
Lemma matches_le fuel a b : matches fuel a b ≤ length a ∧ matches fuel a b ≤ length b.
  Proof.
    revert a b; induction fuel as [|f IH]; intros a b; simpl; [lia|].
    pose proof (find_longest_ok a b) as Hok. destruct (find_longest_match a b) as [[i j] k].
    unfold best_ok in Hok. simpl in Hok. destruct (Nat.eqb_spec k 0); [lia|].
    destruct (IH (take i a) (take j b)) as [H1 H2].
    destruct (IH (drop (i + k) a) (drop (j + k) b)) as [H3 H4].
    rewrite length_take in H1, H2. rewrite length_drop in H3, H4. lia.
  Qed.

  (** More fuel than the length of the first text changes nothing: the recursion ends. *)
Lemma matches_fuel f a b : length a < f → matches f a b = matches (S (length a)) a b.
  Proof.
    assert (∀ f g a b, length a < f → length a < g → matches f a b = matches g a b) as H.
    { clear. induction f as [|f IH]; intros [|g] a b Hf Hg; try lia. simpl.
      pose proof (find_longest_ok a b) as Hok. destruct (find_longest_match a b) as [[i j] k].
      unfold best_ok in Hok. simpl in Hok. destruct (Nat.eqb_spec k 0); [done|].
      f_equal; [f_equal|]; apply IH; rewrite ?length_take, ?length_drop; lia. }
    intros. apply H; lia.
  Qed.

  (** Two equal texts without popular characters match as a whole. *)
Lemma row_next_diag c b prev diag x :
    length prev = length b → b !! x = Some c → popular c = false →
    row_next c b prev diag !! x = Some (S (match x with 0 => diag | S y => default 0 (prev !! y) end)).
  Proof.
    revert prev diag x; induction b as [|d b IH]; intros [|p prev] diag x Hlen Hx Hp; try done.
    destruct x as [|x]; simpl in *.
    - injection Hx as ->. by rewrite Ascii.eqb_refl, Hp.
    - rewrite IH by (done || lia). by destruct x.
  Qed.

Lemma scan_diag a p row best :
    (∀ c, c ∈ p ++ a → popular c = false) → length row = length (p ++ a) →
    row_ok (length p) 0 row → best_ok (length (p ++ a)) (length (p ++ a)) best →
    length p ≤ best.2 → (∀ y, length p = S y → row !! y = Some (length p)) →
    length (p ++ a) ≤ (scan a (p ++ a) (length p) row best).2.
  Proof.
    revert p row best; induction a as [|c a IH]; intros p row best Hpop Hlen Hrow Hb Hbest Hdiag.
    { simpl. rewrite app_nil_r. lia. }
    simpl. set (b := p ++ c :: a) in *. set (row' := row_next c b row 0).
    assert (length row' = length b) as Hl' by (by apply row_next_length).
    assert (row_ok (S (length p)) 0 row') as Hrow' by (apply row_next_ok; [lia..|done]).
    assert (row' !! length p = Some (S (length p))) as Hd.
    { subst row'. rewrite row_next_diag.
      - f_equal. f_equal. destruct (length p) as [|y] eqn:E; [done|]. by rewrite Hdiag.
      - done.
      - subst b. by rewrite lookup_app_r, Nat.sub_diag by lia.
      - apply Hpop. apply elem_of_app. right. left. }
    destruct (row_best_ok (length b) (length b) (length p) 0 row' best) as (H1 & H2 & H3);
      [subst b; rewrite length_app; simpl; lia|lia|done|done|].
    assert (b = (p ++ [c]) ++ a) as Eb by (subst b; by rewrite <- app_assoc).
    assert (length (p ++ [c]) = S (length p)) as El by (rewrite length_app; simpl; lia).
    rewrite Eb in *. rewrite <- El in *. apply IH; auto.
    - rewrite El. specialize (H3 _ _ Hd). lia.
    - rewrite El. intros y [= <-]. by rewrite Hd, El.
  Qed.

Lemma matches_self a : (∀ c, c ∈ a → popular c = false) → matches (S (length a)) a a = length a.
  Proof.
    intros Hpop. destruct (decide (a = [])) as [->|Hne]; [done|].
    assert (0 < length a) as Hpos by (destruct a; simpl; [done|lia]).
    assert (length a ≤ (find_longest_match a a).2) as Hk.
    { unfold find_longest_match.
      pose proof (scan_diag a [] (replicate (length a) 0) (0, 0, 0)) as Hs. simpl in Hs.
      destruct (scan a a 0 _ _) as [[i j] k]. simpl in *.
      assert (length a ≤ k); [|lia]. apply Hs; [done|apply length_replicate|apply row_ok_init| |lia|done].
      unfold best_ok; simpl; lia. }
    pose proof (find_longest_ok a a) as Hok. simpl.
    destruct (find_longest_match a a) as [[i j] k]. unfold best_ok in Hok. simpl in *.
    destruct (Nat.eqb_spec k 0); [lia|].
    destruct (matches_le (length a) (take i a) (take j a)) as [H1 _].
    destruct (matches_le (length a) (drop (i + k) a) (drop (j + k) a)) as [H2 _].
    rewrite length_take in H1. rewrite length_drop in H2. lia.
  Qed.
End matcher.

(** Characters of a text of 200 or more that occur in more than one percent of it. *)
Definition popular_chars (b : list ascii) (c : ascii) : bool :=
  (200 <=? length b) && (length b / 100 + 1 <? length (filter (λ d, Ascii.eqb d c = true) b)).

(** [SequenceMatcher(None, a, b).ratio()] *)
Definition similarity_ratio (s t : string) : pyfloat :=
  let a := String.list_ascii_of_string s in
  let b := String.list_ascii_of_string t in
  match (length a + length b)%nat with
  | 0 => f1
  | n => of_Q (Qmake (Z.of_nat (2 * matches (popular_chars b) (S (length a)) a b)) (Pos.of_nat n))
  end.

Lemma similarity_ratio_unit s t : unit_itv (similarity_ratio s t) = true.
Proof.
  unfold similarity_ratio. set (a := String.list_ascii_of_string s). set (b := String.list_ascii_of_string t).
  destruct (length a + length b) as [|n] eqn:E; [reflexivity|]. rewrite <- E.
  destruct (matches_le (popular_chars b) (S (length a)) a b) as [H1 H2].
  generalize dependent (matches (popular_chars b) (S (length a)) a b). intros m H1 H2.
  apply of_Q_unit. unfold Qle. cbn [Qnum Qden]. split; [lia|].
  replace (Z.pos (Pos.of_nat (length a + length b))) with (Z.of_nat (length a + length b)) by lia. lia.
Qed.

(** Equal texts of fewer than 200 characters have ratio one. *)
Lemma similarity_ratio_self s : String.length s < 200 → similarity_ratio s s = f1.
Proof.
  intros Hlen. unfold similarity_ratio. set (a := String.list_ascii_of_string s).
  assert (length a < 200) as Ha.
  { subst a. clear -Hlen. revert Hlen. assert (length (String.list_ascii_of_string s) = String.length s) as ->; [|lia].
    induction s; simpl; auto. }
  rewrite matches_self.
  - destruct (length a + length a) as [|n] eqn:E; [done|]. rewrite <- E.
    transitivity (of_Q 1); [|reflexivity]. apply of_Q_comp. unfold Qeq. cbn [Qnum Qden]. lia.
  - intros c _. unfold popular_chars. by rewrite (proj2 (Nat.leb_gt 200 (length a))).
Qed.

Example ratio_samples :
  similarity_ratio "abcd" "bcde" = of_Q (3 # 4) ∧ similarity_ratio "" "" = f1 ∧
  similarity_ratio "nlp service" "search svc" = of_Q (8 # 21) ∧ similarity_ratio "ab" "" = f0.
Proof. vm_compute. auto. Qed.
