(* ===== verification/PyTime.v ===== *)
(** * Datetimes and their calendar forms

    [instant]s are microseconds since 1970-01-01T00:00:00 UTC. This file gives the
    proleptic Gregorian date of an instant as [datetime] computes it, and the text forms
    the code derives from it. *)

From S2P Require Import Prelude PyFloat PyData.
From Stdlib Require Import ZArith Lia.
From stdpp Require Import base list strings pretty.

Open Scope string_scope.
Open Scope list_scope.
Open Scope Z_scope.

(** ** Datetimes *)

Definition instant := Z.

(** [Naive us] has no zone; [Aware us off] is the instant [us] shown at offset [off]. *)
Inductive datetime := Naive (us : Z) | Aware (us : instant) (off : Z).

(** [_aware] / [_to_utc]: a naive value is read as UTC. *)
Definition to_utc (d : datetime) : instant :=
  match d with Naive us => us | Aware us _ => us end.

(** ** Calendar *)

Definition us_per_second : Z := 1000000.
Definition us_per_minute : Z := 60 * us_per_second.
Definition us_per_hour : Z := 60 * us_per_minute.
Definition us_per_day : Z := 24 * us_per_hour.

(** Year, month and day of a day number counted from 1970-01-01. *)
Definition civil_of_days (days : Z) : Z * Z * Z :=
  let z := days + 719468 in
  let era := z / 146097 in
  let doe := z - era * 146097 in
  let yoe := (doe - doe / 1460 + doe / 36524 - doe / 146096) / 365 in
  let doy := doe - (365 * yoe + yoe / 4 - yoe / 100) in
  let mp := (5 * doy + 2) / 153 in
  let d := doy - (153 * mp + 2) / 5 + 1 in
  let m := if mp <? 10 then mp + 3 else mp - 9 in
  (yoe + era * 400 + (if m <=? 2 then 1 else 0), m, d).

Definition date_of (t : instant) : Z * Z * Z := civil_of_days (t / us_per_day).
Definition hour_of (t : instant) : Z := (t mod us_per_day) / us_per_hour.
Definition minute_of (t : instant) : Z := (t mod us_per_hour) / us_per_minute.
Definition second_of (t : instant) : Z := (t mod us_per_minute) / us_per_second.

(** The instants a [datetime] can hold: the years 1 to 9999. *)
Definition in_calendar (t : instant) : bool :=
  (-719162 * us_per_day <=? t) && (t <? 2932897 * us_per_day).

Definition two (z : Z) : string := pad_left 2 (pretty z).

(** [strftime("%Y-%m-%d")] *)
Definition date_text (t : instant) : string :=
  let '(y, m, d) := date_of t in pad_left 4 (pretty y) +:+ "-" +:+ two m +:+ "-" +:+ two d.

(** The text of an instant in UTC with a separator between date and time. *)
Definition time_text (sep : string) (t : instant) : string :=
  let us := t mod us_per_second in
  date_text t +:+ sep +:+ two (hour_of t) +:+ ":" +:+ two (minute_of t) +:+ ":" +:+ two (second_of t)
  +:+ (if us =? 0 then "" else "." +:+ pad_left 6 (pretty us)) +:+ "+00:00".

(** [isoformat()] and [str()] of an instant in UTC. *)
Definition isoformat : instant → string := time_text "T".
Definition datetime_str : instant → string := time_text " ".

(** Seconds between two instants, as [timedelta.total_seconds()]. *)
Definition total_seconds (a b : instant) : pyfloat :=
  of_Q (QArith_base.Qmake (a - b) 1000000).

Lemma minute_of_range t : 0 <= minute_of t < 60.
Proof.
  unfold minute_of. pose proof (Z.mod_pos_bound t us_per_hour ltac:(done)).
  split; [apply Z.div_pos; done || lia|]. apply Z.div_lt_upper_bound; [done|].
  change (us_per_minute * 60) with us_per_hour. lia.
Qed.

Example civil_examples :
  map civil_of_days [0; 11016; 19782; -1] = [(1970, 1, 1); (2000, 2, 29); (2024, 2, 29); (1969, 12, 31)].
Proof. reflexivity. Qed.

Example isoformat_example :
  isoformat (1709210096 * us_per_second + 5) = "2024-02-29T12:34:56.000005+00:00".
Proof. vm_compute. reflexivity. Qed.
