(* ===== verification/PyValue.v ===== *)
(** * Dynamic Python values and their text forms

    [pyval] covers the values stored in [dict[str, Any]] fields (datetimes are aware, in
    UTC): truth, comparison,
    [str], [repr], [json.dumps] and the [f"{x:.nf}"] formats the code applies to them. *)

From S2P Require Import Prelude PyFloat PyData PyTime.
From Stdlib Require Import ZArith QArith Qround Ascii Lia.
From stdpp Require Import base list gmap strings pretty.

Open Scope string_scope.
Open Scope list_scope.
Open Scope nat_scope.

Inductive pyval :=
| VNone
| VBool (b : bool)
| VInt (z : Z)
| VFloat (x : pyfloat)
| VStr (s : string)
| VDate (t : instant)
| VList (l : list pyval)
| VDict (d : list (string * pyval)).

(** [bool(v)] *)
Definition truthy (v : pyval) : bool :=
  match v with
  | VNone => false
  | VBool b => b
  | VInt z => negb (z =? 0)%Z
  | VFloat x => negb (feq x f0)
  | VStr s => match s with EmptyString => false | _ => true end
  | VDate _ => true
  | VList l => match l with [] => false | _ => true end
  | VDict d => match d with [] => false | _ => true end
  end.

(** The exact value of a number; Python compares ints and floats exactly. *)
Definition num_of (v : pyval) : option pyfloat :=
  match v with
  | VBool b => Some (Fin (if b then 1 else 0)%Q)
  | VInt z => Some (Fin (inject_Z z))
  | VFloat x => Some x
  | _ => None
  end.

Fixpoint py_eq (a b : pyval) {struct a} : bool :=
  match a, b with
  | VNone, VNone => true
  | VStr s, VStr t => String.eqb s t
  | VDate s, VDate t => (s =? t)%Z
  | VList l, VList m =>
      (fix go l m := match l, m with
        | [], [] => true
        | x :: l', y :: m' => py_eq x y && go l' m'
        | _, _ => false
        end) l m
  | VDict d, VDict e =>
      (length d =? length e) &&
      (fix go d := match d with
        | [] => true
        | (k, v) :: d' => match od_get k e with Some w => py_eq v w | None => false end && go d'
        end) d
  | _, _ => match num_of a, num_of b with Some x, Some y => feq x y | _, _ => false end
  end.

(** Order of strings by code points. *)
Fixpoint str_lt (s t : string) : bool :=
  match s, t with
  | EmptyString, String _ _ => true
  | String c s', String d t' => (code c <? code d) || (code c =? code d) && str_lt s' t'
  | _, _ => false
  end.

(** [a < b]; values without a common order raise [TypeError]. *)
Fixpoint py_lt (a b : pyval) {struct a} : res bool :=
  match a, b with
  | VStr s, VStr t => Ok (str_lt s t)
  | VDate s, VDate t => Ok (s <? t)%Z
  | VList l, VList m =>
      (fix go l m := match l, m with
        | [], [] => Ok false
        | [], _ :: _ => Ok true
        | _ :: _, [] => Ok false
        | x :: l', y :: m' => if py_eq x y then go l' m' else py_lt x y
        end) l m
  | _, _ => match num_of a, num_of b with Some x, Some y => Ok (flt x y) | _, _ => Raise TypeError end
  end.

(** [v in l] *)
Definition py_in_list (v : pyval) (l : list pyval) : bool := existsb (py_eq v) l.

(** ** Decimal forms *)

(** Decimal digits of [z / 10^n], for [z >= 0]. *)
Definition dec_digits (n : nat) (z : Z) : string :=
  let p := (10 ^ Z.of_nat n)%Z in
  match n with
  | 0 => pretty z
  | _ => pretty (z / p)%Z +:+ "." +:+ pad_left n (pretty (z mod p)%Z)
  end.

(** [f"{x:.nf}"] *)
Definition fmt_fixed (n : nat) (x : pyfloat) : string :=
  match x with
  | Fin q =>
      let body := dec_digits n (rhe (Qabs.Qabs q * inject_Z (10 ^ Z.of_nat n))%Q) in
      if Qle_bool 0 q then body else "-" +:+ body
  | PInf => "inf" | NInf => "-inf" | NaN => "nan"
  end.

(** [f"{x:.0%}"]: the value times 100 in one decimal conversion, then a percent sign. *)
Definition fmt_percent0 (x : pyfloat) : string :=
  fmt_fixed 0 (fmul x (of_Z 100)) +:+ "%".

(** Position of the leading decimal digit of [q > 0]: [10^e <= q < 10^(e+1)]. *)
Fixpoint dec_exp_up (fuel : nat) (q : Q) : Z :=
  match fuel with
  | 0 => 0%Z
  | S f => if Qle_bool 10 q then (1 + dec_exp_up f (Qred (q / 10)))%Z else 0%Z
  end.
Fixpoint dec_exp_down (fuel : nat) (q : Q) : Z :=
  match fuel with
  | 0 => 0%Z
  | S f => if Qle_bool 1 q then 0%Z else (dec_exp_down f (Qred (q * 10)) - 1)%Z
  end.
Definition dec_exp (q : Q) : Z :=
  if Qle_bool 1 q then dec_exp_up 400 q else dec_exp_down 400 q.

Definition scale10 (q : Q) (e : Z) : Q :=
  if (0 <=? e)%Z then (q * inject_Z (10 ^ e))%Q else (q / inject_Z (10 ^ (- e)))%Q.

(** The shortest digit string (as an integer and an exponent) that rounds back to [q]. *)
Fixpoint shortest (fuel n : nat) (q : Q) (e : Z) : Z * Z :=
  let k := (Z.of_nat n - 1 - e)%Z in
  let m := rhe (scale10 q k) in
  match fuel with
  | 0 => (m, k)
  | S f => if feq (of_Q (scale10 (inject_Z m) (- k))) (Fin q) then (m, k) else shortest f (S n) q e
  end.

Fixpoint strip_zeros (fuel : nat) (m k : Z) : Z * Z :=
  match fuel with
  | 0 => (m, k)
  | S f => if (m mod 10 =? 0)%Z then strip_zeros f (m / 10)%Z (k - 1)%Z else (m, k)
  end.

(** [repr(x)] of a finite positive float: fixed notation for exponents in [-4, 16),
    scientific otherwise. *)
Definition repr_pos (q : Q) : string :=
  let e := dec_exp q in
  let '(m0, k0) := shortest 17 1 q e in
  let '(m, k) := strip_zeros 20 m0 k0 in
  let ds := pretty m in
  let len := Z.of_nat (String.length ds) in
  let ex := (len - 1 - k)%Z in
  if (-4 <=? ex)%Z && (ex <? 16)%Z then
    if (k <=? 0)%Z then ds +:+ zeros (Z.to_nat (- k)) +:+ ".0"
    else dec_digits (Z.to_nat k) m
  else
    let mant := match ds with
                | String c EmptyString => ds
                | String c r => String c ("." +:+ r)
                | EmptyString => ds end in
    mant +:+ "e" +:+ (if (ex <? 0)%Z then "-" else "+") +:+ pad_left 2 (pretty (Z.abs ex)).

Definition repr_float (x : pyfloat) : string :=
  match x with
  | Fin q => if Qeq_bool q 0 then "0.0"
             else if Qle_bool 0 q then repr_pos q else "-" +:+ repr_pos (Qred (- q))
  | PInf => "inf" | NInf => "-inf" | NaN => "nan"
  end.

Definition hex_digit (n : nat) : ascii :=
  if n <? 10 then ascii_of_nat (48 + n) else ascii_of_nat (87 + n).
Definition hex2 (n : nat) : string :=
  String (hex_digit (n / 16)) (String (hex_digit (n mod 16)) "").

Definition dq : ascii := ascii_of_nat 34.
Definition sq : ascii := ascii_of_nat 39.
Definition bs : ascii := ascii_of_nat 92.

Fixpoint str_flat_map (f : ascii → string) (s : string) : string :=
  match s with EmptyString => "" | String c s' => f c +:+ str_flat_map f s' end.

(** [repr(s)]: single quotes unless the text has some and no double quote. *)
Definition repr_str (s : string) : string :=
  let q := if str_in (String sq "") s && negb (str_in (String dq "") s) then dq else sq in
  let esc c :=
    let n := code c in
    if Ascii.eqb c q || Ascii.eqb c bs then String bs (String c "")
    else if n =? 10 then String bs "n" else if n =? 13 then String bs "r"
    else if n =? 9 then String bs "t"
    else if (n <? 32) || (127 <=? n) && (n <=? 160) || (n =? 173) then String bs ("x" +:+ hex2 n)
    else String c "" in
  String q (str_flat_map esc s +:+ String q "").

(** [repr] of an aware UTC datetime. *)
Definition datetime_repr (t : instant) : string :=
  let '(y, m, d) := date_of t in
  let part (z : Z) := ", " +:+ pretty z in
  let s := second_of t in
  let us := (t mod us_per_second)%Z in
  "datetime.datetime(" +:+ pretty y +:+ part m +:+ part d +:+ part (hour_of t) +:+ part (minute_of t)
  +:+ (if (s =? 0)%Z && (us =? 0)%Z then "" else part s) +:+ (if (us =? 0)%Z then "" else part us)
  +:+ ", tzinfo=datetime.timezone.utc)".

Fixpoint py_repr (v : pyval) : string :=
  match v with
  | VNone => "None"
  | VBool b => if b then "True" else "False"
  | VInt z => pretty z
  | VFloat x => repr_float x
  | VStr s => repr_str s
  | VDate t => datetime_repr t
  | VList l => "[" +:+ str_join ", " (map py_repr l) +:+ "]"
  | VDict d =>
      "{" +:+ str_join ", " (map (λ kv, repr_str (fst kv) +:+ ": " +:+ py_repr (snd kv)) d) +:+ "}"
  end.

(** [str(v)] *)
Definition py_str (v : pyval) : string := match v with VStr s => s | VDate t => datetime_str t | _ => py_repr v end.

(** One character of a JSON string literal, with [ensure_ascii]. *)
Definition json_esc (c : ascii) : string :=
  let n := code c in
  if Ascii.eqb c dq || Ascii.eqb c bs then String bs (String c "")
  else if n =? 10 then String bs "n" else if n =? 13 then String bs "r"
  else if n =? 9 then String bs "t" else if n =? 12 then String bs "f"
  else if n =? 8 then String bs "b"
  else if (n <? 32) || (126 <? n) then String bs ("u00" +:+ hex2 n)
  else String c "".

(** A JSON string literal. *)
Definition json_str (s : string) : string := String dq (str_flat_map json_esc s +:+ String dq "").

(** [json.dumps(v, default=str, separators=(",", ":"))] *)
Fixpoint json_dumps (v : pyval) : string :=
  match v with
  | VNone => "null"
  | VBool b => if b then "true" else "false"
  | VInt z => pretty z
  | VFloat x => match x with PInf => "Infinity" | NInf => "-Infinity" | NaN => "NaN"
                | _ => repr_float x end
  | VStr s => json_str s
  | VDate t => json_str (datetime_str t)
  | VList l => "[" +:+ str_join "," (map json_dumps l) +:+ "]"
  | VDict d => "{" +:+ str_join "," (map (λ kv, json_str (fst kv) +:+ ":" +:+ json_dumps (snd kv)) d) +:+ "}"
  end.

(** ** Conversions *)

(** [float(v)] for numbers. *)
Definition float_of_num (v : pyval) : option (res pyfloat) :=
  match v with
  | VBool b => Some (Ok (if b then f1 else f0))
  | VInt z => Some (match of_Z z with Fin q => Ok (Fin q) | _ => Raise OverflowError end)
  | VFloat x => Some (Ok x)
  | _ => None
  end.

(** [int(x)] of a float truncates toward zero. *)
Definition int_of_float (x : pyfloat) : res Z :=
  match x with
  | Fin q => Ok (Z.quot (Qnum q) (Zpos (Qden q)))
  | NaN => Raise (ValueError "cannot convert float NaN to integer")
  | _ => Raise OverflowError
  end.

(** [d.get(k, default)] *)
Definition dget (d : odict string pyval) (k : string) (default : pyval) : pyval :=
  match od_get k d with Some v => v | None => default end.

Example repr_examples :
  map repr_float [lit 1 10; of_Z 100; lit 12345 100000; lit 1 100000; of_Z (10 ^ 16);
                  fadd (lit 1 10) (lit 2 10); of_Q (1 # 3)]
  = ["0.1"; "100.0"; "0.12345"; "1e-05"; "1e+16"; "0.30000000000000004"; "0.3333333333333333"].
Proof. vm_compute. reflexivity. Qed.

Example fmt_examples :
  [fmt_fixed 6 (lit 1234567 10000000); fmt_fixed 2 (lit 2675 1000); fmt_fixed 0 (lit 5 2);
   fmt_percent0 (lit 95 100)] = ["0.123457"; "2.67"; "2"; "95%"].
Proof. vm_compute. reflexivity. Qed.
