(* ===== verification/PyIso.v ===== *)
(** * Reading ISO 8601 texts

    [datetime.fromisoformat] of Python 3.12 on the documented formats: calendar dates and
    week dates, with and without separators; a time with or without separators, down to
    fractions of a second; an offset or [Z]. [parse_raw_time] is the reader the connectors
    repeat around it. *)

From S2P Require Import Prelude PyFloat PyData PyTime PyValue.
From Stdlib Require Import ZArith Ascii Lia.
From stdpp Require Import base list strings pretty.

Open Scope string_scope.
Open Scope list_scope.
Open Scope Z_scope.

(** ** Calendar *)

(** Days from 1970-01-01 to a date of the proleptic Gregorian calendar. *)
Definition days_of_civil (y m d : Z) : Z :=
  let y' := if m <=? 2 then y - 1 else y in
  let era := y' / 400 in
  let yoe := y' - era * 400 in
  let doy := (153 * ((m + 9) mod 12) + 2) / 5 + d - 1 in
  let doe := yoe * 365 + yoe / 4 - yoe / 100 + doy in
  era * 146097 + doe - 719468.

Definition is_leap (y : Z) : bool := (y mod 4 =? 0) && (negb (y mod 100 =? 0) || (y mod 400 =? 0)).

Definition days_in_month (y m : Z) : Z :=
  if m =? 2 then (if is_leap y then 29 else 28)
  else if (m =? 4) || (m =? 6) || (m =? 9) || (m =? 11) then 30 else 31.

Definition valid_date (y m d : Z) : bool :=
  (1 <=? y) && (y <=? 9999) && (1 <=? m) && (m <=? 12) && (1 <=? d) && (d <=? days_in_month y m).

(** Monday is 0. *)
Definition weekday (days : Z) : Z := (days + 3) mod 7.

(** The Monday of the first ISO week. *)
Definition iso_week1 (y : Z) : Z :=
  let first := days_of_civil y 1 1 in
  let w := weekday first in
  first - w + (if 3 <? w then 7 else 0).

(** The day of an ISO year, week and day of the week. *)
Definition days_of_week_date (y w d : Z) : option Z :=
  let first := weekday (days_of_civil y 1 1) in
  let long := (first =? 3) || (first =? 2) && is_leap y in
  if (1 <=? y) && (1 <=? w) && ((w <=? 52) || (w =? 53) && long) && (1 <=? d) && (d <=? 7) then
    let days := iso_week1 y + (w - 1) * 7 + d - 1 in
    if in_calendar (days * us_per_day) then Some days else None
  else None.

(** ** Scanning *)

(** Exactly [n] decimal digits: their value and the rest. *)
Fixpoint scan_digits (n : nat) (acc : Z) (s : string) : option (Z * string) :=
  match n, s with
  | O, _ => Some (acc, s)
  | S n, String c s' => match digit_of c with Some d => scan_digits n (10 * acc + d) s' | None => None end
  | _, _ => None
  end.

Definition scan_char (c : ascii) (s : string) : option string :=
  match s with String d s' => if Ascii.eqb c d then Some s' else None | EmptyString => None end.

(** One character of the text. *)
Definition char_is (n : nat) (c : ascii) (s : string) : bool :=
  match String.get n s with Some d => Ascii.eqb c d | None => false end.

Definition digit_at (n : nat) (s : string) : bool :=
  match String.get n s with Some d => bool_decide (is_Some (digit_of d)) | None => false end.

Fixpoint leading_digits (s : string) : nat :=
  match s with
  | String c s' => match digit_of c with Some _ => S (leading_digits s') | None => O end
  | EmptyString => O
  end.

(** Where the date ends: the formats differ in the fifth and sixth characters. *)
Definition separator_location (s : string) : option nat :=
  let len := String.length s in
  if (len <? 7)%nat then None
  else if (len =? 7)%nat then Some 7%nat
  else if char_is 4 "-" s then
    if char_is 5 "W" s then
      if char_is 8 "-" s then
        if (len =? 9)%nat then None
        else if digit_at 10 s then Some 8%nat else Some 10%nat
      else Some 8%nat
    else Some 10%nat
  else if char_is 4 "W" s then
    let pos := (7 + leading_digits (str_drop 7 s))%nat in
    if (pos <? 9)%nat then Some pos else if Nat.even pos then Some 7%nat else Some 8%nat
  else Some 8%nat.

(** The date part, as a day number. *)
Definition scan_date (s : string) : option Z :=
  y ← scan_digits 4 0 s;
  let '(y, s) := y in
  let sep := char_is 0 "-" s in
  let s := if sep then str_drop 1 s else s in
  if char_is 0 "W" s then
    w ← scan_digits 2 0 (str_drop 1 s);
    let '(w, s) := w in
    match s with
    | EmptyString => days_of_week_date y w 1
    | _ => s ← (if sep then scan_char "-" s else Some s);
           d ← scan_digits 1 0 s;
           let '(d, s) := d in
           if String.eqb s "" then days_of_week_date y w d else None
    end
  else
    m ← scan_digits 2 0 s;
    let '(m, s) := m in
    s ← (if sep then scan_char "-" s else Some s);
    d ← scan_digits 2 0 s;
    let '(d, s) := d in
    if String.eqb s "" && valid_date y m d then Some (days_of_civil y m d) else None.

(** Digits after the decimal mark, in microseconds; further digits are dropped. *)
Definition scan_fraction (s : string) : option Z :=
  let n := leading_digits s in
  if (n =? 0)%nat || negb (n =? String.length s)%nat then None
  else let k := Nat.min n 6 in
       match scan_digits k 0 s with
       | Some (v, _) => Some (v * 10 ^ (6 - Z.of_nat k))
       | None => None
       end.

(** [HH[:?MM[:?SS[(.|,)f+]]]]: hours, minutes, seconds and microseconds. *)
Definition scan_time (s : string) : option (Z * Z * Z * Z) :=
  h ← scan_digits 2 0 s;
  let '(h, s) := h in
  if String.eqb s "" then Some (h, 0, 0, 0) else
  let sep := char_is 0 ":" s in
  m ← scan_digits 2 0 (if sep then str_drop 1 s else s);
  let '(m, s) := m in
  if String.eqb s "" then Some (h, m, 0, 0) else
  s ← (if sep then scan_char ":" s else Some s);
  x ← scan_digits 2 0 s;
  let '(x, s) := x in
  if String.eqb s "" then Some (h, m, x, 0) else
  if char_is 0 "." s || char_is 0 "," s
  then f ← scan_fraction (str_drop 1 s); Some (h, m, x, f)
  else None.

(** Where the offset starts. *)
Fixpoint offset_location (s : string) : nat :=
  match s with
  | String c s' => if Ascii.eqb c "+" || Ascii.eqb c "-" || Ascii.eqb c "Z" then O else S (offset_location s')
  | EmptyString => O
  end.

Definition us_of_time (t : Z * Z * Z * Z) : Z :=
  let '(h, m, x, f) := t in h * us_per_hour + m * us_per_minute + x * us_per_second + f.

Definition valid_time (t : Z * Z * Z * Z) : bool :=
  let '(h, m, x, f) := t in (h <=? 23) && (m <=? 59) && (x <=? 59).

(** An offset: [Z], or a sign and a time of less than a day. *)
Definition scan_offset (s : string) : option Z :=
  if String.eqb s "Z" then Some 0 else
  o ← scan_time (str_drop 1 s);
  let us := us_of_time o in
  if us <? us_per_day then Some (if char_is 0 "-" s then - us else us) else None.

(** [datetime.fromisoformat(s)]; nothing stands for [ValueError]. *)
Definition fromisoformat (s : string) : option datetime :=
  loc ← separator_location s;
  days ← scan_date (str_take loc s);
  let rest := str_drop (S loc) s in
  if String.eqb rest "" then Some (Naive (days * us_per_day)) else
  let n := offset_location rest in
  t ← scan_time (str_take n rest);
  if negb (valid_time t) then None else
  let local := days * us_per_day + us_of_time t in
  if (n =? String.length rest)%nat then Some (Naive local)
  else off ← scan_offset (str_drop n rest); Some (Aware (local - off) off).

Example fromisoformat_examples :
  map fromisoformat
    ["2024-02-29T12:34:56.000005+00:00"; "20240229T123456Z"; "2024-02-29"; "2024-02-29 12:34:56,5-0530"; "2024-W09-4"]
  = [Some (Aware (1709210096 * us_per_second + 5) 0); Some (Aware (1709210096 * us_per_second) 0);
     Some (Naive (19782 * us_per_day)); Some (Aware (1709229896500000) (- 19800 * us_per_second));
     Some (Naive (19782 * us_per_day))] ∧
  map fromisoformat ["2024-02-30"; "2023-02-29T00:00"; "2024-02-29T24:00"; "yesterday"; "2024-02-29T1:00"; ""; "2024-02"]
  = [None; None; None; None; None; None; None].
Proof. by vm_compute. Qed.

(** ** Event times *)

(** The text handed to the reader. *)
Definition iso_text (raw_time : pyval) : string :=
  let value := strip (py_str raw_time) in
  if endswith value "Z" then str_take (String.length value - 1) value +:+ "+00:00" else value.

(** [_parse_event_time] and [_parse_timestamp] of the connectors: [now] when the value is
    missing or unreadable. A datetime value of the payload is already an instant. *)
Definition parse_raw_time (raw_time : pyval) (now : instant) : res instant :=
  match raw_time with
  | VDate t => Ok t
  | _ =>
      if negb (truthy raw_time) then Ok now else
      match fromisoformat (iso_text raw_time) with
      | None => Ok now
      | Some (Naive us) => Ok us
      | Some (Aware us _) => if in_calendar us then Ok us else Raise OverflowError
      end
  end.

(** Whether a value gives a time of its own. *)
Definition time_known (raw_time : pyval) : bool :=
  match raw_time with
  | VDate _ => true
  | _ => truthy raw_time && bool_decide (is_Some (fromisoformat (iso_text raw_time)))
  end.

Lemma time_known_fixed raw_time now1 now2 :
  time_known raw_time = true → parse_raw_time raw_time now1 = parse_raw_time raw_time now2.
Proof.
  unfold time_known, parse_raw_time. destruct raw_time; try done;
    (destruct (truthy _); [|done]; intros [? Ht]%bool_decide_eq_true_1; cbn [negb]; by rewrite Ht).
Qed.
