(* ===== verification/PyText.v ===== *)
(** * Decimal fields and the order of texts

    Fixed-width decimal numbers inside a text: what padding a number gives, how it is read
    back, and how texts built of such fields compare. *)

From S2P Require Import Prelude PyFloat PyData PyTime PyIso.
From Stdlib Require Import ZArith Ascii Lia.
From stdpp Require Import base list strings pretty.

Open Scope string_scope.
Open Scope list_scope.
Open Scope Z_scope.

(** ** Texts *)

Lemma str_app_cons x (a b : string) : String x a +:+ b = String x (a +:+ b).
Proof. done. Qed.

Lemma str_app_assoc_r (a b c : string) : (a +:+ b) +:+ c = a +:+ (b +:+ c).
Proof. induction a as [|x a IH]; [done|]. by rewrite !str_app_cons, IH. Qed.

Lemma str_length_app (a b : string) : String.length (a +:+ b) = (String.length a + String.length b)%nat.
Proof. induction a as [|c a IH]; [done|]. rewrite str_app_cons. simpl. by rewrite IH. Qed.

Lemma str_app_nil_r (a : string) : a +:+ "" = a.
Proof. induction a as [|c a IH]; [done|]. by rewrite str_app_cons, IH. Qed.

Lemma str_app_inj_l (a b c : string) : a +:+ b = a +:+ c → b = c.
Proof. induction a as [|x a IH]; [done|]. rewrite !str_app_cons. intros [= E]. by apply IH. Qed.

Lemma str_take_app (n : nat) (a b : string) : String.length a = n → str_take n (a +:+ b) = a.
Proof. revert n. induction a as [|c a IH]; intros n <-; [by destruct b|]. rewrite str_app_cons. simpl. by rewrite IH. Qed.

Lemma str_drop_app (n : nat) (a b : string) : String.length a = n → str_drop n (a +:+ b) = b.
Proof. revert n. induction a as [|c a IH]; intros n <-; [by destruct b|]. rewrite str_app_cons. simpl. by rewrite IH. Qed.

(** First one order, then the other. *)
Definition lexc (c1 c2 : comparison) : comparison := match c1 with Eq => c2 | c => c end.

Lemma compare_app (a b s t : string) : String.length a = String.length b →
  String.compare (a +:+ s) (b +:+ t) = lexc (String.compare a b) (String.compare s t).
Proof.
  revert b. induction a as [|c a IH]; intros [|d b] Hl; try done. injection Hl as Hl. rewrite !str_app_cons. simpl.
  destruct (Ascii.compare c d); [by apply IH|done..].
Qed.

Lemma compare_refl (a : string) : String.compare a a = Eq.
Proof. induction a as [|c a IH]; [done|]. simpl. unfold Ascii.compare. by rewrite N.compare_refl. Qed.

Lemma lexc_assoc a b c : lexc (lexc a b) c = lexc a (lexc b c).
Proof. by destruct a. Qed.

(** Comparison by quotients, then by remainders. *)
Lemma compare_div (k a b : Z) : 0 < k → (a ?= b) = lexc (a / k ?= b / k) (a mod k ?= b mod k).
Proof.
  intros Hk. pose proof (Z.div_mod a k ltac:(lia)). pose proof (Z.div_mod b k ltac:(lia)).
  pose proof (Z.mod_pos_bound a k Hk). pose proof (Z.mod_pos_bound b k Hk).
  destruct (Z.compare_spec (a / k) (b / k)) as [E|L|L]; simpl.
  - destruct (Z.compare_spec (a mod k) (b mod k)); [apply Z.compare_eq_iff|apply Z.compare_lt_iff|apply Z.compare_gt_iff]; nia.
  - apply Z.compare_lt_iff. nia.
  - apply Z.compare_gt_iff. nia.
Qed.

(** ** Decimal fields *)

Definition digit_char (z : Z) : ascii := pretty_N_char (Z.to_N z).

Definition char1 (c : ascii) : string := String c "".

(** The last [w] decimal digits of a number. *)
Fixpoint digits (w : nat) (z : Z) : string :=
  match w with O => "" | S w => digits w (z / 10) +:+ char1 (digit_char (z mod 10)) end.

Lemma digits_length w z : String.length (digits w z) = w.
Proof. revert z. induction w as [|w IH]; intros z; [done|]. cbn [digits]. rewrite str_length_app, IH. simpl. lia. Qed.

(** A statement about all digits. *)
Lemma digit_cases (P : Z → Prop) z : 0 <= z < 10 → P 0 → P 1 → P 2 → P 3 → P 4 → P 5 → P 6 → P 7 → P 8 → P 9 → P z.
Proof.
  intros Hz. assert (z = 0 ∨ z = 1 ∨ z = 2 ∨ z = 3 ∨ z = 4 ∨ z = 5 ∨ z = 6 ∨ z = 7 ∨ z = 8 ∨ z = 9) as Hc by lia.
  repeat destruct Hc as [->|Hc]; subst; auto.
Qed.

Lemma digit_of_char z : 0 <= z < 10 → digit_of (digit_char z) = Some z.
Proof. intros Hz. by apply (digit_cases (λ z, digit_of (digit_char z) = Some z)). Qed.

Lemma digit_char_compare a b : 0 <= a < 10 → 0 <= b < 10 → Ascii.compare (digit_char a) (digit_char b) = (a ?= b).
Proof.
  intros Ha Hb. apply (digit_cases (λ a, Ascii.compare (digit_char a) (digit_char b) = (a ?= b))); [done|..];
    by apply (digit_cases (λ b, Ascii.compare (digit_char _) (digit_char b) = (_ ?= b))).
Qed.

Lemma digits_zero w : digits w 0 = zeros w.
Proof.
  assert (∀ w, zeros w +:+ "0" = zeros (S w)) as Hz by (clear w; induction w as [|w IH]; [done|]; cbn [zeros] in *; by rewrite str_app_cons, IH).
  induction w as [|w IH]; [done|]. cbn [digits]. change (0 / 10) with 0. rewrite IH. apply Hz.
Qed.

Lemma pow10_S w : 10 ^ Z.of_nat (S w) = 10 * 10 ^ Z.of_nat w.
Proof. rewrite Nat2Z.inj_succ, Z.pow_succ_r by lia. done. Qed.

Lemma pretty_go_digits w n s : Z.of_N n < 10 ^ Z.of_nat w →
  zeros (w + String.length s - String.length (pretty_N_go n s)) +:+ pretty_N_go n s = digits w (Z.of_N n) +:+ s.
Proof.
  revert n s. induction w as [|w IH]; intros n s Hn.
  { assert (n = 0)%N as -> by (cbn in Hn; lia). rewrite pretty_N_go_0. cbn. by rewrite Nat.sub_diag. }
  destruct (N.eq_dec n 0%N) as [->|H0].
  { rewrite pretty_N_go_0. change (Z.of_N 0%N) with 0. rewrite digits_zero. do 2 f_equal. lia. }
  rewrite pretty_N_go_step by lia. cbn [digits]. rewrite str_app_assoc_r.
  replace (S w + String.length s)%nat with (w + String.length (String (pretty_N_char (n mod 10)) s))%nat by (simpl; lia).
  rewrite IH.
  - rewrite N2Z.inj_div. f_equal. unfold char1, digit_char.
    replace (Z.of_N n mod 10) with (Z.of_N (n mod 10)%N) by (by rewrite N2Z.inj_mod). by rewrite N2Z.id.
  - rewrite N2Z.inj_div. apply Z.div_lt_upper_bound; [lia|]. by rewrite <- pow10_S.
Qed.

(** Zero padding gives the field of the width. *)
Lemma pad_left_digits w z : (1 <= w)%nat → 0 <= z < 10 ^ Z.of_nat w → pad_left w (pretty z) = digits w z.
Proof.
  intros Hw Hz. destruct z as [|p|p]; [|..|lia].
  - rewrite digits_zero. destruct w as [|w]; [lia|]. change (pretty 0) with "0". unfold pad_left. simpl. rewrite Nat.sub_0_r.
    clear. induction w as [|w IH]; [done|]. cbn [zeros]. by rewrite str_app_cons, IH.
  - unfold pad_left. change (pretty (Z.pos p)) with (pretty_N_go (N.pos p) "").
    pose proof (pretty_go_digits w (N.pos p) "" ltac:(simpl; lia)) as E. rewrite str_app_nil_r in E. simpl in E.
    by rewrite Nat.add_0_r in E.
Qed.

(** Reading a field back. *)
Lemma scan_digits_app a b acc s : scan_digits (a + b) acc s = (r ← scan_digits a acc s; scan_digits b r.1 r.2).
Proof.
  revert acc s. induction a as [|a IH]; intros acc s; [done|]. simpl. destruct s as [|c s]; [done|].
  destruct (digit_of c); [apply IH|done].
Qed.

Lemma scan_digits_field w acc z s : 0 <= z < 10 ^ Z.of_nat w →
  scan_digits w acc (digits w z +:+ s) = Some (acc * 10 ^ Z.of_nat w + z, s).
Proof.
  revert acc z s. induction w as [|w IH]; intros acc z s Hz.
  { cbn in Hz. replace z with 0 by lia. cbn. do 2 f_equal. lia. }
  rewrite pow10_S in Hz |- *. replace (S w) with (w + 1)%nat by lia. rewrite scan_digits_app.
  replace (w + 1)%nat with (S w) by lia. cbn [digits]. rewrite str_app_assoc_r, IH.
  - cbn [mbind option_bind fst snd]. unfold char1. simpl. rewrite digit_of_char by (apply Z.mod_pos_bound; lia).
    do 2 f_equal. pose proof (Z.div_mod z 10 ltac:(lia)). lia.
  - split; [apply Z.div_pos; lia|]. apply Z.div_lt_upper_bound; lia.
Qed.

(** Fields of one width compare as their numbers. *)
Lemma digits_compare w a b : 0 <= a < 10 ^ Z.of_nat w → 0 <= b < 10 ^ Z.of_nat w →
  String.compare (digits w a) (digits w b) = (a ?= b).
Proof.
  revert a b. induction w as [|w IH]; intros a b Ha Hb.
  { cbn in *. replace a with 0 by lia. by replace b with 0 by lia. }
  rewrite pow10_S in Ha, Hb. cbn [digits]. rewrite compare_app by (by rewrite !digits_length).
  rewrite IH by (split; [apply Z.div_pos; lia|apply Z.div_lt_upper_bound; lia]).
  rewrite (compare_div 10 a b) by lia. f_equal. unfold char1. simpl.
  rewrite digit_char_compare by (apply Z.mod_pos_bound; lia). by destruct (a mod 10 ?= b mod 10).
Qed.

(** The first digit of a field. *)
Lemma digits_head w z : digits (S w) z = String (digit_char (z / 10 ^ Z.of_nat w mod 10)) (digits w z).
Proof.
  revert z. induction w as [|w IH]; intros z; [by rewrite Z.div_1_r|].
  change (digits (S (S w)) z) with (digits (S w) (z / 10) +:+ char1 (digit_char (z mod 10))). rewrite IH, str_app_cons.
  rewrite Z.div_div, <- pow10_S by lia. done.
Qed.

Lemma leading_digits_digits w z : leading_digits (digits w z) = w.
Proof.
  revert z. induction w as [|w IH]; intros z; [done|]. rewrite digits_head. cbn [leading_digits].
  rewrite digit_of_char by (apply Z.mod_pos_bound; lia). by rewrite IH.
Qed.

(** *** Marks between fields *)

Lemma drop_mark c s : str_drop 1 (char1 c +:+ s) = s.
Proof. unfold char1. rewrite str_app_cons. simpl. by destruct s. Qed.

Lemma mark_char_is c s : char_is 0 c (char1 c +:+ s) = true.
Proof. unfold char_is, char1. rewrite str_app_cons. simpl. apply Ascii.eqb_refl. Qed.
