(* ===== verification/PyIsoText.v ===== *)
(** * The texts of instants: their order and their reading

    [isoformat] of UTC instants in the calendar, as the graph backend and the schemas store
    them: the order of the texts is the order of the instants, and [fromisoformat] reads each
    text back. The Gregorian calendar repeats after 146097 days, so what holds of one period by
    computation holds of all days. *)

From S2P Require Import Prelude PyFloat PyData PyTime PyIso PyText.
From Stdlib Require Import ZArith Ascii Lia.
From stdpp Require Import base list strings pretty numbers.

Open Scope string_scope.
Open Scope list_scope.
Open Scope Z_scope.

(** ** The calendar *)

Definition date_key (date : Z * Z * Z) : Z := let '(y, m, d) := date in y * 10000 + m * 100 + d.

(** A day's year counted from March, and the day in it. *)
Definition day_of_era (days : Z) : Z := (days + 719468) mod 146097.
Definition year_of_era (doe : Z) : Z := (doe - doe / 1460 + doe / 36524 - doe / 146096) / 365.
Definition march_year (days : Z) : Z := (days + 719468) / 146097 * 400 + year_of_era (day_of_era days).
Definition march_day (days : Z) : Z :=
  let doe := day_of_era days in let yoe := year_of_era doe in doe - (365 * yoe + yoe / 4 - yoe / 100).

(** Month and day of a day counted from March, and whether they are in the next year. *)
Definition month_of (doy : Z) : Z := let mp := (5 * doy + 2) / 153 in if mp <? 10 then mp + 3 else mp - 9.
Definition mday_of (doy : Z) : Z := doy - (153 * ((5 * doy + 2) / 153) + 2) / 5 + 1.
Definition carry (doy : Z) : Z := if month_of doy <=? 2 then 1 else 0.

Lemma civil_march days :
  civil_of_days days = (march_year days + carry (march_day days), month_of (march_day days), mday_of (march_day days)).
Proof.
  unfold civil_of_days, carry, month_of, mday_of, march_year, march_day, year_of_era, day_of_era.
  rewrite (Z.mod_eq (days + 719468) 146097) by lia. cbn zeta.
  replace (days + 719468 - (days + 719468) / 146097 * 146097) with (days + 719468 - 146097 * ((days + 719468) / 146097)) by lia.
  f_equal. f_equal. lia.
Qed.

Lemma year_of_era_range doe : 0 <= doe < 146097 →
  let yoe := year_of_era doe in let doy := doe - (365 * yoe + yoe / 4 - yoe / 100) in
  0 <= yoe <= 399 ∧ 0 <= doy <= 365 ∧
  (doy = 365 → (yoe + 1) mod 4 = 0 ∧ ((yoe + 1) mod 100 ≠ 0 ∨ (yoe + 1) mod 400 = 0)).
Proof. intros H. cbn zeta. unfold year_of_era. zify; Z.to_euclidean_division_equations; lia. Qed.

Lemma march_range days : 0 <= march_day days <= 365.
Proof. unfold march_day. pose proof (year_of_era_range (day_of_era days) (Z.mod_pos_bound (days + 719468) 146097 ltac:(done))) as (_ & H & _). exact H. Qed.

(** From a day to the next one: in the same year, or to the next first of March. *)
Lemma march_step days :
  (march_year (days + 1) = march_year days ∧ march_day (days + 1) = march_day days + 1) ∨
  (march_year (days + 1) = march_year days + 1 ∧ march_day (days + 1) = 0).
Proof.
  unfold march_year, march_day, day_of_era. cbn zeta.
  set (n := days + 719468). replace (days + 1 + 719468) with (n + 1) by lia.
  assert ((n mod 146097 = 146096 ∧ (n + 1) mod 146097 = 0 ∧ (n + 1) / 146097 = n / 146097 + 1) ∨
          (0 <= n mod 146097 < 146096 ∧ (n + 1) mod 146097 = n mod 146097 + 1 ∧ (n + 1) / 146097 = n / 146097)) as [(E1 & E2 & E3)|(E1 & E2 & E3)]
    by (zify; Z.to_euclidean_division_equations; lia).
  - right. rewrite E1, E2, E3. change (year_of_era 146096) with 399. change (year_of_era 0) with 0. split; [lia|done].
  - rewrite E2, E3. clear E2 E3. revert E1. generalize (n mod 146097). intros doe Hdoe.
    pose proof (year_of_era_range doe ltac:(lia)) as (Hy & Hd & Hl). pose proof (year_of_era_range (doe + 1) ltac:(lia)) as (Hy' & Hd' & _).
    assert (year_of_era (doe + 1) = year_of_era doe ∨ year_of_era (doe + 1) = year_of_era doe + 1) as Hcase
      by (unfold year_of_era; clear -Hdoe; zify; Z.to_euclidean_division_equations; lia).
    cbn zeta in *. revert Hy Hd Hl Hy' Hd' Hcase. generalize (year_of_era doe) (year_of_era (doe + 1)). intros y y' Hy Hd Hl Hy' Hd' [->| ->].
    + left. lia.
    + right. zify; Z.to_euclidean_division_equations; lia.
Qed.

(** The days of a year by computation: dates grow, are in range, and count the days. *)
Definition march_day_ok (doy : Z) : bool :=
  let m := month_of doy in let d := mday_of doy in
  (1 <=? m) && (m <=? 12) && (1 <=? d) && (d <=? 31) && (d <=? days_in_month (if doy =? 365 then 2024 else 2023) m) &&
  (10000 * carry doy + 100 * m + d <=? 10229) && (301 <=? 10000 * carry doy + 100 * m + d) &&
  (10000 * carry doy + 100 * m + d <? 10000 * carry (doy + 1) + 100 * month_of (doy + 1) + mday_of (doy + 1)) &&
  ((153 * ((m + 9) mod 12) + 2) / 5 + d - 1 =? doy).

Lemma march_days_ok : forallb march_day_ok (seqZ 0 366) = true.
Proof. vm_compute. reflexivity. Qed.

Lemma march_day_facts doy : 0 <= doy <= 365 → march_day_ok doy = true.
Proof. intros H. pose proof march_days_ok as Hok. rewrite forallb_forall in Hok. apply Hok, list_elem_of_In, elem_of_seqZ. lia. Qed.

(** The date of a day, in range, names the day. *)
Lemma civil_range days y m d : civil_of_days days = (y, m, d) →
  1 <= m <= 12 ∧ 1 <= d <= days_in_month y m ∧ d <= 31 ∧ days_of_civil y m d = days.
Proof.
  rewrite civil_march. intros [= <- <- <-]. pose proof (march_range days) as Hr. pose proof (march_day_facts _ Hr) as Hok.
  unfold march_day_ok in Hok. rewrite !andb_true_iff, !Z.leb_le, !Z.ltb_lt, Z.eqb_eq in Hok.
  destruct Hok as ((((((((Hm1 & Hm2) & Hd1) & Hd2) & Hd3) & _) & _) & _) & Hdoy).
  pose proof (Z.mod_pos_bound (days + 719468) 146097 ltac:(done)) as Hdoe.
  pose proof (year_of_era_range (day_of_era days) Hdoe) as (Hy & _ & Hleap). cbn zeta in Hleap.
  split; [lia|]. split; [split; [lia|]|split; [lia|]].
  - destruct (Z.eqb_spec (march_day days) 365) as [E|E].
    + rewrite E. change (carry 365) with 1. change (mday_of 365) with 29. change (month_of 365) with 2.
      assert (is_leap (march_year days + 1) = true) as Hl; [|unfold days_in_month; rewrite Hl; done].
      unfold is_leap, march_year. change (march_day days) with (day_of_era days - (365 * year_of_era (day_of_era days)
        + year_of_era (day_of_era days) / 4 - year_of_era (day_of_era days) / 100)) in E.
      destruct (Hleap E) as [H4 H100]. clear - H4 H100.
      set (q := (days + 719468) / 146097). set (y := year_of_era (day_of_era days)) in *. clearbody q y.
      replace ((q * 400 + y + 1) mod 4) with 0 by (zify; Z.to_euclidean_division_equations; lia). cbn [andb Z.eqb].
      destruct (Z.eqb_spec ((q * 400 + y + 1) mod 100) 0) as [E1|]; [|done]. cbn [negb orb]. apply Z.eqb_eq.
      zify; Z.to_euclidean_division_equations; lia.
    + etransitivity; [exact Hd3|]. unfold days_in_month. change (is_leap 2023) with false.
      destruct (month_of _ =? 2); [|done]. by destruct (is_leap _).
  - unfold days_of_civil.
    assert ((if month_of (march_day days) <=? 2 then march_year days + carry (march_day days) - 1
             else march_year days + carry (march_day days)) = march_year days) as -> by (unfold carry; destruct (_ <=? 2); lia).
    cbn zeta. rewrite Hdoy. change (march_day days) with (day_of_era days - (365 * year_of_era (day_of_era days)
        + year_of_era (day_of_era days) / 4 - year_of_era (day_of_era days) / 100)).
    unfold march_year. rewrite Z.div_add_l by lia. rewrite (Z.div_small (year_of_era _) 400) by lia.
    replace ((days + 719468) / 146097 * 400 + year_of_era (day_of_era days) - ((days + 719468) / 146097 + 0) * 400) with (year_of_era (day_of_era days)) by lia.
    unfold day_of_era at 1 5. pose proof (Z.div_mod (days + 719468) 146097 ltac:(done)). fold (day_of_era days) in *. lia.
Qed.

Lemma key_step days : date_key (civil_of_days days) < date_key (civil_of_days (days + 1)).
Proof.
  rewrite !civil_march. cbn [date_key]. pose proof (march_day_facts _ (march_range days)) as Hok.
  unfold march_day_ok in Hok. rewrite !andb_true_iff, !Z.leb_le, !Z.ltb_lt, Z.eqb_eq in Hok.
  destruct (march_step days) as [[-> ->]|[-> ->]]; [lia|]. change (carry 0) with 0. change (month_of 0) with 3. change (mday_of 0) with 1. lia.
Qed.

Lemma key_mono a b : a < b → date_key (civil_of_days a) < date_key (civil_of_days b).
Proof.
  intros H. replace b with (a + 1 + (b - a - 1)) by lia.
  generalize (Z.le_0_sub (a + 1) b). intros [_ Hn]. specialize (Hn ltac:(lia)).
  replace (b - a - 1) with (b - (a + 1)) by lia. revert Hn. generalize (b - (a + 1)). clear H b.
  apply natlike_ind; [rewrite Z.add_0_r; apply key_step|]. intros n Hn IH.
  replace (a + 1 + Z.succ n) with (a + 1 + n + 1) by lia. pose proof (key_step (a + 1 + n)). lia.
Qed.

(** Dates compare as days. *)
Lemma date_compare a b y m d y' m' d' : civil_of_days a = (y, m, d) → civil_of_days b = (y', m', d') →
  lexc (y ?= y') (lexc (m ?= m') (d ?= d')) = (a ?= b).
Proof.
  intros Ea Eb. pose proof (civil_range a _ _ _ Ea) as (Hm & Hd & Hd' & _). pose proof (civil_range b _ _ _ Eb) as (Hm2 & Hd2 & Hd2' & _).
  transitivity (date_key (y, m, d) ?= date_key (y', m', d')).
  - cbn [date_key]. symmetry.
    destruct (Z.compare_spec y y') as [->|H|H], (Z.compare_spec m m') as [->|H'|H'], (Z.compare_spec d d') as [->|H''|H'']; cbn [lexc];
      first [apply Z.compare_eq_iff; lia|apply Z.compare_lt_iff; lia|apply Z.compare_gt_iff; lia].
  - rewrite <- Ea, <- Eb. destruct (Z.compare_spec a b) as [->|H|H].
    + apply Z.compare_refl.
    + by apply Z.compare_lt_iff, key_mono.
    + by apply Z.compare_gt_iff, key_mono.
Qed.

(** ** The fields of a text *)

Definition frac_text (us : Z) : string := (if us =? 0 then "" else "." +:+ digits 6 us) +:+ "+00:00".

(** The text of a date and a time of day. *)
Definition fields (y m d h mi s us : Z) : string :=
  digits 4 y +:+ "-" +:+ digits 2 m +:+ "-" +:+ digits 2 d +:+ "T" +:+
  digits 2 h +:+ ":" +:+ digits 2 mi +:+ ":" +:+ digits 2 s +:+ frac_text us.

Lemma hour_range t : 0 <= hour_of t < 24.
Proof. unfold hour_of, us_per_day, us_per_hour, us_per_minute, us_per_second. zify; Z.to_euclidean_division_equations; lia. Qed.

Lemma second_range t : 0 <= second_of t < 60.
Proof. unfold second_of, us_per_minute, us_per_second. zify; Z.to_euclidean_division_equations; lia. Qed.

Lemma us_range t : 0 <= t mod us_per_second < 1000000.
Proof. by apply Z.mod_pos_bound. Qed.

(** The years of the calendar have four digits. *)
Lemma year_range t y m d : in_calendar t = true → date_of t = (y, m, d) → 1 <= y <= 9999.
Proof.
  unfold in_calendar, date_of. rewrite andb_true_iff, Z.leb_le, Z.ltb_lt. intros [Hlo Hhi] E.
  assert (-719162 <= t / us_per_day <= 2932896) as Hday.
  { unfold us_per_day, us_per_hour, us_per_minute, us_per_second in *. zify; Z.to_euclidean_division_equations; lia. }
  pose proof (civil_range _ _ _ _ E) as (Hm & Hd & Hd' & _).
  assert (date_key (civil_of_days (-719162)) <= date_key (y, m, d)) as H1.
  { rewrite <- E. destruct (Z.eq_dec (t / us_per_day) (-719162)) as [->|]; [done|]. apply Z.lt_le_incl, key_mono. lia. }
  assert (date_key (y, m, d) <= date_key (civil_of_days 2932896)) as H2.
  { rewrite <- E. destruct (Z.eq_dec (t / us_per_day) 2932896) as [->|]; [done|]. apply Z.lt_le_incl, key_mono. lia. }
  change (date_key (civil_of_days (-719162))) with 10101 in H1. change (date_key (civil_of_days 2932896)) with 99991231 in H2.
  cbn [date_key] in *. lia.
Qed.

Lemma isoformat_fields t y m d : in_calendar t = true → date_of t = (y, m, d) →
  isoformat t = fields y m d (hour_of t) (minute_of t) (second_of t) (t mod us_per_second).
Proof.
  intros Hc E. pose proof (year_range t y m d Hc E). pose proof (civil_range _ _ _ _ E) as (Hm & Hd & Hd' & _).
  pose proof (hour_range t). pose proof (minute_of_range t). pose proof (second_range t). pose proof (us_range t).
  unfold isoformat, time_text, date_text, fields, frac_text, two. rewrite E.
  rewrite !pad_left_digits by (change (10 ^ Z.of_nat 4) with 10000; change (10 ^ Z.of_nat 2) with 100; change (10 ^ Z.of_nat 6) with 1000000; lia).
  by rewrite !str_app_assoc_r.
Qed.

(** ** The order of the texts *)

Lemma frac_compare a b : 0 <= a < 1000000 → 0 <= b < 1000000 → String.compare (frac_text a) (frac_text b) = (a ?= b).
Proof.
  intros Ha Hb. unfold frac_text. destruct (Z.eqb_spec a 0) as [->|Na], (Z.eqb_spec b 0) as [->|Nb].
  - done.
  - symmetry. apply Z.compare_lt_iff. lia.
  - symmetry. apply Z.compare_gt_iff. lia.
  - rewrite !str_app_assoc_r. rewrite compare_app by done. rewrite compare_app by (by rewrite !digits_length).
    rewrite digits_compare by done. cbn [lexc]. rewrite compare_refl. by destruct (a ?= b).
Qed.

(** Two fields of one width after another. *)
Lemma field_compare w a b s t : 0 <= a < 10 ^ Z.of_nat w → 0 <= b < 10 ^ Z.of_nat w →
  String.compare (digits w a +:+ s) (digits w b +:+ t) = lexc (a ?= b) (String.compare s t).
Proof. intros Ha Hb. rewrite compare_app by (by rewrite !digits_length). by rewrite digits_compare. Qed.

Lemma same_prefix c s t : String.compare (char1 c +:+ s) (char1 c +:+ t) = String.compare s t.
Proof. unfold char1. rewrite !str_app_cons. simpl. unfold Ascii.compare. by rewrite N.compare_refl. Qed.

Lemma mod_mod_mul a k m : 0 < k → 0 < m → (a mod (k * m)) mod k = a mod k.
Proof. intros Hk Hm. rewrite (Z.mod_eq a (k * m)) by nia. replace (a - k * m * (a / (k * m))) with (a + - (m * (a / (k * m))) * k) by ring. by rewrite Z.mod_add by lia. Qed.

(** Instants compare by day, hour, minute, second and microsecond. *)
Lemma instant_compare s t :
  (s ?= t) = lexc (s / us_per_day ?= t / us_per_day) (lexc (hour_of s ?= hour_of t) (lexc (minute_of s ?= minute_of t)
               (lexc (second_of s ?= second_of t) (s mod us_per_second ?= t mod us_per_second)))).
Proof.
  rewrite (compare_div us_per_day s t) by done. f_equal.
  rewrite (compare_div us_per_hour (s mod us_per_day)) by done. f_equal.
  change us_per_day with (us_per_hour * 24). rewrite !mod_mod_mul by done.
  rewrite (compare_div us_per_minute (s mod us_per_hour)) by done. f_equal.
  change us_per_hour with (us_per_minute * 60). rewrite !mod_mod_mul by done.
  rewrite (compare_div us_per_second (s mod us_per_minute)) by done. f_equal.
  change us_per_minute with (us_per_second * 60). by rewrite !mod_mod_mul by done.
Qed.

(** The texts of instants of the calendar are ordered as the instants: fields have fixed widths, and
    the sign of the offset comes before the decimal point. *)
Lemma isoformat_compare s t : in_calendar s = true → in_calendar t = true → String.compare (isoformat s) (isoformat t) = (s ?= t).
Proof.
  intros Hs Ht. destruct (date_of s) as [[y m] d] eqn:Es, (date_of t) as [[y' m'] d'] eqn:Et.
  rewrite (isoformat_fields s y m d Hs Es), (isoformat_fields t y' m' d' Ht Et). unfold fields.
  pose proof (year_range s y m d Hs Es). pose proof (civil_range _ _ _ _ Es) as (Hm & Hd & Hd' & _).
  pose proof (year_range t y' m' d' Ht Et). pose proof (civil_range _ _ _ _ Et) as (Hm2 & Hd2 & Hd2' & _).
  pose proof (hour_range s). pose proof (minute_of_range s). pose proof (second_range s).
  pose proof (hour_range t). pose proof (minute_of_range t). pose proof (second_range t).
  rewrite instant_compare, <- (date_compare _ _ _ _ _ _ _ _ Es Et).
  rewrite !lexc_assoc. change "-" with (char1 "-"%char). change "T" with (char1 "T"%char). change ":" with (char1 ":"%char).
  do 6 (rewrite field_compare by (change (10 ^ Z.of_nat 4) with 10000; change (10 ^ Z.of_nat 2) with 100; lia); f_equal; rewrite ?same_prefix).
  by apply frac_compare; apply us_range.
Qed.

(** ** Reading the texts back *)

Lemma get_app n (a s : string) : String.length a = n → String.get n (a +:+ s) = String.get 0 s.
Proof. revert n. induction a as [|c a IH]; intros n <-; [done|]. rewrite str_app_cons. simpl. by apply IH. Qed.

Lemma digits_S w z : digits (S w) z = digits w (z / 10) +:+ char1 (digit_char (z mod 10)).
Proof. done. Qed.

(** A property of all characters of a field. *)
Fixpoint all_chars (p : ascii → bool) (s : string) : bool :=
  match s with EmptyString => true | String c s => p c && all_chars p s end.

Lemma all_chars_app p a b : all_chars p (a +:+ b) = all_chars p a && all_chars p b.
Proof. induction a as [|c a IH]; [done|]. rewrite str_app_cons. simpl. by rewrite IH, andb_assoc. Qed.

Lemma digits_all p w z : (∀ i, 0 <= i < 10 → p (digit_char i) = true) → all_chars p (digits w z) = true.
Proof.
  intros Hp. revert z. induction w as [|w IH]; intros z; [done|]. rewrite digits_S, all_chars_app, IH. simpl.
  rewrite Hp; [done|]. apply Z.mod_pos_bound. lia.
Qed.

(** No digit is a mark. *)
Definition marks : list ascii := ["+"; "-"; "Z"; "W"; ":"; "."; ","]%char.

Definition no_mark (c : ascii) : bool := negb (existsb (Ascii.eqb c) marks).

Lemma digit_no_mark i : 0 <= i < 10 → no_mark (digit_char i) = true.
Proof. intros Hi. by apply (digit_cases (λ i, no_mark (digit_char i) = true)). Qed.

Lemma field_char_is c w z s : c ∈ marks → char_is 0 c (digits (S w) z +:+ s) = false.
Proof.
  intros Hc. pose proof (digits_all no_mark (S w) z digit_no_mark) as Hall.
  pose proof (digits_length (S w) z) as Hl. destruct (digits (S w) z) as [|x r]; [done|]. rewrite str_app_cons.
  unfold char_is. simpl in *. apply andb_true_iff in Hall as [Hx _]. unfold no_mark in Hx. apply negb_true_iff in Hx.
  destruct (Ascii.eqb_spec c x) as [->|]; [|done].
  assert (existsb (Ascii.eqb x) marks = true); [|congruence]. apply existsb_exists. exists x. split; [by apply list_elem_of_In|apply Ascii.eqb_refl].
Qed.

Lemma offset_location_skip a s : all_chars (λ c, negb (Ascii.eqb c "+" || Ascii.eqb c "-" || Ascii.eqb c "Z")) a = true →
  offset_location (a +:+ s) = (String.length a + offset_location s)%nat.
Proof.
  induction a as [|c a IH]; [done|]. rewrite str_app_cons. cbn [all_chars]. rewrite andb_true_iff, negb_true_iff. intros [Hc Ha].
  cbn [offset_location]. rewrite Hc. cbn [String.length]. rewrite IH by done. lia.
Qed.

Definition date_field (y m d : Z) : string := digits 4 y +:+ "-" +:+ digits 2 m +:+ "-" +:+ digits 2 d.

Definition clock_field (h mi s us : Z) : string :=
  digits 2 h +:+ ":" +:+ digits 2 mi +:+ ":" +:+ digits 2 s +:+ (if us =? 0 then "" else "." +:+ digits 6 us).

Lemma fields_split y m d h mi s us : fields y m d h mi s us = date_field y m d +:+ ("T" +:+ (clock_field h mi s us +:+ "+00:00")).
Proof. unfold fields, date_field, clock_field, frac_text. by rewrite !str_app_assoc_r. Qed.

Lemma scan_field_2 acc z s : 0 <= z < 100 → scan_digits 2 acc (digits 2 z +:+ s) = Some (acc * 100 + z, s).
Proof. intros Hz. by apply (scan_digits_field 2). Qed.

Lemma scan_date_field y m d : valid_date y m d = true → scan_date (date_field y m d) = Some (days_of_civil y m d).
Proof.
  intros Hv. pose proof Hv as Hv'. unfold valid_date in Hv'. rewrite !andb_true_iff, !Z.leb_le in Hv'.
  assert (d <= 31) as Hd by (unfold days_in_month in Hv'; repeat case_match; lia).
  unfold scan_date, date_field. rewrite scan_digits_field by (change (10 ^ Z.of_nat 4) with 10000; lia).
  cbn [mbind option_bind]. change "-" with (char1 "-"%char). rewrite mark_char_is.
  change (str_drop 1 (char1 "-"%char +:+ ?s)) with s.
  change (str_drop 1 (char1 "-"%char +:+ digits 2 m +:+ char1 "-"%char +:+ digits 2 d)) with (digits 2 m +:+ char1 "-"%char +:+ digits 2 d).
  rewrite field_char_is by (by repeat (first [left|right])). rewrite scan_field_2 by lia. cbn [mbind option_bind].
  change (scan_char "-"%char (char1 "-"%char +:+ digits 2 d)) with (Some (digits 2 d)). cbn [mbind option_bind].
  rewrite <- (str_app_nil_r (digits 2 d)), scan_field_2 by lia. cbn [mbind option_bind].
  change (String.eqb "" "") with true. cbn [andb]. replace (0 * 10 ^ Z.of_nat 4 + y) with y by lia. replace (0 * 100 + m) with m by lia. replace (0 * 100 + d) with d by lia.
  by rewrite Hv.
Qed.

Lemma mark_not_empty c s : String.eqb (char1 c +:+ s) "" = false.
Proof. done. Qed.

Lemma scan_fraction_field us : 0 <= us < 1000000 → scan_fraction (digits 6 us) = Some us.
Proof.
  intros Hu. unfold scan_fraction. rewrite leading_digits_digits, digits_length. cbn [Nat.eqb negb orb Nat.min].
  rewrite <- (str_app_nil_r (digits 6 us)), scan_digits_field by done. change (10 ^ (6 - Z.of_nat 6)) with 1. f_equal. lia.
Qed.

Lemma scan_time_field h mi s us : 0 <= h < 24 → 0 <= mi < 60 → 0 <= s < 60 → 0 <= us < 1000000 →
  scan_time (clock_field h mi s us) = Some (h, mi, s, us).
Proof.
  intros Hh Hm Hs Hu. unfold scan_time, clock_field.
  rewrite scan_field_2 by lia. cbn [mbind option_bind]. change ":" with (char1 ":"%char).
  rewrite mark_not_empty, mark_char_is, drop_mark. cbn iota.
  rewrite scan_field_2 by lia. cbn [mbind option_bind]. rewrite mark_not_empty.
  change (scan_char ":"%char (char1 ":"%char +:+ ?x)) with (Some x). cbn [mbind option_bind].
  rewrite scan_field_2 by lia. cbn [mbind option_bind].
  replace (0 * 100 + h) with h by lia. replace (0 * 100 + mi) with mi by lia. replace (0 * 100 + s) with s by lia.
  destruct (Z.eqb_spec us 0) as [->|Nu]; [done|]. change "." with (char1 "."%char).
  rewrite mark_not_empty, mark_char_is, drop_mark. cbn [orb]. by rewrite scan_fraction_field.
Qed.

Definition no_offset_mark (c : ascii) : bool := negb (Ascii.eqb c "+" || Ascii.eqb c "-" || Ascii.eqb c "Z").

Lemma clock_field_plain h mi s us : all_chars no_offset_mark (clock_field h mi s us) = true.
Proof.
  assert (∀ i, 0 <= i < 10 → no_offset_mark (digit_char i) = true) as Hd
    by (intros i Hi; by apply (digit_cases (λ i, no_offset_mark (digit_char i) = true))).
  unfold clock_field. rewrite !all_chars_app, !digits_all by done. cbn [andb]. destruct (us =? 0); [done|].
  by rewrite all_chars_app, digits_all.
Qed.

Lemma clock_field_not_empty h mi s us r : String.eqb (clock_field h mi s us +:+ r) "" = false.
Proof.
  unfold clock_field. change 2%nat with (S 1). rewrite digits_S, !str_app_assoc_r.
  pose proof (digits_length 1 (h / 10)) as Hl. by destruct (digits 1 (h / 10)).
Qed.

Lemma date_field_length y m d : String.length (date_field y m d) = 10%nat.
Proof. unfold date_field. by rewrite !str_length_app, !digits_length. Qed.

Lemma date_field_location y m d s : (0 < String.length s)%nat → separator_location (date_field y m d +:+ s) = Some 10%nat.
Proof.
  intros Hs. unfold separator_location. rewrite str_length_app, date_field_length.
  destruct (Nat.ltb_spec (10 + String.length s) 7); [lia|]. destruct (Nat.eqb_spec (10 + String.length s) 7); [lia|].
  assert (char_is 4 "-" (date_field y m d +:+ s) = true) as ->.
  { unfold date_field. rewrite !str_app_assoc_r. unfold char_is. rewrite get_app by apply digits_length. done. }
  assert (char_is 5 "W" (date_field y m d +:+ s) = false) as ->; [|done].
  unfold date_field. change (digits 4 y +:+ "-" +:+ digits 2 m +:+ "-" +:+ digits 2 d)
    with (digits 4 y +:+ (char1 "-"%char +:+ (digits 2 m +:+ (char1 "-"%char +:+ digits 2 d)))).
  rewrite !str_app_assoc_r, <- (str_app_assoc_r (digits 4 y)). unfold char_is.
  rewrite get_app by (by rewrite str_length_app, digits_length).
  apply (field_char_is "W"%char 1 m (char1 "-"%char +:+ digits 2 d +:+ s)). by repeat (first [left|right]).
Qed.

Lemma instant_split t : t / us_per_day * us_per_day + us_of_time (hour_of t, minute_of t, second_of t, t mod us_per_second) = t.
Proof.
  unfold us_of_time, hour_of, minute_of, second_of, us_per_day, us_per_hour, us_per_minute, us_per_second.
  zify; Z.to_euclidean_division_equations; lia.
Qed.

(** Every instant of the calendar is read back from its text. *)
Lemma fromisoformat_isoformat t : in_calendar t = true → fromisoformat (isoformat t) = Some (Aware t 0).
Proof.
  intros Hc. destruct (date_of t) as [[y m] d] eqn:E.
  pose proof (year_range t y m d Hc E). pose proof (civil_range _ _ _ _ E) as (Hm & Hd & Hd' & Hdays).
  pose proof (hour_range t). pose proof (minute_of_range t). pose proof (second_range t). pose proof (us_range t).
  rewrite (isoformat_fields t y m d Hc E), fields_split. unfold fromisoformat.
  rewrite date_field_location by (cbn [String.length]; rewrite str_app_cons; simpl; lia). cbn [mbind option_bind].
  rewrite (str_take_app 10) by apply date_field_length. rewrite scan_date_field.
  2:{ unfold valid_date. rewrite !andb_true_iff, !Z.leb_le. lia. }
  cbn [mbind option_bind]. rewrite <- str_app_assoc_r.
  rewrite (str_drop_app 11) by (by rewrite str_length_app, date_field_length).
  rewrite clock_field_not_empty, (offset_location_skip (clock_field _ _ _ _)) by apply clock_field_plain.
  change (offset_location "+00:00") with O. rewrite Nat.add_0_r, str_take_app by done.
  rewrite scan_time_field by done. cbn [mbind option_bind].
  assert (valid_time (hour_of t, minute_of t, second_of t, t mod us_per_second) = true) as ->.
  { unfold valid_time. rewrite !andb_true_iff, !Z.leb_le. lia. }
  cbn [negb]. rewrite str_length_app. destruct (Nat.eqb_spec (String.length (clock_field (hour_of t) (minute_of t) (second_of t) (t mod us_per_second)))
    (String.length (clock_field (hour_of t) (minute_of t) (second_of t) (t mod us_per_second)) + String.length "+00:00")) as [E1|_].
  { cbn [String.length] in E1. lia. }
  rewrite str_drop_app by done. change (scan_offset "+00:00") with (Some 0). cbn [mbind option_bind].
  rewrite Hdays, instant_split. by rewrite Z.sub_0_r.
Qed.
