(* ===== verification/PyJson.v ===== *)
(** * Reading JSON texts

    [json.loads] of the standard library: white space, the literals, strings with their
    escapes, numbers, arrays, and objects whose last value of a repeated key wins. Texts are
    of code points below 256, as all texts of the development; the escape of a larger code
    point has no counterpart and is not read. What [json.dumps] writes is read back, dates as
    the texts that [default=str] made of them. *)

From S2P Require Import Prelude PyFloat PyData PyTime PyValue PyIso PyText.
From Stdlib Require Import ZArith QArith Ascii Lia.
From stdpp Require Import base list strings pretty numbers.

Open Scope string_scope.
Open Scope list_scope.
Open Scope Z_scope.

(** ** Scanner *)

Definition is_space (c : ascii) : bool :=
  Ascii.eqb c " " || Ascii.eqb c (ascii_of_nat 9) || Ascii.eqb c (ascii_of_nat 10) || Ascii.eqb c (ascii_of_nat 13).

Fixpoint skip_space (s : string) : string :=
  match s with String c s' => if is_space c then skip_space s' else s | EmptyString => "" end.

Definition hex_value (c : ascii) : option nat :=
  let n := code c in
  if (48 <=? n)%nat && (n <=? 57)%nat then Some (n - 48)%nat
  else if (97 <=? n)%nat && (n <=? 102)%nat then Some (n - 87)%nat
  else if (65 <=? n)%nat && (n <=? 70)%nat then Some (n - 55)%nat else None.

(** The character of [\uXXXX], if it is below 256. *)
Definition unescape_u (a b c d : ascii) : option ascii :=
  x ← hex_value a; y ← hex_value b; z ← hex_value c; w ← hex_value d;
  if (x =? 0)%nat && (y =? 0)%nat then Some (ascii_of_nat (16 * z + w)) else None.

(** The character of a one-letter escape. *)
Definition unescape (c : ascii) : option ascii :=
  if Ascii.eqb c dq || Ascii.eqb c bs || Ascii.eqb c "/" then Some c
  else if Ascii.eqb c "b" then Some (ascii_of_nat 8) else if Ascii.eqb c "f" then Some (ascii_of_nat 12)
  else if Ascii.eqb c "n" then Some (ascii_of_nat 10) else if Ascii.eqb c "r" then Some (ascii_of_nat 13)
  else if Ascii.eqb c "t" then Some (ascii_of_nat 9) else None.

Definition cons_char (c : ascii) (r : option (string * string)) : option (string * string) :=
  r ← r; Some (String c r.1, r.2).

(** A string after its opening quote; control characters are not allowed. *)
Fixpoint scan_string (s : string) : option (string * string) :=
  match s with
  | EmptyString => None
  | String x s' =>
      if Ascii.eqb x dq then Some ("", s')
      else if Ascii.eqb x bs then
        match s' with
        | String e s'' =>
            if Ascii.eqb e "u" then
              match s'' with
              | String a (String b (String c (String d r))) =>
                  match unescape_u a b c d with Some x => cons_char x (scan_string r) | None => None end
              | _ => None
              end
            else match unescape e with Some x => cons_char x (scan_string s'') | None => None end
        | EmptyString => None
        end
      else if (code x <? 32)%nat then None else cons_char x (scan_string s')
  end.

(** The exponent of a number after its [e]; without digits there is none. *)
Definition scan_exponent (s : string) : option (Z * string) :=
  let minus := char_is 0 "-" s in
  let s := if minus || char_is 0 "+" s then str_drop 1 s else s in
  let n := leading_digits s in
  if (n =? 0)%nat then None else
  r ← scan_digits n 0 s; Some (if minus then - r.1 else r.1, r.2).

(** A number: an integer unless it has a fraction or an exponent. *)
Definition scan_number (s : string) : option (pyval * string) :=
  let minus := char_is 0 "-" s in
  let s := if minus then str_drop 1 s else s in
  let n := if char_is 0 "0" s then 1%nat else leading_digits s in
  if (n =? 0)%nat then None else
  i ← scan_digits n 0 s;
  let nf := if char_is 0 "." i.2 then leading_digits (str_drop 1 i.2) else 0%nat in
  f ← (if (nf =? 0)%nat then Some (0, i.2) else scan_digits nf 0 (str_drop 1 i.2));
  let x := if char_is 0 "e" f.2 || char_is 0 "E" f.2 then scan_exponent (str_drop 1 f.2) else None in
  let signed z := if minus then - z else z in
  let mantissa := signed (i.1 * 10 ^ Z.of_nat nf + f.1) in
  match x with
  | Some (e, r) => Some (VFloat (of_Q (scale10 (inject_Z mantissa) (e - Z.of_nat nf))), r)
  | None => if (nf =? 0)%nat then Some (VInt (signed i.1), f.2)
            else Some (VFloat (of_Q (scale10 (inject_Z mantissa) (- Z.of_nat nf))), f.2)
  end.

(** The rest of the text after a word at its start. *)
Definition after (word s : string) : option string :=
  if startswith s word then Some (str_drop (String.length word) s) else None.

Definition scan_literal (word : string) (v : pyval) (s : string) : option (pyval * string) :=
  r ← after word s; Some (v, r).

Section collections.
  Context (scan : string → option (pyval * string)).

  (** The elements of an array, from its first one. *)
Fixpoint scan_items (fuel : nat) (s : string) : option (list pyval * string) :=
    match fuel with
    | O => None
    | S fuel =>
        x ← scan s;
        match skip_space x.2 with
        | String c r => if Ascii.eqb c "]" then Some ([x.1], r)
                        else if Ascii.eqb c "," then l ← scan_items fuel (skip_space r); Some (x.1 :: l.1, l.2)
                        else None
        | EmptyString => None
        end
    end.

  (** The members of an object, from its first one. *)
Fixpoint scan_members (fuel : nat) (s : string) : option (list (string * pyval) * string) :=
    match fuel with
    | O => None
    | S fuel =>
        s ← scan_char dq s;
        k ← scan_string s;
        s ← scan_char ":" (skip_space k.2);
        x ← scan (skip_space s);
        match skip_space x.2 with
        | String c r => if Ascii.eqb c "}" then Some ([(k.1, x.1)], r)
                        else if Ascii.eqb c "," then l ← scan_members fuel (skip_space r); Some ((k.1, x.1) :: l.1, l.2)
                        else None
        | EmptyString => None
        end
    end.
End collections.

(** [dict(pairs)] *)
Definition dict_of (l : list (string * pyval)) : odict string pyval := od_update [] l.

(** One value; [fuel] bounds the nesting and the lengths of the collections. *)
Fixpoint scan_value (fuel : nat) (s : string) : option (pyval * string) :=
  match fuel, s with
  | S fuel, String c r =>
      if Ascii.eqb c dq then x ← scan_string r; Some (VStr x.1, x.2)
      else if Ascii.eqb c "{" then
        match skip_space r with
        | String d r' => if Ascii.eqb d "}" then Some (VDict [], r')
                         else m ← scan_members (scan_value fuel) fuel (skip_space r); Some (VDict (dict_of m.1), m.2)
        | EmptyString => None
        end
      else if Ascii.eqb c "[" then
        match skip_space r with
        | String d r' => if Ascii.eqb d "]" then Some (VList [], r')
                         else l ← scan_items (scan_value fuel) fuel (skip_space r); Some (VList l.1, l.2)
        | EmptyString => None
        end
      else if Ascii.eqb c "n" then scan_literal "null" VNone s
      else if Ascii.eqb c "t" then scan_literal "true" (VBool true) s
      else if Ascii.eqb c "f" then scan_literal "false" (VBool false) s
      else if Ascii.eqb c "N" then scan_literal "NaN" (VFloat NaN) s
      else if Ascii.eqb c "I" then scan_literal "Infinity" (VFloat PInf) s
      else match scan_literal "-Infinity" (VFloat NInf) s with Some r => Some r | None => scan_number s end
  | _, _ => None
  end.

(** [json.loads(s)]; nothing stands for [JSONDecodeError]. *)
Definition json_loads (s : string) : option pyval :=
  r ← scan_value (S (String.length s)) (skip_space s);
  if String.eqb (skip_space r.2) "" then Some r.1 else None.

Abbreviation q_ := (String dq "").

Example json_loads_examples :
  map json_loads ["[1, -2.5e1 ,true,null]"; "{" +:+ q_ +:+ "a" +:+ q_ +:+ ": {}}"; q_ +:+ "x" +:+ String bs "u0041" +:+ q_; " 007"; "[1,]"; "1."; ""]
  = [Some (VList [VInt 1; VFloat (of_Z (-25)); VBool true; VNone]); Some (VDict [("a", VDict [])]); Some (VStr "xA");
     None; None; None; None].
Proof. vm_compute. reflexivity. Qed.

(** ** What is written is read back *)

(** What a value becomes by being written and read. *)
Fixpoint json_back (v : pyval) : pyval :=
  match v with
  | VDate t => VStr (datetime_str t)
  | VList l => VList (map json_back l)
  | VDict d => VDict (map (λ kv, (fst kv, json_back (snd kv))) d)
  | _ => v
  end.

(** The float whose shortest text is read back as itself. *)
Definition float_ok (x : pyfloat) : bool :=
  match x with
  | Fin q => match scan_number (repr_float x) with
             | Some (VFloat (Fin r), rest) => (Qnum r =? Qnum q) && (Qden r =? Qden q)%positive && String.eqb rest ""
             | _ => false
             end
  | _ => true
  end.

(** Values as Python holds them: keys of a dict are distinct, and floats are binary64. *)
Fixpoint json_ok (v : pyval) : bool :=
  match v with
  | VFloat x => float_ok x
  | VList l => forallb json_ok l
  | VDict d => bool_decide (NoDup (map fst d)) && forallb (λ kv, json_ok (snd kv)) d
  | _ => true
  end.

Lemma pyval_nested_ind (P : pyval → Prop)
  (Hnone : P VNone) (Hbool : ∀ b, P (VBool b)) (Hint : ∀ z, P (VInt z)) (Hfloat : ∀ x, P (VFloat x))
  (Hstr : ∀ s, P (VStr s)) (Hdate : ∀ t, P (VDate t))
  (Hlist : ∀ l, Forall P l → P (VList l)) (Hdict : ∀ d, Forall (λ kv, P (snd kv)) d → P (VDict d)) : ∀ v, P v.
Proof.
  fix IH 1. intros [|b|z|x|s|t|l|d]; [done|done|done|done|done|done| |].
  - apply Hlist. induction l as [|v l IHl]; constructor; [apply IH|exact IHl].
  - apply Hdict. induction d as [|[k v] d IHd]; constructor; [apply IH|exact IHd].
Qed.

(** *** Strings *)

Lemma scan_escaped c t : scan_string (json_esc c +:+ t) = cons_char c (scan_string t).
Proof. destruct c as [[] [] [] [] [] [] [] []]; reflexivity. Qed.

Lemma scan_string_written s t : scan_string (str_flat_map json_esc s +:+ String dq t) = Some (s, t).
Proof.
  induction s as [|c s IH]; [done|]. cbn [str_flat_map]. rewrite str_app_assoc_r, scan_escaped, IH. done.
Qed.

Lemma json_str_app s t : json_str s +:+ t = String dq (str_flat_map json_esc s +:+ String dq t).
Proof. unfold json_str. rewrite str_app_cons, str_app_assoc_r. done. Qed.

(** *** Numbers *)

(** A text after which no number continues. *)
Definition ends (s : string) : bool :=
  match s with EmptyString => true | String c _ => existsb (Ascii.eqb c) [","%char; "]"%char; "}"%char] end.

Lemma ends_facts s : ends s = true → leading_digits s = O ∧ char_is 0 "." s = false ∧ char_is 0 "e" s = false ∧
  char_is 0 "E" s = false ∧ char_is 0 "-" s = false ∧ char_is 0 "+" s = false ∧ char_is 0 "0" s = false.
Proof.
  destruct s as [|c s]; [done|]. intros (d & Hd & Hc%Ascii.eqb_eq)%existsb_exists. subst d.
  repeat (destruct Hd as [<-|Hd]; [done|]). done.
Qed.

Lemma char_is_app c s t : char_is 0 c t = false → char_is 0 c (s +:+ t) = char_is 0 c s.
Proof. by destruct s. Qed.

Lemma drop1_app c s t : char_is 0 c s = true → str_drop 1 (s +:+ t) = str_drop 1 s +:+ t.
Proof. destruct s as [|d s]; [done|]. intros _. rewrite str_app_cons. by destruct s, t. Qed.

Lemma leading_digits_app s t : leading_digits t = O → leading_digits (s +:+ t) = leading_digits s.
Proof. intros Ht. induction s as [|c s IH]; [done|]. rewrite str_app_cons. simpl. by rewrite IH. Qed.

Lemma scan_digits_app_r n acc s t r : scan_digits n acc s = Some r → scan_digits n acc (s +:+ t) = Some (r.1, r.2 +:+ t).
Proof.
  revert acc s. induction n as [|n IH]; intros acc s; [by intros [= <-]|]. destruct s as [|c s]; [done|].
  rewrite str_app_cons. simpl. destruct (digit_of c); [apply IH|done].
Qed.

Lemma scan_exponent_app s t : ends t = true →
  scan_exponent (s +:+ t) = (r ← scan_exponent s; Some (r.1, r.2 +:+ t)).
Proof.
  intros (Hd & _ & _ & _ & Hm & Hp & _)%ends_facts. unfold scan_exponent. rewrite !char_is_app by done.
  assert ((if char_is 0 "-" s || char_is 0 "+" s then str_drop 1 (s +:+ t) else s +:+ t)
          = (if char_is 0 "-" s || char_is 0 "+" s then str_drop 1 s else s) +:+ t) as ->.
  { destruct (char_is 0 "-" s) eqn:E1; [by eapply drop1_app|]. destruct (char_is 0 "+" s) eqn:E2; [by eapply drop1_app|done]. }
  generalize (if char_is 0 "-" s || char_is 0 "+" s then str_drop 1 s else s). intros u.
  rewrite leading_digits_app by done. destruct (_ =? 0)%nat; [done|].
  assert (∃ r, scan_digits (leading_digits u) 0 u = Some r) as [r Er].
  { generalize 0. induction u as [|c u IH]; intros acc; [by eexists|]. simpl. destruct (digit_of c) eqn:E; [|by eexists].
    simpl. rewrite E. apply IH. }
  rewrite Er. by rewrite (scan_digits_app_r _ _ _ _ _ Er).
Qed.

(** A number read to its end is read the same before a separator. *)
Lemma scan_number_app s t r : ends t = true → scan_number s = Some r → scan_number (s +:+ t) = Some (r.1, r.2 +:+ t).
Proof.
  intros Hends. pose proof (ends_facts t Hends) as (Hd & Hdot & He & HE & Hm & Hp & H0). unfold scan_number.
  rewrite (char_is_app "-") by done.
  assert ((if char_is 0 "-" s then str_drop 1 (s +:+ t) else s +:+ t) = (if char_is 0 "-" s then str_drop 1 s else s) +:+ t) as ->.
  { destruct (char_is 0 "-" s) eqn:E; [by eapply drop1_app|done]. }
  generalize (char_is 0 "-" s), (if char_is 0 "-" s then str_drop 1 s else s). intros minus u.
  rewrite (char_is_app "0") by done. rewrite (leading_digits_app u) by done. destruct (_ =? 0)%nat; [done|].
  destruct (scan_digits _ 0 u) as [[i w]|] eqn:Ei; [|done]. rewrite (scan_digits_app_r _ _ _ _ _ Ei). cbn [mbind option_bind fst snd].
  rewrite (char_is_app ".") by done.
  assert ((if char_is 0 "." w then leading_digits (str_drop 1 (w +:+ t)) else 0)%nat
          = (if char_is 0 "." w then leading_digits (str_drop 1 w) else 0)%nat) as ->.
  { destruct (char_is 0 "." w) eqn:E; [|done]. by rewrite (drop1_app _ _ _ E), leading_digits_app. }
  set (nf := (if char_is 0 "." w then leading_digits (str_drop 1 w) else 0)%nat).
  assert (∀ f, (if (nf =? 0)%nat then Some (0, w) else scan_digits nf 0 (str_drop 1 w)) = Some f →
    (if (nf =? 0)%nat then Some (0, w +:+ t) else scan_digits nf 0 (str_drop 1 (w +:+ t))) = Some (f.1, f.2 +:+ t)) as Hf.
  { intros f. destruct (nf =? 0)%nat eqn:En; [by intros [= <-]|]. intros Hs. subst nf.
    destruct (char_is 0 "." w) eqn:E; [|done]. rewrite (drop1_app _ _ _ E). by apply scan_digits_app_r. }
  destruct (if (nf =? 0)%nat then Some (0, w) else _) as [[f x]|]; [|done]. rewrite (Hf _ eq_refl). cbn [mbind option_bind fst snd].
  rewrite !char_is_app by done. destruct (char_is 0 "e" x || char_is 0 "E" x) eqn:Ex.
  - assert (str_drop 1 (x +:+ t) = str_drop 1 x +:+ t) as ->.
    { apply orb_true_iff in Ex as [Ex|Ex]; by eapply drop1_app. }
    rewrite scan_exponent_app by done. destruct (scan_exponent _) as [[e y]|]; cbn [mbind option_bind fst snd].
    + by intros [= <-].
    + destruct (nf =? 0)%nat; by intros [= <-].
  - destruct (nf =? 0)%nat; by intros [= <-].
Qed.

(** The decimal text of a positive number is a field that does not start with a zero. *)
Lemma pretty_go_field n : (0 < n)%N → ∃ w, 10 ^ Z.of_nat w <= Z.of_N n < 10 ^ Z.of_nat (S w) ∧
  ∀ s, pretty_N_go n s = digits (S w) (Z.of_N n) +:+ s.
Proof.
  induction (N.lt_wf_0 n) as [n _ IH]. intros Hn.
  assert (∀ s, pretty_N_go n s = pretty_N_go (n / 10) (char1 (digit_char (Z.of_N n mod 10)) +:+ s)) as Hstep.
  { intros s. rewrite pretty_N_go_step by done. unfold char1, digit_char. rewrite str_app_cons.
    replace (Z.of_N n mod 10) with (Z.of_N (n mod 10)%N) by (by rewrite N2Z.inj_mod). by rewrite N2Z.id. }
  destruct (decide (n < 10)%N) as [Hlt|Hge].
  - exists O. split; [change (10 ^ Z.of_nat 0) with 1; change (10 ^ Z.of_nat 1) with 10; lia|].
    intros s. rewrite Hstep, N.div_small by done. by rewrite pretty_N_go_0.
  - destruct (IH (n / 10)%N) as (w & Hw & Hs); [by apply N.div_lt|by apply N.div_str_pos; lia|].
    exists (S w). rewrite N2Z.inj_div in Hw, Hs. split.
    + rewrite (pow10_S (S w)), (pow10_S w) in *. pose proof (Z.div_mod (Z.of_N n) 10 ltac:(done)).
      pose proof (Z.mod_pos_bound (Z.of_N n) 10 ltac:(done)). lia.
    + intros s. rewrite Hstep, Hs. cbn [digits]. by rewrite !str_app_assoc_r.
Qed.

Lemma digit_marks i : 0 < i < 10 → Ascii.eqb "-" (digit_char i) = false ∧ Ascii.eqb "0" (digit_char i) = false.
Proof.
  intros Hi. assert (i = 1 ∨ i = 2 ∨ i = 3 ∨ i = 4 ∨ i = 5 ∨ i = 6 ∨ i = 7 ∨ i = 8 ∨ i = 9) as Hc by lia.
  repeat destruct Hc as [->|Hc]; subst; done.
Qed.

Lemma scan_positive (minus : bool) n : (0 < n)%N →
  scan_number ((if minus then "-" else "") +:+ pretty_N_go n "") = Some (VInt (if minus then - Z.of_N n else Z.of_N n), "").
Proof.
  intros Hn. destruct (pretty_go_field n Hn) as (w & Hw & Hs). rewrite Hs, str_app_nil_r.
  assert (0 < Z.of_N n / 10 ^ Z.of_nat w < 10) as Hhead.
  { rewrite pow10_S in Hw. split; [apply Z.div_str_pos; lia|apply Z.div_lt_upper_bound; lia]. }
  assert (char_is 0 "-" (digits (S w) (Z.of_N n)) = false ∧ char_is 0 "0" (digits (S w) (Z.of_N n)) = false) as [Hm H0].
  { rewrite digits_head, Z.mod_small by lia. by apply digit_marks. }
  unfold scan_number.
  assert (char_is 0 "-" ((if minus then "-" else "") +:+ digits (S w) (Z.of_N n)) = minus) as -> by (by destruct minus).
  assert ((if minus then str_drop 1 ((if minus then "-" else "") +:+ digits (S w) (Z.of_N n))
           else (if minus then "-" else "") +:+ digits (S w) (Z.of_N n)) = digits (S w) (Z.of_N n)) as ->.
  { destruct minus; [apply (drop_mark "-"%char)|done]. }
  rewrite H0, leading_digits_digits. cbn [Nat.eqb].
  rewrite <- (str_app_nil_r (digits (S w) (Z.of_N n))), scan_digits_field by lia.
  cbn [mbind option_bind fst snd]. rewrite Z.mul_0_l, Z.add_0_l. done.
Qed.

Lemma scan_number_int z : scan_number (pretty z) = Some (VInt z, "").
Proof. destruct z as [|p|p]; [done|apply (scan_positive false (N.pos p)); lia|apply (scan_positive true (N.pos p)); lia]. Qed.

(** A number's text starts with a digit or a minus. *)
Lemma scan_number_start s r : scan_number s = Some r → ∃ c s', s = String c s' ∧ (c = "-"%char ∨ is_Some (digit_of c)).
Proof.
  destruct s as [|c s]; [done|]. intros H. exists c, s. split; [done|].
  destruct (Ascii.eqb_spec "-" c) as [<-|Hc]; [by left|]. right. revert H. unfold scan_number.
  assert (char_is 0 "-" (String c s) = false) as -> by (unfold char_is; cbn [String.get]; by apply Ascii.eqb_neq).
  destruct (char_is 0 "0" (String c s)) eqn:E0.
  - change (Ascii.eqb "0" c = true) in E0. apply Ascii.eqb_eq in E0. by subst c.
  - cbn [leading_digits]. by destruct (digit_of c).
Qed.

Definition special : list ascii := [dq; "{"; "["; "n"; "t"; "f"; "N"; "I"]%char.

Lemma number_not_special c : c = "-"%char ∨ is_Some (digit_of c) → existsb (Ascii.eqb c) special = false ∧ is_space c = false ∧
  existsb (Ascii.eqb c) ["]"; "}"]%char = false.
Proof. destruct c as [[] [] [] [] [] [] [] []]; intros [H|[x H]]; try discriminate H; done. Qed.

Lemma infinity_not_number s r : after "-Infinity" s = Some r → scan_number s = None.
Proof.
  unfold after. destruct (startswith s "-Infinity") eqn:E; [|done]. intros _. unfold startswith in E.
  destruct s as [|c1 s]; [done|]. cbn [String.prefix] in E. destruct (Ascii.ascii_dec "-" c1) as [<-|]; [|done].
  destruct s as [|c2 s]; [done|]. cbn [String.prefix] in E. by destruct (Ascii.ascii_dec "I" c2) as [<-|].
Qed.

Lemma scan_value_number fuel s r : scan_number s = Some r → scan_value (S fuel) s = Some r.
Proof.
  intros H. destruct (scan_number_start s r H) as (c & s' & -> & Hc). destruct (number_not_special c Hc) as [Hs _].
  cbn [existsb special] in Hs. rewrite !orb_false_iff in Hs. destruct Hs as (E1 & E2 & E3 & E4 & E5 & E6 & E7 & E8 & _).
  cbn [scan_value]. rewrite E1, E2, E3, E4, E5, E6, E7, E8. unfold scan_literal.
  destruct (after "-Infinity" (String c s')) as [x|] eqn:E; [|done].
  by rewrite (infinity_not_number _ _ E) in H.
Qed.

(** *** Values *)

Fixpoint vsize (v : pyval) : nat :=
  match v with
  | VList l => S (sum_list_with vsize l)
  | VDict d => S (sum_list_with (λ kv, vsize (snd kv)) d)
  | _ => 1%nat
  end.

Lemma vsize_pos v : (1 <= vsize v)%nat.
Proof. destruct v; simpl; lia. Qed.

(** A value's text starts with a character that no separator and no space is. *)
Definition starts (s : string) : Prop :=
  ∃ c s', s = String c s' ∧ is_space c = false ∧ existsb (Ascii.eqb c) ["]"; "}"]%char = false.

Lemma number_starts s r : scan_number s = Some r → starts s.
Proof. intros (c & s' & -> & Hc)%scan_number_start. exists c, s'. by destruct (number_not_special c Hc) as (_ & ? & ?). Qed.

Lemma float_ok_scan q : float_ok (Fin q) = true → scan_number (repr_float (Fin q)) = Some (VFloat (Fin q), "").
Proof.
  unfold float_ok. destruct (scan_number _) as [[[| | |[r| | |]| | | |] rest]|]; try done.
  rewrite !andb_true_iff, Z.eqb_eq, Pos.eqb_eq, String.eqb_eq. intros [[Hn Hd] ->]. destruct r, q. simpl in *. by subst.
Qed.

Lemma dumps_starts v : json_ok v = true → starts (json_dumps v).
Proof.
  destruct v as [|[]|z|[q| | |]|s|t|l|d]; intros Hok; cbn [json_dumps];
    try (by eexists _, _; split; [reflexivity|done]).
  - eapply number_starts, scan_number_int.
  - eapply number_starts, float_ok_scan, Hok.
Qed.

Lemma starts_app s t : starts s → starts (s +:+ t).
Proof. intros (c & s' & -> & H). exists c, (s' +:+ t). split; [apply str_app_cons|done]. Qed.

Lemma starts_skip s : starts s → skip_space s = s.
Proof. intros (c & s' & -> & H & _). cbn. by rewrite H. Qed.

Lemma ends_skip s : ends s = true → skip_space s = s.
Proof.
  destruct s as [|c s]; [done|]. intros (d & Hd & Hc%Ascii.eqb_eq)%existsb_exists. subst d.
  repeat (destruct Hd as [<-|Hd]; [done|]). done.
Qed.

(** The text of a value, before a separator, is the value. *)
Definition reads (v : pyval) : Prop :=
  json_ok v = true → ∀ fuel t, (vsize v <= fuel)%nat → ends t = true →
  scan_value fuel (json_dumps v +:+ t) = Some (json_back v, t).

Lemma concat_cons sep (x y : string) l : str_join sep (x :: y :: l) = x +:+ (sep +:+ str_join sep (y :: l)).
Proof. unfold str_join. cbn [String.concat]. by rewrite ?str_app_assoc_r. Qed.

Lemma scan_items_written scan fuel l t :
  Forall (λ v, starts (json_dumps v) ∧ ∀ t, ends t = true → scan (json_dumps v +:+ t) = Some (json_back v, t)) l →
  l ≠ [] → (length l <= fuel)%nat →
  scan_items scan fuel (str_join "," (map json_dumps l) +:+ ("]" +:+ t)) = Some (map json_back l, t).
Proof.
  intros Hl. revert fuel. induction Hl as [|v l [_ Hv] Hl IH]; intros fuel Hne Hf; [done|].
  destruct fuel as [|fuel]; [simpl in Hf; lia|]. cbn [scan_items]. destruct l as [|w l].
  - change (str_join "," (map json_dumps [v])) with (json_dumps v). rewrite Hv by done. done.
  - cbn [map]. rewrite concat_cons, !str_app_assoc_r. rewrite Hv by done. cbn [mbind option_bind fst snd].
    change ("," +:+ ?x) with (String "," x). cbn [skip_space]. change (is_space ",") with false. cbn iota.
    change (Ascii.eqb "," "]") with false. change (Ascii.eqb "," ",") with true. cbn iota.
    rewrite starts_skip.
    + rewrite IH by (simpl in *; lia || done). done.
    + inversion Hl as [|? ? [Hw _] _]; subst. destruct l as [|x l]; [by apply starts_app|]. cbn [map].
      rewrite concat_cons, str_app_assoc_r. by apply starts_app.
Qed.

Abbreviation member_text := (λ kv : string * pyval, json_str (fst kv) +:+ ":" +:+ json_dumps (snd kv)).

Lemma member_starts kv : starts (member_text kv).
Proof. eexists dq, _. split; [unfold json_str; by rewrite str_app_cons|done]. Qed.

Lemma scan_members_written scan fuel d t :
  Forall (λ kv, starts (json_dumps (snd kv)) ∧
    ∀ t, ends t = true → scan (json_dumps (snd kv) +:+ t) = Some (json_back (snd kv), t)) d →
  d ≠ [] → (length d <= fuel)%nat →
  scan_members scan fuel (str_join "," (map member_text d) +:+ ("}" +:+ t))
  = Some (map (λ kv, (fst kv, json_back (snd kv))) d, t).
Proof.
  intros Hd. revert fuel. induction Hd as [|[k v] d [Hs Hv] Hd IH]; intros fuel Hne Hf; [done|]. cbn [snd] in *.
  assert (∀ r fuel, ends r = true → scan_members scan (S fuel) (member_text (k, v) +:+ r) =
    match r with
    | String c r => if Ascii.eqb c "}" then Some ([(k, json_back v)], r)
                    else if Ascii.eqb c "," then l ← scan_members scan fuel (skip_space r); Some ((k, json_back v) :: l.1, l.2)
                    else None
    | EmptyString => None
    end) as Hone.
  { intros r n Hr. cbn [fst snd]. rewrite str_app_assoc_r, json_str_app. cbn [scan_members].
    change (scan_char dq (String dq ?x)) with (Some x). cbn [mbind option_bind]. rewrite scan_string_written.
    cbn [mbind option_bind fst snd]. rewrite str_app_assoc_r.
    change (skip_space (":" +:+ ?x)) with (":" +:+ x). change (scan_char ":" (":" +:+ ?x)) with (Some x).
    cbn [mbind option_bind]. rewrite starts_skip by (by apply starts_app). rewrite Hv by done. cbn [mbind option_bind fst snd].
    by rewrite ends_skip. }
  destruct fuel as [|fuel]; [simpl in Hf; lia|]. destruct d as [|kw d].
  - change (str_join "," (map member_text [(k, v)])) with (member_text (k, v)). by rewrite Hone.
  - cbn [map]. rewrite concat_cons, !(str_app_assoc_r (member_text (k, v))). rewrite Hone by done.
    rewrite str_app_assoc_r. change ("," +:+ ?x) with (String "," x). cbn iota.
    change (Ascii.eqb "," "}") with false. change (Ascii.eqb "," ",") with true. cbn iota.
    rewrite starts_skip.
    + cbn [map] in IH. rewrite IH by (simpl in *; lia || done). done.
    + destruct d as [|x d]; [apply starts_app, member_starts|]. cbn [map]. rewrite concat_cons, str_app_assoc_r. apply starts_app, member_starts.
Qed.

Lemma dict_of_distinct l : NoDup (map fst l) → dict_of l = l.
Proof.
  unfold dict_of, od_update. assert (∀ acc : odict string pyval, NoDup (map fst (acc ++ l)) →
    fold_left (λ acc kv, od_set (fst kv) (snd kv) acc) l acc = acc ++ l) as H; [|intros Hl; by apply (H [])].
  induction l as [|[k v] l IH]; intros acc Hnd; [by rewrite app_nil_r|]. cbn [fold_left fst snd].
  rewrite od_set_new.
  - rewrite IH; by rewrite <- app_assoc.
  - rewrite map_app in Hnd. apply list.NoDup_app in Hnd as (_ & Hn & _). intros Hk. apply (Hn _ Hk). by left.
Qed.

Lemma sum_list_length {A} (f : A → nat) l : (∀ x, (1 <= f x)%nat) → (length l <= sum_list_with f l)%nat.
Proof. intros Hf. induction l as [|x l IH]; simpl; [lia|]. pose proof (Hf x). lia. Qed.

Lemma sum_list_in {A} (f : A → nat) l x : x ∈ l → (f x <= sum_list_with f l)%nat.
Proof. induction 1; simpl; lia. Qed.

Lemma literal_reads w v t : scan_literal w v (w +:+ t) = Some (v, t).
Proof.
  unfold scan_literal, after, startswith. assert (String.prefix w (w +:+ t) = true) as ->.
  { induction w as [|c w IH]; [by destruct t|]. rewrite str_app_cons. cbn [String.prefix].
    destruct (Ascii.ascii_dec c c) as [_|]; [exact IH|congruence]. }
  by rewrite str_drop_app.
Qed.

(** The reading of every value. *)
Lemma reads_all v : reads v.
Proof.
  induction v as [|b|z|x|s|tm|l IH|d IH] using pyval_nested_ind; intros Hok fuel t Hf Ht;
    (destruct fuel as [|fuel]; [simpl in Hf; lia|]).
  - by apply (literal_reads "null").
  - destruct b; by apply (literal_reads _).
  - apply scan_value_number. by apply (scan_number_app _ _ _ Ht (scan_number_int z)).
  - destruct x as [q| | |]; [|by apply (literal_reads "Infinity")| |by apply (literal_reads "NaN")].
    2:{ transitivity (match scan_literal "-Infinity" (VFloat NInf) ("-Infinity" +:+ t) with
                      | Some r => Some r | None => scan_number ("-Infinity" +:+ t) end); [done|by rewrite literal_reads]. }
    apply scan_value_number. by apply (scan_number_app _ _ _ Ht (float_ok_scan q Hok)).
  - cbn [json_dumps]. rewrite json_str_app. cbn [scan_value]. change (Ascii.eqb dq dq) with true. cbn iota. by rewrite scan_string_written.
  - cbn [json_dumps]. rewrite json_str_app. cbn [scan_value]. change (Ascii.eqb dq dq) with true. cbn iota. by rewrite scan_string_written.
  - cbn [json_dumps json_back json_ok vsize] in *. destruct l as [|v l]; [done|].
    rewrite forallb_forall in Hok. rewrite !str_app_assoc_r. change ("[" +:+ ?x) with (String "[" x). cbn [scan_value].
    change (Ascii.eqb "[" dq) with false. change (Ascii.eqb "[" "{") with false. change (Ascii.eqb "[" "[") with true. cbn iota.
    assert (starts (str_join "," (map json_dumps (v :: l)))) as Hst.
    { assert (starts (json_dumps v)) as Hv by (apply dumps_starts, Hok; by left).
      destruct l; [done|]. cbn [map]. rewrite concat_cons. by apply starts_app. }
    rewrite starts_skip by (by apply starts_app). pose proof Hst as (c & s' & Es & _ & Hc). rewrite Es, str_app_cons.
    cbn [existsb] in Hc. apply orb_false_iff in Hc as [-> _]. rewrite <- str_app_cons, <- Es.
    pose proof (sum_list_length vsize (v :: l) vsize_pos). rewrite scan_items_written; [done| |done|lia].
    rewrite Forall_forall in IH |- *. intros w Hw.
    assert (json_ok w = true) as Hw2 by (by apply Hok). split; [by apply dumps_starts|].
    intros r Hr. apply (IH w Hw Hw2); [|done]. pose proof (sum_list_in vsize _ w (proj2 (list_elem_of_In _ _) Hw)). lia.
  - cbn [json_dumps json_back json_ok vsize] in *. destruct d as [|kv d]; [done|].
    apply andb_true_iff in Hok as [Hnd%bool_decide_eq_true Hok].
    rewrite forallb_forall in Hok. rewrite !str_app_assoc_r. change ("{" +:+ ?x) with (String "{" x). cbn [scan_value].
    change (Ascii.eqb "{" dq) with false. change (Ascii.eqb "{" "{") with true. cbn iota.
    assert (starts (str_join "," (map member_text (kv :: d)))) as Hst.
    { destruct d; [apply member_starts|]. cbn [map]. rewrite concat_cons. apply starts_app, member_starts. }
    rewrite starts_skip by (by apply starts_app). pose proof Hst as (c & s' & Es & _ & Hc). rewrite Es, str_app_cons.
    cbn [existsb] in Hc. rewrite !orb_false_iff in Hc. destruct Hc as (_ & -> & _). rewrite <- str_app_cons, <- Es.
    pose proof (sum_list_length (λ kv : string * pyval, vsize (snd kv)) (kv :: d) (λ kv, vsize_pos _)).
    rewrite scan_members_written; [| |done|lia].
    + cbn [mbind option_bind fst snd]. rewrite dict_of_distinct; [done|]. rewrite map_map. done.
    + rewrite Forall_forall in IH |- *. intros kw Hw.
      assert (json_ok (snd kw) = true) as Hw2 by (by apply (Hok kw)). split; [by apply dumps_starts|].
      intros r Hr. apply (IH kw Hw Hw2); [|done].
      pose proof (sum_list_in (λ kv : string * pyval, vsize (snd kv)) _ kw (proj2 (list_elem_of_In _ _) Hw)). simpl in *. lia.
Qed.

Lemma concat_length l : (sum_list_with String.length l <= String.length (str_join "," l))%nat.
Proof.
  induction l as [|x [|y l] IH]; [done|cbn; lia|]. rewrite concat_cons, !str_length_app. cbn [sum_list_with] in *. lia.
Qed.

Lemma vsize_length v : json_ok v = true → (vsize v <= String.length (json_dumps v))%nat.
Proof.
  induction v as [|b|z|x|s|tm|l IH|d IH] using pyval_nested_ind; intros Hok;
    try (destruct (dumps_starts _ Hok) as (c & s' & -> & _); simpl; lia).
  - cbn [vsize json_dumps json_ok] in *. rewrite !str_length_app. pose proof (concat_length (map json_dumps l)).
    assert (sum_list_with vsize l <= sum_list_with String.length (map json_dumps l))%nat; [|simpl; lia].
    clear H. induction IH as [|v l Hv _ IHl]; [done|]. simpl in Hok |- *. apply andb_true_iff in Hok as [H1 H2].
    specialize (Hv H1). specialize (IHl H2). lia.
  - cbn [vsize json_dumps json_ok] in *. apply andb_true_iff in Hok as [_ Hok]. rewrite !str_length_app.
    pose proof (concat_length (map member_text d)).
    assert (sum_list_with (λ kv, vsize (snd kv)) d <= sum_list_with String.length (map member_text d))%nat; [|simpl; lia].
    clear H. induction IH as [|v l Hv _ IHl]; [done|]. simpl in Hok |- *. apply andb_true_iff in Hok as [H1 H2].
    specialize (Hv H1). specialize (IHl H2). rewrite !str_length_app. lia.
Qed.

(** Reading what was written gives the value, dates having become texts. *)
Lemma json_loads_dumps v : json_ok v = true → json_loads (json_dumps v) = Some (json_back v).
Proof.
  intros Hok. unfold json_loads. rewrite starts_skip by (by apply dumps_starts).
  pose proof (reads_all v Hok (S (String.length (json_dumps v))) "" ltac:(pose proof (vsize_length v Hok); lia) eq_refl) as E.
  rewrite str_app_nil_r in E. by rewrite E.
Qed.
