(* ===== verification/Models.v ===== *)
(** * Domain models (src/aci/models)

    Enumerations with their wire values, the attribution index entry and result, graph
    nodes and edges, policies, domain events. Aware datetimes are instants in
    microseconds since the epoch; [datetime] also has the naive ones some entry points
    accept or reject. *)

From S2P Require Import Prelude PyFloat PyData PyTime PyValue.
From Stdlib Require Import ZArith Lia.
From stdpp Require Import base list gmap strings.

Open Scope string_scope.
Open Scope list_scope.
Open Scope Z_scope.

(** ** Enumerations *)

Inductive EventType :=
| INFERENCE_REQUEST | INFERENCE_RESPONSE | BILLING_LINE_ITEM | RESOURCE_CREATED | RESOURCE_DELETED
| DEPLOYMENT | CODE_COMMIT | CODEOWNER_CHANGE | PR_MERGED
| IDENTITY_LOGIN | IDENTITY_GROUP_CHANGE | ORG_CHANGE | TEAM_MEMBERSHIP
| ATTRIBUTION_CORRECTION | CHARGEBACK_DECISION | FINOPS_REVIEW
| ATTRIBUTION_COMPUTED | INDEX_MATERIALIZED | CALIBRATION_UPDATED
| SHADOW_INTERCEPT_MISS | SHADOW_INTERCEPT_TIMEOUT | POLICY_EVALUATED | INTERVENTION_APPLIED.

#[export] Instance EventType_eq_dec : EqDecision EventType.
Proof. solve_decision. Defined.

Definition event_type_value (t : EventType) : string :=
  match t with
  | INFERENCE_REQUEST => "inference.request"
  | INFERENCE_RESPONSE => "inference.response"
  | BILLING_LINE_ITEM => "billing.line_item"
  | RESOURCE_CREATED => "resource.created"
  | RESOURCE_DELETED => "resource.deleted"
  | DEPLOYMENT => "cicd.deployment"
  | CODE_COMMIT => "scm.commit"
  | CODEOWNER_CHANGE => "scm.codeowner_change"
  | PR_MERGED => "scm.pr_merged"
  | IDENTITY_LOGIN => "identity.login"
  | IDENTITY_GROUP_CHANGE => "identity.group_change"
  | ORG_CHANGE => "org.hierarchy_change"
  | TEAM_MEMBERSHIP => "org.team_membership"
  | ATTRIBUTION_CORRECTION => "correction.attribution"
  | CHARGEBACK_DECISION => "correction.chargeback"
  | FINOPS_REVIEW => "correction.finops_review"
  | ATTRIBUTION_COMPUTED => "system.attribution_computed"
  | INDEX_MATERIALIZED => "system.index_materialized"
  | CALIBRATION_UPDATED => "system.calibration_updated"
  | SHADOW_INTERCEPT_MISS => "interceptor.shadow.miss"
  | SHADOW_INTERCEPT_TIMEOUT => "interceptor.shadow.timeout"
  | POLICY_EVALUATED => "interceptor.policy.evaluated"
  | INTERVENTION_APPLIED => "interceptor.intervention.applied"
  end.

Definition all_event_types : list EventType :=
  [INFERENCE_REQUEST; INFERENCE_RESPONSE; BILLING_LINE_ITEM; RESOURCE_CREATED; RESOURCE_DELETED;
   DEPLOYMENT; CODE_COMMIT; CODEOWNER_CHANGE; PR_MERGED;
   IDENTITY_LOGIN; IDENTITY_GROUP_CHANGE; ORG_CHANGE; TEAM_MEMBERSHIP;
   ATTRIBUTION_CORRECTION; CHARGEBACK_DECISION; FINOPS_REVIEW;
   ATTRIBUTION_COMPUTED; INDEX_MATERIALIZED; CALIBRATION_UPDATED;
   SHADOW_INTERCEPT_MISS; SHADOW_INTERCEPT_TIMEOUT; POLICY_EVALUATED; INTERVENTION_APPLIED].

(** [EventType(value)]; an unknown value raises. *)
Definition event_type_of_value (v : string) : res EventType :=
  match List.find (λ t, String.eqb (event_type_value t) v) all_event_types with
  | Some t => Ok t
  | None => Raise (ValueError v)
  end.

Lemma event_type_roundtrip t : event_type_of_value (event_type_value t) = Ok t.
Proof. by destruct t. Qed.

Inductive NodeType :=
| NT_MODEL | NT_CLOUD_RESOURCE | NT_DEPLOYMENT | NT_REPOSITORY | NT_PERSON | NT_TEAM | NT_COST_CENTER
| NT_SERVICE_ACCOUNT | NT_API_KEY | NT_INFERENCE_ENDPOINT | NT_EQUIVALENCE_CLASS | NT_BUDGET.

#[export] Instance NodeType_eq_dec : EqDecision NodeType.
Proof. solve_decision. Defined.

Inductive EdgeType :=
| INVOKES | DEPLOYED_ON | DEPLOYED_BY | OWNS_CODE | MEMBER_OF | REPORTS_TO | AUTHENTICATES
| RESOLVED_TO | ATTRIBUTED_TO | BUDGETED_UNDER | CLASSIFIED_AS | TRIGGERS.

#[export] Instance EdgeType_eq_dec : EqDecision EdgeType.
Proof. solve_decision. Defined.

(** The texts of the enumerations. *)
Definition node_type_value (t : NodeType) : string :=
  match t with
  | NT_MODEL => "model" | NT_CLOUD_RESOURCE => "cloud_resource" | NT_DEPLOYMENT => "deployment"
  | NT_REPOSITORY => "repository" | NT_PERSON => "person" | NT_TEAM => "team" | NT_COST_CENTER => "cost_center"
  | NT_SERVICE_ACCOUNT => "service_account" | NT_API_KEY => "api_key" | NT_INFERENCE_ENDPOINT => "inference_endpoint"
  | NT_EQUIVALENCE_CLASS => "equivalence_class" | NT_BUDGET => "budget"
  end.

Definition all_node_types : list NodeType :=
  [NT_MODEL; NT_CLOUD_RESOURCE; NT_DEPLOYMENT; NT_REPOSITORY; NT_PERSON; NT_TEAM; NT_COST_CENTER;
   NT_SERVICE_ACCOUNT; NT_API_KEY; NT_INFERENCE_ENDPOINT; NT_EQUIVALENCE_CLASS; NT_BUDGET].

(** [NodeType(value)] *)
Definition node_type_of_value (v : string) : res NodeType :=
  match List.find (λ t, String.eqb (node_type_value t) v) all_node_types with
  | Some t => Ok t
  | None => Raise (ValueError v)
  end.

Definition edge_type_value (t : EdgeType) : string :=
  match t with
  | INVOKES => "invokes" | DEPLOYED_ON => "deployed_on" | DEPLOYED_BY => "deployed_by" | OWNS_CODE => "owns_code"
  | MEMBER_OF => "member_of" | REPORTS_TO => "reports_to" | AUTHENTICATES => "authenticates"
  | RESOLVED_TO => "resolved_to" | ATTRIBUTED_TO => "attributed_to" | BUDGETED_UNDER => "budgeted_under"
  | CLASSIFIED_AS => "classified_as" | TRIGGERS => "triggers"
  end.

Definition all_edge_types : list EdgeType :=
  [INVOKES; DEPLOYED_ON; DEPLOYED_BY; OWNS_CODE; MEMBER_OF; REPORTS_TO; AUTHENTICATES;
   RESOLVED_TO; ATTRIBUTED_TO; BUDGETED_UNDER; CLASSIFIED_AS; TRIGGERS].

(** [EdgeType(value)] *)
Definition edge_type_of_value (v : string) : res EdgeType :=
  match List.find (λ t, String.eqb (edge_type_value t) v) all_edge_types with
  | Some t => Ok t
  | None => Raise (ValueError v)
  end.

Lemma node_type_roundtrip t : node_type_of_value (node_type_value t) = Ok t.
Proof. by destruct t. Qed.

Lemma edge_type_roundtrip t : edge_type_of_value (edge_type_value t) = Ok t.
Proof. by destruct t. Qed.

Inductive PolicyType :=
| MODEL_ALLOWLIST | BUDGET_CEILING | TOKEN_BUDGET | COST_CEILING | APPROVAL_GATE
| SHADOW_DETECTION | CONFIDENCE_FLOOR.

#[export] Instance PolicyType_eq_dec : EqDecision PolicyType.
Proof. solve_decision. Defined.

Inductive EnforcementAction := ALLOW | SOFT_STOP | HARD_STOP | REDIRECT.

#[export] Instance EnforcementAction_eq_dec : EqDecision EnforcementAction.
Proof. solve_decision. Defined.

Inductive ConfidenceTier := CHARGEBACK_READY | PROVISIONAL | ESTIMATED.

Definition tier_value (t : ConfidenceTier) : string :=
  match t with
  | CHARGEBACK_READY => "chargeback_ready" | PROVISIONAL => "provisional" | ESTIMATED => "estimated"
  end.

(** ** Attribution *)

Record AttributionIndexEntry := mkEntry {
  ie_workload_id : string;
  ie_team_id : string;
  ie_team_name : string;
  ie_cost_center_id : string;
  ie_cost_center_name : string;
  ie_person_id : string;
  ie_person_name : string;
  ie_repository : string;
  ie_service_name : string;
  ie_confidence : pyfloat;
  ie_confidence_tier : string;
  ie_method_used : string;
  ie_budget_remaining_usd : option pyfloat;
  ie_budget_limit_usd : option pyfloat;
  ie_model_allowlist : list string;
  ie_cost_ceiling_per_request_usd : option pyfloat;
  ie_token_budget_output : option Z;
  ie_token_budget_input : option Z;
  ie_equivalence_class_id : option string;
  ie_approved_alternatives : list string;
  ie_carbon_methodology_layer : Z;
  ie_grid_region : string;
  ie_version : Z;
  ie_materialized_at : instant;
  ie_source_event_ids : list string;
  ie_time_bucket : string;
}.

Record ExplanationArtifact := mkExplanation {
  ex_attribution_id : string;
  ex_target_entity : string;
  ex_confidence_score : pyfloat;
  ex_method_used : string;
  ex_top_contributing_signals : list pyval;
  ex_feature_values : odict string pyval;
  ex_alternatives_considered : list pyval;
}.

Record FractionalAttribution := mkFractional {
  fa_team_id : string;
  fa_team_name : string;
  fa_cost_center_id : string;
  fa_weight : pyfloat;
  fa_confidence : pyfloat;
}.

Record AttributionPathNode := mkPathNode {
  pn_layer : string;
  pn_node_id : string;
  pn_node_label : string;
  pn_confidence : pyfloat;
  pn_method : string;
  pn_source : string;
}.

Record AttributionResult := mkResult {
  ar_workload_id : string;
  ar_attribution_path : list AttributionPathNode;
  ar_combined_confidence : pyfloat;
  ar_explanation : option ExplanationArtifact;
  ar_fractional_attributions : list FractionalAttribution;
  ar_conflicts : list string;
}.

(** ** Graph *)

Record GraphNode := mkNode {
  gn_node_id : string;
  gn_node_type : NodeType;
  gn_label : string;
  gn_properties : odict string pyval;
  gn_tenant_id : string;
  gn_created_at : instant;
  gn_updated_at : instant;
}.

Record EdgeProvenance := mkProvenance {
  ep_source : string;
  ep_method : string;
  ep_signals : list string;
  ep_created_at : instant;
}.

Record GraphEdge := mkEdge {
  ge_edge_type : EdgeType;
  ge_from_id : string;
  ge_to_id : string;
  ge_confidence : pyfloat;
  ge_weight : pyfloat;
  ge_valid_from : instant;
  ge_valid_to : option instant;
  ge_provenance : EdgeProvenance;
  ge_explanation_ref : option string;
}.

(** [GraphEdge.deterministic]; the provenance is stamped with the clock reading [now]. *)
Definition GraphEdge_deterministic (edge_type : EdgeType) (from_id to_id : string)
    (valid_from : instant) (confidence weight : pyfloat) (source : string) (now : instant) : GraphEdge :=
  mkEdge edge_type from_id to_id confidence weight valid_from None
         (mkProvenance source "deterministic" [] now) None.

(** ** Policies *)

Record PolicyDefinition := mkPolicy {
  pd_policy_id : string;
  pd_policy_type : PolicyType;
  pd_name : string;
  pd_scope : string;
  pd_enforcement : EnforcementAction;
  pd_parameters : odict string pyval;
  pd_enabled : bool;
  pd_requires_opt_in : bool;
}.

Record PolicyEvaluationResult := mkPolicyResult {
  pr_policy_id : string;
  pr_policy_name : string;
  pr_action : EnforcementAction;
  pr_violated : bool;
  pr_details : string;
}.

(** ** Events *)

Record DomainEvent := mkEvent {
  ev_event_id : string;
  ev_event_type : EventType;
  ev_subject_id : string;
  ev_attributes : odict string pyval;
  ev_event_time : instant;
  ev_ingest_time : instant;
  ev_source : string;
  ev_idempotency_key : string;
  ev_tenant_id : string;
  ev_schema_version : Z;
}.

Definition MAX_ATTRIBUTES_PAYLOAD_BYTES : Z := 512 * 1024.

(** [_validate_tz_aware_datetime] *)
Definition validate_tz_aware (d : datetime) : res instant :=
  match d with
  | Naive _ => Raise (ValueError "datetime fields must be timezone-aware")
  | Aware us _ => Ok us
  end.

(** [_validate_attributes_payload_size]: the UTF-8 length of an ASCII-only JSON text. *)
Definition validate_payload_size (attrs : odict string pyval) : res (odict string pyval) :=
  if Z.of_nat (String.length (json_dumps (VDict attrs))) >? MAX_ATTRIBUTES_PAYLOAD_BYTES
  then Raise (ValueError "attributes payload exceeds 524288 bytes")
  else Ok attrs.

(** Construction of a [DomainEvent] with its field validators. *)
Definition DomainEvent_new (event_id : string) (event_type : EventType) (subject_id : string)
    (attributes : odict string pyval) (event_time ingest_time : datetime)
    (source idempotency_key tenant_id : string) (schema_version : Z) : res DomainEvent :=
  (let? attrs := validate_payload_size attributes in
   let? et := validate_tz_aware event_time in
   let? it := validate_tz_aware ingest_time in
   Ok (mkEvent event_id event_type subject_id attrs et it source idempotency_key tenant_id
               schema_version))%py.

Lemma DomainEvent_new_ok event_id ty subj attrs et it src key tenant sv ev :
  DomainEvent_new event_id ty subj attrs et it src key tenant sv = Ok ev →
  ev = mkEvent event_id ty subj attrs (to_utc et) (to_utc it) src key tenant sv ∧
  Z.of_nat (String.length (json_dumps (VDict attrs))) <= MAX_ATTRIBUTES_PAYLOAD_BYTES.
Proof.
  unfold DomainEvent_new, validate_payload_size.
  destruct (Z.gtb_spec (Z.of_nat (String.length (json_dumps (VDict attrs)))) MAX_ATTRIBUTES_PAYLOAD_BYTES);
    [done|]. cbn [rbind]. destruct et, it; simpl; try done. intros [= <-]. by split.
Qed.
