(* ===== verification/CircuitBreaker.v ===== *)
(** * Circuit breaker (src/aci/interceptor/circuit_breaker.py)

    The breaker's state, its two stores (in-process and Redis with optimistic
    locking), the degraded mode [_safe_mutate] falls back to, and every operation of
    [CircuitBreaker]. The store is an interface ([CircuitStateStore]); the breaker's
    theorems hold for every lawful store. *)

From S2P Require Import Prelude PyFloat PyData PyValue.
From Stdlib Require Import ZArith QArith Lia.
From stdpp Require Import base list strings relations.

Open Scope string_scope.
Open Scope list_scope.
Open Scope Z_scope.

(** ** Data *)

Inductive CircuitState := CLOSED | OPEN | HALF_OPEN.

Definition cs_value (s : CircuitState) : string :=
  match s with CLOSED => "closed" | OPEN => "open" | HALF_OPEN => "half_open" end.

(** The [state] field is a plain string: a shared store may hold any text. *)
Record CircuitBreakerState := mkCBS {
  state : string;
  failure_count : Z;
  last_failure_time_epoch_s : pyfloat;
  half_open_success_count : Z;
  half_open_probe_count : Z;
  total_opens : Z;
  total_fail_opens : Z;
}.

Definition initial_state : CircuitBreakerState := mkCBS (cs_value CLOSED) 0 f0 0 0 0 0.

Record CBConfig := mkCBConfig {
  failure_threshold : Z;
  reset_timeout_s : pyfloat;
  half_open_max_probes : Z;
}.

(** ** State stores *)

(** [mutate] runs a mutator on the stored state. A mutator also computes the
    [nonlocal] result [a] the caller reads back. *)
Class CircuitStateStore (S : Type) := {
  mutate : ∀ {A : Type}, (CircuitBreakerState → CircuitBreakerState * A) → S →
           res (CircuitBreakerState * A) * S;
}.

(** [LocalCircuitStateStore]: copy, mutate, write back. *)
Definition local_mutate {A} (mutator : CircuitBreakerState → CircuitBreakerState * A)
    (s : CircuitBreakerState) : res (CircuitBreakerState * A) * CircuitBreakerState :=
  let '(s', a) := mutator s in (Ok (s', a), s').

#[export] Instance LocalCircuitStateStore : CircuitStateStore CircuitBreakerState :=
  {| mutate := @local_mutate |}.

(** The Redis value: absent or empty, undecodable text, or a JSON value. *)
Inductive redis_value := RAbsent | RGarbage | RJson (v : pyval).

(** How one round of the WATCH/GET/MULTI/SET/EXEC loop ends; [RWatchError other]
    is a concurrent write of [other] between WATCH and EXEC. *)
Inductive redis_round := RCommit | RWatchError (other : redis_value) | RFail.

Record RedisCircuitStateStore := mkRedisStore {
  redis_key : redis_value;
  redis_rounds : list redis_round;
}.

(** [json.dumps(asdict(state))] *)
Definition dump_state (s : CircuitBreakerState) : pyval :=
  VDict [("state", VStr (state s)); ("failure_count", VInt (failure_count s));
         ("last_failure_time_epoch_s", VFloat (last_failure_time_epoch_s s));
         ("half_open_success_count", VInt (half_open_success_count s));
         ("half_open_probe_count", VInt (half_open_probe_count s));
         ("total_opens", VInt (total_opens s)); ("total_fail_opens", VInt (total_fail_opens s))].

Definition field_names : list string :=
  ["state"; "failure_count"; "last_failure_time_epoch_s"; "half_open_success_count";
   "half_open_probe_count"; "total_opens"; "total_fail_opens"].

Definition field_int (d : odict string pyval) (k : string) (default : Z) : res Z :=
  match od_get k d with
  | None => Ok default
  | Some (VInt z) => Ok z
  | Some _ => Raise TypeError
  end.

(** [_parse_state]: the keyword arguments of [CircuitBreakerState] are the decoded JSON; unknown keys and
    non-mappings raise [TypeError], undecodable text [ValueError]. A field of the wrong
    type raises here; in Python it raises at the first use. *)
Definition _parse_state (raw : redis_value) : res CircuitBreakerState :=
  match raw with
  | RAbsent => Ok initial_state
  | RGarbage => Raise (ValueError "Expecting value")
  | RJson (VDict d) =>
      if forallb (λ k, bool_decide (k ∈ field_names)) (od_keys d) then
        (let? st := match od_get "state" d with
                    | None => Ok (cs_value CLOSED) | Some (VStr s) => Ok s
                    | Some _ => Raise TypeError end in
         let? fc := field_int d "failure_count" 0 in
         let? lf := match od_get "last_failure_time_epoch_s" d with
                    | None => Ok f0 | Some (VFloat x) => Ok x | Some (VInt z) => Ok (of_Z z)
                    | Some _ => Raise TypeError end in
         let? hs := field_int d "half_open_success_count" 0 in
         let? hp := field_int d "half_open_probe_count" 0 in
         let? to := field_int d "total_opens" 0 in
         let? tf := field_int d "total_fail_opens" 0 in
         Ok (mkCBS st fc lf hs hp to tf))%py
      else Raise TypeError
  | RJson _ => Raise TypeError
  end.

(** The retry loop of [RedisCircuitStateStore.mutate]: a [WatchError] starts another
    round on the value the other client wrote. The list of rounds is the behaviour of
    the server; past its end every round commits. *)
Fixpoint redis_mutate_loop {A} (mutator : CircuitBreakerState → CircuitBreakerState * A)
    (key : redis_value) (rounds : list redis_round)
    : res (CircuitBreakerState * A) * RedisCircuitStateStore :=
  match rounds with
  | RFail :: rest => (Raise RedisError, mkRedisStore key rest)
  | RWatchError other :: rest =>
      match _parse_state key with
      | Raise e => (Raise e, mkRedisStore key rest)
      | Ok _ => redis_mutate_loop mutator other rest
      end
  | _ =>
      match _parse_state key with
      | Raise e => (Raise e, mkRedisStore key (tail rounds))
      | Ok s => let '(s', a) := mutator s in
                (Ok (s', a), mkRedisStore (RJson (dump_state s')) (tail rounds))
      end
  end.

#[export] Instance RedisStore : CircuitStateStore RedisCircuitStateStore :=
  {| mutate A f s := redis_mutate_loop f (redis_key s) (redis_rounds s) |}.

(** ** Mutators *)

Section mutators.
  Context (cfg : CBConfig).

  (** [_transition_if_reset_timeout_elapsed]; [now] is the reading of [time.time()]. *)
Definition _transition_if_reset_timeout_elapsed (now : pyfloat) (s : CircuitBreakerState)
      : CircuitBreakerState :=
    if negb (String.eqb (state s) (cs_value OPEN)) then s else
    let elapsed := fsub now (last_failure_time_epoch_s s) in
    if fle (reset_timeout_s cfg) elapsed
    then mkCBS (cs_value HALF_OPEN) (failure_count s) (last_failure_time_epoch_s s) 0 0
               (total_opens s) (total_fail_opens s)
    else s.

  (** The [state] property: the transition, then the state read back. *)
Definition state_mut (now : pyfloat) (s : CircuitBreakerState) : CircuitBreakerState * string :=
    let s := _transition_if_reset_timeout_elapsed now s in (s, state s).

Definition bump_fail_opens (s : CircuitBreakerState) : CircuitBreakerState :=
    mkCBS (state s) (failure_count s) (last_failure_time_epoch_s s) (half_open_success_count s)
          (half_open_probe_count s) (total_opens s) (total_fail_opens s + 1).

  (** [is_open]: whether the request must fail open. *)
Definition is_open_mut (now : pyfloat) (s : CircuitBreakerState) : CircuitBreakerState * bool :=
    let s := _transition_if_reset_timeout_elapsed now s in
    if String.eqb (state s) (cs_value OPEN) then (bump_fail_opens s, true)
    else if String.eqb (state s) (cs_value HALF_OPEN) then
      if half_open_probe_count s <? half_open_max_probes cfg
      then (mkCBS (state s) (failure_count s) (last_failure_time_epoch_s s)
                  (half_open_success_count s) (half_open_probe_count s + 1)
                  (total_opens s) (total_fail_opens s), false)
      else (bump_fail_opens s, true)
    else (s, false).

Definition record_success_mut (now : pyfloat) (s : CircuitBreakerState)
      : CircuitBreakerState * bool :=
    let s := _transition_if_reset_timeout_elapsed now s in
    if String.eqb (state s) (cs_value HALF_OPEN) then
      let succ := half_open_success_count s + 1 in
      if half_open_max_probes cfg <=? succ
      then (mkCBS (cs_value CLOSED) 0 (last_failure_time_epoch_s s) 0 0
                  (total_opens s) (total_fail_opens s), true)
      else (mkCBS (state s) (failure_count s) (last_failure_time_epoch_s s) succ
                  (half_open_probe_count s) (total_opens s) (total_fail_opens s), false)
    else (mkCBS (cs_value CLOSED) 0 (last_failure_time_epoch_s s) (half_open_success_count s)
                (half_open_probe_count s) (total_opens s) (total_fail_opens s), false).

  (** [record_failure] reads the clock again when it stamps the failure ([now']). *)
Definition record_failure_mut (now now' : pyfloat) (s : CircuitBreakerState)
      : CircuitBreakerState * unit :=
    let s := _transition_if_reset_timeout_elapsed now s in
    if String.eqb (state s) (cs_value HALF_OPEN) then
      (mkCBS (cs_value OPEN) (failure_threshold cfg) now' 0 0
             (total_opens s + 1) (total_fail_opens s), tt)
    else
      let fc := failure_count s + 1 in
      if failure_threshold cfg <=? fc
      then (mkCBS (cs_value OPEN) fc now' 0 0 (total_opens s + 1) (total_fail_opens s), tt)
      else (mkCBS (state s) fc now' (half_open_success_count s) (half_open_probe_count s)
                  (total_opens s) (total_fail_opens s), tt).

Definition force_open_mut (now : pyfloat) (s : CircuitBreakerState)
      : CircuitBreakerState * unit :=
    (mkCBS (cs_value OPEN) (failure_count s) now 0 0 (total_opens s + 1) (total_fail_opens s), tt).

Definition force_close_mut (s : CircuitBreakerState) : CircuitBreakerState * unit :=
    (mkCBS (cs_value CLOSED) 0 (last_failure_time_epoch_s s) 0 0
           (total_opens s) (total_fail_opens s), tt).
End mutators.

(** ** The breaker over a store *)

Record CircuitBreaker (S : Type) := mkCB { state_store : S; fallback_state : CircuitBreakerState }.
Arguments mkCB {S} _ _.
Arguments state_store {S} _.
Arguments fallback_state {S} _.

Section breaker.
  Context {S : Type} `{CircuitStateStore S} (cfg : CBConfig).
  Implicit Types (b : CircuitBreaker S).

  (** [_safe_mutate]: a [RedisError] switches to the fallback state; other
      exceptions propagate. *)
Definition _safe_mutate {A} (mutator : CircuitBreakerState → CircuitBreakerState * A) b
      : res (CircuitBreakerState * A) * CircuitBreaker S :=
    match mutate mutator (state_store b) with
    | (Ok (s, a), st) => (Ok (s, a), mkCB st s)
    | (Raise RedisError, st) =>
        let '(d, a) := mutator (fallback_state b) in (Ok (d, a), mkCB st d)
    | (Raise e, st) => (Raise e, mkCB st (fallback_state b))
    end.

Definition run {A} (mutator : CircuitBreakerState → CircuitBreakerState * A) b
      : res A * CircuitBreaker S :=
    match _safe_mutate mutator b with
    | (Ok (_, a), b') => (Ok a, b')
    | (Raise e, b') => (Raise e, b')
    end.

  (** [__init__]: an identity mutation primes the fallback copy. *)
Definition CircuitBreaker_init (store : S) : res unit * CircuitBreaker S :=
    run (λ s, (s, tt)) (mkCB store initial_state).

Definition get_state (now : pyfloat) b := run (state_mut cfg now) b.
Definition is_open (now : pyfloat) b := run (is_open_mut cfg now) b.
Definition record_success (now : pyfloat) b := run (record_success_mut cfg now) b.
Definition record_failure (now now' : pyfloat) b := run (record_failure_mut cfg now now') b.
Definition force_open (now : pyfloat) b := run (force_open_mut now) b.
Definition force_close b := run force_close_mut b.
Definition get_metrics (now : pyfloat) b :=
    run (λ s, let s := _transition_if_reset_timeout_elapsed cfg now s in (s, s)) b.
End breaker.

(** ** Operations as steps *)

Inductive cb_op :=
| OpState (now : pyfloat)
| OpIsOpen (now : pyfloat)
| OpSuccess (now : pyfloat)
| OpFailure (now now' : pyfloat)
| OpForceOpen (now : pyfloat)
| OpForceClose
| OpMetrics (now : pyfloat).

Definition apply_op {S} `{CircuitStateStore S} (cfg : CBConfig) (op : cb_op)
    (b : CircuitBreaker S) : CircuitBreaker S :=
  match op with
  | OpState now => (get_state cfg now b).2
  | OpIsOpen now => (is_open cfg now b).2
  | OpSuccess now => (record_success cfg now b).2
  | OpFailure now now' => (record_failure cfg now now' b).2
  | OpForceOpen now => (force_open now b).2
  | OpForceClose => (force_close b).2
  | OpMetrics now => (get_metrics cfg now b).2
  end.

(** The state change of an operation, without store and result. *)
Definition op_effect (cfg : CBConfig) (op : cb_op) (s : CircuitBreakerState)
    : CircuitBreakerState :=
  match op with
  | OpState now | OpMetrics now => _transition_if_reset_timeout_elapsed cfg now s
  | OpIsOpen now => (is_open_mut cfg now s).1
  | OpSuccess now => (record_success_mut cfg now s).1
  | OpFailure now now' => (record_failure_mut cfg now now' s).1
  | OpForceOpen now => (force_open_mut now s).1
  | OpForceClose => (force_close_mut s).1
  end.

(** ** Invariant *)

Definition cfg_wf (cfg : CBConfig) : Prop :=
  1 <= failure_threshold cfg ∧ 1 <= half_open_max_probes cfg.

(** The state is one of the three, probe and success counters are zero outside
    half-open and bounded inside, and a closed breaker is below the threshold. *)
Definition cb_wf (cfg : CBConfig) (s : CircuitBreakerState) : Prop :=
  (state s = cs_value CLOSED ∧ 0 <= failure_count s < failure_threshold cfg
     ∧ half_open_success_count s = 0 ∧ half_open_probe_count s = 0
   ∨ state s = cs_value OPEN ∧ 0 <= failure_count s
     ∧ half_open_success_count s = 0 ∧ half_open_probe_count s = 0
   ∨ state s = cs_value HALF_OPEN ∧ 0 <= failure_count s
     ∧ 0 <= half_open_success_count s < half_open_max_probes cfg
     ∧ 0 <= half_open_probe_count s <= half_open_max_probes cfg)
  ∧ 0 <= total_opens s ∧ 0 <= total_fail_opens s.

Lemma initial_wf cfg : cfg_wf cfg → cb_wf cfg initial_state.
Proof. intros [? ?]. unfold cb_wf; simpl. split; [left|]; split_and!; done || lia. Qed.

Lemma transition_wf cfg now s :
  cfg_wf cfg → cb_wf cfg s → cb_wf cfg (_transition_if_reset_timeout_elapsed cfg now s).
Proof.
  intros [? ?] Hs. unfold _transition_if_reset_timeout_elapsed.
  destruct (String.eqb_spec (state s) (cs_value OPEN)) as [E|]; simpl; [|done].
  destruct (fle _ _); [|done]. destruct Hs as [[(E' & _)|[(_ & ? & _)|(E' & _)]] ?];
    [by rewrite E in E'| |by rewrite E in E'].
  split; [|done]. right; right. simpl. split_and!; done || lia.
Qed.

(** Case split on the state of a well-formed breaker, deciding its string tests. *)
Ltac cb_cases Hs :=
  let E := fresh "E" in
  destruct Hs as [[(E & ? & ? & ?)|[(E & ? & ? & ?)|(E & ? & ? & ?)]] [? ?]];
  rewrite ?E; cbn [String.eqb Ascii.eqb cs_value eqb].

Ltac cb_solve := unfold cb_wf; simpl; split; [|split; lia];
  first [ left; split_and!; done || lia | right; left; split_and!; done || lia
        | right; right; split_and!; done || lia ].

Lemma op_effect_wf cfg op s : cfg_wf cfg → cb_wf cfg s → cb_wf cfg (op_effect cfg op s).
Proof.
  intros Hc Hs. pose proof Hc as [? ?].
  destruct op as [now|now|now|now now'|now| |now]; simpl; try by apply transition_wf.
  - unfold is_open_mut. pose proof (transition_wf cfg now s Hc Hs) as Ht. revert Ht.
    generalize (_transition_if_reset_timeout_elapsed cfg now s); intros t Ht.
    cb_cases Ht; simpl; try cb_solve.
    destruct (Z.ltb_spec (half_open_probe_count t) (half_open_max_probes cfg)); simpl; cb_solve.
  - unfold record_success_mut. pose proof (transition_wf cfg now s Hc Hs) as Ht. revert Ht.
    generalize (_transition_if_reset_timeout_elapsed cfg now s); intros t Ht.
    cb_cases Ht; simpl; try cb_solve.
    destruct (Z.leb_spec (half_open_max_probes cfg) (half_open_success_count t + 1)); simpl; cb_solve.
  - unfold record_failure_mut. pose proof (transition_wf cfg now s Hc Hs) as Ht. revert Ht.
    generalize (_transition_if_reset_timeout_elapsed cfg now s); intros t Ht.
    cb_cases Ht; simpl; try cb_solve;
      destruct (Z.leb_spec (failure_threshold cfg) (failure_count t + 1)); simpl; cb_solve.
  - cb_cases Hs; cb_solve.
  - cb_cases Hs; cb_solve.
Qed.

(** ** Round trip of the shared representation *)

Lemma parse_dump s : _parse_state (RJson (dump_state s)) = Ok s.
Proof. by destruct s. Qed.

(** ** The store interface and its laws *)

(** [holds P s]: every state the store may hand to a mutator satisfies [P]. A lawful
    store applies the mutator to such a state and keeps the property. *)
Class CircuitStateStoreLaws (S : Type) `{CircuitStateStore S} := {
  holds : (CircuitBreakerState → Prop) → S → Prop;
  mutate_law : ∀ {A} (f : CircuitBreakerState → CircuitBreakerState * A) P s,
    P initial_state → (∀ c, P c → P (f c).1) → holds P s →
    holds P (mutate f s).2 ∧
    ∀ r, (mutate f s).1 = Ok r → ∃ c, P c ∧ r = f c;
}.

#[export] Instance local_laws : CircuitStateStoreLaws CircuitBreakerState.
Proof.
  refine {| holds P s := P s |}.
  intros A f P s _ Hf Hs. simpl. unfold local_mutate. specialize (Hf s Hs).
  destruct (f s) as [s' a] eqn:E. split; [done|]. intros r [= <-]. by exists s.
Defined.

Definition redis_value_ok (P : CircuitBreakerState → Prop) (v : redis_value) : Prop :=
  ∀ s, _parse_state v = Ok s → P s.

Definition redis_round_ok (P : CircuitBreakerState → Prop) (r : redis_round) : Prop :=
  match r with RWatchError other => redis_value_ok P other | _ => True end.

Lemma redis_loop_law {A} (f : CircuitBreakerState → CircuitBreakerState * A) P rounds key :
  (∀ c, P c → P (f c).1) → redis_value_ok P key → Forall (redis_round_ok P) rounds →
  let '(r, st) := redis_mutate_loop f key rounds in
  (redis_value_ok P (redis_key st) ∧ Forall (redis_round_ok P) (redis_rounds st)) ∧
  ∀ r', r = Ok r' → ∃ c, P c ∧ r' = f c.
Proof.
  intros Hf. revert key. induction rounds as [|rd rounds IH]; intros key Hk Hr; simpl.
  - destruct (_parse_state key) as [c|] eqn:E; [|simpl; by split].
    specialize (Hf c (Hk c E)). destruct (f c) as [c' a] eqn:Ef; simpl in *.
    split; [split; [|done]|]; [|intros ? [= <-]; eauto].
    intros s' Hs'. rewrite parse_dump in Hs'. by simplify_eq.
  - apply Forall_cons in Hr as [Hrd Hr]. destruct rd as [|other|]; simpl; [| |by split].
    + destruct (_parse_state key) as [c|] eqn:E; [|simpl; by split].
      specialize (Hf c (Hk c E)). destruct (f c) as [c' a] eqn:Ef; simpl in *.
      split; [split; [|done]|]; [|intros ? [= <-]; eauto].
      intros s' Hs'. rewrite parse_dump in Hs'. by simplify_eq.
    + destruct (_parse_state key); [|simpl; by split]. by apply IH.
Qed.

#[export] Instance redis_laws : CircuitStateStoreLaws RedisCircuitStateStore.
Proof.
  refine {| holds P s := redis_value_ok P (redis_key s) ∧ Forall (redis_round_ok P) (redis_rounds s) |}.
  intros A f P s _ Hf [Hk Hr]. simpl.
  pose proof (redis_loop_law f P (redis_rounds s) (redis_key s) Hf Hk Hr) as H.
  destruct (redis_mutate_loop _ _ _) as [r st]. done.
Defined.

(** ** The breaker over a lawful store *)

Section laws.
  Context {S : Type} `{CircuitStateStoreLaws S} (cfg : CBConfig).

Definition breaker_wf (P : CircuitBreakerState → Prop) (b : CircuitBreaker S) : Prop :=
    holds P (state_store b) ∧ P (fallback_state b).

Lemma safe_mutate_law {A} (f : CircuitBreakerState → CircuitBreakerState * A) P b :
    P initial_state → (∀ c, P c → P (f c).1) → breaker_wf P b →
    breaker_wf P (_safe_mutate f b).2 ∧
    ∀ r, (_safe_mutate f b).1 = Ok r → ∃ c, P c ∧ r = f c.
  Proof.
    intros Hi Hf [Hst Hfb]. unfold _safe_mutate.
    destruct (mutate_law f P (state_store b) Hi Hf Hst) as [Hst' Hr].
    destruct (mutate f (state_store b)) as [[[c a]|e] st]; simpl in *.
    - destruct (Hr _ eq_refl) as (c0 & Hc0 & Hca). split; [|naive_solver].
      split; simpl; [done|]. specialize (Hf c0 Hc0). by rewrite <- Hca in Hf.
    - destruct e; simpl; try (split; [by split|done]).
      specialize (Hf _ Hfb) as Hfb'. destruct (f (fallback_state b)) as [d a] eqn:E; simpl in *.
      split; [by split|]. intros r [= <-]. eauto.
  Qed.

Lemma run_law {A} (f : CircuitBreakerState → CircuitBreakerState * A) P b :
    P initial_state → (∀ c, P c → P (f c).1) → breaker_wf P b →
    breaker_wf P (run f b).2 ∧ ∀ a, (run f b).1 = Ok a → ∃ c, P c ∧ a = (f c).2.
  Proof.
    intros Hi Hf Hb. unfold run. destruct (safe_mutate_law f P b Hi Hf Hb) as [H1 H2].
    destruct (_safe_mutate f b) as [[[c a]|e] b']; simpl in *; [|by split].
    split; [done|]. intros a' [= <-]. destruct (H2 _ eq_refl) as (c0 & ? & E).
    exists c0. by rewrite <- E.
  Qed.

Lemma apply_op_wf op b :
    cfg_wf cfg → breaker_wf (cb_wf cfg) b → breaker_wf (cb_wf cfg) (apply_op cfg op b).
  Proof.
    intros Hc Hb. pose proof (λ c Hw, op_effect_wf cfg op c Hc Hw) as He.
    destruct op; simpl; eapply run_law; eauto using initial_wf.
  Qed.
End laws.

(** ** Theorems *)

Definition cb_step {S} `{CircuitStateStore S} (cfg : CBConfig) (b b' : CircuitBreaker S) : Prop :=
  ∃ op, b' = apply_op cfg op b.

(** C1. Every state a breaker reaches through its operations, over any lawful store
    (in-process, or Redis with concurrent well-formed writers, retries and outages),
    is well formed: one of the three states, half-open counters within the probe
    budget and zero outside half-open, a closed breaker below its failure threshold.
    The same holds of the degraded copy used when Redis is down. *)
Theorem breaker_reachable_wf {S : Type} `{CircuitStateStoreLaws S} (cfg : CBConfig)
    (b b' : CircuitBreaker S) :
  cfg_wf cfg → breaker_wf (cb_wf cfg) b → rtc (cb_step cfg) b b' →
  breaker_wf (cb_wf cfg) b'.
Proof.
  intros Hc Hb Hr. induction Hr as [b|b b1 b' [op ->] _ IH]; [done|].
  apply IH. by apply apply_op_wf.
Qed.

(** Failures in a row, each with the two clock readings of [record_failure]. *)
Definition fail_all (cfg : CBConfig) (times : list (pyfloat * pyfloat)) (s : CircuitBreakerState)
    : CircuitBreakerState :=
  fold_left (λ s t, (record_failure_mut cfg t.1 t.2 s).1) times s.

Lemma fail_closed cfg now now' s :
  cfg_wf cfg → state s = cs_value CLOSED → failure_count s + 1 < failure_threshold cfg →
  let s' := (record_failure_mut cfg now now' s).1 in
  state s' = cs_value CLOSED ∧ failure_count s' = failure_count s + 1 ∧ total_opens s' = total_opens s.
Proof.
  intros _ E Hlt. unfold record_failure_mut, _transition_if_reset_timeout_elapsed.
  rewrite E; simpl. rewrite E; simpl. destruct (Z.leb_spec (failure_threshold cfg) (failure_count s + 1)); [lia|].
  by simpl.
Qed.

Lemma fail_all_closed cfg times s :
  cfg_wf cfg → state s = cs_value CLOSED →
  failure_count s + Z.of_nat (length times) < failure_threshold cfg →
  state (fail_all cfg times s) = cs_value CLOSED ∧
  failure_count (fail_all cfg times s) = failure_count s + Z.of_nat (length times) ∧
  total_opens (fail_all cfg times s) = total_opens s.
Proof.
  intros Hc. unfold fail_all. revert s. induction times as [|t times IH]; intros s E Hlt; cbn [fold_left length] in *.
  - split_and!; done || lia.
  - destruct (fail_closed cfg t.1 t.2 s Hc E) as (E' & F & T); [lia|].
    destruct (IH _ E') as (? & ? & ?); [lia|]. split_and!; [done|lia|congruence].
Qed.

(** C20. Starting closed with no failures recorded, the breaker stays closed through
    fewer than [failure_threshold] consecutive failures, whatever their times, and the
    [failure_threshold]-th opens it: the failure is stamped with the current time, one
    opening is counted, and the half-open counters are clear. *)
Theorem breaker_opens_exactly_at_threshold (cfg : CBConfig) (times : list (pyfloat * pyfloat))
    (last : pyfloat * pyfloat) (s : CircuitBreakerState) :
  cfg_wf cfg → state s = cs_value CLOSED → failure_count s = 0 →
  (Z.of_nat (length times) < failure_threshold cfg →
     state (fail_all cfg times s) = cs_value CLOSED) ∧
  (Z.of_nat (length times) + 1 = failure_threshold cfg →
     let s' := fail_all cfg (times ++ [last]) s in
     state s' = cs_value OPEN ∧ last_failure_time_epoch_s s' = last.2 ∧
     total_opens s' = total_opens s + 1 ∧
     half_open_success_count s' = 0 ∧ half_open_probe_count s' = 0).
Proof.
  intros Hc E F. split; intros Hlen.
  - apply fail_all_closed; done || lia.
  - destruct (fail_all_closed cfg times s Hc E) as (E' & F' & T'); [lia|].
    cbv zeta. unfold fail_all in *. rewrite fold_left_app. cbn [fold_left].
    unfold record_failure_mut at 1 3 5 7 9, _transition_if_reset_timeout_elapsed.
    rewrite E'; simpl. rewrite E'; simpl. rewrite F', F.
    rewrite (proj2 (Z.leb_le _ _)) by lia. simpl. by rewrite T'.
Qed.

(** While the breaker is open, [is_open] answers "fail open" and counts it until
    the reset timeout has elapsed since the last failure; the first call after that
    moves to half-open, admits the request and consumes exactly one probe. *)
Theorem breaker_open_timeout (cfg : CBConfig) (now : pyfloat) (s : CircuitBreakerState) :
  cfg_wf cfg → state s = cs_value OPEN →
  let '(s', failed_open) := is_open_mut cfg now s in
  if fle (reset_timeout_s cfg) (fsub now (last_failure_time_epoch_s s))
  then failed_open = false ∧ state s' = cs_value HALF_OPEN ∧ half_open_probe_count s' = 1
       ∧ half_open_success_count s' = 0 ∧ total_fail_opens s' = total_fail_opens s
  else failed_open = true ∧ s' = bump_fail_opens s.
Proof.
  intros [_ Hm] E. unfold is_open_mut, _transition_if_reset_timeout_elapsed. rewrite E; simpl.
  destruct (fle _ _); simpl.
  - by rewrite (proj2 (Z.ltb_lt _ _)) by lia.
  - by rewrite E.
Qed.

(** The answers of successive [is_open] calls. *)
Fixpoint is_open_calls (cfg : CBConfig) (nows : list pyfloat) (s : CircuitBreakerState)
    : CircuitBreakerState * list bool :=
  match nows with
  | [] => (s, [])
  | now :: rest =>
      let '(s', r) := is_open_mut cfg now s in
      let '(s'', rs) := is_open_calls cfg rest s' in (s'', r :: rs)
  end.

Fixpoint admitted (answers : list bool) : Z :=
  match answers with [] => 0 | r :: rest => (if r : bool then 0 else 1) + admitted rest end.

(** In half-open, a run of [is_open] calls with no recorded outcome admits exactly
    as many requests as the remaining probe budget allows, however many calls arrive
    and whenever they do. *)
Theorem breaker_probe_budget (cfg : CBConfig) (nows : list pyfloat) (s : CircuitBreakerState) :
  state s = cs_value HALF_OPEN → half_open_probe_count s <= half_open_max_probes cfg →
  admitted (is_open_calls cfg nows s).2
  = Z.of_nat (length nows) `min` (half_open_max_probes cfg - half_open_probe_count s).
Proof.
  revert s. induction nows as [|now nows IH]; intros s E Hle; cbn [is_open_calls length]; [simpl; lia|].
  unfold is_open_mut, _transition_if_reset_timeout_elapsed. rewrite E; simpl. rewrite E; simpl.
  destruct (Z.ltb_spec (half_open_probe_count s) (half_open_max_probes cfg)) as [Hlt|Hge].
  - set (s1 := mkCBS _ _ _ _ _ _ _). specialize (IH s1). destruct (is_open_calls cfg nows s1) as [s2 rs].
    simpl in IH. cbn [snd admitted]. rewrite IH; [lia|done|lia].
  - specialize (IH (bump_fail_opens s)). destruct (is_open_calls _ _ _) as [s2 rs].
    simpl in IH. cbn [snd admitted]. rewrite IH; [lia|done|lia].
Qed.

(** The operations that record no outcome. *)
Definition is_read (op : cb_op) : bool :=
  match op with OpState _ | OpIsOpen _ | OpMetrics _ => true | _ => false end.

(** C21. A half-open breaker whose probes were all admitted and never resolved by a
    recorded success or failure is stuck: no amount of elapsed time and no further
    reads leave half-open, and every request from then on is failed open. The reset
    timeout only applies to the open state. *)
Theorem breaker_half_open_stuck (cfg : CBConfig) (ops : list cb_op) (now : pyfloat)
    (s : CircuitBreakerState) :
  state s = cs_value HALF_OPEN → half_open_max_probes cfg <= half_open_probe_count s →
  forallb is_read ops = true →
  let s' := fold_left (λ s op, op_effect cfg op s) ops s in
  state s' = cs_value HALF_OPEN ∧ (is_open_mut cfg now s').2 = true.
Proof.
  intros E Hge. revert s E Hge. induction ops as [|op ops IH]; intros s E Hge Hops; simpl in *.
  - split; [done|]. unfold is_open_mut, _transition_if_reset_timeout_elapsed.
    rewrite E; simpl. rewrite E; simpl. by rewrite (proj2 (Z.ltb_ge _ _)) by lia.
  - apply andb_prop in Hops as [Hop Hops].
    assert (state (op_effect cfg op s) = cs_value HALF_OPEN ∧
            half_open_max_probes cfg <= half_open_probe_count (op_effect cfg op s)) as [E' Hge'];
      [|by apply IH].
    destruct op; try done; simpl; unfold is_open_mut, _transition_if_reset_timeout_elapsed;
      rewrite E; simpl; try by split.
    rewrite E; simpl. by rewrite (proj2 (Z.ltb_ge _ _)) by lia.
Qed.

(** Successes in a row. *)
Definition succeed_all (cfg : CBConfig) (nows : list pyfloat) (s : CircuitBreakerState)
    : CircuitBreakerState :=
  fold_left (λ s now, (record_success_mut cfg now s).1) nows s.

Lemma succeed_half_open cfg nows s :
  state s = cs_value HALF_OPEN →
  half_open_success_count s + Z.of_nat (length nows) < half_open_max_probes cfg →
  state (succeed_all cfg nows s) = cs_value HALF_OPEN ∧
  half_open_success_count (succeed_all cfg nows s) = half_open_success_count s + Z.of_nat (length nows).
Proof.
  unfold succeed_all. revert s. induction nows as [|now nows IH]; intros s E Hlt; cbn [fold_left length] in *.
  - split; [done|lia].
  - assert (record_success_mut cfg now s =
            (mkCBS (state s) (failure_count s) (last_failure_time_epoch_s s) (half_open_success_count s + 1)
              (half_open_probe_count s) (total_opens s) (total_fail_opens s), false)) as ->.
    { unfold record_success_mut, _transition_if_reset_timeout_elapsed. rewrite E; simpl. rewrite E; simpl.
      by rewrite (proj2 (Z.leb_gt _ _)) by lia. }
    simpl. destruct (IH (mkCBS (state s) (failure_count s) (last_failure_time_epoch_s s)
      (half_open_success_count s + 1) (half_open_probe_count s) (total_opens s) (total_fail_opens s)) E)
      as [? Hs]; simpl in *; [lia|]. split; [done|lia].
Qed.

(** Recovery from half-open: fewer than [half_open_max_probes] successes leave it
    half-open, the [half_open_max_probes]-th closes it with all counters reset, and a
    single failure at any point before that reopens it with a fresh timestamp. *)
Theorem breaker_half_open_resolution (cfg : CBConfig) (nows : list pyfloat) (last t1 t2 : pyfloat)
    (s : CircuitBreakerState) :
  state s = cs_value HALF_OPEN → half_open_success_count s = 0 →
  (Z.of_nat (length nows) < half_open_max_probes cfg →
     state (succeed_all cfg nows s) = cs_value HALF_OPEN ∧
     let r := (record_failure_mut cfg t1 t2 (succeed_all cfg nows s)).1 in
     state r = cs_value OPEN ∧ last_failure_time_epoch_s r = t2) ∧
  (Z.of_nat (length nows) + 1 = half_open_max_probes cfg →
     let s' := succeed_all cfg (nows ++ [last]) s in
     state s' = cs_value CLOSED ∧ failure_count s' = 0 ∧
     half_open_success_count s' = 0 ∧ half_open_probe_count s' = 0).
Proof.
  intros E Hs0. split; intros Hlen.
  - destruct (succeed_half_open cfg nows s E) as [E' _]; [lia|]. split; [done|].
    unfold record_failure_mut, _transition_if_reset_timeout_elapsed. rewrite E'; simpl. by rewrite E'.
  - destruct (succeed_half_open cfg nows s E) as [E' S']; [lia|].
    cbv zeta. unfold succeed_all in *. rewrite fold_left_app. cbn [fold_left].
    assert ((record_success_mut cfg last (fold_left (λ s now, (record_success_mut cfg now s).1) nows s)).1
      = mkCBS (cs_value CLOSED) 0 (last_failure_time_epoch_s (fold_left (λ s now, (record_success_mut cfg now s).1) nows s))
          0 0 (total_opens (fold_left (λ s now, (record_success_mut cfg now s).1) nows s))
          (total_fail_opens (fold_left (λ s now, (record_success_mut cfg now s).1) nows s))) as ->; [|done].
    unfold record_success_mut at 1, _transition_if_reset_timeout_elapsed. rewrite E'; simpl. rewrite E'; simpl.
    by rewrite (proj2 (Z.leb_le _ _)) by lia.
Qed.

(** A Redis store that fails every round of the next [n] mutations. *)
Definition redis_down (n : nat) (key : redis_value) : RedisCircuitStateStore :=
  mkRedisStore key (replicate n RFail).

Definition apply_ops {S} `{CircuitStateStore S} (cfg : CBConfig) (ops : list cb_op)
    (b : CircuitBreaker S) : CircuitBreaker S := fold_left (λ b op, apply_op cfg op b) ops b.

Lemma run_down {A} (f : CircuitBreakerState → CircuitBreakerState * A) n key fb :
  run f (mkCB (redis_down (S n) key) fb) = (Ok (f fb).2, mkCB (redis_down n key) (f fb).1).
Proof. unfold run, _safe_mutate. simpl. by destruct (f fb). Qed.

Lemma run_local {A} (f : CircuitBreakerState → CircuitBreakerState * A) s fb :
  run f (mkCB s fb) = (Ok (f s).2, mkCB (f s).1 (f s).1).
Proof. unfold run, _safe_mutate; simpl. unfold local_mutate. by destruct (f s). Qed.

(** C19. Degraded mode refines the in-process breaker: during a Redis outage any
    sequence of operations drives the fallback copy through exactly the states the
    in-process breaker reaches from it, and the next [is_open] gives the same answer;
    the shared key is not touched. *)
Theorem breaker_degraded_refines_local (cfg : CBConfig) (ops : list cb_op) (now : pyfloat)
    (key : redis_value) (fb : CircuitBreakerState) (n : nat) :
  (length ops < n)%nat →
  let b := apply_ops cfg ops (mkCB (redis_down n key) fb) in
  let l := apply_ops cfg ops (mkCB fb fb) in
  fallback_state b = state_store l ∧ (is_open cfg now b).1 = (is_open cfg now l).1 ∧
  redis_key (state_store b) = key.
Proof.
  intros Hn. unfold apply_ops. revert n fb Hn.
  induction ops as [|op ops IH]; intros n fb Hn; cbn [fold_left length] in *;
    (destruct n as [|n]; [lia|]).
  - unfold is_open. rewrite run_down, run_local. done.
  - destruct op; cbn [apply_op]; unfold get_state, is_open, record_success, record_failure,
      force_open, force_close, get_metrics; rewrite run_down, run_local; cbn [snd]; apply IH; lia.
Qed.

(** Any Redis value the breaker writes is read back as the same state, so
    replicas sharing the key see each other's transitions; an undecodable value makes
    the operation raise instead of degrading, since only [RedisError] is caught. *)
Theorem breaker_shared_state_roundtrip (cfg : CBConfig) (now : pyfloat)
    (s : CircuitBreakerState) (fb : CircuitBreakerState) :
  _parse_state (RJson (dump_state s)) = Ok s ∧
  (is_open cfg now (mkCB (mkRedisStore (RJson (dump_state s)) []) fb)).1
    = Ok (is_open_mut cfg now s).2 ∧
  (is_open cfg now (mkCB (mkRedisStore RGarbage []) fb)).1 = Raise (ValueError "Expecting value").
Proof.
  split; [apply parse_dump|]. split; [|done].
  unfold is_open, run, _safe_mutate. cbn [state_store mutate RedisStore redis_rounds redis_key redis_mutate_loop].
  rewrite parse_dump. by destruct (is_open_mut cfg now s).
Qed.

(** ** Concrete instances *)

(** The constructor's defaults. *)
Definition default_cb_config : CBConfig := mkCBConfig 5 (of_Z 30) 3.

Definition opened_at_10 : CircuitBreakerState := mkCBS (cs_value OPEN) 5 (of_Z 10) 0 0 1 0.
Definition half_open_fresh : CircuitBreakerState := mkCBS (cs_value HALF_OPEN) 5 (of_Z 10) 0 0 1 0.
Definition half_open_spent : CircuitBreakerState := mkCBS (cs_value HALF_OPEN) 5 (of_Z 10) 0 3 1 0.

Lemma default_cfg_wf : cfg_wf default_cb_config.
Proof. split; vm_compute; congruence. Qed.

Lemma breaker_reachable_wf_witness :
  breaker_wf (S:=RedisCircuitStateStore) (cb_wf default_cb_config)
    (apply_op default_cb_config (OpFailure f0 f1)
       (mkCB (mkRedisStore RAbsent [RWatchError (RJson (dump_state opened_at_10)); RCommit]) initial_state)).
Proof.
  apply (breaker_reachable_wf default_cb_config (mkCB (mkRedisStore RAbsent
           [RWatchError (RJson (dump_state opened_at_10)); RCommit]) initial_state)).
  - exact default_cfg_wf.
  - split; simpl; [|apply initial_wf, default_cfg_wf]. split.
    + intros sx Hs. injection Hs as <-. apply initial_wf, default_cfg_wf.
    + apply Forall_cons; split; [|by apply Forall_singleton].
      intros sx Hs. rewrite parse_dump in Hs. injection Hs as <-.
      split; [right; left; split_and!; reflexivity || (vm_compute; congruence)|vm_compute; split; congruence].
  - apply rtc_once. by exists (OpFailure f0 f1).
Defined.

Lemma breaker_opens_exactly_at_threshold_witness :
  state (fail_all default_cb_config (replicate 4 (f0, f0)) initial_state) = cs_value CLOSED ∧
  state (fail_all default_cb_config (replicate 4 (f0, f0) ++ [(f1, f1)]) initial_state) = cs_value OPEN.
Proof.
  destruct (breaker_opens_exactly_at_threshold default_cb_config (replicate 4 (f0, f0)) (f1, f1)
    initial_state default_cfg_wf eq_refl eq_refl) as [H1 H2].
  split; [apply H1; reflexivity|apply H2; reflexivity].
Defined.

Lemma breaker_open_timeout_witness :
  (is_open_mut default_cb_config (of_Z 39) opened_at_10).2 = true ∧
  (is_open_mut default_cb_config (of_Z 40) opened_at_10).2 = false.
Proof.
  pose proof (breaker_open_timeout default_cb_config (of_Z 39) opened_at_10 default_cfg_wf eq_refl) as H1.
  pose proof (breaker_open_timeout default_cb_config (of_Z 40) opened_at_10 default_cfg_wf eq_refl) as H2.
  split; vm_compute in *; tauto.
Defined.

Lemma breaker_probe_budget_witness :
  admitted (is_open_calls default_cb_config (replicate 10 f1) half_open_fresh).2 = 3.
Proof.
  rewrite (breaker_probe_budget default_cb_config (replicate 10 f1) half_open_fresh);
    [reflexivity|reflexivity|vm_compute; congruence].
Defined.

Lemma breaker_half_open_stuck_witness :
  (is_open_mut default_cb_config (of_Z (10 ^ 9))
    (fold_left (λ s op, op_effect default_cb_config op s)
       [OpState (of_Z (10 ^ 6)); OpIsOpen (of_Z (10 ^ 7))] half_open_spent)).2 = true.
Proof.
  apply (breaker_half_open_stuck default_cb_config
           [OpState (of_Z (10 ^ 6)); OpIsOpen (of_Z (10 ^ 7))] (of_Z (10 ^ 9)) half_open_spent);
    [reflexivity|vm_compute; congruence|reflexivity].
Defined.

Lemma breaker_half_open_resolution_witness :
  state (succeed_all default_cb_config ([f1; f1] ++ [f1]) half_open_fresh) = cs_value CLOSED.
Proof.
  apply (breaker_half_open_resolution default_cb_config [f1; f1] f1 f1 f1 half_open_fresh);
    reflexivity.
Defined.

Lemma breaker_degraded_refines_local_witness :
  (is_open default_cb_config (of_Z 50)
    (apply_ops default_cb_config [OpFailure f0 f1; OpState f1] (mkCB (redis_down 3 RGarbage) opened_at_10))).1
  = (is_open default_cb_config (of_Z 50)
    (apply_ops default_cb_config [OpFailure f0 f1; OpState f1] (mkCB opened_at_10 opened_at_10))).1.
Proof.
  apply (breaker_degraded_refines_local default_cb_config [OpFailure f0 f1; OpState f1] (of_Z 50)
           RGarbage opened_at_10 3). simpl. lia.
Defined.
