(* ===== verification/ShadowWarming.v ===== *)
(** * Shadow warming (src/aci/interceptor/shadow_warming.py)

    Deduplicated background refreshes. [trigger_refresh] suspends while its refresh
    function runs, so it is two atomic steps: [begin_refresh] before the [await] and
    [end_refresh] after it; other tasks run in between. *)

From S2P Require Import Prelude PyFloat PyData PyValue.
From Stdlib Require Import ZArith Lia.
From stdpp Require Import base list gmap strings relations.

Open Scope string_scope.
Open Scope list_scope.
Open Scope Z_scope.

Record ShadowWarmer := mkWarmer {
  in_progress : gset string;
  last_refresh : odict string pyfloat;
  refresh_count : Z;
  suppressed_count : Z;
}.

Definition ShadowWarmer_init : ShadowWarmer := mkWarmer ∅ [] 0 0.

Record WarmConfig := mkWarmConfig {
  shadow_warm_probability : pyfloat;
  shadow_warm_max_tracked_workloads : nat;
}.

Definition min_refresh_interval_s : pyfloat := of_Z 5.

(** [should_trigger_refresh]; [now] and [r] are the readings of [time.monotonic()]
    and [random.random()]. *)
Definition should_trigger_refresh (cfg : WarmConfig) (workload_id : string) (now r : pyfloat)
    (w : ShadowWarmer) : bool * ShadowWarmer :=
  let suppress := mkWarmer (in_progress w) (last_refresh w) (refresh_count w) (suppressed_count w + 1) in
  if decide (workload_id ∈ in_progress w) then (false, suppress) else
  let last := default f0 (od_get workload_id (last_refresh w)) in
  if flt (fsub now last) min_refresh_interval_s then (false, suppress) else
  (flt r (shadow_warm_probability cfg), w).

(** The part of [trigger_refresh] before the [await]; [false] returns at once. *)
Definition begin_refresh (workload_id : string) (w : ShadowWarmer) : bool * ShadowWarmer :=
  if decide (workload_id ∈ in_progress w) then (false, w)
  else (true, mkWarmer ({[workload_id]} ∪ in_progress w) (last_refresh w) (refresh_count w)
                       (suppressed_count w)).

(** [while len(last_refresh) > max_entries: drop the oldest]. *)
Fixpoint drop_oldest (fuel : nat) (max_entries : nat) (d : odict string pyfloat)
    : odict string pyfloat :=
  match fuel with
  | O => d
  | S f => if decide (max_entries < length d)%nat then drop_oldest f max_entries (tail d) else d
  end.

(** [_record_refresh_locked]: pop, re-insert at the end, bound the size. *)
Definition _record_refresh_locked (cfg : WarmConfig) (workload_id : string) (refreshed_at : pyfloat)
    (d : odict string pyfloat) : odict string pyfloat :=
  let d := od_set workload_id refreshed_at (od_del workload_id d) in
  drop_oldest (length d) (shadow_warm_max_tracked_workloads cfg) d.

(** How the awaited refresh function ended. *)
Inductive refresh_outcome := RefreshDone (at_time : pyfloat) | RefreshRaised.

(** The part after the [await]: record on success, always leave [in_progress]. *)
Definition end_refresh (cfg : WarmConfig) (workload_id : string) (o : refresh_outcome)
    (w : ShadowWarmer) : bool * ShadowWarmer :=
  match o with
  | RefreshDone t =>
      (true, mkWarmer (in_progress w ∖ {[workload_id]})
               (_record_refresh_locked cfg workload_id t (last_refresh w))
               (refresh_count w + 1) (suppressed_count w))
  | RefreshRaised =>
      (false, mkWarmer (in_progress w ∖ {[workload_id]}) (last_refresh w) (refresh_count w)
               (suppressed_count w))
  end.

(** [stats]: completed, suppressed, in progress. *)
Definition stats (w : ShadowWarmer) : Z * Z * nat :=
  (refresh_count w, suppressed_count w, size (in_progress w)).

(** ** Interleaved refresh tasks *)

(** The system: the warmer and the refreshes currently suspended at their [await]. *)
Record warm_system := mkSystem { warmer : ShadowWarmer; running : list string }.

Inductive warm_step (cfg : WarmConfig) : warm_system → warm_system → Prop :=
| WS_ask wid now r w ts :
    warm_step cfg (mkSystem w ts) (mkSystem (should_trigger_refresh cfg wid now r w).2 ts)
| WS_begin wid w w' ts :
    begin_refresh wid w = (true, w') → warm_step cfg (mkSystem w ts) (mkSystem w' (wid :: ts))
| WS_refused wid w w' ts :
    begin_refresh wid w = (false, w') → warm_step cfg (mkSystem w ts) (mkSystem w' ts)
| WS_end wid o w ts1 ts2 :
    warm_step cfg (mkSystem w (ts1 ++ wid :: ts2))
      (mkSystem (end_refresh cfg wid o w).2 (ts1 ++ ts2)).

(** The [in_progress] set is exactly the running refreshes, with no workload twice, and
    the timestamps kept are bounded. *)
Definition warm_inv (cfg : WarmConfig) (s : warm_system) : Prop :=
  NoDup (running s) ∧ (∀ wid, wid ∈ in_progress (warmer s) ↔ wid ∈ running s) ∧
  od_wf (last_refresh (warmer s)) ∧
  (length (last_refresh (warmer s)) ≤ shadow_warm_max_tracked_workloads cfg)%nat.

Lemma drop_oldest_length fuel n d :
  (length d ≤ fuel + n)%nat → (length (drop_oldest fuel n d) ≤ n)%nat.
Proof.
  revert d. induction fuel as [|fuel IH]; intros d Hd; simpl; [lia|].
  case_decide; [|lia]. apply IH. destruct d; simpl in *; lia.
Qed.

Lemma drop_oldest_wf fuel n d : od_wf d → od_wf (drop_oldest fuel n d).
Proof.
  revert d. induction fuel as [|fuel IH]; intros d Hd; simpl; [done|].
  case_decide; [|done]. apply IH. destruct d; [done|]. by eapply od_wf_tail.
Qed.

Lemma record_refresh_bounded cfg wid t d :
  od_wf d → od_wf (_record_refresh_locked cfg wid t d) ∧
  (length (_record_refresh_locked cfg wid t d) ≤ shadow_warm_max_tracked_workloads cfg)%nat.
Proof.
  intros Hd. unfold _record_refresh_locked. split.
  - apply drop_oldest_wf. auto with odict.
  - apply drop_oldest_length. lia.
Qed.

Lemma warm_step_inv cfg s s' : warm_inv cfg s → warm_step cfg s s' → warm_inv cfg s'.
Proof.
  intros (Hnd & Hin & Hwf & Hlen) Hstep.
  destruct Hstep as [wid now r w ts|wid w w' ts Hb|wid w w' ts Hb|wid o w ts1 ts2]; simpl in *.
  - unfold should_trigger_refresh. repeat case_match; by split_and!.
  - unfold begin_refresh in Hb. case_decide; simplify_eq. split_and!; simpl; [|set_solver|done|done].
    constructor; [by rewrite <- Hin|done].
  - unfold begin_refresh in Hb. case_decide; simplify_eq. by split_and!.
  - assert (NoDup (wid :: (ts1 ++ ts2))) as Hnd'.
    { by rewrite Permutation_middle. }
    apply NoDup_cons in Hnd' as [Hnin Hnd'].
    assert (∀ x, x ∈ in_progress w ∖ {[wid]} ↔ x ∈ ts1 ++ ts2) as Hin'.
    { intros x. rewrite elem_of_difference, elem_of_singleton, Hin.
      rewrite !elem_of_app, elem_of_cons. rewrite elem_of_app in Hnin.
      destruct (decide (x = wid)) as [->|]; tauto. }
    destruct o as [t|]; simpl; split_and!; try done; by apply record_refresh_bounded.
Qed.

(** ** Theorems *)

(** C24. Whatever the interleaving of requests, refresh starts and completions
    (including failing refreshes), a workload never has two refreshes running, the
    in-progress set is exactly the running refreshes (none is leaked by an exception),
    and at most the configured number of refresh timestamps is kept. *)
Theorem warmer_single_refresh_per_workload (cfg : WarmConfig) (s : warm_system) :
  rtc (warm_step cfg) (mkSystem ShadowWarmer_init []) s → warm_inv cfg s.
Proof.
  assert (∀ a b, rtc (warm_step cfg) a b → warm_inv cfg a → warm_inv cfg b) as Hgen.
  { induction 1; eauto using warm_step_inv. }
  intros Hr. eapply Hgen; [done|]. split_and!; simpl; [constructor|set_solver|apply od_wf_nil|lia].
Qed.

Lemma warmer_single_refresh_per_workload_witness :
  warm_inv (mkWarmConfig (lit 1 100) 1)
    (mkSystem (begin_refresh "svc" ShadowWarmer_init).2 ["svc"]).
Proof.
  apply (warmer_single_refresh_per_workload (mkWarmConfig (lit 1 100) 1)).
  apply rtc_once. by apply (WS_begin _ "svc").
Defined.

(** The refresh gate: a refresh is triggered exactly when none is running for the
    workload, at least five seconds have passed since its last completed one, and the
    random draw is below the configured probability; exactly the refusals of the first
    two kinds are counted as suppressed, and nothing else of the warmer changes. *)
Theorem warmer_gate (cfg : WarmConfig) (wid : string) (now r : pyfloat) (w : ShadowWarmer) :
  let '(b, w') := should_trigger_refresh cfg wid now r w in
  let blocked := wid ∈ in_progress w ∨
    flt (fsub now (default f0 (od_get wid (last_refresh w)))) min_refresh_interval_s = true in
  (b = true ↔ (¬ blocked ∧ flt r (shadow_warm_probability cfg) = true)) ∧
  (blocked → suppressed_count w' = suppressed_count w + 1) ∧
  (¬ blocked → suppressed_count w' = suppressed_count w) ∧
  in_progress w' = in_progress w ∧ last_refresh w' = last_refresh w ∧
  refresh_count w' = refresh_count w.
Proof.
  unfold should_trigger_refresh. case_decide as Hin; [simpl; naive_solver|].
  destruct (flt (fsub _ _) _); simpl; naive_solver.
Qed.
