(* ===== verification/IndexStore.v ===== *)
(** * Attribution index (src/aci/index/materializer.py)

    The bounded in-process index with its optional Redis copy ([AttributionIndexStore])
    and the materializer that fills it. The Redis server is a parameter ([RedisServer]);
    the upsert script is the source's Lua text over the server's hash commands. A lookup
    that misses locally leaves the lock while it reads Redis, so it is also given as the
    three atomic parts [lookup_local], [_load_durable_entry] and [lookup_insert]. *)

From S2P Require Import Prelude PyFloat PyData PyTime PyValue Models.
From Stdlib Require Import ZArith Ascii Lia.
From stdpp Require Import base list strings relations.

Open Scope string_scope.
Open Scope list_scope.
Open Scope Z_scope.

(** ** The Redis server *)

(** The commands the index sends. [eval] runs a script on the server as one atomic
    step, or fails before running it. A failing command raises [RedisError]. *)
Class RedisServer (R : Type) := {
  hmget : string → list string → R → res (list (option string));
  hget : string → string → R → res (option string);
  get : string → R → res (option string);
  hset : string → list (string * string) → R → res R;
  set_ex : string → string → option Z → R → res R;
  pexpire : string → Z → R → res R;
  del : list string → R → res R;
  scan : string → R → res (list string);
  ping : R → res bool;
  eval : (R → res (Z * R)) → R → res (Z * R);
  has_hset : bool;
}.

(** Lua's [tonumber] and the text of an integer argument, as documented. *)
Class LuaText := {
  tonumber : string → option Z;
  of_number : Z → string;
}.

(** What the development relies on of the server, for one hash key: an integer that a double
    holds reads back, a written field reads back, setting an expiry in the future changes no
    field, [eval] runs the script. *)
Class RedisServerLaws (R : Type) `{RedisServer R} `{LuaText} := {
  lua_number z : Z.abs z <= 2 ^ 53 → tonumber (of_number z) = Some z;
  hget_hset k fs r r' f v :
    hset k fs r = Ok r' → NoDup (map fst fs) → (f, v) ∈ fs → hget k f r' = Ok (Some v);
  hget_pexpire k ms r r' f : 0 < ms → pexpire k ms r = Ok r' → hget k f r' = hget k f r;
  eval_runs s r out : eval s r = Ok out → s r = Ok out;
}.

(** JSON of an entry (pydantic's [model_dump]/[model_validate_json]); [None] is a
    [ValidationError], which is a [ValueError]. *)
Class EntryJson := {
  encode_entry : AttributionIndexEntry → string;
  decode_entry : string → option AttributionIndexEntry;
}.

(** ** The store *)

Record IndexMetrics := mkMetrics {
  _hit_count : Z;
  _miss_count : Z;
  _materialization_count : Z;
  _eviction_count : Z;
  _durable_hits : Z;
  _durable_misses : Z;
  _durable_writes : Z;
  _durable_errors : Z;
}.

Definition no_metrics : IndexMetrics := mkMetrics 0 0 0 0 0 0 0 0.

Definition add_hit m := mkMetrics (_hit_count m + 1) (_miss_count m) (_materialization_count m)
  (_eviction_count m) (_durable_hits m) (_durable_misses m) (_durable_writes m) (_durable_errors m).
Definition add_miss m := mkMetrics (_hit_count m) (_miss_count m + 1) (_materialization_count m)
  (_eviction_count m) (_durable_hits m) (_durable_misses m) (_durable_writes m) (_durable_errors m).
Definition add_materialization m := mkMetrics (_hit_count m) (_miss_count m)
  (_materialization_count m + 1) (_eviction_count m) (_durable_hits m) (_durable_misses m)
  (_durable_writes m) (_durable_errors m).
Definition add_eviction m := mkMetrics (_hit_count m) (_miss_count m) (_materialization_count m)
  (_eviction_count m + 1) (_durable_hits m) (_durable_misses m) (_durable_writes m) (_durable_errors m).
Definition add_durable_hit m := mkMetrics (_hit_count m) (_miss_count m) (_materialization_count m)
  (_eviction_count m) (_durable_hits m + 1) (_durable_misses m) (_durable_writes m) (_durable_errors m).
Definition add_durable_miss m := mkMetrics (_hit_count m) (_miss_count m) (_materialization_count m)
  (_eviction_count m) (_durable_hits m) (_durable_misses m + 1) (_durable_writes m) (_durable_errors m).
Definition add_durable_write m := mkMetrics (_hit_count m) (_miss_count m) (_materialization_count m)
  (_eviction_count m) (_durable_hits m) (_durable_misses m) (_durable_writes m + 1) (_durable_errors m).
Definition add_durable_error m := mkMetrics (_hit_count m) (_miss_count m) (_materialization_count m)
  (_eviction_count m) (_durable_hits m) (_durable_misses m) (_durable_writes m) (_durable_errors m + 1).

(** [max_entries] is any integer: the configuration does not constrain it. *)
Record IndexConfig := mkIndexConfig {
  max_entries : Z;
  redis_prefix : string;
  redis_ttl_seconds : Z;
}.

Definition schema_version : Z := 1.

Record AttributionIndexStore (R : Type) := mkStore {
  _index : odict string AttributionIndexEntry;
  _versions : odict string Z;
  metrics : IndexMetrics;
  _redis : option R;
}.
Arguments mkStore {R} _ _ _ _.
Arguments _index {R} _.
Arguments _versions {R} _.
Arguments metrics {R} _.
Arguments _redis {R} _.

(** [model_copy(update={"version": .., "materialized_at": ..})] *)
Definition with_version (e : AttributionIndexEntry) (version : Z) (at_time : instant)
    : AttributionIndexEntry :=
  mkEntry (ie_workload_id e) (ie_team_id e) (ie_team_name e) (ie_cost_center_id e)
    (ie_cost_center_name e) (ie_person_id e) (ie_person_name e) (ie_repository e)
    (ie_service_name e) (ie_confidence e) (ie_confidence_tier e) (ie_method_used e)
    (ie_budget_remaining_usd e) (ie_budget_limit_usd e) (ie_model_allowlist e)
    (ie_cost_ceiling_per_request_usd e) (ie_token_budget_output e) (ie_token_budget_input e)
    (ie_equivalence_class_id e) (ie_approved_alternatives e) (ie_carbon_methodology_layer e)
    (ie_grid_region e) version at_time (ie_source_event_ids e) (ie_time_bucket e).

Section store.
  Context {R : Type} `{RedisServer R} `{LuaText} `{EntryJson}.
  Context (cfg : IndexConfig).
  Implicit Types (s : AttributionIndexStore R) (e : AttributionIndexEntry).

Definition AttributionIndexStore_init (redis : option R) : AttributionIndexStore R :=
    mkStore [] [] no_metrics redis.

Definition upd_metrics (f : IndexMetrics → IndexMetrics) s : AttributionIndexStore R :=
    mkStore (_index s) (_versions s) (f (metrics s)) (_redis s).

Definition upd_redis (r : R) s : AttributionIndexStore R :=
    mkStore (_index s) (_versions s) (metrics s) (Some r).

  (** The eviction loop; [popitem] on an empty index raises. The index shrinks each
      round, so its length plus one rounds are enough. *)
Fixpoint evict_loop (fuel : nat) s : res unit * AttributionIndexStore R :=
    match fuel with
    | O => (Ok tt, s)
    | S fuel' =>
        if max_entries cfg <? Z.of_nat (length (_index s)) then
          match _index s with
          | [] => (Raise (KeyError "dictionary is empty"), s)
          | (wid, _) :: rest =>
              evict_loop fuel' (mkStore rest (od_del wid (_versions s)) (add_eviction (metrics s))
                                        (_redis s))
          end
        else (Ok tt, s)
    end.

Definition _insert_local_locked e s : res unit * AttributionIndexStore R :=
    let wid := ie_workload_id e in
    let index := od_move_to_end wid (od_set wid e (_index s)) in
    let versions := od_set wid (ie_version e) (_versions s) in
    evict_loop (S (length index)) (mkStore index versions (metrics s) (_redis s)).

Definition _redis_key (workload_id : string) : string := redis_prefix cfg +:+ ":" +:+ workload_id.

  (** ** Lookup *)

  (** The first locked part. *)
Definition lookup_local (workload_id : string) s
      : option AttributionIndexEntry * AttributionIndexStore R :=
    match od_get workload_id (_index s) with
    | Some e => (Some e, mkStore (od_move_to_end workload_id (_index s)) (_versions s)
                                 (add_hit (metrics s)) (_redis s))
    | None => (None, upd_metrics add_miss s)
    end.

  (** Decoding a payload: a validation error is caught and counted. *)
Definition decode_counted (text : string) s
      : option AttributionIndexEntry * AttributionIndexStore R :=
    match decode_entry text with
    | Some e => (Some e, s)
    | None => (None, upd_metrics add_durable_error s)
    end.

Definition _load_durable_entry (workload_id : string) s
      : option AttributionIndexEntry * AttributionIndexStore R :=
    match _redis s with
    | None => (None, s)
    | Some r =>
        let key := _redis_key workload_id in
        match hmget key ["payload"; "version"] r with
        | Raise _ => (None, upd_metrics add_durable_error s)
        | Ok values =>
            match values with
            | Some payload :: _ => decode_counted payload s
            | _ =>
                match get key r with
                | Raise _ => (None, upd_metrics add_durable_error s)
                | Ok None => (None, upd_metrics add_durable_miss s)
                | Ok (Some legacy) => decode_counted legacy s
                end
            end
        end
    end.

  (** The last locked part of a lookup served from Redis. *)
Definition lookup_insert e s : res unit * AttributionIndexStore R :=
    _insert_local_locked e (upd_metrics add_durable_hit s).

Definition lookup (workload_id : string) s
      : res (option AttributionIndexEntry) * AttributionIndexStore R :=
    match lookup_local workload_id s with
    | (Some e, s) => (Ok (Some e), s)
    | (None, s) =>
        match _load_durable_entry workload_id s with
        | (None, s) => (Ok None, s)
        | (Some e, s) =>
            match lookup_insert e s with
            | (Ok _, s) => (Ok (Some e), s)
            | (Raise x, s) => (Raise x, s)
            end
        end
    end.

Fixpoint lookup_batch (wids : list string) (acc : odict string (option AttributionIndexEntry)) s
      : res (odict string (option AttributionIndexEntry)) * AttributionIndexStore R :=
    match wids with
    | [] => (Ok acc, s)
    | wid :: wids =>
        match lookup wid s with
        | (Ok r, s) => lookup_batch wids (od_set wid r acc) s
        | (Raise x, s) => (Raise x, s)
        end
    end.

  (** ** Materialization *)

  (** The Lua upsert script: an older version never overwrites a newer one. *)
Definition upsert_script (key payload : string) (incoming_version ttl_ms : Z) (r : R)
      : res (Z * R) :=
    (let? current := hget key "version" r in
     let current_version :=
       match current with
       | Some t => match tonumber t with Some z => Ok z | None => Raise RedisError end
       | None => Ok 0
       end in
     let? current_version := current_version in
     if incoming_version <? current_version then
       let? r := (if ttl_ms >? 0 then pexpire key ttl_ms r else Ok r) in
       Ok (current_version, r)
     else
       let? r := hset key [("payload", payload); ("version", of_number incoming_version);
                           ("schema_v", of_number schema_version)] r in
       let? r := (if ttl_ms >? 0 then pexpire key ttl_ms r else Ok r) in
       Ok (incoming_version, r))%py.

  (** The conservative path when the script cannot run: an unconditional write. *)
Definition fallback_write (key payload : string) (version : Z) (r : R) : R * bool :=
    if has_hset (R := R) then
      match hset key [("payload", payload); ("version", of_number version);
                      ("schema_v", of_number schema_version)] r with
      | Raise _ => (r, false)
      | Ok r =>
          if redis_ttl_seconds cfg >? 0 then
            match pexpire key (redis_ttl_seconds cfg * 1000) r with
            | Ok r => (r, true)
            | Raise _ => (r, false)
            end
          else (r, true)
      end
    else
      match set_ex key payload (if redis_ttl_seconds cfg >? 0 then Some (redis_ttl_seconds cfg) else None) r with
      | Ok r => (r, true)
      | Raise _ => (r, false)
      end.

Definition _write_durable_entry e s : AttributionIndexStore R :=
    match _redis s with
    | None => s
    | Some r =>
        let key := _redis_key (ie_workload_id e) in
        let payload := encode_entry e in
        let ttl_ms := Z.max 0 (redis_ttl_seconds cfg * 1000) in
        match eval (upsert_script key payload (ie_version e) ttl_ms) r with
        | Ok (_, r) => upd_metrics add_durable_write (upd_redis r s)
        | Raise _ =>
            let '(r, written) := fallback_write key payload (ie_version e) r in
            upd_metrics (if written then add_durable_write else add_durable_error) (upd_redis r s)
        end
    end.

Definition next_version (workload_id : string) s : Z :=
    default 0 (od_get workload_id (_versions s)) + 1.

  (** The locked part of [materialize]: the entry it stores, to be written to Redis. *)
Definition materialize_local (now : instant) e s
      : res AttributionIndexEntry * AttributionIndexStore R :=
    let new_version := next_version (ie_workload_id e) s in
    let e' := with_version e new_version now in
    match _insert_local_locked e' s with
    | (Raise x, s) => (Raise x, s)
    | (Ok _, s) =>
        (Ok e', mkStore (_index s) (od_set (ie_workload_id e) new_version (_versions s))
                        (add_materialization (metrics s)) (_redis s))
    end.

Definition materialize (now : instant) e s : res unit * AttributionIndexStore R :=
    match materialize_local now e s with
    | (Raise x, s) => (Raise x, s)
    | (Ok e', s) => (Ok tt, _write_durable_entry e' s)
    end.

  (** ** Removal *)

Definition evict_local (workload_id : string) s : bool * AttributionIndexStore R :=
    if od_mem workload_id (_index s)
    then (true, mkStore (od_del workload_id (_index s)) (od_del workload_id (_versions s))
                        (metrics s) (_redis s))
    else (false, s).

Definition evict_durable (workload_id : string) s : AttributionIndexStore R :=
    match _redis s with
    | None => s
    | Some r =>
        match del [_redis_key workload_id] r with
        | Ok r => upd_redis r s
        | Raise _ => upd_metrics add_durable_error s
        end
    end.

Definition evict (workload_id : string) s : bool * AttributionIndexStore R :=
    let '(removed, s) := evict_local workload_id s in (removed, evict_durable workload_id s).

Definition clear_local s : AttributionIndexStore R := mkStore [] [] (metrics s) (_redis s).

Definition clear_durable s : AttributionIndexStore R :=
    match _redis s with
    | None => s
    | Some r =>
        match scan (redis_prefix cfg +:+ ":*") r with
        | Raise _ => upd_metrics add_durable_error s
        | Ok [] => s
        | Ok keys =>
            match del keys r with
            | Ok r => upd_redis r s
            | Raise _ => upd_metrics add_durable_error s
            end
        end
    end.

Definition clear s : AttributionIndexStore R := clear_durable (clear_local s).

Definition durable_backend_healthy s : bool * AttributionIndexStore R :=
    match _redis s with
    | None => (false, s)
    | Some r => match ping r with
                | Ok b => (b, s)
                | Raise _ => (false, upd_metrics add_durable_error s)
                end
    end.

Definition size s : nat := length (_index s).

Definition hit_rate s : res pyfloat :=
    let total := _hit_count (metrics s) + _miss_count (metrics s) in
    if total >? 0 then fdiv (of_Z (_hit_count (metrics s))) (of_Z total) else Ok f0.
End store.

(** ** The materializer *)

Record MaterializerConfig := mkMatConfig {
  chargeback_threshold : pyfloat;
  provisional_threshold : pyfloat;
}.

Definition default_materializer_config : MaterializerConfig := mkMatConfig (lit 80 100) (lit 50 100).

(** The keys of the [policies] dictionary the code reads, [None] for an absent key.
    [model_copy] stores the values as they are. *)
Record PolicyContext := mkPolicyContext {
  pc_model_allowlist : option (list string);
  pc_budget_remaining_usd : option (option pyfloat);
  pc_budget_limit_usd : option (option pyfloat);
  pc_token_budget_output : option (option Z);
  pc_token_budget_input : option (option Z);
  pc_cost_ceiling_per_request_usd : option (option pyfloat);
  pc_equivalence_class_id : option (option string);
  pc_approved_alternatives : option (list string);
}.

Definition _apply_policy_context (e : AttributionIndexEntry) (p : PolicyContext)
    : AttributionIndexEntry :=
  mkEntry (ie_workload_id e) (ie_team_id e) (ie_team_name e) (ie_cost_center_id e)
    (ie_cost_center_name e) (ie_person_id e) (ie_person_name e) (ie_repository e)
    (ie_service_name e) (ie_confidence e) (ie_confidence_tier e) (ie_method_used e)
    (default (ie_budget_remaining_usd e) (pc_budget_remaining_usd p))
    (default (ie_budget_limit_usd e) (pc_budget_limit_usd p))
    (default (ie_model_allowlist e) (pc_model_allowlist p))
    (default (ie_cost_ceiling_per_request_usd e) (pc_cost_ceiling_per_request_usd p))
    (default (ie_token_budget_output e) (pc_token_budget_output p))
    (default (ie_token_budget_input e) (pc_token_budget_input p))
    (default (ie_equivalence_class_id e) (pc_equivalence_class_id p))
    (match pc_equivalence_class_id p with
     | Some _ => default [] (pc_approved_alternatives p)
     | None => ie_approved_alternatives e
     end)
    (ie_carbon_methodology_layer e) (ie_grid_region e) (ie_version e) (ie_materialized_at e)
    (ie_source_event_ids e) (ie_time_bucket e).

(** [_compute_time_bucket] at the clock reading [now]: quarter hours. *)
Definition _compute_time_bucket (now : instant) : string :=
  let bucket_min := minute_of now / 15 * 15 in
  date_text now +:+ "T" +:+ two (hour_of now) +:+ ":" +:+ two bucket_min +:+ ":00Z".

Definition confidence_tier (cfg : MaterializerConfig) (conf : pyfloat) : string :=
  if fle (chargeback_threshold cfg) conf then "chargeback_ready"
  else if fle (provisional_threshold cfg) conf then "provisional"
  else "estimated".

(** The entry of a result; the entry type rejects a confidence outside [0, 1]. *)
Definition entry_of_result (cfg : MaterializerConfig) (now : instant) (result : AttributionResult)
    : res AttributionIndexEntry :=
  let conf := ar_combined_confidence result in
  let target := match ar_explanation result with Some x => ex_target_entity x | None => "" end in
  let method_used := match ar_explanation result with Some x => ex_method_used x | None => "unknown" end in
  if unit_itv conf then
    Ok (mkEntry (ar_workload_id result) target target "" "" "" "" "" "" conf
          (confidence_tier cfg conf) method_used None None [] None None None None [] 2 "" 1 now []
          (_compute_time_bucket now))
  else Raise (ValueError "confidence").

Section materializer.
  Context {R : Type} `{RedisServer R} `{LuaText} `{EntryJson}.
  Context (icfg : IndexConfig) (cfg : MaterializerConfig).

Definition materialize_attribution (now : instant) (result : AttributionResult)
      (policies : option PolicyContext) (s : AttributionIndexStore R)
      : res AttributionIndexEntry * AttributionIndexStore R :=
    match entry_of_result cfg now result with
    | Raise x => (Raise x, s)
    | Ok entry =>
        let entry := match policies with Some p => _apply_policy_context entry p | None => entry end in
        match materialize icfg now entry s with
        | (Ok _, s) => (Ok entry, s)
        | (Raise x, s) => (Raise x, s)
        end
    end.

Fixpoint rebuild_loop (now : instant) (results : list AttributionResult) (count : Z)
      (s : AttributionIndexStore R) : res Z * AttributionIndexStore R :=
    match results with
    | [] => (Ok count, s)
    | r :: results =>
        match materialize_attribution now r None s with
        | (Ok _, s) => rebuild_loop now results (count + 1) s
        | (Raise x, s) => (Raise x, s)
        end
    end.

Definition full_rebuild (now : instant) (results : list AttributionResult)
      (s : AttributionIndexStore R) : res Z * AttributionIndexStore R :=
    rebuild_loop now results 0 (clear icfg s).
End materializer.

(** ** Interleaved operations *)

(** What an operation still has to do after it left the lock. *)
Inductive index_task :=
| TLoad (workload_id : string)
| TInsert (e : AttributionIndexEntry)
| TWrite (e : AttributionIndexEntry)
| TEvict (workload_id : string)
| TClear.

Definition unlocked_tasks {R} (s : AttributionIndexStore R) (t : index_task) : list index_task :=
  match _redis s with Some _ => [t] | None => [] end.

Section invariant.
  Context {R : Type} `{RedisServer R} `{LuaText} `{EntryJson}.
  Context (cfg : IndexConfig).
  Implicit Types (s : AttributionIndexStore R) (e : AttributionIndexEntry).

  (** Callers interleave at lock boundaries; the server may also change by itself
      (expiry, other processes). *)
Inductive index_step : AttributionIndexStore R * list index_task →
    AttributionIndexStore R * list index_task → Prop :=
| IS_hit wid s e s' ts :
    lookup_local wid s = (Some e, s') → index_step (s, ts) (s', ts)
| IS_miss wid s s' ts :
    lookup_local wid s = (None, s') → index_step (s, ts) (s', unlocked_tasks s' (TLoad wid) ++ ts)
| IS_load_none wid s s' ts1 ts2 :
    _load_durable_entry cfg wid s = (None, s') →
    index_step (s, ts1 ++ TLoad wid :: ts2) (s', ts1 ++ ts2)
| IS_load_some wid s e s' ts1 ts2 :
    _load_durable_entry cfg wid s = (Some e, s') →
    index_step (s, ts1 ++ TLoad wid :: ts2) (s', ts1 ++ TInsert e :: ts2)
| IS_insert s e ts1 ts2 :
    index_step (s, ts1 ++ TInsert e :: ts2) ((lookup_insert cfg e s).2, ts1 ++ ts2)
| IS_materialize now e s e' s' ts :
    materialize_local cfg now e s = (Ok e', s') →
    index_step (s, ts) (s', unlocked_tasks s' (TWrite e') ++ ts)
| IS_materialize_raise now e s x s' ts :
    materialize_local cfg now e s = (Raise x, s') → index_step (s, ts) (s', ts)
| IS_write s e ts1 ts2 :
    index_step (s, ts1 ++ TWrite e :: ts2) (_write_durable_entry cfg e s, ts1 ++ ts2)
| IS_evict wid s ts :
    index_step (s, ts) ((evict_local wid s).2, unlocked_tasks s (TEvict wid) ++ ts)
| IS_evict_durable wid s ts1 ts2 :
    index_step (s, ts1 ++ TEvict wid :: ts2) (evict_durable cfg wid s, ts1 ++ ts2)
| IS_clear s ts :
    index_step (s, ts) (clear_local s, unlocked_tasks s TClear ++ ts)
| IS_clear_durable s ts1 ts2 :
    index_step (s, ts1 ++ TClear :: ts2) (clear_durable cfg s, ts1 ++ ts2)
| IS_server s r r' ts :
    _redis s = Some r → index_step (s, ts) (upd_redis r' s, ts).

  (** Keys are unique, entries are stored under their own workload id, the version table
      is exactly the versions of the indexed entries, and the size is bounded. *)
Definition index_wf s : Prop :=
    od_wf (_index s) ∧ od_wf (_versions s) ∧
    (∀ k e, od_get k (_index s) = Some e → ie_workload_id e = k) ∧
    (∀ k, od_get k (_versions s) = ie_version <$> od_get k (_index s)) ∧
    Z.of_nat (length (_index s)) <= max_entries cfg.

Lemma evict_loop_id fuel s :
    Z.of_nat (length (_index s)) <= max_entries cfg → evict_loop cfg fuel s = (Ok tt, s).
  Proof.
    intros Hle. destruct fuel; simpl; [done|].
    by destruct (Z.ltb_spec (max_entries cfg) (Z.of_nat (length (_index s)))); [lia|].
  Qed.

Lemma evict_loop_step fuel s wid e rest :
    _index s = (wid, e) :: rest → max_entries cfg < Z.of_nat (length (_index s)) →
    evict_loop cfg (S fuel) s =
    evict_loop cfg fuel (mkStore rest (od_del wid (_versions s)) (add_eviction (metrics s)) (_redis s)).
  Proof.
    intros E Hlt. cbn [evict_loop]. apply Z.ltb_lt in Hlt. by rewrite Hlt, E.
  Qed.

Definition after_insert e s : odict string AttributionIndexEntry :=
    od_del (ie_workload_id e) (_index s) ++ [(ie_workload_id e, e)].

Lemma after_insert_wf e s : od_wf (_index s) → od_wf (after_insert e s).
  Proof. intros. unfold after_insert. rewrite <- od_move_set. auto with odict. Qed.

Lemma after_insert_length e s :
    (length (after_insert e s) ≤ S (length (_index s)))%nat ∧ (1 ≤ length (after_insert e s))%nat.
  Proof.
    unfold after_insert. rewrite length_app; simpl.
    pose proof (sublist_length _ _ (od_del_keys_sublist (ie_workload_id e) (_index s))) as Hl.
    rewrite !od_keys_length in Hl. lia.
  Qed.

Lemma after_insert_get e s k : od_wf (_index s) →
    od_get k (after_insert e s) = if decide (k = ie_workload_id e) then Some e else od_get k (_index s).
  Proof.
    intros Hwf. unfold after_insert. rewrite od_get_app. simpl. case_decide as E.
    - subst k. by rewrite od_get_del_eq.
    - rewrite od_get_del_ne by done. by destruct (od_get k (_index s)).
  Qed.

  (** Insertion into a well-formed index of positive capacity: the entry goes to the
      most recent place, the least recent one leaves if there is no room. *)
Lemma insert_spec e s :
    1 <= max_entries cfg → index_wf s →
    ∃ s', _insert_local_locked cfg e s = (Ok tt, s') ∧ index_wf s' ∧ _redis s' = _redis s ∧
          _index s' = (if max_entries cfg <? Z.of_nat (length (after_insert e s))
                       then tail (after_insert e s) else after_insert e s) ∧
          od_get (ie_workload_id e) (_index s') = Some e.
  Proof.
    intros Hmax (Hi & Hv & Hid & Hag & Hlen).
    pose proof (after_insert_wf e s Hi) as Hi'.
    pose proof (after_insert_length e s) as [Hl1 Hl2].
    pose proof (λ k, after_insert_get e s k Hi) as Hget.
    assert (∀ k, od_get k (od_set (ie_workload_id e) (ie_version e) (_versions s))
                 = ie_version <$> od_get k (after_insert e s)) as Hag'.
    { intros k. rewrite od_get_set, Hget, Hag. by case_decide. }
    assert (∀ k e', od_get k (after_insert e s) = Some e' → ie_workload_id e' = k) as Hid'.
    { intros k e'. rewrite Hget. case_decide; [by intros [= <-]|apply Hid]. }
    unfold _insert_local_locked. rewrite od_move_set. fold (after_insert e s).
    remember (after_insert e s) as idx eqn:Eidx.
    destruct (Z.ltb_spec (max_entries cfg) (Z.of_nat (length idx))) as [Hgt|Hle].
    - destruct idx as [|[k0 e0] rest]; simpl in Hl2; [lia|].
      pose proof Hi' as Hnd. apply NoDup_cons in Hnd as [Hnin Hnd].
      apply od_get_None in Hnin. simpl in Hnin.
      rewrite (evict_loop_step _ _ k0 e0 rest) by done. simpl in Hgt, Hl1.
      rewrite evict_loop_id by (simpl in *; lia).
      eexists. split; [done|].
      assert (∀ k, od_get k rest = if decide (k = k0) then None else od_get k ((k0, e0) :: rest)) as Hrest.
      { intros k. simpl. by destruct (decide (k = k0)) as [->|]. }
      assert (k0 ≠ ie_workload_id e) as Hne.
      { intros ->. unfold after_insert in Eidx.
        destruct (od_del (ie_workload_id e) (_index s)) as [|[k1 e1] d] eqn:Ed; simpl in Eidx.
        - injection Eidx as <- ->. simpl in Hgt. lia.
        - injection Eidx as <- <- ->. rewrite od_get_app in Hnin. simpl in Hnin.
          rewrite decide_True in Hnin by done. by destruct (od_get _ d). }
      split_and!; simpl; try done.
      + split_and!; simpl; auto with odict; [| |lia].
        * intros k e' He'. apply Hid'. rewrite Hrest in He'. by case_decide.
        * intros k. rewrite Hrest. destruct (decide (k = k0)) as [->|Hk].
          -- rewrite od_get_del_eq; auto with odict.
          -- rewrite od_get_del_ne by done. apply Hag'.
      + rewrite Hrest, decide_False by done. by rewrite Hget, decide_True.
    - rewrite evict_loop_id by (simpl; lia). eexists. split; [done|].
      split_and!; simpl; [split_and!; simpl; auto with odict|done|done|by rewrite Hget, decide_True].
  Qed.

Lemma wf_metrics f s : index_wf s → index_wf (upd_metrics f s).
  Proof. done. Qed.

Lemma wf_redis r s : index_wf s → index_wf (upd_redis r s).
  Proof. done. Qed.

Lemma load_durable_wf wid s r s' :
    _load_durable_entry cfg wid s = (r, s') → index_wf s → index_wf s' ∧ _redis s' = _redis s ∧
    _index s' = _index s ∧ _versions s' = _versions s.
  Proof.
    unfold _load_durable_entry, decode_counted. intros Hl Hs. repeat case_match; by simplify_eq.
  Qed.

Lemma write_durable_wf e s :
    index_wf s → index_wf (_write_durable_entry cfg e s).
  Proof. intros. unfold _write_durable_entry. repeat case_match; by simplify_eq. Qed.

Lemma write_durable_local e s :
    _index (_write_durable_entry cfg e s) = _index s ∧
    _versions (_write_durable_entry cfg e s) = _versions s.
  Proof. unfold _write_durable_entry. repeat case_match; by simplify_eq. Qed.

Lemma od_move_length_Z {K V} `{EqDecision K} (k : K) (d : odict K V) :
    Z.of_nat (length (od_move_to_end k d)) = Z.of_nat (length d).
  Proof. by rewrite od_move_to_end_length. Qed.

Lemma lookup_local_wf wid s r s' :
    lookup_local wid s = (r, s') → index_wf s →
    index_wf s' ∧ _redis s' = _redis s ∧ r = od_get wid (_index s) ∧ _versions s' = _versions s ∧
    (∀ k, od_get k (_index s') = od_get k (_index s)).
  Proof.
    unfold lookup_local. intros Hl (Hi & Hv & Hid & Hag & Hlen).
    destruct (od_get wid (_index s)) as [e|] eqn:E; simplify_eq; [|by split_and!].
    assert (∀ k, od_get k (od_move_to_end wid (_index s)) = od_get k (_index s)) as Hg
      by (intros; by apply od_get_move_to_end).
    split_and!; simpl; try done. split_and!; simpl; auto with odict.
    - intros k e'. rewrite Hg. apply Hid.
    - intros k. by rewrite Hg.
    - by rewrite od_move_length_Z.
  Qed.

Lemma od_set_same_wf k z s : index_wf s → od_get k (_versions s) = Some z →
    index_wf (mkStore (_index s) (od_set k z (_versions s)) (add_materialization (metrics s)) (_redis s)).
  Proof.
    intros (Hi & Hv & Hid & Hag & Hlen) Hk. split_and!; simpl; auto with odict.
    intros k'. rewrite od_get_set, <- Hag. case_decide; by subst.
  Qed.

  (** Materialization of an entry: the next version, found at the most recent place. *)
Lemma materialize_local_spec now e s :
    1 <= max_entries cfg → index_wf s →
    let e' := with_version e (next_version (ie_workload_id e) s) now in
    ∃ s', materialize_local cfg now e s = (Ok e', s') ∧ index_wf s' ∧ _redis s' = _redis s ∧
          _index s' = (if max_entries cfg <? Z.of_nat (length (after_insert e' s))
                       then tail (after_insert e' s) else after_insert e' s) ∧
          od_get (ie_workload_id e) (_index s') = Some e'.
  Proof.
    intros Hmax Hs e'. unfold materialize_local. fold e'.
    destruct (insert_spec e' s Hmax Hs) as (s' & -> & Hs' & Hr & Hi & Hg).
    eexists. split; [done|]. split_and!; simpl; [|done..].
    apply od_set_same_wf; [done|]. destruct Hs' as (_ & _ & _ & Hag & _).
    rewrite Hag. change (ie_workload_id e) with (ie_workload_id e'). by rewrite Hg.
  Qed.

Lemma evict_local_wf wid s : index_wf s → index_wf (evict_local wid s).2.
  Proof.
    intros (Hi & Hv & Hid & Hag & Hlen). unfold evict_local, od_mem.
    destruct (od_get wid (_index s)) as [e|] eqn:E; [|by split_and!].
    assert (wid ∈ od_keys (_index s)) as Hin by (apply od_get_is_Some; by rewrite E).
    split_and!; simpl; auto with odict.
    - intros k e' Hk. apply Hid. destruct (decide (k = wid)) as [->|].
      + by rewrite od_get_del_eq in Hk.
      + by rewrite od_get_del_ne in Hk.
    - intros k. destruct (decide (k = wid)) as [->|].
      + by rewrite !od_get_del_eq.
      + by rewrite !od_get_del_ne.
    - pose proof (od_del_length wid _ Hin). lia.
  Qed.

Lemma index_step_wf a b : 1 <= max_entries cfg → index_step a b → index_wf a.1 → index_wf b.1.
  Proof.
    intros Hmax Hstep Hwf.
    destruct Hstep as [wid s e s' ts Hl|wid s s' ts Hl|wid s s' ts1 ts2 Hl|wid s e s' ts1 ts2 Hl
      |s e ts1 ts2|now e s e' s' ts Hm|now e s x s' ts Hm|s e ts1 ts2|wid s ts|wid s ts1 ts2|s ts
      |s ts1 ts2|s r r' ts Hr]; simpl in *.
    - by destruct (lookup_local_wf _ _ _ _ Hl Hwf).
    - by destruct (lookup_local_wf _ _ _ _ Hl Hwf).
    - by destruct (load_durable_wf _ _ _ _ Hl Hwf).
    - by destruct (load_durable_wf _ _ _ _ Hl Hwf).
    - unfold lookup_insert. by destruct (insert_spec e (upd_metrics add_durable_hit s) Hmax Hwf) as (s' & -> & ? & _).
    - destruct (materialize_local_spec now e s Hmax Hwf) as (s0 & Heq & ? & _). rewrite Heq in Hm. by simplify_eq.
    - destruct (materialize_local_spec now e s Hmax Hwf) as (s0 & Heq & ? & _). rewrite Heq in Hm. by simplify_eq.
    - by apply write_durable_wf.
    - by apply evict_local_wf.
    - unfold evict_durable. by repeat case_match; simplify_eq.
    - split_and!; simpl; [by apply od_wf_nil..|done|done|lia].
    - unfold clear_durable. by repeat case_match; simplify_eq.
    - done.
  Qed.
End invariant.

(** ** Rebuild specification *)

(** What a rebuild leaves for workload [k]: the entry of its last result, numbered by
    how many results it had. *)
Definition rebuilt (cfg : MaterializerConfig) (now : instant) (results : list AttributionResult)
    (k : string) : option AttributionIndexEntry :=
  let mine := filter (λ r, ar_workload_id r = k) results in
  match last mine with
  | Some r => match entry_of_result cfg now r with
              | Ok e => Some (with_version e (Z.of_nat (length mine)) now)
              | Raise _ => None
              end
  | None => None
  end.

Definition distinct_workloads (results : list AttributionResult) : nat :=
  length (remove_dups (map ar_workload_id results)).

Section rebuild.
  Context {R : Type} `{RedisServer R} `{LuaText} `{EntryJson}.
  Context (icfg : IndexConfig) (cfg : MaterializerConfig) (now : instant).
  Implicit Types (s : AttributionIndexStore R).

Lemma entry_of_result_ok r :
    unit_itv (ar_combined_confidence r) = true →
    ∃ e, entry_of_result cfg now r = Ok e ∧ ie_workload_id e = ar_workload_id r.
  Proof. intros E. unfold entry_of_result. rewrite E. by eexists. Qed.

Lemma rebuilt_count results k :
    Forall (λ r, unit_itv (ar_combined_confidence r) = true) results →
    default 0 (ie_version <$> rebuilt cfg now results k)
    = Z.of_nat (length (filter (λ r, ar_workload_id r = k) results)).
  Proof.
    intros Hall. unfold rebuilt.
    destruct (last (filter (λ r, ar_workload_id r = k) results)) as [r|] eqn:E.
    - assert (r ∈ results) as Hin by (apply last_Some_elem_of, list_elem_of_filter in E; tauto).
      rewrite Forall_forall in Hall. by destruct (entry_of_result_ok r (Hall r Hin)) as (e & -> & _).
    - apply last_None in E. by rewrite E.
  Qed.

Lemma rebuilt_snoc results r e k :
    entry_of_result cfg now r = Ok e →
    rebuilt cfg now (results ++ [r]) k =
    if decide (k = ar_workload_id r)
    then Some (with_version e (Z.of_nat (length (filter (λ r', ar_workload_id r' = k) results)) + 1) now)
    else rebuilt cfg now results k.
  Proof.
    intros He. unfold rebuilt. rewrite filter_app, filter_cons, filter_nil.
    destruct (decide (k = ar_workload_id r)) as [->|Hne].
    - rewrite decide_True by done. rewrite last_snoc, He, length_app. simpl. by rewrite Nat2Z.inj_add.
    - rewrite decide_False by done. by rewrite app_nil_r.
  Qed.

Lemma rebuild_loop_spec results :
    ∀ earlier count s,
    1 <= max_entries icfg → index_wf icfg s →
    Forall (λ r, unit_itv (ar_combined_confidence r) = true) (earlier ++ results) →
    Z.of_nat (distinct_workloads (earlier ++ results)) <= max_entries icfg →
    (∀ k, od_get k (_index s) = rebuilt cfg now earlier k) →
    ∃ s', rebuild_loop icfg cfg now results count s = (Ok (count + Z.of_nat (length results)), s') ∧
          ∀ k, od_get k (_index s') = rebuilt cfg now (earlier ++ results) k.
  Proof.
    induction results as [|r results IH]; intros earlier count s Hmax Hs Hall Hd Hk; simpl.
    - exists s. rewrite app_nil_r, Z.add_0_r. done.
    - unfold materialize_attribution.
      assert (unit_itv (ar_combined_confidence r) = true) as Hr.
      { rewrite Forall_forall in Hall. apply Hall. set_solver. }
      destruct (entry_of_result_ok r Hr) as (e & He & Hid). rewrite He. unfold materialize.
      destruct (materialize_local_spec icfg now e s Hmax Hs) as (s1 & -> & Hs1 & _ & Hidx & _).
      set (e' := with_version e (next_version (ie_workload_id e) s) now) in *.
      set (s2 := _write_durable_entry icfg e' s1).
      destruct (write_durable_local icfg e' s1) as [Hi2 Hv2]. fold s2 in Hi2, Hv2.
      assert (index_wf icfg s2) as Hs2 by by apply write_durable_wf.
      pose proof Hs as (Hwi & _ & _ & Hag & _).
      assert (∀ k, od_get k (after_insert e' s) = rebuilt cfg now (earlier ++ [r]) k) as Hafter.
      { intros k. rewrite after_insert_get, (rebuilt_snoc _ _ e) by done.
        change (ie_workload_id e') with (ie_workload_id e). rewrite Hid. case_decide as E; [|apply Hk].
        subst k. unfold e', next_version. rewrite Hid, Hag, Hk, rebuilt_count; [done|].
        apply Forall_app in Hall. tauto. }
      assert (Z.of_nat (length (after_insert e' s)) <= max_entries icfg) as Hroom.
      { etrans; [|exact Hd]. apply inj_le, od_length_le; [by apply after_insert_wf|].
        intros k [x Hx]%od_get_is_Some. rewrite Hafter in Hx. unfold rebuilt in Hx.
        destruct (last _) as [r'|] eqn:El; [|done].
        apply last_Some_elem_of, list_elem_of_filter in El as [<- Hin].
        apply list_elem_of_fmap_2. set_solver. }
      destruct (Z.ltb_spec (max_entries icfg) (Z.of_nat (length (after_insert e' s)))); [lia|].
      destruct (IH (earlier ++ [r]) (count + 1) s2) as (s' & Hrun & Hget); try done.
      + by rewrite <- app_assoc.
      + by rewrite <- app_assoc.
      + intros k. by rewrite Hi2, Hidx.
      + exists s'. rewrite Hrun. split; [f_equal; f_equal; lia|]. intros k. by rewrite Hget, <- app_assoc.
  Qed.
End rebuild.

(** ** Recency *)

(** A use of the index by the gateway or the processor. *)
Inductive touch :=
| Materialize (now : instant) (e : AttributionIndexEntry)
| Lookup (workload_id : string).

Definition touched (t : touch) : string :=
  match t with Materialize _ e => ie_workload_id e | Lookup wid => wid end.

Definition is_materialize_of (wid : string) (t : touch) : bool :=
  match t with Materialize _ e => bool_decide (ie_workload_id e = wid) | Lookup _ => false end.

Section recency.
  Context {R : Type} `{RedisServer R} `{LuaText} `{EntryJson}.
  Context (cfg : IndexConfig).
  Implicit Types (s : AttributionIndexStore R).

Definition run_touch (t : touch) s : AttributionIndexStore R :=
    match t with
    | Materialize now e => (materialize cfg now e s).2
    | Lookup wid => (lookup cfg wid s).2
    end.

Definition run_touches (ts : list touch) s : AttributionIndexStore R :=
    fold_left (λ s t, run_touch t s) ts s.

  (** [wid] holds version [v] and only workloads of [recent] are more recent. *)
Definition kept (wid : string) (v : Z) (recent : list string) s : Prop :=
    index_wf cfg s ∧ _redis s = None ∧
    ∃ pre e post, _index s = pre ++ (wid, e) :: post ∧ ie_version e = v ∧
      (∀ k, k ∈ od_keys post → k ∈ recent).

Lemma kept_get wid v recent s :
    kept wid v recent s → ∃ e, od_get wid (_index s) = Some e ∧ ie_version e = v.
  Proof.
    intros ((Hi & _) & _ & pre & e & post & Heq & Hv & _). exists e. split; [|done].
    apply od_in_get; [done|]. rewrite Heq. set_solver.
  Qed.

Lemma od_split_wf {V} (pre post : odict string V) wid (e : V) :
    od_wf (pre ++ (wid, e) :: post) → od_wf post ∧ (wid ∉ od_keys pre) ∧ (wid ∉ od_keys post).
  Proof.
    unfold od_wf. rewrite od_keys_app. intros (Hp & Hdis & Hc)%NoDup_app.
    apply NoDup_cons in Hc as [Hn Hc]. split_and!; [done| |done].
    intros Hin. apply (Hdis wid Hin). simpl. set_solver.
  Qed.

  (** A move of another workload to the most recent place. *)
Lemma kept_bump wid v recent pre e post k (x : AttributionIndexEntry) (d : odict string AttributionIndexEntry) :
    wid ≠ k → od_wf d → d = pre ++ (wid, e) :: post → ie_version e = v →
    (∀ k', k' ∈ od_keys post → k' ∈ recent) →
    Z.of_nat (S (length (remove_dups (k :: recent)))) <= max_entries cfg →
    let d' := od_del k d ++ [(k, x)] in
    ∃ pre' post',
      (if max_entries cfg <? Z.of_nat (length d') then tail d' else d')
      = pre' ++ (wid, e) :: post' ∧ (∀ k', k' ∈ od_keys post' → k' ∈ k :: recent).
  Proof.
    intros Hne Hwf -> Hv Hrec Hroom d'.
    assert (d' = od_del k pre ++ (wid, e) :: (od_del k post ++ [(k, x)])) as Hd'.
    { unfold d'. rewrite od_del_app_ne by done. by rewrite <- app_assoc. }
    destruct (od_split_wf _ _ _ _ Hwf) as (Hpost & _ & _).
    assert (∀ k', k' ∈ od_keys (od_del k post ++ [(k, x)]) → k' ∈ k :: recent) as Hpost'.
    { intros k'. rewrite od_keys_app, elem_of_app, od_del_keys_ne by done.
      intros [[Hk _]|Hk]; simpl in *; set_solver. }
    rewrite Hd'.
    destruct (Z.ltb_spec (max_entries cfg) (Z.of_nat (length (od_del k pre ++ (wid, e) :: (od_del k post ++ [(k, x)])))))
      as [Hgt|]; [|by eexists _, _].
    destruct (od_del k pre) as [|y pre'] eqn:Ep; [|by exists pre', (od_del k post ++ [(k, x)])].
    exfalso. simpl in Hgt.
    assert ((length (od_del k post ++ [(k, x)]) ≤ length (remove_dups (k :: recent)))%nat) as Hl; [|lia].
    apply od_length_le; [|done].
    rewrite <- (od_move_set k x). auto with odict.
  Qed.

Lemma kept_touch wid v recent t s :
    1 <= max_entries cfg → kept wid v recent s →
    (touched t ≠ wid → Z.of_nat (S (length (remove_dups (touched t :: recent)))) <= max_entries cfg) →
    kept wid (if is_materialize_of wid t then v + 1 else v)
         (if decide (touched t = wid) then recent else touched t :: recent) (run_touch t s).
  Proof.
    intros Hmax (Hwf & Hred & pre & e & post & Heq & Hv & Hrec) Hroom.
    pose proof Hwf as (Hi & _ & Hid & Hag & _). rewrite Heq in Hi.
    destruct (od_split_wf _ _ _ _ Hi) as (_ & Hpre & _).
    assert (od_get wid (_index s) = Some e) as Hget.
    { apply od_in_get; rewrite Heq; [done|set_solver]. }
    destruct t as [now e1|k]; simpl.
    - unfold materialize.
      destruct (materialize_local_spec cfg now e1 s Hmax Hwf) as (s1 & -> & Hs1 & Hr1 & Hidx & Hg1).
      set (e1' := with_version e1 (next_version (ie_workload_id e1) s) now) in *. simpl.
      assert (_write_durable_entry cfg e1' s1 = s1) as ->
        by (unfold _write_durable_entry; by rewrite Hr1, Hred).
      split; [done|]. split; [by rewrite Hr1|]. rewrite Hidx. unfold after_insert.
      change (ie_workload_id e1') with (ie_workload_id e1).
      destruct (decide (ie_workload_id e1 = wid)) as [E|Hne].
      + rewrite bool_decide_true by done. rewrite E.
        assert (Z.of_nat (length (od_del wid (_index s) ++ [(wid, e1')])) <= max_entries cfg) as Hl.
        { destruct Hwf as (_ & _ & _ & _ & Hlen). rewrite length_app; simpl.
          rewrite (od_del_length wid (_index s)) in Hlen by (apply od_get_is_Some; by rewrite Hget). lia. }
        destruct (Z.ltb_spec (max_entries cfg) (Z.of_nat (length (od_del wid (_index s) ++ [(wid, e1')])))); [lia|].
        exists (od_del wid (_index s)), e1', []. split_and!; [done| |set_solver].
        simpl. unfold next_version. rewrite E, Hag, Hget. simpl. lia.
      + rewrite bool_decide_false by done.
        destruct (kept_bump wid v recent pre e post (ie_workload_id e1) e1' (_index s)) as (p & q & Hpq & Hq);
          try done; [by destruct Hwf|by apply Hroom|].
        eexists p, e, q. split_and!; [exact Hpq|done|exact Hq].
    - unfold lookup.
      destruct (lookup_local k s) as [o s1] eqn:El.
      pose proof (lookup_local_wf cfg _ _ _ _ El Hwf) as (Hs1 & Hr1 & -> & _ & _).
      unfold lookup_local in El.
      destruct (od_get k (_index s)) as [x|] eqn:Ek; injection El as <-; simpl in *.
      + split; [done|]. split; [done|]. simpl. unfold od_move_to_end. rewrite Ek.
        destruct (decide (k = wid)) as [->|Hne].
        * simplify_eq. exists (od_del wid (_index s)), e, []. split_and!; [done|done|set_solver].
        * destruct (kept_bump wid v recent pre e post k x (_index s)) as (p & q & Hpq & Hq);
            try done; [by destruct Hwf|by apply Hroom|].
          assert (Z.of_nat (length (od_del k (_index s) ++ [(k, x)])) <= max_entries cfg) as Hl.
          { destruct Hwf as (_ & _ & _ & _ & Hlen). rewrite length_app; simpl.
            rewrite (od_del_length k (_index s)) in Hlen by (apply od_get_is_Some; by rewrite Ek). lia. }
          destruct (Z.ltb_spec (max_entries cfg) (Z.of_nat (length (od_del k (_index s) ++ [(k, x)])))); [lia|].
          eexists p, e, q. split_and!; [exact Hpq|done|exact Hq].
      + assert (_load_durable_entry cfg k (upd_metrics add_miss s) = (None, upd_metrics add_miss s)) as ->
          by (unfold _load_durable_entry; simpl; by rewrite Hred).
        simpl. split; [done|]. split; [done|]. exists pre, e, post. split_and!; try done.
        intros k' Hk'. destruct (decide (k = wid)); [|apply elem_of_cons; right]; by apply Hrec.
  Qed.

  (** The workloads other than [wid] that are used. *)
Definition others (wid : string) (ts : list touch) : list string :=
    filter (λ k, k ≠ wid) (map touched ts).

Definition count_materialized (wid : string) (ts : list touch) : Z :=
    Z.of_nat (length (filter (λ t, is_materialize_of wid t = true) ts)).

Lemma remove_dups_length_mono (l l' : list string) :
    (∀ k, k ∈ l → k ∈ l') → (length (remove_dups l) ≤ length (remove_dups l'))%nat.
  Proof.
    intros Hl. apply submseteq_length, NoDup_submseteq; [apply NoDup_remove_dups|].
    intros k. rewrite !elem_of_remove_dups. apply Hl.
  Qed.

Lemma kept_touches wid ts : ∀ v recent s,
    1 <= max_entries cfg → kept wid v recent s →
    Z.of_nat (S (length (remove_dups (others wid ts ++ recent)))) <= max_entries cfg →
    ∃ recent', kept wid (v + count_materialized wid ts) recent' (run_touches ts s).
  Proof.
    induction ts as [|t ts IH]; intros v recent s Hmax Hk Hroom.
    - exists recent. unfold count_materialized. simpl. by rewrite Z.add_0_r.
    - simpl. unfold others in Hroom. simpl in Hroom. rewrite filter_cons in Hroom.
      assert (kept wid (if is_materialize_of wid t then v + 1 else v)
        (if decide (touched t = wid) then recent else touched t :: recent) (run_touch t s)) as Hk'.
      { apply kept_touch; [done..|]. intros Hne. rewrite decide_True in Hroom by done.
        etrans; [|exact Hroom]. apply inj_le. apply le_n_S, remove_dups_length_mono. set_solver. }
      destruct (IH _ _ _ Hmax Hk') as [recent' Hfin].
      + etrans; [|exact Hroom]. apply inj_le, le_n_S, remove_dups_length_mono.
        intros k. unfold others. case_decide as E.
        * rewrite decide_False by tauto. done.
        * rewrite decide_True by done. set_solver.
      + exists recent'. unfold count_materialized in *. rewrite filter_cons.
        destruct (is_materialize_of wid t); simpl; [|done].
        replace (v + Z.of_nat (S _)) with (v + 1 + Z.of_nat (length (filter (λ t, is_materialize_of wid t = true) ts))) by lia.
        done.
  Qed.
End recency.

(** ** A concrete server for examples *)

(** Hash keys in memory, commands that always succeed. *)
Definition MemServer := odict string (odict string string).

Definition mem_hash (k : string) (r : MemServer) : odict string string := default [] (od_get k r).

Fixpoint mem_hset_fields (fs : list (string * string)) (h : odict string string)
    : odict string string :=
  match fs with [] => h | (f, v) :: fs => mem_hset_fields fs (od_set f v h) end.

#[export] Instance MemRedis : RedisServer MemServer := {|
  hmget k fs r := Ok (map (λ f, od_get f (mem_hash k r)) fs);
  hget k f r := Ok (od_get f (mem_hash k r));
  get k r := Ok None;
  hset k fs r := Ok (od_set k (mem_hset_fields fs (mem_hash k r)) r);
  set_ex _ _ _ r := Ok r;
  pexpire _ _ r := Ok r;
  del ks r := Ok (fold_left (λ r k, od_del k r) ks r);
  scan _ r := Ok (od_keys r);
  ping _ := Ok true;
  eval script r := script r;
  has_hset := true;
|}.

(** Integers in unary, after a sign. *)
Fixpoint unary (n : nat) : string := match n with O => "" | S n => String "I"%char (unary n) end.

#[export] Instance UnaryText : LuaText := {|
  of_number z := if z <? 0 then String "-"%char (unary (Z.to_nat (- z))) else unary (Z.to_nat z);
  tonumber t := match t with
                | String "-"%char t' => Some (- Z.of_nat (String.length t'))
                | _ => Some (Z.of_nat (String.length t))
                end;
|}.

#[export] Instance WorkloadJson : EntryJson := {|
  encode_entry e := ie_workload_id e;
  decode_entry _ := None;
|}.

Lemma mem_hset_fields_other fs h f :
  f ∉ map fst fs → od_get f (mem_hset_fields fs h) = od_get f h.
Proof.
  revert h. induction fs as [|[g w] fs IH]; intros h Hf; simpl in *; [done|].
  rewrite IH by set_solver. apply od_get_set_ne. set_solver.
Qed.

Lemma mem_hset_fields_get fs h f v :
  NoDup (map fst fs) → (f, v) ∈ fs → od_get f (mem_hset_fields fs h) = Some v.
Proof.
  revert h. induction fs as [|[g w] fs IH]; intros h Hnd Hin; simpl in *; [set_solver|].
  apply NoDup_cons in Hnd as [Hn Hnd]. apply elem_of_cons in Hin as [Heq|Hin].
  - simplify_eq. rewrite mem_hset_fields_other by done. apply od_get_set_eq.
  - by apply IH.
Qed.

Lemma unary_length n : String.length (unary n) = n.
Proof. induction n; simpl; auto. Qed.

#[export] Instance MemRedisLaws : RedisServerLaws MemServer.
Proof.
  split.
  - intros z _. cbn [tonumber of_number UnaryText]. destruct (Z.ltb_spec z 0); [rewrite unary_length; f_equal; lia|].
    assert (∀ n, match unary n with String "-"%char t' => Some (- Z.of_nat (String.length t'))
                 | _ => Some (Z.of_nat (String.length (unary n))) end = Some (Z.of_nat n)) as Hu
      by (intros [|n]; simpl; by rewrite ?unary_length).
    rewrite Hu. f_equal. lia.
  - intros k fs r r' f v [= <-] Hnd Hin. simpl. unfold mem_hash at 1.
    by rewrite od_get_set_eq; simpl; rewrite (mem_hset_fields_get _ _ f v).
  - by intros k ms r r' f _ [= <-].
  - done.
Qed.

Definition example_entry (wid : string) : AttributionIndexEntry :=
  mkEntry wid "team" "team" "" "" "" "" "" "" (lit 9 10) "chargeback_ready" "R1" None None [] None
    None None None [] 2 "" 1 0 [] "".

Definition example_config : IndexConfig := mkIndexConfig 2 "aci:index" 1800.

(** ** Theorems *)

Section theorems.
  Context {R : Type} `{RedisServer R} `{LuaText} `{EntryJson}.
  Implicit Types (s : AttributionIndexStore R).

(** C2. However lookups, materializations, evictions and clears interleave at lock
    boundaries, and whatever the Redis server does, an index of positive capacity keeps
    unique keys, files every entry under its own workload id, tracks exactly the versions
    of the entries it holds, and never exceeds its capacity. *)
Theorem index_invariant_interleaved (cfg : IndexConfig) (redis : option R)
    (st : AttributionIndexStore R * list index_task) :
  1 <= max_entries cfg →
  rtc (index_step cfg) (AttributionIndexStore_init redis, []) st → index_wf cfg st.1.
Proof.
  intros Hmax Hr.
  assert (∀ a b, rtc (index_step cfg) a b → index_wf cfg a.1 → index_wf cfg b.1) as Hgen.
  { induction 1; eauto using index_step_wf. }
  eapply Hgen; [done|]. split_and!; simpl; [by apply od_wf_nil..|done|done|lia].
Qed.

(** C22. What the gateway reads: after a materialization the workload is found, with the
    next version; if the index still holds another workload it holds the same entry, and
    a workload leaves only to make room, as the least recently used one. *)
Theorem index_materialize_lookup (cfg : IndexConfig) (now : instant) (e : AttributionIndexEntry) s :
  1 <= max_entries cfg → index_wf cfg s →
  let wid := ie_workload_id e in
  let '(r, s') := materialize cfg now e s in
  r = Ok tt ∧
  (lookup cfg wid s').1 = Ok (Some (with_version e (next_version wid s) now)) ∧
  next_version wid s' = next_version wid s + 1 ∧
  (∀ k e', k ≠ wid → od_get k (_index s') = Some e' → od_get k (_index s) = Some e') ∧
  (∀ k e', k ≠ wid → od_get k (_index s) = Some e' → od_get k (_index s') = None →
    Z.of_nat (length (_index s)) = max_entries cfg ∧ ∃ older, head (_index s) = Some older ∧ older.1 = k).
Proof.
  intros Hmax Hs wid. unfold materialize.
  destruct (materialize_local_spec cfg now e s Hmax Hs) as (s1 & -> & Hs1 & Hr1 & Hidx & Hg1).
  set (e' := with_version e (next_version (ie_workload_id e) s) now) in *.
  destruct (write_durable_local cfg e' s1) as [Hi2 Hv2].
  pose proof Hs as (Hwi & _ & _ & _ & Hlen). pose proof (after_insert_wf e' s Hwi) as Hawf.
  assert (∀ k, k ≠ wid → od_get k (after_insert e' s) = od_get k (_index s)) as Hother.
  { intros k Hk. rewrite after_insert_get by done. by rewrite decide_False. }
  split_and!; [done| | | |].
  - unfold wid, lookup, lookup_local. by rewrite Hi2, Hg1.
  - unfold wid, next_version. rewrite Hv2. destruct Hs1 as (_ & _ & _ & Hag & _). by rewrite Hag, Hg1.
  - intros k e0 Hk. rewrite Hi2, Hidx, <- Hother by done. destruct (_ <? _); [|done].
    destruct (after_insert e' s) as [|[k1 e1] rest]; [done|]. simpl. case_decide as E; [|done].
    subst k1. intros Hg. apply NoDup_cons in Hawf as [Hn _]. destruct Hn.
    by apply od_get_Some_keys in Hg.
  - intros k e0 Hk Hold. rewrite Hi2, Hidx. rewrite <- Hother in Hold by done.
    destruct (Z.ltb_spec (max_entries cfg) (Z.of_nat (length (after_insert e' s)))) as [Hgt|]; [|congruence].
    pose proof (after_insert_length e' s) as [Hl _]. unfold after_insert in *.
    change (ie_workload_id e') with wid in *.
    destruct (decide (wid ∈ od_keys (_index s))) as [Hin|Hnin].
    { exfalso. pose proof (od_del_length wid _ Hin). rewrite length_app in Hgt. simpl in Hgt. lia. }
    rewrite od_del_notin in * by done. intros Hnew. split; [lia|].
    destruct (_index s) as [|[k1 e1] rest]; simpl in *.
    + rewrite decide_False in Hold by done. done.
    + exists (k1, e1). split; [done|]. simpl. case_decide as E; [done|congruence].
Qed.

(** Recency guarantee of the in-process index: once a workload holds an entry, it is
    still served after any further materializations and lookups of fewer than
    [max_entries] distinct other workloads, and its version has grown by exactly the
    number of its own materializations. *)
Theorem index_lru_retention (cfg : IndexConfig) (s : AttributionIndexStore R) (now : instant)
    (e : AttributionIndexEntry) (ts : list touch) :
  1 <= max_entries cfg → index_wf cfg s → _redis s = None →
  let wid := ie_workload_id e in
  Z.of_nat (length (remove_dups (others wid ts))) < max_entries cfg →
  ∃ e', (lookup cfg wid (run_touches cfg ts (materialize cfg now e s).2)).1 = Ok (Some e') ∧
        ie_version e' = next_version wid s + count_materialized wid ts.
Proof.
  intros Hmax Hs Hred wid Hroom. unfold materialize.
  destruct (materialize_local_spec cfg now e s Hmax Hs) as (s1 & -> & Hs1 & Hr1 & Hidx & Hg1).
  set (e' := with_version e (next_version (ie_workload_id e) s) now) in *. simpl.
  assert (_write_durable_entry cfg e' s1 = s1) as ->
    by (unfold _write_durable_entry; by rewrite Hr1, Hred).
  assert (kept cfg wid (next_version wid s) [] s1) as Hk.
  { split; [done|]. split; [by rewrite Hr1|]. rewrite Hidx.
    pose proof Hg1 as Hne. rewrite Hidx in Hne.
    destruct (_ <? _); [|by exists (od_del wid (_index s)), e', []; split_and!; [..|set_solver]].
    unfold after_insert in *.
    change (ie_workload_id e') with wid in Hne |- *.
    destruct (od_del wid (_index s)) as [|x d]; [done|].
    by exists d, e', []; split_and!; [..|set_solver]. }
  destruct (kept_touches cfg wid ts _ _ _ Hmax Hk) as [recent' Hfin]; [rewrite app_nil_r; lia|].
  destruct (kept_get _ _ _ _ _ Hfin) as (e2 & Hg & Hv). exists e2. split; [|done].
  unfold lookup, lookup_local. by rewrite Hg.
Qed.

(** A full rebuild over valid results that fit the index materializes all of them
    and leaves exactly the rebuilt entries: each workload's last result, numbered by how
    many results it had; nothing else of the previous index survives. *)
Theorem index_full_rebuild (icfg : IndexConfig) (cfg : MaterializerConfig) (now : instant)
    (results : list AttributionResult) s :
  1 <= max_entries icfg →
  Forall (λ r, unit_itv (ar_combined_confidence r) = true) results →
  Z.of_nat (distinct_workloads results) <= max_entries icfg →
  ∃ s', full_rebuild icfg cfg now results s = (Ok (Z.of_nat (length results)), s') ∧
        ∀ k, od_get k (_index s') = rebuilt cfg now results k.
Proof.
  intros Hmax Hall Hd.
  assert (index_wf icfg (clear icfg s) ∧ _index (clear icfg s) = []) as [Hwf Hnil].
  { unfold clear, clear_durable, clear_local. simpl.
    repeat case_match; simplify_eq; (split; [|done]);
      (split_and!; simpl; [by apply od_wf_nil..|done|done|lia]). }
  apply (rebuild_loop_spec icfg cfg now results [] 0); try done. intros k. by rewrite Hnil.
Qed.

(** C23. The Redis copy never goes back: when the upsert script runs, an entry older than
    the stored version changes no field of the stored hash, any other entry replaces
    payload and version. Both cases are counted as a durable write. *)
Theorem durable_write_keeps_newest `{!RedisServerLaws R} (cfg : IndexConfig)
    (e : AttributionIndexEntry) s (r : R) (stored : option string) (current : Z) out :
  let key := _redis_key cfg (ie_workload_id e) in
  _redis s = Some r → hget key "version" r = Ok stored →
  match stored with Some t => tonumber t = Some current | None => current = 0 end →
  eval (upsert_script key (encode_entry e) (ie_version e) (Z.max 0 (redis_ttl_seconds cfg * 1000))) r = Ok out →
  ∃ r', _redis (_write_durable_entry cfg e s) = Some r' ∧
    _durable_writes (metrics (_write_durable_entry cfg e s)) = _durable_writes (metrics s) + 1 ∧
    if ie_version e <? current then ∀ f, hget key f r' = hget key f r
    else hget key "payload" r' = Ok (Some (encode_entry e)) ∧
         hget key "version" r' = Ok (Some (of_number (ie_version e))).
Proof.
  intros key Hr Hst Hcur Hev. unfold _write_durable_entry. rewrite Hr. fold key. rewrite Hev.
  destruct out as [z r']. exists r'. split; [done|]. split; [done|].
  apply eval_runs in Hev. unfold upsert_script in Hev. rewrite Hst in Hev. cbn [rbind] in Hev.
  assert (match stored with
          | Some t => match tonumber t with Some z => Ok z | None => Raise RedisError end
          | None => Ok 0 end = Ok current) as Hc by (destruct stored; [by rewrite Hcur|by subst]).
  rewrite Hc in Hev. cbn [rbind] in Hev.
  destruct (ie_version e <? current).
  - destruct (Z.gtb_spec (Z.max 0 (redis_ttl_seconds cfg * 1000)) 0) as [Hms|_].
    + destruct (pexpire _ _ r) as [r1|] eqn:Ep; cbn [rbind] in Hev; [|done].
      injection Hev as _ <-. intros f. by apply hget_pexpire with (f := f) in Ep; [|lia].
    + injection Hev as _ <-. done.
  - destruct (hset _ _ r) as [r1|] eqn:Eh; cbn [rbind] in Hev; [|done].
    assert (hget key "payload" r1 = Ok (Some (encode_entry e)) ∧
            hget key "version" r1 = Ok (Some (of_number (ie_version e)))) as [Hp Hv].
    { split; (eapply hget_hset; [exact Eh|repeat constructor; set_solver|set_solver]). }
    destruct (Z.gtb_spec (Z.max 0 (redis_ttl_seconds cfg * 1000)) 0) as [Hms|_].
    + destruct (pexpire _ _ r1) as [r2|] eqn:Ep; cbn [rbind] in Hev; [|done].
      injection Hev as _ <-. by rewrite !(hget_pexpire _ _ _ _ _ Hms Ep).
    + injection Hev as _ <-. done.
Qed.

(** After a restart the version numbers start again at one while Redis still holds
    the old ones: the fresh entry is served locally, but the Redis copy keeps the stale
    payload although the write is counted as done. *)
Theorem restart_update_not_durable `{!RedisServerLaws R} (cfg : IndexConfig) (now : instant)
    (e : AttributionIndexEntry) (r : R) (t : string) (current : Z) out :
  let key := _redis_key cfg (ie_workload_id e) in
  let e' := with_version e 1 now in
  let s' := (materialize cfg now e (AttributionIndexStore_init (Some r))).2 in
  1 <= max_entries cfg → 1 < current →
  hget key "version" r = Ok (Some t) → tonumber t = Some current →
  eval (upsert_script key (encode_entry e') 1 (Z.max 0 (redis_ttl_seconds cfg * 1000))) r = Ok out →
  od_get (ie_workload_id e) (_index s') = Some e' ∧ _durable_writes (metrics s') = 1 ∧
  ∃ r', _redis s' = Some r' ∧ ∀ f, hget key f r' = hget key f r.
Proof.
  intros key e' s' Hmax Hcur Hst Ht Hev. unfold s', materialize, materialize_local.
  change (with_version e (next_version (ie_workload_id e) _) now) with e'.
  unfold _insert_local_locked. rewrite od_move_set, evict_loop_id by (simpl; lia).
  cbv beta iota. unfold _write_durable_entry. cbn [AttributionIndexStore_init _index _versions metrics _redis snd].
  change (_redis_key cfg (ie_workload_id e')) with key. change (ie_version e') with 1. rewrite Hev.
  destruct out as [z r']. cbn [upd_metrics upd_redis _index metrics _redis]. simpl. rewrite decide_True by done.
  split; [done|]. split; [done|]. exists r'. split; [done|].
  apply eval_runs in Hev. unfold upsert_script in Hev. rewrite Hst in Hev. cbn [rbind] in Hev.
  rewrite Ht in Hev. cbn [rbind] in Hev.
  destruct (Z.ltb_spec 1 current); [|lia].
  destruct (Z.gtb_spec (Z.max 0 (redis_ttl_seconds cfg * 1000)) 0) as [Hms|_].
  - destruct (pexpire _ _ r) as [r1|] eqn:Ep; cbn [rbind] in Hev; [|done].
    injection Hev as _ <-. intros f. by apply hget_pexpire with (f := f) in Ep; [|lia].
  - injection Hev as _ <-. done.
Qed.

(** A lookup that waits for Redis can undo a newer update. If its old entry was
    loaded, and a newer one is then materialized and served, the lookup's final insertion
    makes the old entry the one served again, and numbering continues from it. *)
Theorem pending_lookup_overwrites_newer (cfg : IndexConfig) (s : AttributionIndexStore R)
    (old newer : AttributionIndexEntry) (now : instant) :
  let wid := ie_workload_id old in
  1 <= max_entries cfg → index_wf cfg s →
  ie_workload_id newer = wid → ie_version old < next_version wid s →
  let s1 := (materialize cfg now newer s).2 in
  let s2 := (lookup_insert cfg old s1).2 in
  (lookup cfg wid s1).1 = Ok (Some (with_version newer (next_version wid s) now)) ∧
  (lookup cfg wid s2).1 = Ok (Some old) ∧ next_version wid s2 <= next_version wid s.
Proof.
  intros wid Hmax Hs Hid Hold s1 s2. unfold s2, s1, materialize, lookup_insert.
  destruct (materialize_local_spec cfg now newer s Hmax Hs) as (s0 & -> & Hs0 & _ & _ & Hg0).
  set (e' := with_version newer _ now) in *.
  cbv beta iota. cbn [snd].
  destruct (write_durable_local cfg e' s0) as [Hi _].
  destruct (insert_spec cfg old (upd_metrics add_durable_hit (_write_durable_entry cfg e' s0)) Hmax)
    as (s3 & -> & Hwf & _ & _ & Hg); [by apply wf_metrics, write_durable_wf|].
  simpl. rewrite Hid in Hg0. split_and!.
  - unfold lookup, lookup_local. by rewrite Hi, Hg0, <- Hid.
  - unfold lookup, lookup_local, wid. by rewrite Hg.
  - unfold next_version at 1. destruct Hwf as (_ & _ & _ & Hag & _). unfold wid. rewrite Hag, Hg. simpl.
    fold wid. lia.
Qed.
End theorems.

Definition example_index : AttributionIndexStore MemServer :=
  (materialize example_config 7 (example_entry "svc") (AttributionIndexStore_init None)).2.

Lemma example_index_wf : index_wf example_config example_index.
Proof.
  split_and!; [by repeat constructor; set_solver|by repeat constructor; set_solver| |
    |by vm_compute].
  - intros k e. change (_index example_index) with [("svc", with_version (example_entry "svc") 1 7)].
    simpl. case_decide; intros; by simplify_eq.
  - intros k. change (_index example_index) with [("svc", with_version (example_entry "svc") 1 7)].
    change (_versions example_index) with [("svc", 1)]. simpl. by case_decide.
Qed.

Lemma index_invariant_interleaved_witness :
  index_wf example_config
    (clear_local (AttributionIndexStore_init (Some ([] : MemServer))), [TClear]).1.
Proof.
  apply (index_invariant_interleaved (R := MemServer) example_config (Some [])
           (clear_local (AttributionIndexStore_init (Some [])), [TClear])); [by vm_compute|].
  apply rtc_once. apply (IS_clear example_config (AttributionIndexStore_init (Some [])) []).
Defined.

Lemma index_materialize_lookup_witness :
  (lookup example_config "svc" (materialize example_config 9 (example_entry "svc") example_index).2).1
  = Ok (Some (with_version (example_entry "svc") 2 9)).
Proof.
  pose proof (index_materialize_lookup (R := MemServer) example_config 9 (example_entry "svc")
                example_index ltac:(by vm_compute) example_index_wf) as Hw.
  vm_compute in Hw |- *. apply Hw.
Defined.

Lemma index_lru_retention_witness :
  ∃ e', (lookup example_config "svc"
           (run_touches example_config [Materialize 10 (example_entry "b"); Lookup "b"]
              (materialize example_config 9 (example_entry "svc") example_index).2)).1 = Ok (Some e') ∧
        ie_version e' = 2.
Proof.
  apply (index_lru_retention (R := MemServer) example_config example_index 9 (example_entry "svc")
           [Materialize 10 (example_entry "b"); Lookup "b"]);
    [by vm_compute|apply example_index_wf|done|by vm_compute].
Defined.

Definition example_result (wid : string) (conf : pyfloat) : AttributionResult :=
  mkResult wid [] conf None [] [].

Lemma index_full_rebuild_witness :
  ∃ s', full_rebuild example_config default_materializer_config 7
          [example_result "a" f1; example_result "b" f0; example_result "a" f0] example_index = (Ok 3, s').
Proof.
  destruct (index_full_rebuild (R := MemServer) example_config default_materializer_config 7
    [example_result "a" f1; example_result "b" f0; example_result "a" f0] example_index)
    as (s' & Hs' & _); [by vm_compute|by repeat constructor|by vm_compute|by exists s'].
Defined.

Definition stored_server : MemServer :=
  [("aci:index:svc", [("payload", "old"); ("version", "IIIII")])].

Lemma durable_write_keeps_newest_witness :
  ∃ r', _redis (_write_durable_entry example_config (example_entry "svc")
                  (AttributionIndexStore_init (Some stored_server))) = Some r' ∧
        hget "aci:index:svc" "payload" r' = Ok (Some "old").
Proof.
  destruct (durable_write_keeps_newest (R := MemServer) example_config (example_entry "svc")
    (AttributionIndexStore_init (Some stored_server)) stored_server (Some "IIIII") 5 (5, stored_server))
    as (r' & Hr & _ & Hf); [done|done|done|by vm_compute|].
  exists r'. split; [done|]. exact (Hf "payload").
Defined.

Lemma restart_update_not_durable_witness :
  let s' := (materialize example_config 7 (example_entry "svc")
               (AttributionIndexStore_init (Some stored_server))).2 in
  od_get "svc" (_index s') = Some (with_version (example_entry "svc") 1 7) ∧
  ∃ r', _redis s' = Some r' ∧ hget "aci:index:svc" "payload" r' = Ok (Some "old").
Proof.
  intros s'.
  destruct (restart_update_not_durable (R := MemServer) example_config 7 (example_entry "svc")
    stored_server "IIIII" 5 (5, stored_server)) as (Hg & _ & r' & Hr & Hf);
    [by vm_compute|done|done|done|by vm_compute|].
  split; [exact Hg|]. exists r'. split; [exact Hr|]. exact (Hf "payload").
Defined.

Lemma pending_lookup_overwrites_newer_witness :
  (lookup example_config "svc"
     (lookup_insert example_config (example_entry "svc")
        (materialize example_config 9 (example_entry "svc") example_index).2).2).1
  = Ok (Some (example_entry "svc")).
Proof.
  apply (pending_lookup_overwrites_newer (R := MemServer) example_config example_index
           (example_entry "svc") (example_entry "svc") 9);
    [by vm_compute|apply example_index_wf|done|by vm_compute].
Defined.
