(* ===== verification/Interceptor.v ===== *)
(** * Fail-open interceptor (src/aci/interceptor/gateway.py)

    The whole request pipeline: breaker check, index lookup, time budgets, policy checks,
    mode-dependent routing, header budget, audit events, metrics. A method is a
    computation over [gateway_state] that may raise ([SE]); the clocks, the random source,
    the event ids and the running event loop come from [Env], read at consecutive ticks.
    The index, the breaker and the warmer are those of their own files; the event bus is
    the interface [EventPublisher]. *)

From S2P Require Import Prelude PyFloat PyData PyTime PyValue Models CircuitBreaker ShadowWarming IndexStore.
From Stdlib Require Import ZArith QArith Lia.
From stdpp Require Import base list gmap strings pretty.

Open Scope string_scope.
Open Scope list_scope.
Open Scope Z_scope.
Local Open Scope py_scope.

(** ** Data *)

Inductive DeploymentMode := PASSIVE | ADVISORY | ACTIVE.

#[export] Instance DeploymentMode_eq_dec : EqDecision DeploymentMode.
Proof. solve_decision. Defined.

Definition mode_value (m : DeploymentMode) : string :=
  match m with PASSIVE => "passive" | ADVISORY => "advisory" | ACTIVE => "active" end.

Inductive InterceptionOutcome :=
| PASSTHROUGH | ENRICHED | REDIRECTED | SOFT_STOPPED | HARD_STOPPED | FAIL_OPEN | CIRCUIT_OPEN | TIMEOUT.

#[export] Instance InterceptionOutcome_eq_dec : EqDecision InterceptionOutcome.
Proof. solve_decision. Defined.

Definition outcome_value (o : InterceptionOutcome) : string :=
  match o with
  | PASSTHROUGH => "passthrough" | ENRICHED => "enriched" | REDIRECTED => "redirected"
  | SOFT_STOPPED => "soft_stopped" | HARD_STOPPED => "hard_stopped" | FAIL_OPEN => "fail_open"
  | CIRCUIT_OPEN => "circuit_open" | TIMEOUT => "timeout"
  end.

Inductive FailOpenReason :=
| INDEX_UNAVAILABLE | POLICY_TIMEOUT | LOOKUP_TIMEOUT | DEPENDENCY_UNREACHABLE | CONFIG_INVALID
| RUNTIME_EXCEPTION | RESOURCE_EXHAUSTION.

Definition reason_value (r : FailOpenReason) : string :=
  match r with
  | INDEX_UNAVAILABLE => "INDEX_UNAVAILABLE" | POLICY_TIMEOUT => "POLICY_TIMEOUT"
  | LOOKUP_TIMEOUT => "LOOKUP_TIMEOUT" | DEPENDENCY_UNREACHABLE => "DEPENDENCY_UNREACHABLE"
  | CONFIG_INVALID => "CONFIG_INVALID" | RUNTIME_EXCEPTION => "RUNTIME_EXCEPTION"
  | RESOURCE_EXHAUSTION => "RESOURCE_EXHAUSTION"
  end.

Record InterceptionRequest := mkRequest {
  rq_request_id : string;
  rq_model : string;
  rq_provider : string;
  rq_service_name : string;
  rq_api_key_id : string;
  rq_input_tokens : Z;
  rq_estimated_cost_usd : pyfloat;
  rq_headers : odict string string;
  rq_workload_id : string;
  rq_metadata : odict string pyval;
}.

Record InterceptionResult := mkInterception {
  outcome : InterceptionOutcome;
  res_request_id : string;
  enrichment_headers : odict string string;
  redirect_model : option string;
  policy_results : list PolicyEvaluationResult;
  attribution : option AttributionIndexEntry;
  elapsed_ms : pyfloat;
  shadow_event_logged : bool;
}.

Record InterceptorConfig := mkInterceptorConfig {
  timeout_ms : Z;
  policy_timeout_ms : Z;
  shadow_events_enabled : bool;
  max_enrichment_header_bytes : Z;
  max_header_value_length : Z;
  active_lite_min_confidence : pyfloat;
  active_lite_gate_min_confidence : pyfloat;
  breaker_config : CBConfig;
  warm_config : WarmConfig;
}.

Definition default_interceptor_config : InterceptorConfig :=
  mkInterceptorConfig 20 15 true 4096 512 (lit 90 100) (lit 95 100) default_cb_config
    (mkWarmConfig (lit 1 100) (Z.to_nat 10000)).

(** [_validate_active_lite_thresholds], the part on the fields used here. *)
Definition config_valid (c : InterceptorConfig) : bool :=
  (0 <? policy_timeout_ms c) &&
  negb ((0 <? timeout_ms c) && (timeout_ms c <? policy_timeout_ms c)) &&
  unit_itv (active_lite_min_confidence c) && unit_itv (active_lite_gate_min_confidence c) &&
  negb (flt (active_lite_gate_min_confidence c) (active_lite_min_confidence c)) &&
  (0 <? shadow_warm_max_tracked_workloads (warm_config c))%nat.

(** ** Headers *)

(** [s[:n]] for any integer bound, as Python slices. *)
Definition slice_to (n : Z) (s : string) : string :=
  if n <? 0 then str_take (Z.to_nat (Z.of_nat (String.length s) + n)) s else str_take (Z.to_nat n) s.

Definition _build_fail_open_headers (reason : FailOpenReason) : odict string string :=
  [("X-ACI-Fail-Open", "true"); ("X-ACI-Fail-Open-Reason", reason_value reason)].

Definition _map_attribution_reason (method_used : string) : string :=
  let method := upper method_used in
  if startswith method "R1" then "DIRECT_OWNER_MAPPING"
  else if startswith method "R2" then "CI_PROVENANCE_MATCH"
  else if startswith method "R3" || startswith method "R4" || startswith method "R5" then "HEURISTIC_MATCH"
  else if startswith method "R6" then "GATEWAY_INHERITANCE"
  else "UNKNOWN".

Definition _estimate_header_bytes (headers : odict string string) : Z :=
  foldr (λ kv acc, Z.of_nat (String.length kv.1) + Z.of_nat (String.length kv.2) + 4 + acc) 0 headers.

Definition header_priority : list string :=
  ["X-ACI-Est-Cost-USD"; "X-ACI-Attribution-Owner-Id"; "X-ACI-Attribution-Confidence";
   "X-ACI-Attribution-Reason"; "X-ACI-Price-Snapshot-Id"; "X-ACI-Advisory"; "X-ACI-Advisory-Code";
   "X-ACI-Advisory-Detail"; "X-ACI-Confidence-Flag"; "X-ACI-Policy-Violations";
   "X-ACI-Budget-Remaining-Pct"; "X-ACI-Alternative-Models"; "X-ACI-Intervention-Applied";
   "X-ACI-Intervention-Type"; "X-ACI-Intervention-Delta"; "X-ACI-Fail-Open"; "X-ACI-Fail-Open-Reason"].

(** The trimming loop over [header_priority], with its [break]. *)
Fixpoint trim_headers (max_bytes : Z) (keys : list string) (clamped trimmed : odict string string)
    : odict string string :=
  match keys with
  | [] => trimmed
  | key :: keys =>
      let trimmed := match od_get key clamped with
                     | Some v => od_set key v trimmed
                     | None => trimmed
                     end in
      if max_bytes <? _estimate_header_bytes trimmed then od_del key trimmed
      else trim_headers max_bytes keys clamped trimmed
  end.

Definition clamp_headers (c : InterceptorConfig) (headers : odict string string) : odict string string :=
  map (λ kv, (kv.1, slice_to (max_header_value_length c) kv.2)) headers.

Definition _enforce_header_budget (c : InterceptorConfig) (headers : odict string string)
    : odict string string :=
  let clamped := clamp_headers c headers in
  if _estimate_header_bytes clamped <=? max_enrichment_header_bytes c then clamped
  else od_set "X-ACI-Header-Budget-Applied" "1"
         (trim_headers (max_enrichment_header_bytes c) header_priority clamped []).

Definition metadata_text (request : InterceptionRequest) (key : string) : string :=
  py_str (dget (rq_metadata request) key (VStr "")).

Definition _build_basic_headers (c : InterceptorConfig) (request : InterceptionRequest)
    (attr : AttributionIndexEntry) (fail_open_reason : option FailOpenReason) : odict string string :=
  let headers := [("X-ACI-Est-Cost-USD", fmt_fixed 6 (rq_estimated_cost_usd request));
                  ("X-ACI-Attribution-Confidence", fmt_fixed 2 (ie_confidence attr))] in
  let snapshot_id := strip (metadata_text request "price_snapshot_id") in
  let headers := if String.eqb snapshot_id "" then headers
                 else od_set "X-ACI-Price-Snapshot-Id" snapshot_id headers in
  let headers := match fail_open_reason with
                 | Some r => od_update headers (_build_fail_open_headers r)
                 | None => headers
                 end in
  _enforce_header_budget c headers.

Definition is_nonempty {A} (l : list A) : bool := match l with [] => false | _ => true end.

Definition str_mem (s : string) (l : list string) : bool := existsb (String.eqb s) l.

Definition find_violation (p : string → bool) (violations : list PolicyEvaluationResult)
    : option PolicyEvaluationResult :=
  List.find (λ v, p (pr_policy_id v)) violations.

Definition _build_advisory (request : InterceptionRequest) (attr : AttributionIndexEntry)
    (violations : list PolicyEvaluationResult) : string * string :=
  let alts := ie_approved_alternatives attr in
  if is_nonempty alts && negb (str_mem (rq_model request) alts)
  then ("SUGGEST_MODEL_DOWNGRADE",
        str_take 200 ("Equivalent lower-cost alternative available: " +:+ default "" (head alts)))
  else
    match find_violation (λ i, String.eqb i "token_budget" || String.eqb i "token_budget_input") violations with
    | Some v => ("SUGGEST_TOKEN_CAP", str_take 200 (pr_details v))
    | None =>
        match find_violation (λ i, String.eqb i "cost_ceiling") violations with
        | Some v => ("SUGGEST_COST_CAP", str_take 200 (pr_details v))
        | None => ("", "")
        end
    end.

Definition set_if (b : bool) (k v : string) (d : odict string string) : odict string string :=
  if b then od_set k v d else d.

(** The headers before the size budget. A zero budget limit is falsy, so the division
    is never by zero. *)
Definition full_headers (request : InterceptionRequest) (attr : AttributionIndexEntry)
    (violations : list PolicyEvaluationResult) : odict string string :=
  let owner_id := str_or (ie_team_id attr) (str_or (ie_person_id attr) (ie_team_name attr)) in
  let '(advisory_code, advisory_detail) := _build_advisory request attr violations in
  let has_code := negb (String.eqb advisory_code "") in
  let headers :=
    [("X-ACI-Est-Cost-USD", fmt_fixed 6 (rq_estimated_cost_usd request));
     ("X-ACI-Attribution-Owner-Id", owner_id);
     ("X-ACI-Attribution-Confidence", fmt_fixed 2 (ie_confidence attr));
     ("X-ACI-Attribution-Reason", _map_attribution_reason (ie_method_used attr));
     ("X-ACI-Model", rq_model request);
     ("X-ACI-Advisory", if has_code then "true" else "false")] in
  let snapshot_id := strip (metadata_text request "price_snapshot_id") in
  let headers := set_if (negb (String.eqb snapshot_id "")) "X-ACI-Price-Snapshot-Id" snapshot_id headers in
  let headers := set_if has_code "X-ACI-Advisory-Code" advisory_code headers in
  let headers := set_if has_code "X-ACI-Advisory-Detail" advisory_detail headers in
  let headers := set_if (negb (String.eqb (ie_team_name attr) "")) "X-ACI-Team-Name" (ie_team_name attr) headers in
  let headers :=
    match ie_budget_remaining_usd attr, ie_budget_limit_usd attr with
    | Some remaining, Some limit =>
        match (if feq limit f0 then Raise ZeroDivisionError else fdiv remaining limit) with
        | Ok q => od_set "X-ACI-Budget-Remaining-Pct" (fmt_fixed 0 (fmul q (of_Z 100))) headers
        | Raise _ => headers
        end
    | _, _ => headers
    end in
  let headers := set_if (is_nonempty (ie_approved_alternatives attr)) "X-ACI-Alternative-Models"
                   (str_join "," (ie_approved_alternatives attr)) headers in
  let headers := set_if (String.eqb (ie_confidence_tier attr) "provisional") "X-ACI-Confidence-Flag"
                   "PROVISIONAL" headers in
  let headers := set_if (String.eqb (ie_confidence_tier attr) "estimated") "X-ACI-Confidence-Flag"
                   "ESTIMATED" headers in
  set_if (is_nonempty violations) "X-ACI-Policy-Violations" (pretty (length violations)) headers.

Definition _build_enrichment_headers (c : InterceptorConfig) (request : InterceptionRequest)
    (attr : AttributionIndexEntry) (violations : list PolicyEvaluationResult) : odict string string :=
  _enforce_header_budget c (full_headers request attr violations).

(** ** Request checks *)

Definition header_sensitive (key value : string) : bool :=
  let header_name := lower key in
  let lower_value := lower value in
  let looks_like_email := str_in "@" value && str_in "." value in
  str_in "api-key" header_name || str_in "authorization" header_name || str_in "prompt" header_name
  || str_in "token" header_name || str_in "bearer " lower_value || looks_like_email.

Definition newline : string := String (Ascii.ascii_of_nat 10) "".

Definition header_prompt_like (value : string) : bool :=
  (1024 <? Z.of_nat (String.length value)) && (str_in " " value || str_in newline value).

Definition _sanitize_request_headers (headers : odict string string) : odict string string :=
  filter (λ kv, header_sensitive kv.1 kv.2 || header_prompt_like kv.2 = false) headers.

Fixpoint first_nonempty (candidates : list string) : string :=
  match candidates with
  | [] => ""
  | c :: cs => let normalized := strip c in
               if String.eqb normalized "" then first_nonempty cs else normalized
  end.

Definition _resolve_workload_id (request : InterceptionRequest) : string :=
  first_nonempty [rq_workload_id request; rq_service_name request; rq_api_key_id request;
                  metadata_text request "workload_id"].

Definition _resolve_tenant_id (request : InterceptionRequest) : string :=
  strip (metadata_text request "tenant_id").

Definition _should_downgrade_active_to_advisory (request : InterceptionRequest) : bool :=
  let env := lower (strip (metadata_text request "environment")) in
  let is_non_production := str_mem env ["dev"; "development"; "test"; "testing"; "staging"] in
  let has_semantic_guardrail :=
    String.eqb (lower (strip (metadata_text request "response_format_type"))) "json_object"
    || truthy (dget (rq_metadata request) "tools_present" (VBool false))
    || truthy (dget (rq_metadata request) "strict_json_schema" (VBool false)) in
  if negb is_non_production then true else has_semantic_guardrail.

(** ** Policy evaluation *)

Definition soft_violation (policy_id policy_name details : string) : PolicyEvaluationResult :=
  mkPolicyResult policy_id policy_name SOFT_STOP true details.

Definition allowlist_violations (request : InterceptionRequest) (attr : AttributionIndexEntry)
    : list PolicyEvaluationResult :=
  if is_nonempty (ie_model_allowlist attr) && negb (str_mem (rq_model request) (ie_model_allowlist attr))
  then [soft_violation "model_allowlist" "Production Model Allowlist"
          ("Model '" +:+ rq_model request +:+ "' not in allowlist")]
  else [].

Definition budget_violations (attr : AttributionIndexEntry) : res (list PolicyEvaluationResult) :=
  match ie_budget_remaining_usd attr, ie_budget_limit_usd attr with
  | Some remaining, Some limit =>
      if flt f0 limit then
        let? q := fdiv remaining limit in
        let utilization := fsub f1 q in
        Ok (if flt (lit 9 10) utilization
            then [soft_violation "budget_ceiling" "Budget Ceiling"
                    ("Budget " +:+ fmt_percent0 utilization +:+ " utilized")]
            else [])
      else Ok []
  | _, _ => Ok []
  end.

(** [max_tokens] comes from the request as it is: comparing a value that is not a number
    raises [TypeError]. *)
Definition token_violations (request : InterceptionRequest) (attr : AttributionIndexEntry)
    : res (list PolicyEvaluationResult) :=
  match ie_token_budget_output attr with
  | Some budget =>
      if budget =? 0 then Ok []
      else let? over := py_lt (VInt budget) (dget (rq_metadata request) "max_tokens" (VInt 0)) in
           Ok (if over : bool
               then [soft_violation "token_budget" "Token Budget Per Request"
                       ("Requested tokens exceed budget of " +:+ pretty budget)]
               else [])
  | None => Ok []
  end.

Definition input_token_violations (request : InterceptionRequest) (attr : AttributionIndexEntry)
    : list PolicyEvaluationResult :=
  match ie_token_budget_input attr with
  | Some budget =>
      if negb (budget =? 0) && (budget <? rq_input_tokens request)
      then [soft_violation "token_budget_input" "Token Size Limit"
              ("Input tokens " +:+ pretty (rq_input_tokens request) +:+ " exceed budget " +:+ pretty budget)]
      else []
  | None => []
  end.

Definition cost_violations (request : InterceptionRequest) (attr : AttributionIndexEntry)
    : list PolicyEvaluationResult :=
  match ie_cost_ceiling_per_request_usd attr with
  | Some ceiling =>
      if flt ceiling (rq_estimated_cost_usd request)
      then [soft_violation "cost_ceiling" "High-Cost Model Approval Gate"
              ("Estimated request cost " +:+ fmt_fixed 6 (rq_estimated_cost_usd request)
               +:+ " exceeds cap " +:+ fmt_fixed 6 ceiling)]
      else []
  | None => []
  end.

Definition _evaluate_policies (request : InterceptionRequest) (attr : AttributionIndexEntry)
    : res (list PolicyEvaluationResult) :=
  let? budget := budget_violations attr in
  let? tokens := token_violations request attr in
  Ok (allowlist_violations request attr ++ budget ++ tokens
      ++ input_token_violations request attr ++ cost_violations request attr).

Definition hard_stop_ids : list string :=
  ["model_allowlist"; "budget_ceiling"; "token_budget_input"; "cost_ceiling"].

Definition is_hard_stop (v : PolicyEvaluationResult) : bool :=
  bool_decide (pr_action v = HARD_STOP) || str_mem (pr_policy_id v) hard_stop_ids.

Definition has_violation (violations : list PolicyEvaluationResult) : bool := existsb pr_violated violations.

(** ** Environment and state *)

(** What the process reads from outside; the [n]-th reading of anything is taken at tick
    [n]. *)
Record Env := mkEnv {
  monotonic : nat → pyfloat;
  wall_clock : nat → pyfloat;
  utc_now : nat → instant;
  random : nat → pyfloat;
  new_event_id : nat → string;
  running_loop : bool;
}.

(** What [publish] hands back: a value, or an awaitable to be drained in the background. *)
Inductive published := PubResult (b : bool) | PubAwaitable.

(** The [EventPublisher] protocol. *)
Class EventPublisher (B : Type) := publish : DomainEvent → B → res published * B.

Inductive background_task := RefreshTask (workload_id : string) | PublishTask (event : DomainEvent).

Record Prometheus := mkProm {
  fail_open_by_reason : odict string Z;
  fail_open_rate : pyfloat;
  latencies : list pyfloat;
  breaker_gauge : Z;
}.

Record gateway_state (R S B : Type) := mkGateway {
  g_index : AttributionIndexStore R;
  g_breaker : CircuitBreaker S;
  g_warmer : ShadowWarmer;
  g_bus : option B;
  total_requests : Z;
  total_enriched : Z;
  total_fail_open : Z;
  total_redirected : Z;
  total_cache_misses : Z;
  background_tasks : list background_task;
  prom : Prometheus;
  tick : nat;
}.
Arguments mkGateway {R S B} _ _ _ _ _ _ _ _ _ _ _ _.
Arguments g_index {R S B} _.
Arguments g_breaker {R S B} _.
Arguments g_warmer {R S B} _.
Arguments g_bus {R S B} _.
Arguments total_requests {R S B} _.
Arguments total_enriched {R S B} _.
Arguments total_fail_open {R S B} _.
Arguments total_redirected {R S B} _.
Arguments total_cache_misses {R S B} _.
Arguments background_tasks {R S B} _.
Arguments prom {R S B} _.
Arguments tick {R S B} _.

Section gateway.
  Context {R S B : Type} `{RedisServer R} `{LuaText} `{EntryJson} `{CircuitStateStore S} `{EventPublisher B}.
  Abbreviation G := (gateway_state R S B).
  Implicit Types (g : G) (request : InterceptionRequest) (attr : AttributionIndexEntry).

Definition set_index i g : G := mkGateway i (g_breaker g) (g_warmer g) (g_bus g) (total_requests g)
    (total_enriched g) (total_fail_open g) (total_redirected g) (total_cache_misses g)
    (background_tasks g) (prom g) (tick g).
Definition set_breaker b g : G := mkGateway (g_index g) b (g_warmer g) (g_bus g) (total_requests g)
    (total_enriched g) (total_fail_open g) (total_redirected g) (total_cache_misses g)
    (background_tasks g) (prom g) (tick g).
Definition set_warmer w g : G := mkGateway (g_index g) (g_breaker g) w (g_bus g) (total_requests g)
    (total_enriched g) (total_fail_open g) (total_redirected g) (total_cache_misses g)
    (background_tasks g) (prom g) (tick g).
Definition set_bus b g : G := mkGateway (g_index g) (g_breaker g) (g_warmer g) b (total_requests g)
    (total_enriched g) (total_fail_open g) (total_redirected g) (total_cache_misses g)
    (background_tasks g) (prom g) (tick g).
Definition inc_requests g : G := mkGateway (g_index g) (g_breaker g) (g_warmer g) (g_bus g)
    (total_requests g + 1) (total_enriched g) (total_fail_open g) (total_redirected g)
    (total_cache_misses g) (background_tasks g) (prom g) (tick g).
Definition inc_enriched g : G := mkGateway (g_index g) (g_breaker g) (g_warmer g) (g_bus g)
    (total_requests g) (total_enriched g + 1) (total_fail_open g) (total_redirected g)
    (total_cache_misses g) (background_tasks g) (prom g) (tick g).
Definition inc_fail_open g : G := mkGateway (g_index g) (g_breaker g) (g_warmer g) (g_bus g)
    (total_requests g) (total_enriched g) (total_fail_open g + 1) (total_redirected g)
    (total_cache_misses g) (background_tasks g) (prom g) (tick g).
Definition inc_redirected g : G := mkGateway (g_index g) (g_breaker g) (g_warmer g) (g_bus g)
    (total_requests g) (total_enriched g) (total_fail_open g) (total_redirected g + 1)
    (total_cache_misses g) (background_tasks g) (prom g) (tick g).
Definition inc_cache_misses g : G := mkGateway (g_index g) (g_breaker g) (g_warmer g) (g_bus g)
    (total_requests g) (total_enriched g) (total_fail_open g) (total_redirected g)
    (total_cache_misses g + 1) (background_tasks g) (prom g) (tick g).
Definition add_task t g : G := mkGateway (g_index g) (g_breaker g) (g_warmer g) (g_bus g)
    (total_requests g) (total_enriched g) (total_fail_open g) (total_redirected g)
    (total_cache_misses g) (background_tasks g ++ [t]) (prom g) (tick g).
Definition set_prom p g : G := mkGateway (g_index g) (g_breaker g) (g_warmer g) (g_bus g)
    (total_requests g) (total_enriched g) (total_fail_open g) (total_redirected g)
    (total_cache_misses g) (background_tasks g) p (tick g).
Definition inc_tick g : G := mkGateway (g_index g) (g_breaker g) (g_warmer g) (g_bus g)
    (total_requests g) (total_enriched g) (total_fail_open g) (total_redirected g)
    (total_cache_misses g) (background_tasks g) (prom g) (Datatypes.S (tick g)).

  Context (env : Env) (c : InterceptorConfig) (mode : DeploymentMode) (shadow_refresh_fn : bool).

  (** [__init__]; the breaker over its store is built by [CircuitBreaker_init]. *)
Definition FailOpenInterceptor_init (index : AttributionIndexStore R) (breaker : CircuitBreaker S)
      (event_bus : option B) : G :=
    mkGateway index breaker ShadowWarmer_init event_bus 0 0 0 0 0 [] (mkProm [] f0 [] 0) 0.

  (** A reading of the environment. *)
Definition read {A} (f : nat → A) : SE G A := λ g, (Ok (f (tick g)), inc_tick g).

Definition on_breaker {A} (op : CircuitBreaker S → res A * CircuitBreaker S) : SE G A := λ g,
    let '(r, b) := op (g_breaker g) in (r, set_breaker b g).

Definition breaker_is_open : SE G bool :=
    let! now := read (wall_clock env) in on_breaker (is_open (breaker_config c) now).
Definition breaker_state : SE G string :=
    let! now := read (wall_clock env) in on_breaker (get_state (breaker_config c) now).
Definition breaker_record_success : SE G unit :=
    let! now := read (wall_clock env) in
    let! _ := on_breaker (record_success (breaker_config c) now) in se_ret tt.
Definition breaker_record_failure : SE G unit :=
    let! now := read (wall_clock env) in let! now' := read (wall_clock env) in
    on_breaker (record_failure (breaker_config c) now now').

Definition index_lookup (icfg : IndexConfig) (wid : string) : SE G (option AttributionIndexEntry) := λ g,
    let '(r, i) := IndexStore.lookup icfg wid (g_index g) in (r, set_index i g).

  (** [(time.monotonic() - start) * 1000] *)
Definition elapsed_since (start : pyfloat) : SE G pyfloat :=
    let! now := read (monotonic env) in se_ret (fmul (fsub now start) (of_Z 1000)).

  (** ** Events *)

  (** [_publish_async_event]: any exception is caught; without a running loop the
      awaitable is closed and dropped. *)
Definition _publish_async_event (event_type : EventType) (subject_id : string)
      (attributes : odict string pyval) (idempotency_key tenant_id : string) : SE G bool := λ g,
    match g_bus g with
    | None => (Ok false, g)
    | Some bus =>
        let n := tick g in
        let g := inc_tick (inc_tick g) in
        match DomainEvent_new (new_event_id env n) event_type subject_id attributes
                (Aware (utc_now env n) 0) (Aware (utc_now env (Datatypes.S n)) 0) "interceptor"
                idempotency_key tenant_id 1 with
        | Raise _ => (Ok false, g)
        | Ok event =>
            let '(r, bus) := publish event bus in
            let g := set_bus (Some bus) g in
            match r with
            | Raise _ => (Ok false, g)
            | Ok (PubResult b) => (Ok b, g)
            | Ok PubAwaitable =>
                if running_loop env then (Ok true, add_task (PublishTask event) g) else (Ok false, g)
            end
        end
    end.

Definition _emit_shadow_event (event_type : EventType) (workload_id request_id : string)
      (elapsed : pyfloat) (tenant_id : string) : SE G bool :=
    if shadow_events_enabled c then
      _publish_async_event event_type workload_id
        [("request_id", VStr request_id); ("workload_id", VStr workload_id);
         ("elapsed_ms", VFloat elapsed); ("interceptor_mode", VStr (mode_value mode));
         ("tenant_id", VStr tenant_id)]
        ("shadow:" +:+ request_id) tenant_id
    else se_ret false.

Definition _emit_policy_evaluation_event request (workload_id : string)
      (violations : list PolicyEvaluationResult) (elapsed : pyfloat) (fail_open : bool) : SE G bool :=
    let violated_ids := map pr_policy_id (filter (λ v, pr_violated v = true) violations) in
    _publish_async_event POLICY_EVALUATED workload_id
      [("request_id", VStr (rq_request_id request)); ("workload_id", VStr workload_id);
       ("violation_count", VInt (Z.of_nat (length violated_ids)));
       ("violated_policy_ids", VList (map VStr violated_ids)); ("mode", VStr (mode_value mode));
       ("fail_open", VBool fail_open); ("elapsed_ms", VFloat elapsed);
       ("environment", VStr (metadata_text request "environment"))]
      ("policy_eval:" +:+ rq_request_id request +:+ ":" +:+ mode_value mode) (_resolve_tenant_id request).

Definition _emit_intervention_event request (action_type : string) (elapsed : pyfloat) attr
      (new_model : option string) : SE G bool :=
    let workload_id := _resolve_workload_id request in
    if String.eqb workload_id "" then se_ret false else
    _publish_async_event INTERVENTION_APPLIED workload_id
      [("request_id", VStr (rq_request_id request)); ("workload_id", VStr workload_id);
       ("action_type", VStr action_type); ("original_model", VStr (rq_model request));
       ("new_model", VStr (default "" new_model));
       ("attribution_confidence", VFloat (ie_confidence attr));
       ("estimated_cost_usd", VFloat (rq_estimated_cost_usd request));
       ("environment", VStr (metadata_text request "environment")); ("elapsed_ms", VFloat elapsed);
       ("tenant_id", VStr (_resolve_tenant_id request))]
      ("intervention:" +:+ rq_request_id request +:+ ":" +:+ action_type) (_resolve_tenant_id request).

  (** ** Routing *)

Definition _active_routing request attr (violations : list PolicyEvaluationResult) (start : pyfloat)
      : SE G InterceptionResult :=
    let headers := _build_enrichment_headers c request attr violations in
    let id := rq_request_id request in
    if is_nonempty (filter (λ v, is_hard_stop v = true) violations)
       && fle (active_lite_gate_min_confidence c) (ie_confidence attr) then
      let! el := elapsed_since start in
      let! _ := _emit_intervention_event request "GATE_REJECT" el attr None in
      se_ret (mkInterception HARD_STOPPED id headers None violations (Some attr) el false)
    else
      let alts := ie_approved_alternatives attr in
      if is_nonempty alts && negb (str_mem (rq_model request) alts) then
        let alt_model := default "" (head alts) in
        let! el := elapsed_since start in
        se_modify inc_redirected ;;;
        let headers := od_set "X-ACI-Intervention-Applied" "true" headers in
        let headers := od_set "X-ACI-Intervention-Type" "MODEL_ROUTE" headers in
        let headers := od_set "X-ACI-Intervention-Delta"
          (str_take 512 ("{model:" +:+ rq_model request +:+ "->" +:+ alt_model +:+ "}")) headers in
        let! _ := _emit_intervention_event request "MODEL_ROUTE" el attr (Some alt_model) in
        se_ret (mkInterception REDIRECTED id headers (Some alt_model) violations (Some attr) el false)
      else
        let violated := has_violation violations in
        let! el := elapsed_since start in
        se_modify inc_enriched ;;;
        let! _ := (if violated then _emit_intervention_event request "SOFT_STOP" el attr None
                   else se_ret false) in
        se_ret (mkInterception (if violated then SOFT_STOPPED else ENRICHED) id headers None violations
                  (Some attr) el false).

  (** The result of the advisory path, also used when active mode is downgraded. *)
Definition advisory_result request attr (violations : list PolicyEvaluationResult)
      (headers : odict string string) (el : pyfloat) : InterceptionResult :=
    mkInterception (if has_violation violations then SOFT_STOPPED else ENRICHED)
      (rq_request_id request) headers None violations (Some attr) el false.

  (** Step 5: mode-dependent routing. *)
Definition route request attr (violations : list PolicyEvaluationResult) (start : pyfloat)
      : SE G InterceptionResult :=
    match mode with
    | PASSIVE =>
        let! el := elapsed_since start in
        breaker_record_success ;;; se_modify inc_enriched ;;;
        se_ret (mkInterception PASSTHROUGH (rq_request_id request) [] None violations (Some attr) el false)
    | ADVISORY =>
        let headers := _build_enrichment_headers c request attr violations in
        let! el := elapsed_since start in
        breaker_record_success ;;; se_modify inc_enriched ;;;
        se_ret (advisory_result request attr violations headers el)
    | ACTIVE =>
        if flt (ie_confidence attr) (active_lite_min_confidence c)
           || _should_downgrade_active_to_advisory request then
          let headers := _build_enrichment_headers c request attr violations in
          let! el := elapsed_since start in
          se_modify inc_enriched ;;;
          se_ret (advisory_result request attr violations headers el)
        else
          let! result := _active_routing request attr violations start in
          breaker_record_success ;;; se_ret result
    end.

Definition ask_warmer (workload_id : string) (now r : pyfloat) : SE G bool := λ g,
    let '(b, w) := should_trigger_refresh (warm_config c) workload_id now r (g_warmer g) in
    (Ok b, set_warmer w g).

  (** Step 2 on a miss: shadow warming, shadow event, fail open. *)
Definition on_miss request (workload_id : string) (start : pyfloat) : SE G InterceptionResult :=
    se_modify inc_cache_misses ;;; se_modify inc_fail_open ;;;
    let! el := elapsed_since start in
    (if shadow_refresh_fn then
       let! now := read (monotonic env) in
       let! r := read (random env) in
       let! go := ask_warmer workload_id now r in
       if (go : bool) && running_loop env then se_modify (add_task (RefreshTask workload_id)) else se_ret tt
     else se_ret tt) ;;;
    let! logged := _emit_shadow_event SHADOW_INTERCEPT_MISS workload_id (rq_request_id request) el
                     (_resolve_tenant_id request) in
    se_ret (mkInterception FAIL_OPEN (rq_request_id request) (_build_fail_open_headers INDEX_UNAVAILABLE)
              None [] None el logged).

Definition timeout_result request attr (reason : FailOpenReason) (el : pyfloat) (logged : bool)
      : InterceptionResult :=
    mkInterception TIMEOUT (rq_request_id request) (_build_basic_headers c request attr (Some reason))
      None [] (Some attr) el logged.

  (** Steps 3 to 5, once the workload is attributed. *)
Definition on_hit request (workload_id : string) attr (start : pyfloat) : SE G InterceptionResult :=
    let! elapsed_so_far := elapsed_since start in
    if fle (fsub (of_Z (timeout_ms c)) elapsed_so_far) (of_Z 2) then
      se_modify inc_fail_open ;;;
      let! logged := _emit_shadow_event SHADOW_INTERCEPT_TIMEOUT workload_id (rq_request_id request)
                       elapsed_so_far (_resolve_tenant_id request) in
      se_ret (timeout_result request attr LOOKUP_TIMEOUT elapsed_so_far logged)
    else
      let! policy_start := read (monotonic env) in
      let! violations := se_lift (_evaluate_policies request attr) in
      let! policy_elapsed := elapsed_since policy_start in
      if flt (of_Z (policy_timeout_ms c)) policy_elapsed then
        se_modify inc_fail_open ;;;
        let! el := elapsed_since start in
        let! _ := _emit_policy_evaluation_event request workload_id violations el true in
        let! logged := _emit_shadow_event SHADOW_INTERCEPT_TIMEOUT workload_id (rq_request_id request) el
                         (_resolve_tenant_id request) in
        se_ret (timeout_result request attr POLICY_TIMEOUT el logged)
      else
        let! el := elapsed_since start in
        let! _ := _emit_policy_evaluation_event request workload_id violations el false in
        route request attr violations start.

  Context (icfg : IndexConfig).

Definition with_headers request (h : odict string string) : InterceptionRequest :=
    mkRequest (rq_request_id request) (rq_model request) (rq_provider request) (rq_service_name request)
      (rq_api_key_id request) (rq_input_tokens request) (rq_estimated_cost_usd request) h
      (rq_workload_id request) (rq_metadata request).

Definition _intercept_inner request (start : pyfloat) : SE G InterceptionResult :=
    let request := with_headers request (_sanitize_request_headers (rq_headers request)) in
    let! is_open := breaker_is_open in
    if is_open : bool then
      let! el := elapsed_since start in
      se_modify inc_fail_open ;;;
      se_ret (mkInterception CIRCUIT_OPEN (rq_request_id request)
                (_build_fail_open_headers RESOURCE_EXHAUSTION) None [] None el false)
    else
      let workload_id := _resolve_workload_id request in
      if String.eqb workload_id "" then
        let! el := elapsed_since start in
        se_ret (mkInterception PASSTHROUGH (rq_request_id request) [] None [] None el false)
      else
        let! attribution := index_lookup icfg workload_id in
        match attribution with
        | None => on_miss request workload_id start
        | Some attr => on_hit request workload_id attr start
        end.

  (** ** Metrics and the safety wrapper *)

Definition is_fail_open_outcome (o : InterceptionOutcome) : bool :=
    match o with FAIL_OPEN | CIRCUIT_OPEN | TIMEOUT => true | _ => false end.

Definition _record_observability_metrics (result : InterceptionResult) : SE G unit :=
    se_modify (λ g, let p := prom g in
      let by_reason :=
        if is_fail_open_outcome (outcome result) then
          let reason := default (outcome_value (outcome result))
                          (od_get "X-ACI-Fail-Open-Reason" (enrichment_headers result)) in
          od_set reason (default 0 (od_get reason (fail_open_by_reason p)) + 1) (fail_open_by_reason p)
        else fail_open_by_reason p in
      let rate :=
        if 0 <? total_requests g then
          match fdiv (of_Z (total_fail_open g)) (of_Z (total_requests g)) with
          | Ok q => q | Raise _ => fail_open_rate p end
        else fail_open_rate p in
      set_prom (mkProm by_reason rate (latencies p ++ [elapsed_ms result]) (breaker_gauge p)) g) ;;;
    let! st := breaker_state in
    let value := if String.eqb st "half_open" then 1 else if String.eqb st "open" then 2 else 0 in
    se_modify (λ g, set_prom (mkProm (fail_open_by_reason (prom g)) (fail_open_rate (prom g))
                                     (latencies (prom g)) value) g).

  (** The handler of [intercept]'s [except Exception]. *)
Definition on_exception request (start : pyfloat) : SE G InterceptionResult :=
    let! el := elapsed_since start in
    se_modify inc_fail_open ;;;
    breaker_record_failure ;;;
    let workload_id := _resolve_workload_id request in
    let! logged := (if String.eqb workload_id "" then se_ret false
                    else _emit_shadow_event SHADOW_INTERCEPT_TIMEOUT workload_id (rq_request_id request)
                           el (_resolve_tenant_id request)) in
    let result := mkInterception FAIL_OPEN (rq_request_id request)
                    (_build_fail_open_headers RUNTIME_EXCEPTION) None [] None el logged in
    _record_observability_metrics result ;;; se_ret result.

Definition intercept request : SE G InterceptionResult :=
    se_modify inc_requests ;;;
    let! start := read (monotonic env) in
    se_catch (let! result := _intercept_inner request start in
              _record_observability_metrics result ;;; se_ret result)
             (λ _, on_exception request start).

  (** [get_metrics]: the counters, the mode and the breaker state. *)
Definition get_gateway_metrics : SE G (Z * Z * Z * Z * Z * string * string) :=
    let! st := breaker_state in
    se_get (λ g, (total_requests g, total_enriched g, total_fail_open g, total_redirected g,
                  total_cache_misses g, mode_value mode, st)).

  (** [shutdown]: every outstanding task is awaited, then the set is cleared. *)
Definition shutdown : SE G (list background_task) := λ g,
    (Ok (background_tasks g),
     mkGateway (g_index g) (g_breaker g) (g_warmer g) (g_bus g) (total_requests g) (total_enriched g)
       (total_fail_open g) (total_redirected g) (total_cache_misses g) [] (prom g) (tick g)).
End gateway.

(** ** Counters and safety of results *)

(** requests, enriched, failed open, redirected, cache misses *)
Definition counters {R S B} (g : gateway_state R S B) : list Z :=
  [total_requests g; total_enriched g; total_fail_open g; total_redirected g; total_cache_misses g].

Definition count_if (b : bool) : Z := if b then 1 else 0.

Definition counts_enriched (r : InterceptionResult) : bool :=
  match outcome r, attribution r with
  | ENRICHED, _ | SOFT_STOPPED, _ | PASSTHROUGH, Some _ => true
  | _, _ => false
  end.

Definition is_redirected (o : InterceptionOutcome) : bool :=
  match o with REDIRECTED => true | _ => false end.

Definition counts_miss (r : InterceptionResult) : bool :=
  match outcome r with
  | FAIL_OPEN => match od_get "X-ACI-Fail-Open-Reason" (enrichment_headers r) with
                 | Some reason => String.eqb reason (reason_value INDEX_UNAVAILABLE)
                 | None => false
                 end
  | _ => false
  end.

(** What a result adds to the counters, beyond the request itself. *)
Definition counted (r : InterceptionResult) (before : list Z) : list Z :=
  zip_with Z.add before
    [0; count_if (counts_enriched r); count_if (is_fail_open_outcome (outcome r));
     count_if (is_redirected (outcome r)); count_if (counts_miss r)].

(** The conditions under which active mode may act on a request. *)
Definition may_act (c : InterceptorConfig) (mode : DeploymentMode) (request : InterceptionRequest)
    (attr : AttributionIndexEntry) : Prop :=
  mode = ACTIVE ∧ _should_downgrade_active_to_advisory request = false ∧
  flt (ie_confidence attr) (active_lite_min_confidence c) = false.

(** The violations that evaluation produces: found, and of the soft kind. *)
Definition soft (v : PolicyEvaluationResult) : Prop := pr_violated v = true ∧ pr_action v = SOFT_STOP.

(** A result respects the mode: requests are redirected or stopped only when active mode
    may act, a redirect goes to an approved alternative of a model that is not one, a
    stop has a hard violation and gate confidence; passive results carry no headers; and
    the policy results are violations of the soft kind. *)
Definition mode_safe (c : InterceptorConfig) (mode : DeploymentMode) (request : InterceptionRequest)
    (r : InterceptionResult) : Prop :=
  match outcome r with
  | REDIRECTED => ∃ attr m, attribution r = Some attr ∧ redirect_model r = Some m ∧
      may_act c mode request attr ∧ m ∈ ie_approved_alternatives attr ∧
      rq_model request ∉ ie_approved_alternatives attr
  | HARD_STOPPED => redirect_model r = None ∧ ∃ attr v, attribution r = Some attr ∧
      may_act c mode request attr ∧ v ∈ policy_results r ∧ is_hard_stop v = true ∧
      fle (active_lite_gate_min_confidence c) (ie_confidence attr) = true
  | ENRICHED | SOFT_STOPPED => redirect_model r = None ∧ mode ≠ PASSIVE
  | PASSTHROUGH => redirect_model r = None ∧ enrichment_headers r = []
  | FAIL_OPEN | CIRCUIT_OPEN | TIMEOUT => redirect_model r = None
  end ∧ (res_request_id r = rq_request_id request ∧ Forall soft (policy_results r)).

(** A store whose only failures are Redis errors, which the breaker absorbs. *)
Class QuietStore (S : Type) `{CircuitStateStore S} :=
  quiet : ∀ {A} (f : CircuitBreakerState → CircuitBreakerState * A) (s : S) e,
    (mutate f s).1 = Raise e → e = RedisError.

#[export] Instance local_quiet : QuietStore CircuitBreakerState.
Proof. intros A f s e. simpl. unfold local_mutate. by destruct (f s). Qed.

Section spec.
  Context {R S B : Type} `{RedisServer R} `{LuaText} `{EntryJson} `{CircuitStateStore S} `{EventPublisher B}.
  Context (env : Env) (c : InterceptorConfig) (mode : DeploymentMode) (shadow_refresh_fn : bool)
    (icfg : IndexConfig).
  Abbreviation G := (gateway_state R S B).
  Implicit Types (g : G) (request : InterceptionRequest) (attr : AttributionIndexEntry).

  (** Steps that leave the counters alone, whatever they return. *)
Definition quiet_step {A} (m : SE G A) : Prop := ∀ g, counters (m g).2 = counters g.

Lemma wp_quiet {A} (m : SE G A) (Q : A → G → Prop) (E : exn → G → Prop) g :
    quiet_step m → (∀ a g', counters g' = counters g → Q a g') →
    (∀ e g', counters g' = counters g → E e g') → se_wp m Q E g.
  Proof. intros Hm. specialize (Hm g). unfold se_wp. destruct (m g) as [[a|e] g']; auto. Qed.

  (** Quiet steps that also never raise. *)
Definition safe_step {A} (m : SE G A) : Prop := ∀ g, quiet_step m ∧ is_ok (m g).1 = true.

Lemma wp_safe {A} (m : SE G A) (Q : A → G → Prop) E g :
    safe_step m → (∀ a g', counters g' = counters g → Q a g') → se_wp m Q E g.
  Proof.
    intros Hm. destruct (Hm g) as [Hq Ho]. specialize (Hq g). unfold se_wp.
    destruct (m g) as [[a|e] g']; [auto|done].
  Qed.

Lemma safe_read {A} (f : nat → A) : safe_step (@read R S B A f).
  Proof. intros g. split; [|done]. by intros g'. Qed.

Lemma safe_elapsed start : safe_step (@elapsed_since R S B env start).
  Proof. intros g. split; [|done]. by intros g'. Qed.

Lemma safe_publish ty subj attrs key tenant : safe_step (@_publish_async_event R S B _ env ty subj attrs key tenant).
  Proof.
    intros g. split; [intros g'|]; unfold _publish_async_event; repeat case_match; by simplify_eq/=.
  Qed.

Lemma safe_warmer wid now r : safe_step (@ask_warmer R S B c wid now r).
  Proof. intros g. split; [intros g'|]; unfold ask_warmer; by destruct (should_trigger_refresh _ _ _ _ _). Qed.

Lemma safe_shadow ty wid id el tenant : safe_step (@_emit_shadow_event R S B _ env c mode ty wid id el tenant).
  Proof. intros g. unfold _emit_shadow_event. destruct (shadow_events_enabled c); [apply safe_publish|done]. Qed.

Lemma safe_policy_event request wid vs el b :
    safe_step (@_emit_policy_evaluation_event R S B _ env mode request wid vs el b).
  Proof. apply safe_publish. Qed.

Lemma safe_intervention request ty el attr m :
    safe_step (@_emit_intervention_event R S B _ env request ty el attr m).
  Proof. intros g. unfold _emit_intervention_event. destruct (String.eqb _ _); [done|apply safe_publish]. Qed.

Lemma quiet_on_breaker {A} (op : CircuitBreaker S → res A * CircuitBreaker S) :
    quiet_step (@on_breaker R S B A op).
  Proof. intros g. unfold on_breaker. by destruct (op (g_breaker g)). Qed.

Lemma quiet_lookup wid : quiet_step (@index_lookup R S B _ _ icfg wid).
  Proof. intros g. unfold index_lookup. by destruct (IndexStore.lookup icfg wid (g_index g)). Qed.

Lemma run_quiet `{!QuietStore S} {A} (f : CircuitBreakerState → CircuitBreakerState * A) (b : CircuitBreaker S) :
    is_ok (run f b).1 = true.
  Proof.
    unfold run, _safe_mutate. pose proof (quiet (S := S) f (state_store b)) as Hq.
    destruct (mutate f (state_store b)) as [[[s a]|e] st]; [done|].
    rewrite (Hq e eq_refl). by destruct (f (fallback_state b)).
  Qed.

  (** A breaker operation keeps the counters, and raises only if the store is not quiet. *)
Lemma wp_on_breaker {A} (f : CircuitBreakerState → CircuitBreakerState * A) (Q : A → G → Prop) E g :
    (∀ a g', counters g' = counters g → Q a g') →
    (∀ e g', ¬ QuietStore S → counters g' = counters g → E e g') →
    se_wp (@on_breaker R S B A (run f)) Q E g.
  Proof.
    intros HQ HE. unfold se_wp, on_breaker.
    pose proof (λ q : QuietStore S, run_quiet (QuietStore0 := q) f (g_breaker g)) as Hq.
    destruct (run f (g_breaker g)) as [[a|e] b]; [by apply HQ|]. apply HE; [|done].
    intros q. by specialize (Hq q).
  Qed.

Lemma wp_is_open Q E g :
    (∀ a g', counters g' = counters g → Q a g') →
    (∀ e g', ¬ QuietStore S → counters g' = counters g → E e g') →
    se_wp (@breaker_is_open R S B _ env c) Q E g.
  Proof. intros HQ HE. apply wp_bind, wp_safe; [apply safe_read|]. intros ? g' Hg. apply wp_on_breaker; intros; [apply HQ|apply HE]; congruence. Qed.

Lemma wp_state Q E g :
    (∀ a g', counters g' = counters g → Q a g') →
    (∀ e g', ¬ QuietStore S → counters g' = counters g → E e g') →
    se_wp (@breaker_state R S B _ env c) Q E g.
  Proof. intros HQ HE. apply wp_bind, wp_safe; [apply safe_read|]. intros ? g' Hg. apply wp_on_breaker; intros; [apply HQ|apply HE]; congruence. Qed.

Lemma wp_success Q E g :
    (∀ g', counters g' = counters g → Q tt g') →
    (∀ e g', ¬ QuietStore S → counters g' = counters g → E e g') →
    se_wp (@breaker_record_success R S B _ env c) Q E g.
  Proof.
    intros HQ HE. apply wp_bind, wp_safe; [apply safe_read|]. intros ? g' Hg. apply wp_bind.
    apply wp_on_breaker; intros; [apply wp_ret, HQ|apply HE]; congruence.
  Qed.

Lemma wp_failure Q E g :
    (∀ g', counters g' = counters g → Q tt g') →
    (∀ e g', ¬ QuietStore S → counters g' = counters g → E e g') →
    se_wp (@breaker_record_failure R S B _ env c) Q E g.
  Proof.
    intros HQ HE. apply wp_bind, wp_safe; [apply safe_read|]. intros ? g' Hg.
    apply wp_bind, wp_safe; [apply safe_read|]. intros ? g'' Hg'.
    apply wp_on_breaker; [intros []; intros; apply HQ|intros; apply HE]; congruence.
  Qed.

  (** The postcondition of the pipeline from counters [n]. *)
Definition good request (n : list Z) (r : InterceptionResult) g : Prop :=
    mode_safe c mode request r ∧ (QuietStore S → counters g = counted r n).

Definition unharmed (n : list Z) (e : exn) g : Prop := QuietStore S → counters g = n.

Lemma counters_five g : ∃ a b d e f, counters g = [a; b; d; e; f].
  Proof. by eexists _, _, _, _, _. Qed.

(** Step through a computation: quiet steps, counter updates, results. *)
Ltac wp_step :=
  match goal with
  | |- se_wp (se_bind _ _) _ _ _ => apply wp_bind
  | |- se_wp (se_ret _) _ _ _ => apply wp_ret
  | |- se_wp (se_modify _) _ _ _ => apply wp_modify
  | |- se_wp (read _) _ _ _ => apply wp_safe; [apply safe_read|intros ? ? ?]
  | |- se_wp (elapsed_since _ _) _ _ _ => apply wp_safe; [apply safe_elapsed|intros ? ? ?]
  | |- se_wp (ask_warmer _ _ _ _) _ _ _ => apply wp_safe; [apply safe_warmer|intros ? ? ?]
  | |- se_wp (_emit_shadow_event _ _ _ _ _ _ _ _) _ _ _ => apply wp_safe; [apply safe_shadow|intros ? ? ?]
  | |- se_wp (_emit_policy_evaluation_event _ _ _ _ _ _ _) _ _ _ =>
      apply wp_safe; [apply safe_policy_event|intros ? ? ?]
  | |- se_wp (_emit_intervention_event _ _ _ _ _ _) _ _ _ =>
      apply wp_safe; [apply safe_intervention|intros ? ? ?]
  | |- se_wp (breaker_is_open _ _) _ _ _ => apply wp_is_open; intros ? ? ?; [|intros ?]
  | |- se_wp (breaker_state _ _) _ _ _ => apply wp_state; intros ? ? ?; [|intros ?]
  | |- se_wp (breaker_record_success _ _) _ _ _ => apply wp_success; [intros ? ?|intros ? ? ? ?]
  | |- se_wp (breaker_record_failure _ _) _ _ _ => apply wp_failure; [intros ? ?|intros ? ? ? ?]
  | |- se_wp (if ?b then _ else _) _ _ _ => destruct b eqn:?
  | |- se_wp (let x := _ in _) _ _ _ => cbv zeta
  end.

(** Compare counters along a chain of equations between states. *)
Ltac counters_solve :=
  intros _; unfold counters, counted in *;
  cbn [total_requests total_enriched total_fail_open total_redirected total_cache_misses zip_with
       add_task set_prom set_bus set_warmer set_breaker set_index inc_tick inc_requests inc_enriched
       inc_fail_open inc_redirected inc_cache_misses] in *;
  repeat match goal with H : _ :: _ = _ :: _ |- _ => injection H as ? ? ? ? ? end;
  repeat match goal with
  | |- context [counts_miss ?r] => let b := eval lazy in (counts_miss r) in change (counts_miss r) with b
  | |- context [counts_enriched ?r] =>
      let b := eval lazy in (counts_enriched r) in change (counts_enriched r) with b
  end;
  cbn [count_if outcome timeout_result is_fail_open_outcome is_redirected];
  repeat (apply (f_equal2 cons); [lia|]); done.

Lemma miss_good request wid start g :
    se_wp (@on_miss R S B _ env c mode shadow_refresh_fn request wid start)
      (good request (counters g)) (unharmed (counters g)) g.
  Proof.
    unfold on_miss. repeat wp_step; (split; [by split_and!|counters_solve]).
  Qed.

Lemma str_mem_spec s l : str_mem s l = true ↔ s ∈ l.
  Proof.
    unfold str_mem. rewrite existsb_exists. split.
    - intros (x & Hx & E). apply String.eqb_eq in E as ->. by apply list_elem_of_In.
    - intros Hs. exists s. split; [by apply list_elem_of_In|]. by apply String.eqb_eq.
  Qed.

Lemma active_good request attr vs start g :
    may_act c mode request attr → Forall soft vs →
    se_wp (@_active_routing R S B _ env c request attr vs start)
      (good request (counters g)) (unharmed (counters g)) g.
  Proof.
    intros Hact Hvs. pose proof Hact as (Hmode & _ & _). unfold _active_routing. repeat wp_step.
    - split; [|counters_solve]. split; [|by split].
      apply andb_true_iff in Heqb as [Hh Hc]. split; [done|]. exists attr.
      destruct (filter (λ v, is_hard_stop v = true) vs) as [|v l] eqn:Ef; [done|].
      assert (v ∈ filter (λ v, is_hard_stop v = true) vs) as Hin by (rewrite Ef; set_solver).
      apply list_elem_of_filter in Hin as [Hv Hin]. by exists v.
    - split; [|counters_solve]. split; [|by split].
      apply andb_true_iff in Heqb0 as [Ha Hm]. exists attr, (default "" (head (ie_approved_alternatives attr))).
      split_and!; [done..| |].
      + destruct (ie_approved_alternatives attr); [done|]. simpl. set_solver.
      + intros Hin%str_mem_spec. by rewrite Hin in Hm.
    - split; [|counters_solve]. split; [|by split]. split; [done|]. by rewrite Hmode.
    - split; [|counters_solve]. split; [|by split]. split; [done|]. by rewrite Hmode.
  Qed.

Lemma advisory_safe request attr vs h el :
    mode ≠ PASSIVE → Forall soft vs → mode_safe c mode request (advisory_result request attr vs h el).
  Proof. intros Hm Hvs. split; [|by split]. simpl. by destruct (has_violation vs). Qed.

Lemma counts_advisory request attr vs h el n :
    counted (advisory_result request attr vs h el) n = zip_with Z.add n [0; 1; 0; 0; 0].
  Proof. unfold counted, advisory_result. by destruct (has_violation vs). Qed.

Lemma route_good request attr vs start g :
    Forall soft vs →
    se_wp (@route R S B _ _ env c mode request attr vs start)
      (good request (counters g)) (unharmed (counters g)) g.
  Proof.
    intros Hvs. unfold route. destruct mode eqn:Em; repeat wp_step.
    - split; [by split_and!|counters_solve].
    - by intros q.
    - split; [apply advisory_safe; by rewrite ?Em|]. rewrite counts_advisory. counters_solve.
    - by intros q.
    - split; [apply advisory_safe; by rewrite ?Em|]. rewrite counts_advisory. counters_solve.
    - apply orb_false_iff in Heqb as [Hc Hd].
      eapply wp_mono; [apply active_good; by rewrite ?Em| |done].
      intros r g1 [Hs Hn]. wp_step. repeat wp_step.
      + split; [done|]. intros q. specialize (Hn q). congruence.
      + by intros q.
  Qed.

Lemma good_ext request n n' r g : n = n' → good request n r g → good request n' r g.
  Proof. by intros ->. Qed.

Lemma budget_soft attr b : budget_violations attr = Ok b → Forall soft b.
  Proof.
    unfold budget_violations. destruct (ie_budget_remaining_usd attr) as [remaining|]; [|by intros [= <-]].
    destruct (ie_budget_limit_usd attr) as [limit|]; [|by intros [= <-]].
    destruct (flt f0 limit); [|by intros [= <-]]. destruct (fdiv remaining limit) as [q|]; cbn [rbind]; [|done].
    destruct (flt _ _); intros [= <-]; repeat constructor.
  Qed.

Lemma token_soft request attr t : token_violations request attr = Ok t → Forall soft t.
  Proof.
    unfold token_violations. destruct (ie_token_budget_output attr) as [budget|]; [|by intros [= <-]].
    destruct (budget =? 0); [by intros [= <-]|]. destruct (py_lt _ _) as [[|]|]; cbn [rbind]; [..|done];
      intros [= <-]; repeat constructor.
  Qed.

Lemma evaluate_soft request attr vs : _evaluate_policies request attr = Ok vs → Forall soft vs.
  Proof.
    unfold _evaluate_policies. destruct (budget_violations attr) as [b|] eqn:Eb; cbn [rbind]; [|done].
    destruct (token_violations request attr) as [t|] eqn:Et; cbn [rbind]; [|done]. intros [= <-].
    apply Forall_app; split; [|apply Forall_app; split; [by eapply budget_soft|apply Forall_app; split;
      [by eapply token_soft|apply Forall_app; split]]].
    - unfold allowlist_violations. destruct (_ && _); repeat constructor.
    - unfold input_token_violations. destruct (ie_token_budget_input attr); [|constructor].
      destruct (_ && _); repeat constructor.
    - unfold cost_violations. destruct (ie_cost_ceiling_per_request_usd attr); [|constructor].
      destruct (flt _ _); repeat constructor.
  Qed.

Lemma hit_good request wid attr start g :
    se_wp (@on_hit R S B _ _ env c mode request wid attr start)
      (good request (counters g)) (unharmed (counters g)) g.
  Proof.
    unfold on_hit. repeat wp_step.
    - split; [by split_and!|counters_solve].
    - apply wp_lift; [intros vs Hvs%evaluate_soft|by intros e _ q; congruence]. repeat wp_step.
      + split; [by split_and!|counters_solve].
      + replace (counters g) with (counters g'3) by congruence. by apply route_good.
  Qed.

Lemma inner_good request start g :
    se_wp (@_intercept_inner R S B _ _ _ _ env c mode shadow_refresh_fn icfg request start)
      (good request (counters g)) (unharmed (counters g)) g.
  Proof.
    unfold _intercept_inner. repeat wp_step.
    - split; [by split_and!|counters_solve].
    - split; [by split_and!|counters_solve].
    - apply wp_quiet; [apply quiet_lookup| |by intros e g'' Hg'' q; congruence].
      intros [attr|] g'' Hg''.
      + replace (counters g) with (counters g'') by congruence.
        apply (hit_good (with_headers request _)).
      + replace (counters g) with (counters g'') by congruence.
        apply (miss_good (with_headers request _)).
    - by intros q.
  Qed.

Lemma metrics_good r (Q : unit → G → Prop) E g :
    (∀ g', counters g' = counters g → Q tt g') →
    (∀ e g', ¬ QuietStore S → counters g' = counters g → E e g') →
    se_wp (@_record_observability_metrics R S B _ env c r) Q E g.
  Proof.
    intros HQ HE. unfold _record_observability_metrics. wp_step. wp_step. wp_step. wp_step.
    - wp_step. apply HQ. unfold counters in *. cbn in *. congruence.
    - by apply HE.
  Qed.

Lemma exception_good request start g :
    se_wp (@on_exception R S B _ _ env c mode request start)
      (good request (counters g)) (λ _ _, ¬ QuietStore S) g.
  Proof.
    unfold on_exception. repeat wp_step; try done;
      (apply metrics_good; [intros g1 Hg1; wp_step; split; [by split_and!|counters_solve]|done]).
  Qed.

  (** The whole request: a result in the mode's bounds with its counters, or, if the
      breaker's store can fail otherwise than by a Redis error, an exception. *)
Lemma intercept_good request g :
    se_wp (@intercept R S B _ _ _ _ env c mode shadow_refresh_fn icfg request)
      (good request (counters (inc_requests g))) (λ _ _, ¬ QuietStore S) g.
  Proof.
    unfold intercept. wp_step. wp_step. wp_step. wp_step. apply wp_catch, wp_bind.
    eapply wp_mono; [apply inner_good| |].
    - intros r g1 [Hs Hn]. wp_step. apply metrics_good.
      + intros g2 Hg2. wp_step. split; [done|]. intros q. rewrite Hg2, (Hn q). by rewrite H4.
      + intros e g2 Hq _. eapply wp_mono; [apply exception_good| |done].
        intros r' g3 [Hs' _]. split; [done|]. by intros q.
    - intros e g1 Hu. eapply wp_mono; [apply exception_good| |done].
      intros r' g3 [Hs' Hn']. split; [done|]. intros q. rewrite (Hn' q), (Hu q). by rewrite H4.
  Qed.
End spec.

(** ** Header budget *)

Lemma estimate_nonneg h : 0 <= _estimate_header_bytes h.
Proof. induction h as [|kv h IH]; simpl; lia. Qed.

Lemma estimate_del k h : _estimate_header_bytes (od_del k h) <= _estimate_header_bytes h.
Proof.
  induction h as [|[k' v] h IH]; simpl; [lia|]. case_decide; simpl; lia.
Qed.

Lemma estimate_set k v h :
  _estimate_header_bytes (od_set k v h)
  <= _estimate_header_bytes h + Z.of_nat (String.length k) + Z.of_nat (String.length v) + 4.
Proof.
  induction h as [|[k' v'] h IH]; simpl; [lia|]. case_decide; subst; simpl; lia.
Qed.

Lemma trim_estimate max_bytes keys clamped trimmed :
  _estimate_header_bytes trimmed <= max_bytes →
  _estimate_header_bytes (trim_headers max_bytes keys clamped trimmed) <= max_bytes.
Proof.
  revert trimmed. induction keys as [|k keys IH]; intros trimmed Ht; simpl; [done|].
  destruct (od_get k clamped) as [v|].
  - destruct (Z.ltb_spec max_bytes (_estimate_header_bytes (od_set k v trimmed))); [|by apply IH].
    rewrite od_del_set. pose proof (estimate_del k trimmed). lia.
  - destruct (Z.ltb_spec max_bytes (_estimate_header_bytes trimmed)); [lia|]. by apply IH.
Qed.

Lemma trim_from max_bytes keys clamped trimmed k v :
  od_wf trimmed → (∀ k' v', od_get k' trimmed = Some v' → od_get k' clamped = Some v') →
  od_get k (trim_headers max_bytes keys clamped trimmed) = Some v → od_get k clamped = Some v.
Proof.
  revert trimmed. induction keys as [|k0 keys IH]; intros trimmed Hwf Hfrom; simpl; [auto|].
  set (t := match od_get k0 clamped with Some v0 => od_set k0 v0 trimmed | None => trimmed end).
  assert (od_wf t) as Ht by (subst t; destruct (od_get k0 clamped); auto with odict).
  assert (∀ k' v', od_get k' t = Some v' → od_get k' clamped = Some v') as Hft.
  { intros k' v'. subst t. destruct (od_get k0 clamped) as [v0|] eqn:E; [|auto].
    rewrite od_get_set. case_decide; subst; intros; [congruence|auto]. }
  destruct (_ <? _); [|by apply IH].
  intros Hd. apply Hft. destruct (decide (k = k0)) as [->|].
  - by rewrite od_get_del_eq in Hd.
  - by rewrite od_get_del_ne in Hd.
Qed.

Lemma clamp_get c h k : od_get k (clamp_headers c h) = slice_to (max_header_value_length c) <$> od_get k h.
Proof. induction h as [|[k' v] h IH]; simpl; [done|]. by case_decide. Qed.

(** ** A wedged breaker *)

Section wedged.
  Context {R B : Type} `{RedisServer R} `{LuaText} `{EntryJson} `{EventPublisher B}.
  Context (env : Env) (c : InterceptorConfig) (mode : DeploymentMode) (shadow_refresh_fn : bool)
    (icfg : IndexConfig).
  Abbreviation GL := (gateway_state R CircuitBreakerState B).
  Implicit Types (g : GL) (request : InterceptionRequest).

Fixpoint run_requests (requests : list InterceptionRequest) g : list (res InterceptionResult) * GL :=
    match requests with
    | [] => ([], g)
    | r :: rs => let '(out, g) := intercept env c mode shadow_refresh_fn icfg r g in
                 let '(outs, g) := run_requests rs g in (out :: outs, g)
    end.

  (** Half-open with [used] probes spent. *)
Definition half_open_at (used : Z) g : Prop :=
    state (state_store (g_breaker g)) = cs_value HALF_OPEN ∧
    used <= half_open_probe_count (state_store (g_breaker g)).

Lemma half_open_no_transition now (s : CircuitBreakerState) :
    state s = cs_value HALF_OPEN → _transition_if_reset_timeout_elapsed (breaker_config c) now s = s.
  Proof. intros E. unfold _transition_if_reset_timeout_elapsed. by rewrite E. Qed.

Lemma breaker_state_half_open used g :
    half_open_at used g →
    se_wp (@breaker_state R CircuitBreakerState B _ env c) (λ _ g', half_open_at used g') (λ _ _, False) g.
  Proof.
    intros [Hs Hu]. unfold se_wp. simpl. unfold se_bind, read, on_breaker, get_state, run, _safe_mutate.
    simpl. unfold local_mutate, state_mut. by rewrite half_open_no_transition.
  Qed.

Lemma metrics_half_open used r g :
    half_open_at used g →
    se_wp (@_record_observability_metrics R CircuitBreakerState B _ env c r)
      (λ _ g', half_open_at used g') (λ _ _, False) g.
  Proof.
    intros Hg. unfold _record_observability_metrics. apply wp_bind, wp_modify, wp_bind.
    eapply wp_mono; [by apply breaker_state_half_open| |done].
    intros st g' Hg'. by apply wp_modify.
  Qed.

Abbreviation max_probes := (half_open_max_probes (breaker_config c)).

  (** Asking a half-open breaker: a refusal means the probes are spent, an admission
      spends one. *)
Lemma is_open_half_open used g :
    half_open_at used g →
    se_wp (@breaker_is_open R CircuitBreakerState B _ env c)
      (λ b g', (if b then half_open_at (Z.max used max_probes) g' else half_open_at (used + 1) g') ∧
               (max_probes <= used → b = true)) (λ _ _, False) g.
  Proof.
    intros [Hs Hu]. unfold se_wp, breaker_is_open, se_bind, read, on_breaker, is_open, run, _safe_mutate.
    simpl. unfold local_mutate, is_open_mut. rewrite half_open_no_transition by done. rewrite Hs. simpl.
    destruct (Z.ltb_spec (half_open_probe_count (state_store (g_breaker g))) max_probes); simpl.
    - split; [|lia]. split; simpl; [done|lia].
    - split; [|done]. split; simpl; [done|lia].
  Qed.

  (** With the probes spent a request fails open, whatever it is. *)
Lemma intercept_wedged request g :
    half_open_at max_probes g →
    se_wp (intercept env c mode shadow_refresh_fn icfg request)
      (λ r g', outcome r = CIRCUIT_OPEN ∧ half_open_at max_probes g') (λ _ _, False) g.
  Proof.
    intros Hg. unfold intercept. do 2 (apply wp_bind; unfold se_wp at 1, se_modify, read).
    apply wp_catch, wp_bind. unfold _intercept_inner. apply wp_bind.
    eapply wp_mono; [by apply is_open_half_open| |done].
    intros b g' [Hb Hmax]. rewrite (Hmax ltac:(lia)) in *. apply wp_bind. unfold se_wp at 1.
    apply wp_bind, wp_bind. rewrite Z.max_id in Hb.
    eapply wp_mono; [by apply (metrics_half_open max_probes)| |done].
    intros [] g2 Hg2. by apply wp_ret.
  Qed.

  (** A request without any workload id spends a probe and reports no outcome. *)
Lemma intercept_anonymous used request g :
    half_open_at used g → _resolve_workload_id request = "" →
    se_wp (intercept env c mode shadow_refresh_fn icfg request)
      (λ r g', half_open_at (Z.min max_probes (used + 1)) g') (λ _ _, False) g.
  Proof.
    intros Hg Hw. unfold intercept. do 2 (apply wp_bind; unfold se_wp at 1, se_modify, read).
    apply wp_catch, wp_bind. unfold _intercept_inner. apply wp_bind.
    eapply wp_mono; [by apply is_open_half_open| |done].
    intros b g' [Hb _].
    change (_resolve_workload_id (with_headers request _)) with (_resolve_workload_id request).
    rewrite Hw. destruct b.
    - apply wp_bind. unfold se_wp at 1. apply wp_bind, wp_bind.
      eapply wp_mono; [by apply (metrics_half_open (Z.max used max_probes))| |done].
      intros [] g2 [Hs Hu]. apply wp_ret. split; [done|lia].
    - apply wp_bind. unfold se_wp at 1. apply wp_bind.
      eapply wp_mono; [by apply (metrics_half_open (used + 1))| |done].
      intros [] g2 [Hs Hu]. apply wp_ret. split; [done|lia].
  Qed.

Lemma run_anonymous idle : ∀ used g,
    Forall (λ r, _resolve_workload_id r = "") idle →
    half_open_at used g →
    half_open_at (Z.min max_probes (used + Z.of_nat (length idle))) (run_requests idle g).2.
  Proof.
    induction idle as [|r idle IH]; intros used g Hall Hg; simpl.
    - destruct Hg as [Hs Hu]. split; [done|lia].
    - apply Forall_cons in Hall as [Hr Hall].
      destruct (wp_total _ _ _ (intercept_anonymous used r g Hg Hr)) as (x & g1 & E & Hg1).
      rewrite E. specialize (IH _ _ Hall Hg1). destruct (run_requests idle g1) as [outs g2]. simpl in *.
      destruct IH as [Hs Hu]. split; [done|lia].
  Qed.

Lemma run_wedged later : ∀ g,
    half_open_at max_probes g →
    Forall (λ o, ∃ r, o = Ok r ∧ outcome r = CIRCUIT_OPEN) (run_requests later g).1 ∧
    length (run_requests later g).1 = length later.
  Proof.
    induction later as [|r later IH]; intros g Hg; simpl; [by split|].
    destruct (wp_total _ _ _ (intercept_wedged r g Hg)) as (x & g1 & E & Hx & Hg1).
    rewrite E. specialize (IH _ Hg1). destruct (run_requests later g1) as [outs g2]. simpl in *.
    destruct IH as [IH1 IH2]. split; [|lia]. constructor; [by exists x|done].
  Qed.
End wedged.

(** ** Theorems *)

Section theorems.
  Context {R S B : Type} `{RedisServer R} `{LuaText} `{EntryJson} `{CircuitStateStore S} `{EventPublisher B}.
  Context (env : Env) (c : InterceptorConfig) (mode : DeploymentMode) (shadow_refresh_fn : bool)
    (icfg : IndexConfig).

(** C3. The safety invariant of [intercept]: over a breaker store whose only failures
    are Redis errors, every request gets a result, whatever the index, the event bus,
    the policies and the request do (malformed metadata, raising publishers, evaluation
    errors), and the result answers that request. *)
Theorem intercept_always_returns `{!QuietStore S} (request : InterceptionRequest) (g : gateway_state R S B) :
  ∃ r g', intercept env c mode shadow_refresh_fn icfg request g = (Ok r, g') ∧
          res_request_id r = rq_request_id request.
Proof.
  destruct (wp_total (intercept env c mode shadow_refresh_fn icfg request)
              (good c mode request (counters (inc_requests g))) g) as (r & g' & E & [_ [Hid _]] & _).
  - eapply wp_mono; [apply intercept_good|done|]. intros e g' Hn. by apply Hn.
  - by exists r, g'.
Qed.

(** C12. Request accounting: each request counts once, and each counter grows exactly by
    what the returned outcome says - fail-open for the fail-open, circuit-open and
    timeout outcomes, redirected for redirects, enriched for enriched, soft-stopped and
    passively observed requests, cache miss for the index-unavailable fail-open. *)
Theorem intercept_accounting `{!QuietStore S} (request : InterceptionRequest) (g g' : gateway_state R S B)
    (r : InterceptionResult) :
  intercept env c mode shadow_refresh_fn icfg request g = (Ok r, g') →
  total_requests g' = total_requests g + 1 ∧
  total_enriched g' = total_enriched g + count_if (counts_enriched r) ∧
  total_fail_open g' = total_fail_open g + count_if (is_fail_open_outcome (outcome r)) ∧
  total_redirected g' = total_redirected g + count_if (is_redirected (outcome r)) ∧
  total_cache_misses g' = total_cache_misses g + count_if (counts_miss r).
Proof.
  intros E. destruct (wp_result _ _ _ _ _ _ E (intercept_good env c mode shadow_refresh_fn icfg request g))
    as [_ Hn].
  specialize (Hn _). unfold counters, counted in Hn. simpl in Hn. injection Hn as ? ? ? ? ?.
  split_and!; [lia|done..].
Qed.

(** C25. Mode safety, for every store and every failure: only active mode, in a
    non-production environment, without semantic guardrails and at the configured
    confidence, redirects a request - to an approved alternative of a model that is not
    one - or stops it - for a hard violation at gate confidence. Passive results carry no
    headers, fail-open results never change the model, and the policy results of every
    result are violations of the soft kind. *)
Theorem intercept_mode_safe (request : InterceptionRequest) (g g' : gateway_state R S B)
    (r : InterceptionResult) :
  intercept env c mode shadow_refresh_fn icfg request g = (Ok r, g') → mode_safe c mode request r.
Proof.
  intros E.
  by destruct (wp_result _ _ _ _ _ _ E (intercept_good env c mode shadow_refresh_fn icfg request g)).
Qed.

(** The header budget, up to the marker: generated headers stay within the
    configured size plus the 32 bytes of the marker header that trimming adds, headers
    that fit are all kept, and every header but the marker is the clamped value of a
    generated one. *)
Theorem header_budget_bound (headers : odict string string) :
  0 <= max_enrichment_header_bytes c →
  let out := _enforce_header_budget c headers in
  _estimate_header_bytes out <= max_enrichment_header_bytes c + 32 ∧
  (_estimate_header_bytes (clamp_headers c headers) <= max_enrichment_header_bytes c →
   out = clamp_headers c headers) ∧
  (∀ k v, od_get k out = Some v → k ≠ "X-ACI-Header-Budget-Applied" →
   ∃ v0, od_get k headers = Some v0 ∧ v = slice_to (max_header_value_length c) v0).
Proof.
  intros Hmax out. unfold out, _enforce_header_budget.
  destruct (Z.leb_spec (_estimate_header_bytes (clamp_headers c headers)) (max_enrichment_header_bytes c))
    as [Hle|Hgt]; split_and!; [lia|done| | |lia|].
  - intros k v. rewrite clamp_get. destruct (od_get k headers) as [v0|]; intros; simplify_eq/=; eauto.
  - etrans; [apply estimate_set|].
    pose proof (trim_estimate (max_enrichment_header_bytes c) header_priority (clamp_headers c headers) []
                  ltac:(simpl; lia)).
    change (Z.of_nat (String.length "X-ACI-Header-Budget-Applied")) with 27.
    change (Z.of_nat (String.length "1")) with 1. lia.
  - intros k v Hk Hne. rewrite od_get_set_ne in Hk by done.
    apply trim_from in Hk; [|apply od_wf_nil|done]. rewrite clamp_get in Hk.
    destruct (od_get k headers) as [v0|]; simplify_eq/=; eauto.
Qed.
End theorems.

(** A half-open breaker can be wedged by requests without any workload id: they
    spend the probes without reporting an outcome, and once the probes are spent every
    later request, however well attributed, is answered circuit-open, with no time-out. *)
Theorem gateway_probe_leak {R B : Type} `{RedisServer R} `{LuaText} `{EntryJson} `{EventPublisher B}
    (env : Env) (c : InterceptorConfig) (mode : DeploymentMode) (shadow_refresh_fn : bool)
    (icfg : IndexConfig) (idle later : list InterceptionRequest)
    (g : gateway_state R CircuitBreakerState B) :
  state (state_store (g_breaker g)) = cs_value HALF_OPEN →
  Forall (λ r, _resolve_workload_id r = "") idle →
  half_open_max_probes (breaker_config c)
    <= half_open_probe_count (state_store (g_breaker g)) + Z.of_nat (length idle) →
  let g' := (run_requests env c mode shadow_refresh_fn icfg idle g).2 in
  let outs := (run_requests env c mode shadow_refresh_fn icfg later g').1 in
  length outs = length later ∧ Forall (λ o, ∃ r, o = Ok r ∧ outcome r = CIRCUIT_OPEN) outs.
Proof.
  intros Hs Hall Hn g' outs.
  assert (half_open_at (half_open_probe_count (state_store (g_breaker g))) g) as Hg by (split; [done|lia]).
  pose proof (run_anonymous env c mode shadow_refresh_fn icfg idle _ g Hall Hg) as [Hs' Hu'].
  destruct (run_wedged env c mode shadow_refresh_fn icfg later g') as [Hout Hlen]; [|by split].
  split; [done|]. fold g' in Hu'. lia.
Qed.

(** The documented guarantee fails when the shared breaker state is unreadable: with
    undecodable text under the Redis key, [intercept] raises for every request, because
    its handler uses the breaker again. *)
Theorem intercept_raises_on_unreadable_breaker {R B : Type} `{RedisServer R} `{LuaText} `{EntryJson}
    `{EventPublisher B} (env : Env) (c : InterceptorConfig) (mode : DeploymentMode)
    (shadow_refresh_fn : bool) (icfg : IndexConfig) (request : InterceptionRequest)
    (g : gateway_state R RedisCircuitStateStore B) :
  state_store (g_breaker g) = mkRedisStore RGarbage [] →
  ∃ e g', intercept env c mode shadow_refresh_fn icfg request g = (Raise e, g').
Proof.
  intros Hst.
  unfold intercept, se_catch, _intercept_inner, on_exception, breaker_is_open, breaker_record_failure.
  unfold se_bind, se_modify, read, on_breaker, is_open, record_failure, run, _safe_mutate, elapsed_since.
  simpl. rewrite Hst. simpl. by eexists _, _.
Qed.

(** ** Witnesses *)

(** A bus that takes every event, a fixed clock, a request for a workload. *)
#[export] Instance SinkBus : EventPublisher (list DomainEvent) :=
  λ e b, (Ok (PubResult true), b ++ [e]).

Definition still_env : Env := mkEnv (λ _, of_Z 100) (λ _, of_Z 1000) (λ _, 0) (λ _, f1) (λ _, "id") true.

Definition example_request (wid : string) : InterceptionRequest :=
  mkRequest "req-1" "gpt-4" "" "" "" 10 (lit 1 100) [("X-Token", "secret"); ("Accept", "json")] wid
    [("environment", VStr "dev")].

Definition routed_entry : AttributionIndexEntry :=
  mkEntry "svc" "team" "team" "" "" "" "" "" "" (lit 97 100) "chargeback_ready" "R1" None None [] None
    None None None ["gpt-4-mini"] 2 "" 1 0 [] "".

Definition example_gateway : gateway_state MemServer CircuitBreakerState (list DomainEvent) :=
  FailOpenInterceptor_init
    (materialize example_config 7 routed_entry (AttributionIndexStore_init None)).2
    (mkCB initial_state initial_state) (Some []).

Definition example_outcome (mode : DeploymentMode) (wid : string) : option (InterceptionOutcome * option string) :=
  match (intercept still_env default_interceptor_config mode false example_config (example_request wid)
           example_gateway).1 with
  | Ok r => Some (outcome r, redirect_model r)
  | Raise _ => None
  end.

Example outcomes :
  (example_outcome ACTIVE "svc", example_outcome ADVISORY "svc", example_outcome PASSIVE "svc",
   example_outcome ACTIVE "unknown", example_outcome ACTIVE "")
  = (Some (REDIRECTED, Some "gpt-4-mini"), Some (ENRICHED, None), Some (PASSTHROUGH, None),
     Some (FAIL_OPEN, None), Some (PASSTHROUGH, None)).
Proof. vm_compute. reflexivity. Qed.

(** The budget is exceeded by the marker. *)
Example header_budget_exceeded :
  let c := mkInterceptorConfig 20 15 true 64 512 f0 f1 default_cb_config (mkWarmConfig f0 1) in
  _estimate_header_bytes (_enforce_header_budget c
    [("X-ACI-Est-Cost-USD", "0.010000"); ("X-ACI-Model", str_take 40 "a-model-with-a-rather-long-name-0123456789")]) = 62 ∧
  _estimate_header_bytes (_enforce_header_budget c
    [("X-ACI-Est-Cost-USD", "0.010000"); ("X-ACI-Attribution-Owner-Id", "");
     ("X-ACI-Model", "a-model-with-a-rather-long-name-0123456789")]) = 92.
Proof. vm_compute. split; reflexivity. Qed.

Definition run_example (mode : DeploymentMode) (wid : string) :=
  intercept still_env default_interceptor_config mode false example_config (example_request wid) example_gateway.

Lemma intercept_always_returns_witness :
  ∃ r g', run_example ACTIVE "svc" = (Ok r, g') ∧ res_request_id r = "req-1".
Proof.
  apply (intercept_always_returns (S := CircuitBreakerState) still_env default_interceptor_config ACTIVE
           false example_config (example_request "svc") example_gateway).
Defined.

Definition result_of (out : res InterceptionResult) : InterceptionResult :=
  match out with Ok r => r | Raise _ => mkInterception PASSTHROUGH "" [] None [] None f0 false end.

Lemma intercept_accounting_witness :
  total_redirected (run_example ACTIVE "svc").2 = 0 + 1 ∧
  total_fail_open (run_example ACTIVE "unknown").2 = 0 + 1.
Proof.
  split.
  - apply (intercept_accounting (S := CircuitBreakerState) still_env default_interceptor_config ACTIVE false
      example_config (example_request "svc") example_gateway (run_example ACTIVE "svc").2
      (result_of (run_example ACTIVE "svc").1)). vm_compute. reflexivity.
  - apply (intercept_accounting (S := CircuitBreakerState) still_env default_interceptor_config ACTIVE false
      example_config (example_request "unknown") example_gateway (run_example ACTIVE "unknown").2
      (result_of (run_example ACTIVE "unknown").1)). vm_compute. reflexivity.
Defined.

Lemma intercept_mode_safe_witness :
  mode_safe default_interceptor_config ACTIVE (example_request "svc") (result_of (run_example ACTIVE "svc").1).
Proof.
  apply (intercept_mode_safe still_env default_interceptor_config ACTIVE false
    example_config (example_request "svc") example_gateway (run_example ACTIVE "svc").2).
  vm_compute. reflexivity.
Defined.

Lemma header_budget_bound_witness :
  _estimate_header_bytes (_enforce_header_budget default_interceptor_config [("X-ACI-Model", "gpt-4")])
  <= 4096 + 32.
Proof. apply (header_budget_bound default_interceptor_config [("X-ACI-Model", "gpt-4")]). by vm_compute. Defined.

Definition half_open_gateway : gateway_state MemServer CircuitBreakerState (list DomainEvent) :=
  set_breaker (mkCB (mkCBS (cs_value HALF_OPEN) 5 f0 0 0 1 0) initial_state) example_gateway.

Lemma gateway_probe_leak_witness :
  Forall (λ o, ∃ r, o = Ok r ∧ outcome r = CIRCUIT_OPEN)
    (run_requests still_env default_interceptor_config ACTIVE false example_config
       [example_request "svc"; example_request "svc"]
       (run_requests still_env default_interceptor_config ACTIVE false example_config
          (replicate 3 (example_request "")) half_open_gateway).2).1.
Proof.
  apply (gateway_probe_leak still_env default_interceptor_config ACTIVE false example_config
           (replicate 3 (example_request "")) [example_request "svc"; example_request "svc"] half_open_gateway).
  - reflexivity.
  - repeat constructor.
  - by vm_compute.
Defined.

Definition unreadable_gateway : gateway_state MemServer RedisCircuitStateStore (list DomainEvent) :=
  FailOpenInterceptor_init (g_index example_gateway) (mkCB (mkRedisStore RGarbage []) initial_state) None.

Lemma intercept_raises_on_unreadable_breaker_witness :
  ∃ e g', intercept still_env default_interceptor_config ACTIVE false example_config
            (example_request "svc") unreadable_gateway = (Raise e, g').
Proof. by apply intercept_raises_on_unreadable_breaker. Defined.
