(* ===== verification/EventSchema.v ===== *)
(** * Event payload schemas (src/aci/core/event_schema.py)

    The strict payload schemas by event type and the validation of an event before it
    enters the bus. How a strict field accepts a value is pydantic's ([StrictFields], a
    parameter); the schemas, the required fields, the defaults and the rejection of
    unknown fields are the source's. *)

From S2P Require Import Prelude PyFloat PyData PyTime PyValue Models.
From Stdlib Require Import ZArith Lia.
From stdpp Require Import base list sets strings.

Open Scope string_scope.
Open Scope list_scope.
Open Scope Z_scope.

(** ** Schemas *)

Inductive field_type := FStr | FInt | FFloat | FBool | FStrMap | FStrList | FDatetimeOpt.

(** [f_default] is [None] for a required field. *)
Record field := mkField { f_name : string; f_type : field_type; f_default : option pyval }.

Definition schema := list field.

Definition _InferencePayload : schema :=
  [mkField "model" FStr None;
   mkField "provider" FStr None;
   mkField "cloud_resource_arn" FStr (Some (VStr ""));
   mkField "region" FStr (Some (VStr ""));
   mkField "input_tokens" FInt (Some (VInt 0));
   mkField "output_tokens" FInt (Some (VInt 0));
   mkField "latency_ms" FFloat (Some (VFloat f0));
   mkField "cost_usd" FFloat (Some (VFloat f0));
   mkField "api_key_id" FStr (Some (VStr ""));
   mkField "service_name" FStr (Some (VStr ""));
   mkField "request_id" FStr (Some (VStr ""))].

Definition _DeploymentPayload : schema :=
  [mkField "service_name" FStr None;
   mkField "repository" FStr None;
   mkField "commit_sha" FStr (Some (VStr ""));
   mkField "deployer_identity" FStr (Some (VStr ""));
   mkField "deploy_tool" FStr (Some (VStr ""));
   mkField "deploy_job_id" FStr (Some (VStr ""));
   mkField "target_environment" FStr (Some (VStr ""));
   mkField "target_resource_arn" FStr (Some (VStr ""));
   mkField "timestamp" FDatetimeOpt (Some VNone)].

Definition _ResourceLifecyclePayload : schema :=
  [mkField "resource_arn" FStr None;
   mkField "cloud_provider" FStr (Some (VStr ""));
   mkField "service" FStr (Some (VStr ""));
   mkField "region" FStr (Some (VStr ""));
   mkField "tags" FStrMap (Some (VDict []));
   mkField "timestamp" FDatetimeOpt (Some VNone)].

Definition _ScmCommitPayload : schema :=
  [mkField "repository" FStr None;
   mkField "commit_sha" FStr (Some (VStr ""));
   mkField "author_identity" FStr (Some (VStr ""));
   mkField "branch" FStr (Some (VStr ""));
   mkField "message" FStr (Some (VStr ""));
   mkField "timestamp" FDatetimeOpt (Some VNone)].

Definition _CodeownerChangePayload : schema :=
  [mkField "repository" FStr None;
   mkField "changed_path" FStr (Some (VStr ""));
   mkField "previous_owner" FStr (Some (VStr ""));
   mkField "new_owner" FStr (Some (VStr ""));
   mkField "actor_identity" FStr (Some (VStr ""));
   mkField "timestamp" FDatetimeOpt (Some VNone)].

Definition _PrMergedPayload : schema :=
  [mkField "repository" FStr None;
   mkField "pr_number" FInt (Some (VInt 0));
   mkField "merged_by" FStr (Some (VStr ""));
   mkField "author_identity" FStr (Some (VStr ""));
   mkField "branch" FStr (Some (VStr ""));
   mkField "timestamp" FDatetimeOpt (Some VNone)].

Definition _BillingLineItemPayload : schema :=
  [mkField "cloud_provider" FStr None;
   mkField "account_id" FStr None;
   mkField "service" FStr None;
   mkField "resource_arn" FStr (Some (VStr ""));
   mkField "region" FStr (Some (VStr ""));
   mkField "cost_usd" FFloat None;
   mkField "usage_quantity" FFloat (Some (VFloat f0));
   mkField "usage_unit" FStr (Some (VStr ""));
   mkField "tags" FStrMap (Some (VDict []));
   mkField "billing_period_start" FDatetimeOpt (Some VNone);
   mkField "billing_period_end" FDatetimeOpt (Some VNone)].

Definition _OrgChangePayload : schema :=
  [mkField "person_id" FStr None;
   mkField "previous_team" FStr (Some (VStr ""));
   mkField "new_team" FStr (Some (VStr ""));
   mkField "previous_manager" FStr (Some (VStr ""));
   mkField "new_manager" FStr (Some (VStr ""));
   mkField "effective_date" FDatetimeOpt (Some VNone);
   mkField "source_system" FStr (Some (VStr "workday"))].

Definition _IdentityLoginPayload : schema :=
  [mkField "person_id" FStr None;
   mkField "auth_provider" FStr (Some (VStr ""));
   mkField "ip_address" FStr (Some (VStr ""));
   mkField "succeeded" FBool (Some (VBool true));
   mkField "timestamp" FDatetimeOpt (Some VNone)].

Definition _IdentityGroupChangePayload : schema :=
  [mkField "person_id" FStr None;
   mkField "group_id" FStr None;
   mkField "action" FStr (Some (VStr "added"));
   mkField "source_system" FStr (Some (VStr ""));
   mkField "timestamp" FDatetimeOpt (Some VNone)].

Definition _TeamMembershipPayload : schema :=
  [mkField "person_id" FStr None;
   mkField "team_id" FStr None;
   mkField "action" FStr (Some (VStr "added"));
   mkField "source_system" FStr (Some (VStr ""));
   mkField "effective_date" FDatetimeOpt (Some VNone)].

Definition _ShadowInterceptPayload : schema :=
  [mkField "request_id" FStr None;
   mkField "workload_id" FStr None;
   mkField "elapsed_ms" FFloat None;
   mkField "interceptor_mode" FStr None;
   mkField "tenant_id" FStr (Some (VStr ""))].

Definition _InterventionAppliedPayload : schema :=
  [mkField "request_id" FStr None;
   mkField "workload_id" FStr None;
   mkField "action_type" FStr None;
   mkField "original_model" FStr None;
   mkField "new_model" FStr (Some (VStr ""));
   mkField "attribution_confidence" FFloat (Some (VFloat f0));
   mkField "estimated_cost_usd" FFloat (Some (VFloat f0));
   mkField "environment" FStr (Some (VStr ""));
   mkField "elapsed_ms" FFloat (Some (VFloat f0));
   mkField "tenant_id" FStr (Some (VStr ""))].

Definition _PolicyEvaluatedPayload : schema :=
  [mkField "request_id" FStr None;
   mkField "workload_id" FStr None;
   mkField "violation_count" FInt (Some (VInt 0));
   mkField "violated_policy_ids" FStrList (Some (VList []));
   mkField "mode" FStr None;
   mkField "fail_open" FBool (Some (VBool false));
   mkField "elapsed_ms" FFloat (Some (VFloat f0));
   mkField "environment" FStr (Some (VStr ""))].

Definition _AttributionCorrectionPayload : schema :=
  [mkField "attribution_id" FStr None;
   mkField "true_team_id" FStr None;
   mkField "true_cost_center_id" FStr None;
   mkField "predicted_team_id" FStr (Some (VStr ""));
   mkField "predicted_confidence" FFloat (Some (VFloat f0));
   mkField "method_used" FStr (Some (VStr ""));
   mkField "was_correct" FBool (Some (VBool false))].

Definition _ChargebackDecisionPayload : schema :=
  [mkField "attribution_id" FStr None;
   mkField "disposition" FStr (Some (VStr ""));
   mkField "notes" FStr (Some (VStr ""));
   mkField "decided_by" FStr (Some (VStr ""));
   mkField "timestamp" FDatetimeOpt (Some VNone)].

Definition _FinopsReviewPayload : schema :=
  [mkField "attribution_id" FStr None;
   mkField "reviewer" FStr (Some (VStr ""));
   mkField "decision" FStr (Some (VStr ""));
   mkField "notes" FStr (Some (VStr ""));
   mkField "timestamp" FDatetimeOpt (Some VNone)].

Definition _AttributionComputedPayload : schema :=
  [mkField "workload_id" FStr None;
   mkField "team_id" FStr (Some (VStr ""));
   mkField "confidence" FFloat (Some (VFloat f0));
   mkField "method_used" FStr (Some (VStr ""));
   mkField "timestamp" FDatetimeOpt (Some VNone)].

Definition _IndexMaterializedPayload : schema :=
  [mkField "workload_id" FStr None;
   mkField "index_version" FInt (Some (VInt 1));
   mkField "source_event_ids" FStrList (Some (VList []));
   mkField "timestamp" FDatetimeOpt (Some VNone)].

Definition _CalibrationUpdatedPayload : schema :=
  [mkField "method" FStr None;
   mkField "sample_count" FInt (Some (VInt 0));
   mkField "timestamp" FDatetimeOpt (Some VNone)].

(** [EVENT_PAYLOAD_SCHEMAS.get(event_type)] *)
Definition EVENT_PAYLOAD_SCHEMAS (t : EventType) : option schema :=
  match t with
  | INFERENCE_REQUEST => Some _InferencePayload
  | INFERENCE_RESPONSE => Some _InferencePayload
  | RESOURCE_CREATED => Some _ResourceLifecyclePayload
  | RESOURCE_DELETED => Some _ResourceLifecyclePayload
  | DEPLOYMENT => Some _DeploymentPayload
  | BILLING_LINE_ITEM => Some _BillingLineItemPayload
  | CODE_COMMIT => Some _ScmCommitPayload
  | CODEOWNER_CHANGE => Some _CodeownerChangePayload
  | PR_MERGED => Some _PrMergedPayload
  | IDENTITY_LOGIN => Some _IdentityLoginPayload
  | IDENTITY_GROUP_CHANGE => Some _IdentityGroupChangePayload
  | ORG_CHANGE => Some _OrgChangePayload
  | TEAM_MEMBERSHIP => Some _TeamMembershipPayload
  | SHADOW_INTERCEPT_MISS => Some _ShadowInterceptPayload
  | SHADOW_INTERCEPT_TIMEOUT => Some _ShadowInterceptPayload
  | POLICY_EVALUATED => Some _PolicyEvaluatedPayload
  | INTERVENTION_APPLIED => Some _InterventionAppliedPayload
  | ATTRIBUTION_CORRECTION => Some _AttributionCorrectionPayload
  | CHARGEBACK_DECISION => Some _ChargebackDecisionPayload
  | FINOPS_REVIEW => Some _FinopsReviewPayload
  | ATTRIBUTION_COMPUTED => Some _AttributionComputedPayload
  | INDEX_MATERIALIZED => Some _IndexMaterializedPayload
  | CALIBRATION_UPDATED => Some _CalibrationUpdatedPayload
  end.

(** ** Validation *)

(** Strict validation of one field value (pydantic): the validated value, or nothing. *)
Class StrictFields := strict_field : field_type → pyval → option pyval.

(** A scalar of the field's type, or an empty container. *)
Definition type_ok (t : field_type) (v : pyval) : bool :=
  match t, v with
  | FStr, VStr _ | FInt, VInt _ | FFloat, VFloat _ | FBool, VBool _ | FStrMap, VDict []
  | FStrList, VList [] | FDatetimeOpt, VNone => true
  | _, _ => false
  end.

(** What the development relies on, as pydantic documents it: a validated value is
    accepted again unchanged; values of the field's own type, lists of texts and maps to
    texts are accepted; in strict mode a text is not a datetime, a datetime is. *)
Class StrictFieldsLaws `{StrictFields} := {
  strict_idem t v w : strict_field t v = Some w → strict_field t w = Some w;
  strict_own t v : type_ok t v = true → strict_field t v = Some v;
  strict_str_list l : strict_field FStrList (VList (map VStr l)) = Some (VList (map VStr l));
  strict_str_map d : strict_field FStrMap (VDict (map (λ kv, (kv.1, VStr kv.2)) d))
                     = Some (VDict (map (λ kv, (kv.1, VStr kv.2)) d));
  strict_datetime_text s : strict_field FDatetimeOpt (VStr s) = None;
  strict_datetime t : strict_field FDatetimeOpt (VDate t) = Some (VDate t);
}.

Section validation.
  Context `{StrictFields}.

  (** One field of the validated model. *)
Definition validate_field (f : field) (attributes : odict string pyval) : option pyval :=
    match od_get (f_name f) attributes with
    | Some v => strict_field (f_type f) v
    | None => f_default f
    end.

Fixpoint validate_fields (s : schema) (attributes : odict string pyval)
      : option (odict string pyval) :=
    match s with
    | [] => Some []
    | f :: s =>
        match validate_field f attributes, validate_fields s attributes with
        | Some v, Some d => Some ((f_name f, v) :: d)
        | _, _ => None
        end
    end.

  (** [extra="forbid"] *)
Definition extra_fields (s : schema) (attributes : odict string pyval) : list string :=
    filter (λ k, k ∉ map f_name s) (od_keys attributes).

  (** [schema_model.model_validate(attributes).model_dump()] *)
Definition model_validate (s : schema) (attributes : odict string pyval)
      : option (odict string pyval) :=
    match extra_fields s attributes with
    | [] => validate_fields s attributes
    | _ => None
    end.

Definition validate_event_attributes (event_type : EventType) (attributes : odict string pyval)
      : res (odict string pyval) :=
    match EVENT_PAYLOAD_SCHEMAS event_type with
    | None => Raise EventSchemaValidationError
    | Some s => match model_validate s attributes with
                | Some d => Ok d
                | None => Raise EventSchemaValidationError
                end
    end.

  (** The same for an event type given by its text. *)
Definition validate_event_attributes_text (event_type : string) (attributes : odict string pyval)
      : res (odict string pyval) :=
    match event_type_of_value event_type with
    | Ok t => validate_event_attributes t attributes
    | Raise _ => Raise EventSchemaValidationError
    end.

Definition validate_domain_event (e : DomainEvent) : res unit :=
    if negb (ev_schema_version e =? 1) then Raise EventSchemaValidationError
    else match validate_event_attributes (ev_event_type e) (ev_attributes e) with
         | Ok _ => Ok tt
         | Raise x => Raise x
         end.
End validation.

(** ** Lemmas *)

Lemma schema_total t : is_Some (EVENT_PAYLOAD_SCHEMAS t).
Proof. by destruct t; eexists. Qed.

(** Every schema has distinct fields and defaults of their types. *)
Definition schema_ok (s : schema) : bool :=
  bool_decide (NoDup (map f_name s)) &&
  forallb (λ f, match f_default f with Some v => type_ok (f_type f) v | None => true end) s.

Lemma schemas_ok t s : EVENT_PAYLOAD_SCHEMAS t = Some s → schema_ok s = true.
Proof. by destruct t; intros [= <-]; vm_compute. Qed.

(** Strict fields as documented: exact types, an integer also for a float, a date or
    nothing for an optional datetime. *)
#[export] Instance DocumentedStrict : StrictFields := λ t v,
  match t, v with
  | FStr, VStr _ | FInt, VInt _ | FFloat, VFloat _ | FBool, VBool _ => Some v
  | FFloat, VInt z => Some (VFloat (of_Z z))
  | FStrMap, VDict d => if forallb (λ kv, match kv.2 with VStr _ => true | _ => false end) d then Some v else None
  | FStrList, VList l => if forallb (λ x, match x with VStr _ => true | _ => false end) l then Some v else None
  | FDatetimeOpt, VDate _ | FDatetimeOpt, VNone => Some v
  | _, _ => None
  end.

#[export] Instance DocumentedStrictLaws : StrictFieldsLaws.
Proof.
  split; [| | | |done..].
  - intros t v w. unfold strict_field, DocumentedStrict.
    destruct t, v; try done; try (by intros [= <-]); case_match eqn:E; try done; intros [= <-]; by rewrite E.
  - intros t v. destruct t, v; try done; simpl; by case_match.
  - intros l. unfold strict_field, DocumentedStrict.
    assert (forallb (λ x, match x with VStr _ => true | _ => false end) (map VStr l) = true) as ->; [|done].
    by induction l.
  - intros d. unfold strict_field, DocumentedStrict.
    assert (forallb (λ kv, match kv.2 with VStr _ => true | _ => false end)
              (map (λ kv : string * string, (kv.1, VStr kv.2)) d) = true) as ->; [|done].
    by induction d.
Qed.

(** A field of a validated model, for schemas whose names are distinct. *)
Lemma validate_fields_get `{StrictFields} s attrs d f :
  validate_fields s attrs = Some d → f ∈ s → NoDup (map f_name s) → od_get (f_name f) d = validate_field f attrs.
Proof.
  revert d. induction s as [|g s IH]; intros d; simpl; [by intros _ Hf%elem_of_nil|].
  destruct (validate_field g attrs) as [v|] eqn:Eg; [|done].
  destruct (validate_fields s attrs) as [d'|] eqn:Es; [|done]. intros [= <-] Hf [Hn Hnd]%NoDup_cons. simpl.
  apply elem_of_cons in Hf as [->|Hf]; [by rewrite decide_True|].
  rewrite decide_False; [by apply IH|]. intros E. apply Hn. rewrite <- E. by apply list_elem_of_fmap_2.
Qed.

Section laws.
  Context `{StrictFieldsLaws}.

  (** The defaults are accepted by their fields. *)
Definition defaults_valid (s : schema) : Prop :=
    ∀ f v, f ∈ s → f_default f = Some v → strict_field (f_type f) v = Some v.

Lemma validate_fields_names s attrs d : validate_fields s attrs = Some d → od_keys d = map f_name s.
  Proof.
    revert d. induction s as [|f s IH]; intros d; simpl; [by intros [= <-]|].
    destruct (validate_field f attrs), (validate_fields s attrs) as [d'|] eqn:E; try done.
    intros [= <-]. simpl. by rewrite (IH d' eq_refl).
  Qed.

Lemma validate_fields_again s attrs d rest :
    defaults_valid s → NoDup (map f_name s) → validate_fields s attrs = Some d →
    (∀ f, f ∈ s → od_get (f_name f) rest = od_get (f_name f) d) →
    validate_fields s rest = Some d.
  Proof.
    revert d. induction s as [|f s IH]; intros d Hd Hnd; simpl; [done|].
    apply NoDup_cons in Hnd as [Hn Hnd].
    destruct (validate_field f attrs) as [v|] eqn:Ef; [|done].
    destruct (validate_fields s attrs) as [d'|] eqn:Es; [|done]. intros [= <-] Hrest.
    assert (strict_field (f_type f) v = Some v) as Hv.
    { unfold validate_field in Ef. destruct (od_get (f_name f) attrs).
      - by eapply strict_idem.
      - apply (Hd f); [set_solver|done]. }
    unfold validate_field. rewrite (Hrest f) by set_solver. simpl. rewrite decide_True by done. rewrite Hv.
    rewrite (IH d'); [done| |done|done|].
    - intros g w Hg. apply Hd. set_solver.
    - intros g Hg. rewrite Hrest by set_solver. simpl. rewrite decide_False; [done|].
      intros Heq. apply Hn. rewrite <- Heq. by apply list_elem_of_fmap_2.
  Qed.

  (** Validating the result of a validation changes nothing. *)
Lemma model_validate_again s attrs d :
    defaults_valid s → NoDup (map f_name s) → model_validate s attrs = Some d →
    model_validate s d = Some d.
  Proof.
    unfold model_validate. intros Hd Hnd. destruct (extra_fields s attrs); [|done]. intros Hv.
    assert (extra_fields s d = []) as ->.
    { unfold extra_fields. rewrite (validate_fields_names _ _ _ Hv).
      apply elem_of_nil_inv. intros k Hk.
      apply list_elem_of_filter in Hk as [Hn Hk]. done. }
    by eapply validate_fields_again.
  Qed.
End laws.

(** Validated attributes are valid, and come back unchanged. *)
Lemma validated_again `{StrictFieldsLaws} t attributes d :
  validate_event_attributes t attributes = Ok d → validate_event_attributes t d = Ok d.
Proof.
  unfold validate_event_attributes. destruct (EVENT_PAYLOAD_SCHEMAS t) as [s|] eqn:Es; [|done].
  destruct (model_validate s attributes) as [d'|] eqn:Em; [|done]. intros [= <-].
  pose proof (schemas_ok t s Es) as Hok. apply andb_prop in Hok as [Hnd Hok].
  apply bool_decide_eq_true_1 in Hnd.
  assert (defaults_valid s) as Hd.
  { intros f v Hf Hv. apply strict_own. rewrite forallb_forall in Hok.
    specialize (Hok f (proj1 (list_elem_of_In _ _) Hf)). by rewrite Hv in Hok. }
  by rewrite (model_validate_again s attributes d' Hd Hnd Em).
Qed.

(** A payload with an unknown field is rejected. *)
Lemma unknown_field_rejected `{StrictFields} t s k attributes :
  EVENT_PAYLOAD_SCHEMAS t = Some s → k ∈ od_keys attributes → k ∉ map f_name s →
  validate_event_attributes t attributes = Raise EventSchemaValidationError.
Proof.
  intros Es Hk Hn. unfold validate_event_attributes, model_validate. rewrite Es.
  destruct (extra_fields s attributes) as [|x l] eqn:Ex; [|done].
  assert (k ∈ extra_fields s attributes) as Hin by (by apply list_elem_of_filter).
  rewrite Ex in Hin. by apply elem_of_nil in Hin.
Qed.

(** ** Theorems *)

(** C37. Validation normalizes: every event type has a schema; an accepted payload comes
    back with exactly the schema's fields, and validating it again returns it unchanged;
    a payload with an unknown field is rejected. *)
Theorem event_validation_normalizes `{StrictFieldsLaws} (t : EventType) (attributes d : odict string pyval) :
  validate_event_attributes t attributes = Ok d →
  (∃ s, EVENT_PAYLOAD_SCHEMAS t = Some s ∧ od_keys d = map f_name s ∧
        (∀ k, k ∈ od_keys attributes → k ∈ map f_name s)) ∧
  validate_event_attributes t d = Ok d.
Proof.
  intros Hv. split; [|by eapply validated_again].
  revert Hv. unfold validate_event_attributes. destruct (EVENT_PAYLOAD_SCHEMAS t) as [s|] eqn:Es; [|done].
  destruct (model_validate s attributes) as [d'|] eqn:Em; [|done]. intros [= <-]. exists s. split; [done|].
  unfold model_validate in Em. destruct (extra_fields s attributes) as [|x l] eqn:Ex; [|done].
  split; [by eapply validate_fields_names|]. intros k Hk.
  destruct (decide (k ∈ map f_name s)); [done|].
  assert (k ∈ extra_fields s attributes) as Hin by (by apply list_elem_of_filter).
  rewrite Ex in Hin. set_solver.
Qed.

Definition example_payload : odict string pyval :=
  [("person_id", VStr "p1"); ("team_id", VStr "t1"); ("effective_date", VDate 5)].

Definition example_validated : odict string pyval :=
  [("person_id", VStr "p1"); ("team_id", VStr "t1"); ("action", VStr "added");
   ("source_system", VStr ""); ("effective_date", VDate 5)].

Lemma event_validation_normalizes_witness :
  validate_event_attributes TEAM_MEMBERSHIP example_validated = Ok example_validated.
Proof. by apply (event_validation_normalizes TEAM_MEMBERSHIP example_payload). Defined.
