(* ===== verification/EventBus.v ===== *)
(** * Event bus (src/aci/core/event_bus.py)

    The in-memory bus (bounded log, bounded idempotency window, topic handlers), the
    idempotency stores, and the Kafka bus (start, publish, message handling with
    dead-letter topic and offset commits). Handlers act on a world of their own type [W];
    [asyncio.gather] starts them in order and each is run to its end, so interleavings
    inside one dispatch are not modelled. The broker and the JSON codec are parameters. *)

From S2P Require Import Prelude PyFloat PyData PyTime PyValue Models EventSchema.
From Stdlib Require Import ZArith Lia.
From stdpp Require Import base list gmap sets strings pretty.

Open Scope string_scope.
Open Scope list_scope.
Open Scope Z_scope.

(** ** Idempotency keys *)

(** [_seen_keys], its insertion order, and the eviction counter. *)
Record KeyWindow := mkWindow {
  _seen_keys : gset string;
  _order : list string;
  evictions : Z;
}.

Definition KeyWindow_init : KeyWindow := mkWindow ∅ [] 0.

(** [InMemoryIdempotencyStore.seen_or_add]; the bus repeats the same steps inline. *)
Definition window_seen_or_add (max_keys : Z) (key : string) (w : KeyWindow) : bool * KeyWindow :=
  if decide (key ∈ _seen_keys w) then (true, w) else
  let seen := {[key]} ∪ _seen_keys w in
  let order := _order w ++ [key] in
  if max_keys <? Z.of_nat (length order) then
    match order with
    | evicted :: rest => (false, mkWindow (seen ∖ {[evicted]}) rest (evictions w + 1))
    | [] => (false, mkWindow seen order (evictions w))
    end
  else (false, mkWindow seen order (evictions w)).

(** The [AsyncIdempotencyStore] protocol. *)
Class AsyncIdempotencyStore (I : Type) := seen_or_add : string → I → res bool * I.

(** The in-memory store with its bound. *)
Record InMemoryIdempotencyStore := mkIdemStore { _max_keys : Z; window : KeyWindow }.

#[export] Instance InMemoryStore : AsyncIdempotencyStore InMemoryIdempotencyStore := λ key s,
  let '(b, w) := window_seen_or_add (_max_keys s) key (window s) in (Ok b, mkIdemStore (_max_keys s) w).

(** The Redis store: [SET key 1 EX ttl NX] answers whether it inserted, or raises. *)
Class SetNx (R : Type) := set_nx : string → string → Z → R → res bool * R.

Record RedisIdempotencyStore (R : Type) := mkRedisIdem {
  ri_redis : R; ri_ttl_seconds : Z; ri_key_prefix : string }.
Arguments mkRedisIdem {R} _ _ _.
Arguments ri_redis {R} _.
Arguments ri_ttl_seconds {R} _.
Arguments ri_key_prefix {R} _.

#[export] Instance RedisIdemStore {R} `{SetNx R} : AsyncIdempotencyStore (RedisIdempotencyStore R) := λ key s,
  let redis_key := ri_key_prefix s +:+ ":" +:+ key in
  match set_nx redis_key "1" (ri_ttl_seconds s) (ri_redis s) with
  | (Ok inserted, r) => (Ok (negb inserted), mkRedisIdem r (ri_ttl_seconds s) (ri_key_prefix s))
  | (Raise e, r) => (Raise e, mkRedisIdem r (ri_ttl_seconds s) (ri_key_prefix s))
  end.

Definition dedup_key (e : DomainEvent) : string :=
  ev_tenant_id e +:+ ":" +:+ ev_source e +:+ ":" +:+ ev_idempotency_key e.

Definition topic_of (e : DomainEvent) : string := event_type_value (ev_event_type e).

(** ** The in-memory bus *)

Record InMemoryEventBus (H : Type) := mkBus {
  _log : list DomainEvent;
  _handlers : odict string (list H);
  _keys : KeyWindow;
  _published_count : Z;
  _deduplicated_count : Z;
  _topic_counts : odict string Z;
  _dispatch_errors : Z;
}.
Arguments mkBus {H} _ _ _ _ _ _ _.
Arguments _log {H} _.
Arguments _handlers {H} _.
Arguments _keys {H} _.
Arguments _published_count {H} _.
Arguments _deduplicated_count {H} _.
Arguments _topic_counts {H} _.
Arguments _dispatch_errors {H} _.

Definition InMemoryEventBus_init {H} : InMemoryEventBus H := mkBus [] [] KeyWindow_init 0 0 [] 0.

(** [deque(maxlen=n).append(x)] *)
Definition deque_append {A} (maxlen : nat) (l : list A) (x : A) : list A := list_last_n maxlen (l ++ [x]).

(** The handlers of a topic, then those of ["*"]. *)
Definition topic_handlers {H} (handlers : odict string (list H)) (topic : string) : list H :=
  default [] (od_get topic handlers) ++ default [] (od_get "*" handlers).

Definition add_handler {H} (topic : string) (h : H) (handlers : odict string (list H))
    : odict string (list H) :=
  od_set topic (default [] (od_get topic handlers) ++ [h]) handlers.

Section bus.
  Context {H W : Type} `{StrictFields} (run_handler : H → DomainEvent → W → res unit * W) (max_events : nat).
  Implicit Types (b : InMemoryEventBus H) (e : DomainEvent) (w : W).

  (** The part of [publish] under the state lock: whether the event was accepted. *)
Definition accept e b : bool * InMemoryEventBus H :=
    let '(seen, keys) := window_seen_or_add (Z.of_nat max_events * 2) (dedup_key e) (_keys b) in
    if seen : bool then
      (false, mkBus (_log b) (_handlers b) keys (_published_count b) (_deduplicated_count b + 1)
                    (_topic_counts b) (_dispatch_errors b))
    else
      (true, mkBus (deque_append max_events (_log b) e) (_handlers b) keys (_published_count b + 1)
                   (_deduplicated_count b)
                   (od_set (topic_of e) (default 0 (od_get (topic_of e) (_topic_counts b)) + 1) (_topic_counts b))
                   (_dispatch_errors b)).

  (** [_dispatch_handler] for each handler: an exception is counted and dropped. *)
Fixpoint dispatch (hs : list H) e (errors : Z) w : Z * W :=
    match hs with
    | [] => (errors, w)
    | h :: hs =>
        match run_handler h e w with
        | (Ok _, w) => dispatch hs e errors w
        | (Raise _, w) => dispatch hs e (errors + 1) w
        end
    end.

Definition publish e b w : res bool * InMemoryEventBus H * W :=
    match validate_domain_event e with
    | Raise x => (Raise x, b, w)
    | Ok _ =>
        let '(accepted, b) := accept e b in
        if accepted : bool then
          let '(errors, w) := dispatch (topic_handlers (_handlers b) (topic_of e)) e (_dispatch_errors b) w in
          (Ok true, mkBus (_log b) (_handlers b) (_keys b) (_published_count b) (_deduplicated_count b)
                          (_topic_counts b) errors, w)
        else (Ok false, b, w)
    end.

Definition subscribe (topic : string) (h : H) b : InMemoryEventBus H :=
    mkBus (_log b) (add_handler topic h (_handlers b)) (_keys b) (_published_count b)
          (_deduplicated_count b) (_topic_counts b) (_dispatch_errors b).

  (** [publish_batch]: counts of published and deduplicated events; an invalid event
      raises after the earlier ones were published. *)
Fixpoint publish_batch_loop (events : list DomainEvent) (published deduplicated : Z) b w
      : res (Z * Z) * InMemoryEventBus H * W :=
    match events with
    | [] => (Ok (published, deduplicated), b, w)
    | e :: events =>
        match publish e b w with
        | (Ok true, b, w) => publish_batch_loop events (published + 1) deduplicated b w
        | (Ok false, b, w) => publish_batch_loop events published (deduplicated + 1) b w
        | (Raise x, b, w) => (Raise x, b, w)
        end
    end.

Definition publish_batch (events : list DomainEvent) b w : res (Z * Z) * InMemoryEventBus H * W :=
    publish_batch_loop events 0 0 b w.

Definition replay_keeps (from_time to_time : option instant) (event_types : option (list string)) e : bool :=
    match from_time with Some t => t <=? ev_event_time e | None => true end &&
    match to_time with Some t => ev_event_time e <=? t | None => true end &&
    match event_types with Some (x :: l) => existsb (String.eqb (topic_of e)) (x :: l) | _ => true end.

Definition replay (from_time to_time : option instant) (event_types : option (list string)) b
      : list DomainEvent :=
    filter (λ e, replay_keeps from_time to_time event_types e = true) (_log b).
End bus.

(** ** The Kafka bus *)

Record TopicPartition := mkTP { tp_topic : string; tp_partition : Z }.

(** The aiokafka clients and the broker behind them. *)
Class KafkaBroker (K : Type) := {
  producer_start : K → res unit * K;
  consumer_start : K → res unit * K;
  send_and_wait : string → string → string → K → res unit * K;
  commit : TopicPartition → Z → K → res unit * K;
  highwater : TopicPartition → K → option Z;
}.

(** [model_dump_json] and [model_validate_json] of events; [None] is a [ValidationError].
    [dlq_envelope] is the JSON of a dead letter but for its [failed_at], a clock reading. *)
Class EventJson := {
  encode_event : DomainEvent → string;
  decode_event : string → option DomainEvent;
  dlq_envelope : exn → TopicPartition → Z → string → string;
}.

Record KafkaConfig := mkKafkaConfig { _topic : string; _dlq_topic : string; _consume_messages : bool }.

Record KafkaEventBus (H I K : Type) := mkKafka {
  k_idempotency_store : I;
  k_broker : K;
  k_handlers : odict string (list H);
  k_producer : bool;
  k_consumer : bool;
  k_started : bool;
  k_published_count : Z;
  k_deduplicated_count : Z;
  k_dispatch_errors : Z;
  k_dlq_count : Z;
  k_lag : odict string Z;
}.
Arguments mkKafka {H I K} _ _ _ _ _ _ _ _ _ _ _.
Arguments k_idempotency_store {H I K} _.
Arguments k_broker {H I K} _.
Arguments k_handlers {H I K} _.
Arguments k_producer {H I K} _.
Arguments k_consumer {H I K} _.
Arguments k_started {H I K} _.
Arguments k_published_count {H I K} _.
Arguments k_deduplicated_count {H I K} _.
Arguments k_dispatch_errors {H I K} _.
Arguments k_dlq_count {H I K} _.
Arguments k_lag {H I K} _.

Section kafka.
  Context {H I K W : Type} `{StrictFields} `{AsyncIdempotencyStore I} `{KafkaBroker K} `{EventJson}
    (run_handler : H → DomainEvent → W → res unit * W) (cfg : KafkaConfig).
  Abbreviation Bus := (KafkaEventBus H I K).
  Implicit Types (b : Bus) (e : DomainEvent) (w : W).

Definition KafkaEventBus_init (store : I) (broker : K) : Bus :=
    mkKafka store broker [] false false false 0 0 0 0 [].

Definition k_set_broker k b : Bus := mkKafka (k_idempotency_store b) k (k_handlers b) (k_producer b)
    (k_consumer b) (k_started b) (k_published_count b) (k_deduplicated_count b) (k_dispatch_errors b)
    (k_dlq_count b) (k_lag b).
Definition k_set_store i b : Bus := mkKafka i (k_broker b) (k_handlers b) (k_producer b)
    (k_consumer b) (k_started b) (k_published_count b) (k_deduplicated_count b) (k_dispatch_errors b)
    (k_dlq_count b) (k_lag b).
Definition k_set_clients p co st b : Bus := mkKafka (k_idempotency_store b) (k_broker b) (k_handlers b) p
    co st (k_published_count b) (k_deduplicated_count b) (k_dispatch_errors b) (k_dlq_count b) (k_lag b).
Definition k_set_handlers h b : Bus := mkKafka (k_idempotency_store b) (k_broker b) h (k_producer b)
    (k_consumer b) (k_started b) (k_published_count b) (k_deduplicated_count b) (k_dispatch_errors b)
    (k_dlq_count b) (k_lag b).
Definition k_add_published b : Bus := mkKafka (k_idempotency_store b) (k_broker b) (k_handlers b)
    (k_producer b) (k_consumer b) (k_started b) (k_published_count b + 1) (k_deduplicated_count b)
    (k_dispatch_errors b) (k_dlq_count b) (k_lag b).
Definition k_add_deduplicated b : Bus := mkKafka (k_idempotency_store b) (k_broker b) (k_handlers b)
    (k_producer b) (k_consumer b) (k_started b) (k_published_count b) (k_deduplicated_count b + 1)
    (k_dispatch_errors b) (k_dlq_count b) (k_lag b).
Definition k_add_errors n b : Bus := mkKafka (k_idempotency_store b) (k_broker b) (k_handlers b)
    (k_producer b) (k_consumer b) (k_started b) (k_published_count b) (k_deduplicated_count b)
    (k_dispatch_errors b + n) (k_dlq_count b) (k_lag b).
Definition k_add_dlq b : Bus := mkKafka (k_idempotency_store b) (k_broker b) (k_handlers b)
    (k_producer b) (k_consumer b) (k_started b) (k_published_count b) (k_deduplicated_count b)
    (k_dispatch_errors b) (k_dlq_count b + 1) (k_lag b).
Definition k_set_lag l b : Bus := mkKafka (k_idempotency_store b) (k_broker b) (k_handlers b)
    (k_producer b) (k_consumer b) (k_started b) (k_published_count b) (k_deduplicated_count b)
    (k_dispatch_errors b) (k_dlq_count b) l.

  (** A call of the broker client. *)
Definition on_broker {A} (op : K → res A * K) : SE Bus A := λ b,
    let '(r, k) := op (k_broker b) in (r, k_set_broker k b).

Local Open Scope py_scope.

  (** [start]: the clients are kept from the moment they are created. *)
Definition start : SE Bus unit :=
    let! started := se_get k_started in
    if started : bool then se_ret tt else
    se_modify (λ b, k_set_clients true (k_consumer b) (k_started b) b) ;;;
    on_broker producer_start ;;;
    (if _consume_messages cfg then
       se_modify (λ b, k_set_clients (k_producer b) true (k_started b) b) ;;;
       on_broker consumer_start
     else se_ret tt) ;;;
    se_modify (λ b, k_set_clients (k_producer b) (k_consumer b) true b).

  (** [stop]: stopping the clients is not observed further. *)
Definition stop : SE Bus unit :=
    let! started := se_get k_started in
    if negb started then se_ret tt else
    se_modify (k_set_clients false false false).

Definition k_subscribe (topic : string) (h : H) b : Bus := k_set_handlers (add_handler topic h (k_handlers b)) b.

Definition k_seen_or_add (key : string) : SE Bus bool := λ b,
    let '(r, i) := seen_or_add key (k_idempotency_store b) in (r, k_set_store i b).

Definition k_publish e : SE Bus bool :=
    let! _ := se_lift (validate_domain_event e) in
    let! started := se_get k_started in
    (if negb started then start else se_ret tt) ;;;
    let! already_seen := k_seen_or_add (dedup_key e) in
    if already_seen : bool then se_modify k_add_deduplicated ;;; se_ret false
    else
      on_broker (send_and_wait (_topic cfg) (encode_event e) (dedup_key e)) ;;;
      se_modify k_add_published ;;; se_ret true.

  (** [asyncio.gather(..., return_exceptions=True)]: every handler runs. *)
Fixpoint gather_handlers (hs : list H) e w : list exn * W :=
    match hs with
    | [] => ([], w)
    | h :: hs =>
        match run_handler h e w with
        | (Ok _, w) => gather_handlers hs e w
        | (Raise x, w) => let '(errs, w) := gather_handlers hs e w in (x :: errs, w)
        end
    end.

Abbreviation M := (SE (Bus * W)).

Definition in_bus {A} (m : SE Bus A) : M A := λ '(b, w), let '(r, b) := m b in (r, (b, w)).

Definition _dispatch_event e : M unit := λ '(b, w),
    let '(errors, w) := gather_handlers (topic_handlers (k_handlers b) (topic_of e)) e w in
    let b := k_add_errors (Z.of_nat (length errors)) b in
    match errors with
    | [] => (Ok tt, (b, w))
    | [x] => (Raise x, (b, w))
    | _ => (Raise RuntimeError, (b, w))
    end.

Definition _commit_offset (tp : TopicPartition) (offset : Z) : SE Bus unit :=
    on_broker (commit tp (offset + 1)).

Definition _update_partition_lag (tp : TopicPartition) (offset : Z) b : Bus :=
    if k_consumer b then
      match highwater tp (k_broker b) with
      | None => b
      | Some h => k_set_lag (od_set (tp_topic tp +:+ ":" +:+ pretty (tp_partition tp))
                               (Z.max 0 (h - (offset + 1))) (k_lag b)) b
      end
    else b.

Definition _publish_dlq (payload : string) (error : exn) (tp : TopicPartition) (offset : Z) : SE Bus unit :=
    let! producer := se_get k_producer in
    if producer : bool then
      on_broker (send_and_wait (_dlq_topic cfg) (dlq_envelope error tp offset payload)
                   (tp_topic tp +:+ ":" +:+ pretty (tp_partition tp) +:+ ":" +:+ pretty offset)) ;;;
      se_modify k_add_dlq
    else se_ret tt.

  (** The body of the [try] in [_handle_message]. *)
Definition process_message (tp : TopicPartition) (offset : Z) (payload : string) : M unit :=
    let! e := se_lift (match decode_event payload with Some e => Ok e | None => Raise (ValueError "json") end) in
    let! _ := se_lift (validate_domain_event e) in
    _dispatch_event e ;;;
    in_bus (_commit_offset tp offset) ;;;
    se_modify (λ bw, (_update_partition_lag tp offset bw.1, bw.2)).

Definition _handle_message (tp : TopicPartition) (offset : Z) (payload : string) : M unit :=
    se_catch (process_message tp offset payload)
      (λ x, se_modify (λ bw, (k_add_errors 1 bw.1, bw.2)) ;;;
            se_catch (in_bus (_publish_dlq payload x tp offset)) (λ _, se_ret tt) ;;;
            in_bus (_commit_offset tp offset)).

  (** One round of [_consume_loop] over the fetched messages; an escaping exception ends
      the consumer task. *)
Fixpoint consume_batch (messages : list (TopicPartition * Z * string)) : M unit :=
    match messages with
    | [] => se_ret tt
    | (tp, offset, payload) :: messages => _handle_message tp offset payload ;;; consume_batch messages
    end.

Definition k_replay (from_time to_time : option instant) (event_types : option (list string)) b
      : list DomainEvent := [].
End kafka.

(** ** Specification of the in-memory bus *)

(** The accepted history: an event is accepted unless its key is among the last [n]
    accepted ones. *)
Definition spec_accept (n : nat) (history : list DomainEvent) (e : DomainEvent)
    : bool * list DomainEvent :=
  if decide (dedup_key e ∈ map dedup_key (list_last_n n history)) then (false, history)
  else (true, history ++ [e]).

Fixpoint spec_publish (n : nat) (events history : list DomainEvent) : list bool * list DomainEvent :=
  match events with
  | [] => ([], history)
  | e :: events =>
      let '(b, history) := spec_accept n history e in
      let '(bs, history) := spec_publish n events history in (b :: bs, history)
  end.

Lemma map_list_last_n {A B} (f : A → B) n l : map f (list_last_n n l) = list_last_n n (map f l).
Proof. unfold list_last_n. rewrite length_map. apply fmap_drop. Qed.

(** The window holds the keys of the last accepted events. *)
Definition window_ok (n : nat) (history : list DomainEvent) (w : KeyWindow) : Prop :=
  _order w = map dedup_key (list_last_n n history) ∧ NoDup (_order w) ∧
  (∀ k, k ∈ _seen_keys w ↔ k ∈ _order w).

Lemma window_step n history w e :
  window_ok n history w →
  let '(seen, w') := window_seen_or_add (Z.of_nat n) (dedup_key e) w in
  let '(accepted, history') := spec_accept n history e in
  seen = negb accepted ∧ window_ok n history' w'.
Proof.
  intros (Ho & Hnd & Hs). unfold window_seen_or_add, spec_accept. rewrite <- Ho.
  destruct (decide (dedup_key e ∈ _seen_keys w)) as [Hin|Hin].
  { rewrite decide_True by (by apply Hs). by split. }
  rewrite Hs in Hin. rewrite decide_False by done.
  assert (NoDup (_order w ++ [dedup_key e])) as Hnd'.
  { apply NoDup_app. split_and!; [done|set_solver|apply NoDup_singleton]. }
  assert (map dedup_key (list_last_n n (history ++ [e])) =
          if decide (n < Datatypes.S (length (_order w)))%nat then tail (_order w ++ [dedup_key e])
          else _order w ++ [dedup_key e]) as Hl.
  { rewrite map_list_last_n, map_app. simpl. by rewrite list_last_n_snoc, <- map_list_last_n, <- Ho. }
  rewrite length_app. simpl.
  destruct (Z.ltb_spec (Z.of_nat n) (Z.of_nat (length (_order w) + 1))) as [Hlt|Hge].
  - rewrite decide_True in Hl by lia.
    destruct (_order w ++ [dedup_key e]) as [|k rest] eqn:E; [by destruct (_order w)|].
    split; [done|]. simpl in Hl. split_and!; simpl; [done| |].
    + by apply NoDup_cons in Hnd' as [_ ?].
    + apply NoDup_cons in Hnd' as [Hk _]. intros k'.
      assert (k' ∈ _order w ++ [dedup_key e] ↔ k' = k ∨ k' ∈ rest) as Hk' by (rewrite E; set_solver).
      rewrite elem_of_app, list_elem_of_singleton, <- Hs in Hk'. set_solver.
  - rewrite decide_False in Hl by lia. split; [done|]. split_and!; simpl; [done|done|].
    intros k. rewrite elem_of_app, list_elem_of_singleton, <- Hs. set_solver.
Qed.

Section bus_spec.
  Context {H W : Type} `{StrictFields} (run_handler : H → DomainEvent → W → res unit * W) (max_events : nat).
  Implicit Types (b : InMemoryEventBus H) (e : DomainEvent) (w : W).

Fixpoint publish_all (events : list DomainEvent) b w : list (res bool) * InMemoryEventBus H * W :=
    match events with
    | [] => ([], b, w)
    | e :: events =>
        let '(r, b, w) := publish run_handler max_events e b w in
        let '(rs, b, w) := publish_all events b w in (r :: rs, b, w)
    end.

  (** Every handler of the topic runs once, in order. *)
Definition deliver (handlers : odict string (list H)) (w : W) e : W :=
    foldl (λ w h, (run_handler h e w).2) w (topic_handlers handlers (topic_of e)).

Lemma dispatch_deliver hs e : ∀ errors w,
    (dispatch run_handler hs e errors w).2 = foldl (λ w h, (run_handler h e w).2) w hs.
  Proof.
    induction hs as [|h hs IH]; intros errors w; simpl; [done|].
    destruct (run_handler h e w) as [[?|?] w'] eqn:E; by rewrite IH.
  Qed.

Definition bus_ok (history : list DomainEvent) b : Prop :=
    window_ok (2 * max_events) history (_keys b) ∧ _log b = list_last_n max_events history ∧
    _published_count b = Z.of_nat (length history).

Lemma publish_step history e b w :
    bus_ok history b → validate_domain_event e = Ok tt →
    let '(r, b', w') := publish run_handler max_events e b w in
    let '(accepted, history') := spec_accept (2 * max_events) history e in
    r = Ok accepted ∧ bus_ok history' b' ∧ _handlers b' = _handlers b ∧
    _deduplicated_count b' = _deduplicated_count b + (if accepted then 0 else 1) ∧
    w' = (if accepted then deliver (_handlers b) w e else w).
  Proof.
    intros (Hw & Hlog & Hpub) Hv. unfold publish. rewrite Hv. unfold accept.
    pose proof (window_step (2 * max_events) history (_keys b) e Hw) as Hstep.
    replace (Z.of_nat (2 * max_events)) with (Z.of_nat max_events * 2) in Hstep by lia.
    destruct (window_seen_or_add _ _ _) as [seen keys].
    destruct (spec_accept (2 * max_events) history e) as [accepted history'] eqn:Es.
    destruct Hstep as [-> Hw']. unfold spec_accept in Es.
    destruct (decide (dedup_key e ∈ _)); injection Es as <- <-; simpl.
    - split_and!; try done; lia.
    - unfold deliver. pose proof (dispatch_deliver (topic_handlers (_handlers b) (topic_of e)) e (_dispatch_errors b) w) as Hd.
      destruct (dispatch _ _ _ _ _) as [errs w'] eqn:Ed. simpl in *. subst w'.
      split_and!; try done; [|lia]. split_and!; simpl; [done| |].
      + unfold deque_append. by rewrite Hlog, list_last_n_app.
      + rewrite Hpub, length_app. simpl. lia.
  Qed.

Lemma publish_all_spec events : ∀ history b w,
    bus_ok history b → Forall (λ e, validate_domain_event e = Ok tt) events →
    let '(rs, b', w') := publish_all events b w in
    let '(accepted, history') := spec_publish (2 * max_events) events history in
    rs = map Ok accepted ∧ bus_ok history' b' ∧ _handlers b' = _handlers b ∧
    _deduplicated_count b' = _deduplicated_count b + Z.of_nat (length (filter (λ a, a = false) accepted)) ∧
    ∃ added, history' = history ++ added ∧ w' = foldl (deliver (_handlers b)) w added.
  Proof.
    induction events as [|e events IH]; intros history b w Hb Hv; cbn [publish_all spec_publish].
    - split_and!; try done; [simpl; lia|]. exists []. by rewrite app_nil_r.
    - apply Forall_cons in Hv as [He Hv].
      pose proof (publish_step history e b w Hb He) as Hstep.
      destruct (publish run_handler max_events e b w) as [[r b1] w1].
      destruct (spec_accept (2 * max_events) history e) as [accepted history1] eqn:Es.
      destruct Hstep as (-> & Hb1 & Hh1 & Hd1 & ->).
      specialize (IH history1 b1 (if accepted then deliver (_handlers b) w e else w) Hb1 Hv).
      destruct (publish_all events b1 _) as [[rs b2] w2].
      destruct (spec_publish (2 * max_events) events history1) as [accs history2].
      destruct IH as (-> & Hb2 & Hh2 & Hd2 & added & -> & ->). rewrite Hh1 in *.
      split_and!; try done.
      + rewrite Hd2, Hd1. rewrite filter_cons. destruct accepted; simpl; lia.
      + unfold spec_accept in Es. destruct (decide _); injection Es as <- <-; [by exists added|].
        exists (e :: added). by rewrite <- app_assoc.
  Qed.

  (** A second event with the key of the one just published is dropped. *)
Lemma publish_twice history e1 e2 b w :
    (0 < max_events)%nat → bus_ok history b → validate_domain_event e1 = Ok tt → validate_domain_event e2 = Ok tt →
    dedup_key e2 = dedup_key e1 →
    ∃ accepted b1 b2 w1, publish run_handler max_events e1 b w = (Ok accepted, b1, w1) ∧
      publish run_handler max_events e2 b1 w1 = (Ok false, b2, w1) ∧ _log b2 = _log b1.
  Proof.
    intros Hmax Hb Hv1 Hv2 Hkey. pose proof (publish_step history e1 b w Hb Hv1) as H1.
    destruct (publish _ _ e1 b w) as [[r1 b1] w1]. destruct (spec_accept _ history e1) as [a1 h1] eqn:E1.
    destruct H1 as (-> & Hb1 & _). pose proof (publish_step h1 e2 b1 w1 Hb1 Hv2) as H2.
    destruct (publish _ _ e2 b1 w1) as [[r2 b2] w2] eqn:E2. unfold spec_accept in H2. rewrite decide_True in H2.
    - destruct H2 as (-> & Hb2 & _ & _ & ->). exists a1, b1, b2, w1. split_and!; [done..|].
      by rewrite (proj1 (proj2 Hb2)), (proj1 (proj2 Hb1)).
    - rewrite Hkey. unfold spec_accept in E1. destruct (decide _) as [Hin|_]; injection E1 as <- <-; [done|].
      apply list_elem_of_fmap_2. unfold list_last_n.
      rewrite (drop_app_le history [e1]) by (rewrite length_app; simpl; lia). apply elem_of_app. right. by left.
  Qed.
End bus_spec.

(** ** Theorems *)

(** C4. The in-memory bus refines its contract: on valid events, an event is accepted
    exactly when its key is not among the last [2 * max_events] accepted ones, the log is
    the last [max_events] accepted events in order, the counters count both kinds, and
    every handler of its topic sees each accepted event once, in order, whether or not
    other handlers fail. *)
Theorem bus_refines_history {H W : Type} `{StrictFields} (run_handler : H → DomainEvent → W → res unit * W)
    (max_events : nat) (handlers : odict string (list H)) (events : list DomainEvent) (w : W) :
  Forall (λ e, validate_domain_event e = Ok tt) events →
  let '(rs, b, w') := publish_all run_handler max_events events
                        (mkBus [] handlers KeyWindow_init 0 0 [] 0) w in
  let '(accepted, history) := spec_publish (2 * max_events) events [] in
  rs = map Ok accepted ∧ _log b = list_last_n max_events history ∧
  _published_count b = Z.of_nat (length history) ∧
  _deduplicated_count b = Z.of_nat (length (filter (λ a, a = false) accepted)) ∧
  w' = foldl (deliver run_handler handlers) w history.
Proof.
  intros Hv.
  pose proof (publish_all_spec run_handler max_events events [] (mkBus [] handlers KeyWindow_init 0 0 [] 0) w)
    as Hspec.
  destruct (publish_all _ _ _ _ _) as [[rs b] w'].
  destruct (spec_publish _ _ _) as [accepted history].
  destruct Hspec as (-> & (_ & Hlog & Hpub) & _ & Hd & added & -> & ->); [|done|].
  - split_and!; [|done|done]. split_and!; simpl; [done|constructor|set_solver].
  - by split_and!.
Qed.

(** The deduplication key joins tenant, source and idempotency key with a colon
    without escaping it: events of two different tenants can have the same key, and the
    second one is dropped as a duplicate. *)
Theorem dedup_key_crosses_tenants {H W : Type} `{StrictFields}
    (run_handler : H → DomainEvent → W → res unit * W) (max_events : nat)
    (b : InMemoryEventBus H) (w : W) (tenant part : string) (e1 e2 : DomainEvent) :
  (0 < max_events)%nat → bus_ok max_events [] b →
  validate_domain_event e1 = Ok tt → validate_domain_event e2 = Ok tt →
  ev_tenant_id e1 = tenant → ev_tenant_id e2 = tenant +:+ ":" +:+ part →
  ev_source e1 = part +:+ ":" +:+ ev_source e2 →
  ev_idempotency_key e1 = ev_idempotency_key e2 →
  ev_tenant_id e1 ≠ ev_tenant_id e2 ∧
  (publish_all run_handler max_events [e1; e2] b w).1.1 = [Ok true; Ok false].
Proof.
  intros Hmax Hb Hv1 Hv2 Ht1 Ht2 Hs Hk. split.
  { rewrite Ht1, Ht2. intros Heq%(f_equal String.length). rewrite !str_app_length in Heq. simpl in Heq. lia. }
  pose proof (publish_all_spec run_handler max_events [e1; e2] [] b w Hb) as Hspec.
  destruct (publish_all _ _ _ _ _) as [[rs b'] w'].
  destruct (spec_publish _ _ _) as [accepted history] eqn:Es.
  destruct Hspec as (-> & _); [by repeat constructor|].
  assert (dedup_key e2 = dedup_key e1) as Hkey.
  { unfold dedup_key. rewrite Ht1, Ht2, Hs, Hk. by rewrite !str_app_assoc. }
  cbn [spec_publish] in Es. unfold spec_accept in Es.
  rewrite (list_last_n_all _ []), decide_False in Es by (simpl; set_solver || lia). cbn [app] in Es.
  rewrite (list_last_n_all _ [e1]) in Es by (simpl; lia).
  rewrite decide_True in Es by (rewrite Hkey; set_solver). by injection Es as <- <-.
Qed.

Section kafka_theorems.
  Context {H I K W : Type} `{StrictFields} `{AsyncIdempotencyStore I} `{KafkaBroker K} `{EventJson}
    (run_handler : H → DomainEvent → W → res unit * W) (cfg : KafkaConfig).

(** The error path: count, offer to the dead-letter topic, commit. *)
Lemma dead_letter (b : KafkaEventBus H I K) (w : W) (tp : TopicPartition) (offset : Z) (payload : string) (x : exn) :
  (∀ k, (commit tp (offset + 1) k).1 = Ok tt) → k_producer b = true →
  ∃ b' k,
    (se_modify (λ bw, (k_add_errors 1 bw.1, bw.2)) ;;;
     se_catch (in_bus (_publish_dlq cfg payload x tp offset)) (λ _, se_ret tt) ;;;
     in_bus (_commit_offset tp offset))%py (b, w) = (Ok tt, (b', w)) ∧
    k_broker b' = (commit tp (offset + 1) k).2 ∧
    k_dispatch_errors b < k_dispatch_errors b' ∧
    ∃ x, let sent := send_and_wait (_dlq_topic cfg) (dlq_envelope x tp offset payload)
                       (tp_topic tp +:+ ":" +:+ pretty (tp_partition tp) +:+ ":" +:+ pretty offset) (k_broker b) in
         k = sent.2 ∧ k_dlq_count b' = k_dlq_count b + (if is_ok sent.1 then 1 else 0).
Proof.
  intros Hc Hp. unfold se_bind, se_modify, se_catch, in_bus, _publish_dlq, se_bind, se_get, _commit_offset, on_broker.
  cbn [fst snd k_add_errors k_producer k_broker]. rewrite Hp. cbn [k_add_errors k_broker].
  destruct (send_and_wait _ _ _ (k_broker b)) as [[[]|e] k] eqn:Es; cbn;
    specialize (Hc k); destruct (commit tp (offset + 1) k) as [r k'] eqn:Ec; simpl in Hc; subst r;
    (eexists _, k; split; [done|]; simpl; rewrite Ec; split; [done|]; split; [lia|];
     exists x; rewrite Es; split; [done|]; simpl; lia).
Qed.

(** C36. A message never blocks its partition: when offset commits succeed, handling
    always returns with the next offset committed as the last call of the broker, and the
    message is either processed (valid, every handler succeeded, no error counted) or
    counted as an error and offered once to the dead-letter topic; if that fails too it
    is dropped. *)
Theorem kafka_message_outcome (b : KafkaEventBus H I K) (w : W) (tp : TopicPartition) (offset : Z)
    (payload : string) :
  (∀ k, (commit tp (offset + 1) k).1 = Ok tt) → k_producer b = true →
  ∃ b' w' k, _handle_message run_handler cfg tp offset payload (b, w) = (Ok tt, (b', w')) ∧
    k_broker b' = (commit tp (offset + 1) k).2 ∧
    ((∃ e, decode_event payload = Some e ∧ validate_domain_event e = Ok tt ∧
           gather_handlers run_handler (topic_handlers (k_handlers b) (topic_of e)) e w = ([], w') ∧
           k = k_broker b ∧ k_dispatch_errors b' = k_dispatch_errors b ∧ k_dlq_count b' = k_dlq_count b)
     ∨ (k_dispatch_errors b < k_dispatch_errors b' ∧
        ∃ x, let sent := send_and_wait (_dlq_topic cfg) (dlq_envelope x tp offset payload)
                       (tp_topic tp +:+ ":" +:+ pretty (tp_partition tp) +:+ ":" +:+ pretty offset) (k_broker b) in
             k = sent.2 ∧ k_dlq_count b' = k_dlq_count b + (if is_ok sent.1 then 1 else 0))).
Proof.
  intros Hc Hp. unfold _handle_message, se_catch, process_message, se_bind, se_lift.
  destruct (decode_event payload) as [e|] eqn:Edec.
  2:{ destruct (dead_letter b w tp offset payload (ValueError "json") Hc Hp) as (b' & k & Hrun & Hk & Hd).
      exists b', w, k. split; [exact Hrun|]. split; [done|by right]. }
  destruct (validate_domain_event e) as [[]|x] eqn:Ev.
  2:{ destruct (dead_letter b w tp offset payload x Hc Hp) as (b' & k & Hrun & Hk & Hd).
      exists b', w, k. split; [exact Hrun|]. split; [done|by right]. }
  unfold _dispatch_event.
  destruct (gather_handlers run_handler (topic_handlers (k_handlers b) (topic_of e)) e w) as [errs w1] eqn:Eg.
  destruct errs as [|x errs].
  - unfold in_bus, _commit_offset, on_broker. simpl. specialize (Hc (k_broker b)).
    destruct (commit tp (offset + 1) (k_broker b)) as [r k] eqn:Ec. simpl in *. subst r. simpl.
    rewrite ?Z.add_0_r.
    eexists _, w1, (k_broker b). split; [done|].
    unfold _update_partition_lag. simpl.
    destruct (k_consumer b); [destruct (highwater _ _)|]; simpl;
      (split; [by rewrite Ec|left; exists e; split_and!; try done; lia]).
  - assert (∃ x', (match x :: errs with [] => (Ok tt, (k_add_errors (Z.of_nat (length (x :: errs))) b, w1))
        | [x] => (Raise x, (k_add_errors (Z.of_nat (length (x :: errs))) b, w1))
        | _ => (Raise RuntimeError, (k_add_errors (Z.of_nat (length (x :: errs))) b, w1)) end)
      = (Raise x' : res unit, (k_add_errors (Z.of_nat (length (x :: errs))) b, w1))) as [x' ->]
      by (destruct errs; by eexists).
    destruct (dead_letter (k_add_errors (Z.of_nat (length (x :: errs))) b) w1 tp offset payload x' Hc Hp)
      as (b' & k & Hrun & Hk & Herr & Hd).
    exists b', w1, k. split; [exact Hrun|]. split; [done|]. right. split; [simpl in *; lia|exact Hd].
Qed.

Lemma validate_fields_reject `{!StrictFieldsLaws} s k d attrs text :
  mkField k FDatetimeOpt d ∈ s → od_get k attrs = Some (VStr text) → validate_fields s attrs = None.
Proof.
  induction s as [|f s IH]; [set_solver|]. intros [Heq|Hin]%elem_of_cons Hk; simpl.
  - rewrite <- Heq. unfold validate_field. simpl. by rewrite Hk, strict_datetime_text.
  - rewrite IH by done. by destruct (validate_field f attrs).
Qed.

(** Events with a datetime never reach the handlers over Kafka: the publisher accepts
    the datetime, JSON turns it into text, and the consumer's strict validation rejects
    text in a datetime field, so the message is dead-lettered and no handler runs. *)
Theorem kafka_datetime_dead_lettered `{!StrictFieldsLaws} (b : KafkaEventBus H I K) (w : W)
    (tp : TopicPartition) (offset : Z) (e e' : DomainEvent) (s : schema) (k : string)
    (d : option pyval) (t : instant) (text : string) :
  (∀ k, (commit tp (offset + 1) k).1 = Ok tt) → k_producer b = true →
  EVENT_PAYLOAD_SCHEMAS (ev_event_type e) = Some s → mkField k FDatetimeOpt d ∈ s →
  od_get k (ev_attributes e) = Some (VDate t) →
  decode_event (encode_event e) = Some e' → ev_event_type e' = ev_event_type e →
  od_get k (ev_attributes e') = Some (VStr text) →
  ∃ b', _handle_message run_handler cfg tp offset (encode_event e) (b, w) = (Ok tt, (b', w)) ∧
        k_dispatch_errors b < k_dispatch_errors b'.
Proof.
  intros Hc Hp Hs Hf _ Hdec Hty Hk.
  assert (validate_domain_event e' = Raise EventSchemaValidationError) as Hv.
  { unfold validate_domain_event. destruct (negb _); [done|].
    unfold validate_event_attributes. rewrite Hty, Hs. unfold model_validate.
    destruct (extra_fields _ _); [|done]. by rewrite (validate_fields_reject s k d _ text). }
  unfold _handle_message, se_catch, process_message, se_bind, se_lift. rewrite Hdec, Hv.
  destruct (dead_letter b w tp offset (encode_event e) EventSchemaValidationError Hc Hp)
    as (b' & k' & Hrun & _ & Herr & _). by exists b'.
Qed.
End kafka_theorems.

(** A publish whose broker send fails loses the event: its key was already recorded,
    so the caller's retry is answered as a duplicate, sends nothing and leaves the broker
    as the failed call left it. *)
Theorem kafka_failed_send_loses_event {H K : Type} `{StrictFields} `{KafkaBroker K} `{EventJson}
    (cfg : KafkaConfig) (b : KafkaEventBus H InMemoryIdempotencyStore K) (e : DomainEvent) (x : exn) (k1 : K) :
  k_started b = true → 1 <= _max_keys (k_idempotency_store b) →
  Z.of_nat (length (_order (window (k_idempotency_store b)))) <= _max_keys (k_idempotency_store b) →
  dedup_key e ∉ _order (window (k_idempotency_store b)) →
  dedup_key e ∉ _seen_keys (window (k_idempotency_store b)) →
  validate_domain_event e = Ok tt →
  send_and_wait (_topic cfg) (encode_event e) (dedup_key e) (k_broker b) = (Raise x, k1) →
  ∃ b1 b2, k_publish cfg e b = (Raise x, b1) ∧ k_publish cfg e b1 = (Ok false, b2) ∧
    k_broker b1 = k1 ∧ k_broker b2 = k1 ∧ k_published_count b2 = k_published_count b.
Proof.
  intros Hst Hmax Hlen Hord Hnew Hv Hsend.
  assert (∃ w1, window_seen_or_add (_max_keys (k_idempotency_store b)) (dedup_key e)
             (window (k_idempotency_store b)) = (false, w1) ∧ dedup_key e ∈ _seen_keys w1)
    as (w1 & Hw & Hin).
  { unfold window_seen_or_add. rewrite decide_False by done.
    destruct (Z.ltb_spec (_max_keys (k_idempotency_store b))
                (Z.of_nat (length (_order (window (k_idempotency_store b)) ++ [dedup_key e])))) as [Hgt|];
      [|eexists; split; [done|simpl; set_solver]].
    destruct (_order (window (k_idempotency_store b))) as [|y l]; simpl in *; [lia|].
    eexists; split; [done|]. simpl. set_solver. }
  unfold k_publish, se_bind, se_lift, se_get, k_seen_or_add, seen_or_add, InMemoryStore. rewrite Hv, Hst.
  cbn [negb]. unfold se_ret at 1. rewrite Hw. unfold on_broker.
  cbn [k_set_store k_broker]. rewrite Hsend.
  eexists _, _. split; [reflexivity|]. cbn. rewrite Hst. cbn.
  unfold window_seen_or_add. rewrite decide_True by done. cbn. by split_and!.
Qed.

(** ** Witnesses *)

(** Handlers that note the events they see; handler [1] always fails. *)
Definition note_handler (h : nat) (e : DomainEvent) (w : list (nat * string)) : res unit * list (nat * string) :=
  (if (h =? 1)%nat then Raise OtherError else Ok tt, w ++ [(h, ev_event_id e)]).

Definition example_event (id key : string) : DomainEvent :=
  mkEvent id TEAM_MEMBERSHIP "p1" example_payload 0 0 "okta" key "tenant" 1.

Lemma bus_refines_history_witness :
  let '(rs, b, w) := publish_all note_handler 1
    [example_event "1" "a"; example_event "2" "a"; example_event "3" "b"; example_event "4" "c";
     example_event "5" "a"]
    (mkBus [] [("*", [1%nat; 2%nat])] KeyWindow_init 0 0 [] 0) [] in
  rs = [Ok true; Ok false; Ok true; Ok true; Ok true] ∧ map ev_event_id (_log b) = ["5"] ∧
  length w = 8%nat.
Proof.
  pose proof (bus_refines_history note_handler 1 [("*", [1%nat; 2%nat])]
    [example_event "1" "a"; example_event "2" "a"; example_event "3" "b"; example_event "4" "c";
     example_event "5" "a"] [] ltac:(by repeat constructor)) as Hb.
  revert Hb. destruct (publish_all _ _ _ _ _) as [[rs b] w].
  destruct (spec_publish _ _ _) as [acc hist] eqn:Es. vm_compute in Es. injection Es as <- <-.
  intros (-> & -> & _ & _ & ->). split_and!; vm_compute; reflexivity.
Defined.

Definition crossing_event (tenant source : string) : DomainEvent :=
  mkEvent "id" TEAM_MEMBERSHIP "p1" example_payload 0 0 source "k" tenant 1.

Lemma dedup_key_crosses_tenants_witness :
  (publish_all note_handler 10 [crossing_event "acme" "eu:okta"; crossing_event "acme:eu" "okta"]
     InMemoryEventBus_init []).1.1 = [Ok true; Ok false].
Proof.
  apply (dedup_key_crosses_tenants note_handler 10 InMemoryEventBus_init [] "acme" "eu"
           (crossing_event "acme" "eu:okta") (crossing_event "acme:eu" "okta")); try done; [lia|].
  split_and!; [|done|done]. split_and!; simpl; [done|constructor|set_solver].
Defined.

(** A broker that records what it gets and fails sends to the topics of a list. *)
Record MemBroker := mkMemBroker { sent : list (string * string); committed : list (string * Z); broken : list string }.

#[export] Instance MemKafka : KafkaBroker MemBroker := {|
  producer_start k := (Ok tt, k);
  consumer_start k := (Ok tt, k);
  send_and_wait topic value key k :=
    if existsb (String.eqb topic) (broken k) then (Raise OtherError, k)
    else (Ok tt, mkMemBroker (sent k ++ [(topic, value)]) (committed k) (broken k));
  commit tp o k := (Ok tt, mkMemBroker (sent k) (committed k ++ [(tp_topic tp, o)]) (broken k));
  highwater _ _ := None;
|}.

(** Only the example event and its decoded form, whose datetime became text. *)
Definition decoded_event : DomainEvent :=
  mkEvent "1" TEAM_MEMBERSHIP "p1"
    [("person_id", VStr "p1"); ("team_id", VStr "t1"); ("effective_date", VStr "1970-01-01T00:00:00.000005Z")]
    0 0 "okta" "a" "tenant" 1.

#[export] Instance ExampleJson : EventJson := {|
  encode_event e := ev_event_id e;
  decode_event t := if String.eqb t "1" then Some decoded_event else None;
  dlq_envelope _ _ _ payload := payload;
|}.

Definition example_kafka (broken_topics : list string)
    : KafkaEventBus nat InMemoryIdempotencyStore MemBroker :=
  mkKafka (mkIdemStore 10 KeyWindow_init) (mkMemBroker [] [] broken_topics) [("*", [2%nat])]
    true true true 0 0 0 0 [].

Definition example_kafka_config : KafkaConfig := mkKafkaConfig "events" "dlq" true.

Lemma kafka_message_outcome_witness :
  ∃ b' w' k, _handle_message note_handler example_kafka_config (mkTP "events" 0) 7 "junk"
               (example_kafka [], []) = (Ok tt, (b', w')) ∧
    k_broker b' = (commit (mkTP "events" 0) 8 k).2.
Proof.
  destruct (kafka_message_outcome note_handler example_kafka_config (example_kafka []) [] (mkTP "events" 0) 7
              "junk") as (b' & w' & k & Hr & Hk & _); [done|done|]. by exists b', w', k.
Defined.

Lemma kafka_datetime_dead_lettered_witness :
  ∃ b', _handle_message note_handler example_kafka_config (mkTP "events" 0) 7
          (encode_event (example_event "1" "a")) (example_kafka [], []) = (Ok tt, (b', [])) ∧
        0 < k_dispatch_errors b'.
Proof.
  apply (kafka_datetime_dead_lettered note_handler example_kafka_config (example_kafka []) [] (mkTP "events" 0) 7
    (example_event "1" "a") decoded_event _TeamMembershipPayload "effective_date" (Some VNone) 5
    "1970-01-01T00:00:00.000005Z"); try done. unfold _TeamMembershipPayload. set_solver.
Defined.

Lemma kafka_failed_send_loses_event_witness :
  ∃ b1 b2, k_publish example_kafka_config (example_event "1" "a") (example_kafka ["events"]) = (Raise OtherError, b1) ∧
    k_publish example_kafka_config (example_event "1" "a") b1 = (Ok false, b2) ∧ sent (k_broker b2) = [].
Proof.
  destruct (kafka_failed_send_loses_event example_kafka_config (example_kafka ["events"]) (example_event "1" "a")
    OtherError (mkMemBroker [] [] ["events"])) as (b1 & b2 & H1 & H2 & _ & Hk & _);
    [done|by vm_compute|by vm_compute|apply not_elem_of_nil|apply not_elem_of_empty|done|done|].
  exists b1, b2. split_and!; [exact H1|exact H2|by rewrite Hk].
Defined.
