(* ===== verification/GatewayEvents.v ===== *)
(** * Events of the gateway on the bus

    Where the interceptor (gateway.py) and the event bus (event_bus.py, event_schema.py)
    meet: [publish] of the bus is a coroutine function, so the interceptor's call hands
    back an awaitable that a background task drains. *)

From S2P Require Import Prelude PyFloat PyData PyTime PyValue Models CircuitBreaker ShadowWarming.
From S2P Require Import IndexStore Interceptor EventSchema EventBus.
From Stdlib Require Import ZArith Lia.
From stdpp Require Import base list strings pretty.

Open Scope string_scope.
Open Scope list_scope.
Open Scope Z_scope.

(** Calling [InMemoryEventBus.publish] only creates the coroutine. *)
#[export] Instance AsyncBusPublisher {H} : EventPublisher (InMemoryEventBus H) :=
  λ e b, (Ok PubAwaitable, b).

Section drain.
  Context {R S B : Type} `{RedisServer R} `{LuaText} `{EntryJson} `{CircuitStateStore S} `{EventPublisher B}
    `{StrictFieldsLaws}.
  Context (env : Env) (c : InterceptorConfig) (mode : DeploymentMode) (shadow_refresh_fn : bool)
    (icfg : IndexConfig).
  Abbreviation G := (gateway_state R S B).
  Implicit Types (g : G) (request : InterceptionRequest) (attr : AttributionIndexEntry).

  (** What the bus will accept when the task runs. *)
Definition task_valid (t : background_task) : Prop :=
    match t with PublishTask e => validate_domain_event e = Ok tt | RefreshTask _ => True end.

Definition tasks_valid g : Prop := Forall task_valid (background_tasks g).

Lemma inv_read {A} (f : nat → A) : se_inv tasks_valid (@read R S B A f).
  Proof. by intros g. Qed.

Lemma inv_elapsed start : se_inv tasks_valid (@elapsed_since R S B env start).
  Proof. by intros g. Qed.

Lemma inv_on_breaker {A} (op : CircuitBreaker S → res A * CircuitBreaker S) :
    se_inv tasks_valid (@on_breaker R S B A op).
  Proof. intros g Hg. unfold on_breaker. by destruct (op (g_breaker g)). Qed.

Lemma inv_lookup wid : se_inv tasks_valid (@index_lookup R S B _ _ icfg wid).
  Proof. intros g Hg. unfold index_lookup. by destruct (IndexStore.lookup icfg wid (g_index g)). Qed.

Lemma inv_warmer wid now r : se_inv tasks_valid (@ask_warmer R S B c wid now r).
  Proof. intros g Hg. unfold ask_warmer. by destruct (should_trigger_refresh _ _ _ _ _). Qed.

Lemma inv_publish ty subj attrs key tenant :
    is_ok (validate_event_attributes ty attrs) = true →
    se_inv tasks_valid (@_publish_async_event R S B _ env ty subj attrs key tenant).
  Proof.
    intros Hv g Hg. unfold _publish_async_event. destruct (g_bus g) as [bus|]; [|done].
    destruct (DomainEvent_new _ _ _ _ _ _ _ _ _ _) as [e|] eqn:Ee; [|done].
    apply DomainEvent_new_ok in Ee as [-> _].
    destruct (Interceptor.publish _ bus) as [[[b|]|] bus']; try done.
    destruct (running_loop env); [|done]. apply Forall_app. split; [done|]. repeat constructor.
    unfold task_valid, validate_domain_event. simpl.
    by destruct (validate_event_attributes ty attrs).
  Qed.

  (** Evaluate the validation of a payload with literal keys. *)
Ltac payload_ok :=
    lazy -[strict_field];
    repeat match goal with |- context [strict_field ?t ?v] => rewrite (strict_own t v) by done end; done.

Lemma shadow_payload_ok ty (id wid m t : string) (el : pyfloat) :
    ty = SHADOW_INTERCEPT_MISS ∨ ty = SHADOW_INTERCEPT_TIMEOUT →
    is_ok (validate_event_attributes ty
      [("request_id", VStr id); ("workload_id", VStr wid); ("elapsed_ms", VFloat el);
       ("interceptor_mode", VStr m); ("tenant_id", VStr t)]) = true.
  Proof. intros [-> | ->]; payload_ok. Qed.

Lemma policy_payload_ok (id wid m env_name : string) (n : Z) (ids : pyval) (fo : bool) (el : pyfloat) :
    strict_field FStrList ids = Some ids →
    is_ok (validate_event_attributes POLICY_EVALUATED
      [("request_id", VStr id); ("workload_id", VStr wid); ("violation_count", VInt n);
       ("violated_policy_ids", ids); ("mode", VStr m); ("fail_open", VBool fo);
       ("elapsed_ms", VFloat el); ("environment", VStr env_name)]) = true.
  Proof. intros Hids. lazy -[strict_field]. rewrite Hids. payload_ok. Qed.

Lemma intervention_payload_ok (id wid ty m m' env_name t : string) (conf cost el : pyfloat) :
    is_ok (validate_event_attributes INTERVENTION_APPLIED
      [("request_id", VStr id); ("workload_id", VStr wid); ("action_type", VStr ty);
       ("original_model", VStr m); ("new_model", VStr m'); ("attribution_confidence", VFloat conf);
       ("estimated_cost_usd", VFloat cost); ("environment", VStr env_name); ("elapsed_ms", VFloat el);
       ("tenant_id", VStr t)]) = true.
  Proof. payload_ok. Qed.

Lemma inv_shadow ty wid id el tenant :
    ty = SHADOW_INTERCEPT_MISS ∨ ty = SHADOW_INTERCEPT_TIMEOUT →
    se_inv tasks_valid (@_emit_shadow_event R S B _ env c mode ty wid id el tenant).
  Proof.
    intros Hty. unfold _emit_shadow_event. destruct (shadow_events_enabled c); [|apply inv_ret].
    by apply inv_publish, shadow_payload_ok.
  Qed.

Lemma inv_policy_event request wid vs el b :
    se_inv tasks_valid (@_emit_policy_evaluation_event R S B _ env mode request wid vs el b).
  Proof. apply inv_publish, policy_payload_ok, strict_str_list. Qed.

Lemma inv_intervention request ty el attr m :
    se_inv tasks_valid (@_emit_intervention_event R S B _ env request ty el attr m).
  Proof.
    unfold _emit_intervention_event. destruct (String.eqb _ _); [apply inv_ret|].
    apply inv_publish, intervention_payload_ok.
  Qed.

  (** One step of a pipeline: every primitive keeps the tasks valid. *)
Ltac inv_step :=
    match goal with
    | |- se_inv _ (se_bind _ _) => apply inv_bind; [|intros ?]
    | |- se_inv _ (se_ret _) => apply inv_ret
    | |- se_inv _ (se_lift _) => apply inv_lift
    | |- se_inv _ (se_modify (add_task (RefreshTask _))) =>
        apply inv_modify; intros ? ?; apply Forall_app; split; [done|by repeat constructor]
    | |- se_inv _ (se_modify _) => apply inv_modify; by intros ? ?
    | |- se_inv _ (se_catch _ _) => apply inv_catch; [|intros ?]
    | |- se_inv _ (read _) => apply inv_read
    | |- se_inv _ (elapsed_since _ _) => apply inv_elapsed
    | |- se_inv _ (on_breaker _) => apply inv_on_breaker
    | |- se_inv _ (index_lookup _ _) => apply inv_lookup
    | |- se_inv _ (ask_warmer _ _ _ _) => apply inv_warmer
    | |- se_inv _ (_emit_shadow_event _ _ _ _ _ _ _ _) => apply inv_shadow; tauto
    | |- se_inv _ (_emit_policy_evaluation_event _ _ _ _ _ _ _) => apply inv_policy_event
    | |- se_inv _ (_emit_intervention_event _ _ _ _ _ _) => apply inv_intervention
    | |- se_inv _ (if ?b then _ else _) => destruct b
    | |- se_inv _ (match ?x with _ => _ end) => destruct x
    | |- se_inv _ (let _ := _ in _) => cbv zeta
    end.

Lemma inv_metrics r : se_inv tasks_valid (@_record_observability_metrics R S B _ env c r).
  Proof. unfold _record_observability_metrics, breaker_state. repeat inv_step. Qed.

Lemma inv_route request attr vs start :
    se_inv tasks_valid (@route R S B _ _ env c mode request attr vs start).
  Proof. unfold route, _active_routing, breaker_record_success. repeat inv_step. Qed.

Lemma inv_inner request start :
    se_inv tasks_valid (@_intercept_inner R S B _ _ _ _ env c mode shadow_refresh_fn icfg request start).
  Proof.
    unfold _intercept_inner, breaker_is_open. repeat inv_step.
    - unfold on_hit. repeat inv_step. apply inv_route.
    - unfold on_miss. repeat inv_step.
  Qed.

Lemma inv_intercept request :
    se_inv tasks_valid (@intercept R S B _ _ _ _ env c mode shadow_refresh_fn icfg request).
  Proof.
    unfold intercept. repeat inv_step; [apply inv_inner|apply inv_metrics|].
    unfold on_exception, breaker_record_failure. repeat inv_step. apply inv_metrics.
  Qed.
End drain.

(** What the gateway emits, the bus accepts: for every request, outcome and failure,
    each event the gateway queues for publication satisfies the strict schema of its
    type (given that the queued ones do), so draining it never raises a schema error. *)
Theorem gateway_events_valid {R S B : Type} `{RedisServer R} `{LuaText} `{EntryJson} `{CircuitStateStore S}
    `{EventPublisher B} `{StrictFieldsLaws} (env : Env) (c : InterceptorConfig) (mode : DeploymentMode)
    (shadow_refresh_fn : bool) (icfg : IndexConfig) (request : InterceptionRequest)
    (g : gateway_state R S B) :
  tasks_valid g → tasks_valid (intercept env c mode shadow_refresh_fn icfg request g).2.
Proof. apply inv_intercept. Qed.

Definition bus_gateway : gateway_state MemServer CircuitBreakerState (InMemoryEventBus nat) :=
  FailOpenInterceptor_init (g_index example_gateway) (mkCB initial_state initial_state)
    (Some InMemoryEventBus_init).

Definition published_events (ts : list background_task) : list DomainEvent :=
  omap (λ t, match t with PublishTask e => Some e | RefreshTask _ => None end) ts.

Lemma published_events_in ts e : e ∈ published_events ts → PublishTask e ∈ ts.
Proof.
  intros (t & Ht & He)%list_elem_of_omap. destruct t; simplify_eq. exact Ht.
Qed.

Abbreviation example_tasks :=
  (background_tasks (intercept still_env default_interceptor_config ACTIVE false example_config
                      (example_request "svc") bus_gateway).2).

Lemma gateway_events_valid_witness :
  map ev_event_type (published_events example_tasks) = [POLICY_EVALUATED; INTERVENTION_APPLIED] ∧
  ∀ e, e ∈ published_events example_tasks → validate_domain_event e = Ok tt.
Proof.
  split; [vm_compute; reflexivity|]. intros e He%published_events_in.
  pose proof (gateway_events_valid still_env default_interceptor_config ACTIVE false example_config
                (example_request "svc") bus_gateway ltac:(constructor)) as Hall.
  unfold tasks_valid in Hall. rewrite Forall_forall in Hall. exact (Hall _ He).
Defined.
