(* ===== verification/GraphStore.v ===== *)
(** * Attribution graph (src/aci/graph/store.py)

    The in-memory store: nodes and their type index, the append-only edge table with its
    source, target and active-edge indexes, as-of queries, and the bounded depth-first
    traversal shared by the backends. Clock readings are arguments ([now]) or, for the
    traversal without a given time, a stream. *)

From S2P Require Import Prelude PyFloat PyData PyTime PyValue Models.
From Stdlib Require Import ZArith Ascii Lia.
From stdpp Require Import base list gmap sets strings relations sorting.

Open Scope string_scope.
Open Scope list_scope.
Open Scope Z_scope.

(** ** State *)

Abbreviation edge_key := (string * string * EdgeType)%type.

Definition key_of (e : GraphEdge) : edge_key := (ge_from_id e, ge_to_id e, ge_edge_type e).

Record InMemoryGraphStore := mkGraph {
  nodes : odict string GraphNode;
  _nodes_by_type : odict NodeType (gset string);
  edges : list GraphEdge;
  _from_index : odict string (list nat);
  _to_index : odict string (list nat);
  _active_edge_index : odict edge_key nat;
}.

Definition InMemoryGraphStore_init : InMemoryGraphStore := mkGraph [] [] [] [] [] [].

Definition clear (g : InMemoryGraphStore) : InMemoryGraphStore := InMemoryGraphStore_init.

(** ** Nodes *)

Definition with_updated_at (n : GraphNode) (now : instant) : GraphNode :=
  mkNode (gn_node_id n) (gn_node_type n) (gn_label n) (gn_properties n) (gn_tenant_id n)
         (gn_created_at n) now.

(** The ids of a type; [defaultdict(set)]. *)
Definition type_ids (t : NodeType) (d : odict NodeType (gset string)) : gset string :=
  default ∅ (od_get t d).

Definition upsert_node (now : instant) (node : GraphNode) (g : InMemoryGraphStore) : InMemoryGraphStore :=
  let id := gn_node_id node in
  let '(by_type, node) :=
    match od_get id (nodes g) with
    | Some existing =>
        let t := gn_node_type existing in
        (od_set t (type_ids t (_nodes_by_type g) ∖ {[gn_node_id existing]}) (_nodes_by_type g),
         with_updated_at node now)
    | None => (_nodes_by_type g, node)
    end in
  let t := gn_node_type node in
  mkGraph (od_set id node (nodes g)) (od_set t ({[id]} ∪ type_ids t by_type) by_type) (edges g)
          (_from_index g) (_to_index g) (_active_edge_index g).

Definition get_node (g : InMemoryGraphStore) (node_id : string) : option GraphNode :=
  od_get node_id (nodes g).

(** In the set's order, which Python leaves unspecified. *)
Definition get_nodes_by_type (g : InMemoryGraphStore) (t : NodeType) : list GraphNode :=
  omap (get_node g) (elements (type_ids t (_nodes_by_type g))).

(** ** Edges *)

Definition with_valid_to (e : GraphEdge) (t : instant) : GraphEdge :=
  mkEdge (ge_edge_type e) (ge_from_id e) (ge_to_id e) (ge_confidence e) (ge_weight e)
         (ge_valid_from e) (Some t) (ge_provenance e) (ge_explanation_ref e).

Definition edge_open (e : GraphEdge) : bool := match ge_valid_to e with None => true | Some _ => false end.

(** [self.edges[i] = ...] on an index the store recorded itself. *)
Definition close_at (i : nat) (t : instant) (es : list GraphEdge) : list GraphEdge :=
  match es !! i with
  | Some e => if edge_open e then <[i := with_valid_to e t]> es else es
  | None => es
  end.

Definition index_add (k : string) (i : nat) (d : odict string (list nat)) : odict string (list nat) :=
  od_set k (default [] (od_get k d) ++ [i]) d.

Definition add_edge (now : instant) (edge : GraphEdge) (g : InMemoryGraphStore) : InMemoryGraphStore :=
  let key := key_of edge in
  let es := match od_get key (_active_edge_index g) with
            | Some i => close_at i now (edges g)
            | None => edges g
            end in
  let new_idx := length es in
  mkGraph (nodes g) (_nodes_by_type g) (es ++ [edge])
          (index_add (ge_from_id edge) new_idx (_from_index g))
          (index_add (ge_to_id edge) new_idx (_to_index g))
          (od_set key new_idx (_active_edge_index g)).

(** [close_edge]; [now] is the clock reading used when no [valid_to] is given. *)
Definition close_edge (edge_type : EdgeType) (from_id to_id : string) (valid_to : option instant)
    (now : instant) (g : InMemoryGraphStore) : bool * InMemoryGraphStore :=
  let key := (from_id, to_id, edge_type) in
  match od_get key (_active_edge_index g) with
  | None => (false, g)
  | Some i =>
      let closed es := mkGraph (nodes g) (_nodes_by_type g) es (_from_index g) (_to_index g)
                               (od_del key (_active_edge_index g)) in
      match edges g !! i with
      | Some e => if edge_open e then (true, closed (close_at i (default now valid_to) (edges g)))
                  else (false, closed (edges g))
      | None => (false, g)
      end
  end.

(** [edge.valid_from <= at and (edge.valid_to is None or edge.valid_to > at)] *)
Definition valid_at (t : instant) (e : GraphEdge) : bool :=
  (ge_valid_from e <=? t) && match ge_valid_to e with None => true | Some v => t <? v end.

Definition edges_by_index (index : odict string (list nat)) (g : InMemoryGraphStore) (node_id : string)
    (t : instant) : list GraphEdge :=
  filter (λ e, valid_at t e = true) (omap (λ i, edges g !! i) (default [] (od_get node_id index))).

Definition get_edges_from (g : InMemoryGraphStore) (node_id : string) (at_time : option instant)
    (now : instant) : list GraphEdge :=
  edges_by_index (_from_index g) g node_id (default now at_time).

Definition get_edges_to (g : InMemoryGraphStore) (node_id : string) (at_time : option instant)
    (now : instant) : list GraphEdge :=
  edges_by_index (_to_index g) g node_id (default now at_time).

(** total nodes, total edges, active edges, historical edges *)
Definition get_stats (g : InMemoryGraphStore) : Z * Z * Z * Z :=
  let active := Z.of_nat (length (_active_edge_index g)) in
  (Z.of_nat (length (nodes g)), Z.of_nat (length (edges g)), active, Z.of_nat (length (edges g)) - active).

(** ** Traversal *)

(** A terminal of the attribution: a cost center or a budget. *)
Definition is_terminal (g : InMemoryGraphStore) (node_id : string) : bool :=
  match get_node g node_id with
  | Some n => bool_decide (gn_node_type n = NT_COST_CENTER ∨ gn_node_type n = NT_BUDGET)
  | None => false
  end.

Section traversal.
  Context (g : InMemoryGraphStore) (at_time : option instant) (clock : nat → instant)
    (max_depth max_paths : nat).

  (** [_dfs]. [path] is [current_path], [found] is [all_paths]; the clock is read at the
      next tick by each [get_edges_from]. The visited set is an argument because every
      call restores it. [fuel] bounds the recursion depth. *)
Fixpoint _dfs (fuel : nat) (node_id : string) (path : list GraphEdge) (visited : list string)
      (st : list (list GraphEdge) * nat) : list (list GraphEdge) * nat :=
    match fuel with
    | O => st
    | S fuel =>
        let '(found, tick) := st in
        if (max_paths <=? length found)%nat then st
        else if (max_depth <=? length path)%nat then st
        else if decide (node_id ∈ visited) then st
        else
          let out := get_edges_from g node_id at_time (clock tick) in
          match out with
          | [] => (match path with [] => found | _ => found ++ [path] end, S tick)
          | _ =>
              fold_left (λ st e,
                if (max_paths <=? length st.1)%nat then st
                else if is_terminal g (ge_to_id e) then (st.1 ++ [path ++ [e]], st.2)
                else _dfs fuel (ge_to_id e) (path ++ [e]) (node_id :: visited) st)
                out (found, S tick)
          end
    end.

Definition traverse_attribution (start_node_id : string) : list (list GraphEdge) :=
    (_dfs (S max_depth) start_node_id [] [] ([], O)).1.
End traversal.

(** ** Helpers of the durable backend *)

(** [_infer_node_type]: the first prefix that matches the lower-cased id. *)
Definition prefix_map : list (string * NodeType) :=
  [("model:", NT_MODEL); ("resource:", NT_CLOUD_RESOURCE); ("deploy:", NT_DEPLOYMENT);
   ("repo:", NT_REPOSITORY); ("person:", NT_PERSON); ("team:", NT_TEAM); ("cc:", NT_COST_CENTER);
   ("cost_center:", NT_COST_CENTER); ("service_account:", NT_SERVICE_ACCOUNT); ("api_key:", NT_API_KEY);
   ("endpoint:", NT_INFERENCE_ENDPOINT); ("budget:", NT_BUDGET); ("equivalence:", NT_EQUIVALENCE_CLASS)].

Definition _infer_node_type (node_id : string) : NodeType :=
  match List.find (λ pt, startswith (lower node_id) pt.1) prefix_map with
  | Some (_, t) => t
  | None => NT_INFERENCE_ENDPOINT
  end.

(** [node_id.split(":", 1)[-1] if ":" in node_id else node_id] *)
Fixpoint after_colon (s : string) : option string :=
  match s with
  | EmptyString => None
  | String c s' => if Ascii.eqb c ":"%char then Some s' else after_colon s'
  end.

Definition _default_label (node_id : string) : string := default node_id (after_colon node_id).

(** [_to_iso]: a naive datetime is read as UTC. *)
Definition _to_iso (d : datetime) : string := isoformat (to_utc d).

(** [_as_str] *)
Definition _as_str (v : pyval) (default : string) : string :=
  match v with
  | VNone => default
  | VStr "" => default
  | _ => py_str v
  end.

(** ** Invariant *)

Definition index_ok (f : GraphEdge → string) (es : list GraphEdge) (d : odict string (list nat)) : Prop :=
  ∀ k, default [] (od_get k d) = filter (λ i, f <$> es !! i = Some k) (seq 0 (length es)).

(** Both indexes list exactly the positions of their edges in order; every open edge is
    the active one of its key; the type index agrees with the nodes. *)
Definition graph_wf (g : InMemoryGraphStore) : Prop :=
  index_ok ge_from_id (edges g) (_from_index g) ∧
  index_ok ge_to_id (edges g) (_to_index g) ∧
  od_wf (_active_edge_index g) ∧
  (∀ k i, od_get k (_active_edge_index g) = Some i → ∃ e, edges g !! i = Some e ∧ key_of e = k) ∧
  (∀ i e, edges g !! i = Some e → edge_open e = true → od_get (key_of e) (_active_edge_index g) = Some i) ∧
  (∀ id n, od_get id (nodes g) = Some n → gn_node_id n = id) ∧
  (∀ t id, id ∈ type_ids t (_nodes_by_type g) ↔ ∃ n, od_get id (nodes g) = Some n ∧ gn_node_type n = t).

Lemma close_at_lookup i t es j :
  close_at i t es !! j =
  (λ e, if decide (j = i) then (if edge_open e then with_valid_to e t else e) else e) <$> es !! j.
Proof.
  unfold close_at. destruct (es !! i) as [e|] eqn:E.
  - destruct (edge_open e) eqn:Eo.
    + destruct (decide (j = i)) as [->|Hne].
      * rewrite list_lookup_insert_eq by (by eapply lookup_lt_Some). by rewrite E; simpl; rewrite Eo.
      * rewrite list_lookup_insert_ne by done. by destruct (es !! j).
    + destruct (decide (j = i)) as [->|]; [by rewrite E; simpl; rewrite Eo|by destruct (es !! j)].
  - destruct (decide (j = i)) as [->|]; [by rewrite E|by destruct (es !! j)].
Qed.

Lemma close_at_length i t es : length (close_at i t es) = length es.
Proof. unfold close_at. repeat case_match; try done. by rewrite length_insert. Qed.

(** Closing changes neither ends nor type. *)
Lemma close_at_proj {A} (f : GraphEdge → A) i t es j :
  (∀ e, f (with_valid_to e t) = f e) → f <$> close_at i t es !! j = f <$> es !! j.
Proof.
  intros Hf. rewrite close_at_lookup. destruct (es !! j) as [e|]; simpl; [|done].
  repeat case_match; by rewrite ?Hf.
Qed.

Lemma close_at_index (f : GraphEdge → string) i t es d :
  (∀ e, f (with_valid_to e t) = f e) → index_ok f es d → index_ok f (close_at i t es) d.
Proof.
  intros Hf Hd k. rewrite Hd, close_at_length. apply list_filter_iff. intros j.
  by rewrite (close_at_proj f).
Qed.

Lemma index_add_ok (f : GraphEdge → string) es d e :
  index_ok f es d → index_ok f (es ++ [e]) (index_add (f e) (length es) d).
Proof.
  intros Hd k. unfold index_add. rewrite od_get_set, length_app.
  replace (length es + length [e])%nat with (S (length es)) by (simpl; lia).
  rewrite seq_S, filter_app, filter_cons, filter_nil. cbn [Nat.add].
  rewrite list_lookup_middle by done. simpl.
  assert (filter (λ i, f <$> (es ++ [e]) !! i = Some k) (seq 0 (length es))
          = filter (λ i, f <$> es !! i = Some k) (seq 0 (length es))) as ->.
  { apply list_filter_ext_in. intros j Hj%elem_of_seq. rewrite lookup_app_l by lia. done. }
  rewrite <- Hd. case_decide as E.
  - subst k. rewrite decide_True by done. done.
  - rewrite decide_False by (intros [=]; congruence). by rewrite app_nil_r.
Qed.

Lemma lookup_snoc_cases {A} (l : list A) x i y :
  (l ++ [x]) !! i = Some y → (i < length l)%nat ∧ l !! i = Some y ∨ i = length l ∧ y = x.
Proof.
  intros H. destruct (decide (i < length l)%nat).
  - left. by rewrite lookup_app_l in H.
  - right. rewrite lookup_app_r in H by lia.
    destruct (i - length l)%nat as [|k] eqn:E; simpl in H; [|done]. split; [lia|congruence].
Qed.

Lemma type_ids_set t t' ids d :
  type_ids t (od_set t' ids d) = if decide (t = t') then ids else type_ids t d.
Proof. unfold type_ids. rewrite od_get_set. by repeat case_decide. Qed.

(** The type index after the node [n] is filed under its type, its id having been
    removed from every other type. *)
Lemma type_index_set (ns : odict string GraphNode) d n :
  (∀ t id, id ≠ gn_node_id n → id ∈ type_ids t d ↔ ∃ m, od_get id ns = Some m ∧ gn_node_type m = t) →
  (∀ t, gn_node_id n ∈ type_ids t d → t = gn_node_type n) →
  ∀ t id, id ∈ type_ids t (od_set (gn_node_type n) ({[gn_node_id n]} ∪ type_ids (gn_node_type n) d) d)
          ↔ ∃ m, od_get id (od_set (gn_node_id n) n ns) = Some m ∧ gn_node_type m = t.
Proof.
  intros Hne Heq t id. rewrite type_ids_set, od_get_set.
  destruct (decide (id = gn_node_id n)) as [->|Hid].
  - transitivity (t = gn_node_type n).
    + destruct (decide (t = gn_node_type n)) as [->|Ht].
      * split; [done|]. intros _. apply elem_of_union. left. by apply elem_of_singleton.
      * split; [|done]. intros Hin. by apply Heq.
    + split; [intros ->; by exists n|by intros (m & [= <-] & <-)].
  - rewrite <- Hne by done. destruct (decide (t = gn_node_type n)) as [->|Ht]; [|done].
    rewrite elem_of_union, elem_of_singleton. naive_solver.
Qed.

Lemma upsert_wf now n g : graph_wf g → graph_wf (upsert_node now n g).
Proof.
  intros (Hf & Ht & Ha & Hak & Hao & Hn & Hty).
  assert (∀ m, gn_node_id m = gn_node_id n → ∀ id x,
            od_get id (od_set (gn_node_id n) m (nodes g)) = Some x → gn_node_id x = id) as Hids.
  { intros m Hm id x. rewrite od_get_set. case_decide; [|apply Hn]. intros [= <-]. congruence. }
  unfold upsert_node. destruct (od_get (gn_node_id n) (nodes g)) as [old|] eqn:E; split_and!; try done; simpl.
  - by apply Hids.
  - pose proof (Hn _ _ E) as Hold. apply (type_index_set (nodes g) _ (with_updated_at n now)); simpl.
    + intros t id Hid. rewrite type_ids_set, <- Hty. destruct (decide (t = gn_node_type old)) as [->|]; [|done].
      rewrite elem_of_difference, elem_of_singleton, Hold. naive_solver.
    + intros t. rewrite type_ids_set. destruct (decide (t = gn_node_type old)) as [->|Hne].
      * rewrite elem_of_difference, elem_of_singleton, Hold. naive_solver.
      * intros (m & Hm & Hm2)%Hty. congruence.
  - by apply Hids.
  - apply type_index_set; [by intros|]. intros t (m & Hm & _)%Hty. congruence.
Qed.

(** Replacing the active edge of a key by nothing or by a new edge. *)
Lemma close_at_open i t es j e :
  close_at i t es !! j = Some e → edge_open e = true → j ≠ i ∧ es !! j = Some e.
Proof.
  rewrite close_at_lookup. intros Hj Ho. apply fmap_Some in Hj as (e0 & He0 & ->).
  destruct (decide (j = i)) as [->|]; [|done].
  destruct (edge_open e0) eqn:E0; [done|]. by rewrite E0 in Ho.
Qed.

Lemma add_edge_wf now e g : graph_wf g → graph_wf (add_edge now e g).
Proof.
  intros (Hf & Ht & Ha & Hak & Hao & Hn & Hty). unfold add_edge.
  set (es := match od_get (key_of e) (_active_edge_index g) with
             | Some i => close_at i now (edges g) | None => edges g end).
  assert (length es = length (edges g)) as Hlen.
  { unfold es. destruct (od_get _ _); by rewrite ?close_at_length. }
  assert (∀ j, key_of <$> es !! j = key_of <$> edges g !! j) as Hkey.
  { intros j. unfold es. destruct (od_get _ _); by rewrite ?(close_at_proj key_of). }
  split_and!; simpl; try done.
  - apply index_add_ok. unfold es. destruct (od_get _ _); [by apply close_at_index|done].
  - apply index_add_ok. unfold es. destruct (od_get _ _); [by apply close_at_index|done].
  - auto with odict.
  - intros k i. rewrite od_get_set. case_decide as Ek.
    + intros [= <-]. exists e. by rewrite list_lookup_middle.
    + intros Hi. destruct (Hak k i Hi) as (e0 & He0 & Hk). specialize (Hkey i). rewrite He0 in Hkey.
      simpl in Hkey. apply fmap_Some in Hkey as (e1 & He1 & Hk1). exists e1.
      rewrite lookup_app_l by (by eapply lookup_lt_Some). split; [done|congruence].
  - intros i x Hx Ho. apply lookup_snoc_cases in Hx as [[Hlt Hx]|[-> ->]]; [|apply od_get_set_eq].
    assert (edges g !! i = Some x ∧ key_of x ≠ key_of e) as [Hx' Hne].
    { unfold es in Hx. destruct (od_get (key_of e) (_active_edge_index g)) as [c|] eqn:Ec.
      - apply close_at_open in Hx as [Hic Hx]; [|done]. split; [done|]. intros Hk.
        specialize (Hao i x Hx Ho). rewrite Hk in Hao. congruence.
      - split; [done|]. intros Hk. specialize (Hao i x Hx Ho). rewrite Hk in Hao. congruence. }
    rewrite od_get_set_ne by done. by apply Hao.
Qed.

Lemma close_edge_wf ty a b vt now g : graph_wf g → graph_wf (close_edge ty a b vt now g).2.
Proof.
  intros Hwf. pose proof Hwf as (Hf & Ht & Ha & Hak & Hao & Hn & Hty). unfold close_edge.
  destruct (od_get (a, b, ty) (_active_edge_index g)) as [i|] eqn:Ei; [|done].
  destruct (Hak _ _ Ei) as (e & He & Hk). rewrite He.
  assert (∀ es, (es = edges g ∧ edge_open e = false ∨ es = close_at i (default now vt) (edges g)) →
    graph_wf (mkGraph (nodes g) (_nodes_by_type g) es (_from_index g) (_to_index g)
                      (od_del (a, b, ty) (_active_edge_index g)))) as Hgen.
  { intros es Hes.
    assert (∀ j, key_of <$> es !! j = key_of <$> edges g !! j) as Hkey.
    { intros j. destruct Hes as [[-> _]| ->]; by rewrite ?(close_at_proj key_of). }
    split_and!; simpl; try done.
    - destruct Hes as [[-> _]| ->]; [done|by apply close_at_index].
    - destruct Hes as [[-> _]| ->]; [done|by apply close_at_index].
    - auto with odict.
    - intros k j Hj. destruct (decide (k = (a, b, ty))) as [->|Hne]; [by rewrite od_get_del_eq in Hj|].
      rewrite od_get_del_ne in Hj by done. destruct (Hak _ _ Hj) as (e0 & He0 & Hk0).
      specialize (Hkey j). rewrite He0 in Hkey. apply fmap_Some in Hkey as (e1 & He1 & Hk1). exists e1.
      split; [done|congruence].
    - intros j x Hx Ho.
      assert (j ≠ i ∧ edges g !! j = Some x) as [Hji Hx'].
      { destruct Hes as [[-> Hc]| ->]; [|by eapply close_at_open].
        split; [|done]. intros ->. congruence. }
      specialize (Hao j x Hx' Ho). rewrite od_get_del_ne; [done|]. intros Hkx.
      rewrite Hkx, Ei in Hao. apply Hji. by simplify_eq. }
  destruct (edge_open e) eqn:Eo; simpl; apply Hgen; [by right|by left].
Qed.

Lemma omap_ext_in {A B} (f h : A → option B) (l : list A) : (∀ x, x ∈ l → f x = h x) → omap f l = omap h l.
Proof.
  induction l as [|x l IH]; intros H; [done|]. csimpl. rewrite (H x) by left.
  rewrite IH; [done|]. intros y Hy. apply H. by right.
Qed.

(** An index lookup is a scan of the edge table. *)
Lemma scan_index (f : GraphEdge → string) es d k :
  index_ok f es d →
  omap (λ i, es !! i) (default [] (od_get k d)) = filter (λ e, f e = k) es.
Proof.
  intros ->. induction es as [|e es IH] using rev_ind; [done|].
  rewrite length_app. replace (length es + length [e])%nat with (S (length es)) by (simpl; lia).
  rewrite seq_S, !filter_app, !filter_cons, !filter_nil, omap_app. cbn [Nat.add].
  rewrite list_lookup_middle by done. simpl. f_equal.
  - rewrite <- IH.
    rewrite (list_filter_ext_in _ (λ i, f <$> es !! i = Some k)).
    + apply omap_ext_in. intros j [_ Hj%elem_of_seq]%list_elem_of_filter. by rewrite lookup_app_l by lia.
    + intros j Hj%elem_of_seq. rewrite lookup_app_l by lia. done.
  - destruct (decide (f e = k)) as [->|Hne].
    + rewrite decide_True by done. simpl. by rewrite list_lookup_middle.
    + rewrite decide_False by (intros [=]; done). done.
Qed.

Definition outgoing (g : InMemoryGraphStore) (node_id : string) (t : instant) : list GraphEdge :=
  filter (λ e, ge_from_id e = node_id ∧ valid_at t e = true) (edges g).

Lemma edges_from_scan g id at_time now :
  graph_wf g → get_edges_from g id at_time now = outgoing g id (default now at_time).
Proof.
  intros (Hf & _). unfold get_edges_from, edges_by_index, outgoing.
  rewrite (scan_index ge_from_id) by done. by rewrite list_filter_and.
Qed.

Lemma edges_to_scan g id at_time now :
  graph_wf g →
  get_edges_to g id at_time now
  = filter (λ e, ge_to_id e = id ∧ valid_at (default now at_time) e = true) (edges g).
Proof.
  intros (_ & Ht & _). unfold get_edges_to, edges_by_index.
  rewrite (scan_index ge_to_id) by done. by rewrite list_filter_and.
Qed.

(** ** Histories *)

Inductive graph_op :=
  | OpUpsert (now : instant) (n : GraphNode)
  | OpAdd (now : instant) (e : GraphEdge)
  | OpClose (ty : EdgeType) (from_id to_id : string) (valid_to : option instant) (now : instant)
  | OpClear.

Definition run_op (g : InMemoryGraphStore) (o : graph_op) : InMemoryGraphStore :=
  match o with
  | OpUpsert now n => upsert_node now n g
  | OpAdd now e => add_edge now e g
  | OpClose ty a b vt now => (close_edge ty a b vt now g).2
  | OpClear => clear g
  end.

Definition run_ops (ops : list graph_op) (g : InMemoryGraphStore) : InMemoryGraphStore :=
  fold_left run_op ops g.

Lemma init_wf : graph_wf InMemoryGraphStore_init.
Proof.
  split_and!; simpl; try done; try constructor.
  - by intros H%elem_of_empty.
  - by intros (n & Hn & _).
Qed.

Lemma run_ops_wf ops g : graph_wf g → graph_wf (run_ops ops g).
Proof.
  revert g. induction ops as [|[now n|now e|ty a b vt now|] ops IH]; intros g Hg; simpl; [done|..]; apply IH.
  - by apply upsert_wf.
  - by apply add_edge_wf.
  - by apply close_edge_wf.
  - apply init_wf.
Qed.

(** The instants at which an operation may close an edge. *)
Definition op_closes_at (o : graph_op) : option instant :=
  match o with
  | OpAdd now _ => Some now
  | OpClose _ _ _ vt now => Some (default now vt)
  | _ => None
  end.

(** [e'] is what became of the edge [e]: itself, or [e] closed at one of [ts] when it was open. *)
Definition edge_after (ts : list instant) (e e' : GraphEdge) : Prop :=
  e' = e ∨ edge_open e = true ∧ ∃ t, t ∈ ts ∧ e' = with_valid_to e t.

Lemma edge_after_trans ts ts' e e1 e2 :
  edge_after ts e e1 → edge_after ts' e1 e2 → edge_after (ts ++ ts') e e2.
Proof.
  intros [->|(Ho & t & Ht & ->)] [->|(Ho' & t' & Ht' & ->)].
  - by left.
  - right. split; [done|]. exists t'. split; [apply elem_of_app; by right|done].
  - right. split; [done|]. exists t. split; [apply elem_of_app; by left|done].
  - done.
Qed.

Lemma close_at_after i t es j e :
  es !! j = Some e → ∃ e', close_at i t es !! j = Some e' ∧ edge_after [t] e e'.
Proof.
  intros He. rewrite close_at_lookup, He. simpl. eexists. split; [done|].
  destruct (decide (j = i)); [|by left]. destruct (edge_open e) eqn:Eo; [|by left].
  right. split; [done|]. exists t. split; [by left|done].
Qed.

Lemma run_op_after g o i e :
  o ≠ OpClear → edges g !! i = Some e →
  ∃ e', edges (run_op g o) !! i = Some e' ∧ edge_after (option_list (op_closes_at o)) e e'.
Proof.
  intros Hc He. destruct o as [now n|now x|ty a b vt now|]; [..|done]; simpl.
  - exists e. split; [|by left]. unfold upsert_node. by destruct (od_get _ _).
  - unfold add_edge. simpl. destruct (od_get (key_of x) _) as [c|].
    + destruct (close_at_after c now _ _ _ He) as (e' & He' & Ha). exists e'. split; [|done].
      by apply lookup_app_l_Some.
    + exists e. split; [by apply lookup_app_l_Some|by left].
  - unfold close_edge. destruct (od_get (a, b, ty) _) as [c|]; [|exists e; split; [done|by left]].
    destruct (edges g !! c) as [x|]; [|exists e; split; [done|by left]].
    destruct (edge_open x); simpl; [by apply close_at_after|exists e; split; [done|by left]].
Qed.

Lemma run_ops_after ops g i e :
  OpClear ∉ ops → edges g !! i = Some e →
  ∃ e', edges (run_ops ops g) !! i = Some e' ∧ edge_after (omap op_closes_at ops) e e'.
Proof.
  revert g e. induction ops as [|o ops IH]; intros g e Hc He; simpl; [exists e; split; [done|by left]|].
  apply not_elem_of_cons in Hc as [Ho Hc].
  destruct (run_op_after g o i e) as (e1 & He1 & Ha1); [done..|].
  destruct (IH (run_op g o) e1 Hc He1) as (e2 & He2 & Ha2). exists e2. split; [done|].
  pose proof (edge_after_trans _ _ _ _ _ Ha1 Ha2) as H. csimpl. by destruct (op_closes_at o).
Qed.

(** Closing an edge after [t] does not change whether it holds at [t]. *)
Lemma edge_after_valid ts t e e' :
  Forall (λ c, t < c) ts → edge_after ts e e' → valid_at t e' = valid_at t e.
Proof.
  rewrite Forall_forall. intros Hts [->|(Ho & c & Hc & ->)]; [done|]. specialize (Hts c Hc).
  unfold edge_open in Ho. unfold valid_at. simpl. destruct (ge_valid_to e); [done|].
  f_equal. simpl. lia.
Qed.

(** ** Attribution paths *)

Section paths.
  Context (g : InMemoryGraphStore) (t : instant) (max_depth : nat).

Definition outgoing_at (n : string) : list GraphEdge := get_edges_from g n (Some t) t.

  (** Every path the search can record from [n], in its order. *)
Fixpoint all_from (d : nat) (visited : list string) (n : string) : list (list GraphEdge) :=
    match d with
    | O => []
    | S d =>
        if decide (n ∈ visited) then []
        else match outgoing_at n with
             | [] => [[]]
             | out => flat_map (λ e, if is_terminal g (ge_to_id e) then [[e]]
                                     else map (cons e) (all_from d (n :: visited) (ge_to_id e))) out
             end
    end.

Fixpoint chain (n : string) (p : list GraphEdge) : Prop :=
    match p with [] => True | e :: p' => ge_from_id e = n ∧ chain (ge_to_id e) p' end.

  (** In force at [t]. *)
Definition in_force (e : GraphEdge) : Prop :=
    ge_valid_from e <= t ∧ ∀ v, ge_valid_to e = Some v → t < v.

  (** A cost center or a budget. *)
Definition sink (id : string) : Prop :=
    ∃ n, od_get id (nodes g) = Some n ∧ (gn_node_type n = NT_COST_CENTER ∨ gn_node_type n = NT_BUDGET).

  (** An attribution path of [start]: a chain of at most [max_depth] edges in force at [t]
      that leaves no node twice, passes through no cost center or budget, and ends in one,
      or in a node that no edge in force leaves and that is reached before the depth limit. *)
Definition attribution_path (start : string) (p : list GraphEdge) : Prop :=
    p ≠ [] ∧ (length p ≤ max_depth)%nat ∧ chain start p ∧
    Forall (λ e, e ∈ edges g ∧ in_force e) p ∧
    NoDup (map ge_from_id p) ∧
    Forall (λ e, ¬ sink (ge_to_id e)) (removelast p) ∧
    (∀ e, last p = Some e →
      sink (ge_to_id e) ∨
      (∀ e', e' ∈ edges g → in_force e' → ge_from_id e' ≠ ge_to_id e) ∧ (length p < max_depth)%nat).
End paths.

Lemma elem_of_outgoing g t n e :
  graph_wf g → e ∈ outgoing_at g t n ↔ ge_from_id e = n ∧ e ∈ edges g ∧ valid_at t e = true.
Proof.
  intros Hwf. unfold outgoing_at. rewrite (edges_from_scan g n (Some t) t) by done.
  unfold outgoing. rewrite list_elem_of_filter. simpl. naive_solver.
Qed.

Lemma valid_in_force t e : valid_at t e = true ↔ in_force t e.
Proof.
  unfold valid_at, in_force. rewrite andb_true_iff, Z.leb_le. destruct (ge_valid_to e) as [v|]; [|naive_solver].
  rewrite Z.ltb_lt. naive_solver.
Qed.

Lemma terminal_sink g id : is_terminal g id = true ↔ sink g id.
Proof.
  unfold is_terminal, sink, get_node. destruct (od_get id (nodes g)) as [n|]; [|naive_solver].
  rewrite bool_decide_eq_true. naive_solver.
Qed.

Lemma terminal_not_sink g id : is_terminal g id = false ↔ ¬ sink g id.
Proof. rewrite <- terminal_sink. by destruct (is_terminal g id). Qed.

Lemma outgoing_at_nil g t n : graph_wf g →
  outgoing_at g t n = [] ↔ ∀ e, e ∈ edges g → in_force t e → ge_from_id e ≠ n.
Proof.
  intros Hwf. split.
  - intros Ho e He Hv <-. apply (not_elem_of_nil e). rewrite <- Ho. by apply elem_of_outgoing; rewrite ?valid_in_force.
  - intros Ho. destruct (outgoing_at g t n) as [|e l] eqn:E; [done|]. exfalso.
    assert (e ∈ outgoing_at g t n) as Hx by (rewrite E; by left). apply elem_of_outgoing in Hx as (Hf & He & Hv); [|done].
    by apply (Ho e He); [apply valid_in_force|].
Qed.

(** What [all_from] lists, for any depth and visited set. *)
Definition completes (g : InMemoryGraphStore) (t : instant) (d : nat) (vis : list string) (n : string)
    (p : list GraphEdge) : Prop :=
  (length p ≤ d)%nat ∧ chain n p ∧ Forall (λ e, e ∈ edges g ∧ valid_at t e = true) p ∧
  NoDup (map ge_from_id p) ∧ Forall (λ x, x ∉ vis) (map ge_from_id p) ∧
  Forall (λ e, is_terminal g (ge_to_id e) = false) (removelast p) ∧
  match last p with
  | None => (n ∉ vis) ∧ outgoing_at g t n = [] ∧ (0 < d)%nat
  | Some e => is_terminal g (ge_to_id e) = true ∨
              is_terminal g (ge_to_id e) = false ∧ outgoing_at g t (ge_to_id e) = [] ∧ (length p < d)%nat
  end.

Lemma completes_cons g t d vis n e p :
  graph_wf g → (∀ x, x ∈ vis → outgoing_at g t x ≠ []) →
  completes g t (S d) vis n (e :: p) ↔
  (n ∉ vis) ∧ e ∈ outgoing_at g t n ∧
  if is_terminal g (ge_to_id e) then p = [] else completes g t d (n :: vis) (ge_to_id e) p.
Proof.
  intros Hwf Hvis. rewrite elem_of_outgoing by done. unfold completes.
  cbn [chain length map]. rewrite !Forall_cons, NoDup_cons.
  split.
  - intros (Hlen & [<- Hch] & [[Hin Hv] HF] & [Hnd1 Hnd] & [Hnv Hvs] & Hrm & Hlast).
    split_and!; [done..|]. destruct p as [|e2 p].
    + simpl in *. destruct (is_terminal g (ge_to_id e)) eqn:Et; [done|].
      destruct Hlast as [?|(_ & Ho & Hl)]; [done|]. split_and!; try done; try constructor; try lia.
      * intros [Heq|Hx]%elem_of_cons; [|by apply (Hvis _ Hx)].
        assert (e ∈ outgoing_at g t (ge_to_id e)) as He by (by rewrite elem_of_outgoing).
        by rewrite Ho in He; apply not_elem_of_nil in He.
    + change (removelast (e :: e2 :: p)) with (e :: removelast (e2 :: p)) in Hrm.
      apply Forall_cons in Hrm as [-> Hrm].
      change (last (e :: e2 :: p)) with (last (e2 :: p)) in Hlast.
      split_and!; try done; [lia| |destruct (last (e2 :: p)) eqn:El; cbn [length] in *; [naive_solver lia|by apply last_None in El]].
      rewrite Forall_forall in Hvs |- *. intros x Hx. apply not_elem_of_cons. split; [|by apply Hvs].
      intros ->. done.
  - intros (Hnv & (<- & Hin & Hv) & Hp). destruct (is_terminal g (ge_to_id e)) eqn:Et.
    + subst p. simpl. split_and!; try lia; try done; repeat constructor; try done; apply not_elem_of_nil.
    + destruct Hp as (Hlen & Hch & HF & Hnd & Hvs & Hrm & Hlast).
      destruct p as [|e2 p].
      * simpl in *. split_and!; try lia; try done; [repeat constructor; apply not_elem_of_nil..|].
        right. destruct Hlast as (_ & ? & ?). split_and!; [done..|lia].
      * change (removelast (e :: e2 :: p)) with (e :: removelast (e2 :: p)).
        change (last (e :: e2 :: p)) with (last (e2 :: p)).
        rewrite (Forall_cons _ e (removelast (e2 :: p))). rewrite Forall_forall in Hvs.
        split_and!; try done; try (cbn [length] in *; lia).
        -- intros Hx. by apply (Hvs _ Hx); left.
        -- apply Forall_forall. intros x Hx Hx2. by apply (Hvs _ Hx); right.
        -- destruct (last (e2 :: p)) eqn:El; cbn [length] in *; [naive_solver lia|by apply last_None in El].
Qed.

Lemma completes_nil g t d vis n :
  completes g t (S d) vis n [] ↔ (n ∉ vis) ∧ outgoing_at g t n = [].
Proof.
  unfold completes. simpl. split; [naive_solver|]. intros [Hn Ho].
  split_and!; try lia; try done; repeat constructor; done.
Qed.

Lemma all_from_completes g t d vis n p :
  graph_wf g → (∀ x, x ∈ vis → outgoing_at g t x ≠ []) →
  p ∈ all_from g t d vis n ↔ completes g t d vis n p.
Proof.
  intros Hwf. revert vis n p. induction d as [|d IH]; intros vis n p Hvis.
  { simpl. rewrite elem_of_nil. split; [done|]. intros (Hlen & _ & _ & _ & _ & _ & Hlast).
    destruct p; simpl in *; lia. }
  cbn [all_from]. destruct (decide (n ∈ vis)) as [Hin|Hnin].
  { rewrite elem_of_nil. split; [done|].
    destruct p as [|e p]; [rewrite completes_nil|rewrite completes_cons by done]; tauto. }
  destruct (outgoing_at g t n) as [|e0 out] eqn:Eo.
  { rewrite list_elem_of_singleton.
    destruct p as [|e p]; [rewrite completes_nil; naive_solver|rewrite completes_cons by done].
    rewrite Eo, elem_of_nil. naive_solver. }
  rewrite <- Eo. rewrite list_elem_of_In, in_flat_map.
  assert (∀ e, p ∈ (if is_terminal g (ge_to_id e) then [[e]]
                    else map (cons e) (all_from g t d (n :: vis) (ge_to_id e)))
               ↔ ∃ p', p = e :: p' ∧ if is_terminal g (ge_to_id e) then p' = []
                                     else completes g t d (n :: vis) (ge_to_id e) p') as Hstep.
  { intros e. destruct (is_terminal g (ge_to_id e)).
    - rewrite list_elem_of_singleton. naive_solver.
    - change (map (cons e)) with (fmap (M:=list) (cons e)). rewrite list_elem_of_fmap.
      split; intros (p' & -> & Hp'); exists p'; (split; [done|]); (apply IH in Hp'; [done|]);
        intros x [->|Hx]%elem_of_cons; rewrite ?Eo; auto. }
  destruct p as [|e p].
  - rewrite completes_nil, Eo. split; [|naive_solver].
    intros (e & _ & Hp). apply list_elem_of_In, Hstep in Hp. naive_solver.
  - rewrite completes_cons by done. split.
    + intros (e1 & He1 & Hp). apply list_elem_of_In, Hstep in Hp as (p' & [= <- <-] & Hp').
      apply list_elem_of_In in He1. done.
    + intros (_ & He & Hp). exists e. split; [by apply list_elem_of_In|].
      apply list_elem_of_In, Hstep. by exists p.
Qed.

Lemma attribution_path_completes g t d start p :
  graph_wf g →
  attribution_path g t d start p ↔ p ≠ [] ∧ completes g t d [] start p.
Proof.
  intros Hwf. unfold attribution_path, completes.
  assert (Forall (λ e, e ∈ edges g ∧ in_force t e) p ↔ Forall (λ e, e ∈ edges g ∧ valid_at t e = true) p) as ->
    by (apply Forall_iff; intros e; by rewrite valid_in_force).
  assert (Forall (λ e, ¬ sink g (ge_to_id e)) (removelast p) ↔
          Forall (λ e, is_terminal g (ge_to_id e) = false) (removelast p)) as ->
    by (apply Forall_iff; intros e; by rewrite terminal_not_sink).
  split.
  - intros (Hne & Hlen & Hch & HF & Hnd & Hrm & Hlast). split; [done|]. split_and!; try done.
    + apply Forall_forall. intros x _. apply not_elem_of_nil.
    + destruct (last p) as [e|] eqn:El; [|by apply last_None in El].
      destruct (is_terminal g (ge_to_id e)) eqn:Et; [by left|right].
      destruct (Hlast e eq_refl) as [Hs|[Ho Hl]]; [by apply terminal_sink in Hs; congruence|].
      split_and!; [done|by apply outgoing_at_nil|done].
  - intros (Hne & Hlen & Hch & HF & Hnd & _ & Hrm & Hlast). split_and!; try done.
    intros e He. rewrite He in Hlast. rewrite <- terminal_sink, <- outgoing_at_nil by done. naive_solver.
Qed.

(** ** The order of the enumeration *)

(** The lexicographic order of lists of positions. *)
Fixpoint lex_lt (ps qs : list nat) : Prop :=
  match ps, qs with
  | i :: ps', j :: qs' => (i < j)%nat ∨ i = j ∧ lex_lt ps' qs'
  | [], _ :: _ => True
  | _, [] => False
  end.

(** [ps] are the positions of the edges of [p] in the edge table. *)
Definition recorded_at (g : InMemoryGraphStore) (ps : list nat) (p : list GraphEdge) : Prop :=
  Forall2 (λ i e, edges g !! i = Some e) ps p.

Lemma StronglySorted_append {A} (R : A → A → Prop) l1 l2 :
  StronglySorted R l1 → StronglySorted R l2 → (∀ x y, x ∈ l1 → y ∈ l2 → R x y) → StronglySorted R (l1 ++ l2).
Proof.
  intros H1 H2 HR. induction H1 as [|x l1 H1 IH Hx]; [done|]. cbn [app]. constructor.
  - apply IH. intros y z Hy. apply HR. by right.
  - apply Forall_app. split; [done|]. apply Forall_forall. intros y. apply HR. by left.
Qed.

Lemma StronglySorted_flat_map {A} (R : A → A → Prop) (f : nat → list A) l :
  StronglySorted lt l → (∀ i, i ∈ l → StronglySorted R (f i)) →
  (∀ i j x y, (i < j)%nat → x ∈ f i → y ∈ f j → R x y) → StronglySorted R (flat_map f l).
Proof.
  intros Hl. induction Hl as [|i l Hl IH Hi]; intros Hf HR; [constructor|]. cbn [flat_map].
  apply StronglySorted_append; [by apply Hf; left|by apply IH; [intros j Hj; apply Hf; right|]|].
  intros x y Hx Hy. apply list_elem_of_In, in_flat_map in Hy as (j & Hj & Hy%list_elem_of_In).
  rewrite Forall_forall in Hi. by apply (HR i j); [apply Hi, list_elem_of_In| |].
Qed.

Lemma seq_sorted i n : StronglySorted lt (seq i n).
Proof.
  revert i. induction n as [|n IH]; intros i; [constructor|]. cbn [seq]. constructor; [done|].
  apply Forall_forall. intros j Hj%elem_of_seq. lia.
Qed.

Lemma StronglySorted_filter {A} (R : A → A → Prop) P `{∀ x : A, Decision (P x)} l :
  StronglySorted R l → StronglySorted R (filter P l).
Proof.
  induction 1 as [|x l Hl IH Hx]; [constructor|]. rewrite filter_cons. case_decide; [|done]. constructor; [done|].
  rewrite Forall_forall in Hx |- *. intros y [_ Hy]%list_elem_of_filter. by apply Hx.
Qed.

Section positions.
  Context (g : InMemoryGraphStore) (t : instant) (Hwf : graph_wf g).

Definition leaves_at (n : string) (i : nat) : bool :=
    match edges g !! i with Some e => bool_decide (ge_from_id e = n) && valid_at t e | None => false end.

Definition positions_from (n : string) : list nat := filter (λ i, leaves_at n i = true) (seq 0 (length (edges g))).

  (** [all_from], in positions. *)
Fixpoint all_positions (d : nat) (visited : list string) (n : string) : list (list nat) :=
    match d with
    | O => []
    | S d =>
        if decide (n ∈ visited) then []
        else match positions_from n with
             | [] => [[]]
             | out => flat_map (λ i, match edges g !! i with
                                     | Some e => if is_terminal g (ge_to_id e) then [[i]]
                                                 else map (cons i) (all_positions d (n :: visited) (ge_to_id e))
                                     | None => []
                                     end) out
             end
    end.

Lemma elem_of_positions n i : i ∈ positions_from n ↔ ∃ e, edges g !! i = Some e ∧ ge_from_id e = n ∧ valid_at t e = true.
  Proof.
    unfold positions_from, leaves_at. rewrite list_elem_of_filter, elem_of_seq.
    destruct (edges g !! i) as [e|] eqn:E; [|naive_solver]. apply lookup_lt_Some in E.
    rewrite andb_true_iff, bool_decide_eq_true. split; [|naive_solver lia]. intros [[H1 H2] _]. by exists e.
  Qed.

Lemma positions_outgoing n : Forall2 (λ i e, edges g !! i = Some e) (positions_from n) (outgoing_at g t n).
  Proof.
    unfold outgoing_at. rewrite edges_from_scan by done. unfold outgoing, positions_from, leaves_at.
    change (default t (Some t)) with t.
    assert (∀ es pre, edges g = pre ++ es →
      Forall2 (λ i e, edges g !! i = Some e) (filter (λ i, leaves_at n i = true) (seq (length pre) (length es)))
        (filter (λ e, ge_from_id e = n ∧ valid_at t e = true) es)) as Hg; [|apply (Hg (edges g) []); done].
    induction es as [|e es IH]; intros pre Hpre; [constructor|]. cbn [length seq]. rewrite !filter_cons.
    assert (edges g !! length pre = Some e) as He by (rewrite Hpre; by apply list_lookup_middle).
    specialize (IH (pre ++ [e])). rewrite length_app, Nat.add_1_r in IH.
    assert (leaves_at n (length pre) = true ↔ ge_from_id e = n ∧ valid_at t e = true) as Hiff.
    { unfold leaves_at. by rewrite He, andb_true_iff, bool_decide_eq_true. }
    destruct (decide (leaves_at n (length pre) = true)) as [Hd|Hd];
      [rewrite decide_True by tauto; constructor; [done|]|rewrite decide_False by tauto]; apply IH;
      by rewrite <- app_assoc.
  Qed.

Lemma all_positions_recorded d vis n : Forall2 (recorded_at g) (all_positions d vis n) (all_from g t d vis n).
  Proof.
    revert vis n. induction d as [|d IH]; intros vis n; [constructor|]. cbn [all_positions all_from].
    case_decide; [constructor|]. destruct (positions_outgoing n) as [|i e ks es He Hr]; [by repeat constructor|].
    assert (Forall2 (λ i e, edges g !! i = Some e) (i :: ks) (e :: es)) as Hall by by constructor.
    clear He Hr. induction Hall as [|j e' ks' es' He Hr IH2]; [constructor|]. cbn [flat_map]. rewrite He.
    apply Forall2_app; [|done]. destruct (is_terminal g (ge_to_id e')); [by repeat constructor|].
    apply (Forall2_fmap_2 (cons j) (cons e')). eapply Forall2_impl; [apply IH|]. intros ps p Hp. by constructor.
  Qed.

Lemma all_positions_sorted d vis n : StronglySorted lex_lt (all_positions d vis n).
  Proof.
    revert vis n. induction d as [|d IH]; intros vis n; [constructor|]. cbn [all_positions].
    case_decide; [constructor|]. destruct (positions_from n) as [|i ks] eqn:E; [by repeat constructor|]. rewrite <- E.
    apply StronglySorted_flat_map.
    - unfold positions_from. apply StronglySorted_filter, seq_sorted.
    - intros j _. destruct (edges g !! j) as [e|]; [|constructor].
      destruct (is_terminal g (ge_to_id e)); [by repeat constructor|].
      specialize (IH (n :: vis) (ge_to_id e)). induction IH as [|x l Hl IHl Hx]; [constructor|].
      cbn [map]. constructor; [done|]. apply Forall_map. eapply Forall_impl; [done|]. intros y Hy. by right.
    - intros j k x y Hjk Hx Hy.
      assert (∀ j x, x ∈ (match edges g !! j with
                | Some e => if is_terminal g (ge_to_id e) then [[j]]
                            else map (cons j) (all_positions d (n :: vis) (ge_to_id e))
                | None => [] end) → ∃ x', x = j :: x') as Hhd.
      { intros j' x' Hx'. destruct (edges g !! j') as [e|]; [|by apply elem_of_nil in Hx'].
        destruct (is_terminal g (ge_to_id e)); [apply list_elem_of_singleton in Hx' as ->; by eexists|].
        apply list_elem_of_In, in_map_iff in Hx' as (x'' & <- & _). by eexists. }
      apply Hhd in Hx as [x' ->]. apply Hhd in Hy as [y' ->]. by left.
  Qed.

Lemma all_positions_complete d vis n ps p :
    recorded_at g ps p → p ∈ all_from g t d vis n → ps ∈ all_positions d vis n.
  Proof.
    revert vis n ps p. induction d as [|d IH]; intros vis n ps p Hr Hp; [by apply elem_of_nil in Hp|].
    cbn [all_from all_positions] in *. case_decide; [by apply elem_of_nil in Hp|].
    pose proof (positions_outgoing n) as Hout.
    assert (∀ i e, edges g !! i = Some e → e ∈ outgoing_at g t n → i ∈ positions_from n) as Hin.
    { intros i e Hi (Hf & _ & Hv)%elem_of_outgoing; [|done]. apply elem_of_positions. by exists e. }
    destruct (outgoing_at g t n) as [|e0 out] eqn:Eo.
    { apply list_elem_of_singleton in Hp as ->. inversion Hr; subst. inversion Hout; subst. by left. }
    apply list_elem_of_In, in_flat_map in Hp as (e & He%list_elem_of_In & Hp%list_elem_of_In).
    destruct (positions_from n) as [|i0 ks]; [by inversion Hout|].
    assert (∃ p', p = e :: p' ∧ if is_terminal g (ge_to_id e) then p' = []
                               else p' ∈ all_from g t d (n :: vis) (ge_to_id e)) as (p' & -> & Hp').
    { destruct (is_terminal g (ge_to_id e)); [apply list_elem_of_singleton in Hp as ->; by exists []|].
      apply list_elem_of_In, in_map_iff in Hp as (p' & <- & Hp'%list_elem_of_In). by exists p'. }
    apply Forall2_cons_inv_r in Hr as (i & ps' & Hi & Hr & ->).
    apply list_elem_of_In, in_flat_map. exists i. split; [apply list_elem_of_In; by eapply Hin|]. rewrite Hi.
    apply list_elem_of_In. destruct (is_terminal g (ge_to_id e)).
    - subst p'. inversion Hr; subst. by left.
    - apply list_elem_of_In, in_map_iff. exists ps'. split; [done|]. by eapply list_elem_of_In, IH.
  Qed.

  (** The enumeration of the search is that of the attribution paths by their positions. *)
Lemma enumeration_exact d start : ∃ positions,
    StronglySorted lex_lt positions ∧
    (∀ ps, ps ∈ positions ↔ ∃ p, recorded_at g ps p ∧ attribution_path g t d start p) ∧
    Forall2 (recorded_at g) positions (filter (λ p, p ≠ []) (all_from g t d [] start)).
  Proof.
    exists (filter (λ ps, ps ≠ []) (all_positions d [] start)).
    assert (∀ ps p, recorded_at g ps p → ps ≠ [] ↔ p ≠ []) as Hne by (by intros ps p []).
    pose proof (all_positions_recorded d [] start) as Hrec. split_and!.
    - apply StronglySorted_filter, all_positions_sorted.
    - intros ps. rewrite list_elem_of_filter. split.
      + intros [Hn Hp]. apply list_elem_of_lookup_1 in Hp as [i Hi].
        destruct (Forall2_lookup_l _ _ _ _ _ Hrec Hi) as (p & Hp & Hr). exists p. split; [done|].
        apply attribution_path_completes; [done|]. split; [by rewrite <- (Hne ps p)|].
        apply all_from_completes; [done|by intros x Hx%elem_of_nil|]. by eapply list_elem_of_lookup_2.
      + intros (p & Hr & [Hn Hp]%attribution_path_completes); [|done]. split; [by rewrite (Hne ps p)|].
        eapply all_positions_complete; [done|]. by apply all_from_completes; [|intros x Hx%elem_of_nil|].
    - induction Hrec as [|ps p pss fs Hr _ IH]; [constructor|]. rewrite !filter_cons. specialize (Hne _ _ Hr).
      destruct (decide (ps ≠ [])); [rewrite decide_True by tauto; by constructor|by rewrite decide_False by tauto].
  Qed.
End positions.

(** ** The search enumerates the attribution paths *)

(** Appending within the cap in two steps. *)
Lemma capped_app {A} m (found l l' : list A) :
  (found ++ take (m - length found) l) ++ take (m - length (found ++ take (m - length found) l)) l'
  = found ++ take (m - length found) (l ++ l').
Proof.
  rewrite <- app_assoc. f_equal. rewrite length_app, length_take, take_app. f_equal. f_equal. lia.
Qed.

Section search.
  Context (g : InMemoryGraphStore) (t : instant) (clock : nat → instant) (max_depth max_paths : nat).

Abbreviation dfs := (_dfs g (Some t) clock max_depth max_paths).

(** What [_dfs] adds to [found], within the cap. *)
Definition dfs_adds (fuel : nat) (n : string) (path : list GraphEdge) (vis : list string) : Prop :=
    ∀ found tick,
      (dfs fuel n path vis (found, tick)).1
      = found ++ take (max_paths - length found)
                      (map (app path) (all_from g t (max_depth - length path) vis n)).

Definition step_paths (d : nat) (vis : list string) (e : GraphEdge) : list (list GraphEdge) :=
    if is_terminal g (ge_to_id e) then [[e]] else map (cons e) (all_from g t d vis (ge_to_id e)).

Lemma dfs_loop fuel d path vis out found tick :
    d = (max_depth - length path - 1)%nat →
    (∀ e, e ∈ out → dfs_adds fuel (ge_to_id e) (path ++ [e]) vis) →
    (fold_left (λ st e,
       if (max_paths <=? length st.1)%nat then st
       else if is_terminal g (ge_to_id e) then (st.1 ++ [path ++ [e]], st.2)
       else dfs fuel (ge_to_id e) (path ++ [e]) vis st) out (found, tick)).1
    = found ++ take (max_paths - length found) (map (app path) (flat_map (step_paths d vis) out)).
  Proof.
    intros Hd. revert found tick.
    induction out as [|e out IH]; intros found tick Hout; cbn [fold_left flat_map fst snd].
    { by rewrite firstn_nil, app_nil_r. }
    destruct (Nat.leb_spec max_paths (length found)).
    { rewrite IH by (intros x Hx; apply Hout; by right).
      by replace (max_paths - length found)%nat with O by lia. }
    rewrite map_app, <- capped_app.
    set (st := if is_terminal g (ge_to_id e) then (found ++ [path ++ [e]], tick) else _).
    assert (st.1 = found ++ take (max_paths - length found) (map (app path) (step_paths d vis e))) as Hst.
    { unfold st, step_paths. destruct (is_terminal g (ge_to_id e)); cbn [fst].
      - cbn [map]. rewrite take_ge by (cbn [length]; lia). done.
      - rewrite Hout by left. rewrite length_app, map_map. cbn [length]. subst d.
        replace (max_depth - (length path + 1))%nat with (max_depth - length path - 1)%nat by lia.
        do 2 f_equal. apply map_ext. intros p. by rewrite <- app_assoc. }
    clearbody st. destruct st as [f tk]. simpl in Hst. rewrite <- Hst.
    apply IH. intros x Hx. apply Hout. by right.
  Qed.

Lemma dfs_adds_paths fuel n path vis :
    path ≠ [] → (max_depth < fuel + length path)%nat → dfs_adds fuel n path vis.
  Proof.
    revert n path vis. induction fuel as [|fuel IH]; intros n path vis Hp Hfuel found tick.
    { simpl. replace (max_depth - length path)%nat with O by lia. by rewrite firstn_nil, app_nil_r. }
    cbn [_dfs]. destruct (Nat.leb_spec max_paths (length found)).
    { replace (max_paths - length found)%nat with O by lia. by rewrite app_nil_r. }
    destruct (Nat.leb_spec max_depth (length path)).
    { replace (max_depth - length path)%nat with O by lia. simpl. by rewrite firstn_nil, app_nil_r. }
    destruct (max_depth - length path)%nat as [|d] eqn:Ed; [lia|]. cbn [all_from].
    destruct (decide (n ∈ vis)); [simpl; by rewrite firstn_nil, app_nil_r|].
    change (get_edges_from g n (Some t) (clock tick)) with (outgoing_at g t n).
    destruct (outgoing_at g t n) as [|e0 out].
    - destruct path; [done|]. cbn [fst map]. rewrite take_ge by (cbn [length]; lia). by rewrite app_nil_r.
    - rewrite (dfs_loop fuel d); [done|lia|]. intros e _. apply IH; [by destruct path|].
      rewrite length_app. cbn [length]. lia.
  Qed.

(** The search returns the first [max_paths] of the enumerated paths. *)
Lemma dfs_top fuel n :
    (max_depth < fuel)%nat →
    (dfs fuel n [] [] ([], O)).1 = take max_paths (filter (λ p, p ≠ []) (all_from g t max_depth [] n)).
  Proof.
    intros Hfuel. destruct fuel as [|fuel]; [lia|]. cbn [_dfs length].
    destruct (Nat.leb_spec max_paths 0) as [Hm|Hm].
    { by replace max_paths with O by lia. }
    destruct (Nat.leb_spec max_depth 0) as [Hd|Hd].
    { replace max_depth with O by lia. simpl. by rewrite firstn_nil. }
    destruct max_depth as [|d] eqn:Emd; [lia|]. cbn [all_from].
    rewrite decide_False by apply not_elem_of_nil.
    rewrite decide_False by apply not_elem_of_nil.
    change (get_edges_from g n (Some t) (clock 0)) with (outgoing_at g t n).
    destruct (outgoing_at g t n) as [|e0 out] eqn:Eo.
    - rewrite filter_cons, decide_False by tauto. by rewrite firstn_nil.
    - rewrite <- Emd. rewrite (dfs_loop fuel d); [|cbn [length]; lia|].
      + cbn [length app]. rewrite Nat.sub_0_r, map_id. f_equal. symmetry.
        apply list_filter_id. intros p Hp%list_elem_of_In.
        apply in_flat_map in Hp as (e & _ & Hp). unfold step_paths in Hp.
        destruct (is_terminal g (ge_to_id e)); [by destruct Hp as [<-|[]]|].
        apply in_map_iff in Hp as (p' & <- & _). done.
      + intros e _. apply dfs_adds_paths; [done|]. rewrite Emd. cbn [length app]. lia.
  Qed.
End search.

(** The recursion depth is bounded by the depth limit, whatever the clock does. *)
Lemma dfs_fuel g at_time clock max_depth max_paths f1 f2 n path vis st :
  (max_depth < f1 + length path)%nat → (max_depth < f2 + length path)%nat →
  _dfs g at_time clock max_depth max_paths f1 n path vis st
  = _dfs g at_time clock max_depth max_paths f2 n path vis st.
Proof.
  revert f2 n path vis st. induction f1 as [|f1 IH]; intros f2 n path vis [found tick] H1 H2.
  { destruct f2 as [|f2]; [done|]. cbn [_dfs]. case_match; [done|].
    destruct (Nat.leb_spec max_depth (length path)); [done|lia]. }
  destruct f2 as [|f2]; cbn [_dfs].
  { case_match; [done|]. destruct (Nat.leb_spec max_depth (length path)); [done|lia]. }
  do 2 (case_match; [done|]). destruct (decide (n ∈ vis)); [done|].
  set (out := get_edges_from g n at_time (clock tick)).
  assert (∀ l s, fold_left (λ st e,
      if (max_paths <=? length st.1)%nat then st
      else if is_terminal g (ge_to_id e) then (st.1 ++ [path ++ [e]], st.2)
      else _dfs g at_time clock max_depth max_paths f1 (ge_to_id e) (path ++ [e]) (n :: vis) st) l s
    = fold_left (λ st e,
      if (max_paths <=? length st.1)%nat then st
      else if is_terminal g (ge_to_id e) then (st.1 ++ [path ++ [e]], st.2)
      else _dfs g at_time clock max_depth max_paths f2 (ge_to_id e) (path ++ [e]) (n :: vis) st) l s) as Hl.
  { intros l. induction l as [|e l IHl]; intros s; cbn [fold_left]; [done|]. rewrite IHl.
    do 2 (case_match; [done|]). by rewrite (IH f2) by (rewrite length_app; cbn [length]; lia). }
  destruct out as [|e l]; [done|apply Hl].
Qed.

Lemma add_edge_lookup now e g i :
  edges (add_edge now e g) !! i = if decide (i = length (edges g)) then Some e else
    match od_get (key_of e) (_active_edge_index g) with
    | Some c => close_at c now (edges g) !! i
    | None => edges g !! i
    end.
Proof.
  unfold add_edge. simpl. set (es := match od_get (key_of e) _ with Some _ => _ | None => _ end).
  assert (length es = length (edges g)) as Hlen.
  { unfold es. destruct (od_get _ _); by rewrite ?close_at_length. }
  replace (match od_get (key_of e) (_active_edge_index g) with
           | Some c => close_at c now (edges g) !! i | None => edges g !! i end) with (es !! i)
    by (unfold es; by destruct (od_get _ _)).
  case_decide as Hi; [by subst; rewrite <- Hlen, list_lookup_middle|].
  destruct (decide (i < length (edges g))%nat); [by rewrite lookup_app_l by lia|].
  rewrite !lookup_ge_None_2; [done| |]; rewrite ?length_app; cbn [length]; lia.
Qed.

Lemma filter_one {A} (P : A → Prop) `{∀ x, Decision (P x)} (l : list A) x :
  x ∈ l → P x → (1 ≤ length (filter P l))%nat.
Proof.
  intros Hx HP. destruct (filter P l) eqn:E; [|cbn [length]; lia].
  assert (x ∈ @nil A) as []%elem_of_nil. rewrite <- E. by apply list_elem_of_filter.
Qed.

Lemma filter_two {A} (P : A → Prop) `{∀ x, Decision (P x)} (l : list A) i j x y :
  (i < j)%nat → l !! i = Some x → l !! j = Some y → P x → P y → (2 ≤ length (filter P l))%nat.
Proof.
  intros Hij Hx Hy HPx HPy. rewrite <- (take_drop (S i) l), filter_app, length_app.
  assert (1 ≤ length (filter P (take (S i) l)))%nat.
  { apply (filter_one _ _ x); [|done]. apply (list_elem_of_lookup_2 _ i). by rewrite lookup_take_lt by lia. }
  assert (1 ≤ length (filter P (drop (S i) l)))%nat; [|lia].
  apply (filter_one _ _ y); [|done]. apply (list_elem_of_lookup_2 _ (j - S i)).
  rewrite lookup_drop. by replace (S i + (j - S i))%nat with j by lia.
Qed.

(** ** Properties *)

(** Whatever nodes are upserted and edges added and closed, in any order and with any
    clock readings, the store keeps its invariant: the two endpoint indexes list exactly
    the positions of their edges, the type index files each node once, under its current
    type, and no (from, to, type) key has two open edges. *)
Theorem graph_history_wf (ops : list graph_op) :
  let g := run_ops ops InMemoryGraphStore_init in
  graph_wf g ∧
  ∀ i j a b, edges g !! i = Some a → edges g !! j = Some b →
    edge_open a = true → edge_open b = true → key_of a = key_of b → i = j.
Proof.
  intros g. pose proof (run_ops_wf ops _ init_wf) as Hwf. split; [done|].
  destruct Hwf as (_ & _ & _ & _ & Hao & _). intros i j a b Ha Hb Hoa Hob Hk.
  pose proof (Hao i a Ha Hoa) as H1. pose proof (Hao j b Hb Hob) as H2.
  rewrite Hk in H1. fold g in H1, H2. congruence.
Qed.

(** The edge table is append-only history: later operations (short of a clear) keep
    every recorded edge at its place and change it at most by closing it once; and when
    those operations close edges only after [t], whether the edge holds at [t] does not
    change, so a past as-of reading stays reproducible. *)
Theorem graph_history_append_only (ops later : list graph_op) (t : instant) i e
    (Hc : OpClear ∉ later)
    (He : edges (run_ops ops InMemoryGraphStore_init) !! i = Some e) :
  ∃ e', edges (run_ops later (run_ops ops InMemoryGraphStore_init)) !! i = Some e' ∧
        edge_after (omap op_closes_at later) e e' ∧
        (Forall (λ c, t < c) (omap op_closes_at later) → valid_at t e' = valid_at t e).
Proof.
  destruct (run_ops_after later _ i e Hc He) as (e' & He' & Ha). exists e'.
  split_and!; [done..|]. intros Hl. by eapply edge_after_valid.
Qed.

(** The reads through the indexes answer the as-of question on the edge table itself:
    the edges leaving (entering) the node that are valid at the given time, or now, in the
    order they were added; and the nodes of a type are exactly the stored nodes with that
    type. *)
Theorem graph_asof_reads (ops : list graph_op) (id : string) (at_time : option instant) (now : instant)
    (ty : NodeType) :
  let g := run_ops ops InMemoryGraphStore_init in
  let t := default now at_time in
  get_edges_from g id at_time now = filter (λ e, ge_from_id e = id ∧ valid_at t e = true) (edges g) ∧
  get_edges_to g id at_time now = filter (λ e, ge_to_id e = id ∧ valid_at t e = true) (edges g) ∧
  ∀ n, n ∈ get_nodes_by_type g ty ↔ get_node g (gn_node_id n) = Some n ∧ gn_node_type n = ty.
Proof.
  intros g t. assert (graph_wf g) as Hwf by apply run_ops_wf, init_wf.
  split_and!; [by apply edges_from_scan|by apply edges_to_scan|].
  destruct Hwf as (_ & _ & _ & _ & _ & Hn & Hty). intros n. unfold get_nodes_by_type.
  rewrite list_elem_of_omap. unfold get_node. split.
  - intros (x & Hx%elem_of_elements & Hnx). apply Hty in Hx as (m & Hm & <-).
    rewrite (Hn _ _ Hnx). split; [done|congruence].
  - intros [Hnx <-]. exists (gn_node_id n). split; [|done]. apply elem_of_elements, Hty. by exists n.
Qed.

(** C15. The attribution search at a given time is sound, complete, ordered and free of
    repetitions. The attribution paths of the start node - the chains of at most [max_depth]
    edges in force at that time which repeat no node, pass through no cost center or budget, and
    end in one or in a node that no edge in force leaves - are those at certain sequences of
    positions in the edge table; listed in the lexicographic order of these sequences, each once,
    the search returns exactly the first [max_paths] of them, in that order. *)
Theorem graph_traversal_exact (ops : list graph_op) (t : instant) (clock : nat → instant)
    (max_depth max_paths : nat) (start : string) :
  let g := run_ops ops InMemoryGraphStore_init in
  let found := traverse_attribution g (Some t) clock max_depth max_paths start in
  ∃ positions : list (list nat),
    StronglySorted lex_lt positions ∧
    (∀ ps, ps ∈ positions ↔ ∃ p, recorded_at g ps p ∧ attribution_path g t max_depth start p) ∧
    Forall2 (recorded_at g) (take max_paths positions) found.
Proof.
  intros g found. assert (graph_wf g) as Hwf by apply run_ops_wf, init_wf.
  assert (found = take max_paths (filter (λ p, p ≠ []) (all_from g t max_depth [] start))) as ->
    by (apply dfs_top; lia).
  destruct (enumeration_exact g t Hwf max_depth start) as (positions & Hs & Hp & Hr).
  exists positions. split_and!; [done|done|by apply Forall2_take].
Qed.

(** The search terminates: its recursion never goes deeper than the depth limit, even
    on a cyclic graph and with a moving clock, so any larger recursion bound gives the
    result that [traverse_attribution] returns. *)
Theorem graph_traversal_terminates (g : InMemoryGraphStore) (at_time : option instant)
    (clock : nat → instant) (max_depth max_paths fuel : nat) (start : string) :
  (_dfs g at_time clock max_depth max_paths (S max_depth + fuel) start [] [] ([], O)).1
  = traverse_attribution g at_time clock max_depth max_paths start.
Proof. unfold traverse_attribution. f_equal. apply dfs_fuel; cbn [length]; lia. Qed.

(** Recording a new edge for a key that has an open one closes the old edge at the
    processing clock and not at the start of the new edge's validity: at every time [t]
    from that start up to the clock reading, both hold, and the source's as-of edges
    contain the key twice. *)
Theorem graph_readd_overlaps (ops : list graph_op) (old e : GraphEdge) (now t : instant) i
    (Hold : edges (run_ops ops InMemoryGraphStore_init) !! i = Some old)
    (Ho : edge_open old = true) (Hk : key_of old = key_of e)
    (Hvo : ge_valid_from old <= t) (Hve : ge_valid_from e <= t) (Hopen : edge_open e = true)
    (Ht : t < now) :
  let g := add_edge now e (run_ops ops InMemoryGraphStore_init) in
  with_valid_to old now ∈ get_edges_from g (ge_from_id e) (Some t) now ∧
  e ∈ get_edges_from g (ge_from_id e) (Some t) now ∧
  (2 ≤ length (filter (λ x, key_of x = key_of e) (get_edges_from g (ge_from_id e) (Some t) now)))%nat.
Proof.
  set (g0 := run_ops ops InMemoryGraphStore_init) in *. intros g.
  assert (graph_wf g0) as Hwf0 by apply run_ops_wf, init_wf.
  assert (graph_wf g) as Hwf by by apply add_edge_wf.
  rewrite (edges_from_scan g) by done. unfold outgoing. change (default now (Some t)) with t.
  assert (od_get (key_of e) (_active_edge_index g0) = Some i) as Hact.
  { rewrite <- Hk. destruct Hwf0 as (_ & _ & _ & _ & Hao & _). by apply Hao. }
  pose proof (lookup_lt_Some _ _ _ Hold) as Hlt.
  assert (edges g !! i = Some (with_valid_to old now)) as H1.
  { unfold g. rewrite add_edge_lookup, decide_False by lia.
    rewrite Hact, close_at_lookup, Hold. simpl. by rewrite decide_True, Ho by done. }
  assert (edges g !! length (edges g0) = Some e) as H2.
  { unfold g. by rewrite add_edge_lookup, decide_True by done. }
  assert (valid_at t (with_valid_to old now) = true) as V1.
  { unfold valid_at. simpl. apply andb_true_iff. lia. }
  assert (valid_at t e = true) as V2.
  { unfold valid_at. unfold edge_open in Hopen. destruct (ge_valid_to e); [done|].
    apply andb_true_iff. lia. }
  assert (ge_from_id old = ge_from_id e) as Hfr by (unfold key_of in Hk; congruence).
  rewrite !list_elem_of_filter, list_filter_and. split_and!; try done.
  - by eapply list_elem_of_lookup_2.
  - by eapply list_elem_of_lookup_2.
  - by apply (filter_two _ _ i (length (edges g0)) (with_valid_to old now) e).
Qed.

(** ** Concrete stores *)

Abbreviation sample_edge := (λ a b from,
  GraphEdge_deterministic ATTRIBUTED_TO a b from f1 f1 "sample" from).

Abbreviation sample_node := (λ id ty, mkNode id ty id [] "default" 0 0).

Lemma graph_history_append_only_witness :
  ∃ e', edges (run_ops [OpAdd 20%Z (sample_edge "a" "b" 15)]
                 (run_ops [OpAdd 5%Z (sample_edge "a" "b" 5)] InMemoryGraphStore_init)) !! 0%nat = Some e' ∧
        edge_after [20%Z] (sample_edge "a" "b" 5) e' ∧
        (Forall (λ c, 10 < c) [20%Z] → valid_at 10%Z e' = valid_at 10 (sample_edge "a" "b" 5)).
Proof.
  apply (graph_history_append_only [OpAdd 5%Z (sample_edge "a" "b" 5)]
           [OpAdd 20%Z (sample_edge "a" "b" 15)] 10 0%nat (sample_edge "a" "b" 5)).
  - intros [H|H%elem_of_nil]%elem_of_cons; [discriminate|done].
  - vm_compute. reflexivity.
Defined.

Lemma graph_readd_overlaps_witness :
  (2 ≤ length (filter (λ x, key_of x = ("a", "b", ATTRIBUTED_TO))
    (get_edges_from (add_edge 20%Z (sample_edge "a" "b" 10%Z)
       (run_ops [OpAdd 5%Z (sample_edge "a" "b" 5%Z)] InMemoryGraphStore_init)) "a" (Some 15%Z) 20%Z)))%nat.
Proof.
  apply (graph_readd_overlaps [OpAdd 5%Z (sample_edge "a" "b" 5)] (sample_edge "a" "b" 5)
           (sample_edge "a" "b" 10) 20 15 0%nat); vm_compute; try reflexivity; discriminate.
Defined.

(** A cyclic graph: the cycle a - b - a is cut, the two ways to a cost center and a leaf
    are found, the leaf only within the depth limit. *)
Example traversal_sample :
  let g := run_ops [OpUpsert 0 (sample_node "cc" NT_COST_CENTER); OpAdd 0 (sample_edge "a" "b" 0);
                    OpAdd 0 (sample_edge "b" "a" 0); OpAdd 0 (sample_edge "b" "cc" 0);
                    OpAdd 0 (sample_edge "a" "cc" 0); OpAdd 0 (sample_edge "b" "leaf" 0)]
             InMemoryGraphStore_init in
  let ids d m := map (map ge_to_id) (traverse_attribution g (Some 1) (λ _, 1) d m "a") in
  ids 8%nat 10%nat = [["b"; "cc"]; ["b"; "leaf"]; ["cc"]] ∧
  ids 2%nat 10%nat = [["b"; "cc"]; ["cc"]] ∧ ids 8%nat 1%nat = [["b"; "cc"]].
Proof. vm_compute. auto. Qed.

Example infer_sample :
  _infer_node_type "Team:core" = NT_TEAM ∧ _infer_node_type "x" = NT_INFERENCE_ENDPOINT ∧
  _default_label "team:a:b" = "a:b" ∧ _default_label "plain" = "plain".
Proof. vm_compute. auto. Qed.
