(* ===== verification/Combination.v ===== *)
(** * Evidence combination (src/aci/hre/combination.py)

    The modified noisy-OR of the reconciliation engine: dependency weights, diminishing
    multipliers, the cap, and the bounds that hold for every input, NaN included. *)

From S2P Require Import Prelude PyFloat PyData PyMath.
From Stdlib Require Import ZArith QArith Lia Lqa Sorted.
From stdpp Require Import base list strings.

Open Scope string_scope.
Open Scope list_scope.
Open Scope nat_scope.

(** ** Data *)

Record IndividualEvidence := mkEvidence {
  iv_method : string;
  iv_raw_confidence : pyfloat;
  iv_calibrated_confidence : pyfloat;
  iv_weight : pyfloat;
}.

Record DependencyPenalty := mkPenalty {
  dp_method_a : string;
  dp_method_b : string;
  dp_discount_factor : pyfloat;
  dp_rationale : string;
}.

Record EvidenceCombinationResult := mkCombined {
  combined_confidence : pyfloat;
  individual_confidences : list IndividualEvidence;
  dependency_penalties_applied : list DependencyPenalty;
  capped : bool;
  diminishing_returns_applied : bool;
}.

Abbreviation correlations := (odict (string * string) pyfloat).

Definition DEFAULT_CORRELATED_PAIRS : correlations :=
  [(("R3", "R4"), lit 5 10); (("R2", "R5"), lit 4 10); (("R4", "R5"), lit 3 10)].

(** [CombinationConfig] after [__post_init__]. *)
Record CombinationConfig := mkCombinationConfig {
  cap : pyfloat;
  diminishing_factor : pyfloat;
  correlated_pairs : correlations;
}.

Definition default_combination_config : CombinationConfig :=
  mkCombinationConfig (lit 95 100) (lit 5 10) DEFAULT_CORRELATED_PAIRS.

Abbreviation signal := (string * pyfloat)%type.

(** ** The steps of [combine_evidence] *)

(** [max(0.0, min(1.0, conf))] *)
Definition bound_signal (s : signal) : signal := (s.1, fmax f0 (fmin f1 s.2)).

(** [{**correlations, **learned_correlations}] when there are learned ones. *)
Definition merge_correlations (configured : correlations) (learned : option correlations) : correlations :=
  match learned with
  | None | Some [] => configured
  | Some l => od_update configured l
  end.

(** [correlations.get(pair) or correlations.get(pair_rev)]: a zero is falsy. *)
Definition pair_discount (c : correlations) (a b : string) : option pyfloat :=
  match od_get (a, b) c with
  | Some d => if feq d f0 then od_get (b, a) c else Some d
  | None => od_get (b, a) c
  end.

Definition weight_of (m : string) (ws : odict string pyfloat) : pyfloat := default f1 (od_get m ws).

(** One pair: the discount goes to the weaker signal. *)
Definition penalize_pair (c : correlations) (a b : signal)
    (st : odict string pyfloat * list DependencyPenalty) : odict string pyfloat * list DependencyPenalty :=
  match pair_discount c a.1 b.1 with
  | None => st
  | Some d =>
      let m := if fle a.2 b.2 then a.1 else b.1 in
      (od_set m (fmin (weight_of m st.1) d) st.1, st.2 ++ [mkPenalty a.1 b.1 d "correlated_signals"])
  end.

(** Every pair [i < j], in the order of the loops. *)
Fixpoint penalize (c : correlations) (signals : list signal)
    (st : odict string pyfloat * list DependencyPenalty) : odict string pyfloat * list DependencyPenalty :=
  match signals with
  | [] => st
  | a :: rest => penalize c rest (fold_left (λ st b, penalize_pair c a b st) rest st)
  end.

Definition initial_weights (signals : list signal) : odict string pyfloat :=
  fold_left (λ ws s, od_set s.1 f1 ws) signals [].

(** [sorted(bounded_signals, key=lambda x: x[1], reverse=True)] *)
Definition sort_signals (signals : list signal) : list signal :=
  stable_sort (λ a b, flt b.2 a.2) signals.

(** [diminishing_multipliers[idx]] *)
Fixpoint diminishing_multiplier (factor : pyfloat) (idx : nat) : pyfloat :=
  match idx with
  | S (S _ as prev) => fmul (diminishing_multiplier factor prev) factor
  | _ => f1
  end.

(** [min(1.0, max(0.0, conf * w * d))] *)
Definition effective (conf w d : pyfloat) : pyfloat := fmin f1 (fmax f0 (fmul (fmul conf w) d)).

(** The noisy-OR loop: [idx] is the position of the head of [signals]. *)
Fixpoint noisy_or (factor : pyfloat) (ws : odict string pyfloat) (idx : nat) (signals : list signal)
    (product_term : pyfloat) : pyfloat * list IndividualEvidence :=
  match signals with
  | [] => (product_term, [])
  | (method, conf) :: rest =>
      let w := weight_of method ws in
      let d := diminishing_multiplier factor idx in
      let '(p, ind) := noisy_or factor ws (S idx) rest
                         (fmul product_term (fsub f1 (effective conf w d))) in
      (p, mkEvidence method conf conf (fround 4 (fmul w d)) :: ind)
  end.

Definition combine_evidence (signals : list signal) (config : option CombinationConfig)
    (learned_correlations : option correlations) : EvidenceCombinationResult :=
  let config := default default_combination_config config in
  let bounded_signals := map bound_signal signals in
  match bounded_signals with
  | [] => mkCombined f0 [] [] false false
  | [(method, conf)] =>
      let capped_conf := fmin (cap config) conf in
      mkCombined capped_conf [mkEvidence method conf conf f1] [] (flt capped_conf conf) false
  | _ =>
      let c := merge_correlations (correlated_pairs config) learned_correlations in
      let '(weights, penalties) := penalize c bounded_signals (initial_weights bounded_signals, []) in
      let '(product_term, individual) :=
        noisy_or (diminishing_factor config) weights 0 (sort_signals bounded_signals) f1 in
      let combined := fsub f1 product_term in
      mkCombined (fround 4 (fmin (cap config) combined)) individual penalties
                 (flt (cap config) combined) (2 <? length bounded_signals)
  end.

(** [combine_noisy_or_simple] *)
Definition combine_noisy_or_simple (confidences : list pyfloat) (cap : pyfloat) : pyfloat :=
  match confidences with
  | [] => f0
  | _ => fmin cap (fsub f1 (fold_left (λ p c, fmul p (fsub f1 c)) confidences f1))
  end.

(** ** Lemmas *)

Lemma unit_clamp_low x : unit_itv (fmin f1 (fmax f0 x)) = true.
Proof.
  destruct x as [q| | |]; try reflexivity.
  unfold fmin, fmax, flt, fle, f0, f1, unit_itv.
  destruct (Qle_bool q 0) eqn:E2; simpl; [reflexivity|].
  destruct (Qle_bool 1 q) eqn:E1; simpl; [reflexivity|].
  apply Qle_bool_false in E1. apply Qle_bool_false in E2.
  rewrite andb_true_iff, !Qle_bool_iff. lra.
Qed.

Lemma effective_unit conf w d : unit_itv (effective conf w d) = true.
Proof. apply unit_clamp_low. Qed.

Lemma noisy_or_unit factor ws idx signals p :
  unit_itv p = true → unit_itv (noisy_or factor ws idx signals p).1 = true.
Proof.
  revert idx p. induction signals as [|[m conf] rest IH]; intros idx p Hp; [done|]. cbn [noisy_or].
  specialize (IH (S idx) (fmul p (fsub f1 (effective conf (weight_of m ws) (diminishing_multiplier factor idx))))).
  destruct (noisy_or _ _ _ rest _) as [p' ind]. apply IH.
  auto using effective_unit with pyfloat.
Qed.

(** A factor of the unit interval does not enlarge a product. *)
Lemma noisy_or_le factor ws idx signals p :
  unit_itv p = true → repr p → fle (noisy_or factor ws idx signals p).1 p = true.
Proof.
  revert idx p. induction signals as [|[m conf] rest IH]; intros idx p Hp Hr.
  { apply fle_refl. auto with pyfloat. }
  cbn [noisy_or].
  set (x := fsub f1 (effective conf (weight_of m ws) (diminishing_multiplier factor idx))).
  assert (unit_itv x = true) as Hx by (apply unit_one_minus, effective_unit).
  specialize (IH (S idx) (fmul p x)). destruct (noisy_or _ _ _ rest _) as [p' ind]. simpl in *.
  eapply fle_trans; [apply IH; [auto with pyfloat|apply fmul_repr]|by apply fmul_le_l].
Qed.

(** The position of a signal decides its multiplier; the rest only lowers the product. *)
Lemma noisy_or_app factor ws idx l1 l2 p :
  (noisy_or factor ws idx (l1 ++ l2) p).1
  = (noisy_or factor ws (length l1 + idx) l2 (noisy_or factor ws idx l1 p).1).1.
Proof.
  revert idx p. induction l1 as [|[m conf] l1 IH]; intros idx p; [done|]. cbn [noisy_or app].
  specialize (IH (S idx) (fmul p (fsub f1 (effective conf (weight_of m ws) (diminishing_multiplier factor idx))))).
  destruct (noisy_or factor ws (S idx) (l1 ++ l2) _) as [p1 i1].
  destruct (noisy_or factor ws (S idx) l1 _) as [p2 i2]. simpl in *. rewrite IH.
  by replace (length l1 + S idx) with (S (length l1 + idx)) by lia.
Qed.

Lemma noisy_or_length factor ws idx l p : length (noisy_or factor ws idx l p).2 = length l.
Proof.
  revert idx p. induction l as [|[m conf] l IH]; intros idx p; [done|]. cbn [noisy_or].
  specialize (IH (S idx) (fmul p (fsub f1 (effective conf (weight_of m ws) (diminishing_multiplier factor idx))))).
  destruct (noisy_or _ _ _ l _). simpl in *. by rewrite IH.
Qed.

Lemma fmin_mono c x y :
  is_nan c = false → fle x y = true → fle (fmin c x) (fmin c y) = true.
Proof.
  intros Hc Hxy. pose proof (fle_not_nan_l _ _ Hxy) as Hx. pose proof (fle_not_nan_r _ _ Hxy) as Hy.
  unfold fmin at 2. destruct (flt y c) eqn:E.
  - eapply fle_trans; [by apply fmin_le_r|done].
  - by apply fmin_le_l.
Qed.

(** A signal before all others in the order comes first. *)
Lemma stable_sort_head {A} (before : A → A → bool) l s :
  NoDup l → s ∈ l → (∀ y, y ∈ l → y ≠ s → before s y = true ∧ before y s = false) →
  ∃ rest, stable_sort before l = s :: rest.
Proof.
  induction l as [|x l IH]; intros Hnd Hs Hb; [by apply elem_of_nil in Hs|]. simpl.
  apply NoDup_cons in Hnd as [Hx Hnd]. apply elem_of_cons in Hs as [->|Hs].
  - destruct (stable_sort before l) as [|y r] eqn:E; [by eexists|]. simpl.
    assert (y ∈ l) as Hy by (rewrite <- (stable_sort_perm before l), E; left).
    destruct (Hb y) as [_ ->]; [by right|by intros ->|by eexists].
  - destruct IH as (rest & ->); [done|done|intros y Hy; apply Hb; by right|]. simpl.
    destruct (Hb x) as [-> _]; [by left|by intros ->|by eexists].
Qed.

Lemma nodup_map_inj {A B} (f : A → B) (l : list A) x y :
  NoDup (map f l) → x ∈ l → y ∈ l → f x = f y → x = y.
Proof.
  induction l as [|z l IH]; intros Hnd Hx Hy E; [by apply elem_of_nil in Hx|].
  simpl in Hnd. apply NoDup_cons in Hnd as [Hz Hnd].
  apply elem_of_cons in Hx as [->|Hx], Hy as [->|Hy]; [done|..|by apply IH]; destruct Hz.
  - rewrite E. by apply (list_elem_of_fmap_2 f).
  - rewrite <- E. by apply (list_elem_of_fmap_2 f).
Qed.

Lemma initial_weight m signals : weight_of m (initial_weights signals) = f1.
Proof.
  unfold initial_weights. assert (weight_of m [] = f1) as H by done. revert H.
  generalize (@nil (string * pyfloat)) as ws. induction signals as [|s l IH]; intros ws Hw; [done|].
  cbn [fold_left]. apply IH. unfold weight_of. rewrite od_get_set. by case_decide.
Qed.

(** The pairs never discount a signal stronger than all the others. *)
Section strongest.
  Context (c : correlations) (s : signal).

Definition dominated (b : signal) : Prop := b.1 ≠ s.1 ∧ flt b.2 s.2 = true.

Lemma penalize_pair_keeps a b st :
    (a = s ∨ dominated a) → (b = s ∨ dominated b) → (a = s → b ≠ s) →
    weight_of s.1 (penalize_pair c a b st).1 = weight_of s.1 st.1.
  Proof.
    intros Ha Hb Hab. unfold penalize_pair. destruct (pair_discount c a.1 b.1) as [d|]; [|done].
    simpl. unfold weight_of at 1. rewrite od_get_set_ne; [done|].
    destruct Ha as [->|[Ha1 Ha2]].
    - destruct Hb as [->|[Hb1 Hb2]]; [by destruct (Hab eq_refl)|].
      destruct (fle s.2 b.2) eqn:E; [|done].
      pose proof (fle_lt_trans _ _ _ E Hb2) as Hc. by rewrite flt_irrefl in Hc.
    - destruct Hb as [->|[Hb1 Hb2]]; [|by destruct (fle a.2 b.2)].
      by rewrite (flt_fle _ _ Ha2).
  Qed.

Lemma penalize_inner_keeps a rest st :
    (a = s ∨ dominated a) → Forall (λ b, b = s ∨ dominated b) rest → (a = s → s ∉ rest) →
    weight_of s.1 (fold_left (λ st b, penalize_pair c a b st) rest st).1 = weight_of s.1 st.1.
  Proof.
    intros Ha. revert st. induction rest as [|b rest IH]; intros st Hr Hs; [done|].
    apply Forall_cons in Hr as [Hb Hr]. cbn [fold_left]. rewrite IH; [|done|].
    - apply penalize_pair_keeps; [done..|]. intros E ->. by apply Hs; [|left].
    - intros E Hin. by apply Hs; [|right].
  Qed.

Lemma penalize_keeps signals st :
    Forall (λ b, b = s ∨ dominated b) signals → NoDup signals →
    weight_of s.1 (penalize c signals st).1 = weight_of s.1 st.1.
  Proof.
    revert st. induction signals as [|a rest IH]; intros st; [done|].
    intros [Ha Hr]%Forall_cons [Hna Hnd]%NoDup_cons. cbn [penalize]. rewrite IH by done.
    apply penalize_inner_keeps; [done..|]. by intros ->.
  Qed.
End strongest.

Lemma fsub_one_comp x y : is_fin x = true → feq x y = true → fsub f1 x = fsub f1 y.
Proof.
  unfold feq. destruct x, y; try done. simpl. rewrite andb_true_iff, !Qle_bool_iff. intros _ [H1 H2].
  apply of_Q_comp. rewrite !Qred_correct. lra.
Qed.

Lemma fmul_one_r x : is_fin x = true → repr x → fmul x f1 = x.
Proof.
  destruct x as [q| | |]; try done. simpl. intros _ Hr. rewrite <- Hr. apply of_Q_comp. lra.
Qed.

Lemma fmul_one_l x : is_fin x = true → repr x → fmul f1 x = x.
Proof.
  destruct x as [q| | |]; try done. simpl. intros _ Hr. rewrite <- Hr. apply of_Q_comp. lra.
Qed.

(** The effective confidence of an undiscounted first signal is its confidence. *)
Lemma effective_full c : unit_itv c = true → repr c → fsub f1 (effective c f1 f1) = fsub f1 c.
Proof.
  intros Hc Hr. pose proof (unit_is_fin _ Hc) as Hf. unfold effective. do 2 rewrite (fmul_one_r c) by done.
  symmetry. apply fsub_one_comp; [done|].
  apply unit_itv_fin in Hc as (q & -> & H0 & H1). unfold fmin, fmax, flt, fle, f0, f1, feq.
  destruct (Qle_bool q 0) eqn:E2; simpl.
  - apply Qle_bool_iff in E2. rewrite andb_true_iff, !Qle_bool_iff. lra.
  - destruct (Qle_bool 1 q) eqn:E1; simpl; rewrite andb_true_iff, !Qle_bool_iff;
      [apply Qle_bool_iff in E1|]; lra.
Qed.

(** The result for two or more signals, without its records. *)
Definition combined_value (signals : list signal) (config : CombinationConfig)
    (learned : option correlations) : pyfloat :=
  let b := map bound_signal signals in
  let ws := (penalize (merge_correlations (correlated_pairs config) learned) b (initial_weights b, [])).1 in
  fsub f1 (noisy_or (diminishing_factor config) ws 0 (sort_signals b) f1).1.

Lemma combine_many signals config learned :
  2 ≤ length signals →
  let r := combine_evidence signals (Some config) learned in
  let v := combined_value signals config learned in
  combined_confidence r = fround 4 (fmin (cap config) v) ∧ capped r = flt (cap config) v ∧
  length (individual_confidences r) = length signals.
Proof.
  intros Hlen. destruct signals as [|s1 [|s2 rest]]; [simpl in Hlen; lia..|].
  unfold combine_evidence, combined_value. cbn [map default id].
  destruct (bound_signal s1) as [m1 c1].
  set (b := (m1, c1) :: bound_signal s2 :: map bound_signal rest).
  destruct (penalize _ b _) as [ws ps]. cbn [fst snd].
  pose proof (noisy_or_length (diminishing_factor config) ws 0 (sort_signals b) f1) as Hl.
  destruct (noisy_or _ ws 0 (sort_signals b) f1) as [p ind]. cbn [fst snd] in *.
  split_and!; [done..|]. cbn [individual_confidences]. rewrite Hl.
  unfold sort_signals. rewrite stable_sort_length. unfold b. cbn [length]. by rewrite length_map.
Qed.

Lemma combined_value_unit signals config learned : unit_itv (combined_value signals config learned) = true.
Proof. unfold combined_value. apply unit_one_minus, noisy_or_unit, unit_f1. Qed.

(** Bounds of the result for one configuration. *)
Lemma combine_bounds_config signals cfg learned : unit_itv (cap cfg) = true →
  let r := combine_evidence signals (Some cfg) learned in
  unit_itv (combined_confidence r) = true ∧
  fle (combined_confidence r) (if (length signals <? 2) then cap cfg else fround 4 (cap cfg)) = true ∧
  length (individual_confidences r) = length signals.
Proof.
  intros Hcap. cbn zeta. pose proof (unit_not_nan _ Hcap) as Hnn.
  destruct (Nat.ltb_spec (length signals) 2) as [Hlt|Hge].
  - destruct signals as [|[m c] [|]]; [| |simpl in Hlt; lia]; simpl.
    + split_and!; [done| |done]. unfold unit_itv in Hcap. by bool_hyps.
    + split_and!; [auto with pyfloat| |done]. apply fmin_le_l; auto with pyfloat.
  - destruct (combine_many signals cfg learned Hge) as (-> & _ & Hl).
    pose proof (combined_value_unit signals cfg learned) as Hv.
    split_and!; [apply fround_unit; [done|]; auto with pyfloat| |done].
    apply fround_mono; [done|]. apply fmin_le_l; auto with pyfloat.
Qed.

(** ** Properties *)

(** C29. The combined confidence stays in the unit interval and at or below the cap (rounded
    to four decimals when signals were combined), for every list of signals - out of range,
    infinite or NaN ones included - and all dependency discounts, configured or learned;
    every signal is reported once; with the default configuration it is at most 0.95. *)
Theorem combine_bounds (signals : list signal) (config : CombinationConfig) (learned : option correlations)
    (Hcap : unit_itv (cap config) = true) :
  let r := combine_evidence signals (Some config) learned in
  unit_itv (combined_confidence r) = true ∧
  fle (combined_confidence r) (if (length signals <? 2) then cap config else fround 4 (cap config)) = true ∧
  length (individual_confidences r) = length signals ∧
  fle (combined_confidence (combine_evidence signals None learned)) (lit 95 100) = true.
Proof.
  intros r.
  pose proof (λ cfg, combine_bounds_config signals cfg learned) as Hall. cbn zeta in Hall. subst r.
  destruct (Hall config Hcap) as (H1 & H2 & H3). split_and!; [done..|].
  destruct (Hall default_combination_config) as (_ & H & _); [reflexivity|].
  change (combine_evidence signals None learned)
    with (combine_evidence signals (Some default_combination_config) learned).
  eapply fle_trans; [apply H|]. destruct (length signals <? 2); vm_compute; reflexivity.
Qed.

(** Combining never loses the strongest evidence: when one signal is strictly stronger
    than every other and the methods are distinct, no dependency discount or diminishing
    multiplier touches it, and the combined confidence is at least what that signal alone
    gives under the same cap and rounding - whatever the other signals, the configured and
    the learned correlations are. *)
Theorem combine_keeps_strongest (signals : list signal) (config : CombinationConfig)
    (learned : option correlations) (m : string) (c : pyfloat)
    (Hcap : unit_itv (cap config) = true) (Hlen : 2 ≤ length signals) (Hnd : NoDup (map fst signals))
    (Hin : (m, c) ∈ map bound_signal signals) (Hr : repr c)
    (Hmax : ∀ m' c', (m', c') ∈ map bound_signal signals → m' ≠ m → flt c' c = true) :
  fle (fround 4 (fmin (cap config) (fsub f1 (fsub f1 c))))
      (combined_confidence (combine_evidence signals (Some config) learned)) = true.
Proof.
  set (s := (m, c)). set (b := map bound_signal signals) in *.
  assert (NoDup (map fst b)) as Hndb.
  { unfold b. rewrite map_map. by erewrite map_ext by (intros x; reflexivity). }
  assert (NoDup b) as Hndb' by (by eapply (NoDup_fmap_1 fst)).
  assert (∀ y, y ∈ b → y ≠ s → y.1 ≠ m) as Hne.
  { intros y Hy Hys E. apply Hys. by apply (nodup_map_inj fst b). }
  assert (unit_itv c = true) as Hc.
  { apply list_elem_of_In, in_map_iff in Hin as (x & [= <- <-] & _). apply unit_clamp. }
  destruct (combine_many signals config learned Hlen) as (-> & _ & _).
  apply fround_mono; [done|]. apply fmin_mono; [auto with pyfloat|]. unfold combined_value. fold b.
  destruct (stable_sort_head (λ a b, flt b.2 a.2) b s) as (rest & Hsort); [done..| |].
  { intros [m' c'] Hy Hys. assert (flt c' c = true) as Hlt by (apply (Hmax m'); [done|by apply (Hne _ Hy Hys)]).
    split; [done|]. by apply flt_asym. }
  unfold sort_signals. rewrite Hsort. cbn [noisy_or s].
  rewrite (penalize_keeps _ s); [|apply Forall_forall|done].
  - cbn [fst snd]. rewrite initial_weight. change (diminishing_multiplier (diminishing_factor config) 0) with f1.
    rewrite effective_full by done.
    assert (unit_itv (fsub f1 c) = true) as Hu by auto with pyfloat.
    rewrite fmul_one_l by (by apply unit_is_fin || apply fsub_repr).
    set (ws := (penalize _ b _).1).
    pose proof (noisy_or_le (diminishing_factor config) ws 1 rest (fsub f1 c) Hu (fsub_repr _ _)) as Hle.
    pose proof (noisy_or_unit (diminishing_factor config) ws 1 rest (fsub f1 c) Hu) as Hpu.
    destruct (noisy_or _ ws 1 rest (fsub f1 c)) as [p ind]. cbn [fst snd] in *.
    apply fsub_antitone; auto using unit_is_fin.
  - intros y Hy. destruct (decide (y.1 = m)) as [Em|Em].
    + left. by apply (nodup_map_inj fst b).
    + right. split; [done|]. destruct y as [m' c']. by apply (Hmax m').
Qed.

(** More evidence can lower the combined confidence: a third signal that is correlated
    with the strongest one takes the second place, where it is discounted, and pushes an
    independent signal to the third place, where it is halved. So a further corroborating
    signal, or a stronger reading of one, can reduce the result; and of three equally strong
    signals the combination can fall below each of them. *)
Theorem combine_more_evidence_lowers :
  let value l := combined_confidence (combine_evidence l None None) in
  let two := [("R3", lit 6 10); ("R1", lit 5 10)] in
  fle f0 (value two) = true ∧ feq (value two) (lit 8 10) = true ∧
  flt (value (two ++ [("R4", lit 59 100)])) (value two) = true ∧
  flt (value (two ++ [("R4", lit 59 100)])) (value (two ++ [("R4", lit 49 100)])) = true ∧
  flt (value [("R2", lit 5 10); ("R4", lit 5 10); ("R5", lit 5 10)]) (lit 5 10) = true.
Proof. vm_compute. auto. Qed.

(** A learned discount of zero for a pair is falsy: the reverse pair is consulted instead,
    and when it is absent the pair counts as independent, so the strongest correlation a
    deployment can learn has the effect of none. *)
Theorem learned_zero_means_independent :
  let value learned := combined_confidence
    (combine_evidence [("R3", lit 6 10); ("R4", lit 5 10)] None (Some [(("R3", "R4"), learned)])) in
  feq (value f0) (value f1) = true ∧ flt (value (lit 1 100)) (value f0) = true.
Proof. vm_compute. auto. Qed.

(** A NaN confidence is bounded to 1.0, the strongest value, by the argument order of
    [min(1.0, conf)]. *)
Theorem nan_confidence_is_certain (m : string) : bound_signal (m, NaN) = (m, f1).
Proof. reflexivity. Qed.

(** The simple form is monotone: one more confidence never lowers it. *)
Theorem simple_more_evidence (l : list pyfloat) (c cp : pyfloat)
    (Hl : Forall (λ x, unit_itv x = true) (c :: l)) (Hcp : unit_itv cp = true) :
  l ≠ [] → fle (combine_noisy_or_simple l cp) (combine_noisy_or_simple (l ++ [c]) cp) = true.
Proof.
  intros Hne. apply Forall_cons in Hl as [Hc Hl].
  assert (∀ p, unit_itv p = true → repr p →
    unit_itv (fold_left (λ p c, fmul p (fsub f1 c)) l p) = true ∧
    repr (fold_left (λ p c, fmul p (fsub f1 c)) l p)) as Hu.
  { clear Hne. induction Hl as [|x l Hx Hl IH]; intros p Hp Hr; [done|]. cbn [fold_left].
    apply IH; [auto with pyfloat|apply fmul_repr]. }
  destruct (Hu f1 unit_f1 repr_f1) as [Hp Hr].
  assert (∀ k, k ≠ [] → combine_noisy_or_simple k cp
    = fmin cp (fsub f1 (fold_left (λ p c, fmul p (fsub f1 c)) k f1))) as Hval by (by intros [|]).
  rewrite !Hval by (by destruct l). rewrite fold_left_app. cbn [fold_left].
  apply fmin_mono; [auto with pyfloat|].
  apply fsub_antitone; try (apply unit_is_fin; auto with pyfloat).
  apply fmul_le_l; auto with pyfloat.
Qed.

(** ** Witnesses *)

Lemma combine_bounds_witness :
  fle (combined_confidence (combine_evidence [("R1", NaN); ("R2", of_Z 7)]
         (Some (mkCombinationConfig (lit 9 10) (lit 5 10) [])) None)) (fround 4 (lit 9 10)) = true.
Proof.
  apply (combine_bounds [("R1", NaN); ("R2", of_Z 7)]
           (mkCombinationConfig (lit 9 10) (lit 5 10) []) None). vm_compute. reflexivity.
Defined.

Lemma combine_keeps_strongest_witness :
  fle (fround 4 (fmin (lit 95 100) (fsub f1 (fsub f1 (Fin (3#4))))))
      (combined_confidence (combine_evidence [("R4", Fin (1#2)); ("R3", Fin (3#4))]
         (Some default_combination_config) None)) = true.
Proof.
  apply (combine_keeps_strongest [("R4", Fin (1#2)); ("R3", Fin (3#4))]
           default_combination_config None "R3" (Fin (3#4))).
  - vm_compute. reflexivity.
  - simpl. lia.
  - apply (bool_decide_unpack (NoDup (map fst [("R4", Fin (1#2)); ("R3", Fin (3#4))]))). vm_compute. exact I.
  - right. left.
  - vm_compute. reflexivity.
  - intros m' c' H Hm. apply list_elem_of_In in H as [[= <- <-]|[[= <- _]|[]]]; [vm_compute; reflexivity|done].
Defined.
