(* ===== verification/HreMethods.v ===== *)
(** * Reconciliation methods R1-R6 (src/aci/hre/methods.py)

    One definition per [resolve]. The iteration order of a Python set of strings is not
    specified: it is the class [SetOrder]. The local time zone that [astimezone] gives a
    naive datetime is an argument, and the reference time of R5 is always given, as the
    engine does. *)

From S2P Require Import Prelude PyFloat PyData PyMath PyDifflib PyTime PyValue.
From Stdlib Require Import ZArith QArith Ascii Lqa Lia.
From stdpp Require Import base list strings sets pretty.

Open Scope string_scope.
Open Scope list_scope.
Open Scope nat_scope.

(** ** Data *)

Record ReconciliationSignal := mkSignal {
  rs_method : string;
  rs_source_entity : string;
  rs_target_entity : string;
  rs_confidence : pyfloat;
  rs_signals : list string;
  rs_feature_values : odict string pyval;
}.

(** ** R1: direct match *)

Definition normalize_id (s : string) : string := strip (lower s).

Definition R1_resolve (entity_id : string) (identity_mappings : odict string string) :
    option ReconciliationSignal :=
  match od_get entity_id identity_mappings with
  | Some target =>
      Some (mkSignal "R1" entity_id target f1 ["direct_match:" +:+ entity_id]
                     [("match_type", VStr "exact_identifier")])
  | None =>
      match List.find (λ kt, String.eqb (normalize_id (fst kt)) (normalize_id entity_id)) identity_mappings with
      | Some (key, target) =>
          Some (mkSignal "R1" entity_id target (lit 98 100)
                  ["normalized_match:" +:+ entity_id +:+ "->" +:+ key]
                  [("match_type", VStr "normalized_identifier")])
      | None => None
      end
  end.

(** ** R2: temporal correlation *)

Abbreviation temporal_event := (datetime * string * string)%type.
Abbreviation temporal_match := (pyfloat * string * string)%type.

Definition event_delta (event_time : datetime) (c : temporal_event) : pyfloat :=
  fabs (total_seconds (to_utc event_time) (to_utc c.1.1)).

(** The loop over the candidates: the best match so far and the competing count. *)
Definition r2_step (max_window_seconds : pyfloat) (event_time : datetime)
    (st : option temporal_match * Z) (c : temporal_event) : option temporal_match * Z :=
  let '(best_match, competing_count) := st in
  let delta := event_delta event_time c in
  if fle delta max_window_seconds then
    (match best_match with
     | None => Some (delta, c.1.2, c.2)
     | Some b => if flt delta b.1.1 then Some (delta, c.1.2, c.2) else Some b
     end, (competing_count + 1)%Z)
  else st.

(** The confidence of a match at distance [delta_s] among [competing_count] candidates. *)
Definition r2_confidence (max_window_seconds delta_s : pyfloat) (competing_count : Z) : res pyfloat :=
  (let? q := fdiv delta_s max_window_seconds in
   let base_confidence := fmax (lit 4 10) (fsub f1 q) in
   Ok (fround 3 (if (1 <? competing_count)%Z
                 then fmax (lit 3 10) (fsub base_confidence
                                         (fmul (lit 15 100) (of_Z (competing_count - 1))))
                 else base_confidence)))%py.

Definition R2_resolve (max_window_seconds : pyfloat) (event_time : datetime) (event_entity : string)
    (candidate_events : list temporal_event) : res (option ReconciliationSignal) :=
  match fold_left (r2_step max_window_seconds event_time) candidate_events (None, 0%Z) with
  | (None, _) => Ok None
  | (Some (delta_s, target, source), competing_count) =>
      (let? confidence := r2_confidence max_window_seconds delta_s competing_count in
       Ok (Some (mkSignal "R2" event_entity target confidence
                   ["temporal:" +:+ source +:+ ":" +:+ fmt_fixed 0 delta_s +:+ "s"]
                   [("time_delta_seconds", VFloat delta_s); ("competing_events", VInt competing_count);
                    ("source_system", VStr source)])))%py
  end.

(** [R2TemporalCorrelation()] *)
Definition default_max_window_seconds : pyfloat := of_Z 300.

(** ** R3: naming conventions *)

(** [[^a-z0-9]] *)
Definition is_name_char (c : ascii) : bool :=
  let n := code c in (97 <=? n) && (n <=? 122) || (48 <=? n) && (n <=? 57).

Definition r3_normalize (name : string) : string :=
  strip (str_map (λ c, if is_name_char c then c else " "%char) (lower name)).

Definition token_overlap (a b : string) : pyfloat :=
  let tokens_a := remove_dups (split_ws a) in
  let tokens_b := remove_dups (split_ws b) in
  match tokens_a, tokens_b with
  | [], _ | _, [] => f0
  | _, _ =>
      of_Q (Qmake (Z.of_nat (length (filter (λ t, t ∈ tokens_b) tokens_a)))
                  (Pos.of_nat (length tokens_a `max` length tokens_b)))
  end.

(** The score of one pattern, both names normalized. *)
Definition r3_similarity (normalized norm_pattern : string) : pyfloat :=
  let similarity := similarity_ratio normalized norm_pattern in
  let similarity :=
    if str_in norm_pattern normalized || str_in normalized norm_pattern
    then fmin f1 (fadd similarity (lit 15 100)) else similarity in
  fmin f1 (fadd similarity (fmul (token_overlap normalized norm_pattern) (lit 1 10))).

(** [(best_score, best_team, best_pattern)] *)
Abbreviation name_match := (pyfloat * option (string * string))%type.

Definition r3_step (normalized : string) (best : name_match) (tp : string * string) : name_match :=
  let similarity := r3_similarity normalized (r3_normalize tp.2) in
  if flt best.1 similarity then (similarity, Some tp) else best.

(** The pairs the nested loops visit. *)
Definition team_patterns (candidate_patterns : odict string (list string)) : list (string * string) :=
  flat_map (λ tp, map (pair tp.1) tp.2) candidate_patterns.

Definition R3_resolve (entity_name : string) (candidate_patterns : odict string (list string))
    (min_similarity : pyfloat) : option ReconciliationSignal :=
  match fold_left (r3_step (r3_normalize entity_name)) (team_patterns candidate_patterns) (f0, None) with
  | (_, None) => None
  | (best_score, Some (best_team, best_pattern)) =>
      if flt best_score min_similarity then None else
      Some (mkSignal "R3" entity_name best_team (fround 3 (fmin (lit 9 10) (fmul best_score (lit 9 10))))
              ["naming:" +:+ best_pattern +:+ ":" +:+ fmt_fixed 2 best_score]
              [("string_similarity", VFloat (fround 3 best_score)); ("matched_pattern", VStr best_pattern)])
  end.

Definition default_min_similarity : pyfloat := lit 4 10.

(** ** R4: historical patterns *)

(** [d[k] = d.get(k, 0) + v] *)
Definition add_score (scores : odict string pyfloat) (k : string) (v : pyfloat) : odict string pyfloat :=
  od_set k (fadd (default f0 (od_get k scores)) v) scores.
Definition add_count (counts : odict string Z) (k : string) : odict string Z :=
  od_set k (default 0%Z (od_get k counts) + 1)%Z counts.

(** [max(scores, key=scores.get)], with the score. *)
Definition best_scored (scores : odict string pyfloat) : option (string * pyfloat) :=
  argmax (λ a b, flt b.2 a.2) scores.

Definition R4_resolve (entity_id : string) (historical_attributions : list (string * pyfloat))
    (min_history_count : nat) : res (option ReconciliationSignal) :=
  if length historical_attributions <? min_history_count then Ok None else
  let team_scores := fold_left (λ d h, add_score d h.1 h.2) historical_attributions [] in
  let team_counts := fold_left (λ d h, add_count d h.1) historical_attributions [] in
  match best_scored team_scores with
  | None => Ok None
  | Some (best_team, best_weight) =>
      let total_weight := py_sum (od_values team_scores) in
      let count := default 0%Z (od_get best_team team_counts) in
      (let? dominance := if flt f0 total_weight then rbind (fdiv best_weight total_weight) (λ d, Ok (VFloat d))
                         else Ok (VInt 0) in
       let '(dom, ratio) := match dominance with VFloat d => (d, VFloat (fround 3 d)) | v => (f0, v) end in
       let count_factor := fmin f1 (of_Q (Qmake count 10)) in
       let confidence := fmin (lit 85 100) (fadd (fmul dom (lit 7 10)) (fmul count_factor (lit 2 10))) in
       Ok (Some (mkSignal "R4" entity_id best_team (fround 3 confidence)
                   ["historical:" +:+ best_team +:+ ":" +:+ pretty count]
                   [("prior_match_count", VInt count); ("dominance_ratio", ratio);
                    ("total_history", VInt (Z.of_nat (length historical_attributions)))])))%py
  end.

Definition default_min_history_count : nat := 3.

(** ** R5: service accounts *)

Section R5.
  Context `{SetOrder} (local_to_utc : Z → instant).

  (** [reference_time.astimezone(UTC)]: a naive value is local time. *)
Definition astimezone_utc (d : datetime) : instant :=
    match d with Naive us => local_to_utc us | Aware us _ => us end.

Definition is_naive (d : datetime) : bool := match d with Naive _ => true | Aware _ _ => false end.

  (** [sorted(owners, key=lambda x: x[1], reverse=True)]: naive and aware values have no order. *)
Definition sort_recent (owners : list (string * datetime)) : res (list (string * datetime)) :=
    if existsb (λ o, is_naive o.2) owners && existsb (λ o, negb (is_naive o.2)) owners
    then Raise TypeError
    else Ok (stable_sort (λ a b, (to_utc b.2 <? to_utc a.2)%Z) owners).

Definition within_lookback (now : instant) (lookback : Z) (t : datetime) : bool :=
    (now - to_utc t <=? lookback)%Z.

Definition default_lookback : Z := 30 * us_per_day.

  (** The three signals. *)
Definition r5_scores (now lookback : Z) (deployers : list (string * datetime)) (code_owners : list string)
      (recent_set : list string) : res (odict string pyfloat) :=
    let scores := match List.find (λ o, within_lookback now lookback o.2) deployers with
                  | Some (owner, _) => add_score [] owner (lit 35 100)
                  | None => []
                  end in
    let scores := fold_left (λ d owner, add_score d owner (lit 25 100)) code_owners scores in
    (let? share := fdiv (lit 15 100) (of_Z (Z.max 1 (Z.of_nat (length recent_set)))) in
     Ok (fold_left (λ d user, add_score d user share) recent_set scores))%py.

Definition R5_resolve (service_account : string) (deployment_owners : list (string * datetime))
      (code_owners : list string) (recent_users : list (string * datetime)) (lookback : Z)
      (reference_time : datetime) : res (option ReconciliationSignal) :=
    let now := astimezone_utc reference_time in
    (let? deployers := sort_recent deployment_owners in
     let recent_set :=
       set_iter (map fst (filter (λ u, within_lookback now lookback u.2 = true) recent_users)) in
     let? scores := r5_scores now lookback deployers code_owners recent_set in
     match best_scored scores with
     | None => Ok None
     | Some (best_owner, score) =>
         Ok (Some (mkSignal "R5" service_account best_owner (fround 3 (fmin (lit 75 100) score))
                     ["svc_account:" +:+ service_account;
                      "deployer:" +:+ pretty (Z.of_nat (length deployment_owners));
                      "code_owners:" +:+ pretty (Z.of_nat (length code_owners));
                      "recent_users:" +:+ pretty (Z.of_nat (length recent_set))]
                     [("signal_count", VInt (Z.of_nat (length scores)));
                      ("best_score", VFloat (fround 3 score)); ("is_shared_account", VBool true)]))
     end)%py.
End R5.

(** ** R6: proportional allocation *)

Definition r6_signal (resource_id : string) (total_weight : pyfloat) (team_count : nat)
    (u : string * pyfloat) : res ReconciliationSignal :=
  (let? proportion := fdiv u.2 total_weight in
   Ok (mkSignal "R6" resource_id u.1
         (fround 3 (fmin (lit 65 100) (fadd (lit 3 10) (fmul proportion (lit 4 10)))))
         ["proportional:" +:+ u.1 +:+ ":" +:+ fmt_fixed 2 proportion]
         [("allocation_weight", VFloat (fround 3 proportion)); ("team_count", VInt (Z.of_nat team_count))]))%py.

Definition R6_resolve (resource_id : string) (known_users : odict string pyfloat) :
    res (list ReconciliationSignal) :=
  let positive_users := filter (λ u : string * pyfloat, flt f0 u.2 = true) (known_users : list (string * pyfloat)) in
  let total_weight := py_sum (map snd positive_users) in
  if fle total_weight f0 then Ok [] else
  map_res (r6_signal resource_id total_weight (length positive_users)) positive_users.

Example methods_sample :
  let at_ s := Aware (s * us_per_second)%Z 0 in
  let conf r := match r with Ok (Some s) => Some (rs_target_entity s, repr_float (rs_confidence s)) | _ => None end in
  conf (Ok (R1_resolve " Key-1" [("key-1", "team:a")])) = Some ("team:a", "0.98") ∧
  conf (R2_resolve default_max_window_seconds (at_ 1000%Z) "e" [(at_ 1060%Z, "x", "cicd"); (at_ 970%Z, "y", "scm"); (at_ 5000%Z, "z", "scm")])
    = Some ("y", "0.75") ∧
  conf (Ok (R3_resolve "nlp-experiment-7" [("team:nlp", ["nlp-experiment"]); ("team:search", ["search-api"])] default_min_similarity))
    = Some ("team:nlp", "0.9") ∧
  conf (R4_resolve "e" [("a", lit 9 10); ("b", lit 5 10); ("a", lit 8 10)] 3) = Some ("a", "0.581") ∧
  match R6_resolve "e" [("a", lit 3 10); ("b", lit 1 10); ("c", f0)] with
  | Ok l => map (λ s, (rs_target_entity s, repr_float (rs_confidence s))) l = [("a", "0.6"); ("b", "0.4")]
  | _ => False end.
Proof. vm_compute. auto 10. Qed.

(** ** Lemmas: scores kept in a dictionary *)

Definition scores_ok (d : odict string pyfloat) : Prop := Forall (λ kv, nonneg kv.2) d.

Lemma scores_ok_get d k : scores_ok d → nonneg (default f0 (od_get k d)).
Proof.
  intros Hd. destruct (od_get k d) as [v|] eqn:E; [|right; done]. simpl.
  apply od_get_Some_in in E. unfold scores_ok in Hd. rewrite Forall_forall in Hd. by apply (Hd (k, v)).
Qed.

Lemma scores_ok_set d k v : scores_ok d → nonneg v → scores_ok (od_set k v d).
Proof.
  intros Hd Hv. induction Hd as [|[k' v'] d Hx Hd IH]; simpl.
  - by apply Forall_singleton.
  - case_decide; by apply Forall_cons.
Qed.

Lemma add_score_ok d k v : scores_ok d → nonneg v → scores_ok (add_score d k v).
Proof. intros Hd Hv. apply scores_ok_set; [done|]. apply nonneg_fadd; [by apply scores_ok_get|done]. Qed.

Lemma fold_scores_ok {A} (f : A → string) (g : A → pyfloat) (l : list A) d :
  scores_ok d → Forall (λ x, nonneg (g x)) l → scores_ok (fold_left (λ d x, add_score d (f x) (g x)) l d).
Proof.
  intros Hd Hl. revert d Hd. induction Hl as [|x l Hx Hl IH]; intros d Hd; [done|]. simpl.
  apply IH. by apply add_score_ok.
Qed.

Lemma best_scored_ok d t w : scores_ok d → best_scored d = Some (t, w) → nonneg w.
Proof.
  intros Hd Hb. apply argmax_in in Hb. unfold scores_ok in Hd. rewrite Forall_forall in Hd. by apply (Hd (t, w)).
Qed.

(** ** Lemmas: the methods one by one *)

Lemma event_delta_nonneg t c : nonneg (event_delta t c).
Proof. apply nonneg_fabs. Qed.

Lemma fsub_one_le q : nonneg q → is_nan (fsub f1 q) = true ∨ fle (fsub f1 q) f1 = true.
Proof.
  destruct q as [q| | |]; [|by right|by intros [?|?]|by left].
  rewrite nonneg_Fin. intros H. right. apply of_Q_le_repr; [rewrite Qred_correct; lra|apply repr_f1].
Qed.

Lemma r2_confidence_between w d n c :
  nonneg d → fle d w = true → r2_confidence w d n = Ok c → in_range (lit 3 10) f1 c = true.
Proof.
  intros Hd Hw. unfold r2_confidence. destruct (fdiv d w) as [q|e] eqn:Eq; [|done].
  assert (nonneg w) as Hw0.
  { destruct Hd as [Hd|Hd]; [destruct d, w; done|]. right. by eapply fle_trans. }
  pose proof (nonneg_fdiv _ _ _ Hd Hw0 Eq) as Hq. intros Hc.
  apply Ok_inj in Hc as <-. pose proof (fsub_one_le q Hq) as Hs.
  assert (in_range (lit 4 10) f1 (fmax (lit 4 10) (fsub f1 q)) = true) as Hbase.
  { apply between_split. split; [by apply fmax_ge|by apply fmax_le]. }
  apply (between_weaken (fround 3 (lit 3 10)) (fround 3 f1)); [|vm_compute; done..].
  apply between_round. destruct (Z.ltb_spec 1 n) as [Hn|Hn]; [|by eapply between_weaken].
  apply between_split in Hbase as [Hb1 Hb2]. apply between_split. split; [by apply fmax_ge|].
  apply fmax_le; [done|]. apply fsub_le; [by right|apply repr_f1|].
  apply nonneg_fmul; [by right|]. apply nonneg_of_Q. unfold Qle; simpl; lia.
Qed.

(** The fold over the candidates keeps the first nearest candidate of the window. *)
Definition in_window (w : pyfloat) (t : datetime) (c : temporal_event) : bool := fle (event_delta t c) w.

Definition match_of (t : datetime) (c : temporal_event) : temporal_match := (event_delta t c, c.1.2, c.2).

Definition nearer (t : datetime) (a b : temporal_event) : bool := flt (event_delta t a) (event_delta t b).

Lemma r2_fold w t l best n :
  fold_left (r2_step w t) l (Some (match_of t best), n)
  = (Some (match_of t (argmax_from (nearer t) best (filter (λ c, in_window w t c = true) l))),
     n + Z.of_nat (length (filter (λ c, in_window w t c = true) l)))%Z.
Proof.
  revert best n; induction l as [|c l IH]; intros best n; [by rewrite Z.add_0_r|].
  cbn [fold_left]. rewrite filter_cons. unfold r2_step at 2.
  destruct (fle (event_delta t c) w) eqn:E.
  - rewrite decide_True by done. cbn [length argmax_from].
    replace (if flt _ _ then _ else _) with (Some (match_of t (if nearer t c best then c else best)))
      by (unfold nearer, match_of; simpl; by destruct (flt _ _)).
    rewrite IH. f_equal. lia.
  - rewrite decide_False by (unfold in_window; congruence). by rewrite IH.
Qed.

Lemma r2_fold_none w t l :
  fold_left (r2_step w t) l (None, 0%Z) =
  match filter (λ c, in_window w t c = true) l with
  | [] => (None, 0%Z)
  | c :: l' => (Some (match_of t (argmax_from (nearer t) c l')), Z.of_nat (S (length l')))
  end.
Proof.
  induction l as [|c l IH]; [done|]. cbn [fold_left]. rewrite filter_cons. unfold r2_step at 2.
  destruct (fle (event_delta t c) w) eqn:E.
  - rewrite decide_True by done. fold (match_of t c). rewrite r2_fold. f_equal. lia.
  - by rewrite decide_False by (unfold in_window; congruence).
Qed.

Lemma token_overlap_unit a b : unit_itv (token_overlap a b) = true.
Proof.
  unfold token_overlap. set (ta := remove_dups (split_ws a)). set (tb := remove_dups (split_ws b)).
  pose proof (length_filter (λ t, t ∈ tb) ta) as Hle.
  destruct ta as [|x ta'] eqn:Ea; [reflexivity|]. destruct tb as [|y tb'] eqn:Eb; [reflexivity|].
  rewrite <- Ea, <- Eb in *. assert (0 < length ta) by (rewrite Ea; simpl; lia).
  apply of_Q_unit. unfold Qle. cbn [Qnum Qden]. split; [lia|].
  replace (Z.pos (Pos.of_nat (length ta `max` length tb))) with (Z.of_nat (length ta `max` length tb)) by lia.
  lia.
Qed.

Lemma r3_similarity_unit a b : unit_itv (r3_similarity a b) = true.
Proof.
  unfold r3_similarity. apply unit_cap, nonneg_fadd.
  - destruct (_ || _); apply unit_nonneg; [apply unit_cap, nonneg_fadd|]; auto using similarity_ratio_unit.
    + apply unit_nonneg, similarity_ratio_unit.
    + by right.
  - apply nonneg_fmul; [apply unit_nonneg, token_overlap_unit|by right].
Qed.

(** The fold over the patterns: the first of the most similar ones, if any is above zero. *)
Definition r3_chosen (name : string) (best : name_match) : Prop :=
  unit_itv best.1 = true ∧
  match best.2 with None => best.1 = f0 | Some tp => best.1 = r3_similarity name (r3_normalize tp.2) end.

Lemma r3_fold name l best :
  r3_chosen name best →
  let r := fold_left (r3_step name) l best in
  r3_chosen name r ∧ fle best.1 r.1 = true ∧
  Forall (λ tp, fle (r3_similarity name (r3_normalize tp.2)) r.1 = true) l ∧
  (∀ tp, r.2 = Some tp → best.2 = Some tp ∨ tp ∈ l).
Proof.
  revert best; induction l as [|tp l IH]; intros best Hb; cbn [fold_left].
  { destruct Hb as [Hb1 Hb2]. split_and!; [done|by apply fle_refl, unit_not_nan|constructor|auto]. }
  set (s := r3_similarity name (r3_normalize tp.2)).
  pose proof (r3_similarity_unit name (r3_normalize tp.2)) as Hs. fold s in Hs.
  assert (r3_chosen name (r3_step name best tp) ∧ fle best.1 (r3_step name best tp).1 = true ∧
    fle s (r3_step name best tp).1 = true ∧
    ((r3_step name best tp).2 = Some tp ∨ (r3_step name best tp).2 = best.2)) as (H1 & H2 & H3 & H4).
  { unfold r3_step. fold s. destruct Hb as [Hb1 Hb2]. destruct (flt best.1 s) eqn:E; simpl.
    - split_and!; [done|by apply flt_fle|by apply fle_refl, unit_not_nan|by left].
    - apply flt_false in E; [|by apply unit_not_nan..].
      split_and!; [done|by apply fle_refl, unit_not_nan|done|by right]. }
  destruct (IH _ H1) as (I1 & I2 & I3 & I4). split_and!; [done|by eapply fle_trans| |].
  - constructor; [by eapply fle_trans|done].
  - intros tp' Htp. destruct (I4 tp' Htp) as [E|E]; [|right; by right].
    destruct H4 as [E'|E']; rewrite E' in E; [|by left]. injection E as ->. right. by left.
Qed.

Lemma r3_fold_init name l :
  let r := fold_left (r3_step name) l (f0, None) in
  r3_chosen name r ∧ Forall (λ tp, fle (r3_similarity name (r3_normalize tp.2)) r.1 = true) l ∧
  (∀ tp, r.2 = Some tp → tp ∈ l).
Proof.
  destruct (r3_fold name l (f0, None)) as (H1 & _ & H3 & H4); [by split|].
  split_and!; [done|done|]. intros tp Htp. by destruct (H4 tp Htp).
Qed.

Lemma r3_confidence_between b : unit_itv b = true →
  in_range f0 (lit 9 10) (fround 3 (fmin (lit 9 10) (fmul b (lit 9 10)))) = true.
Proof.
  intros Hb. apply (between_weaken (fround 3 f0) (fround 3 (lit 9 10))); [|vm_compute; done..].
  apply between_round, between_split. split; [|by apply fmin_le].
  apply nonneg_fmin; [done|]. apply nonneg_fmul; [by apply unit_nonneg|by right].
Qed.

(** Equal normalized names are similar to degree one. *)
Lemma r3_similarity_self name : String.length name < 200 → r3_similarity name name = f1.
Proof.
  intros Hlen. unfold r3_similarity. rewrite similarity_ratio_self by done.
  assert (str_in name name = true) as ->.
  { assert (String.prefix name name = true) as Hp.
    { clear. induction name as [|c s IH]; simpl; [done|]. destruct (Ascii.ascii_dec c c); [done|congruence]. }
    by destruct name; simpl in *; rewrite ?Hp. }
  cbn [orb]. change (fmin f1 (fadd f1 (lit 15 100))) with (f1).
  unfold fmin. assert (flt (fadd f1 (fmul (token_overlap name name) (lit 1 10))) f1 = false) as ->; [|done].
  pose proof (unit_mul _ (lit 1 10) (token_overlap_unit name name) eq_refl) as (q & -> & Hq)%unit_itv_fin.
  simpl. assert (fle f1 (of_Q (1 + q)) = true) as Hge by (apply of_Q_ge_repr; [lra|apply repr_f1]).
  destruct (of_Q (1 + q)) eqn:E; try done. simpl in *. by rewrite Hge.
Qed.

(** ** Lemmas: R4, R5 and R6 *)

Lemma cap_between cap x : fle f0 cap = true → fround 3 cap = cap → nonneg x →
  in_range f0 cap (fround 3 (fmin cap x)) = true.
Proof.
  intros Hc Hr Hx. rewrite <- Hr at 1. change f0 with (fround 3 f0).
  apply between_round, between_split. split; [by apply nonneg_fmin|].
  apply fmin_le. by apply fle_not_nan_r in Hc.
Qed.

Lemma add_count_nonneg l d k :
  (∀ k, 0 <= default 0 (od_get k d))%Z →
  (0 <= default 0 (od_get k (fold_left (λ d (h : string * pyfloat), add_count d h.1) l d)))%Z.
Proof.
  revert d; induction l as [|h l IH]; intros d Hd; [apply Hd|]. cbn [fold_left]. apply IH. intros k'.
  unfold add_count. rewrite od_get_set. case_decide; [|apply Hd]. specialize (Hd h.1). simpl. lia.
Qed.

Lemma r4_confidence_between dom count : nonneg dom → (0 <= count)%Z →
  in_range f0 (lit 85 100) (fround 3 (fmin (lit 85 100)
    (fadd (fmul dom (lit 7 10)) (fmul (fmin f1 (of_Q (Qmake count 10))) (lit 2 10))))) = true.
Proof.
  intros Hd Hc. apply cap_between; [done|vm_compute; done|].
  apply nonneg_fadd; apply nonneg_fmul; [done|by right| |by right].
  right. apply nonneg_fmin; [done|]. apply nonneg_of_Q. unfold Qle; simpl; lia.
Qed.

Lemma r4_between e hist n sig :
  Forall (λ h, fle f0 h.2 = true) hist → R4_resolve e hist n = Ok (Some sig) →
  in_range f0 (lit 85 100) (rs_confidence sig) = true.
Proof.
  intros Hh. unfold R4_resolve. destruct (_ <? _); [done|].
  set (scores := fold_left (λ d h, add_score d h.1 h.2) hist []).
  assert (scores_ok scores) as Hs.
  { apply fold_scores_ok; [constructor|]. eapply Forall_impl; [exact Hh|]. intros h H. by right. }
  destruct (best_scored scores) as [[t w]|] eqn:Eb; [|done].
  pose proof (best_scored_ok _ _ _ Hs Eb) as Hw.
  pose proof (add_count_nonneg hist [] t ltac:(done)) as Hcount.
  destruct (flt f0 (py_sum (od_values scores))) eqn:Et.
  - destruct (fdiv w (py_sum (od_values scores))) as [d|x] eqn:Ed; cbn [rbind]; [|done].
    intros <-%Ok_inj%Some_inj. apply r4_confidence_between; [|done].
    eapply nonneg_fdiv; [exact Hw| |exact Ed]. right. by apply flt_fle.
  - cbn [rbind]. intros <-%Ok_inj%Some_inj. apply r4_confidence_between; [by right|done].
Qed.

Section R5_lemmas.
  Context `{SetOrder} (local_to_utc : Z → instant).

Lemma r5_scores_ok now lookback deployers code_owners recent d :
    r5_scores now lookback deployers code_owners recent = Ok d → scores_ok d.
  Proof.
    unfold r5_scores. set (n := Z.max 1 (Z.of_nat (length recent))).
    destruct (fdiv _ _) as [share|x] eqn:E; cbn [rbind]; [|done]. intros <-%Ok_inj.
    assert (nonneg share) as Hsh.
    { eapply nonneg_fdiv; [| |exact E]; [by right|]. apply nonneg_of_Q. unfold Qle; simpl; lia. }
    apply (fold_scores_ok id (λ _, share)).
    - apply (fold_scores_ok id (λ _, lit 25 100)).
      + destruct (List.find _ deployers) as [[o t]|]; [|constructor].
        apply add_score_ok; [constructor|by right].
      + apply Forall_true. by right.
    - by apply Forall_true.
  Qed.

Lemma r5_between e dep co ru lookback t sig :
    R5_resolve local_to_utc e dep co ru lookback t = Ok (Some sig) →
    in_range f0 (lit 75 100) (rs_confidence sig) = true.
  Proof.
    unfold R5_resolve. destruct (sort_recent dep) as [dep'|x]; [|done]. cbn [rbind].
    destruct (r5_scores _ _ _ _ _) as [d|x] eqn:Es; [|done]. cbn [rbind].
    destruct (best_scored d) as [[o s]|] eqn:Eb; [|done]. intros <-%Ok_inj%Some_inj. cbn [rs_confidence].
    apply cap_between; [done|vm_compute; done|]. eapply best_scored_ok; [|done]. by eapply r5_scores_ok.
  Qed.
End R5_lemmas.

Lemma r6_signal_between e total n u sig :
  flt f0 u.2 = true → fle total f0 = false → r6_signal e total n u = Ok sig →
  rs_target_entity sig = u.1 ∧ in_range (lit 3 10) (lit 65 100) (rs_confidence sig) = true.
Proof.
  intros Hu Ht. unfold r6_signal. destruct (fdiv u.2 total) as [p|x] eqn:Ed; [|done]. cbn [rbind].
  intros <-%Ok_inj. split; [done|]. cbn [rs_confidence].
  assert (nonneg p) as Hp.
  { eapply nonneg_fdiv; [| |exact Ed]; [right; by apply flt_fle|].
    destruct (is_nan total) eqn:En; [by left|right]. by apply fle_false_flip in Ht. }
  assert (nonneg (fmul p (lit 4 10))) as Hm by (apply nonneg_fmul; [done|by right]).
  apply (between_weaken (fround 3 (lit 3 10)) (fround 3 (lit 65 100))); [|vm_compute; done..].
  apply between_round, between_split. split; [|by apply fmin_le]. apply fmin_ge; [done|].
  destruct (fmul p (lit 4 10)) as [q| | |]; [|by right|by destruct Hm|by left].
  right. apply nonneg_Fin in Hm. apply of_Q_ge_repr; [|vm_compute; done].
  assert (0 <= q)%Q as Hq by done. clear -Hq. change (rnd_pos (3 # 10)) with (5404319552844595 # 18014398509481984)%Q. lra.
Qed.

Lemma r6_resolve_spec e users sigs :
  R6_resolve e users = Ok sigs →
  Forall (λ s, in_range (lit 3 10) (lit 65 100) (rs_confidence s) = true) sigs ∧
  (sigs = [] ∨ map rs_target_entity sigs = map fst (filter (λ u : string * pyfloat, flt f0 u.2 = true) (users : list (string * pyfloat)))).
Proof.
  unfold R6_resolve. set (pos := filter _ _). destruct (fle _ f0) eqn:Et.
  { intros <-%Ok_inj. split; [constructor|by left]. }
  intros Hm. eapply map_res_Forall in Hm; [|intros u s Hu Hs; eapply r6_signal_between in Hs; [exact Hs| |exact Et]].
  - split; [|right].
    + clear -Hm. induction Hm as [|u s l l' [_ H] Hm IH]; by constructor.
    + clear -Hm. induction Hm as [|u s l l' [H _] Hm IH]; simpl; [done|]. by rewrite H, IH.
  - subst pos. by apply list_elem_of_filter in Hu as [Hu _].
Qed.

Lemma r1_confidence e m s : R1_resolve e m = Some s → rs_confidence s = f1 ∨ rs_confidence s = lit 98 100.
Proof.
  unfold R1_resolve. destruct (od_get e m); [intros <-%Some_inj; by left|].
  destruct (List.find _ m) as [[k t]|]; [|done]. intros <-%Some_inj. by right.
Qed.

Lemma r2_between w t e l s : R2_resolve w t e l = Ok (Some s) → in_range (lit 3 10) f1 (rs_confidence s) = true.
Proof.
  unfold R2_resolve. rewrite r2_fold_none.
  destruct (filter (λ c, in_window w t c = true) l) as [|c l'] eqn:Ef; [done|]. cbn [match_of].
  set (b := argmax_from (nearer t) c l').
  assert (in_window w t b = true) as Hb.
  { assert (b ∈ filter (λ c, in_window w t c = true) l) as Hin by (rewrite Ef; apply argmax_from_in).
    by apply list_elem_of_filter in Hin as [? _]. }
  destruct (r2_confidence _ _ _) as [conf|] eqn:Ec; cbn [rbind]; [|done]. intros <-%Ok_inj%Some_inj.
  eapply r2_confidence_between; [|exact Hb|exact Ec]. apply event_delta_nonneg.
Qed.

Lemma r3_between e p m s : R3_resolve e p m = Some s → in_range f0 (lit 9 10) (rs_confidence s) = true.
Proof.
  unfold R3_resolve. destruct (r3_fold_init (r3_normalize e) (team_patterns p)) as ([Hu _] & _).
  destruct (fold_left _ _ _) as [b [[t pat]|]]; [|done]. destruct (flt b m); [done|].
  intros <-%Some_inj. by apply r3_confidence_between.
Qed.

(** A positive finite window never makes the division raise. *)
Lemma r2_confidence_ok w d n : (0 < w)%Q → ∃ x, r2_confidence (Fin w) d n = Ok x.
Proof.
  intros Hw. unfold r2_confidence. assert (Qeq_bool w 0 = false) as Hz.
  { apply not_true_iff_false. rewrite Qeq_bool_iff. lra. }
  unfold fdiv. destruct d; rewrite Hz; by eexists.
Qed.

Lemma r2_total w t e l : (0 < w)%Q → is_ok (R2_resolve (Fin w) t e l) = true.
Proof.
  intros Hw. unfold R2_resolve. destruct (fold_left _ _ _) as [[[[d x] y]|] n]; [|done].
  by destruct (r2_confidence_ok w d n Hw) as [c ->].
Qed.

Lemma r4_total e h n : is_ok (R4_resolve e h n) = true.
Proof.
  unfold R4_resolve. destruct (_ <? _); [done|]. destruct (best_scored _) as [[t w]|]; [|done].
  destruct (flt f0 _) eqn:Et; [|done].
  destruct (fdiv_ok w _ (flt_zero_fle _ Et)) as [z ->]. done.
Qed.

(** R5 raises only on deployments whose times have no common order. *)
Lemma r5_outcome `{SetOrder} local_to_utc e dep co ru k t :
  match R5_resolve local_to_utc e dep co ru k t with
  | Ok _ => True
  | Raise x => x = TypeError ∧ existsb (λ o, is_naive o.2) dep && existsb (λ o, negb (is_naive o.2)) dep = true
  end.
Proof.
  unfold R5_resolve, sort_recent. destruct (existsb _ dep && _); [done|]. cbn [rbind].
  unfold r5_scores. set (n := Z.max 1 _).
  destruct (fdiv_ok (lit 15 100) (of_Z n)) as [z ->].
  { assert (fle f1 (of_Z n) = true) as Hge; [|by destruct (of_Z n); simpl in *; try done;
      apply Qle_bool_iff in Hge; apply Qle_bool_false; lra].
    apply of_Q_ge_repr; [|apply repr_f1]. unfold Qle; simpl; lia. }
  cbn [rbind]. by destruct (best_scored _) as [[o s]|].
Qed.

Lemma r6_total e u : ∃ l, R6_resolve e u = Ok l.
Proof.
  unfold R6_resolve. set (pos := filter _ _). destruct (fle _ f0) eqn:Et; [by eexists|].
  apply map_res_total. intros x _. unfold r6_signal.
  by destruct (fdiv_ok x.2 _ Et) as [z ->].
Qed.

(** ** Properties *)

(** Every confidence a method reports is in the method's range, whatever the inputs are
    (infinite, NaN and out-of-range values included; for R4 the past confidences must not be
    negative): 1.0 or 0.98 for a direct match, [0.3, 1] for a temporal one, at most 0.9 for
    a name, 0.85 for history, 0.75 for a service account, and [0.3, 0.65] for a proportional
    allocation, which reports exactly the users of positive weight, in order, or none. *)
Theorem hre_method_bounds `{SetOrder} (local_to_utc : Z → instant) :
  (∀ e m s, R1_resolve e m = Some s → rs_confidence s = f1 ∨ rs_confidence s = lit 98 100) ∧
  (∀ w t e l s, R2_resolve w t e l = Ok (Some s) → in_range (lit 3 10) f1 (rs_confidence s) = true) ∧
  (∀ e p m s, R3_resolve e p m = Some s → in_range f0 (lit 9 10) (rs_confidence s) = true) ∧
  (∀ e h n s, Forall (λ x, fle f0 x.2 = true) h → R4_resolve e h n = Ok (Some s) →
     in_range f0 (lit 85 100) (rs_confidence s) = true) ∧
  (∀ e d c r k t s, R5_resolve local_to_utc e d c r k t = Ok (Some s) →
     in_range f0 (lit 75 100) (rs_confidence s) = true) ∧
  (∀ e u l, R6_resolve e u = Ok l →
     Forall (λ s, in_range (lit 3 10) (lit 65 100) (rs_confidence s) = true) l ∧
     (l = [] ∨ map rs_target_entity l
               = map fst (filter (λ x : string * pyfloat, flt f0 x.2 = true) (u : list (string * pyfloat))))).
Proof.
  split_and!.
  - apply r1_confidence.
  - apply r2_between.
  - apply r3_between.
  - apply r4_between.
  - apply r5_between.
  - apply r6_resolve_spec.
Qed.

(** R2 picks the nearest event of the window. It gives no signal exactly when no candidate is
    within the window; otherwise, for a positive finite window, it does give one, whose target
    is a candidate in the window that no other is nearer than, and whose confidence is the one
    of that distance and of the number of candidates in the window. *)
Theorem r2_nearest (window : Q) (t : datetime) (e : string) (l : list temporal_event)
    (Hw : (0 < window)%Q) :
  let near := filter (λ c, in_window (Fin window) t c = true) l in
  (near = [] ∧ R2_resolve (Fin window) t e l = Ok None) ∨
  ∃ best s, R2_resolve (Fin window) t e l = Ok (Some s) ∧ best ∈ near ∧
    (∀ c, c ∈ near → flt (event_delta t c) (event_delta t best) = false) ∧
    rs_target_entity s = best.1.2 ∧
    r2_confidence (Fin window) (event_delta t best) (Z.of_nat (length near)) = Ok (rs_confidence s).
Proof.
  intros near. unfold R2_resolve. rewrite r2_fold_none. fold near.
  destruct near as [|c l'] eqn:En; [by left|]. right. cbn [match_of].
  exists (argmax_from (nearer t) c l').
  destruct (r2_confidence_ok window (event_delta t (argmax_from (nearer t) c l')) (Z.of_nat (S (length l'))) Hw) as [x Hx].
  eexists. rewrite Hx. cbn [rbind]. split_and!; [done|apply argmax_from_in| |done|done].
  assert (∀ y, is_nan (event_delta t y) = false) as Hn.
  { intros y. unfold event_delta, total_seconds. pose proof (of_Q_not_nan (Qmake (to_utc t - to_utc y.1.1) 1000000)).
    by destruct (of_Q _). }
  apply (argmax_from_maximal (nearer t) (λ _, True)); [..|done|by apply Forall_true].
  - intros y _. apply flt_irrefl.
  - unfold nearer. intros x1 y1 z1 _ _ _. rewrite !flt_false by done. intros H1 H2. by eapply fle_trans.
  - unfold nearer. intros x1 y1 _ _. apply flt_asym.
Qed.

(** A name that normalizes to one of a team's patterns is always resolved, with the maximal
    confidence 0.9, to a team one of whose patterns is as similar as can be; so no merely
    similar pattern of another team takes its place. *)
Theorem r3_exact_name (name team pattern : string) (patterns : odict string (list string))
    (Hin : (team, pattern) ∈ team_patterns patterns)
    (Heq : r3_normalize pattern = r3_normalize name) (Hlen : String.length (r3_normalize name) < 200) :
  ∃ s pattern', R3_resolve name patterns default_min_similarity = Some s ∧
    rs_confidence s = lit 9 10 ∧ (rs_target_entity s, pattern') ∈ team_patterns patterns ∧
    r3_similarity (r3_normalize name) (r3_normalize pattern') = f1.
Proof.
  unfold R3_resolve.
  destruct (r3_fold_init (r3_normalize name) (team_patterns patterns)) as ([Hu Hc] & Hall & Hmem).
  destruct (fold_left _ _ _) as [b o]. cbn [fst snd] in *.
  rewrite Forall_forall in Hall. specialize (Hall _ Hin). cbn [snd] in Hall.
  rewrite Heq, r3_similarity_self in Hall by done.
  destruct o as [[t p]|]; [|subst b; done].
  assert (b = f1) as ->.
  { assert (repr b) as Hr.
    { rewrite Hc. unfold r3_similarity, fmin at 1. destruct (flt _ _); [|apply repr_f1].
      destruct (if _ || _ then _ else _), (fmul _ _); simpl; auto with pyfloat. }
    apply unit_itv_fin in Hu as (q & -> & Hq). simpl in Hall. apply Qle_bool_iff in Hall.
    assert (q == 1)%Q as E by lra. simpl in Hr. rewrite <- Hr, (of_Q_comp _ _ E). apply repr_f1. }
  exists (mkSignal "R3" name t (lit 9 10) ["naming:" +:+ p +:+ ":" +:+ fmt_fixed 2 f1]
    [("string_similarity", VFloat (fround 3 f1)); ("matched_pattern", VStr p)]), p.
  split_and!; [|done|by apply Hmem|by rewrite Hc].
  change (flt f1 default_min_similarity) with false. cbn [fst snd]. f_equal.
Qed.

(** Another enumeration of the same set. *)
Definition reversed_order : SetOrder := {| set_iter l := rev (remove_dups l);
  set_iter_perm l := Permutation_sym (Permutation_rev (remove_dups l)) |}.

(** Scores of two users that have nothing but their recent use: equal, in the order of the set. *)
Lemma r5_scores_pair now a b :
  a ≠ b → let x := lit 75 1000 in r5_scores now default_lookback [] [] [a; b] = Ok [(a, x); (b, x)].
Proof.
  intros Hne x. unfold r5_scores. cbn [List.find fold_left length].
  replace (fdiv (lit 15 100) (of_Z (Z.max 1 (Z.of_nat 2)))) with (Ok x) by (vm_compute; done).
  cbn [rbind]. unfold add_score. cbn [od_get od_set]. rewrite !(decide_False (P := b = a)) by done.
  cbn [default]. by replace (fadd f0 x) with x by (vm_compute; done).
Qed.

(** The owner R5 names can depend on the hash order of a set: for a service account with
    two recent users and no other evidence, two runs that enumerate the set of users
    differently attribute the account to different owners, with the same confidence. *)
Theorem r5_hash_order (local_to_utc : Z → instant) (account u v : string) (us now : instant)
    (Hne : u ≠ v) (Hrecent : (now - us <= default_lookback)%Z) :
  let run order := @R5_resolve order local_to_utc account [] []
                     [(u, Aware us 0); (v, Aware us 0)] default_lookback (Aware now 0) in
  ∃ s s', run insertion_order = Ok (Some s) ∧ run reversed_order = Ok (Some s') ∧
    rs_target_entity s = u ∧ rs_target_entity s' = v ∧ rs_confidence s = rs_confidence s'.
Proof.
  intros run. subst run. unfold R5_resolve. cbn [existsb sort_recent rbind astimezone_utc andb].
  rewrite !filter_cons. unfold within_lookback at 1 2 3 4. cbn [snd to_utc fst].
  rewrite !(decide_True (P := (now - us <=? default_lookback)%Z = true)) by (by apply Z.leb_le).
  rewrite filter_nil. cbn [map fst].
  assert (remove_dups [u; v] = [u; v]) as Hd.
  { cbn [remove_dups]. repeat case_decide; set_solver. }
  cbn [set_iter insertion_order reversed_order]. rewrite Hd. cbn [rev app stable_sort].
  rewrite (r5_scores_pair now u v Hne), (r5_scores_pair now v u) by done.
  cbn [rbind best_scored argmax argmax_from snd]. rewrite flt_irrefl.
  eexists _, _. by split_and!.
Qed.

(** ** Witnesses *)

Definition at_us (us : Z) : datetime := Aware us 0.

Lemma hre_method_bounds_witness :
  ∃ s, @R5_resolve insertion_order id "svc" [("ann", at_us 5)] ["ann"; "ann"] [] default_lookback (at_us 9) = Ok (Some s) ∧
    in_range f0 (lit 75 100) (rs_confidence s) = true.
Proof.
  eexists. split; [vm_compute; reflexivity|].
  apply (@hre_method_bounds insertion_order id) with (e := "svc") (d := [("ann", at_us 5)])
    (c := ["ann"; "ann"]) (r := []) (k := default_lookback) (t := at_us 9). vm_compute. reflexivity.
Defined.

Lemma r2_nearest_witness :
  let t := at_us 1000000000 in
  let l := [(at_us 1060000000, "x", "cicd"); (at_us 970000000, "y", "scm"); (at_us 0, "z", "scm")] in
  (filter (λ c, in_window (Fin 300) t c = true) l = [] ∧ R2_resolve (Fin 300) t "e" l = Ok None) ∨
  ∃ best s, R2_resolve (Fin 300) t "e" l = Ok (Some s) ∧
    best ∈ filter (λ c, in_window (Fin 300) t c = true) l ∧
    (∀ c, c ∈ filter (λ c, in_window (Fin 300) t c = true) l → flt (event_delta t c) (event_delta t best) = false) ∧
    rs_target_entity s = best.1.2 ∧
    r2_confidence (Fin 300) (event_delta t best)
      (Z.of_nat (length (filter (λ c, in_window (Fin 300) t c = true) l))) = Ok (rs_confidence s).
Proof. intros t l. apply (r2_nearest 300 t "e" l). reflexivity. Defined.

Lemma r3_exact_name_witness :
  ∃ s pattern', R3_resolve "NLP-Batch" [("team:a", ["nlp"]); ("team:b", ["nlp_batch"])] default_min_similarity = Some s ∧
    rs_confidence s = lit 9 10 ∧
    (rs_target_entity s, pattern') ∈ team_patterns [("team:a", ["nlp"]); ("team:b", ["nlp_batch"])] ∧
    r3_similarity (r3_normalize "NLP-Batch") (r3_normalize pattern') = f1.
Proof.
  apply (r3_exact_name "NLP-Batch" "team:b" "nlp_batch").
  - right. left.
  - vm_compute. reflexivity.
  - vm_compute. lia.
Defined.

Lemma r5_hash_order_witness :
  let run order := @R5_resolve order id "svc" [] [] [("ann", at_us 3); ("bob", at_us 3)] default_lookback (at_us 9) in
  ∃ s s', run insertion_order = Ok (Some s) ∧ run reversed_order = Ok (Some s') ∧
    rs_target_entity s = "ann" ∧ rs_target_entity s' = "bob" ∧ rs_confidence s = rs_confidence s'.
Proof. apply (r5_hash_order id "svc" "ann" "bob" 3%Z 9%Z); [discriminate|]. vm_compute. discriminate. Defined.
