(* ===== verification/HreEngine.v ===== *)
(** * The reconciliation engine (src/aci/hre/engine.py)

    [resolve] as a computation in [SE] over the engine's cache and the number of clock
    readings made. The monotonic clock is a stream read at consecutive ticks; the two
    configurations, the order of sets and the local zone are section parameters. *)

From S2P Require Import Prelude PyFloat PyData PyMath PyTime PyValue Models Combination HreMethods.
From Stdlib Require Import ZArith QArith Lia Lqa.
From stdpp Require Import base list strings sets.

Open Scope string_scope.
Open Scope list_scope.
Open Scope nat_scope.
Local Open Scope py_scope.

(** ** Data *)

Record HREExecutionConfig := mkExecutionConfig {
  max_resolve_ms : pyfloat;
  max_cluster_targets : Z;
  max_historical_signals : Z;
  cache_ttl_seconds : pyfloat;
  cache_max_entries : Z;
}.

Definition default_execution_config : HREExecutionConfig :=
  mkExecutionConfig (of_Z 25) 25 500 (of_Z 30) 10000.

Record ReconciliationContext := mkContext {
  ctx_tenant_id : string;
  identity_mappings : odict string string;
  temporal_events : list (datetime * string * string);
  naming_patterns : odict string (list string);
  historical_attributions : list (string * pyfloat);
  deployment_owners : list (string * datetime);
  ctx_code_owners : list string;
  recent_users : list (string * datetime);
  proportional_users : odict string pyfloat;
}.

(** [ReconciliationContext()] *)
Definition ReconciliationContext_init : ReconciliationContext :=
  mkContext "default" [] [] [] [] [] [] [] [].

Abbreviation cache_item := (pyfloat * AttributionResult)%type.

(** The engine's mutable state. *)
Record Engine := mkEngine {
  hre_cache : odict string cache_item;
  hre_ticks : nat;
}.

Definition Engine_init : Engine := mkEngine [] 0.

Abbreviation cluster := (string * list ReconciliationSignal)%type.

(** ** Slices *)

(** [l[-n:]] *)
Definition slice_last {A} (n : Z) (l : list A) : list A :=
  if (0 <? n)%Z then list_last_n (Z.to_nat n) l else drop (Z.to_nat (- n)) l.

(** [l[:n]] *)
Definition list_slice_to {A} (n : Z) (l : list A) : list A :=
  if (0 <=? n)%Z then take (Z.to_nat n) l else take (Z.to_nat (Z.of_nat (length l) + n)) l.

(** ** Results *)

Definition signal_record (s : ReconciliationSignal) : pyval :=
  VDict [("method", VStr (rs_method s)); ("confidence", VFloat (rs_confidence s));
         ("signals", VList (map VStr (rs_signals s)))].

Definition joined_methods (signals : list ReconciliationSignal) : string :=
  str_join "+" (map rs_method signals).

Definition _build_result (entity_id : string) (primary_signal : ReconciliationSignal)
    (all_signals : list ReconciliationSignal) (combined : pyfloat) (alternatives : list pyval)
    (fractional : list FractionalAttribution) : AttributionResult :=
  let path := [mkPathNode "Identity" entity_id entity_id combined (joined_methods all_signals)
                 (str_join ", " (map (λ s, match rs_signals s with x :: _ => x | [] => rs_method s end) all_signals))] in
  let explanation :=
    mkExplanation ("attr_" +:+ entity_id +:+ "_" +:+ rs_target_entity primary_signal)
      (rs_target_entity primary_signal) combined (joined_methods all_signals)
      (map signal_record all_signals)
      (fold_left (λ d s, od_set (rs_method s) (VDict (rs_feature_values s)) d) all_signals [])
      alternatives in
  mkResult entity_id path combined (Some explanation) fractional [].

Definition unresolved_result (entity_id : string) : AttributionResult :=
  mkResult entity_id [] f0 (Some (mkExplanation ("attr_" +:+ entity_id) "unresolved" f0 "none" [] [] [])) [] [].

(** [max(signals, key=lambda s: s.confidence)] *)
Definition strongest (signals : list ReconciliationSignal) : option ReconciliationSignal :=
  argmax (λ a b, flt (rs_confidence b) (rs_confidence a)) signals.

(** [max(s.confidence for s in cluster)]; clusters are not empty. *)
Definition cluster_max (signals : list ReconciliationSignal) : pyfloat :=
  match strongest signals with Some s => rs_confidence s | None => f0 end.

Definition _timeboxed_fallback (entity_id : string) (signals : list ReconciliationSignal) : option AttributionResult :=
  match strongest signals with
  | Some best => Some (_build_result entity_id best [best] (fmul (rs_confidence best) (lit 9 10)) [] [])
  | None => None
  end.

Definition _cluster_by_target (signals : list ReconciliationSignal) : odict string (list ReconciliationSignal) :=
  fold_left (λ clusters s,
    od_set (rs_target_entity s) (default [] (od_get (rs_target_entity s) clusters) ++ [s]) clusters) signals [].

Definition rank_clusters (clusters : list cluster) : list cluster :=
  stable_sort (λ a b, flt (cluster_max b.2) (cluster_max a.2)) clusters.

Definition _build_alternatives (target_signals : list cluster) (best_target : string) : list pyval :=
  map (λ c, VDict [("team_id", VStr c.1); ("confidence", VFloat (cluster_max c.2));
                   ("methods", VList (map (λ s, VStr (rs_method s)) c.2))])
      (rank_clusters (filter (λ c : cluster, c.1 ≠ best_target) target_signals)).

(** [FractionalAttribution(...)] of an R6 signal; the weight is validated. *)
Definition fractional_of (s : ReconciliationSignal) : res FractionalAttribution :=
  let weight := match dget (rs_feature_values s) "allocation_weight" (VFloat f0) with VFloat w => w | _ => f0 end in
  if unit_itv weight
  then Ok (mkFractional (rs_target_entity s) (rs_target_entity s) "" weight (rs_confidence s))
  else Raise (ValueError "weight").

(** ** The engine *)

Section engine.
  Context `{SetOrder} (local_to_utc : Z → instant) (monotonic : nat → pyfloat).
  Context (combination_config : CombinationConfig) (cfg : HREExecutionConfig).

  (** [time.monotonic()] *)
Definition read_clock : SE Engine pyfloat := λ e,
    (Ok (monotonic (hre_ticks e)), mkEngine (hre_cache e) (S (hre_ticks e))).

Definition set_cache (d : odict string cache_item) : SE Engine unit :=
    se_modify (λ e, mkEngine d (hre_ticks e)).

Definition _exceeded_budget (started : pyfloat) : SE Engine bool :=
    let! now := read_clock in
    se_ret (flt (max_resolve_ms cfg) (fmul (fsub now started) (of_Z 1000))).

Definition _get_cached (key : string) : SE Engine (option AttributionResult) :=
    let! cache := se_get hre_cache in
    match od_get key cache with
    | None => se_ret None
    | Some (cached_at, result) =>
        let! now := read_clock in
        if flt (cache_ttl_seconds cfg) (fsub now cached_at)
        then set_cache (od_del key cache);;; se_ret None
        else set_cache (od_move_to_end key cache);;; se_ret (Some result)
    end.

  (** [while len(self._cache) > cache_max_entries: self._cache.popitem(last=False)] *)
Fixpoint evict_oldest (d : odict string cache_item) : res unit * odict string cache_item :=
    if (Z.of_nat (length d) >? cache_max_entries cfg)%Z
    then match d with [] => (Raise (KeyError "dictionary is empty"), []) | _ :: d' => evict_oldest d' end
    else (Ok tt, d).

Definition _cache_result (key : string) (result : AttributionResult) : SE Engine unit :=
    let! now := read_clock in
    let! cache := se_get hre_cache in
    let '(r, d) := evict_oldest (od_move_to_end key (od_set key (now, result) cache)) in
    set_cache d;;; se_lift r.

  (** The signals of R2 to R5, after R1's. *)
Definition collect_signals (entity_id : string) (event_time : datetime) (context : ReconciliationContext)
      (r1 : option ReconciliationSignal) : res (list ReconciliationSignal) :=
    let? r2 := R2_resolve default_max_window_seconds event_time entity_id (temporal_events context) in
    let r3 := R3_resolve entity_id (naming_patterns context) default_min_similarity in
    let historical := slice_last (max_historical_signals cfg) (historical_attributions context) in
    let? r4 := R4_resolve entity_id historical default_min_history_count in
    let? r5 := R5_resolve local_to_utc entity_id (deployment_owners context) (ctx_code_owners context)
                 (recent_users context) default_lookback event_time in
    Ok (omap id [r1; r2; r3; r4; r5]).

Abbreviation best_state := (option (string * list ReconciliationSignal) * pyfloat)%type.

Definition combined_of (c : list ReconciliationSignal) : pyfloat :=
    combined_confidence (combine_evidence (map (λ s, (rs_method s, rs_confidence s)) c)
                                          (Some combination_config) None).

  (** The loop over the clusters; it stops when the budget is used up. *)
Fixpoint best_cluster (started : pyfloat) (clusters : list cluster) (best : best_state) : SE Engine best_state :=
    match clusters with
    | [] => se_ret best
    | c :: rest =>
        let! exceeded := _exceeded_budget started in
        if exceeded then se_ret best else
        let v := combined_of c.2 in
        best_cluster started rest (if flt best.2 v then (Some c, v) else best)
    end.

  (** Step 4 and step 5. *)
Definition fallback (entity_id : string) (context : ReconciliationContext) : res AttributionResult :=
    let? r6_signals := R6_resolve entity_id (proportional_users context) in
    match strongest r6_signals with
    | Some best_r6 =>
        let? fractional := map_res fractional_of r6_signals in
        Ok (_build_result entity_id best_r6 r6_signals (rs_confidence best_r6) [] fractional)
    | None => Ok (unresolved_result entity_id)
    end.

Definition kept_clusters (signals : list ReconciliationSignal) : list cluster :=
    let target_signals := _cluster_by_target signals in
    if (Z.of_nat (length target_signals) >? max_cluster_targets cfg)%Z
    then list_slice_to (max_cluster_targets cfg) (rank_clusters target_signals) else target_signals.

  (** Step 3; [None] when no cluster was chosen. *)
Definition combine_step (started : pyfloat) (entity_id : string) (signals : list ReconciliationSignal) :
      SE Engine (option AttributionResult) :=
    match signals with
    | [] => se_ret None
    | _ =>
        let! exceeded := _exceeded_budget started in
        if exceeded then se_ret (_timeboxed_fallback entity_id signals) else
        let target_signals := kept_clusters signals in
        let! best := best_cluster started target_signals (None, f0) in
        se_ret match best with
               | (Some (best_target, (primary :: _) as best_cluster), best_confidence) =>
                   if flt f0 best_confidence
                   then Some (_build_result entity_id primary best_cluster best_confidence
                                (_build_alternatives target_signals best_target) [])
                   else None
               | _ => None
               end
    end.

Definition cache_key (tenant_id entity_type entity_id : string) : string :=
    tenant_id +:+ ":" +:+ entity_type +:+ ":" +:+ entity_id.

Definition resolve (entity_id entity_type : string) (event_time : datetime) (context : ReconciliationContext) :
      SE Engine AttributionResult :=
    let! started := read_clock in
    let key := cache_key (ctx_tenant_id context) entity_type entity_id in
    let! cached := _get_cached key in
    match cached with
    | Some result => se_ret result
    | None =>
        let r1_signal := R1_resolve entity_id (identity_mappings context) in
        let finish result := (_cache_result key result;;; se_ret result) in
        match (match r1_signal with
               | Some s => if fle (lit 98 100) (rs_confidence s) then Some s else None
               | None => None end) with
        | Some s => finish (_build_result entity_id s [s] (rs_confidence s) [] [])
        | None =>
            let! signals := se_lift (collect_signals entity_id event_time context r1_signal) in
            let! combined := combine_step started entity_id signals in
            match combined with
            | Some result => finish result
            | None => let! result := se_lift (fallback entity_id context) in finish result
            end
        end
    end.
End engine.

Example engine_sample :
  let run ctx := @resolve insertion_order id (λ _, f0) default_combination_config default_execution_config "svc-nlp" "endpoint" (at_us 0) ctx Engine_init in
  let show r := match r with
    | (Ok r, e) => Some (match ar_explanation r with Some x => ex_target_entity x | None => "" end,
                         repr_float (ar_combined_confidence r), length (hre_cache e))
    | _ => None end in
  map (λ c, show (run c))
    [mkContext "t" [("svc-nlp", "team:a")] [] [] [] [] [] [] [];
     mkContext "t" [] [(at_us 60000000, "team:b", "cicd")] [("team:nlp", ["svc nlp"])] [] [] [] [] [];
     mkContext "t" [] [] [] [] [] [] [] [("x", lit 1 10); ("y", lit 3 10)];
     ReconciliationContext_init]
  = [Some ("team:a", "1.0", 1); Some ("team:nlp", "0.9", 1); Some ("y", "0.6", 1); Some ("unresolved", "0.0", 1)].
Proof. vm_compute. reflexivity. Qed.

(** ** Lemmas: what the computations leave *)

Definition result_unit (r : AttributionResult) : Prop := unit_itv (ar_combined_confidence r) = true.

Lemma unit_between lo hi x : fle f0 lo = true → fle hi f1 = true → in_range lo hi x = true → unit_itv x = true.
Proof. intros H1 H2 H. by apply (between_weaken lo hi f0 f1) in H. Qed.

Definition signals_unit (l : list ReconciliationSignal) : Prop := Forall (λ s, unit_itv (rs_confidence s) = true) l.

Lemma strongest_in l s : strongest l = Some s → s ∈ l.
Proof. apply argmax_in. Qed.

Lemma strongest_None l : strongest l = None → l = [].
Proof. by destruct l. Qed.

Lemma combined_of_unit c signals : unit_itv (cap c) = true → unit_itv (combined_of c signals) = true.
Proof. intros Hc. unfold combined_of. by apply combine_bounds_config. Qed.

Lemma evict_oldest_spec (cfg : HREExecutionConfig) d : (0 <= cache_max_entries cfg)%Z →
  ∃ n, evict_oldest cfg d = (Ok tt, drop n d) ∧ (Z.of_nat (length (drop n d)) <= cache_max_entries cfg)%Z ∧
       (n = 0 ∨ Z.of_nat (length (drop n d)) = cache_max_entries cfg).
Proof.
  intros Hm. induction d as [|kv d IH].
  - exists 0. cbn [evict_oldest length drop]. destruct (Z.gtb_spec (Z.of_nat 0) (cache_max_entries cfg)); [lia|].
    split_and!; [done|lia|by left].
  - cbn [evict_oldest]. destruct (Z.gtb_spec (Z.of_nat (length (kv :: d))) (cache_max_entries cfg)) as [Hgt|Hle].
    + destruct IH as (n & -> & H1 & H2). exists (S n). split_and!; [done|done|]. right.
      destruct H2 as [->|H2]; [|done]. cbn [length drop] in *. rewrite drop_0 in *. lia.
    + exists 0. rewrite drop_0. split_and!; [done|lia|by left].
Qed.

Lemma od_del_elem {V} (k : string) (d : odict string V) kv : kv ∈ od_del k d → kv ∈ (d : list (string * V)).
Proof.
  induction d as [|[k' v'] d IH]; simpl; [done|]. case_decide; [by right|].
  intros [->|Hin]%elem_of_cons; [by left|right; auto].
Qed.

Lemma elem_of_drop_sub {A} n (l : list A) x : x ∈ drop n l → x ∈ l.
Proof. intros Hx. rewrite <- (take_drop n l). apply elem_of_app. by right. Qed.

Lemma od_wf_drop {V} n (d : odict string V) : od_wf d → od_wf (drop n d).
Proof.
  unfold od_wf, od_keys. intros Hd. eapply sublist_NoDup; [exact Hd|]. apply (fmap_sublist fst). apply sublist_drop.
Qed.

(** The signals that point to one target, in order. *)
Definition evidence_for (t : string) (signals : list ReconciliationSignal) : list ReconciliationSignal :=
  filter (λ s, rs_target_entity s = t) signals.

Lemma cluster_get signals t :
  od_get t (_cluster_by_target signals)
  = match evidence_for t signals with [] => None | l => Some l end.
Proof.
  unfold _cluster_by_target.
  assert (∀ d, od_get t (fold_left (λ clusters s,
    od_set (rs_target_entity s) (default [] (od_get (rs_target_entity s) clusters) ++ [s]) clusters) signals d)
    = match evidence_for t signals with [] => od_get t d | l => Some (default [] (od_get t d) ++ l) end) as ->.
  { induction signals as [|s signals IH]; intros d; [done|]. cbn [fold_left]. rewrite IH, od_get_set.
    unfold evidence_for. rewrite filter_cons. destruct (decide (t = rs_target_entity s)) as [->|Hne].
    - rewrite decide_True by done. fold (evidence_for (rs_target_entity s) signals).
      destruct (evidence_for _ signals); cbn [default]; [done|]. unfold id. by rewrite <- app_assoc.
    - rewrite decide_False by congruence. done. }
  by destruct (evidence_for t signals).
Qed.

Lemma cluster_wf signals : od_wf (_cluster_by_target signals).
Proof.
  unfold _cluster_by_target. generalize (od_wf_nil (K := string) (V := list ReconciliationSignal)).
  generalize (@nil (string * list ReconciliationSignal)) as d.
  induction signals as [|s signals IH]; intros d Hd; [done|]. cbn [fold_left]. by apply IH, od_set_wf.
Qed.

(** The clusters are exactly the non-empty groups of evidence. *)
Lemma cluster_elem signals (c : cluster) :
  c ∈ (_cluster_by_target signals : list cluster) ↔ c.2 = evidence_for c.1 signals ∧ c.2 ≠ [].
Proof.
  destruct c as [t l]. cbn [fst snd]. split.
  - intros Hc. apply od_in_get in Hc; [|apply cluster_wf]. rewrite cluster_get in Hc.
    by destruct (evidence_for t signals); simplify_eq.
  - intros [-> Hne]. apply od_get_Some_in. rewrite cluster_get. by destruct (evidence_for t signals).
Qed.

Section engine_lemmas.
  Context `{SetOrder} (local_to_utc : Z → instant) (monotonic : nat → pyfloat).
  Context (combination_config : CombinationConfig) (cfg : HREExecutionConfig).
  Context (Hcap : unit_itv (cap combination_config) = true) (Hmax : (0 <= cache_max_entries cfg)%Z).

  (** The cache: distinct keys, within its bound, results of the unit interval, stamped by
      earlier readings of the clock. *)
Definition hre_inv (e : Engine) : Prop :=
    od_wf (hre_cache e) ∧ (Z.of_nat (length (hre_cache e)) <= cache_max_entries cfg)%Z ∧
    Forall (λ kv, result_unit kv.2.2 ∧ ∃ n, n < hre_ticks e ∧ kv.2.1 = monotonic n) (hre_cache e).

Lemma hre_inv_init : hre_inv Engine_init.
  Proof. split_and!; [constructor|done|constructor]. Qed.

Lemma hre_inv_cache e d : hre_inv e → od_wf d → (Z.of_nat (length d) <= cache_max_entries cfg)%Z →
    (∀ kv, kv ∈ d → kv ∈ hre_cache e) → hre_inv (mkEngine d (hre_ticks e)).
  Proof.
    intros (H1 & H2 & H3) Hd Hl Hsub. split_and!; [done|done|]. simpl.
    rewrite Forall_forall in *. auto.
  Qed.

Lemma hre_inv_tick e : hre_inv e → hre_inv (mkEngine (hre_cache e) (S (hre_ticks e))).
  Proof.
    intros (H1 & H2 & H3). split_and!; [done|done|]. simpl. eapply Forall_impl; [exact H3|].
    intros kv (Hu & n & Hn & E). split; [done|]. exists n. split; [lia|done].
  Qed.

  (** Rules for the parts of [resolve]. *)
Lemma exceeded_wp started e (Q : bool → Engine → Prop) E :
    (∀ b, Q b (mkEngine (hre_cache e) (S (hre_ticks e)))) →
    se_wp (_exceeded_budget monotonic cfg started) Q E e.
  Proof. intros HQ. apply HQ. Qed.

Lemma get_cached_wp key e :
    hre_inv e →
    se_wp (_get_cached monotonic cfg key)
      (λ o e', hre_inv e' ∧ match o with
        | Some r => result_unit r ∧ ∃ t, od_get key (hre_cache e') = Some (t, r)
        | None => True end) (λ _ _, False) e.
  Proof.
    intros Hinv. unfold _get_cached, se_wp. cbn [se_bind se_get].
    destruct (od_get key (hre_cache e)) as [[t r]|] eqn:Ek; [|by split].
    cbn [se_bind read_clock]. pose proof Hinv as (Hwf & Hlen & Hall).
    pose proof (od_get_Some_in _ _ _ Ek) as Hin.
    destruct (flt _ _); cbn [se_bind set_cache se_modify se_ret hre_cache hre_ticks].
    - split; [|done]. apply (hre_inv_cache (mkEngine (hre_cache e) (S (hre_ticks e)))).
      + by apply hre_inv_tick.
      + by apply od_del_wf.
      + rewrite (od_del_length key) in Hlen by (by eapply od_get_Some_keys). lia.
      + intros kv. apply od_del_elem.
    - split; [|split].
      + apply (hre_inv_cache (mkEngine (hre_cache e) (S (hre_ticks e)))).
        * by apply hre_inv_tick.
        * by apply od_move_to_end_wf.
        * by rewrite od_move_to_end_length.
        * intros kv Hkv. unfold od_move_to_end in Hkv. rewrite Ek in Hkv.
          apply elem_of_app in Hkv as [Hkv|Hkv]; [by apply od_del_elem in Hkv|].
          by apply list_elem_of_singleton in Hkv as ->.
      + rewrite Forall_forall in Hall. by apply (Hall (key, (t, r))).
      + exists t. by rewrite od_get_move_to_end.
  Qed.

Lemma cache_result_ok key r e : ∃ e', _cache_result monotonic cfg key r e = (Ok tt, e').
  Proof.
    unfold _cache_result. rewrite (se_bind_ok _ _ _ (monotonic (hre_ticks e)) (mkEngine (hre_cache e) (S (hre_ticks e)))) by done.
    unfold se_bind at 1. cbn [se_get hre_cache].
    destruct (evict_oldest_spec cfg (od_move_to_end key (od_set key (monotonic (hre_ticks e), r) (hre_cache e))) Hmax)
      as (n & -> & _). by eexists.
  Qed.

Lemma cache_result_wp key r e :
    hre_inv e → result_unit r →
    se_wp (_cache_result monotonic cfg key r)
      (λ _ e', hre_inv e' ∧ ((0 < cache_max_entries cfg)%Z → od_get key (hre_cache e') = Some (monotonic (hre_ticks e), r)))
      (λ _ _, False) e.
  Proof.
    intros Hinv Hr. pose proof Hinv as (Hwf & Hlen & Hall).
    unfold _cache_result, se_wp. cbn [se_bind read_clock se_get hre_cache].
    set (d := od_move_to_end key (od_set key (monotonic (hre_ticks e), r) (hre_cache e))).
    assert (d = od_del key (hre_cache e) ++ [(key, (monotonic (hre_ticks e), r))]) as Hd by apply od_move_set.
    assert (od_wf d) as Hdwf by (by apply od_move_to_end_wf, od_set_wf).
    destruct (evict_oldest_spec cfg d Hmax) as (n & -> & Hle & Hn).
    cbn [se_bind set_cache se_modify se_lift hre_ticks hre_cache].
    assert (∀ kv, kv ∈ drop n d → kv ∈ d) as Hsub by (intros kv Hkv; by eapply elem_of_drop_sub).
    split.
    - split_and!; simpl.
      + by eapply od_wf_drop.
      + done.
      + rewrite Forall_forall in *. intros kv Hkv%Hsub. rewrite Hd in Hkv.
        apply elem_of_app in Hkv as [Hkv|Hkv].
        * apply od_del_elem in Hkv. destruct (Hall _ Hkv) as (Hu & m & Hm & E). split; [done|].
          exists m. split; [lia|done].
        * apply list_elem_of_singleton in Hkv as ->. split; [done|]. exists (hre_ticks e). split; [lia|done].
    - intros Hpos. apply od_in_get; [by eapply od_wf_drop|].
      assert (n ≤ length (od_del key (hre_cache e))) as Hnle.
      { destruct Hn as [->|Hn]; [lia|]. rewrite length_drop, Hd, length_app in Hn. simpl in Hn. lia. }
      rewrite Hd, drop_app_le by done. apply elem_of_app. right. by left.
  Qed.

  (** Past confidences are not negative. *)
Definition context_ok (context : ReconciliationContext) : Prop :=
    Forall (λ h, fle f0 h.2 = true) (historical_attributions context).

  (** The deployments' times mix naive and aware values. *)
Definition mixed_times (context : ReconciliationContext) : bool :=
    existsb (λ o, is_naive o.2) (deployment_owners context) &&
    existsb (λ o, negb (is_naive o.2)) (deployment_owners context).

Lemma slice_last_Forall {A} (P : A → Prop) n (l : list A) : Forall P l → Forall P (slice_last n l).
  Proof.
    intros Hl. unfold slice_last, list_last_n. destruct (0 <? n)%Z; by apply Forall_drop.
  Qed.

Lemma collect_signals_spec entity_id event_time context :
    context_ok context →
    match collect_signals local_to_utc cfg entity_id event_time context None with
    | Ok l => signals_unit l
    | Raise x => x = TypeError ∧ mixed_times context = true
    end.
  Proof.
    intros Hctx. unfold collect_signals.
    pose proof (r2_total 300 event_time entity_id (temporal_events context) ltac:(done)) as Ht2.
    change (Fin 300) with default_max_window_seconds in Ht2.
    destruct (R2_resolve _ _ _ _) as [r2|] eqn:E2; [|done]. cbn [rbind].
    pose proof (r3_between entity_id (naming_patterns context) default_min_similarity) as H3.
    set (r3 := R3_resolve _ _ _) in *.
    pose proof (r4_total entity_id (slice_last (max_historical_signals cfg) (historical_attributions context))
                  default_min_history_count) as Ht4.
    destruct (R4_resolve _ _ _) as [r4|] eqn:E4; [|done]. cbn [rbind].
    pose proof (r5_outcome local_to_utc entity_id (deployment_owners context) (ctx_code_owners context)
      (recent_users context) default_lookback event_time) as H5.
    destruct (R5_resolve _ _ _ _ _ _ _) as [r5|x] eqn:E5; [|done]. cbn [rbind].
    unfold signals_unit. rewrite Forall_forall. intros s Hs. apply list_elem_of_omap in Hs as (o & Ho & Hso). unfold id in Hso. subst o.
    repeat (apply elem_of_cons in Ho as [Ho|Ho]); [done|..|by apply elem_of_nil in Ho].
    - subst r2. by apply r2_between, unit_between in E2.
    - symmetry in Ho. by apply H3, unit_between in Ho.
    - subst r4. apply r4_between in E4; [by apply unit_between in E4|]. by apply slice_last_Forall.
    - subst r5. by apply r5_between, unit_between in E5.
  Qed.

Lemma best_cluster_wp started clusters best e :
    hre_inv e → (is_Some best.1 → unit_itv best.2 = true) →
    se_wp (best_cluster monotonic combination_config cfg started clusters best)
      (λ b e', hre_inv e' ∧ (is_Some b.1 → unit_itv b.2 = true)) (λ _ _, False) e.
  Proof.
    revert best e; induction clusters as [|c clusters IH]; intros best e He Hb; [by split|].
    cbn [best_cluster]. apply wp_bind, exceeded_wp. intros exceeded.
    pose proof (hre_inv_tick e He) as He'.
    destruct exceeded; [by split|]. apply IH; [done|].
    intros Hs. destruct (flt _ _); [by apply combined_of_unit|auto].
  Qed.

Lemma timeboxed_unit entity_id signals r :
    signals_unit signals → _timeboxed_fallback entity_id signals = Some r → result_unit r.
  Proof.
    unfold _timeboxed_fallback. destruct (strongest signals) as [s|] eqn:Es; [|done].
    intros Hs <-%Some_inj. unfold result_unit. cbn [ar_combined_confidence _build_result].
    apply strongest_in in Es. unfold signals_unit in Hs. rewrite Forall_forall in Hs.
    apply unit_mul; [by apply Hs|done].
  Qed.

Lemma combine_step_wp started entity_id signals e :
    hre_inv e → signals_unit signals →
    se_wp (combine_step monotonic combination_config cfg started entity_id signals)
      (λ o e', hre_inv e' ∧ ∀ r, o = Some r → result_unit r) (λ _ _, False) e.
  Proof.
    intros He Hs. unfold combine_step. destruct signals as [|s0 signals']; [by split|].
    set (signals := s0 :: signals') in *. apply wp_bind, exceeded_wp. intros exceeded.
    pose proof (hre_inv_tick e He) as He'.
    destruct exceeded; [split; [done|]; intros r; by apply timeboxed_unit|].
    apply wp_bind. eapply wp_mono; [apply (best_cluster_wp _ _ (None, f0)); [done|]| |done].
    { by intros [? ?]. }
    intros [[[t [|s c]]|] v] e' [He'' Hv]; (split; [done|]); intros r; [done| |done].
    destruct (flt f0 v); [|done]. intros <-%Some_inj. by apply Hv.
  Qed.

Lemma fallback_spec entity_id context :
    match fallback entity_id context with
    | Ok r => result_unit r
    | Raise x => x = ValueError "weight" ∧
        ∃ l, R6_resolve entity_id (proportional_users context) = Ok l ∧
          Exists (λ s, is_ok (fractional_of s) = false) l
    end.
  Proof.
    unfold fallback. destruct (r6_total entity_id (proportional_users context)) as [l El].
    rewrite El. cbn [rbind]. destruct (strongest l) as [b|] eqn:Eb; [|done].
    assert (Forall (λ s, fractional_of s = Raise (ValueError "weight") ∨ is_ok (fractional_of s) = true) l) as Hf.
    { apply Forall_true. intros s. unfold fractional_of. destruct (unit_itv (match _ with VFloat _ => _ | _ => _ end)); [by right|by left]. }
    destruct (map_res fractional_of l) as [fs|x] eqn:Ef; cbn [rbind].
    - unfold result_unit. cbn [ar_combined_confidence _build_result].
      apply r6_resolve_spec in El as [Hall _]. rewrite Forall_forall in Hall.
      by apply strongest_in, Hall, unit_between in Eb.
    - assert (x = ValueError "weight" ∧ Exists (λ s, is_ok (fractional_of s) = false) l) as [-> Hx]; [|eauto].
      clear -Hf Ef. induction Hf as [|s l Hs Hf IH]; [done|]. simpl in Ef.
      destruct (fractional_of s) as [f|y] eqn:Es.
      + cbn [rbind] in Ef. destruct (map_res fractional_of l); [done|]. destruct IH as [H1 H2]; [done|].
        split; [done|by right].
      + cbn [rbind] in Ef. destruct Hs as [Hs|Hs]; [|done]. split; [congruence|]. left. by rewrite Es.
  Qed.

Definition resolve_raises (entity_id : string) (context : ReconciliationContext) (x : exn) : Prop :=
    x = TypeError ∧ mixed_times context = true ∨
    x = ValueError "weight" ∧ ∃ l, R6_resolve entity_id (proportional_users context) = Ok l ∧
      Exists (λ s, is_ok (fractional_of s) = false) l.

  (** What a resolution leaves, from any state of the invariant: a result of the unit interval,
      kept in the cache under the key. *)
Lemma resolve_wp entity_id entity_type event_time context e :
    hre_inv e → context_ok context →
    let key := cache_key (ctx_tenant_id context) entity_type entity_id in
    se_wp (resolve local_to_utc monotonic combination_config cfg entity_id entity_type event_time context)
      (λ r e', hre_inv e' ∧ result_unit r ∧
         ((0 < cache_max_entries cfg)%Z → ∃ t, od_get key (hre_cache e') = Some (t, r)))
      (λ x e', hre_inv e' ∧ resolve_raises entity_id context x) e.
  Proof.
    intros He Hctx key. unfold resolve. fold key. apply wp_bind.
    set (e1 := mkEngine (hre_cache e) (S (hre_ticks e))).
    assert (hre_inv e1) as He1 by (by apply hre_inv_tick). unfold se_wp at 1. cbn [read_clock]. fold e1.
    apply wp_bind. eapply wp_mono; [by apply get_cached_wp| |done].
    intros [r|] e2 (He2 & Hr); cbn beta iota.
    { destruct Hr as [Hr Ht]. split_and!; [done|done|by intros]. }
    set (finish := λ r, (_cache_result monotonic cfg key r;;; se_ret r)%py).
    set (Q := λ (r : AttributionResult) e', _). set (E := λ (x : exn) (e' : Engine), _).
    assert (∀ r e', hre_inv e' → result_unit r → se_wp (finish r) Q E e') as Hfin.
    { intros r e' He' Hu. apply wp_bind. eapply wp_mono; [by apply cache_result_wp| |done].
      intros [] e'' [He'' Hk]. split_and!; [done|done|]. intros Hpos. eexists. by apply Hk. }
    destruct (R1_resolve entity_id (identity_mappings context)) as [s|] eqn:E1.
    { apply r1_confidence in E1.
      assert (fle (lit 98 100) (rs_confidence s) = true) as Hle by (destruct E1 as [-> | ->]; vm_compute; done).
      rewrite Hle. apply (Hfin _ e2); [done|]. unfold result_unit. cbn [ar_combined_confidence _build_result].
      destruct E1 as [-> | ->]; vm_compute; done. }
    pose proof (collect_signals_spec entity_id event_time context Hctx) as Hc.
    apply wp_bind, wp_lift; [|intros x Ex; rewrite Ex in Hc; split; [done|by left]].
    intros signals Es. rewrite Es in Hc. apply wp_bind.
    eapply wp_mono; [by apply combine_step_wp| |done].
    intros [r|] e3 (He3 & Hr3); [apply (Hfin _ e3); [done|by apply Hr3]|].
    pose proof (fallback_spec entity_id context) as Hf. apply wp_bind, wp_lift.
    - intros r Er. rewrite Er in Hf. by apply (Hfin _ e3).
    - intros x Ex. rewrite Ex in Hf. split; [done|by right].
  Qed.

  (** A resolution that finds nothing in the cache. *)
Lemma resolve_miss entity_id entity_type event_time context e :
    od_get (cache_key (ctx_tenant_id context) entity_type entity_id) (hre_cache e) = None →
    resolve local_to_utc monotonic combination_config cfg entity_id entity_type event_time context e =
    (let key := cache_key (ctx_tenant_id context) entity_type entity_id in
     let finish result := (_cache_result monotonic cfg key result;;; se_ret result)%py in
     match R1_resolve entity_id (identity_mappings context) with
     | Some s => finish (_build_result entity_id s [s] (rs_confidence s) [] [])
     | None =>
         (let! signals := se_lift (collect_signals local_to_utc cfg entity_id event_time context None) in
          let! combined := combine_step monotonic combination_config cfg (monotonic (hre_ticks e)) entity_id signals in
          match combined with
          | Some result => finish result
          | None => let! result := se_lift (fallback entity_id context) in finish result
          end)%py
     end) (mkEngine (hre_cache e) (S (hre_ticks e))).
  Proof.
    intros Hmiss. unfold resolve. set (e1 := mkEngine (hre_cache e) (S (hre_ticks e))).
    rewrite (se_bind_ok _ _ _ (monotonic (hre_ticks e)) e1) by done. cbn zeta.
    rewrite (se_bind_ok _ _ _ None e1).
    2: { unfold _get_cached. rewrite (se_bind_ok _ _ _ (hre_cache e) e1) by done. by rewrite Hmiss. }
    destruct (R1_resolve _ _) as [s|] eqn:E1; [|done].
    assert (fle (lit 98 100) (rs_confidence s) = true) as ->; [|done].
    apply r1_confidence in E1. destruct E1 as [-> | ->]; vm_compute; done.
  Qed.

  (** With time left, the loop keeps the first cluster of the greatest combined confidence. *)
Definition chosen (b : option cluster * pyfloat) : Prop :=
    b = (None, f0) ∨ ∃ c, b = (Some c, combined_of combination_config c.2) ∧
      flt f0 (combined_of combination_config c.2) = true.

Lemma best_cluster_max i clusters best e :
    (∀ j, flt (max_resolve_ms cfg) (fmul (fsub (monotonic j) (monotonic i)) (of_Z 1000)) = false) →
    chosen best → unit_itv best.2 = true →
    se_wp (best_cluster monotonic combination_config cfg (monotonic i) clusters best)
      (λ b e', hre_cache e' = hre_cache e ∧ chosen b ∧ fle best.2 b.2 = true ∧
         (b.1 = best.1 ∨ ∃ c, b.1 = Some c ∧ c ∈ clusters) ∧
         ∀ c, c ∈ clusters → fle (combined_of combination_config c.2) b.2 = true) (λ _ _, False) e.
  Proof.
    intros Htime. revert best e; induction clusters as [|c clusters IH]; intros best e Hb Hu.
    { split_and!; [done|done|by apply fle_refl, unit_not_nan|by left|]. intros c Hc. by apply elem_of_nil in Hc. }
    cbn [best_cluster]. apply wp_bind. unfold _exceeded_budget, se_wp at 1. cbn [se_bind read_clock se_ret].
    rewrite Htime. set (v := combined_of combination_config c.2).
    assert (unit_itv v = true) as Hv by (by apply combined_of_unit).
    set (best' := if flt best.2 v then (Some c, v) else best).
    assert (chosen best' ∧ unit_itv best'.2 = true ∧ fle best.2 best'.2 = true ∧ fle v best'.2 = true ∧
            (best'.1 = best.1 ∨ best'.1 = Some c)) as (H1 & H2 & H3 & H4 & H5).
    { subst best'. destruct (flt best.2 v) eqn:Ev; cbn [fst snd].
      - split_and!; [|done|by apply flt_fle|by apply fle_refl, unit_not_nan|by right].
        right. exists c. split; [done|]. fold v. eapply fle_lt_trans; [|exact Ev].
        unfold unit_itv in Hu. by bool_hyps.
      - apply flt_false in Ev; [|by apply unit_not_nan..].
        split_and!; [done|done|by apply fle_refl, unit_not_nan|done|by left]. }
    eapply wp_mono; [by apply IH| |done].
    intros b e' (Hc & Hch & Hle & Hin & Hall). split_and!; [done|done|by eapply fle_trans| |].
    - destruct Hin as [-> | (c' & -> & Hc')]; [|right; exists c'; split; [done|by right]].
      destruct H5 as [-> | ->]; [by left|right; exists c; split; [done|by left]].
    - intros c' [->|Hc']%elem_of_cons; [by eapply fle_trans|by apply Hall].
  Qed.
End engine_lemmas.

(** ** Properties *)

Record request := mkRequest {
  rq_entity_id : string;
  rq_entity_type : string;
  rq_event_time : datetime;
  rq_context : ReconciliationContext;
}.

Section properties.
  Context `{SetOrder} (local_to_utc : Z → instant) (monotonic : nat → pyfloat).
  Context (combination_config : CombinationConfig) (cfg : HREExecutionConfig).

Definition serve (q : request) : SE Engine AttributionResult :=
    resolve local_to_utc monotonic combination_config cfg
      (rq_entity_id q) (rq_entity_type q) (rq_event_time q) (rq_context q).

  (** The state after a sequence of requests, whatever each returned or raised. *)
Definition serve_all (qs : list request) (e : Engine) : Engine := fold_left (λ e q, (serve q e).2) qs e.

Lemma serve_all_inv qs e :
    unit_itv (cap combination_config) = true → (0 <= cache_max_entries cfg)%Z →
    Forall (λ q, context_ok (rq_context q)) qs → hre_inv monotonic cfg e →
    hre_inv monotonic cfg (serve_all qs e).
  Proof.
    intros Hcap Hmax Hqs. revert e. induction Hqs as [|q qs Hq Hqs IH]; intros e He; [done|].
    cbn [serve_all fold_left]. apply IH.
    pose proof (resolve_wp local_to_utc monotonic combination_config cfg Hcap Hmax
      (rq_entity_id q) (rq_entity_type q) (rq_event_time q) (rq_context q) e He Hq) as Hwp.
    unfold se_wp in Hwp. unfold serve. destruct (resolve _ _ _ _ _ _ _ _ e) as [[r|x] e']; simpl; tauto.
  Qed.

(** C14. Whatever requests came before, whatever the clock shows and however sets are ordered, a
    resolution ends: it returns a result with a confidence of the unit interval, or raises in
    one of two cases only, deployments that mix naive and aware times ([TypeError]) or a
    proportional weight outside the unit interval ([ValueError]). The cache keeps its
    invariant throughout: distinct keys, never more than [cache_max_entries], every stored
    confidence in the unit interval. *)
Theorem hre_reachable_outcome (qs : list request) (q : request)
    (Hcap : unit_itv (cap combination_config) = true) (Hmax : (0 <= cache_max_entries cfg)%Z)
    (Hqs : Forall (λ q, context_ok (rq_context q)) (qs ++ [q])) :
    let e := serve_all qs Engine_init in
    hre_inv monotonic cfg e ∧ hre_inv monotonic cfg (serve q e).2 ∧
    match (serve q e).1 with
    | Ok r => result_unit r
    | Raise x => resolve_raises (rq_entity_id q) (rq_context q) x
    end.
  Proof.
    apply Forall_app in Hqs as [Hqs Hq]. rewrite Forall_singleton in Hq. intros e.
    assert (hre_inv monotonic cfg e) as He by (by apply serve_all_inv, hre_inv_init).
    pose proof (resolve_wp local_to_utc monotonic combination_config cfg Hcap Hmax
      (rq_entity_id q) (rq_entity_type q) (rq_event_time q) (rq_context q) e He Hq) as Hwp.
    unfold se_wp in Hwp. unfold serve. destruct (resolve _ _ _ _ _ _ _ _ e) as [[r|x] e']; simpl; tauto.
  Qed.

Lemma direct_match_resolves (e : Engine) (q : request) (target : string) :
    hre_inv monotonic cfg e → (0 < cache_max_entries cfg)%Z →
    od_get (rq_entity_id q) (identity_mappings (rq_context q)) = Some target →
    od_get (cache_key (ctx_tenant_id (rq_context q)) (rq_entity_type q) (rq_entity_id q)) (hre_cache e) = None →
    ∃ r e' x, serve q e = (Ok r, e') ∧ hre_inv monotonic cfg e' ∧ ar_workload_id r = rq_entity_id q ∧
      ar_combined_confidence r = f1 ∧ ar_explanation r = Some x ∧
      ex_target_entity x = target ∧ ex_method_used x = "R1" ∧ ar_fractional_attributions r = [] ∧
      ∃ t, od_get (cache_key (ctx_tenant_id (rq_context q)) (rq_entity_type q) (rq_entity_id q)) (hre_cache e') = Some (t, r).
  Proof.
    intros He Hmax Hmap Hmiss. unfold serve. rewrite resolve_miss by done. unfold R1_resolve. rewrite Hmap. cbn zeta.
    set (r := _build_result _ _ _ _ _ _). set (key := cache_key _ _ _).
    set (e1 := mkEngine (hre_cache e) (S (hre_ticks e))).
    assert (hre_inv monotonic cfg e1) as He1 by (by apply hre_inv_tick).
    destruct (wp_total _ _ _ (cache_result_wp monotonic cfg ltac:(lia) key r e1 He1 eq_refl))
      as ([] & e' & Ec & He' & Hk).
    rewrite (se_bind_ok _ _ _ tt e') by done. eexists r, e', _.
    split_and!; [done..|]. eexists. by apply Hk.
  Qed.

(** A direct identifier match decides alone: when the mapping has the identifier itself, the
    result names its target with confidence 1.0 by method R1, whatever the other evidence,
    the configuration and the clock are; no other method runs, and the result is cached. *)
Theorem hre_direct_match (e : Engine) (q : request) (target : string)
    (He : hre_inv monotonic cfg e) (Hmax : (0 < cache_max_entries cfg)%Z)
    (Hmap : od_get (rq_entity_id q) (identity_mappings (rq_context q)) = Some target)
    (Hmiss : od_get (cache_key (ctx_tenant_id (rq_context q)) (rq_entity_type q) (rq_entity_id q)) (hre_cache e) = None) :
    ∃ r e' x, serve q e = (Ok r, e') ∧ ar_combined_confidence r = f1 ∧ ar_explanation r = Some x ∧
      ex_target_entity x = target ∧ ex_method_used x = "R1" ∧ ar_fractional_attributions r = [] ∧
      ∃ t, od_get (cache_key (ctx_tenant_id (rq_context q)) (rq_entity_type q) (rq_entity_id q)) (hre_cache e') = Some (t, r).
  Proof.
    destruct (direct_match_resolves e q target He Hmax Hmap Hmiss)
      as (r & e' & x & H1 & _ & _ & H2 & H3 & H4 & H5 & H6 & H7).
    by exists r, e', x.
  Qed.

(** Among the evidence collected, the engine picks the target whose combined evidence is
    the greatest: on a cache miss without a direct match, with time left and no more targets
    than the bound, the result's confidence is the modified noisy-OR of all the signals for
    its target, and no target's combined signals exceed it. *)
Theorem hre_best_evidence (e : Engine) (q : request) (signals : list ReconciliationSignal)
    (Hcap : unit_itv (cap combination_config) = true)
    (He : hre_inv monotonic cfg e) (Hmax : (0 <= cache_max_entries cfg)%Z)
    (Hmiss : od_get (cache_key (ctx_tenant_id (rq_context q)) (rq_entity_type q) (rq_entity_id q)) (hre_cache e) = None)
    (Htime : ∀ i j, flt (max_resolve_ms cfg) (fmul (fsub (monotonic j) (monotonic i)) (of_Z 1000)) = false)
    (Hr1 : R1_resolve (rq_entity_id q) (identity_mappings (rq_context q)) = None)
    (Hsig : collect_signals local_to_utc cfg (rq_entity_id q) (rq_event_time q) (rq_context q) None = Ok signals)
    (Hbound : (Z.of_nat (length (_cluster_by_target signals)) <= max_cluster_targets cfg)%Z)
    (Hpos : Exists (λ s, flt f0 (combined_of combination_config (evidence_for (rs_target_entity s) signals)) = true) signals) :
    ∃ r e' x, serve q e = (Ok r, e') ∧ ar_explanation r = Some x ∧
      ar_combined_confidence r = combined_of combination_config (evidence_for (ex_target_entity x) signals) ∧
      Exists (λ s, rs_target_entity s = ex_target_entity x) signals ∧
      ∀ t, evidence_for t signals ≠ [] →
        fle (combined_of combination_config (evidence_for t signals)) (ar_combined_confidence r) = true.
  Proof.
    unfold serve. rewrite resolve_miss by done. rewrite Hr1. cbn zeta.
    set (i := hre_ticks e). set (e1 := mkEngine (hre_cache e) (S i)).
    rewrite (se_bind_ok _ _ _ signals e1) by (unfold se_lift; by rewrite Hsig).
    assert (hre_inv monotonic cfg e1) as He1 by (by apply hre_inv_tick).
    assert (kept_clusters cfg signals = _cluster_by_target signals) as Hkept.
    { unfold kept_clusters. by destruct (Z.gtb_spec (Z.of_nat (length (_cluster_by_target signals))) (max_cluster_targets cfg)); [lia|]. }
    set (e2 := mkEngine (hre_cache e1) (S (hre_ticks e1))).
    destruct (wp_total _ _ _ (best_cluster_max monotonic combination_config cfg Hcap i
      (_cluster_by_target signals) (None, f0) e2 (Htime i) (or_introl eq_refl) eq_refl))
      as (b & e3 & Eb & Hc3 & Hch & _ & Hin & Hall).
    apply Exists_exists in Hpos as (s & Hs & Hpos).
    assert (∀ t, evidence_for t signals ≠ [] → (t, evidence_for t signals) ∈ (_cluster_by_target signals : list cluster)) as Hmem.
    { intros t Ht. by apply cluster_elem. }
    assert (evidence_for (rs_target_entity s) signals ≠ []) as Hsne.
    { intros E. assert (s ∈ evidence_for (rs_target_entity s) signals) as Hin'
        by (by apply list_elem_of_filter). rewrite E in Hin'. by apply elem_of_nil in Hin'. }
    destruct Hch as [-> | (c & -> & Hpc)].
    { specialize (Hall _ (Hmem _ Hsne)). cbn [snd] in Hall. apply flt_zero_fle in Hpos. congruence. }
    assert (c ∈ (_cluster_by_target signals : list cluster)) as Hcin.
    { destruct Hin as [|(c' & [= <-] & ?)]; done. }
    apply cluster_elem in Hcin as [Hc2 Hcne].
    destruct c as [t l]. cbn [fst snd] in *. subst l.
    destruct (evidence_for t signals) as [|p rest] eqn:Et; [done|].
    set (r := _build_result (rq_entity_id q) p (p :: rest) (combined_of combination_config (p :: rest))
                (_build_alternatives (_cluster_by_target signals) t) []).
    assert (combine_step monotonic combination_config cfg (monotonic i) (rq_entity_id q) signals e1 = (Ok (Some r), e3)) as Hstep.
    { unfold combine_step. destruct signals as [|s1 l1]; [done|].
      rewrite (se_bind_ok _ _ _ false e2) by (unfold _exceeded_budget; cbn; by rewrite Htime).
      rewrite Hkept, (se_bind_ok _ _ _ _ _ Eb). unfold se_ret. by rewrite Hpc. }
    rewrite (se_bind_ok _ _ _ _ _ Hstep).
    destruct (cache_result_ok monotonic cfg Hmax
      (cache_key (ctx_tenant_id (rq_context q)) (rq_entity_type q) (rq_entity_id q)) r e3) as [e4 Ec].
    rewrite (se_bind_ok _ _ _ _ _ Ec). eexists r, e4, _. split_and!; [done|done| | |].
    - cbn [ar_combined_confidence ex_target_entity r _build_result].
      assert (rs_target_entity p = t) as ->; [|by rewrite Et].
      assert (p ∈ evidence_for t signals) as Hp by (rewrite Et; left). by apply list_elem_of_filter in Hp as [? _].
    - apply Exists_exists. exists p. split; [|done].
      assert (p ∈ evidence_for t signals) as Hp by (rewrite Et; left). by apply list_elem_of_filter in Hp as [_ ?].
    - intros t' Ht'. specialize (Hall _ (Hmem _ Ht')). exact Hall.
  Qed.

Lemma cached_resolves (e : Engine) (q : request) (r : AttributionResult) (t : pyfloat) :
    let key := cache_key (ctx_tenant_id (rq_context q)) (rq_entity_type q) (rq_entity_id q) in
    od_get key (hre_cache e) = Some (t, r) →
    flt (cache_ttl_seconds cfg) (fsub (monotonic (S (hre_ticks e))) t) = false →
    serve q e = (Ok r, mkEngine (od_move_to_end key (hre_cache e)) (S (S (hre_ticks e)))).
  Proof.
    intros key Ht Hfresh. set (e2 := mkEngine (hre_cache e) (S (hre_ticks e))).
    unfold serve, resolve. rewrite (se_bind_ok _ _ _ (monotonic (hre_ticks e)) e2) by done. cbn zeta. fold key.
    rewrite (se_bind_ok _ _ _ (Some r) (mkEngine (od_move_to_end key (hre_cache e)) (S (hre_ticks e2)))); [done|].
    unfold _get_cached. rewrite (se_bind_ok _ _ _ (hre_cache e) e2) by done. rewrite Ht.
    rewrite (se_bind_ok _ _ _ (monotonic (hre_ticks e2)) (mkEngine (hre_cache e) (S (hre_ticks e2)))) by done.
    change (hre_ticks e2) with (S (hre_ticks e)). by rewrite Hfresh.
  Qed.

(** The cache answers for a key, not for the evidence: once a request has been served,
    any request with the same tenant, type and entity texts gets the same result until the
    entry expires, whatever its context and event time are. A mapping that was corrected in
    between is not seen, and since the texts are joined by colons without escaping, neither
    is a different tenant. *)
Theorem hre_cache_context_blind (e : Engine) (q1 q2 : request) (r : AttributionResult) (e1 : Engine)
    (Hcap : unit_itv (cap combination_config) = true)
    (He : hre_inv monotonic cfg e) (Hmax : (0 < cache_max_entries cfg)%Z) (Hctx : context_ok (rq_context q1))
    (Hfresh : ∀ i j, flt (cache_ttl_seconds cfg) (fsub (monotonic j) (monotonic i)) = false)
    (Hkey : cache_key (ctx_tenant_id (rq_context q1)) (rq_entity_type q1) (rq_entity_id q1)
            = cache_key (ctx_tenant_id (rq_context q2)) (rq_entity_type q2) (rq_entity_id q2))
    (Hfirst : serve q1 e = (Ok r, e1)) :
    ∃ e2, serve q2 e1 = (Ok r, e2).
  Proof.
    pose proof (resolve_wp local_to_utc monotonic combination_config cfg Hcap ltac:(lia)
      (rq_entity_id q1) (rq_entity_type q1) (rq_event_time q1) (rq_context q1) e He Hctx) as Hwp.
    unfold serve in Hfirst. eapply wp_result in Hwp; [|exact Hfirst]. destruct Hwp as (Hinv & _ & Hk).
    destruct (Hk Hmax) as [t Ht]. clear Hk. cbn zeta in Ht. rewrite Hkey in Ht.
    pose proof (od_get_Some_in _ _ _ Ht) as Hin. destruct Hinv as (_ & _ & Hall).
    rewrite Forall_forall in Hall. destruct (Hall _ Hin) as (_ & n & _ & Et). cbn [fst snd] in Et. subst t.
    eexists. apply (cached_resolves e1 q2 r (monotonic n)); [exact Ht|apply Hfresh].
  Qed.

(** A budget that runs out between the two checks loses the evidence: the check before
    clustering has a fail-safe that returns the strongest signal, but when the time is up at
    the first check inside the loop, no cluster is kept and, without proportional users, the
    entity is reported, and cached, as unresolved with confidence 0. *)
Theorem hre_budget_discards_evidence (e : Engine) (q : request) (signals : list ReconciliationSignal)
    (Hmax : (0 <= cache_max_entries cfg)%Z)
    (Hmiss : od_get (cache_key (ctx_tenant_id (rq_context q)) (rq_entity_type q) (rq_entity_id q)) (hre_cache e) = None)
    (Hr1 : R1_resolve (rq_entity_id q) (identity_mappings (rq_context q)) = None)
    (Hsig : collect_signals local_to_utc cfg (rq_entity_id q) (rq_event_time q) (rq_context q) None = Ok signals)
    (Hne : signals ≠ []) (Hr6 : proportional_users (rq_context q) = [])
    (Hfirst : flt (max_resolve_ms cfg) (fmul (fsub (monotonic (S (hre_ticks e))) (monotonic (hre_ticks e))) (of_Z 1000)) = false)
    (Hsecond : flt (max_resolve_ms cfg) (fmul (fsub (monotonic (S (S (hre_ticks e)))) (monotonic (hre_ticks e))) (of_Z 1000)) = true) :
    ∃ e', serve q e = (Ok (unresolved_result (rq_entity_id q)), e').
  Proof.
    unfold serve. rewrite resolve_miss by done. rewrite Hr1. cbn zeta.
    set (e1 := mkEngine (hre_cache e) (S (hre_ticks e))). set (e2 := mkEngine (hre_cache e) (S (hre_ticks e1))).
    set (e3 := mkEngine (hre_cache e) (S (hre_ticks e2))).
    rewrite (se_bind_ok _ _ _ signals e1) by (unfold se_lift; by rewrite Hsig).
    assert (∃ e4, combine_step monotonic combination_config cfg (monotonic (hre_ticks e)) (rq_entity_id q) signals e1 = (Ok None, e4)) as [e4 Hstep].
    { unfold combine_step. destruct signals as [|s1 l1]; [done|].
      rewrite (se_bind_ok _ _ _ false e2) by (unfold _exceeded_budget; cbn; by rewrite Hfirst).
      destruct (kept_clusters cfg (s1 :: l1)) as [|c rest].
      - exists e2. by rewrite (se_bind_ok _ _ _ (None, f0) e2).
      - exists e3. rewrite (se_bind_ok _ _ _ (None, f0) e3); [done|]. cbn [best_cluster].
        by rewrite (se_bind_ok _ _ _ true e3) by (unfold _exceeded_budget; cbn; by rewrite Hsecond). }
    rewrite (se_bind_ok _ _ _ _ _ Hstep). unfold fallback. rewrite Hr6.
    rewrite (se_bind_ok _ _ _ (unresolved_result (rq_entity_id q)) e4) by done.
    destruct (cache_result_ok monotonic cfg Hmax
      (cache_key (ctx_tenant_id (rq_context q)) (rq_entity_type q) (rq_entity_id q)) (unresolved_result (rq_entity_id q)) e4) as [e5 Ec].
    rewrite (se_bind_ok _ _ _ _ _ Ec). by eexists.
  Qed.
End properties.

(** The explanation of a proportional allocation keeps the features of its last team only:
    they are keyed by method, and all have the method R6. *)
Theorem r6_explanation_keeps_last entity primary l s v alt fr :
  Forall (λ x, rs_method x = "R6") (l ++ [s]) →
  match ar_explanation (_build_result entity primary (l ++ [s]) v alt fr) with
  | Some x => ex_feature_values x = [("R6", VDict (rs_feature_values s))]
  | None => False
  end.
Proof.
  intros Hl. apply Forall_app in Hl as [Hl Hs]. rewrite Forall_singleton in Hs.
  cbn [ar_explanation _build_result ex_feature_values]. rewrite fold_left_app. cbn [fold_left]. rewrite Hs.
  assert (∀ d, (d = [] ∨ ∃ v, d = [("R6", v)]) → ∃ d', fold_left (λ d s, od_set (rs_method s) (VDict (rs_feature_values s)) d) l d = d' ∧
    (d' = [] ∨ ∃ v, d' = [("R6", v)])) as H.
  { clear Hs. induction Hl as [|x l Hx Hl IH]; intros d Hd; [by eexists|]. cbn [fold_left]. apply IH. rewrite Hx.
    right. destruct Hd as [->|[w ->]]; by eexists. }
  destruct (H [] (or_introl eq_refl)) as (d' & -> & [->|[w ->]]); done.
Qed.

(** ** Witnesses *)

Definition sample_request (mapped : string) : request :=
  mkRequest "svc" "endpoint" (at_us 0)
    (mkContext "t" [("svc", mapped)] [] [] [] [] [] [] []).

Definition evidence_request : request :=
  mkRequest "svc-nlp" "endpoint" (at_us 0)
    (mkContext "t" [] [(at_us 60000000, "team:b", "cicd")] [("team:nlp", ["svc nlp"])]
       [("team:b", Fin (1#2)); ("team:b", Fin (1#4)); ("team:c", Fin (1#2))] [] [] [] []).

Abbreviation sample_serve clock :=
  (@serve insertion_order id clock default_combination_config default_execution_config).

Lemma init_inv clock : hre_inv clock default_execution_config Engine_init.
Proof. split_and!; [constructor|discriminate|constructor]. Qed.

Lemma hre_reachable_outcome_witness :
  let e := @serve_all insertion_order id (λ _, f0) default_combination_config default_execution_config
             [sample_request "a"; evidence_request] Engine_init in
  match (sample_serve (λ _, f0) evidence_request e).1 with Ok r => result_unit r | Raise _ => False end.
Proof.
  intros e. destruct (@hre_reachable_outcome insertion_order id (λ _, f0) default_combination_config
    default_execution_config [sample_request "a"; evidence_request] evidence_request)
    as (_ & _ & H); [reflexivity|discriminate|repeat constructor|].
  revert H. subst e. vm_compute. auto.
Defined.

Lemma hre_direct_match_witness :
  ∃ r e' x, sample_serve (λ _, f0) (sample_request "team:a") Engine_init = (Ok r, e') ∧
    ar_combined_confidence r = f1 ∧ ar_explanation r = Some x ∧
    ex_target_entity x = "team:a" ∧ ex_method_used x = "R1" ∧ ar_fractional_attributions r = [] ∧
    ∃ t, od_get (cache_key "t" "endpoint" "svc") (hre_cache e') = Some (t, r).
Proof.
  apply (@hre_direct_match insertion_order id (λ _, f0) default_combination_config default_execution_config
    Engine_init (sample_request "team:a")); [apply init_inv|reflexivity..].
Defined.

Lemma hre_best_evidence_witness :
  ∃ signals r e' x, sample_serve (λ _, f0) evidence_request Engine_init = (Ok r, e') ∧ ar_explanation r = Some x ∧
    ar_combined_confidence r = combined_of default_combination_config (evidence_for (ex_target_entity x) signals) ∧
    Exists (λ s, rs_target_entity s = ex_target_entity x) signals ∧
    ∀ t, evidence_for t signals ≠ [] →
      fle (combined_of default_combination_config (evidence_for t signals)) (ar_combined_confidence r) = true.
Proof.
  eexists. eapply (@hre_best_evidence insertion_order id (λ _, f0) default_combination_config default_execution_config
    Engine_init evidence_request);
    [reflexivity|apply init_inv|discriminate|reflexivity|reflexivity|reflexivity|vm_compute; reflexivity|vm_compute; discriminate|].
  left. vm_compute. reflexivity.
Defined.

Definition target_of (r : AttributionResult) : string :=
  match ar_explanation r with Some x => ex_target_entity x | None => "" end.

Lemma hre_cache_context_blind_witness :
  match sample_serve (λ _, f0) (sample_request "team:old") Engine_init with
  | (Ok r, e1) => target_of r = "team:old" ∧ ∃ e2, sample_serve (λ _, f0) (sample_request "team:new") e1 = (Ok r, e2)
  | _ => False
  end.
Proof.
  assert (match (sample_serve (λ _, f0) (sample_request "team:old") Engine_init).1 with
          | Ok r => target_of r = "team:old" | _ => False end) as Ht by (vm_compute; reflexivity).
  destruct (sample_serve (λ _, f0) (sample_request "team:old") Engine_init) as [[r|x] e1] eqn:E; [|exact Ht].
  split; [exact Ht|].
  apply (@hre_cache_context_blind insertion_order id (λ _, f0) default_combination_config default_execution_config
    Engine_init (sample_request "team:old") (sample_request "team:new") r e1);
    [reflexivity|apply init_inv|reflexivity|constructor|intros; vm_compute; reflexivity|reflexivity|exact E].
Defined.

(** Two tenants whose texts join to the same key share results. *)
Example cache_crosses_tenants :
  cache_key "acme" "endpoint" "x:endpoint:y" = cache_key "acme:endpoint:x" "endpoint" "y".
Proof. reflexivity. Qed.

Lemma hre_budget_discards_evidence_witness :
  ∃ e', sample_serve (λ n, match n with 0 | 1 => f0 | _ => f1 end) evidence_request Engine_init
        = (Ok (unresolved_result "svc-nlp"), e').
Proof.
  eapply (@hre_budget_discards_evidence insertion_order id (λ n, match n with 0 | 1 => f0 | _ => f1 end)
    default_combination_config default_execution_config Engine_init evidence_request);
    [discriminate|reflexivity|reflexivity|vm_compute; reflexivity|discriminate|reflexivity|reflexivity|].
  vm_compute. reflexivity.
Defined.
