(* ===== verification/Calibration.v ===== *)
(** * Confidence calibration (src/aci/confidence/calibration.py)

    The engine's curves, the interpolation between their points, the refits that ground
    truth triggers and the tiers. The numerical libraries (isotonic regression, random
    resampling, order statistics, the Kolmogorov-Smirnov test) are the class [NumLib]; its laws
    are what their documentation states. *)

From S2P Require Import Prelude PyFloat PyData PyMath PyDifflib PyTime PyValue Models Combination HreMethods.
From Stdlib Require Import ZArith QArith Lia Lqa Sorted.
From stdpp Require Import base list strings sets.

Open Scope string_scope.
Open Scope list_scope.
Open Scope nat_scope.
Local Open Scope py_scope.

(** ** Data *)

Record ConfidenceConfig := mkConfidenceConfig {
  cc_cap : pyfloat;
  cc_diminishing_factor : pyfloat;
  cc_default_dependency_discount : pyfloat;
  cc_chargeback_threshold : pyfloat;
  cc_provisional_threshold : pyfloat;
  cc_min_samples_full_calibration : Z;
  cc_min_samples_bootstrap : Z;
  cc_warmstart_ks_threshold : pyfloat;
  cc_decay_window_days : Z;
  cc_decay_rate : pyfloat;
}.

(** [ConfidenceConfig()]. *)
Definition default_confidence_config : ConfidenceConfig :=
  mkConfidenceConfig (lit 95 100) (lit 5 10) (lit 5 10) (lit 80 100) (lit 50 100) 200 50 (lit 15 100) 90 (lit 1 100).

(** [_validate_threshold_ordering] *)
Definition validate_threshold_ordering (c : ConfidenceConfig) : res ConfidenceConfig :=
  if fle (cc_chargeback_threshold c) (cc_provisional_threshold c)
  then Raise (ValueError "chargeback_threshold must be greater than provisional_threshold") else Ok c.

Record CalibrationCurve := mkCurve {
  cu_method : string;
  cu_raw_scores : list pyfloat;
  cu_calibrated_scores : list pyfloat;
  cu_sample_count : Z;
  cu_is_warm_start : bool;
  cu_ks_statistic : option pyfloat;
  cu_uncertainty_band : option (pyfloat * pyfloat);
}.

Record GroundTruthLabel := mkLabel {
  gl_attribution_id : string;
  gl_true_team_id : string;
  gl_true_cost_center_id : string;
  gl_source : string;
  gl_predicted_team_id : string;
  gl_predicted_confidence : pyfloat;
  gl_method_used : string;
  gl_was_correct : bool;
}.

(** A decimal with two places. *)
Definition cents (z : Z) : pyfloat := lit z 100.

Definition WARM_START_CURVES : odict string (list (pyfloat * pyfloat)) :=
  let curve l := map (λ p, (cents (fst p), cents (snd p))) l in
  [("R1", curve [(0, 0); (50, 50); (90, 92); (98, 98); (100, 100)]);
   ("R2", curve [(0, 0); (30, 22); (50, 40); (70, 58); (90, 82); (100, 90)]);
   ("R3", curve [(0, 0); (30, 18); (50, 35); (70, 52); (90, 75); (100, 85)]);
   ("R4", curve [(0, 0); (30, 20); (50, 38); (70, 55); (90, 78); (100, 88)]);
   ("R5", curve [(0, 0); (30, 15); (50, 30); (70, 48); (90, 68); (100, 75)]);
   ("R6", curve [(0, 0); (30, 12); (50, 25); (70, 40); (90, 58); (100, 65)])]%Z.

(** ** Interpolation *)

(** Number of leading elements equal to [x]. *)
Fixpoint leading (x : pyfloat) (l : list pyfloat) : nat :=
  match l with y :: l' => if feq y x then S (leading x l') else 0 | [] => 0 end.

(** [max(l)]; the maximum of nothing raises. *)
Definition max_of (l : list pyfloat) : res pyfloat :=
  match l with x :: l' => Ok (fmaximum x l') | [] => Raise (ValueError "max() iterable argument is empty") end.

(** The loop over adjacent points. *)
Fixpoint interpolate_segments (raw_points cal_points : list pyfloat) (value : pyfloat) : res pyfloat :=
  match raw_points, cal_points with
  | r0 :: ((r1 :: _) as raw'), c0 :: ((c1 :: _) as cal') =>
      if fle r0 value && fle value r1 then
        let denominator := fsub r1 r0 in
        if fle denominator f0 then Ok (fmax c0 c1) else
        let? t := fdiv (fsub value r0) denominator in
        Ok (fadd c0 (fmul t (fsub c1 c0)))
      else interpolate_segments raw' cal' value
  | _, _ => Ok value
  end.

Definition _interpolate (raw_points cal_points : list pyfloat) (value : pyfloat) : res pyfloat :=
  match raw_points, last raw_points with
  | r0 :: rest, Some rn =>
      if fle value r0 then max_of (take (S (leading r0 rest)) cal_points)
      else if fle rn value then
        let lower := length raw_points - 1 - leading rn (tail (rev raw_points)) in
        max_of (drop lower cal_points)
      else interpolate_segments raw_points cal_points value
  | _, _ => Raise OtherError
  end.

(** ** Numerical libraries *)

(** A float of the unit interval. *)
Definition unit_float (x : pyfloat) : Prop := unit_itv x = true ∧ repr x.

(** The arguments of a fit: at least one score, an outcome of the unit interval and a positive
    weight for each. *)
Definition sample_ok (scores outcomes weights : list pyfloat) : Prop :=
  scores ≠ [] ∧ length outcomes = length scores ∧ length weights = length scores ∧
  Forall unit_float outcomes ∧ Forall (λ w, is_fin w = true ∧ flt f0 w = true) weights.

(** A fitted model that predicts a float of the unit interval for every finite one; it may
    refuse the others. *)
Definition good_model (predict : pyfloat → res pyfloat) : Prop :=
  ∀ x, is_fin x = true → ∃ y, predict x = Ok y ∧ unit_float y.

(** A computation that raises ValueError. *)
Definition refused {A} (r : res A) : Prop := ∃ msg, r = Raise (ValueError msg).

(** Documented laws: [IsotonicRegression(y_min=0, y_max=m)] fits finite scores, and predicts
    floats within [0, m] for finite ones, so within the unit interval for such an [m]; it
    refuses NaN and infinities with ValueError; [choice(n, size=n)] draws [n] positions below [n];
    [linspace(0, 1, n)] has [n] points of the unit
    interval; the median of curves of one length is a curve of that length, within the unit
    interval when they all are. *)
Class NumLib := {
  iso_fit : pyfloat → list pyfloat → list pyfloat → list pyfloat → res (pyfloat → res pyfloat);
  linspace : nat → list pyfloat;
  rng_choice : nat → nat → list nat;
  median_curve : list (list pyfloat) → list pyfloat;
  percentile_curve : pyfloat → list (list pyfloat) → list pyfloat;
  np_mean : list pyfloat → pyfloat;
  ks_2samp : list pyfloat → list pyfloat → pyfloat;
  iso_fit_finite y_max scores outcomes weights :
    unit_itv y_max = true → sample_ok scores outcomes weights → Forall (λ x, is_fin x = true) scores →
    ∃ predict, iso_fit y_max scores outcomes weights = Ok predict ∧ good_model predict;
  iso_fit_nonfinite y_max scores outcomes weights :
    sample_ok scores outcomes weights → Exists (λ x, is_fin x = false) scores →
    refused (iso_fit y_max scores outcomes weights);
  rng_choice_draws b n : length (rng_choice b n) = n ∧ Forall (λ i, i < n) (rng_choice b n);
  linspace_length n : length (linspace n) = n;
  linspace_unit n : Forall unit_float (linspace n);
  median_length n curves : curves ≠ [] → Forall (λ c, length c = n) curves → length (median_curve curves) = n;
  median_unit curves : curves ≠ [] → Forall (Forall unit_float) curves → Forall unit_float (median_curve curves);
}.

(** ** The engine *)

Section calibration.
  Context `{NumLib} (config : ConfidenceConfig).

  (** A fitted model is kept as its prediction function. *)
Record CalibrationEngine := mkCalibration {
    curves : odict string CalibrationCurve;
    ground_truth : odict string (list GroundTruthLabel);
    iso_models : odict string (pyfloat → res pyfloat);
  }.

Definition CalibrationEngine_init : CalibrationEngine :=
    mkCalibration (map (λ mp, (mp.1, mkCurve mp.1 (map fst mp.2) (map snd mp.2) 0 true None None)) WARM_START_CURVES)
                  [] [].

Definition calibrate (e : CalibrationEngine) (method : string) (raw_confidence : pyfloat) : res pyfloat :=
    match od_get method (curves e) with
    | None => Ok (fmul raw_confidence (lit 7 10))
    | Some curve =>
        match od_get method (iso_models e) with
        | Some predict =>
            let? calibrated := predict raw_confidence in
            Ok (fmin (cc_cap config) (fmax f0 calibrated))
        | None => _interpolate (cu_raw_scores curve) (cu_calibrated_scores curve) raw_confidence
        end
    end.

Definition calibrate_score := calibrate.

  (** [_with_tail_anchors]: scores, outcomes and weights. *)
Definition _with_tail_anchors (raw_scores outcomes : list pyfloat) : list pyfloat * list pyfloat * list pyfloat :=
    (raw_scores ++ [f0; f1], outcomes ++ [f0; f1],
     map (λ _, f1) raw_scores ++ [lit 5 100; lit 5 100]).

Definition training_data (labels : list GroundTruthLabel) : list pyfloat * list pyfloat * list pyfloat :=
    _with_tail_anchors (map gl_predicted_confidence labels)
                       (map (λ l, if gl_was_correct l then f1 else f0) labels).

Definition labels_of (e : CalibrationEngine) (method : string) : list GroundTruthLabel :=
    default [] (od_get method (ground_truth e)).

Definition set_curve (method : string) (c : CalibrationCurve) (e : CalibrationEngine) : CalibrationEngine :=
    mkCalibration (od_set method c (curves e)) (ground_truth e) (iso_models e).

Definition set_model (method : string) (predict : pyfloat → res pyfloat) (e : CalibrationEngine) : CalibrationEngine :=
    mkCalibration (curves e) (ground_truth e) (od_set method predict (iso_models e)).

  (** The Kolmogorov-Smirnov statistic against the warm-start curve, when the method has one. *)
Definition warm_start_ks (method : string) (test_points calibrated_points : list pyfloat) : res (option pyfloat) :=
    match od_get method WARM_START_CURVES with
    | Some points =>
        let? warm_calibrated := map_res (_interpolate (map fst points) (map snd points)) test_points in
        Ok (Some (ks_2samp calibrated_points warm_calibrated))
    | None => Ok None
    end.

  (** A refused fit leaves models and curves as they were. *)
Definition _fit_isotonic (method : string) : SE CalibrationEngine unit :=
    let! labels := se_get (λ e, labels_of e method) in
    let '(raw_scores, outcomes, weights) := training_data labels in
    let! iso := se_lift (iso_fit (cc_cap config) raw_scores outcomes weights) in
    se_modify (set_model method iso);;;
    let test_points := linspace 50 in
    let! calibrated_points := se_lift (map_res iso test_points) in
    let! ks := se_lift (warm_start_ks method test_points calibrated_points) in
    se_modify (set_curve method
      (mkCurve method test_points calibrated_points (Z.of_nat (length labels)) false ks None)).

  (** [x[indices]] *)
Definition pick (l : list pyfloat) (indices : list nat) : list pyfloat := omap (λ i, l !! i) indices.

Definition n_bootstrap : nat := 100.

  (** One round: the fit of the resampled labels, predicted at the test points. *)
Definition bootstrap_round (scores outcomes weights test_points : list pyfloat) (b : nat) : res (list pyfloat) :=
    let indices := rng_choice b (length scores) in
    let? iso := iso_fit (cc_cap config) (pick scores indices) (pick outcomes indices) (pick weights indices) in
    map_res iso test_points.

Definition _fit_bootstrap (method : string) : SE CalibrationEngine unit :=
    let! labels := se_get (λ e, labels_of e method) in
    let '(scores, outcomes, weights) := training_data labels in
    let test_points := linspace 20 in
    let! bootstrap_curves := se_lift (map_res (bootstrap_round scores outcomes weights test_points) (seq 0 n_bootstrap)) in
    let lower := percentile_curve (lit 25 10) bootstrap_curves in
    let upper := percentile_curve (lit 975 10) bootstrap_curves in
    se_modify (set_curve method
      (mkCurve method test_points (median_curve bootstrap_curves) (Z.of_nat (length labels)) true None
         (Some (np_mean lower, np_mean upper)))).

  (** [self.ground_truth[label.method_used].append(label)] *)
Definition record_label (label : GroundTruthLabel) (e : CalibrationEngine) : CalibrationEngine :=
    let method := gl_method_used label in
    mkCalibration (curves e) (od_set method (labels_of e method ++ [label]) (ground_truth e)) (iso_models e).

  (** The label stays recorded when its fit raises. *)
Definition add_ground_truth (label : GroundTruthLabel) : SE CalibrationEngine unit :=
    se_modify (record_label label);;;
    let method := gl_method_used label in
    let! count := se_get (λ e, Z.of_nat (length (labels_of e method))) in
    if (cc_min_samples_full_calibration config <=? count)%Z then _fit_isotonic method
    else if (cc_min_samples_bootstrap config <=? count)%Z then _fit_bootstrap method
    else se_ret tt.

Definition get_confidence_tier (confidence : pyfloat) : ConfidenceTier :=
    if fle (cc_chargeback_threshold config) confidence then CHARGEBACK_READY
    else if fle (cc_provisional_threshold config) confidence then PROVISIONAL
    else ESTIMATED.

Definition apply_temporal_decay `{ExpLib} (confidence signal_age_days : pyfloat) : res pyfloat :=
    let window := of_Z (cc_decay_window_days config) in
    if fle signal_age_days window then Ok confidence else
    let excess_days := fsub signal_age_days window in
    let? decay := math_exp (fmul (fneg (cc_decay_rate config)) excess_days) in
    Ok (fmul confidence decay).
End calibration.

Arguments CalibrationEngine_init : clear implicits.

Example interpolate_samples :
  let r1 v := match od_get "R1" WARM_START_CURVES with
              | Some l => match _interpolate (map fst l) (map snd l) v with Ok x => repr_float x | _ => "" end
              | None => "" end in
  map r1 [cents 98; f1; cents 70; lit (-1) 10; of_Z 2] = ["0.98"; "1.0"; "0.71"; "0.0"; "1.0"] ∧
  match _interpolate [lit 5 10; lit 5 10; lit 9 10] [lit 2 10; lit 4 10; lit 6 10] (lit 5 10) with
  | Ok x => x = lit 4 10 | Raise _ => False end.
Proof. vm_compute. auto. Qed.

(** ** Lemmas: interpolation *)

Definition curve_ok (raw cal : list pyfloat) : Prop :=
  raw ≠ [] ∧ length raw = length cal ∧ Forall unit_float raw ∧ Forall unit_float cal.

Lemma fmaximum_in x l : fmaximum x l ∈ x :: l.
Proof. apply argmax_from_in. Qed.

Lemma max_of_unit l : l ≠ [] → Forall unit_float l → ∃ x, max_of l = Ok x ∧ unit_float x.
Proof.
  destruct l as [|x l]; [done|]. intros _ Hl. exists (fmaximum x l). split; [done|].
  rewrite Forall_forall in Hl. apply Hl, fmaximum_in.
Qed.

(** A step from [c0] toward [c1] by a part of their distance stays in the unit interval. *)
Lemma lerp_unit c0 c1 t : unit_float c0 → unit_float c1 → unit_itv t = true →
  unit_itv (fadd c0 (fmul t (fsub c1 c0))) = true.
Proof.
  intros [(p & -> & Hp)%unit_itv_fin Rp] [(q & -> & Hq)%unit_itv_fin Rq] (u & -> & Hu)%unit_itv_fin.
  unfold fsub. cbn [fneg fadd]. rewrite (of_Q_comp (q + Qred (- p)) (q - p)) by (rewrite Qred_correct; lra).
  unfold unit_itv. apply andb_true_iff.
  destruct (Qlt_le_dec q p) as [Hlt|Hle].
  - (* decreasing: the step is between [-p] and [0] *)
    assert (fle (Fin (Qred (- p))) (of_Q (q - p)) = true) as Hd.
    { apply of_Q_ge_repr; [rewrite Qred_correct; lra|]. by apply (fneg_repr (Fin p)). }
    assert (fle (of_Q (q - p)) f0 = true) as Hd0 by (apply of_Q_le_repr; [lra|apply repr_f0]).
    pose proof (of_Q_repr (q - p)) as Hr. destruct (of_Q (q - p)) as [d| | |]; try done. simpl in Hd, Hd0.
    apply Qle_bool_iff in Hd, Hd0. rewrite Qred_correct in Hd. cbn [fmul].
    assert (fle (Fin d) (of_Q (u * d)) = true) as H1 by (apply of_Q_ge_repr; [nra|done]).
    assert (fle (of_Q (u * d)) f0 = true) as H2 by (apply of_Q_le_repr; [nra|apply repr_f0]).
    destruct (of_Q (u * d)) as [w| | |]; try done. simpl in H1, H2. apply Qle_bool_iff in H1, H2. cbn [fadd].
    split; [apply of_Q_ge_repr; [lra|apply repr_f0]|].
    eapply fle_trans; [apply of_Q_le_repr; [|exact Rp]; lra|]. apply Qle_bool_iff; lra.
  - assert (fle f0 (of_Q (q - p)) = true) as Hd0 by (apply of_Q_ge_repr; [lra|apply repr_f0]).
    assert (fle (of_Q (q - p)) f1 = true) as Hd1 by (apply of_Q_le_repr; [lra|apply repr_f1]).
    pose proof (of_Q_repr (q - p)) as Hr. destruct (of_Q (q - p)) as [d| | |] eqn:Ed; try done.
    simpl in Hd0, Hd1. apply Qle_bool_iff in Hd0, Hd1. cbn [fmul].
    assert (fle f0 (of_Q (u * d)) = true) as H1 by (apply of_Q_ge_repr; [nra|apply repr_f0]).
    assert (fle (of_Q (u * d)) (Fin d) = true) as H2 by (apply of_Q_le_repr; [nra|done]).
    destruct (of_Q (u * d)) as [w| | |]; try done. simpl in H1, H2. apply Qle_bool_iff in H1, H2. cbn [fadd].
    split; [apply of_Q_ge_repr; [lra|apply repr_f0]|].
    pose proof (fadd_complement p (q - p) Hp ltac:(lra)) as Hc. rewrite Ed in Hc. cbn [fadd] in Hc.
    eapply fle_trans; [apply of_Q_mono|exact Hc]. lra.
Qed.

(** The part of a segment that lies before a value of it. *)
Lemma segment_part r0 r1 v t : unit_float r0 → unit_float r1 → fle r0 v = true → fle v r1 = true →
  fle (fsub r1 r0) f0 = false → fdiv (fsub v r0) (fsub r1 r0) = Ok t → unit_itv t = true.
Proof.
  intros [(p & -> & Hp)%unit_itv_fin _] [(q & -> & Hq)%unit_itv_fin _] Hv0 Hv1.
  destruct v as [w| | |]; try done. simpl in Hv0, Hv1. apply Qle_bool_iff in Hv0, Hv1.
  unfold fsub. cbn [fneg fadd].
  assert (fle (of_Q (w + Qred (- p))) (of_Q (q + Qred (- p))) = true) as Hle
    by (apply of_Q_mono; rewrite Qred_correct; lra).
  assert (fle f0 (of_Q (w + Qred (- p))) = true) as Hn
    by (apply of_Q_ge_repr; [rewrite Qred_correct; lra|apply repr_f0]).
  assert (fle (of_Q (q + Qred (- p))) f1 = true) as Hd
    by (apply of_Q_le_repr; [rewrite Qred_correct; lra|apply repr_f1]).
  destruct (of_Q (w + Qred (- p))) as [n| | |], (of_Q (q + Qred (- p))) as [d| | |]; try done.
  simpl in Hle, Hn, Hd. apply Qle_bool_iff in Hle, Hn. intros Hz. simpl in Hz. apply Qle_bool_false in Hz.
  unfold fdiv. destruct (Qeq_bool d 0) eqn:E; [done|]. intros <-%Ok_inj. apply of_Q_unit. split.
  - apply Qle_shift_div_l; lra.
  - apply Qle_shift_div_r; lra.
Qed.

Lemma interpolate_segments_unit raw cal v :
  length raw = length cal → Forall unit_float raw → Forall unit_float cal → unit_itv v = true →
  ∃ x, interpolate_segments raw cal v = Ok x ∧ unit_itv x = true.
Proof.
  intros Hlen Hraw. revert cal Hlen. induction Hraw as [|r0 raw Hr0 Hraw IH]; intros cal Hlen Hcal Hv.
  { by exists v. }
  destruct cal as [|c0 cal]; [done|]. apply Forall_cons in Hcal as [Hc0 Hcal]. injection Hlen as Hlen.
  destruct raw as [|r1 raw], cal as [|c1 cal]; try done; [by exists v|].
  pose proof (Forall_inv Hraw) as Hr1. pose proof (Forall_inv Hcal) as Hc1. cbn [interpolate_segments].
  destruct (fle r0 v && fle v r1) eqn:Ev; [|by apply (IH (c1 :: cal))].
  apply andb_true_iff in Ev as [Ev0 Ev1].
  destruct (fle (fsub r1 r0) f0) eqn:Ez.
  { eexists. split; [done|]. apply unit_max; [apply Hc0|apply Hc1]. }
  destruct (fdiv_ok (fsub v r0) _ Ez) as [t Et]. rewrite Et. cbn [rbind]. eexists. split; [done|].
  apply lerp_unit; [exact Hc0|exact Hc1|]. by apply (segment_part r0 r1 v).
Qed.

Lemma interpolate_unit raw cal v : curve_ok raw cal → unit_itv v = true →
  ∃ x, _interpolate raw cal v = Ok x ∧ unit_itv x = true.
Proof.
  intros (Hne & Hlen & Hraw & Hcal) Hv. unfold _interpolate.
  destruct raw as [|r0 rest] eqn:Er; [done|]. rewrite <- Er in *.
  destruct (last raw) as [rn|] eqn:El; [|by apply last_None in El; subst].
  assert (cal ≠ []) as Hcne by (intros ->; by subst raw).
  destruct (fle v r0).
  { destruct (max_of_unit (take (S (leading r0 rest)) cal)) as (x & Hx & Hu & _); [by destruct cal| |eauto].
    by apply Forall_take. }
  destruct (fle rn v); [|by apply interpolate_segments_unit].
  set (k := length raw - 1 - leading rn (tail (rev raw))).
  destruct (max_of_unit (drop k cal)) as (x & Hx & Hu & _); [| |eauto].
  - intros E. apply (f_equal length) in E. rewrite length_drop in E. simpl in E.
    assert (0 < length raw) by (rewrite Er; simpl; lia). lia.
  - by apply Forall_drop.
Qed.

(** ** Lemmas: order *)

(** Increasing points whose segments end at or below the next point. *)
Fixpoint mono_check (raw cal : list pyfloat) : bool :=
  match raw, cal with
  | r0 :: ((r1 :: _) as raw'), c0 :: ((c1 :: _) as cal') =>
      flt r0 r1 && fle c0 c1 && negb (fle (fsub r1 r0) f0) && fle (fadd c0 (fsub c1 c0)) c1 && mono_check raw' cal'
  | [_], [_] => true
  | _, _ => false
  end.

(** Steps of a rising segment: between its ends, and in the order of their parts. *)
Lemma lerp_order c0 c1 t u : unit_float c0 → unit_float c1 → fle c0 c1 = true →
  fle (fadd c0 (fsub c1 c0)) c1 = true → unit_itv t = true → unit_itv u = true → fle t u = true →
  fle c0 (fadd c0 (fmul t (fsub c1 c0))) = true ∧
  fle (fadd c0 (fmul t (fsub c1 c0))) (fadd c0 (fmul u (fsub c1 c0))) = true ∧
  fle (fadd c0 (fmul u (fsub c1 c0))) c1 = true.
Proof.
  intros [(p & -> & Hp)%unit_itv_fin Rp] [(q & -> & Hq)%unit_itv_fin Rq] Hc Hj
    (a & -> & Ha)%unit_itv_fin (b & -> & Hb)%unit_itv_fin Hab. simpl in Hc, Hab. apply Qle_bool_iff in Hc, Hab.
  unfold fsub in *. cbn [fneg fadd] in *.
  assert (fle f0 (of_Q (q + Qred (- p))) = true) as Hd0
    by (apply of_Q_ge_repr; [rewrite Qred_correct; lra|apply repr_f0]).
  assert (fle (of_Q (q + Qred (- p))) f1 = true) as Hd1
    by (apply of_Q_le_repr; [rewrite Qred_correct; lra|apply repr_f1]).
  pose proof (of_Q_repr (q + Qred (- p))) as Hr.
  destruct (of_Q (q + Qred (- p))) as [d| | |]; try done. simpl in Hd0, Hd1. apply Qle_bool_iff in Hd0, Hd1. cbn [fmul].
  assert (fle f0 (of_Q (a * d)) = true) as H1 by (apply of_Q_ge_repr; [nra|apply repr_f0]).
  assert (fle (of_Q (a * d)) (of_Q (b * d)) = true) as H2 by (apply of_Q_mono; nra).
  assert (fle (of_Q (b * d)) (Fin d) = true) as H3 by (apply of_Q_le_repr; [nra|done]).
  destruct (of_Q (a * d)) as [x| | |], (of_Q (b * d)) as [y| | |]; try done. simpl in H1, H2, H3.
  apply Qle_bool_iff in H1, H2, H3. cbn [fadd] in *. split_and!.
  - apply of_Q_ge_repr; [lra|done].
  - apply of_Q_mono. lra.
  - eapply fle_trans; [apply of_Q_mono|exact Hj]. lra.
Qed.

Lemma segment_part_mono r0 r1 v w t u : unit_float r0 → unit_float r1 →
  fle r0 v = true → fle v w = true → fle w r1 = true → fle (fsub r1 r0) f0 = false →
  fdiv (fsub v r0) (fsub r1 r0) = Ok t → fdiv (fsub w r0) (fsub r1 r0) = Ok u → fle t u = true.
Proof.
  intros [(p & -> & Hp)%unit_itv_fin _] [(q & -> & Hq)%unit_itv_fin _] Hv Hvw Hw.
  destruct v as [v| | |], w as [w| | |]; try done.
  assert (fle (fsub (Fin v) (Fin p)) (fsub (Fin w) (Fin p)) = true) as Hle by (by apply fsub_mono_l).
  assert (fle (fsub (Fin w) (Fin p)) (fsub (Fin q) (Fin p)) = true) as Hle' by (by apply fsub_mono_l).
  assert (fle (fsub (Fin q) (Fin p)) f1 = true) as Hd
    by (apply of_Q_le_repr; [rewrite Qred_correct; lra|apply repr_f1]).
  assert (fle f0 (fsub (Fin v) (Fin p)) = true) as Hn.
  { simpl in Hv. apply Qle_bool_iff in Hv. apply of_Q_ge_repr; [rewrite Qred_correct; lra|apply repr_f0]. }
  destruct (fsub (Fin v) (Fin p)) as [x| | |], (fsub (Fin w) (Fin p)) as [y| | |], (fsub (Fin q) (Fin p)) as [d| | |]; try done.
  intros Hz. simpl in Hz, Hle. apply Qle_bool_false in Hz. apply Qle_bool_iff in Hle.
  unfold fdiv. destruct (Qeq_bool d 0); [done|]. intros <-%Ok_inj <-%Ok_inj. apply of_Q_mono.
  unfold Qdiv. apply Qmult_le_compat_r; [done|]. apply Qinv_le_0_compat. lra.
Qed.

(** One segment of checked points. *)
Lemma mono_check_head r0 r1 raw c0 c1 cal :
  mono_check (r0 :: r1 :: raw) (c0 :: c1 :: cal) = true →
  fle c0 c1 = true ∧ fle (fsub r1 r0) f0 = false ∧ fle (fadd c0 (fsub c1 c0)) c1 = true ∧
  mono_check (r1 :: raw) (c1 :: cal) = true.
Proof. intros Hm. cbn [mono_check] in Hm. bool_hyps. done. Qed.

Lemma mono_check_last raw cal c0 cn : mono_check raw (c0 :: cal) = true → Forall unit_float (c0 :: cal) →
  last (c0 :: cal) = Some cn → fle c0 cn = true.
Proof.
  revert raw c0; induction cal as [|c1 cal IH]; intros raw c0 Hm Hcal Hl.
  - injection Hl as ->. apply fle_refl, unit_not_nan, (Forall_inv Hcal).
  - destruct raw as [|r0 [|r1 raw]]; [done..|]. apply mono_check_head in Hm as (H1 & _ & _ & Hm).
    eapply fle_trans; [exact H1|]. apply (IH (r1 :: raw)); [done| |done]. by apply Forall_cons in Hcal as [_ ?].
Qed.

Lemma segment_value r0 r1 raw c0 c1 cal z :
  mono_check (r0 :: r1 :: raw) (c0 :: c1 :: cal) = true → unit_float r0 → unit_float r1 →
  fle r0 z = true → fle z r1 = true →
  ∃ t, unit_itv t = true ∧ fdiv (fsub z r0) (fsub r1 r0) = Ok t ∧
    interpolate_segments (r0 :: r1 :: raw) (c0 :: c1 :: cal) z = Ok (fadd c0 (fmul t (fsub c1 c0))).
Proof.
  intros (_ & Hz & _)%mono_check_head H0 H1 Hz0 Hz1. destruct (fdiv_ok (fsub z r0) _ Hz) as [t Et].
  exists t. split_and!; [by eapply (segment_part r0 r1)|done|]. cbn [interpolate_segments].
  rewrite Hz0, Hz1. cbn [andb]. by rewrite Hz, Et.
Qed.

Lemma segment_next r0 r1 raw c0 c1 cal z : fle z r1 = false →
  interpolate_segments (r0 :: r1 :: raw) (c0 :: c1 :: cal) z = interpolate_segments (r1 :: raw) (c1 :: cal) z.
Proof. intros Hz. cbn [interpolate_segments]. by rewrite Hz, andb_false_r. Qed.

(** Within the range of at least two points, a value is between the first and the last one. *)
Lemma segments_between raw cal r0 rn c0 cn z :
  mono_check raw cal = true → Forall unit_float raw → Forall unit_float cal →
  head raw = Some r0 → last raw = Some rn → head cal = Some c0 → last cal = Some cn → 2 ≤ length raw →
  fle r0 z = true → fle z rn = true →
  ∃ x, interpolate_segments raw cal z = Ok x ∧ fle c0 x = true ∧ fle x cn = true.
Proof.
  intros Hm Hraw. revert cal r0 c0 Hm. induction Hraw as [|r raw Hr Hraw IH]; intros cal r0 c0 Hm Hcal; [done|].
  intros [= ->] Hlast Hhc Hlc Hlen Hz0 Hzn.
  destruct raw as [|r1 raw]; [simpl in Hlen; lia|]. destruct cal as [|c [|c1 cal]]; [done..|].
  injection Hhc as ->. pose proof Hm as (Hc01 & Hz & Hj & Hrest)%mono_check_head.
  pose proof (Forall_inv Hraw) as Hr1. apply Forall_cons in Hcal as [Hc0 Hcal]. pose proof (Forall_inv Hcal) as Hc1.
  pose proof (mono_check_last _ _ _ cn Hrest Hcal Hlc) as Hcn.
  destruct (fle z r1) eqn:Ez.
  - destruct (segment_value r0 r1 raw c0 c1 cal z) as (t & Ht & _ & ->); [done..|].
    destruct (lerp_order c0 c1 t t) as (L1 & _ & L3); [done..|by apply fle_refl, unit_not_nan|].
    eexists. split_and!; [done|done|by eapply fle_trans].
  - rewrite segment_next by done.
    assert (raw ≠ []) as Hne by (intros ->; injection Hlast as <-; congruence).
    destruct (IH (c1 :: cal) r1 c1) as (x & -> & H1 & H2); try done.
    + destruct raw; [done|simpl; lia].
    + apply fle_false_flip; [by apply fle_not_nan_r in Hz0|by apply unit_not_nan, Hr1|done].
    + exists x. split_and!; [done|by eapply fle_trans|done].
Qed.

(** Interpolation keeps the order of values within the range of the points. *)
Lemma segments_order raw cal r0 rn v w :
  mono_check raw cal = true → Forall unit_float raw → Forall unit_float cal →
  head raw = Some r0 → last raw = Some rn → fle r0 v = true → fle v w = true → fle w rn = true →
  2 ≤ length raw →
  ∃ x y, interpolate_segments raw cal v = Ok x ∧ interpolate_segments raw cal w = Ok y ∧ fle x y = true.
Proof.
  intros Hm Hraw. revert cal r0 Hm. induction Hraw as [|r raw Hr Hraw IH]; intros cal r0 Hm Hcal; [done|].
  intros [= ->] Hlast Hv Hvw Hw Hlen.
  destruct raw as [|r1 raw]; [simpl in Hlen; lia|]. destruct cal as [|c0 [|c1 cal]]; [done..|].
  pose proof Hm as (Hc01 & Hz & Hj & Hrest)%mono_check_head.
  pose proof (Forall_inv Hraw) as Hr1. apply Forall_cons in Hcal as [Hc0 Hcal]. pose proof (Forall_inv Hcal) as Hc1.
  assert (fle r0 w = true) as Hw0 by (by eapply fle_trans).
  destruct (fle w r1) eqn:Ew.
  { assert (fle v r1 = true) as Ev by (by eapply fle_trans).
    destruct (segment_value r0 r1 raw c0 c1 cal v) as (t & Ht & Et & ->); [done..|].
    destruct (segment_value r0 r1 raw c0 c1 cal w) as (u & Hu & Eu & ->); [done..|].
    destruct (lerp_order c0 c1 t u) as (_ & L2 & _); [done..| |by eauto].
    by apply (segment_part_mono r0 r1 v w). }
  rewrite (segment_next r0 r1 raw c0 c1 cal w) by done.
  assert (raw ≠ []) as Hne by (intros ->; injection Hlast as <-; congruence).
  assert (2 ≤ length (r1 :: raw)) as Hlen' by (destruct raw; [done|simpl; lia]).
  assert (fle r1 w = true) as Hw1
    by (apply fle_false_flip; [by apply fle_not_nan_r in Hvw|by apply unit_not_nan, Hr1|done]).
  destruct (fle v r1) eqn:Ev.
  - assert (∃ cn, last (c1 :: cal) = Some cn) as [cn Hcn].
    { destruct (last (c1 :: cal)) eqn:E; [eauto|]. by apply last_None in E. }
    destruct (segment_value r0 r1 raw c0 c1 cal v) as (t & Ht & Et & ->); [done..|].
    destruct (lerp_order c0 c1 t t) as (_ & _ & L3); [done..|by apply fle_refl, unit_not_nan|].
    destruct (segments_between (r1 :: raw) (c1 :: cal) r1 rn c1 cn w) as (y & -> & Hy & _); [done..|].
    eexists _, _. split_and!; [done|done|by eapply fle_trans].
  - rewrite (segment_next r0 r1 raw c0 c1 cal v) by done. apply (IH (c1 :: cal) r1); try done.
    apply fle_false_flip; [by apply fle_not_nan_r in Hv|by apply unit_not_nan, Hr1|done].
Qed.

(** Curves on which interpolation is monotone: checked points with distinct end points. *)
Definition curve_check (raw cal : list pyfloat) : bool :=
  mono_check raw cal && (2 <=? length raw) && (length raw =? length cal) &&
  match raw, last raw with
  | r0 :: rest, Some rn => (leading r0 rest =? 0) && (leading rn (tail (rev raw)) =? 0)
  | _, _ => false
  end.

Lemma curve_check_split raw cal : curve_check raw cal = true →
  mono_check raw cal = true ∧ 2 ≤ length raw ∧ length raw = length cal ∧
  ∃ r0 rest rn c0 cn, raw = r0 :: rest ∧ last raw = Some rn ∧ head cal = Some c0 ∧ last cal = Some cn ∧
    leading r0 rest = 0 ∧ leading rn (tail (rev raw)) = 0.
Proof.
  unfold curve_check. intros Hc. apply andb_prop in Hc as [Hc He]. apply andb_prop in Hc as [Hc Hl].
  apply andb_prop in Hc as [Hm H2]. apply Nat.leb_le in H2. apply Nat.eqb_eq in Hl.
  split_and!; [done..|]. destruct raw as [|r0 rest]; [done|].
  destruct (last (r0 :: rest)) as [rn|] eqn:El; [|by apply last_None in El].
  apply andb_prop in He as [H3 H4]. apply Nat.eqb_eq in H3, H4.
  destruct cal as [|c0 cal]; [done|].
  destruct (last (c0 :: cal)) as [cn|] eqn:Ec; [|by apply last_None in Ec].
  by exists r0, rest, rn, c0, cn.
Qed.

(** The three cases of a value: at or below the points, at or above them, between. *)
Lemma interpolate_cases raw cal r0 rest rn c0 cn z :
  length raw = length cal → raw = r0 :: rest → last raw = Some rn → head cal = Some c0 → last cal = Some cn →
  leading r0 rest = 0 → leading rn (tail (rev raw)) = 0 →
  _interpolate raw cal z = if fle z r0 then Ok c0 else if fle rn z then Ok cn else interpolate_segments raw cal z.
Proof.
  intros Hl Er Hrn Hc0 Hcn H1 H2. unfold _interpolate. rewrite Er. rewrite <- Er, Hrn, H1, H2.
  destruct cal as [|c cal']; [done|]. injection Hc0 as ->.
  destruct (fle z r0); [done|]. destruct (fle rn z); [|done].
  rewrite Hl, Nat.sub_0_r. apply last_Some in Hcn as [l ->]. rewrite length_app, Nat.add_sub.
  by rewrite drop_app_length.
Qed.

Lemma interpolate_mono raw cal v w :
  curve_check raw cal = true → Forall unit_float raw → Forall unit_float cal → fle v w = true →
  ∃ x y, _interpolate raw cal v = Ok x ∧ _interpolate raw cal w = Ok y ∧ fle x y = true.
Proof.
  intros Hc Hraw Hcal Hvw.
  apply curve_check_split in Hc as (Hm & Hlen & Hl & r0 & rest & rn & c0 & cn & Er & Hrn & Hc0 & Hcn & H1 & H2).
  rewrite !(interpolate_cases raw cal r0 rest rn c0 cn) by done.
  assert (head raw = Some r0) as Hr0 by (by rewrite Er).
  assert (∃ cal', cal = c0 :: cal') as [cal' Ec] by (destruct cal; simplify_eq/=; eauto).
  assert (unit_float r0 ∧ unit_float rn) as [Hur0 Hurn].
  { rewrite Forall_forall in Hraw. split; apply Hraw; [rewrite Er; left|by apply last_Some_elem_of]. }
  assert (unit_float c0 ∧ unit_float cn) as [Huc0 Hucn].
  { rewrite Forall_forall in Hcal. split; apply Hcal; [rewrite Ec; left|by apply last_Some_elem_of]. }
  assert (fle c0 cn = true) as Hc0n by (apply (mono_check_last raw cal'); by rewrite <- ?Ec).
  pose proof (fle_not_nan_l _ _ Hvw) as Hnv. pose proof (fle_not_nan_r _ _ Hvw) as Hnw.
  assert (∀ z, is_nan z = false → fle z r0 = false → fle rn z = false →
    ∃ x, interpolate_segments raw cal z = Ok x ∧ fle c0 x = true ∧ fle x cn = true) as Hmid.
  { intros z Hz Z1 Z2. apply (segments_between raw cal r0 rn); try done;
      apply fle_false_flip; auto; apply unit_not_nan; [apply Hur0|apply Hurn]. }
  assert (fle c0 c0 = true ∧ fle cn cn = true) as [Hc00 Hcnn]
    by (split; apply fle_refl, unit_not_nan; [apply Huc0|apply Hucn]).
  destruct (fle v r0) eqn:Ev0.
  { destruct (fle w r0) eqn:Ew0; [by eexists _, _|]. destruct (fle rn w) eqn:Ewn; [by eexists _, _|].
    destruct (Hmid w) as (y & -> & Hy & _); [done..|]. by eexists _, _. }
  destruct (fle w r0) eqn:Ew0; [by rewrite (fle_trans v w r0) in Ev0|].
  destruct (fle rn v) eqn:Evn.
  { rewrite (fle_trans rn v w) by done. by eexists _, _. }
  destruct (fle rn w) eqn:Ewn.
  { destruct (Hmid v) as (x & -> & _ & Hx); [done..|]. by eexists _, _. }
  apply (segments_order raw cal r0 rn v w); try done;
    apply fle_false_flip; auto; apply unit_not_nan; [apply Hur0|apply Hurn].
Qed.

(** ** Lemmas: the engine *)

Lemma warm_start_curves :
  Forall (λ mp, curve_check (map fst mp.2) (map snd mp.2) = true ∧
                Forall unit_float (map fst mp.2) ∧ Forall unit_float (map snd mp.2)) WARM_START_CURVES.
Proof.
  assert (∀ l, Forall (λ z, 0 <= z <= 100)%Z l → Forall unit_float (map cents l)) as Hc.
  { intros l Hl. induction Hl as [|z l Hz Hl IH]; constructor; [|done]. split; [|apply of_Q_repr].
    apply of_Q_unit. unfold Qle; simpl; lia. }
  assert (∀ l, Forall (λ p, 0 <= p.1 <= 100 ∧ 0 <= p.2 <= 100)%Z l →
    Forall unit_float (map fst (map (λ p, (cents (fst p), cents (snd p))) l)) ∧
    Forall unit_float (map snd (map (λ p, (cents (fst p), cents (snd p))) l))) as Hp.
  { intros l Hl. rewrite !map_map. cbn [fst snd]. rewrite <- (map_map fst cents), <- (map_map snd cents).
    split; apply Hc; induction Hl as [|p l Hp Hl IH]; constructor; tauto. }
  unfold WARM_START_CURVES. repeat (apply Forall_cons; split); [..|constructor]; cbn [fst snd];
    (split; [vm_compute; reflexivity|apply Hp]); repeat (apply Forall_cons; split; [cbn; lia|]); constructor.
Qed.

Section engine.
  Context `{NumLib} (config : ConfidenceConfig) (Hcap : unit_itv (cc_cap config) = true).

  (** Every curve is usable and every fitted model predicts floats of the unit interval for
      finite ones. *)
Definition calibration_inv (e : CalibrationEngine) : Prop :=
    Forall (λ kv, curve_ok (cu_raw_scores kv.2) (cu_calibrated_scores kv.2)) (curves e) ∧
    Forall (λ kv, good_model kv.2) (iso_models e).

Lemma Forall_od_set {V} (P : string * V → Prop) k v (d : odict string V) :
    Forall P d → P (k, v) → Forall P (od_set k v d).
  Proof.
    intros Hd Hv. induction Hd as [|[k' v'] d Hx Hd IH]; simpl; [by apply Forall_singleton|].
    case_decide; apply Forall_cons; [by subst|done].
  Qed.

Lemma calibration_inv_init : calibration_inv CalibrationEngine_init.
  Proof.
    split; [|constructor]. cbn [curves CalibrationEngine_init]. apply Forall_map.
    eapply Forall_impl; [apply warm_start_curves|]. intros [m l] (Hc & Hr & Hl). cbn [fst snd] in *.
    apply curve_check_split in Hc as (_ & H2 & Hlen & _). split_and!; try done.
    cbn [cu_raw_scores]. intros E. rewrite E in H2. simpl in H2. lia.
  Qed.

Lemma warm_interpolate method points l :
    od_get method WARM_START_CURVES = Some points → Forall unit_float l →
    ∃ ys, map_res (_interpolate (map fst points) (map snd points)) l = Ok ys.
  Proof.
    intros Hm%od_get_Some_in Hl. pose proof warm_start_curves as Hw. rewrite Forall_forall in Hw.
    destruct (Hw _ Hm) as (Hc & Hr & Hs). cbn [snd] in *.
    apply curve_check_split in Hc as (_ & H2 & Hlen & _).
    apply map_res_total. intros x Hx. rewrite Forall_forall in Hl.
    destruct (interpolate_unit (map fst points) (map snd points) x) as (y & -> & _); [|apply Hl, Hx|done].
    split_and!; try done. intros E. rewrite E in H2. simpl in H2. lia.
  Qed.

Lemma linspace_ne n : linspace (S n) ≠ [].
  Proof. intros E. pose proof (linspace_length (S n)) as Hl. rewrite E in Hl. done. Qed.

Abbreviation fin_label := (λ l, is_fin (gl_predicted_confidence l) = true).

  (** When the refit after the last of a method's labels [ls] raises: from the full minimum on when
      any of them carries a confidence that is not finite; from the bootstrap minimum on when
      one of the 100 rounds draws such a label (the two anchors are drawn like labels). *)
Definition fit_refused (ls : list GroundTruthLabel) : Prop :=
    let n := Z.of_nat (length ls) in
    ((cc_min_samples_full_calibration config <= n)%Z ∧ ∃ l, l ∈ ls ∧ is_fin (gl_predicted_confidence l) = false) ∨
    ((cc_min_samples_bootstrap config <= n < cc_min_samples_full_calibration config)%Z ∧
     ∃ b i l, b < 100 ∧ i ∈ rng_choice b (length ls + 2) ∧ ls !! i = Some l ∧
       is_fin (gl_predicted_confidence l) = false).

Lemma training_sample ls scores outcomes weights : training_data ls = (scores, outcomes, weights) →
    sample_ok scores outcomes weights ∧ length scores = length ls + 2 ∧
    (∀ i x, scores !! i = Some x → is_fin x = false → ∃ l, ls !! i = Some l ∧ gl_predicted_confidence l = x) ∧
    (∀ i l, ls !! i = Some l → scores !! i = Some (gl_predicted_confidence l)).
  Proof.
    unfold training_data, _with_tail_anchors. intros [= <- <- <-]. rewrite !length_app, !length_map. split_and!.
    - split_and!; [by destruct ls|by rewrite !length_app, !length_map..| |].
      + apply Forall_app. split; [|by repeat constructor].
        apply Forall_map, Forall_true. intros l. by destruct (gl_was_correct l).
      + rewrite map_map. apply Forall_app. split; [|by repeat constructor]. apply Forall_map, Forall_true. done.
    - done.
    - intros i x Hx Hf. apply lookup_app_Some in Hx as [Hx|[_ Hx]].
      + rewrite list_lookup_fmap in Hx. destruct (ls !! i) as [l|]; simplify_eq/=. by eexists.
      + apply list_elem_of_lookup_2, elem_of_cons in Hx as [->|Hx]; [done|]. by apply list_elem_of_singleton in Hx as ->.
    - intros i l Hl. apply lookup_app_l_Some. by rewrite list_lookup_fmap, Hl.
  Qed.

Lemma pick_spec l indices : Forall (λ i, i < length l) indices → Forall2 (λ i x, l !! i = Some x) indices (pick l indices).
  Proof.
    unfold pick. induction 1 as [|i indices Hi _ IH]; [constructor|]. cbn [omap list_omap].
    destruct (lookup_lt_is_Some_2 l i Hi) as [x Hx]. rewrite Hx. by constructor.
  Qed.

Lemma pick_Forall (P : pyfloat → Prop) l indices : Forall P l → Forall P (pick l indices).
  Proof.
    rewrite !Forall_forall. intros Hl x (i & _ & Hx)%list_elem_of_omap. by eapply Hl, list_elem_of_lookup_2.
  Qed.

Lemma pick_sample scores outcomes weights b : sample_ok scores outcomes weights →
    let indices := rng_choice b (length scores) in
    sample_ok (pick scores indices) (pick outcomes indices) (pick weights indices).
  Proof.
    intros (Hne & Ho & Hw & Fo & Fw) indices. destruct (rng_choice_draws b (length scores)) as [Hlen Hr].
    fold indices in Hlen, Hr.
    assert (∀ l, length l = length scores → length (pick l indices) = length scores) as Hp.
    { intros l Hl. rewrite <- Hlen. symmetry. eapply Forall2_length, pick_spec. by rewrite Hl. }
    split_and!; [|by rewrite !Hp..|by apply pick_Forall|by apply pick_Forall].
    intros E. destruct scores; [done|]. specialize (Hp _ eq_refl). by rewrite E in Hp.
  Qed.

Lemma good_model_map predict l : good_model predict → Forall unit_float l →
    ∃ ys, map_res predict l = Ok ys ∧ length ys = length l ∧ Forall unit_float ys.
  Proof.
    intros Hp. induction 1 as [|x l [Hx _] _ (ys & E & Hl & Hys)]; [by exists []|].
    apply unit_itv_fin in Hx as (q & -> & _). destruct (Hp (Fin q) eq_refl) as (y & Ey & Hy).
    exists (y :: ys). simpl. rewrite Ey, E. split_and!; [done|by f_equal|by constructor].
  Qed.

  (** The isotonic refit: new model and curve when the method's labels are finite, otherwise
      an exception and nothing changed. *)
Lemma fit_isotonic_spec method e :
    let ls := labels_of e method in
    (Forall fin_label ls → ∃ predict c,
       (let '(s, o, w) := training_data ls in iso_fit (cc_cap config) s o w) = Ok predict ∧ good_model predict ∧
       _fit_isotonic config method e = (Ok tt, set_curve method c (set_model method predict e)) ∧
       curve_ok (cu_raw_scores c) (cu_calibrated_scores c) ∧
       cu_sample_count c = Z.of_nat (length ls) ∧ cu_is_warm_start c = false) ∧
    ((∃ l, l ∈ ls ∧ is_fin (gl_predicted_confidence l) = false) →
       ∃ msg, _fit_isotonic config method e = (Raise (ValueError msg), e)).
  Proof.
    intros ls. unfold _fit_isotonic. rewrite (se_bind_ok _ _ e ls e) by done. revert ls. intros ls.
    destruct (training_data ls) as [[scores outcomes] weights] eqn:Et.
    destruct (training_sample _ _ _ _ Et) as (Hs & Hlen & Hback & Hfwd). split.
    - intros Hls. destruct (iso_fit_finite (cc_cap config) scores outcomes weights Hcap Hs) as (predict & Ep & Hp).
      { apply Forall_lookup. intros i x Hx. destruct (is_fin x) eqn:Ef; [done|].
        destruct (Hback i x Hx Ef) as (l & Hl & <-). rewrite Forall_lookup in Hls. by rewrite (Hls i l Hl) in Ef. }
      destruct (good_model_map predict (linspace 50) Hp (linspace_unit 50)) as (ys & Ey & Hly & Huy).
      assert (∃ ks, warm_start_ks method (linspace 50) ys = Ok ks) as [ks Eks].
      { unfold warm_start_ks. destruct (od_get method WARM_START_CURVES) as [points|] eqn:E; [|by eexists].
        destruct (warm_interpolate _ _ (linspace 50) E (linspace_unit 50)) as [ws ->]. by eexists. }
      eexists predict, _. split_and!; [done|done| |..].
      + rewrite (se_bind_ok _ _ _ predict e) by (unfold se_lift; by rewrite Ep).
        rewrite (se_bind_ok _ _ e tt (set_model method predict e)) by done.
        rewrite (se_bind_ok _ _ _ ys (set_model method predict e)) by (unfold se_lift; by rewrite Ey).
        rewrite (se_bind_ok _ _ _ ks (set_model method predict e)) by (unfold se_lift; by rewrite Eks). reflexivity.
      + split_and!; cbn [cu_raw_scores cu_calibrated_scores]; [apply linspace_ne|done|apply linspace_unit|done].
      + done.
      + done.
    - intros (l & Hl & Hf). apply list_elem_of_lookup_1 in Hl as [i Hi].
      destruct (iso_fit_nonfinite (cc_cap config) scores outcomes weights Hs) as [msg Em].
      { apply Exists_exists. eexists. split; [by eapply list_elem_of_lookup_2, Hfwd|done]. }
      exists msg. unfold se_bind, se_lift. by rewrite Em.
  Qed.

  (** One bootstrap round. *)
Lemma bootstrap_round_spec scores outcomes weights b :
    sample_ok scores outcomes weights →
    ((∀ i x, i ∈ rng_choice b (length scores) → scores !! i = Some x → is_fin x = true) →
       ∃ ys, bootstrap_round config scores outcomes weights (linspace 20) b = Ok ys ∧ length ys = 20 ∧ Forall unit_float ys) ∧
    ((∃ i x, i ∈ rng_choice b (length scores) ∧ scores !! i = Some x ∧ is_fin x = false) →
       refused (bootstrap_round config scores outcomes weights (linspace 20) b)).
  Proof.
    intros Hs. pose proof (pick_sample scores outcomes weights b Hs) as Hp. cbn zeta in Hp. unfold bootstrap_round.
    set (indices := rng_choice b (length scores)) in *. split.
    - intros Hfin. destruct (iso_fit_finite (cc_cap config) _ _ _ Hcap Hp) as (predict & -> & Hg).
      { apply Forall_forall. intros x (i & Hi & Hx)%list_elem_of_omap. by eapply Hfin. }
      destruct (good_model_map predict (linspace 20) Hg (linspace_unit 20)) as (ys & E & Hl & Hu).
      exists ys. split_and!; [done|by rewrite Hl, linspace_length|done].
    - intros (i & x & Hi & Hx & Hf).
      destruct (iso_fit_nonfinite (cc_cap config) _ _ _ Hp) as [msg ->]; [|by exists msg].
      apply Exists_exists. exists x. split; [|done]. apply list_elem_of_omap. eauto.
  Qed.

Lemma bootstrap_rounds_spec scores outcomes weights rounds :
    sample_ok scores outcomes weights →
    let bad b := ∃ i x, i ∈ rng_choice b (length scores) ∧ scores !! i = Some x ∧ is_fin x = false in
    (Forall (λ b, ¬ bad b) rounds → ∃ cs, map_res (bootstrap_round config scores outcomes weights (linspace 20)) rounds = Ok cs ∧
       length cs = length rounds ∧ Forall (λ c, length c = 20) cs ∧ Forall (Forall unit_float) cs) ∧
    (Exists bad rounds → refused (map_res (bootstrap_round config scores outcomes weights (linspace 20)) rounds)).
  Proof.
    intros Hs bad.
    assert (∀ b, ¬ bad b → ∀ i x, i ∈ rng_choice b (length scores) → scores !! i = Some x → is_fin x = true) as Hnb.
    { intros b Hb i x Hi Hx. destruct (is_fin x) eqn:E; [done|]. destruct Hb. by exists i, x. }
    split.
    - induction 1 as [|b rounds Hb _ (cs & E & Hl & H20 & Hu)]; [by exists []|].
      destruct (proj1 (bootstrap_round_spec _ _ _ b Hs) (Hnb b Hb)) as (ys & Ey & Hly & Huy).
      exists (ys :: cs). cbn [map_res]. rewrite Ey, E. split_and!; [done|by simpl; f_equal|by constructor..].
    - induction rounds as [|b rounds IH]; intros He; [by apply Exists_nil in He|]. cbn [map_res].
      destruct (bootstrap_round_spec scores outcomes weights b Hs) as [H1 H2].
      destruct (bootstrap_round config scores outcomes weights (linspace 20) b) as [ys|x] eqn:E.
      + apply Exists_cons in He as [Hb|He]; [destruct (H2 Hb) as [? ?]; done|].
        destruct (IH He) as [msg ->]. by exists msg.
      + cbn [rbind]. assert (bad b ∨ ¬ bad b) as [Hb|Hb].
        { destruct (decide (Exists (λ i, default true (is_fin <$> scores !! i) = false) (rng_choice b (length scores)))) as [Hx|Hx].
          - left. apply Exists_exists in Hx as (i & Hi & Hx). destruct (scores !! i) as [y|] eqn:Ey; [|done]. by exists i, y.
          - right. intros (i & y & Hi & Ey & Hy). destruct Hx. apply Exists_exists. exists i. by rewrite Ey. }
        * destruct (H2 Hb) as [msg [= ->]]. by exists msg.
        * destruct (H1 (Hnb b Hb)) as (? & ? & _). done.
  Qed.

  (** The bootstrap refit: a new provisional curve, or an exception and nothing changed. *)
Lemma fit_bootstrap_spec method e :
    let ls := labels_of e method in
    let bad := ∃ b i l, b < 100 ∧ i ∈ rng_choice b (length ls + 2) ∧ ls !! i = Some l ∧
      is_fin (gl_predicted_confidence l) = false in
    (¬ bad → ∃ c, _fit_bootstrap config method e = (Ok tt, set_curve method c e) ∧
       curve_ok (cu_raw_scores c) (cu_calibrated_scores c) ∧
       cu_sample_count c = Z.of_nat (length ls) ∧ cu_is_warm_start c = true) ∧
    (bad → ∃ msg, _fit_bootstrap config method e = (Raise (ValueError msg), e)).
  Proof.
    intros ls bad. unfold _fit_bootstrap. rewrite (se_bind_ok _ _ e ls e) by done.
    destruct (training_data ls) as [[scores outcomes] weights] eqn:Et.
    destruct (training_sample _ _ _ _ Et) as (Hs & Hlen & Hback & Hfwd).
    destruct (bootstrap_rounds_spec scores outcomes weights (seq 0 n_bootstrap) Hs) as [H1 H2]. split.
    - intros Hb. destruct H1 as (cs & E & Hl & H20 & Hu).
      { apply Forall_forall. intros b Hin%elem_of_seq (i & x & Hi & Hx & Hf). apply Hb.
        destruct (Hback i x Hx Hf) as (l & Hl & <-). exists b, i, l. rewrite <- Hlen.
        split_and!; [unfold n_bootstrap in Hin; lia|done..]. }
      assert (cs ≠ []) as Hne by (intros ->; done).
      eexists. split_and!; [by rewrite (se_bind_ok _ _ _ cs e) by (unfold se_lift; by rewrite E)| | | |..]; [|done..].
      split_and!; cbn [cu_raw_scores cu_calibrated_scores];
        [apply linspace_ne|by rewrite linspace_length, (median_length 20)|apply linspace_unit|by apply median_unit].
    - intros (b & i & l & Hbb & Hi & Hl & Hf). destruct H2 as [msg Em].
      { apply Exists_exists. exists b. split; [apply elem_of_seq; unfold n_bootstrap; lia|].
        exists i. eexists. rewrite Hlen. split_and!; [done|by apply Hfwd|done]. }
      exists msg. unfold se_bind, se_lift. by rewrite Em.
  Qed.

  (** Recording a label: it is always kept; the refit replaces what is in force for its method
      or, refused, changes nothing more. *)
Lemma add_ground_truth_spec label e : calibration_inv e →
    let m := gl_method_used label in
    let ls := labels_of e m ++ [label] in
    let n := Z.of_nat (length ls) in
    let e1 := record_label label e in
    (fit_refused ls → ∃ msg, add_ground_truth config label e = (Raise (ValueError msg), e1)) ∧
    (¬ fit_refused ls → ∃ e', add_ground_truth config label e = (Ok tt, e') ∧ calibration_inv e' ∧
       ground_truth e' = ground_truth e1 ∧
       (if (cc_min_samples_full_calibration config <=? n)%Z then
          ∃ predict c, (let '(s, o, w) := training_data ls in iso_fit (cc_cap config) s o w) = Ok predict ∧
            e' = set_curve m c (set_model m predict e1) ∧ cu_sample_count c = n ∧ cu_is_warm_start c = false
        else if (cc_min_samples_bootstrap config <=? n)%Z then
          ∃ c, e' = set_curve m c e1 ∧ cu_sample_count c = n ∧ cu_is_warm_start c = true
        else e' = e1)).
  Proof.
    intros [Hc Hi] m ls n e1. unfold add_ground_truth.
    rewrite (se_bind_ok _ _ e tt e1) by done. fold m.
    assert (labels_of e1 m = ls) as Hls by (unfold labels_of, e1, record_label; cbn [ground_truth]; by rewrite od_get_set_eq).
    rewrite (se_bind_ok _ _ e1 n e1) by (unfold se_get; by rewrite Hls).
    destruct (fit_isotonic_spec m e1) as [I1 I2]. destruct (fit_bootstrap_spec m e1) as [B1 B2]. rewrite Hls in *.
    unfold fit_refused. fold n.
    destruct (Z.leb_spec (cc_min_samples_full_calibration config) n) as [Hf|Hf];
      [|destruct (Z.leb_spec (cc_min_samples_bootstrap config) n) as [Hb|Hb]].
    - split.
      + intros [[_ Hx]|[Hx _]]; [by apply I2|lia].
      + intros Hn. destruct I1 as (predict & c & Ep & Hg & Eq & Hok & Hcount & Hw).
        { apply Forall_forall. intros l Hl. destruct (is_fin (gl_predicted_confidence l)) eqn:E; [done|].
          destruct Hn. left. split; [done|]. by exists l. }
        eexists. split_and!; [exact Eq| |done|by eexists _, _].
        split; cbn [curves iso_models set_curve set_model record_label e1]; by apply Forall_od_set.
    - split.
      + intros [[Hx _]|[_ Hx]]; [lia|by apply B2].
      + intros Hn. destruct B1 as (c & Eq & Hok & Hcount & Hw); [intros Hx; destruct Hn; by right|].
        eexists. split_and!; [exact Eq| |done|by eexists].
        split; cbn [curves iso_models set_curve record_label e1]; [by apply Forall_od_set|done].
    - split; [intros [[Hx _]|[Hx _]]; lia|]. intros _. by exists e1.
  Qed.

Lemma fit_refused_dec ls : fit_refused ls ∨ ¬ fit_refused ls.
  Proof.
    set (bad l := negb (is_fin (gl_predicted_confidence l))).
    set (n := Z.of_nat (length ls)).
    destruct (((cc_min_samples_full_calibration config <=? n)%Z && existsb bad ls) ||
      ((cc_min_samples_bootstrap config <=? n)%Z && negb (cc_min_samples_full_calibration config <=? n)%Z &&
       existsb (λ b, existsb (λ i, default false (bad <$> ls !! i)) (rng_choice b (length ls + 2))) (seq 0 100))) eqn:E.
    - left. apply orb_prop in E as [E|E]; [left|right]; apply andb_prop in E as [E1 E2].
      + split; [lia|]. apply existsb_exists in E2 as (l & Hl%list_elem_of_In & Hb). exists l. by apply negb_true_iff in Hb.
      + split; [lia|]. apply existsb_exists in E2 as (b & Hb%list_elem_of_In%elem_of_seq & E2).
        apply existsb_exists in E2 as (i & Hi%list_elem_of_In & E2). destruct (ls !! i) as [l|] eqn:El; [|done].
        exists b, i, l. apply negb_true_iff in E2. split_and!; [lia|done..].
    - right. apply orb_false_elim in E as [E1 E2]. intros [(Hn & l & Hl & Hb)|(Hn & b & i & l & Hbb & Hi & Hl & Hb)].
      + rewrite (proj2 (Z.leb_le _ _)) in E1 by lia. assert (existsb bad ls = true) as Hx; [|by rewrite Hx in E1].
        apply existsb_exists. exists l. split; [by apply list_elem_of_In|]. unfold bad. by rewrite Hb.
      + rewrite (proj2 (Z.leb_le _ _)), (proj2 (Z.leb_gt _ _)) in E2 by lia. cbn [andb negb] in E2.
        eassert (existsb _ (seq 0 100) = true) as Hx; [|by erewrite Hx in E2].
        apply existsb_exists. exists b. split; [apply list_elem_of_In, elem_of_seq; lia|].
        apply existsb_exists. exists i. split; [by apply list_elem_of_In|]. rewrite Hl. simpl. unfold bad. by rewrite Hb.
  Qed.

Lemma add_ground_truth_inv label e : calibration_inv e → calibration_inv (add_ground_truth config label e).2.
  Proof.
    intros He. pose proof (add_ground_truth_spec label e He) as [H1 H2]. cbn zeta in H1, H2.
    destruct (fit_refused_dec (labels_of e (gl_method_used label) ++ [label])) as [Hr|Hr].
    - by destruct (H1 Hr) as [msg ->].
    - by destruct (H2 Hr) as (e' & -> & Hi & _).
  Qed.

Lemma calibrate_unit e method raw : calibration_inv e → unit_itv raw = true →
    ∃ c, calibrate config e method raw = Ok c ∧ unit_itv c = true.
  Proof.
    intros [Hc Hi] Hr. unfold calibrate. destruct (od_get method (curves e)) as [cu|] eqn:Ec.
    - destruct (od_get method (iso_models e)) as [pr|] eqn:Ei.
      + apply od_get_Some_in in Ei. rewrite Forall_forall in Hi.
        destruct (Hi _ Ei raw) as (y & Ey & Hu & _); [by apply unit_itv_fin in Hr as (q & -> & _)|].
        cbn [snd] in Ey. rewrite Ey. eexists. split; [done|]. auto with pyfloat.
      + apply od_get_Some_in in Ec. rewrite Forall_forall in Hc. by apply interpolate_unit; [apply (Hc _ Ec)|].
    - eexists. split; [done|]. by apply unit_mul.
  Qed.
End engine.

(** The engine after a sequence of labels, and what recording each of them gave. *)
Fixpoint learn `{NumLib} (config : ConfidenceConfig) (labels : list GroundTruthLabel) (e : CalibrationEngine) :
    list (res unit) * CalibrationEngine :=
  match labels with
  | [] => ([], e)
  | l :: labels' =>
      let '(r, e1) := add_ground_truth config l e in
      let '(rs, e2) := learn config labels' e1 in (r :: rs, e2)
  end.

(** The labels of one method. *)
Definition about_method (m : string) (labels : list GroundTruthLabel) : list GroundTruthLabel :=
  filter (λ l, gl_method_used l = m) labels.

(** The model fitted to labels. *)
Definition fitted `{NumLib} (config : ConfidenceConfig) (ls : list GroundTruthLabel) : res (pyfloat → res pyfloat) :=
  let '(scores, outcomes, weights) := training_data ls in iso_fit (cc_cap config) scores outcomes weights.

Section learning.
  Context `{NumLib} (config : ConfidenceConfig) (Hcap : unit_itv (cc_cap config) = true).

Abbreviation learned labels := (learn config labels CalibrationEngine_init).

Lemma learn_snoc labels l e :
    learn config (labels ++ [l]) e =
    let '(rs, e1) := learn config labels e in
    let '(r, e2) := add_ground_truth config l e1 in (rs ++ [r], e2).
  Proof.
    revert e. induction labels as [|l0 labels IH]; intros e; cbn [app learn].
    - by destruct (add_ground_truth config l e) as [r e2].
    - destruct (add_ground_truth config l0 e) as [r0 e0]. rewrite IH.
      destruct (learn config labels e0) as [rs e1]. by destruct (add_ground_truth config l e1) as [r e2].
  Qed.

Lemma learn_length labels e : length (learn config labels e).1 = length labels.
  Proof.
    revert e. induction labels as [|l labels IH]; intros e; [done|]. cbn [learn].
    destruct (add_ground_truth config l e) as [r e1]. specialize (IH e1).
    destruct (learn config labels e1) as [rs e2]. simpl in *. by rewrite IH.
  Qed.

Lemma learn_inv labels e : calibration_inv e → calibration_inv (learn config labels e).2.
  Proof.
    intros He. induction labels as [|l labels IH] using rev_ind; [done|]. rewrite learn_snoc.
    destruct (learn config labels e) as [rs e1]. pose proof (add_ground_truth_inv config Hcap l e1 IH) as Hl.
    by destruct (add_ground_truth config l e1) as [r e2].
  Qed.

Lemma learned_inv labels : calibration_inv (learned labels).2.
  Proof. apply learn_inv, calibration_inv_init. Qed.

Lemma about_method_snoc m labels l : about_method m (labels ++ [l]) =
    about_method m labels ++ (if decide (gl_method_used l = m) then [l] else []).
  Proof. unfold about_method. rewrite filter_app, filter_cons, filter_nil. by case_decide. Qed.

  (** A label's method is the only one it changes. *)
Lemma add_other m l e : gl_method_used l ≠ m → calibration_inv e →
    let e' := (add_ground_truth config l e).2 in
    labels_of e' m = labels_of e m ∧ od_get m (iso_models e') = od_get m (iso_models e) ∧
    od_get m (curves e') = od_get m (curves e).
  Proof.
    intros Hne He. cbn zeta. destruct (add_ground_truth_spec config Hcap l e He) as [H1 H2]. cbn zeta in H1, H2.
    set (e1 := record_label l e) in *.
    assert (labels_of e1 m = labels_of e m) as Hl.
    { unfold labels_of, e1, record_label. cbn [ground_truth]. by rewrite od_get_set_ne. }
    destruct (fit_refused_dec config (labels_of e (gl_method_used l) ++ [l])) as [Hr|Hr].
    { by destruct (H1 Hr) as [msg ->]. }
    destruct (H2 Hr) as (e' & -> & _ & Hg & Hm). cbn [snd].
    split; [unfold labels_of in *; by rewrite Hg|].
    destruct (_ <=? _)%Z; [|destruct (_ <=? _)%Z].
    - destruct Hm as (predict & c & _ & -> & _). cbn [iso_models curves set_curve set_model]. by rewrite !od_get_set_ne.
    - destruct Hm as (c & -> & _). cbn [iso_models curves set_curve]. by rewrite !od_get_set_ne.
    - by subst.
  Qed.

  (** Every label is recorded under its method, refused refit or not. *)
Lemma learned_labels m labels : labels_of (learned labels).2 m = about_method m labels.
  Proof.
    induction labels as [|l labels IH] using rev_ind; [done|]. rewrite learn_snoc, about_method_snoc.
    pose proof (learned_inv labels) as He. destruct (learned labels) as [rs e1]. cbn [snd] in *.
    case_decide as Hm.
    - destruct (add_ground_truth_spec config Hcap l e1 He) as [H1 H2]. cbn zeta in H1, H2.
      assert (labels_of (record_label l e1) m = about_method m labels ++ [l]) as Hl.
      { unfold labels_of at 1, record_label. cbn [ground_truth]. rewrite Hm, od_get_set_eq. simpl. by rewrite IH. }
      destruct (fit_refused_dec config (labels_of e1 (gl_method_used l) ++ [l])) as [Hr|Hr].
      + by destruct (H1 Hr) as [msg ->].
      + destruct (H2 Hr) as (e' & -> & _ & Hg & _). cbn [snd]. unfold labels_of in *. by rewrite Hg.
    - rewrite app_nil_r. destruct (add_other m l e1 Hm He) as [Hl _].
      destruct (add_ground_truth config l e1) as [r e2]. cbn [snd] in *. by rewrite Hl.
  Qed.

  (** What recording the last label gives. *)
Lemma learned_last labels l :
    let ls := about_method (gl_method_used l) (labels ++ [l]) in
    (fit_refused config ls → ∃ msg, learned (labels ++ [l]) =
       ((learned labels).1 ++ [Raise (ValueError msg)], record_label l (learned labels).2)) ∧
    (¬ fit_refused config ls → (learned (labels ++ [l])).1 = (learned labels).1 ++ [Ok tt]).
  Proof.
    cbn zeta. rewrite learn_snoc, about_method_snoc, decide_True by done.
    pose proof (learned_labels (gl_method_used l) labels) as Hl. pose proof (learned_inv labels) as He.
    destruct (learned labels) as [rs e1]. cbn [snd fst] in *. rewrite <- Hl.
    destruct (add_ground_truth_spec config Hcap l e1 He) as [H1 H2]. cbn zeta in H1, H2. split.
    - intros Hr. destruct (H1 Hr) as [msg ->]. by exists msg.
    - intros Hr. by destruct (H2 Hr) as (e' & -> & _).
  Qed.

Lemma learned_outcome labels i l : labels !! i = Some l →
    let ls := about_method (gl_method_used l) (take (S i) labels) in
    (fit_refused config ls → ∃ msg, (learned labels).1 !! i = Some (Raise (ValueError msg))) ∧
    (¬ fit_refused config ls → (learned labels).1 !! i = Some (Ok tt)).
  Proof.
    induction labels as [|l0 labels IH] using rev_ind; [done|]. intros Hi. cbn zeta in *.
    pose proof (learn_length labels CalibrationEngine_init) as Hlen.
    apply lookup_app_Some in Hi as [Hi|[Hge Hi]].
    - pose proof (lookup_lt_Some _ _ _ Hi) as Hlt.
      rewrite take_app_le by lia. specialize (IH Hi). rewrite learn_snoc.
      destruct (learned labels) as [rs e1]. destruct (add_ground_truth config l0 e1) as [r e2]. cbn [fst] in *.
      by rewrite lookup_app_l by lia.
    - apply list_lookup_singleton_Some in Hi as [Hi ->]. assert (i = length labels) as -> by lia.
      rewrite take_ge by (rewrite length_app; simpl; lia).
      destruct (learned_last labels l) as [H1 H2]. cbn zeta in H1, H2. rewrite <- Hlen. split.
      + intros Hr. destruct (H1 Hr) as [msg E]. exists msg. rewrite E. cbn [fst]. by apply list_lookup_middle.
      + intros Hr. rewrite (H2 Hr). by apply list_lookup_middle.
  Qed.

  (** What the engine holds for a method, as a function of the method's labels. *)
Definition method_state (m : string) (ls : list GroundTruthLabel) (e : CalibrationEngine) : Prop :=
    let n := Z.of_nat (length ls) in
    (Ok <$> od_get m (iso_models e)) =
      (if (cc_min_samples_full_calibration config <=? n)%Z then Some (fitted config ls) else None) ∧
    if (cc_min_samples_bootstrap config <=? n)%Z
    then ∃ c, od_get m (curves e) = Some c ∧ cu_sample_count c = n ∧
              cu_is_warm_start c = negb (cc_min_samples_full_calibration config <=? n)%Z
    else od_get m (curves e) = od_get m (curves CalibrationEngine_init).

Lemma add_same m l ls e :
    (0 < cc_min_samples_bootstrap config <= cc_min_samples_full_calibration config)%Z →
    calibration_inv e → labels_of e m = ls → gl_method_used l = m → ¬ fit_refused config (ls ++ [l]) →
    method_state m ls e → method_state m (ls ++ [l]) (add_ground_truth config l e).2.
  Proof.
    intros Hb He <- <- Hr (Hi & Hc). set (m := gl_method_used l) in *. set (ls := labels_of e m) in *.
    destruct (add_ground_truth_spec config Hcap l e He) as [_ H2]. destruct (H2 Hr) as (e' & -> & _ & _ & Hm). fold m ls in Hm.
    cbn [snd]. unfold method_state in *.
    assert (Z.of_nat (length (ls ++ [l])) = Z.of_nat (length ls) + 1)%Z as Hn by (rewrite length_app; simpl; lia).
    destruct (Z.leb_spec (cc_min_samples_full_calibration config) (Z.of_nat (length (ls ++ [l])))) as [Hf|Hf].
    - destruct Hm as (predict & c & Ep & -> & Hcount & Hw). cbn [iso_models curves set_curve set_model].
      rewrite !od_get_set_eq. destruct (Z.leb_spec (cc_min_samples_bootstrap config) (Z.of_nat (length (ls ++ [l])))); [|lia].
      unfold fitted. rewrite Ep. split; [done|]. by eexists.
    - destruct (Z.leb_spec (cc_min_samples_full_calibration config) (Z.of_nat (length ls))); [lia|].
      destruct (Z.leb_spec (cc_min_samples_bootstrap config) (Z.of_nat (length (ls ++ [l])))) as [Hp|Hp].
      + destruct Hm as (c & -> & Hcount & Hw). cbn [iso_models curves set_curve record_label]. rewrite od_get_set_eq.
        split; [done|]. by eexists.
      + subst e'. destruct (Z.leb_spec (cc_min_samples_bootstrap config) (Z.of_nat (length ls))); [lia|done].
  Qed.

Lemma learn_method_state m labels :
    (0 < cc_min_samples_bootstrap config <= cc_min_samples_full_calibration config)%Z →
    Forall (λ l, is_fin (gl_predicted_confidence l) = true) (about_method m labels) →
    method_state m (about_method m labels) (learned labels).2.
  Proof.
    intros Hb. induction labels as [|l labels IH] using rev_ind.
    { intros _. unfold method_state. change (about_method m []) with (@nil GroundTruthLabel).
      change (Z.of_nat (length [])) with 0%Z.
      rewrite (proj2 (Z.leb_gt (cc_min_samples_full_calibration config) 0)),
        (proj2 (Z.leb_gt (cc_min_samples_bootstrap config) 0)) by lia. done. }
    rewrite learn_snoc, about_method_snoc. intros Hfin. apply Forall_app in Hfin as [Hfin Hl0]. specialize (IH Hfin).
    pose proof (learned_inv labels) as He. pose proof (learned_labels m labels) as Hl.
    destruct (learned labels) as [rs e1]. cbn [snd] in *. case_decide as Hm.
    - pose proof (add_same m l _ e1 Hb He Hl Hm) as Hs.
      destruct (add_ground_truth config l e1) as [r e2]. apply Hs; [|done]. clear Hs.
      assert (∀ l', l' ∈ about_method m labels ++ [l] → is_fin (gl_predicted_confidence l') = true) as Hall.
      { apply Forall_forall, Forall_app. done. }
      intros [(_ & l' & Hl' & Hf)|(_ & b & i & l' & _ & _ & Hl' & Hf)]; [|apply list_elem_of_lookup_2 in Hl'];
        by rewrite Hall in Hf.
    - rewrite app_nil_r. destruct (add_other m l e1 Hm He) as (_ & E2 & E3).
      destruct (add_ground_truth config l e1) as [r e2]. cbn [snd] in *. unfold method_state in *. by rewrite E2, E3.
  Qed.

(** The initial curves. *)
Lemma init_curve m : od_get m (curves CalibrationEngine_init) =
    (λ points, mkCurve m (map fst points) (map snd points) 0 true None None) <$> od_get m WARM_START_CURVES.
  Proof.
    cbn [curves CalibrationEngine_init]. induction WARM_START_CURVES as [|[k v] l IH]; [done|]. simpl.
    by case_decide; subst.
  Qed.

(** What is in force for a method whose labels carry finite confidences depends only on them,
    whatever the labels of other methods are: below the
    bootstrap minimum the warm-start curve, from there on a provisional curve that carries
    the number of labels, and from the full minimum on the isotonic fit of exactly those
    labels, capped. *)
Theorem calibration_regimes (m : string) (labels : list GroundTruthLabel) (raw : pyfloat)
    (Hb : (0 < cc_min_samples_bootstrap config <= cc_min_samples_full_calibration config)%Z)
    (Hfin : Forall (λ l, is_fin (gl_predicted_confidence l) = true) (about_method m labels)) :
    let e := (learned labels).2 in
    let ls := about_method m labels in
    let n := Z.of_nat (length ls) in
    ((cc_min_samples_full_calibration config <= n)%Z →
       ∃ predict, fitted config ls = Ok predict ∧
       calibrate config e m raw = (let? c := predict raw in Ok (fmin (cc_cap config) (fmax f0 c)))) ∧
    ((cc_min_samples_bootstrap config <= n < cc_min_samples_full_calibration config)%Z →
       ∃ c, od_get m (curves e) = Some c ∧ cu_sample_count c = n ∧ cu_is_warm_start c = true ∧
         calibrate config e m raw = _interpolate (cu_raw_scores c) (cu_calibrated_scores c) raw) ∧
    ((n < cc_min_samples_bootstrap config)%Z →
       calibrate config e m raw = match od_get m WARM_START_CURVES with
                                  | Some points => _interpolate (map fst points) (map snd points) raw
                                  | None => Ok (fmul raw (lit 7 10))
                                  end).
  Proof using Hcap.
    intros e ls n. destruct (learn_method_state m labels Hb Hfin) as (Hi & Hc).
    fold e ls n in Hi, Hc. unfold calibrate.
    destruct (Z.leb_spec (cc_min_samples_full_calibration config) n) as [Hf|Hf];
      destruct (Z.leb_spec (cc_min_samples_bootstrap config) n) as [Hp|Hp]; (split; [|split]); try lia.
    - intros _. destruct Hc as (c & -> & _). destruct (od_get m (iso_models e)) as [predict|]; [|done].
      injection Hi as <-. by exists predict.
    - intros _. destruct Hc as (c & -> & H1 & H2). exists c.
      by destruct (od_get m (iso_models e)).
    - intros _. rewrite Hc, init_curve. destruct (od_get m (iso_models e)); [done|].
      by destruct (od_get m WARM_START_CURVES).
  Qed.
(** ** Properties *)

(** C30. Calibration never leaves the unit interval, and fails exactly where a fit is refused:
    after any sequence of ground truth labels, for any methods, known or not, and whatever
    confidences the labels carry, the engine maps every raw confidence of the unit interval
    to one of the unit interval - by the warm-start curve, the bootstrap curve or the isotonic
    fit, whichever is in force; as long as the labels of a method are finite that is the
    warm-start curve, or the discounted raw confidence for an unknown method, below the
    bootstrap minimum, and from the full minimum on the fit of exactly its labels, capped.
    Every label is recorded. Recording one raises ValueError exactly
    when it triggers a refit over a confidence that is NaN or infinite - any of the method's labels
    from the full minimum on, one that a bootstrap round draws before that - and such a
    label changes no calibrated confidence. *)
Theorem calibration_stays_in_unit (labels : list GroundTruthLabel) (method : string) (raw : pyfloat)
    (Hraw : unit_itv raw = true) :
    let '(outcomes, e) := learned labels in
    (∃ c, calibrate config e method raw = Ok c ∧ unit_itv c = true) ∧
    ((0 < cc_min_samples_bootstrap config <= cc_min_samples_full_calibration config)%Z →
     (∀ l, l ∈ labels → gl_method_used l = method → is_fin (gl_predicted_confidence l) = true) →
     let ls := about_method method labels in
     let n := Z.of_nat (length ls) in
     ((n < cc_min_samples_bootstrap config)%Z →
        calibrate config e method raw = match od_get method WARM_START_CURVES with
                                        | Some points => _interpolate (map fst points) (map snd points) raw
                                        | None => Ok (fmul raw (lit 7 10))
                                        end) ∧
     ((cc_min_samples_full_calibration config <= n)%Z →
        ∃ predict c, fitted config ls = Ok predict ∧ predict raw = Ok c ∧
          calibrate config e method raw = Ok (fmin (cc_cap config) (fmax f0 c)))) ∧
    (∀ m, labels_of e m = about_method m labels) ∧
    length outcomes = length labels ∧
    (∀ i l, labels !! i = Some l →
       let ls := about_method (gl_method_used l) (take (S i) labels) in
       (fit_refused config ls → ∃ msg, outcomes !! i = Some (Raise (ValueError msg))) ∧
       (¬ fit_refused config ls → outcomes !! i = Some (Ok tt))) ∧
    (∀ before l, labels = before ++ [l] → fit_refused config (about_method (gl_method_used l) labels) →
       ∀ m x, calibrate config e m x = calibrate config (learned before).2 m x).
  Proof using Hcap.
    pose proof (learned_inv labels) as Hinv. pose proof (λ m, learned_labels m labels) as Hl.
    pose proof (learn_length labels CalibrationEngine_init) as Hlen.
    pose proof (learned_outcome labels) as Ho. pose proof (λ before l, learned_last before l) as Hlast.
    pose proof (calibration_regimes method labels raw) as Hreg.
    destruct (learned labels) as [outcomes e] eqn:E. cbn [fst snd] in *.
    split; [by apply calibrate_unit|]. split; [|split_and!; [done|done|done|]].
    { intros Hb Hfin. destruct Hreg as (H1 & _ & H3); [done| |split; [done|]].
      - apply Forall_forall. intros l [Hm Hl']%list_elem_of_filter. by apply Hfin.
      - intros Hn. destruct (H1 Hn) as (predict & Ep & Ec).
        destruct (calibrate_unit config Hcap e method raw Hinv Hraw) as (c' & Ec' & _).
        destruct (predict raw) as [c|] eqn:Er; cbn [rbind] in Ec; [|congruence]. by exists predict, c. }
    intros before l -> Hr m x. destruct (Hlast before l) as [H1 _]. destruct (H1 Hr) as [msg Em].
    rewrite Em in E. by injection E as _ <-.
  Qed.

End learning.

(** The warm-start calibration keeps the order of confidences: for every method and any two
    floats, infinities included, the greater raw confidence never gets the smaller calibrated
    one, even with the rounding of the interpolation. *)
Theorem warm_start_monotone (method : string) (points : list (pyfloat * pyfloat)) (v w : pyfloat)
    (Hm : od_get method WARM_START_CURVES = Some points) (Hvw : fle v w = true) :
  ∃ x y, _interpolate (map fst points) (map snd points) v = Ok x ∧
    _interpolate (map fst points) (map snd points) w = Ok y ∧ fle x y = true.
Proof.
  apply od_get_Some_in in Hm. pose proof warm_start_curves as Hw. rewrite Forall_forall in Hw.
  destruct (Hw _ Hm) as (Hc & Hr & Hs). by apply interpolate_mono.
Qed.

(** The cap binds the fitted models only: before them a direct match keeps confidence 1.0. *)
Theorem warm_start_ignores_cap `{NumLib} :
  calibrate default_confidence_config CalibrationEngine_init "R1" f1 = Ok f1 ∧
  flt (cc_cap default_confidence_config) f1 = true.
Proof. vm_compute. auto. Qed.

(** A tier is never lost by more confidence. *)
Definition tier_rank (t : ConfidenceTier) : nat :=
  match t with ESTIMATED => 0 | PROVISIONAL => 1 | CHARGEBACK_READY => 2 end.

Theorem tiers_monotone config x y : fle (cc_provisional_threshold config) (cc_chargeback_threshold config) = true →
  fle x y = true → tier_rank (get_confidence_tier config x) ≤ tier_rank (get_confidence_tier config y).
Proof.
  intros Hc Hxy. unfold get_confidence_tier.
  destruct (fle (cc_chargeback_threshold config) x) eqn:E1; [by rewrite (fle_trans _ x y)|].
  destruct (fle (cc_provisional_threshold config) x) eqn:E2; [|simpl; lia].
  rewrite (fle_trans (cc_provisional_threshold config) x y) by done. destruct (fle (cc_chargeback_threshold config) y); simpl; auto with arith.
Qed.

(** ** Witnesses *)

Definition half : pyfloat := Fin (1#2).

(** A concrete numerical library: a step at one half, whatever the data are. *)
#[refine] Definition step_numlib : NumLib := {|
  iso_fit y_max scores _ _ :=
    if forallb is_fin scores
    then Ok (λ x, if is_fin x then Ok (if fle half y_max && fle half x then half else f0)
                  else Raise (ValueError "Input contains NaN."))
    else Raise (ValueError "Input X contains NaN.");
  linspace n := map (λ i, of_Q (Qmake (Z.of_nat i) (Pos.of_nat (n - 1)))) (seq 0 n);
  rng_choice _ n := seq 0 n;
  median_curve cs := match cs with c :: _ => c | [] => [] end;
  percentile_curve _ cs := match cs with c :: _ => c | [] => [] end;
  np_mean _ := f0;
  ks_2samp _ _ := f0;
|}.
Proof.
  - intros y_max scores _ _ _ _ Hs. cbn beta.
    assert (forallb is_fin scores = true) as ->.
    { apply forallb_forall. intros x Hx%list_elem_of_In. rewrite Forall_forall in Hs. by apply Hs. }
    eexists. split; [done|]. intros x Hx. rewrite Hx. eexists. split; [done|].
    destruct (_ && _); split; vm_compute; reflexivity.
  - intros y_max scores _ _ _ Hs. destruct (forallb is_fin scores) eqn:E; [|by eexists].
    apply Exists_exists in Hs as (x & Hx & Hf). rewrite forallb_forall in E.
    rewrite E in Hf; [done|by apply list_elem_of_In].
  - intros _ n. rewrite length_seq. split; [done|]. apply Forall_forall. intros i Hi%elem_of_seq. lia.
  - intros n. by rewrite length_map, length_seq.
  - intros n. apply Forall_map, Forall_forall. intros i Hi. apply elem_of_seq in Hi.
    split; [|apply of_Q_repr]. apply of_Q_unit. unfold Qle; cbn [Qnum Qden]. split; [lia|].
    destruct (decide (n = 1)) as [->|]; [simpl; lia|].
    replace (Z.pos (Pos.of_nat (n - 1))) with (Z.of_nat (n - 1)) by lia. lia.
  - intros n [|c cs] Hne Hc; [done|]. by apply Forall_inv in Hc.
  - intros [|c cs] Hne Hc; [done|]. by apply Forall_inv in Hc.
Defined.

Definition label_with (m : string) (confidence : pyfloat) : GroundTruthLabel :=
  mkLabel "a" "t" "" "ticket" "t" confidence m true.

Definition sample_label (m : string) : GroundTruthLabel := label_with m half.

(** Sixty labels; a NaN among them comes at the 55th, when the bootstrap refits already run. *)
Definition sample_labels : list GroundTruthLabel :=
  repeat (sample_label "R4") 54 ++ [label_with "R4" NaN] ++ repeat (sample_label "R4") 5.

Lemma calibration_stays_in_unit_witness :
  ∃ outcomes e, @learn step_numlib default_confidence_config sample_labels CalibrationEngine_init = (outcomes, e) ∧
    (∃ c, calibrate default_confidence_config e "R4" half = Ok c ∧ unit_itv c = true) ∧
    outcomes !! 53 = Some (Ok tt) ∧ ∃ msg, outcomes !! 54 = Some (Raise (ValueError msg)).
Proof.
  pose proof (@calibration_stays_in_unit step_numlib default_confidence_config eq_refl sample_labels "R4" half eq_refl) as Hc.
  destruct (@learn step_numlib default_confidence_config sample_labels CalibrationEngine_init) as [outcomes e] eqn:E.
  exists outcomes, e. destruct Hc as (Hu & _ & _ & _ & Ho & _). split; [reflexivity|]. split; [exact Hu|]. split.
  - apply (Ho 53 (sample_label "R4") eq_refl). intros [[Hn _]|[_ (b & i & l & _ & _ & Hl & Hf)]].
    + vm_compute in Hn. by destruct Hn.
    + apply list_elem_of_lookup_2 in Hl. cbv zeta in Hl.
      replace (about_method (gl_method_used (sample_label "R4")) (take 54 sample_labels)) with (repeat (sample_label "R4") 54) in Hl
        by (vm_compute; reflexivity).
      apply list_elem_of_In, repeat_spec in Hl as ->. discriminate.
  - apply (Ho 54 (label_with "R4" NaN) eq_refl). right. split; [vm_compute; split; [done|reflexivity]|].
    exists 0, 54, (label_with "R4" NaN). split; [lia|]. split; [apply list_elem_of_In, in_seq; vm_compute; lia|].
    split; vm_compute; reflexivity.
Defined.

Lemma calibration_regimes_witness :
  let e := (@learn step_numlib default_confidence_config [sample_label "R4"] CalibrationEngine_init).2 in
  ∃ points, od_get "R4" WARM_START_CURVES = Some points ∧
    calibrate default_confidence_config e "R4" half = _interpolate (map fst points) (map snd points) half.
Proof.
  eexists. split; [reflexivity|].
  apply (@calibration_regimes step_numlib default_confidence_config eq_refl "R4" [sample_label "R4"]); [done| |vm_compute; reflexivity].
  by repeat constructor.
Defined.

Lemma warm_start_monotone_witness :
  ∃ points x y, od_get "R2" WARM_START_CURVES = Some points ∧
    _interpolate (map fst points) (map snd points) (Fin (1#4)) = Ok x ∧
    _interpolate (map fst points) (map snd points) (Fin (3#4)) = Ok y ∧ fle x y = true.
Proof.
  eexists.
  destruct (warm_start_monotone "R2" _ (Fin (1#4)) (Fin (3#4)) eq_refl eq_refl) as (x & y & H1 & H2 & H3).
  exists x, y. split; [reflexivity|]. split; [exact H1|]. split; [exact H2|exact H3].
Defined.
