(* ===== verification/Config.v ===== *)
(** * Platform configuration (src/aci/config.py)

    The start-up validator of [PlatformConfig], check by check in the order of the code, on
    the settings it reads; what an accepted production configuration guarantees. *)

From S2P Require Import Prelude PyFloat PyData.
From Stdlib Require Import ZArith Ascii Lia.
From stdpp Require Import base list strings.

Open Scope string_scope.
Open Scope list_scope.
Open Scope Z_scope.

(** ** Settings *)

Record AuthConfig := mkAuthConfig {
  auth_enabled : bool;
  allow_dev_bypass : bool;
  jwt_algorithm : string;
  jwt_issuer : string;
  jwt_audience : string;
  jwt_hs256_secret : string;
  jwt_public_key_pem : string;
  required_scope : string;
  tenant_claim : string;
  clock_skew_seconds : Z;
}.

Definition default_auth_config : AuthConfig :=
  mkAuthConfig true true "HS256" "aci-control-plane" "aci-api" "dev-only-secret" "" "aci.api"
               "tenant_id" 60.

(** The secrets are their texts ([_secret_value]). *)
Record PlatformConfig := mkPlatformConfig {
  tenant_id : string;
  environment : string;
  runtime_role : string;
  interceptor_mode : string;
  api_ingest_rate_limit_per_minute : Z;
  api_ingest_rate_limit_backend : string;
  api_ingest_max_batch_size : Z;
  api_max_request_bytes : Z;
  api_cors_allowed_origins : string;
  api_cors_allow_credentials : bool;
  circuit_state_backend : string;
  shadow_events_enabled : bool;
  auth : AuthConfig;
  index_backend : string;
  graph_backend : string;
  index_redis_ttl_s : Z;
  event_bus_backend : string;
  kafka_bootstrap : string;
  redis_url : string;
  neo4j_password : string;
}.

Definition default_platform_config : PlatformConfig :=
  mkPlatformConfig "default" "development" "all" "advisory" 600 "auto" 1000 1048576 "" false "local"
    true default_auth_config "memory" "memory" 1800 "memory" "localhost:9092"
    "redis://localhost:6379/0" "".

(** ** The validator *)

Abbreviation isin s l := (bool_decide (s ∈ (l : list string))).

(** [if bad: raise ValueError(msg)] *)
Definition reject_if (bad : bool) (msg : string) (k : res unit) : res unit :=
  if bad then Raise (ValueError msg) else k.

Definition production_like (c : PlatformConfig) : bool :=
  isin (lower (environment c)) ["production"; "staging"].

Definition non_production_envs : list string :=
  ["development"; "dev"; "test"; "testing"; "local"; "demo"].

Definition is_empty (s : string) : bool := bool_decide (s = "").

Definition cors_origins (c : PlatformConfig) : list string :=
  filter (λ s, is_empty s = false) (map strip (split_on ","%char (api_cors_allowed_origins c))).

Definition resolved_rate_limit_backend (c : PlatformConfig) : string :=
  if String.eqb (api_ingest_rate_limit_backend c) "auto"
  then if production_like c then "redis" else "memory"
  else api_ingest_rate_limit_backend c.

(** Some component other than the rate limiter needs Redis. *)
Definition redis_used (c : PlatformConfig) : bool :=
  String.eqb (index_backend c) "redis" || String.eqb (circuit_state_backend c) "redis"
  || String.eqb (event_bus_backend c) "kafka".

(** The choice of backends and the numeric limits. *)
Definition validate_choices (c : PlatformConfig) (k : res unit) : res unit :=
  reject_if (negb (isin (runtime_role c) ["all"; "gateway"; "processor"]))
    "runtime_role must be one of ['all', 'gateway', 'processor']" $
  reject_if (negb (isin (lower (interceptor_mode c)) ["passive"; "advisory"; "active"]))
    "interceptor_mode must be one of ['active', 'advisory', 'passive']" $
  reject_if (negb (isin (event_bus_backend c) ["memory"; "kafka"]))
    "event_bus_backend must be one of ['kafka', 'memory']" $
  reject_if (negb (isin (index_backend c) ["memory"; "redis"]))
    "index_backend must be one of ['memory', 'redis']" $
  reject_if (index_redis_ttl_s c <=? 0) "index_redis_ttl_s must be > 0" $
  reject_if (negb (isin (graph_backend c) ["memory"; "neo4j"]))
    "graph_backend must be one of ['memory', 'neo4j']" $
  reject_if (api_ingest_rate_limit_per_minute c <=? 0) "api_ingest_rate_limit_per_minute must be > 0" $
  reject_if (negb (isin (api_ingest_rate_limit_backend c) ["auto"; "memory"; "redis"]))
    "api_ingest_rate_limit_backend must be one of ['auto', 'memory', 'redis']" $
  reject_if (api_ingest_max_batch_size c <=? 0) "api_ingest_max_batch_size must be > 0" $
  reject_if (api_max_request_bytes c <=? 0) "api_max_request_bytes must be > 0" $
  reject_if (negb (isin (circuit_state_backend c) ["local"; "redis"]))
    "interceptor.circuit_state_backend must be one of ['local', 'redis']" k.

(** Credentials, authentication and CORS. *)
Definition validate_security (c : PlatformConfig) (k : res unit) : res unit :=
  let env_name := lower (environment c) in
  let a := auth c in
  reject_if (production_like c && is_empty (neo4j_password c))
    "neo4j_password must be configured in production/staging" $
  reject_if (production_like c && negb (auth_enabled a))
    "auth.enabled must be true in production/staging" $
  reject_if (allow_dev_bypass a && negb (isin env_name non_production_envs))
    "auth.allow_dev_bypass may only be enabled in non-production environments" $
  reject_if (api_cors_allow_credentials c && isin "*" (cors_origins c))
    "api_cors_allow_credentials cannot be true when api_cors_allowed_origins contains '*'" $
  let algorithm := upper (jwt_algorithm a) in
  let bypass_allowed := isin env_name non_production_envs && allow_dev_bypass a in
  reject_if (auth_enabled a && (startswith algorithm "HS" && is_empty (jwt_hs256_secret a) && negb bypass_allowed))
    "auth.jwt_hs256_secret is required for HS* auth algorithms" $
  reject_if (auth_enabled a && (startswith algorithm "RS" && is_empty (jwt_public_key_pem a) && negb bypass_allowed))
    "auth.jwt_public_key_pem is required for RS* auth algorithms" $
  reject_if (production_like c && startswith algorithm "HS" && isin (jwt_hs256_secret a) [""; "dev-only-secret"])
    "auth.jwt_hs256_secret must be set to a strong non-default value in production/staging" k.

(** The durable backends that the role and the environment require. *)
Definition validate_backends (c : PlatformConfig) (k : res unit) : res unit :=
  let gateway := isin (runtime_role c) ["all"; "gateway"] in
  let processor := isin (runtime_role c) ["all"; "processor"] in
  let limiter := resolved_rate_limit_backend c in
  reject_if (String.eqb (event_bus_backend c) "kafka" && is_empty (kafka_bootstrap c))
    "kafka_bootstrap must be configured when event_bus_backend='kafka'" $
  reject_if (production_like c && gateway && shadow_events_enabled c && negb (String.eqb (event_bus_backend c) "kafka"))
    "event_bus_backend must be 'kafka' when shadow_events_enabled is true for gateway-capable production/staging runtimes" $
  reject_if (redis_used c && is_empty (redis_url c))
    "redis_url must be configured for redis index/circuit state or kafka dedup backend" $
  reject_if (production_like c && processor && negb (String.eqb limiter "redis"))
    "api_ingest_rate_limit_backend must resolve to 'redis' in production/staging" $
  reject_if (String.eqb limiter "redis" && is_empty (redis_url c))
    "redis_url must be configured when api_ingest_rate_limit_backend='redis'" $
  reject_if (production_like c && redis_used c && negb (startswith (redis_url c) "rediss://"))
    "redis_url must use rediss:// in production/staging" $
  reject_if (production_like c && processor && negb (String.eqb (graph_backend c) "neo4j"))
    "graph_backend must be 'neo4j' in production/staging for processor workloads" k.

Definition _validate_runtime_settings (c : PlatformConfig) : res unit :=
  validate_choices c (validate_security c (validate_backends c (Ok tt))).

(** ** Lemmas *)

Lemma reject_if_ok bad msg k : reject_if bad msg k = Ok tt ↔ bad = false ∧ k = Ok tt.
Proof. unfold reject_if. destruct bad; split; naive_solver. Qed.

Lemma reject_if_raises bad msg k :
  (∃ m, k = Raise (ValueError m)) ∨ k = Ok tt →
  (∃ m, reject_if bad msg k = Raise (ValueError m)) ∨ reject_if bad msg k = Ok tt.
Proof. unfold reject_if. destruct bad; [by left; eexists|done]. Qed.

(** Read the accepted checks off as facts. *)
Ltac accepted H := unfold _validate_runtime_settings, validate_choices, validate_security, validate_backends in H;
  repeat (apply reject_if_ok in H; let Hn := fresh "Hchk" in destruct H as [Hn H]).

(** A production environment is not one of the development environments. *)
Lemma production_not_development c :
  production_like c = true → isin (lower (environment c)) non_production_envs = false.
Proof.
  unfold production_like. intros Hp%bool_decide_eq_true.
  apply elem_of_cons in Hp as [->|[->|[]%elem_of_nil]%elem_of_cons]; reflexivity.
Qed.

Lemma accepted_production_auth c :
  _validate_runtime_settings c = Ok tt → production_like c = true →
  auth_enabled (auth c) = true ∧ allow_dev_bypass (auth c) = false.
Proof.
  intros Hok Hp. accepted Hok. rewrite Hp, (production_not_development c Hp) in *. simpl andb in *.
  rewrite andb_true_r in *. bool_hyps. done.
Qed.

(** ** Properties *)

(** A configuration accepted for production or staging has the security posture the
    platform promises, whatever its other settings are: authentication is on, without a
    development bypass and, for a shared secret, with one that is neither empty nor the
    shipped default; the graph has a password; credentialed CORS never goes with a wildcard
    origin; a gateway that emits shadow events does so through Kafka; a processor keeps its
    graph in Neo4j and its rate limits in Redis; and the index, breaker and event-bus
    connections to Redis are encrypted. *)
Theorem config_production_posture (c : PlatformConfig)
    (Hok : _validate_runtime_settings c = Ok tt) (Hp : production_like c = true) :
  auth_enabled (auth c) = true ∧ allow_dev_bypass (auth c) = false ∧ neo4j_password c ≠ "" ∧
  (startswith (upper (jwt_algorithm (auth c))) "HS" = true →
     jwt_hs256_secret (auth c) ≠ "" ∧ jwt_hs256_secret (auth c) ≠ "dev-only-secret") ∧
  (startswith (upper (jwt_algorithm (auth c))) "RS" = true → jwt_public_key_pem (auth c) ≠ "") ∧
  (api_cors_allow_credentials c = true → "*" ∉ cors_origins c) ∧
  (runtime_role c ≠ "processor" → shadow_events_enabled c = true →
     event_bus_backend c = "kafka" ∧ kafka_bootstrap c ≠ "") ∧
  (runtime_role c ≠ "gateway" → graph_backend c = "neo4j" ∧ resolved_rate_limit_backend c = "redis") ∧
  (redis_used c = true → startswith (redis_url c) "rediss://" = true).
Proof.
  pose proof (accepted_production_auth c Hok Hp) as [Hen Hby].
  accepted Hok. unfold is_empty in *. rewrite Hp in *. simpl andb in *.
  pose proof (production_not_development c Hp) as Henv.
  rewrite Henv in *. rewrite !andb_true_r in *.
  assert (∀ r l, runtime_role c ≠ r → l = filter (λ x, x ≠ r) ["all"; "gateway"; "processor"] →
            isin (runtime_role c) l = true) as Hrole.
  { intros r l Hr ->. apply bool_decide_eq_true, list_elem_of_filter. split; [done|]. by bool_hyps. }
  rewrite Hen, Hby in *. simpl andb in *. bool_hyps. split_and!; try done.
  - intros Hs. rewrite Hs in Hchk16. simpl in Hchk16. apply bool_decide_eq_false in Hchk16.
    split; intros E; apply Hchk16; rewrite E; by repeat constructor.
  - intros Hs. rewrite Hs in Hchk15. simpl in Hchk15. by apply bool_decide_eq_false in Hchk15.
  - intros Hc Hin. rewrite Hc, bool_decide_eq_true_2 in Hchk13 by done. done.
  - intros Hr Hs. rewrite Hs, (Hrole "processor") in Hchk18 by done. simpl in Hchk18.
    apply negb_false_iff, String.eqb_eq in Hchk18. split; [done|].
    rewrite Hchk18 in Hchk17. by apply bool_decide_eq_false in Hchk17.
  - intros Hr. rewrite (Hrole "gateway") in Hchk20, Hchk23 by done. simpl in Hchk20, Hchk23.
    split; apply String.eqb_eq; by apply negb_false_iff.
  - intros Hu. rewrite Hu in Hchk22. by apply negb_false_iff in Hchk22.
Qed.

(** The encryption rule does not see the rate limiter: a production processor whose
    index, breaker and event bus do not use Redis is accepted with a plain [redis://] URL,
    although its rate limiter is then required to be the Redis one and connects to that
    URL. *)
Theorem config_rate_limiter_plaintext :
  ∃ c, _validate_runtime_settings c = Ok tt ∧ production_like c = true ∧
       runtime_role c = "processor" ∧ resolved_rate_limit_backend c = "redis" ∧
       redis_used c = false ∧ startswith (redis_url c) "redis://" = true.
Proof.
  exists (mkPlatformConfig "acme" "production" "processor" "advisory" 600 "auto" 1000 1048576 "" false
            "local" true (mkAuthConfig true false "RS256" "iss" "aud" "" "pem" "aci.api" "tenant_id" 60)
            "memory" "neo4j" 1800 "memory" "localhost:9092" "redis://cache:6379/0" "secret").
  split_and!; vm_compute; reflexivity.
Qed.

(** An environment name outside both lists ("prod", or "production " with a space, which the
    API routes do treat as production) gets none of the production checks: the defaults with
    the bypass switched off are accepted even with authentication disabled. *)
Theorem config_unknown_environment (env : string) :
  env = "prod" ∨ env = "production " →
  _validate_runtime_settings
    (mkPlatformConfig "acme" env "all" "active" 600 "auto" 1000 1048576 "*" false "local" true
       (mkAuthConfig false false "HS256" "iss" "aud" "" "" "" "tenant_id" 60)
       "memory" "memory" 1800 "memory" "localhost:9092" "redis://localhost:6379/0" "") = Ok tt.
Proof. by intros [->| ->]; vm_compute. Qed.

(** The validator is total and fails only with [ValueError]. *)
Lemma validate_total c :
  (∃ m, _validate_runtime_settings c = Raise (ValueError m)) ∨ _validate_runtime_settings c = Ok tt.
Proof. repeat apply reject_if_raises. by right. Qed.

(** The shipped defaults are accepted. *)
Example default_config_ok : _validate_runtime_settings default_platform_config = Ok tt.
Proof. reflexivity. Qed.

Lemma config_production_posture_witness :
  let c := mkPlatformConfig "acme" "Production" "all" "active" 600 "auto" 1000 1048576 "" false
    "redis" true (mkAuthConfig true false "HS256" "iss" "aud" "s3cret" "" "aci.api" "tenant_id" 60)
    "redis" "neo4j" 1800 "kafka" "broker:9092" "rediss://cache:6379/0" "pw" in
  startswith (redis_url c) "rediss://" = true.
Proof.
  intros c. apply (config_production_posture c); vm_compute; reflexivity.
Defined.
