(* ===== verification/Auth.v ===== *)
(** * Service authentication (src/aci/api/auth.py and the middleware of src/aci/api/app.py)

    The path rules, the development bypass, token validation over an abstract JWT decoder
    (PyJWT is not under src/), and the middleware's decision for a request. *)

From S2P Require Import Prelude PyFloat PyData PyTime PyValue Config.
From Stdlib Require Import ZArith Ascii Lia.
From stdpp Require Import base list strings.

Open Scope string_scope.
Open Scope list_scope.
Open Scope Z_scope.

(** ** Paths *)

Definition PUBLIC_PATH_PREFIXES : list string := ["/platform"].
Definition PUBLIC_PATHS : list string := ["/"; "/health"; "/live"; "/ready"; "/metrics"].

Definition is_public_path (path : string) : bool :=
  isin path PUBLIC_PATHS || existsb (startswith path) PUBLIC_PATH_PREFIXES.

Definition is_auth_required (path : string) : bool := startswith path "/v1/".

Definition can_bypass_auth (config : PlatformConfig) : bool :=
  isin (lower (environment config)) non_production_envs && allow_dev_bypass (auth config).

(** ** Tokens *)

Definition _jwt_key (config : AuthConfig) : string :=
  if startswith (upper (jwt_algorithm config)) "HS" then jwt_hs256_secret config
  else jwt_public_key_pem config.

(** The set of scopes, as a list. *)
Definition _normalize_scopes (raw_scope : pyval) : list string :=
  match raw_scope with
  | VNone => []
  | VStr s => split_ws (strip s)
  | VList l => map py_str l
  | v => [py_str v]
  end.

(** [jwt.decode]: token, key, algorithm, audience, issuer and leeway to the claims. The
    decoder checks the signature, the required claims, expiry, audience and issuer. *)
Class JwtDecoder := jwt_decode :
  string → string → string → string → string → Z → res (odict string pyval).

(** What the middleware answers: the request goes on (with the validated claims, if any) or
    is refused with 401; another exception of the decoder propagates. *)
Inductive auth_outcome :=
  | Proceed (claims : option (odict string pyval))
  | Unauthorized (detail : string)
  | Propagate (e : exn).

Section auth.
  Context `{JwtDecoder}.

Definition decode_and_validate_token (token : string) (config : AuthConfig) (expected_tenant : string)
    : res (odict string pyval) :=
    (let? claims := jwt_decode token (_jwt_key config) (jwt_algorithm config) (jwt_audience config)
                      (jwt_issuer config) (clock_skew_seconds config) in
     if negb (py_eq (dget claims (tenant_claim config) VNone) (VStr expected_tenant))
     then Raise InvalidTokenError
     else
       let scope := strip (required_scope config) in
       if negb (is_empty scope) && negb (isin scope (_normalize_scopes (dget claims "scope" VNone)))
       then Raise InvalidTokenError
       else Ok claims)%py.

(** [enforce_service_auth]; [auth_header] is the Authorization header, empty when absent. *)
Definition enforce_service_auth (config : PlatformConfig) (path auth_header : string) : auth_outcome :=
    if is_public_path path || negb (is_auth_required path) then Proceed None
    else if negb (auth_enabled (auth config)) then Proceed None
    else if negb (startswith auth_header "Bearer ") then
      if can_bypass_auth config then Proceed None else Unauthorized "missing bearer token"
    else
      let token := strip (str_drop 7 auth_header) in
      match decode_and_validate_token token (auth config) (tenant_id config) with
      | Ok claims => Proceed (Some claims)
      | Raise InvalidTokenError => Unauthorized "invalid bearer token"
      | Raise e => Propagate e
      end.

(** ** Lemmas *)

Lemma decode_ok token config tenant claims :
    decode_and_validate_token token config tenant = Ok claims →
    jwt_decode token (_jwt_key config) (jwt_algorithm config) (jwt_audience config)
               (jwt_issuer config) (clock_skew_seconds config) = Ok claims ∧
    py_eq (dget claims (tenant_claim config) VNone) (VStr tenant) = true ∧
    (strip (required_scope config) ≠ "" →
     strip (required_scope config) ∈ _normalize_scopes (dget claims "scope" VNone)).
  Proof.
    unfold decode_and_validate_token.
    destruct (jwt_decode _ _ _ _ _ _) as [cl|e]; cbn [rbind]; [|done].
    destruct (negb (py_eq _ _)) eqn:Et; [done|]. destruct (_ && _) eqn:Es; [done|]. intros [= <-].
    apply negb_false_iff in Et. split_and!; [done..|]. intros Hne.
    apply andb_false_iff in Es as [Es|Es]; apply negb_false_iff, bool_decide_eq_true in Es; done.
  Qed.

(** Only a string equal to the tenant passes the tenant check. *)
Lemma py_eq_str v s : py_eq v (VStr s) = true → v = VStr s.
  Proof.
    destruct v; simpl; try done. intros ->%String.eqb_eq. done.
  Qed.

Lemma startswith_split s p : startswith s p = true → ∃ r, s = p +:+ r.
  Proof.
    unfold startswith. revert s. induction p as [|a p IH]; intros s; [by exists s|].
    destruct s as [|b s]; [done|]. cbn [String.prefix]. destruct (ascii_dec a b) as [<-|]; [|done].
    intros (r & ->)%IH. by exists r.
  Qed.

(** A path that needs authentication is not public. *)
Lemma required_not_public path : is_auth_required path = true → is_public_path path = false.
  Proof.
    intros (r & ->)%startswith_split. unfold is_public_path. apply orb_false_iff. split; [|reflexivity].
    apply bool_decide_eq_false. intros Hin.
    repeat (apply elem_of_cons in Hin as [Hin|Hin]; [discriminate|]). by apply elem_of_nil in Hin.
  Qed.
End auth.

(** ** Properties *)

(** C33. In a configuration accepted for production or staging no request to a [/v1/] path
    gets through without a token: if it proceeds, its Authorization header is a bearer token
    that the JWT decoder accepted under the configured key, algorithm, audience and issuer,
    with the tenant of this deployment as its tenant claim and the required scope among its
    scopes. Every other request to such a path is refused or fails. *)
Theorem production_requests_authenticated `{JwtDecoder} (c : PlatformConfig) (path header : string)
    (claims : option (odict string pyval))
    (Hok : _validate_runtime_settings c = Ok tt) (Hp : production_like c = true)
    (Hpath : is_auth_required path = true)
    (Hgo : enforce_service_auth c path header = Proceed claims) :
  ∃ cl, claims = Some cl ∧ startswith header "Bearer " = true ∧
    jwt_decode (strip (str_drop 7 header)) (_jwt_key (auth c)) (jwt_algorithm (auth c))
      (jwt_audience (auth c)) (jwt_issuer (auth c)) (clock_skew_seconds (auth c)) = Ok cl ∧
    dget cl (tenant_claim (auth c)) VNone = VStr (tenant_id c) ∧
    (strip (required_scope (auth c)) ≠ "" →
     strip (required_scope (auth c)) ∈ _normalize_scopes (dget cl "scope" VNone)).
Proof.
  destruct (accepted_production_auth c Hok Hp) as [Hen Hby].
  unfold enforce_service_auth in Hgo.
  rewrite (required_not_public path Hpath), Hpath, Hen in Hgo. simpl orb in Hgo. cbn [negb] in Hgo.
  unfold can_bypass_auth in Hgo. rewrite Hby, andb_false_r in Hgo.
  destruct (startswith header "Bearer ") eqn:Eb; [|done]. cbn [negb] in Hgo.
  destruct (decode_and_validate_token _ _ _) as [cl|e] eqn:Ed; [|by destruct e].
  injection Hgo as <-. apply decode_ok in Ed as (Hd & Ht & Hs). exists cl.
  split_and!; [done..|by apply py_eq_str|done].
Qed.

Lemma production_requests_authenticated_witness :
  let claims := [("tenant_id", VStr "acme"); ("scope", VStr "aci.api admin")] in
  let decoder : JwtDecoder := λ token _ _ _ _ _,
    if String.eqb token "good" then Ok claims else Raise InvalidTokenError in
  let c := mkPlatformConfig "acme" "production" "all" "active" 600 "auto" 1000 1048576 "" false
    "redis" true (mkAuthConfig true false "HS256" "iss" "aud" "s3cret" "" "aci.api" "tenant_id" 60)
    "redis" "neo4j" 1800 "kafka" "broker:9092" "rediss://cache:6379/0" "pw" in
  ∃ cl, Some claims = Some cl ∧ dget cl "tenant_id" VNone = VStr "acme".
Proof.
  intros claims decoder c.
  destruct (@production_requests_authenticated decoder c "/v1/events/ingest" "Bearer good" (Some claims))
    as (cl & Hcl & _ & _ & Ht & _); [vm_compute; reflexivity..|]. by exists cl.
Defined.

(** A request without a token is refused, one with a token of another tenant too. *)
Example auth_samples :
  let decoder : JwtDecoder := λ token _ _ _ _ _,
    if String.eqb token "other" then Ok [("tenant_id", VStr "other"); ("scope", VStr "aci.api")]
    else Raise InvalidTokenError in
  let c := mkPlatformConfig "acme" "development" "all" "active" 600 "auto" 1000 1048576 "" false
    "local" true default_auth_config "memory" "memory" 1800 "memory" "" "" "" in
  enforce_service_auth c "/v1/trac" "Bearer other" = Unauthorized "invalid bearer token" ∧
  enforce_service_auth c "/v1/trac" "" = Proceed None ∧ enforce_service_auth c "/health" "" = Proceed None.
Proof. vm_compute. auto. Qed.
