(* ===== verification/RateLimit.v ===== *)
(** * Ingestion rate limiter (src/aci/api/runtime.py)

    The in-memory sliding window of [SlidingWindowRateLimiter], with its lazy pruning and
    periodic cleanup, against the specification that remembers every admitted call. *)

From S2P Require Import Prelude PyFloat PyData.
From Stdlib Require Import ZArith QArith Lia Lqa Sorted.
From stdpp Require Import base list strings.

Open Scope string_scope.
Open Scope list_scope.
Open Scope nat_scope.

(** ** State and operation *)

Record SlidingWindowRateLimiter := mkLimiter {
  _limit : Z;
  _window_seconds : pyfloat;
  _events : odict string (list pyfloat);
  _ops_since_cleanup : nat;
}.

Definition SlidingWindowRateLimiter_init (limit : Z) (window_seconds : pyfloat) : SlidingWindowRateLimiter :=
  mkLimiter limit window_seconds [] 0.

Definition _cleanup_interval_ops : nat := 256.

(** [while bucket and bucket[0] <= cutoff: bucket.popleft()] *)
Fixpoint prune (cutoff : pyfloat) (bucket : list pyfloat) : list pyfloat :=
  match bucket with
  | x :: rest => if fle x cutoff then prune cutoff rest else bucket
  | [] => []
  end.

(** [not candidate_bucket or candidate_bucket[-1] <= cutoff] *)
Definition stale_bucket (cutoff : pyfloat) (bucket : list pyfloat) : bool :=
  match last bucket with None => true | Some x => fle x cutoff end.

Definition drop_stale (cutoff : pyfloat) (key : string) (events : list (string * list pyfloat)) :
    list (string * list pyfloat) :=
  filter (λ kb, kb.1 = key ∨ stale_bucket cutoff kb.2 = false) events.

(** [allow] at the clock reading [now]; the lock makes it one step. *)
Definition allow (key : string) (now : pyfloat) (s : SlidingWindowRateLimiter) : bool * SlidingWindowRateLimiter :=
  let cutoff := fsub now (_window_seconds s) in
  let bucket := prune cutoff (default [] (od_get key (_events s))) in
  let events := od_set key bucket (_events s) in
  let ops := S (_ops_since_cleanup s) in
  let '(events, ops) := if _cleanup_interval_ops <=? ops then (drop_stale cutoff key events, 0)
                        else (events, ops) in
  if (_limit s <=? Z.of_nat (length bucket))%Z
  then (false, mkLimiter (_limit s) (_window_seconds s) events ops)
  else (true, mkLimiter (_limit s) (_window_seconds s) (od_set key (bucket ++ [now]) events) ops).

Fixpoint run_calls (calls : list (string * pyfloat)) (s : SlidingWindowRateLimiter) : list bool :=
  match calls with
  | [] => []
  | (key, now) :: rest => let '(r, s') := allow key now s in r :: run_calls rest s'
  end.

(** ** Specification: every admitted call is remembered *)

Section spec.
  Context (limit : Z) (window : pyfloat).

  (** The admitted calls of [key] inside the window that ends at [now]. *)
Definition in_window (now : pyfloat) (l : list pyfloat) : list pyfloat :=
    filter (λ x, fle x (fsub now window) = false) l.

Definition calls_of (key : string) (h : list (string * pyfloat)) : list pyfloat :=
    map snd (filter (λ c, c.1 = key) h).

Definition spec_allows (key : string) (now : pyfloat) (h : list (string * pyfloat)) : bool :=
    (Z.of_nat (length (in_window now (calls_of key h))) <? limit)%Z.

Fixpoint spec_calls (h : list (string * pyfloat)) (calls : list (string * pyfloat)) : list bool :=
    match calls with
    | [] => []
    | (key, now) :: rest =>
        if spec_allows key now h then true :: spec_calls (h ++ [(key, now)]) rest
        else false :: spec_calls h rest
    end.

  (** The calls admitted among [calls]. *)
Fixpoint spec_history (h : list (string * pyfloat)) (calls : list (string * pyfloat)) : list (string * pyfloat) :=
    match calls with
    | [] => h
    | (key, now) :: rest =>
        spec_history (if spec_allows key now h then h ++ [(key, now)] else h) rest
    end.
End spec.

(** Clock readings that do not go back. *)
Fixpoint ordered (from : pyfloat) (calls : list (string * pyfloat)) : Prop :=
  match calls with
  | [] => True
  | (_, now) :: rest => is_fin now = true ∧ fle from now = true ∧ ordered now rest
  end.

Definition last_time (from : pyfloat) (calls : list (string * pyfloat)) : pyfloat :=
  fold_left (λ _ c, c.2) calls from.

(** ** Lemmas *)

Definition sorted_times (l : list pyfloat) : Prop := Sorted (λ x y, fle x y = true) l.

Lemma sorted_tail_ge x l y : sorted_times (x :: l) → y ∈ l → fle x y = true.
Proof.
  intros Hs Hy. apply Sorted_StronglySorted in Hs; [|intros a b c; apply fle_trans].
  apply StronglySorted_inv in Hs as [_ HF]. rewrite List.Forall_forall in HF. apply HF. by apply list_elem_of_In.
Qed.

Lemma prune_sorted cutoff l :
  sorted_times l → prune cutoff l = filter (λ x, fle x cutoff = false) l.
Proof.
  intros Hs. induction l as [|x l IH]; [done|]. simpl prune. rewrite filter_cons.
  apply Sorted_inv in Hs as Hs'. destruct Hs' as [Hl _].
  destruct (fle x cutoff) eqn:E; [rewrite decide_False by done; by apply IH|].
  rewrite decide_True by done. f_equal. symmetry. apply list_filter_id. intros y Hy.
  destruct (fle y cutoff) eqn:Ey; [|done].
  pose proof (fle_trans _ _ _ (sorted_tail_ge x l y Hs Hy) Ey). congruence.
Qed.

Lemma filter_sorted (P : pyfloat → Prop) `{∀ x, Decision (P x)} l : sorted_times l → sorted_times (filter P l).
Proof.
  intros Hs. apply Sorted_StronglySorted in Hs; [|intros a b c; apply fle_trans].
  apply StronglySorted_Sorted. induction Hs as [|x l Hs IH HF]; [constructor|].
  rewrite filter_cons. destruct (decide (P x)); [|done]. constructor; [done|].
  rewrite List.Forall_forall in HF |- *. intros y Hy%list_elem_of_In.
  apply HF, list_elem_of_In. by apply list_elem_of_filter in Hy as [_ Hy].
Qed.

Lemma od_get_filter {V} (P : string * V → Prop) `{∀ x, Decision (P x)} k (d : list (string * V)) :
  od_wf d →
  od_get k (filter P d) = match od_get k d with
                          | Some v => if decide (P (k, v)) then Some v else None
                          | None => None
                          end.
Proof.
  unfold od_wf. induction d as [|[k' v] d IH]; intros Hwf; [done|]. rewrite filter_cons.
  apply NoDup_cons in Hwf as [Hk' Hwf]. cbn [od_get].
  destruct (decide (k = k')) as [->|Hne].
  - destruct (decide (P (k', v))); simpl; [by rewrite decide_True|].
    rewrite IH by done. cbn [fst] in Hk'. apply od_get_None in Hk'. by rewrite Hk'.
  - destruct (decide (P (k', v))); simpl; [rewrite decide_False by done|]; by apply IH.
Qed.

Lemma od_filter_wf {V} (P : string * V → Prop) `{∀ x, Decision (P x)} (d : list (string * V)) :
  od_wf d → od_wf (filter P d).
Proof.
  unfold od_wf. induction d as [|[k v] d IH]; intros Hd; [done|]. apply NoDup_cons in Hd as [Hk Hd].
  rewrite filter_cons. destruct (decide (P (k, v))); [|by apply IH].
  apply NoDup_cons. split; [|by apply IH]. cbn [fst] in *. intros Hin. apply Hk.
  apply list_elem_of_fmap in Hin as (x & -> & [_ Hx]%list_elem_of_filter). by apply list_elem_of_fmap_2.
Qed.

Lemma calls_of_snoc key h k t :
  calls_of k (h ++ [(key, t)]) = if decide (k = key) then calls_of k h ++ [t] else calls_of k h.
Proof.
  unfold calls_of. rewrite filter_app, filter_cons, filter_nil, map_app. simpl.
  destruct (decide (k = key)) as [->|Hne]; [by rewrite decide_True by done|].
  rewrite decide_False by congruence. by rewrite app_nil_r.
Qed.

Section window.
  Context (window : pyfloat) (Hw : is_fin window = true).

Lemma in_window_later s t l : is_fin s = true → is_fin t = true → fle s t = true →
    in_window window t (in_window window s l) = in_window window t l.
  Proof.
    intros Hs Ht Hst. unfold in_window. rewrite list_filter_and. apply list_filter_iff. intros x.
    split; [tauto|]. intros Hx. split; [|done]. destruct (fle x (fsub s window)) eqn:E; [|done].
    pose proof (fle_trans _ _ _ E (fsub_mono_l _ _ _ Hs Ht Hw Hst)). congruence.
  Qed.

Lemma in_window_app t l1 l2 : in_window window t (l1 ++ l2) = in_window window t l1 ++ in_window window t l2.
  Proof. apply filter_app. Qed.

Definition bucket_of (k : string) (s : SlidingWindowRateLimiter) : list pyfloat :=
    default [] (od_get k (_events s)).

  (** The buckets hold what the specification needs of the admitted calls [h]. *)
Definition represents (from : pyfloat) (h : list (string * pyfloat)) (s : SlidingWindowRateLimiter) : Prop :=
    _window_seconds s = window ∧ od_wf (_events s) ∧ is_fin from = true ∧
    ∀ k, sorted_times (bucket_of k s) ∧ Forall (λ x, fle x from = true) (bucket_of k s) ∧
         ∀ t, is_fin t = true → fle from t = true →
              in_window window t (bucket_of k s) = in_window window t (calls_of k h).

Lemma stale_gone cutoff l : sorted_times l → stale_bucket cutoff l = true →
    Forall (λ x, fle x cutoff = true) l.
  Proof.
    unfold stale_bucket. destruct l as [|x l _] using rev_ind; [constructor|].
    rewrite last_snoc. intros Hs Hx. apply Forall_forall. intros y [Hy|Hy]%elem_of_app.
    - apply list_elem_of_split in Hy as (l1 & l2 & ->). rewrite <- app_assoc in Hs.
      assert (sorted_times (y :: (l2 ++ [x]))) as Hs'.
      { clear -Hs. induction l1 as [|z l1 IH]; [done|]. apply IH. by apply Sorted_inv in Hs as [? _]. }
      eapply fle_trans; [|done]. eapply sorted_tail_ge; [done|]. apply elem_of_app. right. by left.
    - by apply list_elem_of_singleton in Hy as ->.
  Qed.

Lemma in_window_gone now t l : is_fin now = true → is_fin t = true → fle now t = true →
    Forall (λ x, fle x (fsub now window) = true) l → in_window window t l = [].
  Proof.
    intros Hn Ht Hnt HF. rewrite <- (in_window_later now t) by done.
    assert (in_window window now l = []) as ->; [|done].
    induction HF as [|x l Hx HF IH]; [done|]. unfold in_window. rewrite filter_cons.
    rewrite decide_False by congruence. apply IH.
  Qed.

Lemma sorted_snoc l now : sorted_times l → Forall (λ x, fle x now = true) l → sorted_times (l ++ [now]).
  Proof.
    intros Hs HF. induction Hs as [|x l Hs IH Hhd]; [by repeat constructor|]. simpl.
    apply Forall_cons in HF as [Hx HF]. constructor; [by apply IH|].
    destruct Hhd as [|y l Hy]; simpl; by constructor.
  Qed.

  (** The clean-up and the pruning of the called key change nothing that counts from [now] on. *)
Lemma cleaned_represents from h s key now :
    represents from h s → is_fin now = true → fle from now = true →
    let cutoff := fsub now window in
    let bucket := prune cutoff (bucket_of key s) in
    let events := od_set key bucket (_events s) in
    ∀ ops events', events' = events ∨ events' = drop_stale cutoff key events →
    represents now h (mkLimiter (_limit s) window events' ops) ∧
    bucket = in_window window now (calls_of key h) ∧
    default [] (od_get key events') = bucket.
  Proof.
    intros (Hwin & Hwf & Hfrom & Hb) Hnow Hle cutoff bucket events ops events' He.
    assert (bucket = in_window window now (bucket_of key s)) as Hbk by (unfold bucket, in_window; apply prune_sorted; exact (proj1 (Hb key))).
    assert (od_wf events) as Hwe by (by apply od_set_wf).
    assert (∀ k, default [] (od_get k events) = if decide (k = key) then bucket else bucket_of k s) as Hev.
    { intros k. unfold events, bucket_of. rewrite od_get_set. by case_decide. }
    assert (∀ k, default [] (od_get k events') = default [] (od_get k events) ∨
                 default [] (od_get k events') = [] ∧ k ≠ key ∧
                 Forall (λ x, fle x cutoff = true) (default [] (od_get k events))) as Hev'.
    { intros k. destruct He as [->| ->]; [by left|]. unfold drop_stale. rewrite od_get_filter by done.
      destruct (od_get k events) as [b|] eqn:E; [|by left].
      destruct (decide _) as [Hk|Hk]; [by left|]. right. split; [done|]. simpl in Hk |- *.
      split; [naive_solver|]. apply stale_gone.
      - specialize (Hev k). rewrite E in Hev. simpl in Hev. rewrite Hev.
        case_decide; [naive_solver|]. apply Hb.
      - destruct (stale_bucket cutoff b); naive_solver. }
    assert (default [] (od_get key events') = bucket) as Hkey.
    { destruct (Hev' key) as [->|(_ & ? & _)]; [|done]. by rewrite Hev, decide_True. }
    split_and!; [|by rewrite Hbk; apply Hb|done].
    split_and!; [done| |done|].
    { destruct He as [->| ->]; [done|]. by apply od_filter_wf. }
    intros k. unfold bucket_of at 1 2 3. simpl.
    destruct (Hb k) as (Hs & HF & Hin). destruct (Hev' k) as [->|(-> & Hk & Hgone)].
    - rewrite Hev. destruct (decide (k = key)) as [->|Hne].
      + rewrite Hbk. split_and!; [by apply filter_sorted| |].
        * apply Forall_forall. intros x [_ Hx]%list_elem_of_filter. rewrite Forall_forall in HF.
          exact (fle_trans _ _ _ (HF x Hx) Hle).
        * intros t Ht Hnt. rewrite in_window_later by done. apply Hin; [done|exact (fle_trans _ _ _ Hle Hnt)].
      + split_and!; [done| |].
        * eapply Forall_impl; [exact HF|]. intros x Hx. exact (fle_trans _ _ _ Hx Hle).
        * intros t Ht Hnt. apply Hin; [done|exact (fle_trans _ _ _ Hle Hnt)].
    - rewrite Hev, decide_False in Hgone by done. split_and!; [constructor..|].
      intros t Ht Hnt. rewrite <- Hin by (done || exact (fle_trans _ _ _ Hle Hnt)).
      symmetry. by apply (in_window_gone now).
  Qed.

Lemma allow_refines from h s key now :
    represents from h s → is_fin now = true → fle from now = true →
    (allow key now s).1 = spec_allows (_limit s) window key now h ∧
    _limit (allow key now s).2 = _limit s ∧
    represents now (if spec_allows (_limit s) window key now h then h ++ [(key, now)] else h)
               (allow key now s).2.
  Proof.
    intros Hr Hnow Hle. pose proof Hr as (Hwin & _). unfold allow. rewrite Hwin.
    set (bucket := prune (fsub now window) (default [] (od_get key (_events s)))).
    set (events := od_set key bucket (_events s)).
    set (cl := if _cleanup_interval_ops <=? S (_ops_since_cleanup s) then _ else _).
    assert (cl.1 = events ∨ cl.1 = drop_stale (fsub now window) key events) as He.
    { unfold cl. destruct (_cleanup_interval_ops <=? _); auto. }
    destruct cl as [events' ops]. simpl in He.
    destruct (cleaned_represents from h s key now Hr Hnow Hle ops events' He) as (Hrep & Hb & Hkey).
    change (prune (fsub now window) (bucket_of key s)) with bucket in Hb, Hkey.
    unfold spec_allows. rewrite <- Hb.
    destruct (Z.leb_spec (_limit s) (Z.of_nat (length bucket))) as [Hlim|Hlim].
    - rewrite (proj2 (Z.ltb_ge _ _)) by done. split_and!; done.
    - rewrite (proj2 (Z.ltb_lt _ _)) by done. split_and!; [done..|].
      destruct Hrep as (_ & Hwf & _ & Hbs). split_and!; [done|by apply od_set_wf|done|].
      intros k. unfold bucket_of at 1 2 3. simpl. rewrite od_get_set, calls_of_snoc.
      specialize (Hbs k). unfold bucket_of in Hbs at 1 2 3. simpl in Hbs.
      destruct (decide (k = key)) as [->|Hne]; [|done]. simpl. rewrite Hkey in Hbs.
      destruct Hbs as (Hs & HF & Hin). split_and!.
      + by apply sorted_snoc.
      + apply Forall_app. split; [done|]. repeat constructor. apply fle_refl. by destruct now.
      + intros t Ht Hnt. by rewrite !in_window_app, Hin.
  Qed.

Lemma run_refines from h s calls :
    represents from h s → ordered from calls →
    run_calls calls s = spec_calls (_limit s) window h calls.
  Proof.
    revert from h s. induction calls as [|[key now] rest IH]; intros from h s Hr Ho; [done|].
    destruct Ho as (Hfin & Hle & Ho). cbn [run_calls spec_calls].
    pose proof (allow_refines from h s key now Hr Hfin Hle) as (Hres & Hlim & Hr').
    destruct (allow key now s) as [r s']. cbn [fst snd] in *. subst r.
    rewrite (IH _ _ _ Hr' Ho), Hlim.
    by destruct (spec_allows _ _ _ _ _).
  Qed.

Lemma init_represents limit from : is_fin from = true →
    represents from [] (SlidingWindowRateLimiter_init limit window).
  Proof. intros Hf. split_and!; [done|constructor|done|]. intros k. split_and!; [constructor..|done]. Qed.

(** No window that ends at or after the last call holds more than [limit] admitted calls. *)
Lemma spec_bound limit from h calls key t :
    (∀ k u, is_fin u = true → fle from u = true →
       (Z.of_nat (length (in_window window u (calls_of k h))) <= Z.max 0 limit)%Z) →
    ordered from calls → is_fin from = true → is_fin t = true → fle (last_time from calls) t = true →
    (Z.of_nat (length (in_window window t (calls_of key (spec_history limit window h calls))))
     <= Z.max 0 limit)%Z.
  Proof.
    revert from h. induction calls as [|[k now] rest IH]; intros from h Hh Ho Hf Ht Hlast.
    { by apply Hh. }
    destruct Ho as (Hfin & Hle & Ho). cbn [spec_history]. apply (IH now); [|done..].
    intros k' u Hu Hnu. pose proof (Hh k' u Hu (fle_trans _ _ _ Hle Hnu)) as Hold.
    destruct (spec_allows limit window k now h) eqn:Ea; [|done].
    rewrite calls_of_snoc. destruct (decide (k' = k)) as [->|]; [|done].
    unfold spec_allows in Ea. apply Z.ltb_lt in Ea. rewrite in_window_app, length_app.
    assert (length (in_window window u (calls_of k h)) ≤ length (in_window window now (calls_of k h))).
    { rewrite <- (in_window_later now u) by done. apply length_filter. }
    assert (length (in_window window u [now]) ≤ 1) by apply (length_filter _ [now]). lia.
  Qed.
End window.

(** ** Properties *)

(** C34. The limiter enforces its limit exactly, for every sequence of calls by any callers
    on a clock that does not go back: it admits a call if and only if fewer than [limit]
    admitted calls of the same caller lie in the window that ends now - pruning and the
    periodic clean-up of other callers' buckets never forget or double a call - and so no
    window ever holds more than [limit] admitted calls of a caller. *)
Theorem limiter_exact (limit : Z) (window start t : pyfloat) (calls : list (string * pyfloat)) (key : string)
    (Hw : is_fin window = true) (Hs : is_fin start = true) (Ho : ordered start calls)
    (Ht : is_fin t = true) (Hl : fle (last_time start calls) t = true) :
  run_calls calls (SlidingWindowRateLimiter_init limit window) = spec_calls limit window [] calls ∧
  (Z.of_nat (length (in_window window t (calls_of key (spec_history limit window [] calls)))) <= Z.max 0 limit)%Z.
Proof.
  split.
  - apply (run_refines window Hw start); [by apply init_represents|done].
  - apply (spec_bound window Hw limit start); try done. intros k u _ _. simpl. lia.
Qed.

Lemma limiter_exact_witness :
  run_calls [("a", of_Z 0); ("a", of_Z 1); ("b", of_Z 1); ("a", of_Z 60); ("a", of_Z 61)]
    (SlidingWindowRateLimiter_init 1 (of_Z 60)) = [true; false; true; true; false].
Proof.
  destruct (limiter_exact 1 (of_Z 60) (of_Z 0) (of_Z 61)
    [("a", of_Z 0); ("a", of_Z 1); ("b", of_Z 1); ("a", of_Z 60); ("a", of_Z 61)] "a") as [H _].
  - vm_compute. reflexivity.
  - vm_compute. reflexivity.
  - vm_compute. auto 20.
  - vm_compute. reflexivity.
  - vm_compute. reflexivity.
  - rewrite H. vm_compute. reflexivity.
Defined.
