(* ===== verification/Policy.v ===== *)
(** * Policy engine (src/aci/policy/engine.py)

    Registration, resolution of the policy in force for a team, evaluation against a context,
    and the policy context that the processor (core/processor.py) hands to the materializer.
    Parameters and contexts are dynamic values, so every conversion may raise. *)

From S2P Require Import Prelude PyFloat PyData PyTime PyValue Models.
From Stdlib Require Import ZArith QArith Ascii Lia.
From stdpp Require Import base list strings.

Open Scope string_scope.
Open Scope list_scope.
Open Scope Z_scope.

(** ** [float(v)] and [int(v)] *)

(** A run of digits with single underscores between them: its value (continuing [acc]), its
    number of digits, and the rest. *)
Fixpoint digit_part (acc : Z) (n : nat) (s : string) : Z * nat * string :=
  match s with
  | String c s' =>
      match digit_of c with
      | Some d => digit_part (10 * acc + d) (S n) s'
      | None =>
          match s' with
          | String c' s'' =>
              match digit_of c' with
              | Some d => if Ascii.eqb c "_"%char && negb (n =? 0)%nat
                          then digit_part (10 * acc + d) (S n) s'' else (acc, n, s)
              | None => (acc, n, s)
              end
          | EmptyString => (acc, n, s)
          end
      end
  | EmptyString => (acc, n, s)
  end.

(** An optional sign and the rest. *)
Definition sign_part (s : string) : bool * string :=
  match s with
  | String c s' => if Ascii.eqb c "-"%char then (true, s')
                   else if Ascii.eqb c "+"%char then (false, s') else (false, s)
  | EmptyString => (false, s)
  end.

Definition float_of_str (s : string) : res pyfloat :=
  let '(neg, t) := sign_part (lower (strip s)) in
  let signed x := Ok (if neg : bool then fneg x else x) in
  let bad := Raise (ValueError "could not convert string to float") in
  if String.eqb t "inf" || String.eqb t "infinity" then signed PInf
  else if String.eqb t "nan" then Ok NaN
  else
    let '(m, n1, r) := digit_part 0 0 t in
    let '(m, n2, r) := match r with
                       | String "."%char r' => digit_part m 0 r'
                       | _ => (m, O, r)
                       end in
    if (n1 + n2 =? 0)%nat then bad else
    let finish e := signed (of_Q (scale10 (inject_Z m) (e - Z.of_nat n2))) in
    match r with
    | EmptyString => finish 0
    | String "e"%char r' =>
        let '(eneg, d) := sign_part r' in
        match digit_part 0 0 d with
        | (e, S _, EmptyString) => finish (if eneg : bool then - e else e)
        | _ => bad
        end
    | _ => bad
    end.

Definition py_float (v : pyval) : res pyfloat :=
  match v with
  | VStr s => float_of_str s
  | _ => default (Raise TypeError) (float_of_num v)
  end.

Definition py_int (v : pyval) : res Z :=
  match v with
  | VBool b => Ok (if b then 1 else 0)
  | VInt z => Ok z
  | VFloat x => int_of_float x
  | VStr s =>
      let '(neg, t) := sign_part (strip s) in
      match digit_part 0 0 t with
      | (m, S n, EmptyString) =>
          if (4300 <? S n)%nat then Raise (ValueError "Exceeds the limit for integer string conversion")
          else Ok (if neg : bool then - m else m)
      | _ => Raise (ValueError "invalid literal for int() with base 10")
      end
  | _ => Raise TypeError
  end.

(** ** State *)

Definition PolicyEngine : Type := odict string PolicyDefinition.

Definition PolicyEngine_init : PolicyEngine := [].

Definition register_policy (p : PolicyDefinition) (policies : PolicyEngine) : PolicyEngine :=
  od_set (pd_policy_id p) p policies.

Definition remove_policy (policy_id : string) (policies : PolicyEngine) : bool * PolicyEngine :=
  (od_mem policy_id policies, od_del policy_id policies).

Definition _policy_matches_team (p : PolicyDefinition) (team_id : string) : bool :=
  let policy_team := py_str (dget (pd_parameters p) "team_id" (VStr "")) in
  String.eqb (pd_scope p) team_id || String.eqb policy_team team_id.

(** ** Resolution *)

(** [[str(model) for model in allowed]] *)
Definition str_items (allowed : pyval) : res (list string) :=
  match allowed with
  | VList l => Ok (map py_str l)
  | VStr s => Ok (map (λ c, String c "") (String.list_ascii_of_string s))
  | VDict d => Ok (od_keys d)
  | _ => Raise TypeError
  end.

Definition allowed_models (p : PolicyDefinition) : res (list string) :=
  str_items (dget (pd_parameters p) "allowed_models" (VList [])).

Definition is_type (t : PolicyType) (p : PolicyDefinition) : bool :=
  bool_decide (pd_policy_type p = t) && pd_enabled p.

Fixpoint allowlist_loop (team_id : string) (ps : list PolicyDefinition) (global_allowlist : list string)
    : res (list string) :=
  match ps with
  | [] => Ok global_allowlist
  | p :: ps =>
      if negb (is_type MODEL_ALLOWLIST p) then allowlist_loop team_id ps global_allowlist
      else if _policy_matches_team p team_id then allowed_models p
      else if String.eqb (pd_scope p) "global"
      then (let? allowed := allowed_models p in allowlist_loop team_id ps allowed)%py
      else allowlist_loop team_id ps global_allowlist
  end.

Definition get_model_allowlist (policies : PolicyEngine) (team_id : string) : res (list string) :=
  allowlist_loop team_id (od_values policies) [].

(** The limit and what remains of it. *)
Definition budget_of (p : PolicyDefinition) : res (pyfloat * pyfloat) :=
  (let? limit := py_float (dget (pd_parameters p) "limit_usd" (VInt 0)) in
   let? remaining := py_float (dget (pd_parameters p) "remaining_usd" (VInt 0)) in
   Ok (limit, remaining))%py.

Fixpoint budget_loop (team_id : string) (ps : list PolicyDefinition) (global_budget : option (pyfloat * pyfloat))
    : res (option (pyfloat * pyfloat)) :=
  match ps with
  | [] => Ok global_budget
  | p :: ps =>
      if negb (is_type BUDGET_CEILING p) then budget_loop team_id ps global_budget
      else
        (let? budget := budget_of p in
         if _policy_matches_team p team_id then Ok (Some budget)
         else budget_loop team_id ps
                (if String.eqb (pd_scope p) "global" then Some budget else global_budget))%py
  end.

(** [None] is the empty dictionary. *)
Definition get_budget_context (policies : PolicyEngine) (team_id : string)
    : res (option (pyfloat * pyfloat)) :=
  budget_loop team_id (od_values policies) None.

Definition optional_int (params : odict string pyval) (key : string) : res (option Z) :=
  match dget params key VNone with
  | VNone => Ok None
  | v => (let? z := py_int v in Ok (Some z))%py
  end.

(** The output and the input budget. *)
Definition tokens_of (p : PolicyDefinition) : res (option Z * option Z) :=
  (let? output := optional_int (pd_parameters p) "max_output_tokens" in
   let? input := optional_int (pd_parameters p) "max_input_tokens" in
   Ok (output, input))%py.

Fixpoint tokens_loop (team_id : string) (ps : list PolicyDefinition)
    (global_tokens : option (option Z * option Z)) : res (option (option Z * option Z)) :=
  match ps with
  | [] => Ok global_tokens
  | p :: ps =>
      if negb (is_type TOKEN_BUDGET p) then tokens_loop team_id ps global_tokens
      else
        (let? token_budget := tokens_of p in
         if _policy_matches_team p team_id then Ok (Some token_budget)
         else tokens_loop team_id ps
                (if String.eqb (pd_scope p) "global" then Some token_budget else global_tokens))%py
  end.

Definition get_token_budgets (policies : PolicyEngine) (team_id : string)
    : res (option (option Z * option Z)) :=
  tokens_loop team_id (od_values policies) None.

Fixpoint ceiling_loop (team_id : string) (ps : list PolicyDefinition) (global_ceiling : option pyfloat)
    : res (option pyfloat) :=
  match ps with
  | [] => Ok global_ceiling
  | p :: ps =>
      if negb (is_type COST_CEILING p) then ceiling_loop team_id ps global_ceiling
      else
        match dget (pd_parameters p) "max_request_cost_usd" VNone with
        | VNone => ceiling_loop team_id ps global_ceiling
        | ceiling =>
            (let? resolved := py_float ceiling in
             if _policy_matches_team p team_id then Ok (Some resolved)
             else ceiling_loop team_id ps
                    (if String.eqb (pd_scope p) "global" then Some resolved else global_ceiling))%py
        end
  end.

Definition get_cost_ceiling (policies : PolicyEngine) (team_id : string) : res (option pyfloat) :=
  ceiling_loop team_id (od_values policies) None.

(** ** Evaluation *)

(** Commas every three digits from the right. *)
Fixpoint group3 (digits : string) : string :=
  match digits with
  | EmptyString => ""
  | String c rest =>
      if (Nat.modulo (String.length rest) 3 =? 0)%nat && negb (String.eqb rest "")
      then String c ("," +:+ group3 rest) else String c (group3 rest)
  end.

(** [f"{x:,.0f}"] *)
Definition fmt_grouped0 (x : pyfloat) : string :=
  match x with
  | Fin _ => match fmt_fixed 0 x with
             | String "-"%char digits => String "-"%char (group3 digits)
             | digits => group3 digits
             end
  | _ => fmt_fixed 0 x
  end.

(** A float format applied to a dynamic value; a datetime takes the text as a [strftime]
    pattern, which has no directive in it. *)
Definition fmt_value (fmt : pyfloat → string) (spec : string) (v : pyval) : res string :=
  match v with
  | VStr _ => Raise (ValueError "Unknown format code 'f' for object of type 'str'")
  | VDate _ => Ok spec
  | _ => (let? x := default (Raise TypeError) (float_of_num v) in Ok (fmt x))%py
  end.

(** [v in container] *)
Definition py_contains (v container : pyval) : res bool :=
  match container with
  | VList l => Ok (py_in_list v l)
  | VStr s => match v with VStr t => Ok (str_in t s) | _ => Raise TypeError end
  | VDict d => match v with
               | VStr t => Ok (od_mem t d)
               | VList _ | VDict _ => Raise TypeError
               | _ => Ok false
               end
  | _ => Raise TypeError
  end.

(** The check of one policy: [Some details] when it is violated. *)
Definition violation (p : PolicyDefinition) (context : odict string pyval) : res (option string) :=
  let params := pd_parameters p in
  (match pd_policy_type p with
   | BUDGET_CEILING =>
       let limit := dget params "limit_usd" (VInt 0) in
       let current := dget context "current_spend_usd" (VInt 0) in
       let? over := py_lt limit current in
       if over : bool then
         let? c := fmt_value fmt_grouped0 ",.0f" current in
         let? l := fmt_value fmt_grouped0 ",.0f" limit in
         Ok (Some ("Spend $" +:+ c +:+ " exceeds limit $" +:+ l))
       else Ok None
   | MODEL_ALLOWLIST =>
       let model := dget context "model" (VStr "") in
       let allowed := dget params "allowed_models" (VList []) in
       if truthy model && truthy allowed then
         let? listed := py_contains model allowed in
         if listed : bool then Ok None
         else Ok (Some ("Model " +:+ py_str model +:+ " not in allowlist"))
       else Ok None
   | CONFIDENCE_FLOOR =>
       let confidence := dget context "confidence" (VFloat f1) in
       let floor := dget params "min_confidence" (VFloat (lit 8 10)) in
       let? below := py_lt confidence floor in
       if below : bool then
         let? c := fmt_value (fmt_fixed 2) ".2f" confidence in
         let? f := fmt_value (fmt_fixed 2) ".2f" floor in
         Ok (Some ("Confidence " +:+ c +:+ " below floor " +:+ f))
       else Ok None
   | SHADOW_DETECTION =>
       let has_cicd := dget context "has_cicd_linkage" (VBool true) in
       let daily_cost := dget context "daily_cost_usd" (VInt 0) in
       let threshold := dget params "cost_threshold_daily_usd" (VInt 500) in
       if truthy has_cicd then Ok None
       else
         let? over := py_lt threshold daily_cost in
         if over : bool then
           let? c := fmt_value (fmt_fixed 0) ".0f" daily_cost in
           Ok (Some ("Unregistered service: $" +:+ c +:+ "/day, no CI/CD linkage"))
         else Ok None
   | _ => Ok None
   end)%py.

Definition _evaluate_single (p : PolicyDefinition) (context : odict string pyval)
    : res PolicyEvaluationResult :=
  (let? details := violation p context in
   let violated := match details with Some _ => true | None => false end in
   Ok (mkPolicyResult (pd_policy_id p) (pd_name p)
         (if violated then pd_enforcement p else ALLOW) violated (default "" details)))%py.

(** Enabled and in the scope asked for. *)
Definition in_scope (scope_filter : string) (p : PolicyDefinition) : bool :=
  pd_enabled p &&
  negb (negb (String.eqb scope_filter "global") && negb (String.eqb (pd_scope p) scope_filter)
        && negb (String.eqb (pd_scope p) "global")).

Fixpoint evaluate_loop (context : odict string pyval) (scope_filter : string) (ps : list PolicyDefinition)
    (results : list PolicyEvaluationResult) : res (list PolicyEvaluationResult) :=
  match ps with
  | [] => Ok results
  | p :: ps =>
      if in_scope scope_filter p
      then (let? result := _evaluate_single p context in
            evaluate_loop context scope_filter ps (results ++ [result]))%py
      else evaluate_loop context scope_filter ps results
  end.

Definition evaluate_all (policies : PolicyEngine) (context : odict string pyval) (scope_filter : string)
    : res (list PolicyEvaluationResult) :=
  evaluate_loop context scope_filter (od_values policies) [].

(** ** The policy context of the processor *)

(** [policy_ctx] for a team, keys in the order of the dictionary. *)
Definition policy_ctx (policies : PolicyEngine) (team_id : string) : res (odict string pyval) :=
  if String.eqb team_id "" then Ok [] else
  (let? budget := get_budget_context policies team_id in
   let? allowlist := get_model_allowlist policies team_id in
   let? tokens := get_token_budgets policies team_id in
   let? cost_ceiling := get_cost_ceiling policies team_id in
   let of_int z := match z with Some z => VInt z | None => VNone end in
   Ok (match budget with
       | Some (limit, remaining) => [("budget_limit_usd", VFloat limit); ("budget_remaining_usd", VFloat remaining)]
       | None => []
       end ++ [("model_allowlist", VList (map VStr allowlist))] ++
       match tokens with
       | Some (output, input) => [("token_budget_output", of_int output); ("token_budget_input", of_int input)]
       | None => []
       end ++
       match cost_ceiling with Some c => [("cost_ceiling_per_request_usd", VFloat c)] | None => [] end))%py.

(** ** Specification of the resolution *)

Section resolution.
  Context {A : Type} (sel : PolicyDefinition → bool) (conv : PolicyDefinition → res A) (team_id : string).

Abbreviation selected := (filter (λ p, sel p = true)).
Abbreviation global_scope := (λ p, pd_scope p = "global").

  (** The policies that are read: those selected, up to the first that targets the team. *)
Fixpoint up_to_match (ps : list PolicyDefinition) : list PolicyDefinition :=
    match ps with
    | [] => []
    | p :: ps => if _policy_matches_team p team_id then [p] else p :: up_to_match ps
    end.

  (** The policy in force: the first that targets the team, or else the last global one. *)
Definition in_force (ps : list PolicyDefinition) : option PolicyDefinition :=
    match List.find (λ p, _policy_matches_team p team_id) (selected ps) with
    | Some p => Some p
    | None => last (filter global_scope (selected ps))
    end.

Fixpoint first_error (ps : list PolicyDefinition) : option exn :=
    match ps with
    | [] => None
    | p :: ps => match conv p with Raise e => Some e | Ok _ => first_error ps end
    end.

  (** Every policy read is converted, in order, and the first failure is the result. *)
Definition resolution (ps : list PolicyDefinition) (otherwise : option A) : res (option A) :=
    match first_error (up_to_match (selected ps)) with
    | Some e => Raise e
    | None => match in_force ps with
              | Some p => (let? a := conv p in Ok (Some a))%py
              | None => Ok otherwise
              end
    end.

  (** The common shape of the loops. *)
Fixpoint eager_loop (ps : list PolicyDefinition) (acc : option A) : res (option A) :=
    match ps with
    | [] => Ok acc
    | p :: ps =>
        if negb (sel p) then eager_loop ps acc
        else
          (let? a := conv p in
           if _policy_matches_team p team_id then Ok (Some a)
           else eager_loop ps (if String.eqb (pd_scope p) "global" then Some a else acc))%py
    end.

Lemma eager_resolution ps acc : eager_loop ps acc = resolution ps acc.
  Proof.
    revert acc. induction ps as [|p ps IH]; intros acc; [done|].
    cbn [eager_loop]. unfold resolution, in_force in *. rewrite filter_cons.
    destruct (sel p) eqn:Es; cbn [negb]; [rewrite decide_True by done|rewrite decide_False by done; apply IH].
    cbn [up_to_match List.find]. destruct (_policy_matches_team p team_id) eqn:Em; cbn [first_error].
    - destruct (conv p) as [a|e] eqn:Ec; by cbn [rbind].
    - destruct (conv p) as [a|e] eqn:Ec; cbn [rbind]; [|done]. rewrite IH.
      destruct (first_error _); [done|]. destruct (List.find _ _); [done|].
      rewrite filter_cons. destruct (String.eqb_spec (pd_scope p) "global") as [Hg|Hg].
      + rewrite decide_True by done. rewrite last_cons.
        destruct (last _); [done|]. by rewrite Ec.
      + by rewrite decide_False by done.
  Qed.
End resolution.

Lemma budget_eager team_id ps acc :
  budget_loop team_id ps acc = eager_loop (is_type BUDGET_CEILING) budget_of team_id ps acc.
Proof.
  revert acc. induction ps as [|p ps IH]; intros acc; simpl; [done|].
  case_match; [apply IH|]. by destruct (budget_of p); simpl; rewrite ?IH.
Qed.

Lemma tokens_eager team_id ps acc :
  tokens_loop team_id ps acc = eager_loop (is_type TOKEN_BUDGET) tokens_of team_id ps acc.
Proof.
  revert acc. induction ps as [|p ps IH]; intros acc; simpl; [done|].
  case_match; [apply IH|]. by destruct (tokens_of p); simpl; rewrite ?IH.
Qed.

(** A cost ceiling is only a policy that sets one. *)
Definition sets_ceiling (p : PolicyDefinition) : bool :=
  is_type COST_CEILING p &&
  match dget (pd_parameters p) "max_request_cost_usd" VNone with VNone => false | _ => true end.

Definition ceiling_of (p : PolicyDefinition) : res pyfloat :=
  py_float (dget (pd_parameters p) "max_request_cost_usd" VNone).

Lemma ceiling_eager team_id ps acc :
  ceiling_loop team_id ps acc = eager_loop sets_ceiling ceiling_of team_id ps acc.
Proof.
  revert acc. induction ps as [|p ps IH]; intros acc; [done|]. cbn [ceiling_loop eager_loop].
  assert (ceiling_of p = py_float (dget (pd_parameters p) "max_request_cost_usd" VNone)) as Hc by done.
  unfold sets_ceiling at 1. destruct (is_type COST_CEILING p); cbn [negb andb]; [|apply IH].
  destruct (dget _ _ _) eqn:E; cbn [negb]; try apply IH; rewrite Hc;
    (destruct (py_float _); cbn [rbind]; [destruct (_policy_matches_team p team_id); [done|apply IH]|done]).
Qed.

(** An allowlist is read only when it targets the team or is global. *)
Definition reads_allowlist (team_id : string) (p : PolicyDefinition) : bool :=
  is_type MODEL_ALLOWLIST p && (_policy_matches_team p team_id || String.eqb (pd_scope p) "global").

Lemma allowlist_eager team_id ps acc :
  allowlist_loop team_id ps (default [] acc)
  = (let? l := eager_loop (reads_allowlist team_id) allowed_models team_id ps acc in Ok (default [] l))%py.
Proof.
  revert acc. induction ps as [|p ps IH]; intros acc; [done|]. cbn [allowlist_loop eager_loop].
  unfold reads_allowlist at 1. destruct (is_type MODEL_ALLOWLIST p); cbn [negb andb]; [|apply IH].
  destruct (_policy_matches_team p team_id) eqn:Em; cbn [orb negb].
  - by destruct (allowed_models p).
  - destruct (String.eqb (pd_scope p) "global") eqn:Eg; cbn [negb]; [|apply IH].
    destruct (allowed_models p) as [a|e]; cbn [rbind]; [|done]. by rewrite <- (IH (Some a)).
Qed.

(** Results of a list of checks, stopping at the first exception. *)
Fixpoint collect {A} (l : list (res A)) : res (list A) :=
  match l with
  | [] => Ok []
  | Raise e :: _ => Raise e
  | Ok a :: l => (let? r := collect l in Ok (a :: r))%py
  end.

Lemma evaluate_collect context scope ps results :
  evaluate_loop context scope ps results
  = (let? r := collect (map (λ p, _evaluate_single p context) (filter (λ p, in_scope scope p = true) ps)) in
     Ok (results ++ r))%py.
Proof.
  revert results. induction ps as [|p ps IH]; intros results; cbn [evaluate_loop].
  { simpl. by rewrite app_nil_r. }
  rewrite filter_cons. destruct (in_scope scope p) eqn:E;
    [rewrite decide_True by done|rewrite decide_False by done; apply IH].
  cbn [map]. destruct (_evaluate_single p context) as [r|e]; cbn [rbind collect]; [|done].
  rewrite IH. destruct (collect _); cbn [rbind]; [|done]. by rewrite <- app_assoc.
Qed.

(** ** Properties *)

(** C35. The policy in force for a team is the first enabled one of its kind, in registration
    order, that targets the team, and otherwise the last global one; the four getters return
    its limits, and nothing (no list) when there is none. They convert every policy of the
    kind that they pass on the way, so a malformed one raises, whichever team it targets;
    only the allowlist ignores policies of other teams, and a cost-ceiling policy counts
    only when it sets a ceiling. *)
Theorem policy_resolution (policies : PolicyEngine) (team_id : string) :
  let ps := od_values policies in
  get_budget_context policies team_id = resolution (is_type BUDGET_CEILING) budget_of team_id ps None ∧
  get_token_budgets policies team_id = resolution (is_type TOKEN_BUDGET) tokens_of team_id ps None ∧
  get_cost_ceiling policies team_id = resolution sets_ceiling ceiling_of team_id ps None ∧
  get_model_allowlist policies team_id
  = (let? l := resolution (reads_allowlist team_id) allowed_models team_id ps None in Ok (default [] l))%py.
Proof.
  split_and!; rewrite <- eager_resolution.
  - apply budget_eager.
  - apply tokens_eager.
  - apply ceiling_eager.
  - apply (allowlist_eager team_id (od_values policies) None).
Qed.

(** Evaluation reports exactly the enabled policies in scope, in registration order, or
    the first exception of their checks; each result carries the policy's enforcement when
    and only when its check finds a violation, and otherwise allows without details. *)
Theorem policy_evaluation (policies : PolicyEngine) (context : odict string pyval) (scope : string) :
  let ps := filter (λ p, in_scope scope p = true) (od_values policies) in
  evaluate_all policies context scope = collect (map (λ p, _evaluate_single p context) ps) ∧
  ∀ p r, _evaluate_single p context = Ok r →
    pr_policy_id r = pd_policy_id p ∧ pr_policy_name r = pd_name p ∧
    (pr_violated r = true ∧ pr_action r = pd_enforcement p ∧ violation p context = Ok (Some (pr_details r)) ∨
     pr_violated r = false ∧ pr_action r = ALLOW ∧ pr_details r = "" ∧ violation p context = Ok None).
Proof.
  split.
  - unfold evaluate_all. rewrite evaluate_collect. by destruct (collect _).
  - intros p r. unfold _evaluate_single. destruct (violation p context) as [[d|]|e]; cbn [rbind]; [..|done];
      intros [= <-]; naive_solver.
Qed.

(** One malformed budget policy disables the governance context of every other team: if
    the first budget policy registered cannot be converted, the budget of every team, its
    own or not, raises, and with it the whole policy context that the processor embeds in
    the index entry. *)
Theorem policy_malformed_blocks_all (policies : PolicyEngine) (bad : PolicyDefinition) (e : exn)
    (team_id : string)
    (Hfirst : head (filter (λ p, is_type BUDGET_CEILING p = true) (od_values policies)) = Some bad)
    (Hbad : budget_of bad = Raise e) (Hteam : team_id ≠ "") :
  get_budget_context policies team_id = Raise e ∧ policy_ctx policies team_id = Raise e.
Proof.
  assert (get_budget_context policies team_id = Raise e) as Hb.
  { unfold get_budget_context. rewrite budget_eager, eager_resolution. unfold resolution.
    destruct (filter _ (od_values policies)) as [|p l]; [done|]. injection Hfirst as ->.
    cbn [up_to_match]. by destruct (_policy_matches_team bad team_id); cbn [first_error]; rewrite Hbad. }
  split; [done|]. unfold policy_ctx. rewrite (proj2 (String.eqb_neq _ _)) by done. by rewrite Hb.
Qed.

Lemma policy_malformed_blocks_all_witness :
  let bad := mkPolicy "b" BUDGET_CEILING "B" "team-b" SOFT_STOP [("limit_usd", VStr "n/a")] true false in
  let good := mkPolicy "a" BUDGET_CEILING "A" "team-a" SOFT_STOP [("limit_usd", VInt 100)] true false in
  is_ok (policy_ctx (register_policy good (register_policy bad PolicyEngine_init)) "team-a") = false.
Proof.
  intros bad good.
  destruct (policy_malformed_blocks_all (register_policy good (register_policy bad PolicyEngine_init)) bad
              (ValueError "could not convert string to float") "team-a") as [_ ->];
    [vm_compute; reflexivity..|discriminate|reflexivity].
Defined.

Example conversions :
  map float_of_str [" 1_000.5 "; "-2e-1"; ".5"; "Infinity"]
  = [Ok (of_Q (2001 # 2)); Ok (of_Q (-1 # 5)); Ok (of_Q (1 # 2)); Ok PInf] ∧
  is_ok (float_of_str "1__0") = false ∧ is_ok (float_of_str "") = false ∧
  is_ok (float_of_str "1e") = false ∧ py_int (VStr "+0_7") = Ok 7 ∧ is_ok (py_int (VStr "7.0")) = false.
Proof. vm_compute. auto 10. Qed.

Example details_samples :
  let p t ps := mkPolicy "p" t "n" "global" HARD_STOP ps true false in
  violation (p BUDGET_CEILING [("limit_usd", VInt 1000)]) [("current_spend_usd", VFloat (of_Q (2469135 # 2)))]
    = Ok (Some "Spend $1,234,568 exceeds limit $1,000") ∧
  violation (p CONFIDENCE_FLOOR []) [("confidence", VFloat (lit 5 10))]
    = Ok (Some "Confidence 0.50 below floor 0.80") ∧
  violation (p MODEL_ALLOWLIST [("allowed_models", VList [VStr "a"])]) [("model", VStr "b")]
    = Ok (Some "Model b not in allowlist") ∧
  violation (p BUDGET_CEILING [("limit_usd", VStr "5")]) [] = Raise TypeError.
Proof. vm_compute. auto 10. Qed.
