(* ===== verification/Neo4jStore.v ===== *)
(** * Durable attribution graph (src/aci/graph/store.py, [Neo4jGraphStore])

    The backend that keeps the graph in a Neo4j server. Its Cypher statements are part of the
    source and are translated clause by clause; the server that runs them, each as one atomic
    step, is a parameter. Clock readings are arguments ([now], [created]). Against the
    in-memory store: as-of reads agree after any history of operations. *)

From S2P Require Import Prelude PyFloat PyData PyTime PyValue PyIso PyText PyIsoText PyJson Models GraphStore Policy.
From Stdlib Require Import ZArith Ascii Lia.
From stdpp Require Import base list gmap sets strings sorting.

Open Scope string_scope.
Open Scope list_scope.
Open Scope Z_scope.
Open Scope py_scope.

(** ** Stored data *)

(** The properties of an [ACIEntity] node, by its [node_id]. *)
Record EntityRow := mkEntity {
  row_node_type : string;
  row_label : string;
  row_properties_json : string;
  row_tenant_id : string;
  row_created_at_iso : string;
  row_updated_at_iso : string;
}.

(** An [ACI_EDGE] relation with the ids of its ends. *)
Record RelRow := mkRel {
  rel_from : string;
  rel_to : string;
  rel_edge_type : string;
  rel_confidence : pyfloat;
  rel_weight : pyfloat;
  rel_valid_from_iso : string;
  rel_valid_to_iso : string;
  rel_provenance_json : string;
  rel_explanation_ref : string;
}.

(** Nodes and relations in the order of their creation; whether the ids are constrained to be
    unique, and the types indexed. *)
Record neo_graph := mkNeo {
  entities : odict string EntityRow;
  rels : list RelRow;
  unique_ids : bool;
  type_indexed : bool;
}.

Definition empty_neo : neo_graph := mkNeo [] [] false false.

(** A result row: a dict from column names. *)
Abbreviation record := (odict string pyval).

(** What the server decides: whether a statement runs, whether the driver connects, and the
    order of rows with equal keys under [ORDER BY]. *)
Class Neo4jServer (D : Type) := {
  contents : D → neo_graph;
  run_statement : ∀ {A : Type}, (neo_graph → A * neo_graph) → D → res A * D;
  open_driver : D → res unit * D;
  verify_connectivity : D → res unit * D;
  order_by : ∀ {A : Type}, (A → string) → list A → list A;
}.

(** A statement runs as one step or raises, having run or not; rows are ordered. *)
Class Neo4jServerLaws (D : Type) `{Neo4jServer D} := {
  statement_ok A (f : neo_graph → A * neo_graph) d a d' :
    run_statement f d = (Ok a, d') → f (contents d) = (a, contents d');
  statement_raises A (f : neo_graph → A * neo_graph) d e d' :
    run_statement f d = (Raise e, d') → contents d' = contents d ∨ contents d' = (f (contents d)).2;
  open_contents d : contents (open_driver d).2 = contents d;
  verify_contents d : contents (verify_connectivity d).2 = contents d;
  order_by_perm A (key : A → string) l : order_by key l ≡ₚ l;
  order_by_sorted A (key : A → string) l :
    StronglySorted (λ a b, String.compare (key a) (key b) ≠ Gt) (order_by key l);
}.

(** A server that accepts connections and answers every statement. *)
Class Neo4jUp (D : Type) `{Neo4jServer D} := {
  answers A (f : neo_graph → A * neo_graph) d : ∃ a d', run_statement f d = (Ok a, d');
  opens d : ∃ d', open_driver d = (Ok tt, d');
  verifies d : ∃ d', verify_connectivity d = (Ok tt, d');
}.

(** pydantic's JSON form of a datetime, and its reading of one. *)
Class DateJson := {
  date_json : instant → string;
  json_date : pyval → option instant;
}.

Class DateJsonLaws `{DateJson} := {
  json_date_json t : in_calendar t = true → json_date (VStr (date_json t)) = Some t;
}.

(** ** Conversions *)

Definition _json_dump (value : odict string pyval) : string := json_dumps (VDict value).

(** [_json_load]: testing a dict or a list for membership in a set raises, so the branch that
    would return a dict as it is is never reached. *)
Definition _json_load (raw : pyval) : res (odict string pyval) :=
  match raw with
  | VNone | VStr "" => Ok []
  | VDict _ | VList _ => Raise TypeError
  | VStr s => match json_loads s with Some (VDict d) => Ok d | _ => Ok [] end
  | _ => Ok []
  end.

(** [_from_iso] of a text: nothing for an empty one. *)
Definition _from_iso (value : string) : res (option instant) :=
  if String.eqb value "" then Ok None else
  match fromisoformat value with
  | None => Raise (ValueError "Invalid isoformat string")
  | Some (Naive us) => Ok (Some us)
  | Some (Aware us _) => if in_calendar us then Ok (Some us) else Raise OverflowError
  end.

Definition _as_float (value : pyval) (default : pyfloat) : res pyfloat :=
  match value with
  | VNone | VStr "" => Ok default
  | VBool _ | VInt _ | VFloat _ | VStr _ => py_float value
  | _ => py_float (VStr (py_str value))
  end.

Definition _as_int (value : pyval) (default : Z) : res Z :=
  match value with
  | VNone | VStr "" => Ok default
  | VBool _ | VInt _ | VFloat _ | VStr _ => py_int value
  | _ => py_int (VStr (py_str value))
  end.

(** [a or b] on values. *)
Definition py_or (a b : pyval) : pyval := if truthy a then a else b.

(** [record["k"]] *)
Definition column (r : record) (k : string) : res pyval :=
  match od_get k r with Some v => Ok v | None => Raise (KeyError k) end.

(** [_from_iso(str(record.get(k) or "")) or datetime.now(UTC)] *)
Definition time_column (r : record) (k : string) (now : instant) : res instant :=
  let? t := _from_iso (py_str (py_or (dget r k VNone) (VStr ""))) in Ok (default now t).

Definition _deserialize_node (r : record) (now : instant) : res GraphNode :=
  let? id := column r "node_id" in
  let? type_text := column r "node_type" in
  let? node_type := node_type_of_value (py_str type_text) in
  let? properties := _json_load (dget r "properties_json" VNone) in
  let? created_at := time_column r "created_at_iso" now in
  let? updated_at := time_column r "updated_at_iso" now in
  Ok (mkNode (py_str id) node_type (py_str (py_or (dget r "label" VNone) id)) properties
             (py_str (py_or (dget r "tenant_id" VNone) (VStr ""))) created_at updated_at).

Fixpoint texts_of (l : list pyval) : option (list string) :=
  match l with
  | [] => Some []
  | VStr s :: l => r ← texts_of l; Some (s :: r)
  | _ => None
  end.

Section provenance.
  Context `{DateJson}.

  (** [edge.provenance.model_dump(mode="json")] *)
Definition provenance_dump (p : EdgeProvenance) : odict string pyval :=
    [("source", VStr (ep_source p)); ("method", VStr (ep_method p)); ("signals", VList (map VStr (ep_signals p)));
     ("created_at", VStr (date_json (ep_created_at p)))].

  (** [EdgeProvenance.model_validate] on a JSON object. *)
Definition provenance_validate (d : odict string pyval) (now : instant) : res EdgeProvenance :=
    match od_get "source" d, od_get "method" d, dget d "signals" (VList []) with
    | Some (VStr source), Some (VStr method), VList l =>
        match texts_of l, match od_get "created_at" d with None => Some now | Some v => json_date v end with
        | Some signals, Some created => Ok (mkProvenance source method signals created)
        | _, _ => Raise (ValueError "EdgeProvenance")
        end
    | _, _, _ => Raise (ValueError "EdgeProvenance")
    end.

Definition _deserialize_edge (r : record) (now : instant) : res GraphEdge :=
    let? provenance := _json_load (dget r "provenance_json" VNone) in
    let? type_text := column r "edge_type" in
    let? edge_type := edge_type_of_value (_as_str type_text "") in
    let? from_id := column r "from_id" in
    let? to_id := column r "to_id" in
    let? confidence := _as_float (dget r "confidence" VNone) f0 in
    let? weight := _as_float (dget r "weight" VNone) f1 in
    let? valid_from := _from_iso (_as_str (dget r "valid_from_iso" VNone) "") in
    let? valid_to := _from_iso (_as_str (dget r "valid_to_iso" VNone) "") in
    let? provenance := provenance_validate provenance now in
    let explanation := dget r "explanation_ref" VNone in
    if unit_itv confidence && unit_itv weight then
      Ok (mkEdge edge_type (_as_str from_id "") (_as_str to_id "") confidence weight (default now valid_from) valid_to
                 provenance (if truthy explanation then Some (_as_str explanation "") else None))
    else Raise (ValueError "GraphEdge").

  (** ** Statements *)

Definition cy_clear (g : neo_graph) : unit * neo_graph := (tt, mkNeo [] [] (unique_ids g) (type_indexed g)).

  (** MERGE the node, ON CREATE SET its creation time, SET the rest. *)
Definition cy_upsert_node (node_id node_type label properties_json tenant_id created_at_iso updated_at_iso : string)
      (g : neo_graph) : unit * neo_graph :=
    let created := match od_get node_id (entities g) with Some r => row_created_at_iso r | None => created_at_iso end in
    (tt, mkNeo (od_set node_id (mkEntity node_type label properties_json tenant_id created updated_at_iso) (entities g))
               (rels g) (unique_ids g) (type_indexed g)).

  (** MERGE an end of an edge: an unknown node is created with the inferred type and label. *)
Definition cy_merge_end (node_id node_type label created_at_iso : string) (es : odict string EntityRow) : odict string EntityRow :=
    match od_get node_id es with
    | Some _ => es
    | None => od_set node_id (mkEntity node_type label "{}" "" created_at_iso created_at_iso) es
    end.

  (** The relations of a type between two nodes, and those of them without an end. *)
Definition rel_matches (from_id to_id edge_type : string) (r : RelRow) : bool :=
    String.eqb (rel_from r) from_id && String.eqb (rel_to r) to_id && String.eqb (rel_edge_type r) edge_type.

Definition rel_open (r : RelRow) : bool := String.eqb (rel_valid_to_iso r) "".

Definition set_valid_to (t : string) (r : RelRow) : RelRow :=
    mkRel (rel_from r) (rel_to r) (rel_edge_type r) (rel_confidence r) (rel_weight r) (rel_valid_from_iso r) t
          (rel_provenance_json r) (rel_explanation_ref r).

  (** SET the end of the open relations between two nodes. *)
Definition close_matching (from_id to_id edge_type t : string) (l : list RelRow) : list RelRow :=
    map (λ r, if rel_matches from_id to_id edge_type r && rel_open r then set_valid_to t r else r) l.

Definition open_count (from_id to_id edge_type : string) (l : list RelRow) : nat :=
    length (filter (λ r, rel_matches from_id to_id edge_type r && rel_open r = true) l).

  (** Both ends merged; OPTIONAL MATCH gives a row for each open relation, or one row without
      any; each row's relation is closed, and each row creates the new relation. *)
Definition cy_add_edge (new : RelRow) (closed_at_iso created_at_iso from_type from_label to_type to_label : string)
      (g : neo_graph) : unit * neo_graph :=
    let es := cy_merge_end (rel_to new) to_type to_label created_at_iso
                (cy_merge_end (rel_from new) from_type from_label created_at_iso (entities g)) in
    let rows := Nat.max 1 (open_count (rel_from new) (rel_to new) (rel_edge_type new) (rels g)) in
    (tt, mkNeo es (close_matching (rel_from new) (rel_to new) (rel_edge_type new) closed_at_iso (rels g) ++ repeat new rows)
               (unique_ids g) (type_indexed g)).

Definition cy_close_edge (from_id to_id edge_type valid_to_iso : string) (g : neo_graph) : record * neo_graph :=
    ([("updated", VInt (Z.of_nat (open_count from_id to_id edge_type (rels g))))],
     mkNeo (entities g) (close_matching from_id to_id edge_type valid_to_iso (rels g)) (unique_ids g) (type_indexed g)).

Definition entity_record (id : string) (r : EntityRow) : record :=
    [("node_id", VStr id); ("node_type", VStr (row_node_type r)); ("label", VStr (row_label r));
     ("properties_json", VStr (row_properties_json r)); ("tenant_id", VStr (row_tenant_id r));
     ("created_at_iso", VStr (row_created_at_iso r)); ("updated_at_iso", VStr (row_updated_at_iso r))].

Definition rel_record (r : RelRow) : record :=
    [("edge_type", VStr (rel_edge_type r)); ("from_id", VStr (rel_from r)); ("to_id", VStr (rel_to r));
     ("confidence", VFloat (rel_confidence r)); ("weight", VFloat (rel_weight r));
     ("valid_from_iso", VStr (rel_valid_from_iso r)); ("valid_to_iso", VStr (rel_valid_to_iso r));
     ("provenance_json", VStr (rel_provenance_json r)); ("explanation_ref", VStr (rel_explanation_ref r))].

Definition cy_get_node (node_id : string) (g : neo_graph) : option record * neo_graph :=
    (entity_record node_id <$> od_get node_id (entities g), g).

  (** [<=] and [>] on texts. *)
Definition text_le (a b : string) : bool := match String.compare a b with Gt => false | _ => true end.
Definition text_gt (a b : string) : bool := match String.compare a b with Gt => true | _ => false end.

  (** The condition of the as-of reads. *)
Definition rel_valid_at (at_iso : string) (r : RelRow) : bool :=
    text_le (rel_valid_from_iso r) at_iso && (rel_open r || text_gt (rel_valid_to_iso r) at_iso).

  (** Rows of the relations at one end that hold at an instant, by their start. *)
Definition cy_get_edges (order : ∀ A, (A → string) → list A → list A) (of_end : RelRow → string) (node_id at_iso : string)
      (g : neo_graph) : list record * neo_graph :=
    (map rel_record (order _ rel_valid_from_iso
       (filter (λ r, String.eqb (of_end r) node_id && rel_valid_at at_iso r = true) (rels g))), g).

Definition cy_nodes_by_type (order : ∀ A, (A → string) → list A → list A) (node_type : string) (g : neo_graph)
      : list record * neo_graph :=
    (map (λ kv, entity_record kv.1 kv.2)
         (order _ fst (filter (λ kv : string * EntityRow, String.eqb (row_node_type kv.2) node_type = true) (entities g))), g).

Definition cy_count_nodes (g : neo_graph) : record * neo_graph :=
    ([("total_nodes", VInt (Z.of_nat (length (entities g))))], g).

Definition cy_count_edges (g : neo_graph) : record * neo_graph :=
    ([("total_edges", VInt (Z.of_nat (length (rels g))));
      ("active_edges", VInt (Z.of_nat (length (filter (λ r, rel_open r = true) (rels g)))))], g).
End provenance.

(** ** The store *)

(** [driver] is whether [_driver] is set; [server] stands for the database. *)
Record Neo4jGraphStore (D : Type) := mkStore { driver : bool; server : D }.
Arguments mkStore {D} _ _.
Arguments driver {D} _.
Arguments server {D} _.

Definition Neo4jGraphStore_init {D} (d : D) : Neo4jGraphStore D := mkStore false d.

Section store.
  Context {D : Type} `{Neo4jServer D} `{DateJson}.

Abbreviation St := (Neo4jGraphStore D).
Abbreviation order := (λ A, @order_by D _ A).

  (** One statement in a session of the driver. *)
Definition session_run {A} (f : neo_graph → A * neo_graph) : SE St A := λ s,
    let '(r, d) := run_statement f (server s) in (r, mkStore (driver s) d).

Definition on_driver (f : D → res unit * D) (set : bool) : SE St unit := λ s,
    match f (server s) with
    | (Ok _, d) => (Ok tt, mkStore (driver s || set) d)
    | (Raise e, d) => (Raise e, mkStore (driver s) d)
    end.

Definition _ensure_schema : SE St unit :=
    session_run (λ g, (tt, mkNeo (entities g) (rels g) true (type_indexed g)));;;
    session_run (λ g, (tt, mkNeo (entities g) (rels g) (unique_ids g) true)).

  (** [start]: the driver is kept before its connection is checked. *)
Definition start : SE St unit :=
    let! started := se_get driver in
    if started then se_ret tt else
    on_driver open_driver true;;;
    on_driver verify_connectivity false;;;
    _ensure_schema.

Definition close : SE St unit := se_modify (λ s, mkStore false (server s)).

Definition _require_driver : SE St unit :=
    let! started := se_get driver in
    (if started then se_ret tt else start);;;
    let! started := se_get driver in
    if started then se_ret tt else se_raise RuntimeError.

  (** [_run_read] and [_run_write] *)
Definition _run {A} (f : neo_graph → A * neo_graph) : SE St A := _require_driver;;; session_run f.

Definition unavailable (e : exn) : bool :=
    match e with Neo4jError | ServiceUnavailable | RuntimeError => true | _ => false end.

Definition ready : SE St bool :=
    se_catch (_run (λ g, (tt, g));;; se_ret true) (λ e, if unavailable e then se_ret false else se_raise e).

Definition clear : SE St unit := _run cy_clear.

Definition upsert_node (now : instant) (node : GraphNode) : SE St unit :=
    _run (cy_upsert_node (gn_node_id node) (node_type_value (gn_node_type node)) (gn_label node)
            (_json_dump (gn_properties node)) (gn_tenant_id node)
            (isoformat (gn_created_at node)) (isoformat now)).

  (** The relation of an edge. *)
Definition rel_of (e : GraphEdge) : RelRow :=
    mkRel (ge_from_id e) (ge_to_id e) (edge_type_value (ge_edge_type e)) (ge_confidence e) (ge_weight e)
          (isoformat (ge_valid_from e)) (match ge_valid_to e with Some t => isoformat t | None => "" end)
          (_json_dump (provenance_dump (ge_provenance e))) (default "" (ge_explanation_ref e)).

Definition add_edge (now created : instant) (edge : GraphEdge) : SE St unit :=
    _run (cy_add_edge (rel_of edge) (isoformat now) (isoformat created)
            (node_type_value (_infer_node_type (ge_from_id edge))) (_default_label (ge_from_id edge))
            (node_type_value (_infer_node_type (ge_to_id edge))) (_default_label (ge_to_id edge))).

Definition close_edge (edge_type : EdgeType) (from_id to_id : string) (valid_to : option instant) (now : instant)
      : SE St bool :=
    let! r := _run (cy_close_edge from_id to_id (edge_type_value edge_type) (isoformat (default now valid_to))) in
    let! updated := se_lift (_as_int (dget r "updated" VNone) 0) in
    se_ret (0 <? updated).

Definition get_node (node_id : string) (now : instant) : SE St (option GraphNode) :=
    let! r := _run (cy_get_node node_id) in
    match r with
    | None => se_ret None
    | Some r => let! n := se_lift (_deserialize_node r now) in se_ret (Some n)
    end.

Fixpoint each {A B} (f : A → res B) (l : list A) : res (list B) :=
    match l with
    | [] => Ok []
    | x :: l => let? y := f x in let? r := each f l in Ok (y :: r)
    end.

Definition get_nodes_by_type (t : NodeType) (now : instant) : SE St (list GraphNode) :=
    let! rows := _run (cy_nodes_by_type order (node_type_value t)) in
    se_lift (each (λ r, _deserialize_node r now) rows).

Definition get_edges (of_end : RelRow → string) (node_id : string) (at_time : option instant) (now : instant)
      : SE St (list GraphEdge) :=
    let! rows := _run (cy_get_edges order of_end node_id (isoformat (default now at_time))) in
    se_lift (each (λ r, _deserialize_edge r now) rows).

Definition get_edges_from : string → option instant → instant → SE St (list GraphEdge) := get_edges rel_from.
Definition get_edges_to : string → option instant → instant → SE St (list GraphEdge) := get_edges rel_to.

  (** total nodes, total edges, active edges, historical edges *)
Definition get_stats : SE St (Z * Z * Z * Z) :=
    let! nodes := _run cy_count_nodes in
    let! edges := _run cy_count_edges in
    let! total_nodes := se_lift (_as_int (dget nodes "total_nodes" VNone) 0) in
    let! total_edges := se_lift (_as_int (dget edges "total_edges" VNone) 0) in
    let! active_edges := se_lift (_as_int (dget edges "active_edges" VNone) 0) in
    se_ret (total_nodes, total_edges, active_edges, total_edges - active_edges).
End store.

(** ** Lemmas: what is stored is read back *)

Lemma time_column_text r k t now :
  od_get k r = Some (VStr (isoformat t)) → in_calendar t = true → time_column r k now = Ok t.
Proof.
  intros Hk Ht. unfold time_column, dget. rewrite Hk. unfold py_or. cbn [truthy].
  pose proof (fromisoformat_isoformat t Ht) as E. destruct (isoformat t) as [|c s] eqn:Es; [done|].
  cbn [py_str]. unfold _from_iso. rewrite E, Ht. done.
Qed.

Lemma isoformat_not_empty t : isoformat t ≠ "".
Proof.
  unfold isoformat, time_text. intros E. apply (f_equal String.length) in E.
  repeat (rewrite ?str_length_app in E; cbn [String.length] in E). lia.
Qed.

Lemma from_iso_text t : in_calendar t = true → _from_iso (_as_str (VStr (isoformat t)) "") = Ok (Some t).
Proof.
  intros Ht. pose proof (isoformat_not_empty t) as Hne. pose proof (fromisoformat_isoformat t Ht) as E.
  destruct (isoformat t) as [|c s]; [done|]. unfold _from_iso. cbn [_as_str py_str]. by rewrite E, Ht.
Qed.

Lemma as_str_text s : _as_str (VStr s) "" = s.
Proof. by destruct s. Qed.

(** What [_json_dump] wrote, [_json_load] gives back. *)
Lemma json_load_dump_ok d : json_ok (VDict d) = true → ∀ d', json_back (VDict d) = VDict d' →
  _json_load (VStr (_json_dump d)) = Ok d'.
Proof.
  intros Hok d' Hd. unfold _json_dump. pose proof (json_loads_dumps (VDict d) Hok) as E. rewrite Hd in E.
  pose proof (dumps_starts (VDict d) Hok) as (c & s & Es & _). rewrite Es in *. cbn [_json_load]. by rewrite E.
Qed.

Lemma texts_of_map l : texts_of (map VStr l) = Some l.
Proof. induction l as [|s l IH]; [done|]. cbn [map texts_of]. by rewrite IH. Qed.

(** Edges as the schema admits them, at instants of the calendar. *)
Definition edge_fits (e : GraphEdge) : bool :=
  in_calendar (ge_valid_from e) && match ge_valid_to e with Some t => in_calendar t | None => true end &&
  unit_itv (ge_confidence e) && unit_itv (ge_weight e) &&
  match ge_explanation_ref e with Some "" => false | _ => true end && in_calendar (ep_created_at (ge_provenance e)).

Section reading.
  Context {D : Type} `{Neo4jServer D} `{DateJsonLaws}.

Lemma json_texts_ok l : forallb json_ok (map VStr l) = true.
  Proof. by induction l. Qed.

Lemma json_back_texts l : map json_back (map VStr l) = map VStr l.
  Proof. induction l as [|s l IH]; [done|]. cbn. by rewrite IH. Qed.

Lemma provenance_back p now : in_calendar (ep_created_at p) = true →
    (let? d := _json_load (VStr (_json_dump (provenance_dump p))) in provenance_validate d now) = Ok p.
  Proof.
    intros Hc. rewrite (json_load_dump_ok (provenance_dump p)) with (d' := provenance_dump p).
    - cbn [rbind]. unfold provenance_validate.
      change (od_get "source" (provenance_dump p)) with (Some (VStr (ep_source p))). change (od_get "method" (provenance_dump p)) with (Some (VStr (ep_method p))).
      change (dget (provenance_dump p) "signals" (VList [])) with (VList (map VStr (ep_signals p))).
      change (od_get "created_at" (provenance_dump p)) with (Some (VStr (date_json (ep_created_at p)))). cbn iota.
      rewrite texts_of_map, json_date_json by done. by destruct p.
    - cbn. rewrite json_texts_ok. done.
    - cbn. rewrite json_back_texts. done.
  Qed.

Lemma edge_back e now : edge_fits e = true → _deserialize_edge (rel_record (rel_of e)) now = Ok e.
  Proof.
    unfold edge_fits. rewrite !andb_true_iff. intros (((((Hf & Ht) & Hc) & Hw) & Hx) & Hp).
    unfold _deserialize_edge.
    change (dget (rel_record (rel_of e)) "provenance_json" VNone) with (VStr (_json_dump (provenance_dump (ge_provenance e)))).
    pose proof (provenance_back (ge_provenance e) now Hp) as Hprov.
    destruct (_json_load _) as [d|] eqn:Ed; [|done]. cbn [rbind] in Hprov |- *.
    change (column (rel_record (rel_of e)) "edge_type") with (Ok (VStr (edge_type_value (ge_edge_type e)))).
    change (column (rel_record (rel_of e)) "from_id") with (Ok (VStr (ge_from_id e))).
    change (column (rel_record (rel_of e)) "to_id") with (Ok (VStr (ge_to_id e))).
    change (dget (rel_record (rel_of e)) "confidence" VNone) with (VFloat (ge_confidence e)).
    change (dget (rel_record (rel_of e)) "weight" VNone) with (VFloat (ge_weight e)).
    change (dget (rel_record (rel_of e)) "valid_from_iso" VNone) with (VStr (isoformat (ge_valid_from e))).
    change (dget (rel_record (rel_of e)) "valid_to_iso" VNone) with (VStr (rel_valid_to_iso (rel_of e))).
    change (dget (rel_record (rel_of e)) "explanation_ref" VNone) with (VStr (default "" (ge_explanation_ref e))).
    cbn [rbind]. rewrite !as_str_text, edge_type_roundtrip. cbn [rbind _as_float py_float float_of_num default id].
    rewrite <- (as_str_text (isoformat _)), from_iso_text by done. cbn [rbind].
    assert (_from_iso (rel_valid_to_iso (rel_of e)) = Ok (ge_valid_to e)) as ->.
    { cbn [rel_valid_to_iso rel_of]. destruct (ge_valid_to e) as [t|]; [|done].
      rewrite <- (as_str_text (isoformat t)). by apply from_iso_text. }
    cbn [rbind]. rewrite Hprov. cbn [rbind]. rewrite Hc, Hw. cbn [andb default id].
    f_equal. destruct e as [ty a b c w vf vt pr ex]. cbn in *. f_equal. destruct ex as [[|? ?]|]; done.
  Qed.

  (** The row of a node reads as a node; the clock is not read. *)
Lemma entity_read id r ty d c u now :
    _json_load (VStr (row_properties_json r)) = Ok d → row_node_type r = node_type_value ty →
    row_created_at_iso r = isoformat c → in_calendar c = true → row_updated_at_iso r = isoformat u → in_calendar u = true →
    _deserialize_node (entity_record id r) now
    = Ok (mkNode id ty (match row_label r with "" => id | l => l end) d (row_tenant_id r) c u).
  Proof.
    intros Hd Hty Hc Hcc Hu Huc. unfold _deserialize_node. set (rec := entity_record id r).
    change (column rec "node_id") with (Ok (VStr id)). change (column rec "node_type") with (Ok (VStr (row_node_type r))).
    change (dget rec "properties_json" VNone) with (VStr (row_properties_json r)).
    change (dget rec "label" VNone) with (VStr (row_label r)). change (dget rec "tenant_id" VNone) with (VStr (row_tenant_id r)).
    cbn [rbind py_str]. rewrite Hty, node_type_roundtrip. cbn [rbind]. rewrite Hd. cbn [rbind].
    rewrite (time_column_text rec "created_at_iso" c), (time_column_text rec "updated_at_iso" u)
      by (done || by rewrite <- Hc || by rewrite <- Hu). cbn [rbind].
    f_equal. unfold py_or. cbn [truthy]. by destruct (row_label r), (row_tenant_id r).
  Qed.

  (** The condition on texts is the condition on instants. *)
Lemma valid_texts t e : in_calendar t = true → edge_fits e = true → rel_valid_at (isoformat t) (rel_of e) = valid_at t e.
  Proof.
    unfold edge_fits. rewrite !andb_true_iff. intros Ht (((((Hf & Hv) & _) & _) & _) & _).
    unfold rel_valid_at, valid_at, text_le, text_gt, rel_open, rel_of. cbn [rel_valid_from_iso rel_valid_to_iso].
    rewrite isoformat_compare by done. f_equal.
    destruct (ge_valid_to e) as [v|]; [|done]. rewrite isoformat_compare by done.
    rewrite (proj2 (String.eqb_neq _ _) (isoformat_not_empty v)). cbn [orb]. unfold Z.ltb. rewrite (Z.compare_antisym t v).
    by destruct (Z.compare t v).
  Qed.
End reading.

(** ** Lemmas: relations and edges *)

(** Close the open edges of a key. *)
Definition close_key (k : edge_key) (t : instant) (es : list GraphEdge) : list GraphEdge :=
  map (λ e, if bool_decide (key_of e = k) && edge_open e then with_valid_to e t else e) es.

(** The in-memory store closes the active edge of a key; that closes them all. *)
Lemma close_key_active g k t : graph_wf g →
  close_key k t (edges g) = match od_get k (_active_edge_index g) with Some i => close_at i t (edges g) | None => edges g end.
Proof.
  intros (_ & _ & _ & Hak & Hao & _). apply list_eq. intros j. unfold close_key. rewrite list_lookup_fmap.
  assert (∀ e, edges g !! j = Some e → bool_decide (key_of e = k) && edge_open e = true → od_get k (_active_edge_index g) = Some j) as Hone.
  { intros e He [Hk%bool_decide_eq_true Ho]%andb_true_iff. subst k. by apply Hao. }
  destruct (od_get k _) as [i|] eqn:Ei.
  - rewrite close_at_lookup. destruct (edges g !! j) as [e|] eqn:Ee; [|done]. cbn. f_equal.
    destruct (bool_decide (key_of e = k) && edge_open e) eqn:Eb.
    + specialize (Hone e eq_refl Eb). injection Hone as ->. rewrite decide_True by done.
      apply andb_true_iff in Eb as [_ ->]. done.
    + destruct (decide (j = i)) as [Hj|Hj]; [|reflexivity]. subst j. destruct (Hak _ _ Ei) as (e' & He' & Hk). rewrite Ee in He'. injection He' as <-.
      rewrite bool_decide_eq_true_2 in Eb by done. cbn in Eb. by rewrite Eb.
  - destruct (edges g !! j) as [e|] eqn:Ee; [|done]. cbn. f_equal.
    destruct (bool_decide (key_of e = k) && edge_open e) eqn:Eb; [|done]. by specialize (Hone e eq_refl Eb).
Qed.

Lemma edge_type_value_inj a b : edge_type_value a = edge_type_value b → a = b.
Proof. intros E. pose proof (edge_type_roundtrip a) as Ha. rewrite E, edge_type_roundtrip in Ha. by injection Ha. Qed.

Lemma filter_none {A} (p : A → bool) (l : list A) : (∀ x, x ∈ l → p x = false) → filter (λ x, p x = true) l = [].
Proof.
  induction l as [|x l IH]; intros Hl; [done|]. rewrite filter_cons, decide_False by (rewrite (Hl x) by left; done).
  apply IH. intros y Hy. apply Hl. by right.
Qed.

(** At most one element of a list where a property holds once. *)
Lemma filter_at_most_one {A} (p : A → bool) (l : list A) :
  (∀ i j x y, l !! i = Some x → l !! j = Some y → p x = true → p y = true → i = j) →
  (length (filter (λ x, p x = true) l) <= 1)%nat.
Proof.
  induction l as [|x l IH]; intros Hu; [simpl; lia|]. rewrite filter_cons. case_decide as Hx.
  - assert (filter (λ x, p x = true) l = []) as ->; [|simpl; lia].
    apply filter_none. intros y [j Hj]%list_elem_of_lookup_1. apply not_true_iff_false. intros Hy.
    specialize (Hu 0%nat (S j) x y eq_refl Hj Hx Hy). done.
  - apply IH. intros i j a b Ha Hb Hpa Hpb. specialize (Hu (S i) (S j) a b Ha Hb Hpa Hpb). lia.
Qed.

Section relations.
  Context `{DateJson}.

Lemma matches_key from to ty e : rel_matches from to (edge_type_value ty) (rel_of e) = bool_decide (key_of e = (from, to, ty)).
  Proof.
    unfold rel_matches, rel_of, key_of. cbn [rel_from rel_to rel_edge_type]. apply eq_bool_prop_intro.
    rewrite Is_true_true, !andb_true_iff, !String.eqb_eq, bool_decide_spec.
    split; [intros [[-> ->] ->%edge_type_value_inj]|intros [= -> -> ->]]; done.
  Qed.

Lemma open_rel e : rel_open (rel_of e) = edge_open e.
  Proof.
    unfold rel_open, edge_open, rel_of. cbn [rel_valid_to_iso]. destruct (ge_valid_to e) as [t|]; [|done].
    apply String.eqb_neq, isoformat_not_empty.
  Qed.

Lemma close_rels from to ty t es :
    close_matching from to (edge_type_value ty) (isoformat t) (map rel_of es) = map rel_of (close_key (from, to, ty) t es).
  Proof.
    unfold close_matching, close_key. rewrite !map_map. apply map_ext. intros e. rewrite matches_key, open_rel. by destruct (_ && _).
  Qed.

Lemma open_count_active g from to ty : graph_wf g →
    open_count from to (edge_type_value ty) (map rel_of (edges g))
    = length (filter (λ e, bool_decide (key_of e = (from, to, ty)) && edge_open e = true) (edges g)).
  Proof.
    intros _. unfold open_count. generalize (edges g). intros l. induction l as [|e l IH]; [done|]. cbn [map].
    rewrite !filter_cons, matches_key, open_rel. case_decide; cbn [length]; by rewrite IH.
  Qed.

Lemma open_count_one g from to ty : graph_wf g → (open_count from to (edge_type_value ty) (map rel_of (edges g)) <= 1)%nat.
  Proof.
    intros Hg. rewrite open_count_active by done. apply filter_at_most_one. destruct Hg as (_ & _ & _ & _ & Hao & _).
    intros i j x y Hi Hj [Hx%bool_decide_eq_true Hox]%andb_true_iff [Hy%bool_decide_eq_true Hoy]%andb_true_iff.
    pose proof (Hao _ _ Hi Hox) as E1. pose proof (Hao _ _ Hj Hoy) as E2. rewrite Hx in E1. rewrite Hy in E2. congruence.
  Qed.

  (** ** Simulation of the in-memory store *)

  (** The relations are the edges, in the order of their creation. *)
Definition backs (g : InMemoryGraphStore) (n : neo_graph) : Prop :=
    graph_wf g ∧ rels n = map rel_of (edges g) ∧ Forall (λ e, edge_fits e = true) (edges g).

Lemma backs_init : backs InMemoryGraphStore_init empty_neo.
  Proof. split_and!; [apply init_wf|done|constructor]. Qed.

Lemma fits_close k t es : in_calendar t = true → Forall (λ e, edge_fits e = true) es →
    Forall (λ e, edge_fits e = true) (close_key k t es).
  Proof.
    intros Ht. rewrite !Forall_forall. unfold close_key. intros Hes e' (e & -> & He)%list_elem_of_fmap. specialize (Hes e He).
    destruct (_ && _); [|done]. revert Hes. unfold edge_fits. cbn. rewrite !andb_true_iff. tauto.
  Qed.

Lemma backs_clear g n : backs g n → backs (GraphStore.clear g) (cy_clear n).2.
  Proof. intros _. split_and!; [apply init_wf|done|constructor]. Qed.

Lemma backs_upsert g n now node a b c d e f x : backs g n →
    backs (GraphStore.upsert_node now node g) (cy_upsert_node a b c d e f x n).2.
  Proof.
    intros (Hg & Hr & Hf). assert (edges (GraphStore.upsert_node now node g) = edges g) as He
      by (unfold GraphStore.upsert_node; by destruct (od_get _ _)).
    split_and!; [by apply upsert_wf|by rewrite He|by rewrite He].
  Qed.

Lemma backs_add g n now c ft fl tt' tl e : backs g n → edge_fits e = true → in_calendar now = true →
    backs (GraphStore.add_edge now e g) (cy_add_edge (rel_of e) (isoformat now) c ft fl tt' tl n).2.
  Proof.
    intros (Hg & Hr & Hf) He Hn.
    assert (edges (GraphStore.add_edge now e g) = close_key (key_of e) now (edges g) ++ [e]) as Hed
      by (by rewrite close_key_active by done).
    split; [by apply add_edge_wf|]. rewrite Hed. split.
    - cbn [cy_add_edge snd rels]. rewrite Hr.
      change (rel_edge_type (rel_of e)) with (edge_type_value (ge_edge_type e)).
      pose proof (open_count_one g (rel_from (rel_of e)) (rel_to (rel_of e)) (ge_edge_type e) Hg) as Hc.
      rewrite Nat.max_l by done. rewrite close_rels, map_app. done.
    - apply Forall_app. split; [by apply fits_close|by constructor].
  Qed.

Lemma backs_close g n ty from to vt now : backs g n → in_calendar (default now vt) = true →
    let r := cy_close_edge from to (edge_type_value ty) (isoformat (default now vt)) n in
    let c := GraphStore.close_edge ty from to vt now g in
    backs c.2 r.2 ∧ ∃ k, _as_int (dget r.1 "updated" VNone) 0 = Ok k ∧ (0 <? k) = c.1.
  Proof.
    intros (Hg & Hr & Hf) Ht r c.
    pose proof (close_key_active g (from, to, ty) (default now vt) Hg) as Hck.
    assert (edges c.2 = close_key (from, to, ty) (default now vt) (edges g) ∧
            c.1 = bool_decide (filter (λ e, bool_decide (key_of e = (from, to, ty)) && edge_open e = true) (edges g) ≠ [])) as [Hed Hb].
    { rewrite Hck. subst c. unfold GraphStore.close_edge. pose proof Hg as (_ & _ & _ & Hak & Hao & _).
      destruct (od_get (from, to, ty) _) as [i|] eqn:Ei.
      - destruct (Hak _ _ Ei) as (e & He & Hk). rewrite He. destruct (edge_open e) eqn:Eo.
        + split; [done|]. symmetry. apply bool_decide_eq_true. intros Hnil.
          assert (e ∈ filter (λ e, bool_decide (key_of e = (from, to, ty)) && edge_open e = true) (edges g)) as Hin; [|by rewrite Hnil in Hin; apply elem_of_nil in Hin].
          apply list_elem_of_filter. split; [by rewrite bool_decide_eq_true_2|by eapply list_elem_of_lookup_2].
        + split; [cbn [snd edges]; unfold close_at; by rewrite He, Eo|]. symmetry. apply bool_decide_eq_false. intros Hne. apply Hne.
          apply filter_none. intros x [j Hj]%list_elem_of_lookup_1. apply not_true_iff_false.
          intros [Hx%bool_decide_eq_true Hox]%andb_true_iff.
          pose proof (Hao _ _ Hj Hox) as E. rewrite Hx, Ei in E. injection E as <-. congruence.
      - split; [done|]. symmetry. apply bool_decide_eq_false. intros Hne. apply Hne.
        apply filter_none. intros x [j Hj]%list_elem_of_lookup_1. apply not_true_iff_false.
        intros [Hx%bool_decide_eq_true Hox]%andb_true_iff.
        pose proof (Hao _ _ Hj Hox) as E. by rewrite Hx, Ei in E. }
    split; [split; [by apply close_edge_wf|split]|].
    - cbn [r cy_close_edge snd rels]. by rewrite Hed, Hr, close_rels.
    - rewrite Hed. by apply fits_close.
    - exists (Z.of_nat (open_count from to (edge_type_value ty) (rels n))). split; [done|].
      rewrite Hb, Hr, open_count_active by done. destruct (filter _ _) as [|x l].
      + rewrite bool_decide_eq_false_2 by naive_solver. done.
      + rewrite bool_decide_eq_true_2 by done. apply Z.ltb_lt. cbn [length]. lia.
  Qed.
End relations.

(** ** Lemmas: statements of the store *)

Section methods.
  Context {D : Type} `{Neo4jServer D, !Neo4jServerLaws D} `{DateJson, !DateJsonLaws}.

Abbreviation St := (Neo4jGraphStore D).
Abbreviation graph_of := (λ s : St, contents (server s)).

  (** Same nodes and relations; the schema may differ. *)
Definition same_graph (m n : neo_graph) : Prop := entities m = entities n ∧ rels m = rels n.

Lemma session_up `{!Neo4jUp D} {A} (f : neo_graph → A * neo_graph) (s : St) :
    ∃ s', session_run f s = (Ok (f (graph_of s)).1, s') ∧ graph_of s' = (f (graph_of s)).2 ∧ driver s' = driver s.
  Proof.
    unfold session_run. destruct (answers A f (server s)) as (a & d' & E). pose proof (statement_ok A f _ _ _ E) as Ef.
    rewrite E, Ef. by eexists.
  Qed.

Lemma start_up `{!Neo4jUp D} (s : St) :
    ∃ s', start s = (Ok tt, s') ∧ same_graph (graph_of s') (graph_of s) ∧ driver s' = true.
  Proof.
    unfold start. rewrite (se_bind_ok _ _ _ (driver s) s) by done. destruct (driver s) eqn:Ed; [by exists s|].
    destruct (opens (server s)) as (d1 & E1). rewrite (se_bind_ok _ _ _ tt (mkStore true d1)).
    2: { unfold on_driver. rewrite E1. by rewrite orb_true_r. }
    destruct (verifies d1) as (d2 & E2). rewrite (se_bind_ok _ _ _ tt (mkStore true d2)).
    2: { unfold on_driver. cbn [server driver]. by rewrite E2. }
    unfold _ensure_schema.
    destruct (session_up (λ g, (tt, mkNeo (entities g) (rels g) true (type_indexed g))) (mkStore true d2)) as (s3 & E3 & G3 & D3).
    rewrite (se_bind_ok _ _ _ _ _ E3).
    destruct (session_up (λ g, (tt, mkNeo (entities g) (rels g) (unique_ids g) true)) s3) as (s4 & E4 & G4 & D4).
    exists s4. split; [exact E4|]. split; [|by rewrite D4, D3].
    rewrite G4. cbn [snd]. rewrite G3. cbn [snd server]. split; cbn [entities rels].
    - pose proof (verify_contents d1) as V. pose proof (open_contents (server s)) as O. rewrite E2 in V. rewrite E1 in O.
      cbn [snd] in V, O. by rewrite V, O.
    - pose proof (verify_contents d1) as V. pose proof (open_contents (server s)) as O. rewrite E2 in V. rewrite E1 in O.
      cbn [snd] in V, O. by rewrite V, O.
  Qed.

Lemma run_up `{!Neo4jUp D} {A} (f : neo_graph → A * neo_graph) (s : St) :
    ∃ n s', _run f s = (Ok (f n).1, s') ∧ graph_of s' = (f n).2 ∧ same_graph n (graph_of s).
  Proof.
    unfold _run, _require_driver.
    assert (∃ s1, (if driver s then se_ret tt else start) s = (Ok tt, s1) ∧ same_graph (graph_of s1) (graph_of s) ∧ driver s1 = true)
      as (s1 & E1 & G1 & D1) by (destruct (driver s) eqn:Ed; [by exists s|apply start_up]).
    destruct (session_up f s1) as (s2 & E2 & G2 & _). exists (graph_of s1), s2. split; [|done].
    rewrite (se_bind_ok _ _ _ tt s1); [done|].
    rewrite (se_bind_ok _ _ _ (driver s) s) by done. rewrite (se_bind_ok _ _ _ _ _ E1).
    rewrite (se_bind_ok _ _ _ (driver s1) s1) by done. by rewrite D1.
  Qed.

Lemma backs_same g m n : same_graph m n → backs g n → backs g m.
  Proof. intros [_ E] (Hg & Hr & Hf). split_and!; [done|by rewrite E|done]. Qed.

  (** *** Histories *)

  (** An operation and the clock reading with which it creates missing nodes; the results of
      [close_edge] are collected. *)
Definition run_neo_op (o : graph_op * instant) : SE St (list bool) :=
    match o.1 with
    | OpUpsert now n => upsert_node now n;;; se_ret []
    | OpAdd now e => add_edge now o.2 e;;; se_ret []
    | OpClose ty from to vt now => let! b := close_edge ty from to vt now in se_ret [b]
    | OpClear => clear;;; se_ret []
    end.

Fixpoint run_neo (ops : list (graph_op * instant)) : SE St (list bool) :=
    match ops with
    | [] => se_ret []
    | o :: ops => let! b := run_neo_op o in let! l := run_neo ops in se_ret (b ++ l)
    end.

Definition close_result (g : InMemoryGraphStore) (o : graph_op) : list bool :=
    match o with OpClose ty from to vt now => [(GraphStore.close_edge ty from to vt now g).1] | _ => [] end.

Fixpoint close_results (ops : list graph_op) (g : InMemoryGraphStore) : list bool :=
    match ops with [] => [] | o :: ops => close_result g o ++ close_results ops (run_op g o) end.

Definition op_fits (o : graph_op) : bool :=
    match o with
    | OpAdd now e => edge_fits e && in_calendar now
    | OpClose _ _ _ vt now => in_calendar (default now vt)
    | _ => true
    end.

Lemma run_neo_op_backs `{!Neo4jUp D} o (s : St) g : backs g (graph_of s) → op_fits o.1 = true →
    ∃ s', run_neo_op o s = (Ok (close_result g o.1), s') ∧ backs (run_op g o.1) (graph_of s').
  Proof.
    destruct o as [[now n|now e|ty from to vt now|] c]; intros Hb Hf; unfold run_neo_op; cbn [fst snd] in *.
    - unfold upsert_node. destruct (run_up (cy_upsert_node (gn_node_id n) (node_type_value (gn_node_type n)) (gn_label n)
        (_json_dump (gn_properties n)) (gn_tenant_id n) (isoformat (gn_created_at n)) (isoformat now)) s) as (m & s' & E & G & S).
      exists s'. rewrite (se_bind_ok _ _ _ _ _ E). split; [done|]. rewrite G. apply backs_upsert. by eapply backs_same.
    - apply andb_true_iff in Hf as [He Hn]. unfold add_edge.
      destruct (run_up (cy_add_edge (rel_of e) (isoformat now) (isoformat c)
        (node_type_value (_infer_node_type (ge_from_id e))) (_default_label (ge_from_id e))
        (node_type_value (_infer_node_type (ge_to_id e))) (_default_label (ge_to_id e))) s) as (m & s' & E & G & S).
      exists s'. rewrite (se_bind_ok _ _ _ _ _ E). split; [done|]. rewrite G. apply backs_add; [by eapply backs_same|done..].
    - unfold close_edge. destruct (run_up (cy_close_edge from to (edge_type_value ty) (isoformat (default now vt))) s)
        as (m & s' & E & G & S).
      destruct (backs_close g m ty from to vt now) as (Hb' & k & Hk & Hr); [by eapply backs_same|done|].
      exists s'. split; [|by rewrite G].
      rewrite (se_bind_ok _ _ _ (0 <? k) s'); [by rewrite Hr|].
      rewrite (se_bind_ok _ _ _ _ _ E). rewrite (se_bind_ok _ _ _ k s') by (unfold se_lift; by rewrite Hk). done.
    - unfold clear. destruct (run_up cy_clear s) as (m & s' & E & G & S). exists s'. rewrite (se_bind_ok _ _ _ _ _ E).
      split; [done|]. rewrite G. apply backs_clear. by eapply backs_same.
  Qed.

Lemma run_neo_backs `{!Neo4jUp D} ops (s : St) g : backs g (graph_of s) → Forall (λ o, op_fits o.1 = true) ops →
    ∃ s', run_neo ops s = (Ok (close_results (map fst ops) g), s') ∧ backs (run_ops (map fst ops) g) (graph_of s').
  Proof.
    revert s g. induction ops as [|o ops IH]; intros s g Hb Hf; [by exists s|]. inversion Hf; subst.
    destruct (run_neo_op_backs o s g) as (s1 & E1 & B1); [done..|].
    destruct (IH s1 (run_op g o.1)) as (s2 & E2 & B2); [done..|]. exists s2. split; [|done].
    cbn [run_neo]. rewrite (se_bind_ok _ _ _ _ _ E1), (se_bind_ok _ _ _ _ _ E2). done.
  Qed.

  (** *** Reads *)

Lemma each_map {A B C} (f : B → res C) (h : A → B) (k : A → C) l : (∀ x, x ∈ l → f (h x) = Ok (k x)) → each f (map h l) = Ok (map k l).
  Proof.
    induction l as [|x l IH]; intros Hl; [done|]. cbn [map each]. rewrite (Hl x) by left. cbn [rbind].
    rewrite IH by (intros y Hy; apply Hl; by right). done.
  Qed.

Lemma sorted_texts l : Forall (λ e, edge_fits e = true) l →
    StronglySorted (λ a b, String.compare (rel_valid_from_iso a) (rel_valid_from_iso b) ≠ Gt) (map rel_of l) →
    StronglySorted (λ a b, ge_valid_from a <= ge_valid_from b) l.
  Proof.
    induction l as [|e l IH]; intros Hf Hs; [constructor|]. apply Forall_cons in Hf as [He Hf]. cbn [map] in Hs.
    apply StronglySorted_inv in Hs as [Hs Hall]. constructor; [by apply IH|].
    rewrite Forall_forall in Hf. rewrite Forall_forall in Hall. apply Forall_forall. intros x Hx. specialize (Hf x Hx).
    specialize (Hall (rel_of x) (list_elem_of_fmap_2 _ _ _ Hx)).
    cbn [rel_of rel_valid_from_iso] in Hall. rewrite isoformat_compare in Hall; [done|..].
    - unfold edge_fits in He. rewrite !andb_true_iff in He. tauto.
    - unfold edge_fits in Hf. rewrite !andb_true_iff in Hf. tauto.
  Qed.

Lemma filter_map_rel (p : RelRow → bool) (q : GraphEdge → bool) l : (∀ e, e ∈ l → p (rel_of e) = q e) →
    filter (λ r, p r = true) (map rel_of l) = map rel_of (filter (λ e, q e = true) l).
  Proof.
    induction l as [|e l IH]; intros Hl; [done|]. cbn [map]. rewrite !filter_cons, (Hl e) by left.
    rewrite IH by (intros y Hy; apply Hl; by right). by case_decide.
  Qed.

(** The rows of an as-of read are edges of the in-memory store, by their start; the clock is not read. *)
Lemma edge_rows_read of_end node_of id t g n :
    (∀ e, of_end (rel_of e) = node_of e) → backs g n → in_calendar t = true →
    ∃ l, (∀ now, each (λ r, _deserialize_edge r now) (cy_get_edges (λ A, @order_by D _ A) of_end id (isoformat t) n).1 = Ok l) ∧
      l ≡ₚ filter (λ e, node_of e = id ∧ valid_at t e = true) (edges g) ∧
      StronglySorted (λ a b, ge_valid_from a <= ge_valid_from b) l.
  Proof.
    intros Hend (Hg & Hr & Hf) Ht. unfold cy_get_edges. cbn [fst]. rewrite Hr.
    rewrite (filter_map_rel _ (λ e, bool_decide (node_of e = id) && valid_at t e)).
    2: { intros e He. rewrite Forall_forall in Hf. rewrite Hend, valid_texts by auto. f_equal. apply eq_bool_prop_intro.
         by rewrite bool_decide_spec, Is_true_true, String.eqb_eq. }
    set (l0 := filter _ (edges g)).
    assert (Forall (λ e, edge_fits e = true) l0) as Hf0.
    { rewrite Forall_forall in Hf. apply Forall_forall. intros e [_ He]%list_elem_of_filter. by apply Hf. }
    pose proof (order_by_perm RelRow rel_valid_from_iso (map rel_of l0)) as Hp.
    pose proof (order_by_sorted RelRow rel_valid_from_iso (map rel_of l0)) as Hs.
    apply Permutation_map_inv in Hp as (l1 & E1 & P1). rewrite E1 in Hs |- *.
    assert (Forall (λ e, edge_fits e = true) l1) as Hf1 by (by rewrite <- P1).
    exists l1. split; [|split].
    - intros now. rewrite map_map, (each_map _ (λ e, rel_record (rel_of e)) (λ e, e)); [by rewrite map_id|].
      intros e He. apply edge_back. rewrite Forall_forall in Hf1. by apply Hf1.
    - rewrite <- P1. subst l0. apply reflexive_eq, list_filter_iff. intros e.
      by rewrite andb_true_iff, bool_decide_eq_true.
    - by apply sorted_texts.
  Qed.

Lemma get_edges_scan `{!Neo4jUp D} of_end node_of id at_time now (s : St) g :
    (∀ e, of_end (rel_of e) = node_of e) → backs g (graph_of s) → in_calendar (default now at_time) = true →
    ∃ l s', get_edges of_end id at_time now s = (Ok l, s') ∧
      l ≡ₚ filter (λ e, node_of e = id ∧ valid_at (default now at_time) e = true) (edges g) ∧
      StronglySorted (λ a b, ge_valid_from a <= ge_valid_from b) l.
  Proof.
    intros Hend Hb Ht. unfold get_edges.
    destruct (run_up (cy_get_edges (λ A, @order_by D _ A) of_end id (isoformat (default now at_time))) s) as (n & s' & E & _ & S).
    destruct (edge_rows_read of_end node_of id (default now at_time) g n) as (l & El & P & Hs); [done|by eapply backs_same|done|].
    exists l, s'. rewrite (se_bind_ok _ _ _ _ _ E). unfold se_lift. by rewrite El.
  Qed.
End methods.

(** ** Lemmas: what every statement keeps *)

(** At most one open relation of a type between two nodes; ends of relations exist. *)
Definition neo_wf (n : neo_graph) : Prop :=
  (∀ from to ty, (open_count from to ty (rels n) <= 1)%nat) ∧
  (∀ r, r ∈ rels n → od_get (rel_from r) (entities n) ≠ None ∧ od_get (rel_to r) (entities n) ≠ None).

Lemma open_count_app from to ty l1 l2 : open_count from to ty (l1 ++ l2) = (open_count from to ty l1 + open_count from to ty l2)%nat.
Proof. unfold open_count. by rewrite filter_app, length_app. Qed.

Lemma open_count_cons from to ty r l :
  open_count from to ty (r :: l) = ((if rel_matches from to ty r && rel_open r then 1 else 0) + open_count from to ty l)%nat.
Proof. unfold open_count. rewrite filter_cons. case_decide as Hd; [by rewrite Hd|]. apply not_true_iff_false in Hd. by rewrite Hd. Qed.

Lemma matches_closed from to ty t r : rel_matches from to ty (set_valid_to t r) = rel_matches from to ty r.
Proof. done. Qed.

(** Closing leaves none open there, and what is open elsewhere. *)
Lemma open_count_closed from to ty a b k t l : t ≠ "" →
  open_count a b k (close_matching from to ty t l)
  = if bool_decide ((a, b, k) = (from, to, ty)) then 0%nat else open_count a b k l.
Proof.
  intros Ht. induction l as [|r l IH]; [by case_match|]. cbn [close_matching map]. rewrite !open_count_cons.
  change (map _ l) with (close_matching from to ty t l). rewrite IH.
  assert (rel_matches from to ty r = true → rel_matches a b k r = bool_decide ((a, b, k) = (from, to, ty))) as Hone.
  { unfold rel_matches. rewrite !andb_true_iff, !String.eqb_eq. intros [[<- <-] <-]. apply eq_bool_prop_intro.
    rewrite Is_true_true, !andb_true_iff, !String.eqb_eq, bool_decide_spec. split; [intros [[-> ->] ->]|intros [= -> -> ->]]; done. }
  assert (bool_decide ((a, b, k) = (from, to, ty)) = true → rel_matches a b k r = rel_matches from to ty r) as Hsame.
  { intros [= -> -> ->]%bool_decide_eq_true. done. }
  destruct (rel_matches from to ty r) eqn:Em.
  - specialize (Hone eq_refl). destruct (rel_open r) eqn:Eo; cbn [andb].
    + assert (rel_open (set_valid_to t r) = false) as -> by (by apply String.eqb_neq). rewrite andb_false_r, Hone. by case_bool_decide.
    + rewrite Eo, !andb_false_r. by case_bool_decide.
  - cbn [andb]. destruct (bool_decide _) eqn:Eb; [|done]. by rewrite Hsame.
Qed.

Lemma open_count_one_rel from to ty r : (open_count from to ty [r] <= 1)%nat.
Proof. rewrite open_count_cons. change (open_count from to ty []) with 0%nat. destruct (_ && _); lia. Qed.

Lemma close_matching_in from to ty t l r : r ∈ close_matching from to ty t l → ∃ r0, r0 ∈ l ∧ rel_from r = rel_from r0 ∧ rel_to r = rel_to r0.
Proof. intros (r0 & -> & Hr)%list_elem_of_fmap. exists r0. split; [done|]. by destruct (_ && _). Qed.

Lemma merge_end_present id a b c es k : od_get k es ≠ None ∨ k = id → od_get k (cy_merge_end id a b c es) ≠ None.
Proof.
  unfold cy_merge_end. destruct (od_get id es) eqn:E; [intros [H| ->]; congruence|]. rewrite od_get_set. by case_decide; intros [?|?].
Qed.

Definition keeps_wf {A} (f : neo_graph → A * neo_graph) : Prop := ∀ n, neo_wf n → neo_wf (f n).2.

Lemma clear_keeps : keeps_wf cy_clear.
Proof. intros n _. split; [intros; cbn; lia|by intros r ?%elem_of_nil]. Qed.

Lemma upsert_keeps a b c d e f x : keeps_wf (cy_upsert_node a b c d e f x).
Proof.
  intros n [Ho He]. split; [done|]. intros r Hr. destruct (He r Hr) as [H1 H2]. cbn [cy_upsert_node snd entities].
  rewrite !od_get_set. by repeat case_decide.
Qed.

Lemma close_keeps from to ty t : t ≠ "" → keeps_wf (cy_close_edge from to ty t).
Proof.
  intros Ht n [Ho He]. split; cbn [cy_close_edge snd rels entities].
  - intros a b k. rewrite open_count_closed by done. case_bool_decide; [lia|apply Ho].
  - intros r (r0 & Hr & -> & ->)%close_matching_in. by apply He.
Qed.

Lemma add_keeps new t c ft fl tt' tl : t ≠ "" → keeps_wf (cy_add_edge new t c ft fl tt' tl).
Proof.
  intros Ht n [Ho He]. pose proof (Ho (rel_from new) (rel_to new) (rel_edge_type new)) as Hc.
  split; cbn [cy_add_edge snd rels entities]; rewrite Nat.max_l by done; cbn [repeat].
  - intros a b k. rewrite open_count_app, open_count_closed by done. case_bool_decide as E.
    + pose proof (open_count_one_rel a b k new). lia.
    + pose proof (Ho a b k). rewrite open_count_cons. assert (rel_matches a b k new = false) as ->; [|simpl; cbn; lia].
      apply not_true_iff_false. unfold rel_matches. rewrite !andb_true_iff, !String.eqb_eq. intros [[Ea Eb] Ek]. apply E. congruence.
  - intros r [(r0 & Hr & -> & ->)%close_matching_in|Hr]%elem_of_app.
    + destruct (He r0 Hr). by split; apply merge_end_present; left; apply merge_end_present; left.
    + apply list_elem_of_singleton in Hr as ->. split; apply merge_end_present.
      * left. apply merge_end_present. by right.
      * by right.
Qed.

Section failing.
  Context {D : Type} `{Neo4jServer D, !Neo4jServerLaws D} `{DateJson}.

Abbreviation St := (Neo4jGraphStore D).
Abbreviation keeps m := (se_inv (λ s : St, neo_wf (contents (server s))) m).

Lemma session_keeps {A} (f : neo_graph → A * neo_graph) : keeps_wf f → keeps (session_run f).
  Proof.
    intros Hf s Hs. unfold session_run. destruct (run_statement f (server s)) as [[a|e] d] eqn:E; cbn [snd server].
    - pose proof (statement_ok A f _ _ _ E) as E'. specialize (Hf _ Hs). by rewrite E' in Hf.
    - destruct (statement_raises A f _ _ _ E) as [->| ->]; [done|by apply Hf].
  Qed.

Lemma start_keeps : keeps start.
  Proof.
    apply inv_bind; [by intros s|]. intros []; [apply inv_ret|].
    apply inv_bind; [|intros _; apply inv_bind; [|intros _; apply inv_bind; [|intros _]; apply session_keeps; by intros n Hn]].
    - intros s Hs. unfold on_driver. pose proof (open_contents (server s)) as O. destruct (open_driver _) as [[]]; cbn in *; by rewrite O.
    - intros s Hs. unfold on_driver. pose proof (verify_contents (server s)) as O. destruct (verify_connectivity _) as [[]]; cbn in *; by rewrite O.
  Qed.

Lemma run_keeps {A} (f : neo_graph → A * neo_graph) : keeps_wf f → keeps (_run f).
  Proof.
    intros Hf. apply inv_bind; [|intros _; by apply session_keeps]. apply inv_bind; [by intros s|]. intros b.
    apply inv_bind; [destruct b; [apply inv_ret|apply start_keeps]|]. intros _. apply inv_bind; [by intros s|].
    intros []; by intros s.
  Qed.

Lemma neo_op_keeps o : keeps (run_neo_op o).
  Proof.
    destruct o as [[now n|now e|ty from to vt now|] c]; unfold run_neo_op; cbn [fst snd];
      (apply inv_bind; [|intros ?; apply inv_ret]).
    - apply run_keeps, upsert_keeps.
    - apply run_keeps, add_keeps, isoformat_not_empty.
    - apply inv_bind; [apply run_keeps, close_keeps, isoformat_not_empty|]. intros r. apply inv_bind; [apply inv_lift|]. intros. apply inv_ret.
    - apply run_keeps, clear_keeps.
  Qed.
End failing.

(** ** Properties *)

Section properties.
  Context {D : Type} `{Neo4jServer D, !Neo4jServerLaws D} `{DateJson, !DateJsonLaws}.

(** C18. The two backends agree on history: on a server that answers, any operations whose
    edges the schema admits run without an exception and [close_edge] reports what the
    in-memory store reports; then every as-of read of outgoing and of incoming edges, at any
    instant of the calendar, returns the edges of the in-memory store, field for field,
    provenance included, in the order of their validity starts. *)
Theorem neo4j_asof_agrees `{!Neo4jUp D} (ops : list (graph_op * instant)) (d : D)
    (Hempty : contents d = empty_neo) (Hfits : Forall (λ o, op_fits o.1 = true) ops) :
    let g := run_ops (map fst ops) InMemoryGraphStore_init in
    ∃ s, run_neo ops (Neo4jGraphStore_init d) = (Ok (close_results (map fst ops) InMemoryGraphStore_init), s) ∧
      ∀ id at_time now, in_calendar (default now at_time) = true →
        (∃ l s', get_edges_from id at_time now s = (Ok l, s') ∧
           l ≡ₚ GraphStore.get_edges_from g id at_time now ∧ StronglySorted (λ a b, ge_valid_from a <= ge_valid_from b) l) ∧
        (∃ l s', get_edges_to id at_time now s = (Ok l, s') ∧
           l ≡ₚ GraphStore.get_edges_to g id at_time now ∧ StronglySorted (λ a b, ge_valid_from a <= ge_valid_from b) l).
  Proof.
    intros g. destruct (run_neo_backs ops (Neo4jGraphStore_init d) InMemoryGraphStore_init) as (s & E & Hb).
    - cbn [server Neo4jGraphStore_init]. rewrite Hempty. apply backs_init.
    - done.
    - exists s. split; [exact E|]. intros id at_time now Ht. fold g in Hb. pose proof Hb as (Hg & _ & _).
      rewrite edges_from_scan, edges_to_scan by done. split; by eapply get_edges_scan.
  Qed.

(** Whatever statements the server refuses, or loses the answer of after running them, the
    stored graph keeps its form through any operations: at most one relation of a type is
    open between two nodes, and both ends of every relation exist. *)
Theorem neo4j_history_wf (ops : list (graph_op * instant)) (d : D) (Hd : neo_wf (contents d)) :
    neo_wf (contents (server (fold_left (λ s o, (run_neo_op o s).2) ops (Neo4jGraphStore_init d)))).
  Proof.
    change (contents d) with (contents (server (Neo4jGraphStore_init d))) in Hd. revert Hd.
    generalize (Neo4jGraphStore_init d). induction ops as [|o ops IH]; intros s Hs; [done|].
    cbn [fold_left]. by apply IH, neo_op_keeps.
  Qed.

(** A node reads back as it was stored, dates among its properties having become texts and
    an empty label its id; it keeps the creation time it was first stored with, where the
    in-memory store takes the one of the node, and is updated at the clock reading even when
    it is new. *)
Theorem neo4j_node_back `{!Neo4jUp D} (node : GraphNode) (now later : instant) (created : option instant)
    (properties : odict string pyval) (s : Neo4jGraphStore D)
    (Hprops : json_ok (VDict (gn_properties node)) = true) (Hback : json_back (VDict (gn_properties node)) = VDict properties)
    (Htimes : in_calendar (gn_created_at node) = true ∧ in_calendar now = true)
    (Hcreated : row_created_at_iso <$> od_get (gn_node_id node) (entities (contents (server s))) = isoformat <$> created ∧
                ∀ t, created = Some t → in_calendar t = true) :
    ∃ s1 s2, upsert_node now node s = (Ok tt, s1) ∧
      get_node (gn_node_id node) later s1 =
        (Ok (Some (mkNode (gn_node_id node) (gn_node_type node)
                     (match gn_label node with "" => gn_node_id node | l => l end) properties (gn_tenant_id node)
                     (default (gn_created_at node) created) now)), s2).
  Proof.
    destruct Htimes as [Hc Hn]. destruct Hcreated as [Hold Hcal].
    unfold upsert_node. destruct (run_up (cy_upsert_node (gn_node_id node) (node_type_value (gn_node_type node)) (gn_label node)
      (_json_dump (gn_properties node)) (gn_tenant_id node) (isoformat (gn_created_at node)) (isoformat now)) s) as (n & s1 & E1 & G1 & [S1 _]).
    unfold get_node. destruct (run_up (cy_get_node (gn_node_id node)) s1) as (m & s2 & E2 & _ & [S2 _]).
    exists s1, s2. split; [exact E1|]. rewrite (se_bind_ok _ _ _ _ _ E2).
    cbn [cy_get_node fst]. rewrite S2, G1. cbn [cy_upsert_node snd entities]. rewrite od_get_set_eq. cbn [fmap option_fmap option_map].
    set (c := default (gn_created_at node) created).
    assert (match od_get (gn_node_id node) (entities n) with Some r => row_created_at_iso r | None => isoformat (gn_created_at node) end
            = isoformat c ∧ in_calendar c = true) as [-> Hcc].
    { rewrite S1. subst c. destruct (od_get (gn_node_id node) _) as [r|], created as [t|]; try discriminate Hold.
      - injection Hold as ->. split; [done|by apply Hcal].
      - done. }
    unfold se_bind, se_lift, se_ret. erewrite entity_read; [done|..]; try done.
    by apply json_load_dump_ok.
  Qed.

(** A start whose connection check fails is never repeated: the driver is already kept, so
    the next [start] returns at once and the uniqueness constraint and the type index are not
    created, nor by any statement after it. *)
Theorem neo4j_start_not_repeated {A} (d d1 d2 : D) (e : exn) (f : neo_graph → A * neo_graph)
    (Hopen : open_driver d = (Ok tt, d1)) (Hverify : verify_connectivity d1 = (Raise e, d2))
    (Hschema : ∀ n, unique_ids (f n).2 = unique_ids n) :
    let s := (start (Neo4jGraphStore_init d)).2 in
    start (Neo4jGraphStore_init d) = (Raise e, s) ∧ start s = (Ok tt, s) ∧
    unique_ids (contents (server (_run f s).2)) = unique_ids (contents d).
  Proof.
    assert (start (Neo4jGraphStore_init d) = (Raise e, mkStore true d2)) as E.
    { unfold start. rewrite (se_bind_ok _ _ _ false (Neo4jGraphStore_init d)) by done.
      rewrite (se_bind_ok _ _ _ tt (mkStore true d1)) by (unfold on_driver; cbn [server Neo4jGraphStore_init]; by rewrite Hopen).
      unfold se_bind, on_driver. cbn [server]. by rewrite Hverify. }
    intros s. subst s. rewrite E. cbn [snd]. split; [done|]. split; [done|].
    pose proof (open_contents d) as O. rewrite Hopen in O. pose proof (verify_contents d1) as V. rewrite Hverify in V.
    cbn [snd] in O, V. rewrite <- O, <- V. unfold _run.
    rewrite (se_bind_ok _ _ _ tt (mkStore true d2)) by done. unfold session_run. cbn [server].
    destruct (run_statement f d2) as [[a|x] d3] eqn:E3; cbn [snd server].
    - pose proof (statement_ok A f _ _ _ E3) as Ef. rewrite <- (Hschema (contents d2)). by rewrite Ef.
    - destruct (statement_raises A f _ _ _ E3) as [->| ->]; [done|apply Hschema].
  Qed.
End properties.

(** C28. What [_json_dump] writes, [_json_load] reads back, dates as their texts; a UTC instant
    that [_to_iso] wrote, [_from_iso] gives back; and the texts of [_to_iso] are ordered as
    the instants, which the as-of conditions of the statements rest on. *)
Theorem store_texts_back (value properties : odict string pyval) (s t : datetime)
    (Hok : json_ok (VDict value) = true) (Hback : json_back (VDict value) = VDict properties)
    (Hs : in_calendar (to_utc s) = true) (Ht : in_calendar (to_utc t) = true) :
  _json_load (VStr (_json_dump value)) = Ok properties ∧
  _from_iso (_to_iso t) = Ok (Some (to_utc t)) ∧
  (text_le (_to_iso s) (_to_iso t) = true ↔ to_utc s <= to_utc t).
Proof.
  split; [by apply json_load_dump_ok|]. split.
  - unfold _to_iso. rewrite <- (as_str_text (isoformat (to_utc t))). by apply from_iso_text.
  - unfold text_le, _to_iso. rewrite isoformat_compare by done. rewrite <- Z.leb_le. unfold Z.leb.
    by destruct (to_utc s ?= to_utc t).
Qed.

(** ** A concrete server *)

(** Insertion by key, before the first larger one. *)
Section insertion.
  Context {A : Type} (key : A → string).

Fixpoint insert_row (x : A) (l : list A) : list A :=
    match l with
    | [] => [x]
    | y :: l' => if String.leb (key x) (key y) then x :: l else y :: insert_row x l'
    end.

Definition sort_rows (l : list A) : list A := foldr insert_row [] l.

Lemma insert_row_perm x l : insert_row x l ≡ₚ x :: l.
  Proof.
    induction l as [|y l IH]; [done|]. cbn [insert_row]. destruct (String.leb _ _); [done|]. rewrite IH. apply Permutation_swap.
  Qed.

Lemma leb_compare x y : String.leb x y = true ↔ String.compare x y ≠ Gt.
  Proof. unfold String.leb. by destruct (String.compare x y). Qed.

Lemma insert_row_sorted x l : StronglySorted (λ a b, String.compare (key a) (key b) ≠ Gt) l →
    StronglySorted (λ a b, String.compare (key a) (key b) ≠ Gt) (insert_row x l).
  Proof.
    induction 1 as [|y l Hs IH Hall]; [by repeat constructor|]. cbn [insert_row].
    destruct (String.leb (key x) (key y)) eqn:E.
    - constructor; [by constructor|]. apply leb_compare in E. constructor; [done|].
      eapply Forall_impl; [exact Hall|]. intros z Hz. rewrite <- leb_compare in *.
      apply Is_true_true. apply Is_true_true in E, Hz. by etrans.
    - constructor; [done|]. rewrite insert_row_perm. constructor; [|done].
      apply leb_compare. destruct (String.leb_total (key x) (key y)) as [F|F]; [congruence|done].
  Qed.

Lemma sort_rows_perm l : sort_rows l ≡ₚ l.
  Proof. induction l as [|x l IH]; [done|]. cbn. by rewrite insert_row_perm, IH. Qed.

Lemma sort_rows_sorted l : StronglySorted (λ a b, String.compare (key a) (key b) ≠ Gt) (sort_rows l).
  Proof. induction l as [|x l IH]; [constructor|]. cbn. by apply insert_row_sorted. Qed.
End insertion.

(** The database itself; every statement is answered. *)
#[export] Instance MemNeo : Neo4jServer neo_graph := {
  contents d := d;
  run_statement A f d := (Ok (f d).1, (f d).2);
  open_driver d := (Ok tt, d);
  verify_connectivity d := (Ok tt, d);
  order_by A key l := sort_rows key l;
}.

#[export] Instance MemNeo_laws : Neo4jServerLaws neo_graph.
Proof.
  constructor; try done.
  - intros A f d a d' [= <- <-]. apply surjective_pairing.
  - intros A key l. apply sort_rows_perm.
  - intros A key l. apply sort_rows_sorted.
Qed.

#[export] Instance MemNeo_up : Neo4jUp neo_graph.
Proof. constructor; intros; by eexists _ + eexists _, _. Qed.

(** A server that the driver does not reach. *)
Record unreachable_neo := mkUnreachable { db : neo_graph }.

#[export] Instance UnreachableNeo : Neo4jServer unreachable_neo := {
  contents d := db d;
  run_statement A f d := (Ok (f (db d)).1, mkUnreachable (f (db d)).2);
  open_driver d := (Ok tt, d);
  verify_connectivity d := (Raise ServiceUnavailable, d);
  order_by A key l := sort_rows key l;
}.

#[export] Instance UnreachableNeo_laws : Neo4jServerLaws unreachable_neo.
Proof.
  constructor; try done.
  - intros A f d a d' [= <- <-]. apply surjective_pairing.
  - intros A key l. apply sort_rows_perm.
  - intros A key l. apply sort_rows_sorted.
Qed.

(** Datetimes in JSON as ISO texts. *)
#[export] Instance IsoDates : DateJson := {
  date_json := isoformat;
  json_date v := match v with VStr s => match fromisoformat s with Some d => Some (to_utc d) | None => None end | _ => None end;
}.

#[export] Instance IsoDates_laws : DateJsonLaws.
Proof. constructor. intros t Ht. cbn. by rewrite fromisoformat_isoformat. Qed.

(** ** Witnesses *)

(** An edge is recorded, superseded, and the newer one closed. *)
Definition sample_history : list (graph_op * instant) :=
  [(OpUpsert 1 (sample_node "a" NT_TEAM), 1); (OpAdd 5 (sample_edge "a" "b" 5), 6); (OpAdd 20 (sample_edge "a" "b" 15), 21);
   (OpClose ATTRIBUTED_TO "a" "b" (Some 30) 40, 41); (OpClose ATTRIBUTED_TO "a" "b" (Some 30) 40, 41)].

Lemma neo4j_asof_agrees_witness :
  ∃ s, run_neo sample_history (Neo4jGraphStore_init empty_neo) = (Ok [true; false], s) ∧
    ∃ l s', get_edges_from "a" (Some 17) 0 s = (Ok l, s') ∧
      l ≡ₚ GraphStore.get_edges_from (run_ops (map fst sample_history) InMemoryGraphStore_init) "a" (Some 17) 0.
Proof.
  destruct (neo4j_asof_agrees sample_history empty_neo) as (s & E & Hr).
  - reflexivity.
  - repeat (constructor; [vm_compute; reflexivity|]). constructor.
  - exists s. split; [exact E|]. destruct (Hr "a" (Some 17) 0 ltac:(reflexivity)) as ((l & s' & E1 & P & _) & _).
    exists l, s'. exact (conj E1 P).
Defined.

Lemma neo4j_history_wf_witness :
  neo_wf (contents (server (fold_left (λ s o, (run_neo_op o s).2) sample_history (Neo4jGraphStore_init empty_neo)))).
Proof. apply (neo4j_history_wf sample_history empty_neo). split; [intros; cbn; lia|intros r Hr; by apply elem_of_nil in Hr]. Defined.

Definition dated_node : GraphNode := mkNode "deploy:1" NT_DEPLOYMENT "" [("at", VDate 0); ("sizes", VList [VInt 7; VFloat (lit 1 10)])] "t" 50 50.

Lemma neo4j_node_back_witness :
  ∃ s1 s2, upsert_node 90 dated_node (Neo4jGraphStore_init (mkNeo [("deploy:1", mkEntity "deployment" "" "{}" "t" (isoformat 10) "")] [] true true)) = (Ok tt, s1) ∧
    get_node "deploy:1" 100 s1 =
      (Ok (Some (mkNode "deploy:1" NT_DEPLOYMENT "deploy:1"
                   [("at", VStr "1970-01-01 00:00:00+00:00"); ("sizes", VList [VInt 7; VFloat (lit 1 10)])] "t" 10 90)), s2).
Proof.
  apply (neo4j_node_back dated_node 90 100 (Some 10)
    [("at", VStr "1970-01-01 00:00:00+00:00"); ("sizes", VList [VInt 7; VFloat (lit 1 10)])]).
  - vm_compute. reflexivity.
  - vm_compute. reflexivity.
  - split; reflexivity.
  - split; [reflexivity|]. intros t [= <-]. reflexivity.
Defined.

Lemma neo4j_start_not_repeated_witness :
  let s := (start (Neo4jGraphStore_init (mkUnreachable empty_neo))).2 in
  start (Neo4jGraphStore_init (mkUnreachable empty_neo)) = (Raise ServiceUnavailable, s) ∧ start s = (Ok tt, s) ∧
  unique_ids (contents (server (_run (cy_upsert_node "a" "team" "" "{}" "" "" "") s).2)) = false.
Proof.
  exact (neo4j_start_not_repeated (mkUnreachable empty_neo) (mkUnreachable empty_neo) (mkUnreachable empty_neo) ServiceUnavailable
    (cy_upsert_node "a" "team" "" "{}" "" "" "") eq_refl eq_refl (λ n, eq_refl)).
Defined.

Lemma store_texts_back_witness :
  _json_load (VStr (_json_dump [("at", VDate 0); ("n", VInt (-12))]))
    = Ok [("at", VStr "1970-01-01 00:00:00+00:00"); ("n", VInt (-12))] ∧
  _from_iso (_to_iso (Aware 7 3600)) = Ok (Some 7) ∧ (text_le (_to_iso (Naive 3)) (_to_iso (Aware 7 3600)) = true ↔ 3 <= 7).
Proof.
  apply (store_texts_back [("at", VDate 0); ("n", VInt (-12))] [("at", VStr "1970-01-01 00:00:00+00:00"); ("n", VInt (-12))]
    (Naive 3) (Aware 7 3600)); vm_compute; reflexivity.
Defined.

(** Adding an edge makes nodes of its unknown ends here, and not in memory. *)
Example ends_are_created :
  (∃ n s, (get_node "team:b" 9 (run_neo [(OpAdd 5 (sample_edge "a" "team:b" 5), 6)] (Neo4jGraphStore_init empty_neo)).2)
          = (Ok (Some n), s) ∧ gn_node_type n = NT_TEAM ∧ gn_label n = "b") ∧
  GraphStore.get_node (run_ops [OpAdd 5 (sample_edge "a" "team:b" 5)] InMemoryGraphStore_init) "team:b" = None.
Proof. split; [|reflexivity]. eexists _, _. split; [vm_compute; reflexivity|]. split; reflexivity. Qed.
