(* ===== verification/Traversal.v ===== *)
(** * Attribution traversal over either backend (src/aci/graph/store.py, [_GraphTraversalMixin])

    The search that both graph stores inherit, over an interface of the two reads it makes
    ([_TraversalGraph]). Whatever the store, a search whose reads do not change the graph
    returns the first paths of one enumeration; so the durable backend finds what the
    in-memory one finds. *)

From S2P Require Import Prelude PyFloat PyData PyTime PyValue PyIso PyText PyIsoText PyJson Models GraphStore Neo4jStore.
From Stdlib Require Import ZArith Lia.
From stdpp Require Import base list gmap sets strings.

Open Scope string_scope.
Open Scope list_scope.
Open Scope Z_scope.
Open Scope py_scope.

(** ** The search *)

(** The reads of a store, with the clock reading that each takes; either may raise. *)
Class TraversalGraph (S : Type) := {
  read_edges : string → option instant → instant → SE S (list GraphEdge);
  read_node : string → instant → SE S (option GraphNode);
}.

#[export] Instance memory_traversal : TraversalGraph InMemoryGraphStore := {
  read_edges id at_time now := se_get (λ g, GraphStore.get_edges_from g id at_time now);
  read_node id _ := se_get (λ g, GraphStore.get_node g id);
}.

#[export] Instance neo4j_traversal {D} `{Neo4jServer D} `{DateJson} : TraversalGraph (Neo4jGraphStore D) := {
  read_edges := Neo4jStore.get_edges_from;
  read_node := Neo4jStore.get_node;
}.

Fixpoint se_fold {S A B} (f : A → B → SE S A) (a : A) (l : list B) : SE S A :=
  match l with [] => se_ret a | x :: l => let! a := f a x in se_fold f a l end.

(** [target_node and target_node.node_type in (COST_CENTER, BUDGET)] *)
Definition ends_path (node : option GraphNode) : bool :=
  match node with Some n => bool_decide (gn_node_type n = NT_COST_CENTER ∨ gn_node_type n = NT_BUDGET) | None => false end.

Section mixin.
  Context {S : Type} `{TraversalGraph S} (at_time : option instant) (clock : nat → instant) (max_depth max_paths : nat).

  (** [_dfs]: [path] is [current_path]; the state is [all_paths] and the number of reads so
      far, each at its own clock reading. Once the cap is reached the loop has nothing left to
      do. [fuel] bounds the recursion depth. *)
Fixpoint mixin_dfs (fuel : nat) (node_id : string) (path : list GraphEdge) (visited : list string)
      (st : list (list GraphEdge) * nat) : SE S (list (list GraphEdge) * nat) :=
    match fuel with
    | O => se_ret st
    | Datatypes.S fuel =>
        if (max_paths <=? length st.1)%nat then se_ret st
        else if (max_depth <=? length path)%nat then se_ret st
        else if decide (node_id ∈ visited) then se_ret st
        else
          let! out := read_edges node_id at_time (clock st.2) in
          match out with
          | [] => se_ret (match path with [] => st.1 | _ => st.1 ++ [path] end, Datatypes.S st.2)
          | _ =>
              se_fold (λ st e,
                if (max_paths <=? length st.1)%nat then se_ret st else
                let! target_node := read_node (ge_to_id e) (clock st.2) in
                if ends_path target_node then se_ret (st.1 ++ [path ++ [e]], Datatypes.S st.2)
                else mixin_dfs fuel (ge_to_id e) (path ++ [e]) (node_id :: visited) (st.1, Datatypes.S st.2))
                (st.1, Datatypes.S st.2) out
          end
    end.

Definition mixin_traverse (start_node_id : string) : SE S (list (list GraphEdge)) :=
    let! found := mixin_dfs (Datatypes.S max_depth) start_node_id [] [] ([], O) in se_ret found.1.
End mixin.

(** ** The enumeration *)

Section walk.
  Context (out : string → list GraphEdge) (ends : string → bool).

  (** Every path the search can record after [path] from [n], in its order. *)
Fixpoint walk (d : nat) (path : list GraphEdge) (visited : list string) (n : string) : list (list GraphEdge) :=
    match d with
    | O => []
    | S d =>
        if decide (n ∈ visited) then []
        else match out n with
             | [] => match path with [] => [] | _ => [path] end
             | es => flat_map (λ e, if ends (ge_to_id e) then [path ++ [e]]
                                    else walk d (path ++ [e]) (n :: visited) (ge_to_id e)) es
             end
    end.
End walk.

(** Stores whose reads differ in order only have the same paths. *)
Lemma walk_perm (out out' : string → list GraphEdge) (ends ends' : string → bool) d path visited n :
  (∀ id, out id ≡ₚ out' id) → (∀ id e, e ∈ out id → ends (ge_to_id e) = ends' (ge_to_id e)) →
  walk out ends d path visited n ≡ₚ walk out' ends' d path visited n.
Proof.
  intros Ho He. revert path visited n. induction d as [|d IH]; intros path visited n; [done|]. cbn [walk].
  case_decide; [done|]. specialize (Ho n). specialize (He n). destruct (out n) as [|e es].
  - apply Permutation_nil in Ho as ->. done.
  - destruct (out' n) as [|e' es'] eqn:E'; [by apply Permutation_sym, Permutation_nil in Ho|]. rewrite <- Ho.
    clear Ho E'. induction (e :: es) as [|x l IHl]; [done|]. cbn [flat_map]. f_equiv.
    + rewrite He by left. case_match; [done|apply IH].
    + apply IHl. intros y Hy. apply He. by right.
Qed.

(** The paths that the in-memory search enumerates. *)
Lemma walk_all_from g t d path visited n :
  walk (outgoing_at g t) (is_terminal g) d path visited n = filter (λ p, p ≠ []) (map (app path) (all_from g t d visited n)).
Proof.
  revert path visited n. induction d as [|d IH]; intros path visited n; [done|]. cbn [walk all_from].
  case_decide; [done|]. destruct (outgoing_at g t n) as [|e es].
  - cbn [map]. rewrite app_nil_r. by destruct path.
  - generalize (e :: es). intros l. induction l as [|x l IHl]; [done|]. cbn [flat_map].
    rewrite map_app, filter_app, <- IHl. f_equal. destruct (is_terminal g (ge_to_id x)).
    + cbn [map]. rewrite filter_cons, decide_True by (by destruct path). done.
    + rewrite IH, map_map. f_equal. apply map_ext. intros p. by rewrite <- app_assoc.
Qed.

(** ** Any store with quiet reads *)

Section enumerates.
  Context {S : Type} `{TraversalGraph S} (at_time : option instant) (clock : nat → instant) (max_depth max_paths : nat).
  Context (quiet : S → Prop) (out : string → list GraphEdge) (ends : string → bool).

  (** In the states of interest the reads answer [out] and [ends], and stay in them. *)
  Hypothesis Hout : ∀ id now s, quiet s → ∃ s', read_edges id at_time now s = (Ok (out id), s') ∧ quiet s'.
  Hypothesis Hends : ∀ id e now s, quiet s → e ∈ out id →
    ∃ node s', read_node (ge_to_id e) now s = (Ok node, s') ∧ ends_path node = ends (ge_to_id e) ∧ quiet s'.

Definition capped {A} (found l : list A) : list A := found ++ take (max_paths - length found) l.

  (** A search that adds the paths [l] within the cap. *)
Definition adds (m : list (list GraphEdge) * nat → SE S (list (list GraphEdge) * nat)) (l : list (list GraphEdge)) : Prop :=
    ∀ found tick s, quiet s → ∃ tick' s', m (found, tick) s = (Ok (capped found l, tick'), s') ∧ quiet s'.

Lemma capped_full {A} (found l : list A) : (max_paths <= length found)%nat → capped found l = found.
  Proof. intros Hl. unfold capped. replace (max_paths - length found)%nat with O by lia. apply app_nil_r. Qed.

Lemma capped_nil {A} (found : list A) : capped found [] = found.
  Proof. unfold capped. by rewrite take_nil, app_nil_r. Qed.

Lemma capped_one {A} (found : list A) x : (length found < max_paths)%nat → capped found [x] = found ++ [x].
  Proof. intros Hl. unfold capped. by rewrite take_ge by (cbn [length]; lia). Qed.

Lemma adds_fold {B} (f : list (list GraphEdge) * nat → B → SE S (list (list GraphEdge) * nat)) (paths : B → list (list GraphEdge)) l :
    (∀ x, x ∈ l → adds (λ st, f st x) (paths x)) → adds (λ st, se_fold f st l) (flat_map paths l).
  Proof.
    induction l as [|x l IH]; intros Hl found tick s Hs.
    { exists tick, s. split; [|done]. cbn [se_fold flat_map]. by rewrite capped_nil. }
    destruct (Hl x (list_elem_of_here _ _) found tick s Hs) as (tick1 & s1 & E1 & H1).
    destruct (IH (λ y Hy, Hl y (list_elem_of_further _ _ _ Hy)) (capped found (paths x)) tick1 s1 H1) as (tick2 & s2 & E2 & H2).
    exists tick2, s2. split; [|done]. cbn [se_fold flat_map]. rewrite (se_bind_ok _ _ _ _ _ E1), E2. do 2 f_equal. f_equal. unfold capped. by rewrite capped_app.
  Qed.

Lemma dfs_walk fuel d path visited n :
    (max_depth < fuel + length path)%nat → d = (max_depth - length path)%nat →
    adds (mixin_dfs at_time clock max_depth max_paths fuel n path visited) (walk out ends d path visited n).
  Proof.
    revert d path visited n. induction fuel as [|fuel IH]; intros d path visited n Hfuel -> found tick s Hs.
    { exists tick, s. replace (max_depth - length path)%nat with O by lia. split; [|done]. cbn [walk]. by rewrite capped_nil. }
    cbn [mixin_dfs fst snd]. destruct (Nat.leb_spec max_paths (length found)); [exists tick, s; by rewrite capped_full|].
    destruct (Nat.leb_spec max_depth (length path)).
    { exists tick, s. replace (max_depth - length path)%nat with O by lia. split; [|done]. cbn [walk]. by rewrite capped_nil. }
    replace (max_depth - length path)%nat with (Datatypes.S (max_depth - length path - 1)) by lia. cbn [walk].
    destruct (decide (n ∈ visited)); [exists tick, s; by rewrite capped_nil|].
    destruct (Hout n (clock tick) s Hs) as (s1 & E1 & Hq1). unfold se_bind at 1. rewrite E1.
    destruct (out n) as [|e0 es] eqn:Eo.
    { exists (Datatypes.S tick), s1. split; [|done]. destruct path; [by rewrite capped_nil|by rewrite capped_one]. }
    rewrite <- Eo. apply adds_fold; [|done]. intros e He found' tick' s' Hs'. cbn [fst snd].
    destruct (Nat.leb_spec max_paths (length found')); [exists tick', s'; by rewrite capped_full|].
    destruct (Hends n e (clock tick') s' Hs' He) as (node & s2 & E2 & Hn & Hq2). rewrite (se_bind_ok _ _ _ _ _ E2), Hn.
    destruct (ends (ge_to_id e)).
    - exists (Datatypes.S tick'), s2. split; [|done]. by rewrite capped_one.
    - apply IH; [rewrite length_app; cbn; lia|rewrite length_app; cbn; lia|done].
  Qed.

  (** The search returns the first paths of the enumeration. *)
Lemma traverse_walk n s : quiet s →
    ∃ s', mixin_traverse at_time clock max_depth max_paths n s = (Ok (take max_paths (walk out ends max_depth [] [] n)), s') ∧ quiet s'.
  Proof.
    intros Hs. destruct (dfs_walk (Datatypes.S max_depth) max_depth [] [] n ltac:(lia) ltac:(cbn; lia) [] O s Hs) as (tick & s' & E & Hq).
    exists s'. split; [|done]. unfold mixin_traverse. rewrite (se_bind_ok _ _ _ _ _ E). unfold capped. cbn. by rewrite Nat.sub_0_r.
  Qed.
End enumerates.

(** The in-memory store's search, on which its own theorems are stated, is the inherited one. *)
Lemma memory_found g t clock max_depth max_paths start :
  GraphStore.traverse_attribution g (Some t) clock max_depth max_paths start
  = take max_paths (walk (outgoing_at g t) (is_terminal g) max_depth [] [] start).
Proof.
  unfold traverse_attribution. rewrite dfs_top by lia. rewrite walk_all_from.
  by rewrite (map_ext _ id) by done; rewrite map_id.
Qed.

Lemma memory_traverse g t clock max_depth max_paths start :
  mixin_traverse (Some t) clock max_depth max_paths start g
  = (Ok (GraphStore.traverse_attribution g (Some t) clock max_depth max_paths start), g).
Proof.
  destruct (traverse_walk (Some t) clock max_depth max_paths (λ s, s = g) (outgoing_at g t) (is_terminal g)) with (n := start) (s := g)
    as (s' & E & ->); [..|by rewrite memory_found].
  - intros id now s ->. by exists g.
  - intros id e now s -> _. by eexists _, g.
  - done.
Qed.

(** ** The nodes of the durable store *)

(** A row that reads as a node. *)
Definition row_reads (r : EntityRow) : Prop :=
  (∃ d, _json_load (VStr (row_properties_json r)) = Ok d) ∧
  (∃ c, row_created_at_iso r = isoformat c ∧ in_calendar c = true) ∧
  (∃ u, row_updated_at_iso r = isoformat u ∧ in_calendar u = true).

(** The nodes of the in-memory store are stored with their types; the others are ends of
    edges, with the type their id suggests. *)
Definition known_type (g : InMemoryGraphStore) (id : string) : NodeType :=
  match od_get id (nodes g) with Some m => gn_node_type m | None => _infer_node_type id end.

Definition nodes_back (g : InMemoryGraphStore) (n : neo_graph) : Prop :=
  (∀ id, od_get id (nodes g) ≠ None → od_get id (entities n) ≠ None) ∧
  (∀ id r, od_get id (entities n) = Some r → row_reads r ∧ row_node_type r = node_type_value (known_type g id)).

(** Operations whose nodes read back too. *)
Definition op_reads (o : graph_op * instant) : bool :=
  op_fits o.1 &&
  match o.1 with
  | OpUpsert now n => json_ok (VDict (gn_properties n)) && in_calendar (gn_created_at n) && in_calendar now
  | OpAdd _ _ => in_calendar o.2
  | _ => true
  end.

Lemma nodes_back_same g m n : same_graph m n → nodes_back g n → nodes_back g m.
Proof. intros [E _]. unfold nodes_back. by rewrite E. Qed.

Lemma upsert_get now node g id :
  od_get id (nodes (GraphStore.upsert_node now node g)) ≠ None ↔ id = gn_node_id node ∨ od_get id (nodes g) ≠ None.
Proof.
  unfold GraphStore.upsert_node. destruct (od_get (gn_node_id node) (nodes g)) eqn:E; cbn [nodes];
    rewrite od_get_set; case_decide; naive_solver.
Qed.

Lemma upsert_type now node g id :
  known_type (GraphStore.upsert_node now node g) id = if decide (id = gn_node_id node) then gn_node_type node else known_type g id.
Proof.
  unfold known_type, GraphStore.upsert_node. destruct (od_get (gn_node_id node) (nodes g)) eqn:E; cbn [nodes];
    rewrite od_get_set; by case_decide.
Qed.

Lemma nodes_back_upsert g n now node : nodes_back g n →
  json_ok (VDict (gn_properties node)) = true → in_calendar (gn_created_at node) = true → in_calendar now = true →
  nodes_back (GraphStore.upsert_node now node g)
    (cy_upsert_node (gn_node_id node) (node_type_value (gn_node_type node)) (gn_label node) (_json_dump (gn_properties node))
       (gn_tenant_id node) (isoformat (gn_created_at node)) (isoformat now) n).2.
Proof.
  intros [Hin Hrow] Hj Hc Hn. cbn [cy_upsert_node snd]. split; cbn [entities].
  - intros id [->|Hid]%upsert_get; rewrite od_get_set; case_decide; naive_solver.
  - intros id r. rewrite od_get_set, upsert_type. case_decide; [|apply Hrow]. intros [= <-].
    split; [|done]. split_and!; [by eexists; apply json_load_dump_ok| |by exists now].
    cbn [row_created_at_iso]. destruct (od_get (gn_node_id node) (entities n)) as [r|] eqn:E; [|by eexists].
    by apply Hrow in E as [(_ & ? & _) _].
Qed.

(** A merged end is an entity with the type its id suggests, unless it was one before. *)
Lemma merge_end_reads g es id c :
  in_calendar c = true →
  (∀ id, od_get id (nodes g) ≠ None → od_get id es ≠ None) →
  (∀ id r, od_get id es = Some r → row_reads r ∧ row_node_type r = node_type_value (known_type g id)) →
  let es' := cy_merge_end id (node_type_value (_infer_node_type id)) (_default_label id) (isoformat c) es in
  (∀ id, od_get id (nodes g) ≠ None → od_get id es' ≠ None) ∧
  (∀ id r, od_get id es' = Some r → row_reads r ∧ row_node_type r = node_type_value (known_type g id)).
Proof.
  intros Hc Hin Hrow. unfold cy_merge_end. destruct (od_get id es) as [r0|] eqn:E; [done|]. split.
  - intros id' Hid. rewrite od_get_set. case_decide; [done|by apply Hin].
  - intros id' r. rewrite od_get_set. case_decide; [|apply Hrow]. subst id'. intros [= <-]. split.
    + split_and!; [by exists []|by exists c|by exists c].
    + cbn [row_node_type]. unfold known_type. destruct (od_get id (nodes g)) eqn:Eg; [|done].
      exfalso. apply (Hin id); [by rewrite Eg|done].
Qed.

Lemma nodes_back_add g n now c e : nodes_back g n → in_calendar c = true →
  nodes_back (GraphStore.add_edge now e g)
    (cy_add_edge (rel_of e) (isoformat now) (isoformat c)
       (node_type_value (_infer_node_type (ge_from_id e))) (_default_label (ge_from_id e))
       (node_type_value (_infer_node_type (ge_to_id e))) (_default_label (ge_to_id e)) n).2.
Proof.
  intros [Hin Hrow] Hc. destruct (merge_end_reads g (entities n) (ge_from_id e) c Hc Hin Hrow) as [H1 H2].
  destruct (merge_end_reads g _ (ge_to_id e) c Hc H1 H2) as [H3 H4].
  assert (nodes (GraphStore.add_edge now e g) = nodes g) as En
    by (unfold GraphStore.add_edge; repeat case_match; done).
  unfold nodes_back, known_type. rewrite En. done.
Qed.

(** ** Both backends after a history *)

Section agreement.
  Context {D : Type} `{Neo4jServer D, !Neo4jServerLaws D} `{DateJson, !DateJsonLaws} `{!Neo4jUp D}.
  Abbreviation Store := (Neo4jGraphStore D).
  Abbreviation graph_of := (λ s : Store, contents (server s)).

Lemma run_neo_op_nodes o (s : Store) g : nodes_back g (graph_of s) → op_reads o = true →
    nodes_back (run_op g o.1) (graph_of (run_neo_op o s).2).
  Proof.
    intros Hb Hr. unfold op_reads in Hr. apply andb_true_iff in Hr as [_ Hr].
    destruct o as [[now n|now e|ty from to vt now|] c]; unfold run_neo_op; cbn [fst snd run_op] in *.
    - rewrite !andb_true_iff in Hr. destruct Hr as [[Hj Hc] Hn]. unfold upsert_node.
      match goal with |- context [_run ?f] => destruct (run_up f s) as (m & s' & E & G & S) end.
      rewrite (se_bind_ok _ _ _ _ _ E). cbn [se_ret snd]. rewrite G. apply nodes_back_upsert; [by eapply nodes_back_same|done..].
    - unfold add_edge. match goal with |- context [_run ?f] => destruct (run_up f s) as (m & s' & E & G & S) end.
      rewrite (se_bind_ok _ _ _ _ _ E). cbn [se_ret snd]. rewrite G. apply nodes_back_add; [by eapply nodes_back_same|done].
    - unfold close_edge. match goal with |- context [_run ?f] => destruct (run_up f s) as (m & s' & E & G & S) end.
      unfold se_bind. rewrite E. unfold se_lift. apply (nodes_back_same _ _ _ S) in Hb. 
      assert (nodes_back (GraphStore.close_edge ty from to vt now g).2 (graph_of s')) as Hc.
      { rewrite G. assert (nodes (GraphStore.close_edge ty from to vt now g).2 = nodes g) as En
          by (unfold GraphStore.close_edge; repeat case_match; done).
        unfold nodes_back, known_type. by rewrite En. }
      cbn [cy_close_edge fst]. by destruct (_as_int _ _).
    - unfold clear. match goal with |- context [_run ?f] => destruct (run_up f s) as (m & s' & E & G & S) end.
      rewrite (se_bind_ok _ _ _ _ _ E). cbn [se_ret snd]. rewrite G. split; cbn; naive_solver.
  Qed.

Lemma op_reads_fits o : op_reads o = true → op_fits o.1 = true.
  Proof. unfold op_reads. by intros [? _]%andb_true_iff. Qed.

Lemma run_neo_reads ops (s : Store) g : backs g (graph_of s) → nodes_back g (graph_of s) → Forall (λ o, op_reads o = true) ops →
    let s' := (run_neo ops s).2 in backs (run_ops (map fst ops) g) (graph_of s') ∧ nodes_back (run_ops (map fst ops) g) (graph_of s').
  Proof.
    revert s g. induction ops as [|o ops IH]; intros s g Hb Hn Hf; [done|]. apply Forall_cons in Hf as [Ho Hf].
    destruct (run_neo_op_backs o s g Hb (op_reads_fits o Ho)) as (s1 & E1 & B1).
    pose proof (run_neo_op_nodes o s g Hn Ho) as N1. rewrite E1 in N1. cbn [snd] in N1.
    specialize (IH s1 (run_op g o.1) B1 N1 Hf). cbn [run_neo map]. rewrite (se_bind_ok _ _ _ _ _ E1).
    cbn zeta in *. unfold se_bind. change (run_ops (o.1 :: map fst ops) g) with (run_ops (map fst ops) (run_op g o.1)).
    by destruct (run_neo ops s1) as [[]].
  Qed.

  (** A read of a node of the graph, which stays as it is. *)
Lemma read_node_back g (n : neo_graph) id now (s : Store) : nodes_back g n → same_graph (graph_of s) n →
    ∃ node s', get_node id now s = (Ok node, s') ∧ same_graph (graph_of s') n ∧
      match node with Some m => gn_node_id m = id ∧ gn_node_type m = known_type g id | None => od_get id (nodes g) = None end.
  Proof.
    intros [Hin Hrow] Hs. unfold get_node. destruct (run_up (cy_get_node id) s) as (m & s' & E & G & S).
    assert (same_graph m n) as Sm by (destruct S, Hs; split; congruence).
    rewrite (se_bind_ok _ _ _ _ _ E). cbn [cy_get_node fst snd] in *. destruct Sm as [Se Sr]. rewrite Se.
    assert (same_graph (graph_of s') n) as Ss by (by rewrite G).
    destruct (od_get id (entities n)) as [r|] eqn:Er; cbn [fmap option_fmap option_map].
    - destruct (Hrow id r Er) as [((d & Hd) & (c & Hc & Hcc) & (u & Hu & Huc)) Hty].
      unfold se_bind, se_lift, se_ret. rewrite (entity_read id r _ d c u now) by done. eexists _, s'. split; [done|]. split; done.
    - exists None, s'. split; [done|]. split; [done|]. destruct (od_get id (nodes g)) eqn:Eg; [|done].
      exfalso. apply (Hin id); [by rewrite Eg|done].
  Qed.

  (** What the durable store reads from a node. *)
Definition rows_out (t : instant) (n : neo_graph) (id : string) : list GraphEdge :=
    match each (λ r, _deserialize_edge r 0) (cy_get_edges (λ A, @order_by D _ A) rel_from id (isoformat t) n).1 with
    | Ok l => l
    | Raise _ => []
    end.

Lemma read_edges_back g (n : neo_graph) t id now (s : Store) : backs g n → in_calendar t = true → same_graph (graph_of s) n →
    rows_out t n id ≡ₚ outgoing_at g t id ∧
    ∃ s', get_edges_from id (Some t) now s = (Ok (rows_out t n id), s') ∧ same_graph (graph_of s') n.
  Proof.
    intros Hb Ht Hs. destruct (edge_rows_read rel_from ge_from_id id t g n) as (l & El & P & _); [done..|].
    assert (rows_out t n id = l) as -> by (unfold rows_out; by rewrite El). split.
    - rewrite P. unfold outgoing_at. rewrite edges_from_scan by apply Hb. done.
    - unfold get_edges_from, get_edges. change (default now (Some t)) with t.
      destruct (run_up (cy_get_edges (λ A, @order_by D _ A) rel_from id (isoformat t)) s) as (m & s' & E & G & S).
      exists s'. rewrite (se_bind_ok _ _ _ _ _ E). unfold cy_get_edges in G |- *. cbn [fst snd] in *.
      assert (rels m = rels n) as -> by (destruct S, Hs; congruence). unfold se_lift.
      unfold cy_get_edges in El. cbn [fst] in El. rewrite El. split; [done|]. rewrite G. destruct S, Hs. split; congruence.
  Qed.

(** C16. The search over the durable backend finds what the search over the in-memory one
    finds: after the same history of operations, whose nodes and edges the schema admits, and
    on a server that answers, the search at an instant of the calendar returns without an
    exception as many paths as in memory, each an attribution path of the graph, and below the
    cap exactly those of the in-memory store. Ends of edges that were never recorded must not
    look like a cost center or a budget: the durable store gives them a node with the type
    their id suggests. *)
Theorem neo4j_traversal_agrees (ops : list (graph_op * instant)) (d : D) (t : instant) (clock : nat → instant)
    (max_depth max_paths : nat) (start : string)
    (Hempty : contents d = empty_neo) (Hreads : Forall (λ o, op_reads o = true) ops) (Ht : in_calendar t = true)
    (Hends : let g := run_ops (map fst ops) InMemoryGraphStore_init in
             ∀ e, e ∈ edges g → od_get (ge_to_id e) (nodes g) = None →
               bool_decide (_infer_node_type (ge_to_id e) = NT_COST_CENTER ∨ _infer_node_type (ge_to_id e) = NT_BUDGET) = false) :
    let g := run_ops (map fst ops) InMemoryGraphStore_init in
    let memory := GraphStore.traverse_attribution g (Some t) clock max_depth max_paths start in
    ∃ found s', mixin_traverse (Some t) clock max_depth max_paths start (run_neo ops (Neo4jGraphStore_init d)).2 = (Ok found, s') ∧
      length found = length memory ∧ (∀ p, p ∈ found → attribution_path g t max_depth start p) ∧
      ((length memory < max_paths)%nat → found ≡ₚ memory).
  Proof.
    intros g memory. destruct (run_neo_reads ops (Neo4jGraphStore_init d) InMemoryGraphStore_init) as [Hb Hn]; [..|done|].
    { cbn [server Neo4jGraphStore_init]. rewrite Hempty. apply backs_init. }
    { cbn [server Neo4jGraphStore_init]. rewrite Hempty. split; cbn; naive_solver. }
    fold g in Hb, Hn. set (s := (run_neo ops (Neo4jGraphStore_init d)).2) in *. set (n := graph_of s) in *.
    pose proof Hb as (Hwf & _ & _).
    destruct (traverse_walk (Some t) clock max_depth max_paths (λ s, same_graph (graph_of s) n) (rows_out t n) (is_terminal g)) with
      (n := start) (s := s) as (s' & E & _).
    - intros id now s1 Hs1. by destruct (read_edges_back g n t id now s1 Hb Ht Hs1).
    - intros id e now s1 Hs1 He. destruct (read_node_back g n (ge_to_id e) now s1 Hn Hs1) as (node & s2 & E2 & Hs2 & Hnode).
      exists node, s2. split; [done|]. split; [|done]. unfold is_terminal, GraphStore.get_node.
      destruct (read_edges_back g n t id now s1 Hb Ht Hs1) as [Hp _]. rewrite Hp in He. apply elem_of_outgoing in He as (_ & He & _); [|done].
      destruct node as [m|]; [|by rewrite Hnode]. destruct Hnode as [_ Hty]. cbn [ends_path]. rewrite Hty. unfold known_type.
      destruct (od_get (ge_to_id e) (nodes g)) eqn:Eg; [done|]. by apply Hends.
    - done.
    - assert (walk (rows_out t n) (is_terminal g) max_depth [] [] start ≡ₚ walk (outgoing_at g t) (is_terminal g) max_depth [] [] start) as Hp.
      { apply walk_perm; [|done]. intros id. apply (read_edges_back g n t id 0 s Hb Ht). by split. }
      exists (take max_paths (walk (rows_out t n) (is_terminal g) max_depth [] [] start)), s'.
      split; [exact E|]. subst memory. rewrite memory_found. split; [by rewrite !length_take, Hp|]. split.
      + intros p Hp1. apply elem_of_take in Hp1 as (i & Hi%list_elem_of_lookup_2 & _). rewrite Hp, walk_all_from in Hi.
        rewrite (map_ext _ id), map_id in Hi by done. apply list_elem_of_filter in Hi as [Hne Hi].
        apply attribution_path_completes; [done|]. split; [done|]. apply all_from_completes; [done|intros x Hx; by apply elem_of_nil in Hx|done].
      + intros Hlt. rewrite length_take in Hlt. rewrite !take_ge by (rewrite ?Hp; lia). done.
  Qed.
End agreement.

(** ** Witnesses *)

(** A service attributed to a team, and the team to a cost center, by two routes. *)
Definition sample_chain : list (graph_op * instant) :=
  [(OpUpsert 1 (sample_node "svc" NT_INFERENCE_ENDPOINT), 1); (OpUpsert 1 (sample_node "cc:9" NT_COST_CENTER), 1);
   (OpAdd 7 (sample_edge "svc" "team:b" 7), 7); (OpAdd 5 (sample_edge "svc" "team:a" 5), 6);
   (OpAdd 8 (sample_edge "team:a" "cc:9" 5), 8); (OpAdd 9 (sample_edge "team:b" "cc:9" 5), 9)].

Lemma neo4j_traversal_agrees_witness :
  let memory := GraphStore.traverse_attribution (run_ops (map fst sample_chain) InMemoryGraphStore_init) (Some 10) (λ _, 0) 8 10 "svc" in
  map (map ge_to_id) memory = [["team:b"; "cc:9"]; ["team:a"; "cc:9"]] ∧
  ∃ found s', mixin_traverse (Some 10) (λ _, 0) 8 10 "svc" (run_neo sample_chain (Neo4jGraphStore_init empty_neo)).2 = (Ok found, s') ∧
    found ≡ₚ memory.
Proof.
  split; [vm_compute; reflexivity|].
  destruct (neo4j_traversal_agrees sample_chain empty_neo 10 (λ _, 0) 8 10 "svc") as (found & s' & E & _ & _ & P).
  - reflexivity.
  - repeat (constructor; [vm_compute; reflexivity|]). constructor.
  - reflexivity.
  - intros g e He. assert (Forall (λ e, od_get (ge_to_id e) (nodes g) = None →
      bool_decide (_infer_node_type (ge_to_id e) = NT_COST_CENTER ∨ _infer_node_type (ge_to_id e) = NT_BUDGET) = false) (edges g)) as Hall.
    { repeat (constructor; [intros Hn; first [discriminate Hn|vm_compute; reflexivity]|]). constructor. }
    rewrite Forall_forall in Hall. by apply Hall.
  - exists found, s'. split; [exact E|]. apply P. vm_compute. lia.
Defined.

(** An end that was never recorded and looks like a cost center ends a path in the durable
    store only: at the depth limit the in-memory search drops the path. *)
Example unrecorded_cost_center :
  let ops := [(OpAdd 5 (sample_edge "svc" "cc:9" 5), 5)] in
  GraphStore.traverse_attribution (run_ops (map fst ops) InMemoryGraphStore_init) (Some 10) (λ _, 0) 1 10 "svc" = [] ∧
  ∃ p s', mixin_traverse (Some 10) (λ _, 0) 1 10 "svc" (run_neo ops (Neo4jGraphStore_init empty_neo)).2 = (Ok [p], s') ∧
    map ge_to_id p = ["cc:9"].
Proof. split; [vm_compute; reflexivity|]. eexists _, _. split; [vm_compute; reflexivity|reflexivity]. Qed.
