(* ===== verification/Processor.v ===== *)
(** * The attribution processor (src/aci/core/processor.py)

    The event handlers that join the graph, the reconciliation engine, calibration, policies
    and the index, as computations in [SE] over the state of all of them. The wall clock is
    a stream read at consecutive ticks; the components' parameters are section parameters.
    Attribute values are those that event validation leaves: texts, numbers, booleans, maps. *)

From S2P Require Import Prelude PyFloat PyData PyMath PyTime PyValue Models IndexStore GraphStore Combination HreMethods HreEngine Calibration Policy EventSchema.
From Stdlib Require Import ZArith QArith Ascii Lia Lqa.
From stdpp Require Import base list strings sets gmap.

Open Scope string_scope.
Open Scope list_scope.
Open Scope Z_scope.
Local Open Scope py_scope.

(** ** Attribute values *)

(** [a or b] *)
Definition py_or (a b : pyval) : pyval := if truthy a then a else b.

(** A text field of a model. *)
Definition text_of (v : pyval) : res string :=
  match v with VStr s => Ok s | _ => Raise (ValueError "string") end.

Definition bool_of (v : pyval) : res bool :=
  match v with VBool b => Ok b | _ => Raise (ValueError "bool") end.

Definition number_of (v : pyval) : res pyfloat :=
  match v with VFloat x => Ok x | VInt z => Ok (of_Z z) | _ => Raise (ValueError "float") end.

(** [target_arn.split("/")[-1]] when it has a slash, else the text itself. *)
Definition last_segment (s : string) : string := default s (last (split_on "/"%char s)).

(** The keys of the policy dictionary that the materializer reads. *)
Definition policy_context_of (d : odict string pyval) : PolicyContext :=
  let money k := match od_get k d with
                 | Some (VFloat x) => Some (Some x) | Some _ => Some None | None => None end in
  let count k := match od_get k d with
                 | Some (VInt z) => Some (Some z) | Some _ => Some None | None => None end in
  mkPolicyContext
    (match od_get "model_allowlist" d with
     | Some (VList l) => Some (omap (λ v, match v with VStr s => Some s | _ => None end) l) | _ => None end)
    (money "budget_remaining_usd") (money "budget_limit_usd")
    (count "token_budget_output") (count "token_budget_input")
    (money "cost_ceiling_per_request_usd") None None.

(** [method.split("+")[0] if "+" in method else method] *)
Definition primary_method (method : string) : string := default method (head (split_on "+"%char method)).

Definition resource_prefix : string := "resource:".
Definition endpoint_prefix : string := "endpoint:".

(** [_candidate_graph_node_ids] *)
Definition _candidate_graph_node_ids (workload_id : string) : list string :=
  let candidates :=
    if startswith workload_id resource_prefix || startswith workload_id endpoint_prefix then [workload_id]
    else [workload_id; resource_prefix +:+ workload_id; endpoint_prefix +:+ workload_id] in
  od_keys (fold_left (λ d k, od_set k tt d) candidates []).

(** A node that may own a workload. *)
Definition owner_node (g : InMemoryGraphStore) (id : string) : option GraphNode :=
  match get_node g id with
  | Some n => match gn_node_type n with NT_TEAM | NT_PERSON => Some n | _ => None end
  | None => None
  end.

(** The owners the loops of R1 visit, in order: the last one is the mapping. *)
Definition direct_owners (g : InMemoryGraphStore) (workload_id : string) (event_time : instant) : list string :=
  flat_map (λ id, omap (λ e, gn_node_id <$> owner_node g (ge_to_id e)) (get_edges_from g id (Some event_time) event_time))
           (_candidate_graph_node_ids workload_id).

(** Labels of the repositories a team owns at [now]. *)
Definition team_repositories (g : InMemoryGraphStore) (team_id : string) (now : instant) : list string :=
  omap (λ e, match get_node g (ge_to_id e) with
             | Some n => match gn_node_type n with NT_REPOSITORY => Some (gn_label n) | _ => None end
             | None => None end) (get_edges_from g team_id None now).

(** ** The processor *)

Record Processor (R : Type) := mkProcessor {
  pr_graph : InMemoryGraphStore;
  pr_hre : Engine;
  pr_calibration : CalibrationEngine;
  pr_index : AttributionIndexStore R;
  pr_policies : PolicyEngine;
  pr_processed_count : Z;
  pr_ticks : nat;
}.
Arguments mkProcessor {R}.
Arguments pr_graph {R}.
Arguments pr_hre {R}.
Arguments pr_calibration {R}.
Arguments pr_index {R}.
Arguments pr_policies {R}.
Arguments pr_processed_count {R}.
Arguments pr_ticks {R}.

Section processor.
  Context {R : Type} `{RedisServer R} `{LuaText} `{EntryJson} `{SetOrder} `{NumLib}.
  Context (local_to_utc : Z → instant) (monotonic : nat → pyfloat) (wall_now : nat → instant).
  Context (combination_config : CombinationConfig) (hre_cfg : HREExecutionConfig).
  Context (conf_config : ConfidenceConfig) (icfg : IndexConfig) (mcfg : MaterializerConfig).

Abbreviation P := (Processor R).

Definition set_graph (g : InMemoryGraphStore) (p : P) : P :=
    mkProcessor g (pr_hre p) (pr_calibration p) (pr_index p) (pr_policies p) (pr_processed_count p) (pr_ticks p).
Definition set_hre (h : Engine) (p : P) : P :=
    mkProcessor (pr_graph p) h (pr_calibration p) (pr_index p) (pr_policies p) (pr_processed_count p) (pr_ticks p).
Definition set_calibration (c : CalibrationEngine) (p : P) : P :=
    mkProcessor (pr_graph p) (pr_hre p) c (pr_index p) (pr_policies p) (pr_processed_count p) (pr_ticks p).
Definition set_index (i : AttributionIndexStore R) (p : P) : P :=
    mkProcessor (pr_graph p) (pr_hre p) (pr_calibration p) i (pr_policies p) (pr_processed_count p) (pr_ticks p).

  (** [self._processed_count += 1] *)
Definition count_event : SE P unit := se_modify (λ p,
    mkProcessor (pr_graph p) (pr_hre p) (pr_calibration p) (pr_index p) (pr_policies p)
                (pr_processed_count p + 1) (pr_ticks p)).

  (** [datetime.now(UTC)] *)
Definition read_now : SE P instant := λ p,
    (Ok (wall_now (pr_ticks p)),
     mkProcessor (pr_graph p) (pr_hre p) (pr_calibration p) (pr_index p) (pr_policies p)
                 (pr_processed_count p) (S (pr_ticks p))).

  (** Calls to the components. *)
Definition on_graph (f : instant → InMemoryGraphStore → InMemoryGraphStore) : SE P unit :=
    let! now := read_now in se_modify (λ p, set_graph (f now (pr_graph p)) p).

Definition call_hre {A} (m : SE Engine A) : SE P A := λ p,
    let '(r, h) := m (pr_hre p) in (r, set_hre h p).

Definition call_calibration {A} (m : SE CalibrationEngine A) : SE P A := λ p,
    let '(r, c) := m (pr_calibration p) in (r, set_calibration c p).

Definition call_index {A} (f : AttributionIndexStore R → res A * AttributionIndexStore R) : SE P A := λ p,
    let '(r, i) := f (pr_index p) in (r, set_index i p).

  (** The naming patterns of the teams; one clock reading per team. *)
Fixpoint collect_patterns (teams : list GraphNode) (acc : odict string (list string)) : SE P (odict string (list string)) :=
    match teams with
    | [] => se_ret acc
    | team :: rest =>
        let! now := read_now in
        let! g := se_get pr_graph in
        let patterns := team_repositories g (gn_node_id team) now in
        collect_patterns rest (match patterns with [] => acc | _ => od_set (gn_node_id team) patterns acc end)
    end.

Definition _build_context (workload_id : string) (event_time : instant) (tenant_id : string) : SE P ReconciliationContext :=
    let! g := se_get pr_graph in
    let identity := match last (direct_owners g workload_id event_time) with
                    | Some target => [(workload_id, target)] | None => [] end in
    let! naming := collect_patterns (get_nodes_by_type g NT_TEAM) [] in
    se_ret (mkContext tenant_id identity [] naming [] [] [] [] []).

Definition with_confidence (r : AttributionResult) (c : pyfloat) : AttributionResult :=
    mkResult (ar_workload_id r) (ar_attribution_path r) c (ar_explanation r)
             (ar_fractional_attributions r) (ar_conflicts r).

Definition workload_of (event : DomainEvent) : string :=
    let attrs := ev_attributes event in
    py_str (py_or (dget attrs "service_name" VNone)
              (py_or (dget attrs "cloud_resource_arn" VNone) (VStr (ev_subject_id event)))).

  (** Calibrate, collect the team's policies and materialize. *)
Definition publish_result (result : AttributionResult) : SE P unit :=
    let method := match ar_explanation result with Some x => ex_method_used x | None => "unknown" end in
    let! cal := se_get pr_calibration in
    let! calibrated := se_lift (calibrate conf_config cal (primary_method method) (ar_combined_confidence result)) in
    let result := with_confidence result calibrated in
    let team_id := match ar_explanation result with Some x => ex_target_entity x | None => "" end in
    let! policies := se_get pr_policies in
    let! ctx := se_lift (policy_ctx policies team_id) in
    let! now := read_now in
    let! entry := call_index (materialize_attribution icfg mcfg now result
                    (match ctx with [] => None | _ => Some (policy_context_of ctx) end)) in
    se_ret tt.

Definition _handle_inference (event : DomainEvent) : SE P unit :=
    let workload_id := workload_of event in
    let! context := _build_context workload_id (ev_event_time event) (ev_tenant_id event) in
    let! result := call_hre (resolve local_to_utc monotonic combination_config hre_cfg workload_id
                               "inference_endpoint" (Aware (ev_event_time event) 0) context) in
    (if flt f0 (ar_combined_confidence result) then publish_result result else se_ret tt);;;
    count_event.

  (** A new node; its two timestamps are read from the clock. *)
Definition new_node (node_id : string) (t : NodeType) (label : string) (properties : odict string pyval) : SE P GraphNode :=
    let! created := read_now in
    let! updated := read_now in
    se_ret (mkNode node_id t label properties "" created updated).

Definition new_edge (t : EdgeType) (from_id to_id : string) (valid_from : instant) (source : string) (created : instant)
      : GraphEdge :=
    mkEdge t from_id to_id f1 f1 valid_from None (mkProvenance source "R1" [] created) None.

  (** Build an edge, stamping its provenance, and add it. *)
Definition add_new_edge (t : EdgeType) (from_id to_id : string) (valid_from : instant) (source : string) : SE P unit :=
    let! created := read_now in
    on_graph (λ now, add_edge now (new_edge t from_id to_id valid_from source created)).

Definition deploy_id (event : DomainEvent) : string :=
    "deploy:" +:+ py_str (dget (ev_attributes event) "deploy_job_id" (VStr (ev_event_id event))).

Definition _handle_deployment (event : DomainEvent) : SE P unit :=
    let attrs := ev_attributes event in
    let deployer := dget attrs "deployer_identity" (VStr "") in
    let target_arn := dget attrs "target_resource_arn" (VStr "") in
    let! label := se_lift (text_of (dget attrs "service_name" (VStr ""))) in
    let! deploy := new_node (deploy_id event) NT_DEPLOYMENT label attrs in
    on_graph (λ now, upsert_node now deploy);;;
    (if truthy target_arn then
       let! arn := se_lift (text_of target_arn) in
       let! resource := new_node (resource_prefix +:+ arn) NT_CLOUD_RESOURCE (last_segment arn) [] in
       on_graph (λ now, upsert_node now resource);;;
       add_new_edge TRIGGERS (deploy_id event) (resource_prefix +:+ arn) (ev_event_time event) "cicd"
     else se_ret tt);;;
    (if truthy deployer
     then add_new_edge DEPLOYED_BY ("person:" +:+ py_str deployer) (deploy_id event) (ev_event_time event) "cicd"
     else se_ret tt);;;
    count_event.

Definition with_properties (n : GraphNode) (properties : odict string pyval) : GraphNode :=
    mkNode (gn_node_id n) (gn_node_type n) (gn_label n) properties (gn_tenant_id n) (gn_created_at n) (gn_updated_at n).

Definition billed (attrs : odict string pyval) (n : GraphNode) : GraphNode :=
    with_properties n (od_set "billing_tags" (dget attrs "tags" (VDict []))
                         (od_set "last_billed_cost_usd" (dget attrs "cost_usd" (VFloat f0)) (gn_properties n))).

Definition _handle_billing (event : DomainEvent) : SE P unit :=
    let attrs := ev_attributes event in
    let resource_arn := dget attrs "resource_arn" (VStr "") in
    (if truthy resource_arn then
       let! g := se_get pr_graph in
       match get_node g (resource_prefix +:+ py_str resource_arn) with
       | Some node => on_graph (λ now, upsert_node now (billed attrs node))
       | None => se_ret tt
       end
     else se_ret tt);;;
    count_event.

  (** The label of a correction event. *)
Definition label_of (attrs : odict string pyval) : res GroundTruthLabel :=
    let text k := text_of (dget attrs k (VStr "")) in
    let? attribution_id := text "attribution_id" in
    let? true_team_id := text "true_team_id" in
    let? true_cost_center_id := text "true_cost_center_id" in
    let? predicted_team_id := text "predicted_team_id" in
    let? predicted_confidence := number_of (dget attrs "predicted_confidence" (VFloat f0)) in
    let? method_used := text "method_used" in
    let? was_correct := bool_of (dget attrs "was_correct" (VBool false)) in
    Ok (mkLabel attribution_id true_team_id true_cost_center_id "user_correction" predicted_team_id
                predicted_confidence method_used was_correct).

Definition _handle_correction (event : DomainEvent) : SE P unit :=
    let! label := se_lift (label_of (ev_attributes event)) in
    call_calibration (add_ground_truth conf_config label);;;
    count_event.

Definition person_id (event : DomainEvent) : string :=
    "person:" +:+ py_str (dget (ev_attributes event) "person_id" (VStr "")).

Definition _handle_org_change (event : DomainEvent) : SE P unit :=
    let attrs := ev_attributes event in
    let old_team := dget attrs "previous_team" (VStr "") in
    let new_team := dget attrs "new_team" (VStr "") in
    if negb (truthy (dget attrs "person_id" VNone)) then count_event else
    (if truthy old_team && negb (py_eq old_team new_team)
     then on_graph (λ now g, (close_edge MEMBER_OF (person_id event) ("team:" +:+ py_str old_team)
                                         (Some (ev_event_time event)) now g).2)
     else se_ret tt);;;
    (if truthy new_team && negb (py_eq old_team new_team)
     then add_new_edge MEMBER_OF (person_id event) ("team:" +:+ py_str new_team) (ev_event_time event) "hr"
     else se_ret tt);;;
    count_event.

  (** The subscriptions of the constructor. *)
Definition handler (t : EventType) : option (DomainEvent → SE P unit) :=
    match t with
    | INFERENCE_REQUEST => Some _handle_inference
    | DEPLOYMENT => Some _handle_deployment
    | BILLING_LINE_ITEM => Some _handle_billing
    | ATTRIBUTION_CORRECTION => Some _handle_correction
    | ORG_CHANGE => Some _handle_org_change
    | _ => None
    end.

Definition process (event : DomainEvent) : SE P unit :=
    match handler (ev_event_type event) with Some h => h event | None => se_ret tt end.

Definition stats (p : P) : Z * Z * Z * Z :=
    let '(total_nodes, total_edges, _, _) := get_stats (pr_graph p) in
    (pr_processed_count p, total_nodes, total_edges, Z.of_nat (IndexStore.size (pr_index p))).

Definition Processor_init (redis : option R) (policies : PolicyEngine) : P :=
    mkProcessor InMemoryGraphStore_init Engine_init CalibrationEngine_init (AttributionIndexStore_init redis) policies 0 0.
End processor.

(** ** Lemmas: what a handler leaves *)

Section invariant.
  Context {R : Type} `{RedisServer R} `{LuaText} `{EntryJson} `{SetOrder} `{NumLib}.
  Context (local_to_utc : Z → instant) (monotonic : nat → pyfloat) (wall_now : nat → instant).
  Context (combination_config : CombinationConfig) (hre_cfg : HREExecutionConfig).
  Context (conf_config : ConfidenceConfig) (icfg : IndexConfig) (mcfg : MaterializerConfig).
  Context (Hcap : unit_itv (cap combination_config) = true) (Hhre : (0 <= cache_max_entries hre_cfg)%Z).
  Context (Hconf : unit_itv (cc_cap conf_config) = true) (Hmax : 1 <= max_entries icfg).

Abbreviation P := (Processor R).

  (** The invariants of all components together. *)
Definition processor_inv (p : P) : Prop :=
    graph_wf (pr_graph p) ∧ hre_inv monotonic hre_cfg (pr_hre p) ∧
    calibration_inv (pr_calibration p) ∧ index_wf icfg (pr_index p).

  (** Kept whether the computation returns or raises. *)
Abbreviation keeps m := (se_inv processor_inv m).

Lemma keeps_get {A} (f : P → A) (k : A → SE P unit) : (∀ a, keeps (k a)) → keeps (se_bind (se_get f) k).
  Proof. intros Hk. apply inv_bind; [by intros p|done]. Qed.

Lemma keeps_now : keeps (read_now wall_now).
  Proof. by intros p. Qed.

Lemma keeps_count : keeps count_event.
  Proof. by intros p. Qed.

Lemma keeps_graph f : (∀ now g, graph_wf g → graph_wf (f now g)) → keeps (on_graph wall_now f).
  Proof.
    intros Hf. apply inv_bind; [apply keeps_now|]. intros now p (Hg & Hr). split; [by apply Hf|done].
  Qed.

Lemma keeps_add_new t a b from src : keeps (add_new_edge wall_now t a b from src).
  Proof. apply inv_bind; [apply keeps_now|]. intros created. apply keeps_graph. intros. by apply add_edge_wf. Qed.

Lemma keeps_node id t l ps : keeps (new_node wall_now id t l ps).
  Proof. apply inv_bind; [apply keeps_now|]. intros. apply inv_bind; [apply keeps_now|]. intros. by intros p. Qed.

Lemma keeps_if {A} (b : bool) (m n : SE P A) : keeps m → keeps n → keeps (if b then m else n).
  Proof. by destruct b. Qed.

Lemma materialize_wf now r pc s : index_wf icfg s → index_wf icfg (materialize_attribution icfg mcfg now r pc s).2.
  Proof.
    intros Hs. unfold materialize_attribution. destruct (entry_of_result mcfg now r) as [e|x]; [|done].
    unfold materialize.
    destruct (materialize_local_spec icfg now (match pc with Some p => _apply_policy_context e p | None => e end) s Hmax Hs)
      as (s' & -> & Hs' & _). cbn [snd]. by apply write_durable_wf.
  Qed.

Lemma keeps_publish r : keeps (publish_result wall_now conf_config icfg mcfg r).
  Proof.
    unfold publish_result. apply keeps_get. intros cal. apply inv_bind; [apply inv_lift|]. intros c.
    apply keeps_get. intros ps. apply inv_bind; [apply inv_lift|]. intros ctx.
    apply inv_bind; [apply keeps_now|]. intros now. apply inv_bind; [|by intros _ p].
    intros p (Hg & Hh & Hc & Hi). unfold call_index.
    pose proof (materialize_wf now (with_confidence r c)
      (match ctx with [] => None | _ => Some (policy_context_of ctx) end) (pr_index p) Hi) as Hw.
    destruct (materialize_attribution _ _ _ _ _ _) as [res i]. by split_and!.
  Qed.

Lemma collect_patterns_spec teams acc (p : P) :
    ∃ naming n, collect_patterns wall_now teams acc p
      = (Ok naming, mkProcessor (pr_graph p) (pr_hre p) (pr_calibration p) (pr_index p) (pr_policies p)
                                (pr_processed_count p) n).
  Proof.
    revert acc p; induction teams as [|t teams IH]; intros acc p; [exists acc, (pr_ticks p); by destruct p|].
    cbn [collect_patterns].
    rewrite (se_bind_ok _ _ _ (wall_now (pr_ticks p)) (mkProcessor (pr_graph p) (pr_hre p) (pr_calibration p)
      (pr_index p) (pr_policies p) (pr_processed_count p) (S (pr_ticks p)))) by done.
    unfold se_bind at 1. cbn [se_get].
    destruct (IH (match team_repositories (pr_graph p) (gn_node_id t) (wall_now (pr_ticks p)) with
      | [] => acc | _ => od_set (gn_node_id t) (team_repositories (pr_graph p) (gn_node_id t) (wall_now (pr_ticks p))) acc end)
      (mkProcessor (pr_graph p) (pr_hre p) (pr_calibration p)
      (pr_index p) (pr_policies p) (pr_processed_count p) (S (pr_ticks p)))) as (naming & n & E).
    exists naming, n. exact E.
  Qed.

  (** The context of a workload; only the clock moves. *)
Lemma build_context_spec wid t tenant (p : P) :
    ∃ naming n, _build_context wall_now wid t tenant p
      = (Ok (mkContext tenant (match last (direct_owners (pr_graph p) wid t) with
                               | Some target => [(wid, target)] | None => [] end) [] naming [] [] [] [] []),
         mkProcessor (pr_graph p) (pr_hre p) (pr_calibration p) (pr_index p) (pr_policies p)
                     (pr_processed_count p) n).
  Proof.
    unfold _build_context. unfold se_bind at 1. cbn [se_get].
    destruct (collect_patterns_spec (get_nodes_by_type (pr_graph p) NT_TEAM) [] p) as (naming & n & E).
    exists naming, n. by rewrite (se_bind_ok _ _ _ _ _ E).
  Qed.

Abbreviation inference := (_handle_inference local_to_utc monotonic wall_now combination_config hre_cfg conf_config icfg mcfg).

Lemma hre_call_inv wid ty t ctx (p : P) : context_ok ctx → processor_inv p →
    processor_inv (call_hre (resolve local_to_utc monotonic combination_config hre_cfg wid ty t ctx) p).2.
  Proof.
    intros Hctx (Hg & Hh & Hc & Hi). unfold call_hre.
    pose proof (resolve_wp local_to_utc monotonic combination_config hre_cfg Hcap Hhre wid ty t ctx (pr_hre p) Hh Hctx) as Hwp.
    unfold se_wp in Hwp. destruct (resolve _ _ _ _ _ _ _ _ (pr_hre p)) as [[r|x] h]; split_and!; try done; apply Hwp.
  Qed.

Lemma keeps_inference ev : keeps (inference ev).
  Proof.
    intros p Hp. unfold _handle_inference.
    destruct (build_context_spec (workload_of ev) (ev_event_time ev) (ev_tenant_id ev) p) as (naming & n & E).
    rewrite (se_bind_ok _ _ _ _ _ E).
    set (ctx := mkContext _ _ _ _ _ _ _ _ _). set (p1 := mkProcessor _ _ _ _ _ _ _).
    pose proof (hre_call_inv (workload_of ev) "inference_endpoint" (Aware (ev_event_time ev) 0) ctx p1
      ltac:(constructor) Hp) as Hp2.
    destruct (call_hre _ p1) as [[r|x] p2] eqn:E2; [|unfold se_bind at 1; by rewrite E2].
    rewrite (se_bind_ok _ _ _ _ _ E2). cbn [snd] in Hp2. revert p2 Hp2 E2. intros p2 Hp2 _.
    revert p2 Hp2. apply inv_bind; [|intros; apply keeps_count].
    apply keeps_if; [apply keeps_publish|apply inv_ret].
  Qed.

Lemma keeps_deployment ev : keeps (_handle_deployment wall_now ev).
  Proof.
    unfold _handle_deployment. apply inv_bind; [apply inv_lift|]. intros label.
    apply inv_bind; [apply keeps_node|]. intros node.
    apply inv_bind; [apply keeps_graph; intros; by apply upsert_wf|]. intros _.
    apply inv_bind; [apply keeps_if; [|apply inv_ret]|intros _; apply inv_bind; [apply keeps_if; [|apply inv_ret]|intros; apply keeps_count]].
    - apply inv_bind; [apply inv_lift|]. intros arn. apply inv_bind; [apply keeps_node|]. intros r.
      apply inv_bind; [|intros _; apply keeps_add_new]. apply keeps_graph. intros. by apply upsert_wf.
    - apply keeps_add_new.
  Qed.

Lemma keeps_billing ev : keeps (_handle_billing wall_now ev).
  Proof.
    unfold _handle_billing. apply inv_bind; [|intros; apply keeps_count].
    apply keeps_if; [|apply inv_ret]. apply keeps_get. intros g.
    destruct (get_node g _); [|apply inv_ret]. apply keeps_graph. intros. by apply upsert_wf.
  Qed.

Lemma keeps_correction ev : keeps (_handle_correction conf_config ev).
  Proof.
    intros p Hp. unfold _handle_correction.
    destruct (label_of (ev_attributes ev)) as [l|x] eqn:El; [|by unfold se_bind, se_lift].
    rewrite (se_bind_ok _ _ _ l p) by done. revert p Hp. apply inv_bind; [|intros; apply keeps_count].
    intros p (Hg & Hh & Hc & Hi). unfold call_calibration.
    pose proof (add_ground_truth_inv conf_config Hconf l (pr_calibration p) Hc) as Hc'.
    by destruct (add_ground_truth conf_config l (pr_calibration p)) as [r c].
  Qed.

Lemma keeps_org_change ev : keeps (_handle_org_change wall_now ev).
  Proof.
    unfold _handle_org_change. apply keeps_if; [apply keeps_count|].
    apply inv_bind; [apply keeps_if; [|apply inv_ret]|intros _; apply inv_bind; [apply keeps_if; [|apply inv_ret]|intros; apply keeps_count]].
    - apply keeps_graph. intros. by apply close_edge_wf.
    - apply keeps_add_new.
  Qed.

Abbreviation process_event := (process local_to_utc monotonic wall_now combination_config hre_cfg conf_config icfg mcfg).

Lemma keeps_process ev : keeps (process_event ev).
  Proof.
    unfold process, handler. destruct (ev_event_type ev);
      first [apply keeps_inference|apply keeps_deployment|apply keeps_billing|apply keeps_correction
            |apply keeps_org_change|apply inv_ret].
  Qed.

Lemma processor_inv_init redis ps : processor_inv (Processor_init redis ps).
  Proof.
    split_and!; [apply init_wf|by apply hre_inv_init|apply calibration_inv_init|].
    split_and!; simpl; [constructor|constructor|done|done|lia].
  Qed.

  (** The state after a sequence of events, whatever each handler did. *)
Definition process_all (evs : list DomainEvent) (p : P) : P := fold_left (λ p ev, (process_event ev p).2) evs p.

Lemma process_all_inv evs p : processor_inv p → processor_inv (process_all evs p).
  Proof.
    revert p; induction evs as [|ev evs IH]; intros p Hp; [done|]. cbn [process_all fold_left].
    apply IH. by apply keeps_process.
  Qed.

Lemma publish_keeps_policies r (p : P) :
    pr_policies (publish_result wall_now conf_config icfg mcfg r p).2 = pr_policies p.
  Proof.
    unfold publish_result. unfold se_bind at 1. cbn [se_get].
    destruct (calibrate conf_config (pr_calibration p) _ _) as [c|]; [|done].
    rewrite (se_bind_ok _ _ _ c p) by done. unfold se_bind at 1. cbn [se_get].
    destruct (policy_ctx (pr_policies p) _) as [ctx|]; [|done]. rewrite (se_bind_ok _ _ _ ctx p) by done.
    unfold se_bind, call_index, read_now. cbn. by destruct (materialize_attribution _ _ _ _ _ _) as [[e|x] i].
  Qed.

  (** What publishing a result puts into the index. *)
Lemma publish_result_spec r x (p : P) :
    processor_inv p → result_unit r → ar_explanation r = Some x →
    ∀ ctx, policy_ctx (pr_policies p) (ex_target_entity x) = Ok ctx →
    ∃ c entry p', publish_result wall_now conf_config icfg mcfg r p = (Ok tt, p') ∧
      calibrate conf_config (pr_calibration p) (primary_method (ex_method_used x)) (ar_combined_confidence r) = Ok c ∧
      od_get (ar_workload_id r) (_index (pr_index p')) = Some entry ∧
      ie_team_id entry = ex_target_entity x ∧ ie_method_used entry = ex_method_used x ∧
      ie_confidence entry = c ∧ unit_itv c = true ∧
      ie_model_allowlist entry = match pc_model_allowlist (policy_context_of ctx) with Some l => l | None => [] end ∧
      pr_graph p' = pr_graph p ∧ pr_hre p' = pr_hre p ∧ pr_calibration p' = pr_calibration p ∧
      pr_processed_count p' = pr_processed_count p.
  Proof.
    intros (Hg & Hh & Hc & Hi) Hr Hx ctx Hctx.
    destruct (calibrate_unit conf_config Hconf (pr_calibration p) (primary_method (ex_method_used x)) _ Hc Hr) as (c & Ec & Hu).
    set (p1 := mkProcessor (pr_graph p) (pr_hre p) (pr_calibration p) (pr_index p) (pr_policies p)
                 (pr_processed_count p) (S (pr_ticks p))).
    set (pc := match ctx with [] => None | _ => Some (policy_context_of ctx) end).
    set (now := wall_now (pr_ticks p)).
    destruct (entry_of_result_ok mcfg now (with_confidence r c) Hu) as (e & Ee & Hwid).
    set (e' := match pc with Some q => _apply_policy_context e q | None => e end).
    destruct (materialize_local_spec icfg now e' (pr_index p) Hmax Hi) as (s' & Em & Hs' & _ & _ & Hget).
    destruct (write_durable_local icfg (with_version e' (next_version (ie_workload_id e') (pr_index p)) now) s') as [Hwi _].
    assert (ie_workload_id e' = ar_workload_id r) as Hwid' by (subst e'; by destruct pc).
    exists c, (with_version e' (next_version (ie_workload_id e') (pr_index p)) now),
      (set_index (_write_durable_entry icfg (with_version e' (next_version (ie_workload_id e') (pr_index p)) now) s') p1).
    split.
    { unfold publish_result. unfold se_bind at 1. cbn [se_get]. rewrite Hx.
      rewrite (se_bind_ok _ _ _ c p) by (unfold se_lift; by rewrite Ec).
      unfold se_bind at 1. cbn [se_get].
      cbn zeta. cbn [ar_explanation with_confidence]. rewrite ?Hx.
      rewrite (se_bind_ok _ _ _ ctx p) by (unfold se_lift; by rewrite Hctx).
      rewrite (se_bind_ok _ _ _ now p1) by done.
      rewrite (se_bind_ok _ _ _ e' (set_index (_write_durable_entry icfg (with_version e' (next_version (ie_workload_id e') (pr_index p)) now) s') p1)); [done|].
      unfold call_index, materialize_attribution. cbn [pr_index p1]. rewrite Ee. fold pc. fold e'.
      unfold materialize. by rewrite Em. }
    unfold entry_of_result in Ee. cbn [with_confidence ar_combined_confidence] in Ee. rewrite Hu in Ee.
    cbn [with_confidence ar_explanation ar_workload_id] in Ee. rewrite Hx in Ee. apply Ok_inj in Ee.
    split_and!; try done.
    - cbn [pr_index set_index]. rewrite Hwi, <- Hwid'. exact Hget.
    - subst e' e. by destruct pc.
    - subst e' e. by destruct pc.
    - subst e' e. by destruct pc.
    - subst e' e pc. destruct ctx as [|kv ctx]; [done|]. cbn [_apply_policy_context ie_model_allowlist with_version].
      by destruct (pc_model_allowlist _).
  Qed.

Lemma primary_R1 : primary_method "R1" = "R1".
  Proof. reflexivity. Qed.

  (** What an inference leaves when the graph has a direct owner and nothing is cached. *)
Lemma inference_direct p ev target ctx :
    processor_inv p → (0 < cache_max_entries hre_cfg)%Z →
    last (direct_owners (pr_graph p) (workload_of ev) (ev_event_time ev)) = Some target →
    od_get (cache_key (ev_tenant_id ev) "inference_endpoint" (workload_of ev)) (hre_cache (pr_hre p)) = None →
    policy_ctx (pr_policies p) target = Ok ctx →
    ∃ c entry p' r x t, inference ev p = (Ok tt, p') ∧
      calibrate conf_config (pr_calibration p) "R1" f1 = Ok c ∧
      od_get (workload_of ev) (_index (pr_index p')) = Some entry ∧
      ie_team_id entry = target ∧ ie_method_used entry = "R1" ∧ ie_confidence entry = c ∧
      ie_model_allowlist entry = match pc_model_allowlist (policy_context_of ctx) with Some l => l | None => [] end ∧
      pr_processed_count p' = pr_processed_count p + 1 ∧ pr_policies p' = pr_policies p ∧
      od_get (cache_key (ev_tenant_id ev) "inference_endpoint" (workload_of ev)) (hre_cache (pr_hre p')) = Some (t, r) ∧
      ar_explanation r = Some x ∧ ex_target_entity x = target ∧ ar_workload_id r = workload_of ev ∧
      ar_combined_confidence r = f1 ∧ ∃ i, t = monotonic i.
  Proof.
    intros Hp Hpos Howner Hmiss Hctx.
    destruct (build_context_spec (workload_of ev) (ev_event_time ev) (ev_tenant_id ev) p) as (naming & n & E).
    rewrite Howner in E. set (rc := mkContext _ _ _ _ _ _ _ _ _) in E. set (p1 := mkProcessor _ _ _ _ _ _ _) in E.
    destruct (direct_match_resolves local_to_utc monotonic combination_config hre_cfg (pr_hre p)
      (mkRequest (workload_of ev) "inference_endpoint" (Aware (ev_event_time ev) 0) rc) target)
      as (r & h & x & Hs & Hh & Hwid & Hone & Hx & Htarget & Hmethod & _ & t & Ht); [apply Hp|done| |done|].
    { cbn. by rewrite decide_True. }
    assert (processor_inv (set_hre h p1)) as Hp2 by (split_and!; try apply Hp; done).
    assert (∃ i, t = monotonic i) as Hti.
    { destruct Hh as (_ & _ & Hall). rewrite Forall_forall in Hall. apply od_get_Some_in in Ht.
      destruct (Hall _ Ht) as (_ & i & _ & Ei). by exists i. }
    assert (result_unit r) as Hu by (unfold result_unit; by rewrite Hone).
    destruct (publish_result_spec r x (set_hre h p1) Hp2 Hu Hx ctx) as (c & entry & p3 & Hpub & Hcal & Hget &
      Hteam & Hmeth & Hconfid & _ & Hallow & Hg3 & Hh3 & Hc3 & Hcount); [by rewrite Htarget|].
    rewrite Hmethod, primary_R1, Hone in Hcal. rewrite Hwid in Hget.
    exists c, entry, (mkProcessor (pr_graph p3) (pr_hre p3) (pr_calibration p3) (pr_index p3) (pr_policies p3)
                       (pr_processed_count p3 + 1) (pr_ticks p3)), r, x, t.
    split_and!; try done.
    - unfold _handle_inference. rewrite (se_bind_ok _ _ _ _ _ E).
      rewrite (se_bind_ok _ _ _ r (set_hre h p1)).
      2: { unfold call_hre. change (pr_hre p1) with (pr_hre p). unfold serve in Hs. cbn [rq_entity_id rq_entity_type rq_event_time rq_context] in Hs. by rewrite Hs. }
      rewrite Hone. change (flt f0 f1) with true. cbn iota. by rewrite (se_bind_ok _ _ _ _ _ Hpub).
    - by rewrite Hteam.
    - by rewrite Hmeth.
    - cbn [pr_processed_count]. by rewrite Hcount.
    - pose proof (publish_keeps_policies r (set_hre h p1)) as Hk. rewrite Hpub in Hk. apply Hk.
    - cbn [pr_hre]. by rewrite Hh3.
  Qed.

  (** What an inference leaves while the engine holds a result for the workload. *)
Lemma inference_cached p ev r x t ctx :
    processor_inv p → let key := cache_key (ev_tenant_id ev) "inference_endpoint" (workload_of ev) in
    od_get key (hre_cache (pr_hre p)) = Some (t, r) →
    flt (cache_ttl_seconds hre_cfg) (fsub (monotonic (S (hre_ticks (pr_hre p)))) t) = false →
    ar_explanation r = Some x → ar_workload_id r = workload_of ev → flt f0 (ar_combined_confidence r) = true →
    policy_ctx (pr_policies p) (ex_target_entity x) = Ok ctx →
    ∃ entry p', inference ev p = (Ok tt, p') ∧
      od_get (workload_of ev) (_index (pr_index p')) = Some entry ∧ ie_team_id entry = ex_target_entity x.
  Proof.
    intros Hp key Ht Hfresh Hx Hwid Hpos Hctx.
    destruct (build_context_spec (workload_of ev) (ev_event_time ev) (ev_tenant_id ev) p) as (naming & n & E).
    set (rc := mkContext _ _ _ _ _ _ _ _ _) in E. set (p1 := mkProcessor _ _ _ _ _ _ _) in E.
    pose proof (cached_resolves local_to_utc monotonic combination_config hre_cfg (pr_hre p)
      (mkRequest (workload_of ev) "inference_endpoint" (Aware (ev_event_time ev) 0) rc) r t Ht Hfresh) as Hs.
    set (h := mkEngine _ _) in Hs.
    pose proof (hre_call_inv (workload_of ev) "inference_endpoint" (Aware (ev_event_time ev) 0) rc p1 ltac:(constructor) Hp) as Hp2.
    assert (call_hre (resolve local_to_utc monotonic combination_config hre_cfg (workload_of ev) "inference_endpoint"
      (Aware (ev_event_time ev) 0) rc) p1 = (Ok r, set_hre h p1)) as Ecall.
    { unfold call_hre. change (pr_hre p1) with (pr_hre p). unfold serve in Hs. cbn [rq_entity_id rq_entity_type rq_event_time rq_context] in Hs. by rewrite Hs. }
    rewrite Ecall in Hp2. cbn [snd] in Hp2.
    assert (result_unit r) as Hu.
    { destruct Hp as (_ & (_ & _ & Hall) & _). rewrite Forall_forall in Hall. apply od_get_Some_in in Ht.
      by destruct (Hall _ Ht) as (Hu & _). }
    destruct (publish_result_spec r x (set_hre h p1) Hp2 Hu Hx ctx Hctx) as (c & entry & p3 & Hpub & _ & Hget & Hteam & _).
    rewrite Hwid in Hget.
    exists entry, (mkProcessor (pr_graph p3) (pr_hre p3) (pr_calibration p3) (pr_index p3) (pr_policies p3)
                     (pr_processed_count p3 + 1) (pr_ticks p3)).
    split_and!; [|exact Hget|exact Hteam].
    unfold _handle_inference. rewrite (se_bind_ok _ _ _ _ _ E), (se_bind_ok _ _ _ _ _ Ecall), Hpos.
    by rewrite (se_bind_ok _ _ _ _ _ Hpub).
  Qed.
End invariant.

(** ** Lemmas: a change of organization *)

Lemma close_at_insert i t es e : es !! i = Some e → edge_open e = true → close_at i t es = <[i := with_valid_to e t]> es.
Proof. intros E Ho. unfold close_at. by rewrite E, Ho. Qed.

(** As-of reads after one edge was closed at [t] and one opened at [t], by the keys of the edges. *)
Lemma outgoing_after_move es i e t new who t' :
  es !! i = Some e → edge_open e = true → ge_from_id e = who →
  ge_from_id new = who → ge_valid_from new = t → ge_valid_to new = None →
  map key_of (filter (λ e, ge_from_id e = who ∧ valid_at t' e = true) (<[i := with_valid_to e t]> es ++ [new])) =
  if t' <? t then map key_of (filter (λ e, ge_from_id e = who ∧ valid_at t' e = true) es)
  else map key_of (filter (λ e, ge_from_id e = who ∧ valid_at t' e = true) (delete i es)) ++ [key_of new].
Proof.
  intros Hi Ho Hw Hn Hf Hv. pose proof (lookup_lt_Some _ _ _ Hi) as Hlen.
  rewrite insert_take_drop by done. rewrite delete_take_drop.
  rewrite <- (take_drop_middle es i e Hi) at 3.
  rewrite !filter_app, !filter_cons, filter_nil, !map_app.
  assert (valid_at t' new = (t <=? t')) as Hnew by (unfold valid_at; by rewrite Hf, Hv, andb_true_r).
  assert (edge_open e = true → ge_valid_to e = None) as Hopen by (unfold edge_open; by destruct (ge_valid_to e)).
  destruct (Z.ltb_spec t' t) as [Hlt|Hge].
  - assert (valid_at t' (with_valid_to e t) = valid_at t' e) as Hsame.
    { unfold valid_at. cbn [with_valid_to ge_valid_from ge_valid_to]. rewrite Hopen by done. by rewrite (proj2 (Z.ltb_lt t' t)). }
    rewrite (decide_False (P := ge_from_id new = who ∧ valid_at t' new = true)).
    2: { rewrite Hnew. intros [_ Hc]. apply Z.leb_le in Hc. lia. }
    rewrite app_nil_r. f_equal. rewrite Hsame. cbn [with_valid_to ge_from_id]. by case_decide.
  - rewrite (decide_False (P := ge_from_id (with_valid_to e t) = who ∧ valid_at t' (with_valid_to e t) = true)).
    2: { intros [_ Hc]. unfold valid_at in Hc. apply andb_prop in Hc as [_ Hc]. cbn in Hc. apply Z.ltb_lt in Hc. lia. }
    rewrite decide_True by (rewrite Hnew; split; [done|by apply Z.leb_le]). done.
Qed.

Section properties.
  Context {R : Type} `{RedisServer R} `{LuaText} `{EntryJson} `{SetOrder} `{NumLib}.
  Context (local_to_utc : Z → instant) (monotonic : nat → pyfloat) (wall_now : nat → instant).
  Context (combination_config : CombinationConfig) (hre_cfg : HREExecutionConfig).
  Context (conf_config : ConfidenceConfig) (icfg : IndexConfig) (mcfg : MaterializerConfig).

Abbreviation P := (Processor R).
Abbreviation handle_event := (process local_to_utc monotonic wall_now combination_config hre_cfg conf_config icfg mcfg).
Abbreviation inv := (processor_inv monotonic hre_cfg icfg).

(** C31. Whatever events arrive, in whatever order, with whatever attributes, and whether their
    handlers return or raise, every component the processor drives keeps its invariant: the
    graph's indexes agree with its edges, the reconciliation cache is bounded and holds
    confidences of the unit interval, every calibration curve is usable, and the index is
    bounded and agrees with its versions. *)
Theorem processor_reachable_inv (redis : option R) (policies : PolicyEngine) (evs : list DomainEvent)
    (Hcap : unit_itv (cap combination_config) = true) (Hhre : 0 <= cache_max_entries hre_cfg)
    (Hconf : unit_itv (cc_cap conf_config) = true) (Hmax : 1 <= max_entries icfg) :
    inv (process_all local_to_utc monotonic wall_now combination_config hre_cfg conf_config icfg mcfg evs
           (Processor_init redis policies)).
  Proof. apply process_all_inv; [done..|]. by apply processor_inv_init. Qed.

(** From event to index: an inference event whose workload is linked to a team or a person
    in the graph at the event's time is handled, counted, and leaves in the index an entry of
    that owner, by method R1, with the calibrated confidence of certainty and with the
    owner's model allowlist from the policies. *)
Theorem inference_attributes_owner (p : P) (ev : DomainEvent) (target : string) (ctx : odict string pyval)
    (Hconf : unit_itv (cc_cap conf_config) = true) (Hmax : 1 <= max_entries icfg)
    (Hp : inv p) (Hpos : 0 < cache_max_entries hre_cfg) (Hty : ev_event_type ev = INFERENCE_REQUEST)
    (Howner : last (direct_owners (pr_graph p) (workload_of ev) (ev_event_time ev)) = Some target)
    (Hmiss : od_get (cache_key (ev_tenant_id ev) "inference_endpoint" (workload_of ev)) (hre_cache (pr_hre p)) = None)
    (Hpolicy : policy_ctx (pr_policies p) target = Ok ctx) :
    ∃ c entry p', handle_event ev p = (Ok tt, p') ∧
      calibrate conf_config (pr_calibration p) "R1" f1 = Ok c ∧
      od_get (workload_of ev) (_index (pr_index p')) = Some entry ∧
      ie_team_id entry = target ∧ ie_method_used entry = "R1" ∧ ie_confidence entry = c ∧
      ie_model_allowlist entry = match pc_model_allowlist (policy_context_of ctx) with Some l => l | None => [] end ∧
      pr_processed_count p' = pr_processed_count p + 1.
  Proof.
    unfold process, handler. rewrite Hty.
    destruct (inference_direct local_to_utc monotonic wall_now combination_config hre_cfg conf_config icfg mcfg
      Hconf Hmax p ev target ctx Hp Hpos Howner Hmiss Hpolicy)
      as (c & entry & p' & r & x & t & K1 & K2 & K3 & K4 & K5 & K6 & K7 & K8 & _).
    exists c, entry, p'. by split_and!.
  Qed.

(** C32. A reassignment reaches the index late: after an inference was attributed to the owner the
    graph then named, the next inference of the same workload and tenant is attributed to the
    same owner whatever the graph has become in between - another team, an organization
    change already processed, even for an event dated after it - until the reconciliation
    cache's entry expires. *)
Theorem inference_reassignment_delayed (p p1 : P) (ev1 ev2 : DomainEvent) (old : string) (ctx : odict string pyval)
    (g : InMemoryGraphStore)
    (Hcap : unit_itv (cap combination_config) = true)
    (Hconf : unit_itv (cc_cap conf_config) = true) (Hmax : 1 <= max_entries icfg)
    (Hp : inv p) (Hpos : 0 < cache_max_entries hre_cfg)
    (Hty1 : ev_event_type ev1 = INFERENCE_REQUEST) (Hty2 : ev_event_type ev2 = INFERENCE_REQUEST)
    (Howner : last (direct_owners (pr_graph p) (workload_of ev1) (ev_event_time ev1)) = Some old)
    (Hmiss : od_get (cache_key (ev_tenant_id ev1) "inference_endpoint" (workload_of ev1)) (hre_cache (pr_hre p)) = None)
    (Hpolicy : policy_ctx (pr_policies p) old = Ok ctx)
    (Hsame : workload_of ev2 = workload_of ev1 ∧ ev_tenant_id ev2 = ev_tenant_id ev1)
    (Hfresh : ∀ i j, flt (cache_ttl_seconds hre_cfg) (fsub (monotonic j) (monotonic i)) = false)
    (Hg : graph_wf g)
    (Hfirst : handle_event ev1 p = (Ok tt, p1)) :
    ∃ entry p2, handle_event ev2 (set_graph g p1) = (Ok tt, p2) ∧
      od_get (workload_of ev2) (_index (pr_index p2)) = Some entry ∧ ie_team_id entry = old.
  Proof.
    assert (0 <= cache_max_entries hre_cfg) as Hhre by lia.
    pose proof (keeps_process local_to_utc monotonic wall_now combination_config hre_cfg conf_config icfg mcfg
      Hcap Hhre Hconf Hmax ev1 p Hp) as Hinv. rewrite Hfirst in Hinv. cbn [snd] in Hinv.
    unfold process, handler in Hfirst |- *. rewrite Hty1 in Hfirst. rewrite Hty2.
    destruct (inference_direct local_to_utc monotonic wall_now combination_config hre_cfg conf_config icfg mcfg
      Hconf Hmax p ev1 old ctx Hp Hpos Howner Hmiss Hpolicy)
      as (c & entry & p' & r & x & t & Hrun & _ & _ & _ & _ & _ & _ & _ & Hps & Ht & Hx & Htarget & Hwid & Hone & i & Hti).
    rewrite Hrun in Hfirst. injection Hfirst as <-. destruct Hsame as [Hw Htn].
    assert (inv (set_graph g p')) as Hinv2 by (split; [done|apply Hinv]).
    destruct (inference_cached local_to_utc monotonic wall_now combination_config hre_cfg conf_config icfg mcfg
      Hcap Hhre Hconf Hmax (set_graph g p') ev2 r x t ctx Hinv2) as (entry2 & p2 & K1 & K2 & K3).
    - rewrite Hw, Htn. exact Ht.
    - rewrite Hti. apply Hfresh.
    - done.
    - by rewrite Hw.
    - by rewrite Hone.
    - cbn [pr_policies set_graph]. by rewrite Hps, Htarget.
    - exists entry2, p2. by rewrite <- Htarget.
  Qed.

(** An organization change moves a membership at its own time: the open edge to the old team
    is closed at the event's time and one to the new team opens then, nothing else changes;
    so reads as of any earlier instant name the edges they named before, and from the
    event's time on the person belongs to the new team and no longer to the old one. *)
Theorem org_change_moves_membership (p : P) (ev : DomainEvent) (person old new : string) (i : nat) (e : GraphEdge)
    (Hg : graph_wf (pr_graph p)) (Hty : ev_event_type ev = ORG_CHANGE)
    (Hperson : od_get "person_id" (ev_attributes ev) = Some (VStr person))
    (Hold : od_get "previous_team" (ev_attributes ev) = Some (VStr old))
    (Hnew : od_get "new_team" (ev_attributes ev) = Some (VStr new))
    (Hne : person ≠ "" ∧ old ≠ "" ∧ new ≠ "" ∧ old ≠ new)
    (Hactive : od_get ("person:" +:+ person, "team:" +:+ old, MEMBER_OF) (_active_edge_index (pr_graph p)) = Some i)
    (Hopen : edges (pr_graph p) !! i = Some e ∧ edge_open e = true)
    (Hfresh : od_get ("person:" +:+ person, "team:" +:+ new, MEMBER_OF) (_active_edge_index (pr_graph p)) = None) :
    let t := ev_event_time ev in
    ∃ p' created, let opened := new_edge MEMBER_OF ("person:" +:+ person) ("team:" +:+ new) t "hr" created in 
      handle_event ev p = (Ok tt, p') ∧ edges (pr_graph p') = <[i := with_valid_to e t]> (edges (pr_graph p)) ++ [opened] ∧
      pr_processed_count p' = pr_processed_count p + 1 ∧
      ∀ t' now, map key_of (get_edges_from (pr_graph p') ("person:" +:+ person) (Some t') now) =
        if t' <? t then map key_of (get_edges_from (pr_graph p) ("person:" +:+ person) (Some t') now)
        else map key_of (filter (λ e', ge_from_id e' = "person:" +:+ person ∧ valid_at t' e' = true)
                    (delete i (edges (pr_graph p)))) ++ [key_of opened].
  Proof.
    intros t. destruct Hne as (Hn1 & Hn2 & Hn3 & Hn4). destruct Hopen as [Hi Ho].
    unfold process, handler. rewrite Hty. unfold _handle_org_change, dget, person_id, dget.
    rewrite Hperson, Hold, Hnew. cbn [truthy py_str py_eq].
    destruct person as [|c1 person']; [done|]. destruct old as [|c2 old']; [done|]. destruct new as [|c3 new']; [done|].
    rewrite (proj2 (String.eqb_neq _ _) Hn4). cbn [andb negb].
    set (who := "person:" +:+ String c1 person') in *. set (told := "team:" +:+ String c2 old') in *.
    set (tnew := "team:" +:+ String c3 new') in *.
    set (g1 := (close_edge MEMBER_OF who told (Some t) (wall_now (pr_ticks p)) (pr_graph p)).2).
    set (tick q := mkProcessor (pr_graph q) (pr_hre q) (pr_calibration q) (pr_index q) (pr_policies q)
                     (pr_processed_count q) (S (pr_ticks q)) : P).
    rewrite (se_bind_ok _ _ _ tt (set_graph g1 (tick p))) by done.
    set (created := wall_now (pr_ticks (set_graph g1 (tick p)))). set (p1 := tick (set_graph g1 (tick p))).
    set (opened := new_edge MEMBER_OF who tnew t "hr" created).
    set (g2 := add_edge (wall_now (pr_ticks p1)) opened g1).
    rewrite (se_bind_ok _ _ _ tt (set_graph g2 (tick p1))) by done.
    assert (edges g1 = <[i := with_valid_to e t]> (edges (pr_graph p)) ∧
            od_get (who, tnew, MEMBER_OF) (_active_edge_index g1) = None) as [He1 Ha1].
    { subst g1. unfold close_edge. rewrite Hactive, Hi, Ho. cbn [snd edges _active_edge_index default id].
      split; [by apply close_at_insert|]. rewrite od_get_del_ne; [done|].
      intros [= E]. apply Hn4. subst told tnew. simpl in E. congruence. }
    assert (graph_wf g2) as Hg2 by (by apply add_edge_wf, close_edge_wf).
    assert (edges g2 = <[i := with_valid_to e t]> (edges (pr_graph p)) ++ [opened]) as He2.
    { subst g2. unfold add_edge. change (key_of opened) with (who, tnew, MEMBER_OF). rewrite Ha1. cbn [edges]. by rewrite He1. }
    eexists. exists created. cbn zeta. split; [done|]. split_and!; [exact He2|done|].
    intros t' now. cbn [pr_graph set_graph]. rewrite !edges_from_scan by done. unfold outgoing. cbn [default id].
    rewrite He2. apply outgoing_after_move; try done.
    destruct Hg as (_ & _ & _ & Hak & _). destruct (Hak _ _ Hactive) as (e' & He' & Hk). rewrite Hi in He'.
    injection He' as <-. by injection Hk.
  Qed.

(** Deployments without a job id are one deployment: the schema fills the missing id with
    the empty text, so the fallback to the event's own id is never used and all such
    deployments, of any service, are stored and linked as the node of id [deploy:]. *)
Theorem deployments_share_node `{StrictFields} (attrs normalized : odict string pyval) (ev : DomainEvent)
    (Hno : od_get "deploy_job_id" attrs = None)
    (Hval : validate_event_attributes DEPLOYMENT attrs = Ok normalized)
    (Hev : ev_attributes ev = normalized) :
    deploy_id ev = "deploy:".
  Proof.
    unfold deploy_id, dget. rewrite Hev. revert Hval.
    unfold validate_event_attributes, model_validate. cbn [EVENT_PAYLOAD_SCHEMAS].
    destruct (extra_fields _ attrs); [|done].
    destruct (validate_fields _DeploymentPayload attrs) as [d|] eqn:E; [|done]. intros <-%Ok_inj.
    pose proof (validate_fields_get _DeploymentPayload attrs d (mkField "deploy_job_id" FStr (Some (VStr ""))) E) as Hget.
    cbn [f_name] in Hget. rewrite Hget.
    2: { unfold _DeploymentPayload. set_solver. }
    2: { apply (bool_decide_unpack (NoDup (map f_name _DeploymentPayload))). vm_compute. exact I. }
    unfold validate_field. cbn [f_name f_default]. by rewrite Hno.
  Qed.
End properties.

(** ** Witnesses *)

Definition sample_policies : PolicyEngine :=
  [("p1", mkPolicy "p1" MODEL_ALLOWLIST "allow" "team:a" SOFT_STOP [("allowed_models", VList [VStr "m1"])] true false)].

Definition sample_processor : Processor MemServer := Processor_init None sample_policies.

Abbreviation sample_process :=
  (@process MemServer MemRedis UnaryText WorkloadJson insertion_order step_numlib id (λ _, f0) (λ n, Z.of_nat n)
     default_combination_config default_execution_config default_confidence_config example_config
     default_materializer_config).

Definition sample_event (t : EventType) (attrs : odict string pyval) (at_time : instant) : DomainEvent :=
  mkEvent "ev" t "svc" attrs at_time at_time "src" "key" "acme" 1.

(** A graph in which a workload belongs to a team and a person is a member of it. *)
Definition sample_graph : InMemoryGraphStore :=
  run_ops [OpUpsert 1 (mkNode "team:a" NT_TEAM "A" [] "" 1 1); OpUpsert 2 (mkNode "team:b" NT_TEAM "B" [] "" 1 1);
           OpAdd 3 (new_edge RESOLVED_TO "svc" "team:a" 3 "x" 3);
           OpAdd 4 (new_edge MEMBER_OF "person:ann" "team:a" 4 "x" 4)] InMemoryGraphStore_init.

Definition linked_processor : Processor MemServer := set_graph sample_graph sample_processor.

Definition inference_at (t : instant) : DomainEvent :=
  sample_event INFERENCE_REQUEST [("model", VStr "m"); ("service_name", VStr "svc")] t.

Lemma linked_inv : processor_inv (λ _, f0) default_execution_config example_config linked_processor.
Proof.
  assert (processor_inv (λ _, f0) default_execution_config example_config sample_processor) as (_ & Ha & Hb & Hc)
    by (by apply processor_inv_init).
  split_and!; try done. apply run_ops_wf, init_wf.
Qed.

Lemma processor_reachable_inv_witness :
  processor_inv (R := MemServer) (λ _, f0) default_execution_config example_config
    (@process_all MemServer MemRedis UnaryText WorkloadJson insertion_order step_numlib id (λ _, f0) (λ n, Z.of_nat n)
       default_combination_config default_execution_config default_confidence_config example_config
       default_materializer_config [inference_at 5; sample_event DEPLOYMENT [] 6] sample_processor).
Proof. by apply (@processor_reachable_inv MemServer MemRedis UnaryText WorkloadJson insertion_order step_numlib). Defined.

Lemma inference_attributes_owner_witness :
  ∃ c entry p', sample_process (inference_at 5) linked_processor = (Ok tt, p') ∧
    calibrate default_confidence_config (pr_calibration linked_processor) "R1" f1 = Ok c ∧
    od_get "svc" (_index (pr_index p')) = Some entry ∧
    ie_team_id entry = "team:a" ∧ ie_method_used entry = "R1" ∧ ie_confidence entry = c ∧
    ie_model_allowlist entry = ["m1"] ∧ pr_processed_count p' = 1.
Proof.
  destruct (@inference_attributes_owner MemServer MemRedis UnaryText WorkloadJson insertion_order step_numlib id
    (λ _, f0) (λ n, Z.of_nat n) default_combination_config default_execution_config default_confidence_config
    example_config default_materializer_config linked_processor (inference_at 5) "team:a"
    [("model_allowlist", VList [VStr "m1"])]) as (c & entry & p' & W1 & W2 & W3 & W4 & W5 & W6 & W7 & W8);
    [reflexivity|discriminate|apply linked_inv|reflexivity|reflexivity|vm_compute; reflexivity|reflexivity|vm_compute; reflexivity|].
  exists c, entry, p'. split_and!; assumption.
Defined.

Lemma inference_reassignment_delayed_witness :
  ∃ p1, sample_process (inference_at 5) linked_processor = (Ok tt, p1) ∧
    ∃ entry p2, sample_process (inference_at 9)
        (set_graph (add_edge 8 (new_edge RESOLVED_TO "svc" "team:b" 8 "x" 8) (pr_graph linked_processor)) p1) = (Ok tt, p2) ∧
      od_get "svc" (_index (pr_index p2)) = Some entry ∧ ie_team_id entry = "team:a".
Proof.
  destruct (sample_process (inference_at 5) linked_processor) as [r p1] eqn:E.
  assert (r = Ok tt) as -> by (apply (f_equal fst) in E; vm_compute in E; exact (eq_sym E)).
  exists p1. split; [reflexivity|].
  apply (@inference_reassignment_delayed MemServer MemRedis UnaryText WorkloadJson insertion_order step_numlib id
    (λ _, f0) (λ n, Z.of_nat n) default_combination_config default_execution_config default_confidence_config
    example_config default_materializer_config linked_processor p1 (inference_at 5) (inference_at 9) "team:a"
    [("model_allowlist", VList [VStr "m1"])]);
    [reflexivity|reflexivity|discriminate|apply linked_inv|reflexivity|reflexivity|reflexivity|vm_compute; reflexivity
    |reflexivity|vm_compute; reflexivity|split; reflexivity|intros; vm_compute; reflexivity| |exact E].
  apply add_edge_wf, linked_inv.
Defined.

Definition move_event : DomainEvent :=
  sample_event ORG_CHANGE [("person_id", VStr "ann"); ("previous_team", VStr "a"); ("new_team", VStr "b")] 20.

Lemma org_change_moves_membership_witness :
  ∃ p', sample_process move_event linked_processor = (Ok tt, p') ∧
    map key_of (get_edges_from (pr_graph p') "person:ann" (Some 19) 0) = [("person:ann", "team:a", MEMBER_OF)] ∧
    map key_of (get_edges_from (pr_graph p') "person:ann" (Some 20) 0) = [("person:ann", "team:b", MEMBER_OF)].
Proof.
  destruct (@org_change_moves_membership MemServer MemRedis UnaryText WorkloadJson insertion_order step_numlib id
    (λ _, f0) (λ n, Z.of_nat n) default_combination_config default_execution_config default_confidence_config
    example_config default_materializer_config linked_processor move_event "ann" "a" "b" 1%nat
    (new_edge MEMBER_OF "person:ann" "team:a" 4 "x" 4)) as (p' & created & W1 & _ & _ & W4);
    [apply linked_inv|reflexivity|reflexivity|reflexivity|reflexivity|split_and!; discriminate|vm_compute; reflexivity
    |split; vm_compute; reflexivity|vm_compute; reflexivity|].
  exists p'. split; [exact W1|]. split.
  - refine (eq_trans (W4 19 0) _). vm_compute. reflexivity.
  - refine (eq_trans (W4 20 0) _). vm_compute. reflexivity.
Defined.

Lemma deployments_share_node_witness :
  ∃ attrs, validate_event_attributes DEPLOYMENT [("service_name", VStr "svc"); ("repository", VStr "r")] = Ok attrs ∧
    deploy_id (sample_event DEPLOYMENT attrs 5) = "deploy:".
Proof.
  eexists. split; [reflexivity|].
  apply (deployments_share_node [("service_name", VStr "svc"); ("repository", VStr "r")]
    [("service_name", VStr "svc"); ("repository", VStr "r"); ("commit_sha", VStr ""); ("deployer_identity", VStr "");
     ("deploy_tool", VStr ""); ("deploy_job_id", VStr ""); ("target_environment", VStr "");
     ("target_resource_arn", VStr ""); ("timestamp", VNone)]); reflexivity.
Defined.
