(* ===== verification/Owners.v ===== *)
(** * Owners of a workload over either backend (src/aci/core/processor.py, [_build_context])

    The loops with which the processor maps a workload to its owner, over the reads of either
    graph store. The last owner read is the mapping; the durable store orders its rows by the
    start of their validity and the in-memory store by insertion, so the two agree when the
    workload has one owner, and not always when it has several. *)

From S2P Require Import Prelude PyFloat PyData PyTime PyValue PyIso PyText PyIsoText PyJson Models GraphStore Neo4jStore Traversal Processor.
From Stdlib Require Import ZArith Lia.
From stdpp Require Import base list gmap sets strings.

Open Scope string_scope.
Open Scope list_scope.
Open Scope Z_scope.
Open Scope py_scope.

(** ** The loops *)

(** [target and target.node_type in (TEAM, PERSON)], and then [target.node_id]. *)
Definition owner_of (target : option GraphNode) : option string :=
  match target with
  | Some n => match gn_node_type n with NT_TEAM | NT_PERSON => Some (gn_node_id n) | _ => None end
  | None => None
  end.

Section loops.
  Context {S : Type} `{TraversalGraph S} (event_time : instant) (clock : nat → instant).

  (** The state is [identity_mappings.get(workload_id)] and the number of reads so far. *)
Definition map_owner (st : option string * nat) (edge : GraphEdge) : SE S (option string * nat) :=
    let! target := read_node (ge_to_id edge) (clock st.2) in
    se_ret (match owner_of target with Some x => Some x | None => st.1 end, Datatypes.S st.2).

Definition map_owners (st : option string * nat) (lookup_id : string) : SE S (option string * nat) :=
    let! edges := read_edges lookup_id (Some event_time) (clock st.2) in
    se_fold map_owner (st.1, Datatypes.S st.2) edges.

Definition mapped_owner (workload_id : string) : SE S (option string) :=
    let! st := se_fold map_owners (None, O) (_candidate_graph_node_ids workload_id) in se_ret st.1.
End loops.

(** ** Any store with quiet reads *)

Definition latest {A} (m : option A) (l : list A) : option A := match last l with Some x => Some x | None => m end.

Lemma latest_app {A} (m : option A) l1 l2 : latest (latest m l1) l2 = latest m (l1 ++ l2).
Proof. unfold latest. rewrite last_app. by destruct (last l2). Qed.

Section quiet.
  Context {S : Type} `{TraversalGraph S} (event_time : instant) (clock : nat → instant).
  Context (quiet : S → Prop) (out : string → list GraphEdge) (own : string → option string).
  Hypothesis Hout : ∀ id now s, quiet s → ∃ s', read_edges id (Some event_time) now s = (Ok (out id), s') ∧ quiet s'.
  Hypothesis Hown : ∀ id e now s, quiet s → e ∈ out id →
    ∃ node s', read_node (ge_to_id e) now s = (Ok node, s') ∧ owner_of node = own (ge_to_id e) ∧ quiet s'.

Definition owners_out (id : string) : list string := omap (λ e, own (ge_to_id e)) (out id).

Lemma map_owner_fold id l : (∀ e, e ∈ l → e ∈ out id) → ∀ m tick s, quiet s →
    ∃ tick' s', se_fold (map_owner clock) (m, tick) l s = (Ok (latest m (omap (λ e, own (ge_to_id e)) l), tick'), s') ∧ quiet s'.
  Proof.
    induction l as [|e l IH]; intros Hl m tick s Hs; [by exists tick, s|].
    destruct (Hown id e (clock tick) s Hs (Hl e (list_elem_of_here _ _))) as (node & s1 & E1 & Ho & Hq).
    destruct (IH (λ x Hx, Hl x (list_elem_of_further _ _ _ Hx)) (match own (ge_to_id e) with Some x => Some x | None => m end)
      (Datatypes.S tick) s1 Hq) as (tick2 & s2 & E2 & Hq2).
    exists tick2, s2. split; [|done]. cbn [se_fold].
    rewrite (se_bind_ok _ _ _ (match own (ge_to_id e) with Some x => Some x | None => m end, Datatypes.S tick) s1).
    - rewrite E2. do 3 f_equal. cbn. destruct (own (ge_to_id e)) as [x|]; [|done]. exact (latest_app m [x] _).
    - unfold map_owner. cbn [fst snd]. by rewrite (se_bind_ok _ _ _ _ _ E1), Ho.
  Qed.

Lemma mapped_owner_last wid s : quiet s →
    ∃ s', mapped_owner event_time clock wid s = (Ok (last (flat_map owners_out (_candidate_graph_node_ids wid))), s') ∧ quiet s'.
  Proof.
    assert (∀ ids m tick s, quiet s → ∃ tick' s', se_fold (map_owners event_time clock) (m, tick) ids s
              = (Ok (latest m (flat_map owners_out ids), tick'), s') ∧ quiet s') as Hall.
    { induction ids as [|id ids IH]; intros m tick s0 Hs0; [by exists tick, s0|].
      destruct (Hout id (clock tick) s0 Hs0) as (s1 & E1 & Hq1).
      destruct (map_owner_fold id (out id) (λ e He, He) m (Datatypes.S tick) s1 Hq1) as (tick2 & s2 & E2 & Hq2).
      destruct (IH (latest m (owners_out id)) tick2 s2 Hq2) as (tick3 & s3 & E3 & Hq3).
      exists tick3, s3. split; [|done]. cbn [se_fold flat_map]. rewrite <- latest_app.
      rewrite (se_bind_ok _ _ _ (latest m (owners_out id), tick2) s2); [exact E3|]. unfold map_owners. cbn [fst snd]. by rewrite (se_bind_ok _ _ _ _ _ E1). }
    intros Hs. destruct (Hall (_candidate_graph_node_ids wid) None O s Hs) as (tick & s' & E & Hq). exists s'. split; [|done].
    unfold mapped_owner. rewrite (se_bind_ok _ _ _ _ _ E). unfold latest, se_ret. cbn [fst]. by destruct (last _).
  Qed.
End quiet.

(** The mapping of the processor's in-memory graph. *)
Lemma memory_owner g t clock wid : mapped_owner t clock wid g = (Ok (last (direct_owners g wid t)), g).
Proof.
  destruct (mapped_owner_last t clock (λ s, s = g) (outgoing_at g t) (λ id, gn_node_id <$> owner_node g id)) with (wid := wid) (s := g)
    as (s' & E & ->); [..|done].
  - intros id now s ->. by exists g.
  - intros id e now s -> _. eexists _, g. split; [done|]. split; [|done].
    unfold owner_of, owner_node. destruct (GraphStore.get_node g (ge_to_id e)) as [n|]; [|done]. by destruct (gn_node_type n).
  - done.
Qed.

(** ** Both backends after a history *)

Section agreement.
  Context {D : Type} `{Neo4jServer D, !Neo4jServerLaws D} `{DateJson, !DateJsonLaws} `{!Neo4jUp D}.

(** C17. The owner that the processor reads from the durable graph, after the same history of
    operations, whose nodes and edges the schema admits, and on a server that answers: the
    reads return without an exception; one of the owners that the in-memory graph knows is
    mapped, and one is whenever there is one; and when all edges that hold at the time lead
    to one owner it is the one that the in-memory graph gives. Ends of edges that were never
    recorded must not look like a team or a person, which the durable store would make them. *)
Theorem durable_owner_agrees (ops : list (graph_op * instant)) (d : D) (t : instant) (clock : nat → instant) (workload_id : string)
    (Hempty : contents d = empty_neo) (Hreads : Forall (λ o, op_reads o = true) ops) (Ht : in_calendar t = true)
    (Hends : let g := run_ops (map fst ops) InMemoryGraphStore_init in
             ∀ e, e ∈ edges g → od_get (ge_to_id e) (nodes g) = None →
               bool_decide (_infer_node_type (ge_to_id e) = NT_TEAM ∨ _infer_node_type (ge_to_id e) = NT_PERSON) = false) :
    let g := run_ops (map fst ops) InMemoryGraphStore_init in
    let owners := direct_owners g workload_id t in
    mapped_owner t clock workload_id g = (Ok (last owners), g) ∧
    ∃ o s', mapped_owner t clock workload_id (run_neo ops (Neo4jGraphStore_init d)).2 = (Ok o, s') ∧
      (o = None ↔ owners = []) ∧ (∀ x, o = Some x → x ∈ owners) ∧
      ((∀ x y, x ∈ owners → y ∈ owners → x = y) → o = last owners).
  Proof.
    intros g owners. split; [apply memory_owner|].
    destruct (run_neo_reads ops (Neo4jGraphStore_init d) InMemoryGraphStore_init) as [Hb Hn]; [..|done|].
    { cbn [server Neo4jGraphStore_init]. rewrite Hempty. apply backs_init. }
    { cbn [server Neo4jGraphStore_init]. rewrite Hempty. split; cbn; naive_solver. }
    fold g in Hb, Hn. set (s := (run_neo ops (Neo4jGraphStore_init d)).2) in *. set (n := contents (server s)) in *.
    pose proof Hb as (Hwf & _ & _). pose proof Hwf as (_ & _ & _ & _ & _ & Hid & _).
    set (own := λ id, gn_node_id <$> owner_node g id).
    destruct (mapped_owner_last t clock (λ s, same_graph (contents (server s)) n) (rows_out t n) own) with (wid := workload_id) (s := s)
      as (s' & E & _).
    - intros id now s1 Hs1. by destruct (read_edges_back g n t id now s1 Hb Ht Hs1).
    - intros id e now s1 Hs1 He. destruct (read_node_back g n (ge_to_id e) now s1 Hn Hs1) as (node & s2 & E2 & Hs2 & Hnode).
      exists node, s2. split; [done|]. split; [|done]. unfold own, owner_node, GraphStore.get_node.
      destruct (read_edges_back g n t id now s1 Hb Ht Hs1) as [Hp _]. rewrite Hp in He. apply elem_of_outgoing in He as (_ & He & _); [|done].
      destruct node as [m|]; [|by rewrite Hnode]. destruct Hnode as [Hm Hty]. cbn [owner_of]. rewrite Hm, Hty. unfold known_type.
      destruct (od_get (ge_to_id e) (nodes g)) as [x|] eqn:Eg.
      + pose proof (Hid _ _ Eg) as Hx. destruct (gn_node_type x); cbn; by rewrite ?Hx.
      + pose proof (Hends e He Eg) as Hnot. apply bool_decide_eq_false in Hnot. destruct (_infer_node_type _); naive_solver.
    - done.
    - set (l := flat_map (owners_out (rows_out t n) own) (_candidate_graph_node_ids workload_id)) in *.
      assert (l ≡ₚ owners) as Hp.
      { unfold l, owners, direct_owners. generalize (_candidate_graph_node_ids workload_id). clear l E.
        intros ids. induction ids as [|id ids IH]; [done|]. cbn [flat_map]. apply Permutation_app; [|exact IH]. unfold owners_out.
        destruct (read_edges_back g n t id 0 s Hb Ht) as [Hr _]; [by split|]. by rewrite Hr. }
      exists (last l), s'. split; [exact E|]. split_and!.
      + rewrite last_None. split; intros Hnil; [rewrite Hnil in Hp; by apply Permutation_nil in Hp|].
        rewrite Hnil in Hp. by apply Permutation_sym, Permutation_nil in Hp.
      + intros x Hx. rewrite <- Hp. by apply last_Some_elem_of.
      + intros Hone. destruct (last l) as [x|] eqn:El.
        * assert (x ∈ owners) as Hx by (rewrite <- Hp; by apply last_Some_elem_of).
          destruct (last owners) as [y|] eqn:Ey; [|apply last_None in Ey; rewrite Ey in Hx; by apply elem_of_nil in Hx].
          f_equal. apply Hone; [done|]. by apply last_Some_elem_of.
        * apply last_None in El. rewrite El in Hp. by apply Permutation_nil in Hp as ->.
  Qed.
End agreement.

(** ** Witnesses *)

(** A workload with one owner, and another edge that is no owner's. *)
Definition owned_history : list (graph_op * instant) :=
  [(OpUpsert 1 (sample_node "team:a" NT_TEAM), 1); (OpUpsert 1 (sample_node "cc:9" NT_COST_CENTER), 1);
   (OpAdd 7 (sample_edge "svc" "team:a" 7), 7); (OpAdd 9 (sample_edge "svc" "cc:9" 5), 9)].

Lemma durable_owner_agrees_witness :
  ∃ s', mapped_owner 10 (λ _, 0) "svc" (run_neo owned_history (Neo4jGraphStore_init empty_neo)).2 = (Ok (Some "team:a"), s').
Proof.
  destruct (durable_owner_agrees owned_history empty_neo 10 (λ _, 0) "svc") as (_ & o & s' & E & _ & _ & Ho).
  - reflexivity.
  - repeat (constructor; [vm_compute; reflexivity|]). constructor.
  - reflexivity.
  - intros g e He. assert (Forall (λ e, od_get (ge_to_id e) (nodes g) = None →
      bool_decide (_infer_node_type (ge_to_id e) = NT_TEAM ∨ _infer_node_type (ge_to_id e) = NT_PERSON) = false) (edges g)) as Hall.
    { repeat (constructor; [intros Hn; first [discriminate Hn|vm_compute; reflexivity]|]). constructor. }
    rewrite Forall_forall in Hall. by apply Hall.
  - exists s'. rewrite E, Ho; [reflexivity|]. vm_compute.
    intros x y Hx%list_elem_of_singleton Hy%list_elem_of_singleton. congruence.
Defined.

(** With two owners at a time the backends map the workload to different ones: the edge that
    was recorded last, or the edge whose validity starts last. *)
Example owners_differ :
  let ops := [(OpUpsert 1 (sample_node "team:a" NT_TEAM), 1); (OpUpsert 1 (sample_node "team:b" NT_TEAM), 1);
              (OpAdd 20 (sample_edge "svc" "team:b" 15), 20); (OpAdd 30 (sample_edge "svc" "team:a" 5), 30)] in
  (mapped_owner 40 (λ _, 0) "svc" (run_ops (map fst ops) InMemoryGraphStore_init)).1 = Ok (Some "team:a") ∧
  (mapped_owner 40 (λ _, 0) "svc" (run_neo ops (Neo4jGraphStore_init empty_neo)).2).1 = Ok (Some "team:b").
Proof. vm_compute. done. Qed.
