(* ===== verification/Pricing.v ===== *)
(** * The pricing catalog and cost simulation
      (src/aci/pricing/catalog.py, src/aci/interventions/simulator.py)

    The versioned rules, kept sorted; estimates from the newest applicable rule; the
    catalog's identifier; the simulation of other models. Instants are microseconds in UTC,
    [now] is the clock reading of a call. *)

From S2P Require Import Prelude PyFloat PyData PyMath PySha256 PyTime PyValue.
From Stdlib Require Import ZArith QArith Lia Lqa Sorted.
From stdpp Require Import base list strings.

Open Scope string_scope.
Open Scope list_scope.
Open Scope Z_scope.
Local Open Scope py_scope.

(** ** Data *)

Record PricingRule := mkRule {
  pr_provider : string;
  pr_model : string;
  pr_effective_from : datetime;
  pr_input_usd_per_1k_tokens : pyfloat;
  pr_output_usd_per_1k_tokens : pyfloat;
  pr_cached_input_usd_per_1k_tokens : option pyfloat;
  pr_request_base_usd : pyfloat;
}.

Record PricingUsage := mkUsage {
  pu_provider : string;
  pu_model : string;
  pu_input_tokens : Z;
  pu_output_tokens : Z;
  pu_cache_read_input_tokens : Z;
  pu_request_count : Z;
  pu_effective_at : option datetime;
}.

Record CostEstimate := mkEstimate {
  ce_provider : string;
  ce_model : string;
  ce_rule_effective_from : instant;
  ce_request_count : Z;
  ce_input_cost_usd : pyfloat;
  ce_output_cost_usd : pyfloat;
  ce_cached_input_cost_usd : pyfloat;
  ce_request_base_cost_usd : pyfloat;
  ce_total_cost_usd : pyfloat;
}.

(** ** The catalog *)

Abbreviation PricingCatalog := (list PricingRule).

Definition PricingCatalog_init : PricingCatalog := [].

(** The stored form of a rule: names without surrounding blanks, the instant in UTC. *)
Definition normalized (rule : PricingRule) : PricingRule :=
  mkRule (lower (strip (pr_provider rule))) (strip (pr_model rule)) (Aware (to_utc (pr_effective_from rule)) 0)
         (pr_input_usd_per_1k_tokens rule) (pr_output_usd_per_1k_tokens rule)
         (pr_cached_input_usd_per_1k_tokens rule) (pr_request_base_usd rule).

Definition rule_effective (rule : PricingRule) : instant := to_utc (pr_effective_from rule).

(** The order of the keys [(provider, model, effective_from)]. *)
Definition rule_before (a b : PricingRule) : bool :=
  str_lt (pr_provider a) (pr_provider b) ||
  String.eqb (pr_provider a) (pr_provider b) &&
    (str_lt (pr_model a) (pr_model b) ||
     String.eqb (pr_model a) (pr_model b) && (rule_effective a <? rule_effective b)).

Definition register_rule (rule : PricingRule) (rules : PricingCatalog) : PricingCatalog :=
  stable_sort rule_before (rules ++ [normalized rule]).

Definition list_rules (provider model : option string) (rules : PricingCatalog) : list PricingRule :=
  let keeps (filter_ : option string) (norm : string → string) (v : string) :=
    match filter_ with Some s => String.eqb s "" || String.eqb v (norm s) | None => true end in
  filter (λ r, keeps provider (λ s, lower (strip s)) (pr_provider r) && keeps model strip (pr_model r) = true) rules.

Definition applicable (provider model : string) (effective_at : instant) (rule : PricingRule) : bool :=
  String.eqb (pr_provider rule) provider && String.eqb (pr_model rule) model && (rule_effective rule <=? effective_at).

(** The first of the rules with the greatest key, as [max] picks it. *)
Definition newest (rules : list PricingRule) : option PricingRule :=
  argmax (λ a b, rule_effective b <? rule_effective a) rules.

Definition _resolve_rule (rules : PricingCatalog) (provider model : string) (effective_at : instant) : res PricingRule :=
  match newest (filter (λ r, applicable provider model effective_at r = true) rules) with
  | Some rule => Ok rule
  | None => Raise (ValueError "no pricing rule available")
  end.

(** [(tokens / 1000.0) * rate * request_multiplier] *)
Definition token_cost (tokens : Z) (rate request_multiplier : pyfloat) : res pyfloat :=
  let? t := py_float_of_int tokens in
  let? thousands := fdiv t (of_Z 1000) in
  Ok (fmul (fmul thousands rate) request_multiplier).

Definition estimate (now : instant) (usage : PricingUsage) (rules : PricingCatalog) : res CostEstimate :=
  if pu_request_count usage <=? 0 then Raise (ValueError "request_count must be > 0") else
  let provider := lower (strip (pu_provider usage)) in
  let model := strip (pu_model usage) in
  let effective_at := match pu_effective_at usage with Some t => to_utc t | None => now end in
  let? rule := _resolve_rule rules provider model effective_at in
  if (pu_input_tokens usage <? 0) || (pu_output_tokens usage <? 0) || (pu_cache_read_input_tokens usage <? 0)
  then Raise (ValueError "token counts must be non-negative") else
  let cache_read := Z.min (pu_cache_read_input_tokens usage) (pu_input_tokens usage) in
  let billable_input := Z.max (pu_input_tokens usage - cache_read) 0 in
  let cache_rate := match pr_cached_input_usd_per_1k_tokens rule with
                    | Some r => r | None => pr_input_usd_per_1k_tokens rule end in
  let? request_multiplier := py_float_of_int (pu_request_count usage) in
  let? input_cost := token_cost billable_input (pr_input_usd_per_1k_tokens rule) request_multiplier in
  let? cached_input_cost := token_cost cache_read cache_rate request_multiplier in
  let? output_cost := token_cost (pu_output_tokens usage) (pr_output_usd_per_1k_tokens rule) request_multiplier in
  let base_cost := fmul (pr_request_base_usd rule) request_multiplier in
  let total_cost := fadd (fadd (fadd input_cost cached_input_cost) output_cost) base_cost in
  Ok (mkEstimate provider model (rule_effective rule) (pu_request_count usage) input_cost output_cost
        cached_input_cost base_cost total_cost).

(** A row of the audit payload, with the keys in sorted order. *)
Definition snapshot_row (rule : PricingRule) : pyval :=
  VDict [("cached_input", match pr_cached_input_usd_per_1k_tokens rule with Some x => VFloat x | None => VNone end);
         ("effective_from", VStr (isoformat (rule_effective rule)));
         ("input", VFloat (pr_input_usd_per_1k_tokens rule));
         ("model", VStr (pr_model rule));
         ("output", VFloat (pr_output_usd_per_1k_tokens rule));
         ("provider", VStr (pr_provider rule));
         ("request_base", VFloat (pr_request_base_usd rule))].

Definition snapshot_id (rules : PricingCatalog) : string :=
  "pricing-" +:+ str_take 12 (sha256_hex (json_dumps (VList (map snapshot_row rules)))).

Definition anchor : datetime := Aware (20454 * us_per_day) 0.

Definition default_rules : list PricingRule :=
  [mkRule "openai" "gpt-4o" anchor (lit 50 10000) (lit 150 10000) None f0;
   mkRule "openai" "gpt-4o-mini" anchor (lit 15 100000) (lit 60 100000) None f0;
   mkRule "google" "gemini-2.0-flash" anchor (lit 30 10000) (lit 150 10000) (Some (lit 30 100000)) f0;
   mkRule "google" "gemini-1.5-flash" anchor (lit 25 100000) (lit 125 100000) (Some (lit 3 100000)) f0;
   mkRule "aws-bedrock" "amazon.nova-pro-v1:0" anchor (lit 30 10000) (lit 150 10000) None f0].

(** The catalog after a sequence of registrations. *)
Definition catalog_of (log : list PricingRule) : PricingCatalog :=
  fold_left (λ rules rule, register_rule rule rules) log PricingCatalog_init.

Definition with_default_rules : PricingCatalog := catalog_of default_rules.

(** ** Simulation *)

Record CandidateSimulation := mkCandidate {
  cs_model : string;
  cs_projected_monthly_cost_usd : pyfloat;
  cs_monthly_savings_usd : pyfloat;
  cs_savings_pct : pyfloat;
}.

Record CostSimulationResult := mkSimulation {
  sr_service_id : string;
  sr_provider : string;
  sr_current_model : string;
  sr_projected_monthly_cost_usd : pyfloat;
  sr_candidates : list CandidateSimulation;
}.

Section simulation.
  Context (now : instant) (pricing : PricingCatalog).

  (** The monthly cost of a model at the given load. *)
Definition monthly_estimate (provider model : string) (avg_input_tokens avg_output_tokens requests_per_day : Z) :
      res CostEstimate :=
    estimate now (mkUsage provider model avg_input_tokens avg_output_tokens 0 (requests_per_day * 30) None) pricing.

Definition candidate_of (baseline : pyfloat) (model : string) (e : CostEstimate) : res CandidateSimulation :=
    let savings := fsub baseline (ce_total_cost_usd e) in
    let? savings_pct := (if flt f0 baseline then (let? q := fdiv savings baseline in Ok (fmul q (of_Z 100))) else Ok f0) in
    Ok (mkCandidate model (ce_total_cost_usd e) savings savings_pct).

Definition greater_savings (a b : CandidateSimulation) : bool :=
    flt (cs_monthly_savings_usd b) (cs_monthly_savings_usd a).

Definition simulate (service_id provider current_model : string)
      (avg_input_tokens avg_output_tokens requests_per_day : Z) (candidate_models : list string) :
      res CostSimulationResult :=
    if requests_per_day <=? 0 then Raise (ValueError "requests_per_day must be > 0") else
    let cost model := monthly_estimate provider model avg_input_tokens avg_output_tokens requests_per_day in
    let? baseline := cost current_model in
    let? candidates := map_res (λ model, let? e := cost model in candidate_of (ce_total_cost_usd baseline) model e)
                         (filter (λ model, model ≠ current_model) candidate_models) in
    Ok (mkSimulation service_id provider current_model (ce_total_cost_usd baseline)
          (stable_sort greater_savings candidates)).
End simulation.

Example pricing_sample :
  let usage p m := mkUsage p m 1000 500 200 10 None in
  let total t u := match estimate t u with_default_rules with Ok e => Ok (repr_float (ce_total_cost_usd e)) | Raise x => Raise x end in
  map (fun r => pr_model r) with_default_rules
    = ["amazon.nova-pro-v1:0"; "gemini-1.5-flash"; "gemini-2.0-flash"; "gpt-4o"; "gpt-4o-mini"] ∧
  total (20500 * us_per_day) (usage " OpenAI" "gpt-4o") = Ok "0.125" ∧
  total (20500 * us_per_day) (usage "google" "gemini-2.0-flash") = Ok "0.0996" ∧
  total (20453 * us_per_day) (usage "openai" "gpt-4o") = Raise (ValueError "no pricing rule available").
Proof. vm_compute. auto. Qed.

(** ** Lemmas: resolution *)

(** The rules of one provider, model and instant are never reordered. *)
Lemma rule_before_same p m e a b :
  (pr_provider a = p ∧ pr_model a = m ∧ rule_effective a = e) →
  (pr_provider b = p ∧ pr_model b = m ∧ rule_effective b = e) → rule_before a b = false.
Proof.
  assert (∀ s, str_lt s s = false) as Hirr.
  { induction s as [|c s IH]; [done|]. cbn [str_lt]. by rewrite Nat.ltb_irrefl, Nat.eqb_refl. }
  unfold rule_before. intros (-> & -> & ->) (-> & -> & ->). by rewrite !Hirr, !String.eqb_refl, Z.ltb_irrefl.
Qed.

Lemma catalog_snoc log rule : catalog_of (log ++ [rule]) = register_rule rule (catalog_of log).
Proof. unfold catalog_of. by rewrite fold_left_app. Qed.

Lemma catalog_filter p m e log :
  filter (λ r, pr_provider r = p ∧ pr_model r = m ∧ rule_effective r = e) (catalog_of log) =
  filter (λ r, pr_provider r = p ∧ pr_model r = m ∧ rule_effective r = e) (map normalized log).
Proof.
  induction log as [|rule log IH] using rev_ind; [done|].
  rewrite catalog_snoc. unfold register_rule. rewrite stable_sort_filter; [|apply rule_before_same].
  by rewrite map_app, !filter_app, IH.
Qed.

Lemma catalog_perm log : catalog_of log ≡ₚ map normalized log.
Proof.
  induction log as [|rule log IH] using rev_ind; [done|].
  rewrite catalog_snoc, map_app. unfold register_rule. by rewrite stable_sort_perm, IH.
Qed.

Lemma applicable_spec p m t r :
  applicable p m t r = true ↔ pr_provider r = p ∧ pr_model r = m ∧ rule_effective r <= t.
Proof. unfold applicable. rewrite !andb_true_iff, !String.eqb_eq, Z.leb_le. tauto. Qed.

(** The applicable rules of one instant. *)
Lemma applicable_at p m t e (l : list PricingRule) : e <= t →
  filter (λ r, rule_effective r = e) (filter (λ r, applicable p m t r = true) l) =
  filter (λ r, pr_provider r = p ∧ pr_model r = m ∧ rule_effective r = e) l.
Proof.
  intros He. rewrite list_filter_and. apply list_filter_ext_in. intros r _. rewrite applicable_spec. naive_solver lia.
Qed.

Lemma head_elem {A} (l : list A) x : head l = Some x → x ∈ l.
Proof. destruct l; [done|]. intros [= ->]. by left. Qed.

Lemma newest_catalog log p m t :
  newest (filter (λ r, applicable p m t r = true) (catalog_of log)) =
  newest (filter (λ r, applicable p m t r = true) (map normalized log)).
Proof.
  destruct (newest (filter _ (map normalized log))) as [r|] eqn:E.
  - apply argmax_key_spec in E as [Hh Hle]. apply argmax_key_spec.
    assert (rule_effective r <= t) as Ht.
    { apply head_elem in Hh. apply list_elem_of_filter in Hh as [_ [Hr _]%list_elem_of_filter].
      by apply applicable_spec in Hr as (_ & _ & ?). }
    rewrite applicable_at in Hh |- * by done. rewrite catalog_filter. split; [done|].
    by rewrite catalog_perm.
  - destruct (filter _ (map normalized log)) as [|x l] eqn:El; [|done].
    destruct (filter _ (catalog_of log)) as [|y k] eqn:Ek; [done|].
    assert (y ∈ filter (λ r, applicable p m t r = true) (map normalized log)) as Hy; [|by rewrite El in Hy; inversion Hy].
    rewrite <- catalog_perm, Ek. by left.
Qed.

(** *** The rule in force, on the registration log *)

(** Position [i] of the log registers [r], for that provider and model (written as the
    catalog's users write them: without surrounding blanks, the provider in lower case), and
    effective not after [t]. *)
Definition candidate (log : list PricingRule) (provider model : string) (t : instant) (i : nat) (r : PricingRule) : Prop :=
  log !! i = Some r ∧ lower (strip (pr_provider r)) = provider ∧ strip (pr_model r) = model ∧
  to_utc (pr_effective_from r) <= t.

(** The candidate effective last, of several with that time the one registered first. *)
Definition rule_in_force (log : list PricingRule) (provider model : string) (t : instant) (i : nat) (r : PricingRule) : Prop :=
  candidate log provider model t i r ∧
  ∀ j r', candidate log provider model t j r' →
    to_utc (pr_effective_from r') < to_utc (pr_effective_from r) ∨
    to_utc (pr_effective_from r') = to_utc (pr_effective_from r) ∧ (i ≤ j)%nat.

Lemma rule_in_force_unique log p m t i r j r' :
  rule_in_force log p m t i r → rule_in_force log p m t j r' → i = j ∧ r = r'.
Proof.
  intros [Hi H1] [Hj H2]. assert (i = j) as -> by (destruct (H1 _ _ Hj), (H2 _ _ Hi); lia).
  destruct Hi as [Hi _], Hj as [Hj _]. split; [done|congruence].
Qed.

Lemma candidate_applicable log p m t i r :
  candidate log p m t i r ↔ log !! i = Some r ∧ applicable p m t (normalized r) = true.
Proof. unfold candidate. rewrite applicable_spec. done. Qed.

Lemma head_filter_first {A} (P : A → Prop) `{∀ x, Decision (P x)} l x :
  head (filter P l) = Some x → ∃ i, l !! i = Some x ∧ P x ∧ ∀ j y, l !! j = Some y → P y → (i ≤ j)%nat.
Proof.
  induction l as [|y l IH]; [done|]. rewrite filter_cons. case_decide as Hy.
  - intros [= ->]. exists O. split_and!; [done|done|lia].
  - intros (i & Hi & Hx & Hmin)%IH. exists (S i). split_and!; [done..|].
    intros [|j] z Hz Pz; [by simplify_eq/=|]. specialize (Hmin j z Hz Pz). lia.
Qed.

Lemma newest_log log p m t :
  match newest (filter (λ r, applicable p m t r = true) (catalog_of log)) with
  | Some rule => ∃ i r, rule_in_force log p m t i r ∧ rule = normalized r
  | None => ∀ i r, ¬ candidate log p m t i r
  end.
Proof.
  rewrite newest_catalog. destruct (newest _) as [rule|] eqn:E.
  - apply argmax_key_spec in E as [Hh Hle]. rewrite list_filter_and in Hh.
    apply head_filter_first in Hh as (i & Hi & [Ha _] & Hmin). rewrite Forall_forall in Hle.
    change (map normalized log) with (normalized <$> log) in *.
    rewrite list_lookup_fmap in Hi. destruct (log !! i) as [r|] eqn:Er; [|done]. injection Hi as <-.
    exists i, r. split; [|done]. split; [by apply candidate_applicable|].
    intros j r' [Hj Haj]%candidate_applicable.
    assert (rule_effective (normalized r') <= rule_effective (normalized r)) as Hle'.
    { apply Hle, list_elem_of_filter. split; [done|]. apply list_elem_of_fmap_2. by eapply list_elem_of_lookup_2. }
    unfold rule_effective in *. cbn [pr_effective_from normalized to_utc] in *.
    destruct (decide (to_utc (pr_effective_from r') = to_utc (pr_effective_from r))) as [Heq|]; [right|lia].
    split; [done|]. apply (Hmin j (normalized r')); [by rewrite list_lookup_fmap, Hj|by split].
  - intros i r [Hr Ha]%candidate_applicable.
    assert (normalized r ∈ filter (λ r, applicable p m t r = true) (map normalized log)) as Hin.
    { apply list_elem_of_filter. split; [done|]. apply list_elem_of_fmap_2. by eapply list_elem_of_lookup_2. }
    unfold newest in E. destruct (argmax_is_Some (λ a b, rule_effective b <? rule_effective a)
      (filter (λ r, applicable p m t r = true) (map normalized log))) as [y Hy]; [|congruence].
    intros E0. rewrite E0 in Hin. by apply elem_of_nil in Hin.
Qed.

(** ** Lemmas: costs *)

(** What the catalog needs of its rates: finite and at least zero. *)
Definition rate_ok (x : pyfloat) : Prop := is_fin x = true ∧ fle f0 x = true.

Definition rule_ok (r : PricingRule) : Prop :=
  rate_ok (pr_input_usd_per_1k_tokens r) ∧ rate_ok (pr_output_usd_per_1k_tokens r) ∧
  rate_ok (pr_request_base_usd r) ∧ match pr_cached_input_usd_per_1k_tokens r with Some x => rate_ok x | None => True end.

Lemma multiplier_pos n : (1 <= n <= 2 ^ 1000) → ∃ m, py_float_of_int n = Ok (Fin m) ∧ (0 < m)%Q.
Proof.
  intros Hn. destruct (py_float_of_int_ok n ltac:(lia)) as [m Em]. exists m. split; [done|].
  assert (py_float_of_int 1 = Ok f1) as E1 by (vm_compute; reflexivity).
  pose proof (py_float_of_int_mono 1 n f1 (Fin m) ltac:(lia) E1 Em) as H.
  unfold f1 in H. cbn [fle] in H. apply Qle_bool_iff in H. lra.
Qed.

Lemma token_cost_ge0 tokens rate m : (0 <= tokens <= 2 ^ 1000) → rate_ok rate → (0 < m)%Q →
  ∃ c, token_cost tokens rate (Fin m) = Ok c ∧ fle f0 c = true ∧ repr c.
Proof.
  intros Ht [Hf Hr] Hm. unfold token_cost.
  destruct (py_float_of_int_ok tokens ltac:(lia)) as [t Et]. rewrite Et. cbn [rbind].
  destruct (py_float_of_int_ge0 tokens _ ltac:(lia) Et) as [_ Hge]. apply ge0_Fin in Hge.
  assert (of_Z 1000 = Fin 1000) as -> by (vm_compute; reflexivity).
  destruct (ge0_fdiv t 1000 Hge (py_float_of_int_repr _ _ Et) ltac:(lra)) as (q & -> & Hq). cbn [rbind].
  eexists. split; [reflexivity|]. split; [|apply fmul_repr].
  apply ge0_fmul_pos; [|done]. by apply ge0_fmul.
Qed.

Lemma resolved_rule rules p m t r : _resolve_rule rules p m t = Ok r → r ∈ rules ∧ rule_effective r <= t.
Proof.
  unfold _resolve_rule. destruct (newest _) as [x|] eqn:E; [|done]. intros <-%Ok_inj.
  apply argmax_in, list_elem_of_filter in E as [Ha Hr]. by apply applicable_spec in Ha as (_ & _ & ?).
Qed.

(** No part of a sum of values of at least zero exceeds it. *)
Lemma costs_below_total a b c d :
  repr a → repr b → repr c → repr d →
  fle f0 a = true → fle f0 b = true → fle f0 c = true → fle f0 d = true →
  Forall (λ x, fle f0 x = true ∧ fle x (fadd (fadd (fadd a b) c) d) = true) [a; b; c; d].
Proof.
  intros Ra Rb Rc Rd Ga Gb Gc Gd.
  assert (fle f0 (fadd a b) = true) as Gab by (by apply ge0_fadd).
  assert (fle f0 (fadd (fadd a b) c) = true) as Gabc by (by apply ge0_fadd).
  assert (fle (fadd a b) (fadd (fadd a b) c) = true) as L1 by (apply fle_fadd_ge0; [apply fadd_repr|done..]).
  assert (fle (fadd (fadd a b) c) (fadd (fadd (fadd a b) c) d) = true) as L2 by (apply fle_fadd_ge0; [apply fadd_repr|done..]).
  assert (fle (fadd a b) (fadd (fadd (fadd a b) c) d) = true) as L3 by (by eapply fle_trans).
  repeat constructor; try done.
  - eapply fle_trans; [by apply (fle_fadd_ge0 a b)|done].
  - eapply fle_trans; [by apply (fle_fadd_ge0_r a b)|done].
  - eapply fle_trans; [by apply (fle_fadd_ge0_r (fadd a b) c)|done].
  - by apply fle_fadd_ge0_r.
Qed.

(** ** Properties *)

(** C39. The catalog refines its registration log: whatever the order of registrations and the
    sorting in between, the rule that prices a usage is, of those registered for its
    provider and model with an effective time not after the usage, the one with the greatest
    effective time, and of several with that time the one registered first, with its rates and
    its effective time in UTC; the resolution returns nothing else, and without such a rule
    it raises ValueError. *)
Theorem pricing_rule_resolution (log : list PricingRule) (provider model : string) (t : instant) :
  (∀ rule, _resolve_rule (catalog_of log) provider model t = Ok rule ↔
     ∃ i r, rule_in_force log provider model t i r ∧
       rule = mkRule provider model (Aware (to_utc (pr_effective_from r)) 0)
                (pr_input_usd_per_1k_tokens r) (pr_output_usd_per_1k_tokens r)
                (pr_cached_input_usd_per_1k_tokens r) (pr_request_base_usd r)) ∧
  (∀ x, _resolve_rule (catalog_of log) provider model t = Raise x ↔
     (∀ i r, ¬ candidate log provider model t i r) ∧ x = ValueError "no pricing rule available").
Proof.
  assert (∀ i r, candidate log provider model t i r → normalized r =
    mkRule provider model (Aware (to_utc (pr_effective_from r)) 0)
      (pr_input_usd_per_1k_tokens r) (pr_output_usd_per_1k_tokens r)
      (pr_cached_input_usd_per_1k_tokens r) (pr_request_base_usd r)) as Hnorm
    by (by intros i r (_ & <- & <- & _)).
  pose proof (newest_log log provider model t) as Hn. unfold _resolve_rule.
  destruct (newest _) as [rule|]; split.
  - destruct Hn as (i & r & Hf & ->). intros rule. split.
    + intros <-%Ok_inj. exists i, r. split; [done|]. by eapply Hnorm, Hf.
    + intros (j & r' & Hf' & ->). destruct (rule_in_force_unique _ _ _ _ _ _ _ _ Hf Hf') as [<- <-].
      f_equal. by eapply Hnorm, Hf.
  - intros x. split; [done|]. intros [Hno _]. destruct Hn as (i & r & [Hc _] & _). by destruct (Hno i r).
  - intros rule. split; [done|]. intros (i & r & [Hc _] & _). by destruct (Hn i r).
  - intros x. split; [by intros [= <-]|by intros [_ ->]].
Qed.

(** A corrected price is ignored: a rule registered for a provider, model and effective time
    that already has one changes no estimate, of any usage at any time. *)
Theorem pricing_correction_ignored (log : list PricingRule) (rule : PricingRule) (now : instant) (usage : PricingUsage)
    (Hdup : ∃ r, r ∈ log ∧ pr_provider (normalized r) = pr_provider (normalized rule) ∧
                 pr_model (normalized r) = pr_model (normalized rule) ∧ rule_effective r = rule_effective rule) :
  estimate now usage (catalog_of (log ++ [rule])) = estimate now usage (catalog_of log).
Proof.
  unfold estimate. destruct (pu_request_count usage <=? 0); [done|].
  set (p := lower _). set (m := strip _). set (t := match pu_effective_at usage with Some _ => _ | None => _ end).
  unfold _resolve_rule. rewrite !newest_catalog, map_app, filter_app. cbn [map].
  destruct (decide (applicable p m t (normalized rule) = true)) as [Ha|Ha];
    [rewrite filter_cons_True by done|by rewrite filter_cons_False, filter_nil, app_nil_r].
  rewrite filter_nil. destruct Hdup as (r & Hr & Hp & Hm & He).
  assert (normalized r ∈ filter (λ r, applicable p m t r = true) (map normalized log)) as Hin.
  { apply list_elem_of_filter. split; [|by apply list_elem_of_fmap_2].
    apply applicable_spec in Ha as (A1 & A2 & A3). apply applicable_spec. unfold rule_effective in *. cbn in *. by rewrite Hp, Hm, He. }
  replace (newest (filter _ (map normalized log) ++ [normalized rule])) with
    (newest (filter (λ r, applicable p m t r = true) (map normalized log))); [done|].
  destruct (newest (filter _ (map normalized log))) as [x|] eqn:E.
  - symmetry. apply argmax_key_spec. apply argmax_key_spec in E as [E1 E2]. split.
    + rewrite filter_app, head_app. by rewrite E1.
    + apply Forall_app. split; [done|]. apply Forall_singleton. rewrite Forall_forall in E2.
      specialize (E2 _ Hin). unfold rule_effective in *. cbn in *. lia.
  - unfold newest in E. destruct (argmax_is_Some (λ a b, rule_effective b <? rule_effective a)
      (filter (λ r, applicable p m t r = true) (map normalized log))) as [y Hy]; [|congruence].
    intros E0. rewrite E0 in Hin. inversion Hin.
Qed.

(** When an estimate succeeds and what it says. For token and request counts that are floats
    and rates that are finite and at least zero, it succeeds exactly when the request count is
    positive, a rule applies and no token count is negative; then it names that rule, every
    component is at least zero, none exceeds the total, and reporting more cached tokens than
    input tokens is the same as reporting all of them cached. *)
Theorem pricing_estimate_outcome (rules : PricingCatalog) (now : instant) (usage : PricingUsage)
    (Hrules : Forall rule_ok rules) (Hcount : pu_request_count usage <= 2 ^ 1000)
    (Hinput : pu_input_tokens usage <= 2 ^ 1000) (Houtput : pu_output_tokens usage <= 2 ^ 1000) :
  let t := match pu_effective_at usage with Some t => to_utc t | None => now end in
  let rule := _resolve_rule rules (lower (strip (pu_provider usage))) (strip (pu_model usage)) t in
  (is_ok (estimate now usage rules) = true ↔
   0 < pu_request_count usage ∧ is_ok rule = true ∧ 0 <= pu_input_tokens usage ∧
   0 <= pu_output_tokens usage ∧ 0 <= pu_cache_read_input_tokens usage) ∧
  ∀ e, estimate now usage rules = Ok e →
    (∃ r, rule = Ok r ∧ ce_rule_effective_from e = rule_effective r ∧ rule_effective r <= t) ∧
    Forall (λ c, fle f0 c = true ∧ fle c (ce_total_cost_usd e) = true)
      [ce_input_cost_usd e; ce_cached_input_cost_usd e; ce_output_cost_usd e; ce_request_base_cost_usd e] ∧
    (pu_input_tokens usage <= pu_cache_read_input_tokens usage →
     estimate now (mkUsage (pu_provider usage) (pu_model usage) (pu_input_tokens usage) (pu_output_tokens usage)
                     (pu_input_tokens usage) (pu_request_count usage) (pu_effective_at usage)) rules = Ok e).
Proof.
  intros t rule. unfold estimate. cbn [pu_request_count pu_provider pu_model pu_input_tokens pu_output_tokens
    pu_cache_read_input_tokens pu_effective_at]. fold t. fold rule.
  destruct (Z.leb_spec (pu_request_count usage) 0) as [Hc|Hc]; [split; [split; [done|lia]|done]|].
  destruct rule as [r|x] eqn:Er; cbn [rbind]; [|split; [split; [done|by intros (_ & ? & _)]|done]].
  destruct (Z.ltb_spec (pu_input_tokens usage) 0); [split; [split; [done|lia]|done]|].
  destruct (Z.ltb_spec (pu_output_tokens usage) 0); [split; [split; [done|lia]|done]|].
  destruct (Z.ltb_spec (pu_cache_read_input_tokens usage) 0); [split; [split; [done|lia]|done]|]. cbn [orb].
  destruct (resolved_rule _ _ _ _ _ Er) as [Hin Ht]. rewrite Forall_forall in Hrules.
  destruct (Hrules r Hin) as (Hi & Ho & Hb & Hca).
  destruct (multiplier_pos (pu_request_count usage) ltac:(lia)) as (m & -> & Hm). cbn [rbind].
  assert (rate_ok (match pr_cached_input_usd_per_1k_tokens r with Some x => x | None => pr_input_usd_per_1k_tokens r end))
    as Hrate by (by destruct (pr_cached_input_usd_per_1k_tokens r)).
  destruct (token_cost_ge0 (Z.max (pu_input_tokens usage - Z.min (pu_cache_read_input_tokens usage) (pu_input_tokens usage)) 0)
    _ m ltac:(lia) Hi Hm) as (c1 & E1 & G1 & R1).
  destruct (token_cost_ge0 (Z.min (pu_cache_read_input_tokens usage) (pu_input_tokens usage)) _ m ltac:(lia) Hrate Hm)
    as (c2 & E2 & G2 & R2).
  destruct (token_cost_ge0 (pu_output_tokens usage) _ m ltac:(lia) Ho Hm) as (c3 & E3 & G3 & R3).
  assert (fle f0 (fmul (pr_request_base_usd r) (Fin m)) = true) as G4 by (apply ge0_fmul_pos; [apply Hb|done]).
  rewrite E1, E2, E3. cbn [rbind]. split; [split; [intros _; split_and!; done|done]|].
  intros e <-%Ok_inj. cbn [ce_rule_effective_from ce_input_cost_usd ce_cached_input_cost_usd ce_output_cost_usd
    ce_request_base_cost_usd ce_total_cost_usd].
  split; [by exists r|]. split; [by apply costs_below_total; try apply fmul_repr|].
  intros Hcap. rewrite Z.min_r in E1, E2 by lia. rewrite Z.min_id, E1, E2. reflexivity.
Qed.

(** The simulation ranks every other model: its candidates are, in order of falling savings,
    the given models except the current one, each with its own monthly cost and the
    difference to the current model's; and a single candidate that cannot be priced makes
    the whole simulation raise. *)
Theorem simulation_ranked (now : instant) (pricing : PricingCatalog) (service provider current : string)
    (input output per_day : Z) (models : list string) :
  let cost model := ce_total_cost_usd <$>
    match monthly_estimate now pricing provider model input output per_day with Ok e => Some e | Raise _ => None end in
  (∀ r, simulate now pricing service provider current input output per_day models = Ok r →
     cost current = Some (sr_projected_monthly_cost_usd r) ∧
     Sorted (λ a b, greater_savings b a = false) (sr_candidates r) ∧
     map cs_model (sr_candidates r) ≡ₚ filter (λ m, m ≠ current) models ∧
     Forall (λ c, cost (cs_model c) = Some (cs_projected_monthly_cost_usd c) ∧
                  cs_monthly_savings_usd c = fsub (sr_projected_monthly_cost_usd r) (cs_projected_monthly_cost_usd c))
            (sr_candidates r)) ∧
  (∀ m, m ∈ models → m ≠ current → cost m = None →
     is_ok (simulate now pricing service provider current input output per_day models) = false).
Proof.
  intros cost. unfold simulate. destruct (per_day <=? 0); [done|].
  destruct (monthly_estimate now pricing provider current input output per_day) as [b|x] eqn:Eb; [|done]. cbn [rbind].
  set (f model := rbind _ _). split.
  - intros r. destruct (map_res f _) as [cs|] eqn:Ec; [|done]. cbn [rbind]. intros <-%Ok_inj.
    cbn [sr_projected_monthly_cost_usd sr_candidates]. apply map_res_Forall2 in Ec.
    assert (∀ m c, f m = Ok c → cs_model c = m ∧ cost m = Some (cs_projected_monthly_cost_usd c) ∧
      cs_monthly_savings_usd c = fsub (ce_total_cost_usd b) (cs_projected_monthly_cost_usd c)) as Hf.
    { intros m c. subst f cost. cbn beta. destruct (monthly_estimate _ _ _ m _ _ _); [|done]. cbn [rbind]. unfold candidate_of.
      destruct (if flt f0 _ then _ else _); [|done]. cbn [rbind]. by intros <-%Ok_inj. }
    split_and!.
    + subst cost. cbn beta. by rewrite Eb.
    + apply (stable_sort_sorted _ (λ _, True)); [|by apply Forall_true]. intros a c _ _. apply flt_asym.
    + rewrite stable_sort_perm. induction Ec as [|m c ms cs Hmc Hc IH]; [done|]. cbn [map].
      destruct (Hf _ _ Hmc) as [-> _]. by f_equiv.
    + rewrite stable_sort_perm. induction Ec as [|m c ms cs Hmc Hc IH]; constructor; [|done].
      destruct (Hf _ _ Hmc) as (-> & ? & ?). done.
  - intros m Hin Hne Hm. assert (is_ok (map_res f (filter (λ m, m ≠ current) models)) = false) as Hfail.
    { apply (map_res_fails _ _ m); [by apply list_elem_of_filter|]. subst f cost. cbn beta in *.
      by destruct (monthly_estimate _ _ _ m _ _ _). }
    by destruct (map_res f _).
Qed.

(** ** Witnesses *)

Definition corrected_rule : PricingRule := mkRule " OpenAI " "gpt-4o" anchor (lit 1 4) (lit 1 4) None f0.

Definition sample_usage : PricingUsage := mkUsage "openai" "gpt-4o" 1000 500 200 10 (Some (Aware (20500 * us_per_day) 0)).

Lemma pricing_correction_ignored_witness :
  estimate 0 sample_usage (catalog_of (default_rules ++ [corrected_rule])) = estimate 0 sample_usage (catalog_of default_rules).
Proof.
  apply (pricing_correction_ignored default_rules corrected_rule 0 sample_usage).
  exists (mkRule "openai" "gpt-4o" anchor (lit 50 10000) (lit 150 10000) None f0).
  split; [by left|]. split_and!; vm_compute; reflexivity.
Defined.

Lemma pricing_estimate_outcome_witness :
  is_ok (estimate 0 sample_usage with_default_rules) = true ∧
  is_ok (estimate 0 (mkUsage "openai" "gpt-5" 1 1 0 1 None) with_default_rules) = false.
Proof.
  assert (Forall rule_ok with_default_rules) as Hok by (vm_compute; repeat constructor).
  split.
  - apply (pricing_estimate_outcome with_default_rules 0 sample_usage Hok); [vm_compute; discriminate..|].
    split_and!; vm_compute; done.
  - apply not_true_is_false. intros H.
    apply (pricing_estimate_outcome with_default_rules 0 (mkUsage "openai" "gpt-5" 1 1 0 1 None) Hok) in H;
      [|vm_compute; discriminate..].
    destruct H as (_ & H & _). vm_compute in H. discriminate H.
Defined.

Lemma simulation_ranked_witness :
  is_ok (simulate (20500 * us_per_day) with_default_rules "svc" "openai" "gpt-4o" 1000 500 10 ["gpt-4o-mini"; "gpt-5"]) = false ∧
  ∃ r, simulate (20500 * us_per_day) with_default_rules "svc" "openai" "gpt-4o" 1000 500 10 ["gpt-4o"; "gpt-4o-mini"] = Ok r ∧
    map cs_model (sr_candidates r) ≡ₚ ["gpt-4o-mini"].
Proof.
  split.
  - apply (simulation_ranked (20500 * us_per_day) with_default_rules "svc" "openai" "gpt-4o" 1000 500 10
      ["gpt-4o-mini"; "gpt-5"]) with (m := "gpt-5"); [apply list_elem_of_In; simpl; tauto|discriminate|vm_compute; reflexivity].
  - destruct (simulate (20500 * us_per_day) with_default_rules "svc" "openai" "gpt-4o" 1000 500 10
      ["gpt-4o"; "gpt-4o-mini"]) as [r|x] eqn:E; [|vm_compute in E; discriminate E].
    exists r. split; [reflexivity|].
    destruct (simulation_ranked (20500 * us_per_day) with_default_rules "svc" "openai" "gpt-4o" 1000 500 10
      ["gpt-4o"; "gpt-4o-mini"]) as [H _]. destruct (H r E) as (_ & _ & Hp & _). exact Hp.
Defined.
