(* ===== verification/Forecast.v ===== *)
(** * The spend forecast (src/aci/forecast/engine.py)

    Least squares on binary64 floats and the constant envelope of the residuals. The squares
    [(x - x_mean) ** 2] are products: the operands are halves of integers, whose squares are
    exact. *)

From S2P Require Import Prelude PyFloat PyData PyMath PyValue.
From Stdlib Require Import ZArith QArith Lia Lqa.
From stdpp Require Import base list strings.

Open Scope string_scope.
Open Scope list_scope.
Open Scope nat_scope.
Local Open Scope py_scope.

Record ForecastPoint := mkPoint {
  month_offset : Z;
  predicted_spend_usd : pyfloat;
  lower_bound_usd : pyfloat;
  upper_bound_usd : pyfloat;
}.

Record SpendForecast := mkForecast {
  trend_pct : pyfloat;
  residual_stddev_usd : pyfloat;
  points : list ForecastPoint;
}.

Definition square (d : pyfloat) : pyfloat := fmul d d.

(** The mean of a list that is not empty. *)
Definition mean_of (l : list pyfloat) (n : pyfloat) : res pyfloat := fdiv (py_sum l) n.

(** The trend line: slope and intercept. *)
Definition fit (x_vals y_vals : list pyfloat) (n : pyfloat) : res (pyfloat * pyfloat) :=
  let? x_mean := mean_of x_vals n in
  let? y_mean := mean_of y_vals n in
  let denom := py_sum (map (λ x, square (fsub x x_mean)) x_vals) in
  let? slope := (if feq denom f0 then Ok f0
                 else fdiv (py_sum (zip_with (λ x y, fmul (fsub x x_mean) (fsub y y_mean)) x_vals y_vals)) denom) in
  Ok (slope, fsub y_mean (fmul slope x_mean)).

Definition residuals (slope intercept : pyfloat) (x_vals y_vals : list pyfloat) : list pyfloat :=
  zip_with (λ x y, fsub y (fadd intercept (fmul slope x))) x_vals y_vals.

(** The point of one month ahead. *)
Definition forecast_point (slope intercept confidence_width : pyfloat) (start_idx offset : nat) : ForecastPoint :=
  let month_index := of_Z (Z.of_nat (start_idx + (offset - 1))) in
  let prediction := fmax (fadd intercept (fmul slope month_index)) f0 in
  let lower := fmax (fsub prediction confidence_width) f0 in
  let upper := fmax (fadd prediction confidence_width) lower in
  mkPoint (Z.of_nat offset) prediction lower upper.

Definition forecast (monthly_spend_usd : list pyfloat) (horizon_months : Z) : res SpendForecast :=
  match monthly_spend_usd, last monthly_spend_usd with
  | baseline :: _ :: _, Some latest =>
      if (horizon_months <=? 0)%Z then Raise (ValueError "horizon_months must be > 0") else
      let len := length monthly_spend_usd in
      let x_vals := map (λ i, of_Z (Z.of_nat i)) (seq 0 len) in
      let y_vals := monthly_spend_usd in
      let n := of_Z (Z.of_nat len) in
      let? line := fit x_vals y_vals n in
      let '(slope, intercept) := line in
      let? residual_variance := fdiv (py_sum (map square (residuals slope intercept x_vals y_vals))) n in
      let? residual_stddev := fsqrt residual_variance in
      let confidence_width := fmul (lit 196 100) residual_stddev in
      let points := map (forecast_point slope intercept confidence_width len) (seq 1 (Z.to_nat horizon_months)) in
      let? trend := (if feq baseline f0 then Ok f0
                     else let? q := fdiv (fsub latest baseline) baseline in Ok (fmul q (of_Z 100))) in
      Ok (mkForecast trend residual_stddev points)
  | _, _ => Raise (ValueError "at least two months of spend history are required")
  end.

Example forecast_sample :
  let show p := (month_offset p, repr_float (predicted_spend_usd p), repr_float (lower_bound_usd p), repr_float (upper_bound_usd p)) in
  match forecast (map of_Z [100; 120; 140; 160]%Z) 2 with
  | Ok f => (repr_float (trend_pct f), map show (points f))
            = ("60.0", [(1%Z, "180.0", "180.0", "180.0"); (2%Z, "200.0", "200.0", "200.0")])
  | Raise _ => False end ∧
  match forecast (map of_Z [30; 0; 10]%Z) 1 with
  | Ok f => map show (points f) = [(1%Z, "0.0", "0.0", "18.47905721500844")] | Raise _ => False end.
Proof. vm_compute. auto. Qed.

(** ** Lemmas *)

Lemma square_nonneg d : nonneg (square d).
Proof.
  unfold square. destruct d as [q| | |]; [|by right|by right|by left]. cbn [fmul]. apply nonneg_of_Q. nra.
Qed.

Lemma squares_nonneg l : nonneg (py_sum (map square l)).
Proof.
  apply py_sum_nonneg, Forall_forall. intros x Hx. apply list_elem_of_fmap in Hx as (d & -> & _).
  split; [apply square_nonneg|apply fmul_repr].
Qed.

(** The number of months as a float is positive. *)
Lemma months_pos n : 0 < n → ∃ y, of_Z (Z.of_nat n) = y ∧ fle f1 y = true.
Proof.
  intros Hn. eexists. split; [done|]. apply of_Q_ge_repr; [|apply repr_f1].
  change 1%Q with (inject_Z 1). rewrite <- Zle_Qle. lia.
Qed.

Lemma positive_divisor y : fle f1 y = true → fle y f0 = false ∧ nonneg y.
Proof.
  intros H. split; [|right; apply (fle_trans _ f1); done].
  destruct (fle y f0) eqn:E; [|done]. pose proof (fle_trans _ _ _ H E) as Hx. vm_compute in Hx. done.
Qed.

Lemma fit_total xs ys y : fle f1 y = true → ∃ line, fit xs ys y = Ok line.
Proof.
  intros Hy. destruct (positive_divisor y Hy) as [Hy0 _]. unfold fit, mean_of.
  destruct (fdiv_ok (py_sum xs) y Hy0) as [xm ->]. cbn [rbind].
  destruct (fdiv_ok (py_sum ys) y Hy0) as [ym ->]. cbn [rbind].
  set (denom := py_sum _).
  assert (nonneg denom) as Hd.
  { subst denom. rewrite <- (map_map (λ x, fsub x xm) square). apply squares_nonneg. }
  destruct (feq denom f0) eqn:E; cbn [rbind]; [by eexists|].
  set (num := py_sum _). assert (∃ z, fdiv num denom = Ok z) as [z ->]; [|by eexists].
  destruct Hd as [Hd|Hd]; [destruct denom; try done; destruct num; cbn [fdiv]; by eexists|].
  apply fdiv_ok. destruct (fle denom f0) eqn:E'; [|done]. unfold feq in E. rewrite E', Hd in E. done.
Qed.

Lemma fsub_below p w : repr p → nonneg w → flt p (fsub p w) = false.
Proof.
  destruct p as [p| | |], w as [q| | |]; try done; try (by intros ? [?|?]). rewrite nonneg_Fin. intros Hr Hq.
  assert (fle (fsub (Fin p) (Fin q)) (Fin p) = true) as H; [|by apply flt_false in H; [|done|apply of_Q_not_nan]].
  apply of_Q_le_repr; [rewrite Qred_correct; lra|done].
Qed.

Lemma fadd_above p w : repr p → nonneg w → flt (fadd p w) p = false.
Proof.
  destruct p as [p| | |], w as [q| | |]; try done; try (by intros ? [?|?]). rewrite nonneg_Fin. intros Hr Hq.
  assert (fle (Fin p) (fadd (Fin p) (Fin q)) = true) as H; [|by apply flt_false in H; [|apply of_Q_not_nan|done]].
  apply of_Q_ge_repr; [lra|done].
Qed.

Lemma max_zero_nonneg x : nonneg (fmax x f0).
Proof.
  unfold fmax. destruct (flt x f0) eqn:E; [by right|]. destruct x as [q| | |]; try (by left); try (by right).
  right. by apply flt_false in E.
Qed.

Lemma max_repr x y : repr x → repr y → repr (fmax x y).
Proof. unfold fmax. by destruct (flt x y). Qed.

(** A point of the forecast, as Python compares: no bound and no prediction is below zero,
    and the prediction is neither below the lower bound nor above the upper one. *)
Definition point_ok (p : ForecastPoint) : Prop :=
  nonneg (predicted_spend_usd p) ∧ nonneg (lower_bound_usd p) ∧ nonneg (upper_bound_usd p) ∧
  flt (predicted_spend_usd p) (lower_bound_usd p) = false ∧ flt (upper_bound_usd p) (predicted_spend_usd p) = false.

Lemma forecast_point_ok slope intercept w start offset :
  nonneg w → point_ok (forecast_point slope intercept w start offset).
Proof.
  intros Hw. unfold forecast_point, point_ok. cbn [predicted_spend_usd lower_bound_usd upper_bound_usd].
  set (p := fmax (fadd intercept _) f0). set (l := fmax (fsub p w) f0). set (u := fmax (fadd p w) l).
  assert (nonneg p) as Hp by apply max_zero_nonneg. assert (nonneg l) as Hl by apply max_zero_nonneg.
  assert (repr p) as Rp by (apply max_repr; [apply fadd_repr|apply repr_f0]).
  assert (flt p l = false) as Hpl.
  { subst l. unfold fmax at 1. destruct (flt (fsub p w) f0); [|by apply fsub_below].
    destruct Hp as [Hp|Hp]; [by destruct p|]. by apply flt_false; [eapply fle_not_nan_r| |]. }
  split_and!; [done|done| |done|].
  - subst u. unfold fmax at 1. destruct (flt (fadd p w) l); [done|by apply nonneg_fadd].
  - subst u. unfold fmax at 1. destruct (flt (fadd p w) l) eqn:E; [|by apply fadd_above].
    destruct (is_nan p) eqn:Np; [by destruct p; destruct l|].
    assert (is_nan (fadd p w) = false) as Nn by (destruct (fadd p w); done).
    pose proof (proj1 (flt_false _ _ Nn Np) (fadd_above p w Rp Hw)) as Hge.
    by rewrite (fle_lt_trans _ _ _ Hge E) in Hpl.
Qed.

(** ** Properties *)

(** The forecast always returns: for at least two months of history, of any floats whatever,
    and a positive horizon, no division by zero and no root of a negative number occurs; there
    is one point per month ahead, in order, and in each the lower bound, the prediction and the
    upper bound are in order and none is negative. A shorter history or another horizon
    raises. *)
Theorem forecast_total_ordered (history : list pyfloat) (horizon : Z) :
  if (length history <? 2) || (horizon <=? 0)%Z then ∃ msg, forecast history horizon = Raise (ValueError msg)
  else ∃ f, forecast history horizon = Ok f ∧
    map month_offset (points f) = map (λ i, Z.of_nat i) (seq 1 (Z.to_nat horizon)) ∧
    Forall point_ok (points f).
Proof.
  destruct history as [|b [|b2 rest]]; [by eexists..|].
  destruct (last (b :: b2 :: rest)) as [latest|] eqn:Elast; [|by apply last_None in Elast].
  unfold forecast. rewrite Elast. cbn [length Nat.ltb Nat.leb orb].
  destruct (horizon <=? 0)%Z; [by eexists|].
  destruct (months_pos (S (S (length rest))) ltac:(lia)) as (n & En & Hn). rewrite En.
  destruct (positive_divisor n Hn) as [Hn0 Hnn].
  set (xs := map _ (seq 0 _)). destruct (fit_total xs (b :: b2 :: rest) n Hn) as [[slope intercept] ->]. cbn [rbind].
  set (rs := residuals _ _ _ _). destruct (fdiv_ok (py_sum (map square rs)) n Hn0) as [v Ev]. rewrite Ev. cbn [rbind].
  pose proof (nonneg_fdiv _ _ _ (squares_nonneg rs) Hnn Ev) as Hv.
  assert (∃ sd, fsqrt v = Ok sd) as [sd Esd].
  { destruct v as [q| | |]; cbn [fsqrt]; try (by eexists); [|by destruct Hv].
    apply nonneg_Fin in Hv. rewrite (proj2 (Qle_bool_iff 0 q) Hv). by eexists. }
  rewrite Esd. cbn [rbind]. pose proof (fsqrt_nonneg _ _ Esd) as Hsd.
  assert (∃ tr, (if feq b f0 then Ok f0 else let? q := fdiv (fsub latest b) b in Ok (fmul q (of_Z 100))) = Ok tr) as [tr ->].
  { destruct (feq b f0) eqn:Eb; [by eexists|]. assert (∃ q, fdiv (fsub latest b) b = Ok q) as [q ->]; [|by eexists].
    destruct b as [q| | |], (fsub latest _); cbn [fdiv]; try (by eexists);
      destruct (Qeq_bool q 0) eqn:E0; try (by eexists); exfalso; apply Qeq_bool_iff in E0;
      unfold feq, f0 in Eb; cbn [fle] in Eb; apply andb_false_iff in Eb as [Eb|Eb]; apply Qle_bool_false in Eb; lra. }
  cbn [rbind]. eexists. split; [done|]. cbn [points]. split.
  - rewrite map_map. done.
  - apply Forall_forall. intros p Hp. apply list_elem_of_fmap in Hp as (i & -> & _).
    apply forecast_point_ok. apply nonneg_fmul; [by right|done].
Qed.
