(* ===== verification/CostLedger.v ===== *)
(** * The cost ledger and its drift report (src/aci/finops/reconciliation.py)

    The records of synthetic and reconciled cost, the two updates, and the grouped drift
    summary. A method call is one atomic step (the lock); the record a method returns is the
    stored one, so it is given by its request id. [now] is the clock reading of a call. *)

From S2P Require Import Prelude PyFloat PyData PyMath PyTime PyValue.
From Stdlib Require Import ZArith QArith Qabs Lia Lqa Sorted.
From stdpp Require Import base list strings.

Open Scope string_scope.
Open Scope list_scope.
Open Scope nat_scope.
Local Open Scope py_scope.

(** ** Data *)

Record CostRecord := mkCost {
  cr_request_id : string;
  cr_service_name : string;
  cr_provider : string;
  cr_model : string;
  cr_synthetic_cost_usd : pyfloat;
  cr_synthetic_recorded_at : instant;
  cr_reconciled_cost_usd : option pyfloat;
  cr_reconciled_recorded_at : option instant;
  cr_reconciliation_source : string;
}.

Definition is_reconciled (r : CostRecord) : bool :=
  match cr_reconciled_cost_usd r with Some _ => true | None => false end.

Definition record_drift_usd (r : CostRecord) : option pyfloat :=
  match cr_reconciled_cost_usd r with Some c => Some (fsub c (cr_synthetic_cost_usd r)) | None => None end.

Definition record_drift_pct (r : CostRecord) : res (option pyfloat) :=
  match record_drift_usd r with
  | None => Ok None
  | Some drift =>
      if feq (cr_synthetic_cost_usd r) f0 then Ok (Some (if feq drift f0 then f0 else of_Z 100))
      else let? q := fdiv drift (cr_synthetic_cost_usd r) in Ok (Some (fmul q (of_Z 100)))
  end.

Record CostDriftSummary := mkDrift {
  ds_group : string;
  ds_total_records : nat;
  ds_reconciled_records : nat;
  ds_unresolved_records : nat;
  ds_synthetic_cost_usd : pyfloat;
  ds_reconciled_cost_usd : pyfloat;
  ds_absolute_drift_usd : pyfloat;
  ds_drift_pct : pyfloat;
}.

(** ** The ledger *)

Abbreviation ReconciliationLedger := (odict string CostRecord).

Definition ReconciliationLedger_init : ReconciliationLedger := [].

(** [_aware(recorded_at) if recorded_at else datetime.now(UTC)] *)
Definition timestamp (now : instant) (recorded_at : option datetime) : instant :=
  match recorded_at with Some t => to_utc t | None => now end.

Definition upsert_synthetic (request_id service_name provider model : string) (synthetic_cost_usd : pyfloat)
    (recorded_at : option datetime) (now : instant) (records : ReconciliationLedger) : ReconciliationLedger :=
  let t := timestamp now recorded_at in
  let '(reconciled, at_, source) :=
    match od_get request_id records with
    | None => (None, None, "")
    | Some current => (cr_reconciled_cost_usd current, cr_reconciled_recorded_at current, cr_reconciliation_source current)
    end in
  let request_id' := match od_get request_id records with Some current => cr_request_id current | None => request_id end in
  od_set request_id (mkCost request_id' (strip service_name) (lower (strip provider)) (strip model) synthetic_cost_usd t
                            reconciled at_ source) records.

Definition reconcile (request_id : string) (reconciled_cost_usd : pyfloat) (source : string)
    (recorded_at : option datetime) (now : instant) (records : ReconciliationLedger)
    : res unit * ReconciliationLedger :=
  match od_get request_id records with
  | None => (Raise (ValueError "not found in synthetic ledger"), records)
  | Some r =>
      (Ok tt, od_set request_id (mkCost (cr_request_id r) (cr_service_name r) (cr_provider r) (cr_model r)
                (cr_synthetic_cost_usd r) (cr_synthetic_recorded_at r) (Some reconciled_cost_usd)
                (Some (timestamp now recorded_at)) (strip source)) records)
  end.

Definition list_records (records : ReconciliationLedger) : list CostRecord := od_values records.

(** The bucket of a record. *)
Definition bucket_key (group_by : string) (r : CostRecord) : string :=
  if String.eqb group_by "provider" then cr_provider r else cr_service_name r.

(** [buckets.setdefault(key, []).append(record)] *)
Definition add_to_bucket (group_by : string) (buckets : odict string (list CostRecord)) (r : CostRecord)
    : odict string (list CostRecord) :=
  od_set (bucket_key group_by r) (default [] (od_get (bucket_key group_by r) buckets) ++ [r]) buckets.

(** [item.reconciled_cost_usd or 0.0] *)
Definition reconciled_or_zero (r : CostRecord) : pyfloat :=
  match cr_reconciled_cost_usd r with Some c => if feq c f0 then f0 else c | None => f0 end.

Definition summarize_bucket (key : string) (items : list CostRecord) : res CostDriftSummary :=
  let total := length items in
  let reconciled := filter (λ r, is_reconciled r = true) items in
  let synth_total := py_sum (map cr_synthetic_cost_usd items) in
  let reconciled_total := py_sum (map reconciled_or_zero reconciled) in
  let absolute_drift := fabs (fsub reconciled_total synth_total) in
  let? drift_pct := (if flt f0 synth_total
                     then let? q := fdiv (fsub reconciled_total synth_total) synth_total in Ok (fmul q (of_Z 100))
                     else Ok f0) in
  Ok (mkDrift key total (length reconciled) (total - length reconciled) synth_total reconciled_total
              absolute_drift drift_pct).

Definition greater_drift (a b : CostDriftSummary) : bool := flt (ds_absolute_drift_usd b) (ds_absolute_drift_usd a).

Definition summarize_drift (group_by : string) (records : ReconciliationLedger) : res (list CostDriftSummary) :=
  if negb (bool_decide (group_by ∈ ["provider"; "service"])) then
    Raise (ValueError "group_by must be one of {'provider', 'service'}") else
  let buckets := fold_left (add_to_bucket group_by) (od_values records) [] in
  let? summaries := map_res (λ kv : string * list CostRecord, summarize_bucket kv.1 kv.2) buckets in
  Ok (stable_sort greater_drift summaries).

Example ledger_sample :
  let l := upsert_synthetic "r2" "svc" "openai" "m" (of_Z 4) None 1%Z (upsert_synthetic "r1" "svc" " OpenAI " "m" (of_Z 10) None 0%Z []) in
  let '(r, l') := reconcile "r1" (of_Z 12) "bill" None 2%Z l in
  r = Ok tt ∧
  match summarize_drift "provider" l' with
  | Ok [s] => (ds_group s, ds_total_records s, ds_unresolved_records s, repr_float (ds_absolute_drift_usd s), repr_float (ds_drift_pct s))
              = ("openai", 2, 1, "2.0", "-14.285714285714285")
  | _ => False end ∧
  (reconcile "r9" f1 "bill" None 2%Z l).1 = Raise (ValueError "not found in synthetic ledger").
Proof. vm_compute. auto. Qed.

(** ** Histories *)

Inductive ledger_op :=
  | Upsert (request_id service_name provider model : string) (cost : pyfloat) (at_ : option datetime) (now : instant)
  | Reconcile (request_id : string) (cost : pyfloat) (source : string) (at_ : option datetime) (now : instant).

Definition op_request (o : ledger_op) : string :=
  match o with Upsert id _ _ _ _ _ _ => id | Reconcile id _ _ _ _ => id end.

Definition ledger_step (records : ReconciliationLedger) (o : ledger_op) : ReconciliationLedger :=
  match o with
  | Upsert id s p m c t now => upsert_synthetic id s p m c t now records
  | Reconcile id c src t now => (reconcile id c src t now records).2
  end.

Definition ledger_run (ops : list ledger_op) : ReconciliationLedger := fold_left ledger_step ops ReconciliationLedger_init.

(** What one request's record becomes, seen alone: a reconciliation keeps the synthetic part and
    is lost before there is one, a synthetic cost keeps the reconciliation. *)
Definition spec_op (r : option CostRecord) (o : ledger_op) : option CostRecord :=
  match o, r with
  | Upsert id s p m c t now, None =>
      Some (mkCost id (strip s) (lower (strip p)) (strip m) c (timestamp now t) None None "")
  | Upsert _ s p m c t now, Some r =>
      Some (mkCost (cr_request_id r) (strip s) (lower (strip p)) (strip m) c (timestamp now t)
                   (cr_reconciled_cost_usd r) (cr_reconciled_recorded_at r) (cr_reconciliation_source r))
  | Reconcile _ c src t now, Some r =>
      Some (mkCost (cr_request_id r) (cr_service_name r) (cr_provider r) (cr_model r) (cr_synthetic_cost_usd r)
                   (cr_synthetic_recorded_at r) (Some c) (Some (timestamp now t)) (strip src))
  | Reconcile _ _ _ _ _, None => None
  end.

(** ** Lemmas *)

Lemma ledger_step_same records o : od_get (op_request o) (ledger_step records o) = spec_op (od_get (op_request o) records) o.
Proof.
  destruct o as [id s p m c t now|id c src t now]; cbn [op_request ledger_step spec_op].
  - unfold upsert_synthetic. destruct (od_get id records); by rewrite od_get_set_eq.
  - unfold reconcile. destruct (od_get id records) eqn:E; cbn [snd]; [by rewrite od_get_set_eq|done].
Qed.

Lemma ledger_step_other records o id : id ≠ op_request o → od_get id (ledger_step records o) = od_get id records.
Proof.
  intros Hne. destruct o as [id' s p m c t now|id' c src t now]; cbn [op_request ledger_step] in *.
  - unfold upsert_synthetic. destruct (od_get id' records); by rewrite od_get_set_ne.
  - unfold reconcile. destruct (od_get id' records); cbn [snd]; [by rewrite od_get_set_ne|done].
Qed.

(** The buckets of a list of records: the groups that occur, each with its records in order. *)
Lemma buckets_spec group_by l :
  let b := fold_left (add_to_bucket group_by) l [] in
  od_wf b ∧ ∀ k, od_get k b = match filter (λ r, bucket_key group_by r = k) l with [] => None | items => Some items end.
Proof.
  induction l as [|r l [Hwf Hget]] using rev_ind; [by split; [constructor|]|].
  cbn zeta. rewrite fold_left_app. cbn [fold_left]. unfold add_to_bucket at 1 3.
  split; [by apply od_set_wf|]. intros k. rewrite od_get_set, filter_app.
  destruct (decide (k = bucket_key group_by r)) as [->|Hne].
  - rewrite Hget, filter_cons_True by done. by destruct (filter _ l).
  - by rewrite Hget, filter_cons_False, filter_nil, app_nil_r.
Qed.

Lemma summarize_bucket_total key items : ∃ s, summarize_bucket key items = Ok s ∧ ds_group s = key.
Proof.
  unfold summarize_bucket. destruct (flt f0 _) eqn:E; [|by eexists].
  destruct (fdiv_ok (fsub (py_sum (map reconciled_or_zero (filter (λ r, is_reconciled r = true) items)))
    (py_sum (map cr_synthetic_cost_usd items))) _ (flt_zero_fle _ E)) as [q ->]. by eexists.
Qed.

(** The drift of a group without billing figures. *)
Lemma negated_drift q : flt f0 (Fin q) = true → repr (Fin q) →
  ∃ d, fsub f0 (Fin q) = Fin d ∧ (d == - q)%Q ∧ of_Q (d / q) = Fin (-1).
Proof.
  intros Hpos Hr. unfold flt, f0 in Hpos. cbn [fle] in Hpos. apply negb_true_iff, Qle_bool_false in Hpos.
  pose proof (fneg_repr (Fin q) Hr) as Hn. cbn [fneg repr] in Hn.
  exists (Qred (- q)). split_and!; [|by rewrite Qred_correct|].
  - unfold fsub, f0. cbn [fneg fadd]. rewrite <- Hn. apply of_Q_comp. ring.
  - rewrite (of_Q_comp _ (-1)); [vm_compute; reflexivity|]. rewrite Qred_correct. field. lra.
Qed.

(** ** Properties *)

(** C38. The ledger refines one history per request: after any sequence of synthetic and
    reconciled costs of any requests, the record of a request is what its own operations make
    of it, in their order; a synthetic cost replaces the estimate and keeps the reconciliation,
    a reconciliation keeps the estimate, and one that arrives before any estimate changes
    nothing. *)
Theorem ledger_refines_histories (ops : list ledger_op) (request_id : string) :
  od_get request_id (ledger_run ops) = fold_left spec_op (filter (λ o, op_request o = request_id) ops) None.
Proof.
  induction ops as [|o ops IH] using rev_ind; [done|].
  unfold ledger_run in *. rewrite fold_left_app, filter_app. cbn [fold_left]. rewrite fold_left_app.
  destruct (decide (request_id = op_request o)) as [->|Hne].
  - rewrite filter_cons_True by done. cbn [fold_left]. by rewrite ledger_step_same, IH.
  - rewrite filter_cons_False by done. by rewrite ledger_step_other.
Qed.

(** The drift report partitions the ledger: grouping by provider or by service always
    returns, with one summary per group that occurs, in order of falling absolute drift, and
    each summary is computed from exactly the records of its group. *)
Theorem drift_report_partitions (records : ReconciliationLedger) (group_by : string)
    (Hgroup : group_by = "provider" ∨ group_by = "service") :
  ∃ report, summarize_drift group_by records = Ok report ∧
    NoDup (map ds_group report) ∧
    (∀ g, g ∈ map ds_group report ↔ ∃ r, r ∈ od_values records ∧ bucket_key group_by r = g) ∧
    (∀ s, s ∈ report →
       summarize_bucket (ds_group s) (filter (λ r, bucket_key group_by r = ds_group s) (od_values records)) = Ok s) ∧
    Sorted (λ a b, greater_drift b a = false) report.
Proof.
  unfold summarize_drift. rewrite bool_decide_eq_true_2 by (destruct Hgroup as [-> | ->]; [by left|right; by left]).
  cbn [negb]. destruct (buckets_spec group_by (od_values records)) as [Hwf Hget].
  set (b := fold_left _ _ _) in *.
  destruct (map_res_total (λ kv, summarize_bucket kv.1 kv.2) b) as [report Hrep].
  { intros kv _. destruct (summarize_bucket_total kv.1 kv.2) as (s & -> & _). by eexists. }
  rewrite Hrep. cbn [rbind]. eexists. split; [done|]. apply map_res_Forall2 in Hrep.
  assert (map ds_group report = od_keys b) as Hkeys.
  { unfold od_keys. clear -Hrep. induction Hrep as [|kv s l ss Hs Hr IH]; [done|]. cbn [map]. rewrite IH. f_equal.
    destruct (summarize_bucket_total kv.1 kv.2) as (s' & Es & <-). rewrite Es in Hs. by apply Ok_inj in Hs as <-. }
  split_and!.
  - rewrite stable_sort_perm, Hkeys. done.
  - intros g. rewrite stable_sort_perm, Hkeys, <- od_get_is_Some, Hget.
    destruct (filter _ (od_values records)) as [|r l] eqn:E.
    + split; [by intros []|]. intros (r & Hr & Hk). exfalso.
      assert (r ∈ filter (λ r, bucket_key group_by r = g) (od_values records)) as Hin by (by apply list_elem_of_filter).
      rewrite E in Hin. inversion Hin.
    + split; [intros _|by eexists]. exists r.
      assert (r ∈ filter (λ r, bucket_key group_by r = g) (od_values records)) as Hin by (rewrite E; by left).
      by apply list_elem_of_filter in Hin as [? ?].
  - intros s. rewrite stable_sort_perm. intros Hs.
    apply (list_elem_of_lookup_1) in Hs as [i Hi].
    destruct (Forall2_lookup_r _ _ _ _ _ Hrep Hi) as ([k items] & Hk & Es). cbn [fst snd] in Es.
    destruct (summarize_bucket_total k items) as (s' & Es' & Hg). rewrite Es' in Es. apply Ok_inj in Es as ->.
    rewrite Hg. rewrite <- Es'. f_equal. apply list_elem_of_lookup_2 in Hk.
    pose proof (od_in_get _ _ _ Hwf Hk) as Hkget. rewrite Hget in Hkget.
    destruct (filter _ (od_values records)); [done|]. by injection Hkget.
  - apply (stable_sort_sorted _ (λ _, True)); [|by apply Forall_true]. intros a c _ _. apply flt_asym.
Qed.

(** What is not reconciled yet is reported as drift: for a group none of whose requests has a
    billing figure, the reconciled total is zero, the absolute drift is the whole estimate and
    the drift is minus one hundred percent, as if the provider had charged nothing. *)
Theorem unreconciled_reported_as_drift (key : string) (items : list CostRecord)
    (Hnone : Forall (λ r, is_reconciled r = false) items)
    (Hpos : flt f0 (py_sum (map cr_synthetic_cost_usd items)) = true)
    (Hfin : is_fin (py_sum (map cr_synthetic_cost_usd items)) = true) :
  ∃ s, summarize_bucket key items = Ok s ∧ ds_unresolved_records s = length items ∧ ds_reconciled_records s = 0 ∧
    feq (ds_absolute_drift_usd s) (ds_synthetic_cost_usd s) = true ∧ feq (ds_drift_pct s) (of_Z (-100)) = true.
Proof.
  unfold summarize_bucket.
  assert (filter (λ r, is_reconciled r = true) items = []) as Hempty.
  { clear -Hnone. induction Hnone as [|r l Hr Hl IH]; [done|]. by rewrite filter_cons_False by congruence. }
  rewrite Hempty, Hpos. cbn [map length]. change (py_sum []) with f0.
  pose proof (py_sum_repr (map cr_synthetic_cost_usd items)) as Hr.
  destruct (py_sum (map cr_synthetic_cost_usd items)) as [q| | |]; try done.
  destruct (negated_drift q Hpos Hr) as (d & Ed & Hd & Eq). rewrite Ed. cbn [fdiv].
  assert (Qeq_bool q 0 = false) as ->.
  { apply not_true_iff_false. rewrite Qeq_bool_iff. unfold flt, f0 in Hpos. cbn [fle] in Hpos.
    apply negb_true_iff, Qle_bool_false in Hpos. lra. }
  rewrite Eq. cbn [rbind]. eexists. split; [done|]. split_and!; [simpl; lia|done| |vm_compute; done].
  cbn [ds_absolute_drift_usd ds_synthetic_cost_usd fabs]. unfold feq. cbn [fle].
  unfold flt, f0 in Hpos. cbn [fle] in Hpos. apply negb_true_iff, Qle_bool_false in Hpos.
  apply andb_true_iff. rewrite !Qle_bool_iff, Qred_correct, Hd, Qabs_opp, Qabs_pos by lra. lra.
Qed.

(** ** Witnesses *)

Definition sample_record : CostRecord := mkCost "r1" "svc" "openai" "m" (of_Z 10) 0%Z None None "".

Lemma drift_report_partitions_witness :
  ∃ report, summarize_drift "provider" [("r1", sample_record)] = Ok report ∧ NoDup (map ds_group report).
Proof.
  destruct (drift_report_partitions [("r1", sample_record)] "provider") as (report & E & Hnd & _); [by left|].
  exists report. split; [exact E|exact Hnd].
Defined.

Lemma unreconciled_reported_as_drift_witness :
  ∃ s, summarize_bucket "openai" [sample_record] = Ok s ∧ feq (ds_drift_pct s) (of_Z (-100)) = true.
Proof.
  destruct (unreconciled_reported_as_drift "openai" [sample_record]) as (s & E & _ & _ & _ & Hp);
    [by repeat constructor|vm_compute; reflexivity|vm_compute; reflexivity|].
  exists s. split; [exact E|exact Hp].
Defined.
