(* ===== verification/Interventions.v ===== *)
(** * The intervention registry (src/aci/interventions/registry.py)

    The records of recommendations, their life cycle and the summary of counts and savings.
    A method call is one atomic step (the lock); [now] is the clock reading of a call. *)

From S2P Require Import Prelude PyFloat PyData PyMath PyTime PyValue.
From Stdlib Require Import ZArith QArith Lia Sorted.
From stdpp Require Import base list strings.

Open Scope string_scope.
Open Scope list_scope.
Open Scope nat_scope.

(** ** Data *)

Record InterventionRecord := mkIntervention {
  iv_intervention_id : string;
  iv_title : string;
  iv_intervention_type : string;
  iv_team : string;
  iv_detail : string;
  iv_savings_usd_month : pyfloat;
  iv_confidence_pct : pyfloat;
  iv_risk : string;
  iv_equivalence_mode : string;
  iv_equivalence_status : string;
  iv_category : string;
  iv_threshold_condition : string;
  iv_rule_condition : string;
  iv_status : string;
  iv_updated_at : instant;
  iv_updated_by : string;
  iv_update_note : string;
}.

Record InterventionSummary := mkSummary {
  total_count : nat;
  recommended_count : nat;
  review_count : nat;
  approved_count : nat;
  implemented_count : nat;
  dismissed_count : nat;
  total_potential_usd : pyfloat;
  captured_savings_usd : pyfloat;
  open_potential_usd : pyfloat;
}.

(** ** The registry *)

Abbreviation InterventionRegistry := (odict string InterventionRecord).

Definition _ALLOWED_STATUS : list string := ["recommended"; "review"; "approved"; "implemented"; "dismissed"].

Definition InterventionRegistry_init (interventions : list InterventionRecord) : InterventionRegistry :=
  fold_left (λ d r, od_set (iv_intervention_id r) r d) interventions [].

Definition seed (id title type_ team detail : string) (savings confidence : Z) (risk mode verified category threshold rule status : string)
    (now : instant) : InterventionRecord :=
  mkIntervention id title type_ team detail (of_Z savings) (of_Z confidence) risk mode verified category threshold rule
                 status now "system" "".

(** The records of the seed; [nows] are the readings of the clock, one per record. *)
Definition with_seed_data (nows : nat → instant) : InterventionRegistry :=
  InterventionRegistry_init
    [seed "INT-401" "Route fallback traffic from gpt-4o to gpt-4o-mini" "Model Routing" "Product"
       "2.1M fallback requests analyzed. 97.3% quality parity in Mode 2a shadow evaluation." 31200 94 "low"
       "Empirical (Mode 2a)" "verified" "Model over-provisioning"
       "2.1M monthly fallback requests and 72% cost differential"
       "Cost differential > 50% and equivalence confidence >= 0.93" "recommended" (nows 0);
     seed "INT-402" "Apply input-token guardrail to analytics-batch" "Token Governance" "ML Engineering"
       "95th percentile prompt size is 4.2K. Capping at 3.5K removes outlier spend." 14800 89 "medium"
       "Policy floor" "conditional" "Prompt inefficiency" "p95 input tokens exceed floor by >20%"
       "Recommend compaction when p95 > 4K" "review" (nows 1);
     seed "INT-403" "Enable semantic cache for deterministic support prompts" "Semantic Cache" "Customer Engineering"
       "Cache hit rate stabilized at 38% with no measurable quality drop." 10200 92 "low"
       "Empirical (Mode 2a)" "verified" "Duplicate requests" "Semantic duplicate ratio > 30%"
       "Enable cache when duplicate ratio >= 0.30" "implemented" (nows 2);
     seed "INT-404" "Restrict staging model allowlist to low-cost equivalents" "Policy Enforcement" "Platform Engineering"
       "Staging traffic uses production-tier models without quality benefit." 22800 87 "medium"
       "Policy (Mode 1)" "policy" "Staging and dev sprawl" ">25% staging requests use frontier-tier models"
       "Apply staging allowlist when non-prod frontier usage > 20%" "recommended" (nows 3)].

Definition _validate_status (status : string) : res unit :=
  if bool_decide (status ∈ _ALLOWED_STATUS) then Ok tt else Raise (ValueError "Invalid intervention status").

Definition greater_saving (a b : InterventionRecord) : bool := flt (iv_savings_usd_month b) (iv_savings_usd_month a).

Definition with_status (s : string) (r : InterventionRecord) : bool := String.eqb (iv_status r) s.

Definition list_records (status : option string) (d : InterventionRegistry) : res (list InterventionRecord) :=
  (let? records := match status with
                   | None => Ok (od_values d)
                   | Some s => let? _ := _validate_status s in Ok (filter (λ r, with_status s r = true) (od_values d))
                   end in
   Ok (stable_sort greater_saving records))%py.

Definition count_status (s : string) (records : list InterventionRecord) : nat :=
  length (filter (λ r, with_status s r = true) records).

(** The savings of the records in one of two states. *)
Definition savings_in (s1 s2 : string) (records : list InterventionRecord) : pyfloat :=
  py_sum (map iv_savings_usd_month (filter (λ r, with_status s1 r || with_status s2 r = true) records)).

Definition summary (d : InterventionRegistry) : InterventionSummary :=
  let records := stable_sort greater_saving (od_values d) in
  mkSummary (length records) (count_status "recommended" records) (count_status "review" records)
    (count_status "approved" records) (count_status "implemented" records) (count_status "dismissed" records)
    (py_sum (map iv_savings_usd_month records))
    (savings_in "approved" "implemented" records) (savings_in "recommended" "review" records).

(** The record after a transition: the life-cycle fields change, nothing else does. *)
Definition moved (r : InterventionRecord) (next_status : string) (now : instant) (actor note : string) : InterventionRecord :=
  mkIntervention (iv_intervention_id r) (iv_title r) (iv_intervention_type r) (iv_team r) (iv_detail r)
    (iv_savings_usd_month r) (iv_confidence_pct r) (iv_risk r) (iv_equivalence_mode r) (iv_equivalence_status r)
    (iv_category r) (iv_threshold_condition r) (iv_rule_condition r) next_status now actor note.

Definition transition (intervention_id next_status actor note : string) (now : instant) (d : InterventionRegistry)
    : res InterventionRecord * InterventionRegistry :=
  match _validate_status next_status with
  | Raise e => (Raise e, d)
  | Ok _ =>
      match od_get intervention_id d with
      | None => (Raise (KeyError "Unknown intervention_id"), d)
      | Some r => let r' := moved r next_status now actor note in (Ok r', od_set intervention_id r' d)
      end
  end.

Example registry_sample :
  let d := with_seed_data (λ _, 0%Z) in
  let '(r, d') := transition "INT-402" "approved" "ann" "ok" 5%Z d in
  let s := summary d' in
  is_ok r = true ∧ (recommended_count s, review_count s, approved_count s, implemented_count s, dismissed_count s) = (2, 0, 1, 1, 0) ∧
  repr_float (captured_savings_usd s) = "25000.0" ∧ repr_float (open_potential_usd s) = "54000.0" ∧
  match list_records None d' with
  | Ok l => map iv_intervention_id l = ["INT-401"; "INT-404"; "INT-402"; "INT-403"] | Raise _ => False end.
Proof. vm_compute. auto 10. Qed.

(** ** Histories *)

Record request := mkRequest { rq_id : string; rq_status : string; rq_actor : string; rq_note : string; rq_now : instant }.

Definition serve (d : InterventionRegistry) (q : request) : InterventionRegistry :=
  (transition (rq_id q) (rq_status q) (rq_actor q) (rq_note q) (rq_now q) d).2.

Definition serve_all (qs : list request) (d : InterventionRegistry) : InterventionRegistry := fold_left serve qs d.

(** What a record keeps for ever. *)
Definition same_recommendation (r r' : InterventionRecord) : Prop :=
  r' = moved r (iv_status r') (iv_updated_at r') (iv_updated_by r') (iv_update_note r').

Definition accepted (d : InterventionRegistry) (q : request) : bool :=
  bool_decide (rq_status q ∈ _ALLOWED_STATUS) && od_mem (rq_id q) d.

(** ** Lemmas *)

Lemma same_refl r : same_recommendation r r.
Proof. by destruct r. Qed.

Lemma same_trans a b c : same_recommendation a b → same_recommendation b c → same_recommendation a c.
Proof. unfold same_recommendation. intros -> ->. done. Qed.

Lemma transition_spec id s actor note now d :
  transition id s actor note now d =
  if bool_decide (s ∈ _ALLOWED_STATUS) then
    match od_get id d with
    | Some r => (Ok (moved r s now actor note), od_set id (moved r s now actor note) d)
    | None => (Raise (KeyError "Unknown intervention_id"), d)
    end
  else (Raise (ValueError "Invalid intervention status"), d).
Proof. unfold transition, _validate_status. by destruct (bool_decide _). Qed.

Lemma serve_get d q k : od_get k (serve d q) =
  if accepted d q && bool_decide (k = rq_id q)
  then (λ r, moved r (rq_status q) (rq_now q) (rq_actor q) (rq_note q)) <$> od_get k d else od_get k d.
Proof.
  unfold serve, accepted, od_mem. rewrite transition_spec. destruct (bool_decide (rq_status q ∈ _)); [|done].
  destruct (od_get (rq_id q) d) as [r|] eqn:E; cbn [snd andb]; [|done].
  rewrite od_get_set. case_decide as Hk; [subst k; rewrite bool_decide_eq_true_2 by done; by rewrite E|].
  by rewrite bool_decide_eq_false_2.
Qed.

Lemma serve_keys d q : od_keys (serve d q) = od_keys d.
Proof.
  unfold serve. rewrite transition_spec. destruct (bool_decide _); [|done].
  destruct (od_get (rq_id q) d) as [r|] eqn:E; [|done]. cbn [snd]. apply od_set_keys_mem. by eapply od_get_Some_keys.
Qed.

Lemma serve_all_keys qs d : od_keys (serve_all qs d) = od_keys d.
Proof. revert d; induction qs as [|q qs IH]; intros d; [done|]. cbn [serve_all fold_left]. fold (serve_all qs). by rewrite IH, serve_keys. Qed.

Definition statuses_ok (d : InterventionRegistry) : Prop := Forall (λ kv, iv_status kv.2 ∈ _ALLOWED_STATUS) d.

Lemma serve_statuses d q : statuses_ok d → statuses_ok (serve d q).
Proof.
  intros Hd. unfold serve. rewrite transition_spec. destruct (bool_decide _) eqn:Eb; [|done].
  destruct (od_get (rq_id q) d) as [r|] eqn:E; [|done]. cbn [snd]. clear E. apply bool_decide_eq_true_1 in Eb.
  induction Hd as [|[k v] d Hv Hd IH]; cbn [od_set]; [by apply Forall_singleton|].
  case_decide; by apply Forall_cons.
Qed.

(** Every allowed status is counted once. *)
Lemma counts_partition l : Forall (λ r, iv_status r ∈ _ALLOWED_STATUS) l →
  length l = count_status "recommended" l + count_status "review" l + count_status "approved" l
             + count_status "implemented" l + count_status "dismissed" l.
Proof.
  unfold count_status. induction 1 as [|r l Hr Hl IH]; [done|]. cbn [length]. rewrite !filter_cons, IH. clear IH.
  unfold with_status. unfold _ALLOWED_STATUS in Hr.
  do 5 (apply elem_of_cons in Hr as [-> | Hr];
    [cbn; repeat (case_decide; try done); cbn [length]; lia|]).
  inversion Hr.
Qed.

(** ** Properties *)

(** The life cycle of the registry. Whatever transitions are asked for, and whether they are
    accepted or raise, no recommendation is added, removed, reordered or rewritten: each keeps
    all but its life-cycle fields; every status stays one of the five; and the five counts of
    the summary add up to the number of recommendations. *)
Theorem registry_lifecycle (d : InterventionRegistry) (qs : list request)
    (Hwf : od_wf d) (Hok : statuses_ok d) :
  let d' := serve_all qs d in
  od_keys d' = od_keys d ∧ statuses_ok d' ∧
  (∀ k r, od_get k d = Some r → ∃ r', od_get k d' = Some r' ∧ same_recommendation r r') ∧
  let s := summary d' in
  total_count s = length d ∧
  total_count s = recommended_count s + review_count s + approved_count s + implemented_count s + dismissed_count s.
Proof.
  intros d'. assert (statuses_ok d') as Hok'.
  { subst d'. revert d Hwf Hok. induction qs as [|q qs IH]; intros d Hwf Hok; [done|]. cbn [serve_all fold_left].
    apply IH; [unfold od_wf; by rewrite serve_keys|by apply serve_statuses]. }
  pose proof (serve_all_keys qs d) as Hkeys. fold d' in Hkeys.
  split_and!; [done|done| |..].
  - intros k r Hr. subst d'. clear -Hr.
    assert (∀ r0, od_get k d = Some r0 → same_recommendation r r0 →
      ∃ r', od_get k (serve_all qs d) = Some r' ∧ same_recommendation r r') as H; [|by apply (H r); [done|apply same_refl]].
    clear Hr. revert d. induction qs as [|q qs IH]; intros d r0 Hr0 Hs; [by exists r0|]. cbn [serve_all fold_left].
    fold (serve_all qs (serve d q)).
    destruct (accepted d q && bool_decide (k = rq_id q)) eqn:E.
    + apply (IH _ (moved r0 (rq_status q) (rq_now q) (rq_actor q) (rq_note q))); [by rewrite serve_get, E, Hr0|].
      eapply same_trans; [done|]. by destruct r0.
    + apply (IH _ r0); [by rewrite serve_get, E|done].
  - cbn zeta. cbn [summary total_count recommended_count review_count approved_count implemented_count dismissed_count].
    rewrite stable_sort_length. unfold od_values at 1 2. rewrite length_map. split.
    + by rewrite <- (od_keys_length d'), Hkeys, od_keys_length.
    + rewrite <- (length_map snd d'), <- (stable_sort_length greater_saving (map snd d')).
      apply counts_partition. rewrite stable_sort_perm. by apply Forall_fmap.
Qed.

(** The transitions are not restricted: from any status a recommendation moves to any of the
    five in one step, also out of "dismissed" and "implemented" and to where it already is; the
    step changes that record only. *)
Theorem registry_any_transition (d : InterventionRegistry) (id next actor note : string) (now : instant)
    (r : InterventionRecord) (Hr : od_get id d = Some r) (Hnext : next ∈ _ALLOWED_STATUS) :
  ∃ d', transition id next actor note now d = (Ok (moved r next now actor note), d') ∧
    od_get id d' = Some (moved r next now actor note) ∧ ∀ k, k ≠ id → od_get k d' = od_get k d.
Proof.
  rewrite transition_spec, bool_decide_eq_true_2, Hr by done. eexists. split; [done|].
  split; [apply od_get_set_eq|]. intros k Hk. by apply od_get_set_ne.
Qed.

(** ** Witnesses *)

Definition sample_registry : InterventionRegistry := with_seed_data (λ _, 0%Z).

Lemma registry_lifecycle_witness :
  od_keys (serve_all [mkRequest "INT-401" "approved" "a" "" 1%Z; mkRequest "INT-9" "review" "a" "" 2%Z;
                      mkRequest "INT-402" "done" "a" "" 3%Z] sample_registry) = od_keys sample_registry.
Proof.
  apply (registry_lifecycle sample_registry); [unfold od_wf|unfold statuses_ok].
  - apply (bool_decide_unpack (NoDup (od_keys sample_registry))). vm_compute. exact I.
  - apply (bool_decide_unpack (Forall (λ kv, iv_status kv.2 ∈ _ALLOWED_STATUS) sample_registry)). vm_compute. exact I.
Defined.

Lemma registry_any_transition_witness :
  ∃ r d', transition "INT-403" "recommended" "a" "" 9%Z sample_registry = (Ok r, d') ∧ od_get "INT-403" d' = Some r.
Proof.
  destruct (od_get "INT-403" sample_registry) as [r|] eqn:E; [|vm_compute in E; discriminate E].
  destruct (registry_any_transition sample_registry "INT-403" "recommended" "a" "" 9%Z r E) as (d' & E1 & E2 & _).
  - apply (bool_decide_unpack ("recommended" ∈ _ALLOWED_STATUS)). vm_compute. exact I.
  - exists (moved r "recommended" 9%Z "a" ""), d'. split; [exact E1|exact E2].
Defined.
