(* ===== verification/Trac.v ===== *)
(** * Total risk-adjusted cost (src/aci/trac/calculator.py)

    The three components of a workload's cost on binary64 floats, with libm's exponential as
    [ExpLib]; the decay of stale evidence; the batch. [computed_at] is the clock reading of
    the result's model. *)

From S2P Require Import Prelude PyFloat PyData PyMath PyTime PyValue Calibration.
From Stdlib Require Import ZArith QArith Lia Lqa.
From stdpp Require Import base list strings.

Open Scope string_scope.
Open Scope list_scope.
Open Scope Z_scope.
Local Open Scope py_scope.

(** ** Data *)

Record TRACConfig := mkTRACConfig {
  carbon_price_per_tco2e : pyfloat;
  risk_multiplier : pyfloat;
}.

(** [TRACConfig()]. *)
Definition default_trac_config : TRACConfig := mkTRACConfig (of_Z 50) (lit 15 100).

Record TRACResult := mkTRAC {
  tr_workload_id : string;
  tr_billed_cost_usd : pyfloat;
  tr_carbon_liability_usd : pyfloat;
  tr_confidence_risk_premium_usd : pyfloat;
  tr_trac_usd : pyfloat;
  tr_attribution_confidence : pyfloat;
  tr_emissions_kg_co2e : pyfloat;
  tr_carbon_price_per_tco2e : pyfloat;
  tr_risk_multiplier : pyfloat;
  tr_carbon_pct_of_trac : pyfloat;
  tr_risk_pct_of_trac : pyfloat;
  tr_computed_at : instant;
}.

(** A workload of the batch; the last two entries may be missing. *)
Record TRACWorkloadInput := mkWorkload {
  wi_workload_id : string;
  wi_billed_cost_usd : pyfloat;
  wi_attribution_confidence : pyfloat;
  wi_emissions_kg_co2e : option pyfloat;
  wi_signal_age_days : option pyfloat;
}.

(** ** The calculator *)

Section trac.
  Context `{ExpLib} (trac_config : TRACConfig) (confidence_config : ConfidenceConfig).

Definition effective_confidence (attribution_confidence signal_age_days : pyfloat) : res pyfloat :=
    let window := of_Z (cc_decay_window_days confidence_config) in
    if flt window signal_age_days then
      let excess := fsub signal_age_days window in
      let? decay := math_exp (fmul (fneg (cc_decay_rate confidence_config)) excess) in
      Ok (fmul attribution_confidence decay)
    else Ok attribution_confidence.

Definition carbon_liability_of (emissions_kg_co2e : pyfloat) : res pyfloat :=
    fdiv (fmul emissions_kg_co2e (carbon_price_per_tco2e trac_config)) (of_Z 1000).

Definition risk_premium_of (billed_cost_usd confidence : pyfloat) : pyfloat :=
    fmul (fmul billed_cost_usd (fsub f1 confidence)) (risk_multiplier trac_config).

  (** The share of a component, [(part / trac * 100) if trac > 0 else 0.0]. *)
Definition pct_of (part trac : pyfloat) : res pyfloat :=
    if flt f0 trac then (let? q := fdiv part trac in Ok (fmul q (of_Z 100))) else Ok f0.

Definition compute (workload_id : string) (billed_cost_usd emissions_kg_co2e attribution_confidence signal_age_days : pyfloat)
      (computed_at : instant) : res TRACResult :=
    let? confidence := effective_confidence attribution_confidence signal_age_days in
    let? carbon_liability := carbon_liability_of emissions_kg_co2e in
    let risk_premium := risk_premium_of billed_cost_usd confidence in
    let trac := fadd (fadd billed_cost_usd carbon_liability) risk_premium in
    let? carbon_pct := pct_of carbon_liability trac in
    let? risk_pct := pct_of risk_premium trac in
    Ok (mkTRAC workload_id (fround 4 billed_cost_usd) (fround 4 carbon_liability) (fround 4 risk_premium)
          (fround 4 trac) (fround 4 confidence) (fround 4 emissions_kg_co2e) (carbon_price_per_tco2e trac_config)
          (risk_multiplier trac_config) (fround 2 carbon_pct) (fround 2 risk_pct) computed_at).

Definition compute_batch (workloads : list TRACWorkloadInput) (computed_at : nat → instant) : res (list TRACResult) :=
    map_res (λ iw : nat * TRACWorkloadInput,
      compute (wi_workload_id iw.2) (wi_billed_cost_usd iw.2) (default f0 (wi_emissions_kg_co2e iw.2))
        (wi_attribution_confidence iw.2) (default f0 (wi_signal_age_days iw.2)) (computed_at iw.1))
      (imap pair workloads).
End trac.

(** An exponential for samples: never decreasing, with the laws of the class. *)
Definition step_exp (x : pyfloat) : pyfloat :=
  match x with NaN => NaN | _ => if flt x f0 then lit 1 2 else if fle x f0 then f1 else of_Z 2 end.

Lemma step_exp_unit x : fle x f0 = true → ∃ y, Ok (step_exp x) = Ok y ∧ unit_itv y = true.
Proof.
  intros Hx. exists (step_exp x). split; [done|]. unfold step_exp. rewrite Hx.
  destruct x; try done; destruct (flt _ _); vm_compute; done.
Qed.

Lemma step_exp_mono x y a b : fle x y = true → Ok (step_exp x) = Ok a → Ok (step_exp y) = Ok b → fle a b = true.
Proof.
  intros Hxy <-%Ok_inj <-%Ok_inj. assert (∀ z, is_nan z = false →
    step_exp z = if flt z f0 then lit 1 2 else if fle z f0 then f1 else of_Z 2) as E by (by intros []).
  rewrite (E x), (E y) by first [exact (fle_not_nan_l _ _ Hxy) | exact (fle_not_nan_r _ _ Hxy)].
  destruct (flt y f0) eqn:E2.
  { rewrite (fle_lt_trans _ _ _ Hxy E2). vm_compute. done. }
  destruct (fle y f0) eqn:E4.
  { rewrite (fle_trans _ _ _ Hxy E4). destruct (flt x f0); vm_compute; done. }
  destruct (flt x f0), (fle x f0); vm_compute; done.
Qed.

Definition step_exp_lib : ExpLib :=
  {| math_exp x := Ok (step_exp x); exp_zero := eq_refl; exp_unit := step_exp_unit; exp_mono := step_exp_mono |}.

Example trac_sample :
  match compute (H := step_exp_lib) default_trac_config default_confidence_config "w" (of_Z 1000) (of_Z 200) (lit 8 10) f0 0 with
  | Ok r => map repr_float [tr_carbon_liability_usd r; tr_confidence_risk_premium_usd r; tr_trac_usd r; tr_risk_pct_of_trac r]
            = ["10.0"; "30.0"; "1040.0"; "2.88"]
  | Raise _ => False end.
Proof. vm_compute. reflexivity. Qed.

(** ** Lemmas *)

Lemma fdiv_share x y z : fle f0 x = true → fle x y = true → fdiv x y = Ok z → is_nan z = true ∨ in_range f0 f1 z = true.
Proof.
  intros Hx Hxy. unfold fdiv. destruct x as [p| | |], y as [q| | |]; try done.
  - destruct (Qeq_bool q 0) eqn:E; [done|]. intros <-%Ok_inj. right. apply ge0_Fin in Hx.
    cbn [fle] in Hxy. apply Qle_bool_iff in Hxy. apply Qeq_bool_neq in E.
    assert (0 < q)%Q as Hq by (destruct (Qlt_le_dec 0 q); [done|]; exfalso; apply E; lra).
    apply between_split. split; [apply ge0_of_Q; by apply Qle_shift_div_l; lra|].
    apply of_Q_le_repr; [by apply Qle_shift_div_r; lra|apply repr_f1].
  - intros <-%Ok_inj. right. vm_compute. done.
  - intros <-%Ok_inj. by left.
Qed.

(** A share as a percentage, rounded. *)
Lemma pct_between part trac : fle f0 part = true → fle part trac = true →
  ∃ p, pct_of part trac = Ok p ∧ (is_nan (fround 2 p) = true ∨ in_range f0 (of_Z 100) (fround 2 p) = true).
Proof.
  intros H1 H2. unfold pct_of. destruct (flt f0 trac) eqn:E.
  - destruct (fdiv_ok part trac (flt_zero_fle _ E)) as [q Eq]. rewrite Eq. cbn [rbind]. eexists. split; [done|].
    destruct (fdiv_share _ _ _ H1 H2 Eq) as [Hn|Hr]; [left; by destruct q|right].
    apply between_split in Hr as [Ha Hb].
    assert (of_Z 100 = Fin 100) as E100 by (vm_compute; reflexivity). rewrite E100.
    assert (fle f0 (fmul q (Fin 100)) = true) as G0 by (by apply ge0_fmul_pos).
    pose proof (fmul_mono_pos q f1 100 ltac:(lra) Hb) as G1.
    apply between_split. split; [by apply fround_ge0|].
    eapply fle_trans; [by apply (fround_mono 2 _ _ ltac:(done) G1)|]. vm_compute. done.
  - eexists. split; [done|]. right. vm_compute. done.
Qed.

Section trac_lemmas.
  Context `{ExpLib} (trac_config : TRACConfig) (confidence_config : ConfidenceConfig).
  Context (price rate mult window : Q).
  Context (Hprice : carbon_price_per_tco2e trac_config = Fin price) (Hprice0 : (0 <= price)%Q).
  Context (Hmult : risk_multiplier trac_config = Fin mult) (Hmult0 : (0 < mult)%Q).
  Context (Hrate : cc_decay_rate confidence_config = Fin rate) (Hrate0 : (0 <= rate)%Q).
  Context (Hwindow : of_Z (cc_decay_window_days confidence_config) = Fin window) (Hwindow0 : (0 <= window)%Q).

  (** The days beyond the window. *)
Lemma excess_fin a : repr (Fin a) → (window <= a)%Q →
    ∃ x, fsub (Fin a) (Fin window) = Fin x ∧ (0 <= x)%Q.
  Proof.
    intros Ra Ha. assert (fle f0 (fsub (Fin a) (Fin window)) = true) as H0 by (apply ge0_of_Q; rewrite Qred_correct; lra).
    assert (fle (fsub (Fin a) (Fin window)) (Fin a) = true) as H1 by (apply of_Q_le_repr; [rewrite Qred_correct; lra|done]).
    destruct (fsub (Fin a) (Fin window)) as [x| | |]; try done. exists x. split; [done|]. by apply ge0_Fin.
  Qed.

Lemma exponent_fin x : (0 <= x)%Q → fmul (fneg (Fin rate)) (Fin x) = of_Q (- (rate * x)) ∧ fle (of_Q (- (rate * x))) f0 = true.
  Proof.
    intros Hx. split; [|apply (of_Q_le_repr _ 0); [nra|apply repr_f0]].
    cbn [fneg fmul]. apply of_Q_comp. rewrite Qred_correct. ring.
  Qed.

  (** Decayed confidence: within the unit interval, never above the given one. *)
Lemma effective_spec c a : unit_itv c = true → repr c → repr (Fin a) →
    ∃ e, effective_confidence confidence_config c (Fin a) = Ok e ∧ unit_itv e = true ∧ repr e ∧ fle e c = true.
  Proof.
    intros Hc Rc Ra. unfold effective_confidence. rewrite Hwindow, Hrate.
    destruct (flt (Fin window) (Fin a)) eqn:E.
    - unfold flt in E. cbn [fle] in E. apply negb_true_iff, Qle_bool_false in E.
      destruct (excess_fin a Ra ltac:(lra)) as (x & -> & Hx). destruct (exponent_fin x Hx) as [-> Hle].
      destruct (exp_unit _ Hle) as (d & -> & Hd). cbn [rbind]. eexists. split; [done|].
      split_and!; [by apply unit_mul|apply fmul_repr|by apply fmul_le_l].
    - exists c. split_and!; try done. by apply fle_refl, unit_not_nan.
  Qed.

Lemma effective_mono c a b ea eb : unit_itv c = true → repr c → repr (Fin a) → repr (Fin b) → (a <= b)%Q →
    effective_confidence confidence_config c (Fin a) = Ok ea → effective_confidence confidence_config c (Fin b) = Ok eb →
    fle eb ea = true.
  Proof.
    intros Hc Rc Ra Rb Hab Ea Eb. destruct (effective_spec c b Hc Rc Rb) as (e' & Eb' & _ & _ & Hle).
    rewrite Eb in Eb'. apply Ok_inj in Eb' as <-. unfold effective_confidence in Ea, Eb. rewrite Hwindow, Hrate in Ea, Eb.
    destruct (flt (Fin window) (Fin a)) eqn:E; [|by apply Ok_inj in Ea as <-].
    unfold flt in E. cbn [fle] in E. apply negb_true_iff, Qle_bool_false in E.
    assert (flt (Fin window) (Fin b) = true) as E2 by (unfold flt; cbn [fle]; apply negb_true_iff, Qle_bool_false; lra).
    rewrite E2 in Eb.
    assert (fle (fsub (Fin a) (Fin window)) (fsub (Fin b) (Fin window)) = true) as Hexc
      by (apply fsub_mono_l; [done..|by apply Qle_bool_iff]).
    destruct (excess_fin a Ra ltac:(lra)) as (x & Ex & Hx), (excess_fin b Rb ltac:(lra)) as (y & Ey & Hy).
    rewrite Ex in Ea, Hexc. rewrite Ey in Eb, Hexc. cbn [fle] in Hexc. apply Qle_bool_iff in Hexc.
    destruct (exponent_fin x Hx) as [E3 H3], (exponent_fin y Hy) as [E4 H4]. rewrite E3 in Ea. rewrite E4 in Eb.
    destruct (exp_unit _ H3) as (dx & Edx & Udx), (exp_unit _ H4) as (dy & Edy & Udy).
    rewrite Edx in Ea. rewrite Edy in Eb. cbn [rbind] in Ea, Eb. apply Ok_inj in Ea as <-, Eb as <-.
    apply unit_itv_fin in Hc as (q & -> & Hq & _).
    apply fmul_mono_l; [by apply unit_is_fin|by apply unit_is_fin|done|].
    apply (exp_mono (of_Q (- (rate * y))) (of_Q (- (rate * x)))); [apply of_Q_mono; nra|done|done].
  Qed.

  (** The premium: finite before the multiplier, at least zero, lower for greater confidence. *)
Lemma premium_base b c : (0 <= b)%Q → repr (Fin b) → unit_itv c = true →
    ∃ x, fmul (Fin b) (fsub f1 c) = Fin x ∧ (0 <= x)%Q.
  Proof.
    intros Hb Rb Hc. pose proof (unit_one_minus c Hc) as (d & -> & Hd)%unit_itv_fin.
    assert (fle f0 (fmul (Fin b) (Fin d)) = true) as H0 by (apply ge0_of_Q; nra).
    assert (fle (fmul (Fin b) (Fin d)) (Fin b) = true) as H1 by (apply of_Q_le_repr; [nra|done]).
    destruct (fmul (Fin b) (Fin d)) as [x| | |]; try done. exists x. split; [done|]. by apply ge0_Fin.
  Qed.

Lemma premium_ge0 b c : (0 <= b)%Q → repr (Fin b) → unit_itv c = true → fle f0 (risk_premium_of trac_config (Fin b) c) = true.
  Proof.
    intros Hb Rb Hc. unfold risk_premium_of. rewrite Hmult. destruct (premium_base b c Hb Rb Hc) as (x & -> & Hx).
    apply ge0_fmul_pos; [by apply ge0_Fin|done].
  Qed.

Lemma premium_antitone b c d : (0 <= b)%Q → repr (Fin b) → unit_itv c = true → unit_itv d = true → fle c d = true →
    fle (risk_premium_of trac_config (Fin b) d) (risk_premium_of trac_config (Fin b) c) = true.
  Proof.
    intros Hb Rb Hc Hd Hcd. unfold risk_premium_of. rewrite Hmult. apply fmul_mono_pos; [done|].
    apply fmul_mono_l; [by apply unit_is_fin, unit_one_minus|by apply unit_is_fin, unit_one_minus|done|].
    apply fsub_antitone; [done|by apply unit_is_fin|by apply unit_is_fin|done].
  Qed.

Lemma liability_ge0 e : (0 <= e)%Q → ∃ l, carbon_liability_of trac_config (Fin e) = Ok l ∧ fle f0 l = true ∧ repr l.
  Proof.
    intros He. unfold carbon_liability_of. rewrite Hprice. assert (of_Z 1000 = Fin 1000) as -> by (vm_compute; reflexivity).
    assert (fle f0 (fmul (Fin e) (Fin price)) = true) as H0 by (apply ge0_of_Q; nra).
    destruct (fdiv_ok (fmul (Fin e) (Fin price)) (Fin 1000) eq_refl) as [l El]. exists l. split; [done|].
    split; [|by eapply fdiv_repr].
    assert (fdiv f0 (Fin 1000) = Ok f0) as E0 by (vm_compute; reflexivity).
    by apply (fdiv_mono_pos f0 _ 1000 f0 l ltac:(lra) H0 E0).
  Qed.
End trac_lemmas.

(** ** Properties *)

(** Configurations with a price and a decay rate of at least zero, a positive multiplier and a
    window that is not negative. *)
Definition trac_config_ok (tc : TRACConfig) (cc : ConfidenceConfig) : Prop :=
  ∃ price rate mult window,
    (carbon_price_per_tco2e tc = Fin price ∧ (0 <= price)%Q) ∧ (risk_multiplier tc = Fin mult ∧ (0 < mult)%Q) ∧
    (cc_decay_rate cc = Fin rate ∧ (0 <= rate)%Q) ∧ (of_Z (cc_decay_window_days cc) = Fin window ∧ (0 <= window)%Q).

Section trac_theorems.
  Context `{ExpLib} (tc : TRACConfig) (cc : ConfidenceConfig) (Hcfg : trac_config_ok tc cc).

  (** The unrounded result of a computation. *)
Lemma compute_spec w b e c a t : amount b → amount e → unit_itv c = true → repr c → repr (Fin a) →
    ∃ conf l, effective_confidence cc c (Fin a) = Ok conf ∧ unit_itv conf = true ∧ fle conf c = true ∧
      carbon_liability_of tc e = Ok l ∧ fle f0 l = true ∧
      let p := risk_premium_of tc b conf in
      let trac := fadd (fadd b l) p in
      Forall (λ x, fle f0 x = true ∧ fle x trac = true) [b; l; p] ∧
      ∃ r, compute tc cc w b e c (Fin a) t = Ok r ∧
        tr_billed_cost_usd r = fround 4 b ∧ tr_carbon_liability_usd r = fround 4 l ∧
        tr_confidence_risk_premium_usd r = fround 4 p ∧ tr_trac_usd r = fround 4 trac ∧
        tr_attribution_confidence r = fround 4 conf ∧
        Forall (λ x, is_nan x = true ∨ in_range f0 (of_Z 100) x = true) [tr_carbon_pct_of_trac r; tr_risk_pct_of_trac r].
  Proof.
    intros (bq & -> & Hb & Rb) (eq & -> & He & _) Hc Rc Ra.
    destruct Hcfg as (price & rate & mult & window & (P1 & P2) & (M1 & M2) & (R1 & R2) & (W1 & W2)).
    destruct (effective_spec cc rate window R1 R2 W1 W2 c a Hc Rc Ra) as (conf & Ec & Uc & _ & Lc).
    destruct (liability_ge0 tc price P1 P2 eq He) as (l & El & Gl & Rl).
    pose proof (premium_ge0 tc mult M1 M2 bq conf Hb Rb Uc) as Gp. set (p := risk_premium_of tc (Fin bq) conf) in *.
    assert (repr p) as Rp by apply fmul_repr. assert (fle f0 (Fin bq) = true) as Gb by (by apply ge0_Fin).
    set (trac := fadd (fadd (Fin bq) l) p).
    assert (Forall (λ x, fle f0 x = true ∧ fle x trac = true) [Fin bq; l; p]) as HF.
    { assert (fle f0 (fadd (Fin bq) l) = true) as Gbl by (by apply ge0_fadd).
      assert (fle (fadd (Fin bq) l) trac = true) as L1 by (apply fle_fadd_ge0; [apply fadd_repr|done..]).
      repeat constructor; try done.
      - eapply fle_trans; [by apply (fle_fadd_ge0 (Fin bq) l)|done].
      - eapply fle_trans; [by apply (fle_fadd_ge0_r (Fin bq) l)|done].
      - by apply fle_fadd_ge0_r. }
    exists conf, l. cbn zeta. fold p. fold trac. split_and!; try done. rewrite Forall_cons, Forall_cons, Forall_singleton in HF.
    destruct HF as (_ & [_ H2] & [_ H3]).
    destruct (pct_between l trac Gl H2) as (p1 & E1 & B1), (pct_between p trac Gp H3) as (p2 & E2 & B2).
    unfold compute. rewrite Ec. cbn [rbind]. rewrite El. cbn [rbind]. fold p. fold trac. rewrite E1. cbn [rbind].
    rewrite E2. cbn [rbind]. eexists. split; [done|]. split_and!; try done.
    apply Forall_cons. split; [done|by apply Forall_singleton].
  Qed.

(** The risk-adjusted cost always has a result, and it is a sum of costs: for finite amounts, a
    confidence of the unit interval and any finite age of the evidence, none of the billed cost,
    the carbon liability and the risk premium is negative or exceeds the total; the confidence
    used is of the unit interval and never above the given one; and each percentage lies
    between 0 and 100, or is not a number when the total overflows. *)
Theorem trac_bounds (workload : string) (billed emissions confidence : pyfloat) (age : Q) (t : instant)
    (Hbilled : amount billed) (Hemissions : amount emissions)
    (Hconf : unit_itv confidence = true) (Hrepr : repr confidence) (Hage : repr (Fin age)) :
    ∃ r, compute tc cc workload billed emissions confidence (Fin age) t = Ok r ∧
      Forall (λ x, fle f0 x = true ∧ fle x (tr_trac_usd r) = true)
        [tr_billed_cost_usd r; tr_carbon_liability_usd r; tr_confidence_risk_premium_usd r] ∧
      unit_itv (tr_attribution_confidence r) = true ∧ fle (tr_attribution_confidence r) (fround 4 confidence) = true ∧
      Forall (λ x, is_nan x = true ∨ in_range f0 (of_Z 100) x = true) [tr_carbon_pct_of_trac r; tr_risk_pct_of_trac r].
  Proof.
    destruct (compute_spec workload billed emissions confidence age t Hbilled Hemissions Hconf Hrepr Hage)
      as (conf & l & _ & Uc & Lc & _ & _ & HF & r & Er & Q1 & Q2 & Q3 & Q4 & Q5 & Hpct).
    exists r. split; [done|]. rewrite Q1, Q2, Q3, Q4, Q5. split_and!; [|..|by apply fround_mono|done].
    - rewrite Forall_cons, Forall_cons, Forall_singleton in HF |- *.
      destruct HF as ([A1 A2] & [B1 B2] & [C1 C2]).
      split_and!; try (by apply fround_ge0); by apply fround_mono.
    - unfold unit_itv in *. apply andb_true_iff in Uc as [U1 U2]. rewrite fround_ge0 by done.
      eapply fle_trans; [by apply (fround_mono 4 _ f1)|]. vm_compute. done.
  Qed.

(** Stale evidence never makes a workload look cheaper: of two computations that differ in the
    age of the evidence only, the one with the older evidence has no greater confidence, no
    smaller risk premium and no smaller total. *)
Theorem trac_staleness_never_cheaper (workload : string) (billed emissions confidence : pyfloat) (age1 age2 : Q) (t : instant)
    (Hbilled : amount billed) (Hemissions : amount emissions)
    (Hconf : unit_itv confidence = true) (Hrepr : repr confidence)
    (Hage1 : repr (Fin age1)) (Hage2 : repr (Fin age2)) (Hle : (age1 <= age2)%Q) :
    ∃ r1 r2, compute tc cc workload billed emissions confidence (Fin age1) t = Ok r1 ∧
      compute tc cc workload billed emissions confidence (Fin age2) t = Ok r2 ∧
      fle (tr_attribution_confidence r2) (tr_attribution_confidence r1) = true ∧
      fle (tr_confidence_risk_premium_usd r1) (tr_confidence_risk_premium_usd r2) = true ∧
      fle (tr_trac_usd r1) (tr_trac_usd r2) = true.
  Proof.
    destruct (compute_spec workload billed emissions confidence age1 t Hbilled Hemissions Hconf Hrepr Hage1)
      as (c1 & l & E1 & U1 & _ & El & Gl & HF1 & r1 & Er1 & _ & _ & Q1 & Q2 & Q3 & _).
    destruct (compute_spec workload billed emissions confidence age2 t Hbilled Hemissions Hconf Hrepr Hage2)
      as (c2 & l2 & E2 & U2 & _ & El2 & _ & HF2 & r2 & Er2 & _ & _ & Q4 & Q5 & Q6 & _).
    rewrite El in El2. apply Ok_inj in El2 as <-. exists r1, r2. split; [done|]. split; [done|]. rewrite Q1, Q2, Q3, Q4, Q5, Q6. clear Q1 Q2 Q3 Q4 Q5 Q6.
    destruct Hcfg as (price & rate & mult & window & (P1 & P2) & (M1 & M2) & (R1 & R2) & (W1 & W2)).
    pose proof (effective_mono cc rate window R1 R2 W1 W2 confidence age1 age2 c1 c2 Hconf Hrepr Hage1 Hage2 Hle E1 E2) as Hc.
    destruct Hbilled as (b & -> & Hb & Rb).
    pose proof (premium_antitone tc mult M1 M2 b c2 c1 Hb Rb U2 U1 Hc) as Hp.
    rewrite Forall_cons, Forall_cons, Forall_singleton in HF1. destruct HF1 as ([G1 _] & _ & [G3 _]).
    split_and!; apply fround_mono; try done. apply fadd_mono_ge0; [by apply ge0_fadd|done| |done].
    apply fle_refl. pose proof (ge0_fadd _ _ G1 Gl) as Hs. by destruct (fadd (Fin b) l).
  Qed.
End trac_theorems.

(** ** Witnesses *)

Lemma default_trac_ok : trac_config_ok default_trac_config default_confidence_config.
Proof.
  set (value x := match x with Fin q => q | _ => 0%Q end).
  exists (value (carbon_price_per_tco2e default_trac_config)), (value (cc_decay_rate default_confidence_config)),
    (value (risk_multiplier default_trac_config)), (value (of_Z (cc_decay_window_days default_confidence_config))).
  repeat split; try (vm_compute; reflexivity); vm_compute; discriminate.
Qed.

Lemma amount_1000 : amount (Fin (1000 # 1)).
Proof. exists (1000 # 1)%Q. split_and!; [done|vm_compute; discriminate|vm_compute; reflexivity]. Qed.

Lemma trac_bounds_witness :
  ∃ r, compute (H := step_exp_lib) default_trac_config default_confidence_config "w" (Fin (1000 # 1)) (Fin (1000 # 1))
         (Fin (1 # 2)) (Fin (100 # 1)) 0 = Ok r ∧ unit_itv (tr_attribution_confidence r) = true.
Proof.
  destruct (@trac_bounds step_exp_lib default_trac_config default_confidence_config default_trac_ok "w" (Fin (1000 # 1))
    (Fin (1000 # 1)) (Fin (1 # 2)) (100 # 1) 0 amount_1000 amount_1000) as (r & E & _ & Hu & _);
    [vm_compute; reflexivity..|].
  exists r. split; [exact E|exact Hu].
Defined.

Lemma trac_staleness_never_cheaper_witness :
  ∃ r1 r2, compute (H := step_exp_lib) default_trac_config default_confidence_config "w" (Fin (1000 # 1)) (Fin (1000 # 1))
         (Fin (1 # 2)) (Fin (10 # 1)) 0 = Ok r1 ∧
    compute (H := step_exp_lib) default_trac_config default_confidence_config "w" (Fin (1000 # 1)) (Fin (1000 # 1))
         (Fin (1 # 2)) (Fin (100 # 1)) 0 = Ok r2 ∧ fle (tr_trac_usd r1) (tr_trac_usd r2) = true.
Proof.
  destruct (@trac_staleness_never_cheaper step_exp_lib default_trac_config default_confidence_config default_trac_ok "w"
    (Fin (1000 # 1)) (Fin (1000 # 1)) (Fin (1 # 2)) (10 # 1) (100 # 1) 0 amount_1000 amount_1000)
    as (r1 & r2 & E1 & E2 & _ & _ & Ht); [vm_compute; reflexivity..|vm_compute; discriminate|].
  exists r1, r2. split; [exact E1|]. split; [exact E2|exact Ht].
Defined.
