(* ===== verification/Carbon.v ===== *)
(** * The carbon calculator (src/aci/carbon/calculator.py, receipts of src/aci/models/carbon.py)

    The methodology layers on binary64 floats, the benchmark tables, and the receipts. The
    identifier of a receipt (a random UUID) and its time stamp are arguments. *)

From S2P Require Import Prelude PyFloat PyData PyMath PyTime PyValue.
From Stdlib Require Import ZArith QArith Lia Lqa.
From stdpp Require Import base list strings.

Open Scope string_scope.
Open Scope list_scope.
Open Scope Z_scope.
Local Open Scope py_scope.

(** ** Receipts *)

Inductive CarbonMethodologyLayer := BASELINE | STANDARD | PREMIUM.

Inductive AccountingMethod := LOCATION_BASED | MARKET_BASED.

Inductive GHGScope := SCOPE_2 | SCOPE_3.

Record CarbonCalculationReceipt := mkReceipt {
  rc_receipt_id : string;
  rc_workload_id : string;
  rc_emissions_kg_co2e : pyfloat;
  rc_uncertainty_band_pct : pyfloat * pyfloat;
  rc_method_layer : CarbonMethodologyLayer;
  rc_accounting_method : AccountingMethod;
  rc_ghg_scope : GHGScope;
  rc_ghg_category : string;
  rc_grid_factor_source : string;
  rc_energy_source : string;
  rc_hardware_profile_id : string;
  rc_embodied_carbon_assumptions : string;
  rc_region_to_grid_mapping_version : string;
  rc_provider_name : string;
  rc_provider_emission_factor : option pyfloat;
  rc_provider_factor_source : string;
  rc_computed_at : instant;
}.

(** The validator of the band. *)
Definition _validate_uncertainty_band (band : pyfloat * pyfloat) : res unit :=
  let '(low, high) := band in
  if flt low f0 || flt high f0 then Raise (ValueError "uncertainty band values must be non-negative")
  else if flt high low then Raise (ValueError "uncertainty band lower bound must be <= upper bound")
  else Ok tt.

Definition receipt (r : CarbonCalculationReceipt) : res CarbonCalculationReceipt :=
  let? _ := _validate_uncertainty_band (rc_uncertainty_band_pct r) in Ok r.

(** ** Tables *)

Record CarbonConfig := mkCarbonConfig {
  hardware_lifetime_years : pyfloat;
  hardware_utilization : pyfloat;
  tokens_per_gpu_second : pyfloat;
  embodied_carbon_manufacturing_kg : pyfloat;
}.

(** [CarbonConfig()]. *)
Definition default_carbon_config : CarbonConfig := mkCarbonConfig (of_Z 4) (lit 85 100) (of_Z 500) (of_Z 150).

(** kWh per thousand tokens. *)
Definition MODEL_ENERGY_BENCHMARKS : odict string pyfloat :=
  [("gpt-4o", lit 21 10000); ("gpt-4-turbo", lit 32 10000); ("gpt-4o-mini", lit 3 10000);
   ("gemini-2.0-flash", lit 19 10000); ("gemini-1.5-flash", lit 2 10000); ("gpt-4.1", lit 45 10000);
   ("gemini-1.5-pro", lit 18 10000); ("dall-e-3", lit 12 1000)].

Definition SPEND_BASED_FACTOR_KG_PER_USD : pyfloat := lit 4 10000.

(** gCO2e per kWh. *)
Definition GRID_INTENSITY : odict string pyfloat :=
  [("us-east-1", of_Z 379); ("us-west-2", of_Z 87); ("eu-west-1", of_Z 296); ("eu-central-1", of_Z 338);
   ("eu-north-1", of_Z 29); ("ap-northeast-1", of_Z 462); ("ap-south-1", of_Z 708); ("eastus", of_Z 379);
   ("westus2", of_Z 87); ("us-central1", of_Z 442)].

(** gCO2e per thousand tokens. *)
Definition PROVIDER_EMISSION_FACTORS : odict string pyfloat :=
  [("openai", lit 80 100); ("aws-bedrock", lit 65 100); ("google", lit 55 100)].

(** [table.get(key, default)] *)
Definition factor_of (table : odict string pyfloat) (key : string) (d : pyfloat) : pyfloat := default d (od_get key table).

(** ** The calculator *)

Section carbon.
  Context (config : CarbonConfig) (receipt_id : string) (computed_at : instant).

  (** A table factor times a token count, in thousands. *)
Definition per_thousand (factor : pyfloat) (total_tokens : Z) : res pyfloat :=
    let? t := py_float_of_int total_tokens in fdiv (fmul factor t) (of_Z 1000).

Definition layer1_emissions (cost_usd : pyfloat) : pyfloat := fmul cost_usd SPEND_BASED_FACTOR_KG_PER_USD.

Definition _layer1 (workload_id : string) (cost_usd : pyfloat) (accounting_method : AccountingMethod) :
      res CarbonCalculationReceipt :=
    receipt (mkReceipt receipt_id workload_id (fround 6 (layer1_emissions cost_usd)) (of_Z 50, of_Z 100)
               BASELINE accounting_method SCOPE_2 "" "IEA World Energy Outlook 2024" "estimated" "" "" "" "" None ""
               computed_at).

Definition layer1_5_emissions (provider : string) (total_tokens : Z) : res pyfloat :=
    let? x := per_thousand (factor_of PROVIDER_EMISSION_FACTORS (lower provider) (lit 70 100)) total_tokens in
    fdiv x (of_Z 1000).

Definition _layer1_5 (workload_id model provider : string) (total_tokens : Z) (accounting_method : AccountingMethod) :
      res CarbonCalculationReceipt :=
    let factor := factor_of PROVIDER_EMISSION_FACTORS (lower provider) (lit 70 100) in
    let? emissions := layer1_5_emissions provider total_tokens in
    receipt (mkReceipt receipt_id workload_id (fround 6 emissions) (of_Z 40, of_Z 80) BASELINE accounting_method SCOPE_3
               "Category 1: Purchased Services" "Provider sustainability reports + AI Energy Score" "benchmark" "" "" ""
               provider (Some factor) "benchmark" computed_at).

Definition operational_carbon (model region : string) (total_tokens : Z) : res pyfloat :=
    let? energy_kwh := per_thousand (factor_of MODEL_ENERGY_BENCHMARKS model (lit 2 1000)) total_tokens in
    fdiv (fmul energy_kwh (factor_of GRID_INTENSITY region (of_Z 400))) (of_Z 1000).

  (** [total_tokens / tokens_per_gpu_second] unless measured. *)
Definition gpu_seconds_of (total_tokens : Z) (measured_gpu_seconds : option pyfloat) : res pyfloat :=
    match measured_gpu_seconds with
    | Some s => Ok s
    | None => let? t := py_float_of_int total_tokens in fdiv t (tokens_per_gpu_second config)
    end.

Definition embodied_per_hour : res pyfloat :=
    let lifetime_hours :=
      fmul (fmul (fmul (hardware_lifetime_years config) (lit 36525 100)) (of_Z 24)) (hardware_utilization config) in
    fdiv (embodied_carbon_manufacturing_kg config) lifetime_hours.

Definition layer2_emissions (model region : string) (total_tokens : Z) (measured_gpu_seconds : option pyfloat) : res pyfloat :=
    let? operational := operational_carbon model region total_tokens in
    let? gpu_seconds := gpu_seconds_of total_tokens measured_gpu_seconds in
    let? gpu_hours := fdiv gpu_seconds (of_Z 3600) in
    let? per_hour := embodied_per_hour in
    Ok (fadd operational (fmul per_hour gpu_hours)).

Definition duration_source (measured_gpu_seconds : option pyfloat) : string :=
    match measured_gpu_seconds with
    | Some _ => "measured"
    | None => "estimated (" +:+ fmt_fixed 0 (tokens_per_gpu_second config) +:+ " tokens/GPU-sec)"
    end.

Definition _layer2 (workload_id model region : string) (total_tokens : Z) (accounting_method : AccountingMethod)
      (measured_gpu_seconds : option pyfloat) : res CarbonCalculationReceipt :=
    let? total_emissions := layer2_emissions model region total_tokens measured_gpu_seconds in
    receipt (mkReceipt receipt_id workload_id (fround 6 total_emissions) (of_Z 15, of_Z 30) STANDARD accounting_method SCOPE_2
               "" ("EMBER 2025Q4: " +:+ region) "benchmark" "nvidia-a100-80gb"
               (fmt_fixed 0 (embodied_carbon_manufacturing_kg config) +:+ " kgCO2e mfg, "
                +:+ repr_float (hardware_lifetime_years config) +:+ "yr life, "
                +:+ fmt_percent0 (hardware_utilization config) +:+ " util, "
                +:+ "duration: " +:+ duration_source measured_gpu_seconds)
               "v2.1" "" None "" computed_at).

Definition layer3_emissions (measured_kwh : pyfloat) (region : string) : res pyfloat :=
    fdiv (fmul measured_kwh (factor_of GRID_INTENSITY region (of_Z 400))) (of_Z 1000).

Definition _layer3 (workload_id : string) (measured_kwh : pyfloat) (region : string) (accounting_method : AccountingMethod) :
      res CarbonCalculationReceipt :=
    let? emissions := layer3_emissions measured_kwh region in
    receipt (mkReceipt receipt_id workload_id (fround 6 emissions) (of_Z 5, of_Z 15) PREMIUM accounting_method SCOPE_2 ""
               ("EMBER hourly marginal: " +:+ region) "measured" "measured-via-rapl" "" "v2.1" "" None "" computed_at).

Definition compute_layer1 (workload_id : string) (cloud_spend_usd : pyfloat) (region : string)
      (accounting_method : AccountingMethod) : res CarbonCalculationReceipt :=
    _layer1 workload_id cloud_spend_usd accounting_method.

Definition compute_layer2 (workload_id model : string) (inference_count : Z) (region : string) (tokens_per_inference : Z)
      (accounting_method : AccountingMethod) (measured_gpu_seconds : option pyfloat) : res CarbonCalculationReceipt :=
    _layer2 workload_id model region (inference_count * tokens_per_inference) accounting_method measured_gpu_seconds.

Definition compute_scope3_api (workload_id provider model : string) (total_tokens : Z) (accounting_method : AccountingMethod) :
      res CarbonCalculationReceipt :=
    _layer1_5 workload_id model provider total_tokens accounting_method.

Definition compute (workload_id : string) (cost_usd : pyfloat) (model provider region : string) (total_tokens : Z)
      (is_self_hosted : bool) (measured_kwh measured_gpu_seconds : option pyfloat) (accounting_method : AccountingMethod) :
      res CarbonCalculationReceipt :=
    match measured_kwh with
    | Some kwh => _layer3 workload_id kwh region accounting_method
    | None =>
        if od_mem model MODEL_ENERGY_BENCHMARKS && (0 <? total_tokens) && is_self_hosted
        then _layer2 workload_id model region total_tokens accounting_method measured_gpu_seconds
        else if od_mem (lower provider) PROVIDER_EMISSION_FACTORS && (0 <? total_tokens)
        then _layer1_5 workload_id model provider total_tokens accounting_method
        else _layer1 workload_id cost_usd accounting_method
    end.
End carbon.

Example carbon_sample :
  let show r := match r with
    | Ok r => Some (repr_float (rc_emissions_kg_co2e r), rc_method_layer r, rc_embodied_carbon_assumptions r)
    | Raise _ => None end in
  let run := compute default_carbon_config "id" 0 "w" (of_Z 100) in
  show (run "gpt-4o" "openai" "us-east-1" 1000000 true None None LOCATION_BASED)
    = Some ("0.798696", STANDARD, "150 kgCO2e mfg, 4.0yr life, 85% util, duration: estimated (500 tokens/GPU-sec)") ∧
  show (run "gpt-4o" "OpenAI" "us-east-1" 1000000 false None None LOCATION_BASED) = Some ("0.8", BASELINE, "") ∧
  show (run "x" "y" "" 0 false None None MARKET_BASED) = Some ("0.04", BASELINE, "") ∧
  show (run "x" "y" "eu-north-1" 0 false (Some (of_Z 10)) None MARKET_BASED) = Some ("0.29", PREMIUM, "").
Proof. vm_compute. auto. Qed.

(** ** Lemmas *)

(** Every entry of the tables is a quantity, and so is a default. *)
Lemma factor_amount table key d : Forall (λ kv : string * pyfloat, amount kv.2) table → amount d → amount (factor_of table key d).
Proof.
  intros Ht Hd. unfold factor_of. destruct (od_get key table) as [x|] eqn:E; [|done].
  apply od_get_Some_in in E. rewrite Forall_forall in Ht. by apply (Ht (key, x)).
Qed.

Lemma tables_amounts :
  Forall (λ kv : string * pyfloat, amount kv.2) MODEL_ENERGY_BENCHMARKS ∧
  Forall (λ kv : string * pyfloat, amount kv.2) GRID_INTENSITY ∧
  Forall (λ kv : string * pyfloat, amount kv.2) PROVIDER_EMISSION_FACTORS.
Proof. split_and!; apply amounts_ok; vm_compute; reflexivity. Qed.

Lemma constants : of_Z 1000 = Fin 1000 ∧ of_Z 3600 = Fin 3600.
Proof. split; vm_compute; reflexivity. Qed.

Lemma energy_amount model : amount (factor_of MODEL_ENERGY_BENCHMARKS model (lit 2 1000)).
Proof. apply factor_amount; [apply tables_amounts|]. apply amountb_ok; vm_compute; reflexivity. Qed.

Lemma grid_amount region : amount (factor_of GRID_INTENSITY region (of_Z 400)).
Proof. apply factor_amount; [apply tables_amounts|]. apply amountb_ok; vm_compute; reflexivity. Qed.

Lemma provider_amount provider : amount (factor_of PROVIDER_EMISSION_FACTORS provider (lit 70 100)).
Proof. apply factor_amount; [apply tables_amounts|]. apply amountb_ok; vm_compute; reflexivity. Qed.

(** Division by a thousand, of a value and of two values in order. *)
Lemma thousandth x : fle f0 x = true → ∃ z, fdiv x (of_Z 1000) = Ok z ∧ fle f0 z = true.
Proof. intros Hx. rewrite (proj1 constants). destruct (ge0_fdiv_pos x 1000 Hx ltac:(lra)) as (z & -> & Hz & _). by exists z. Qed.

Lemma thousandth_mono x y a b : fle x y = true → fdiv x (of_Z 1000) = Ok a → fdiv y (of_Z 1000) = Ok b → fle a b = true.
Proof. rewrite (proj1 constants). by apply (fdiv_mono_pos x y 1000 a b ltac:(lra)). Qed.

(** Scaling by a quantity keeps the order of quantities. *)
Lemma scale_mono k x y : amount k → amount x → amount y → fle x y = true → fle (fmul k x) (fmul k y) = true.
Proof. intros (p & -> & Hp & _) (q & -> & _) (r & -> & _) H. by apply fmul_mono_l. Qed.

Lemma per_thousand_spec factor tokens : amount factor → 0 <= tokens <= 2 ^ 1000 →
  ∃ x, per_thousand factor tokens = Ok x ∧ fle f0 x = true.
Proof.
  intros Hf Ht. unfold per_thousand. destruct (amount_of_int tokens Ht) as (t & -> & At). cbn [rbind].
  apply thousandth. by apply ge0_fmul_amount.
Qed.

Lemma per_thousand_mono factor t1 t2 x y : amount factor → 0 <= t1 <= t2 → t2 <= 2 ^ 1000 →
  per_thousand factor t1 = Ok x → per_thousand factor t2 = Ok y → fle x y = true.
Proof.
  intros Hf Ht Hb. unfold per_thousand. destruct (amount_of_int t1 ltac:(lia)) as (a & Ea & Aa), (amount_of_int t2 ltac:(lia)) as (b & Eb & Ab).
  rewrite Ea, Eb. cbn [rbind]. apply thousandth_mono. apply scale_mono; [done..|].
  by apply (py_float_of_int_mono t1 t2); [lia|..].
Qed.

(** Values of at least zero times a positive table entry, in order. *)
Lemma fmul_quantity_mono x y k : amount k → fle f0 k = true → feq k f0 = false → fle x y = true → fle (fmul x k) (fmul y k) = true.
Proof.
  intros (p & -> & Hp & _) _ Hk Hxy. apply fmul_mono_pos; [|done]. destruct (Qlt_le_dec 0 p) as [|Hle]; [done|].
  exfalso. unfold feq, f0 in Hk. cbn [fle] in Hk. rewrite !(proj2 (Qle_bool_iff _ _)) in Hk by done. done.
Qed.

Lemma grid_positive region : feq (factor_of GRID_INTENSITY region (of_Z 400)) f0 = false.
Proof.
  unfold factor_of. destruct (od_get region GRID_INTENSITY) as [x|] eqn:E; [|vm_compute; done].
  apply od_get_Some_in in E. assert (Forall (λ kv : string * pyfloat, feq kv.2 f0 = false) GRID_INTENSITY) as H
    by (repeat constructor). rewrite Forall_forall in H. by apply (H (region, x)).
Qed.

Lemma ge0_times_grid x region : fle f0 x = true → fle f0 (fmul x (factor_of GRID_INTENSITY region (of_Z 400))) = true.
Proof.
  intros Hx. destruct (grid_amount region) as (q & Eq & Hq & _). pose proof (grid_positive region) as Hp. rewrite Eq in *.
  apply ge0_fmul_pos; [done|]. destruct (Qlt_le_dec 0 q) as [|Hle]; [done|]. exfalso.
  unfold feq, f0 in Hp. cbn [fle] in Hp. rewrite !(proj2 (Qle_bool_iff _ _)) in Hp by done. done.
Qed.

Section layers.
  Context (config : CarbonConfig) (speed lifetime : Q).

Abbreviation lifetime_hours :=
  (fmul (fmul (fmul (hardware_lifetime_years config) (lit 36525 100)) (of_Z 24)) (hardware_utilization config)).

  Context (Hspeed : tokens_per_gpu_second config = Fin speed) (Hspeed1 : (1 <= speed)%Q).
  Context (Hlife : lifetime_hours = Fin lifetime) (Hlife1 : (1 <= lifetime)%Q).
  Context (Hmfg : amount (embodied_carbon_manufacturing_kg config)).

Lemma per_hour_amount : ∃ h, embodied_per_hour config = Ok h ∧ amount h.
  Proof.
    unfold embodied_per_hour. rewrite Hlife. destruct Hmfg as (m & -> & Hm & Rm).
    destruct (ge0_fdiv m lifetime Hm Rm Hlife1) as (h & Eh & Hh). rewrite Eh. exists (Fin h). split; [done|].
    exists h. split_and!; [done..|by eapply (fdiv_repr (Fin m) (Fin lifetime))].
  Qed.

Lemma gpu_seconds_amount tokens measured : 0 <= tokens <= 2 ^ 1000 → (∀ s, measured = Some s → amount s) →
    ∃ s, gpu_seconds_of config tokens measured = Ok s ∧ amount s.
  Proof.
    intros Ht Hm. destruct measured as [s|]; [exists s; split; [done|by apply Hm]|]. unfold gpu_seconds_of.
    destruct (amount_of_int tokens Ht) as (t & -> & (q & -> & Hq & Rq)). cbn [rbind]. rewrite Hspeed.
    destruct (ge0_fdiv q speed Hq Rq Hspeed1) as (s & Es & Hs). rewrite Es. exists (Fin s). split; [done|].
    exists s. split_and!; [done..|by eapply (fdiv_repr (Fin q) (Fin speed))].
  Qed.

Lemma gpu_hours_amount s : amount s → ∃ h, fdiv s (of_Z 3600) = Ok h ∧ amount h.
  Proof.
    intros (q & -> & Hq & Rq). rewrite (proj2 constants). destruct (ge0_fdiv q 3600 Hq Rq ltac:(lra)) as (h & Eh & Hh).
    rewrite Eh. exists (Fin h). split; [done|]. exists h. split_and!; [done..|by eapply (fdiv_repr (Fin q) (Fin 3600))].
  Qed.

Lemma operational_ok model region tokens : 0 <= tokens <= 2 ^ 1000 →
    ∃ x, operational_carbon model region tokens = Ok x ∧ fle f0 x = true.
  Proof.
    intros Ht. unfold operational_carbon. destruct (per_thousand_spec _ tokens (energy_amount model) Ht) as (k & -> & Hk).
    cbn [rbind]. apply thousandth. by apply ge0_times_grid.
  Qed.

Lemma layer2_ok model region tokens measured : 0 <= tokens <= 2 ^ 1000 → (∀ s, measured = Some s → amount s) →
    ∃ x, layer2_emissions config model region tokens measured = Ok x ∧ fle f0 x = true.
  Proof.
    intros Ht Hm. unfold layer2_emissions. destruct (operational_ok model region tokens Ht) as (o & -> & Ho). cbn [rbind].
    destruct (gpu_seconds_amount tokens measured Ht Hm) as (s & -> & Hs). cbn [rbind].
    destruct (gpu_hours_amount s Hs) as (h & -> & Hh). cbn [rbind]. destruct per_hour_amount as (e & -> & He). cbn [rbind].
    eexists. split; [done|]. apply ge0_fadd; [done|]. by apply ge0_fmul_amount.
  Qed.

Lemma gpu_seconds_mono t1 t2 measured a b : 0 <= t1 <= t2 → t2 <= 2 ^ 1000 → (∀ s, measured = Some s → amount s) →
    gpu_seconds_of config t1 measured = Ok a → gpu_seconds_of config t2 measured = Ok b → fle a b = true.
  Proof.
    intros Ht Hb Hm. destruct measured as [s|]; cbn [gpu_seconds_of].
    - intros <-%Ok_inj <-%Ok_inj. apply fle_refl. destruct (Hm s eq_refl) as (q & -> & _). done.
    - destruct (amount_of_int t1 ltac:(lia)) as (x & Ex & _), (amount_of_int t2 ltac:(lia)) as (y & Ey & _).
      rewrite Ex, Ey. cbn [rbind]. rewrite Hspeed. apply fdiv_mono_pos; [lra|]. by apply (py_float_of_int_mono t1 t2); [lia|..].
  Qed.

Lemma layer2_mono model region t1 t2 measured x y : 0 <= t1 <= t2 → t2 <= 2 ^ 1000 → (∀ s, measured = Some s → amount s) →
    layer2_emissions config model region t1 measured = Ok x → layer2_emissions config model region t2 measured = Ok y →
    fle x y = true.
  Proof.
    intros Ht Hb Hm. unfold layer2_emissions, operational_carbon.
    destruct (per_thousand_spec _ t1 (energy_amount model) ltac:(lia)) as (k1 & E1 & H1).
    destruct (per_thousand_spec _ t2 (energy_amount model) ltac:(lia)) as (k2 & E2 & H2).
    pose proof (per_thousand_mono _ t1 t2 k1 k2 (energy_amount model) Ht Hb E1 E2) as H12.
    rewrite E1, E2. cbn [rbind].
    destruct (thousandth _ (ge0_times_grid k1 region H1)) as (o1 & F1 & G1).
    destruct (thousandth _ (ge0_times_grid k2 region H2)) as (o2 & F2 & G2).
    assert (fle o1 o2 = true) as Go.
    { apply (thousandth_mono _ _ _ _ (fmul_quantity_mono k1 k2 _ (grid_amount region) (amount_ge0 _ (grid_amount region)) (grid_positive region) H12) F1 F2). }
    rewrite F1, F2. cbn [rbind].
    destruct (gpu_seconds_amount t1 measured ltac:(lia) Hm) as (s1 & S1 & A1).
    destruct (gpu_seconds_amount t2 measured ltac:(lia) Hm) as (s2 & S2 & A2).
    pose proof (gpu_seconds_mono t1 t2 measured s1 s2 Ht Hb Hm S1 S2) as Hs. rewrite S1, S2. cbn [rbind].
    destruct (gpu_hours_amount s1 A1) as (h1 & B1 & C1), (gpu_hours_amount s2 A2) as (h2 & B2 & C2).
    assert (fle h1 h2 = true) as Hh by (revert B1 B2; rewrite (proj2 constants); apply fdiv_mono_pos; [lra|done]).
    rewrite B1, B2. cbn [rbind]. destruct per_hour_amount as (e & -> & He). cbn [rbind]. intros <-%Ok_inj <-%Ok_inj.
    apply fadd_mono_ge0; [done|by apply ge0_fmul_amount|done|by apply scale_mono].
  Qed.
End layers.

Lemma layer1_5_ok provider tokens : 0 <= tokens <= 2 ^ 1000 →
  ∃ x, layer1_5_emissions provider tokens = Ok x ∧ fle f0 x = true.
Proof.
  intros Ht. unfold layer1_5_emissions. destruct (per_thousand_spec _ tokens (provider_amount (lower provider)) Ht) as (x & -> & Hx).
  cbn [rbind]. by apply thousandth.
Qed.

Lemma layer1_5_mono provider t1 t2 x y : 0 <= t1 <= t2 → t2 <= 2 ^ 1000 →
  layer1_5_emissions provider t1 = Ok x → layer1_5_emissions provider t2 = Ok y → fle x y = true.
Proof.
  intros Ht Hb. unfold layer1_5_emissions.
  destruct (per_thousand_spec _ t1 (provider_amount (lower provider)) ltac:(lia)) as (a & E1 & _).
  destruct (per_thousand_spec _ t2 (provider_amount (lower provider)) ltac:(lia)) as (b & E2 & _).
  pose proof (per_thousand_mono _ t1 t2 a b (provider_amount (lower provider)) Ht Hb E1 E2). rewrite E1, E2. cbn [rbind].
  by apply thousandth_mono.
Qed.

Lemma spend_amount : amount SPEND_BASED_FACTOR_KG_PER_USD.
Proof. apply amountb_ok. vm_compute. reflexivity. Qed.

Lemma layer1_ge0 cost : amount cost → fle f0 (layer1_emissions cost) = true.
Proof. intros Hc. by apply ge0_fmul_amount; [|apply spend_amount]. Qed.

Lemma layer3_ok kwh region : amount kwh → ∃ x, layer3_emissions kwh region = Ok x ∧ fle f0 x = true.
Proof. intros Hk. apply thousandth. by apply ge0_times_grid, amount_ge0. Qed.

(** The bands of the layers pass the validator. *)
Lemma bands_ok : Forall (λ b, _validate_uncertainty_band b = Ok tt)
  [(of_Z 5, of_Z 15); (of_Z 15, of_Z 30); (of_Z 40, of_Z 80); (of_Z 50, of_Z 100)].
Proof. repeat (apply Forall_cons; split; [vm_compute; reflexivity|]). by apply Forall_nil. Qed.

Lemma receipt_ok r : rc_uncertainty_band_pct r ∈ [(of_Z 5, of_Z 15); (of_Z 15, of_Z 30); (of_Z 40, of_Z 80); (of_Z 50, of_Z 100)] →
  receipt r = Ok r ∧ _validate_uncertainty_band (rc_uncertainty_band_pct r) = Ok tt.
Proof.
  intros Hr. pose proof bands_ok as H. rewrite Forall_forall in H. unfold receipt. by rewrite (H _ Hr).
Qed.

(** A receipt with one of the bands is issued as it is. *)
Ltac issue := match goal with |- context [receipt ?r] =>
  let H := fresh in destruct (receipt_ok r) as [H ?];
    [cbn [rc_uncertainty_band_pct]; apply list_elem_of_In; simpl; tauto|]; rewrite H; clear H end.

(** ** Properties *)

(** Configurations whose accelerators process a token a second and live an hour, or more. *)
Definition carbon_config_ok (c : CarbonConfig) : Prop :=
  (∃ speed, tokens_per_gpu_second c = Fin speed ∧ (1 <= speed)%Q) ∧
  (∃ hours, fmul (fmul (fmul (hardware_lifetime_years c) (lit 36525 100)) (of_Z 24)) (hardware_utilization c) = Fin hours ∧ (1 <= hours)%Q) ∧
  amount (embodied_carbon_manufacturing_kg c).

(** What a workload reports. *)
Record usage := mkUsage {
  u_cost_usd : pyfloat; u_model : string; u_provider : string; u_region : string; u_total_tokens : Z;
  u_is_self_hosted : bool; u_measured_kwh : option pyfloat; u_measured_gpu_seconds : option pyfloat;
}.

Definition usage_ok (u : usage) : Prop :=
  amount (u_cost_usd u) ∧ 0 <= u_total_tokens u <= 2 ^ 1000 ∧
  (∀ k, u_measured_kwh u = Some k → amount k) ∧ (∀ s, u_measured_gpu_seconds u = Some s → amount s).

Definition compute_usage (c : CarbonConfig) (id : string) (t : instant) (w : string) (u : usage) (m : AccountingMethod) :
    res CarbonCalculationReceipt :=
  compute c id t w (u_cost_usd u) (u_model u) (u_provider u) (u_region u) (u_total_tokens u) (u_is_self_hosted u)
    (u_measured_kwh u) (u_measured_gpu_seconds u) m.

(** The methodology a workload's data allow, best first. *)
Definition activity_based (u : usage) : bool :=
  od_mem (u_model u) MODEL_ENERGY_BENCHMARKS && (0 <? u_total_tokens u) && u_is_self_hosted u.
Definition third_party (u : usage) : bool :=
  od_mem (lower (u_provider u)) PROVIDER_EMISSION_FACTORS && (0 <? u_total_tokens u).

Definition best_method (u : usage) : CarbonMethodologyLayer * GHGScope * (pyfloat * pyfloat) :=
  match u_measured_kwh u with
  | Some _ => (PREMIUM, SCOPE_2, (of_Z 5, of_Z 15))
  | None => if activity_based u then (STANDARD, SCOPE_2, (of_Z 15, of_Z 30))
            else if third_party u then (BASELINE, SCOPE_3, (of_Z 40, of_Z 80))
            else (BASELINE, SCOPE_2, (of_Z 50, of_Z 100))
  end.

(** Every workload gets a receipt, by the best methodology its data allow: measured energy,
    then activity of a self-hosted benchmarked model, then tokens of a known provider, then
    spend; the receipt names that layer and scope with the layer's uncertainty band, which
    passes the validator, keeps the accounting method it was asked for, and its emissions are
    not negative. *)
Theorem carbon_receipt_by_best_method (c : CarbonConfig) (id w : string) (t : instant) (u : usage) (m : AccountingMethod)
    (Hc : carbon_config_ok c) (Hu : usage_ok u) :
  ∃ r, compute_usage c id t w u m = Ok r ∧
    (rc_method_layer r, rc_ghg_scope r, rc_uncertainty_band_pct r) = best_method u ∧
    rc_accounting_method r = m ∧ _validate_uncertainty_band (rc_uncertainty_band_pct r) = Ok tt ∧
    fle f0 (rc_emissions_kg_co2e r) = true.
Proof.
  destruct Hc as ((sp & S1 & S2) & (lf & L1 & L2) & Hm). destruct Hu as (Hcost & Ht & Hk & Hg).
  unfold compute_usage, compute, best_method. fold (activity_based u). fold (third_party u).
  destruct (u_measured_kwh u) as [k|] eqn:Ek.
  - unfold _layer3. destruct (layer3_ok k (u_region u) (Hk k eq_refl)) as (x & -> & Hx). cbn [rbind]. issue.
    eexists. split; [reflexivity|]. split_and!; try done. by apply fround_ge0.
  - destruct (activity_based u) eqn:Ea.
    + unfold _layer2. destruct (layer2_ok c sp lf S1 S2 L1 L2 Hm (u_model u) (u_region u) (u_total_tokens u) _ Ht Hg) as (x & -> & Hx).
      cbn [rbind]. issue. eexists. split; [reflexivity|]. split_and!; try done. by apply fround_ge0.
    + destruct (third_party u) eqn:Et.
      * unfold _layer1_5. destruct (layer1_5_ok (u_provider u) (u_total_tokens u) Ht) as (x & -> & Hx).
        cbn [rbind]. issue. eexists. split; [reflexivity|]. split_and!; try done. by apply fround_ge0.
      * unfold _layer1. issue. eexists. split; [reflexivity|]. split_and!; try done.
        apply fround_ge0; [done|]. by apply layer1_ge0.
Qed.

(** More usage never means less carbon: of two workloads of one model, provider, region and
    deployment, with the same telemetry, where the second spends at least as much, processes
    at least as many tokens (of which the first has some) and, if energy was measured, used at
    least as much of it, the second is charged at least the emissions of the first. *)
Theorem carbon_monotone_in_usage (c : CarbonConfig) (id1 id2 w1 w2 : string) (t1 t2 : instant) (u1 u2 : usage) (m : AccountingMethod)
    (Hc : carbon_config_ok c) (Hu1 : usage_ok u1) (Hu2 : usage_ok u2)
    (Hsame : u_model u1 = u_model u2 ∧ u_provider u1 = u_provider u2 ∧ u_region u1 = u_region u2 ∧
             u_is_self_hosted u1 = u_is_self_hosted u2 ∧ u_measured_gpu_seconds u1 = u_measured_gpu_seconds u2)
    (Hcost : fle (u_cost_usd u1) (u_cost_usd u2) = true) (Htokens : 0 < u_total_tokens u1 <= u_total_tokens u2)
    (Hkwh : match u_measured_kwh u1, u_measured_kwh u2 with
            | None, None => True | Some k1, Some k2 => fle k1 k2 = true | _, _ => False end) :
  ∃ r1 r2, compute_usage c id1 t1 w1 u1 m = Ok r1 ∧ compute_usage c id2 t2 w2 u2 m = Ok r2 ∧
    fle (rc_emissions_kg_co2e r1) (rc_emissions_kg_co2e r2) = true.
Proof.
  destruct Hc as ((sp & S1 & S2) & (lf & L1 & L2) & Hm).
  destruct Hu1 as (Hc1 & Ht1 & Hk1 & Hg1), Hu2 as (Hc2 & Ht2 & Hk2 & Hg2). destruct Hsame as (Em & Ep & Er & Es & Eg).
  unfold compute_usage, compute. rewrite Em, Ep, Er, Es, Eg in *.
  assert ((0 <? u_total_tokens u1) = true ∧ (0 <? u_total_tokens u2) = true) as [-> ->] by (split; apply Z.ltb_lt; lia).
  destruct (u_measured_kwh u1) as [k1|], (u_measured_kwh u2) as [k2|]; try done.
  - unfold _layer3. destruct (layer3_ok k1 (u_region u2) (Hk1 k1 eq_refl)) as (x & Ex & _).
    destruct (layer3_ok k2 (u_region u2) (Hk2 k2 eq_refl)) as (y & Ey & _). rewrite Ex, Ey. cbn [rbind].
    issue. issue. eexists _, _. split_and!; [reflexivity..|]. apply fround_mono; [done|].
    unfold layer3_emissions in Ex, Ey. refine (thousandth_mono _ _ x y _ Ex Ey).
    apply fmul_quantity_mono; [apply grid_amount|apply amount_ge0, grid_amount|apply grid_positive|done].
  - destruct (od_mem (u_model u2) _ && true && u_is_self_hosted u2).
    + unfold _layer2. destruct (layer2_ok c sp lf S1 S2 L1 L2 Hm (u_model u2) (u_region u2) (u_total_tokens u1) _ Ht1 Hg2) as (x & Ex & _).
      destruct (layer2_ok c sp lf S1 S2 L1 L2 Hm (u_model u2) (u_region u2) (u_total_tokens u2) _ Ht2 Hg2) as (y & Ey & _).
      rewrite Ex, Ey. cbn [rbind]. issue. issue. eexists _, _. split_and!; [reflexivity..|]. apply fround_mono; [done|].
      by apply (layer2_mono c sp lf S1 S2 L1 L2 Hm (u_model u2) (u_region u2) (u_total_tokens u1) (u_total_tokens u2) (u_measured_gpu_seconds u2) x y); [lia|lia|..].
    + destruct (od_mem _ PROVIDER_EMISSION_FACTORS && true).
      * unfold _layer1_5. destruct (layer1_5_ok (u_provider u2) (u_total_tokens u1) Ht1) as (x & Ex & _).
        destruct (layer1_5_ok (u_provider u2) (u_total_tokens u2) Ht2) as (y & Ey & _). rewrite Ex, Ey. cbn [rbind].
        issue. issue. eexists _, _. split_and!; [reflexivity..|]. apply fround_mono; [done|].
        by apply (layer1_5_mono (u_provider u2) (u_total_tokens u1) (u_total_tokens u2) x y); [lia|lia|..].
      * unfold _layer1. issue. issue. eexists _, _. split_and!; [reflexivity..|]. apply fround_mono; [done|].
        destruct Hc1 as (p & Ep1 & Hp & _), Hc2 as (q & Eq & Hq & _). rewrite Ep1, Eq in *. unfold layer1_emissions.
        destruct spend_amount as (f & -> & Hf & _). cbn [fle] in Hcost. apply Qle_bool_iff in Hcost. apply of_Q_mono. nra.
Qed.

(** The same receipt under another accounting method. *)
Definition with_accounting (m : AccountingMethod) (r : CarbonCalculationReceipt) : CarbonCalculationReceipt :=
  mkReceipt (rc_receipt_id r) (rc_workload_id r) (rc_emissions_kg_co2e r) (rc_uncertainty_band_pct r) (rc_method_layer r) m
    (rc_ghg_scope r) (rc_ghg_category r) (rc_grid_factor_source r) (rc_energy_source r) (rc_hardware_profile_id r)
    (rc_embodied_carbon_assumptions r) (rc_region_to_grid_mapping_version r) (rc_provider_name r)
    (rc_provider_emission_factor r) (rc_provider_factor_source r) (rc_computed_at r).

(** The accounting method is a label: asking for market-based instead of location-based
    accounting changes nothing of a receipt but the field that says so, for any workload,
    whether the computation returns or raises. *)
Theorem carbon_accounting_is_a_label (c : CarbonConfig) (id w : string) (t : instant) (u : usage) :
  compute_usage c id t w u MARKET_BASED =
  (let? r := compute_usage c id t w u LOCATION_BASED in Ok (with_accounting MARKET_BASED r)).
Proof.
  unfold compute_usage, compute. destruct (u_measured_kwh u) as [k|].
  - unfold _layer3. destruct (layer3_emissions k (u_region u)); [|done]. cbn [rbind]. issue. issue. reflexivity.
  - destruct (_ && u_is_self_hosted u).
    + unfold _layer2. destruct (layer2_emissions c _ _ _ _); [|done]. cbn [rbind]. issue. issue. reflexivity.
    + destruct (_ && (0 <? u_total_tokens u)).
      * unfold _layer1_5. destruct (layer1_5_emissions _ _); [|done]. cbn [rbind]. issue. issue. reflexivity.
      * unfold _layer1. issue. issue. reflexivity.
Qed.

(** ** Witnesses *)

Lemma default_carbon_ok : carbon_config_ok default_carbon_config.
Proof.
  set (value x := match x with Fin q => q | _ => 0%Q end).
  split; [|split].
  - exists (value (tokens_per_gpu_second default_carbon_config)). split; [vm_compute; reflexivity|vm_compute; discriminate].
  - exists (value (fmul (fmul (fmul (hardware_lifetime_years default_carbon_config) (lit 36525 100)) (of_Z 24))
                     (hardware_utilization default_carbon_config))). split; [vm_compute; reflexivity|vm_compute; discriminate].
  - apply amountb_ok. vm_compute. reflexivity.
Qed.

Definition sample_usage (tokens : Z) : usage := mkUsage (of_Z 100) "gpt-4o" "openai" "us-east-1" tokens true None None.

Lemma sample_usage_ok tokens : 0 <= tokens <= 2 ^ 1000 → usage_ok (sample_usage tokens).
Proof. intros Ht. split_and!; try done; [apply amountb_ok; vm_compute; reflexivity|apply Ht|apply Ht]. Qed.

Lemma carbon_receipt_by_best_method_witness :
  ∃ r, compute_usage default_carbon_config "id" 0 "w" (sample_usage 1000) LOCATION_BASED = Ok r ∧ rc_method_layer r = STANDARD.
Proof.
  destruct (carbon_receipt_by_best_method default_carbon_config "id" "w" 0 (sample_usage 1000) LOCATION_BASED default_carbon_ok)
    as (r & E & Hm & _); [apply sample_usage_ok; split; vm_compute; discriminate|].
  exists r. split; [exact E|]. apply (f_equal (λ x, x.1.1)) in Hm. exact Hm.
Defined.

Lemma carbon_monotone_in_usage_witness :
  ∃ r1 r2, compute_usage default_carbon_config "a" 0 "w" (sample_usage 1000) LOCATION_BASED = Ok r1 ∧
    compute_usage default_carbon_config "b" 0 "w" (sample_usage 2000) LOCATION_BASED = Ok r2 ∧
    fle (rc_emissions_kg_co2e r1) (rc_emissions_kg_co2e r2) = true.
Proof.
  apply (carbon_monotone_in_usage default_carbon_config "a" "b" "w" "w" 0 0 (sample_usage 1000) (sample_usage 2000) LOCATION_BASED
    default_carbon_ok).
  - apply sample_usage_ok. split; vm_compute; discriminate.
  - apply sample_usage_ok. split; vm_compute; discriminate.
  - repeat split.
  - vm_compute. reflexivity.
  - split; vm_compute; [reflexivity|discriminate].
  - exact I.
Defined.
