(* ===== verification/Benchmark.v ===== *)
(** * The federated benchmarking protocol (src/aci/benchmark/federated.py)

    Cohorts, clipped contributions, the privacy budgets and the noisy releases, as operations
    on the protocol's state. Random draws are streams read at consecutive indices: [uniform]
    is the operating system's generator, [laplace] numpy's; numpy's mean and median and libm's
    logarithm are parameters with documented laws. A release is one atomic step. *)

From S2P Require Import Prelude PyFloat PyData PyMath PyTime PyValue.
From Stdlib Require Import ZArith QArith Qround Lia Lqa.
From stdpp Require Import base list strings pretty.

Open Scope string_scope.
Open Scope list_scope.
Open Scope nat_scope.
Local Open Scope py_scope.

(** ** Data *)

Record FBPConfig := mkFBPConfig {
  epsilon_total_quarterly : pyfloat;
  epsilon_per_release : pyfloat;
  cost_per_token_clip : pyfloat;
  carbon_per_inference_clip : pyfloat;
  min_cohort_size : Z;
  use_secure_noise : bool;
}.

(** [FBPConfig()]. *)
Definition default_fbp_config : FBPConfig := mkFBPConfig (of_Z 4) f1 (lit 10 100) (of_Z 100) 5 true.

Record CohortMembership := mkMember { cm_org_id : string; cm_cohort_id : string; cm_joined_at : instant }.

Record BenchmarkMetric := mkMetric {
  bm_org_id : string; bm_metric_name : string; bm_raw_value : pyfloat; bm_period : string; bm_timestamp : instant }.

Record CohortBenchmark := mkBenchmark {
  cb_cohort_id : string;
  cb_metric_name : string;
  cb_noisy_mean : pyfloat;
  cb_noisy_median : pyfloat;
  cb_member_count : nat;
  cb_epsilon_consumed : pyfloat;
  cb_period : string;
  cb_published_at : instant;
  cb_suppressed : bool;
  cb_suppression_reason : string;
}.

(** ** Libraries *)

(** The generator of multiples of 2^-53 in [0, 1), [math.log] (finite and at most zero there, and not
    below -40 for the smallest such float), numpy's Laplace samples, mean and median. *)
Class BenchLib := {
  uniform : nat → pyfloat;
  uniform_range n : feq (uniform n) f0 = true ∨ fle (Fin (1 # 9007199254740992)) (uniform n) = true ∧ flt (uniform n) f1 = true;
  math_log : pyfloat → res pyfloat;
  log_range u : fle (Fin (1 # 9007199254740992)) u = true → flt u f1 = true →
    ∃ q, math_log u = Ok (Fin q) ∧ (-40 <= q <= 0)%Q;
  laplace : nat → pyfloat → pyfloat;
  np_mean : list pyfloat → pyfloat;
  np_median : list pyfloat → pyfloat;
}.

(** ** State *)

Record Protocol := mkProtocol {
  fp_cohorts : odict string (list CohortMembership);
  fp_metrics : odict string (list BenchmarkMetric);
  fp_budget_consumed : odict string pyfloat;
  fp_draws : nat;
}.

Definition Protocol_init : Protocol := mkProtocol [] [] [] 0.

Definition set_budget (b : odict string pyfloat) (p : Protocol) : Protocol :=
  mkProtocol (fp_cohorts p) (fp_metrics p) b (fp_draws p).

(** ** Noise *)

Section noise.
  Context `{BenchLib}.

  (** One draw of a generator. *)
Definition draw {A} (f : nat → A) : SE Protocol A := λ p,
    (Ok (f (fp_draws p)), mkProtocol (fp_cohorts p) (fp_metrics p) (fp_budget_consumed p) (S (fp_draws p))).

Definition two_m53 : pyfloat := Fin (1 # 9007199254740992).

  (** [int(math.floor(x))] *)
Definition floor_int (x : pyfloat) : res Z :=
    match x with
    | Fin q => Ok (Qfloor q)
    | NaN => Raise (ValueError "cannot convert float NaN to integer")
    | _ => Raise OverflowError
    end.

Definition _secure_geometric (log_q : pyfloat) : SE Protocol Z :=
    if negb (is_fin log_q) || fle f0 log_q then se_ret 0%Z else
    let! u := draw uniform in
    let u := if feq u f0 then two_m53 else u in
    let! l := se_lift (math_log u) in
    let! x := se_lift (fdiv l log_q) in
    se_lift (floor_int x).

Definition _discrete_laplace (scale : pyfloat) : SE Protocol pyfloat :=
    if fle scale f0 then se_ret f0 else
    let! log_q := se_lift (fdiv (of_Z (-1)) scale) in
    let! a := _secure_geometric log_q in
    let! b := _secure_geometric log_q in
    se_lift (py_float_of_int (a - b)).

Definition _continuous_laplace (scale : pyfloat) : SE Protocol pyfloat := draw (λ n, laplace n scale).

  (** The mechanism the constructor selects. *)
Definition _add_noise (config : FBPConfig) (scale : pyfloat) : SE Protocol pyfloat :=
    if use_secure_noise config then _discrete_laplace scale else _continuous_laplace scale.
End noise.

(** ** The protocol *)

Section protocol.
  Context `{BenchLib} (config : FBPConfig).

Definition sensitivity_bounds : odict string pyfloat :=
    [("cost_per_token_usd", cost_per_token_clip config); ("carbon_per_inference_gco2e", carbon_per_inference_clip config);
     ("attribution_confidence", f1); ("waste_pct", of_Z 100)].

Definition bound_of (metric_name : string) : pyfloat := default (of_Z 1000) (od_get metric_name sensitivity_bounds).

Definition create_cohort (cohort_id : string) (p : Protocol) : Protocol :=
    mkProtocol (od_set cohort_id [] (fp_cohorts p)) (fp_metrics p) (fp_budget_consumed p) (fp_draws p).

Definition join_cohort (org_id cohort_id : string) (now : instant) (p : Protocol) : bool * Protocol :=
    match od_get cohort_id (fp_cohorts p) with
    | None => (false, p)
    | Some members =>
        if existsb (λ m, String.eqb (cm_org_id m) org_id) members then (false, p)
        else (true, mkProtocol (od_set cohort_id (members ++ [mkMember org_id cohort_id now]) (fp_cohorts p))
                               (fp_metrics p) (fp_budget_consumed p) (fp_draws p))
    end.

Definition metric_key (org_id metric_name period : string) : string := org_id +:+ ":" +:+ metric_name +:+ ":" +:+ period.

  (** [max(0.0, min(raw, bound))] *)
Definition clip (bound raw : pyfloat) : pyfloat := fmax f0 (fmin raw bound).

Definition submit_metric (m : BenchmarkMetric) (now : instant) (p : Protocol) : Protocol :=
    let key := metric_key (bm_org_id m) (bm_metric_name m) (bm_period m) in
    let clipped := mkMetric (bm_org_id m) (bm_metric_name m) (clip (bound_of (bm_metric_name m)) (bm_raw_value m)) (bm_period m) now in
    mkProtocol (fp_cohorts p) (od_set key (default [] (od_get key (fp_metrics p)) ++ [clipped]) (fp_metrics p))
               (fp_budget_consumed p) (fp_draws p).

  (** The latest value of each member that has one. *)
Definition collect_values (members : list CohortMembership) (metric_name period : string) (p : Protocol) : list pyfloat :=
    omap (λ m, bm_raw_value <$> (od_get (metric_key (cm_org_id m) metric_name period) (fp_metrics p) ≫= last)) members.

Definition consumed (b : odict string pyfloat) (org_id : string) : pyfloat := default f0 (od_get org_id b).

  (** Some member has no budget left for a release. *)
Definition exhausted (members : list CohortMembership) (b : odict string pyfloat) : bool :=
    existsb (λ m, flt (epsilon_total_quarterly config) (fadd (consumed b (cm_org_id m)) (epsilon_per_release config))) members.

Definition charge (b : odict string pyfloat) (m : CohortMembership) : odict string pyfloat :=
    od_set (cm_org_id m) (fadd (consumed b (cm_org_id m)) (epsilon_per_release config)) b.

Definition suppressed_benchmark (cohort_id metric_name period reason : string) (member_count : nat) (now : instant) : CohortBenchmark :=
    mkBenchmark cohort_id metric_name f0 f0 member_count f0 period now true reason.

Definition float_len (l : list pyfloat) : pyfloat := of_Z (Z.of_nat (length l)).

Definition publish_benchmark (cohort_id metric_name period : string) (now : instant) : SE Protocol CohortBenchmark :=
    let! p := se_get id in
    let members := default [] (od_get cohort_id (fp_cohorts p)) in
    let count := length members in
    if (Z.of_nat count <? min_cohort_size config)%Z then
      se_ret (suppressed_benchmark cohort_id metric_name period
                ("Cohort size " +:+ pretty (Z.of_nat count) +:+ " < minimum " +:+ pretty (min_cohort_size config)) count now)
    else match collect_values members metric_name period p with
    | [] => se_ret (suppressed_benchmark cohort_id metric_name period "No metric submissions for this period" count now)
    | values =>
        let epsilon_total := epsilon_per_release config in
        let! epsilon_per_stat := se_lift (fdiv epsilon_total (of_Z 2)) in
        if fle epsilon_per_stat f0 then se_raise (ValueError "epsilon_per_release must be greater than 0") else
        if exhausted members (fp_budget_consumed p) then se_raise PrivacyBudgetExhaustedError else
        let! mean_sensitivity := se_lift (fdiv (bound_of metric_name) (float_len values)) in
        let! mean_noise_scale := se_lift (fdiv mean_sensitivity epsilon_per_stat) in
        let! median_noise_scale := se_lift (fdiv (bound_of metric_name) epsilon_per_stat) in
        let! mean_noise := _add_noise config mean_noise_scale in
        let! median_noise := _add_noise config median_noise_scale in
        se_modify (λ p, set_budget (fold_left charge members (fp_budget_consumed p)) p);;;
        se_ret (mkBenchmark cohort_id metric_name (fround 6 (fadd (np_mean values) mean_noise))
                  (fround 6 (fadd (np_median values) median_noise)) count epsilon_total period now false "")
    end.

Definition get_remaining_budget (org_id : string) (p : Protocol) : pyfloat :=
    fmax f0 (fsub (epsilon_total_quarterly config) (consumed (fp_budget_consumed p) org_id)).

Definition reset_quarterly_budgets (p : Protocol) : Protocol := set_budget [] p.
End protocol.

(** ** Histories *)

Inductive bench_op :=
  | Create (cohort_id : string)
  | Join (org_id cohort_id : string) (now : instant)
  | Submit (m : BenchmarkMetric) (now : instant)
  | Publish (cohort_id metric_name period : string) (now : instant)
  | ResetBudgets.

Section histories.
  Context `{BenchLib} (config : FBPConfig).

Definition bench_step (p : Protocol) (o : bench_op) : Protocol :=
    match o with
    | Create c => create_cohort c p
    | Join org c now => (join_cohort org c now p).2
    | Submit m now => submit_metric config m now p
    | Publish c m period now => (publish_benchmark config c m period now p).2
    | ResetBudgets => reset_quarterly_budgets p
    end.

Definition bench_run (ops : list bench_op) : Protocol := fold_left bench_step ops Protocol_init.

  (** No organization twice in a cohort; every stored value within its bound; no budget beyond
      the quarter's. *)
Definition bench_ok (p : Protocol) : Prop :=
    Forall (λ kv, NoDup (map cm_org_id kv.2)) (fp_cohorts p) ∧
    Forall (λ kv, Forall (λ m, ∃ raw, bm_raw_value m = clip (bound_of config (bm_metric_name m)) raw) kv.2) (fp_metrics p) ∧
    ∀ org x, od_get org (fp_budget_consumed p) = Some x → flt (epsilon_total_quarterly config) x = false.

  (** ** Lemmas *)

Lemma Forall_od_set_val {V} (P : V → Prop) k v (d : odict string V) :
    Forall (λ kv, P kv.2) d → P v → Forall (λ kv, P kv.2) (od_set k v d).
  Proof.
    intros Hd Hv. induction Hd as [|[k' v'] d Hx Hd IH]; cbn [od_set]; [by apply Forall_singleton|].
    case_decide; by apply Forall_cons.
  Qed.

Lemma od_get_Forall {V} (P : V → Prop) k v (d : odict string V) : Forall (λ kv, P kv.2) d → od_get k d = Some v → P v.
  Proof. rewrite Forall_forall. intros Hd E%od_get_Some_in. by apply (Hd (k, v)). Qed.

  (** What a release charges: each member once. *)
Lemma charges_get ms b org : NoDup (map cm_org_id ms) →
    od_get org (fold_left (charge config) ms b) =
    if bool_decide (org ∈ map cm_org_id ms) then Some (fadd (consumed b org) (epsilon_per_release config)) else od_get org b.
  Proof.
    revert b; induction ms as [|m ms IH]; intros b Hnd; [done|]. cbn [fold_left map] in *.
    apply NoDup_cons in Hnd as [Hm Hnd]. rewrite IH by done.
    destruct (decide (org = cm_org_id m)) as [->|Hne].
    - rewrite (bool_decide_eq_false_2 (cm_org_id m ∈ map cm_org_id ms)) by done.
      rewrite bool_decide_eq_true_2 by (by left). unfold charge. by rewrite od_get_set_eq.
    - unfold consumed, charge. rewrite !od_get_set_ne by done.
      destruct (decide (org ∈ map cm_org_id ms)) as [Hin|Hin].
      + rewrite !bool_decide_eq_true_2 by (done || by right). done.
      + rewrite !bool_decide_eq_false_2; [done|by intros [?|?]%elem_of_cons|done].
  Qed.

  (** Noise draws and nothing else. *)
Definition quiet {A} (m : SE Protocol A) : Prop := ∀ p, ∃ n, (m p).2 = mkProtocol (fp_cohorts p) (fp_metrics p) (fp_budget_consumed p) n.

Lemma quiet_lift {A} (r : res A) : quiet (se_lift r).
  Proof. intros p. exists (fp_draws p). by destruct p. Qed.

Lemma quiet_bind {A B} (m : SE Protocol A) (k : A → SE Protocol B) : quiet m → (∀ a, quiet (k a)) → quiet (se_bind m k).
  Proof.
    intros Hm Hk p. destruct (Hm p) as [n Hn]. unfold se_bind. destruct (m p) as [[a|x] p1]; cbn [snd] in *; [|by exists n].
    destruct (Hk a p1) as [n2 Hn2]. exists n2. rewrite Hn2, Hn. done.
  Qed.

Lemma quiet_noise scale : quiet (_add_noise config scale).
  Proof.
    assert (∀ l, quiet (_secure_geometric l)) as Hg.
    { intros l. unfold _secure_geometric. destruct (_ || _); [apply (quiet_lift (Ok 0%Z))|].
      apply quiet_bind; [intros p; by eexists|]. intros u. repeat (apply quiet_bind; [apply quiet_lift|intros ?]). apply quiet_lift. }
    unfold _add_noise. destruct (use_secure_noise config); [|intros p; by eexists].
    unfold _discrete_laplace. destruct (fle scale f0); [apply (quiet_lift (Ok f0))|].
    apply quiet_bind; [apply quiet_lift|]. intros l. apply quiet_bind; [apply Hg|]. intros a.
    apply quiet_bind; [apply Hg|]. intros b. apply quiet_lift.
  Qed.

  (** The three outcomes of a publication. *)
Lemma publish_cases c name period now p :
    let ms := default [] (od_get c (fp_cohorts p)) in
    let '(r, p') := publish_benchmark config c name period now p in
    match r with
    | Ok b =>
        if cb_suppressed b
        then p' = p ∧ ((Z.of_nat (length ms) < min_cohort_size config)%Z ∨ collect_values ms name period p = [])
        else (min_cohort_size config <= Z.of_nat (length ms))%Z ∧ collect_values ms name period p ≠ [] ∧
             exhausted config ms (fp_budget_consumed p) = false ∧
             cb_epsilon_consumed b = epsilon_per_release config ∧ cb_member_count b = length ms ∧
             ∃ n, p' = mkProtocol (fp_cohorts p) (fp_metrics p) (fold_left (charge config) ms (fp_budget_consumed p)) n
    | Raise _ => ∃ n, p' = mkProtocol (fp_cohorts p) (fp_metrics p) (fp_budget_consumed p) n
    end.
  Proof.
    intros ms. unfold publish_benchmark. unfold se_bind at 1. cbn [se_get id]. fold ms.
    assert (∃ n, p = mkProtocol (fp_cohorts p) (fp_metrics p) (fp_budget_consumed p) n) as Hp by (exists (fp_draws p); by destruct p).
    destruct (Z.ltb_spec (Z.of_nat (length ms)) (min_cohort_size config)) as [Hlt|Hge]; [split; [done|by left]|].
    destruct (collect_values ms name period p) as [|v vs] eqn:Ev; [split; [done|by right]|]. set (values := v :: vs).
    unfold se_bind at 1, se_lift at 1. destruct (fdiv (epsilon_per_release config) (of_Z 2)) as [e2|x]; [|done].
    destruct (fle e2 f0); [done|]. destruct (exhausted config ms (fp_budget_consumed p)) eqn:Eex; [done|].
    unfold se_bind at 1, se_lift at 1. destruct (fdiv (bound_of config name) (float_len values)) as [sens|x]; [|done].
    unfold se_bind at 1, se_lift at 1. destruct (fdiv sens e2) as [s1|x]; [|done].
    unfold se_bind at 1, se_lift at 1. destruct (fdiv (bound_of config name) e2) as [s2|x]; [|done].
    unfold se_bind at 1. destruct (quiet_noise s1 p) as [n1 N1].
    destruct (_add_noise config s1 p) as [[x1|x1] p1]; cbn [snd] in N1; subst p1; [|by exists n1].
    set (p1 := mkProtocol _ _ _ n1). unfold se_bind at 1. destruct (quiet_noise s2 p1) as [n2 N2].
    destruct (_add_noise config s2 p1) as [[x2|x2] p2]; cbn [snd] in N2; subst p2; [|by exists n2].
    unfold se_bind, se_modify, se_ret, set_budget. cbn [cb_suppressed fp_cohorts fp_metrics fp_budget_consumed fp_draws].
    split_and!; try done. by exists n2.
  Qed.

Lemma exhausted_false ms b m : exhausted config ms b = false → m ∈ ms →
    flt (epsilon_total_quarterly config) (fadd (consumed b (cm_org_id m)) (epsilon_per_release config)) = false.
  Proof.
    unfold exhausted. intros Hex Hm. apply not_true_is_false. intros Ht.
    assert (existsb (λ m, flt (epsilon_total_quarterly config) (fadd (consumed b (cm_org_id m)) (epsilon_per_release config))) ms = true)
      as H1; [|congruence]. apply existsb_exists. exists m. split; [by apply list_elem_of_In|done].
  Qed.

Lemma bench_step_ok p o : bench_ok p → bench_ok (bench_step p o).
  Proof.
    intros (Hc & Hm & Hb). destruct o as [c|org c now|m now|c name period now|]; cbn [bench_step].
    - split_and!; [|done|done]. apply (Forall_od_set_val (λ ms, NoDup (map cm_org_id ms))); [done|constructor].
    - unfold join_cohort. destruct (od_get c (fp_cohorts p)) as [ms|] eqn:E; [|done].
      destruct (existsb _ ms) eqn:Ex; [done|]. split_and!; [|done|done]. cbn [snd fp_cohorts].
      apply (Forall_od_set_val (λ ms, NoDup (map cm_org_id ms))); [done|]. rewrite map_app. apply NoDup_app. split_and!.
      + by apply (od_get_Forall (λ ms, NoDup (map cm_org_id ms)) c ms (fp_cohorts p)).
      + intros x Hx. cbn [map cm_org_id]. intros ->%list_elem_of_singleton. apply list_elem_of_fmap in Hx as (m & -> & Hm').
        assert (existsb (λ m0, String.eqb (cm_org_id m0) (cm_org_id m)) ms = true) as Ht; [|congruence].
        apply existsb_exists. exists m. split; [by apply list_elem_of_In|apply String.eqb_refl].
      + apply NoDup_singleton.
    - split_and!; [done| |done]. cbn [fp_metrics submit_metric].
      apply (Forall_od_set_val (λ l, Forall (λ m, ∃ raw, bm_raw_value m = clip (bound_of config (bm_metric_name m)) raw) l)); [done|].
      apply Forall_app. split; [|apply Forall_singleton; by eexists].
      destruct (od_get _ (fp_metrics p)) as [l|] eqn:E; [|constructor].
      by apply (od_get_Forall (λ l, Forall (λ m, ∃ raw, bm_raw_value m = clip (bound_of config (bm_metric_name m)) raw) l)
        (metric_key (bm_org_id m) (bm_metric_name m) (bm_period m)) l (fp_metrics p)).
    - pose proof (publish_cases c name period now p) as H1. cbn zeta in H1.
      destruct (publish_benchmark config c name period now p) as [[b|x] p']; cbn [snd].
      + destruct (cb_suppressed b); [by destruct H1 as [-> _]|]. destruct H1 as (_ & _ & Hex & _ & _ & n & ->).
        split_and!; [done|done|]. cbn [fp_budget_consumed]. intros org y.
        set (ms := default [] (od_get c (fp_cohorts p))) in *.
        assert (NoDup (map cm_org_id ms)) as Hnd.
        { subst ms. destruct (od_get c (fp_cohorts p)) as [ms|] eqn:E; [|constructor].
          by apply (od_get_Forall (λ ms, NoDup (map cm_org_id ms)) c ms (fp_cohorts p)). }
        rewrite charges_get by done. case_bool_decide as Hin; [|by apply Hb]. intros [= <-].
        apply list_elem_of_fmap in Hin as (m & -> & Hin). by eapply exhausted_false.
      + destruct H1 as [n ->]. done.
    - split_and!; try done.
  Qed.

Lemma bench_run_ok ops : bench_ok (bench_run ops).
  Proof.
    unfold bench_run. assert (bench_ok Protocol_init) as H0 by (split_and!; [constructor|constructor|done]).
    revert H0. generalize Protocol_init. induction ops as [|o ops IH]; intros p Hp; [done|]. cbn [fold_left].
    by apply IH, bench_step_ok.
  Qed.
End histories.

(** The clipping of any value, a NaN included. *)
Lemma clip_between bound raw : fle f0 bound = true → in_range f0 bound (clip bound raw) = true.
Proof.
  intros Hb. unfold clip. apply between_split. split; [by apply fmax_ge|].
  apply fmax_le; [done|]. destruct (is_nan (fmin raw bound)) eqn:E; [by left|right].
  unfold fmin in *. destruct (flt bound raw) eqn:El; [by apply fle_refl, (fle_not_nan_r f0)|].
  apply flt_false in El; [done|by eapply fle_not_nan_r|done].
Qed.

(** ** Lemmas: releases under secure noise *)

Section releases.
  Context `{BenchLib} (config : FBPConfig).

  (** The state after some draws. *)
Definition drawn (p : Protocol) (n : nat) : Protocol := mkProtocol (fp_cohorts p) (fp_metrics p) (fp_budget_consumed p) n.

Lemma drawn_self p : p = drawn p (fp_draws p).
  Proof. by destruct p. Qed.

Lemma geometric_spec lq p : (lq <= - pow2 (-30))%Q →
    ∃ z n, _secure_geometric (Fin lq) p = (Ok z, drawn p n) ∧ (0 <= z <= 2 ^ 36)%Z.
  Proof.
    intros Hlq. pose proof (pow2_pos (-30)) as Hp. unfold _secure_geometric.
    assert (fle f0 (Fin lq) = false) as E0 by (apply Qle_bool_false; lra). rewrite E0. cbn [is_fin negb orb].
    set (u := if feq (uniform (fp_draws p)) f0 then two_m53 else uniform (fp_draws p)).
    assert (∃ l, math_log u = Ok (Fin l) ∧ (-40 <= l <= 0)%Q) as (l & El & Hl).
    { apply log_range; subst u; destruct (uniform_range (fp_draws p)) as [E|[E1 E2]].
      - by rewrite E.
      - by destruct (feq _ f0).
      - rewrite E. vm_compute. done.
      - destruct (feq _ f0); [vm_compute; done|done]. }
    rewrite (se_bind_ok _ _ _ (uniform (fp_draws p)) (drawn p (S (fp_draws p)))) by done. fold u. rewrite El.
    assert (Qeq_bool lq 0 = false) as En by (apply not_true_iff_false; rewrite Qeq_bool_iff; lra).
    unfold se_bind, se_lift. cbn [fdiv]. rewrite En.
    assert (0 <= l / lq <= 40 * pow2 30)%Q as [H1 H2].
    { assert (pow2 30 * pow2 (-30) == 1)%Q as Hinv by (apply (pow2_inv 30)). pose proof (pow2_pos 30).
      assert (l / lq == (- l) / (- lq))%Q as E by (field; lra). rewrite E.
      split; [apply Qle_shift_div_l; lra|apply Qle_shift_div_r; [lra|]]. nra. }
    assert (∃ x, of_Q (l / lq) = Fin x ∧ (0 <= x <= 40 * pow2 30)%Q) as (x & -> & Hx).
    { pose proof (ge0_of_Q _ H1) as G. destruct (of_Q_exact 40 30 (40 * pow2 30)) as (r & Er & Hr); [lia|lia|reflexivity|].
      pose proof (of_Q_mono _ _ H2) as G2. rewrite Er in G2. destruct (of_Q (l / lq)) as [x| | |]; try done.
      exists x. split; [done|]. apply ge0_Fin in G. cbn [fle] in G2. apply Qle_bool_iff in G2. rewrite Hr in G2. done. }
    exists (Qfloor x), (S (fp_draws p)). split; [done|]. split.
    - apply (Qfloor_resp_le 0). apply Hx.
    - transitivity (Qfloor (40 * pow2 30)); [apply Qfloor_resp_le, Hx|]. vm_compute. discriminate.
  Qed.

  (** The secure noise is an integer. *)
Lemma laplace_spec s p : (s <= pow2 30)%Q →
    ∃ k n, _discrete_laplace (Fin s) p = (Ok (of_Z k), drawn p n) ∧ (Z.abs k <= 2 ^ 36)%Z.
  Proof.
    intros Hs. assert (of_Z 0 = f0) as E0 by (vm_compute; reflexivity). unfold _discrete_laplace.
    destruct (fle (Fin s) f0) eqn:Es; [exists 0%Z, (fp_draws p); rewrite E0, <- drawn_self; done|].
    apply Qle_bool_false in Es. assert (of_Z (-1) = Fin (-1)) as -> by (vm_compute; reflexivity).
    assert (Qeq_bool s 0 = false) as En by (apply not_true_iff_false; rewrite Qeq_bool_iff; lra).
    unfold se_bind at 1, se_lift at 1. cbn [fdiv]. rewrite En.
    assert (∀ z, (Z.abs z <= 2 ^ 36)%Z → py_float_of_int z = Ok (of_Z z)) as Hint.
    { intros z Hz. unfold py_float_of_int, of_Z. destruct (of_Q_exact z 0 (inject_Z z)) as (r & -> & _);
        [lia|lia|change (pow2 0) with 1%Q; ring|done]. }
    assert (-1 / s <= - pow2 (-30))%Q as Hle.
    { pose proof (pow2_pos (-30)). assert (pow2 30 * pow2 (-30) == 1)%Q by (apply (pow2_inv 30)).
      apply Qle_shift_div_r; [done|]. nra. }
    destruct (of_Q (-1 / s)) as [lq| | |] eqn:Eq.
    - assert (lq <= - pow2 (-30))%Q as Hlq.
      { destruct (of_Q_exact (-1) (-30) (- pow2 (-30))) as (r & Er & Hr); [lia|lia|ring|].
        pose proof (of_Q_mono _ _ Hle) as G. rewrite Eq, Er in G. cbn [fle] in G. apply Qle_bool_iff in G. lra. }
      destruct (geometric_spec lq p Hlq) as (a & n1 & E1 & H1). rewrite (se_bind_ok _ _ _ _ _ E1).
      destruct (geometric_spec lq (drawn p n1) Hlq) as (b & n2 & E2 & H2). rewrite (se_bind_ok _ _ _ _ _ E2).
      unfold se_lift. exists (a - b)%Z, n2. rewrite Hint by lia. split; [done|lia].
    - exfalso. assert (fle (of_Q (-1 / s)) (of_Q 0) = true) as G by (apply of_Q_mono; pose proof (pow2_pos (-30)); lra).
      rewrite Eq in G. done.
    - exists 0%Z, (fp_draws p). rewrite <- drawn_self. unfold se_bind, _secure_geometric. cbn. by rewrite E0.
    - pose proof (of_Q_not_nan (-1 / s)) as G. by rewrite Eq in G.
  Qed.

  Context (half bound scale : Q) (metric_name : string).
  Context (Hsecure : use_secure_noise config = true).
  Context (Hhalf : fdiv (epsilon_per_release config) (of_Z 2) = Ok (Fin half)) (Hhalf0 : (0 < half)%Q).
  Context (Hbound : bound_of config metric_name = Fin bound) (Hbound0 : (0 <= bound)%Q) (Hboundr : repr (Fin bound)).
  Context (Hscale : fdiv (Fin bound) (Fin half) = Ok (Fin scale)) (Hscale30 : (scale <= pow2 30)%Q).

  (** The sensitivity of the mean and the scale of its noise. *)
Lemma mean_scale (vs : list pyfloat) : vs ≠ [] →
    ∃ sens s, fdiv (Fin bound) (float_len vs) = Ok sens ∧ fdiv sens (Fin half) = Ok (Fin s) ∧ (s <= pow2 30)%Q.
  Proof.
    intros Hvs. assert (0 < length vs) as Hn by (destruct vs; [done|simpl; lia]). unfold float_len.
    assert (fle f1 (of_Z (Z.of_nat (length vs))) = true) as H1.
    { apply of_Q_ge_repr; [change 1%Q with (inject_Z 1); rewrite <- Zle_Qle; lia|apply repr_f1]. }
    destruct (of_Z (Z.of_nat (length vs))) as [c| | |]; try done.
    - unfold f1 in H1. cbn [fle] in H1. apply Qle_bool_iff in H1.
      destruct (ge0_fdiv bound c Hbound0 Hboundr H1) as (q & Eq & Hq). exists (Fin q).
      assert (fle (Fin q) (Fin bound) = true) as Hle.
      { cbn [fdiv] in Eq. destruct (Qeq_bool c 0); [done|]. apply Ok_inj in Eq as <-.
        apply of_Q_le_repr; [apply Qle_shift_div_r; nra|done]. }
      destruct (ge0_fdiv_pos (Fin q) half) as (z & Ez & Gz & _); [by apply ge0_Fin|done|].
      pose proof (fdiv_mono_pos (Fin q) (Fin bound) half z (Fin scale) Hhalf0 Hle Ez Hscale) as Hz.
      destruct z as [s| | |]; try done. exists s. split_and!; [done..|]. cbn [fle] in Hz. apply Qle_bool_iff in Hz. lra.
    - exists (Fin 0). destruct (ge0_fdiv_pos (Fin 0) half) as (z & Ez & Gz & _); [done|done|].
      assert (fle (Fin 0) (Fin bound) = true) as Hle by (by apply Qle_bool_iff).
      pose proof (fdiv_mono_pos (Fin 0) (Fin bound) half z (Fin scale) Hhalf0 Hle Ez Hscale) as Hz.
      destruct z as [s| | |]; try done. exists s. split_and!; [done..|]. cbn [fle] in Hz. apply Qle_bool_iff in Hz. lra.
  Qed.

  (** A release that passes the checks: integers added to the mean and the median. *)
Lemma publish_ok c period now p :
    let ms := default [] (od_get c (fp_cohorts p)) in
    let vs := collect_values ms metric_name period p in
    (min_cohort_size config <= Z.of_nat (length ms))%Z → vs ≠ [] → exhausted config ms (fp_budget_consumed p) = false →
    ∃ k1 k2 n, (Z.abs k1 <= 2 ^ 36)%Z ∧ (Z.abs k2 <= 2 ^ 36)%Z ∧
      publish_benchmark config c metric_name period now p =
      (Ok (mkBenchmark c metric_name (fround 6 (fadd (np_mean vs) (of_Z k1))) (fround 6 (fadd (np_median vs) (of_Z k2)))
             (length ms) (epsilon_per_release config) period now false ""),
       mkProtocol (fp_cohorts p) (fp_metrics p) (fold_left (charge config) ms (fp_budget_consumed p)) n).
  Proof.
    intros ms vs Hms Hvs Hex. unfold publish_benchmark. unfold se_bind at 1. cbn [se_get id]. fold ms.
    destruct (Z.ltb_spec (Z.of_nat (length ms)) (min_cohort_size config)) as [Hlt|_]; [lia|]. fold vs.
    destruct vs as [|v vs'] eqn:Ev; [done|]. rewrite <- Ev in *. clear Hvs.
    assert (vs ≠ []) as Hvs by (by rewrite Ev). clear Ev v vs'.
    unfold se_bind at 1, se_lift at 1. rewrite Hhalf.
    assert (fle (Fin half) f0 = false) as -> by (by apply Qle_bool_false). rewrite Hex, Hbound.
    destruct (mean_scale vs Hvs) as (sens & s & E1 & E2 & Hs).
    unfold se_bind at 1, se_lift at 1. rewrite E1. unfold se_bind at 1, se_lift at 1. rewrite E2.
    unfold se_bind at 1, se_lift at 1. rewrite Hscale. unfold _add_noise. rewrite Hsecure.
    destruct (laplace_spec s p Hs) as (k1 & n1 & N1 & K1). rewrite (se_bind_ok _ _ _ _ _ N1).
    destruct (laplace_spec scale (drawn p n1) Hscale30) as (k2 & n2 & N2 & K2). rewrite (se_bind_ok _ _ _ _ _ N2).
    exists k1, k2, n2. split_and!; [done..|]. reflexivity.
  Qed.
End releases.

(** Rounding to six decimals keeps sixty-fourths. *)
Lemma fround_sixty_fourths j q : (Z.abs j <= 2 ^ 53)%Z → (q == inject_Z j * pow2 (-6))%Q →
  ∃ r, fround 6 (Fin q) = Fin r ∧ (r == inject_Z j * pow2 (-6))%Q.
Proof.
  intros Hj Hq. assert (pow2 (-6) = 1 # 64)%Q as Hp by reflexivity. cbn [fround].
  assert (rhe (q * inject_Z (10 ^ 6)) = (j * 15625)%Z) as ->.
  { transitivity (rhe (inject_Z (j * 15625))); [apply rhe_proper|apply rhe_inject].
    rewrite Hq, Hp, inject_Z_mult. change (inject_Z (10 ^ 6)) with 1000000%Q. change (inject_Z 15625) with 15625%Q. ring. }
  destruct (of_Q_exact j (-6) (inject_Z (j * 15625) / inject_Z (10 ^ 6))) as (r & Er & Hr); [done|lia| |].
  { rewrite Hp, inject_Z_mult. change (inject_Z (10 ^ 6)) with 1000000%Q. change (inject_Z 15625) with 15625%Q. field. }
  exists r. split; [done|]. rewrite Hr, Hp, inject_Z_mult. change (inject_Z (10 ^ 6)) with 1000000%Q.
  change (inject_Z 15625) with 15625%Q. field.
Qed.

(** An integer added to sixty-fourths, and rounded. *)
Lemma noisy_sixty_fourths j k m : (Z.abs j <= 2 ^ 40)%Z → (Z.abs k <= 2 ^ 36)%Z → (m == inject_Z j * pow2 (-6))%Q →
  ∃ r, fround 6 (fadd (Fin m) (of_Z k)) = Fin r ∧ (r == inject_Z (j + 64 * k) * pow2 (-6))%Q.
Proof.
  intros Hj Hk Hm. unfold of_Z. destruct (of_Q_exact k 0 (inject_Z k)) as (c & -> & Hc); [lia|lia|change (pow2 0) with 1%Q; ring|].
  cbn [fadd]. assert (pow2 (-6) = 1 # 64)%Q as Hp by reflexivity.
  destruct (of_Q_exact (j + 64 * k) (-6) (m + c)) as (s & -> & Hs); [lia|lia| |].
  { rewrite Hm, Hc, Hp, inject_Z_plus, inject_Z_mult. change (inject_Z 64) with 64%Q. ring. }
  destruct (fround_sixty_fourths (j + 64 * k) s) as (r & Er & Hr); [lia| |by exists r].
  rewrite Hs, Hm, Hc, Hp, inject_Z_plus, inject_Z_mult. change (inject_Z 64) with 64%Q. ring.
Qed.

(** ** Properties *)

(** The configurations whose secure noise is well scaled: half the release budget and the
    metric's bound are positive and the noise's scale is at most [2^30]. *)
Definition noise_ok (config : FBPConfig) (metric_name : string) : Prop :=
  use_secure_noise config = true ∧ ∃ half bound scale,
    fdiv (epsilon_per_release config) (of_Z 2) = Ok (Fin half) ∧ (0 < half)%Q ∧
    bound_of config metric_name = Fin bound ∧ (0 <= bound)%Q ∧ repr (Fin bound) ∧
    fdiv (Fin bound) (Fin half) = Ok (Fin scale) ∧ (scale <= pow2 30)%Q.

(** C40. After any history of operations, however often the budgets were reset: every
    stored contribution lies between zero and its metric's sensitivity bound, whatever value was
    submitted; no organization is twice in a cohort; and no organization has spent more than the
    quarter's budget. *)
Theorem bench_reachable_safe `{BenchLib} (config : FBPConfig) (ops : list bench_op) :
  (∀ name, fle f0 (bound_of config name) = true) →
  let p := bench_run config ops in
  (∀ key ms m, od_get key (fp_metrics p) = Some ms → m ∈ ms →
     in_range f0 (bound_of config (bm_metric_name m)) (bm_raw_value m) = true) ∧
  (∀ c ms, od_get c (fp_cohorts p) = Some ms → NoDup (map cm_org_id ms)) ∧
  (∀ org x, od_get org (fp_budget_consumed p) = Some x → flt (epsilon_total_quarterly config) x = false).
Proof.
  intros Hb p. destruct (bench_run_ok config ops) as (Hc & Hm & Hq). fold p in Hc, Hm, Hq. split_and!; [| |done].
  - intros key ms m E Hin. apply (od_get_Forall (λ l, Forall (λ m, ∃ raw, bm_raw_value m = clip (bound_of config (bm_metric_name m)) raw) l)) in E;
      [|done]. rewrite Forall_forall in E. destruct (E m Hin) as [raw ->]. by apply clip_between.
  - intros c ms E. by apply (od_get_Forall (λ ms, NoDup (map cm_org_id ms)) c ms (fp_cohorts p)).
Qed.

(** Publishing under secure noise, after any history: it is suppressed, changing
    nothing, when the cohort is too small or no member has a value; it fails, changing nothing,
    only when some member's budget would be exceeded; otherwise it publishes the mean and the
    median of the members' latest values with integer noise, and charges the release to every
    member of the cohort and to nobody else. *)
Theorem benchmark_release_outcome `{BenchLib} (config : FBPConfig) (ops : list bench_op) (c name period : string) (now : instant) :
  noise_ok config name →
  let p := bench_run config ops in
  let ms := default [] (od_get c (fp_cohorts p)) in
  let vs := collect_values ms name period p in
  let '(r, p') := publish_benchmark config c name period now p in
  if (Z.of_nat (length ms) <? min_cohort_size config)%Z || bool_decide (vs = [])
  then p' = p ∧ ∃ b, r = Ok b ∧ cb_suppressed b = true
  else if exhausted config ms (fp_budget_consumed p) then p' = p ∧ r = Raise PrivacyBudgetExhaustedError
  else (∃ k1 k2 b, r = Ok b ∧ cb_suppressed b = false ∧ cb_epsilon_consumed b = epsilon_per_release config ∧
          cb_noisy_mean b = fround 6 (fadd (np_mean vs) (of_Z k1)) ∧
          cb_noisy_median b = fround 6 (fadd (np_median vs) (of_Z k2))) ∧
       fp_cohorts p' = fp_cohorts p ∧ fp_metrics p' = fp_metrics p ∧
       ∀ org, od_get org (fp_budget_consumed p') =
         if bool_decide (org ∈ map cm_org_id ms)
         then Some (fadd (consumed (fp_budget_consumed p) org) (epsilon_per_release config))
         else od_get org (fp_budget_consumed p).
Proof.
  intros (Hs & half & bound & scale & H1 & H2 & H3 & H4 & H5 & H6 & H7) p ms vs.
  assert (NoDup (map cm_org_id ms)) as Hnd.
  { subst ms. destruct (od_get c (fp_cohorts p)) as [ms|] eqn:E; [|constructor].
    apply (od_get_Forall (λ ms, NoDup (map cm_org_id ms)) c ms (fp_cohorts p)); [|done]. apply bench_run_ok. }
  destruct (Z.ltb_spec (Z.of_nat (length ms)) (min_cohort_size config)) as [Hlt|Hge].
  { unfold publish_benchmark. unfold se_bind at 1. cbn [se_get id]. fold ms.
    rewrite (proj2 (Z.ltb_lt _ _) Hlt). cbn [orb]. split; [done|by eexists]. }
  case_bool_decide as Hvs; cbn [orb].
  { unfold publish_benchmark. unfold se_bind at 1. cbn [se_get id]. fold ms. rewrite (proj2 (Z.ltb_ge _ _) Hge). fold vs. rewrite Hvs.
    split; [done|by eexists]. }
  destruct (exhausted config ms (fp_budget_consumed p)) eqn:Ex.
  - unfold publish_benchmark. unfold se_bind at 1. cbn [se_get id]. fold ms. rewrite (proj2 (Z.ltb_ge _ _) Hge). fold vs.
    destruct vs as [|v vs']; [done|]. unfold se_bind at 1, se_lift at 1. rewrite H1.
    assert (fle (Fin half) f0 = false) as -> by (by apply Qle_bool_false). by rewrite Ex.
  - destruct (publish_ok config half bound scale name Hs H1 H2 H3 H4 H5 H6 H7 c period now p Hge Hvs Ex)
      as (k1 & k2 & n & _ & _ & ->). fold ms vs. split_and!; [|done|done|].
    + eexists k1, k2, _. split_and!; reflexivity.
    + intros org. by apply charges_get.
Qed.

(** The secure noise does not hide the fraction of the mean: it is always an integer, so
    two data sets whose means are sixty-fourths with different fractional parts never have the
    same published mean, whatever the generator draws. *)
Theorem secure_noise_keeps_fraction `{BenchLib} (config : FBPConfig) (c name period : string) (now now' : instant)
    (p p' : Protocol) (b b' : CohortBenchmark) (j j' : Z) (m m' : Q) :
  noise_ok config name →
  np_mean (collect_values (default [] (od_get c (fp_cohorts p))) name period p) = Fin m →
  np_mean (collect_values (default [] (od_get c (fp_cohorts p'))) name period p') = Fin m' →
  (m == inject_Z j * pow2 (-6))%Q → (m' == inject_Z j' * pow2 (-6))%Q →
  (Z.abs j <= 2 ^ 40)%Z → (Z.abs j' <= 2 ^ 40)%Z → (j mod 64 ≠ j' mod 64)%Z →
  (publish_benchmark config c name period now p).1 = Ok b → cb_suppressed b = false →
  (publish_benchmark config c name period now' p').1 = Ok b' → cb_suppressed b' = false →
  feq (cb_noisy_mean b) (cb_noisy_mean b') = false.
Proof.
  intros (Hs & half & bound & scale & H1 & H2 & H3 & H4 & H5 & H6 & H7) Em Em' Hm Hm' Hj Hj' Hne Eb Sb Eb' Sb'.
  assert (∀ now p b j m, (publish_benchmark config c name period now p).1 = Ok b → cb_suppressed b = false →
    np_mean (collect_values (default [] (od_get c (fp_cohorts p))) name period p) = Fin m → (m == inject_Z j * pow2 (-6))%Q →
    (Z.abs j <= 2 ^ 40)%Z → ∃ k r, cb_noisy_mean b = Fin r ∧ (r == inject_Z (j + 64 * k) * pow2 (-6))%Q) as Hone.
  { clear -Hs H1 H2 H3 H4 H5 H6 H7. intros now p b j m Eb Sb Em Hm Hj.
    pose proof (publish_cases config c name period now p) as Hc. cbn zeta in Hc.
    destruct (publish_benchmark config c name period now p) as [r p1] eqn:Ep. cbn [fst] in Eb. subst r.
    rewrite Sb in Hc. destruct Hc as (Hge & Hvs & Hex & _).
    destruct (publish_ok config half bound scale name Hs H1 H2 H3 H4 H5 H6 H7 c period now p Hge Hvs Hex)
      as (k1 & k2 & n & K1 & _ & Epub). rewrite Epub in Ep. apply (f_equal fst) in Ep. cbn [fst] in Ep. apply Ok_inj in Ep as <-.
    cbn [cb_noisy_mean]. rewrite Em. destruct (noisy_sixty_fourths j k1 m Hj K1 Hm) as (r & Er & Hr). by exists k1, r. }
  destruct (Hone now p b j m Eb Sb Em Hm Hj) as (k & r & -> & Hr). destruct (Hone now' p' b' j' m' Eb' Sb' Em' Hm' Hj') as (k' & r' & -> & Hr').
  apply not_true_iff_false. intros E. unfold feq in E. cbn [fle] in E.
  apply andb_true_iff in E as [E1%Qle_bool_iff E2%Qle_bool_iff]. pose proof (Qle_antisym _ _ E1 E2) as E. rewrite Hr, Hr' in E.
  assert (inject_Z (j + 64 * k) == inject_Z (j' + 64 * k'))%Q as E'.
  { pose proof (pow2_pos (-6)). apply (Qmult_inj_r _ _ (pow2 (-6))); [lra|done]. }
  rewrite inject_Z_injective in E'. apply Hne. apply (f_equal (λ x, x mod 64)%Z) in E'.
  replace (j + 64 * k)%Z with (j + k * 64)%Z in E' by lia. replace (j' + 64 * k')%Z with (j' + k' * 64)%Z in E' by lia.
  by rewrite !Z_mod_plus_full in E'.
Qed.

(** ** Witnesses *)

Lemma default_noise_ok : noise_ok default_fbp_config "waste_pct".
Proof.
  split; [reflexivity|]. exists (1 # 2)%Q, 100%Q, 200%Q.
  split_and!; [vm_compute; reflexivity|lra|vm_compute; reflexivity|lra|vm_compute; reflexivity|vm_compute; reflexivity|vm_compute; discriminate].
Qed.

Lemma default_bounds (name : string) : fle f0 (bound_of default_fbp_config name) = true.
Proof.
  unfold bound_of. cbn [od_get sensitivity_bounds]. repeat (case_decide; [vm_compute; reflexivity|]). vm_compute. reflexivity.
Qed.

(** A generator that always returns one half, and statistics that take the first value. *)
#[local] Instance half_lib : BenchLib.
Proof.
  refine {| uniform := λ _, Fin (1 # 2); math_log := λ _, Ok (Fin (-1)); laplace := λ _ _, f0;
            np_mean := λ l, hd NaN l; np_median := λ l, hd NaN l |}.
  - intros _. right. split; vm_compute; reflexivity.
  - intros u _ _. exists (-1)%Q. split; [reflexivity|]. split; discriminate.
Defined.

Definition five_orgs : list string := ["o1"; "o2"; "o3"; "o4"; "o5"].

(** Five organizations, of which the first submits a value. *)
Definition five_ops (x : pyfloat) : list bench_op :=
  Create "c" :: map (λ o, Join o "c" 0%Z) five_orgs ++ [Submit (mkMetric "o1" "waste_pct" x "2026-Q1" 0%Z) 0%Z].

Definition clipped_metric : BenchmarkMetric := mkMetric "o1" "waste_pct" (of_Z 100) "2026-Q1" 0%Z.

Lemma bench_reachable_safe_witness :
  in_range f0 (bound_of default_fbp_config (bm_metric_name clipped_metric)) (bm_raw_value clipped_metric) = true.
Proof.
  destruct (bench_reachable_safe default_fbp_config (five_ops (of_Z 250)) default_bounds) as (H1 & _).
  refine (H1 (metric_key "o1" "waste_pct" "2026-Q1") [clipped_metric] clipped_metric _ _); [vm_compute; reflexivity|by left].
Defined.

Lemma benchmark_release_outcome_witness :
  od_get "o5" (fp_budget_consumed (publish_benchmark default_fbp_config "c" "waste_pct" "2026-Q1" 0%Z
                (bench_run default_fbp_config (five_ops f1))).2) = Some f1.
Proof.
  pose proof (benchmark_release_outcome default_fbp_config (five_ops f1) "c" "waste_pct" "2026-Q1" 0%Z default_noise_ok) as H1.
  set (p := bench_run default_fbp_config (five_ops f1)) in *. cbn zeta in H1.
  destruct (publish_benchmark default_fbp_config "c" "waste_pct" "2026-Q1" 0%Z p) as [r p'].
  assert (((Z.of_nat (length (default [] (od_get "c" (fp_cohorts p)))) <? min_cohort_size default_fbp_config)%Z
    || bool_decide (collect_values (default [] (od_get "c" (fp_cohorts p))) "waste_pct" "2026-Q1" p = [])) = false) as E1
    by (vm_compute; reflexivity).
  assert (exhausted default_fbp_config (default [] (od_get "c" (fp_cohorts p))) (fp_budget_consumed p) = false) as E2
    by (vm_compute; reflexivity).
  rewrite E1, E2 in H1. destruct H1 as (_ & _ & _ & H1). cbn [snd]. rewrite (H1 "o5"). vm_compute. reflexivity.
Defined.

Lemma secure_noise_keeps_fraction_witness :
  feq (Fin (1 # 2)) (Fin (1 # 4)) = false.
Proof.
  set (p x := bench_run default_fbp_config (five_ops x)).
  set (b x := mkBenchmark "c" "waste_pct" x x 5 f1 "2026-Q1" 0%Z false "").
  refine (secure_noise_keeps_fraction default_fbp_config "c" "waste_pct" "2026-Q1" 0%Z 0%Z (p (Fin (1 # 2))) (p (Fin (1 # 4)))
    (b (Fin (1 # 2))) (b (Fin (1 # 4))) 32 16 (1 # 2) (1 # 4) default_noise_ok _ _ _ _ _ _ _ _ _ _ _).
  all: vm_compute; (reflexivity || discriminate).
Defined.
