(* ===== verification/Equivalence.v ===== *)
(** * Capability equivalence (src/aci/equivalence/verifier.py)

    The three ways of verifying that a model can replace another, the cache of their
    verdicts and its expiry. Clock readings are arguments ([now] for the expiry, [at_] for
    the model's [verified_at]); the order in which a set is enumerated and the square root
    of a count by [**] are parameters. *)

From S2P Require Import Prelude PyFloat PyData PyMath PySha256 PyTime.
From Stdlib Require Import ZArith QArith Qround Lia Lqa.
From stdpp Require Import base list strings.

Open Scope string_scope.
Open Scope list_scope.
Open Scope nat_scope.
Local Open Scope py_scope.

(** ** Data *)

Inductive EquivalenceMode := POLICY | EMPIRICAL | JUDGE | CONTRACTUAL.

Record EquivalenceConfig := mkEquivalenceConfig {
  min_shadow_samples : Z;
  min_judge_samples : Z;
  ttl_days : Z;
  quality_delta : pyfloat;
}.

(** [EquivalenceConfig()]. *)
Definition default_equivalence_config : EquivalenceConfig := mkEquivalenceConfig 100 200 7 (lit 5 100).

Record EquivalenceVerification := mkVerification {
  ev_verification_id : string;
  ev_source_model : string;
  ev_candidate_model : string;
  ev_equivalence_class_id : string;
  ev_mode : EquivalenceMode;
  ev_is_equivalent : bool;
  ev_sample_count : nat;
  ev_baseline_score : option pyfloat;
  ev_candidate_score : option pyfloat;
  ev_quality_delta : option pyfloat;
  ev_confidence_interval : option (pyfloat * pyfloat);
  ev_verified_at : instant;
  ev_expires_at : option instant;
  ev_model_version_hash : string;
  ev_fail_safe_triggered : bool;
}.

(** The validator of the confidence interval. *)
Definition _validate_confidence_interval (value : option (pyfloat * pyfloat)) : res (option (pyfloat * pyfloat)) :=
  match value with
  | None => Ok None
  | Some (low, high) =>
      if flt high low then Raise (ValueError "confidence interval lower bound must be <= upper bound") else Ok value
  end.

Record EquivalenceClass := mkClass { ec_class_id : string; ec_name : string; ec_approved_models : list string; ec_use_case : string }.

(** [EquivalenceClass(...)]: the approved models become a set. *)
Definition EquivalenceClass_init (class_id name : string) (approved_models : list string) (use_case : string) : EquivalenceClass :=
  mkClass class_id name (remove_dups approved_models) use_case.

Definition is_approved (c : EquivalenceClass) (model : string) : bool := bool_decide (model ∈ ec_approved_models c).

Definition get_alternatives `{SetOrder} (c : EquivalenceClass) (current_model : string) : list string :=
  filter (λ m, m ≠ current_model) (set_iter (ec_approved_models c)).

Record ShadowEvaluationResult := mkShadow {
  sr_baseline_score : pyfloat; sr_candidate_score : pyfloat; sr_criteria_scores : odict string (pyfloat * pyfloat) }.

(** [n ** 0.5] of the C library: finite and at least one for a positive count. *)
Class PowLib := {
  pow_half : nat → pyfloat;
  pow_half_pos n : 1 <= n → ∃ q, pow_half n = Fin q ∧ (1 <= q)%Q;
}.

(** ** Operations *)

Record EquivalenceVerifier := mkVerifier {
  equivalence_classes : odict string EquivalenceClass;
  verifications : odict string EquivalenceVerification;
  shadow_results : odict string (list ShadowEvaluationResult);
}.

Definition EquivalenceVerifier_init : EquivalenceVerifier := mkVerifier [] [] [].

Definition register_class (c : EquivalenceClass) (p : EquivalenceVerifier) : EquivalenceVerifier :=
  mkVerifier (od_set (ec_class_id c) c (equivalence_classes p)) (verifications p) (shadow_results p).

Definition _make_id (source candidate class_id : string) : string :=
  str_take 16 (sha256_hex (source +:+ ":" +:+ candidate +:+ ":" +:+ class_id)).

Definition _cache (v : EquivalenceVerification) (p : EquivalenceVerifier) : EquivalenceVerifier :=
  mkVerifier (equivalence_classes p) (od_set (ev_verification_id v) v (verifications p)) (shadow_results p).

Definition _fail_safe (source candidate class_id : string) (mode : EquivalenceMode) (at_ : instant) : EquivalenceVerification :=
  mkVerification (_make_id source candidate class_id) source candidate class_id mode false 0 None None None None at_ None "" true.

(** [now + timedelta(days=d)], within the years 1 to 9999. *)
Definition add_days (now : instant) (d : Z) : res instant :=
  let t := (now + d * us_per_day)%Z in
  if in_calendar t then Ok t else Raise OverflowError.

Section verifier.
  Context `{PowLib} (config : EquivalenceConfig).

Definition policy_verification (source candidate class_id : string) (c : EquivalenceClass) (now at_ : instant) :
      res EquivalenceVerification :=
    let? expires := add_days now (ttl_days config) in
    Ok (mkVerification (_make_id source candidate class_id) source candidate class_id POLICY
          (is_approved c source && is_approved c candidate) 0 None None None None at_ (Some expires) "" false).

Definition verify_policy (source candidate class_id : string) (now at_ : instant) : SE EquivalenceVerifier EquivalenceVerification :=
    let! p := se_get id in
    match od_get class_id (equivalence_classes p) with
    | None => se_ret (_fail_safe source candidate class_id POLICY at_)
    | Some c =>
        let! v := se_lift (policy_verification source candidate class_id c now at_) in
        se_modify (_cache v);;; se_ret v
    end.

  (** The 95% confidence interval of the candidate's mean. *)
Definition interval (candidate_scores : list pyfloat) (candidate_mean : pyfloat) : res (pyfloat * pyfloat) :=
    if 1 <? length candidate_scores then
      let? sd := stat_stdev candidate_scores in
      let? stderr := fdiv sd (pow_half (length candidate_scores)) in
      Ok (fsub candidate_mean (fmul (lit 196 100) stderr), fadd candidate_mean (fmul (lit 196 100) stderr))
    else Ok (candidate_mean, candidate_mean).

Definition empirical_verification (source candidate class_id : string) (results : list ShadowEvaluationResult) (now at_ : instant) :
      res EquivalenceVerification :=
    let? baseline_mean := stat_mean (map sr_baseline_score results) in
    let? candidate_mean := stat_mean (map sr_candidate_score results) in
    let? ci := interval (map sr_candidate_score results) candidate_mean in
    let '(ci_lower, ci_upper) := ci in
    let threshold := fsub baseline_mean (quality_delta config) in
    let is_equivalent := fle threshold ci_lower in
    let? expires := add_days now (ttl_days config) in
    let? ci' := _validate_confidence_interval (Some (fround 4 ci_lower, fround 4 ci_upper)) in
    Ok (mkVerification (_make_id source candidate class_id) source candidate class_id EMPIRICAL is_equivalent (length results)
          (Some (fround 4 baseline_mean)) (Some (fround 4 candidate_mean)) (Some (fround 4 (fsub candidate_mean baseline_mean)))
          ci' at_ (Some expires) "" false).

Definition verify_empirical (source candidate class_id : string) (results : list ShadowEvaluationResult) (now at_ : instant) :
      SE EquivalenceVerifier EquivalenceVerification :=
    if (Z.of_nat (length results) <? min_shadow_samples config)%Z
    then se_ret (_fail_safe source candidate class_id EMPIRICAL at_)
    else
      let! v := se_lift (empirical_verification source candidate class_id results now at_) in
      se_modify (_cache v);;; se_ret v.

Definition judge_verification (source candidate class_id : string) (judge_scores : list (pyfloat * pyfloat)) (now at_ : instant) :
      res EquivalenceVerification :=
    let? baseline_mean := stat_mean (map fst judge_scores) in
    let? candidate_mean := stat_mean (map snd judge_scores) in
    let wins := length (filter (λ bc, fle bc.1 bc.2 = true) judge_scores) in
    let? win_rate := fdiv (of_Z (Z.of_nat wins)) (of_Z (Z.of_nat (length judge_scores))) in
    let is_equivalent := fle (fsub baseline_mean (quality_delta config)) candidate_mean && fle (lit 45 100) win_rate in
    let? expires := add_days now (ttl_days config) in
    Ok (mkVerification (_make_id source candidate class_id) source candidate class_id JUDGE is_equivalent (length judge_scores)
          (Some (fround 4 baseline_mean)) (Some (fround 4 candidate_mean)) (Some (fround 4 (fsub candidate_mean baseline_mean)))
          None at_ (Some expires) "" false).

Definition verify_judge (source candidate class_id : string) (judge_scores : list (pyfloat * pyfloat)) (now at_ : instant) :
      SE EquivalenceVerifier EquivalenceVerification :=
    if (Z.of_nat (length judge_scores) <? min_judge_samples config)%Z
    then se_ret (_fail_safe source candidate class_id JUDGE at_)
    else
      let! v := se_lift (judge_verification source candidate class_id judge_scores now at_) in
      se_modify (_cache v);;; se_ret v.

Definition expired (now : instant) (v : EquivalenceVerification) : bool :=
    match ev_expires_at v with Some t => (t <? now)%Z | None => false end.

Definition get_cached_verification (source candidate class_id : string) (now : instant) (p : EquivalenceVerifier) :
      option EquivalenceVerification * EquivalenceVerifier :=
    let key := _make_id source candidate class_id in
    match od_get key (verifications p) with
    | None => (None, p)
    | Some v =>
        if expired now v then (None, mkVerifier (equivalence_classes p) (od_del key (verifications p)) (shadow_results p))
        else (Some v, p)
    end.
End verifier.

(** ** Histories *)

Inductive eq_op :=
  | RegisterClass (c : EquivalenceClass)
  | VerifyPolicy (source candidate class_id : string)
  | VerifyEmpirical (source candidate class_id : string) (results : list ShadowEvaluationResult)
  | VerifyJudge (source candidate class_id : string) (scores : list (pyfloat * pyfloat))
  | GetCached (source candidate class_id : string).

Section histories.
  Context `{PowLib} (config : EquivalenceConfig).

  (** An operation at its clock reading. *)
Definition eq_step (p : EquivalenceVerifier) (o : instant * eq_op) : EquivalenceVerifier :=
    match o.2 with
    | RegisterClass c => register_class c p
    | VerifyPolicy s c k => (verify_policy config s c k o.1 o.1 p).2
    | VerifyEmpirical s c k l => (verify_empirical config s c k l o.1 o.1 p).2
    | VerifyJudge s c k l => (verify_judge config s c k l o.1 o.1 p).2
    | GetCached s c k => (get_cached_verification s c k o.1 p).2
    end.

Definition eq_run (ops : list (instant * eq_op)) : EquivalenceVerifier := fold_left eq_step ops EquivalenceVerifier_init.

  (** The specification: the registered classes, and every conclusive verdict, the newest
      first. Looking a verdict up changes nothing. *)
Definition eq_spec : Type := odict string EquivalenceClass * list EquivalenceVerification.

  (** The verdict an operation reaches, when it is conclusive. *)
Definition verdict_of (classes : odict string EquivalenceClass) (o : instant * eq_op) : list EquivalenceVerification :=
    match match o.2 with
          | VerifyPolicy s c k =>
              match od_get k classes with Some cl => policy_verification config s c k cl o.1 o.1 | None => Raise OtherError end
          | VerifyEmpirical s c k l =>
              if (Z.of_nat (length l) <? min_shadow_samples config)%Z then Raise OtherError
              else empirical_verification config s c k l o.1 o.1
          | VerifyJudge s c k l =>
              if (Z.of_nat (length l) <? min_judge_samples config)%Z then Raise OtherError
              else judge_verification config s c k l o.1 o.1
          | _ => Raise OtherError
          end with
    | Ok v => [v]
    | Raise _ => []
    end.

Definition spec_step (st : eq_spec) (o : instant * eq_op) : eq_spec :=
    (match o.2 with RegisterClass c => od_set (ec_class_id c) c st.1 | _ => st.1 end, verdict_of st.1 o ++ st.2).

Definition spec_run (ops : list (instant * eq_op)) : eq_spec := fold_left spec_step ops ([], []).

  (** The newest verdict with an identifier, unless it has expired. *)
Definition spec_lookup (st : eq_spec) (key : string) (now : instant) : option EquivalenceVerification :=
    match filter (λ v, ev_verification_id v = key) st.2 with
    | v :: _ => if expired now v then None else Some v
    | [] => None
    end.
End histories.

(** ** Lemmas *)

Section lemmas.
  Context `{PowLib} (config : EquivalenceConfig).

  (** What an operation does to the state besides caching a verdict. *)
Definition base_step (p : EquivalenceVerifier) (o : instant * eq_op) : EquivalenceVerifier :=
    match o.2 with
    | RegisterClass c => register_class c p
    | GetCached s c k => (get_cached_verification s c k o.1 p).2
    | _ => p
    end.

  (** What an operation caches is its conclusive verdict. *)
Lemma eq_step_verdict p o :
    eq_step config p o = fold_right _cache (base_step p o) (verdict_of config (equivalence_classes p) o).
  Proof.
    destruct o as [now [c|s c k|s c k l|s c k l|s c k]]; unfold eq_step, verdict_of, base_step; cbn [fst snd]; try done.
    - unfold verify_policy. unfold se_bind at 1. cbn [se_get id]. destruct (od_get k (equivalence_classes p)) as [cl|]; [|done].
      unfold se_bind at 1, se_lift at 1. by destruct (policy_verification _ _ _ _ _ _ _).
    - unfold verify_empirical. destruct (_ <? _)%Z; [done|]. unfold se_bind at 1, se_lift at 1.
      by destruct (empirical_verification _ _ _ _ _ _ _).
    - unfold verify_judge. destruct (_ <? _)%Z; [done|]. unfold se_bind at 1, se_lift at 1.
      by destruct (judge_verification _ _ _ _ _ _ _).
  Qed.

Lemma verdict_of_single classes o : verdict_of config classes o = [] ∨ ∃ v, verdict_of config classes o = [v].
  Proof. unfold verdict_of. destruct o as [now [c|s c k|s c k l|s c k l|s c k]]; cbn [fst snd]; try (by left);
      case_match; (right; by eexists) || by left. Qed.

  (** The cache and the history agree, at a clock reading. *)
Definition cache_agrees (t : instant) (p : EquivalenceVerifier) (st : eq_spec) : Prop :=
    equivalence_classes p = st.1 ∧ od_wf (verifications p) ∧
    ∀ key, match filter (λ v, ev_verification_id v = key) st.2 with
           | v :: _ => od_get key (verifications p) = Some v ∨ od_get key (verifications p) = None ∧ expired t v = true
           | [] => od_get key (verifications p) = None
           end.

Lemma expired_mono t t' v : (t <= t')%Z → expired t v = true → expired t' v = true.
  Proof. unfold expired. destruct (ev_expires_at v); [|done]. rewrite !Z.ltb_lt. lia. Qed.

Lemma cache_agrees_later t t' p st : (t <= t')%Z → cache_agrees t p st → cache_agrees t' p st.
  Proof.
    intros Ht (Hc & Hw & Hk). split_and!; [done..|]. intros key. specialize (Hk key).
    destruct (filter _ _); [done|]. destruct Hk as [Hk|[Hk He]]; [by left|right]. split; [done|]. by eapply expired_mono.
  Qed.

Lemma cache_agrees_cache t p st v : cache_agrees t p st → cache_agrees t (_cache v p) (st.1, v :: st.2).
  Proof.
    intros (Hc & Hw & Hk). split_and!; [done|by apply od_set_wf|]. intros key. specialize (Hk key). cbn [snd verifications _cache].
    rewrite filter_cons. case_decide as Hid.
    - left. by rewrite <- Hid, od_get_set_eq.
    - by rewrite od_get_set_ne by done.
  Qed.

Lemma cache_agrees_get t s c k p st : cache_agrees t p st → cache_agrees t (get_cached_verification s c k t p).2 st.
  Proof.
    intros (Hc & Hw & Hk). unfold get_cached_verification. pose proof (Hk (_make_id s c k)) as Hid.
    destruct (od_get (_make_id s c k) (verifications p)) as [v|] eqn:E; [|done].
    destruct (expired t v) eqn:Ex; [|done]. cbn [snd]. split_and!; [done|by apply od_del_wf|]. intros key. cbn [verifications].
    destruct (decide (key = _make_id s c k)) as [->|Hne].
    - rewrite od_get_del_eq by done. destruct (filter _ _); [done|]. destruct Hid as [[= ->]|[? _]]; [by right|done].
    - rewrite od_get_del_ne by done. apply Hk.
  Qed.

Lemma cache_agrees_step t p st o : cache_agrees t p st → (t <= o.1)%Z →
    cache_agrees o.1 (eq_step config p o) (spec_step config st o).
  Proof.
    intros Hag Ht. apply (cache_agrees_later _ _ _ _ Ht) in Hag. rewrite eq_step_verdict. unfold spec_step.
    assert (equivalence_classes p = st.1) as -> by apply Hag.
    assert (cache_agrees o.1 (base_step p o) (match o.2 with RegisterClass c => od_set (ec_class_id c) c st.1 | _ => st.1 end, st.2)) as H1.
    { destruct st as [cs h]. unfold base_step. destruct o as [now [c|s c k|s c k l|s c k l|s c k]]; cbn [fst snd] in *; try done.
      - destruct Hag as (Hc & Hw & Hk). split_and!; [|done|done]. cbn [register_class equivalence_classes]. by rewrite Hc.
      - by apply cache_agrees_get. }
    destruct (verdict_of_single st.1 o) as [->|[v ->]]; [done|]. by apply (cache_agrees_cache _ _ _ v) in H1.
  Qed.

  (** Operations in the order of their clock readings. *)
Fixpoint timed (t : instant) (ops : list (instant * eq_op)) (now : instant) : Prop :=
    match ops with
    | [] => (t <= now)%Z
    | o :: ops => (t <= o.1)%Z ∧ timed o.1 ops now
    end.

Lemma cache_agrees_run ops t p st now : cache_agrees t p st → timed t ops now →
    cache_agrees now (fold_left (eq_step config) ops p) (fold_left (spec_step config) ops st).
  Proof.
    revert t p st; induction ops as [|o ops IH]; intros t p st Hag Ht; cbn [fold_left]; [by eapply cache_agrees_later|].
    destruct Ht as [Ht Hr]. eapply IH; [by eapply cache_agrees_step|done].
  Qed.

  (** The interval of scores between zero and one contains their mean. *)
Lemma interval_unit l m : l ≠ [] → Forall (λ x, unit_itv x = true) l → unit_itv m = true → repr m →
    ∃ lo hi, interval l m = Ok (lo, hi) ∧ fle lo m = true ∧ fle m hi = true.
  Proof.
    intros Hne Hl Hm Hr. unfold interval. pose proof (unit_is_fin m Hm) as Hf. apply andb_true_iff in Hm as [Hm0 Hm1].
    assert (is_nan m = false) as Hnan by (by destruct m).
    destruct (Nat.ltb_spec 1 (length l)) as [Hn|Hn].
    2: { eexists _, _. split; [reflexivity|]. split; by apply fle_refl. }
    destruct (stat_stdev_unit l ltac:(lia) Hl) as (sd & -> & Hsd & Rsd). cbn [rbind].
    destruct (pow_half_pos (length l)) as (c & -> & Hc); [lia|].
    destruct (ge0_fdiv sd c Hsd Rsd Hc) as (e & -> & He). cbn [rbind]. eexists _, _. split; [reflexivity|].
    set (w := fmul (lit 196 100) (Fin e)).
    assert (fle f0 w = true) as Hw.
    { subst w. destruct (lit 196 100) as [r| | |] eqn:Elit; try (by vm_compute in Elit).
      apply ge0_fmul; [|done|by apply ge0_Fin]. assert (fle f0 (lit 196 100) = true) as G by (by vm_compute).
      rewrite Elit in G. by apply ge0_Fin in G. }
    split; [|by apply fle_fadd_ge0].
    destruct (fsub_le m w m) as [Hx|Hx]; [right; by apply fle_refl|done|by right| |done].
    exfalso. clearbody w. destruct m as [a| | |]; try done. destruct w as [b| | |]; try done.
    unfold fsub in Hx. cbn in Hx. by rewrite of_Q_not_nan in Hx.
  Qed.
End lemmas.

(** ** Properties *)

(** After any sequence of operations in the order of their clock readings, looking a
    pair of models up returns the newest conclusive verdict recorded under their identifier,
    unless that verdict has expired: inconclusive evaluations and failures are never returned,
    and never hide an earlier verdict. *)
Theorem verifier_refines_history `{PowLib} (config : EquivalenceConfig) (ops : list (instant * eq_op)) (t now : instant)
    (source candidate class_id : string) :
  timed t ops now →
  (get_cached_verification source candidate class_id now (eq_run config ops)).1 =
  spec_lookup (spec_run config ops) (_make_id source candidate class_id) now.
Proof.
  intros Ht. assert (cache_agrees t EquivalenceVerifier_init ([], [])) as H0 by (split_and!; [done|constructor|done]).
  destruct (cache_agrees_run config ops t _ _ now H0 Ht) as (_ & _ & Hk). fold (eq_run config ops) (spec_run config ops) in Hk.
  specialize (Hk (_make_id source candidate class_id)). unfold get_cached_verification, spec_lookup.
  destruct (filter _ _) as [|v l]; [by rewrite Hk|].
  destruct Hk as [Hk|[Hk He]]; rewrite Hk; [by destruct (expired now v)|by rewrite He].
Qed.

(** Shadow evaluation of scores between zero and one, with enough samples and an expiry
    the calendar can hold, always reaches a verdict: it is cached, its interval is around the
    candidate's mean, it is positive exactly when the interval's lower end is at least the
    baseline's mean less the allowed degradation, and a positive one means that the candidate's
    mean is. *)
Theorem empirical_verdict `{PowLib} (config : EquivalenceConfig) (source candidate class_id : string)
    (results : list ShadowEvaluationResult) (now at_ expires : instant) (p : EquivalenceVerifier) :
  (min_shadow_samples config <= Z.of_nat (length results))%Z → results ≠ [] →
  Forall (λ r, unit_itv (sr_baseline_score r) = true ∧ unit_itv (sr_candidate_score r) = true) results →
  add_days now (ttl_days config) = Ok expires →
  ∃ v bm cm lo hi,
    verify_empirical config source candidate class_id results now at_ p = (Ok v, _cache v p) ∧
    stat_mean (map sr_baseline_score results) = Ok bm ∧ stat_mean (map sr_candidate_score results) = Ok cm ∧
    interval (map sr_candidate_score results) cm = Ok (lo, hi) ∧ fle lo cm = true ∧ fle cm hi = true ∧
    ev_confidence_interval v = Some (fround 4 lo, fround 4 hi) ∧ ev_expires_at v = Some expires ∧
    ev_is_equivalent v = fle (fsub bm (quality_delta config)) lo ∧
    (ev_is_equivalent v = true → fle (fsub bm (quality_delta config)) cm = true).
Proof.
  intros Hn Hne Hl He. assert (∀ f : ShadowEvaluationResult → pyfloat, map f results ≠ []) as Hmap by (by destruct results).
  destruct (stat_mean_unit (map sr_baseline_score results) (Hmap _)) as (bm & Eb & _ & _).
  { apply Forall_fmap. eapply Forall_impl; [exact Hl|]. by intros r []. }
  assert (Forall (λ x, unit_itv x = true) (map sr_candidate_score results)) as Hc.
  { apply Forall_fmap. eapply Forall_impl; [exact Hl|]. by intros r []. }
  destruct (stat_mean_unit _ (Hmap _) Hc) as (cm & Ec & Uc & Rc).
  destruct (interval_unit _ cm (Hmap _) Hc Uc Rc) as (lo & hi & Ei & H1 & H2).
  assert (flt (fround 4 hi) (fround 4 lo) = false) as Hv.
  { assert (fle (fround 4 lo) (fround 4 hi) = true) as G by (apply fround_mono; [done|]; by eapply fle_trans).
    destruct (fround 4 lo), (fround 4 hi); try done. unfold flt. by rewrite G. }
  unfold verify_empirical. destruct (Z.ltb_spec (Z.of_nat (length results)) (min_shadow_samples config)); [lia|].
  unfold se_bind at 1, se_lift at 1. unfold empirical_verification. rewrite Eb. cbn [rbind]. rewrite Ec. cbn [rbind].
  rewrite Ei. cbn [rbind]. rewrite He. cbn [rbind _validate_confidence_interval]. rewrite Hv. cbn [rbind].
  eexists _, bm, cm, lo, hi. split; [reflexivity|]. split_and!; try done. cbn [ev_is_equivalent]. intros G. by eapply fle_trans.
Qed.

(** The identifier of a verdict does not tell where one model's name ends: a positive
    verdict for [a:b] and [c] is returned for [a] and [b:c], which nobody evaluated. *)
Theorem equivalence_id_collision `{PowLib} (config : EquivalenceConfig) (a b c class_id : string) (cl : EquivalenceClass)
    (now at_ expires later : instant) (p : EquivalenceVerifier) :
  od_get class_id (equivalence_classes p) = Some cl →
  is_approved cl (a +:+ ":" +:+ b) = true → is_approved cl c = true →
  add_days now (ttl_days config) = Ok expires → (later <= expires)%Z →
  let '(r, p') := verify_policy config (a +:+ ":" +:+ b) c class_id now at_ p in
  ∃ v, r = Ok v ∧ (get_cached_verification a (b +:+ ":" +:+ c) class_id later p').1 = Some v ∧ ev_is_equivalent v = true.
Proof.
  intros Hcl Ha Hc He Hl. unfold verify_policy. unfold se_bind at 1. cbn [se_get id]. rewrite Hcl.
  unfold se_bind at 1, se_lift at 1. unfold policy_verification. rewrite He. cbn [rbind].
  unfold se_bind, se_modify, se_ret. eexists. split; [reflexivity|]. split.
  - unfold get_cached_verification. cbn [_cache verifications ev_verification_id].
    assert (_make_id a (b +:+ ":" +:+ c) class_id = _make_id (a +:+ ":" +:+ b) c class_id) as ->.
    { unfold _make_id. do 2 f_equal. by rewrite !str_app_assoc. }
    rewrite od_get_set_eq. unfold expired. cbn [ev_expires_at]. by rewrite (proj2 (Z.ltb_ge _ _) Hl).
  - cbn [ev_is_equivalent]. by rewrite Ha, Hc.
Qed.

(** ** Witnesses *)

(** The square root rounded up to one at least. *)
#[local] Instance sample_pow : PowLib.
Proof. refine {| pow_half n := Fin (if n <? 4 then 1 else 2) |}. intros n _. eexists. split; [done|]. case_match; lra. Defined.

Definition small_config : EquivalenceConfig := mkEquivalenceConfig 2 2 7 (lit 5 100).

Definition chat_class : EquivalenceClass := EquivalenceClass_init "chat" "Chat" ["claude:1"; "mini"] "".

Definition sample_ops : list (instant * eq_op) :=
  [(0%Z, RegisterClass chat_class); (1%Z, VerifyPolicy "claude:1" "mini" "chat");
   (2%Z, VerifyJudge "claude:1" "mini" "chat" [])].

Lemma verifier_refines_history_witness :
  ∃ v, (get_cached_verification "claude:1" "mini" "chat" 3%Z (eq_run small_config sample_ops)).1 = Some v ∧ ev_is_equivalent v = true.
Proof.
  rewrite (verifier_refines_history small_config sample_ops 0%Z 3%Z "claude:1" "mini" "chat").
  - eexists. split; vm_compute; reflexivity.
  - vm_compute. repeat split; discriminate.
Defined.

Lemma empirical_verdict_witness :
  ∃ v p, verify_empirical small_config "a" "b" "chat"
    [mkShadow (Fin (3 # 4)) (Fin (3 # 4)) []; mkShadow (Fin (3 # 4)) (Fin (7 # 8)) []] 0%Z 0%Z EquivalenceVerifier_init = (Ok v, p) ∧
    is_Some (ev_confidence_interval v).
Proof.
  destruct (empirical_verdict small_config "a" "b" "chat"
    [mkShadow (Fin (3 # 4)) (Fin (3 # 4)) []; mkShadow (Fin (3 # 4)) (Fin (7 # 8)) []] 0%Z 0%Z (7 * us_per_day)%Z EquivalenceVerifier_init)
    as (v & bm & cm & lo & hi & E & _ & _ & _ & _ & _ & Hci & _).
  - vm_compute. discriminate.
  - discriminate.
  - repeat apply Forall_cons_2; [split; vm_compute; reflexivity..|apply Forall_nil_2].
  - vm_compute. reflexivity.
  - exists v, (_cache v EquivalenceVerifier_init). split; [exact E|]. rewrite Hci. eexists. reflexivity.
Defined.

Lemma equivalence_id_collision_witness :
  is_approved chat_class "claude" = false ∧
  is_Some (get_cached_verification "claude" "1:mini" "chat" 5%Z
    (verify_policy small_config "claude:1" "mini" "chat" 1%Z 1%Z (register_class chat_class EquivalenceVerifier_init)).2).1.
Proof.
  split; [vm_compute; reflexivity|].
  pose proof (equivalence_id_collision small_config "claude" "1" "mini" "chat" chat_class 1%Z 1%Z (1 + 7 * us_per_day)%Z 5%Z
    (register_class chat_class EquivalenceVerifier_init) eq_refl eq_refl eq_refl eq_refl ltac:(vm_compute; discriminate)) as H1.
  change ("claude" +:+ ":" +:+ "1") with "claude:1" in H1. change ("1" +:+ ":" +:+ "mini") with "1:mini" in H1.
  destruct (verify_policy small_config "claude:1" "mini" "chat" 1%Z 1%Z _) as [r p'].
  destruct H1 as (v & _ & E & _). cbn [snd]. rewrite E. eexists. reflexivity.
Defined.
