(* ===== verification/TokenBucket.v ===== *)
(** * The shared rate limiter (src/aci/api/runtime.py)

    [RedisTokenBucketRateLimiter]: the Lua script on a hash of the server, and the call that
    falls open when the server fails. The server is the interface [BucketServer]; the numbers
    of the script are doubles, written to the hash and read back as text ([LuaFloat]). *)

From S2P Require Import Prelude PyFloat PyData PyMath PyValue.
From Stdlib Require Import ZArith QArith Ascii Lia Lqa.
From stdpp Require Import base list strings pretty.

Open Scope string_scope.
Open Scope list_scope.
Open Scope nat_scope.
Local Open Scope py_scope.

(** ** Interfaces *)

(** [redis.call] inside a script and [EVAL]. *)
Class BucketServer (R : Type) := {
  b_hmget : string → list string → R → res (list (option string));
  b_hset : string → list (string * string) → R → res R;
  b_expire : string → Z → R → res R;
  b_eval : (R → res (Z * R)) → R → res (Z * R);
}.

(** [tonumber] of a text, and the text Redis gives a number argument, which reads back as the
    same double. *)
Class LuaFloat := {
  lua_number : string → option pyfloat;
  lua_text : pyfloat → string;
  lua_text_number x : is_fin x = true → repr x → lua_number (lua_text x) = Some x;
}.

(** The documented behaviour of the hash commands on a hash that exists or not; [EVAL]
    returns what the script returns, or fails with a [RedisError]. *)
Class BucketServerLaws (R : Type) `{BucketServer R} := {
  b_hmget_total k fs r : ∃ vs, b_hmget k fs r = Ok vs ∧ length vs = length fs;
  b_hset_total k fs r : ∃ r', b_hset k fs r = Ok r';
  b_expire_total k t r : ∃ r', b_expire k t r = Ok r';
  b_hmget_hset k a b x y r r' : a ≠ b → b_hset k [(a, x); (b, y)] r = Ok r' → b_hmget k [a; b] r' = Ok [Some x; Some y];
  b_hmget_hset_ne k k' fs ws r r' : k ≠ k' → b_hset k ws r = Ok r' → b_hmget k' fs r' = b_hmget k' fs r;
  b_hmget_expire k t r r' k' fs : b_expire k t r = Ok r' → b_hmget k' fs r' = b_hmget k' fs r;
  b_eval_runs s r : b_eval s r = s r ∨ b_eval s r = Raise RedisError;
}.

(** ** The limiter *)

Record RedisTokenBucketRateLimiter := mkBucket {
  _capacity : pyfloat;
  _refill_rate_per_second : pyfloat;
  _ttl_seconds : Z;
  _key_prefix : string;
}.

(** [RedisTokenBucketRateLimiter(limit=..., window_seconds=...)] *)
Definition RedisTokenBucketRateLimiter_init (limit : Z) (window_seconds : pyfloat) (key_prefix : string) :
    res RedisTokenBucketRateLimiter :=
  let? capacity := py_float_of_int limit in
  let? rate := fdiv capacity window_seconds in
  let? ttl := int_of_float (fmul window_seconds (of_Z 2)) in
  Ok (mkBucket capacity rate (Z.max 1 ttl) key_prefix).

Section bucket.
  Context `{BucketServer R} `{LuaFloat}.

  (** A number of the script, [nil] for a missing or malformed one. *)
Definition script_number (o : option string) : option pyfloat := o ≫= lua_number.

  (** [math.max(0, x)] and [math.min(x, y)] of Lua, which compare with [<]. *)
Definition lua_max0 (x : pyfloat) : pyfloat := if flt f0 x then x else f0.
Definition lua_min (x y : pyfloat) : pyfloat := if flt y x then y else x.

  (** Arithmetic on [nil] is an error of the script. *)
Definition argument (s : string) : res pyfloat :=
    match lua_number s with Some x => Ok x | None => Raise RedisError end.

  (** The tokens of the bucket after the refill. *)
Definition refilled (capacity refill_rate now tokens updated_at : pyfloat) : pyfloat :=
    let elapsed := lua_max0 (fsub now updated_at) in
    lua_min capacity (fadd tokens (fmul elapsed refill_rate)).

  (** [_TOKEN_BUCKET_LUA]; of the reply only the first number is used. *)
Definition token_bucket_script (key : string) (argv : list string) (r : R) : res (Z * R) :=
    match argv with
    | [a1; a2; a3; a4; a5] =>
        let? capacity := argument a1 in
        let? refill_rate := argument a2 in
        let? now := argument a3 in
        let? requested := argument a4 in
        let? bucket := b_hmget key ["tokens"; "updated_at"] r in
        let tokens := default capacity (head bucket ≫= script_number) in
        let updated_at := default now ((bucket !! 1) ≫= script_number) in
        let tokens := refilled capacity refill_rate now tokens updated_at in
        let '(tokens, allowed) := if fle requested tokens then (fsub tokens requested, 1%Z) else (tokens, 0%Z) in
        let? r := b_hset key [("tokens", lua_text tokens); ("updated_at", lua_text now)] r in
        let? ttl := argument a5 in
        let? ttl := int_of_float ttl in
        let? r := b_expire key ttl r in
        Ok (allowed, r)
    | _ => Raise RedisError
    end.

  (** [allow] at the clock reading [now]. *)
Definition bucket_allow (l : RedisTokenBucketRateLimiter) (key : string) (now : pyfloat) (r : R) : res bool * R :=
    let redis_key := _key_prefix l +:+ ":" +:+ key in
    match b_eval (token_bucket_script redis_key
            [repr_float (_capacity l); repr_float (_refill_rate_per_second l); repr_float now; "1";
             pretty (_ttl_seconds l)]) r with
    | Ok (allowed, r) => (Ok (negb (allowed =? 0)%Z), r)
    | Raise RedisError => (Ok true, r)
    | Raise e => (Raise e, r)
    end.

Fixpoint run_bucket_calls (l : RedisTokenBucketRateLimiter) (calls : list (string * pyfloat)) (r : R) : list (res bool) * R :=
    match calls with
    | [] => ([], r)
    | (key, now) :: rest =>
        let '(b, r) := bucket_allow l key now r in
        let '(bs, r) := run_bucket_calls l rest r in
        (b :: bs, r)
    end.
End bucket.

(** A finite double of Python that the script reads back from its [str]. *)
Definition readable `{LuaFloat} (x : pyfloat) : Prop := is_fin x = true ∧ repr x ∧ lua_number (repr_float x) = Some x.

(** A limiter whose numbers the script reads back: a limit that is a double, a finite rate of
    at least zero, a positive TTL. *)
Definition limiter_ok `{LuaFloat} (l : RedisTokenBucketRateLimiter) (limit : Z) (rate : Q) : Prop :=
  (0 <= limit <= 2 ^ 53)%Z ∧ _capacity l = of_Z limit ∧ readable (_capacity l) ∧
  _refill_rate_per_second l = Fin rate ∧ (0 <= rate)%Q ∧ readable (Fin rate) ∧
  (1 <= _ttl_seconds l <= 2 ^ 53)%Z ∧ lua_number (pretty (_ttl_seconds l)) = Some (of_Z (_ttl_seconds l)) ∧
  lua_number "1" = Some f1.

(** How many calls were admitted. *)
Definition is_admitted (b : res bool) : bool := match b with Ok b => b | Raise _ => false end.
Definition admitted (bs : list (res bool)) : nat := length (filter (λ b, is_admitted b = true) bs).

(** ** Lemmas *)

Section lemmas.
  Context `{BucketServerLaws R} `{LuaFloat} (l : RedisTokenBucketRateLimiter) (limit : Z) (rate : Q).
  Context (Hl : limiter_ok l limit rate).

Definition fields : list string := ["tokens"; "updated_at"].

  (** A bucket: the tokens, within the capacity, and the time of the last call; or none yet. *)
Definition holds (k : string) (x u : pyfloat) (r : R) : Prop :=
    b_hmget k fields r = Ok [Some (lua_text x); Some (lua_text u)] ∧
    fle f0 x = true ∧ fle x (_capacity l) = true ∧ repr x ∧ is_fin u = true ∧ repr u.

Definition bucket_ok (k : string) (r : R) : Prop :=
    b_hmget k fields r = Ok [None; None] ∨ ∃ x u, holds k x u r.

Lemma of_Z_exact z : (Z.abs z <= 2 ^ 53)%Z → ∃ c, of_Z z = Fin c ∧ (c == inject_Z z)%Q.
  Proof. intros Hz. apply (of_Q_exact z 0); [done|lia|change (pow2 0) with 1%Q; ring]. Qed.

Lemma capacity_fin : is_fin (_capacity l) = true.
  Proof. apply Hl. Qed.

Lemma between_fin x : fle f0 x = true → fle x (_capacity l) = true → is_fin x = true.
  Proof. pose proof capacity_fin. by destruct x, (_capacity l). Qed.

  (** The refill keeps the tokens within the capacity, whatever the clock did. *)
Lemma refilled_between now x u : fle f0 x = true → fle x (_capacity l) = true →
    let t := refilled (_capacity l) (Fin rate) now x u in fle f0 t = true ∧ fle t (_capacity l) = true.
  Proof.
    intros G0 G1. unfold refilled. set (e := lua_max0 _).
    assert (fle f0 e = true) as He by (subst e; unfold lua_max0; destruct (flt f0 (fsub now u)) eqn:E; [by apply flt_fle in E|done]).
    assert (fle f0 (_capacity l) = true) as Hc by exact (fle_trans _ _ _ G0 G1).
    assert (is_nan (fadd x (fmul e (Fin rate))) = true ∨ fle f0 (fadd x (fmul e (Fin rate))) = true) as Ht.
    { apply nonneg_fadd; [by right|]. apply nonneg_fmul; right; [done|apply ge0_Fin, Hl]. }
    unfold lua_min. destruct (flt _ (_capacity l)) eqn:E.
    - destruct Ht as [Ht|Ht]; [by destruct (fadd x _)|]. split; [done|by apply flt_fle].
    - split; [done|]. apply fle_refl. by destruct (_capacity l).
  Qed.

Lemma refilled_repr now x u : repr (refilled (_capacity l) (Fin rate) now x u).
  Proof. unfold refilled, lua_min. destruct (flt _ _); [apply fadd_repr|apply Hl]. Qed.

  (** What the bucket holds before the refill. *)
Definition held_tokens (k : string) (r : R) : pyfloat :=
    match b_hmget k fields r with Ok vs => default (_capacity l) (head vs ≫= script_number) | _ => f0 end.
Definition updated_of (k : string) (now : pyfloat) (r : R) : pyfloat :=
    match b_hmget k fields r with Ok vs => default now ((vs !! 1) ≫= script_number) | _ => f0 end.

Lemma capacity_between : fle f0 (_capacity l) = true ∧ fle (_capacity l) (_capacity l) = true.
  Proof.
    split; [|apply fle_refl; pose proof capacity_fin; by destruct (_capacity l)].
    destruct Hl as (Hlimit & -> & _). apply ge0_of_Q. change 0%Q with (inject_Z 0). rewrite <- Zle_Qle. lia.
  Qed.

Lemma bucket_before k now r : bucket_ok k r → is_fin now = true → repr now →
    fle f0 (held_tokens k r) = true ∧ fle (held_tokens k r) (_capacity l) = true ∧ is_fin (updated_of k now r) = true.
  Proof.
    intros [E|(x & u & E & G0 & G1 & Hx & Hu & Ru)] Hn Rn; unfold held_tokens, updated_of; rewrite E.
    - cbn. destruct capacity_between. done.
    - cbn. rewrite !lua_text_number by (done || by apply between_fin). cbn. done.
  Qed.

  (** One call while the server is up. *)
Lemma allow_spec key now r :
    let k := _key_prefix l +:+ ":" +:+ key in
    (∀ s, b_eval s r = s r) → readable now → bucket_ok k r →
    let t := refilled (_capacity l) (Fin rate) now (held_tokens k r) (updated_of k now r) in
    ∃ r', bucket_allow l key now r = (Ok (fle f1 t), r') ∧
      holds k (if fle f1 t then fsub t f1 else t) now r' ∧
      (∀ k', k' ≠ k → b_hmget k' fields r' = b_hmget k' fields r).
  Proof.
    intros k Hup (Hn & Rn & Tn) Hb t. destruct (bucket_before k now r Hb Hn Rn) as (G0 & G1 & Gu).
    destruct (refilled_between now _ (updated_of k now r) G0 G1) as [T0 T1]. fold t in T0, T1.
    unfold bucket_allow. fold k. rewrite Hup. unfold token_bucket_script, argument.
    destruct Hl as (Hlimit & Hcap & (_ & Rc & Tc) & Hrate & Hrate0 & (_ & _ & Tr) & Httl & Tt & T1').
    rewrite Hrate, Tc, Tr, Tn, T1'. cbn [rbind].
    destruct (b_hmget_total k fields r) as (vs & E & Hvs). change ["tokens"; "updated_at"] with fields. rewrite E. cbn [rbind].
    assert (default (_capacity l) (head vs ≫= script_number) = held_tokens k r) as -> by (unfold held_tokens; by rewrite E).
    assert (default now ((vs !! 1) ≫= script_number) = updated_of k now r) as -> by (unfold updated_of; by rewrite E).
    fold t. set (t' := if fle f1 t then fsub t f1 else t).
    assert ((if fle f1 t then (fsub t f1, 1%Z) else (t, 0%Z)) = (t', if fle f1 t then 1%Z else 0%Z)) as ->
      by (subst t'; by destruct (fle f1 t)).
    destruct (b_hset_total k [("tokens", lua_text t'); ("updated_at", lua_text now)] r) as (r1 & Er1). rewrite Er1. cbn [rbind].
    destruct (of_Z_exact (_ttl_seconds l)) as (c & Ec & _); [lia|]. rewrite Tt, Ec. cbn [rbind int_of_float].
    destruct (b_expire_total k (Z.quot (Qnum c) (Z.pos (Qden c))) r1) as (r2 & Er2). rewrite Er2. cbn [rbind].
    exists r2. split; [by destruct (fle f1 t)|]. split; [split_and!|].
    - rewrite (b_hmget_expire _ _ _ _ _ _ Er2). by eapply b_hmget_hset.
    - subst t'. destruct (fle f1 t) eqn:Et; [|done]. pose proof (between_fin t T0 T1) as Hf. destruct t as [q| | |]; try done.
      apply Qle_bool_iff in Et. apply ge0_of_Q. rewrite Qred_correct. lra.
    - subst t'. destruct (fle f1 t) eqn:Et; [|done].
      destruct (fsub_le t f1 (_capacity l)) as [Hx|Hx]; [by right|done|by right| |done].
      pose proof (between_fin t T0 T1). destruct t; [|done..]. cbn in Hx. by rewrite of_Q_not_nan in Hx.
    - subst t'. destruct (fle f1 t); [apply fsub_repr|]. apply refilled_repr.
    - done.
    - done.
    - intros k' Hk'. rewrite (b_hmget_expire _ _ _ _ _ _ Er2). by rewrite (b_hmget_hset_ne k _ _ _ _ _ (not_eq_sym Hk') Er1).
  Qed.

Lemma run_calls_app calls1 calls2 r :
    run_bucket_calls l (calls1 ++ calls2) r =
    let '(b1, r1) := run_bucket_calls l calls1 r in let '(b2, r2) := run_bucket_calls l calls2 r1 in (b1 ++ b2, r2).
  Proof.
    revert r; induction calls1 as [|[key now] calls IH]; intros r; cbn [run_bucket_calls app]; [by destruct (run_bucket_calls l calls2 r)|].
    destruct (bucket_allow l key now r) as [b r1]. rewrite IH. destruct (run_bucket_calls l calls r1) as [b1 r2].
    by destruct (run_bucket_calls l calls2 r2).
  Qed.

  (** Every bucket of the server stays well formed. *)
Lemma run_ok calls r : (∀ s r, b_eval s r = s r) → Forall (λ c, readable c.2) calls → (∀ k, bucket_ok k r) →
    ∀ k, bucket_ok k (run_bucket_calls l calls r).2.
  Proof.
    intros Hup Hc. revert r; induction Hc as [|[key now] calls Hn Hc IH]; intros r Hr; [done|]. cbn [run_bucket_calls].
    destruct (allow_spec key now r (λ s, Hup s r) Hn (Hr _)) as (r1 & -> & Hh & Hf).
    destruct (run_bucket_calls l calls r1) as [bs r2] eqn:E. cbn [snd]. replace r2 with (run_bucket_calls l calls r1).2 by (by rewrite E).
    apply IH. intros k. destruct (decide (k = _key_prefix l +:+ ":" +:+ key)) as [->|Hne]; [right; by eexists _, _|].
    destruct (Hr k) as [Ek|(x & u & Ek & Hx)]; [left; by rewrite Hf|right]. exists x, u. split; [by rewrite Hf|done].
  Qed.

Lemma refilled_same now x m : readable now → (Z.abs m <= 2 ^ 53)%Z → fle x (of_Z m) = true → is_fin x = true → fle x (_capacity l) = true →
    fle (refilled (_capacity l) (Fin rate) now x now) (of_Z m) = true.
  Proof.
    intros (Hn & Rn & _) Hm Hx Hf Hxc. destruct now as [a| | |]; try done. destruct x as [q| | |]; try done.
    unfold refilled. assert (fsub (Fin a) (Fin a) = f0) as ->.
    { unfold fsub. cbn [fneg fadd]. change f0 with (of_Q 0). apply of_Q_comp. rewrite Qred_correct. ring. }
    assert (lua_max0 f0 = f0) as -> by (by vm_compute).
    assert (fmul f0 (Fin rate) = f0) as ->.
    { change f0 with (of_Q 0) at 2. cbn [fmul f0]. apply of_Q_comp. ring. }
    destruct (of_Z_exact m Hm) as (c & Ec & Hc). rewrite Ec in *. assert (repr (Fin c)) as Rc by (rewrite <- Ec; apply of_Q_repr).
    assert (fle (fadd (Fin q) f0) (Fin c) = true) as Ht.
    { cbn [fle] in Hx. apply Qle_bool_iff in Hx. unfold f0. cbn [fadd]. apply of_Q_le_repr; [lra|done]. }
    unfold lua_min. destruct (flt _ (_capacity l)) eqn:E; [done|].
    apply flt_false in E; [eapply fle_trans; [exact E|done]|by apply of_Q_not_nan|by destruct (_capacity l)].
  Qed.

  (** Taking a token from at most [m]. *)
Lemma take_token t m : is_fin t = true → (Z.abs m <= 2 ^ 53)%Z → fle t (of_Z m) = true → fle f1 t = true →
    (1 <= m)%Z ∧ fle (fsub t f1) (of_Z (m - 1)) = true.
  Proof.
    intros Tf Hm Ht E1. destruct t as [q| | |]; try done. destruct (of_Z_exact m Hm) as (c & Ec & Hc).
    rewrite Ec in Ht. cbn [fle] in Ht. apply Qle_bool_iff in Ht. unfold f1 in E1. cbn [fle] in E1. apply Qle_bool_iff in E1.
    split.
    - assert (1 <= inject_Z m)%Q as G by lra. change 1%Q with (inject_Z 1) in G. by rewrite <- Zle_Qle in G.
    - unfold of_Z, fsub. cbn [fneg fadd f1]. apply of_Q_mono. rewrite Qred_correct.
      assert (inject_Z (m - 1) == inject_Z m - 1)%Q as ->; [|lra].
      unfold Z.sub. rewrite inject_Z_plus, inject_Z_opp. reflexivity.
  Qed.

  (** Calls at one reading of the clock, from a bucket that holds at most [m] tokens. *)
Lemma burst_from key now n : ∀ m x r, (∀ s r, b_eval s r = s r) → readable now → (0 <= m <= 2 ^ 53)%Z →
    holds (_key_prefix l +:+ ":" +:+ key) x now r → fle x (of_Z m) = true →
    (Z.of_nat (admitted (run_bucket_calls l (replicate n (key, now)) r).1) <= m)%Z.
  Proof.
    induction n as [|n IH]; intros m x r Hup Hn Hm Hh Hx; [cbn; lia|]. cbn [replicate run_bucket_calls].
    set (k := _key_prefix l +:+ ":" +:+ key) in *.
    destruct (allow_spec key now r (λ s, Hup s r) Hn (or_intror (ex_intro _ x (ex_intro _ now Hh)))) as (r1 & -> & Hh1 & _). fold k in Hh1 |- *.
    assert (held_tokens k r = x ∧ updated_of k now r = now) as [Et Eu].
    { destruct Hh as (E & G0 & G1 & Rx & Fu & Ru). unfold held_tokens, updated_of. rewrite E. cbn.
      rewrite !lua_text_number by (done || by apply between_fin). done. }
    rewrite Et, Eu in *. destruct Hh as (_ & G0 & G1 & _).
    pose proof (refilled_same now x m Hn ltac:(lia) Hx (between_fin x G0 G1) G1) as Ht.
    destruct (refilled_between now x now G0 G1) as [T0 T1]. pose proof (between_fin _ T0 T1) as Tf.
    set (t := refilled _ _ _ _ _) in *.
    destruct (fle f1 t) eqn:E1.
    - destruct (take_token t m Tf ltac:(lia) Ht E1) as [Hm1 Hs].
      specialize (IH (m - 1)%Z (fsub t f1) r1 Hup Hn ltac:(lia) Hh1 Hs).
      destruct (run_bucket_calls l (replicate n (key, now)) r1) as [bs r2]. cbn [fst] in *. unfold admitted in *.
      rewrite filter_cons_True by done. cbn [length]. lia.
    - specialize (IH m t r1 Hup Hn Hm Hh1 Ht). destruct (run_bucket_calls l (replicate n (key, now)) r1) as [bs r2]. cbn [fst] in *.
      unfold admitted in *. rewrite filter_cons_False by done. done.
  Qed.

Lemma burst key now n r : (∀ s r, b_eval s r = s r) → readable now → bucket_ok (_key_prefix l +:+ ":" +:+ key) r →
    (Z.of_nat (admitted (run_bucket_calls l (replicate n (key, now)) r).1) <= limit)%Z.
  Proof.
    intros Hup Hn Hb. pose proof Hl as (Hlim & Hcap & _). destruct n as [|n]; [cbn; lia|]. cbn [replicate run_bucket_calls].
    set (k := _key_prefix l +:+ ":" +:+ key) in *.
    destruct (allow_spec key now r (λ s, Hup s r) Hn Hb) as (r1 & -> & Hh1 & _). fold k in Hh1 |- *.
    destruct (bucket_before k now r Hb) as (G0 & G1 & _); [by apply Hn..|].
    destruct (refilled_between now _ (updated_of k now r) G0 G1) as [T0 T1]. set (t := refilled _ _ _ _ _) in *.
    pose proof (between_fin _ T0 T1) as Tf. rewrite Hcap in T1.
    destruct (fle f1 t) eqn:E1.
    - destruct (take_token t limit Tf ltac:(lia) T1 E1) as [Hm1 Hs].
      pose proof (burst_from key now n (limit - 1) _ r1 Hup Hn ltac:(lia) Hh1 Hs) as IH.
      destruct (run_bucket_calls l (replicate n (key, now)) r1) as [bs r2]. cbn [fst] in *. unfold admitted in *.
      rewrite filter_cons_True by done. cbn [length]. lia.
    - pose proof (burst_from key now n limit _ r1 Hup Hn Hlim Hh1 T1) as IH.
      destruct (run_bucket_calls l (replicate n (key, now)) r1) as [bs r2]. cbn [fst] in *. unfold admitted in *.
      rewrite filter_cons_False by done. done.
  Qed.

  (** Two clocks, the second ahead by enough to fill the bucket. *)
Lemma skewed_rounds key t1 t2 n : (∀ s r, b_eval s r = s r) → readable t1 → readable t2 → (1 <= limit)%Z →
    flt f0 (fsub t2 t1) = true → fle (_capacity l) (fmul (fsub t2 t1) (Fin rate)) = true →
    ∀ r, bucket_ok (_key_prefix l +:+ ":" +:+ key) r →
    n <= admitted (run_bucket_calls l (concat (replicate n [(key, t1); (key, t2)])) r).1.
  Proof.
    intros Hup N1 N2 Hlim Hlt Hfull. set (k := _key_prefix l +:+ ":" +:+ key).
    induction n as [|n IH]; intros r Hb; [lia|]. cbn [replicate concat app run_bucket_calls].
    destruct (allow_spec key t1 r (λ s, Hup s r) N1 Hb) as (r1 & -> & Hh1 & _). fold k in Hh1.
    destruct (allow_spec key t2 r1 (λ s, Hup s r1) N2) as (r2 & -> & Hh2 & _); [right; by eexists _, _|]. fold k in Hh2 |- *.
    set (x := if fle f1 _ then _ else _) in Hh1. destruct Hh1 as (E & G0 & G1 & Rx & Fu & Ru).
    assert (held_tokens k r1 = x ∧ updated_of k t2 r1 = t1) as [Et Eu].
    { unfold held_tokens, updated_of. rewrite E. cbn. rewrite !lua_text_number by (done || by apply between_fin). done. }
    rewrite Et, Eu in *.
    assert (fle f1 (refilled (_capacity l) (Fin rate) t2 x t1) = true) as Hadm.
    { destruct capacity_between as [C0 C1].
      assert (fle f1 (_capacity l) = true) as Hc1.
      { destruct Hl as (_ & -> & _). apply of_Q_ge_repr; [change 1%Q with (inject_Z 1); rewrite <- Zle_Qle; lia|apply repr_f1]. }
      unfold refilled, lua_max0. rewrite Hlt.
      assert (fle (_capacity l) (fadd x (fmul (fsub t2 t1) (Fin rate))) = true) as Hfill.
      { eapply fle_trans; [exact Hfull|]. apply fle_fadd_ge0_r; [apply fmul_repr|done|exact (fle_trans _ _ _ C0 Hfull)]. }
      unfold lua_min. destruct (flt _ (_capacity l)); [|done].
      exact (fle_trans _ _ _ Hc1 Hfill). }
    rewrite Hadm in Hh2 |- *. assert (bucket_ok k r2) as Hb2 by (right; by eexists _, _). specialize (IH r2 Hb2).
    destruct (run_bucket_calls l (concat (replicate n [(key, t1); (key, t2)])) r2) as [bs r3]. cbn [fst] in *. unfold admitted in *.
    rewrite filter_cons. destruct (decide (is_admitted _ = true)); rewrite filter_cons_True by done; cbn [length]; lia.
  Qed.
End lemmas.

(** ** Properties *)

(** After any calls, with clocks that may go anywhere, a caller is admitted at most [limit]
    times at one reading of the clock, while the server answers. *)
Theorem token_bucket_burst `{BucketServerLaws R} `{LuaFloat} (l : RedisTokenBucketRateLimiter) (limit : Z) (rate : Q)
    (calls : list (string * pyfloat)) (key : string) (now : pyfloat) (n : nat) (r : R) :
  limiter_ok l limit rate → (∀ s r, b_eval s r = s r) →
  (∀ k, b_hmget k fields r = Ok [None; None]) → Forall (λ c, readable c.2) calls → readable now →
  (Z.of_nat (admitted (run_bucket_calls l (replicate n (key, now)) (run_bucket_calls l calls r).2).1) <= limit)%Z.
Proof.
  intros Hl Hup Hempty Hc Hn. apply (burst l limit rate Hl); [done|done|].
  apply (run_ok l limit rate Hl); [done|done|]. intros k. by left.
Qed.

(** Replicas whose clocks differ defeat the limit: when one clock is ahead by a full
    refill, calls that alternate between the two are admitted for ever, at least one in two,
    though no time passes. *)
Theorem token_bucket_skew_unlimited `{BucketServerLaws R} `{LuaFloat} (l : RedisTokenBucketRateLimiter) (limit : Z) (rate : Q)
    (key : string) (behind ahead : pyfloat) (n : nat) (r : R) :
  limiter_ok l limit rate → (1 <= limit)%Z → (∀ s r, b_eval s r = s r) →
  (∀ k, b_hmget k fields r = Ok [None; None]) → readable behind → readable ahead →
  flt f0 (fsub ahead behind) = true → fle (_capacity l) (fmul (fsub ahead behind) (Fin rate)) = true →
  n <= admitted (run_bucket_calls l (concat (replicate n [(key, behind); (key, ahead)])) r).1.
Proof.
  intros Hl Hlim Hup Hempty Hb Ha Hlt Hfull. apply (skewed_rounds l limit rate Hl); [done..|]. by left.
Qed.

(** ** Witnesses *)

(** A server that is a dictionary of hashes. *)
Abbreviation MemBuckets := (odict string (odict string string)).

Definition mem_get (k : string) (r : MemBuckets) : odict string string := default [] (od_get k r).

#[local] Instance mem_server : BucketServer MemBuckets := {|
  b_hmget k fs r := Ok (map (λ f, od_get f (mem_get k r)) fs);
  b_hset k ws r := Ok (od_set k (fold_left (λ h w, od_set w.1 w.2 h) ws (mem_get k r)) r);
  b_expire _ _ r := Ok r;
  b_eval s r := s r;
|}.

#[local] Instance mem_server_laws : BucketServerLaws MemBuckets.
Proof.
  split.
  - intros k fs r. eexists. split; [reflexivity|]. by rewrite length_map.
  - intros. by eexists.
  - intros. by eexists.
  - intros k a b x y r r' Hab [= <-]. cbn [b_hmget mem_server map fold_left fst snd]. unfold mem_get at 1 3. rewrite od_get_set_eq.
    cbn [default from_option id]. rewrite (od_get_set_ne a b) by done. by rewrite !od_get_set_eq.
  - intros k k' fs ws r r' Hne [= <-]. cbn. unfold mem_get. by rewrite od_get_set_ne.
  - intros k t r r' k' fs [= <-]. done.
  - intros. by left.
Qed.

(** Numbers as tallies, which read back, next to the decimals of Python. *)
Fixpoint tally (n : nat) : string := match n with O => "" | S n => String "I"%char (tally n) end.

Fixpoint read_tally (s : string) : nat * string :=
  match s with
  | String "I"%char s => let '(n, t) := read_tally s in (S n, t)
  | _ => (0, s)
  end.

Fixpoint digits_of (s : string) (acc : Z) : option Z :=
  match s with
  | "" => Some acc
  | String c s =>
      let d := (Z.of_nat (Ascii.nat_of_ascii c) - 48)%Z in
      if ((0 <=? d) && (d <? 10))%Z then digits_of s (10 * acc + d)%Z else None
  end.

Definition whole_decimal (s : string) : option pyfloat :=
  match split_on "."%char s with
  | [a] | [a; "0"] => of_Z <$> digits_of a 0
  | _ => None
  end.

Definition tally_number (s : string) : option pyfloat :=
  match s with
  | String "I"%char _ | String "/"%char _ =>
      let '(n, t) := read_tally s in
      let '(m, t) := read_tally (str_drop 1 t) in
      let '(d, _) := read_tally (str_drop 1 t) in
      Some (Fin (Qmake (Z.of_nat n - Z.of_nat m) (Pos.of_nat d)))
  | _ => whole_decimal s
  end.

(** The numerator as a difference, and the denominator. *)
Definition tally_text (x : pyfloat) : string :=
  match x with
  | Fin q => tally (Z.to_nat (Qnum q)) +:+ String "/"%char (tally (Z.to_nat (- Qnum q)) +:+ String "/"%char (tally (Pos.to_nat (Qden q))))
  | _ => ""
  end.

Lemma read_tally_app n t : read_tally (tally n +:+ String "/"%char t) = (n, String "/"%char t).
Proof. induction n as [|n IH]; [done|]. simpl. by rewrite IH. Qed.

Lemma read_tally_end n : read_tally (tally n) = (n, "").
Proof. induction n as [|n IH]; [done|]. cbn [tally read_tally]. by rewrite IH. Qed.

#[local] Instance tally_numbers : LuaFloat.
Proof.
  refine {| lua_number := tally_number; lua_text := tally_text |}. intros [q| | |] Hf _; try done. destruct q as [n d].
  unfold tally_text. cbn [Qnum Qden]. set (rest := tally (Z.to_nat (- n)) +:+ _).
  assert (tally_number (tally (Z.to_nat n) +:+ String "/"%char rest) =
    let '(n', t) := read_tally (tally (Z.to_nat n) +:+ String "/"%char rest) in
    let '(m, t) := read_tally (str_drop 1 t) in
    let '(d, _) := read_tally (str_drop 1 t) in Some (Fin (Qmake (Z.of_nat n' - Z.of_nat m) (Pos.of_nat d)))) as ->
    by (destruct (Z.to_nat n); reflexivity).
  rewrite read_tally_app. cbn [str_drop]. subst rest. rewrite read_tally_app. cbn [str_drop]. rewrite read_tally_end.
  rewrite Pos2Nat.id. do 2 f_equal. f_equal. lia.
Defined.

Definition small_bucket : RedisTokenBucketRateLimiter := mkBucket (of_Z 2) f1 4 "aci:ratelimit".

Lemma small_bucket_ok : limiter_ok small_bucket 2 1.
Proof. split_and!; try done; try (vm_compute; reflexivity); repeat split; vm_compute; reflexivity. Qed.

Lemma token_bucket_burst_witness :
  (Z.of_nat (admitted (run_bucket_calls small_bucket (replicate 5 ("a", of_Z 9)) (run_bucket_calls small_bucket [("a", of_Z 7); ("b", of_Z 3)] []).2).1) <= 2)%Z.
Proof.
  apply (token_bucket_burst small_bucket 2 1); [exact small_bucket_ok|reflexivity|reflexivity| |repeat split; vm_compute; reflexivity].
  apply Forall_cons. split; [repeat split; vm_compute; reflexivity|]. apply Forall_singleton. repeat split; vm_compute; reflexivity.
Defined.

Lemma token_bucket_skew_unlimited_witness :
  100 <= admitted (run_bucket_calls small_bucket (concat (replicate 100 [("a", of_Z 7); ("a", of_Z 9)])) []).1.
Proof.
  apply (token_bucket_skew_unlimited small_bucket 2 1); [exact small_bucket_ok|vm_compute; discriminate|reflexivity|reflexivity|..].
  - repeat split; vm_compute; reflexivity.
  - repeat split; vm_compute; reflexivity.
  - vm_compute. reflexivity.
  - vm_compute. reflexivity.
Defined.
