(* ===== verification/Runtime.v ===== *)
(** * Runtime assembly (src/aci/api/runtime.py)

    Which components the application state holds for a configuration, the readiness checks,
    and the table of route templates that bounds the routes in metrics. Constructing a
    component is recorded as the choice of its kind; the components themselves are modelled
    in their own files. *)

From S2P Require Import Prelude PyFloat PyData PyValue Interceptor Config.
From Stdlib Require Import ZArith Ascii Lia.
From stdpp Require Import base list strings gmap.

Open Scope string_scope.
Open Scope list_scope.
Open Scope nat_scope.

(** ** Kinds of components *)

Inductive IdempotencyKind := RedisIdempotency | MemoryIdempotency (max_keys : Z).
Inductive BusKind := MemoryBus | KafkaBus (idempotency : IdempotencyKind) (consume : bool) | DisabledBus.
Inductive LimiterKind := RedisLimiter (limit : Z) | SlidingLimiter (limit : Z).
Inductive GraphKind := Neo4jGraph | MemoryGraph.
Inductive CircuitKind := LocalCircuit | RedisCircuit.

(** The interceptor with the store of its breaker, and whether it has a bus; or the disabled one. *)
Inductive InterceptorKind := LiveInterceptor (mode : DeploymentMode) (circuit : CircuitKind) (publishes : bool) | NoInterceptor (mode : DeploymentMode).

Record AppState := mkApp {
  app_config : PlatformConfig;
  app_role : string;
  accepts_ingestion : bool;
  accepts_interception : bool;
  is_demo_environment : bool;
  ingest_rate_limiter : LimiterKind;
  ingest_max_batch_size : Z;
  durable_index : bool;
  app_bus : BusKind;
  app_graph : option GraphKind;
  app_processor : bool;
  app_interceptor : InterceptorKind;
}.

(** ** Assembly *)

Definition nonempty (s : string) : bool := negb (is_empty s).

Definition _build_event_bus (c : PlatformConfig) (consume : bool) : BusKind :=
  if String.eqb (lower (event_bus_backend c)) "kafka"
  then KafkaBus (if nonempty (redis_url c) then RedisIdempotency else MemoryIdempotency 2000000) consume
  else MemoryBus.

Definition _build_ingest_rate_limiter (c : PlatformConfig) : LimiterKind :=
  let backend := lower (api_ingest_rate_limit_backend c) in
  let backend :=
    if String.eqb backend "auto"
    then if bool_decide (lower (environment c) ∈ ["production"; "staging"]) then "redis" else "memory"
    else backend in
  if String.eqb backend "redis" then RedisLimiter (api_ingest_rate_limit_per_minute c)
  else SlidingLimiter (api_ingest_rate_limit_per_minute c).

Definition build_graph_store (c : PlatformConfig) : GraphKind :=
  if String.eqb (lower (graph_backend c)) "neo4j" then Neo4jGraph else MemoryGraph.

(** [DeploymentMode(text)] *)
Definition DeploymentMode_of (text : string) : res DeploymentMode :=
  if String.eqb text "passive" then Ok PASSIVE else
  if String.eqb text "advisory" then Ok ADVISORY else
  if String.eqb text "active" then Ok ACTIVE else Raise (ValueError "not a valid DeploymentMode").

(** [AppState()] of a validated configuration. *)
Definition AppState_init (c : PlatformConfig) : res AppState :=
  let role := lower (runtime_role c) in
  let ingestion := bool_decide (role ∈ ["all"; "processor"]) in
  let interception := bool_decide (role ∈ ["all"; "gateway"]) in
  let bus :=
    if ingestion then _build_event_bus c true
    else if interception then _build_event_bus c false else DisabledBus in
  (let? mode := DeploymentMode_of (lower (interceptor_mode c)) in
   let interceptor :=
     if interception
     then LiveInterceptor mode (if String.eqb (circuit_state_backend c) "redis" then RedisCircuit else LocalCircuit)
            (match bus with DisabledBus => false | _ => true end)
     else NoInterceptor mode in
   Ok (mkApp c role ingestion interception (String.eqb (lower (environment c)) "demo") (_build_ingest_rate_limiter c)
         (api_ingest_max_batch_size c) (String.eqb (index_backend c) "redis") bus
         (if ingestion then Some (build_graph_store c) else None) ingestion interceptor))%py.

(** [readiness_checks]: what the components report, [bus_started], [graph_ready] and
    [index_healthy]. *)
Definition readiness_checks (s : AppState) (bus_started graph_ready index_healthy : bool) : odict string bool :=
  let '(bus, graph) :=
    if accepts_ingestion s then (bus_started, match app_graph s with Some _ => graph_ready | None => true end)
    else if accepts_interception s && shadow_events_enabled (app_config s) then (bus_started, true)
    else (true, true) in
  [("event_bus_started", bus); ("graph_backend_healthy", graph);
   ("index_durable_backend_healthy", if String.eqb (lower (index_backend (app_config s))) "redis" then index_healthy else true)].

(** ** Route templates *)

Record RouteTable := mkRoutes { _route_cardinality_limit : Z; _route_templates : gset string }.

(** The table of a new application state. *)
Definition RouteTable_init : RouteTable := mkRoutes 50000 ∅.

Definition _normalize_route (route : string) : string :=
  let normalized := lower (strip route) in
  if String.eqb normalized "" then ""
  else "/" +:+ String.concat "/" (filter (λ s, s ≠ "") (split_on "/"%char normalized)).

Definition resolve_route_key (route service_name : string) (t : RouteTable) : string * RouteTable :=
  let normalized := _normalize_route route in
  if String.eqb normalized "" then ((if String.eqb service_name "" then "" else "SERVICE:" +:+ service_name), t)
  else if (_route_cardinality_limit t <=? Z.of_nat (size (_route_templates t)))%Z
  then ((if String.eqb service_name "" then normalized else "SERVICE:" +:+ service_name), t)
  else (normalized, mkRoutes (_route_cardinality_limit t) ({[normalized]} ∪ _route_templates t)).

Fixpoint resolve_all (requests : list (string * string)) (t : RouteTable) : list string * RouteTable :=
  match requests with
  | [] => ([], t)
  | (route, service) :: rest =>
      let '(k, t) := resolve_route_key route service t in
      let '(ks, t) := resolve_all rest t in
      (k :: ks, t)
  end.

Example route_samples :
  map _normalize_route ["/V1//Chat/"; ""; "  "; "a?x=1"; "/"] = ["/v1/chat"; ""; ""; "/a?x=1"; "/"] ∧
  (resolve_all [("/a", "s"); ("/b", "s"); ("/a", "s"); ("/c", ""); ("", "s"); ("", "")] (mkRoutes 1 ∅)).1
  = ["/a"; "SERVICE:s"; "SERVICE:s"; "/c"; "SERVICE:s"; ""].
Proof. vm_compute. done. Qed.

(** ** Lemmas *)

Lemma lower_isin (s : string) (l : list string) : s ∈ l → Forall (λ x, lower x = x) l → lower s = s.
Proof. intros Hin Hl. rewrite Forall_forall in Hl. by apply Hl. Qed.

(** A role or a backend that the validator accepts is in lower case. *)
Lemma accepted_lower c : _validate_runtime_settings c = Ok tt →
  (runtime_role c ∈ ["all"; "gateway"; "processor"]) ∧ lower (runtime_role c) = runtime_role c ∧
  lower (event_bus_backend c) = event_bus_backend c ∧ lower (graph_backend c) = graph_backend c ∧
  lower (api_ingest_rate_limit_backend c) = api_ingest_rate_limit_backend c ∧
  (lower (interceptor_mode c) ∈ ["passive"; "advisory"; "active"]).
Proof.
  intros Hok. accepted Hok.
  repeat match goal with H : negb (bool_decide _) = false |- _ => apply negb_false_iff, bool_decide_eq_true in H end.
  split_and!; try done.
  all: eapply lower_isin; [eassumption|repeat constructor].
Qed.

(** What each role accepts. *)
Lemma role_cases r : r ∈ ["all"; "gateway"; "processor"] →
  (r ≠ "gateway" ∧ bool_decide (r ∈ ["all"; "processor"]) = true ∧ bool_decide (r ∈ ["all"; "gateway"]) = true) ∨
  (r = "gateway" ∧ bool_decide (r ∈ ["all"; "processor"]) = false ∧ bool_decide (r ∈ ["all"; "gateway"]) = true) ∨
  (r ≠ "gateway" ∧ bool_decide (r ∈ ["all"; "processor"]) = true ∧ bool_decide (r ∈ ["all"; "gateway"]) = false).
Proof.
  intros [->|[->|[->|[]%elem_of_nil]%elem_of_cons]%elem_of_cons]%elem_of_cons;
    [left|right; left|right; right]; vm_compute; (split_and!; [done|reflexivity|reflexivity]).
Qed.

Lemma mode_accepted text : text ∈ ["passive"; "advisory"; "active"] → ∃ m, DeploymentMode_of text = Ok m.
Proof. intros Hin. repeat (apply elem_of_cons in Hin as [->|Hin]; [by eexists|]). by apply elem_of_nil in Hin. Qed.

Lemma limiter_backend c : lower (api_ingest_rate_limit_backend c) = api_ingest_rate_limit_backend c →
  _build_ingest_rate_limiter c =
  if String.eqb (resolved_rate_limit_backend c) "redis" then RedisLimiter (api_ingest_rate_limit_per_minute c)
  else SlidingLimiter (api_ingest_rate_limit_per_minute c).
Proof. intros E. unfold _build_ingest_rate_limiter, resolved_rate_limit_backend, production_like. by rewrite E. Qed.

(** The keys of requests: a template in the table, or a fallback. *)
Lemma resolve_all_spec requests t : Forall (λ r, r.2 ≠ "") requests →
  let '(ks, t') := resolve_all requests t in
  _route_cardinality_limit t' = _route_cardinality_limit t ∧ _route_templates t ⊆ _route_templates t' ∧
  (Z.of_nat (size (_route_templates t)) <= _route_cardinality_limit t → Z.of_nat (size (_route_templates t')) <= _route_cardinality_limit t)%Z ∧
  Forall (λ k, k ∈ _route_templates t' ∨ startswith k "SERVICE:" = true) ks.
Proof.
  revert t; induction requests as [|[route service] requests IH]; intros t Hs; cbn [resolve_all]; [done|].
  apply Forall_cons in Hs as [Hsv Hs]. cbn [snd] in Hsv. apply String.eqb_neq in Hsv.
  assert (∀ k t1, resolve_route_key route service t = (k, t1) →
    _route_cardinality_limit t1 = _route_cardinality_limit t ∧ _route_templates t ⊆ _route_templates t1 ∧
    (Z.of_nat (size (_route_templates t)) <= _route_cardinality_limit t → Z.of_nat (size (_route_templates t1)) <= _route_cardinality_limit t)%Z ∧
    (k ∈ _route_templates t1 ∨ startswith k "SERVICE:" = true)) as Hone.
  { intros k t1. unfold resolve_route_key. rewrite Hsv.
    assert (startswith ("SERVICE:" +:+ service) "SERVICE:" = true) as Hsvc by (by destruct service; vm_compute).
    destruct (String.eqb (_normalize_route route) ""); [intros [= <- <-]; split_and!; try done; by right|].
    destruct (Z.leb_spec (_route_cardinality_limit t) (Z.of_nat (size (_route_templates t)))) as [Hfull|Hfree];
      [intros [= <- <-]; split_and!; try done; by right|].
    intros [= <- <-]. cbn [_route_templates _route_cardinality_limit]. split_and!; [done|set_solver| |left; set_solver].
    intros _. destruct (decide (_normalize_route route ∈ _route_templates t)) as [Hin|Hni].
    - replace ({[_normalize_route route]} ∪ _route_templates t) with (_route_templates t) by set_solver. lia.
    - rewrite size_union by set_solver. rewrite size_singleton. lia. }
  destruct (resolve_route_key route service t) as [k t1]. destruct (Hone k t1 eq_refl) as (L1 & S1 & Z1 & K1).
  specialize (IH t1 Hs). destruct (resolve_all requests t1) as [ks t2]. destruct IH as (L2 & S2 & Z2 & K2).
  split_and!; [congruence|set_solver| |].
  - intros Hz. rewrite <- L1. apply Z2. rewrite L1. by apply Z1.
  - apply Forall_cons. split; [|done]. destruct K1 as [K1|K1]; [left; set_solver|by right].
Qed.

(** ** Properties *)

(** A configuration that the validator accepts can be assembled, and the components are
    those of its role: a gateway has no processor, no graph and only publishes; a processor
    has no live interceptor; and in production or staging a runtime that ingests limits its
    callers in Redis and keeps its graph in Neo4j, and a gateway that emits shadow events
    publishes to Kafka with deduplication in Redis. *)
Theorem assembly_of_accepted_config (c : PlatformConfig) :
  _validate_runtime_settings c = Ok tt →
  ∃ s m, AppState_init c = Ok s ∧
    (accepts_ingestion s = app_processor s ∧ accepts_ingestion s || accepts_interception s = true) ∧
    (app_graph s = None ↔ accepts_ingestion s = false) ∧
    (accepts_interception s = false → app_interceptor s = NoInterceptor m) ∧
    (accepts_interception s = true → ∃ k, app_interceptor s = LiveInterceptor m k true) ∧
    (app_role s = "gateway" → match app_bus s with KafkaBus _ consume => consume = false | DisabledBus => False | MemoryBus => True end) ∧
    (production_like c = true → accepts_ingestion s = true →
       ingest_rate_limiter s = RedisLimiter (api_ingest_rate_limit_per_minute c) ∧ app_graph s = Some Neo4jGraph) ∧
    (production_like c = true → accepts_interception s = true → shadow_events_enabled c = true →
       app_bus s = KafkaBus RedisIdempotency (accepts_ingestion s)).
Proof.
  intros Hok. destruct (accepted_lower c Hok) as (Hr & Lr & Lb & Lg & Ll & Hm).
  destruct (mode_accepted _ Hm) as (m & Em).
  pose proof (limiter_backend c Ll) as Elim.
  assert (production_like c = true → shadow_events_enabled c = true → bool_decide (runtime_role c ∈ ["all"; "gateway"]) = true →
    event_bus_backend c = "kafka" ∧ nonempty (redis_url c) = true) as Hbus.
  { intros Hp Hs Hg. accepted Hok. rewrite Hp, Hs in *. cbn [andb] in *. rewrite Hg in Hchk18. cbn [andb] in Hchk18.
    apply negb_false_iff, String.eqb_eq in Hchk18. split; [done|]. unfold nonempty.
    unfold redis_used in Hchk19. rewrite Hchk18 in Hchk19. rewrite orb_true_r in Hchk19. cbn [andb] in Hchk19. by rewrite Hchk19. }
  assert (production_like c = true → bool_decide (runtime_role c ∈ ["all"; "processor"]) = true →
    resolved_rate_limit_backend c = "redis" ∧ graph_backend c = "neo4j") as Hproc.
  { intros Hp Hg. accepted Hok. rewrite Hp in *. cbn [andb] in *. rewrite Hg in Hchk20, Hchk23. cbn [andb] in *.
    split; apply String.eqb_eq; by apply negb_false_iff. }
  unfold AppState_init. rewrite Em, Lr. cbn [rbind]. eexists _, m. split; [reflexivity|].
  cbn [accepts_ingestion accepts_interception app_processor app_graph app_interceptor app_role app_bus ingest_rate_limiter].
  unfold _build_event_bus, build_graph_store. rewrite Lb, Lg, Elim.
  destruct (role_cases _ Hr) as [(Hg & Ei & Ej)|[(Hg & Ei & Ej)|(Hg & Ei & Ej)]]; rewrite Ei, Ej in *; cbn [orb].
  - split_and!; try done.
    + intros _. eexists. by destruct (String.eqb _ "kafka").
    + intros Hp _. by destruct (Hproc Hp eq_refl) as [-> ->].
    + intros Hp _ Hs. by destruct (Hbus Hp Hs eq_refl) as [-> ->].
  - split_and!; try done.
    + intros _. eexists. by destruct (String.eqb _ "kafka").
    + intros _. by destruct (String.eqb _ "kafka").
    + intros Hp _ Hs. by destruct (Hbus Hp Hs eq_refl) as [-> ->].
  - split_and!; try done. intros Hp _. by destruct (Hproc Hp eq_refl) as [-> ->].
Qed.

(** The route keys of requests that name their service are bounded: at most
    [_route_cardinality_limit] distinct templates besides the per-service fallbacks, however
    many requests come, each in the table. *)
Theorem route_keys_bounded (requests : list (string * string)) :
  Forall (λ r, r.2 ≠ "") requests →
  let '(ks, t) := resolve_all requests RouteTable_init in
  (Z.of_nat (size (_route_templates t)) <= 50000)%Z ∧
  Forall (λ k, k ∈ _route_templates t ∨ startswith k "SERVICE:" = true) ks.
Proof.
  intros Hs. pose proof (resolve_all_spec requests RouteTable_init Hs) as H1.
  destruct (resolve_all requests RouteTable_init) as [ks t]. destruct H1 as (_ & _ & Hz & Hk). split; [|done].
  apply Hz. vm_compute. discriminate.
Qed.

(** A full table stops telling routes apart: a route that is in the table, and that was
    its own key until the table filled, gets its service's key from then on. *)
Theorem full_table_forgets_routes (route service : string) (t : RouteTable) :
  _normalize_route route ≠ "" → service ≠ "" → _normalize_route route ∈ _route_templates t →
  (_route_cardinality_limit t <= Z.of_nat (size (_route_templates t)))%Z →
  resolve_route_key route service t = ("SERVICE:" +:+ service, t).
Proof.
  intros Hr%String.eqb_neq Hs%String.eqb_neq _ Hfull. unfold resolve_route_key. rewrite Hr, Hs.
  by rewrite (proj2 (Z.leb_le _ _) Hfull).
Qed.

(** ** Witnesses *)

Lemma assembly_of_accepted_config_witness :
  ∃ s m, AppState_init default_platform_config = Ok s ∧ app_interceptor s = LiveInterceptor m LocalCircuit true.
Proof.
  destruct (assembly_of_accepted_config default_platform_config eq_refl) as (s & m & E & _).
  injection E as <-. eexists _, _. split; reflexivity.
Defined.

Lemma route_keys_bounded_witness :
  (resolve_all [("/a", "s"); ("/A/", "s")] RouteTable_init).1 = ["/a"; "/a"] ∧
  (Z.of_nat (size (_route_templates (resolve_all [("/a", "s"); ("/A/", "s")] RouteTable_init).2)) <= 50000)%Z.
Proof.
  split; [vm_compute; reflexivity|].
  pose proof (route_keys_bounded [("/a", "s"); ("/A/", "s")]) as H1.
  destruct (resolve_all _ _) as [ks t]. apply H1. repeat (apply Forall_cons; split; [done|]). by apply Forall_nil.
Defined.

Lemma full_table_forgets_routes_witness :
  resolve_route_key "/a" "s" (mkRoutes 1 {["/a"]}) = ("SERVICE:s", mkRoutes 1 {["/a"]}).
Proof. apply (full_table_forgets_routes "/a" "s"); vm_compute; (reflexivity || discriminate). Defined.
