(* ===== verification/Settings.v ===== *)
(** * From settings to components (src/aci/config.py, src/aci/api/runtime.py)

    The settings that [PlatformConfig] aggregates, the validators that accept them, and the
    parameters that [AppState] hands to the components from them. What the validators
    guarantee is what the theorems of the components ask for, but for a few bounds that no
    validator checks. Reading the settings from the environment is pydantic's. *)

From S2P Require Import Prelude PyFloat PyData PyMath PyTime PyValue Models CircuitBreaker ShadowWarming IndexStore Interceptor.
From S2P Require Import EventBus GraphStore Combination HreMethods HreEngine Calibration Config Policy Processor Trac Equivalence TokenBucket Runtime.
From Stdlib Require Import ZArith Lia.
From stdpp Require Import base list gmap sets strings.

Open Scope string_scope.
Open Scope list_scope.
Open Scope Z_scope.
Open Scope py_scope.

(** ** The settings *)

(** [config.InterceptorConfig] *)
Record InterceptorSettings := mkInterceptorSettings {
  is_timeout_ms : Z;
  is_total_budget_ms : Z;
  is_policy_timeout_ms : Z;
  is_circuit_breaker_threshold : Z;
  is_circuit_breaker_reset_s : pyfloat;
  is_circuit_state_backend : string;
  is_circuit_state_redis_key : string;
  is_shadow_warm_probability : pyfloat;
  is_shadow_warm_max_tracked_workloads : Z;
  is_shadow_events_enabled : bool;
  is_stale_while_revalidate : bool;
  is_max_enrichment_header_bytes : Z;
  is_max_header_value_length : Z;
  is_active_lite_min_confidence : pyfloat;
  is_active_lite_gate_min_confidence : pyfloat;
}.

(** [InterceptorConfig()] *)
Definition default_interceptor_settings : InterceptorSettings :=
  mkInterceptorSettings 20 50 15 5 (of_Z 30) "local" "aci:circuit:interceptor" (lit 1 100) 10000 true true 4096 512
    (lit 90 100) (lit 95 100).

(** [PlatformConfig] with its sub-configurations, but for those of the carbon calculator and
    the benchmark, which the runtime does not use. The record of the validator holds the
    settings it reads; its two fields of the interceptor are overwritten by [platform_of]. *)
Record Settings := mkSettings {
  st_platform : PlatformConfig;
  st_interceptor : InterceptorSettings;
  st_confidence : ConfidenceConfig;
  st_trac : TRACConfig;
  st_equivalence : EquivalenceConfig;
  st_api_ingest_rate_limit_redis_prefix : string;
  st_index_max_entries : Z;
  st_index_redis_prefix : string;
  st_event_bus_topic : string;
  st_event_bus_dlq_topic : string;
  st_event_bus_consumer_group : string;
  st_event_bus_dedup_ttl_s : Z;
}.

Definition default_settings : Settings :=
  mkSettings default_platform_config default_interceptor_settings default_confidence_config default_trac_config
    default_equivalence_config "aci:ratelimit" 250000 "aci:index" "aci.events" "aci.events.dlq" "aci-processor" 86400.

(** ** Validation *)

(** [InterceptorConfig._validate_active_lite_thresholds] *)
Definition _validate_active_lite_thresholds (c : InterceptorSettings) : res unit :=
  reject_if (is_policy_timeout_ms c <=? 0) "policy_timeout_ms must be greater than 0" $
  reject_if ((0 <? is_timeout_ms c) && (is_timeout_ms c <? is_policy_timeout_ms c))
    "policy_timeout_ms must be less than or equal to timeout_ms" $
  reject_if (negb (unit_itv (is_active_lite_min_confidence c))) "active_lite_min_confidence must be between 0 and 1" $
  reject_if (negb (unit_itv (is_active_lite_gate_min_confidence c))) "active_lite_gate_min_confidence must be between 0 and 1" $
  reject_if (flt (is_active_lite_gate_min_confidence c) (is_active_lite_min_confidence c))
    "active_lite_gate_min_confidence must be greater than or equal to active_lite_min_confidence" $
  reject_if (is_shadow_warm_max_tracked_workloads c <=? 0) "shadow_warm_max_tracked_workloads must be greater than 0" (Ok tt).

Definition platform_of (s : Settings) : PlatformConfig :=
  let c := st_platform s in
  mkPlatformConfig (tenant_id c) (environment c) (runtime_role c) (interceptor_mode c) (api_ingest_rate_limit_per_minute c)
    (api_ingest_rate_limit_backend c) (api_ingest_max_batch_size c) (api_max_request_bytes c) (api_cors_allowed_origins c)
    (api_cors_allow_credentials c) (is_circuit_state_backend (st_interceptor s)) (is_shadow_events_enabled (st_interceptor s))
    (auth c) (index_backend c) (graph_backend c) (index_redis_ttl_s c) (event_bus_backend c) (kafka_bootstrap c)
    (redis_url c) (neo4j_password c).

(** [PlatformConfig()]: the sub-configurations are built, and validated, before the whole. *)
Definition PlatformConfig_load (s : Settings) : res PlatformConfig :=
  let? _ := _validate_active_lite_thresholds (st_interceptor s) in
  let? _ := validate_threshold_ordering (st_confidence s) in
  let? _ := _validate_runtime_settings (platform_of s) in
  Ok (platform_of s).

(** ** Parameters of the components *)

(** What [FailOpenInterceptor] takes from its configuration: the breaker has three probes. *)
Definition gateway_config (c : InterceptorSettings) : InterceptorConfig :=
  mkInterceptorConfig (is_timeout_ms c) (is_policy_timeout_ms c) (is_shadow_events_enabled c) (is_max_enrichment_header_bytes c)
    (is_max_header_value_length c) (is_active_lite_min_confidence c) (is_active_lite_gate_min_confidence c)
    (mkCBConfig (is_circuit_breaker_threshold c) (is_circuit_breaker_reset_s c) 3)
    (mkWarmConfig (is_shadow_warm_probability c) (Z.to_nat (is_shadow_warm_max_tracked_workloads c))).

Definition index_config (s : Settings) : IndexConfig :=
  mkIndexConfig (st_index_max_entries s) (st_index_redis_prefix s) (index_redis_ttl_s (st_platform s)).

Definition materializer_config (s : Settings) : MaterializerConfig :=
  mkMatConfig (cc_chargeback_threshold (st_confidence s)) (cc_provisional_threshold (st_confidence s)).

Definition kafka_config (s : Settings) (consume : bool) : KafkaConfig :=
  mkKafkaConfig (st_event_bus_topic s) (st_event_bus_dlq_topic s) consume.

(** [HeuristicReconciliationEngine()]: no setting reaches the engine. *)
Definition engine_configs (s : Settings) : CombinationConfig * HREExecutionConfig :=
  (default_combination_config, default_execution_config).

(** The application state: the kinds of its components with what they are built from. *)
Record Parts (R : Type) := mkParts {
  pt_state : AppState;
  pt_index : AttributionIndexStore R;
  pt_gateway : option InterceptorConfig;
  pt_kafka : option KafkaConfig;
  pt_processor : option (Processor R);
}.
Arguments mkParts {R} _ _ _ _ _.
Arguments pt_state {R} _.
Arguments pt_index {R} _.
Arguments pt_gateway {R} _.
Arguments pt_kafka {R} _.
Arguments pt_processor {R} _.

(** [AppState()]; [connect] is [Redis.from_url], which does not connect yet. The processor is
    that of the in-memory graph. *)
Definition AppState_parts {R} (connect : string → R) (s : Settings) : res (Parts R) :=
  let? c := PlatformConfig_load s in
  let? a := AppState_init c in
  let redis := if durable_index a && nonempty (redis_url c) then Some (connect (redis_url c)) else None in
  Ok (mkParts a (AttributionIndexStore_init redis)
        (match app_interceptor a with LiveInterceptor _ _ _ => Some (gateway_config (st_interceptor s)) | NoInterceptor _ => None end)
        (match app_bus a with KafkaBus _ consume => Some (kafka_config s consume) | _ => None end)
        (if app_processor a then Some (Processor_init redis PolicyEngine_init) else None)).

(** ** Lemmas *)

Lemma accepted_gateway c : _validate_active_lite_thresholds c = Ok tt → config_valid (gateway_config c) = true.
Proof.
  unfold _validate_active_lite_thresholds. intros Hok.
  repeat (apply reject_if_ok in Hok; let Hn := fresh "Hc" in destruct Hok as [Hn Hok]).
  unfold config_valid, gateway_config. cbn [policy_timeout_ms timeout_ms active_lite_min_confidence
    active_lite_gate_min_confidence warm_config shadow_warm_max_tracked_workloads].
  apply negb_false_iff in Hc1, Hc2. rewrite Hc0, Hc1, Hc2, Hc3. apply Z.leb_gt in Hc. apply Z.leb_gt in Hc4.
  rewrite !andb_true_iff. split_and!; try done; [by apply Z.ltb_lt|by apply Nat.ltb_lt; lia].
Qed.

Lemma load_accepted s c : PlatformConfig_load s = Ok c →
  c = platform_of s ∧ _validate_active_lite_thresholds (st_interceptor s) = Ok tt ∧
  fle (cc_chargeback_threshold (st_confidence s)) (cc_provisional_threshold (st_confidence s)) = false ∧
  _validate_runtime_settings c = Ok tt.
Proof.
  unfold PlatformConfig_load, validate_threshold_ordering.
  destruct (_validate_active_lite_thresholds _) as [[]|]; [|done]. cbn [rbind].
  destruct (fle _ _); [done|]. cbn [rbind].
  destruct (_validate_runtime_settings _) as [[]|] eqn:E; [|done]. cbn [rbind]. by intros [= <-].
Qed.

Lemma index_init_wf {R} (cfg : IndexConfig) (redis : option R) : 0 <= max_entries cfg → index_wf cfg (AttributionIndexStore_init redis).
Proof. intros Hmax. split_and!; [constructor|constructor|done|done|done]. Qed.

(** ** Properties *)

Section ready.
  Context {R : Type} `{RedisServer R} `{LuaText} `{EntryJson} `{SetOrder} `{NumLib}.
  Context (local_to_utc : Z → instant) (monotonic : nat → pyfloat) (wall_now : nat → instant) (connect : string → R).

(** C27. What the components are built from is what their theorems ask for. Of any settings
    from which the application state is built and that keep the bounds no validator checks -
    a confidence cap in the unit interval, room for one index entry, a breaker that opens
    after at least one failure -: the gateway's configuration is valid and its breaker's well
    formed, an entry is chargeback-ready only above the provisional threshold, the index is
    empty and bounded, Redis backs it exactly when configured, and whatever events reach the
    processor, each of its components keeps its invariant. *)
Theorem settings_components_ready (s : Settings) (p : Parts R) (Hok : AppState_parts connect s = Ok p)
    (Hcap : unit_itv (cc_cap (st_confidence s)) = true) (Hmax : 1 <= st_index_max_entries s)
    (Hthreshold : 1 <= is_circuit_breaker_threshold (st_interceptor s)) :
    (∀ g, pt_gateway p = Some g → config_valid g = true ∧ cfg_wf (breaker_config g)) ∧
    fle (chargeback_threshold (materializer_config s)) (provisional_threshold (materializer_config s)) = false ∧
    index_wf (index_config s) (pt_index p) ∧
    (is_Some (_redis (pt_index p)) ↔ index_backend (st_platform s) = "redis") ∧
    (∀ pr, pt_processor p = Some pr → ∀ evs,
       processor_inv monotonic (engine_configs s).2 (index_config s)
         (process_all local_to_utc monotonic wall_now (engine_configs s).1 (engine_configs s).2 (st_confidence s)
            (index_config s) (materializer_config s) evs pr)).
  Proof.
    unfold AppState_parts in Hok. destruct (PlatformConfig_load s) as [c|] eqn:El; [|done]. cbn [rbind] in Hok.
    destruct (load_accepted s c El) as (-> & Hg & Ht & Hv).
    destruct (AppState_init (platform_of s)) as [a|] eqn:Ea; [|done]. cbn [rbind] in Hok. injection Hok as <-.
    assert (durable_index a = String.eqb (index_backend (st_platform s)) "redis") as Hd.
    { unfold AppState_init in Ea. destruct (DeploymentMode_of _); [|done]. cbn [rbind] in Ea. by injection Ea as <-. }
    cbn [pt_gateway pt_index pt_processor]. split; [|split; [done|split; [|split]]].
    - intros g Hg'. destruct (app_interceptor a); [|done]. injection Hg' as <-. split; [by apply accepted_gateway|]. split; cbn; [done|lia].
    - apply index_init_wf. cbn. lia.
    - rewrite Hd. cbn [_redis AttributionIndexStore_init].
      destruct (String.eqb_spec (index_backend (st_platform s)) "redis") as [E|]; cbn [andb].
      + split; [done|]. intros _. enough (nonempty (redis_url (st_platform s)) = true) as -> by by eexists.
        accepted Hv. unfold redis_used in Hchk19. cbn [index_backend platform_of redis_url] in *. rewrite E in Hchk19.
        cbn [orb andb String.eqb] in Hchk19. unfold nonempty. apply negb_true_iff. exact Hchk19.
      + split; [by intros []|done].
    - intros pr Hpr evs. destruct (app_processor a); [|done]. injection Hpr as <-.
      apply process_all_inv; [done..|]. by apply processor_inv_init.
  Qed.
End ready.

(** The size of the index is not validated: whatever settings are accepted are accepted with
    any size. With room for no entry an entry is gone as soon as it is materialized, while
    its version is kept; with a negative size the first materialization raises, after the
    entry was evicted, and so does every later one. *)
Theorem index_size_not_validated {R} `{RedisServer R} `{LuaText} `{EntryJson} (s : Settings) (c : PlatformConfig)
    (size : Z) (now : instant) (e : AttributionIndexEntry) (Hok : PlatformConfig_load s = Ok c) (Hsize : size <= 0) :
  let s' := mkSettings (st_platform s) (st_interceptor s) (st_confidence s) (st_trac s) (st_equivalence s)
              (st_api_ingest_rate_limit_redis_prefix s) size (st_index_redis_prefix s) (st_event_bus_topic s)
              (st_event_bus_dlq_topic s) (st_event_bus_consumer_group s) (st_event_bus_dedup_ttl_s s) in
  let m := materialize (index_config s') now e (AttributionIndexStore_init (None : option R)) in
  PlatformConfig_load s' = Ok c ∧ _index m.2 = [] ∧ (IndexStore.lookup (index_config s') (ie_workload_id e) m.2).1 = Ok None ∧
  (m.1 = if size =? 0 then Ok tt else Raise (KeyError "dictionary is empty")) ∧
  (size = 0 → od_get (ie_workload_id e) (_versions m.2) = Some 1).
Proof.
  intros s' m. subst m. unfold materialize, materialize_local, _insert_local_locked. cbn [AttributionIndexStore_init _index _versions metrics _redis].
  change (next_version (ie_workload_id e) (AttributionIndexStore_init (None : option R))) with 1.
  set (e' := with_version e 1 now). change (ie_workload_id e') with (ie_workload_id e).
  assert (od_move_to_end (ie_workload_id e) (od_set (ie_workload_id e) e' ([] : odict string AttributionIndexEntry)) = [(ie_workload_id e, e')]) as ->
    by (rewrite od_move_set; done).
  cbn [length]. cbn [evict_loop _index length]. change (max_entries (index_config s')) with size.
  rewrite (proj2 (Z.ltb_lt size (Z.of_nat 1))) by lia. cbn [_index _versions length].
  destruct (Z.ltb_spec size (Z.of_nat 0)); cbn [_index _versions metrics _redis].
  - rewrite (proj2 (Z.eqb_neq size 0)) by lia. split_and!; try done. lia.
  - assert (size = 0) as -> by lia. split_and!; try done. intros _. apply od_get_set_eq.
Qed.

(** ** Witnesses *)

Definition redis_settings : Settings :=
  mkSettings (mkPlatformConfig "t" "test" "all" "active" 60 "memory" 10 1000 "" false "local" true default_auth_config
    "redis" "memory" 60 "memory" "" "redis://r" "") default_interceptor_settings default_confidence_config default_trac_config
    default_equivalence_config "aci:ratelimit" 5 "aci:index" "aci.events" "aci.events.dlq" "aci-processor" 86400.

Lemma settings_components_ready_witness :
  ∃ p, AppState_parts (λ _, [] : MemServer) redis_settings = Ok p ∧ is_Some (_redis (pt_index p)) ∧
    (∀ g, pt_gateway p = Some g → config_valid g = true ∧ cfg_wf (breaker_config g)).
Proof.
  destruct (AppState_parts (λ _, [] : MemServer) redis_settings) as [p|] eqn:E; [|vm_compute in E; discriminate E].
  destruct (@settings_components_ready MemServer _ _ _ insertion_order step_numlib id (λ _, f0) (λ _, 0) (λ _, [] : MemServer) redis_settings p
    E ltac:(vm_compute; reflexivity) ltac:(cbn; lia) ltac:(cbn; lia)) as (Hg & _ & _ & [_ Hr] & _).
  exists p. exact (conj eq_refl (conj (Hr eq_refl) Hg)).
Defined.

Lemma index_size_not_validated_witness :
  let i := (materialize (R := MemServer) (mkIndexConfig (-1) "aci:index" 1800) 7 (example_entry "svc") (AttributionIndexStore_init None)) in
  i.1 = Raise (KeyError "dictionary is empty") ∧ _index i.2 = [].
Proof.
  destruct (index_size_not_validated (R := MemServer) default_settings default_platform_config (-1) 7 (example_entry "svc")
    eq_refl ltac:(lia)) as (_ & Hi & _ & Hr & _).
  exact (conj Hr Hi).
Defined.
