(* ===== verification/Notifications.v ===== *)
(** * The notification hub (src/aci/integrations/notifications.py)

    Dispatch over the channels, one delivery record per attempt, and the bounded history.
    The network is a parameter: what a POST of a JSON body to a target comes to. A record's
    append and truncation is one step (the lock). *)

From S2P Require Import Prelude PyFloat PyData PyTime PyValue.
From Stdlib Require Import ZArith Ascii Lia.
From stdpp Require Import base list strings pretty.

Open Scope string_scope.
Open Scope list_scope.
Open Scope nat_scope.
Local Open Scope py_scope.

(** ** Data *)

Record NotificationMessage := mkMessage {
  nm_event_type : string; nm_title : string; nm_detail : string; nm_severity : string; nm_metadata : odict string string }.

Record NotificationDelivery := mkDelivery {
  nd_delivery_id : string; nd_channel : string; nd_target : string; nd_status : string; nd_message : string; nd_sent_at : instant }.

(** The outcome of [urlopen]: a response, a [URLError] with its reason, or another exception. *)
Inductive post_outcome := Response (status : Z) | Unreachable (reason : string) | PostRaises (e : exn).

Class Network := urlopen : string → pyval → post_outcome.

(** ** The hub *)

Record NotificationHub := mkHub { live_network : bool; _deliveries : list NotificationDelivery }.

Definition NotificationHub_init (live : bool) : NotificationHub := mkHub live [].

(** [l[-n:]] for a positive [n]. *)
Definition last_n {A} (n : nat) (l : list A) : list A := drop (length l - n) l.

(** [int(timestamp.timestamp() * 1000)] *)
Definition millis (t : instant) : res Z := int_of_float (fmul (total_seconds t 0%Z) (of_Z 1000)).

Definition _record (channel target status message : string) (timestamp : instant) : SE NotificationHub NotificationDelivery :=
  let! hub := se_get id in
  let! ms := se_lift (millis timestamp) in
  let d := mkDelivery ("delivery-" +:+ pretty ms +:+ "-" +:+ pretty (Z.of_nat (length (_deliveries hub) + 1))) channel target status message
             timestamp in
  se_modify (λ hub,
    let l := _deliveries hub ++ [d] in
    mkHub (live_network hub) (if 1000 <? length l then last_n 1000 l else l));;;
  se_ret d.

Definition str_dict (d : odict string string) : pyval := VDict (map (λ kv, (kv.1, VStr kv.2)) d).

(** [f"[{severity.upper()}] {title}"] *)
Definition headline (m : NotificationMessage) : string := "[" +:+ upper (nm_severity m) +:+ "] " +:+ nm_title m.

Definition _slack_body (m : NotificationMessage) : pyval :=
  VDict [("text", VStr (headline m +:+ String (ascii_of_nat 10) "" +:+ nm_detail m)); ("metadata", str_dict (nm_metadata m));
         ("event_type", VStr (nm_event_type m))].

Definition _webhook_body (m : NotificationMessage) (now : instant) : pyval :=
  VDict [("event_type", VStr (nm_event_type m)); ("severity", VStr (nm_severity m)); ("title", VStr (nm_title m));
         ("detail", VStr (nm_detail m)); ("metadata", str_dict (nm_metadata m)); ("sent_at", VStr (isoformat now))].

Section hub.
  Context `{Network}.

Definition _deliver (channel target : string) (body : pyval) (timestamp : instant) : SE NotificationHub NotificationDelivery :=
    let! live := se_get live_network in
    if negb live || negb (startswith target "http") then _record channel target "simulated" "delivery simulated" timestamp else
    match urlopen target body with
    | Response status =>
        _record channel target (if ((200 <=? status) && (status <? 300))%Z then "sent" else "failed")
          ("http_status=" +:+ pretty status) timestamp
    | Unreachable reason => _record channel target "failed" reason timestamp
    | PostRaises e => se_raise e
    end.

  (** The e-mails to the recipients, one record each. *)
Fixpoint mail_all (m : NotificationMessage) (recipients : list string) (timestamp : instant) : SE NotificationHub (list NotificationDelivery) :=
    match recipients with
    | [] => se_ret []
    | r :: rest =>
        let! d := _record "email" r "simulated" (headline m +:+ ": " +:+ nm_detail m) timestamp in
        let! ds := mail_all m rest timestamp in
        se_ret (d :: ds)
    end.

  (** One of the channels; [now] is the reading of the clock for a webhook's body. *)
Definition send_channel (m : NotificationMessage) (channel slack_webhook_url webhook_url : string) (email_to : list string)
      (timestamp now : instant) : SE NotificationHub (list NotificationDelivery) :=
    if String.eqb channel "slack" then
      let! d := _deliver "slack" (str_or (strip slack_webhook_url) "slack://simulated") (_slack_body m) timestamp in se_ret [d]
    else if String.eqb channel "webhook" then
      let! d := _deliver "webhook" (str_or (strip webhook_url) "webhook://simulated") (_webhook_body m now) timestamp in se_ret [d]
    else if String.eqb channel "email" then
      match email_to with
      | [] =>
          let! d := _record "email" "email://missing-recipient" "failed" "email_to must contain at least one recipient" timestamp in
          se_ret [d]
      | _ => mail_all m email_to timestamp
      end
    else se_ret [].

Fixpoint send_all (m : NotificationMessage) (channels : list string) (slack_webhook_url webhook_url : string) (email_to : list string)
      (timestamp : instant) (nows : nat → instant) : SE NotificationHub (list NotificationDelivery) :=
    match channels with
    | [] => se_ret []
    | c :: rest =>
        let! ds := send_channel m c slack_webhook_url webhook_url email_to timestamp (nows 0) in
        let! ds' := send_all m rest slack_webhook_url webhook_url email_to timestamp (λ n, nows (S n)) in
        se_ret (ds ++ ds')
    end.

Definition send (m : NotificationMessage) (channels : list string) (slack_webhook_url webhook_url : string) (email_to : list string)
      (timestamp : instant) (nows : nat → instant) : SE NotificationHub (list NotificationDelivery) :=
    send_all m (map (λ c, lower (strip c)) channels) slack_webhook_url webhook_url email_to timestamp nows.
End hub.

Definition list_deliveries (limit : Z) (hub : NotificationHub) : list NotificationDelivery :=
  if (limit <=? 0)%Z then [] else last_n (Z.to_nat limit) (_deliveries hub).

Definition clear (hub : NotificationHub) : NotificationHub := mkHub (live_network hub) [].

(** ** Lemmas *)

Lemma last_n_length {A} n (l : list A) : length (last_n n l) = n `min` length l.
Proof. unfold last_n. rewrite length_drop. lia. Qed.

Lemma last_n_all {A} n (l : list A) : length l <= n → last_n n l = l.
Proof. intros H. unfold last_n. replace (length l - n) with 0 by lia. done. Qed.

Lemma last_n_app {A} n (l r : list A) : last_n n (last_n n l ++ r) = last_n n (l ++ r).
Proof.
  unfold last_n. rewrite !length_app, length_drop.
  destruct (Nat.le_gt_cases (length l) n) as [H|H]; [replace (length l - n) with 0 by lia; simpl; do 2 f_equal; lia|].
  destruct (Nat.le_gt_cases (length r) n) as [Hr|Hr].
  - rewrite !drop_app_le by (rewrite ?length_drop; lia). rewrite drop_drop. do 2 f_equal. lia.
  - rewrite !drop_app_ge by (rewrite ?length_drop; lia). rewrite length_drop. f_equal. lia.
Qed.

(** The history of a hub: what it held and then the new records, the last thousand of them. *)
Definition recorded (hub : NotificationHub) (recs : list NotificationDelivery) (hub' : NotificationHub) : Prop :=
  live_network hub' = live_network hub ∧ _deliveries hub' = last_n 1000 (_deliveries hub ++ recs).

Lemma recorded_nil hub : length (_deliveries hub) <= 1000 → recorded hub [] hub.
Proof. intros H. split; [done|]. by rewrite app_nil_r, last_n_all. Qed.

Lemma recorded_app hub recs hub1 recs' hub2 : recorded hub recs hub1 → recorded hub1 recs' hub2 → recorded hub (recs ++ recs') hub2.
Proof. intros [L1 D1] [L2 D2]. split; [congruence|]. by rewrite D2, D1, last_n_app, app_assoc. Qed.

Lemma recorded_bounded hub recs hub' : recorded hub recs hub' → length (_deliveries hub') <= 1000.
Proof. intros [_ ->]. rewrite last_n_length. lia. Qed.

(** From a hub, a computation records deliveries that satisfy [ok] (some even when it raises),
    and a result that it returns stands in relation [Q] with them. *)
Definition emits {A} (ok : NotificationDelivery → Prop) (m : SE NotificationHub A) (Q : A → list NotificationDelivery → Prop)
    (hub : NotificationHub) : Prop :=
  ∃ recs, recorded hub recs (m hub).2 ∧ Forall ok recs ∧ match (m hub).1 with Ok a => Q a recs | Raise _ => True end.

Lemma emits_ret {A} ok (a : A) (Q : A → list NotificationDelivery → Prop) hub :
  length (_deliveries hub) <= 1000 → Q a [] → emits ok (se_ret a) Q hub.
Proof. intros Hl HQ. exists []. split_and!; [by apply recorded_nil|constructor|done]. Qed.

Lemma emits_bind {A B} ok (m : SE NotificationHub A) (k : A → SE NotificationHub B) Q1 Q hub :
  emits ok m Q1 hub →
  (∀ a r hub1, Q1 a r → length (_deliveries hub1) <= 1000 → live_network hub1 = live_network hub → emits ok (k a) (λ b r', Q b (r ++ r')) hub1) →
  emits ok (se_bind m k) Q hub.
Proof.
  intros (r & R & O & E) Hk. unfold emits, se_bind. destruct (m hub) as [[a|e] hub1]; cbn [fst snd] in *; [|by exists r].
  destruct (Hk a r hub1 E (recorded_bounded _ _ _ R) (proj1 R)) as (r' & R' & O' & E'). exists (r ++ r').
  split_and!; [by eapply recorded_app|by apply Forall_app|done].
Qed.

(** What a record tells: the time of the send, a status that fits the mode of the hub. *)
Definition told (live : bool) (timestamp : instant) (d : NotificationDelivery) : Prop :=
  nd_sent_at d = timestamp ∧
  (nd_status d = "simulated" ∨ nd_status d = "failed" ∨ nd_status d = "sent" ∧ live = true ∧ startswith (nd_target d) "http" = true).

Section lemmas.
  Context `{Network} (timestamp : instant) (live : bool).

Lemma emits_record channel target status message hub :
    length (_deliveries hub) <= 1000 → 
    (status = "simulated" ∨ status = "failed" ∨ status = "sent" ∧ live = true ∧ startswith target "http" = true) →
    emits (told live timestamp) (_record channel target status message timestamp) (λ d r, r = [d]) hub.
  Proof.
    intros Hl Hs. unfold emits, _record. unfold se_bind at 1 2. cbn [se_get id]. unfold se_bind at 1 3, se_lift at 1 2.
    destruct (millis timestamp) as [ms|e]; [|exists []; split_and!; [by apply recorded_nil|constructor|done]].
    set (d := mkDelivery _ _ _ _ _ _). exists [d]. split_and!; [|by apply Forall_singleton|done].
    split; [done|]. cbn [se_bind se_modify se_ret snd _deliveries].
    destruct (Nat.ltb_spec 1000 (length (_deliveries hub ++ [d]))); [done|]. by rewrite last_n_all by lia.
  Qed.

Lemma emits_deliver channel target body hub :
    length (_deliveries hub) <= 1000 → live_network hub = live →
    emits (told live timestamp) (_deliver channel target body timestamp) (λ d r, r = [d]) hub.
  Proof.
    intros Hl Hv. unfold _deliver.
    assert (∀ m, emits (told live timestamp) (m live) (λ d r, r = [d]) hub →
      emits (told live timestamp) (let! l := se_get live_network in m l)%py (λ d r, r = [d]) hub) as Hget.
    { intros m. unfold emits, se_bind, se_get. by rewrite Hv. }
    apply Hget. destruct (negb live || negb (startswith target "http")) eqn:E; [apply emits_record; [done|by left]|].
    apply orb_false_iff in E as [E1%negb_false_iff E2%negb_false_iff].
    destruct (urlopen target body) as [status|reason|e].
    - apply emits_record; [done|]. destruct (_ && _); [right; right; done|right; by left].
    - apply emits_record; [done|right; by left].
    - exists []. split_and!; [by apply recorded_nil|constructor|done].
  Qed.

Lemma emits_mail m recipients hub : length (_deliveries hub) <= 1000 →
    emits (told live timestamp) (mail_all m recipients timestamp) (λ ds r, r = ds) hub.
  Proof.
    revert hub; induction recipients as [|x rest IH]; intros hub Hl; [by apply emits_ret|]. cbn [mail_all].
    eapply emits_bind; [apply emits_record; [done|by left]|]. intros d r hub1 -> Hl1 _.
    eapply emits_bind; [by apply IH|]. intros ds r hub2 -> Hl2 _. by apply emits_ret; [|rewrite app_nil_r].
  Qed.

Lemma emits_single (m : SE NotificationHub NotificationDelivery) hub :
    emits (told live timestamp) m (λ d r, r = [d]) hub →
    emits (told live timestamp) (let! d := m in se_ret [d])%py (λ ds r, r = ds) hub.
  Proof. intros Hm. eapply emits_bind; [exact Hm|]. intros d r hub1 -> Hl1 _. by apply emits_ret. Qed.

Lemma emits_channel m channel slack hook mails now hub : length (_deliveries hub) <= 1000 → live_network hub = live →
    emits (told live timestamp) (send_channel m channel slack hook mails timestamp now) (λ ds r, r = ds) hub.
  Proof.
    intros Hl Hv. unfold send_channel. repeat case_match.
    - by apply emits_single, emits_deliver.
    - by apply emits_single, emits_deliver.
    - apply emits_single, emits_record; [done|right; by left].
    - by apply emits_mail.
    - by apply emits_ret.
  Qed.

Lemma emits_all m channels slack hook mails nows hub : length (_deliveries hub) <= 1000 → live_network hub = live →
    emits (told live timestamp) (send_all m channels slack hook mails timestamp nows) (λ ds r, r = ds) hub.
  Proof.
    revert nows hub; induction channels as [|c rest IH]; intros nows hub Hl Hv; [by apply emits_ret|]. cbn [send_all].
    eapply emits_bind; [by apply emits_channel|]. intros ds r hub1 -> Hl1 Hv1.
    eapply emits_bind; [apply IH; [done|congruence]|]. intros ds' r hub2 -> Hl2 _. by apply emits_ret; [|rewrite app_nil_r].
  Qed.
End lemmas.

(** A hub with its sends. *)
Record send_call := mkSend {
  sd_message : NotificationMessage; sd_channels : list string; sd_slack : string; sd_webhook : string; sd_email : list string;
  sd_timestamp : instant; sd_nows : nat → instant }.

Definition run_send `{Network} (hub : NotificationHub) (c : send_call) : NotificationHub :=
  (send (sd_message c) (sd_channels c) (sd_slack c) (sd_webhook c) (sd_email c) (sd_timestamp c) (sd_nows c) hub).2.

(** ** Properties *)

(** The history of the hub after any sends, failed ones included, is the last thousand of
    all the records that were made, so a listing returns the newest ones; a send that returns,
    returns exactly the records it made, in the order of the channels; a send that an unexpected
    exception of the network ends keeps the records made before it; and a record says
    [sent] only of a live hub and a web target. *)
Theorem hub_history_exact `{Network} (calls : list send_call) (c : send_call) (live : bool) (limit : Z) :
  let hub := fold_left run_send calls (NotificationHub_init live) in
  let '(r, hub') := send (sd_message c) (sd_channels c) (sd_slack c) (sd_webhook c) (sd_email c) (sd_timestamp c) (sd_nows c) hub in
  ∃ recs, _deliveries hub' = last_n 1000 (_deliveries hub ++ recs) ∧ Forall (told live (sd_timestamp c)) recs ∧
    (∀ ds, r = Ok ds → ds = recs) ∧
    ((0 <= limit <= 1000)%Z → list_deliveries limit hub' = last_n (Z.to_nat limit) (_deliveries hub ++ recs)).
Proof.
  intros hub. assert (length (_deliveries hub) <= 1000 ∧ live_network hub = live) as [Hl Hv].
  { subst hub. assert (length (_deliveries (NotificationHub_init live)) <= 1000 ∧ live_network (NotificationHub_init live) = live) as H0
      by (split; [simpl; lia|done]).
    revert H0. generalize (NotificationHub_init live). induction calls as [|c' calls IH]; intros h H0; [done|]. cbn [fold_left].
    apply IH. destruct H0 as [Hl Hv]. unfold run_send, send.
    destruct (emits_all (sd_timestamp c') live (sd_message c') (map (λ x, lower (strip x)) (sd_channels c')) (sd_slack c') (sd_webhook c')
      (sd_email c') (sd_nows c') h Hl Hv) as (recs & R & _). split; [by eapply recorded_bounded|]. by rewrite (proj1 R). }
  unfold send.
  destruct (emits_all (sd_timestamp c) live (sd_message c) (map (λ x, lower (strip x)) (sd_channels c)) (sd_slack c) (sd_webhook c)
    (sd_email c) (sd_nows c) hub Hl Hv) as (recs & R & O & E).
  destruct (send_all _ _ _ _ _ _ _ hub) as [r hub']. cbn [fst snd] in *. exists recs. destruct R as [_ Ed]. split_and!; [done|done| |].
  - intros ds ->. by symmetry.
  - intros Hlim. unfold list_deliveries. rewrite Ed. destruct (Z.leb_spec limit 0) as [Hz|Hz].
    + replace (Z.to_nat limit) with 0 by lia. unfold last_n. by rewrite drop_ge by lia.
    + unfold last_n. rewrite length_drop, drop_drop. f_equal. lia.
Qed.

(** Delivery identifiers stop being unique once the history is full: two deliveries of one
    send, to different channels, then get the same identifier. *)
Theorem delivery_ids_collide `{Network} (m : NotificationMessage) (slack hook : string) (mails : list string) (timestamp : instant)
    (nows : nat → instant) (ms : Z) (hub : NotificationHub) :
  length (_deliveries hub) = 1000 → live_network hub = false → millis timestamp = Ok ms →
  ∃ d1 d2 hub', send m ["slack"; "webhook"] slack hook mails timestamp nows hub = (Ok [d1; d2], hub') ∧
    nd_delivery_id d1 = nd_delivery_id d2 ∧ nd_channel d1 ≠ nd_channel d2 ∧
    d1 ∈ _deliveries hub' ∧ d2 ∈ _deliveries hub'.
Proof.
  intros Hl Hv Hms.
  assert (∀ channel target status message hub, length (_deliveries hub) = 1000 → ∃ d hub',
    _record channel target status message timestamp hub = (Ok d, hub') ∧ length (_deliveries hub') = 1000 ∧
    live_network hub' = live_network hub ∧ nd_channel d = channel ∧
    nd_delivery_id d = "delivery-" +:+ pretty ms +:+ "-" +:+ pretty (Z.of_nat 1001) ∧
    _deliveries hub' = last_n 1000 (_deliveries hub ++ [d])) as Hrec.
  { clear hub Hl Hv. intros channel target status message hub Hl. unfold _record, se_bind, se_get, se_lift, se_modify, se_ret. rewrite Hms.
    cbn [id]. rewrite length_app, Hl. cbn [length]. change (1000 <? 1000 + 1) with true. eexists _, _. split; [reflexivity|].
    cbn [_deliveries live_network nd_channel nd_delivery_id]. split_and!; try done. rewrite last_n_length, length_app, Hl. done. }
  unfold send. cbn [map]. change (lower (strip "slack")) with "slack". change (lower (strip "webhook")) with "webhook".
  cbn [send_all]. unfold send_channel. cbn [String.eqb Ascii.eqb Bool.eqb andb].
  unfold _deliver, se_bind, se_get. rewrite Hv. cbn [negb orb].
  edestruct (Hrec "slack") as (d1 & hub1 & -> & L1 & V1 & C1 & I1 & D1); [exact Hl|]. unfold se_ret. rewrite V1, Hv. cbn [negb orb].
  edestruct (Hrec "webhook") as (d2 & hub2 & -> & L2 & V2 & C2 & I2 & D2); [exact L1|].
  exists d1, d2, hub2. split; [reflexivity|]. split_and!; [congruence|congruence| |].
  - rewrite D2, D1, last_n_app, <- app_assoc. unfold last_n. rewrite !length_app, Hl. cbn [length app].
    rewrite drop_app_le by lia. apply elem_of_app. right. by left.
  - rewrite D2. unfold last_n. rewrite length_app, L1. cbn [length]. rewrite drop_app_le by lia. apply elem_of_app. right. by left.
Qed.

(** ** Witnesses *)

(** A network that answers every POST. *)
Definition quiet_network : Network := λ _ _, Response 200.

Definition sample_message : NotificationMessage := mkMessage "policy" "Budget" "80% used" "info" [].

Definition sample_send : send_call := mkSend sample_message [" Slack "; "email"; "fax"] "https://hooks/x" "" ["a@b"; "c@d"] 0%Z (λ _, 0%Z).

Lemma hub_history_exact_witness :
  let hub' := run_send (H := quiet_network) (run_send (H := quiet_network) (NotificationHub_init true) sample_send) sample_send in
  map nd_status (list_deliveries 2 hub') = ["simulated"; "simulated"] ∧ ∃ r, list_deliveries 2 hub' = last_n 2 r.
Proof.
  pose proof (hub_history_exact (H := quiet_network) [sample_send] sample_send true 2) as H1.
  cbn zeta in H1. unfold run_send at 1 2. split; [vm_compute; reflexivity|].
  destruct (send _ _ _ _ _ _ _ _) as [r hub'] in H1 |- *. destruct H1 as (recs & _ & _ & _ & E).
  eexists. cbn [snd]. apply E. split; vm_compute; discriminate.
Defined.

Lemma delivery_ids_collide_witness :
  ∃ d1 d2 hub', send (H := quiet_network) sample_message ["slack"; "webhook"] "" "" [] 0%Z (λ _, 0%Z)
      (mkHub false (replicate 1000 (mkDelivery "delivery-0-1" "email" "a@b" "simulated" "m" 0%Z))) = (Ok [d1; d2], hub') ∧
    nd_delivery_id d1 = nd_delivery_id d2.
Proof.
  destruct (delivery_ids_collide (H := quiet_network) sample_message "" "" [] 0%Z (λ _, 0%Z) 0%Z
    (mkHub false (replicate 1000 (mkDelivery "delivery-0-1" "email" "a@b" "simulated" "m" 0%Z)))) as (d1 & d2 & hub' & E & Ei & _).
  - vm_compute. reflexivity.
  - reflexivity.
  - vm_compute. reflexivity.
  - exists d1, d2, hub'. split; [exact E|exact Ei].
Defined.
