(* ===== verification/Connectors.v ===== *)
(** * Ingestion connectors (src/aci/ingestion/connectors)

    AWS billing records, CloudTrail events and Bedrock logs, GitHub webhooks and workflow
    jobs, Okta system logs and SCIM users, each transformed into a domain event. Payloads are
    dynamic values: every access, conversion and validation that can raise does. pydantic's
    lax validation of constructor arguments is the class [LaxFields]. *)

From S2P Require Import Prelude PyFloat PyData PyMath PySha256 PyTime PyValue PyIso Models EventSchema EventBus Policy.
From Stdlib Require Import ZArith QArith Ascii Lia.
From stdpp Require Import base list sets strings pretty.

Open Scope string_scope.
Open Scope list_scope.
Open Scope Z_scope.

(** ** Payload access *)

(** [v.get(k, default)]: only dictionaries have it. *)
Definition attr_get (v : pyval) (k : string) (default : pyval) : res pyval :=
  match v with VDict d => Ok (dget d k default) | _ => Raise OtherError end.

(** [p.get(k, {}) if isinstance(p.get(k), dict) else {}] *)
Definition sub_dict (p : odict string pyval) (k : string) : odict string pyval :=
  match od_get k p with Some (VDict d) => d | _ => [] end.

(** [str(p.get(k, ""))] *)
Definition text (p : odict string pyval) (k : string) : string := py_str (dget p k (VStr "")).

(** [a or b] on dynamic values. *)
Definition or_val (a b : pyval) : pyval := if truthy a then a else b.

(** [int(p.get(k, 0) or 0)] *)
Definition int_or0 (p : odict string pyval) (k : string) : res Z := py_int (or_val (dget p k (VInt 0)) (VInt 0)).

(** [sort_keys=True] *)
Fixpoint sort_keys (v : pyval) : pyval :=
  match v with
  | VList l => VList (map sort_keys l)
  | VDict d => VDict (stable_sort (λ a b, str_lt a.1 b.1) (map (λ kv, (kv.1, sort_keys kv.2)) d))
  | v => v
  end.

(** [hashlib.sha256(json.dumps(v, sort_keys=True, ...)).hexdigest()[:24]] *)
Definition json_fingerprint (v : pyval) : string := str_take 24 (sha256_hex (json_dumps (sort_keys v))).

(** [_stable_hash] of the GitHub and Okta connectors; the arguments are a tuple. *)
Definition _stable_hash (parts : list pyval) : string := json_fingerprint (VList parts).

(** ** Model construction *)

(** What a call draws from outside: the identifier and the clock readings. *)
Record ambient := mkAmbient { am_event_id : string; am_now : instant; am_ingest : instant }.

(** Lax validation of constructor arguments (pydantic): a text field, an integer field, and
    a float field with [ge=0.0]. *)
Class LaxFields := {
  lax_str : pyval → option string;
  lax_int : pyval → option Z;
  lax_ge0 : pyval → option pyfloat;
}.

(** As documented: texts are kept and nothing else becomes a text; numbers of the field's
    type are kept. *)
Class LaxFieldsLaws `{LaxFields} := {
  lax_str_id s : lax_str (VStr s) = Some s;
  lax_str_only v s : lax_str v = Some s → v = VStr s;
  lax_int_id z : lax_int (VInt z) = Some z;
  lax_ge0_id q : (0 <= q)%Q → lax_ge0 (VFloat (Fin q)) = Some (Fin q);
}.

Definition validated {A} (o : option A) : res A :=
  match o with Some a => Ok a | None => Raise (ValueError "validation error") end.

Record BillingLineItem := mkBilling {
  bl_cloud_provider : string;
  bl_account_id : string;
  bl_service : string;
  bl_resource_arn : string;
  bl_region : string;
  bl_cost_usd : pyfloat;
  bl_usage_quantity : pyfloat;
  bl_usage_unit : string;
  bl_tags : odict string string;
}.

Definition str_map_val (d : odict string string) : pyval := VDict (map (λ kv, (kv.1, VStr kv.2)) d).

(** [model_dump()] of a line item without a billing period. *)
Definition billing_dump (b : BillingLineItem) : odict string pyval :=
  [("cloud_provider", VStr (bl_cloud_provider b)); ("account_id", VStr (bl_account_id b));
   ("service", VStr (bl_service b)); ("resource_arn", VStr (bl_resource_arn b)); ("region", VStr (bl_region b));
   ("cost_usd", VFloat (bl_cost_usd b)); ("usage_quantity", VFloat (bl_usage_quantity b));
   ("usage_unit", VStr (bl_usage_unit b)); ("tags", str_map_val (bl_tags b));
   ("billing_period_start", VNone); ("billing_period_end", VNone)].

Record InferenceEvent := mkInference {
  inf_model : string;
  inf_provider : string;
  inf_cloud_resource_arn : string;
  inf_region : string;
  inf_input_tokens : Z;
  inf_output_tokens : Z;
  inf_latency_ms : pyfloat;
  inf_cost_usd : pyfloat;
  inf_request_id : string;
}.

Definition inference_dump (i : InferenceEvent) : odict string pyval :=
  [("model", VStr (inf_model i)); ("provider", VStr (inf_provider i));
   ("cloud_resource_arn", VStr (inf_cloud_resource_arn i)); ("region", VStr (inf_region i));
   ("input_tokens", VInt (inf_input_tokens i)); ("output_tokens", VInt (inf_output_tokens i));
   ("latency_ms", VFloat (inf_latency_ms i)); ("cost_usd", VFloat (inf_cost_usd i));
   ("api_key_id", VStr ""); ("service_name", VStr ""); ("request_id", VStr (inf_request_id i))].

Section connectors.
  Context `{LaxFields} `{SetOrder} (tenant_id : string) (am : ambient).
  Implicit Types (record trail_event log_entry payload event : odict string pyval).

  (** [DomainEvent(...)] with the identifier, the ingest time and the version by default. *)
Definition new_event (event_type : EventType) (subject : pyval) (attributes : odict string pyval)
      (event_time : instant) (source idempotency_key : string) : res DomainEvent :=
    (let? subject_id := validated (lax_str subject) in
     DomainEvent_new (am_event_id am) event_type subject_id attributes (Aware event_time 0)
                     (Aware (am_ingest am) 0) source idempotency_key tenant_id 1)%py.

  (** *** AWS billing *)

Definition tag_prefix : string := "resourceTags/user:".

Definition _extract_tags record : odict string string :=
    fold_left (λ tags kv, if startswith kv.1 tag_prefix && truthy kv.2
                          then od_set (str_replace tag_prefix "" kv.1) (py_str kv.2) tags else tags) record [].

Definition _stable_record_fingerprint record : string :=
    json_fingerprint (VDict
      [("usage_account_id", VStr (text record "lineItem/UsageAccountId"));
       ("service", VStr (text record "lineItem/ProductCode"));
       ("resource_id", VStr (text record "lineItem/ResourceId"));
       ("usage_start", VStr (text record "lineItem/UsageStartDate"));
       ("usage_end", VStr (text record "lineItem/UsageEndDate"));
       ("cost", VStr (text record "lineItem/UnblendedCost"))]).

Definition cur_key record : string :=
    let line_item_id := strip (text record "identity/LineItemId") in
    if String.eqb line_item_id "" then "aws-cur-fallback:" +:+ _stable_record_fingerprint record
    else "aws-cur:" +:+ line_item_id.

  (** [BillingLineItem(...)]: the conversions, then the validation. *)
Definition cur_billing (account_id service : string) (raw_cost : pyval) record : res BillingLineItem :=
    (let? cost := py_float raw_cost in
     let? quantity := py_float (dget record "lineItem/UsageAmount" (VInt 0)) in
     let? resource_arn := validated (lax_str (dget record "lineItem/ResourceId" (VStr ""))) in
     let? region := validated (lax_str (dget record "product/region" (VStr ""))) in
     let? cost_usd := validated (lax_ge0 (VFloat cost)) in
     let? usage_quantity := validated (lax_ge0 (VFloat quantity)) in
     let? usage_unit := validated (lax_str (dget record "pricing/unit" (VStr ""))) in
     Ok (mkBilling "aws" account_id service resource_arn region cost_usd usage_quantity usage_unit
                   (_extract_tags record)))%py.

Definition transform_cur_record record : res DomainEvent :=
    (let account_id := strip (text record "lineItem/UsageAccountId") in
     let service := strip (text record "lineItem/ProductCode") in
     if String.eqb account_id "" || String.eqb service ""
     then Raise (ValueError "CUR record missing required account_id or service") else
     match dget record "lineItem/UnblendedCost" VNone with
     | VNone => Raise (ValueError "CUR record missing required lineItem/UnblendedCost")
     | raw_cost =>
         let? billing := cur_billing account_id service raw_cost record in
         new_event BILLING_LINE_ITEM (VStr (str_or (bl_resource_arn billing) (bl_account_id billing)))
                   (billing_dump billing) (am_now am) "aws-cur" (cur_key record)
     end)%py.

  (** *** CloudTrail *)

Definition _stable_trail_fingerprint trail_event : res string :=
    (let identity := dget trail_event "userIdentity" (VDict []) in
     let? arn := attr_get identity "arn" (VStr "") in
     let? principal := attr_get identity "principalId" (VStr "") in
     Ok (json_fingerprint (VDict
       [("event_name", VStr (text trail_event "eventName")); ("event_time", VStr (text trail_event "eventTime"));
        ("source_ip", VStr (text trail_event "sourceIPAddress")); ("identity_arn", VStr (py_str arn));
        ("identity_principal_id", VStr (py_str principal))])))%py.

Definition trail_key trail_event : res string :=
    (let event_id := strip (text trail_event "eventID") in
     if String.eqb event_id ""
     then let? fp := _stable_trail_fingerprint trail_event in Ok ("cloudtrail-fallback:" +:+ fp)
     else Ok ("cloudtrail:" +:+ event_id))%py.

Definition _transform_resource_event trail_event : res DomainEvent :=
    (let identity := dget trail_event "userIdentity" (VDict []) in
     let? idempotency_key := trail_key trail_event in
     let? subject := attr_get (dget trail_event "responseElements" (VDict [])) "endpointArn" (VStr "") in
     let? arn := attr_get identity "arn" (VStr "") in
     let? type := attr_get identity "type" (VStr "") in
     let? event_time := parse_raw_time (dget trail_event "eventTime" VNone) (am_now am) in
     new_event RESOURCE_CREATED subject
       [("event_name", dget trail_event "eventName" VNone); ("identity_arn", arn); ("identity_type", type);
        ("source_ip", dget trail_event "sourceIPAddress" (VStr "")); ("region", dget trail_event "awsRegion" (VStr ""))]
       event_time "aws-cloudtrail" idempotency_key)%py.

Definition allowed_keys : list string :=
    ["roleArn"; "roleSessionName"; "externalId"; "sourceIdentity"; "durationSeconds"; "serialNumber";
     "mfaAuthenticated"].

  (** [isinstance(value, (str, int, float, bool))] *)
Definition is_scalar (v : pyval) : bool :=
    match v with VStr _ | VInt _ | VFloat _ | VBool _ => true | _ => false end.

Definition _build_safe_session_context trail_event : odict string pyval :=
    match dget trail_event "requestParameters" VNone with
    | VDict request_params =>
        fold_left (λ context key, match od_get key request_params with
                                  | Some value => if is_scalar value then od_set key value context else context
                                  | None => context
                                  end) (set_iter allowed_keys) []
    | _ => []
    end.

Definition _transform_identity_event trail_event : res DomainEvent :=
    (let identity := dget trail_event "userIdentity" (VDict []) in
     let? idempotency_key := trail_key trail_event in
     let? subject := attr_get identity "arn" (VStr "") in
     let? principal := attr_get identity "principalId" (VStr "") in
     let? account := attr_get identity "accountId" (VStr "") in
     let? user_name := attr_get identity "userName" (VStr "") in
     let? event_time := parse_raw_time (dget trail_event "eventTime" VNone) (am_now am) in
     new_event IDENTITY_LOGIN subject
       [("principal_id", principal); ("account_id", account); ("user_name", user_name);
        ("session_context", VDict (_build_safe_session_context trail_event))]
       event_time "aws-cloudtrail" idempotency_key)%py.

Definition transform_event trail_event : res (option DomainEvent) :=
    (let event_name := dget trail_event "eventName" (VStr "") in
     if py_in_list event_name [VStr "CreateEndpoint"; VStr "UpdateEndpoint"; VStr "CreateFunction"]
     then let? e := _transform_resource_event trail_event in Ok (Some e)
     else if py_in_list event_name [VStr "AssumeRole"; VStr "ConsoleLogin"]
     then let? e := _transform_identity_event trail_event in Ok (Some e)
     else Ok None)%py.

  (** *** Bedrock *)

Definition rates : odict string (pyfloat * pyfloat) :=
    [("amazon.nova-pro-v1:0", (lit 3 1000, lit 15 1000)); ("amazon.nova-lite-v1:0", (lit 25 100000, lit 125 100000));
     ("amazon.titan-text-express", (lit 2 10000, lit 6 10000))].

Definition _estimate_cost log_entry : res pyfloat :=
    (let? input_tokens := py_float (dget log_entry "inputTokenCount" (VInt 0)) in
     let? output_tokens := py_float (dget log_entry "outputTokenCount" (VInt 0)) in
     let '(input_rate, output_rate) := default (lit 1 1000, lit 2 1000) (od_get (text log_entry "modelId") rates) in
     fdiv (fadd (fmul input_tokens input_rate) (fmul output_tokens output_rate)) (of_Z 1000))%py.

Definition transform_invocation log_entry : res DomainEvent :=
    (let? cost := _estimate_cost log_entry in
     let? model := validated (lax_str (dget log_entry "modelId" (VStr ""))) in
     let? arn := validated (lax_str (dget log_entry "modelArn" (VStr ""))) in
     let? region := validated (lax_str (dget log_entry "region" (VStr ""))) in
     let? input_tokens := validated (lax_int (dget log_entry "inputTokenCount" (VInt 0))) in
     let? output_tokens := validated (lax_int (dget log_entry "outputTokenCount" (VInt 0))) in
     let? latency_ms := validated (lax_ge0 (dget log_entry "invocationLatency" (VInt 0))) in
     let? cost_usd := validated (lax_ge0 (VFloat cost)) in
     let? request_id := validated (lax_str (dget log_entry "requestId" (VStr ""))) in
     let inference := mkInference model "aws-bedrock" arn region input_tokens output_tokens latency_ms cost_usd
                                  request_id in
     let? event_time := parse_raw_time (dget log_entry "timestamp" VNone) (am_now am) in
     new_event INFERENCE_REQUEST (VStr (inf_request_id inference)) (inference_dump inference) event_time
               "aws-bedrock" ("bedrock:" +:+ inf_request_id inference))%py.

  (** *** GitHub *)

Definition repo_full_name payload : string := strip (text (sub_dict payload "repository") "full_name").

Definition webhook_id (normalized_event delivery_id : string) payload : string :=
    str_or (strip delivery_id)
           (_stable_hash [VStr normalized_event; VStr (repo_full_name payload); VDict payload]).

Definition transform_push (delivery_id : string) (timestamp : instant) payload : res DomainEvent :=
    (let repo := repo_full_name payload in
     let after_sha := strip (text payload "after") in
     let before_sha := strip (text payload "before") in
     let pusher := sub_dict payload "pusher" in
     let? commit_count := int_or0 payload "size" in
     new_event CODE_COMMIT (VStr (str_or after_sha repo))
       [("repository", VStr repo); ("branch", VStr (removeprefix (text payload "ref") "refs/heads/"));
        ("after_sha", VStr after_sha); ("before_sha", VStr before_sha); ("commit_count", VInt commit_count);
        ("pusher", VStr (text pusher "name"))]
       timestamp "github-webhook" ("github-push:" +:+ webhook_id "push" delivery_id payload))%py.

Definition transform_merge (delivery_id : string) payload : res DomainEvent :=
    (let repo := repo_full_name payload in
     let pr := sub_dict payload "pull_request" in
     let author := sub_dict pr "user" in
     let? pr_number := int_or0 pr "number" in
     let? base_branch := attr_get (dget pr "base" (VDict [])) "ref" (VStr "") in
     let? event_time := parse_raw_time (dget pr "merged_at" VNone) (am_now am) in
     new_event PR_MERGED (VStr (str_or (strip (text pr "id")) repo))
       [("repository", VStr repo); ("pr_number", VInt pr_number); ("merge_sha", VStr (text pr "merge_commit_sha"));
        ("author", VStr (text author "login")); ("base_branch", VStr (py_str base_branch))]
       event_time "github-webhook" ("github-pr-merge:" +:+ webhook_id "pull_request" delivery_id payload))%py.

Definition transform_webhook (event_name delivery_id : string) payload : res (option DomainEvent) :=
    (let normalized_event := lower (strip event_name) in
     let? timestamp := parse_raw_time match od_get "head_commit" payload with
                                      | Some (VDict commit) => dget commit "timestamp" VNone
                                      | _ => dget payload "merged_at" VNone
                                      end (am_now am) in
     if String.eqb normalized_event "push"
     then let? e := transform_push delivery_id timestamp payload in Ok (Some e)
     else if String.eqb normalized_event "pull_request"
             && (String.eqb (lower (strip (text payload "action"))) "closed"
                 && truthy (dget (sub_dict payload "pull_request") "merged" (VBool false)))
     then let? e := transform_merge delivery_id payload in Ok (Some e)
     else Ok None)%py.

Definition _infer_environment (labels : list string) : string :=
    let lowered := map lower labels in
    if existsb (str_in "prod") lowered then "production"
    else if existsb (str_in "stage") lowered then "staging"
    else if existsb (λ label, str_in "dev" label || str_in "test" label) lowered then "development"
    else "unknown".

Definition transform_workflow_job (delivery_id : string) payload : res (option DomainEvent) :=
    (if negb (String.eqb (lower (strip (text payload "action"))) "completed") then Ok None else
     let workflow_job := sub_dict payload "workflow_job" in
     let repo := repo_full_name payload in
     let run_id := strip (text workflow_job "run_id") in
     if String.eqb repo "" && String.eqb run_id "" then Ok None else
     let normalized_labels := match dget workflow_job "labels" (VList []) with VList l => map py_str l | _ => [] end in
     let actor := sub_dict payload "sender" in
     let? event_time := parse_raw_time (dget workflow_job "completed_at" VNone) (am_now am) in
     let stable_id := str_or (strip delivery_id)
       (_stable_hash [VStr "workflow_job"; VStr repo; VStr run_id; VDict workflow_job]) in
     let? e := new_event DEPLOYMENT (VStr (str_or run_id repo))
       [("service_name", VStr (if String.eqb repo "" then "github-actions"
                               else List.last (split_on "/"%char repo) ""));
        ("repository", VStr repo); ("deploy_job_id", VStr run_id); ("deployer_identity", VStr (text actor "login"));
        ("target_environment", VStr (_infer_environment normalized_labels));
        ("workflow_name", VStr (text workflow_job "name")); ("workflow_conclusion", VStr (text workflow_job "conclusion"))]
       event_time "github-actions" ("github-actions:" +:+ stable_id) in
     Ok (Some e))%py.

  (** *** Okta *)

Definition okta_key event (event_time : instant) : string :=
    let event_id := strip (text event "uuid") in
    if String.eqb event_id ""
    then "okta-fallback:" +:+ _stable_hash [VStr (strip (text event "eventType")); VStr (isoformat event_time); VDict event]
    else "okta:" +:+ event_id.

  (** [str(actor.get("id") or actor.get("alternateId") or "").strip()] *)
Definition actor_id event : string :=
    let actor := sub_dict event "actor" in
    strip (py_str (or_val (or_val (dget actor "id" VNone) (dget actor "alternateId" VNone)) (VStr ""))).

Definition okta_login event (event_time : instant) : res (option DomainEvent) :=
    (let actor := sub_dict event "actor" in
     let subject_id := actor_id event in
     if String.eqb subject_id "" then Ok None else
     let? ip := attr_get (dget event "client" (VDict [])) "ipAddress" (VStr "") in
     let? e := new_event IDENTITY_LOGIN (VStr subject_id)
       [("actor_id", VStr (text actor "id")); ("actor_login", VStr (text actor "alternateId"));
        ("actor_display_name", VStr (text actor "displayName")); ("ip_address", VStr (py_str ip));
        ("event_type", VStr (strip (text event "eventType")))]
       event_time "okta-system-log" (okta_key event event_time) in
     Ok (Some e))%py.

Definition okta_group_change event (target : odict string pyval) (event_time : instant) : res (option DomainEvent) :=
    (let event_type := strip (text event "eventType") in
     let target_profile := sub_dict target "detailEntry" in
     let user_id := actor_id event in
     let group_id := strip (text target "id") in
     let group_name := py_str (or_val (dget target "displayName" (VStr "")) (dget target_profile "groupName" (VStr ""))) in
     if String.eqb user_id "" || String.eqb group_id "" then Ok None else
     let? e := new_event IDENTITY_GROUP_CHANGE (VStr user_id)
       [("group_id", VStr group_id); ("group_name", VStr group_name);
        ("operation", VStr (if endswith event_type ".add" then "add" else "remove")); ("event_type", VStr event_type)]
       event_time "okta-system-log" (okta_key event event_time) in
     Ok (Some e))%py.

Definition transform_system_log_event event : res (option DomainEvent) :=
    (let event_type := strip (text event "eventType") in
     match match dget event "target" (VList []) with VList (t :: _) => t | _ => VDict [] end with
     | VDict target =>
         let? event_time := parse_raw_time (dget event "published" VNone) (am_now am) in
         if existsb (String.eqb event_type) ["user.session.start"; "user.authentication.sso"]
         then okta_login event event_time
         else if existsb (String.eqb event_type) ["group.user_membership.add"; "group.user_membership.remove"]
         then okta_group_change event target event_time
         else Ok None
     | _ => Raise OtherError
     end)%py.

Definition normalized_groups payload : list pyval :=
    match dget payload "groups" (VList []) with
    | VList groups =>
        omap (λ g, match g with
                   | VDict group => Some (VDict [("group_id", VStr (text group "value"));
                                                 ("group_name", VStr (text group "display"))])
                   | _ => None
                   end) groups
    | _ => []
    end.

Definition transform_scim_user payload : res (option DomainEvent) :=
    (let user_id := strip (text payload "id") in
     if String.eqb user_id "" then Ok None else
     let groups := VList (normalized_groups payload) in
     let username := strip (text payload "userName") in
     let active := truthy (dget payload "active" (VBool true)) in
     let key_fingerprint := _stable_hash [VStr "okta-scim"; VStr user_id; groups; VStr username; VBool active] in
     let? e := new_event IDENTITY_GROUP_CHANGE (VStr user_id)
       [("username", VStr username); ("active", VBool active); ("groups", groups); ("operation", VStr "sync")]
       (am_now am) "okta-scim" ("okta-scim:" +:+ key_fingerprint) in
     Ok (Some e))%py.
End connectors.

(** ** Calls *)

Inductive connector_call :=
| CurRecord (record : odict string pyval)
| TrailEvent (trail_event : odict string pyval)
| BedrockLog (log_entry : odict string pyval)
| Webhook (event_name delivery_id : string) (payload : odict string pyval)
| WorkflowJob (delivery_id : string) (payload : odict string pyval)
| OktaLog (event : odict string pyval)
| ScimUser (payload : odict string pyval).

Definition transform `{LaxFields} `{SetOrder} (tenant_id : string) (am : ambient) (c : connector_call)
    : res (option DomainEvent) :=
  (match c with
   | CurRecord record => let? e := transform_cur_record tenant_id am record in Ok (Some e)
   | TrailEvent trail_event => transform_event tenant_id am trail_event
   | BedrockLog log_entry => let? e := transform_invocation tenant_id am log_entry in Ok (Some e)
   | Webhook event_name delivery_id payload => transform_webhook tenant_id am event_name delivery_id payload
   | WorkflowJob delivery_id payload => transform_workflow_job tenant_id am delivery_id payload
   | OktaLog event => transform_system_log_event tenant_id am event
   | ScimUser payload => transform_scim_user tenant_id am payload
   end)%py.

(** The connectors whose attributes come from a model of [models/events.py]. *)
Definition from_model (c : connector_call) : bool :=
  match c with CurRecord _ | BedrockLog _ => true | _ => false end.

(** ** Lemmas *)

(** Break a successful transformation into its successful steps. *)
Ltac run_ok :=
  repeat match goal with
  | H : rbind ?m _ = Ok _ |- _ => let E := fresh "E" in destruct m eqn:E; [cbn [rbind] in H|discriminate H]
  | H : Ok _ = Ok _ |- _ => apply Ok_inj in H; try subst
  | H : Some _ = Some _ |- _ => apply Some_inj in H; subst
  | H : None = Some _ |- _ => discriminate H
  | H : Some _ = None |- _ => discriminate H
  | H : Raise _ = Ok _ |- _ => discriminate H
  | H : (if ?b then _ else _) = Ok _ |- _ => let E := fresh "B" in destruct b eqn:E
  end.

Section lemmas.
  Context `{LaxFieldsLaws} `{SetOrder} `{!StrictFields} `{!StrictFieldsLaws}.
  Implicit Types (e : DomainEvent).

Lemma new_event_ok tenant_id am ty subj attrs t src key e :
    new_event tenant_id am ty subj attrs t src key = Ok e →
    ∃ s, subj = VStr s ∧ e = mkEvent (am_event_id am) ty s attrs t (am_ingest am) src key tenant_id 1.
  Proof.
    unfold new_event. destruct (lax_str subj) as [s|] eqn:Es; [|done]. cbn [validated rbind].
    intros [-> _]%DomainEvent_new_ok. exists s. split; [by apply lax_str_only|done].
  Qed.

Ltac strict_fields :=
    repeat match goal with |- context [strict_field ?t ?v] => rewrite (strict_own t v) by done end; done.

Lemma billing_dump_valid b : is_ok (validate_event_attributes BILLING_LINE_ITEM (billing_dump b)) = true.
  Proof.
    unfold validate_event_attributes, model_validate. cbn [EVENT_PAYLOAD_SCHEMAS].
    assert (extra_fields _BillingLineItemPayload (billing_dump b) = []) as -> by reflexivity.
    unfold billing_dump, str_map_val. lazy -[strict_field map]. rewrite strict_str_map.
    strict_fields.
  Qed.

Lemma inference_dump_valid i : is_ok (validate_event_attributes INFERENCE_REQUEST (inference_dump i)) = true.
  Proof. unfold inference_dump. lazy -[strict_field]. strict_fields. Qed.

Lemma valid_event e :
    ev_schema_version e = 1 → is_ok (validate_event_attributes (ev_event_type e) (ev_attributes e)) = true →
    validate_domain_event e = Ok tt.
  Proof. unfold validate_domain_event. intros ->. simpl. by destruct (validate_event_attributes _ _). Qed.

  (** A key outside the schema. *)
Definition alien (ty : EventType) (k : string) : bool :=
    match EVENT_PAYLOAD_SCHEMAS ty with
    | Some s => bool_decide (k ∉ map f_name s)
    | None => false
    end.

Lemma alien_rejected e k :
    ev_schema_version e = 1 → alien (ev_event_type e) k = true → k ∈ od_keys (ev_attributes e) →
    validate_domain_event e = Raise EventSchemaValidationError.
  Proof.
    unfold validate_domain_event, alien. intros -> Ha Hk.
    destruct (EVENT_PAYLOAD_SCHEMAS (ev_event_type e)) as [s|] eqn:Es; [|done].
    apply bool_decide_eq_true_1 in Ha. by rewrite (unknown_field_rejected _ _ _ _ Es Hk Ha).
  Qed.

  (** What an event of the connectors is, apart from its type: whose it is, and whether the
      bus can take it. *)
Definition event_as (model : bool) (tenant_id : string) (am : ambient) e : Prop :=
    ev_tenant_id e = tenant_id ∧ ev_event_id e = am_event_id am ∧
    validate_domain_event e = if model then Ok tt else Raise EventSchemaValidationError.

Lemma model_event tenant_id am ty subj attrs t src key e :
    new_event tenant_id am ty subj attrs t src key = Ok e →
    is_ok (validate_event_attributes ty attrs) = true → event_as true tenant_id am e.
  Proof. intros (s & _ & ->)%new_event_ok Hv. split_and!; [done..|]. by apply valid_event. Qed.

Lemma alien_event k tenant_id am ty subj attrs t src key e :
    new_event tenant_id am ty subj attrs t src key = Ok e → alien ty k = true → k ∈ od_keys attrs →
    event_as false tenant_id am e.
  Proof. intros (s & _ & ->)%new_event_ok Ha Hk. split_and!; [done..|]. by apply (alien_rejected _ k). Qed.

Lemma cur_ok tenant_id am record e :
    transform_cur_record tenant_id am record = Ok e →
    let account_id := strip (text record "lineItem/UsageAccountId") in
    let service := strip (text record "lineItem/ProductCode") in
    account_id ≠ "" ∧ service ≠ "" ∧
    ∃ billing, cur_billing account_id service (dget record "lineItem/UnblendedCost" VNone) record = Ok billing ∧
      new_event tenant_id am BILLING_LINE_ITEM (VStr (str_or (bl_resource_arn billing) (bl_account_id billing)))
        (billing_dump billing) (am_now am) "aws-cur" (cur_key record) = Ok e.
  Proof.
    unfold transform_cur_record. intros Ht.
    destruct (String.eqb_spec (strip (text record "lineItem/UsageAccountId")) "") as [_|Ha]; [done|].
    destruct (String.eqb_spec (strip (text record "lineItem/ProductCode")) "") as [_|Hs]; [done|].
    cbn [orb] in Ht. cbv zeta. split_and!; [done..|].
    destruct (cur_billing _ _ (dget record "lineItem/UnblendedCost" VNone) record) as [billing|] eqn:Eb.
    - exists billing. split; [done|]. destruct (dget record "lineItem/UnblendedCost" VNone); [done|..];
        by rewrite Eb in Ht.
    - destruct (dget record "lineItem/UnblendedCost" VNone); [done|..]; by rewrite Eb in Ht.
  Qed.

Lemma cur_billing_ok account_id service raw_cost record billing :
    cur_billing account_id service raw_cost record = Ok billing →
    (∃ cost, py_float raw_cost = Ok cost ∧ lax_ge0 (VFloat cost) = Some (bl_cost_usd billing)) ∧
    bl_account_id billing = account_id.
  Proof.
    unfold cur_billing. intros G. run_ok. split; [|done]. eexists. split; [done|].
    cbn [bl_cost_usd]. by match goal with E : validated ?m = Ok ?c |- ?m = Some ?c => destruct m; [by apply Ok_inj in E as ->|done] end.
  Qed.

Lemma cur_event tenant_id am record e :
    transform_cur_record tenant_id am record = Ok e → event_as true tenant_id am e.
  Proof. intros (_ & _ & billing & _ & Hn)%cur_ok. eapply model_event; [done|apply billing_dump_valid]. Qed.

Lemma bedrock_event tenant_id am log_entry e :
    transform_invocation tenant_id am log_entry = Ok e → event_as true tenant_id am e.
  Proof. unfold transform_invocation. intros Ht. run_ok. eapply model_event; [done|apply inference_dump_valid]. Qed.

Ltac alien_at k := eapply (alien_event k); [eassumption|reflexivity|cbn [od_keys map fst]; set_solver].

Lemma trail_event_as tenant_id am trail_event e :
    transform_event tenant_id am trail_event = Ok (Some e) → event_as false tenant_id am e.
  Proof.
    unfold transform_event. intros Ht. run_ok.
    - unfold _transform_resource_event in *. run_ok. alien_at "event_name".
    - unfold _transform_identity_event in *. run_ok. alien_at "principal_id".
  Qed.

Lemma webhook_event tenant_id am event_name delivery_id payload e :
    transform_webhook tenant_id am event_name delivery_id payload = Ok (Some e) → event_as false tenant_id am e.
  Proof.
    unfold transform_webhook. intros Ht. run_ok.
    - unfold transform_push in *. run_ok. alien_at "after_sha".
    - unfold transform_merge in *. run_ok. alien_at "merge_sha".
  Qed.

Lemma job_event tenant_id am delivery_id payload e :
    transform_workflow_job tenant_id am delivery_id payload = Ok (Some e) → event_as false tenant_id am e.
  Proof. unfold transform_workflow_job. intros Ht. run_ok. alien_at "workflow_name". Qed.

Lemma okta_event tenant_id am event e :
    transform_system_log_event tenant_id am event = Ok (Some e) → event_as false tenant_id am e.
  Proof.
    unfold transform_system_log_event. intros Ht. case_match; try done. run_ok.
    - unfold okta_login in *. run_ok. alien_at "actor_id".
    - unfold okta_group_change in *. run_ok. alien_at "group_name".
  Qed.

Lemma scim_event tenant_id am payload e :
    transform_scim_user tenant_id am payload = Ok (Some e) → event_as false tenant_id am e.
  Proof. unfold transform_scim_user. intros Ht. run_ok. alien_at "username". Qed.

Lemma transform_event_as tenant_id am c e :
    transform tenant_id am c = Ok (Some e) → event_as (from_model c) tenant_id am e.
  Proof.
    destruct c; cbn [transform from_model]; intros Ht; run_ok;
      eauto using cur_event, bedrock_event, trail_event_as, webhook_event, job_event, okta_event, scim_event.
  Qed.

  (** Events that differ only in their identifier and times. *)
Definition same_event (e1 e2 : DomainEvent) : Prop :=
    ev_event_type e1 = ev_event_type e2 ∧ ev_subject_id e1 = ev_subject_id e2 ∧
    ev_attributes e1 = ev_attributes e2 ∧ dedup_key e1 = dedup_key e2.

  (** The calls whose idempotency key does not depend on the clock. *)
Definition fixed_key (c : connector_call) : bool :=
    match c with
    | OktaLog event => negb (String.eqb (strip (text event "uuid")) "") || time_known (dget event "published" VNone)
    | _ => true
    end.

Lemma new_event_same tenant_id am1 am2 ty subj attrs t1 t2 src key e1 e2 :
    new_event tenant_id am1 ty subj attrs t1 src key = Ok e1 →
    new_event tenant_id am2 ty subj attrs t2 src key = Ok e2 → same_event e1 e2.
  Proof. intros (s & -> & ->)%new_event_ok (s' & [= <-] & ->)%new_event_ok. by split_and!. Qed.

Ltac same_run :=
    intros G1 G2; run_ok; try congruence;
    repeat match goal with
    | H1 : ?m = Ok ?a, H2 : ?m = Ok ?b |- _ => assert (a = b) by congruence; subst; clear H2
    end; eapply new_event_same; eassumption.

Lemma cur_same tenant_id am1 am2 record e1 e2 :
    transform_cur_record tenant_id am1 record = Ok e1 → transform_cur_record tenant_id am2 record = Ok e2 →
    same_event e1 e2.
  Proof.
    intros (_ & _ & b1 & E1 & N1)%cur_ok (_ & _ & b2 & E2 & N2)%cur_ok.
    assert (b1 = b2) as -> by congruence. by eapply new_event_same.
  Qed.

  (** An entry without [requestId]: its deduplication key. *)
Lemma bedrock_key tenant_id am log_entry e :
    od_get "requestId" log_entry = None → transform_invocation tenant_id am log_entry = Ok e →
    dedup_key e = tenant_id +:+ ":aws-bedrock:bedrock:".
  Proof.
    unfold transform_invocation, dget. intros -> G. rewrite lax_str_id in G. cbn [validated] in G. run_ok.
    apply new_event_ok in G as (s & _ & ->). done.
  Qed.

Lemma bedrock_same tenant_id am1 am2 log_entry e1 e2 :
    transform_invocation tenant_id am1 log_entry = Ok e1 → transform_invocation tenant_id am2 log_entry = Ok e2 →
    same_event e1 e2.
  Proof. unfold transform_invocation. same_run. Qed.

Lemma trail_same tenant_id am1 am2 trail_event e1 e2 :
    transform_event tenant_id am1 trail_event = Ok (Some e1) → transform_event tenant_id am2 trail_event = Ok (Some e2) →
    same_event e1 e2.
  Proof. unfold transform_event, _transform_resource_event, _transform_identity_event. same_run. Qed.

Lemma webhook_same tenant_id am1 am2 event_name delivery_id payload e1 e2 :
    transform_webhook tenant_id am1 event_name delivery_id payload = Ok (Some e1) →
    transform_webhook tenant_id am2 event_name delivery_id payload = Ok (Some e2) → same_event e1 e2.
  Proof. unfold transform_webhook, transform_push, transform_merge. same_run. Qed.

Lemma job_same tenant_id am1 am2 delivery_id payload e1 e2 :
    transform_workflow_job tenant_id am1 delivery_id payload = Ok (Some e1) →
    transform_workflow_job tenant_id am2 delivery_id payload = Ok (Some e2) → same_event e1 e2.
  Proof. unfold transform_workflow_job. same_run. Qed.

Lemma scim_same tenant_id am1 am2 payload e1 e2 :
    transform_scim_user tenant_id am1 payload = Ok (Some e1) →
    transform_scim_user tenant_id am2 payload = Ok (Some e2) → same_event e1 e2.
  Proof. unfold transform_scim_user. same_run. Qed.

Lemma okta_key_fixed event t1 t2 :
    negb (String.eqb (strip (text event "uuid")) "") = true → okta_key event t1 = okta_key event t2.
  Proof. intros Hu%negb_true_iff. unfold okta_key. by rewrite Hu. Qed.

Lemma okta_same tenant_id am1 am2 event e1 e2 :
    fixed_key (OktaLog event) = true →
    transform_system_log_event tenant_id am1 event = Ok (Some e1) →
    transform_system_log_event tenant_id am2 event = Ok (Some e2) → same_event e1 e2.
  Proof.
    unfold fixed_key, transform_system_log_event. intros [Hf|Hf]%orb_prop.
    - case_match; try done. intros G1 G2. run_ok;
        unfold okta_login, okta_group_change in *; run_ok;
        rewrite (okta_key_fixed event a a0 Hf) in *; by eapply new_event_same.
    - rewrite (time_known_fixed _ (am_now am1) (am_now am2) Hf).
      case_match; try done. unfold okta_login, okta_group_change. same_run.
  Qed.

Lemma transform_same tenant_id am1 am2 c e1 e2 :
    fixed_key c = true → transform tenant_id am1 c = Ok (Some e1) → transform tenant_id am2 c = Ok (Some e2) →
    same_event e1 e2.
  Proof.
    destruct c; cbn [transform]; intros Hf G1 G2; run_ok;
      eauto using cur_same, bedrock_same, trail_same, webhook_same, job_same, okta_same, scim_same.
  Qed.
End lemmas.

(** ** Theorems *)

(** C10. What a connector hands to the bus: an event carries the connector's tenant; those of
    the billing and Bedrock connectors are always accepted by the bus or recognized as
    duplicates; those of the CloudTrail, GitHub and Okta connectors never satisfy the schema
    of their type, so publishing them always raises and changes nothing. *)
Theorem connector_events_admission {W B : Type} `{LaxFieldsLaws} `{SetOrder} `{!StrictFields} `{!StrictFieldsLaws}
    (run_handler : B → DomainEvent → W → res unit * W) (max_events : nat) (bus : InMemoryEventBus B) (w : W)
    (tenant_id : string) (am : ambient) (c : connector_call) (e : DomainEvent) :
  transform tenant_id am c = Ok (Some e) →
  ev_tenant_id e = tenant_id ∧
  if from_model c
  then ∃ accepted bus' w', publish run_handler max_events e bus w = (Ok accepted, bus', w')
  else publish run_handler max_events e bus w = (Raise EventSchemaValidationError, bus, w).
Proof.
  intros (Ht & _ & Hv)%transform_event_as. split; [done|]. unfold publish. rewrite Hv. destruct (from_model c); [|done].
  destruct (accept _ _ _) as [[|] b']; [|by eexists _, _, _].
  destruct (dispatch _ _ _ _ _) as [errs w']. by eexists _, _, _.
Qed.

(** Redelivery: transforming the same payload again gives the same event up to its
    identifier and times, with the same deduplication key, unless it is an Okta log event
    without [uuid] and readable [published]; so the bus drops the second copy of what it
    can take. *)
Theorem connector_redelivery {W B : Type} `{LaxFieldsLaws} `{SetOrder} `{!StrictFields} `{!StrictFieldsLaws}
    (run_handler : B → DomainEvent → W → res unit * W) (max_events : nat) (bus : InMemoryEventBus B) (w : W)
    (history : list DomainEvent) (tenant_id : string) (am1 am2 : ambient) (c : connector_call) (e1 e2 : DomainEvent) :
  fixed_key c = true → transform tenant_id am1 c = Ok (Some e1) → transform tenant_id am2 c = Ok (Some e2) →
  same_event e1 e2 ∧
  (from_model c = true → (0 < max_events)%nat → bus_ok max_events history bus →
   ∃ accepted b1 b2 w1, publish run_handler max_events e1 bus w = (Ok accepted, b1, w1) ∧
     publish run_handler max_events e2 b1 w1 = (Ok false, b2, w1) ∧ _log b2 = _log b1).
Proof.
  intros Hf G1 G2. pose proof (transform_same _ _ _ _ _ _ Hf G1 G2) as Hs. split; [done|].
  apply transform_event_as in G1 as (_ & _ & V1), G2 as (_ & _ & V2). intros Hm Hmax Hb. rewrite Hm in V1, V2.
  destruct Hs as (_ & _ & _ & Hk). by apply (publish_twice run_handler max_events history).
Qed.

(** Bedrock log entries without [requestId] all get the idempotency key "bedrock:": of
    any two of a tenant, whatever their models, tokens and costs, the bus keeps at most one. *)
Theorem bedrock_without_id_dropped {W B : Type} `{LaxFieldsLaws} `{!StrictFields} `{!StrictFieldsLaws}
    (run_handler : B → DomainEvent → W → res unit * W) (max_events : nat) (bus : InMemoryEventBus B) (w : W)
    (history : list DomainEvent) (tenant_id : string) (am1 am2 : ambient) (log1 log2 : odict string pyval)
    (e1 e2 : DomainEvent) :
  (0 < max_events)%nat → bus_ok max_events history bus →
  od_get "requestId" log1 = None → od_get "requestId" log2 = None →
  transform_invocation tenant_id am1 log1 = Ok e1 → transform_invocation tenant_id am2 log2 = Ok e2 →
  ∃ accepted b1 b2 w1, publish run_handler max_events e1 bus w = (Ok accepted, b1, w1) ∧
    publish run_handler max_events e2 b1 w1 = (Ok false, b2, w1) ∧ _log b2 = _log b1.
Proof.
  intros Hmax Hb N1 N2 G1 G2. apply (publish_twice run_handler max_events history); [done|done|..].
  - by apply bedrock_event in G1 as (_ & _ & ->).
  - by apply bedrock_event in G2 as (_ & _ & ->).
  - pose proof (bedrock_key _ _ _ _ N1 G1) as ->. by pose proof (bedrock_key _ _ _ _ N2 G2) as ->.
Qed.

(** A billing record: without an account, a service or a cost it is refused; an event
    has a subject (the resource, or else the account) and the record's cost, a number that
    [BillingLineItem] accepts. *)
Theorem cur_record_outcome `{LaxFieldsLaws} (tenant_id : string) (am : ambient)
    (record : odict string pyval) :
  let account_id := strip (text record "lineItem/UsageAccountId") in
  let service := strip (text record "lineItem/ProductCode") in
  let raw_cost := dget record "lineItem/UnblendedCost" VNone in
  (account_id = "" ∨ service = "" ∨ raw_cost = VNone → ∃ m, transform_cur_record tenant_id am record = Raise (ValueError m)) ∧
  (∀ e, transform_cur_record tenant_id am record = Ok e →
   ev_event_type e = BILLING_LINE_ITEM ∧ ev_subject_id e ≠ "" ∧
   ∃ cost cost_usd, py_float raw_cost = Ok cost ∧ lax_ge0 (VFloat cost) = Some cost_usd ∧
     od_get "cost_usd" (ev_attributes e) = Some (VFloat cost_usd) ∧
     od_get "account_id" (ev_attributes e) = Some (VStr account_id) ∧ account_id ≠ "").
Proof.
  cbv zeta. split.
  { unfold transform_cur_record.
    destruct (String.eqb_spec (strip (text record "lineItem/UsageAccountId")) "") as [_|Ha]; [by eexists|].
    destruct (String.eqb_spec (strip (text record "lineItem/ProductCode")) "") as [_|Hs]; [by eexists|].
    intros [?|[?| ->]]; [done..|]. by eexists. }
  intros e (Ha & _ & billing & Hb & (s & Es & ->)%new_event_ok)%cur_ok. apply cur_billing_ok in Hb as (Hc & Hid).
  split; [done|]. split.
  { injection Es as <-. cbn [ev_subject_id]. unfold str_or. rewrite Hid. by destruct (String.eqb_spec (bl_resource_arn billing) ""). }
  destruct Hc as (cost & Hc & Hl). exists cost, (bl_cost_usd billing). split_and!; [done..| |done].
  cbn [ev_attributes]. by rewrite <- Hid.
Qed.

(** ** Examples *)

(** Texts and numbers as they come. *)
#[export] Instance PlainLax : LaxFields := {|
  lax_str v := match v with VStr s => Some s | _ => None end;
  lax_int v := match v with VInt z => Some z | _ => None end;
  lax_ge0 v := match v with
               | VFloat (Fin q) => if Qle_bool 0 q then Some (Fin q) else None
               | VInt z => if 0 <=? z then Some (of_Z z) else None
               | _ => None
               end;
|}.

#[export] Instance PlainLaxLaws : LaxFieldsLaws.
Proof.
  split; [done| |done|]; cbn [lax_str lax_ge0 PlainLax].
  - intros v s0. by destruct v; intros [= ->].
  - intros q Hq%Qle_bool_iff. by rewrite Hq.
Qed.

Definition example_cur : odict string pyval :=
  [("lineItem/UsageAccountId", VStr "123"); ("lineItem/ProductCode", VStr "AmazonBedrock");
   ("lineItem/UnblendedCost", VStr "1.50"); ("identity/LineItemId", VStr "li-1");
   ("resourceTags/user:team", VStr "nlp")].

Definition example_push : odict string pyval :=
  [("repository", VDict [("full_name", VStr "acme/api")]); ("after", VStr "abc"); ("ref", VStr "refs/heads/main")].

Definition at_time (n : Z) : ambient := mkAmbient (pretty n) n n.

Definition example_bedrock (model : string) (tokens : Z) : odict string pyval :=
  [("modelId", VStr model); ("inputTokenCount", VInt tokens); ("timestamp", VStr "2024-02-29T12:00:00Z")].

Definition empty_bus : InMemoryEventBus nat := InMemoryEventBus_init.

Lemma empty_bus_ok : bus_ok 4 [] empty_bus.
Proof. split_and!; [|done|done]. split_and!; simpl; [done|constructor|set_solver]. Qed.

(** An Okta event without [uuid] and [published] gets a new key at every delivery. *)
Example okta_redelivery_new_key :
  let event := [("eventType", VStr "user.session.start"); ("actor", VDict [("id", VStr "u1")])] in
  let key n := match @transform_system_log_event PlainLax "t" (at_time n) event with
               | Ok (Some e) => Some (dedup_key e) | _ => None end in
  is_Some (key 0) ∧ is_Some (key 1) ∧ key 0 ≠ key 1.
Proof. vm_compute. split_and!; [by eexists|by eexists|discriminate]. Qed.

(** Absent and null identifiers: the text of [None] is an identifier. *)
Example null_user_id :
  match @transform_scim_user PlainLax "t" (at_time 0) [("id", VNone)] with
  | Ok (Some e) => ev_subject_id e = "None"
  | _ => False
  end.
Proof. by vm_compute. Qed.

Example infer_environment_examples :
  map _infer_environment [["self-hosted"; "Prod-eu"]; ["stage"]; ["ubuntu-latest"]; ["linux"]]
  = ["production"; "staging"; "development"; "unknown"].
Proof. by vm_compute. Qed.

Lemma connector_events_admission_witness :
  (∃ accepted bus' w', publish note_handler 4
     match @transform PlainLax insertion_order "t" (at_time 0) (CurRecord example_cur) with
     | Ok (Some e) => e | _ => example_event "" "" end empty_bus [] = (Ok accepted, bus', w')) ∧
  publish note_handler 4
     match @transform PlainLax insertion_order "t" (at_time 0) (Webhook "push" "d1" example_push) with
     | Ok (Some e) => e | _ => example_event "" "" end empty_bus [] = (Raise EventSchemaValidationError, empty_bus, []).
Proof.
  split.
  - destruct (@transform PlainLax insertion_order "t" (at_time 0) (CurRecord example_cur)) as [[e|]|x] eqn:E;
      [|vm_compute in E; discriminate E..].
    by destruct (connector_events_admission note_handler 4 empty_bus [] "t" (at_time 0) (CurRecord example_cur) e E).
  - destruct (@transform PlainLax insertion_order "t" (at_time 0) (Webhook "push" "d1" example_push)) as [[e|]|x] eqn:E;
      [|vm_compute in E; discriminate E..].
    by destruct (connector_events_admission note_handler 4 empty_bus [] "t" (at_time 0) (Webhook "push" "d1" example_push) e E).
Defined.

Lemma connector_redelivery_witness :
  match @transform PlainLax insertion_order "t" (at_time 0) (CurRecord example_cur),
        @transform PlainLax insertion_order "t" (at_time 9) (CurRecord example_cur) with
  | Ok (Some e1), Ok (Some e2) =>
      dedup_key e1 = dedup_key e2 ∧ ∃ accepted b1 b2 w1,
        publish note_handler 4 e1 empty_bus [] = (Ok accepted, b1, w1) ∧
        publish note_handler 4 e2 b1 w1 = (Ok false, b2, w1) ∧ _log b2 = _log b1
  | _, _ => False
  end.
Proof.
  destruct (@transform PlainLax insertion_order "t" (at_time 0) (CurRecord example_cur)) as [[e1|]|x] eqn:E1;
    [|vm_compute in E1; discriminate E1..].
  destruct (@transform PlainLax insertion_order "t" (at_time 9) (CurRecord example_cur)) as [[e2|]|x] eqn:E2;
    [|vm_compute in E2; discriminate E2..].
  destruct (connector_redelivery note_handler 4 empty_bus [] [] "t" (at_time 0) (at_time 9) (CurRecord example_cur)
              e1 e2 eq_refl E1 E2) as [(_ & _ & _ & Hk) Hp].
  split; [done|]. apply Hp; [done|lia|exact empty_bus_ok].
Defined.

Lemma bedrock_without_id_dropped_witness :
  match @transform_invocation PlainLax "t" (at_time 0) (example_bedrock "amazon.nova-pro-v1:0" 1000),
        @transform_invocation PlainLax "t" (at_time 9) (example_bedrock "amazon.nova-lite-v1:0" 9000) with
  | Ok e1, Ok e2 =>
      ∃ accepted b1 b2 w1,
        publish note_handler 4 e1 empty_bus [] = (Ok accepted, b1, w1) ∧
        publish note_handler 4 e2 b1 w1 = (Ok false, b2, w1) ∧ _log b2 = _log b1
  | _, _ => False
  end.
Proof.
  destruct (@transform_invocation PlainLax "t" (at_time 0) (example_bedrock "amazon.nova-pro-v1:0" 1000)) as [e1|x] eqn:E1;
    [|vm_compute in E1; discriminate E1].
  destruct (@transform_invocation PlainLax "t" (at_time 9) (example_bedrock "amazon.nova-lite-v1:0" 9000)) as [e2|x] eqn:E2;
    [|vm_compute in E2; discriminate E2].
  apply (@bedrock_without_id_dropped _ _ PlainLax PlainLaxLaws _ _ note_handler 4 empty_bus [] [] "t" (at_time 0) (at_time 9)
           (example_bedrock "amazon.nova-pro-v1:0" 1000) (example_bedrock "amazon.nova-lite-v1:0" 9000) e1 e2);
    [lia|exact empty_bus_ok|reflexivity|reflexivity|exact E1|exact E2].
Defined.

Lemma cur_record_outcome_witness :
  (∃ m, @transform_cur_record PlainLax "t" (at_time 0) [("lineItem/UsageAccountId", VStr " ")] = Raise (ValueError m)) ∧
  match @transform_cur_record PlainLax "t" (at_time 0) example_cur with
  | Ok e => ev_subject_id e = "123" ∧ od_get "cost_usd" (ev_attributes e) = Some (VFloat (lit 3 2))
  | Raise _ => False
  end.
Proof.
  split; [apply (@cur_record_outcome PlainLax PlainLaxLaws); by left|].
  destruct (@transform_cur_record PlainLax "t" (at_time 0) example_cur) as [e|x] eqn:E; [|vm_compute in E; discriminate E].
  destruct (proj2 (@cur_record_outcome PlainLax PlainLaxLaws "t" (at_time 0) example_cur) e E)
    as (_ & _ & cost & c & Hc & Hl & Hg & _).
  split; [vm_compute in E; by injection E as <-|]. rewrite Hg. vm_compute in Hc. injection Hc as <-.
  vm_compute in Hl. injection Hl as <-. vm_compute. reflexivity.
Defined.
