(* ===== verification/HttpLayer.v ===== *)
(** * HTTP layer (src/aci/api/app.py)

    What surrounds the routes: the request body limit as an ASGI middleware, the stack of
    HTTP middlewares in the order in which Starlette nests them, the runtime surface, the
    security headers, and the caller's key for the ingestion rate limit. CORS, compression
    and the router are functions given from outside, as are Python's address parsers. *)

From S2P Require Import Prelude PyFloat PyData PyValue Config Auth RateLimit Policy.
From Stdlib Require Import ZArith QArith Ascii Lia.
From stdpp Require Import base list sets strings pretty.

Open Scope string_scope.
Open Scope list_scope.
Open Scope Z_scope.

(** ** The request body limit *)

Module BodyLimit.

(** Messages that [receive] returns; a missing body is empty. *)
Inductive message := HttpRequest (body : string) | HttpDisconnect.

(** Messages given to [send]. *)
Inductive sent := ResponseStart (status : Z) (headers : list (string * string)) | ResponseBody (body : string) (more_body : bool).

(** [_RequestBodyTooLargeError], or an exception of the application. *)
Inductive failure := RequestBodyTooLarge | AppFailure (e : exn).

(** An ASGI application serving one request: it receives, where it may handle an exception of
    [receive], sends, returns or raises. *)
Inductive asgi :=
| Return
| Throw (e : failure)
| Send (m : sent) (k : asgi)
| Receive (k : message → asgi) (h : failure → asgi).

Definition receiver (S : Type) : Type := S → (message + failure) * S.

(** What the application sends and how it ends, with a given [receive]. *)
Fixpoint run {S} (receive : receiver S) (p : asgi) (s : S) : list sent * option failure * S :=
  match p with
  | Return => ([], None, s)
  | Throw e => ([], Some e, s)
  | Send m k => let '(out, e, s) := run receive k s in (m :: out, e, s)
  | Receive k h =>
      match receive s with
      | (inl m, s) => run receive (k m) s
      | (inr e, s) => run receive (h e) s
      end
  end.

Record Scope := mkScope { sc_type : string; sc_method : string; sc_path : string; sc_headers : list (string * string) }.

Definition _LIMITED_PATHS : list string := ["/v1/events/ingest"; "/v1/events/ingest/batch"].

Definition limited (scope : Scope) : bool :=
  String.eqb (sc_type scope) "http" &&
  (String.eqb (upper (sc_method scope)) "POST" && bool_decide (sc_path scope ∈ _LIMITED_PATHS)).

(** The first [content-length] header, when it is a number. *)
Definition _content_length (scope : Scope) : option Z :=
  match List.find (λ h, String.eqb (lower h.1) "content-length") (sc_headers scope) with
  | Some h => match py_int (VStr h.2) with Ok n => Some n | Raise _ => None end
  | None => None
  end.

Definition too_large_body (max_body_bytes : Z) : string :=
  "{" +:+ String dq "" +:+ "detail" +:+ String dq "" +:+ ":" +:+ String dq "" +:+
  "request body exceeds configured max " +:+ pretty max_body_bytes +:+ " bytes" +:+ String dq "" +:+ "}".

Definition _send_too_large (max_body_bytes : Z) : list sent :=
  let body := too_large_body max_body_bytes in
  [ResponseStart 413 [("content-type", "application/json"); ("content-length", pretty (Z.of_nat (String.length body)))];
   ResponseBody body false].

(** [limited_receive]: its counter, and the state of the inner [receive]. *)
Definition limited_receive {S} (max_body_bytes : Z) (receive : receiver S) : receiver (Z * S) := λ '(total, s),
  match receive s with
  | (inl (HttpRequest body), s) =>
      let total := total + Z.of_nat (String.length body) in
      if total >? max_body_bytes then (inr RequestBodyTooLarge, (total, s)) else (inl (HttpRequest body), (total, s))
  | (r, s) => (r, (total, s))
  end.

(** [RequestBodyLimitMiddleware.__call__] *)
Definition call {S} (max_body_bytes : Z) (app : asgi) (scope : Scope) (receive : receiver S) (s : S)
    : list sent * option failure * S :=
  if negb (limited scope) then run receive app s
  else if match _content_length scope with Some n => n >? max_body_bytes | None => false end
  then (_send_too_large max_body_bytes, None, s)
  else match run (limited_receive max_body_bytes receive) app (0, s) with
       | (out, Some RequestBodyTooLarge, (_, s)) => (out ++ _send_too_large max_body_bytes, None, s)
       | (out, e, (_, s)) => (out, e, s)
       end.

(** *** Lemmas *)

Definition message_bytes (m : message) : Z :=
  match m with HttpRequest body => Z.of_nat (String.length body) | HttpDisconnect => 0 end.

Definition total_bytes (l : list message) : Z := foldr (λ m n, message_bytes m + n) 0 l.

(** The client: the messages still to come, then a disconnect. *)
Definition client : receiver (list message) := λ l,
  match l with m :: l => (inl m, l) | [] => (inl HttpDisconnect, []) end.

Lemma total_bytes_snoc l m : total_bytes (l ++ [m]) = total_bytes l + message_bytes m.
Proof. unfold total_bytes. induction l as [|m' l IH]; cbn [app foldr]; lia. Qed.

Lemma total_bytes_app l l' : total_bytes (l ++ l') = total_bytes l + total_bytes l'.
Proof. unfold total_bytes. induction l as [|m' l IH]; cbn [app foldr]; lia. Qed.

Lemma total_bytes_nonneg l : 0 <= total_bytes l.
Proof. induction l as [|[b|] l IH]; unfold total_bytes in *; cbn [foldr message_bytes]; lia. Qed.

(** *** What the limiter promises *)

(** The behaviour of an application whose [i]-th call of [receive] gives [deliver i], from the
    [i]-th call on: what it sends, how it ends and how many calls it has made by then. *)
Inductive served_by (deliver : nat → message + failure) : nat → asgi → list sent → option failure → nat → Prop :=
| served_return i : served_by deliver i Return [] None i
| served_throw i e : served_by deliver i (Throw e) [] (Some e) i
| served_send i m k out e n : served_by deliver i k out e n → served_by deliver i (Send m k) (m :: out) e n
| served_message i k h m out e n :
    deliver i = inl m → served_by deliver (S i) (k m) out e n → served_by deliver i (Receive k h) out e n
| served_failure i k h x out e n :
    deliver i = inr x → served_by deliver (S i) (h x) out e n → served_by deliver i (Receive k h) out e n.

(** The client's messages, then disconnects. *)
Definition unlimited (incoming : list message) (i : nat) : message + failure := inl (default HttpDisconnect (incoming !! i)).

(** The same, but a body message with which the messages so far exceed the limit is an exception. *)
Definition within (max_body_bytes : Z) (incoming : list message) (i : nat) : message + failure :=
  match incoming !! i with
  | Some (HttpRequest body) =>
      if decide (total_bytes (take (S i) incoming) <= max_body_bytes) then inl (HttpRequest body) else inr RequestBodyTooLarge
  | _ => inl HttpDisconnect
  end.

(** What the application got in its first [n] calls. *)
Definition got (max_body_bytes : Z) (incoming : list message) (n : nat) : list message :=
  omap (λ i, match within max_body_bytes incoming i with inl m => Some m | inr _ => None end) (seq 0 n).

(** The 413 response. *)
Definition refusal_413 (max_body_bytes : Z) : list sent :=
  let q := String dq "" in
  let body := "{" +:+ q +:+ "detail" +:+ q +:+ ":" +:+ q +:+ "request body exceeds configured max "
              +:+ pretty max_body_bytes +:+ " bytes" +:+ q +:+ "}" in
  [ResponseStart 413 [("content-type", "application/json"); ("content-length", pretty (Z.of_nat (String.length body)))];
   ResponseBody body false].

(** The value of the first [content-length] header, in any case, read as a number. *)
Definition declares (scope : Scope) (n : Z) : Prop :=
  ∃ i name v, sc_headers scope !! i = Some (name, v) ∧ lower name = "content-length" ∧ py_int (VStr v) = Ok n ∧
    ∀ j h, (j < i)%nat → sc_headers scope !! j = Some h → lower h.1 ≠ "content-length".

(** An application that lets every exception of [receive] pass. *)
Fixpoint propagates (app : asgi) : Prop :=
  match app with
  | Return | Throw _ => True
  | Send _ k => propagates k
  | Receive k h => (∀ m, propagates (k m)) ∧ ∀ e, h e = Throw e
  end.

Lemma content_length_declares scope n : _content_length scope = Some n ↔ declares scope n.
Proof.
  unfold _content_length, declares. induction (sc_headers scope) as [|[name v] hs IH]; cbn [List.find fst].
  { split; [done|]. by intros (i & ? & ? & ? & _). }
  destruct (String.eqb_spec (lower name) "content-length") as [E|E]; cbn [snd].
  - split.
    + destruct (py_int (VStr v)) as [m|] eqn:Em; [|done]. intros [= ->]. exists O, name, v. split_and!; [done..|lia].
    + intros (i & name' & v' & Hi & Hn & Hv & Hfirst).
      destruct i as [|i]; [injection Hi as <- <-; by rewrite Hv|].
      by destruct (Hfirst O (name, v) ltac:(lia) eq_refl).
  - rewrite IH. split.
    + intros (i & name' & v' & Hi & Hn & Hv & Hfirst). exists (S i), name', v'. split_and!; [done..|].
      intros [|j] h Hj Hh; [by injection Hh as <-|]. apply (Hfirst j); [lia|done].
    + intros (i & name' & v' & Hi & Hn & Hv & Hfirst). destruct i as [|i]; [by injection Hi as <- <-|].
      exists i, name', v'. split_and!; [done..|]. intros j h Hj Hh. apply (Hfirst (S j)); [lia|done].
Qed.

Lemma run_served {S} (receive : receiver S) deliver (R : nat → S → Prop) app i s :
  (∀ i s, R i s → (receive s).1 = deliver i ∧ R (Datatypes.S i) (receive s).2) → R i s →
  let '(out, e, s') := run receive app s in ∃ n, served_by deliver i app out e n ∧ R n s'.
Proof.
  intros Hr. revert i s. induction app as [|e|m k IH|k IHk h IHh]; intros i s Hs; cbn [run].
  - exists i. split; [constructor|done].
  - exists i. split; [constructor|done].
  - specialize (IH i s Hs). destruct (run receive k s) as [[out e] s']. destruct IH as (n & Hn & HR).
    exists n. split; [by constructor|done].
  - destruct (Hr i s Hs) as [E HR]. destruct (receive s) as [[m|x] s1]; cbn [fst snd] in *.
    + specialize (IHk m (Datatypes.S i) s1 HR). destruct (run receive (k m) s1) as [[out e] s'].
      destruct IHk as (n & Hn & HR'). exists n. split; [by eapply served_message|done].
    + specialize (IHh x (Datatypes.S i) s1 HR). destruct (run receive (h x) s1) as [[out e] s'].
      destruct IHh as (n & Hn & HR'). exists n. split; [by eapply served_failure|done].
Qed.

Lemma client_step incoming i :
  (client (drop i incoming)).1 = unlimited incoming i ∧ (client (drop i incoming)).2 = drop (S i) incoming.
Proof.
  unfold client, unlimited. destruct (incoming !! i) as [m|] eqn:E.
  - by rewrite (drop_S _ m) by done.
  - apply lookup_ge_None in E. by rewrite !drop_ge by lia.
Qed.

Lemma limited_step max_body_bytes incoming i :
  (limited_receive max_body_bytes client (total_bytes (take i incoming), drop i incoming)).1 = within max_body_bytes incoming i ∧
  (limited_receive max_body_bytes client (total_bytes (take i incoming), drop i incoming)).2 =
    (total_bytes (take (S i) incoming), drop (S i) incoming).
Proof.
  destruct (client_step incoming i) as [E1 E2]. unfold limited_receive. unfold unlimited in E1. unfold within.
  destruct (client (drop i incoming)) as [r s]. cbn [fst snd] in E1, E2. subst r s.
  destruct (incoming !! i) as [m|] eqn:E; cbn [default from_option id].
  - rewrite (take_S_r _ _ m E), total_bytes_snoc. destruct m as [body|]; cbn [message_bytes fst snd]; [|by rewrite Z.add_0_r].
    rewrite Z.gtb_ltb. case_decide as Hd.
    + by rewrite (proj2 (Z.ltb_ge _ _)) by lia.
    + by rewrite (proj2 (Z.ltb_lt _ _)) by lia.
  - apply lookup_ge_None in E. by rewrite !take_ge by lia.
Qed.

Lemma served_det deliver i app out e n out' e' n' :
  served_by deliver i app out e n → served_by deliver i app out' e' n' → out = out' ∧ e = e' ∧ n = n'.
Proof.
  intros H1. revert out' e' n'. induction H1; intros out' e' n' H2; inversion H2; subst; try congruence; try done.
  - by destruct (IHserved_by _ _ _ ltac:(eassumption)) as (-> & -> & ->).
  - assert (m = m0) as <- by congruence. by apply IHserved_by.
  - assert (x = x0) as <- by congruence. by apply IHserved_by.
Qed.

(** An application that lets exceptions pass ends with one when it reads beyond the limit. *)
Lemma propagates_overflow max_body_bytes incoming i app out e n :
  propagates app → served_by (unlimited incoming) i app out e n →
  total_bytes (take i incoming) <= max_body_bytes < total_bytes (take n incoming) →
  ∃ out' n', out' `prefix_of` out ∧ served_by (within max_body_bytes incoming) i app out' (Some RequestBodyTooLarge) n'.
Proof.
  intros Hp Hs. induction Hs as [i|i x|i m k out x n Hs IH|i k h m out x n Hd Hs IH|i k h x out y n Hd Hs IH]; intros Hb.
  - lia.
  - lia.
  - destruct (IH Hp Hb) as (out' & n' & Hpre & Hs'). exists (m :: out'), n'. split; [by apply prefix_cons|by constructor].
  - destruct Hp as [Hk Hh]. destruct (within max_body_bytes incoming i) as [m'|x'] eqn:Ew.
    + assert (m' = m ∧ total_bytes (take (S i) incoming) <= max_body_bytes) as [-> Hle].
      { unfold within, unlimited in *. destruct (incoming !! i) as [[body|]|] eqn:E; simplify_eq/=.
        - case_decide; by simplify_eq.
        - rewrite (take_S_r _ _ _ E), total_bytes_snoc. cbn [message_bytes]. split; [done|lia].
        - apply lookup_ge_None in E. rewrite take_ge in Hb by lia. rewrite take_ge by lia. split; [done|lia]. }
      destruct (IH (Hk m)) as (out' & n' & Hpre & Hs'); [lia|]. exists out', n'. split; [done|by eapply served_message].
    + assert (x' = RequestBodyTooLarge) as ->.
      { unfold within in Ew. destruct (incoming !! i) as [[body|]|]; try done. case_decide; by simplify_eq. }
      exists [], (S i). split; [apply prefix_nil|]. eapply served_failure; [done|]. rewrite Hh. constructor.
  - unfold unlimited in Hd. done.
Qed.

Lemma got_within max_body_bytes incoming n : 0 <= max_body_bytes →
  total_bytes (got max_body_bytes incoming n) <= max_body_bytes ∧
  total_bytes (got max_body_bytes incoming n) <= total_bytes (take n incoming).
Proof.
  intros Hmax. unfold got. induction n as [|n [IH1 IH2]]; [split; [exact Hmax|done]|].
  rewrite seq_S, omap_app. cbn [omap list_omap Nat.add]. unfold within at 2 4.
  assert (total_bytes (take n incoming) <= total_bytes (take (S n) incoming)) as Hmono.
  { destruct (incoming !! n) as [m|] eqn:E.
    - rewrite (take_S_r _ _ m E), total_bytes_snoc. destruct m; cbn [message_bytes]; lia.
    - apply lookup_ge_None in E. by rewrite !take_ge by lia. }
  destruct (incoming !! n) as [[body|]|] eqn:E; [case_decide|..];
    rewrite ?app_nil_r, ?total_bytes_snoc; cbn [message_bytes]; [|lia..].
  rewrite (take_S_r _ _ _ E), total_bytes_snoc in *. cbn [message_bytes] in *. lia.
Qed.

Lemma limited_inside scope :
  limited scope = true ↔ sc_type scope = "http" ∧ upper (sc_method scope) = "POST" ∧
    (sc_path scope = "/v1/events/ingest" ∨ sc_path scope = "/v1/events/ingest/batch").
Proof.
  unfold limited, _LIMITED_PATHS. rewrite !andb_true_iff, !String.eqb_eq, bool_decide_eq_true. set_solver.
Qed.

Lemma call_outside max_body_bytes app scope incoming : limited scope = false →
  let '(out, ending, rest) := call max_body_bytes app scope client incoming in
  ∃ n, served_by (unlimited incoming) 0 app out ending n ∧ rest = drop n incoming.
Proof.
  unfold call. intros ->.
  apply (run_served client (unlimited incoming) (λ i s, s = drop i incoming)); [|done]. intros i s ->. apply client_step.
Qed.

Lemma call_inside max_body_bytes app scope incoming :
  limited scope = true → (∀ n, _content_length scope = Some n → n <= max_body_bytes) →
  let '(out, ending, rest) := call max_body_bytes app scope client incoming in
  ∃ out1 raised n, served_by (within max_body_bytes incoming) 0 app out1 raised n ∧ rest = drop n incoming ∧
    (raised = Some RequestBodyTooLarge → out = out1 ++ refusal_413 max_body_bytes ∧ ending = None) ∧
    (raised ≠ Some RequestBodyTooLarge → out = out1 ∧ ending = raised).
Proof.
  unfold call. intros -> Hd. cbn [negb].
  assert (match _content_length scope with Some n => n >? max_body_bytes | None => false end = false) as ->.
  { destruct (_content_length scope) as [n|]; [|done]. specialize (Hd n eq_refl). rewrite Z.gtb_ltb. by apply Z.ltb_ge. }
  pose proof (run_served (limited_receive max_body_bytes client) (within max_body_bytes incoming)
    (λ i s, s = (total_bytes (take i incoming), drop i incoming)) app 0 (0, incoming)) as Hlim.
  specialize (Hlim ltac:(intros i s ->; apply limited_step) eq_refl).
  destruct (run _ _ _) as [[out1 raised] [total rest]]. destruct Hlim as (n & Hs & [= -> ->]).
  by destruct raised as [[|x]|]; eexists _, _, n; split_and!.
Qed.

(** The runs with and without the limiter agree on what fits. *)
Lemma served_fits max_body_bytes incoming i app out e n :
  total_bytes incoming <= max_body_bytes → served_by (unlimited incoming) i app out e n →
  served_by (within max_body_bytes incoming) i app out e n.
Proof.
  intros Hl Hs. assert (∀ i, within max_body_bytes incoming i = unlimited incoming i) as Heq.
  { intros j. unfold within, unlimited. destruct (incoming !! j) as [[body|]|]; [|done..].
    rewrite decide_True; [done|]. pose proof (total_bytes_app (take (S j) incoming) (drop (S j) incoming)) as Ht.
    rewrite take_drop in Ht. pose proof (total_bytes_nonneg (drop (S j) incoming)). lia. }
  induction Hs; [constructor..|eapply served_message|eapply served_failure]; rewrite ?Heq; done.
Qed.

(** C9. The body limit. Requests outside it - other protocols, methods and paths - are served as
    if there were no middleware. For the others, a declared length above the limit is
    answered with 413 before anything is received. Otherwise the application runs on the
    client's messages, each of them delivered as long as the bodies so far, together, stay
    within the limit, and replaced by an exception from there on, so that it gets at most the
    limit's bytes; if that exception comes out of the application the 413 response follows
    what it has sent and nothing is raised, and any other ending is the application's own. So
    an application that does not catch the exception and would have read more than the
    limit ends in a 413, and a body within the limit is served as without the middleware. *)
Theorem body_limit_exact (max_body_bytes : Z) (app : asgi) (scope : Scope) (incoming : list message) :
  0 <= max_body_bytes →
  let '(out, ending, rest) := call max_body_bytes app scope client incoming in
  let inside := sc_type scope = "http" ∧ upper (sc_method scope) = "POST" ∧
                (sc_path scope = "/v1/events/ingest" ∨ sc_path scope = "/v1/events/ingest/batch") in
  (¬ inside → ∃ n, served_by (unlimited incoming) 0 app out ending n ∧ rest = drop n incoming) ∧
  (inside → (∃ n, declares scope n ∧ max_body_bytes < n) →
   out = refusal_413 max_body_bytes ∧ ending = None ∧ rest = incoming) ∧
  (inside → (∀ n, declares scope n → n <= max_body_bytes) →
   (∃ sent raised n, served_by (within max_body_bytes incoming) 0 app sent raised n ∧ rest = drop n incoming ∧
      total_bytes (got max_body_bytes incoming n) <= max_body_bytes ∧
      (raised = Some RequestBodyTooLarge → out = sent ++ refusal_413 max_body_bytes ∧ ending = None) ∧
      (raised ≠ Some RequestBodyTooLarge → out = sent ∧ ending = raised)) ∧
   (∀ out0 e0 n0, served_by (unlimited incoming) 0 app out0 e0 n0 →
      (total_bytes incoming <= max_body_bytes → e0 ≠ Some RequestBodyTooLarge →
       out = out0 ∧ ending = e0 ∧ rest = drop n0 incoming) ∧
      (max_body_bytes < total_bytes (take n0 incoming) → propagates app →
       ∃ sent, sent `prefix_of` out0 ∧ out = sent ++ refusal_413 max_body_bytes ∧ ending = None))).
Proof.
  intros Hmax. pose proof (content_length_declares scope) as Hdecl. pose proof (limited_inside scope) as Hin.
  destruct (limited scope) eqn:El.
  2: { pose proof (call_outside max_body_bytes app scope incoming El) as Ho.
       destruct (call _ _ _ _ _) as [[out ending] rest]. split_and!; [done|by intros Hx%Hin|by intros Hx%Hin]. }
  assert ((∀ n, _content_length scope = Some n → n <= max_body_bytes) ∨ ∃ n, _content_length scope = Some n ∧ max_body_bytes < n)
    as [Hd|(n & En & Hn)].
  { destruct (_content_length scope) as [n|]; [|by left]. destruct (Z.le_gt_cases n max_body_bytes); [left; by intros ? [= <-]|right; by exists n]. }
  - pose proof (call_inside max_body_bytes app scope incoming El Hd) as Hc.
    destruct (call _ _ _ _ _) as [[out ending] rest]. destruct Hc as (out1 & raised & n & Hs & -> & Hyes & Hno).
    split_and!; [intros Hx; by destruct Hx; apply Hin| |intros _ _; split].
    + intros _ (m & Hm & Hgt). apply Hdecl, Hd in Hm. lia.
    + exists out1, raised, n. split_and!; [done|done|by apply got_within|done|done].
    + intros out0 e0 n0 H0. split.
      * intros Hl Hne. apply (served_fits max_body_bytes) in H0; [|done].
        destruct (served_det _ _ _ _ _ _ _ _ _ Hs H0) as (-> & -> & ->). by destruct (Hno Hne) as [-> ->].
      * intros Hgt Hp. destruct (propagates_overflow max_body_bytes incoming 0 app out0 e0 n0 Hp H0) as (out' & n' & Hpre & Hs').
        { split; [exact Hmax|done]. }
        destruct (served_det _ _ _ _ _ _ _ _ _ Hs Hs') as (-> & -> & _). destruct (Hyes eq_refl) as [-> ->]. by exists out'.
  - unfold call. rewrite El. cbn [negb].
    rewrite En, Z.gtb_ltb, (proj2 (Z.ltb_lt _ _)) by done. split_and!.
    + intros Hx. by destruct Hx; apply Hin.
    + done.
    + intros _ Hle. apply Hdecl, Hle in En. lia.
Qed.

Definition post_scope (content_length : string) : Scope :=
  mkScope "http" "post" "/v1/events/ingest" [("Content-Length", content_length)].

(** Reads two messages and answers; an exception of [receive] passes through. *)
Definition reader : asgi :=
  Receive (λ m1, Receive (λ m2, Send (ResponseStart 200 []) (Send (ResponseBody (pretty (message_bytes m1 + message_bytes m2)) false) Return))
                         Throw) Throw.

Example body_limit_samples :
  let served cl l := (call 4 reader (post_scope cl) client (map HttpRequest l)).1 in
  served "4" ["ab"; "cd"] = ([ResponseStart 200 []; ResponseBody "4" false], None) ∧
  served "" ["ab"; "cde"] = (_send_too_large 4, None) ∧
  served " 5 " ["ab"] = (_send_too_large 4, None) ∧
  served "-9" ["ab"; "cde"] = (_send_too_large 4, None).
Proof. by vm_compute. Qed.

Lemma body_limit_exact_witness :
  call 4 reader (post_scope "9") client [HttpRequest "ab"] = (refusal_413 4, None, [HttpRequest "ab"]) ∧
  call 4 reader (post_scope "4") client (map HttpRequest ["ab"; "cd"]) =
    ([ResponseStart 200 []; ResponseBody "4" false], None, []) ∧
  ∃ before rest, call 4 reader (post_scope "4") client (map HttpRequest ["ab"; "cde"]) = (before ++ refusal_413 4, None, rest).
Proof.
  assert (∀ cl, sc_type (post_scope cl) = "http" ∧ upper (sc_method (post_scope cl)) = "POST" ∧
    (sc_path (post_scope cl) = "/v1/events/ingest" ∨ sc_path (post_scope cl) = "/v1/events/ingest/batch")) as Hin
    by (intros cl; split_and!; [reflexivity|reflexivity|by left]).
  assert (∀ n, declares (post_scope "4") n → n <= 4) as H4.
  { intros n Hn. apply content_length_declares in Hn. vm_compute in Hn. injection Hn as <-. lia. }
  assert (∀ m1 m2, served_by (unlimited [m1; m2]) 0 reader
    [ResponseStart 200 []; ResponseBody (pretty (message_bytes m1 + message_bytes m2)) false] None 2) as Hreader.
  { intros m1 m2. eapply served_message; [reflexivity|]. eapply served_message; [reflexivity|]. repeat constructor. }
  split_and!.
  - pose proof (body_limit_exact 4 reader (post_scope "9") [HttpRequest "ab"] ltac:(lia)) as H9.
    destruct (call _ _ _ _ _) as [[out ending] rest]. destruct H9 as (_ & H9 & _).
    destruct (H9 (Hin _)) as (-> & -> & ->); [|reflexivity].
    exists 9. split; [apply content_length_declares; vm_compute; reflexivity|lia].
  - pose proof (body_limit_exact 4 reader (post_scope "4") (map HttpRequest ["ab"; "cd"]) ltac:(lia)) as Hx.
    destruct (call _ _ _ _ _) as [[out ending] rest]. destruct Hx as (_ & _ & Hx). destruct (Hx (Hin _) H4) as [_ Ho].
    destruct (Ho _ _ _ (Hreader (HttpRequest "ab") (HttpRequest "cd"))) as [Ho' _].
    destruct Ho' as (-> & -> & ->); [vm_compute; discriminate|discriminate|vm_compute; reflexivity].
  - pose proof (body_limit_exact 4 reader (post_scope "4") (map HttpRequest ["ab"; "cde"]) ltac:(lia)) as Hx.
    destruct (call _ _ _ _ _) as [[out ending] rest]. destruct Hx as (_ & _ & Hx). destruct (Hx (Hin _) H4) as [_ Ho].
    destruct (Ho _ _ _ (Hreader (HttpRequest "ab") (HttpRequest "cde"))) as [_ Ho'].
    destruct Ho' as (before & _ & -> & ->); [vm_compute; reflexivity|by cbn|]. by exists before, rest.
Defined.

End BodyLimit.

(** ** Requests and responses *)

(** Header names are in lower case, as Starlette gives them; [hr_claims] is
    [request.state.auth_claims]. *)
Record http_request := mkHttpRequest {
  hr_method : string;
  hr_path : string;
  hr_headers : list (string * string);
  hr_client : option string;
  hr_claims : option (odict string pyval);
}.

Record http_response := mkHttpResponse {
  rs_status : Z;
  rs_headers : list (string * string);
  rs_body : pyval;
}.

(** [headers.get(name, "")] *)
Definition header (name : string) (headers : list (string * string)) : string :=
  match List.find (λ h, String.eqb h.1 name) headers with Some h => h.2 | None => "" end.

Definition has_header (name : string) (headers : list (string * string)) : bool :=
  existsb (λ h, String.eqb h.1 name) headers.

(** [MutableHeaders.setdefault] *)
Definition setdefault (name value : string) (headers : list (string * string)) : list (string * string) :=
  if has_header name headers then headers else headers ++ [(name, value)].

Definition detail (status : Z) (text : string) (headers : list (string * string)) : http_response :=
  mkHttpResponse status (("content-type", "application/json") :: headers) (VDict [("detail", VStr text)]).

(** What a route handler hands back: the model of a 200 response, an [HTTPException] or
    error response with its status and content, or an exception that it does not handle,
    which the server answers with 500. *)
Inductive reply (A : Type) :=
| Reply (a : A)
| HttpError (status : Z) (content : pyval)
| Unhandled (e : exn).
Arguments Reply {A} _.
Arguments HttpError {A} _ _.
Arguments Unhandled {A} _.

Definition http_exception {A} (status : Z) (text : string) : reply A := HttpError status (VDict [("detail", VStr text)]).

(** [except ValueError as exc: raise HTTPException(status, str(exc))] around a call. *)
Definition on_value_error {A B} (status : Z) (r : res A) (k : A → reply B) : reply B :=
  match r with
  | Ok a => k a
  | Raise (ValueError text) => http_exception status text
  | Raise e => Unhandled e
  end.

(** ** The middleware stack *)

Section stack.
  Context `{JwtDecoder} {S : Type} (config : PlatformConfig).

Definition handler : Type := http_request → SE S http_response.
Definition middleware : Type := handler → handler.

Definition add_security_headers : middleware := λ call_next request,
    (let! response := call_next request in
     se_ret (mkHttpResponse (rs_status response)
       (setdefault "referrer-policy" "strict-origin-when-cross-origin"
         (setdefault "x-frame-options" "DENY"
           (setdefault "x-content-type-options" "nosniff" (rs_headers response)))) (rs_body response)))%py.

Definition with_claims (claims : odict string pyval) (request : http_request) : http_request :=
    mkHttpRequest (hr_method request) (hr_path request) (hr_headers request) (hr_client request) (Some claims).

Definition auth_middleware : middleware := λ call_next request,
    match enforce_service_auth config (hr_path request) (header "authorization" (hr_headers request)) with
    | Proceed (Some claims) => call_next (with_claims claims request)
    | Proceed None => call_next request
    | Unauthorized text => se_ret (detail 401 text [("www-authenticate", "Bearer")])
    | Propagate e => se_raise e
    end.

Definition always_available_paths : list string :=
    ["/"; "/health"; "/live"; "/ready"; "/metrics"; "/metrics/prometheus"].

Definition outside_surface (path : string) : bool :=
    negb (isin path always_available_paths || startswith path "/platform") &&
    (String.eqb (lower (runtime_role config)) "gateway" && startswith path "/v1/" && negb (String.eqb path "/v1/intercept")).

Definition enforce_runtime_surface : middleware := λ call_next request,
    if outside_surface (hr_path request)
    then se_ret (detail 503 "route unavailable for runtime role 'gateway'" []) else call_next request.

  (** [add_middleware] puts the new middleware in front, and the first of the list is the
      outermost. *)
Definition add_middleware (stack : list middleware) (m : middleware) : list middleware := m :: stack.

Definition build_middleware_stack (stack : list middleware) (router : handler) : handler :=
    foldr (λ m app, m app) router stack.

Context (gzip body_limit : middleware) (cors : option middleware) (router : handler).

  (** The middlewares in the order in which the module adds them. *)
Definition added : list middleware :=
    [gzip; body_limit] ++ option_list cors ++ [add_security_headers; auth_middleware; enforce_runtime_surface].

Definition application : handler := build_middleware_stack (fold_left add_middleware added []) router.

  (** What authentication and the runtime surface protect. *)
Definition inner : handler :=
    add_security_headers (match cors with Some m => m | None => id end (body_limit (gzip router))).

Lemma application_order : application = enforce_runtime_surface (auth_middleware inner).
  Proof. unfold application, added, inner. by destruct cors. Qed.
End stack.

(** *** Lemmas *)

Lemma has_setdefault name n v headers :
  has_header name (setdefault n v headers) = has_header name headers || String.eqb n name.
Proof.
  unfold setdefault. destruct (has_header n headers) eqn:E.
  - destruct (String.eqb_spec n name) as [<-|]; [by rewrite E, orb_true_r|by rewrite orb_false_r].
  - unfold has_header. rewrite existsb_app. cbn [existsb fst]. by rewrite orb_false_r.
Qed.

Lemma surface_path path :
  is_auth_required path = true → isin path always_available_paths || startswith path "/platform" = false.
Proof.
  intros (r & ->)%startswith_split. apply orb_false_iff. split; [|reflexivity].
  apply bool_decide_eq_false. intros Hin.
  repeat (apply elem_of_cons in Hin as [Hin|Hin]; [discriminate|]). by apply elem_of_nil in Hin.
Qed.

(** A request to the protected paths with a bearer token: what the middleware answers. *)
Lemma auth_outcome_of `{JwtDecoder} (c : PlatformConfig) path header :
  _validate_runtime_settings c = Ok tt → production_like c = true → is_auth_required path = true →
  (startswith header "Bearer " = false → enforce_service_auth c path header = Unauthorized "missing bearer token") ∧
  match enforce_service_auth c path header with
  | Proceed claims => ∃ cl, claims = Some cl ∧
      jwt_decode (strip (str_drop 7 header)) (_jwt_key (auth c)) (jwt_algorithm (auth c))
        (jwt_audience (auth c)) (jwt_issuer (auth c)) (clock_skew_seconds (auth c)) = Ok cl ∧
      dget cl (tenant_claim (auth c)) VNone = VStr (tenant_id c)
  | _ => True
  end.
Proof.
  intros Hok Hp Hpath. destruct (accepted_production_auth c Hok Hp) as [Hen Hby].
  unfold enforce_service_auth. rewrite (required_not_public path Hpath), Hpath, Hen. cbn [negb orb].
  unfold can_bypass_auth. rewrite Hby, andb_false_r.
  destruct (startswith header "Bearer ") eqn:Eb; cbn [negb]; [|by split].
  split; [done|]. destruct (decode_and_validate_token _ _ _) as [cl|e] eqn:Ed; [|by destruct e].
  apply decode_ok in Ed as (Hd & Ht & _). exists cl. split_and!; [done..|]. by apply py_eq_str.
Qed.

(** C8. The stack in an accepted production or staging configuration: a request to a [/v1/]
    path either ends in the two outer middlewares, with a 401 or 503 (which then lacks the
    security headers) or an exception of the token decoder, nothing behind them having run;
    or it reaches the rest of the stack with the claims the decoder validated for this
    tenant. On a gateway only [/v1/intercept] gets that far, and without a bearer token
    nothing does, whatever the method: CORS preflights, which carry none, included. *)
Theorem http_stack_gate `{JwtDecoder} {S : Type} (c : PlatformConfig) (gzip body_limit : middleware (S := S))
    (cors : option middleware) (router : handler (S := S)) (request : http_request) (s : S) :
  _validate_runtime_settings c = Ok tt → production_like c = true → is_auth_required (hr_path request) = true →
  let served := application c gzip body_limit cors router request s in
  let header := header "authorization" (hr_headers request) in
  (runtime_role c = "gateway" ∧ hr_path request ≠ "/v1/intercept" ∨ startswith header "Bearer " = false →
   ∃ r, served = (Ok r, s) ∧ rs_status r ∈ [401; 503]) ∧
  ((∃ r, served = (Ok r, s) ∧ rs_status r ∈ [401; 503] ∧ has_header "x-frame-options" (rs_headers r) = false) ∨
   (∃ e, served = (Raise e, s)) ∨
   (∃ cl, served = inner gzip body_limit cors router (with_claims cl request) s ∧
      jwt_decode (strip (str_drop 7 header)) (_jwt_key (auth c)) (jwt_algorithm (auth c))
        (jwt_audience (auth c)) (jwt_issuer (auth c)) (clock_skew_seconds (auth c)) = Ok cl ∧
      dget cl (tenant_claim (auth c)) VNone = VStr (tenant_id c))).
Proof.
  intros Hok Hp Hpath. cbv zeta. rewrite application_order.
  destruct (auth_outcome_of c (hr_path request) (header "authorization" (hr_headers request)) Hok Hp Hpath) as [Hmiss Hout].
  unfold enforce_runtime_surface. destruct (outside_surface c (hr_path request)) eqn:Eo.
  { split; [intros _|left]; eexists; (split; [reflexivity|]); [|split]; [set_solver..|done]. }
  unfold auth_middleware. split.
  - intros [[Hr Hn]|Hb].
    + exfalso. apply not_true_iff_false in Eo. apply Eo. unfold outside_surface. rewrite Hr.
      rewrite (surface_path _ Hpath). unfold is_auth_required in Hpath. rewrite Hpath. apply String.eqb_neq in Hn. by rewrite Hn.
    + rewrite (Hmiss Hb). eexists. split; [reflexivity|set_solver].
  - destruct (enforce_service_auth _ _ _) as [claims|text|e].
    + destruct Hout as (cl & -> & Hd & Ht). right; right. by exists cl.
    + left. eexists. split; [reflexivity|]. split; [set_solver|done].
    + right; left. by exists e.
Qed.

(** Every response from behind the security middleware has the three headers, and a route's
    own values of them are kept. *)
Lemma security_headers_present {S : Type} (call_next : handler (S := S)) request s r s' :
  add_security_headers call_next request s = (Ok r, s') →
  ∃ r0, call_next request s = (Ok r0, s') ∧ rs_status r = rs_status r0 ∧
    Forall (λ n, has_header n (rs_headers r) = true) ["x-content-type-options"; "x-frame-options"; "referrer-policy"] ∧
    (∀ n, has_header n (rs_headers r0) = true → has_header n (rs_headers r) = true).
Proof.
  unfold add_security_headers, se_bind. destruct (call_next request s) as [[r0|e] s0]; [|done].
  intros [= <- <-]. exists r0. cbn [rs_status rs_headers]. split_and!; [done..| |].
  - repeat constructor; rewrite !has_setdefault, ?String.eqb_refl, ?orb_true_r; done.
  - intros n Hn. by rewrite !has_setdefault, Hn.
Qed.

(** ** The key of an ingestion caller *)

(** [ip_address(text)] and membership in [ip_network(text, strict=False)] (Python's ipaddress);
    nothing stands for [ValueError]. *)
Class AddressLib := {
  address : Type;
  ip_address : string → option address;
  ip_network : string → option (address → bool);
}.

Section rate_key.
  Context `{AddressLib} (api_trusted_proxy_cidrs : string).

Definition trusted_entries : list string :=
    filter (λ s, is_empty s = false) (map strip (split_on ","%char api_trusted_proxy_cidrs)).

Definition _request_came_from_trusted_proxy (request : http_request) : bool :=
    match trusted_entries, hr_client request with
    | _ :: _, Some host =>
        match ip_address host with
        | Some client_ip =>
            existsb (λ entry, match ip_network entry with Some contains => contains client_ip | None => false end)
                    trusted_entries
        | None => false
        end
    | _, _ => false
    end.

  (** [str(claims.get("sub", "")).strip()], when there are claims. *)
Definition auth_subject (request : http_request) : string :=
    match hr_claims request with Some claims => strip (py_str (dget claims "sub" (VStr ""))) | None => "" end.

Definition _ingest_rate_limit_key (request : http_request) : string :=
    let subject := auth_subject request in
    if negb (is_empty subject) then "sub:" +:+ subject else
    let forwarded_for := strip (hd "" (split_on ","%char (header "x-forwarded-for" (hr_headers request)))) in
    if negb (is_empty forwarded_for) && _request_came_from_trusted_proxy request then "ip:" +:+ forwarded_for
    else match hr_client request with
         | Some host => if is_empty host then "anonymous" else "ip:" +:+ host
         | None => "anonymous"
         end.
End rate_key.

(** No character of a text. *)
Definition lacks (c : ascii) (s : string) : bool := negb (existsb (Ascii.eqb c) (String.list_ascii_of_string s)).

Lemma split_first c s rest : lacks c s = true → hd "" (split_on c (s +:+ String c rest)) = s.
Proof.
  unfold lacks. intros Hs%negb_true_iff. induction s as [|d s IH]; cbn [split_on].
  - change ("" +:+ String c rest) with (String c rest). cbn [split_on]. by rewrite Ascii.eqb_refl.
  - change (String d s +:+ String c rest) with (String d (s +:+ String c rest)). cbn [split_on].
    cbn [String.list_ascii_of_string existsb] in Hs. apply orb_false_iff in Hs as [Hd Hs].
    rewrite Ascii.eqb_sym, Hd. specialize (IH Hs).
    destruct (split_on c (s +:+ String c rest)) as [|w ws]; cbn [hd] in *; [by subst s|by subst w].
Qed.

(** The first call of a key is admitted. *)
Lemma allow_fresh key now lim :
  od_get key (_events lim) = None → 0 < _limit lim →
  (allow key now lim).1 = true ∧ _limit (allow key now lim).2 = _limit lim ∧
  (∀ k, k ≠ key → od_get k (_events lim) = None → od_get k (_events (allow key now lim).2) = None).
Proof.
  intros Hk Hl. unfold allow. rewrite Hk. cbn [default from_option prune length].
  assert ((_limit lim <=? Z.of_nat 0) = false) as Hle by (apply Z.leb_gt; lia).
  destruct (_ <=? _)%nat; rewrite Hle; cbn [fst snd _limit _events]; (split_and!; [done..|]);
    intros k Hne Hn; rewrite od_get_set_ne by done.
  - apply od_get_None. intros Hin. apply list_elem_of_fmap in Hin as ([k' b] & -> & Hin).
    apply list_elem_of_filter in Hin as [_ Hin]. apply od_get_None in Hn. cbn [fst] in *.
    assert (k' ∈ od_keys (od_set key (@nil pyfloat) (_events lim))) as Hin'.
    { unfold od_keys. change k' with ((k', b).1). by apply list_elem_of_fmap_2. }
    apply od_get_is_Some in Hin' as [b' Hb]. rewrite od_get_set_ne in Hb by done. apply od_get_None in Hn. congruence.
  - by rewrite od_get_set_ne.
Qed.

Lemma trusted_client `{AddressLib} cidrs r1 r2 :
  hr_client r1 = hr_client r2 → _request_came_from_trusted_proxy cidrs r1 = _request_came_from_trusted_proxy cidrs r2.
Proof. intros E. unfold _request_came_from_trusted_proxy. by rewrite E. Qed.

(** A request that a proxy passed on: it appended the peer it saw to the header it got. *)
Definition via_proxy (proxy claimed seen : string) : http_request :=
  mkHttpRequest "POST" "/v1/events/ingest" [("x-forwarded-for", claimed +:+ ", " +:+ seen)] (Some proxy) None.

Lemma via_proxy_key `{AddressLib} cidrs proxy claimed seen :
  lacks ","%char claimed = true → strip claimed ≠ "" →
  _request_came_from_trusted_proxy cidrs (via_proxy proxy "" "") = true →
  _ingest_rate_limit_key cidrs (via_proxy proxy claimed seen) = "ip:" +:+ strip claimed.
Proof.
  intros Hc Hn Ht. unfold _ingest_rate_limit_key.
  assert (auth_subject (via_proxy proxy claimed seen) = "") as -> by done.
  assert (header "x-forwarded-for" (hr_headers (via_proxy proxy claimed seen)) = claimed +:+ String ","%char (" " +:+ seen)) as ->
    by done.
  rewrite split_first by done. rewrite (trusted_client cidrs _ (via_proxy proxy "" "")) by done. rewrite Ht.
  unfold is_empty. rewrite (bool_decide_eq_false_2 (strip claimed = "")) by done. done.
Qed.

(** What decides the key of an ingestion caller: for a caller with a token subject, or
    one whose peer is not a trusted proxy, the headers have no influence. *)
Theorem rate_key_trust `{AddressLib} (cidrs : string) (r1 r2 : http_request) :
  hr_claims r1 = hr_claims r2 → hr_client r1 = hr_client r2 →
  auth_subject r1 ≠ "" ∨ _request_came_from_trusted_proxy cidrs r1 = false →
  _ingest_rate_limit_key cidrs r1 = _ingest_rate_limit_key cidrs r2 ∧
  (auth_subject r1 ≠ "" → _ingest_rate_limit_key cidrs r1 = "sub:" +:+ auth_subject r1).
Proof.
  intros Hcl Hpeer Hd. assert (auth_subject r1 = auth_subject r2) as Hs by (unfold auth_subject; by rewrite Hcl).
  unfold _ingest_rate_limit_key. rewrite <- Hs, <- (trusted_client cidrs r1 r2 Hpeer), <- Hpeer.
  unfold is_empty at 1 4 7. destruct (bool_decide_reflect (auth_subject r1 = "")) as [Hn|Hn]; cbn [negb].
  - destruct Hd as [?| ->]; [done|]. rewrite !andb_false_r. by split.
  - by split.
Qed.

(** Behind a trusted proxy that appends to [X-Forwarded-For], a caller without a token
    subject chooses its own key, the first entry: with a new one in each request the
    in-memory limiter admits all of them, whatever the limit, the window and the clock. *)
Theorem forged_callers_unlimited `{AddressLib} (cidrs proxy seen : string) (claimed : list string)
    (now : string → pyfloat) (limit : Z) (window : pyfloat) :
  _request_came_from_trusted_proxy cidrs (via_proxy proxy "" "") = true → 0 < limit →
  Forall (λ n, lacks ","%char n = true ∧ strip n ≠ "") claimed → NoDup (map strip claimed) →
  run_calls (map (λ n, (_ingest_rate_limit_key cidrs (via_proxy proxy n seen), now n)) claimed)
            (SlidingWindowRateLimiter_init limit window) = map (λ _, true) claimed.
Proof.
  intros Ht Hl Hc Hnd.
  assert (∀ lim, 0 < _limit lim → (∀ n, n ∈ claimed → od_get ("ip:" +:+ strip n) (_events lim) = None) →
    run_calls (map (λ n, (_ingest_rate_limit_key cidrs (via_proxy proxy n seen), now n)) claimed) lim
    = map (λ _, true) claimed) as Hall; [|by apply Hall].
  induction claimed as [|n claimed IH]; intros lim Hlim Hfresh; cbn [map run_calls]; [done|].
  apply Forall_cons in Hc as [[Hcn Hbn] Hc]. cbn [map] in Hnd. apply NoDup_cons in Hnd as [Hni Hnd].
  rewrite via_proxy_key by done.
  destruct (allow_fresh ("ip:" +:+ strip n) (now n) lim) as (Ha & Hlim' & Hk); [apply Hfresh; by left|done|].
  destruct (allow _ _ lim) as [r lim']. cbn [fst snd] in *. subst r. f_equal. apply IH; [done|done|lia|].
  intros m Hm. apply Hk; [|apply Hfresh; by right]. intros E.
  change ("ip:" +:+ strip m) with (String "i" (String "p" (String ":" (strip m)))) in E.
  change ("ip:" +:+ strip n) with (String "i" (String "p" (String ":" (strip n)))) in E. injection E as E.
  apply Hni. rewrite <- E. by apply list_elem_of_fmap_2.
Qed.

(** [_extract_aci_headers] and the lower-case lookup of the intercept route. *)
Definition _extract_aci_headers (request : http_request) : odict string string :=
  fold_left (λ d h, if startswith (lower h.1) "x-aci-" then od_set h.1 h.2 d else d) (hr_headers request) [].

Definition header_lookup (aci_headers : odict string string) : odict string string :=
  fold_left (λ d h, od_set (lower h.1) h.2 d) aci_headers [].

(** ** Examples *)

(** Addresses as dotted quads compared as texts; a network is a prefix of the text. *)
#[export] Instance TextAddresses : AddressLib := {|
  address := string;
  ip_address s := if is_empty s then None else Some s;
  ip_network p := Some (λ s, startswith s p);
|}.

Definition sample_config : PlatformConfig :=
  mkPlatformConfig "acme" "production" "all" "active" 600 "auto" 1000 1048576 "" false
    "redis" true (mkAuthConfig true false "HS256" "iss" "aud" "s3cret" "" "aci.api" "tenant_id" 60)
    "redis" "neo4j" 1800 "kafka" "broker:9092" "rediss://cache:6379/0" "pw".

Definition sample_decoder : JwtDecoder := λ token _ _ _ _ _,
  if String.eqb token "good" then Ok [("tenant_id", VStr "acme"); ("scope", VStr "aci.api admin")] else Raise InvalidTokenError.

Definition sample_router : handler (S := nat) := λ _ n, (Ok (mkHttpResponse 200 [] VNone), S n).

Definition preflight : http_request :=
  mkHttpRequest "OPTIONS" "/v1/events/ingest" [("origin", "https://app.example"); ("access-control-request-method", "POST")] None None.

(** A CORS middleware that answers preflights. *)
Definition sample_cors : middleware (S := nat) := λ call_next request,
  if String.eqb (hr_method request) "OPTIONS" then se_ret (mkHttpResponse 200 [] VNone) else call_next request.

Lemma http_stack_gate_witness :
  ∃ r, @application sample_decoder nat sample_config id id (Some sample_cors) sample_router preflight O = (Ok r, O) ∧
       rs_status r ∈ [401; 503].
Proof.
  apply (@http_stack_gate sample_decoder nat sample_config id id (Some sample_cors) sample_router preflight O);
    [vm_compute; reflexivity..|]. right. vm_compute. reflexivity.
Defined.

Lemma rate_key_trust_witness :
  _ingest_rate_limit_key "10." (mkHttpRequest "POST" "/" [("x-forwarded-for", "1.2.3.4")] (Some "9.9.9.9") None) =
  _ingest_rate_limit_key "10." (mkHttpRequest "POST" "/" [] (Some "9.9.9.9") None).
Proof. apply rate_key_trust; [reflexivity..|]. right. vm_compute. reflexivity. Defined.

Lemma forged_callers_unlimited_witness :
  run_calls (map (λ n, (_ingest_rate_limit_key "10." (via_proxy "10.0.0.1" n "9.9.9.9"), f0)) ["a"; "b"; "c"])
            (SlidingWindowRateLimiter_init 1 (of_Z 60)) = [true; true; true].
Proof.
  apply (forged_callers_unlimited "10." "10.0.0.1" "9.9.9.9" ["a"; "b"; "c"] (λ _, f0) 1 (of_Z 60));
    [vm_compute; reflexivity|lia| |].
  - repeat constructor; vm_compute; discriminate.
  - change (NoDup ["a"; "b"; "c"]). repeat (apply NoDup_cons; split; [set_solver|]). apply NoDup_nil_2.
Defined.
