(* ===== verification/IngestRoutes.v ===== *)
(** * Ingestion routes (src/aci/api/app.py)

    [/v1/events/ingest] and its batch form: the role check, one call of the rate limiter, the
    validation of the attributes, the construction of the domain events and their publication
    on the in-memory bus. The limiter is an interface; the request bodies have passed
    FastAPI's own validation. *)

From S2P Require Import Prelude PyFloat PyData PyTime PyValue Models EventSchema EventBus RateLimit HttpLayer.
From Stdlib Require Import ZArith Lia.
From stdpp Require Import base list sets strings pretty.

Open Scope string_scope.
Open Scope list_scope.
Open Scope Z_scope.

(** ** Data *)

(** The limiter of the application state, at the clock reading of the call. *)
Class IngestLimiter (L : Type) := limiter_allow : string → pyfloat → L → res bool * L.

#[export] Instance sliding_limiter : IngestLimiter SlidingWindowRateLimiter := λ key now l,
  let '(b, l) := allow key now l in (Ok b, l).

(** A missing [event_time] is the current time. *)
Record EventIngestRequest := mkIngest {
  er_event_type : EventType;
  er_subject_id : string;
  er_attributes : odict string pyval;
  er_event_time : option datetime;
  er_source : string;
  er_idempotency_key : string;
}.

Record EventIngestResponse := mkIngestResponse { ir_accepted : bool; ir_event_id : string }.

Record EventBatchIngestResponse := mkBatchResponse { br_total : Z; br_accepted : Z; br_deduplicated : Z }.

(** What each event draws from outside, in order: an identifier and two clock readings. *)
Record drawn := mkDrawn { dr_event_id : string; dr_now : instant; dr_ingest : instant }.

Section routes.
  Context {H W L : Type} `{StrictFields} `{IngestLimiter L}
    (run_handler : H → DomainEvent → W → res unit * W) (max_events : nat)
    (accepts_ingestion : bool) (tenant_id : string) (ingest_max_batch_size : Z).

  (** The rate limiter, the bus, and the world of its handlers. *)
Abbreviation state := (L * InMemoryEventBus H * W)%type.

  (** [DomainEvent(...)] of a request. *)
Definition event_of (d : drawn) (req : EventIngestRequest) (attributes : odict string pyval) : res DomainEvent :=
    DomainEvent_new (dr_event_id d) (er_event_type req) (er_subject_id req) attributes
      (default (Aware (dr_now d) 0) (er_event_time req)) (Aware (dr_ingest d) 0) (er_source req)
      (er_idempotency_key req) tenant_id 1.

  (** The role check and the limiter, before either route looks at the body. *)
Definition admitted {A} (key : string) (now : pyfloat) (k : state → reply A * state) (st : state) : reply A * state :=
    let '(l, b, w) := st in
    if negb accepts_ingestion then (http_exception 503 "event ingestion disabled for this runtime role", st) else
    match limiter_allow key now l with
    | (Raise e, l) => (Unhandled e, (l, b, w))
    | (Ok false, l) => (http_exception 429 "ingestion rate limit exceeded", (l, b, w))
    | (Ok true, l) => k (l, b, w)
    end.

Definition ingest_event (key : string) (now : pyfloat) (d : drawn) (req : EventIngestRequest)
      : state → reply EventIngestResponse * state :=
    admitted key now (λ st,
      match validate_event_attributes (er_event_type req) (er_attributes req) with
      | Raise _ => (http_exception 422 "invalid attributes", st)
      | Ok attributes =>
          match event_of d req attributes with
          | Raise e => (Unhandled e, st)
          | Ok event =>
              let '(l, b, w) := st in
              match EventBus.publish run_handler max_events event b w with
              | (Ok accepted, b, w) => (Reply (mkIngestResponse accepted (ev_event_id event)), (l, b, w))
              | (Raise e, b, w) => (Unhandled e, (l, b, w))
              end
          end
      end).

  (** The loop that builds the events of a batch. *)
Fixpoint batch_events (reqs : list EventIngestRequest) (ds : nat → drawn) (events : list DomainEvent)
      : reply (list DomainEvent) :=
    match reqs with
    | [] => Reply events
    | req :: reqs =>
        match validate_event_attributes (er_event_type req) (er_attributes req) with
        | Raise _ => http_exception 422 "invalid attributes"
        | Ok attributes =>
            match event_of (ds (length events)) req attributes with
            | Raise e => Unhandled e
            | Ok event => batch_events reqs ds (events ++ [event])
            end
        end
    end.

Definition ingest_events_batch (key : string) (now : pyfloat) (ds : nat → drawn) (reqs : list EventIngestRequest)
      : state → reply EventBatchIngestResponse * state :=
    admitted key now (λ st,
      if Z.of_nat (length reqs) >? ingest_max_batch_size
      then (http_exception 413 ("batch size " +:+ pretty (length reqs) +:+ " exceeds configured max "
                                +:+ pretty ingest_max_batch_size), st) else
      match batch_events reqs ds [] with
      | HttpError s c => (HttpError s c, st)
      | Unhandled e => (Unhandled e, st)
      | Reply events =>
          let '(l, b, w) := st in
          match publish_batch run_handler max_events events b w with
          | (Ok (published, deduplicated), b, w) =>
              (Reply (mkBatchResponse (Z.of_nat (length events)) published deduplicated), (l, b, w))
          | (Raise e, b, w) => (Unhandled e, (l, b, w))
          end
      end).
End routes.

(** ** Lemmas *)

Section lemmas.
  Context {H W L : Type} `{StrictFieldsLaws} `{IngestLimiter L}
    (run_handler : H → DomainEvent → W → res unit * W) (max_events : nat)
    (accepts_ingestion : bool) (tenant_id : string) (ingest_max_batch_size : Z).

Lemma event_of_ok d req attributes e :
    event_of tenant_id d req attributes = Ok e →
    e = mkEvent (dr_event_id d) (er_event_type req) (er_subject_id req) attributes
          (to_utc (default (Aware (dr_now d) 0) (er_event_time req))) (dr_ingest d) (er_source req)
          (er_idempotency_key req) tenant_id 1 ∧
    Z.of_nat (String.length (json_dumps (VDict attributes))) <= MAX_ATTRIBUTES_PAYLOAD_BYTES.
  Proof. intros [-> Hs]%DomainEvent_new_ok. by split. Qed.

  (** The construction fails exactly for a naive time and for oversized attributes. *)
Lemma event_of_fails d req attributes :
    is_ok (event_of tenant_id d req attributes) = false ↔
    (∃ us, er_event_time req = Some (Naive us)) ∨
    MAX_ATTRIBUTES_PAYLOAD_BYTES < Z.of_nat (String.length (json_dumps (VDict attributes))).
  Proof.
    unfold event_of, DomainEvent_new, validate_payload_size. rewrite Z.gtb_ltb.
    destruct (Z.ltb_spec MAX_ATTRIBUTES_PAYLOAD_BYTES (Z.of_nat (String.length (json_dumps (VDict attributes)))));
      cbn [rbind]; [split; [by right|done]|].
    destruct (er_event_time req) as [[us|us off]|]; cbn [default from_option id validate_tz_aware rbind is_ok];
      split; try done; try (intros [[? [=]]|?]; lia). by left; exists us.
  Qed.

Lemma event_of_valid d req attrs attributes e :
    validate_event_attributes (er_event_type req) attrs = Ok attributes →
    event_of tenant_id d req attributes = Ok e → validate_domain_event e = Ok tt.
  Proof.
    intros Hv [-> _]%event_of_ok. unfold validate_domain_event. cbn [ev_schema_version ev_event_type ev_attributes].
    cbn [Z.eqb Pos.eqb negb]. by rewrite (validated_again _ _ _ Hv).
  Qed.

  (** A batch published event by event. *)
Lemma publish_batch_all events : ∀ p d (b : InMemoryEventBus H) (w : W),
    Forall (λ e, validate_domain_event e = Ok tt) events →
    let '(rs, b', w') := publish_all run_handler max_events events b w in
    ∃ accepted, rs = map Ok accepted ∧
      publish_batch_loop run_handler max_events events p d b w =
      (Ok (p + Z.of_nat (length (filter (λ a, a = true) accepted)), d + Z.of_nat (length (filter (λ a, a = false) accepted))), b', w').
  Proof.
    induction events as [|e events IH]; intros p d b w Hv; cbn [publish_all publish_batch_loop].
    { exists []. cbn. by rewrite !Z.add_0_r. }
    apply Forall_cons in Hv as [He Hv].
    unfold EventBus.publish at 1 2. unfold EventBus.publish in IH. rewrite He.
    destruct (accept max_events e b) as [[|] b1].
    - destruct (dispatch _ _ _ _ _) as [errs w1].
      set (b2 := mkBus _ _ _ _ _ _ _). specialize (IH (p + 1) d b2 w1 Hv).
      destruct (publish_all run_handler max_events events b2 w1) as [[rs b'] w'].
      destruct IH as (accepted & -> & E). exists (true :: accepted). split; [done|].
      rewrite filter_cons_True, filter_cons_False by done. cbn [length]. rewrite E. do 4 f_equal. lia.
    - specialize (IH p (d + 1) b1 w Hv).
      destruct (publish_all run_handler max_events events b1 w) as [[rs b'] w'].
      destruct IH as (accepted & -> & E). exists (false :: accepted). split; [done|].
      rewrite filter_cons_False, filter_cons_True by done. cbn [length]. rewrite E. do 4 f_equal. lia.
  Qed.

  (** The event that a request stands for: the attributes as the schema normalizes them, small
      enough; the request's own type, subject, source and idempotency key; its time in UTC,
      which has a zone, or else the first clock reading; this deployment's tenant. *)
Definition event_for (d : drawn) (req : EventIngestRequest) (e : DomainEvent) : Prop :=
    ∃ attributes,
      validate_event_attributes (er_event_type req) (er_attributes req) = Ok attributes ∧
      (∀ us, er_event_time req ≠ Some (Naive us)) ∧
      Z.of_nat (String.length (json_dumps (VDict attributes))) <= MAX_ATTRIBUTES_PAYLOAD_BYTES ∧
      e = mkEvent (dr_event_id d) (er_event_type req) (er_subject_id req) attributes
            (to_utc (default (Aware (dr_now d) 0) (er_event_time req))) (dr_ingest d) (er_source req)
            (er_idempotency_key req) tenant_id 1.

Lemma event_for_of d req attributes e :
    validate_event_attributes (er_event_type req) (er_attributes req) = Ok attributes →
    event_of tenant_id d req attributes = Ok e → event_for d req e.
  Proof.
    intros Hv He. assert (is_ok (event_of tenant_id d req attributes) = true) as Hok by by rewrite He.
    apply event_of_ok in He as [-> Hs]. exists attributes. split_and!; try done.
    intros us Hus. assert (is_ok (event_of tenant_id d req attributes) = false); [|congruence].
    apply event_of_fails. left. by exists us.
  Qed.

Lemma no_event_for d req attributes x :
    validate_event_attributes (er_event_type req) (er_attributes req) = Ok attributes →
    event_of tenant_id d req attributes = Raise x → ∀ e, ¬ event_for d req e.
  Proof.
    intros Hv He e (attributes' & Hv' & Htime & Hs & _). assert (attributes' = attributes) as -> by congruence.
    assert (is_ok (event_of tenant_id d req attributes) = false) as Hf by by rewrite He.
    apply event_of_fails in Hf as [[us Hus]|Hf]; [by destruct (Htime us)|lia].
  Qed.

  (** Request [i] of a batch stands for no event, and those before it do. *)
Definition first_fault (ds : nat → drawn) (reqs : list EventIngestRequest) (i : nat) (req : EventIngestRequest) : Prop :=
    reqs !! i = Some req ∧ (∀ e, ¬ event_for (ds i) req e) ∧
    ∀ j req', (j < i)%nat → reqs !! j = Some req' → ∃ e, event_for (ds j) req' e.

  (** The events of a batch: one for each request, or the answer to the first that has none. *)
Lemma batch_events_outcome reqs ds : ∀ done events,
    length events = length done →
    (∀ i req, done !! i = Some req → ∃ e, events !! i = Some e ∧ event_for (ds i) req e) →
    match batch_events tenant_id reqs ds events with
    | Reply events' =>
        length events' = length (done ++ reqs) ∧
        ∀ i req, (done ++ reqs) !! i = Some req → ∃ e, events' !! i = Some e ∧ event_for (ds i) req e
    | answer =>
        ∃ i req, first_fault ds (done ++ reqs) i req ∧
          if is_ok (validate_event_attributes (er_event_type req) (er_attributes req))
          then ∃ x, answer = Unhandled x else answer = http_exception 422 "invalid attributes"
    end.
  Proof.
    induction reqs as [|req reqs IH]; intros dn events Hlen Hdone; cbn [batch_events]; [by rewrite app_nil_r|].
    assert ((∀ e, ¬ event_for (ds (length events)) req e) → first_fault ds (dn ++ req :: reqs) (length dn) req) as Hfault.
    { rewrite Hlen. intros Hno. split_and!; [by apply list_lookup_middle|done|].
      intros j req' Hj. rewrite lookup_app_l by done. intros Hr. destruct (Hdone _ _ Hr) as (e & _ & He). by exists e. }
    destruct (validate_event_attributes _ _) as [attributes|x] eqn:Ev.
    2: { exists (length dn), req. rewrite Ev. split; [apply Hfault|done]. intros e (? & ? & _). congruence. }
    destruct (event_of _ _ _ _) as [e|x] eqn:Ee.
    2: { exists (length dn), req. rewrite Ev. split; [by eapply Hfault, no_event_for|by exists x]. }
    specialize (IH (dn ++ [req]) (events ++ [e])). rewrite <- !app_assoc in IH. apply IH.
    - rewrite !length_app. simpl. lia.
    - intros i req' Hi. apply lookup_app_Some in Hi as [Hi|[Hge Hi]].
      + destruct (Hdone _ _ Hi) as (e' & He' & Hfor). exists e'. split; [by apply lookup_app_l_Some|done].
      + apply list_lookup_singleton_Some in Hi as [Hi ->]. assert (i = length events) as -> by lia.
        exists e. split; [by apply list_lookup_middle|by eapply event_for_of].
  Qed.

Lemma event_for_valid d req e : event_for d req e → validate_domain_event e = Ok tt.
  Proof.
    intros (attributes & Hv & _ & _ & ->). unfold validate_domain_event. cbn [ev_schema_version ev_event_type ev_attributes].
    cbn [Z.eqb Pos.eqb negb]. by rewrite (validated_again _ _ _ Hv).
  Qed.

  (** The counts that [spec_publish] gives. *)
Lemma spec_publish_length n events history : length (spec_publish n events history).1 = length events.
  Proof.
    revert history. induction events as [|e events IH]; intros history; cbn [spec_publish]; [done|].
    destruct (spec_accept n history e) as [b h]. specialize (IH h).
    destruct (spec_publish n events h) as [bs h']. cbn [fst length] in *. by rewrite IH.
  Qed.

Lemma count_partition (l : list bool) :
    Z.of_nat (length (filter (λ a, a = true) l)) + Z.of_nat (length (filter (λ a, a = false) l)) = Z.of_nat (length l).
  Proof.
    induction l as [|[|] l IH]; [done|..].
    - rewrite filter_cons_True, filter_cons_False by done. cbn [length]. lia.
    - rewrite filter_cons_False, filter_cons_True by done. cbn [length]. lia.
  Qed.
End lemmas.

(** ** Theorems *)

Section theorems.
  Context {H W L : Type} `{StrictFieldsLaws} `{IngestLimiter L}
    (run_handler : H → DomainEvent → W → res unit * W) (max_events : nat)
    (accepts_ingestion : bool) (tenant_id : string) (ingest_max_batch_size : Z).

(** C6. What the ingestion route does with a request, on every branch, over a bus that holds
    a history of accepted events: 503, 429 and 422 leave the bus alone; a naive event time
    or oversized attributes, which FastAPI lets through, are an unhandled error and not a
    422; otherwise the answer is 200 with the bus's verdict on the event, which carries this
    deployment's tenant, and the bus moves to the history with it. *)
Theorem ingest_event_outcome (history : list DomainEvent) (key : string) (now : pyfloat) (d : drawn)
    (req : EventIngestRequest) (l : L) (b : InMemoryEventBus H) (w : W) :
  bus_ok max_events history b →
  let '(r, (l', b', w')) := ingest_event run_handler max_events accepts_ingestion tenant_id key now d req (l, b, w) in
  let '(verdict, l1) := limiter_allow key now l in
  l' = (if accepts_ingestion then l1 else l) ∧
  match accepts_ingestion, verdict, validate_event_attributes (er_event_type req) (er_attributes req) with
  | false, _, _ => r = http_exception 503 "event ingestion disabled for this runtime role" ∧ b' = b ∧ w' = w
  | true, Raise e, _ => r = Unhandled e ∧ b' = b ∧ w' = w
  | true, Ok false, _ => r = http_exception 429 "ingestion rate limit exceeded" ∧ b' = b ∧ w' = w
  | true, Ok true, Raise _ => r = http_exception 422 "invalid attributes" ∧ b' = b ∧ w' = w
  | true, Ok true, Ok attributes =>
      if is_ok (event_of tenant_id d req attributes)
      then ∃ event, event_of tenant_id d req attributes = Ok event ∧ ev_tenant_id event = tenant_id ∧
           let '(accepted, history') := spec_accept (2 * max_events) history event in
           r = Reply (mkIngestResponse accepted (dr_event_id d)) ∧ bus_ok max_events history' b'
      else ((∃ us, er_event_time req = Some (Naive us)) ∨
            MAX_ATTRIBUTES_PAYLOAD_BYTES < Z.of_nat (String.length (json_dumps (VDict attributes)))) ∧
           (∃ e, r = Unhandled e) ∧ b' = b ∧ w' = w
  end.
Proof.
  intros Hb. unfold ingest_event, admitted. destruct accepts_ingestion; cbn [negb].
  2: { destruct (limiter_allow key now l). by split_and!. }
  destruct (limiter_allow key now l) as [[[|]|e] l1]; [|by split_and!..].
  destruct (validate_event_attributes _ _) as [attributes|] eqn:Ev; [|by split_and!].
  destruct (event_of tenant_id d req attributes) as [event|x] eqn:Ee; cbn [is_ok].
  - pose proof (publish_step run_handler max_events history event b w Hb (event_of_valid _ _ _ _ _ _ Ev Ee)) as Hs.
    destruct (EventBus.publish _ _ _ _ _) as [[r b'] w']. destruct (spec_accept _ _ _) as [accepted history'] eqn:Es.
    destruct Hs as (-> & Hb' & _). split; [done|]. exists event. split; [done|]. rewrite Es.
    apply event_of_ok in Ee as [-> _]. by split_and!.
  - split; [done|]. split; [|split; [by eexists|done]]. apply event_of_fails with (tenant_id := tenant_id) (d := d). by rewrite Ee.
Qed.

(** C5. A batch is all or nothing, with every outcome: 503, 429 and an error of the limiter as
    for one event; 413 exactly above the configured size; when some request stands for no
    event the first such one decides - 422 if its attributes fail the schema, otherwise (a naive
    time, oversized attributes) an unhandled error - and bus and handlers are untouched.
    Otherwise exactly the events of the requests, the i-th that of the i-th request, are
    published in that order under this deployment's tenant, the handlers run once for each
    that was not a duplicate, and the answer counts the batch, the accepted and the duplicates.
    Whatever its size a batch costs its caller one call of the limiter. *)
Theorem batch_all_or_nothing (history : list DomainEvent) (key : string) (now : pyfloat) (ds : nat → drawn)
    (reqs : list EventIngestRequest) (l : L) (b : InMemoryEventBus H) (w : W) :
  bus_ok max_events history b →
  let '(r, (l', b', w')) :=
    ingest_events_batch run_handler max_events accepts_ingestion tenant_id ingest_max_batch_size key now ds reqs (l, b, w) in
  let '(verdict, l1) := limiter_allow key now l in
  l' = (if accepts_ingestion then l1 else l) ∧
  match accepts_ingestion, verdict with
  | false, _ => r = http_exception 503 "event ingestion disabled for this runtime role" ∧ b' = b ∧ w' = w
  | true, Raise e => r = Unhandled e ∧ b' = b ∧ w' = w
  | true, Ok false => r = http_exception 429 "ingestion rate limit exceeded" ∧ b' = b ∧ w' = w
  | true, Ok true =>
      if decide (ingest_max_batch_size < Z.of_nat (length reqs)) then
        r = http_exception 413 ("batch size " +:+ pretty (length reqs) +:+ " exceeds configured max "
                                +:+ pretty ingest_max_batch_size) ∧ b' = b ∧ w' = w
      else
        (∃ i req, first_fault tenant_id ds reqs i req ∧ b' = b ∧ w' = w ∧
           if is_ok (validate_event_attributes (er_event_type req) (er_attributes req))
           then ∃ x, r = Unhandled x else r = http_exception 422 "invalid attributes") ∨
        (∃ events, length events = length reqs ∧
           (∀ i req, reqs !! i = Some req → ∃ e, events !! i = Some e ∧ event_for tenant_id (ds i) req e) ∧
           let '(accepted, history') := spec_publish (2 * max_events) events history in
           r = Reply (mkBatchResponse (Z.of_nat (length reqs)) (Z.of_nat (length (filter (λ a, a = true) accepted)))
                        (Z.of_nat (length (filter (λ a, a = false) accepted)))) ∧
           length accepted = length reqs ∧ bus_ok max_events history' b' ∧
           ∃ added, history' = history ++ added ∧ w' = foldl (deliver run_handler (_handlers b)) w added)
  end.
Proof.
  intros Hb. unfold ingest_events_batch, admitted. destruct accepts_ingestion; cbn [negb].
  2: { destruct (limiter_allow key now l). by split_and!. }
  destruct (limiter_allow key now l) as [[[|]|e] l1]; [|by split_and!..].
  rewrite Z.gtb_ltb. destruct (Z.ltb_spec ingest_max_batch_size (Z.of_nat (length reqs))) as [Hsize|Hsize];
    [case_decide; [by split_and!|lia]|case_decide; [lia|]].
  pose proof (batch_events_outcome tenant_id reqs ds [] [] eq_refl) as Ho. cbn [app] in Ho.
  specialize (Ho ltac:(by intros ? ? [=])).
  destruct (batch_events tenant_id reqs ds []) as [events|s c|x].
  2, 3: destruct Ho as (i & req & Hf & Ha); split; [done|]; left; exists i, req; (split_and!; [done..|]);
    (destruct (is_ok _); [destruct Ha as [x' Ha]|]; unfold http_exception in *; simplify_eq/=; (done || by eexists)).
  destruct Ho as [Hlen Hfor].
  assert (Forall (λ e, validate_domain_event e = Ok tt) events) as Hv.
  { apply Forall_lookup. intros i e He. destruct (lookup_lt_is_Some_2 reqs i) as [req Hr];
      [rewrite <- Hlen; by eapply lookup_lt_Some|].
    destruct (Hfor _ _ Hr) as (e' & He' & Hx). assert (e' = e) as -> by congruence. by eapply event_for_valid. }
  pose proof (publish_batch_all run_handler max_events events 0 0 b w Hv) as Hp.
  pose proof (publish_all_spec run_handler max_events events history b w Hb Hv) as Hs.
  unfold publish_batch.
  destruct (publish_all run_handler max_events events b w) as [[rs b'] w'].
  destruct Hp as (accepted & -> & ->). rewrite !Z.add_0_l.
  pose proof (spec_publish_length (2 * max_events) events history) as Hsl.
  destruct (spec_publish (2 * max_events) events history) as [accepted' history'] eqn:Esp.
  destruct Hs as (Eacc & Hb' & _ & _ & Hadded). cbn [fst] in Hsl.
  assert (Inj (=) (=) (@Ok bool)) as Hinj by (by intros ?? [=]). apply (inj (fmap (M := list) (@Ok bool))) in Eacc as <-.
  split; [done|]. right. exists events. rewrite Esp. rewrite Hlen. split_and!; [done..|by rewrite Hsl|done|done].
Qed.
End theorems.

(** ** Examples *)

Definition membership_request (key : string) (time : option datetime) : EventIngestRequest :=
  mkIngest TEAM_MEMBERSHIP "p1" example_payload time "okta" key.

Definition drawn_at (n : nat) : drawn := mkDrawn (pretty n) (Z.of_nat n) (Z.of_nat n).

Definition example_state : SlidingWindowRateLimiter * InMemoryEventBus nat * list (nat * string) :=
  (SlidingWindowRateLimiter_init 5 (of_Z 60), InMemoryEventBus_init, []).

Lemma example_bus_ok : bus_ok 4 [] (InMemoryEventBus_init : InMemoryEventBus nat).
Proof. split_and!; [|done|done]. split_and!; simpl; [done|constructor|set_solver]. Qed.

(** A time without a zone is accepted by the request model and fails the event: 500. *)
Example naive_time_is_unhandled :
  match (ingest_event note_handler 4 true "acme" "ip:1" f0 (drawn_at 0) (membership_request "k" (Some (Naive 5))) example_state).1 with
  | Unhandled _ => True
  | _ => False
  end.
Proof. by vm_compute. Qed.

Lemma ingest_event_outcome_witness :
  let '(r, (_, b, _)) :=
    ingest_event note_handler 4 true "acme" "ip:1" f0 (drawn_at 7) (membership_request "k" None) example_state in
  r = Reply (mkIngestResponse true "7") ∧ ∃ history, bus_ok 4 history b.
Proof.
  pose proof (ingest_event_outcome note_handler 4 true "acme" [] "ip:1" f0 (drawn_at 7) (membership_request "k" None)
    (SlidingWindowRateLimiter_init 5 (of_Z 60)) InMemoryEventBus_init [] example_bus_ok) as Ho.
  unfold example_state. destruct (ingest_event _ _ _ _ _ _ _ _ _) as [r [[l' b'] w']].
  assert ((limiter_allow "ip:1" f0 (SlidingWindowRateLimiter_init 5 (of_Z 60))).1 = Ok true) as Hl by (vm_compute; reflexivity).
  destruct (limiter_allow _ _ _) as [verdict l1]. cbn [fst] in Hl. subst verdict. destruct Ho as [_ Ho].
  assert (is_ok (validate_event_attributes TEAM_MEMBERSHIP example_payload) = true) as Hv by (vm_compute; reflexivity).
  cbn [er_event_type er_attributes membership_request] in Ho.
  destruct (validate_event_attributes TEAM_MEMBERSHIP example_payload) as [attributes|] eqn:Ea; [|done].
  vm_compute in Ea. injection Ea as <-.
  match type of Ho with if ?c then _ else _ => assert (c = true) as E by (vm_compute; reflexivity); rewrite E in Ho end.
  destruct Ho as (event & _ & _ & Ho). unfold spec_accept in Ho. rewrite decide_False in Ho by apply not_elem_of_nil.
  destruct Ho as [-> Hb]. split; [reflexivity|by eexists].
Defined.

(** A batch with a request at fault, and one that repeats an idempotency key. *)
Definition faulty_batch : list EventIngestRequest :=
  [membership_request "a" None; membership_request "b" (Some (Naive 5)); membership_request "c" None].

Definition repeated_batch : list EventIngestRequest :=
  [membership_request "a" None; membership_request "b" None; membership_request "a" None].

Lemma batch_all_or_nothing_witness :
  (let '(_, (_, b, w)) :=
     ingest_events_batch note_handler 4 true "acme" 3 "ip:1" f0 drawn_at faulty_batch example_state in
   b = InMemoryEventBus_init ∧ w = []) ∧
  (let '(r, (_, b, _)) :=
     ingest_events_batch note_handler 4 true "acme" 3 "ip:1" f0 drawn_at repeated_batch example_state in
   r = Reply (mkBatchResponse 3 2 1) ∧
   ∃ events e, length events = 3%nat ∧ events !! 1%nat = Some e ∧ ev_idempotency_key e = "b" ∧
     ∃ history, bus_ok 4 history b).
Proof.
  assert ((limiter_allow "ip:1" f0 (SlidingWindowRateLimiter_init 5 (of_Z 60))).1 = Ok true) as Hl by (vm_compute; reflexivity).
  pose proof (batch_all_or_nothing note_handler 4 true "acme" 3 [] "ip:1" f0 drawn_at faulty_batch
    (SlidingWindowRateLimiter_init 5 (of_Z 60)) InMemoryEventBus_init [] example_bus_ok) as H1.
  pose proof (batch_all_or_nothing note_handler 4 true "acme" 3 [] "ip:1" f0 drawn_at repeated_batch
    (SlidingWindowRateLimiter_init 5 (of_Z 60)) InMemoryEventBus_init [] example_bus_ok) as H2.
  unfold example_state.
  destruct (ingest_events_batch _ _ _ _ _ _ _ _ faulty_batch _) as [r1 [[l1' b1] w1]] eqn:E1.
  destruct (ingest_events_batch _ _ _ _ _ _ _ _ repeated_batch _) as [r2 [[l2' b2] w2]] eqn:E2.
  destruct (limiter_allow _ _ _) as [verdict l1]. cbn [fst] in Hl. subst verdict.
  assert (∃ e, r1 = Unhandled e) as [x1 ->] by (vm_compute in E1; injection E1 as <- _ _ _; by eexists).
  assert (r2 = Reply (mkBatchResponse 3 2 1)) as -> by (vm_compute in E2; injection E2 as <- _ _ _; reflexivity).
  clear E1 E2. destruct H1 as [_ H1], H2 as [_ H2]. rewrite decide_False in H1, H2 by (vm_compute; discriminate). split.
  - destruct H1 as [(i & req & _ & -> & -> & _)|(events & _ & _ & H1)]; [done|].
    destruct (spec_publish _ _ _). by destruct H1.
  - split; [reflexivity|]. destruct H2 as [(i & req & _ & _ & _ & H2)|(events & Hlen & Hfor & H2)].
    { destruct (is_ok _); [by destruct H2|done]. }
    destruct (Hfor 1%nat (membership_request "b" None) eq_refl) as (e & He & attributes & _ & _ & _ & ->).
    destruct (spec_publish _ _ _) as [accepted history]. destruct H2 as (_ & _ & Hb & _).
    exists events. eexists. split; [exact Hlen|]. split; [exact He|]. split; [reflexivity|]. by exists history.
Defined.
