(* ===== verification/InterceptRoute.v ===== *)
(** * Interception route (src/aci/api/app.py)

    [/v1/intercept]: the headers and the route key that complete a request, the interceptor
    under the framework's timeout, the mapping of hard stops to HTTP errors; and the demo
    switch of the interceptor's mode. The interceptor's coroutine never suspends (its
    publications are separate tasks), so [asyncio.wait_for] with a positive timeout awaits it
    in place and returns its result, however long it took; with a timeout of zero or less the
    task is cancelled before its first step. *)

From S2P Require Import Prelude PyFloat PyData PyTime PyValue Models CircuitBreaker IndexStore Interceptor Config Runtime HttpLayer.
From Stdlib Require Import ZArith Lia.
From stdpp Require Import base list sets strings pretty.

Open Scope string_scope.
Open Scope list_scope.
Open Scope Z_scope.

(** ** Data *)

Record InterceptRequest := mkInterceptRequest {
  iq_request_id : string;
  iq_model : string;
  iq_provider : string;
  iq_service_name : string;
  iq_workload_id : string;
  iq_api_key_id : string;
  iq_input_tokens : Z;
  iq_max_tokens : Z;
  iq_estimated_cost_usd : pyfloat;
  iq_environment : string;
  iq_route : string;
  iq_response_format_type : string;
  iq_tools_present : bool;
  iq_strict_json_schema : bool;
}.

Record InterceptResponse := mkInterceptResponse {
  is_request_id : string;
  is_outcome : string;
  is_elapsed_ms : pyfloat;
  is_enrichment_headers : odict string string;
  is_redirect_model : option string;
  is_attribution_team : option string;
  is_attribution_confidence : option pyfloat;
}.

(** ** Gate errors *)

Definition gate_policies : list string := ["token_budget_input"; "model_allowlist"; "budget_ceiling"; "cost_ceiling"].

Definition hard_violations (result : InterceptionResult) : list PolicyEvaluationResult :=
  filter (λ v, pr_violated v = true ∧ pr_policy_id v ∈ gate_policies) (policy_results result).

(** The error object of a response: its type, the message and the further fields. *)
Definition gate_content (type : string) (primary : PolicyEvaluationResult) (result : InterceptionResult)
    (rest : list (string * pyval)) : pyval :=
  VDict [("error", VDict ([("type", VStr type); ("message", VStr (pr_details primary));
                           ("request_id", VStr (res_request_id result)); ("policy_id", VStr (pr_policy_id primary))] ++ rest))].

Definition approved_of (result : InterceptionResult) : pyval :=
  VList (map VStr (match attribution result with Some attr => ie_approved_alternatives attr | None => [] end)).

Definition _gate_error_from_result (result : InterceptionResult) : option (Z * pyval) :=
  match hard_violations result with
  | [] => None
  | primary :: _ =>
      let policy := pr_policy_id primary in
      if String.eqb policy "token_budget_input"
      then Some (413, gate_content "token_size_exceeded" primary result [("retry", VBool false)])
      else if String.eqb policy "model_allowlist"
      then Some (403, gate_content "model_not_allowed" primary result [("approved_alternatives", approved_of result)])
      else if String.eqb policy "budget_ceiling"
      then Some (429, gate_content "budget_exceeded" primary result [("retry_after_seconds", VInt 3600)])
      else if String.eqb policy "cost_ceiling"
      then Some (403, gate_content "cost_approval_required" primary result [("approved_alternatives", approved_of result)])
      else None
  end.

(** ** The route *)

Section route.
  Context {R S B : Type} `{RedisServer R} `{LuaText} `{EntryJson} `{CircuitStateStore S} `{EventPublisher B}
    (env : Env) (c : InterceptorConfig) (icfg : IndexConfig) (shadow_refresh_fn accepts_interception : bool)
    (total_budget_ms : Z) (environment snapshot_id : string).

  (** The route table, and the interceptor with its mode. *)
Record api_state := mkApi { api_routes : RouteTable; api_mode : DeploymentMode; api_gateway : gateway_state R S B }.

  (** The interception request of an API request. *)
Definition interception_request (http : http_request) (req : InterceptRequest) (service_name route_key : string)
      : InterceptionRequest :=
    let aci_headers := _extract_aci_headers http in
    let lookup k := default "" (od_get k (header_lookup aci_headers)) in
    mkRequest (iq_request_id req) (iq_model req) (iq_provider req) service_name (iq_api_key_id req)
      (iq_input_tokens req) (iq_estimated_cost_usd req) aci_headers
      (str_or (iq_workload_id req) (lookup "x-aci-workload-id"))
      [("environment", VStr (str_or (iq_environment req) (lookup "x-aci-env"))); ("route", VStr route_key);
       ("tenant_id", VStr (lookup "x-aci-tenant-id")); ("max_tokens", VInt (iq_max_tokens req));
       ("response_format_type", VStr (iq_response_format_type req)); ("tools_present", VBool (iq_tools_present req));
       ("strict_json_schema", VBool (iq_strict_json_schema req)); ("price_snapshot_id", VStr snapshot_id)].

  (** [asyncio.wait_for] of a coroutine that does not suspend; nothing is [TimeoutError]. *)
Definition wait_for {A} (timeout_ms : Z) (m : SE (gateway_state R S B) A) : SE (gateway_state R S B) (option A) :=
    if timeout_ms <=? 0 then se_ret None else (let! a := m in se_ret (Some a))%py.

Definition timeout_response (req : InterceptRequest) : InterceptResponse :=
    mkInterceptResponse (iq_request_id req) (outcome_value TIMEOUT) (of_Z total_budget_ms)
      [("X-ACI-Fail-Open", "true"); ("X-ACI-Fail-Open-Reason", "LOOKUP_TIMEOUT")] None None None.

Definition response_of (result : InterceptionResult) : InterceptResponse :=
    mkInterceptResponse (res_request_id result) (outcome_value (outcome result)) (elapsed_ms result)
      (enrichment_headers result) (redirect_model result) (ie_team_name <$> attribution result)
      (ie_confidence <$> attribution result).

  (** What the route answers to a result of the interceptor. *)
Definition answer (result : InterceptionResult) : reply InterceptResponse :=
    match outcome result, _gate_error_from_result result with
    | HARD_STOPPED, Some (status, content) => HttpError status content
    | _, _ => Reply (response_of result)
    end.

  (** The request given to the interceptor, and the route table after its key. *)
Definition completed_request (http : http_request) (req : InterceptRequest) (routes : RouteTable)
      : InterceptionRequest * RouteTable :=
    let lookup k := default "" (od_get k (header_lookup (_extract_aci_headers http))) in
    let service_name := str_or (iq_service_name req) (lookup "x-aci-service-id") in
    let '(route_key, routes) := resolve_route_key (str_or (iq_route req) (lookup "x-aci-route")) service_name routes in
    (interception_request http req service_name route_key, routes).

Definition intercept_route (http : http_request) (req : InterceptRequest) (st : api_state)
      : reply InterceptResponse * api_state :=
    if negb accepts_interception then (http_exception 503 "interceptor disabled for this runtime role", st) else
    let '(request, routes) := completed_request http req (api_routes st) in
    match wait_for total_budget_ms (intercept env c (api_mode st) shadow_refresh_fn icfg request) (api_gateway st) with
    | (Ok None, g) => (Reply (timeout_response req), mkApi routes (api_mode st) g)
    | (Ok (Some result), g) => (answer result, mkApi routes (api_mode st) g)
    | (Raise e, g) => (Unhandled e, mkApi routes (api_mode st) g)
    end.

  (** *** Demo mode *)

Definition _is_production_like : bool := bool_decide (lower (strip environment) ∈ ["production"; "staging"]).

  (** [set_demo_mode]; the request model admits only the three modes. *)
Definition set_demo_mode (mode : DeploymentMode) (st : api_state) : reply DeploymentMode * api_state :=
    if _is_production_like then (http_exception 403 "demo mode switching is disabled in production/staging", st)
    else if negb accepts_interception then (http_exception 503 "interceptor disabled for this runtime role", st)
    else (Reply mode, mkApi (api_routes st) mode (api_gateway st)).

  (** Calls of the two routes. *)
Inductive api_call := InterceptCall (http : http_request) (req : InterceptRequest) | DemoModeCall (mode : DeploymentMode).

Definition api_step (st : api_state) (o : api_call) : api_state :=
    match o with
    | InterceptCall http req => (intercept_route http req st).2
    | DemoModeCall mode => (set_demo_mode mode st).2
    end.
End route.

(** ** Lemmas *)

Section lemmas.
  Context {R S B : Type} `{RedisServer R} `{LuaText} `{EntryJson} `{CircuitStateStore S} `{EventPublisher B}
    (env : Env) (c : InterceptorConfig) (icfg : IndexConfig) (shadow_refresh_fn : bool).

  (** Whatever the interceptor stops has a gate violation. *)
Lemma hard_stop_has_gate mode request result :
    mode_safe c mode request result → outcome result = HARD_STOPPED →
    ∃ status content, _gate_error_from_result result = Some (status, content) ∧ status ∈ [403; 413; 429].
  Proof.
    unfold mode_safe. intros [Hm [_ Hsoft]] Ho. rewrite Ho in Hm. destruct Hm as (_ & attr & v & _ & _ & Hv & Hh & _).
    rewrite Forall_forall in Hsoft. destruct (Hsoft v Hv) as [Hviol Hact].
    assert (pr_policy_id v ∈ gate_policies) as Hid.
    { unfold is_hard_stop in Hh. rewrite Hact in Hh. rewrite bool_decide_eq_false_2 in Hh by done. cbn [orb] in Hh.
      apply str_mem_spec in Hh. unfold gate_policies. unfold hard_stop_ids in Hh. set_solver. }
    unfold _gate_error_from_result.
    destruct (hard_violations result) as [|p l] eqn:El.
    { assert (v ∈ hard_violations result) as Hin by (by apply list_elem_of_filter). rewrite El in Hin. set_solver. }
    assert (p ∈ hard_violations result) as [[_ Hp] _]%list_elem_of_filter by (rewrite El; left).
    destruct (String.eqb_spec (pr_policy_id p) "token_budget_input"); [eexists _, _; split; [done|set_solver]|].
    destruct (String.eqb_spec (pr_policy_id p) "model_allowlist"); [eexists _, _; split; [done|set_solver]|].
    destruct (String.eqb_spec (pr_policy_id p) "budget_ceiling"); [eexists _, _; split; [done|set_solver]|].
    destruct (String.eqb_spec (pr_policy_id p) "cost_ceiling"); [eexists _, _; split; [done|set_solver]|].
    unfold gate_policies in Hp. set_solver.
  Qed.

Context (accepts_interception : bool) (total_budget_ms : Z) (environment snapshot_id : string).

Lemma completed_id http req routes : rq_request_id (completed_request snapshot_id http req routes).1 = iq_request_id req.
  Proof. unfold completed_request. by destruct (resolve_route_key _ _ _). Qed.

  (** The interceptor runs to a result within its mode, and the route answers it. *)
Lemma route_answers `{!QuietStore S} http req (st : api_state (R := R) (S := S) (B := B)) :
    accepts_interception = true → 0 < total_budget_ms →
    ∃ result, mode_safe c (api_mode st) (completed_request snapshot_id http req (api_routes st)).1 result ∧
      (intercept_route env c icfg shadow_refresh_fn accepts_interception total_budget_ms snapshot_id http req st).1 = answer result.
  Proof.
    intros -> Hb. unfold intercept_route, wait_for. cbn [negb].
    destruct (completed_request snapshot_id http req (api_routes st)) as [request routes]. cbn [fst].
    rewrite (proj2 (Z.leb_gt _ _)) by done.
    destruct (wp_total (intercept env c (api_mode st) shadow_refresh_fn icfg request)
                (good c (api_mode st) request (counters (inc_requests (api_gateway st)))) (api_gateway st))
      as (result & g' & E & [Hsafe _]).
    { eapply wp_mono; [apply intercept_good|done|]. intros e g' Hn. by apply Hn. }
    exists result. split; [done|]. by rewrite (se_bind_ok _ _ _ _ _ E).
  Qed.

Lemma route_keeps_mode http req (st : api_state (R := R) (S := S) (B := B)) :
    api_mode (intercept_route env c icfg shadow_refresh_fn accepts_interception total_budget_ms snapshot_id http req st).2 = api_mode st.
  Proof.
    unfold intercept_route. destruct accepts_interception; [|done]. cbn [negb].
    destruct (completed_request _ _ _ _) as [request routes]. by destruct (wait_for _ _ _) as [[[result|]|e] g].
  Qed.
End lemmas.

(** ** Theorems *)

Section theorems.
  Context {R S B : Type} `{RedisServer R} `{LuaText} `{EntryJson} `{CircuitStateStore S} `{EventPublisher B}
    (env : Env) (c : InterceptorConfig) (icfg : IndexConfig) (shadow_refresh_fn accepts_interception : bool)
    (total_budget_ms : Z) (environment snapshot_id : string).
  Abbreviation route := (intercept_route env c icfg shadow_refresh_fn accepts_interception total_budget_ms snapshot_id).
  Abbreviation steps := (fold_left (api_step env c icfg shadow_refresh_fn accepts_interception total_budget_ms environment snapshot_id)).

(** C7. The interception route on every branch, over a breaker store whose only failures are
    Redis errors: a role without an interceptor answers 503; with a positive budget the
    answer is that of the interceptor's result, whatever the time it took: a hard stop is
    always an HTTP error 403, 413 or 429, and only active mode gives one, and any other
    result is a 200 for this request with the interceptor's outcome, model and headers;
    nothing is left unhandled. With a budget of zero or less every request fails open and
    the interceptor never runs. *)
Theorem intercept_route_outcome `{!QuietStore S} (http : http_request) (req : InterceptRequest) (st : api_state (R := R) (S := S) (B := B)) :
  let '(r, st') := route http req st in
  (accepts_interception = false → r = http_exception 503 "interceptor disabled for this runtime role" ∧ st' = st) ∧
  (accepts_interception = true → 0 < total_budget_ms →
   ∃ result, mode_safe c (api_mode st) (completed_request snapshot_id http req (api_routes st)).1 result ∧
     if bool_decide (outcome result = HARD_STOPPED)
     then api_mode st = ACTIVE ∧ ∃ status content, r = HttpError status content ∧ status ∈ [403; 413; 429]
     else r = Reply (response_of result) ∧ is_request_id (response_of result) = iq_request_id req) ∧
  (accepts_interception = true → total_budget_ms <= 0 →
   r = Reply (timeout_response total_budget_ms req) ∧ api_gateway st' = api_gateway st).
Proof.
  pose proof (route_answers env c icfg shadow_refresh_fn accepts_interception total_budget_ms snapshot_id http req st) as Hr.
  destruct (route http req st) as [r st'] eqn:E. cbn [fst] in Hr. split_and!.
  - intros Ha. unfold intercept_route in E. rewrite Ha in E. by injection E as <- <-.
  - intros Ha Hb. destruct (Hr Ha Hb) as (result & Hsafe & ->). exists result. split; [done|].
    pose proof Hsafe as [Hm [Hid _]]. unfold answer. destruct (bool_decide_reflect (outcome result = HARD_STOPPED)) as [Ho|Ho].
    + destruct (hard_stop_has_gate c _ _ _ Hsafe Ho) as (status & content & Eg & Hs). rewrite Ho in Hm |- *. rewrite Eg.
      destruct Hm as (_ & attr & v & _ & (Hact & _) & _). split; [done|]. by exists status, content.
    + rewrite completed_id in Hid. by destruct (outcome result).
  - intros Ha Hb. unfold intercept_route, wait_for in E. rewrite Ha in E. cbn [negb] in E.
    destruct (completed_request _ _ _ _) as [request routes]. rewrite (proj2 (Z.leb_le _ _)) in E by done.
    by injection E as <- <-.
Qed.

(** In production and staging no sequence of API calls changes the mode; so a deployment
    that starts passive or advisory answers every interception with 200 and never redirects
    a request to another model. *)
Theorem production_mode_fixed `{!QuietStore S} (calls : list api_call) (st : api_state (R := R) (S := S) (B := B)) :
  _is_production_like environment = true →
  api_mode (steps calls st) = api_mode st ∧
  (accepts_interception = true → 0 < total_budget_ms → api_mode st ≠ ACTIVE →
   ∀ http req, ∃ response, (route http req (steps calls st)).1 = Reply response ∧ is_redirect_model response = None).
Proof.
  intros Hp.
  assert (∀ st, api_mode (steps calls st) = api_mode st) as Hmode.
  { clear st. induction calls as [|o calls IH]; intros st; cbn [fold_left]; [done|]. rewrite IH.
    destruct o as [http req|mode]; cbn [api_step]; [apply route_keeps_mode|]. unfold set_demo_mode. by rewrite Hp. }
  split; [done|]. intros Hacc Hb Hna http req. rewrite <- (Hmode st) in Hna.
  destruct (route_answers env c icfg shadow_refresh_fn accepts_interception total_budget_ms snapshot_id http req (steps calls st) Hacc Hb)
    as (result & [Hm _] & ->). unfold answer.
  destruct (outcome result) eqn:Eo; try (eexists; split; [reflexivity|]; by destruct Hm || exact Hm).
  - destruct Hm as (attr & m & _ & _ & (Hact & _) & _). done.
  - destruct Hm as (_ & attr & v & _ & (Hact & _) & _). done.
Qed.
End theorems.

(** ** Examples *)

(** The interceptor's example entry with an allowlist that excludes the requested model. *)
Definition walled_entry : AttributionIndexEntry :=
  mkEntry "svc" "t" "Team" "cc" "CC" "p" "P" "" "" (lit 97 100) "chargeback_ready" "R1" None None ["gpt-4o-mini"] None None None None []
    1 "" 1 0 [] "".

Definition example_api (mode : DeploymentMode) : api_state (R := MemServer) (S := CircuitBreakerState) (B := list DomainEvent) :=
  mkApi RouteTable_init mode
    (FailOpenInterceptor_init (materialize example_config 7 walled_entry (AttributionIndexStore_init None)).2
       (mkCB initial_state initial_state) (Some [])).

Definition api_request : InterceptRequest :=
  mkInterceptRequest "req-1" "gpt-4" "openai" "svc" "" "" 10 100 (lit 1 100) "dev" "/chat" "" false false.

Definition plain_http : http_request := mkHttpRequest "POST" "/v1/intercept" [("x-aci-service-id", "other")] None None.

Abbreviation example_route mode budget :=
  (intercept_route still_env default_interceptor_config example_config false true budget "snap" plain_http api_request (example_api mode)).1.

Example intercept_route_samples :
  match example_route ACTIVE 50 with HttpError 403 _ => True | _ => False end ∧
  match example_route ADVISORY 50 with Reply r => is_outcome r = "soft_stopped" | _ => False end ∧
  match example_route ACTIVE 0 with Reply r => is_outcome r = "timeout" | _ => False end.
Proof. by vm_compute. Qed.

Lemma intercept_route_outcome_witness :
  (∃ status content, example_route ACTIVE 50 = HttpError status content ∧ status ∈ [403; 413; 429]) ∨
  (∃ r, example_route ACTIVE 50 = Reply r ∧ is_request_id r = "req-1").
Proof.
  pose proof (intercept_route_outcome still_env default_interceptor_config example_config false true 50 "snap" plain_http
    api_request (example_api ACTIVE)) as Ho.
  destruct (intercept_route _ _ _ _ _ _ _ _ _ _) as [r st']. destruct Ho as (_ & Ho & _).
  destruct (Ho eq_refl ltac:(lia)) as (result & _ & Ha). cbn [fst].
  destruct (bool_decide _); [left; apply Ha|right; by eexists].
Defined.

Lemma production_mode_fixed_witness :
  ∃ response,
    (intercept_route still_env default_interceptor_config example_config false true 50 "snap" plain_http api_request
       (fold_left (api_step still_env default_interceptor_config example_config false true 50 " Production " "snap")
          [DemoModeCall ACTIVE; InterceptCall plain_http api_request] (example_api ADVISORY))).1 = Reply response ∧
    is_redirect_model response = None.
Proof.
  apply (production_mode_fixed still_env default_interceptor_config example_config false true 50 " Production " "snap"
           [DemoModeCall ACTIVE; InterceptCall plain_http api_request] (example_api ADVISORY));
    [vm_compute; reflexivity|reflexivity|lia|discriminate].
Defined.
