(* ===== verification/ApiRoutes.v ===== *)
(** * The other routes (src/aci/api/app.py)

    Administrative policy evaluation, TRAC, index lookups, pricing, cost reconciliation,
    forecast, interventions and notifications: each handler calls one component, maps the
    exceptions it expects to a status, and serializes the result. Responses are the JSON
    objects of the response models, fields in their order; requests have passed FastAPI's
    validation. *)

From S2P Require Import Prelude PyFloat PyData PyMath PyTime PyValue Models IndexStore Interceptor Calibration Policy.
From S2P Require Import Pricing Forecast CostLedger Interventions Trac Notifications HttpLayer.
From Stdlib Require Import ZArith QArith Lia Lqa.
From stdpp Require Import base list sets strings pretty.

Open Scope string_scope.
Open Scope list_scope.
Open Scope Z_scope.

(** ** Policy evaluation *)

Record ServicePolicyRequest := mkServicePolicy {
  sp_active_lite_enabled : bool;
  sp_allowed_actions : list string;
  sp_min_route_confidence : pyfloat;
  sp_max_tokens_cap : option Z;
}.

Record PolicyEvaluateRequest := mkPolicyEvaluate {
  pe_request_id : string;
  pe_env : string;
  pe_service_id : string;
  pe_model_requested : string;
  pe_attribution : odict string pyval;
  pe_est_cost_usd : pyfloat;
  pe_mode : string;
  pe_service_policy : ServicePolicyRequest;
}.

Record PolicyActionResponse := mkAction { pa_type : string; pa_confidence : pyfloat; pa_delta : string }.

Record PolicyEvaluateResponse := mkPolicyAnswer {
  pv_decision : string;
  pv_advisories : list (string * string);
  pv_actions : list PolicyActionResponse;
  pv_fail_open : bool;
}.

Definition evaluation_context (req : PolicyEvaluateRequest) : res (odict string pyval) :=
  (let? confidence := py_float (dget (pe_attribution req) "confidence" (VFloat f1)) in
   Ok [("model", VStr (pe_model_requested req)); ("confidence", VFloat confidence);
       ("current_spend_usd", VFloat (pe_est_cost_usd req)); ("daily_cost_usd", VFloat (pe_est_cost_usd req));
       ("has_cicd_linkage", VBool (truthy (dget (pe_attribution req) "has_cicd_linkage" (VBool true))))])%py.

(** The advisories of the violated policies: code and detail. *)
Definition advisories_of (results : list PolicyEvaluationResult) : list (string * string) :=
  map (λ r, (Models.pr_policy_id r, pr_details r)) (filter (λ r, pr_violated r = true) results).

Definition acts (req : PolicyEvaluateRequest) : bool :=
  String.eqb (upper (strip (pe_mode req))) "ACTIVE_LITE" && sp_active_lite_enabled (pe_service_policy req).

(** The actions; [float(...)] here is outside the handler's [try]. *)
Fixpoint actions_of (req : PolicyEvaluateRequest) (advisories : list (string * string)) : res (list PolicyActionResponse) :=
  match advisories with
  | [] => Ok []
  | (code, text) :: rest =>
      (let? confidence := py_float (dget (pe_attribution req) "confidence" (VFloat f0)) in
       let? actions := actions_of req rest in
       Ok (mkAction (upper code) confidence (str_take 256 text) :: actions))%py
  end.

Definition policy_evaluate (policies : PolicyEngine) (req : PolicyEvaluateRequest) : reply PolicyEvaluateResponse :=
  match (let? context := evaluation_context req in evaluate_all policies context "global")%py with
  | Raise _ => Reply (mkPolicyAnswer "PASS_THROUGH" [] [] true)
  | Ok results =>
      let advisories := advisories_of results in
      match (if acts req then actions_of req advisories else Ok []) with
      | Raise e => Unhandled e
      | Ok actions =>
          let decision := match actions, advisories with
                          | _ :: _, _ => "APPLY"
                          | [], _ :: _ => "ADVISORY"
                          | [], [] => "PASS_THROUGH"
                          end in
          Reply (mkPolicyAnswer decision advisories actions false)
      end
  end.

(** ** TRAC *)

Record TRACRequest := mkTracRequest {
  tq_workload_id : string;
  tq_billed_cost_usd : pyfloat;
  tq_emissions_kg_co2e : pyfloat;
  tq_attribution_confidence : pyfloat;
  tq_signal_age_days : pyfloat;
}.

Definition compute_trac `{ExpLib} (tc : TRACConfig) (cc : ConfidenceConfig) (req : TRACRequest) (now : instant) : reply pyval :=
  match Trac.compute tc cc (tq_workload_id req) (tq_billed_cost_usd req) (tq_emissions_kg_co2e req)
          (tq_attribution_confidence req) (tq_signal_age_days req) now with
  | Raise e => Unhandled e
  | Ok r =>
      Reply (VDict [("workload_id", VStr (tr_workload_id r)); ("trac_usd", VFloat (tr_trac_usd r));
        ("billed_cost_usd", VFloat (tr_billed_cost_usd r)); ("carbon_liability_usd", VFloat (tr_carbon_liability_usd r));
        ("confidence_risk_premium_usd", VFloat (tr_confidence_risk_premium_usd r));
        ("carbon_pct_of_trac", VFloat (tr_carbon_pct_of_trac r)); ("risk_pct_of_trac", VFloat (tr_risk_pct_of_trac r))])
  end.

(** ** The attribution index *)

Section index_routes.
  Context {R : Type} `{RedisServer R} `{LuaText} `{EntryJson} (icfg : IndexConfig).

  (** A lookup that answers 404 for a workload that is not there. *)
Definition with_entry {A} (workload_id missing : string) (k : AttributionIndexEntry → reply A)
      (s : AttributionIndexStore R) : reply A * AttributionIndexStore R :=
    match IndexStore.lookup icfg workload_id s with
    | (Raise e, s) => (Unhandled e, s)
    | (Ok None, s) => (http_exception 404 missing, s)
    | (Ok (Some entry), s) => (k entry, s)
    end.

Definition get_attribution (workload_id : string) : AttributionIndexStore R → reply pyval * AttributionIndexStore R :=
    with_entry workload_id "Workload not found in attribution index" (λ e,
      Reply (VDict [("workload_id", VStr (ie_workload_id e)); ("team_id", VStr (ie_team_id e));
        ("team_name", VStr (ie_team_name e)); ("cost_center_id", VStr (ie_cost_center_id e));
        ("confidence", VFloat (ie_confidence e)); ("confidence_tier", VStr (ie_confidence_tier e));
        ("method_used", VStr (ie_method_used e)); ("version", VInt (ie_version e))])).

  (** The constraints of an entry: type and scope. *)
Definition constraints_of (e : AttributionIndexEntry) : res (list (string * string)) :=
    (let? hard := match ie_budget_limit_usd e, ie_budget_remaining_usd e with
                  | Some limit, Some remaining =>
                      if flt f0 limit
                      then let? q := fdiv remaining limit in
                           Ok (if fle f1 (fsub f1 q) then [("BUDGET_HARD", "TEAM")] else [])
                      else Ok []
                  | _, _ => Ok []
                  end in
     Ok ((match ie_token_budget_input e, ie_token_budget_output e with
          | None, None => [] | _, _ => [("TOKEN_CAP", "SERVICE")] end) ++
         (if is_nonempty (ie_model_allowlist e) then [("MODEL_ALLOWLIST", "SERVICE")] else []) ++
         match ie_budget_limit_usd e with Some _ => ("BUDGET_SOFT", "TEAM") :: hard | None => [] end))%py.

Definition or_none (s : string) : pyval := if String.eqb s "" then VNone else VStr s.

Definition index_lookup_body (key : string) (e : AttributionIndexEntry) : reply pyval :=
    match constraints_of e with
    | Raise x => Unhandled x
    | Ok constraints =>
        Reply (VDict [("key", VStr key); ("index_version", VInt (ie_version e));
          ("attribution", VDict [("owner_id", or_none (str_or (ie_team_id e) (ie_person_id e)));
             ("team_id", or_none (ie_team_id e)); ("confidence", VFloat (ie_confidence e));
             ("reason", VStr (_map_attribution_reason (ie_method_used e)));
             ("explanation_id", VStr (str_or (ie_method_used e) "unknown"))]);
          ("constraints", VList (map (λ ts, VDict [("type", VStr ts.1); ("scope", VStr ts.2)]) constraints));
          ("cache_ttl_ms", VInt 60000)])
    end.

Definition index_lookup_route (key : string) : AttributionIndexStore R → reply pyval * AttributionIndexStore R :=
    with_entry key "lookup key not found in attribution index" (index_lookup_body key).
End index_routes.

(** ** Pricing *)

Definition opt_float (x : option pyfloat) : pyval := match x with Some x => VFloat x | None => VNone end.

Definition pricing_catalog (provider model : option string) (rules : PricingCatalog) : reply pyval :=
  Reply (VList (map (λ r,
    VDict [("provider", VStr (pr_provider r)); ("model", VStr (pr_model r)); ("effective_from", VStr (isoformat (rule_effective r)));
           ("input_usd_per_1k_tokens", VFloat (pr_input_usd_per_1k_tokens r));
           ("output_usd_per_1k_tokens", VFloat (pr_output_usd_per_1k_tokens r));
           ("cached_input_usd_per_1k_tokens", opt_float (pr_cached_input_usd_per_1k_tokens r));
           ("request_base_usd", VFloat (pr_request_base_usd r))]) (list_rules provider model rules))).

Definition pricing_estimate (now : instant) (usage : PricingUsage) (rules : PricingCatalog) : reply pyval :=
  on_value_error 422 (Pricing.estimate now usage rules) (λ e,
    Reply (VDict [("provider", VStr (ce_provider e)); ("model", VStr (ce_model e)); ("request_count", VInt (ce_request_count e));
      ("rule_effective_from", VStr (isoformat (ce_rule_effective_from e))); ("input_cost_usd", VFloat (ce_input_cost_usd e));
      ("cached_input_cost_usd", VFloat (ce_cached_input_cost_usd e)); ("output_cost_usd", VFloat (ce_output_cost_usd e));
      ("request_base_cost_usd", VFloat (ce_request_base_cost_usd e)); ("total_cost_usd", VFloat (ce_total_cost_usd e))])).

Record CostSimulationRequest := mkSimulationRequest {
  cq_service_id : string;
  cq_provider : string;
  cq_current_model : string;
  cq_avg_input_tokens : Z;
  cq_avg_output_tokens : Z;
  cq_requests_per_day : Z;
  cq_candidate_models : list string;
}.

Definition simulate_intervention_cost (now : instant) (req : CostSimulationRequest) (rules : PricingCatalog) : reply pyval :=
  on_value_error 422 (simulate now rules (cq_service_id req) (cq_provider req) (cq_current_model req)
      (cq_avg_input_tokens req) (cq_avg_output_tokens req) (cq_requests_per_day req) (cq_candidate_models req)) (λ r,
    Reply (VDict [("service_id", VStr (sr_service_id r)); ("provider", VStr (sr_provider r));
      ("current_model", VStr (sr_current_model r)); ("projected_monthly_cost_usd", VFloat (sr_projected_monthly_cost_usd r));
      ("candidates", VList (map (λ c, VDict [("model", VStr (cs_model c));
          ("projected_monthly_cost_usd", VFloat (cs_projected_monthly_cost_usd c));
          ("monthly_savings_usd", VFloat (cs_monthly_savings_usd c)); ("savings_pct", VFloat (cs_savings_pct c))]) (sr_candidates r)))])).

(** ** FinOps *)

Record SyntheticCostIngestRequest := mkSynthetic {
  sy_request_id : string;
  sy_service_name : string;
  sy_provider : string;
  sy_model : string;
  sy_input_tokens : Z;
  sy_output_tokens : Z;
  sy_cache_read_input_tokens : Z;
  sy_synthetic_cost_usd : option pyfloat;
  sy_recorded_at : option datetime;
}.

(** The cost of the request, or the estimate from its usage. *)
Definition synthetic_cost (now : instant) (req : SyntheticCostIngestRequest) (rules : PricingCatalog) : res pyfloat :=
  match sy_synthetic_cost_usd req with
  | Some cost => Ok cost
  | None =>
      (let? e := Pricing.estimate now (mkUsage (sy_provider req) (sy_model req) (sy_input_tokens req) (sy_output_tokens req)
                   (sy_cache_read_input_tokens req) 1 (sy_recorded_at req)) rules in Ok (ce_total_cost_usd e))%py
  end.

(** A record of the ledger after an operation on it. *)
Definition with_record {A} (request_id : string) (k : CostRecord → A) (missing : A) (records : ReconciliationLedger) : A :=
  match od_get request_id records with Some r => k r | None => missing end.

Definition finops_synthetic_cost (now : instant) (req : SyntheticCostIngestRequest) (rules : PricingCatalog)
    (records : ReconciliationLedger) : reply pyval * ReconciliationLedger :=
  match synthetic_cost now req rules with
  | Raise (ValueError text) => (http_exception 422 text, records)
  | Raise e => (Unhandled e, records)
  | Ok cost =>
      let records := upsert_synthetic (sy_request_id req) (sy_service_name req) (sy_provider req) (sy_model req) cost
                       (sy_recorded_at req) now records in
      (with_record (sy_request_id req) (λ r,
         Reply (VDict [("request_id", VStr (cr_request_id r)); ("synthetic_cost_usd", VFloat (cr_synthetic_cost_usd r));
           ("provider", VStr (cr_provider r)); ("model", VStr (cr_model r));
           ("recorded_at", VStr (isoformat (cr_synthetic_recorded_at r))); ("reconciled", VBool (is_reconciled r))]))
         (Unhandled OtherError) records, records)
  end.

Record CostReconcileRequest := mkReconcileRequest {
  rc_request_id : string;
  rc_reconciled_cost_usd : pyfloat;
  rc_source : string;
  rc_recorded_at : option datetime;
}.

(** [x or 0.0] of an optional float. *)
Definition or_zero (x : option pyfloat) : pyfloat := match x with Some c => if feq c f0 then f0 else c | None => f0 end.

Definition finops_reconcile (now : instant) (req : CostReconcileRequest) (records : ReconciliationLedger)
    : reply pyval * ReconciliationLedger :=
  match CostLedger.reconcile (rc_request_id req) (rc_reconciled_cost_usd req) (rc_source req) (rc_recorded_at req) now records with
  | (Raise (ValueError text), records) => (http_exception 404 text, records)
  | (Raise e, records) => (Unhandled e, records)
  | (Ok _, records) =>
      (with_record (rc_request_id req) (λ r,
         match record_drift_pct r with
         | Raise e => Unhandled e
         | Ok pct =>
             Reply (VDict [("request_id", VStr (cr_request_id r)); ("synthetic_cost_usd", VFloat (cr_synthetic_cost_usd r));
               ("reconciled_cost_usd", VFloat (or_zero (cr_reconciled_cost_usd r)));
               ("drift_usd", VFloat (or_zero (record_drift_usd r))); ("drift_pct", VFloat (or_zero pct));
               ("source", VStr (cr_reconciliation_source r))])
         end) (Unhandled OtherError) records, records)
  end.

Inductive drift_window := Daily | Weekly.

Definition window_text (w : drift_window) : string := match w with Daily => "daily" | Weekly => "weekly" end.

Definition drift_row (window : drift_window) (threshold_pct : pyfloat) (s : CostDriftSummary) : pyval :=
  let over := flt threshold_pct (fabs (ds_drift_pct s)) in
  VDict [("group", VStr (ds_group s)); ("total_records", VInt (Z.of_nat (ds_total_records s)));
    ("reconciled_records", VInt (Z.of_nat (ds_reconciled_records s)));
    ("unresolved_records", VInt (Z.of_nat (ds_unresolved_records s)));
    ("synthetic_cost_usd", VFloat (ds_synthetic_cost_usd s)); ("reconciled_cost_usd", VFloat (ds_reconciled_cost_usd s));
    ("absolute_drift_usd", VFloat (ds_absolute_drift_usd s)); ("drift_pct", VFloat (ds_drift_pct s));
    ("window", VStr (window_text window)); ("threshold_pct", VFloat threshold_pct);
    ("investigation_required", VBool over); ("dashboard_annotation", VStr (if over then "unreconciled" else "reconciled"))].

Definition finops_drift (group_by : string) (window : drift_window) (daily_threshold_pct weekly_threshold_pct : pyfloat)
    (records : ReconciliationLedger) : reply pyval :=
  let threshold_pct := match window with Daily => daily_threshold_pct | Weekly => weekly_threshold_pct end in
  on_value_error 422 (summarize_drift group_by records) (λ summaries,
    Reply (VList (map (drift_row window threshold_pct) summaries))).

(** ** Forecast *)

Definition forecast_spend (monthly_spend_usd : list pyfloat) (horizon_months : Z) : reply pyval :=
  on_value_error 422 (forecast monthly_spend_usd horizon_months) (λ f,
    Reply (VDict [("trend_pct", VFloat (trend_pct f)); ("residual_stddev_usd", VFloat (residual_stddev_usd f));
      ("points", VList (map (λ p, VDict [("month_offset", VInt (month_offset p)); ("predicted_spend_usd", VFloat (predicted_spend_usd p));
         ("lower_bound_usd", VFloat (lower_bound_usd p)); ("upper_bound_usd", VFloat (upper_bound_usd p))]) (points f)))])).

(** ** Interventions *)

Definition _to_intervention_response (r : InterventionRecord) : pyval :=
  VDict [("intervention_id", VStr (iv_intervention_id r)); ("title", VStr (iv_title r));
    ("intervention_type", VStr (iv_intervention_type r)); ("team", VStr (iv_team r)); ("detail", VStr (iv_detail r));
    ("savings_usd_month", VFloat (iv_savings_usd_month r)); ("confidence_pct", VFloat (iv_confidence_pct r));
    ("risk", VStr (iv_risk r)); ("equivalence_mode", VStr (iv_equivalence_mode r));
    ("equivalence_status", VStr (iv_equivalence_status r)); ("status", VStr (iv_status r));
    ("methodology", VDict [("category", VStr (iv_category r)); ("threshold_condition", VStr (iv_threshold_condition r));
                           ("rule_condition", VStr (iv_rule_condition r))]);
    ("updated_at", VStr (isoformat (iv_updated_at r))); ("updated_by", VStr (iv_updated_by r));
    ("update_note", VStr (iv_update_note r))].

Definition summary_response (s : InterventionSummary) : pyval :=
  let n k := VInt (Z.of_nat k) in
  VDict [("total_count", n (total_count s)); ("recommended_count", n (recommended_count s)); ("review_count", n (review_count s));
    ("approved_count", n (approved_count s)); ("implemented_count", n (implemented_count s));
    ("dismissed_count", n (dismissed_count s)); ("total_potential_usd", VFloat (total_potential_usd s));
    ("captured_savings_usd", VFloat (captured_savings_usd s)); ("open_potential_usd", VFloat (open_potential_usd s))].

(** [status.strip().lower() if status else None] *)
Definition normalized_status (status : option string) : option string :=
  match status with Some s => if String.eqb s "" then None else Some (lower (strip s)) | None => None end.

Definition list_interventions (status : option string) (registry : InterventionRegistry) : reply pyval :=
  on_value_error 422 (Interventions.list_records (normalized_status status) registry) (λ records,
    Reply (VDict [("summary", summary_response (Interventions.summary registry));
                  ("interventions", VList (map _to_intervention_response records))])).

Definition intervention_summary (registry : InterventionRegistry) : reply pyval :=
  Reply (summary_response (Interventions.summary registry)).

Definition set_intervention_status (intervention_id status actor note : string) (now : instant) (registry : InterventionRegistry)
    : reply pyval * InterventionRegistry :=
  match transition intervention_id status actor note now registry with
  | (Ok updated, registry) => (Reply (_to_intervention_response updated), registry)
  | (Raise (KeyError key), registry) => (http_exception 404 (repr_str key), registry)
  | (Raise (ValueError text), registry) => (http_exception 422 text, registry)
  | (Raise e, registry) => (Unhandled e, registry)
  end.

(** ** Notifications *)

Record NotificationRequest := mkNotification {
  nq_message : NotificationMessage;
  nq_channels : list string;
  nq_slack_webhook_url : string;
  nq_webhook_url : string;
  nq_email_to : list string;
}.

Definition delivery_response (d : NotificationDelivery) : pyval :=
  VDict [("delivery_id", VStr (nd_delivery_id d)); ("channel", VStr (nd_channel d)); ("target", VStr (nd_target d));
         ("status", VStr (nd_status d)); ("message", VStr (nd_message d)); ("sent_at", VStr (isoformat (nd_sent_at d)))].

Definition integrations_notify `{Network} (req : NotificationRequest) (timestamp : instant) (nows : nat → instant)
    (hub : NotificationHub) : reply pyval * NotificationHub :=
  match send (nq_message req) (nq_channels req) (nq_slack_webhook_url req) (nq_webhook_url req) (nq_email_to req)
          timestamp nows hub with
  | (Ok deliveries, hub) => (Reply (VList (map delivery_response deliveries)), hub)
  | (Raise e, hub) => (Unhandled e, hub)
  end.

Definition integrations_deliveries (limit : Z) (hub : NotificationHub) : reply pyval :=
  Reply (VList (map delivery_response (list_deliveries limit hub))).

(** ** Probes *)

Definition all_pass (checks : odict string bool) : bool := forallb snd checks.

Definition checks_value (checks : odict string bool) : pyval := VDict (map (λ kv, (kv.1, VBool kv.2)) checks).

Definition live (now : instant) : reply pyval := Reply (VDict [("status", VStr "alive"); ("timestamp", VStr (isoformat now))]).

Definition ready (checks : odict string bool) (now : instant) : reply pyval :=
  if all_pass checks
  then Reply (VDict [("status", VStr "ready"); ("timestamp", VStr (isoformat now)); ("checks", checks_value checks)])
  else HttpError 503 (VDict [("detail", VDict [("status", VStr "not_ready"); ("checks", checks_value checks)])]).

Definition health (checks : odict string bool) (now : instant) (index_size : nat) (runtime_role : string)
    (mode : DeploymentMode) (breaker_state : string) : reply pyval :=
  Reply (VDict [("status", VStr (if all_pass checks then "healthy" else "degraded")); ("timestamp", VStr (isoformat now));
    ("index_size", VInt (Z.of_nat index_size)); ("runtime_role", VStr runtime_role);
    ("interceptor_mode", VStr (mode_value mode)); ("circuit_breaker", VStr breaker_state)]).

Definition root (frontend_exists : bool) : reply pyval :=
  Reply (VDict [("name", VStr "ACI Platform"); ("version", VStr "0.2.0"); ("health_url", VStr "/health");
                ("mockup_url", if frontend_exists then VStr "/platform/" else VNone)]).

(** ** Lemmas *)

(** A value that converts under one default converts under the other. *)
Lemma confidence_converts (d : odict string pyval) (x y c : pyfloat) :
  py_float (dget d "confidence" (VFloat x)) = Ok c → is_ok (py_float (dget d "confidence" (VFloat y))) = true.
Proof. unfold dget. destruct (od_get "confidence" d); [by intros ->|done]. Qed.

Lemma actions_total req advisories :
  is_ok (py_float (dget (pe_attribution req) "confidence" (VFloat f0))) = true →
  ∃ l, actions_of req advisories = Ok l ∧
    map (λ a, (pa_type a, pa_delta a)) l = map (λ cd, (upper cd.1, str_take 256 cd.2)) advisories.
Proof.
  intros Hc. induction advisories as [|[code text] rest IH]; [by exists []|]. cbn [actions_of].
  destruct (py_float _) as [c|] eqn:E; [|done]. destruct IH as (l & -> & Hl). cbn.
  eexists. split; [done|]. cbn. by rewrite Hl.
Qed.

Lemma evaluation_context_confidence req context :
  evaluation_context req = Ok context → is_ok (py_float (dget (pe_attribution req) "confidence" (VFloat f0))) = true.
Proof.
  unfold evaluation_context. destruct (py_float (dget _ _ (VFloat f1))) eqn:E; [|done]. intros _. by eapply confidence_converts.
Qed.

(** A budget with nothing left divides to at most zero, and its utilisation is at least one. *)
Lemma exhausted_utilization limit remaining : flt f0 limit = true → is_fin remaining = true → fle remaining f0 = true →
  ∃ q, fdiv remaining limit = Ok q ∧ fle f1 (fsub f1 q) = true.
Proof.
  intros Hl Hf Hr. destruct remaining as [r| | |]; try done. apply Qle_bool_iff in Hr. cbn in Hr.
  destruct limit as [l| | |]; try done.
  - assert (0 < l)%Q as Hl' by (apply Qle_bool_false; cbn in Hl; by destruct (Qle_bool l 0)).
    exists (of_Q (r / l)). split; [unfold fdiv; by destruct (Qeq_bool l 0) eqn:E; [apply Qeq_bool_iff in E; lra|]|].
    assert (r / l <= 0)%Q as Hq.
    { apply Qle_shift_div_r; [done|lra]. }
    pose proof (of_Q_le_repr _ 0 Hq repr_f0) as Hz. destruct (of_Q (r / l)) as [q| | |] eqn:E; try done.
    apply Qle_bool_iff in Hz. unfold fsub, f1. cbn [fneg fadd]. apply of_Q_ge_repr; [rewrite Qred_correct; cbn in Hz; lra|apply repr_f1].
  - exists (Fin 0). by split.
Qed.

(** Whether an entry's budget counts as used up. *)
Definition spent (e : AttributionIndexEntry) : bool :=
  match ie_budget_limit_usd e, ie_budget_remaining_usd e with
  | Some limit, Some remaining =>
      flt f0 limit && match fdiv remaining limit with Ok q => fle f1 (fsub f1 q) | Raise _ => false end
  | _, _ => false
  end.

Definition some {A} (x : option A) : bool := match x with Some _ => true | None => false end.

Definition when {A} (b : bool) (x : A) : list A := if b then [x] else [].

Lemma constraints_list e :
  constraints_of e = Ok (when (some (ie_token_budget_input e) || some (ie_token_budget_output e)) ("TOKEN_CAP", "SERVICE") ++
    when (is_nonempty (ie_model_allowlist e)) ("MODEL_ALLOWLIST", "SERVICE") ++
    when (some (ie_budget_limit_usd e)) ("BUDGET_SOFT", "TEAM") ++ when (spent e) ("BUDGET_HARD", "TEAM")).
Proof.
  unfold constraints_of, spent, when.
  destruct (ie_budget_limit_usd e) as [limit|]; [|by destruct (ie_token_budget_input e), (ie_token_budget_output e)].
  destruct (ie_budget_remaining_usd e) as [remaining|]; [|by destruct (ie_token_budget_input e), (ie_token_budget_output e)].
  destruct (flt f0 limit) eqn:E; [|by destruct (ie_token_budget_input e), (ie_token_budget_output e)].
  destruct (fdiv_ok remaining limit) as [q ->]; [by apply flt_zero_fle|].
  by destruct (ie_token_budget_input e), (ie_token_budget_output e).
Qed.

Lemma elem_of_when {A} (x y : A) b : x ∈ when b y ↔ b = true ∧ x = y.
Proof. destruct b; cbn; rewrite ?list_elem_of_singleton, ?elem_of_nil; naive_solver. Qed.

(** What an enabled policy contributes to the advisories. *)
Definition advisory_of (context : odict string pyval) (p : PolicyDefinition) : option (string * string) :=
  match violation p context with Ok (Some details) => Some (pd_policy_id p, details) | _ => None end.

Lemma advisories_collect context ps :
  match collect (map (λ p, _evaluate_single p context) ps) with
  | Ok results => Forall (λ p, is_ok (violation p context) = true) ps ∧ advisories_of results = omap (advisory_of context) ps
  | Raise _ => Exists (λ p, is_ok (violation p context) = false) ps
  end.
Proof.
  induction ps as [|p ps IH]; [done|]. cbn [map collect omap list_omap].
  unfold _evaluate_single at 1. unfold advisory_of at 1.
  destruct (violation p context) as [d|e] eqn:E; cbn [rbind]; [|left; by rewrite E].
  destruct (collect _) as [results|e]; cbn [rbind]; [|by right].
  destruct IH as [Hall Hadv]. split; [constructor; [by rewrite E|done]|].
  unfold advisories_of. rewrite filter_cons. cbn [pr_violated]. destruct d as [text|].
  - rewrite decide_True by done. cbn [map]. f_equal. exact Hadv.
  - rewrite decide_False by done. exact Hadv.
Qed.

Lemma in_scope_global p : in_scope "global" p = pd_enabled p.
Proof. unfold in_scope. cbn. apply andb_true_r. Qed.

(** ** Properties *)

(** A policy evaluation request always gets an answer: whatever raises while the context is
    read or the policies are evaluated is answered with a pass-through that says so, and what
    follows cannot raise. Otherwise the advisories are those of the enabled policies that find a
    violation, in registration order, and the decision is to apply when there is one and the
    caller is in the active lite mode and enabled for it, to advise when there is one and it
    is not, and to pass through when there is none. *)
Theorem policy_evaluate_answer (policies : PolicyEngine) (req : PolicyEvaluateRequest) :
  ∃ answer, policy_evaluate policies req = Reply answer ∧
  let ps := filter (λ p, pd_enabled p = true) (od_values policies) in
  match evaluation_context req with
  | Ok context =>
      Exists (λ p, is_ok (violation p context) = false) ps ∧ answer = mkPolicyAnswer "PASS_THROUGH" [] [] true ∨
      Forall (λ p, is_ok (violation p context) = true) ps ∧ pv_fail_open answer = false ∧
      pv_advisories answer = omap (advisory_of context) ps ∧
      map (λ a, (pa_type a, pa_delta a)) (pv_actions answer)
      = (if acts req then map (λ cd, (upper cd.1, str_take 256 cd.2)) (pv_advisories answer) else []) ∧
      pv_decision answer = (if bool_decide (pv_advisories answer = []) then "PASS_THROUGH"
                            else if acts req then "APPLY" else "ADVISORY")
  | Raise _ => answer = mkPolicyAnswer "PASS_THROUGH" [] [] true
  end.
Proof.
  unfold policy_evaluate. destruct (evaluation_context req) as [context|e] eqn:Ec; cbn [rbind]; [|by eexists].
  apply evaluation_context_confidence in Ec. unfold evaluate_all. rewrite evaluate_collect.
  rewrite (list_filter_iff (λ p, in_scope "global" p = true) (λ p, pd_enabled p = true)) by (intros p; by rewrite in_scope_global).
  pose proof (advisories_collect context (filter (λ p, pd_enabled p = true) (od_values policies))) as Hadv.
  destruct (collect _) as [results|e]; cbn [rbind app]; [|eexists; split; [done|by left]].
  destruct Hadv as [Hall Hadv], (actions_total req (advisories_of results) Ec) as (l & Hl & Hmap).
  replace (if acts req then actions_of req _ else Ok []) with (Ok (A := list PolicyActionResponse) (if acts req then l else []))
    by by destruct (acts req).
  eexists. split; [done|]. right. cbn [pv_fail_open pv_advisories pv_actions pv_decision].
  split_and!; [done|done|done|by destruct (acts req)|].
  apply (f_equal length) in Hmap. rewrite !length_map in Hmap.
  by destruct (acts req), l, (advisories_of results).
Qed.

(** A lookup of an entry is always answered, and its constraints are those the entry sets:
    a token cap when it has a token budget, the allowlist when it lists a model, the soft budget when it
    has a limit, and the hard one only with a positive limit and a known remainder, and then
    whenever nothing remains. *)
Theorem index_lookup_constraints (key : string) (e : AttributionIndexEntry) :
  ∃ body l, index_lookup_body key e = Reply body ∧ constraints_of e = Ok l ∧
  (("TOKEN_CAP", "SERVICE") ∈ l ↔ ie_token_budget_input e ≠ None ∨ ie_token_budget_output e ≠ None) ∧
  (("MODEL_ALLOWLIST", "SERVICE") ∈ l ↔ ie_model_allowlist e ≠ []) ∧
  (("BUDGET_SOFT", "TEAM") ∈ l ↔ ie_budget_limit_usd e ≠ None) ∧
  (("BUDGET_HARD", "TEAM") ∈ l → ∃ limit remaining, ie_budget_limit_usd e = Some limit ∧
     ie_budget_remaining_usd e = Some remaining ∧ flt f0 limit = true) ∧
  (∀ limit remaining, ie_budget_limit_usd e = Some limit → ie_budget_remaining_usd e = Some remaining →
     flt f0 limit = true → is_fin remaining = true → fle remaining f0 = true → ("BUDGET_HARD", "TEAM") ∈ l).
Proof.
  unfold index_lookup_body. rewrite constraints_list. eexists _, _. split; [done|]. split; [done|].
  rewrite !elem_of_app, !elem_of_when. unfold some, is_nonempty.
  split_and!.
  - destruct (ie_token_budget_input e), (ie_token_budget_output e); naive_solver.
  - destruct (ie_model_allowlist e); naive_solver.
  - destruct (ie_budget_limit_usd e); naive_solver.
  - intros Hin. assert (spent e = true) as Hs by naive_solver. unfold spent in Hs.
    destruct (ie_budget_limit_usd e) as [limit|], (ie_budget_remaining_usd e) as [remaining|]; try done.
    apply andb_true_iff in Hs as [Hl _]. by eexists _, _.
  - intros limit remaining El Er Hl Hf Hr. rewrite !elem_of_app, !elem_of_when. do 3 right. split; [|done]. unfold spent. rewrite El, Er, Hl.
    by destruct (exhausted_utilization limit remaining) as (q & -> & ->).
Qed.

(** A remainder too small for the ratio counts as no remainder. *)
Example remainder_rounds_away :
  let e := mkEntry "w" "t" "" "" "" "" "" "" "" f1 "" "R1" (Some (lit 1 (10 ^ 14))) (Some (of_Z 1000)) [] None None None None [] 2 "" 1 0 [] "" in
  constraints_of e = Ok [("BUDGET_SOFT", "TEAM"); ("BUDGET_HARD", "TEAM")].
Proof. by vm_compute. Qed.
