(* ===== verification/Observability.v ===== *)
(** * Metrics and the dashboard (src/aci/api/app.py, the [stats] of the components)

    What the components report of themselves, the stand-ins of a runtime without them
    (src/aci/api/runtime.py), and the routes that gather the reports. After any requests the
    dashboard of a gateway shows the outcomes of exactly those requests. *)

From S2P Require Import Prelude PyFloat PyData PyMath PyTime PyValue Models CircuitBreaker ShadowWarming IndexStore Interceptor.
From S2P Require Import EventBus GraphStore Processor TokenBucket.
From Stdlib Require Import ZArith QArith Lia.
From stdpp Require Import base list gmap sets strings.

Open Scope string_scope.
Open Scope list_scope.
Open Scope Z_scope.
Open Scope py_scope.

Abbreviation report := (odict string pyval).

(** ** What the components report *)

Section index.
  Context {R : Type}.

Definition index_report (icfg : IndexConfig) (s : AttributionIndexStore R) : res report :=
    let m := metrics s in
    let durable := match _redis s with Some _ => true | None => false end in
    let? rate := hit_rate s in
    Ok [("size", VInt (Z.of_nat (length (_index s)))); ("max_entries", VInt (max_entries icfg));
        ("hits", VInt (_hit_count m)); ("misses", VInt (_miss_count m)); ("hit_rate", VFloat (fround 4 rate));
        ("materializations", VInt (_materialization_count m)); ("evictions", VInt (_eviction_count m));
        ("durable_backend_enabled", VBool durable); ("durable_hits", VInt (_durable_hits m));
        ("durable_misses", VInt (_durable_misses m)); ("durable_writes", VInt (_durable_writes m));
        ("durable_errors", VInt (_durable_errors m));
        ("durable_ttl_seconds", if durable then VInt (redis_ttl_seconds icfg) else VNone)].
End index.

Definition counts_value (d : odict string Z) : pyval := VDict (map (λ kv, (kv.1, VInt kv.2)) d).

Definition memory_bus_report {H} (b : InMemoryEventBus H) : report :=
  [("backend", VStr "memory"); ("started", VBool true); ("total_events", VInt (Z.of_nat (length (_log b))));
   ("published", VInt (_published_count b)); ("deduplicated", VInt (_deduplicated_count b));
   ("idempotency_cache_size", VInt (Z.of_nat (size (_seen_keys (_keys b))))); ("idempotency_evictions", VInt (evictions (_keys b)));
   ("dispatch_errors", VInt (_dispatch_errors b)); ("topics", VList (map VStr (od_keys (_handlers b))));
   ("published_by_topic", counts_value (_topic_counts b))].

Definition kafka_bus_report {H I K} (consumer_group topic dlq_topic : string) (consume_messages : bool)
    (b : KafkaEventBus H I K) : report :=
  [("backend", VStr "kafka"); ("started", VBool (k_started b)); ("published", VInt (k_published_count b));
   ("deduplicated", VInt (k_deduplicated_count b)); ("dispatch_errors", VInt (k_dispatch_errors b));
   ("dlq_count", VInt (k_dlq_count b)); ("consumer_group", VStr consumer_group); ("topic", VStr topic);
   ("dlq_topic", VStr dlq_topic); ("consume_messages", VBool consume_messages);
   ("consumer_lag_by_partition", counts_value (k_lag b));
   ("consumer_lag_total", VInt (foldr Z.add 0 (od_values (k_lag b)))); ("topics", VList (map VStr (od_keys (k_handlers b))))].

Definition processor_report {R} (p : Processor R) : report :=
  let '(processed, nodes, edges, size) := stats p in
  [("processed_events", VInt processed); ("graph_nodes", VInt nodes); ("graph_edges", VInt edges); ("index_size", VInt size)].

Section gateway.
  Context {R S B : Type} `{CircuitStateStore S}.
  Context (env : Env) (c : InterceptorConfig) (mode : DeploymentMode).
  Abbreviation G := (gateway_state R S B).

Definition interceptor_report : SE G report :=
    let! m := get_gateway_metrics env c mode in
    let '(total, enriched, fail_open, redirected, misses, mode, st) := m in
    se_ret [("total_requests", VInt total); ("total_enriched", VInt enriched); ("total_fail_open", VInt fail_open);
            ("total_redirected", VInt redirected); ("total_cache_misses", VInt misses); ("mode", VStr mode);
            ("circuit_breaker_state", VStr st)].
End gateway.

(** *** Stand-ins *)

Definition disabled_bus_publish {A} (event : A) : bool := false.

Definition disabled_bus_publish_batch {A} (events : list A) : report := [("published", VInt 0); ("deduplicated", VInt 0)].

Definition disabled_bus_report : report :=
  [("backend", VStr "disabled"); ("started", VBool false); ("total_events", VInt 0); ("published", VInt 0);
   ("deduplicated", VInt 0); ("idempotency_cache_size", VInt 0); ("idempotency_evictions", VInt 0);
   ("dispatch_errors", VInt 0); ("topics", VList []); ("published_by_topic", VDict [])].

Definition disabled_processor_report : report :=
  [("processed_events", VInt 0); ("graph_nodes", VInt 0); ("graph_edges", VInt 0); ("index_size", VInt 0)].

Definition disabled_interceptor_report (mode : DeploymentMode) : report :=
  [("mode", VStr (mode_value mode)); ("total_requests", VInt 0); ("total_enriched", VInt 0); ("total_fail_open", VInt 0);
   ("total_redirected", VInt 0); ("total_cache_misses", VInt 0); ("circuit_breaker_state", VStr "disabled")].

(** ** The routes *)

Section routes.
  Context {R S B : Type} `{CircuitStateStore S}.
  Context (env : Env) (c : InterceptorConfig) (mode : DeploymentMode) (icfg : IndexConfig).
  Abbreviation G := (gateway_state R S B).

  (** [GET /v1/index/stats] *)
Definition index_stats : SE G report := let! i := se_get g_index in se_lift (index_report icfg i).

  (** [GET /metrics]: the reports of the index, the interceptor, the processor and the bus. *)
Definition metrics_route (processor events : report) : SE G report :=
    let! index := index_stats in
    let! interceptor := interceptor_report env c mode in
    se_ret [("index", VDict index); ("interceptor", VDict interceptor); ("processor", VDict processor); ("event_bus", VDict events)].

  (** [GET /v1/dashboard/overview] *)
Definition dashboard_overview (tenant_id environment runtime_role : string) (events : report) (now : instant) : SE G report :=
    let! i := interceptor_report env c mode in
    let! x := index_stats in
    se_ret [("tenant_id", VStr tenant_id); ("environment", VStr environment); ("runtime_role", VStr runtime_role);
            ("generated_at", VStr (isoformat now)); ("index_size", dget x "size" (VInt 0)); ("index_hit_rate", dget x "hit_rate" (VFloat f0));
            ("interceptor_requests", dget i "total_requests" (VInt 0)); ("interceptor_enriched", dget i "total_enriched" (VInt 0));
            ("interceptor_fail_open", dget i "total_fail_open" (VInt 0));
            ("interceptor_cache_misses", dget i "total_cache_misses" (VInt 0)); ("interceptor_mode", dget i "mode" (VStr "advisory"));
            ("circuit_breaker_state", dget i "circuit_breaker_state" (VStr "closed")); ("events_published", dget events "published" (VInt 0))].
End routes.

(** ** After any requests *)

Section history.
  Context {R S B : Type} `{RedisServer R} `{LuaText} `{EntryJson} `{CircuitStateStore S} `{EventPublisher B}.
  Context (env : Env) (c : InterceptorConfig) (mode : DeploymentMode) (shadow_refresh_fn : bool) (icfg : IndexConfig).
  Abbreviation G := (gateway_state R S B).

Fixpoint intercept_all (requests : list InterceptionRequest) : SE G (list InterceptionResult) :=
    match requests with
    | [] => se_ret []
    | request :: requests =>
        let! r := intercept env c mode shadow_refresh_fn icfg request in
        let! l := intercept_all requests in se_ret (r :: l)
    end.

Definition total_if (p : InterceptionResult → bool) (l : list InterceptionResult) : Z := foldr (λ r n, count_if (p r) + n) 0 l.

Lemma intercept_all_counts `{!QuietStore S} requests (g : G) : ∃ l g', intercept_all requests g = (Ok l, g') ∧
    length l = length requests ∧
    total_requests g' = total_requests g + Z.of_nat (length requests) ∧
    total_enriched g' = total_enriched g + total_if counts_enriched l ∧
    total_fail_open g' = total_fail_open g + total_if (λ r, is_fail_open_outcome (outcome r)) l ∧
    total_cache_misses g' = total_cache_misses g + total_if counts_miss l.
  Proof.
    revert g. induction requests as [|q requests IH]; intros g; [exists [], g; cbn; split_and!; (done || lia)|].
    destruct (wp_total (intercept env c mode shadow_refresh_fn icfg q) (good c mode q (counters (inc_requests g))) g)
      as (r & g1 & E1 & _ & Hn).
    { eapply wp_mono; [apply intercept_good|done|]. intros e g' Hq. by apply Hq. }
    specialize (Hn _). unfold counters, counted in Hn. simpl in Hn. injection Hn as N1 N2 N3 N4 N5.
    destruct (IH g1) as (l & g2 & E2 & Hl & M1 & M2 & M3 & M4). exists (r :: l), g2. split.
    - cbn [intercept_all]. rewrite (se_bind_ok _ _ _ _ _ E1), (se_bind_ok _ _ _ _ _ E2). done.
    - cbn [length total_if foldr]. unfold total_if in *. split_and!; lia.
  Qed.

End history.

(** The reported rate is a part of one. *)
Lemma hit_rate_unit {R} (s : AttributionIndexStore R) :
  0 <= _hit_count (metrics s) <= 2 ^ 52 → 0 <= _miss_count (metrics s) <= 2 ^ 52 →
  ∃ x, hit_rate s = Ok x ∧ unit_itv (fround 4 x) = true.
Proof.
  intros Hh Hm. unfold hit_rate. cbn zeta. rewrite Z.gtb_ltb. destruct (Z.ltb_spec 0 (_hit_count (metrics s) + _miss_count (metrics s))) as [Hp|]; [|by exists f0].
  destruct (of_Z_exact (_hit_count (metrics s))) as (a & -> & Ha); [lia|].
  destruct (of_Z_exact (_hit_count (metrics s) + _miss_count (metrics s))) as (b & -> & Hb); [lia|].
  assert (0 < b)%Q as Hb0 by (rewrite Hb, <- (Zlt_Qlt 0); done).
  unfold fdiv. destruct (Qeq_bool b 0) eqn:E; [apply Qeq_bool_iff in E; rewrite E in Hb0; by apply Qlt_irrefl in Hb0|].
  eexists. split; [done|]. apply fround_unit; [done|]. apply of_Q_unit. split.
  - apply Qle_shift_div_l; [done|]. rewrite Qmult_0_l, Ha, <- (Zle_Qle 0). lia.
  - apply Qle_shift_div_r; [done|]. rewrite Qmult_1_l, Ha, Hb, <- Zle_Qle. lia.
Qed.

Section dashboard.
  Context {R S B : Type} `{RedisServer R} `{LuaText} `{EntryJson} `{CircuitStateStore S} `{EventPublisher B}.
  Context (env : Env) (c : InterceptorConfig) (mode : DeploymentMode) (shadow_refresh_fn : bool) (icfg : IndexConfig).
  Abbreviation G := (gateway_state R S B).

  (** Asking for the breaker's state touches neither the counters nor the index. *)
Lemma breaker_state_quiet `{!QuietStore S} (g : G) : ∃ st g', breaker_state env c g = (Ok st, g') ∧
    g_index g' = g_index g ∧ counters g' = counters g.
  Proof.
    unfold breaker_state. rewrite (se_bind_ok _ _ _ (wall_clock env (tick g)) (inc_tick g)) by done.
    unfold on_breaker, get_state. pose proof (run_quiet (state_mut (breaker_config c) (wall_clock env (tick g))) (g_breaker (inc_tick g))) as Hq.
    destruct (CircuitBreaker.run _ _) as [[st|e] b]; [|done]. by eexists _, _.
  Qed.

(** C26. The dashboard of a gateway that served any requests answers and shows exactly their
    outcomes: the requests, those enriched, failed open and missing in the index, each counted
    from the results returned; the mode; the entries of the index; and a hit rate in the unit
    interval. *)
Theorem dashboard_shows_history `{!QuietStore S} (requests : list InterceptionRequest) (g : G)
    (tenant_id environment runtime_role : string) (events : report) (now : instant)
    (Hnew : counters g = [0; 0; 0; 0; 0]) :
    ∃ l g', intercept_all env c mode shadow_refresh_fn icfg requests g = (Ok l, g') ∧
      let m := metrics (g_index g') in
      (0 <= _hit_count m <= 2 ^ 52 → 0 <= _miss_count m <= 2 ^ 52 →
       ∃ rate st g'', unit_itv rate = true ∧
         dashboard_overview env c mode icfg tenant_id environment runtime_role events now g' =
         (Ok [("tenant_id", VStr tenant_id); ("environment", VStr environment); ("runtime_role", VStr runtime_role);
              ("generated_at", VStr (isoformat now)); ("index_size", VInt (Z.of_nat (length (_index (g_index g')))));
              ("index_hit_rate", VFloat rate); ("interceptor_requests", VInt (Z.of_nat (length requests)));
              ("interceptor_enriched", VInt (total_if counts_enriched l));
              ("interceptor_fail_open", VInt (total_if (λ r, is_fail_open_outcome (outcome r)) l));
              ("interceptor_cache_misses", VInt (total_if counts_miss l)); ("interceptor_mode", VStr (mode_value mode));
              ("circuit_breaker_state", VStr st); ("events_published", dget events "published" (VInt 0))], g'')).
  Proof.
    destruct (intercept_all_counts env c mode shadow_refresh_fn icfg requests g) as (l & g' & E & Hl & N1 & N2 & N3 & N4).
    exists l, g'. split; [exact E|]. intros m Hh Hm. injection Hnew as Z1 Z2 Z3 Z4 Z5.
    destruct (breaker_state_quiet g') as (st & g2 & E2 & Hi & Hc). injection Hc as C1 C2 C3 C4 C5.
    destruct (hit_rate_unit (g_index g') Hh Hm) as (x & Ex & Hx).
    exists (fround 4 x), st, g2. split; [done|].
    unfold dashboard_overview, interceptor_report, get_gateway_metrics, index_stats, index_report.
    rewrite (se_bind_ok _ _ _ [("total_requests", VInt (Z.of_nat (length requests))); ("total_enriched", VInt (total_if counts_enriched l));
       ("total_fail_open", VInt (total_if (λ r, is_fail_open_outcome (outcome r)) l)); ("total_redirected", VInt (total_redirected g2));
       ("total_cache_misses", VInt (total_if counts_miss l)); ("mode", VStr (mode_value mode)); ("circuit_breaker_state", VStr st)] g2).
    2: { unfold se_bind. rewrite E2. unfold se_get, se_ret. repeat f_equal; lia. }
    unfold se_bind, se_get, se_lift. rewrite Hi, Ex. done.
  Qed.
End dashboard.

(** ** A concrete gateway *)

Definition sample_served : res (list InterceptionResult) * gateway_state MemServer CircuitBreakerState (list DomainEvent) :=
  intercept_all still_env default_interceptor_config ACTIVE false example_config [example_request "svc"; example_request "unknown"]
    example_gateway.

Lemma dashboard_shows_history_witness :
  ∃ d, (dashboard_overview still_env default_interceptor_config ACTIVE example_config "t" "demo" "gateway" disabled_bus_report 0
          sample_served.2).1 = Ok d ∧
    od_get "interceptor_requests" d = Some (VInt 2) ∧ od_get "interceptor_mode" d = Some (VStr "active").
Proof.
  destruct (dashboard_shows_history (S := CircuitBreakerState) still_env default_interceptor_config ACTIVE false example_config
    [example_request "svc"; example_request "unknown"] example_gateway "t" "demo" "gateway" disabled_bus_report 0 eq_refl)
    as (l & g' & E & Hd).
  assert (g' = sample_served.2) as -> by (unfold sample_served; by rewrite E).
  destruct Hd as (rate & st & g'' & _ & Ed); [split; vm_compute; discriminate|split; vm_compute; discriminate|].
  eexists. rewrite Ed. split; [reflexivity|split; reflexivity].
Defined.
