(* ===== verification/ApiService.v ===== *)
(** * The routes together (src/aci/api/app.py, src/aci/api/runtime.py)

    The components that [AppState] keeps for the routes of ApiRoutes, the calls the service
    receives and what each does to them. A handler runs to its end between two awaits, so a
    history is a sequence of calls. *)

From S2P Require Import Prelude PyFloat PyData PyMath PyTime PyValue Models IndexStore Policy Calibration.
From S2P Require Import Pricing Forecast CostLedger Interventions Trac Notifications HttpLayer ApiRoutes.
From Stdlib Require Import ZArith QArith Lia.
From stdpp Require Import base list sets strings.

Open Scope string_scope.
Open Scope list_scope.
Open Scope Z_scope.

(** ** State and calls *)

Record Service (R : Type) := mkService {
  sv_index : AttributionIndexStore R;
  sv_policies : PolicyEngine;
  sv_pricing : PricingCatalog;
  sv_ledger : ReconciliationLedger;
  sv_registry : InterventionRegistry;
  sv_hub : NotificationHub;
}.
Arguments mkService {R} _ _ _ _ _ _.
Arguments sv_index {R} _.
Arguments sv_policies {R} _.
Arguments sv_pricing {R} _.
Arguments sv_ledger {R} _.
Arguments sv_registry {R} _.
Arguments sv_hub {R} _.

Inductive call :=
| CPolicy (req : PolicyEvaluateRequest)
| CTrac (req : TRACRequest) (now : instant)
| CAttribution (workload_id : string)
| CLookup (key : string)
| CCatalog (provider model : option string)
| CEstimate (now : instant) (usage : PricingUsage)
| CSimulate (now : instant) (req : CostSimulationRequest)
| CSynthetic (now : instant) (req : SyntheticCostIngestRequest)
| CReconcile (now : instant) (req : CostReconcileRequest)
| CDrift (group_by : string) (window : drift_window) (daily weekly : pyfloat)
| CForecast (monthly_spend_usd : list pyfloat) (horizon_months : Z)
| CInterventions (status : option string)
| CSummary
| CTransition (q : request)
| CNotify (req : NotificationRequest) (timestamp : instant) (nows : nat → instant)
| CDeliveries (limit : Z).

Definition action_value (a : PolicyActionResponse) : pyval :=
  VDict [("type", VStr (pa_type a)); ("confidence", VFloat (pa_confidence a)); ("delta", VStr (pa_delta a))].

Definition policy_value (a : PolicyEvaluateResponse) : pyval :=
  VDict [("decision", VStr (pv_decision a));
    ("advisories", VList (map (λ cd, VDict [("code", VStr cd.1); ("detail", VStr cd.2)]) (pv_advisories a)));
    ("actions", VList (map action_value (pv_actions a))); ("fail_open", VBool (pv_fail_open a))].

Definition reply_map {A B} (f : A → B) (r : reply A) : reply B :=
  match r with Reply a => Reply (f a) | HttpError status content => HttpError status content | Unhandled e => Unhandled e end.

(** The status line of a reply; an exception nothing handles is a 500. *)
Definition status_of {A} (r : reply A) : Z :=
  match r with Reply _ => 200 | HttpError status _ => status | Unhandled _ => 500 end.

Section service.
  Context {R : Type} `{RedisServer R} `{LuaText} `{EntryJson} `{ExpLib} `{Network}.
  Context (icfg : IndexConfig) (tc : TRACConfig) (cc : ConfidenceConfig).
  Implicit Types (s : Service R).

Definition with_index (i : AttributionIndexStore R) s : Service R :=
    mkService i (sv_policies s) (sv_pricing s) (sv_ledger s) (sv_registry s) (sv_hub s).

Definition with_ledger (l : ReconciliationLedger) s : Service R :=
    mkService (sv_index s) (sv_policies s) (sv_pricing s) l (sv_registry s) (sv_hub s).

Definition with_registry (d : InterventionRegistry) s : Service R :=
    mkService (sv_index s) (sv_policies s) (sv_pricing s) (sv_ledger s) d (sv_hub s).

Definition with_hub (h : NotificationHub) s : Service R :=
    mkService (sv_index s) (sv_policies s) (sv_pricing s) (sv_ledger s) (sv_registry s) h.

Definition serve_call (c : call) s : reply pyval * Service R :=
    match c with
    | CPolicy req => (reply_map policy_value (policy_evaluate (sv_policies s) req), s)
    | CTrac req now => (compute_trac tc cc req now, s)
    | CAttribution wid => let '(r, i) := get_attribution icfg wid (sv_index s) in (r, with_index i s)
    | CLookup key => let '(r, i) := index_lookup_route icfg key (sv_index s) in (r, with_index i s)
    | CCatalog provider model => (pricing_catalog provider model (sv_pricing s), s)
    | CEstimate now usage => (pricing_estimate now usage (sv_pricing s), s)
    | CSimulate now req => (simulate_intervention_cost now req (sv_pricing s), s)
    | CSynthetic now req => let '(r, l) := finops_synthetic_cost now req (sv_pricing s) (sv_ledger s) in (r, with_ledger l s)
    | CReconcile now req => let '(r, l) := finops_reconcile now req (sv_ledger s) in (r, with_ledger l s)
    | CDrift group_by window daily weekly => (finops_drift group_by window daily weekly (sv_ledger s), s)
    | CForecast spend horizon => (forecast_spend spend horizon, s)
    | CInterventions status => (list_interventions status (sv_registry s), s)
    | CSummary => (intervention_summary (sv_registry s), s)
    | CTransition q =>
        let '(r, d) := set_intervention_status (rq_id q) (rq_status q) (rq_actor q) (rq_note q) (rq_now q) (sv_registry s) in
        (r, with_registry d s)
    | CNotify req timestamp nows => let '(r, h) := integrations_notify req timestamp nows (sv_hub s) in (r, with_hub h s)
    | CDeliveries limit => (integrations_deliveries limit (sv_hub s), s)
    end.

Definition serve_calls (calls : list call) s : Service R := fold_left (λ s c, (serve_call c s).2) calls s.
End service.

(** ** What a call means for each component *)

(** The ledger operation of a call; a synthetic cost that cannot be priced is none. *)
Definition ledger_op_of (rules : PricingCatalog) (c : call) : option ledger_op :=
  match c with
  | CSynthetic now req =>
      match synthetic_cost now req rules with
      | Ok cost => Some (Upsert (sy_request_id req) (sy_service_name req) (sy_provider req) (sy_model req) cost (sy_recorded_at req) now)
      | Raise _ => None
      end
  | CReconcile now req =>
      Some (Reconcile (rc_request_id req) (rc_reconciled_cost_usd req) (rc_source req) (rc_recorded_at req) now)
  | _ => None
  end.

Definition transition_of (c : call) : option request := match c with CTransition q => Some q | _ => None end.

Definition send_of (c : call) : option send_call :=
  match c with
  | CNotify req timestamp nows =>
      Some (mkSend (nq_message req) (nq_channels req) (nq_slack_webhook_url req) (nq_webhook_url req) (nq_email_to req) timestamp nows)
  | _ => None
  end.

(** A synthetic cost of the request that was accepted. *)
Definition priced (rules : PricingCatalog) (request_id : string) (c : call) : bool :=
  match ledger_op_of rules c with Some (Upsert id _ _ _ _ _ _) => String.eqb id request_id | _ => false end.

(** ** Lemmas *)

(** Some or no operation on a component. *)
Definition step_opt {A B} (f : A → B → A) (a : A) (o : option B) : A := match o with Some b => f a b | None => a end.

Lemma fold_omap {A B C} (f : A → B → A) (g : C → option B) (l : list C) (a : A) :
  fold_left (λ a c, step_opt f a (g c)) l a = fold_left f (omap g l) a.
Proof. revert a. induction l as [|c l IH]; intros a; [done|]. cbn. rewrite IH. by destruct (g c). Qed.

Lemma synthetic_ledger now req rules records :
  (finops_synthetic_cost now req rules records).2 = step_opt ledger_step records (ledger_op_of rules (CSynthetic now req)).
Proof. unfold finops_synthetic_cost, ledger_op_of. by destruct (synthetic_cost now req rules) as [cost|[]]. Qed.

Lemma reconcile_ledger now req records :
  (finops_reconcile now req records).2
  = ledger_step records (Reconcile (rc_request_id req) (rc_reconciled_cost_usd req) (rc_source req) (rc_recorded_at req) now).
Proof. unfold finops_reconcile. cbn [ledger_step]. unfold reconcile. by destruct (od_get (rc_request_id req) records). Qed.

Lemma transition_registry q d :
  (set_intervention_status (rq_id q) (rq_status q) (rq_actor q) (rq_note q) (rq_now q) d).2 = serve d q.
Proof. unfold set_intervention_status, serve. by destruct (transition _ _ _ _ _ d) as [[r|[]] d']. Qed.

Lemma fdiv_nonzero x y : feq y f0 = false → ∃ z, fdiv x y = Ok z.
Proof.
  destruct y as [q| | |]; [|by destruct x; eexists..].
  intros Hq. assert (Qeq_bool q 0 = false) as E.
  { destruct (Qeq_bool q 0) eqn:E; [|done]. apply Qeq_bool_iff in E. unfold feq, f0 in Hq. cbn [fle] in Hq.
    rewrite !(proj2 (Qle_bool_iff _ _)) in Hq by (rewrite E; apply Qle_refl). done. }
  destruct x; unfold fdiv; rewrite E; by eexists.
Qed.

Lemma drift_pct_total r : ∃ pct, record_drift_pct r = Ok pct.
Proof.
  unfold record_drift_pct. destruct (record_drift_usd r) as [d|]; [|by eexists].
  destruct (feq (cr_synthetic_cost_usd r) f0) eqn:E; [by eexists|].
  destruct (fdiv_nonzero d _ E) as [z ->]. by eexists.
Qed.

(** A reconciliation is answered with 200 or, for a request without a synthetic cost, with 404. *)
Lemma reconcile_status now req records :
  status_of (finops_reconcile now req records).1
  = match od_get (rc_request_id req) records with Some _ => 200 | None => 404 end.
Proof.
  unfold finops_reconcile, reconcile, with_record. destruct (od_get (rc_request_id req) records) as [r|] eqn:E; [|done].
  rewrite od_get_set_eq. cbn [fst]. match goal with |- context [record_drift_pct ?r] => by destruct (drift_pct_total r) as [pct ->] end.
Qed.

(** A request has a record when one of the operations gave it one. *)
Lemma ledger_known ops records id :
  is_Some (od_get id (fold_left ledger_step ops records)) ↔
  is_Some (od_get id records) ∨ ∃ s p m c t now, Upsert id s p m c t now ∈ ops.
Proof.
  revert records. induction ops as [|o ops IH]; intros records; cbn [fold_left].
  { split; [by left|]. intros [Hs|(? & ? & ? & ? & ? & ? & Hin)]; [done|]. by apply elem_of_nil in Hin. }
  rewrite IH. destruct (decide (id = op_request o)) as [->|Hne].
  - rewrite ledger_step_same. destruct o as [i s p m c t now|i c src t now]; cbn [op_request spec_op].
    + split; [intros _; right; by eexists s, p, m, c, t, now; left|intros _; left; by case_match].
    + destruct (od_get i records); split; try (intros _; left; by eexists); intros [[? ?]|(s & p & m & c' & t' & n & Hin)];
        try done; right; eexists s, p, m, c', t', n; set_solver.
  - rewrite ledger_step_other by done. split; (intros [Hs|(s & p & m & c & t & n & Hin)]; [by left|right; eexists s, p, m, c, t, n]);
      [by right|]. apply elem_of_cons in Hin as [<-|Hin]; [done|done].
Qed.

Section projections.
  Context {R : Type} `{RedisServer R} `{LuaText} `{EntryJson} `{ExpLib} `{Network}.
  Context (icfg : IndexConfig) (tc : TRACConfig) (cc : ConfidenceConfig).
  Implicit Types (s : Service R).

  (** A local index answers from its entries and keeps them. *)
Definition same_entries (i i' : AttributionIndexStore R) : Prop :=
    index_wf icfg i' ∧ _redis i' = None ∧ ∀ k, od_get k (_index i') = od_get k (_index i).

Lemma lookup_keeps wid i : index_wf icfg i → _redis i = None →
    (IndexStore.lookup icfg wid i).1 = Ok (od_get wid (_index i)) ∧ same_entries i (IndexStore.lookup icfg wid i).2.
  Proof.
    intros Hwf Hr. unfold IndexStore.lookup. destruct (lookup_local wid i) as [o i1] eqn:El.
    pose proof (lookup_local_wf icfg _ _ _ _ El Hwf) as (Hwf1 & Hr1 & Ho & _ & Hg).
    assert (same_entries i i1) as Hs by (refine (conj Hwf1 (conj _ Hg)); congruence).
    destruct o as [e|]; [by rewrite <- Ho|]. unfold _load_durable_entry. rewrite Hr1, Hr. by rewrite <- Ho.
  Qed.

Lemma with_entry_index {A} wid missing (k : AttributionIndexEntry → reply A) i :
    (with_entry icfg wid missing k i).2 = (IndexStore.lookup icfg wid i).2.
  Proof. unfold with_entry. by destruct (IndexStore.lookup icfg wid i) as [[[e|]|x] i']. Qed.

Lemma serve_call_parts c s :
    let s' := (serve_call icfg tc cc c s).2 in
    sv_policies s' = sv_policies s ∧ sv_pricing s' = sv_pricing s ∧
    sv_ledger s' = step_opt ledger_step (sv_ledger s) (ledger_op_of (sv_pricing s) c) ∧
    sv_registry s' = step_opt serve (sv_registry s) (transition_of c) ∧
    sv_hub s' = step_opt run_send (sv_hub s) (send_of c) ∧
    (index_wf icfg (sv_index s) → _redis (sv_index s) = None → same_entries (sv_index s) (sv_index s')).
  Proof.
    destruct c as [| |wid|key| | | |now req|now req| | | | |q|req ts nows|]; cbn zeta; cbn [serve_call];
      try (do 5 (split; [done|]); intros Hwf Hr; exact (conj Hwf (conj Hr (λ _, eq_refl)))).
    - unfold get_attribution. pose proof (with_entry_index (A := pyval) wid "Workload not found in attribution index") as Hi.
      match goal with |- context [with_entry icfg wid ?m ?k ?i] => specialize (Hi k i); destruct (with_entry icfg wid m k i) as [r i'] end.
      cbn in Hi |- *. subst i'. do 5 (split; [done|]). intros Hwf Hr. by apply lookup_keeps.
    - unfold index_lookup_route. pose proof (with_entry_index (A := pyval) key "lookup key not found in attribution index") as Hi.
      match goal with |- context [with_entry icfg key ?m ?k ?i] => specialize (Hi k i); destruct (with_entry icfg key m k i) as [r i'] end.
      cbn in Hi |- *. subst i'. do 5 (split; [done|]). intros Hwf Hr. by apply lookup_keeps.
    - pose proof (synthetic_ledger now req (sv_pricing s) (sv_ledger s)) as Hl.
      destruct (finops_synthetic_cost _ _ _ _) as [r l]. cbn [snd] in Hl. subst l. do 5 (split; [done|]); intros Hwf Hr; exact (conj Hwf (conj Hr (λ _, eq_refl))).
    - pose proof (reconcile_ledger now req (sv_ledger s)) as Hl.
      destruct (finops_reconcile _ _ _) as [r l]. cbn [snd] in Hl. subst l. do 5 (split; [done|]); intros Hwf Hr; exact (conj Hwf (conj Hr (λ _, eq_refl))).
    - pose proof (transition_registry q (sv_registry s)) as Hd.
      destruct (set_intervention_status _ _ _ _ _ _) as [r d]. cbn [snd] in Hd. subst d. do 5 (split; [done|]); intros Hwf Hr; exact (conj Hwf (conj Hr (λ _, eq_refl))).
    - assert ((integrations_notify req ts nows (sv_hub s)).2 = step_opt run_send (sv_hub s) (send_of (CNotify req ts nows))) as Hh.
      { cbn [step_opt send_of]. unfold integrations_notify, run_send. cbn [sd_message sd_channels sd_slack sd_webhook sd_email sd_timestamp sd_nows].
        by destruct (send _ _ _ _ _ _ _ _) as [[ds|e] h]. }
      destruct (integrations_notify _ _ _ _) as [r h]. cbn [snd] in Hh. subst h. do 5 (split; [done|]); intros Hwf Hr; exact (conj Hwf (conj Hr (λ _, eq_refl))).
  Qed.
End projections.

(** ** Properties *)

(** C11. Each call changes only its component: after any calls, the ledger is what
    the accepted synthetic costs and the reconciliations make of it, the interventions what the
    transitions make of them, the hub what the notifications make of it, in the order of the
    calls and whatever else was called between them; policies and prices never change, and a local
    index keeps its entries, so an attribution is answered with 404 exactly when it was not
    there at the start. On a service that starts with an empty ledger a reconciliation is answered with 404
    exactly when no call before it was a synthetic cost of the request that had a price. *)
Theorem service_parts {R : Type} `{RedisServer R} `{LuaText} `{EntryJson} `{ExpLib} `{Network}
    (icfg : IndexConfig) (tc : TRACConfig) (cc : ConfidenceConfig) (calls : list call) (s : Service R) :
  let s' := serve_calls icfg tc cc calls s in
  sv_policies s' = sv_policies s ∧ sv_pricing s' = sv_pricing s ∧
  sv_ledger s' = fold_left ledger_step (omap (ledger_op_of (sv_pricing s)) calls) (sv_ledger s) ∧
  sv_registry s' = serve_all (omap transition_of calls) (sv_registry s) ∧
  sv_hub s' = fold_left run_send (omap send_of calls) (sv_hub s) ∧
  (index_wf icfg (sv_index s) → _redis (sv_index s) = None → ∀ wid,
     status_of (serve_call icfg tc cc (CAttribution wid) s').1
     = match od_get wid (_index (sv_index s)) with Some _ => 200 | None => 404 end) ∧
  (sv_ledger s = ReconciliationLedger_init → ∀ now req,
     status_of (serve_call icfg tc cc (CReconcile now req) s').1
     = if existsb (priced (sv_pricing s) (rc_request_id req)) calls then 200 else 404).
Proof.
  assert (∀ calls s, let s' := serve_calls icfg tc cc calls s in
    sv_policies s' = sv_policies s ∧ sv_pricing s' = sv_pricing s ∧
    sv_ledger s' = fold_left ledger_step (omap (ledger_op_of (sv_pricing s)) calls) (sv_ledger s) ∧
    sv_registry s' = serve_all (omap transition_of calls) (sv_registry s) ∧
    sv_hub s' = fold_left run_send (omap send_of calls) (sv_hub s) ∧
    (index_wf icfg (sv_index s) → _redis (sv_index s) = None → same_entries icfg (sv_index s) (sv_index s'))) as Hparts.
  { clear. induction calls as [|c calls IH]; intros s;
      [do 5 (split; [done|]); intros Hwf Hr; exact (conj Hwf (conj Hr (λ _, eq_refl)))|].
    unfold serve_calls in *. cbn [fold_left].
    destruct (serve_call_parts icfg tc cc c s) as (Hp & Hc & Hl & Hd & Hh & Hi).
    destruct (IH (serve_call icfg tc cc c s).2) as (Hp' & Hc' & Hl' & Hd' & Hh' & Hi').
    split; [|split; [|split; [|split; [|split]]]].
    - congruence.
    - congruence.
    - rewrite Hl', Hl, Hc. rewrite <- !fold_omap. done.
    - rewrite Hd', Hd. unfold serve_all. rewrite <- !fold_omap. done.
    - rewrite Hh', Hh. rewrite <- !fold_omap. done.
    - intros Hwf Hr. destruct (Hi Hwf Hr) as (Hwf1 & Hr1 & Hg1). destruct (Hi' Hwf1 Hr1) as (Hwf2 & Hr2 & Hg2).
      refine (conj Hwf2 (conj Hr2 _)). intros k. by rewrite Hg2. }
  destruct (Hparts calls s) as (Hp & Hc & Hl & Hd & Hh & Hi). do 5 (split; [done|]). split.
  - intros Hwf Hr wid. destruct (Hi Hwf Hr) as (Hwf' & Hr' & Hg). cbn [serve_call]. unfold get_attribution, with_entry.
    destruct (lookup_keeps icfg wid _ Hwf' Hr') as [E _]. rewrite Hg in E.
    destruct (IndexStore.lookup _ _ _) as [r i']. cbn [fst] in E. subst r. by destruct (od_get wid (_index (sv_index s))).
  - intros Hnil now req. cbn [serve_call].
    transitivity (status_of (finops_reconcile now req (sv_ledger (serve_calls icfg tc cc calls s))).1);
      [by destruct (finops_reconcile _ _ _)|].
    rewrite reconcile_status, Hl, Hnil.
    destruct (existsb _ calls) eqn:E.
    + apply existsb_exists in E as (c & Hin & Hpr). unfold priced in Hpr.
      destruct (ledger_op_of (sv_pricing s) c) as [[id sn p m cost t n|]|] eqn:Eo; try done. apply String.eqb_eq in Hpr as ->.
      assert (is_Some (od_get (rc_request_id req) (fold_left ledger_step (omap (ledger_op_of (sv_pricing s)) calls) ReconciliationLedger_init)))
        as [r ->]; [|done].
      apply ledger_known. right. eexists sn, p, m, cost, t, n. apply list_elem_of_omap. exists c. split; [by apply list_elem_of_In|done].
    + destruct (od_get _ _) as [r|] eqn:Er; [|done]. exfalso.
      destruct (proj1 (ledger_known (omap (ledger_op_of (sv_pricing s)) calls) ReconciliationLedger_init (rc_request_id req)))
        as [[? ?]|(sn & p & m & cost & t & n & Hin)]; [by rewrite Er; eexists|done|].
      apply list_elem_of_omap in Hin as (c & Hin & Eo).
      assert (existsb (priced (sv_pricing s) (rc_request_id req)) calls = true); [|congruence].
      apply existsb_exists. exists c. split; [by apply list_elem_of_In|]. unfold priced. rewrite Eo. apply String.eqb_refl.
Qed.

Definition sample_service : Service MemServer :=
  mkService example_index PolicyEngine_init with_default_rules ReconciliationLedger_init sample_registry (NotificationHub_init false).

Definition sample_calls : list call :=
  [CLookup "svc"; CSynthetic 0 (mkSynthetic "r1" "chat" "openai" "m" 10 5 0 (Some f1) None);
   CReconcile 1 (mkReconcileRequest "r1" f1 "bill" None); CSynthetic 2 (mkSynthetic "r2" "chat" "nobody" "none" 10 5 0 None None)].

Lemma service_parts_witness :
  let s' := serve_calls (H2 := step_exp_lib) (H3 := quiet_network) example_config default_trac_config default_confidence_config sample_calls sample_service in
  let ask c := status_of (serve_call (H2 := step_exp_lib) (H3 := quiet_network) example_config default_trac_config default_confidence_config c s').1 in
  ask (CAttribution "svc") = 200 ∧ ask (CAttribution "gone") = 404 ∧
  ask (CReconcile 3 (mkReconcileRequest "r1" f1 "bill" None)) = 200 ∧ ask (CReconcile 3 (mkReconcileRequest "r2" f1 "bill" None)) = 404.
Proof.
  intros s' ask.
  destruct (service_parts (H2 := step_exp_lib) (H3 := quiet_network) example_config default_trac_config default_confidence_config
              sample_calls sample_service) as (_ & _ & _ & _ & _ & Hi & Hl).
  unfold ask. rewrite !(Hi example_index_wf eq_refl), !(Hl eq_refl). by vm_compute.
Defined.
