(* ===== verification/Demo.v ===== *)
(** * The demo seeder (src/aci/demo/seeder.py)

    The seed entries, nodes, edges and events, and the bootstrap that resets the index and
    the graph, publishes the events on the in-memory bus, where the attribution processor
    handles them, and materializes the entries. The clock is the processor's; event
    identifiers are a stream. *)

From S2P Require Import Prelude PyFloat PyData PyMath PyTime PyValue PyIso PyText Models IndexStore GraphStore Combination HreMethods HreEngine Calibration Policy.
From S2P Require Import EventSchema EventBus Processor HttpLayer InterceptRoute.
From Stdlib Require Import ZArith QArith Ascii Lia.
From stdpp Require Import base list strings sets gmap.

Open Scope string_scope.
Open Scope list_scope.
Open Scope Z_scope.
Local Open Scope py_scope.

(** ** The seed *)

Record DemoBootstrapResult := mkDemoResult {
  db_seeded_entries : Z;
  db_workloads : list string;
  db_events_published : Z;
  db_graph_nodes : Z;
  db_graph_edges : Z;
}.

(** An entry of the seed; its version and time are those that materialization sets. *)
Definition seed_entry (workload team name cost_center : string) (confidence : pyfloat) (method : string)
    (remaining limit : Z) (allowlist : list string) (ceiling : pyfloat) (output input : Z) (alternatives : list string)
    : AttributionIndexEntry :=
  mkEntry workload team name cost_center "" "" "" "" "" confidence "chargeback_ready" method
    (Some (of_Z remaining)) (Some (of_Z limit)) allowlist (Some ceiling) (Some output) (Some input) None alternatives
    2 "" 1 0 [] "".

Definition demo_seed_entries : list AttributionIndexEntry :=
  [seed_entry "customer-support-bot" "team-cs-platform" "Customer Support Platform" "CC-1200" (lit 96 100) "R1"
     1850 5000 ["gpt-4o-mini"; "gemini-1.5-flash"; "gpt-4o"] (lit 25 1000) 800 2400 ["gpt-4o-mini"; "gemini-1.5-flash"];
   seed_entry "analytics-batch" "team-data-science" "Data Science" "CC-5100" (lit 93 100) "R2"
     620 10000 ["gpt-4o"; "gpt-4o-mini"] (lit 8 1000) 1200 3000 [];
   seed_entry "code-intel-prod" "team-platform-eng" "Platform Engineering" "CC-3100" (lit 95 100) "R1"
     2250 7000 ["gemini-2.0-flash"; "gemini-1.5-flash"] (lit 3 100) 1500 3500 ["gemini-1.5-flash"]].

(** The nodes: identifier, type and label. *)
Definition seed_nodes : list (string * NodeType * string) :=
  [("team:team-cs-platform", NT_TEAM, "Customer Support Platform"); ("team:team-data-science", NT_TEAM, "Data Science");
   ("team:team-platform-eng", NT_TEAM, "Platform Engineering");
   ("budget:CC-1200", NT_BUDGET, "CC-1200"); ("budget:CC-5100", NT_BUDGET, "CC-5100"); ("budget:CC-3100", NT_BUDGET, "CC-3100");
   ("resource:customer-support-bot", NT_INFERENCE_ENDPOINT, "customer-support-bot");
   ("resource:analytics-batch", NT_INFERENCE_ENDPOINT, "analytics-batch");
   ("resource:code-intel-prod", NT_INFERENCE_ENDPOINT, "code-intel-prod");
   ("repo:customer-support-platform", NT_REPOSITORY, "customer-support-platform");
   ("repo:analytics-batch", NT_REPOSITORY, "analytics-batch"); ("repo:code-intelligence", NT_REPOSITORY, "code-intelligence");
   ("person:alice.ng", NT_PERSON, "alice.ng")].

(** The edges: type and ends. *)
Definition seed_links : list (EdgeType * string * string) :=
  [(ATTRIBUTED_TO, "resource:customer-support-bot", "team:team-cs-platform");
   (ATTRIBUTED_TO, "resource:analytics-batch", "team:team-data-science");
   (ATTRIBUTED_TO, "resource:code-intel-prod", "team:team-platform-eng");
   (OWNS_CODE, "team:team-cs-platform", "repo:customer-support-platform");
   (OWNS_CODE, "team:team-data-science", "repo:analytics-batch");
   (OWNS_CODE, "team:team-platform-eng", "repo:code-intelligence");
   (BUDGETED_UNDER, "team:team-cs-platform", "budget:CC-1200");
   (BUDGETED_UNDER, "team:team-data-science", "budget:CC-5100");
   (BUDGETED_UNDER, "team:team-platform-eng", "budget:CC-3100");
   (MEMBER_OF, "person:alice.ng", "team:team-platform-eng")].

Definition inference_attributes (model provider service request : string) (input output : Z) (latency cost : pyfloat)
    : odict string pyval :=
  [("model", VStr model); ("provider", VStr provider); ("service_name", VStr service); ("request_id", VStr request);
   ("input_tokens", VInt input); ("output_tokens", VInt output); ("latency_ms", VFloat latency); ("cost_usd", VFloat cost)].

(** The events: type, subject, attributes and idempotency key. *)
Definition seed_events (timestamp : instant) : list (EventType * string * odict string pyval * string) :=
  [(ORG_CHANGE, "person:alice.ng",
    [("person_id", VStr "alice.ng"); ("previous_team", VStr ""); ("new_team", VStr "team-platform-eng");
     ("effective_date", VDate timestamp); ("source_system", VStr "demo-seeder")], "demo-org-change-alice");
   (DEPLOYMENT, "deploy:code-intel-prod",
    [("service_name", VStr "code-intel-prod"); ("repository", VStr "code-intelligence"); ("commit_sha", VStr "demo123");
     ("deployer_identity", VStr "alice.ng"); ("deploy_tool", VStr "github-actions");
     ("deploy_job_id", VStr "deploy-code-intel-prod"); ("target_environment", VStr "production");
     ("target_resource_arn", VStr "code-intel-prod"); ("timestamp", VDate timestamp)], "demo-deployment-code-intel");
   (BILLING_LINE_ITEM, "billing:analytics-batch",
    [("cloud_provider", VStr "aws"); ("account_id", VStr "123456789012"); ("service", VStr "bedrock");
     ("resource_arn", VStr "analytics-batch"); ("region", VStr "us-west-2"); ("cost_usd", VFloat (lit 18342 100));
     ("usage_quantity", VFloat f1); ("usage_unit", VStr "request"); ("tags", VDict [("team", VStr "team-data-science")])],
    "demo-billing-analytics-batch");
   (INFERENCE_REQUEST, "req-customer-support-bot",
    inference_attributes "gpt-4o-mini" "openai" "customer-support-bot" "req-customer-support-bot" 620 180 (of_Z 212) (lit 32 10000),
    "demo-inference-customer-support-bot");
   (INFERENCE_REQUEST, "req-analytics-batch",
    inference_attributes "gpt-4o" "openai" "analytics-batch" "req-analytics-batch" 2600 900 (of_Z 481) (lit 14 1000),
    "demo-inference-analytics-batch");
   (INFERENCE_REQUEST, "req-code-intel-prod",
    inference_attributes "gemini-2.0-flash" "google" "code-intel-prod" "req-code-intel-prod" 1800 500 (of_Z 162) (lit 9 1000),
    "demo-inference-code-intel-prod")].

(** ** Bootstrap *)

(** The parts of [AppState] that the seeder touches; the processor is the bus's subscriber,
    and owns the graph and the index. *)
Record DemoState (R : Type) := mkDemo {
  dm_bus : InMemoryEventBus unit;
  dm_processor : Processor R;
}.
Arguments mkDemo {R} _ _.
Arguments dm_bus {R} _.
Arguments dm_processor {R} _.

Section seeder.
  Context {R : Type} `{RedisServer R} `{LuaText} `{EntryJson} `{SetOrder} `{NumLib} `{StrictFields}.
  Context (local_to_utc : Z → instant) (monotonic : nat → pyfloat) (wall_now : nat → instant).
  Context (combination_config : CombinationConfig) (hre_cfg : HREExecutionConfig).
  Context (conf_config : ConfidenceConfig) (icfg : IndexConfig) (mcfg : MaterializerConfig).
  Context (max_events : nat) (tenant_id : string) (uuid : nat → string).
  (** Whether there is a graph, and whether events go to an in-memory bus that is consumed. *)
  Context (graph_present publishes : bool).

Abbreviation D := (DemoState R).

Definition on_processor {A} (m : SE (Processor R) A) : SE D A := λ d,
    let '(r, p) := m (dm_processor d) in (r, mkDemo (dm_bus d) p).

  (** The constructor's subscriptions, each to its own handler. *)
Definition subscribed : InMemoryEventBus unit :=
    fold_left (λ b t, subscribe (event_type_value t) tt b)
      [INFERENCE_REQUEST; DEPLOYMENT; BILLING_LINE_ITEM; ATTRIBUTION_CORRECTION; ORG_CHANGE] InMemoryEventBus_init.

Definition run_processor (_ : unit) (event : DomainEvent) (p : Processor R) : res unit * Processor R :=
    process local_to_utc monotonic wall_now combination_config hre_cfg conf_config icfg mcfg event p.

Definition publish_events (events : list DomainEvent) : SE D (Z * Z) := λ d,
    let '(r, b, p) := publish_batch run_processor max_events events (dm_bus d) (dm_processor d) in (r, mkDemo b p).

Fixpoint seed_all {A} (f : A → SE (Processor R) unit) (l : list A) : SE (Processor R) unit :=
    match l with [] => se_ret tt | x :: l => f x;;; seed_all f l end.

Fixpoint new_nodes (specs : list (string * NodeType * string)) : SE (Processor R) (list GraphNode) :=
    match specs with
    | [] => se_ret []
    | (id, t, label) :: specs =>
        let! n := new_node wall_now id t label [] in let! l := new_nodes specs in se_ret (n :: l)
    end.

  (** Each edge's provenance is stamped when it is built. *)
Fixpoint new_edges (seeded_at : instant) (links : list (EdgeType * string * string)) : SE (Processor R) (list GraphEdge) :=
    match links with
    | [] => se_ret []
    | (t, from, to) :: links =>
        let! created := read_now wall_now in
        let! l := new_edges seeded_at links in
        se_ret (GraphEdge_deterministic t from to seeded_at f1 f1 "demo" created :: l)
    end.

Definition _seed_graph : SE (Processor R) unit :=
    let! seeded_at := read_now wall_now in
    let! nodes := new_nodes seed_nodes in
    seed_all (λ n, on_graph wall_now (λ now, upsert_node now n)) nodes;;;
    let! edges := new_edges seeded_at seed_links in
    seed_all (λ e, on_graph wall_now (λ now, add_edge now e)) edges.

Fixpoint new_events (n : nat) (timestamp : instant) (specs : list (EventType * string * odict string pyval * string))
      : SE (Processor R) (list DomainEvent) :=
    match specs with
    | [] => se_ret []
    | (t, subject, attributes, key) :: specs =>
        let! ingest := read_now wall_now in
        let! e := se_lift (DomainEvent_new (uuid n) t subject attributes (Aware timestamp 0) (Aware ingest 0)
                                           "demo-seeder" key tenant_id 1) in
        let! l := new_events (S n) timestamp specs in se_ret (e :: l)
    end.

Definition _demo_events : SE (Processor R) (list DomainEvent) :=
    let! timestamp := read_now wall_now in new_events 0 timestamp (seed_events timestamp).

Definition graph_counts (p : Processor R) : Z * Z :=
    if graph_present then let '(nodes, edges, _, _) := get_stats (pr_graph p) in (nodes, edges) else (0, 0).

Definition materialize_entry (e : AttributionIndexEntry) : SE (Processor R) unit :=
    let! now := read_now wall_now in call_index (IndexStore.materialize icfg now e).

Definition bootstrap_demo_state (reset_existing : bool) : SE D DemoBootstrapResult :=
    let! existing_size := se_get (λ d, Z.of_nat (IndexStore.size (pr_index (dm_processor d)))) in
    let workloads := map ie_workload_id demo_seed_entries in
    if negb reset_existing && (0 <? existing_size) then
      let! counts := se_get (λ d, graph_counts (dm_processor d)) in
      se_ret (mkDemoResult existing_size workloads 0 counts.1 counts.2)
    else
      (if reset_existing then
         on_processor (se_modify (λ p, set_index (IndexStore.clear icfg (pr_index p)) p));;;
         (if graph_present then on_processor (se_modify (λ p, set_graph (GraphStore.clear (pr_graph p)) p)) else se_ret tt)
       else se_ret tt);;;
      (if graph_present then on_processor _seed_graph else se_ret tt);;;
      let! published := (if publishes
                         then let! events := on_processor _demo_events in
                              let! counts := publish_events events in se_ret counts.1
                         else se_ret 0) in
      on_processor (seed_all materialize_entry demo_seed_entries);;;
      let! counts := se_get (λ d, graph_counts (dm_processor d)) in
      se_ret (mkDemoResult (Z.of_nat (length demo_seed_entries)) workloads published counts.1 counts.2).

  (** [POST /v1/demo/bootstrap]; the response carries the result, the mode and the environment. *)
Definition bootstrap_demo (environment : string) : D → reply DemoBootstrapResult * D := λ d,
    if _is_production_like environment
    then (http_exception 403 "demo bootstrap endpoint is disabled in production/staging", d)
    else match bootstrap_demo_state true d with
         | (Ok result, d) => (Reply result, d)
         | (Raise e, d) => (Unhandled e, d)
         end.

  (** The start of a demo environment. *)
Definition start_demo (environment : string) : SE D unit :=
    if String.eqb (lower environment) "demo" then bootstrap_demo_state false;;; se_ret tt else se_ret tt.
End seeder.

(** ** Lemmas: sizes of payloads *)

Lemma str_join_bound (l : list string) (n : nat) :
  Forall (λ s, (String.length s <= n)%nat) l → (String.length (str_join "," l) <= length l * S n)%nat.
Proof.
  unfold str_join. induction 1 as [|s l Hs Hl IH]; [done|]. destruct l as [|s' l]; [cbn in *; lia|].
  change (String.concat "," (s :: s' :: l)) with (s +:+ "," +:+ String.concat "," (s' :: l)).
  rewrite !str_length_app. change (String.length ",") with 1%nat. cbn [length] in IH |- *. lia.
Qed.

(** The text of one item of a payload. *)
Definition item_length (kv : string * pyval) : nat := String.length (json_str kv.1 +:+ ":" +:+ json_dumps kv.2).

Lemma payload_small (d : odict string pyval) : (length d <= 20)%nat → Forall (λ kv, (item_length kv <= 2000)%nat) d →
  validate_payload_size d = Ok d.
Proof.
  intros Hd Hf. unfold validate_payload_size. destruct (Z.gtb_spec (Z.of_nat (String.length (json_dumps (VDict d)))) MAX_ATTRIBUTES_PAYLOAD_BYTES)
    as [Hgt|]; [exfalso|done]. cbn [json_dumps] in Hgt. rewrite !str_length_app in Hgt.
  pose proof (str_join_bound (map (λ kv, json_str (fst kv) +:+ ":" +:+ json_dumps (snd kv)) d) 2000
                (proj2 (Forall_map _ _ _) Hf)) as Hj. rewrite length_map in Hj.
  change (String.length "{") with 1%nat in Hgt. change (String.length "}") with 1%nat in Hgt.
  unfold MAX_ATTRIBUTES_PAYLOAD_BYTES in Hgt. lia.
Qed.

(** ** Lemmas: what the seeder draws and builds *)

Section seeder_lemmas.
  Context {R : Type} `{RedisServer R} `{LuaText} `{EntryJson} `{SetOrder} `{NumLib} `{StrictFieldsLaws}.
  Context (local_to_utc : Z → instant) (monotonic : nat → pyfloat) (wall_now : nat → instant).
  Context (combination_config : CombinationConfig) (hre_cfg : HREExecutionConfig).
  Context (conf_config : ConfidenceConfig) (icfg : IndexConfig) (mcfg : MaterializerConfig).
  Context (max_events : nat) (tenant_id : string) (uuid : nat → string).

Abbreviation P := (Processor R).

  (** The clock alone moves. *)
Definition ticked (k : nat) (p : P) : P :=
    mkProcessor (pr_graph p) (pr_hre p) (pr_calibration p) (pr_index p) (pr_policies p) (pr_processed_count p) (k + pr_ticks p).

Lemma ticked_0 p : ticked 0 p = p.
  Proof. by destruct p. Qed.

Lemma ticked_add j k p : ticked j (ticked k p) = ticked (j + k) p.
  Proof. unfold ticked. cbn. f_equal. lia. Qed.

Lemma read_now_run (p : P) : read_now wall_now p = (Ok (wall_now (pr_ticks p)), ticked 1 p).
  Proof. done. Qed.

  (** The nodes of the specifications, read from a tick on. *)
Fixpoint nodes_of (tick : nat) (specs : list (string * NodeType * string)) : list GraphNode :=
    match specs with
    | [] => []
    | (id, t, label) :: specs =>
        mkNode id t label [] "" (wall_now tick) (wall_now (S tick)) :: nodes_of (S (S tick)) specs
    end.

Lemma new_nodes_run specs (p : P) : new_nodes wall_now specs p = (Ok (nodes_of (pr_ticks p) specs), ticked (2 * length specs) p).
  Proof.
    revert p. induction specs as [|[[id t] label] specs IH]; intros p; [by rewrite ticked_0|]. cbn [new_nodes nodes_of].
    rewrite (se_bind_ok _ _ _ (mkNode id t label [] "" (wall_now (pr_ticks p)) (wall_now (S (pr_ticks p)))) (ticked 2 p)) by done.
    rewrite (se_bind_ok _ _ _ _ _ (IH _)). rewrite ticked_add. unfold se_ret. f_equal. unfold ticked. cbn. f_equal. lia.
  Qed.

  (** The edges of the links, stamped from a tick on. *)
Fixpoint edges_of (tick : nat) (from_time : instant) (links : list (EdgeType * string * string)) : list GraphEdge :=
    match links with
    | [] => []
    | (t, from, to) :: links =>
        GraphEdge_deterministic t from to from_time f1 f1 "demo" (wall_now tick) :: edges_of (S tick) from_time links
    end.

Lemma new_edges_run from_time links (p : P) :
    new_edges wall_now from_time links p = (Ok (edges_of (pr_ticks p) from_time links), ticked (length links) p).
  Proof.
    revert p. induction links as [|[[t a] b] links IH]; intros p; [by rewrite ticked_0|]. cbn [new_edges edges_of].
    rewrite (se_bind_ok _ _ _ _ _ (read_now_run p)). rewrite (se_bind_ok _ _ _ _ _ (IH _)). rewrite ticked_add. unfold se_ret. f_equal. unfold ticked. cbn. f_equal. lia.
  Qed.

  (** Graph operations at successive ticks. *)
Fixpoint at_ticks {A} (f : A → instant → InMemoryGraphStore → InMemoryGraphStore) (tick : nat) (l : list A) (g : InMemoryGraphStore)
      : InMemoryGraphStore :=
    match l with [] => g | x :: l => at_ticks f (S tick) l (f x (wall_now tick) g) end.

Lemma seed_all_run {A} (f : A → instant → InMemoryGraphStore → InMemoryGraphStore) l (p : P) :
    seed_all (λ x, on_graph wall_now (λ now, f x now)) l p
    = (Ok tt, ticked (length l) (set_graph (at_ticks f (pr_ticks p) l (pr_graph p)) p)).
  Proof.
    revert p. induction l as [|x l IH]; intros p; [by destruct p|]. cbn [seed_all at_ticks].
    rewrite (se_bind_ok _ _ _ tt (ticked 1 (set_graph (f x (wall_now (pr_ticks p)) (pr_graph p)) p))) by done.
    rewrite IH. f_equal. unfold ticked, set_graph. cbn. f_equal. lia.
  Qed.

  (** The seeded graph, from an empty one. *)
Definition seeded_graph (tick : nat) : InMemoryGraphStore :=
    at_ticks (λ e now, add_edge now e) (10 + (13 + (2 * 13 + 1 + tick)))
      (edges_of (13 + (2 * 13 + 1 + tick)) (wall_now tick) seed_links)
      (at_ticks (λ n now, upsert_node now n) (2 * 13 + 1 + tick) (nodes_of (1 + tick) seed_nodes) InMemoryGraphStore_init).

Lemma nodes_of_length tick specs : length (nodes_of tick specs) = length specs.
  Proof. revert tick. induction specs as [|[[id t] l] specs IH]; intros tick; [done|]. cbn. by rewrite IH. Qed.

Lemma edges_of_length tick t links : length (edges_of tick t links) = length links.
  Proof. revert tick. induction links as [|[[k a] b] links IH]; intros tick; [done|]. cbn. by rewrite IH. Qed.

Lemma seed_graph_run (p : P) : pr_graph p = InMemoryGraphStore_init →
    _seed_graph wall_now p = (Ok tt, ticked 60 (set_graph (seeded_graph (pr_ticks p)) p)).
  Proof.
    intros Hg. unfold _seed_graph. rewrite (se_bind_ok _ _ _ _ _ (read_now_run p)).
    rewrite (se_bind_ok _ _ _ _ _ (new_nodes_run _ _)). rewrite (se_bind_ok _ _ _ _ _ (seed_all_run _ _ _)).
    rewrite (se_bind_ok _ _ _ _ _ (new_edges_run _ _ _)).
    rewrite seed_all_run, nodes_of_length, edges_of_length, !ticked_add. cbn [ticked set_graph pr_graph pr_ticks]. rewrite Hg.
    unfold seeded_graph, ticked, set_graph. cbn [pr_graph pr_hre pr_calibration pr_index pr_policies pr_processed_count pr_ticks].
    done.
  Qed.

Lemma seeded_counts tick : get_stats (seeded_graph tick) = (13, 10, 10, 0).
  Proof. vm_compute. reflexivity. Qed.

  (** Clock readings have texts of an ordinary length. *)
Definition clock_texts : Prop := ∀ n, (String.length (json_str (datetime_str (wall_now n))) <= 1000)%nat.

Definition seed_event (n tick : nat) (timestamp : instant) (spec : EventType * string * odict string pyval * string) : DomainEvent :=
    let '(t, subject, attributes, key) := spec in
    mkEvent (uuid n) t subject attributes timestamp (wall_now tick) "demo-seeder" key tenant_id 1.

Fixpoint events_of (n tick : nat) (timestamp : instant) (specs : list (EventType * string * odict string pyval * string))
      : list DomainEvent :=
    match specs with
    | [] => []
    | spec :: specs => seed_event n tick timestamp spec :: events_of (S n) (S tick) timestamp specs
    end.

Lemma new_events_run timestamp specs : Forall (λ spec, validate_payload_size spec.1.2 = Ok spec.1.2) specs → ∀ n (p : P),
    new_events wall_now tenant_id uuid n timestamp specs p
    = (Ok (events_of n (pr_ticks p) timestamp specs), ticked (length specs) p).
  Proof.
    induction 1 as [|[[[t subject] attributes] key] specs Hs Hl IH]; intros n p; [by rewrite ticked_0|].
    cbn [new_events events_of]. rewrite (se_bind_ok _ _ _ _ _ (read_now_run p)). unfold DomainEvent_new. cbn in Hs. rewrite Hs.
    cbn [rbind validate_tz_aware]. rewrite (se_bind_ok _ _ _ (seed_event n (pr_ticks p) timestamp (t, subject, attributes, key)) (ticked 1 p)) by done.
    rewrite (se_bind_ok _ _ _ _ _ (IH _ _)). rewrite ticked_add. unfold se_ret. f_equal. unfold ticked. cbn. f_equal. lia.
  Qed.

Definition demo_events (tick : nat) : list DomainEvent := events_of 0 (1 + tick) (wall_now tick) (seed_events (wall_now tick)).

Lemma demo_events_run (p : P) : clock_texts → _demo_events wall_now tenant_id uuid p = (Ok (demo_events (pr_ticks p)), ticked 7 p).
  Proof.
    intros Hc. unfold _demo_events. rewrite (se_bind_ok _ _ _ _ _ (read_now_run p)).
    rewrite new_events_run.
    { rewrite ticked_add. done. }
    assert (∀ k, (String.length (json_str k) <= 100)%nat → (item_length (k, VDate (wall_now (pr_ticks p))) <= 2000)%nat) as Hdate.
    { intros k Hk. unfold item_length. cbn [fst snd json_dumps]. rewrite !str_length_app. pose proof (Hc (pr_ticks p)).
      change (String.length ":") with 1%nat. lia. }
    unfold seed_events, inference_attributes.
    repeat (apply Forall_cons; split); try apply Forall_nil; try done;
      (apply payload_small; [cbn; lia|]; repeat (apply Forall_cons; split); try done; cbn [fst snd];
       first [apply Hdate; apply Nat.leb_le; vm_compute; reflexivity|apply Nat.leb_le; vm_compute; reflexivity]).
  Qed.

  (** The schemas accept the events. *)
Lemma seed_event_valid n tick timestamp t spec : spec ∈ seed_events t → validate_domain_event (seed_event n tick timestamp spec) = Ok tt.
  Proof.
    intros Hin. unfold validate_domain_event.
    assert (is_ok (validate_event_attributes spec.1.1.1 spec.1.2) = true) as Hok.
    { revert Hin. unfold seed_events, inference_attributes. rewrite !elem_of_cons, elem_of_nil.
      pose proof (strict_str_map [("team", "team-data-science")]) as Hm. cbn in Hm.
      intros [->|[->|[->|[->|[->|[->|[]]]]]]]; cbn [fst snd]; lazy -[strict_field];
        repeat match goal with
               | |- context [strict_field FDatetimeOpt (VDate ?t)] => rewrite (strict_datetime t)
               | |- context [strict_field FStrMap _] => rewrite Hm
               | |- context [strict_field ?t ?v] => rewrite (strict_own t v) by done
               end; done. }
    destruct spec as [[[ty subject] attributes] key]. cbn in Hok |- *. by destruct (validate_event_attributes ty attributes).
  Qed.

Lemma events_valid t n tick timestamp specs : (∀ spec, spec ∈ specs → spec ∈ seed_events t) →
    Forall (λ e, validate_domain_event e = Ok tt) (events_of n tick timestamp specs).
  Proof.
    revert n tick. induction specs as [|spec specs IH]; intros n tick Hs; [constructor|]. cbn [events_of]. constructor.
    - apply (seed_event_valid _ _ _ t). apply Hs. by left.
    - apply IH. intros x Hx. apply Hs. by right.
  Qed.

  (** The keys depend on the tenant alone. *)
Definition demo_keys : list string :=
    map (λ k, tenant_id +:+ ":" +:+ "demo-seeder" +:+ ":" +:+ k)
      ["demo-org-change-alice"; "demo-deployment-code-intel"; "demo-billing-analytics-batch";
       "demo-inference-customer-support-bot"; "demo-inference-analytics-batch"; "demo-inference-code-intel-prod"].

Lemma demo_events_keys tick : map dedup_key (demo_events tick) = demo_keys.
  Proof. done. Qed.

Lemma demo_keys_distinct : NoDup demo_keys.
  Proof.
    unfold demo_keys. apply NoDup_fmap_2; [|apply (bool_decide_unpack _); by vm_compute].
    intros k k' E. assert (∀ a b c : string, a +:+ b = a +:+ c → b = c) as Happ.
    { induction a as [|x a IH]; intros b c Ha; [done|]. injection Ha as Ha. by apply IH. }
    apply Happ in E. by injection E.
  Qed.

  (** ** Lemmas: a batch on the bus *)

Abbreviation run := (run_processor local_to_utc monotonic wall_now combination_config hre_cfg conf_config icfg mcfg).

  (** Events whose keys are new to the window are all published. *)
Lemma batch_fresh events : ∀ history p d b (w : P),
    (length events + length history <= 2 * max_events)%nat → NoDup (map dedup_key (history ++ events)) → bus_ok max_events history b →
    Forall (λ e, validate_domain_event e = Ok tt) events →
    ∃ b', publish_batch_loop run max_events events p d b w
          = (Ok (p + Z.of_nat (length events), d), b', foldl (deliver run (_handlers b)) w events) ∧
      bus_ok max_events (history ++ events) b' ∧ _handlers b' = _handlers b.
  Proof.
    induction events as [|e events IH]; intros history p d b w Hl Hnd Hb Hv; cbn [publish_batch_loop].
    { exists b. rewrite app_nil_r. split; [|by split]. cbn. by rewrite Z.add_0_r. }
    apply Forall_cons in Hv as [He Hv].
    pose proof (publish_step run max_events history e b w Hb He) as Hs.
    destruct (EventBus.publish _ _ e b w) as [[r b1] w1]. unfold spec_accept in Hs.
    rewrite decide_False in Hs.
    - destruct Hs as (-> & Hb1 & Hh & _ & ->).
      destruct (IH (history ++ [e]) (p + 1) d b1 (deliver run (_handlers b) w e)) as (b' & -> & Hb' & Hh');
        [rewrite length_app; cbn in *; lia|by rewrite <- app_assoc|done|done|].
      exists b'. rewrite Hh', Hh. rewrite <- app_assoc in Hb'. split; [|done]. cbn [foldl length]. do 4 f_equal. lia.
    - rewrite map_app in Hnd. apply NoDup_app in Hnd as (_ & Hd & _). intros Hin.
      apply (Hd (dedup_key e)); [|by left]. apply list_elem_of_fmap in Hin as (x & -> & Hx).
      apply list_elem_of_fmap_2. unfold list_last_n in Hx. by eapply subseteq_drop.
  Qed.

  (** Events whose keys are all in the window change nothing. *)
Lemma batch_seen events history : Forall (λ e, dedup_key e ∈ map dedup_key (list_last_n (2 * max_events) history)) events →
    ∀ p d b (w : P), bus_ok max_events history b → Forall (λ e, validate_domain_event e = Ok tt) events →
    ∃ b', publish_batch_loop run max_events events p d b w = (Ok (p, d + Z.of_nat (length events)), b', w) ∧
      bus_ok max_events history b' ∧ _handlers b' = _handlers b.
  Proof.
    induction 1 as [|e events Hin Hseen IH]; intros p d b w Hb Hv; cbn [publish_batch_loop].
    { exists b. split; [|by split]. cbn. by rewrite Z.add_0_r. }
    apply Forall_cons in Hv as [He Hv].
    pose proof (publish_step run max_events history e b w Hb He) as Hs.
    destruct (EventBus.publish _ _ e b w) as [[r b1] w1]. unfold spec_accept in Hs.
    rewrite decide_True in Hs by done. destruct Hs as (-> & Hb1 & Hh & _ & ->).
    destruct (IH p (d + 1) b1 w Hb1 Hv) as (b' & -> & Hb' & Hh').
    exists b'. rewrite Hh', Hh. split; [|done]. cbn [length]. do 4 f_equal. lia.
  Qed.

  (** What every handler keeps, the delivery of events keeps. *)
Lemma deliver_keeps (Q : P → Prop) handlers e (w : P) : (∀ e, se_inv Q (run tt e)) → Q w → Q (deliver run handlers w e).
  Proof.
    intros Hrun. unfold deliver. generalize (topic_handlers handlers (topic_of e)). intros hs. revert w.
    induction hs as [|[] hs IH]; intros w Hw; [done|]. cbn [foldl]. by apply IH, Hrun.
  Qed.

Lemma deliveries_keep (Q : P → Prop) handlers es (w : P) : (∀ e, se_inv Q (run tt e)) → Q w → Q (foldl (deliver run handlers) w es).
  Proof. intros Hrun. revert w. induction es as [|e es IH]; intros w Hw; [done|]. cbn [foldl]. by apply IH, deliver_keeps. Qed.

  (** In any case a batch of valid events returns, and what every handler keeps is kept. *)
Lemma batch_returns (Q : P → Prop) events : (∀ e, se_inv Q (run tt e)) → ∀ history p d b (w : P),
    bus_ok max_events history b → Forall (λ e, validate_domain_event e = Ok tt) events → Q w →
    ∃ p' d' b' w', publish_batch_loop run max_events events p d b w = (Ok (p', d'), b', w') ∧
      p <= p' <= p + Z.of_nat (length events) ∧ Q w'.
  Proof.
    intros Hrun. induction events as [|e events IH]; intros history p d b w Hb Hv Hw; cbn [publish_batch_loop].
    { exists p, d, b, w. split; [done|]. split; [cbn; lia|done]. }
    apply Forall_cons in Hv as [He Hv].
    pose proof (publish_step run max_events history e b w Hb He) as Hs.
    destruct (EventBus.publish _ _ e b w) as [[r b1] w1].
    destruct (spec_accept _ _ _) as [accepted history']. destruct Hs as (-> & Hb1 & _ & _ & ->).
    assert (Q (if accepted then deliver run (_handlers b) w e else w)) as Hw1.
    { destruct accepted; [by apply deliver_keeps|done]. }
    destruct accepted.
    - destruct (IH history' (p + 1) d b1 _ Hb1 Hv Hw1) as (p' & d' & b' & w' & -> & Hp & Hq).
      exists p', d', b', w'. split; [done|]. split; [cbn [length]; lia|done].
    - destruct (IH history' p (d + 1) b1 _ Hb1 Hv Hw1) as (p' & d' & b' & w' & -> & Hp & Hq).
      exists p', d', b', w'. split; [done|]. split; [cbn [length]; lia|done].
  Qed.

  (** ** Lemmas: what the events do to the graph *)

Definition graph_is (g : InMemoryGraphStore) (p : P) : Prop := pr_graph p = g.

Lemma collect_patterns_graph g teams acc : se_inv (graph_is g) (collect_patterns wall_now teams acc).
  Proof.
    revert acc. induction teams as [|t teams IH]; intros acc; [apply inv_ret|]. cbn [collect_patterns].
    apply inv_bind; [by intros p|]. intros now. apply inv_bind; [by intros p|]. intros g'. apply IH.
  Qed.

  (** An inference reads the graph only. *)
Lemma inference_graph g e : ev_event_type e = INFERENCE_REQUEST → se_inv (graph_is g) (run tt e).
  Proof.
    intros Ht. unfold run_processor, process, handler. rewrite Ht. unfold _handle_inference, _build_context.
    repeat (apply inv_bind; [|intros ?]); try (by intros p); try apply collect_patterns_graph.
    - intros p Hp. unfold call_hre. by destruct (resolve _ _ _ _ _ _ _ _ _) as [r h].
    - destruct (flt _ _); [|apply inv_ret]. unfold publish_result.
      repeat (apply inv_bind; [|intros ?]); try (by intros p); try apply inv_lift.
      intros p Hp. unfold call_index. by destruct (materialize_attribution _ _ _ _ _ _) as [r i].
  Qed.

Lemma inferences_graph handlers es (p : P) : Forall (λ e, ev_event_type e = INFERENCE_REQUEST) es →
    pr_graph (foldl (deliver run handlers) p es) = pr_graph p.
  Proof.
    intros Hes. revert p. induction Hes as [|e es He Hes IH]; intros p; [done|]. cbn [foldl]. rewrite IH.
    unfold deliver. generalize (topic_handlers handlers (topic_of e)). intros hs. revert p.
    induction hs as [|[] hs IHh]; intros p; [done|]. cbn [foldl]. rewrite IHh. by apply (inference_graph (pr_graph p) e He p).
  Qed.

Lemma demo_events_graph tick0 tick (p : P) : pr_graph p = seeded_graph tick0 →
    let g := pr_graph (foldl (deliver run (_handlers subscribed)) p (demo_events tick)) in
    get_stats g = (14, 13, 12, 1) ∧ is_Some (get_node g "deploy:deploy-code-intel-prod").
  Proof.
    intros Hg. cbn zeta. rewrite <- (take_drop 3 (demo_events tick)), foldl_app, inferences_graph by (repeat constructor).
    destruct p as [g h c i ps n t]. cbn [pr_graph] in Hg. subst g.
    split; [|eexists]; vm_compute; reflexivity.
  Qed.

  (** ** Lemmas: the entries in the index *)

  (** Materialization puts the entry last and keeps the other recent ones, while there is room. *)
Lemma materialize_recent now e (i : AttributionIndexStore R) pre post :
    1 <= max_entries icfg → index_wf icfg i → _index i = pre ++ post → ie_workload_id e ∉ od_keys post →
    Z.of_nat (length post) < max_entries icfg →
    ∃ v i' pre', IndexStore.materialize icfg now e i = (Ok tt, i') ∧ index_wf icfg i' ∧
      _index i' = pre' ++ post ++ [(ie_workload_id e, with_version e v now)].
  Proof.
    intros Hmax Hwf Hi Hn Hroom. unfold IndexStore.materialize.
    destruct (materialize_local_spec icfg now e i Hmax Hwf) as (i1 & -> & Hwf1 & _ & Hi1 & _).
    set (e' := with_version e _ now) in *. exists (next_version (ie_workload_id e) i), (_write_durable_entry icfg e' i1).
    fold e'. rewrite (proj1 (write_durable_local icfg e' i1)), Hi1.
    assert (after_insert e' i = od_del (ie_workload_id e) pre ++ post ++ [(ie_workload_id e, e')]) as Ha.
    { unfold after_insert. change (ie_workload_id e') with (ie_workload_id e).
      rewrite Hi, od_del_app_notin by done. by rewrite <- app_assoc. }
    rewrite Ha. destruct (Z.ltb_spec (max_entries icfg) (Z.of_nat (length (od_del (ie_workload_id e) pre ++ post ++ [(ie_workload_id e, e')]))))
      as [Hlt|_]; [|by eexists; split; [done|split; [by apply write_durable_wf|]]].
    destruct (od_del (ie_workload_id e) pre) as [|x pre']; [rewrite app_nil_l, length_app in Hlt; cbn in Hlt; lia|].
    exists pre'. split; [done|]. split; [by apply write_durable_wf|done].
  Qed.

Lemma materialize_all es : 1 <= max_entries icfg → ∀ (p : P) pre post,
    index_wf icfg (pr_index p) → _index (pr_index p) = pre ++ post →
    NoDup (od_keys post ++ map ie_workload_id es) → Z.of_nat (length post + length es) <= max_entries icfg →
    ∃ p' pre' entries, seed_all (materialize_entry wall_now icfg) es p = (Ok tt, p') ∧ index_wf icfg (pr_index p') ∧
      pr_graph p' = pr_graph p ∧ pr_hre p' = pr_hre p ∧ pr_calibration p' = pr_calibration p ∧
      _index (pr_index p') = pre' ++ post ++ entries ∧
      Forall2 (λ e kv, ∃ v t, kv = (ie_workload_id e, with_version e v t)) es entries.
  Proof.
    intros Hmax. induction es as [|e es IH]; intros p pre post Hwf Hi Hnd Hroom; cbn [seed_all].
    { exists p, pre, []. rewrite app_nil_r. split_and!; done. }
    destruct (materialize_recent (wall_now (pr_ticks p)) e (pr_index p) pre post Hmax Hwf Hi) as (v & i' & pre1 & Em & Hwf1 & Hi1).
    { apply NoDup_app in Hnd as (_ & Hd & _). intros Hin. apply (Hd _ Hin). by left. }
    { cbn in Hroom. lia. }
    rewrite (se_bind_ok _ _ _ tt (set_index i' (ticked 1 p))).
    2: { unfold materialize_entry. rewrite (se_bind_ok _ _ _ _ _ (read_now_run p)). unfold call_index. cbn [ticked pr_index]. by rewrite Em. }
    destruct (IH (set_index i' (ticked 1 p)) pre1 (post ++ [(ie_workload_id e, with_version e v (wall_now (pr_ticks p)))]) Hwf1 Hi1)
      as (p' & pre' & entries & -> & Hwf' & Hg & Hh & Hc & Hi' & Hes).
    { rewrite od_keys_app, <- app_assoc. exact Hnd. }
    { rewrite length_app. cbn in *. lia. }
    exists p', pre', ((ie_workload_id e, with_version e v (wall_now (pr_ticks p))) :: entries).
    split_and!; [done|by destruct Hwf'; apply conj|done|done|done|by rewrite Hi', <- app_assoc|]. constructor; [by eexists _, _|done].
  Qed.

  (** ** Lemmas: the whole bootstrap *)

Lemma on_processor_run {A} (m : SE P A) (a : A) (d : DemoState R) p' : m (dm_processor d) = (Ok a, p') →
    on_processor m d = (Ok a, mkDemo (dm_bus d) p').
  Proof. unfold on_processor. by intros ->. Qed.

Lemma at_ticks_wf {A} (f : A → instant → InMemoryGraphStore → InMemoryGraphStore) l : (∀ x now g, graph_wf g → graph_wf (f x now g)) →
    ∀ tick g, graph_wf g → graph_wf (at_ticks f tick l g).
  Proof. intros Hf. induction l as [|x l IH]; intros tick g Hg; [done|]. cbn [at_ticks]. by apply IH, Hf. Qed.

Lemma seeded_wf tick : graph_wf (seeded_graph tick).
  Proof.
    unfold seeded_graph. apply at_ticks_wf; [intros; by apply add_edge_wf|]. apply at_ticks_wf; [intros; by apply upsert_wf|]. apply init_wf.
  Qed.

Lemma clear_index (i : AttributionIndexStore R) : 1 <= max_entries icfg →
    index_wf icfg (IndexStore.clear icfg i) ∧ _index (IndexStore.clear icfg i) = [].
  Proof.
    intros Hmax. unfold IndexStore.clear. assert (index_wf icfg (clear_local i) ∧ _index (clear_local i) = []) as [Hw Hi].
    { split; [split_and!; simpl; [by apply od_wf_nil..|done|done|lia]|done]. }
    unfold clear_durable. by repeat case_match; simplify_eq.
  Qed.

  (** The state after the reset and the seeding of the graph. *)
Definition seeded_state (graph_present : bool) (p : P) : P :=
    let p := set_index (IndexStore.clear icfg (pr_index p)) p in
    if graph_present then ticked 60 (set_graph (seeded_graph (pr_ticks p)) p) else p.

Abbreviation bootstrap := (bootstrap_demo_state local_to_utc monotonic wall_now combination_config hre_cfg conf_config icfg mcfg
                             max_events tenant_id uuid).

Lemma bootstrap_unfold graph_present publishes (d : DemoState R) : clock_texts →
    bootstrap graph_present publishes true d =
    (let! published := (if publishes then let! counts := publish_events local_to_utc monotonic wall_now combination_config hre_cfg conf_config
                                            icfg mcfg max_events (demo_events (pr_ticks (seeded_state graph_present (dm_processor d)))) in
                                          se_ret counts.1 else se_ret 0) in
     on_processor (seed_all (materialize_entry wall_now icfg) demo_seed_entries);;;
     let! counts := se_get (λ d, graph_counts graph_present (dm_processor d)) in
     se_ret (mkDemoResult 3 (map ie_workload_id demo_seed_entries) published counts.1 counts.2))
    (mkDemo (dm_bus d) (let p := seeded_state graph_present (dm_processor d) in if publishes then ticked 7 p else p)).
  Proof.
    intros Hc. unfold bootstrap_demo_state. unfold se_bind at 1. cbn [se_get negb andb].
    set (p0 := set_index (IndexStore.clear icfg (pr_index (dm_processor d))) (dm_processor d)).
    assert (∃ p1, (on_processor (se_modify (λ p, set_index (IndexStore.clear icfg (pr_index p)) p));;;
                   (if graph_present then on_processor (se_modify (λ p, set_graph (GraphStore.clear (pr_graph p)) p)) else se_ret tt)) d
                  = (Ok tt, mkDemo (dm_bus d) p1) ∧
                  (if graph_present then on_processor (_seed_graph wall_now) else se_ret tt) (mkDemo (dm_bus d) p1)
                  = (Ok tt, mkDemo (dm_bus d) (seeded_state graph_present (dm_processor d)))) as (p1 & E1 & E2).
    { exists (if graph_present then set_graph InMemoryGraphStore_init p0 else p0).
      rewrite (se_bind_ok _ _ _ tt (mkDemo (dm_bus d) p0)) by done. destruct graph_present.
      - split; [done|]. unfold on_processor. cbn [dm_processor dm_bus]. by rewrite seed_graph_run.
      - done. }
    rewrite (se_bind_ok _ _ _ _ _ E1), (se_bind_ok _ _ _ _ _ E2).
    destruct publishes; [|done]. unfold se_bind at 1 2 3.
    rewrite (on_processor_run _ (demo_events (pr_ticks (seeded_state graph_present (dm_processor d))))
               _ (ticked 7 (seeded_state graph_present (dm_processor d)))) by (by apply demo_events_run).
    done.
  Qed.
End seeder_lemmas.

(** ** Properties *)

Section properties.
  Context {R : Type} `{RedisServer R} `{LuaText} `{EntryJson} `{SetOrder} `{NumLib} `{StrictFieldsLaws}.
  Context (local_to_utc : Z → instant) (monotonic : nat → pyfloat) (wall_now : nat → instant).
  Context (combination_config : CombinationConfig) (hre_cfg : HREExecutionConfig).
  Context (conf_config : ConfidenceConfig) (icfg : IndexConfig) (mcfg : MaterializerConfig).
  Context (max_events : nat) (tenant_id : string) (uuid : nat → string).

Abbreviation bootstrap graph_present publishes :=
    (bootstrap_demo_state local_to_utc monotonic wall_now combination_config hre_cfg conf_config icfg mcfg
       max_events tenant_id uuid graph_present publishes true).

Abbreviation publishing publishes p :=
    (if (publishes : bool) then
       let! counts := publish_events local_to_utc monotonic wall_now combination_config hre_cfg conf_config icfg mcfg max_events
                        (demo_events wall_now tenant_id uuid (pr_ticks p)) in se_ret counts.1
     else se_ret 0).

Lemma seeded_inv graph_present (p : Processor R) : 1 <= max_entries icfg → processor_inv monotonic hre_cfg icfg p →
    processor_inv monotonic hre_cfg icfg (seeded_state wall_now icfg graph_present p).
  Proof.
    intros Hmax (Hg & Hh & Hc & Hi). destruct (clear_index icfg (pr_index p) Hmax) as [Hw _].
    unfold seeded_state. destruct graph_present; refine (conj _ (conj Hh (conj Hc Hw))); [apply seeded_wf|done].
  Qed.

  (** From the published events to the end. *)
Lemma bootstrap_finish graph_present publishes (d : DemoState R) published b w :
    3 <= max_entries icfg → clock_texts wall_now →
    (let p := seeded_state wall_now icfg graph_present (dm_processor d) in
     publishing publishes p (mkDemo (dm_bus d) (if publishes then ticked 7 p else p)) = (Ok published, mkDemo b w)) →
    processor_inv monotonic hre_cfg icfg w →
    ∃ p', bootstrap graph_present publishes d
          = (Ok (mkDemoResult 3 (map ie_workload_id demo_seed_entries) published (graph_counts graph_present w).1
                              (graph_counts graph_present w).2), mkDemo b p') ∧
      pr_graph p' = pr_graph w ∧ processor_inv monotonic hre_cfg icfg p' ∧
      ∀ e, e ∈ demo_seed_entries → ∃ v t, od_get (ie_workload_id e) (_index (pr_index p')) = Some (with_version e v t).
  Proof.
    cbn zeta. intros Hmax Hclock Ep (Hg & Hh & Hc & Hi). assert (1 <= max_entries icfg) as Hmax1 by lia.
    rewrite bootstrap_unfold by done. rewrite (se_bind_ok _ _ _ _ _ Ep).
    destruct (materialize_all wall_now icfg demo_seed_entries Hmax1 w (_index (pr_index w)) [])
      as (p' & pre & entries & Em & Hi' & Eg & Eh & Ec & Ex & Hes);
      [done|by rewrite app_nil_r|apply (bool_decide_unpack _); by vm_compute|cbn; lia|].
    rewrite (se_bind_ok _ _ _ tt (mkDemo b p')) by (by apply on_processor_run).
    exists p'. split; [|split; [done|split]].
    - unfold se_bind, se_get, se_ret. cbn [dm_processor]. unfold graph_counts. by rewrite Eg.
    - by refine (conj _ (conj _ (conj _ Hi'))); rewrite ?Eg, ?Eh, ?Ec.
    - intros e He. apply list_elem_of_lookup in He as [n He].
      destruct (Forall2_lookup_l _ _ _ _ _ Hes He) as (kv & Hkv & v & t & ->).
      exists v, t. apply od_in_get; [apply Hi'|]. rewrite Ex. cbn [app]. apply elem_of_app. right. by eapply list_elem_of_lookup_2.
  Qed.

(** C13. The demo bootstrap with reset always completes, from any state the components can
    be in and whatever events the bus has seen: every invariant of the processor's components
    holds afterwards, and each workload of the seed is in the index with the seed's entry -
    also when the handlers of the published events attributed it otherwise before - under some
    version and time. *)
Theorem demo_bootstrap_completes (graph_present publishes : bool) (history : list DomainEvent) (d : DemoState R)
    (Hcap : unit_itv (cap combination_config) = true) (Hhre : (0 <= cache_max_entries hre_cfg)%Z)
    (Hconf : unit_itv (cc_cap conf_config) = true) (Hmax : 3 <= max_entries icfg) (Hclock : clock_texts wall_now)
    (Hbus : bus_ok max_events history (dm_bus d)) (Hinv : processor_inv monotonic hre_cfg icfg (dm_processor d)) :
    ∃ r d', bootstrap graph_present publishes d = (Ok r, d') ∧
      db_seeded_entries r = 3 ∧ db_workloads r = map ie_workload_id demo_seed_entries ∧ 0 <= db_events_published r <= 6 ∧
      processor_inv monotonic hre_cfg icfg (dm_processor d') ∧
      ∀ e, e ∈ demo_seed_entries → ∃ v t, od_get (ie_workload_id e) (_index (pr_index (dm_processor d'))) = Some (with_version e v t).
  Proof.
    assert (1 <= max_entries icfg) as Hmax1 by lia.
    pose proof (seeded_inv graph_present (dm_processor d) Hmax1 Hinv) as Hp.
    set (p := seeded_state wall_now icfg graph_present (dm_processor d)) in *.
    assert (∃ published b w, publishing publishes p (mkDemo (dm_bus d) (if publishes then ticked 7 p else p)) = (Ok published, mkDemo b w) ∧
        0 <= published <= 6 ∧ processor_inv monotonic hre_cfg icfg w) as (published & b & w & Ep & Hpub & Hw).
    { destruct publishes; [|by exists 0, (dm_bus d), p].
      destruct (batch_returns local_to_utc monotonic wall_now combination_config hre_cfg conf_config icfg mcfg max_events
        (processor_inv monotonic hre_cfg icfg) (demo_events wall_now tenant_id uuid (pr_ticks p))
        (λ e, keeps_process local_to_utc monotonic wall_now combination_config hre_cfg conf_config icfg mcfg Hcap Hhre Hconf Hmax1 e)
        history 0 0 (dm_bus d) (ticked 7 p) Hbus) as (p' & d' & b' & w' & E & Hb & Hw).
      - by apply (events_valid wall_now tenant_id uuid (wall_now (pr_ticks p))).
      - exact Hp.
      - exists p', b', w'. split; [|split; [exact Hb|exact Hw]]. unfold se_bind, publish_events, publish_batch. cbn [dm_bus dm_processor].
        by rewrite E. }
    destruct (bootstrap_finish graph_present publishes d published b w Hmax Hclock Ep Hw) as (p' & E & _ & Hp' & He).
    eexists _, _. split; [exact E|]. do 2 (split; [done|]). split; [exact Hpub|]. split; [exact Hp'|exact He].
  Qed.

(** The bootstrap is not repeatable: on a fresh bus the first one publishes all six
    events, and their handlers add a deployment node and three edges to the graph; every later one
    publishes nothing, since the bus still holds the fixed keys, but clears the graph all the
    same, so what the events contributed is gone. *)
Theorem demo_bootstrap_not_repeatable (d : DemoState R)
    (Hcap : unit_itv (cap combination_config) = true) (Hhre : (0 <= cache_max_entries hre_cfg)%Z)
    (Hconf : unit_itv (cc_cap conf_config) = true) (Hmax : 3 <= max_entries icfg) (Hclock : clock_texts wall_now)
    (Hwindow : (3 <= max_events)%nat) (Hfresh : dm_bus d = subscribed)
    (Hinv : processor_inv monotonic hre_cfg icfg (dm_processor d)) :
    ∃ r1 d1 r2 d2, bootstrap true true d = (Ok r1, d1) ∧ bootstrap true true d1 = (Ok r2, d2) ∧
      db_events_published r1 = 6 ∧ db_graph_nodes r1 = 14 ∧ db_graph_edges r1 = 13 ∧
      is_Some (get_node (pr_graph (dm_processor d1)) "deploy:deploy-code-intel-prod") ∧
      db_events_published r2 = 0 ∧ db_graph_nodes r2 = 13 ∧ db_graph_edges r2 = 10 ∧
      get_node (pr_graph (dm_processor d2)) "deploy:deploy-code-intel-prod" = None.
  Proof.
    assert (1 <= max_entries icfg) as Hmax1 by lia.
    destruct d as [b0 p0]. cbn [dm_bus dm_processor] in *. subst b0.
    set (p := seeded_state wall_now icfg true p0).
    set (events1 := demo_events wall_now tenant_id uuid (pr_ticks p)).
    assert (bus_ok max_events [] subscribed) as Hbus.
    { split_and!; [|done|done]. split_and!; cbn; [done|constructor|set_solver]. }
    assert (∀ t, Forall (λ e, validate_domain_event e = Ok tt) (demo_events wall_now tenant_id uuid t)) as Hv
      by (intros t; by apply (events_valid wall_now tenant_id uuid (wall_now t))).
    destruct (batch_fresh local_to_utc monotonic wall_now combination_config hre_cfg conf_config icfg mcfg max_events
      events1 [] 0 0 subscribed (ticked 7 p)) as (b1 & E1 & Hb1 & Hh1); [cbn; lia|exact (demo_keys_distinct tenant_id)|done|apply Hv|].
    set (w1 := foldl _ (ticked 7 p) events1) in E1.
    assert (processor_inv monotonic hre_cfg icfg w1) as Hw1.
    { apply deliveries_keep; [|exact (seeded_inv true _ Hmax1 Hinv)]. intros e. by apply keeps_process. }
    destruct (demo_events_graph local_to_utc monotonic wall_now combination_config hre_cfg conf_config icfg mcfg tenant_id uuid
      (pr_ticks p0) (pr_ticks p) (ticked 7 p) eq_refl) as [Hs1 Hd1].
    destruct (bootstrap_finish true true (mkDemo subscribed p0) 6 b1 w1 Hmax Hclock) as (p1 & B1 & G1 & Hp1 & _).
    { cbn zeta. cbn [dm_processor dm_bus]. fold p. fold events1. unfold se_bind, publish_events, publish_batch. cbn [dm_bus dm_processor]. rewrite E1. done. }
    { done. }
    set (q := seeded_state wall_now icfg true p1).
    set (events2 := demo_events wall_now tenant_id uuid (pr_ticks q)).
    destruct (batch_seen local_to_utc monotonic wall_now combination_config hre_cfg conf_config icfg mcfg max_events events2 events1)
      with (p := 0) (d := 0) (b := b1) (w := ticked 7 q) as (b2 & E2 & _ & _); [|done|apply Hv|].
    { unfold list_last_n. change (length events1) with 6%nat. replace (6 - 2 * max_events)%nat with 0%nat by lia. rewrite drop_0.
      apply Forall_forall. intros e He. change (map dedup_key events1) with (map dedup_key events2). by apply list_elem_of_fmap_2. }
    destruct (bootstrap_finish true true (mkDemo b1 p1) 0 b2 (ticked 7 q) Hmax Hclock) as (p2 & B2 & G2 & _ & _).
    { cbn zeta. cbn [dm_processor dm_bus]. fold q. fold events2. unfold se_bind, publish_events, publish_batch. cbn [dm_bus dm_processor].
      rewrite E2. done. }
    { exact (seeded_inv true _ Hmax1 Hp1). }
    eexists _, _, _, _. split; [exact B1|]. split; [exact B2|]. cbn [db_events_published db_graph_nodes db_graph_edges dm_processor].
    rewrite G1, G2. unfold graph_counts. fold events1 in Hs1, Hd1. fold w1 in Hs1, Hd1. rewrite Hs1.
    change (pr_graph (ticked 7 q)) with (seeded_graph wall_now (pr_ticks p1)). rewrite seeded_counts.
    split_and!; try done.
  Qed.
End properties.

(** ** Witnesses *)

Definition demo_icfg : IndexConfig := mkIndexConfig 10 "aci:index" 1800.

Definition demo_state : DemoState MemServer := mkDemo subscribed (Processor_init None PolicyEngine_init).

Abbreviation sample_bootstrap :=
  (@bootstrap_demo_state MemServer MemRedis UnaryText WorkloadJson insertion_order step_numlib DocumentedStrict id (λ _, f0) (λ _, 0)
     default_combination_config default_execution_config default_confidence_config demo_icfg default_materializer_config
     3 "acme" (λ n, "event") true true true).

Lemma demo_clock : clock_texts (λ _, 0).
Proof. intros n. apply Nat.leb_le. vm_compute. reflexivity. Qed.

Lemma demo_state_inv : processor_inv (λ _, f0) default_execution_config demo_icfg (dm_processor demo_state).
Proof. by apply processor_inv_init. Qed.

Lemma demo_bus_ok : bus_ok 3 [] (dm_bus demo_state).
Proof. split_and!; [|done|done]. split_and!; cbn; [done|constructor|set_solver]. Qed.

Lemma demo_bootstrap_completes_witness :
  ∃ r d' e, sample_bootstrap demo_state = (Ok r, d') ∧ db_seeded_entries r = 3 ∧
    od_get "analytics-batch" (_index (pr_index (dm_processor d'))) = Some e ∧ ie_team_id e = "team-data-science".
Proof.
  destruct (@demo_bootstrap_completes MemServer MemRedis UnaryText WorkloadJson insertion_order step_numlib DocumentedStrict DocumentedStrictLaws
    id (λ _, f0) (λ _, 0) default_combination_config default_execution_config default_confidence_config demo_icfg default_materializer_config
    3 "acme" (λ n, "event") true true [] demo_state) as (r & d' & E & Hn & _ & _ & _ & He);
    [vm_compute; reflexivity|vm_compute; discriminate|vm_compute; reflexivity|vm_compute; discriminate|exact demo_clock|exact demo_bus_ok|exact demo_state_inv|].
  destruct (He (nth 1 demo_seed_entries (example_entry ""))) as (v & t & Hg); [by right; left|].
  exists r, d'. eexists. split; [exact E|]. split; [exact Hn|]. split; [exact Hg|done].
Defined.

Lemma demo_bootstrap_not_repeatable_witness :
  ∃ r1 d1 r2 d2, sample_bootstrap demo_state = (Ok r1, d1) ∧ sample_bootstrap d1 = (Ok r2, d2) ∧
    db_graph_nodes r1 = 14 ∧ db_graph_nodes r2 = 13.
Proof.
  destruct (@demo_bootstrap_not_repeatable MemServer MemRedis UnaryText WorkloadJson insertion_order step_numlib DocumentedStrict DocumentedStrictLaws
    id (λ _, f0) (λ _, 0) default_combination_config default_execution_config default_confidence_config demo_icfg default_materializer_config
    3 "acme" (λ n, "event") demo_state) as (r1 & d1 & r2 & d2 & E1 & E2 & _ & N1 & _ & _ & _ & N2 & _);
    [vm_compute; reflexivity|vm_compute; discriminate|vm_compute; reflexivity|vm_compute; discriminate|exact demo_clock|done|reflexivity|exact demo_state_inv|].
  exists r1, d1, r2, d2. exact (conj E1 (conj E2 (conj N1 N2))).
Defined.
