(* ===== verification/Lifecycle.v ===== *)
(** * Start and stop of the service (src/aci/api/runtime.py, src/aci/api/app.py)

    The life of the application state: attached to the application once, started before the
    first request and stopped after the last. The components are seen through what the runtime
    calls of them; the Neo4j and Kafka backends are one instance. *)

From S2P Require Import Prelude PyFloat PyData PyTime PyValue PyIso PyText PyIsoText PyJson Models GraphStore Neo4jStore EventBus.
From Stdlib Require Import ZArith Lia.
From stdpp Require Import base list gmap sets strings.

Open Scope string_scope.
Open Scope list_scope.
Open Scope Z_scope.
Open Scope py_scope.

(** ** The application state of an application *)

(** [app.state.platform_state]: missing, the state, or something else. *)
Inductive attached (S : Type) := NoState | State (s : S) | Foreign.
Arguments NoState {S}.
Arguments State {S} _.
Arguments Foreign {S}.

(** [ensure_app_state]; [make] is [AppState()]. The lock makes the check and the attachment
    one step. *)
Definition ensure_app_state {S} (make : res S) (a : attached S) : res S * attached S :=
  match a with
  | State s => (Ok s, a)
  | Foreign => (Raise TypeError, a)
  | NoState => match make with Ok s => (Ok s, State s) | Raise e => (Raise e, NoState) end
  end.

(** Every later request sees the state that the first one made, whatever would be made now. *)
Lemma ensure_app_state_once {S} (make : res S) (a a' : attached S) s (later : list (res S)) :
  ensure_app_state make a = (Ok s, a') → Forall (λ m, ensure_app_state m a' = (Ok s, a')) later.
Proof.
  intros E. assert (a' = State s) as -> by (destruct a, make; naive_solver). apply Forall_true. done.
Qed.

(** ** Life *)

Record Running (G B I L : Type) := mkRunning {
  run_graph : option G;
  run_bus : B;
  run_interceptor : I;
  run_limiter : L;
  run_demo : bool;
}.
Arguments mkRunning {G B I L} _ _ _ _ _.
Arguments run_graph {G B I L} _.
Arguments run_bus {G B I L} _.
Arguments run_interceptor {G B I L} _.
Arguments run_limiter {G B I L} _.
Arguments run_demo {G B I L} _.

(** What the runtime asks of its components; [demo_bootstrap] is [bootstrap_demo_state] with
    [reset_existing=False]. *)
Class RuntimeParts (G B I L : Type) := {
  graph_start : SE G unit;
  graph_close : SE G unit;
  bus_start : SE B unit;
  bus_stop : SE B unit;
  interceptor_shutdown : SE I unit;
  limiter_close : SE L unit;
  demo_bootstrap : SE (Running G B I L) unit;
}.

Section life.
  Context {G B I L : Type} `{RuntimeParts G B I L}.
  Abbreviation St := (Running G B I L).

Definition on_graph_part (m : SE G unit) : SE St unit := λ s,
    match run_graph s with
    | None => (Ok tt, s)
    | Some g => let '(r, g) := m g in
                (r, mkRunning (Some g) (run_bus s) (run_interceptor s) (run_limiter s) (run_demo s))
    end.

Definition on_bus_part (m : SE B unit) : SE St unit := λ s,
    let '(r, b) := m (run_bus s) in (r, mkRunning (run_graph s) b (run_interceptor s) (run_limiter s) (run_demo s)).

Definition on_interceptor_part (m : SE I unit) : SE St unit := λ s,
    let '(r, i) := m (run_interceptor s) in (r, mkRunning (run_graph s) (run_bus s) i (run_limiter s) (run_demo s)).

Definition on_limiter_part (m : SE L unit) : SE St unit := λ s,
    let '(r, l) := m (run_limiter s) in (r, mkRunning (run_graph s) (run_bus s) (run_interceptor s) l (run_demo s)).

  (** [AppState.start] *)
Definition app_start : SE St unit :=
    on_graph_part graph_start;;;
    on_bus_part bus_start;;;
    let! demo := se_get run_demo in
    if demo then demo_bootstrap else se_ret tt.

  (** [AppState.stop] *)
Definition app_stop : SE St unit :=
    on_interceptor_part interceptor_shutdown;;;
    on_bus_part bus_stop;;;
    on_limiter_part limiter_close;;;
    on_graph_part graph_close.

  (** [lifespan] around the requests. *)
Definition lifespan (serve : SE St unit) : SE St unit := app_start;;; serve;;; app_stop.

(** The life of the service is not exception-safe: when the bus does not start, the service
    does not either and nothing is stopped, so the graph stays started as it was left; when the
    bus does not stop, neither the limiter nor the graph is closed. *)
Theorem lifespan_failure_leaves_graph (serve : SE St unit) (s : St) (g g1 : G) (b b1 : B) (e : exn)
    (Hgraph : run_graph s = Some g) (Hstart : graph_start g = (Ok tt, g1)) :
    (bus_start (run_bus s) = (Raise e, b1) →
     lifespan serve s = (Raise e, mkRunning (Some g1) b1 (run_interceptor s) (run_limiter s) (run_demo s))) ∧
    (∀ s1 i, app_start s = (Ok tt, s1) → ∀ s2, serve s1 = (Ok tt, s2) →
     interceptor_shutdown (run_interceptor s2) = (Ok tt, i) → bus_stop (run_bus s2) = (Raise e, b) →
     lifespan serve s = (Raise e, mkRunning (run_graph s2) b i (run_limiter s2) (run_demo s2))).
  Proof.
    split.
    - intros Hb. unfold lifespan, app_start.
      set (s1 := mkRunning (Some g1) (run_bus s) (run_interceptor s) (run_limiter s) (run_demo s)).
      assert (on_graph_part graph_start s = (Ok tt, s1)) as Eg by (unfold on_graph_part; by rewrite Hgraph, Hstart).
      assert (on_bus_part bus_start s1 = (Raise e, mkRunning (Some g1) b1 (run_interceptor s) (run_limiter s) (run_demo s))) as Eb
        by (unfold on_bus_part; cbn [run_bus s1]; by rewrite Hb).
      unfold se_bind at 1. rewrite (se_bind_ok _ _ _ _ _ Eg). unfold se_bind at 1. by rewrite Eb.
    - intros s1 i Hs s2 Hv Hi Hb. unfold lifespan. rewrite (se_bind_ok _ _ _ _ _ Hs), (se_bind_ok _ _ _ _ _ Hv).
      unfold app_stop. set (s3 := mkRunning (run_graph s2) (run_bus s2) i (run_limiter s2) (run_demo s2)).
      rewrite (se_bind_ok _ _ _ tt s3) by (unfold on_interceptor_part; by rewrite Hi).
      unfold se_bind at 1. unfold on_bus_part at 1. cbn [run_bus s3]. by rewrite Hb.
  Qed.

(** With components that start and stop, the service runs its requests between a start that
    leaves every component started and a stop that closes them in the reverse order of need:
    the interceptor is drained and the bus stopped before the limiter and the graph close. *)
Theorem lifespan_completes (serve : SE St unit) (s s2 : St) (g g1 g2 : G) (b1 b2 : B) (i2 : I) (l2 : L)
    (Hgraph : run_graph s = Some g ∧ run_demo s = false) (Hstart : graph_start g = (Ok tt, g1) ∧ bus_start (run_bus s) = (Ok tt, b1))
    (Hserve : serve (mkRunning (Some g1) b1 (run_interceptor s) (run_limiter s) false) = (Ok tt, s2) ∧ run_graph s2 = Some g2)
    (Hstop : interceptor_shutdown (run_interceptor s2) = (Ok tt, i2) ∧ bus_stop (run_bus s2) = (Ok tt, b2) ∧
             limiter_close (run_limiter s2) = (Ok tt, l2)) :
    lifespan serve s = ((graph_close g2).1, mkRunning (Some (graph_close g2).2) b2 i2 l2 (run_demo s2)).
  Proof.
    destruct Hgraph as [Hg Hd], Hstart as [H1 H2], Hserve as [H3 H4], Hstop as (H5 & H6 & H7).
    assert (app_start s = (Ok tt, mkRunning (Some g1) b1 (run_interceptor s) (run_limiter s) false)) as Ea.
    { unfold app_start, on_graph_part, on_bus_part, se_bind, se_get. rewrite Hg, H1. cbn [run_bus run_demo run_graph run_interceptor run_limiter]. by rewrite H2, Hd. }
    unfold lifespan. rewrite (se_bind_ok _ _ _ _ _ Ea), (se_bind_ok _ _ _ _ _ H3).
    unfold app_stop, se_bind, on_interceptor_part, on_bus_part, on_limiter_part, on_graph_part.
    rewrite H5. cbn [run_bus run_demo run_graph run_interceptor run_limiter]. rewrite H6. cbn [run_bus run_demo run_graph run_interceptor run_limiter].
    rewrite H7. cbn [run_bus run_demo run_graph run_interceptor run_limiter]. rewrite H4. by destruct (graph_close g2).
  Qed.
End life.

(** ** The durable backends *)

(** The Neo4j graph and the Kafka bus; draining the tasks of the interceptor, closing the
    limiter's client and the demo data are left to the argument. *)
Section durable.
  Context {D H I K J L : Type} `{Neo4jServer D} `{KafkaBroker K} (cfg : KafkaConfig).
  Context (drain : SE J unit) (close_client : SE L unit) (demo : SE (Running (Neo4jGraphStore D) (KafkaEventBus H I K) J L) unit).

Definition durable_parts : RuntimeParts (Neo4jGraphStore D) (KafkaEventBus H I K) J L := {|
    graph_start := Neo4jStore.start;
    graph_close := Neo4jStore.close;
    bus_start := EventBus.start cfg;
    bus_stop := EventBus.stop;
    interceptor_shutdown := drain;
    limiter_close := close_client;
    demo_bootstrap := demo;
  |}.
End durable.

(** ** Witnesses *)

(** A bus that starts and stops as told, and parts that do nothing. *)
Record switch_bus := mkSwitch { starts_ok : bool; stops_ok : bool; bus_running : bool }.

Definition switch_start : SE switch_bus unit := λ b,
  if starts_ok b then (Ok tt, mkSwitch (starts_ok b) (stops_ok b) true) else (Raise OtherError, b).

Definition switch_stop : SE switch_bus unit := λ b,
  if stops_ok b then (Ok tt, mkSwitch (starts_ok b) (stops_ok b) false) else (Raise OtherError, b).

#[export] Instance switch_parts : RuntimeParts (Neo4jGraphStore neo_graph) switch_bus unit unit := {|
  graph_start := Neo4jStore.start;
  graph_close := Neo4jStore.close;
  bus_start := switch_start;
  bus_stop := switch_stop;
  interceptor_shutdown := se_ret tt;
  limiter_close := se_ret tt;
  demo_bootstrap := se_ret tt;
|}.

Definition stopped_with (b : switch_bus) : Running (Neo4jGraphStore neo_graph) switch_bus unit unit :=
  mkRunning (Some (Neo4jGraphStore_init empty_neo)) b tt tt false.

Lemma lifespan_failure_leaves_graph_witness :
  (∃ s, lifespan (se_ret tt) (stopped_with (mkSwitch false true false)) = (Raise OtherError, s) ∧
        driver <$> run_graph s = Some true) ∧
  (∃ s, lifespan (se_ret tt) (stopped_with (mkSwitch true false false)) = (Raise OtherError, s) ∧
        driver <$> run_graph s = Some true).
Proof.
  split; eexists; split.
  - apply (proj1 (@lifespan_failure_leaves_graph _ _ _ _ switch_parts (se_ret tt) (stopped_with (mkSwitch false true false))
      (Neo4jGraphStore_init empty_neo) (mkStore true (mkNeo [] [] true true)) (mkSwitch false true false)
      (mkSwitch false true false) OtherError eq_refl eq_refl)). reflexivity.
  - reflexivity.
  - apply (proj2 (@lifespan_failure_leaves_graph _ _ _ _ switch_parts (se_ret tt) (stopped_with (mkSwitch true false false))
      (Neo4jGraphStore_init empty_neo) (mkStore true (mkNeo [] [] true true)) (mkSwitch true false true)
      (mkSwitch true false false) OtherError eq_refl eq_refl)
      (mkRunning (Some (mkStore true (mkNeo [] [] true true))) (mkSwitch true false true) tt tt false) tt eq_refl
      (mkRunning (Some (mkStore true (mkNeo [] [] true true))) (mkSwitch true false true) tt tt false)); reflexivity.
  - reflexivity.
Defined.

Lemma lifespan_completes_witness :
  lifespan (se_ret tt) (stopped_with (mkSwitch true true false))
  = (Ok tt, mkRunning (Some (mkStore false (mkNeo [] [] true true))) (mkSwitch true true false) tt tt false).
Proof.
  apply (@lifespan_completes _ _ _ _ switch_parts (se_ret tt) (stopped_with (mkSwitch true true false))
    (mkRunning (Some (mkStore true (mkNeo [] [] true true))) (mkSwitch true true true) tt tt false)
    (Neo4jGraphStore_init empty_neo) (mkStore true (mkNeo [] [] true true)) (mkStore true (mkNeo [] [] true true))
    (mkSwitch true true true) (mkSwitch true true false) tt tt); repeat split.
Defined.
